(* ===== verification/_CoqProject ===== *)
-Q . S2P
Prelude.v
PyStr.v
DecText.v
Float64.v
FloatErr.v
PyVal.v
PyNet.v
UrlText.v
Dates.v
DateText.v
CveRow.v
AssetMatch.v
Environment.v
Risk.v
Threat.v
Priority.v
Ssvc.v
Cpe.v
StackAssets.v
Ssrf.v
QueueTasks.v
Pacing.v
ApiQueue.v
Resilient.v
RateLimit.v
LlmRouter.v
Webhooks.v
Campaigns.v
CorrScore.v
Sha256.v
UnionFind.v
PulseFamilies.v
Wallboard.v
Catchup.v
AuthDb.v
AuthRoutes.v
AuthGate.v
IpText.v
Ioc.v
PulseStore.v
Confidence.v
SourceEvidence.v
Blocklist.v
Csv.v
Export.v
InfraStore.v
IocGraph.v
CampaignStore.v
Temporal.v
Engine.v
Nightly.v
NvdParse.v
CveRecord.v
CveStore.v
CveFlags.v
NvdSync.v
DetClass.v
Sigma.v
Siem.v
Artifacts.v
Compose.v
Mirror.v
Backfill.v
Tracking.v
Watchlist.v
Preferences.v
Config.v
Notify.v
