(* ===== verification/Prelude.v ===== *)
(** * A verification development for briefr's backend

    briefr collects CVE records, threat feeds and indicators, scores them against
    the assets of an organisation, correlates them into campaigns and notifies
    people.  This library models the decision code of [src/backend] as executable
    definitions and proves what each component promises its callers.

    ** Layers

    - Language and standard library.  This file: the result type of fallible code
      ([res]: a value or the exception class that escapes), its bind, loops, list
      lemmas and tactics.  [PyStr], [DecText]: text methods.  [PyVal]: dynamically
      typed values and dicts.  [Float64], [FloatErr]: floats as rationals rounded
      to the binary64 grid, with error bounds.  [Dates], [DateText]: calendar,
      [datetime], ISO parsing and the printed time stamps.  [PyNet], [UrlText], [IpText]:
      [ipaddress] and [urllib.parse].  [Csv]: the [csv] writer and reader.
      [Sha256]: hashlib and hmac.
    - Scoring of one CVE.  [CveRow] (rows and profiles), [AssetMatch] and
      [Environment] (scoring/asset_match.py, environment.py: which tier of
      relevance an asset profile gives), [Threat] (scoring/threat.py), [Risk]
      (scoring/risk.py), [Priority] (scoring/priority.py, which combines threat
      band, environment tier and correlation), [Ssvc] (scoring/ssvc.py), [Cpe]
      (matching/cpe.py), [StackAssets] (preferences/validate.py,
      matching/stack_assets.py).
    - Correlation.  [CorrScore] (correlation/attribution.py, priority.py),
      [Campaigns] (correlation/lifecycle.py, hub_suppress.py, config.py),
      [UnionFind] and [PulseFamilies] (correlation/pulse_families.py).  [IocGraph]
      (correlation/ioc_graph.py, confirm.py) finds the CVEs that share indicators,
      [CampaignStore] (campaigns.py, suppressions.py) turns families into the stored
      campaigns and those shown for a CVE, [Temporal] finds the vendors with unusually
      many CVEs, [Engine] (correlation/engine.py, routers/cves/intel.py) composes the
      answer of a CVE with its cache, snapshots and dismissals, and [Nightly] runs the
      phases of a night on a connection with its commits and rollbacks, any of which
      may raise.
    - Store of CVEs.  [NvdParse] (feeds/nvd.py, enrichment/cve.py) reads an item of
      NVD, [CveRecord] (feeds/cve_record_v5.py) a record of CVE JSON 5, [CveStore]
      (db/cve.py, db/enrichment.py) has every write to the table and its history,
      [CveFlags] follows the exploitation flags over any run of the writes, and
      [NvdSync] (feeds/nvd.py, db/sync_state.py, the NVD job of scheduler.py) fetches
      the pages of a window through [ApiQueue] and stores them under the watermark.
    - Indicators.  [Ioc] (correlation/ioc_normalize.py) gives an indicator its
      canonical value and edge key, [PulseStore] (db/correlation.py) stores the
      indicators of a pulse under them, [SourceEvidence]
      (correlation/source_evidence.py, sources/registry.py) joins edges with the
      rows of the catalogue mirror, and [Confidence] (correlation/confidence.py,
      freshness.py) grades an edge from its type, age and corroboration.
      [InfraStore] (db/blocklist.py, blocklist/tranco_sync.py and the admin
      routes) keeps the infrastructure classifications; [Blocklist]
      (blocklist/build.py, classify.py) puts all of these together into the
      export, which [Export] (blocklist/serialize.py) prints as text and CSV.
      [Mirror] (feeds/threatfox.py and its siblings, db/ti_mirror.py, the sync of
      sources/registry.py) reads the catalogue feeds into the mirror's table.
    - Detection content.  [DetClass] (detection/class_router.py, context.py)
      names the class of a CVE, [Artifacts] (artifact payloads and their tokens),
      [Sigma] (sigma_generator.py, with its shared templates as state), [Siem]
      (siem_queries.py, class_queries.py, yara_generator.py) and [Compose]
      (composer.py) build the rules and queries an analyst exports.
    - Outbound traffic.  [Pacing] (source_rate_limits.py, ai/llm_pacing.py) gives
      each source its interval; [ApiQueue] (api_queue.py) is the queue whose slots
      [Resilient] (resilient_client.py) takes around each attempt; [QueueTasks]
      (api_queue_operations.py) labels them; [Ssrf] (webhooks/ssrf.py) guards
      webhook deliveries; [Webhooks] (webhooks/destinations.py, engine.py and the
      claims of db/webhooks.py) dispatches events; [LlmRouter] (ai/llm_router.py
      and its catalogues, session and recorder) fails over between providers.
    - Access and operation.  [RateLimit] (rate_limit.py, rate_limit_store.py),
      [Wallboard] (wallboard/token_store.py, session.py and the gate of
      dependencies.py), [Catchup] (catchup_mode.py), [Tracking] (tracking.py: the
      counts of API calls and the quota test), [Backfill] (db/stack_backfill.py and
      its worker: the jobs that load the CVEs of a stack).  [AuthDb] (auth/repo.py,
      usernames.py, passwords.py: the tables users and sessions), [AuthRoutes]
      (routers/auth.py) and [AuthGate] (auth_middleware.py, the dependencies of
      protected routes, db/search_tokens.py).
    - Settings of users and operators.  [Watchlist] (watchlist/policy.py,
      db/watchlist.py and its routes), [Preferences] (preferences/repo.py,
      display_validate.py, routers/me.py), [Config] (config_schema.py, redact.py,
      operator_settings.py, routers/admin/config.py: the environment, the stored
      settings and what the settings page shows), [Notify]
      (db/user_notifications.py, notifications/emit.py, the job record of
      scheduler.py and routers/notifications_me.py), which asks [Preferences] for
      a user's mutes and [Config] to mask the errors it quotes.

    ** State and effects

    Module-level dicts and dataclasses are fields of a [Record] passed through the
    operations.  A coroutine is cut at its awaits: each stretch between two of
    them is one operation of [ApiQueue] and one step of a worker of [Webhooks],
    and theorems quantify over every interleaving of the steps.  What the outside
    does (an HTTP answer, a clock reading, a DNS lookup, a claim in a table) is an
    argument of the step that meets it; the loops of [Ssrf], [Resilient] and
    [LlmRouter] return the trace of effects they caused.  Dicts keep insertion
    order where the code reads it.  Objects shared between a coroutine and a dict
    live in a heap ([ApiQueue.objects]).  The claims table of [Webhooks], its clock
    and its deletes are the class [ClaimStore] with its laws, with one instance.  A table is a list of rows in
    the order of insertion, an SQL statement the function of that list it denotes;
    a request reads the clock once.

    ** What the theorems show

    - Scores: [Threat] and [Risk] refine the exact formulas up to a stated float
      error and stay within 0..100; [Priority] is monotone in threat and
      environment; [Environment] equals the documented tiers of ADR-002 on the
      fuzzy tiers; [Cpe] orders dotted releases as tuples; [Ssvc] gives ACT exactly
      for active exploitation with high impact.
    - Correlation: the rebuild of pulse families always returns, its families are
      the connected components of the documented similarity, and the rows written
      do not depend on the order in which Python iterates a set; campaign
      lifecycles read the evidence as documented; correlation priority stays
      within 0..100.  After a rebuild the campaigns in force are the families,
      and every night keeps the tables sound, whichever phases raise, and leaves no
      cached answer when it returns; a dismissed finding stays out of the answers computed from the tables; the
      vendors in doubles are those of the rule in exact fractions.
    - Store of CVEs: a refresh that brings nothing new records no change, an
      enrichment never lowers what a row says, the announcements of an exploited CVE,
      those purged from the history included, are accounted for by its flag, its
      deletions and its repetitions in one refresh, the daily snapshot ends and takes every
      scored row, and everything NVD has from one watermark (or the last 120 days)
      to the next is stored, whatever the cap on the CVEs of one run.
    - Indicators: the level of an edge refines a rule over exact products within
      the accuracy of the logarithm and the power; corroboration never lowers a
      level; suppression of shared hosts is a filter on host matches; every listed
      domain has a catalogue row, no classified host is listed as a domain, each
      candidate appears once, and the CSV export reads back as the rows of the
      eligible records, without a formula in its type and value columns.
    - Queue, circuits and failover as state machines: slots are conserved over
      every reachable state, the circuit is open exactly after the configured run
      of failures, the router returns the first answer in its chain and audits
      every attempt, a dispatch delivers each alert to a destination at most once
      under every interleaving, the clean-up of claims and of the delivery log
      beside it, except for the events counted in [Webhooks.excuses], and a retry
      reaches only those that failed.
    - Safety: the host of every outbound webhook URL, parsed again, is an address
      that passed the check; client keys of direct clients cannot be forged; revoked wallboard
      tokens stay out; buckets and pauses are bounded; a replayed refresh token ends every
      session of its user, and live sessions outnumber the logins only by the
      refreshes that were overtaken by another; routes
      outside the public table need an account.
    - Histories: over every sequence of requests, writes and clock readings, an API
      call is counted once whatever the flushes do, a run of the backfill is held
      by one worker at a time and a product it calls done has every page stored,
      integer settings stay within their bounds, a deleted destination is not
      brought back by a restart, a user has at most one notification under a key,
      and no request touches the rows of another user.
    - Round trips: sanitised profiles and stored terms are fixed points; a session
      cookie verifies for its lifetime at its generation and at no other; an edge key
      is the key of its own value; policies, preferences, stacks and settings read
      back as they were written, settings also across a restart.
    - Where the code and its intent or documentation part, a theorem states what
      the code does (for example [Cpe.patch_release_below_start],
      [Webhooks.blank_error_reported_ok], [Wallboard.manual_revocation_is_void]).

    ** Fuel and bounds

    Loops over lists are structural.  [UnionFind.climb] has one more step than the
    dictionary has entries and [find_ok] shows this is enough; [Sha256.blocks] has
    a step per word; the retry loops count down the configured attempts and are
    structural over the list of network outcomes.  [Backfill.run_alone] has fuel
    for every step of an undisturbed run and [Backfill.run_ends] shows that four
    steps and two per open product and page suffice; [Notify.attempt_save] counts
    the four attempts of the code; [CveStore.snapshot_loop] needs a round more than
    there are scored rows and [CveStore.snapshot_takes_every_score] shows that this is
    enough.  Integers are Python's, so [Z];
    32-bit words are masked in [Sha256]; floats are rounded after every operation.

    ** Not modelled

    Text outside ASCII in the character classes (see [PyStr]); integers of more
    than 4300 digits; the sign of a float zero; ISO week dates; [parsedate] of the
    email package, [idna], the resolver, the JSON parser and printer, PyJWT,
    PyYAML, bcrypt, Fernet, the zone database, the text of arbitrary values
    ([py_str], [str_of]) and the digests of indicator values and rules (parameters
    with the laws the code relies on where a theorem needs them); [astimezone] at the two ends of the calendar.  [math.log2] and
    powers of one half are the class [Confidence.MathLib], accurate to 1/64, with
    an instance.  HTTP responses are
    records of the fields read.  Metering, logging, progress callbacks, audit of
    job state and failure notifications are left out of [LlmRouter], [Resilient]
    and [Webhooks].  SQL text and schema are the database's own
    semantics; the rows a query returns are arguments or the list functions above.
    Of the feeds, only NVD, CVE records, the catalogues and the context of AI software
    are modelled; of the scheduler, the NVD job, the nightly correlation, the job records and
    the catalogue sync.  The clusters, metrics and feedback of the correlation package, embeddings
    and the rest of the machine learning, investigations, the daily brief and the
    reports, backups, the remaining routers, migrations and the frontend are not
    modelled: they render, count, copy or transport what the components above
    decide, or call libraries. *)

From Stdlib Require Export ZArith Lia Bool List String Ascii.
From stdpp Require Export base tactics option list gmap strings.
From Stdlib Require Import Sorted.
#[export] Set Warnings "-notation-overridden,-clear-no-such-hyp".

(** ** Results of fallible code

    A Python expression that can raise is a value of [res A]: [Ok a] when it
    returns, [Raise e] when the exception class [e] escapes. *)

Inductive exn :=
| TypeError | ValueError | OverflowError | ZeroDivisionError
| AttributeError | KeyError | IndexError | RuntimeError
| SSRFError | CircuitOpenError | HTTPError | HTTPStatusError
| TimeoutError | CancelledError | HTTP429
| CatchupConflictError | CatchupValidationError
| FeedFetchError | CsvError | IntegrityError.

#[export] Instance exn_eq_dec : EqDecision exn.
Proof. solve_decision. Defined.

Inductive res (A : Type) :=
| Ok (a : A)
| Raise (e : exn).
Arguments Ok {A} _.
Arguments Raise {A} _.

Definition res_bind {A B} (m : res A) (k : A -> res B) : res B :=
  match m with Ok a => k a | Raise e => Raise e end.

Definition is_ok {A} (m : res A) : bool :=
  match m with Ok _ => true | Raise _ => false end.

(** [try: m except (classes): h] *)
Definition try_except {A} (m : res A) (caught : exn -> bool) (h : res A) : res A :=
  match m with Ok a => Ok a | Raise e => if caught e then h else Raise e end.

Declare Scope py_scope.
Delimit Scope py_scope with py.
Notation "'let!' x ':=' m 'in' k" := (res_bind m (fun x => k))
  (at level 10, x name, m at level 100, k at level 200) : py_scope.
Notation "a 'orelse' b" := (match a with Some x => x | None => b end)
  (at level 60, right associativity) : py_scope.
#[export] Set Default Goal Selector "1".
Open Scope py_scope.

Lemma res_bind_ok {A B} (m : res A) (k : A -> res B) b :
  res_bind m k = Ok b <-> exists a, m = Ok a /\ k a = Ok b.
Proof.
  destruct m as [a|e]; simpl; split; intros H.
  - eauto.
  - destruct H as (a' & E & H). by injection E as <-.
  - discriminate H.
  - destruct H as (? & E & _). discriminate E.
Qed.

Lemma res_bind_assoc {A B C} (m : res A) (f : A -> res B) (g : B -> res C) :
  res_bind (res_bind m f) g = res_bind m (fun a => res_bind (f a) g).
Proof. by destruct m. Qed.

Fixpoint map_res {A B} (f : A -> res B) (l : list A) : res (list B) :=
  match l with
  | [] => Ok []
  | a :: t => let! b := f a in let! bs := map_res f t in Ok (b :: bs)
  end.

(** A [for] loop over a list whose body can raise. *)
Fixpoint fold_res {A B} (f : A -> B -> res A) (l : list B) (a : A) : res A :=
  match l with
  | [] => Ok a
  | b :: t => let! a' := f a b in fold_res f t a'
  end.

(** A loop invariant survives [fold_res]. *)
Lemma fold_res_inv {A B} (P : A -> Prop) (f : A -> B -> res A) l :
  (forall a b a', In b l -> P a -> f a b = Ok a' -> P a') ->
  forall a a', P a -> fold_res f l a = Ok a' -> P a'.
Proof.
  induction l as [|b t IH]; simpl; intros Hf a a' Ha H.
  - by injection H as <-.
  - apply res_bind_ok in H as (a1 & H1 & H2).
    eapply (IH ltac:(intros; eapply Hf; eauto)); [|exact H2]. eapply Hf; eauto.
Qed.

Lemma fold_left_inv {A B} (P : A -> Prop) (f : A -> B -> A) l :
  (forall a b, In b l -> P a -> P (f a b)) -> forall a, P a -> P (fold_left f l a).
Proof.
  induction l as [|b t IH]; simpl; intros Hf a Ha; [exact Ha|].
  apply IH; [intros; apply Hf; auto|]. apply Hf; auto.
Qed.

(** ** Lists *)

(** A list as the test of an [if]. *)
Definition nonempty_list {A} (l : list A) : bool := match l with [] => false | _ => true end.

Definition lastn {A} (n : nat) (l : list A) : list A := skipn (length l - n) l.

Lemma existsb_In {A} (f : A -> bool) l x : In x l -> f x = true -> existsb f l = true.
Proof. intros H E. apply existsb_exists. eauto. Qed.

Lemma existsb_false {A} (f : A -> bool) l :
  existsb f l = false <-> forall x, In x l -> f x = false.
Proof.
  induction l as [|a t IH]; simpl; [easy|].
  rewrite orb_false_iff, IH. split.
  - intros [E H] x [<-|Hx]; auto.
  - intros H; split; [apply H; auto|intros x Hx; apply H; auto].
Qed.

Lemma Forall_removelast {A} (P : A -> Prop) l : Forall P l -> Forall P (removelast l).
Proof.
  induction 1 as [|x l Hx Hl IH]; [constructor|]. cbn [removelast]. destruct l; [constructor|by constructor].
Qed.

Lemma Forall_lfilter {A} (P : A -> Prop) f l : Forall P l -> Forall P (List.filter f l).
Proof. induction 1; simpl; [constructor|]. case_match; [by constructor|done]. Qed.

Lemma in_firstn_in {A} k (l : list A) x : In x (firstn k l) -> In x l.
Proof. intros I. rewrite <-(firstn_skipn k l). apply in_app_iff. by left. Qed.

Lemma filter_both {A} (p q : A -> bool) l : List.filter p (List.filter q l) = List.filter (fun x => q x && p x) l.
Proof. induction l as [|x l IH]; [done|]. cbn [List.filter]. destruct (q x); cbn [List.filter andb]; rewrite IH; [done|done]. Qed.

#[export] Instance lfilter_Permutation {A} (p : A -> bool) : Proper (Permutation ==> Permutation) (List.filter p).
Proof.
  induction 1 as [|x l l' _ IH|x y l|l l' l'' _ IH _ IH']; cbn [List.filter]; [done| | |by rewrite IH].
  - destruct (p x); by rewrite IH.
  - destruct (p x), (p y); [apply Permutation_swap|done..].
Qed.

Lemma filter_sublist {A} (f : A -> bool) l : List.filter f l `sublist_of` l.
Proof.
  induction l as [|x l IH]; [constructor|]. simpl. destruct (f x); [by apply sublist_skip|by apply sublist_cons].
Qed.

(** ** Python's stable sort

    [sort_on lt l] puts each element after those that are not greater. *)
Section stable_sort.
Context {A : Type} (lt : A -> A -> bool).

Fixpoint insort (x : A) (l : list A) : list A :=
  match l with [] => [x] | y :: t => if lt x y then x :: l else y :: insort x t end.
Definition sort_on (l : list A) : list A := fold_left (fun acc x => insort x acc) l [].

Lemma insort_perm x l : insort x l ≡ₚ x :: l.
Proof. induction l as [|y t IH]; cbn [insort]; [done|]. destruct (lt x y); [done|]. rewrite IH. apply Permutation_swap. Qed.

Lemma sort_on_perm l : sort_on l ≡ₚ l.
Proof.
  unfold sort_on. assert (G : forall l acc, fold_left (fun acc x => insort x acc) l acc ≡ₚ acc ++ l); [|by rewrite G].
  induction l0 as [|x t IH]; intros acc; cbn [fold_left]; [by rewrite app_nil_r|]. rewrite IH, insort_perm. apply Permutation_middle.
Qed.

Definition not_after (a b : A) : Prop := lt b a = false.

(** Sorted elements of a class on which the order is asymmetric and its complement transitive. *)
Context (P : A -> Prop).
Definition orders : Prop := (forall a b, lt a b = true -> lt b a = false) /\ (forall a b c, P a -> P b -> P c -> not_after a b -> not_after b c -> not_after a c).

Lemma insort_sorted x l : orders -> List.Forall P (x :: l) -> StronglySorted not_after l -> StronglySorted not_after (insort x l).
Proof.
  intros [As Tr] HP S. apply List.Forall_cons_iff in HP as [Px Pl]. revert Pl. induction S as [|y t S IH F]; intros Pl; cbn [insort]; [by repeat constructor|].
  apply List.Forall_cons_iff in Pl as [Py Pt]. destruct (lt x y) eqn:E.
  - constructor; [by constructor|]. apply List.Forall_cons; [by apply As|]. rewrite List.Forall_forall in *. intros z Z. eapply Tr; [done| |by apply Pt|by apply As|by apply F]. done.
  - constructor; [by apply IH|]. rewrite insort_perm. by apply List.Forall_cons.
Qed.

Lemma sort_on_sorted_in l : orders -> List.Forall P l -> StronglySorted not_after (sort_on l).
Proof.
  intros O H. unfold sort_on. assert (StronglySorted not_after (fold_left (fun acc x => insort x acc) l []) /\ List.Forall P (fold_left (fun acc x => insort x acc) l [])) as [S _]; [|done].
  apply (fold_left_inv (fun l => StronglySorted not_after l /\ List.Forall P l)); [|by split; constructor]. intros acc x I [S F]. rewrite List.Forall_forall in H.
  assert (List.Forall P (x :: acc)) as G by (constructor; [by apply H|done]). split; [by apply insort_sorted|]. by rewrite insort_perm.
Qed.
End stable_sort.

Lemma sort_on_sorted {A} (lt : A -> A -> bool) l : (forall a b, lt a b = true -> lt b a = false) ->
  (forall a b c, not_after lt a b -> not_after lt b c -> not_after lt a c) -> StronglySorted (not_after lt) (sort_on lt l).
Proof. intros As Tr. apply (sort_on_sorted_in lt (fun _ => True)); [split; [done|]; eauto|]. by apply List.Forall_forall. Qed.

(** What a cut of a sorted list leaves out is not before what it keeps. *)
Lemma sorted_cut {A} (lt : A -> A -> bool) n l x y : StronglySorted (not_after lt) l -> In x (firstn n l) -> In y (skipn n l) -> lt y x = false.
Proof.
  intros S. revert n. induction S as [|z t S IH F]; intros [|n]; cbn [firstn skipn]; [done..|].
  intros [<-|I] J; [|by eapply IH]. rewrite List.Forall_forall in F. apply F. rewrite <-(firstn_skipn n t). apply in_app_iff. by right.
Qed.

Lemma elem_of_rev {A} (x : A) l : x ∈ rev l <-> x ∈ l.
Proof. by rewrite !list_elem_of_In, <-in_rev. Qed.

Lemma nodup_keys {A B} (l : list (A * B)) k v v' :
  NoDup (map fst l) -> (k, v) ∈ l -> (k, v') ∈ l -> v = v'.
Proof.
  induction l as [|[k1 v1] l IH]; intros ND; [by intros ?%elem_of_nil|].
  change (NoDup (k1 :: map fst l)) in ND. apply NoDup_cons in ND as (Nin & ND).
  assert (forall w, (k1, w) ∈ l -> False) as F.
  { intros w W. apply Nin. change k1 with (fst (k1, w)). apply list_elem_of_In, in_map, list_elem_of_In, W. }
  intros [[= -> ->]|H]%elem_of_cons [[= ->]|H']%elem_of_cons; [done|by apply F in H'| |by apply IH].
  subst. by apply F in H.
Qed.

Lemma in_snd {A B} (l : list (A * B)) k v : (k, v) ∈ l -> v ∈ map snd l.
Proof. intros H. change v with (snd (k, v)). apply list_elem_of_In, in_map, list_elem_of_In, H. Qed.

(** Lists with the same keys, whose elements the key determines, are the same up to order. *)
Lemma keyed_permutation {A B} (f : A -> B) l l' :
  map f l ≡ₚ map f l' -> (forall x y, x ∈ l -> y ∈ l' -> f x = f y -> x = y) -> l ≡ₚ l'.
Proof.
  revert l'. induction l as [|x l IH]; intros l' P D.
  - cbn in P. apply Permutation_nil_l in P. by destruct l'.
  - assert (f x ∈ map f l') as H by (rewrite <-P; by left).
    apply list_elem_of_In, in_map_iff in H as (y & E & Y). apply list_elem_of_In in Y.
    assert (x = y) as <- by (apply D; [by left|done|done]).
    apply elem_of_Permutation in Y as (l2 & Y). rewrite Y. constructor. apply IH.
    + rewrite Y in P. cbn in P. by apply Permutation_cons_inv in P.
    + intros a b A' B' E'. apply D; [by right| |done]. rewrite Y. by right.
Qed.

(** Python's [max(best, x)] loops: a fold of [Z.max] bounds its elements. *)
Lemma fold_max_ge (l : list Z) a : (a <= fold_left Z.max l a)%Z.
Proof.
  revert a; induction l as [|x t IH]; intros a; simpl; [lia|].
  specialize (IH (Z.max a x)). lia.
Qed.

(** ** Automation *)

Create HintDb briefr.
Create Rewrite HintDb briefr.

(** Case analysis on the first boolean test or [match] scrutinee of the goal. *)
Ltac case_goal :=
  match goal with
  | |- context [if ?b then _ else _] => destruct b eqn:?
  | |- context [match ?x with _ => _ end] => destruct x eqn:?
  end.

Ltac case_hyp H :=
  match type of H with
  | context [if ?b then _ else _] => destruct b eqn:?
  | context [match ?x with _ => _ end] => destruct x eqn:?
  end.

(** Split an [Ok] equation of a bind chain into its steps. *)
Ltac inv_bind H :=
  let a := fresh "v" in let E := fresh "E" in
  apply res_bind_ok in H; destruct H as (a & E & H).

Ltac inv_ok H := injection H as H; try subst.

(** Turn the boolean connectives of the hypotheses and the goal into [Prop]. *)
Ltac bool_prop :=
  repeat match goal with
  | H : _ && _ = true |- _ => apply andb_true_iff in H; destruct H
  | H : _ || _ = false |- _ => apply orb_false_iff in H; destruct H
  | H : negb _ = true |- _ => apply negb_true_iff in H
  | H : negb _ = false |- _ => apply negb_false_iff in H
  | H : (_ <=? _)%Z = true |- _ => apply Z.leb_le in H
  | H : (_ <=? _)%Z = false |- _ => apply Z.leb_gt in H
  | H : (_ <? _)%Z = true |- _ => apply Z.ltb_lt in H
  | H : (_ <? _)%Z = false |- _ => apply Z.ltb_ge in H
  | H : (_ =? _)%Z = true |- _ => apply Z.eqb_eq in H
  | H : (_ =? _)%Z = false |- _ => apply Z.eqb_neq in H
  | H : String.eqb _ _ = true |- _ => apply String.eqb_eq in H
  | H : String.eqb _ _ = false |- _ => apply String.eqb_neq in H
  end.

#[export] Hint Rewrite orb_true_r orb_false_r andb_true_r andb_false_r : briefr.

(** In a list without repeated keys, the key determines the element. *)
Lemma key_unique {A B} (f : A -> B) l x y : NoDup (map f l) -> In x l -> In y l -> f x = f y -> x = y.
Proof.
  induction l as [|a l IH]; intros N I J E; [done|]. cbn in N. apply NoDup_cons in N as [N1 N2].
  assert (forall z, In z l -> f z <> f a) as F.
  { intros z Z Ez. apply N1. rewrite <-Ez. by apply list_elem_of_In, in_map. }
  destruct I as [->|I], J as [->|J]; [done|by destruct (F y)|by destruct (F x)|auto].
Qed.

Lemma filter_map_le {A} (q : A -> bool) f l : (forall x, q (f x) = true -> q x = true) ->
  (length (List.filter q (map f l)) <= length (List.filter q l))%nat.
Proof.
  intros H. induction l as [|x l IH]; [done|]. cbn [map List.filter].
  destruct (q (f x)) eqn:F; [rewrite (H x F); cbn; lia|]. destruct (q x); cbn; lia.
Qed.

Lemma filter_map_lt {A} (q : A -> bool) f l x : (forall x, q (f x) = true -> q x = true) ->
  In x l -> q x = true -> q (f x) = false -> (length (List.filter q (map f l)) < length (List.filter q l))%nat.
Proof.
  intros H. induction l as [|y l IH]; [done|]. intros [->|I] Q F; cbn [map List.filter].
  - rewrite F, Q. cbn. pose proof (filter_map_le q f l H). lia.
  - specialize (IH I Q F). destruct (q (f y)) eqn:Fy; [rewrite (H y Fy); cbn; lia|]. destruct (q y); cbn; lia.
Qed.

Lemma filter_filter_le {A} (q p : A -> bool) l :
  (length (List.filter q (List.filter p l)) <= length (List.filter q l))%nat.
Proof.
  induction l as [|x l IH]; [done|]. cbn [List.filter]. destruct (p x); cbn [List.filter]; destruct (q x); cbn; lia.
Qed.

(** Checking a boolean property of the first [n] integers. *)
Definition zrange (n : nat) : list Z := map Z.of_nat (seq 0 n).

Lemma zrange_check (P : Z -> bool) n z : forallb P (zrange n) = true -> (0 <= z < Z.of_nat n)%Z -> P z = true.
Proof.
  intros H B. rewrite forallb_forall in H. apply H. rewrite <-(Z2Nat.id z) by lia. apply in_map, in_seq. lia.
Qed.

(** ** Results *)

Lemma ok_inj {A} (a b : A) : Ok a = Ok b -> a = b.
Proof. by intros [=]. Qed.

Lemma map_res_Forall2 {A B} (f : A -> res B) l r : map_res f l = Ok r -> Forall2 (fun a b => f a = Ok b) l r.
Proof.
  revert r. induction l as [|a l IH]; intros r E; cbn in E; [by apply ok_inj in E as <-|].
  destruct (f a) as [b|] eqn:F; [|done]. cbn [res_bind] in E. destruct (map_res f l) as [bs|]; [|done]. apply ok_inj in E as <-. constructor; [done|by apply IH].
Qed.

Lemma is_ok_spec {A} (r : res A) : is_ok r = true -> exists a, r = Ok a.
Proof. destruct r; [eauto|done]. Qed.

Lemma remove_dups_length {A} `{EqDecision A} (l : list A) : (length (remove_dups l) <= length l)%nat.
Proof. induction l as [|x l IH]; [done|]. cbn. case_decide; cbn; lia. Qed.

(** A fold in the error monad that keeps an invariant. *)
Lemma fold_ok {A B} (P : A -> Prop) (f : A -> B -> res A) l acc r :
  fold_left (fun acc x => let! a := acc in f a x) l acc = Ok r -> (forall a, acc = Ok a -> P a) ->
  (forall a x a', P a -> x ∈ l -> f a x = Ok a' -> P a') -> P r.
Proof.
  revert acc. induction l as [|x l IH]; intros acc H I S; cbn [fold_left] in H; [by apply I|].
  apply IH in H; [done| |intros; eapply S; eauto; by right].
  intros a E. destruct acc as [a0|]; [|done]. cbn [res_bind] in E. eapply S; [by apply I|by left|done].
Qed.

Lemma flat_map_filter {A B} (f g : A -> list B) (p q : A -> bool) (h : B -> bool) l :
  (forall x, In x l -> (if p x then f x else []) = List.filter h (if q x then g x else [])) ->
  flat_map f (List.filter p l) = List.filter h (flat_map g (List.filter q l)).
Proof.
  intros H. induction l as [|x l IH]; [done|]. pose proof (H x (or_introl eq_refl)) as E. specialize (IH (fun y I => H y (or_intror I))).
  cbn [List.filter]. destruct (p x), (q x); cbn [flat_map]; rewrite ?List.filter_app, IH, ?E; try done; by rewrite <-E.
Qed.

Lemma map_filter_pair {A B} (h : A * B -> bool) (l : list A) r : List.filter h (map (fun k => (k, r)) l) = map (fun k => (k, r)) (List.filter (fun k => h (k, r)) l).
Proof. induction l as [|x l IH]; [done|]. cbn. destruct (h (x, r)); cbn; by rewrite IH. Qed.

Lemma filter_map_comm {A B} (f : A -> B) (h : B -> bool) l : List.filter h (map f l) = map f (List.filter (fun x => h (f x)) l).
Proof. induction l as [|x l IH]; [done|]. cbn. destruct (h (f x)); cbn; by rewrite IH. Qed.

Lemma filter_swap {A} (p q : A -> bool) l : List.filter p (List.filter q l) = List.filter q (List.filter p l).
Proof. induction l as [|x l IH]; [done|]. cbn. destruct (p x) eqn:P, (q x) eqn:Q; cbn; rewrite ?P, ?Q, IH; done. Qed.
