(* ===== verification/PyStr.v ===== *)
(** * PyStr: the string methods the sources call

    A Python [str] is a [string]; the characters of a literal outside ASCII are
    its UTF-8 bytes.  Equality, concatenation, [in], [startswith] and [split]
    agree with Python on every string; the character classes ([lower], [upper],
    [strip], [isdigit]) are those of ASCII text. *)

From S2P Require Import Prelude.
From Stdlib Require Import DecimalString.
Open Scope string_scope.

Definition code (c : ascii) : N := N_of_ascii c.

Definition in_range (lo hi : N) (c : ascii) : bool := (lo <=? code c)%N && (code c <=? hi)%N.

Definition is_upper := in_range 65 90.
Definition is_lower := in_range 97 122.
Definition is_digit := in_range 48 57.
(** [str.isspace] on ASCII: tab..carriage return, the four separators, space. *)
Definition is_space (c : ascii) : bool := in_range 9 13 c || in_range 28 31 c || (code c =? 32)%N.
Definition is_alnum (c : ascii) : bool := is_digit c || is_upper c || is_lower c.

Definition lower_char (c : ascii) : ascii := if is_upper c then ascii_of_N (code c + 32) else c.
Definition upper_char (c : ascii) : ascii := if is_lower c then ascii_of_N (code c - 32) else c.

Fixpoint smap (f : ascii -> ascii) (s : string) : string :=
  match s with "" => "" | String c t => String (f c) (smap f t) end.

Fixpoint sfilter (p : ascii -> bool) (s : string) : string :=
  match s with "" => "" | String c t => if p c then String c (sfilter p t) else sfilter p t end.

Fixpoint sforall (p : ascii -> bool) (s : string) : bool :=
  match s with "" => true | String c t => p c && sforall p t end.

Definition lower : string -> string := smap lower_char.
Definition upper : string -> string := smap upper_char.

Fixpoint srev_app (s acc : string) : string :=
  match s with "" => acc | String c t => srev_app t (String c acc) end.
Definition srev (s : string) : string := srev_app s "".

Fixpoint drop_while (p : ascii -> bool) (s : string) : string :=
  match s with "" => "" | String c t => if p c then drop_while p t else s end.

Definition lstrip : string -> string := drop_while is_space.
(** [s.rstrip(chars)] for a one-character set. *)
Definition rstrip_by (p : ascii -> bool) (s : string) : string := srev (drop_while p (srev s)).
Definition strip (s : string) : string := rstrip_by is_space (lstrip s).

Definition startswith (s p : string) : bool := String.prefix p s.

Fixpoint sdrop (n : nat) (s : string) : string :=
  match n, s with O, _ => s | S m, String _ t => sdrop m t | _, "" => "" end.
Fixpoint stake (n : nat) (s : string) : string :=
  match n, s with S m, String c t => String c (stake m t) | _, _ => "" end.

Definition endswith (s p : string) : bool := startswith (srev s) (srev p).

(** [needle in hay] *)
Fixpoint str_in (needle hay : string) : bool :=
  String.prefix needle hay ||
  match hay with "" => false | String _ t => str_in needle t end.

(** [s.split(c)] for a one-character separator: never empty. *)
Fixpoint split_on (c : ascii) (s : string) : list string :=
  match s with
  | "" => [""]
  | String a t =>
      if Ascii.eqb a c then "" :: split_on c t
      else match split_on c t with [] => [String a ""] | h :: r => String a h :: r end
  end.

(** [s.split(c, 1)], when [c] occurs: the parts around the first occurrence. *)
Fixpoint split_once (c : ascii) (s : string) : option (string * string) :=
  match s with
  | "" => None
  | String a t =>
      if Ascii.eqb a c then Some ("", t)
      else match split_once c t with Some (l, r) => Some (String a l, r) | None => None end
  end.

(** [sep.join(parts)] *)
Fixpoint sjoin (sep : string) (parts : list string) : string :=
  match parts with
  | [] => ""
  | [p] => p
  | p :: t => p +:+ sep +:+ sjoin sep t
  end.

Definition nonempty (s : string) : bool := match s with "" => false | _ => true end.

(** [s in l] for a constant collection of texts. *)
Definition one_in (l : list string) (s : string) : bool := existsb (String.eqb s) l.

(** [str(n)] for an int. *)
Definition str_of_Z (z : Z) : string := NilZero.string_of_int (Z.to_int z).

Definition digit_val (c : ascii) : Z := Z.of_N (code c) - 48.

(** Decimal digits with single underscores between them: (value, number of
    digits, rest); [None] when no digit comes first. *)
Fixpoint digits_from (acc n : Z) (s : string) : Z * Z * string :=
  match s with
  | String c t =>
      if is_digit c then digits_from (10 * acc + digit_val c) (n + 1) t
      else if Ascii.eqb c "_" then
        match t with
        | String d _ => if is_digit d && (0 <? n)%Z then
            match t with String d' t' => digits_from (10 * acc + digit_val d') (n + 1) t' | _ => (acc, n, s) end
            else (acc, n, s)
        | "" => (acc, n, s)
        end
      else (acc, n, s)
  | "" => (acc, n, s)
  end%Z.

Definition read_sign (s : string) : bool * string :=
  match s with
  | String "-" t => (true, t)
  | String "+" t => (false, t)
  | _ => (false, s)
  end.

(** [int(text)], base 10: [ValueError] when the text is no integer literal. *)
Definition int_of_str (s : string) : res Z :=
  let '(neg, body) := read_sign (strip s) in
  match digits_from 0 0 body with
  | (v, n, "") => if (0 <? n)%Z then Ok (if neg then - v else v)%Z else Raise ValueError
  | _ => Raise ValueError
  end.

(** ** Facts *)

Lemma str_in_empty h : str_in "" h = true.
Proof. destruct h; reflexivity. Qed.

Lemma prefix_refl s : String.prefix s s = true.
Proof. induction s as [|c s IH]; simpl; [reflexivity|]. by destruct (ascii_dec c c). Qed.

Lemma str_in_refl s : str_in s s = true.
Proof. destruct s; simpl; [reflexivity|]. destruct (ascii_dec a a); [|done]. by rewrite prefix_refl. Qed.

Lemma prefix_app p s : String.prefix p (p +:+ s) = true.
Proof.
  unfold String.app; induction p as [|c p IH]; simpl; [by destruct s|].
  by destruct (ascii_dec c c).
Qed.

Lemma str_in_app_r n a b : str_in n b = true -> str_in n (a +:+ b) = true.
Proof.
  induction a as [|c a IH]; [done|]; intros H. change (String c a +:+ b) with (String c (a +:+ b)).
  cbn [str_in]. rewrite IH by exact H. apply orb_true_r.
Qed.

Lemma smap_length f s : String.length (smap f s) = String.length s.
Proof. induction s; simpl; congruence. Qed.

Lemma split_on_nonempty c s : split_on c s <> [].
Proof. destruct s as [|a t]; simpl; [discriminate|]. repeat case_match; discriminate. Qed.

(** Joining what [split] cut gives the text back. *)
Lemma sjoin_split_on c s : sjoin (String c "") (split_on c s) = s.
Proof.
  induction s as [|a t IH]; [reflexivity|]. cbn [split_on].
  pose proof (split_on_nonempty c t) as Hne.
  destruct (split_on c t) as [|h r] eqn:E; [done|].
  destruct (Ascii.eqb a c) eqn:Hc.
  - apply Ascii.eqb_eq in Hc as ->. cbn [sjoin] in *. by rewrite <- IH.
  - destruct r; cbn [sjoin] in *; by rewrite <- IH.
Qed.

Lemma sfilter_forall p s : sforall p (sfilter p s) = true.
Proof. induction s as [|c t IH]; simpl; [done|]. destruct (p c) eqn:E; simpl; [by rewrite E|done]. Qed.

Lemma sfilter_id p s : sforall p s = true -> sfilter p s = s.
Proof.
  induction s as [|c t IH]; simpl; [done|]. intros H.
  apply andb_true_iff in H as [-> H]. by rewrite IH.
Qed.

Lemma sfilter_idemp p s : sfilter p (sfilter p s) = sfilter p s.
Proof. apply sfilter_id, sfilter_forall. Qed.

Lemma lower_char_idemp c : lower_char (lower_char c) = lower_char c.
Proof. destruct c as [[] [] [] [] [] [] [] []]; vm_compute; reflexivity. Qed.

Lemma lower_idemp s : lower (lower s) = lower s.
Proof.
  unfold lower. induction s as [|c t IH]; cbn [smap]; [done|]. by rewrite lower_char_idemp, IH.
Qed.

(** *** Stripping: what is left is empty exactly when the text is blank. *)

Definition blank : string -> bool := sforall is_space.

Lemma app_cons c s t : String c s +:+ t = String c (s +:+ t).
Proof. reflexivity. Qed.

Lemma app_nil t : "" +:+ t = t.
Proof. reflexivity. Qed.

Lemma sforall_app p a b : sforall p (a +:+ b) = sforall p a && sforall p b.
Proof.
  induction a as [|c a IH]; [reflexivity|]. rewrite app_cons. cbn [sforall].
  by rewrite IH, andb_assoc.
Qed.

Lemma sforall_srev_app p s acc : sforall p (srev_app s acc) = sforall p s && sforall p acc.
Proof.
  revert acc; induction s as [|c s IH]; intros acc; simpl; [done|].
  rewrite IH; simpl. destruct (p c), (sforall p s); reflexivity.
Qed.

Lemma sforall_srev p s : sforall p (srev s) = sforall p s.
Proof. unfold srev. rewrite sforall_srev_app. apply andb_true_r. Qed.

Lemma sforall_drop_while p s : sforall p (drop_while p s) = sforall p s.
Proof. induction s as [|c s IH]; simpl; [done|]. destruct (p c) eqn:E; simpl; [done|by rewrite E]. Qed.

Lemma nonempty_drop_while p s : nonempty (drop_while p s) = negb (sforall p s).
Proof. induction s as [|c s IH]; simpl; [done|]. by destruct (p c). Qed.

Lemma nonempty_srev_app s acc : nonempty (srev_app s acc) = nonempty s || nonempty acc.
Proof. revert acc; induction s as [|c s IH]; intros acc; simpl; [done|]. rewrite IH. by destruct s. Qed.

Lemma nonempty_srev s : nonempty (srev s) = nonempty s.
Proof. unfold srev. rewrite nonempty_srev_app. apply orb_false_r. Qed.

Lemma blank_strip s : blank (strip s) = blank s.
Proof.
  unfold blank, strip, rstrip_by, lstrip.
  by rewrite sforall_srev, sforall_drop_while, sforall_srev, sforall_drop_while.
Qed.

Lemma nonempty_strip s : nonempty (strip s) = negb (blank s).
Proof.
  unfold blank, strip, rstrip_by, lstrip.
  by rewrite nonempty_srev, nonempty_drop_while, sforall_srev, sforall_drop_while.
Qed.

Lemma is_space_lower c : is_space (lower_char c) = is_space c.
Proof. destruct c as [[] [] [] [] [] [] [] []]; vm_compute; reflexivity. Qed.

Lemma blank_lower s : blank (lower s) = blank s.
Proof.
  unfold blank, lower. induction s as [|c s IH]; cbn [smap sforall]; [done|].
  by rewrite is_space_lower, IH.
Qed.

Lemma nonempty_lower s : nonempty (lower s) = nonempty s.
Proof. by destruct s. Qed.

Lemma lower_app a b : lower (a +:+ b) = lower a +:+ lower b.
Proof.
  unfold lower. induction a as [|c a IH]; [done|]. rewrite app_cons. cbn [smap].
  by rewrite IH, app_cons.
Qed.

Lemma nonempty_app a b : nonempty (a +:+ b) = nonempty a || nonempty b.
Proof. by destruct a. Qed.

(** Mapping the characters of a stripped text, when the map keeps the spaces. *)
Lemma smap_srev f s : smap f (srev s) = srev (smap f s).
Proof.
  unfold srev. assert (forall s acc, smap f (srev_app s acc) = srev_app (smap f s) (smap f acc)) as G; [|by rewrite G].
  clear. induction s as [|c s IH]; intros acc; [done|]. cbn [srev_app smap]. by rewrite IH.
Qed.

Lemma smap_drop f s : (forall c, is_space (f c) = is_space c) -> smap f (drop_while is_space s) = drop_while is_space (smap f s).
Proof. intros F. induction s as [|c s IH]; [done|]. cbn [drop_while smap]. rewrite F. destruct (is_space c); [exact IH|done]. Qed.

Lemma smap_strip f s : (forall c, is_space (f c) = is_space c) -> smap f (strip s) = strip (smap f s).
Proof. intros F. unfold strip, rstrip_by, lstrip. by rewrite smap_srev, smap_drop, smap_srev, smap_drop. Qed.

Lemma is_space_upper c : is_space (upper_char c) = is_space c.
Proof. destruct c as [[] [] [] [] [] [] [] []]; vm_compute; reflexivity. Qed.

Lemma upper_char_idemp c : upper_char (upper_char c) = upper_char c.
Proof. destruct c as [[] [] [] [] [] [] [] []]; vm_compute; reflexivity. Qed.

Lemma upper_idemp s : upper (upper s) = upper s.
Proof. unfold upper. induction s as [|c t IH]; cbn [smap]; [done|]. by rewrite upper_char_idemp, IH. Qed.

Lemma upper_strip s : upper (strip s) = strip (upper s).
Proof. apply smap_strip. exact is_space_upper. Qed.

#[export] Hint Rewrite nonempty_lower nonempty_app blank_strip nonempty_strip blank_lower : briefr.
#[export] Hint Rewrite lower_idemp sfilter_idemp str_in_empty str_in_refl : briefr.

(** ** [strip] and [split] inverted by [join] *)

Lemma sforall_lstrip p s : sforall p s = true -> sforall p (lstrip s) = true.
Proof.
  unfold lstrip. induction s as [|c s IH]; simpl; [done|]. intros H. apply andb_true_iff in H as [Hc Hs].
  destruct (is_space c); [by apply IH|]. simpl. by rewrite Hc.
Qed.

Lemma sforall_drop p q s : sforall p s = true -> sforall p (drop_while q s) = true.
Proof.
  induction s as [|c s IH]; simpl; [done|]. intros H. apply andb_true_iff in H as [Hc Hs].
  destruct (q c); [by apply IH|]. simpl. by rewrite Hc.
Qed.

Lemma sforall_strip p s : sforall p s = true -> sforall p (strip s) = true.
Proof.
  intros H. unfold strip, rstrip_by. rewrite sforall_srev.
  apply sforall_drop. rewrite sforall_srev. by apply sforall_drop.
Qed.

Definition head_not (p : ascii -> bool) (s : string) : bool :=
  match s with "" => true | String c _ => negb (p c) end.

Lemma drop_while_head p s : head_not p (drop_while p s) = true.
Proof. induction s as [|c s IH]; simpl; [done|]. destruct (p c) eqn:E; [done|]. simpl. by rewrite E. Qed.

Lemma drop_while_id p s : head_not p s = true -> drop_while p s = s.
Proof. destruct s as [|c s]; simpl; [done|]. by destruct (p c). Qed.

Lemma sapp_assoc a b c : (a +:+ b) +:+ c = a +:+ (b +:+ c).
Proof. induction a as [|x a IH]; [done|]. rewrite !app_cons. by f_equal. Qed.

Lemma srev_app_acc s acc : srev_app s acc = srev_app s "" +:+ acc.
Proof.
  revert acc. induction s as [|c s IH]; intros acc; [done|]. cbn [srev_app].
  rewrite IH, (IH (String c "")), sapp_assoc. done.
Qed.

Lemma srev_app_app s acc : srev_app s acc = srev s +:+ acc.
Proof. apply srev_app_acc. Qed.

Lemma srev_snoc t c : srev (t +:+ String c "") = String c (srev t).
Proof.
  unfold srev. generalize "" at 2 3. induction t as [|e t IHt]; intros acc; [done|].
  rewrite app_cons. cbn [srev_app]. apply IHt.
Qed.

Lemma srev_app_involutive s acc acc' : srev_app (srev_app s acc) acc' = srev_app acc (s +:+ acc').
Proof.
  revert acc. induction s as [|c s IH]; intros acc; [done|]. cbn [srev_app].
  rewrite IH. done.
Qed.

Lemma app_empty_r s : s +:+ "" = s.
Proof. induction s; [done|]. rewrite app_cons. by f_equal. Qed.

Lemma srev_involutive s : srev (srev s) = s.
Proof. unfold srev. rewrite srev_app_involutive. apply app_empty_r. Qed.

(** The first character survives dropping from the other end, unless all is dropped. *)
Lemma head_srev_drop p s :
  head_not p s = true -> head_not p (srev (drop_while p (srev s))) = true.
Proof.
  intros H. destruct s as [|c s]; [done|].
  unfold srev at 2. cbn [srev_app]. rewrite srev_app_app.
  cbn [head_not] in H. generalize (srev s) as t. intros t.
  induction t as [|d t IH].
  - rewrite app_nil. cbn [drop_while]. destruct (p c) eqn:E; [done|]. cbn. by rewrite E.
  - rewrite app_cons. cbn [drop_while]. destruct (p d); [exact IH|].
    unfold srev. cbn [srev_app]. rewrite srev_app_app.
    rewrite srev_snoc, app_cons. exact H.
Qed.

Lemma strip_idemp s : strip (strip s) = strip s.
Proof.
  unfold strip at 1. unfold lstrip. rewrite drop_while_id.
  - unfold strip, rstrip_by. rewrite srev_involutive. f_equal. apply drop_while_id, drop_while_head.
  - unfold strip, rstrip_by. apply head_srev_drop, drop_while_head.
Qed.

Lemma split_on_app c a t :
  sforall (fun x => negb (Ascii.eqb x c)) a = true ->
  split_on c (a +:+ String c t) = a :: split_on c t.
Proof.
  induction a as [|x a IH]; intros H; rewrite ?app_nil, ?app_cons; cbn [split_on].
  - by rewrite Ascii.eqb_refl.
  - cbn [sforall] in H. apply andb_true_iff in H as [Hx Ha]. apply negb_true_iff in Hx. rewrite Hx.
    by rewrite IH.
Qed.

Lemma split_on_none c a :
  sforall (fun x => negb (Ascii.eqb x c)) a = true -> split_on c a = [a].
Proof.
  induction a as [|x a IH]; intros H; cbn [split_on]; [done|].
  cbn [sforall] in H. apply andb_true_iff in H as [Hx Ha]. apply negb_true_iff in Hx. rewrite Hx.
  by rewrite IH.
Qed.

Lemma split_on_sjoin c parts :
  parts <> [] -> Forall (fun p => sforall (fun x => negb (Ascii.eqb x c)) p = true) parts ->
  split_on c (sjoin (String c "") parts) = parts.
Proof.
  induction parts as [|p [|q t] IH]; intros Hn H; [done| |].
  - cbn [sjoin]. apply split_on_none. by inversion H.
  - inversion H as [|? ? Hp Ht]; subst. change (sjoin (String c "") (p :: q :: t))
      with (p +:+ String c (sjoin (String c "") (q :: t))).
    rewrite split_on_app by exact Hp. by rewrite IH.
Qed.

Lemma split_on_parts c s : Forall (fun p => sforall (fun x => negb (Ascii.eqb x c)) p = true) (split_on c s).
Proof.
  induction s as [|a t IH]; cbn [split_on]; [by repeat constructor|].
  destruct (Ascii.eqb a c) eqn:E; [by constructor|].
  destruct (split_on c t) as [|h r]; [constructor|]; [cbn; by rewrite E|constructor|].
  inversion IH; subst. constructor; [cbn; by rewrite E|done].
Qed.

(** ** Lengths *)

Definition slen (s : string) : Z := Z.of_nat (String.length s).

(** UTF-8: Python counts and cuts characters, a character is a byte that does not continue one. *)
Definition is_cont (c : ascii) : bool := in_range 128 191 c.
Definition ulen (s : string) : Z := slen (sfilter (fun c => negb (is_cont c)) s).
Fixpoint utake (n : nat) (s : string) : string :=
  match s with
  | "" => ""
  | String c t =>
      if is_cont c then String c (utake n t)
      else match n with O => "" | S m => String c (utake m t) end
  end.
Fixpoint udrop (n : nat) (s : string) : string :=
  match s with
  | "" => ""
  | String c t => if is_cont c then udrop n t else match n with O => s | S m => udrop m t end
  end.
(** [s[-n:]] *)
Definition ulast (n : nat) (s : string) : string := udrop (Z.to_nat (ulen s) - n) s.

(** [LIKE] of SQLite (of a lower-cased text): [%] any text, [_] any character. *)
Fixpoint like (pattern : string) : string -> bool :=
  match pattern with
  | "" => fun s => match s with "" => true | _ => false end
  | String p rest =>
      if Ascii.eqb p "%" then fix any s := like rest s || match s with "" => false | String _ t => any t end
      else fun s => match s with "" => false | String c t => (Ascii.eqb p "_" || Ascii.eqb p c) && like rest t end
  end.

(** [s.title()] *)
Fixpoint title_from (letter : bool) (s : string) : string :=
  match s with
  | "" => ""
  | String c t => String (if letter then lower_char c else upper_char c) (title_from (is_upper c || is_lower c) t)
  end.


Lemma slen_cons c s : slen (String c s) = (slen s + 1)%Z.
Proof. unfold slen. cbn [String.length]. lia. Qed.

Lemma slen_nonneg s : (0 <= slen s)%Z.
Proof. unfold slen. lia. Qed.

Lemma slen_app a b : slen (a +:+ b) = (slen a + slen b)%Z.
Proof. induction a as [|c a IH]; [done|]. rewrite app_cons, !slen_cons, IH. lia. Qed.

Lemma slen_srev s : slen (srev s) = slen s.
Proof.
  unfold srev. assert (H : forall acc, slen (srev_app s acc) = (slen s + slen acc)%Z).
  { induction s as [|c s IH]; intros acc; [done|]. cbn [srev_app]. rewrite IH, !slen_cons. lia. }
  rewrite H. unfold slen at 2. simpl. lia.
Qed.

Lemma slen_drop_while p s : (slen (drop_while p s) <= slen s)%Z.
Proof.
  induction s as [|c s IH]; [done|]. cbn [drop_while]. rewrite slen_cons. destruct (p c); [lia|].
  rewrite slen_cons. lia.
Qed.

Lemma slen_strip s : (slen (strip s) <= slen s)%Z.
Proof.
  unfold strip, rstrip_by, lstrip. rewrite slen_srev.
  pose proof (slen_drop_while is_space (srev (drop_while is_space s))) as H.
  rewrite slen_srev in H. pose proof (slen_drop_while is_space s). lia.
Qed.

(** Characters and separators of a join: one more than its length. *)
Definition join_len (parts : list string) : Z := fold_right (fun p n => slen p + 1 + n)%Z 0%Z parts.

Lemma slen_sjoin c parts : parts <> [] -> slen (sjoin (String c "") parts) = (join_len parts - 1)%Z.
Proof.
  induction parts as [|p [|q t] IH]; intros H; [done|cbn; lia|].
  change (sjoin (String c "") (p :: q :: t)) with (p +:+ String c (sjoin (String c "") (q :: t))).
  rewrite slen_app, slen_cons, IH by done. cbn [join_len fold_right]. lia.
Qed.

(** ** [sforall] through cutting *)

Lemma sforall_split_once p c s l r :
  split_once c s = Some (l, r) -> sforall p s = true -> sforall p l = true /\ sforall p r = true.
Proof.
  revert l r. induction s as [|a s IH]; intros l r H; [discriminate H|]. cbn [split_once] in H.
  cbn [sforall]. intros Hs. apply andb_true_iff in Hs as [Ha Hs].
  destruct (Ascii.eqb a c); [by injection H as <- <-|].
  destruct (split_once c s) as [[l' r']|]; [|discriminate H]. injection H as <- <-.
  destruct (IH l' r' eq_refl Hs). cbn. by rewrite Ha.
Qed.

Lemma split_once_head c s l r :
  split_once c s = Some (l, r) -> sforall (fun x => negb (Ascii.eqb x c)) l = true.
Proof.
  revert l r. induction s as [|a s IH]; intros l r H; [discriminate H|]. cbn [split_once] in H.
  destruct (Ascii.eqb a c) eqn:E; [by injection H as <- <-|].
  destruct (split_once c s) as [[l' r']|]; [|discriminate H]. injection H as <- <-.
  cbn. rewrite E. by apply (IH l' r').
Qed.

Lemma split_once_none c s : sforall (fun x => negb (Ascii.eqb x c)) s = true -> split_once c s = None.
Proof.
  induction s as [|a s IH]; [done|]. cbn [sforall split_once]. intros H.
  apply andb_true_iff in H as [Ha Hs]. apply negb_true_iff in Ha. by rewrite Ha, IH.
Qed.

Lemma split_once_none_inv c s : split_once c s = None -> sforall (fun x => negb (Ascii.eqb x c)) s = true.
Proof.
  induction s as [|a s IH]; [done|]. cbn [sforall split_once].
  destruct (Ascii.eqb a c); [discriminate|]. destruct (split_once c s) as [[]|]; [discriminate|].
  intros _. by apply IH.
Qed.

Lemma split_once_app c a b :
  sforall (fun x => negb (Ascii.eqb x c)) a = true -> split_once c (a +:+ String c b) = Some (a, b).
Proof.
  induction a as [|x a IH]; intros H; rewrite ?app_nil, ?app_cons; cbn [split_once].
  - by rewrite Ascii.eqb_refl.
  - cbn [sforall] in H. apply andb_true_iff in H as [Hx Ha]. apply negb_true_iff in Hx. by rewrite Hx, IH.
Qed.

Lemma string_length_app a b : String.length (a +:+ b) = (String.length a + String.length b)%nat.
Proof. unfold String.app. induction a as [|c a IH]; cbn [String.append String.length]; [done|]. by rewrite IH. Qed.

Lemma stake_app a b : stake (String.length a) (a +:+ b) = a.
Proof. induction a as [|x a IH]; [by destruct b|]. rewrite app_cons. cbn [String.length stake]. by rewrite IH. Qed.

Lemma sdrop_app a b : sdrop (String.length a) (a +:+ b) = b.
Proof. induction a as [|x a IH]; [done|]. rewrite app_cons. exact IH. Qed.

Lemma sforall_sfilter p q s : sforall p s = true -> sforall p (sfilter q s) = true.
Proof.
  induction s as [|a s IH]; [done|]. cbn. intros H. apply andb_true_iff in H as [Ha Hs].
  destruct (q a); [|by apply IH]. cbn. by rewrite Ha, IH.
Qed.

Lemma sforall_sdrop p n s : sforall p s = true -> sforall p (sdrop n s) = true.
Proof.
  revert s. induction n as [|n IH]; intros [|a s]; try done. cbn. intros H.
  apply andb_true_iff in H as [_ Hs]. by apply IH.
Qed.

Lemma sforall_stake p n s : sforall p s = true -> sforall p (stake n s) = true.
Proof.
  revert s. induction n as [|n IH]; intros [|a s]; try done. cbn. intros H.
  apply andb_true_iff in H as [Ha Hs]. by rewrite Ha, IH.
Qed.

Lemma sforall_smap p f s : (forall c, p c = true -> p (f c) = true) -> sforall p s = true -> sforall p (smap f s) = true.
Proof.
  intros Hf. induction s as [|a s IH]; [done|]. cbn. intros H.
  apply andb_true_iff in H as [Ha Hs]. by rewrite Hf, IH.
Qed.

Lemma sforall_split_on p c s : sforall p s = true -> Forall (fun x => sforall p x = true) (split_on c s).
Proof.
  induction s as [|a t IH]; cbn [split_on sforall]; [by repeat constructor|].
  intros H. apply andb_true_iff in H as [Ha Ht]. specialize (IH Ht).
  destruct (Ascii.eqb a c); [by constructor|].
  destruct (split_on c t) as [|h r]; [constructor; [cbn; by rewrite Ha|constructor]|].
  inversion IH; subst. constructor; [cbn; by rewrite Ha|done].
Qed.

Lemma sforall_sjoin p sep l :
  sforall p sep = true -> Forall (fun x => sforall p x = true) l -> sforall p (sjoin sep l) = true.
Proof.
  intros Hs. induction 1 as [|x l Hx Hl IH]; [done|]. cbn [sjoin]. destruct l; [exact Hx|].
  by rewrite !sforall_app, Hx, Hs, IH.
Qed.

Lemma sforall_weaken (p q : ascii -> bool) s :
  (forall c, p c = true -> q c = true) -> sforall p s = true -> sforall q s = true.
Proof.
  intros H. induction s as [|a s IH]; [done|]. cbn. intros Hs. apply andb_true_iff in Hs as [Ha Hs].
  by rewrite H, IH.
Qed.

Lemma sforall_both p q s : sforall p s = true -> sforall q s = true -> sforall (fun c => p c && q c) s = true.
Proof.
  induction s as [|a s IH]; [done|]. cbn. intros H1 H2. apply andb_true_iff in H1 as [-> H1], H2 as [-> H2].
  by apply IH.
Qed.

(** Text without blanks is its own [strip]. *)
Lemma strip_id s : sforall (fun c => negb (is_space c)) s = true -> strip s = s.
Proof.
  intros H. assert (T : forall t, sforall (fun c => negb (is_space c)) t = true -> drop_while is_space t = t).
  { intros [|c t] Ht; [done|]. cbn in Ht |- *. apply andb_true_iff in Ht as [Hc _].
    apply negb_true_iff in Hc. by rewrite Hc. }
  unfold strip, rstrip_by, lstrip. rewrite (T s H), T, srev_involutive; [done|]. by rewrite sforall_srev.
Qed.

(** ** The order of strings *)

Lemma ascii_compare_trans a b c : Ascii.compare a b = Lt -> Ascii.compare b c = Lt -> Ascii.compare a c = Lt.
Proof. unfold Ascii.compare. rewrite !N.compare_lt_iff. lia. Qed.

Lemma ltb_trans a b c : String.ltb a b = true -> String.ltb b c = true -> String.ltb a c = true.
Proof.
  unfold String.ltb. assert (H : String.compare a b = Lt -> String.compare b c = Lt -> String.compare a c = Lt).
  { revert b c. induction a as [|x a IH]; intros [|y b] [|z c]; try done. cbn [String.compare].
    destruct (Ascii.compare x y) eqn:E1; try done; destruct (Ascii.compare y z) eqn:E2; try done.
    - apply Ascii.compare_eq_iff in E1 as ->. rewrite E2. apply IH.
    - apply Ascii.compare_eq_iff in E1 as ->. by rewrite E2.
    - apply Ascii.compare_eq_iff in E2 as ->. by rewrite E1.
    - by rewrite (ascii_compare_trans x y z). }
  destruct (String.compare a b); try done. destruct (String.compare b c); try done. by rewrite H.
Qed.

Lemma ltb_irrefl a : String.ltb a a = false.
Proof.
  unfold String.ltb. assert (H : String.compare a a = Eq); [|by rewrite H].
  induction a as [|x a IH]; [done|]. cbn. unfold Ascii.compare. by rewrite N.compare_refl.
Qed.

Lemma ltb_total a b : String.ltb a b = false -> a = b \/ String.ltb b a = true.
Proof.
  unfold String.ltb. rewrite (String.compare_antisym b a). destruct (String.compare a b) eqn:E; cbn; [|done|by right].
  intros _. left. by apply String.compare_eq_iff.
Qed.

Lemma compare_app a : forall b s t, String.length a = String.length b ->
  String.compare (a +:+ s) (b +:+ t) = match String.compare a b with Eq => String.compare s t | c => c end.
Proof.
  induction a as [|c a IH]; intros [|e b] s t L; try discriminate L; [done|].
  rewrite !app_cons. cbn [String.compare]. destruct (Ascii.compare c e); [|done|done].
  apply IH. by injection L.
Qed.

Lemma prefix_split p : forall s, String.prefix p s = true -> s = p +:+ sdrop (String.length p) s.
Proof.
  induction p as [|c p IH]; intros s H; [by destruct s|]. destruct s as [|d s]; [done|].
  cbn in H. destruct (ascii_dec c d) as [->|]; [|done]. rewrite app_cons. cbn [String.length sdrop]. f_equal. by apply IH.
Qed.

Lemma digit_val_range c : is_digit c = true -> (0 <= digit_val c <= 9)%Z.
Proof. unfold is_digit, in_range, digit_val. rewrite andb_true_iff, !N.leb_le. lia. Qed.

Lemma digit_not_space c : is_digit c = true -> is_space c = false.
Proof. by destruct c as [[] [] [] [] [] [] [] []]. Qed.

Lemma one_in_spec l s : one_in l s = true <-> s ∈ l.
Proof.
  unfold one_in. rewrite existsb_exists. split; [intros (x & I & E); apply String.eqb_eq in E as ->; by apply list_elem_of_In|].
  intros I. exists s. split; [by apply list_elem_of_In|apply String.eqb_refl].
Qed.

