(* ===== verification/DecText.v ===== *)
(** * DecText: the decimal text of an int

    [int(str(n)) == n], and the characters of [str(n)]. *)

From Stdlib Require Import DecimalZ DecimalPos DecimalString.
From S2P Require Import Prelude PyStr.
Open Scope string_scope.
Open Scope Z_scope.

Fixpoint uint_val (acc : Z) (u : Decimal.uint) : Z :=
  match u with
  | Decimal.Nil => acc
  | Decimal.D0 u => uint_val (10 * acc + 0) u | Decimal.D1 u => uint_val (10 * acc + 1) u
  | Decimal.D2 u => uint_val (10 * acc + 2) u | Decimal.D3 u => uint_val (10 * acc + 3) u
  | Decimal.D4 u => uint_val (10 * acc + 4) u | Decimal.D5 u => uint_val (10 * acc + 5) u
  | Decimal.D6 u => uint_val (10 * acc + 6) u | Decimal.D7 u => uint_val (10 * acc + 7) u
  | Decimal.D8 u => uint_val (10 * acc + 8) u | Decimal.D9 u => uint_val (10 * acc + 9) u
  end.

Lemma uint_acc u : forall p, Zpos (Pos.of_uint_acc u p) = uint_val (Zpos p) u.
Proof. induction u; intros p; cbn [Pos.of_uint_acc uint_val]; rewrite ?IHu; f_equal; lia. Qed.

Lemma uint_of u : Z.of_N (Pos.of_uint u) = uint_val 0 u.
Proof. induction u; cbn [Pos.of_uint uint_val]; try done; apply uint_acc. Qed.

Lemma digits_from_uint u : forall acc n,
  exists k, digits_from acc n (NilEmpty.string_of_uint u) = (uint_val acc u, k, "") /\ n <= k /\ (u <> Decimal.Nil -> n < k).
Proof.
  induction u; intros acc n; cbn [NilEmpty.string_of_uint digits_from uint_val].
  { exists n. split; [done|]. split; [lia|done]. }
  all: match goal with |- context [is_digit ?c] => change (is_digit c) with true end; cbn [negb];
    match goal with IH : forall acc n, _ |- context [digits_from ?a ?m _] =>
      destruct (IH a m) as (k & E & L & _); exists k; rewrite E; split; [|lia]; repeat f_equal end.
Qed.

Lemma plain_digit_head u : read_sign (NilEmpty.string_of_uint u) = (false, NilEmpty.string_of_uint u).
Proof. by destruct u. Qed.

Lemma uint_no_space u : sforall (fun c => negb (is_space c)) (NilEmpty.string_of_uint u) = true.
Proof. induction u; cbn [NilEmpty.string_of_uint sforall]; rewrite ?IHu; done. Qed.

Lemma uint_char p u : (forall c, is_digit c = true -> p c = true) -> sforall p (NilEmpty.string_of_uint u) = true.
Proof. intros H. induction u; cbn [NilEmpty.string_of_uint sforall]; rewrite ?IHu, ?H; done. Qed.

Lemma nilzero_nonnil u : u <> Decimal.Nil -> NilZero.string_of_uint u = NilEmpty.string_of_uint u.
Proof. by destruct u. Qed.

Lemma to_uint_nonnil p : Pos.to_uint p <> Decimal.Nil.
Proof. apply Unsigned.to_uint_nonnil. Qed.

(** [int(str(n)) == n] *)
Lemma int_of_str_of_Z z : int_of_str (str_of_Z z) = Ok z.
Proof.
  unfold str_of_Z, int_of_str. destruct z as [|p|p]; [done| |].
  - cbn [Z.to_int NilZero.string_of_int]. pose proof (to_uint_nonnil p) as N.
    rewrite nilzero_nonnil, strip_id, plain_digit_head by (done || apply uint_no_space).
    destruct (digits_from_uint (Pos.to_uint p) 0 0) as (k & -> & _ & K).
    rewrite (proj2 (Z.ltb_lt 0 k)) by auto. rewrite <-uint_of, Unsigned.of_to. done.
  - cbn [Z.to_int NilZero.string_of_int]. pose proof (to_uint_nonnil p) as N.
    rewrite nilzero_nonnil by done. rewrite strip_id by (cbn [sforall]; apply uint_no_space). cbn [read_sign].
    destruct (digits_from_uint (Pos.to_uint p) 0 0) as (k & -> & _ & K).
    rewrite (proj2 (Z.ltb_lt 0 k)) by auto. rewrite <-uint_of, Unsigned.of_to. done.
Qed.

Lemma str_of_nat_digits z : 0 <= z -> sforall is_digit (str_of_Z z) = true.
Proof.
  intros L. unfold str_of_Z. destruct z as [|p|p]; [done| |lia]. cbn [Z.to_int NilZero.string_of_int].
  rewrite nilzero_nonnil by apply to_uint_nonnil. by apply uint_char.
Qed.

Definition no_dot (s : string) : bool := sforall (fun c => negb (Ascii.eqb c ".")) s.

Lemma str_of_Z_no_dot z : no_dot (str_of_Z z) = true.
Proof.
  assert (forall c, is_digit c = true -> negb (Ascii.eqb c ".") = true) as D.
  { intros c H. destruct (Ascii.eqb_spec c "."%char) as [->|]; done. }
  destruct (Z.le_gt_cases 0 z) as [L|G].
  - eapply sforall_weaken; [apply D|by apply str_of_nat_digits].
  - destruct z as [|p|p]; [lia|lia|]. unfold no_dot, str_of_Z. cbn [Z.to_int NilZero.string_of_int sforall].
    rewrite nilzero_nonnil by apply to_uint_nonnil. by apply uint_char.
Qed.

(** Digits denote no negative number. *)
Lemma digits_from_nonneg s : sforall is_digit s = true -> forall acc n, 0 <= acc -> 0 <= fst (fst (digits_from acc n s)).
Proof.
  induction s as [|c s IH]; intros D acc n A; [exact A|]. cbn [sforall] in D. apply andb_prop in D as [C D].
  cbn [digits_from]. rewrite C. apply IH; [done|]. pose proof (digit_val_range c C). lia.
Qed.

Lemma int_of_digits_nonneg s n : sforall is_digit s = true -> int_of_str s = Ok n -> 0 <= n.
Proof.
  intros D. unfold int_of_str. rewrite strip_id by (eapply sforall_weaken; [|exact D]; intros c C; by rewrite digit_not_space).
  assert (read_sign s = (false, s)) as ->.
  { destruct s as [|c s]; [done|]. cbn [sforall] in D. apply andb_prop in D as [C _]. cbn [read_sign].
    destruct c as [[] [] [] [] [] [] [] []]; (discriminate C || done). }
  pose proof (digits_from_nonneg s D 0 0 ltac:(lia)) as N. destruct (digits_from 0 0 s) as [[v k] [|? ?]]; [|done].
  cbn [fst] in N. destruct (0 <? k); [|done]. by intros [= <-].
Qed.
