(* ===== verification/Float64.v ===== *)
(** * Float64: Python floats

    A [float] is a finite value, held as the rational it denotes, an infinity
    or a NaN.  Every arithmetic operation is the exact rational result rounded
    to the binary64 grid (53 significant bits, least exponent -1074, ties to
    even) and overflows to an infinity at 2^1024, as IEEE 754 prescribes.  The
    sign of a zero is not kept: no comparison or sum of the sources sees it. *)

From S2P Require Import Prelude.
From Stdlib Require Import QArith Qround Lqa Qabs Qpower Qminmax.
Open Scope Q_scope.

(** Round half to even: Python's [round] on the exact value. *)
Definition rhe (q : Q) : Z :=
  let n := Qnum q in
  let d := Zpos (Qden q) in
  let f := (n / d)%Z in
  let r := (n mod d)%Z in
  match (2 * r ?= d)%Z with
  | Lt => f
  | Gt => (f + 1)%Z
  | Eq => if Z.even f then f else (f + 1)%Z
  end.

Lemma half_below n d z :
  inject_Z z - (1#2) <= n # d <-> (2 * z * Zpos d - Zpos d <= 2 * n)%Z.
Proof. unfold Qle, Qminus, Qplus, Qopp, inject_Z; cbn -[Z.mul Z.add Pos.mul]. rewrite ?Pos2Z.inj_mul. lia. Qed.

Lemma half_above n d z :
  n # d <= inject_Z z + (1#2) <-> (2 * n <= 2 * z * Zpos d + Zpos d)%Z.
Proof. unfold Qle, Qplus, inject_Z; cbn -[Z.mul Z.add Pos.mul]. rewrite ?Pos2Z.inj_mul. lia. Qed.

Lemma half_below_eq n d z :
  n # d == inject_Z z - (1#2) <-> (2 * z * Zpos d - Zpos d = 2 * n)%Z.
Proof. unfold Qeq, Qminus, Qplus, Qopp, inject_Z; cbn -[Z.mul Z.add Pos.mul]. rewrite ?Pos2Z.inj_mul. lia. Qed.

Lemma half_above_eq n d z :
  n # d == inject_Z z + (1#2) <-> (2 * n = 2 * z * Zpos d + Zpos d)%Z.
Proof. unfold Qeq, Qplus, inject_Z; cbn -[Z.mul Z.add Pos.mul]. rewrite ?Pos2Z.inj_mul. lia. Qed.

Lemma rhe_spec q :
  inject_Z (rhe q) - (1#2) <= q <= inject_Z (rhe q) + (1#2) /\
  (q == inject_Z (rhe q) - (1#2) \/ q == inject_Z (rhe q) + (1#2) -> Z.even (rhe q) = true).
Proof.
  destruct q as [n d]. rewrite half_below, half_above, half_below_eq, half_above_eq.
  unfold rhe, Qnum, Qden.
  pose proof (Z.div_mod n (Zpos d) ltac:(lia)) as Hdm.
  pose proof (Z.mod_pos_bound n (Zpos d) ltac:(lia)) as Hb.
  set (f := (n / Zpos d)%Z) in *. set (r := (n mod Zpos d)%Z) in *.
  clearbody f r.
  destruct (Z.compare_spec (2 * r) (Zpos d)) as [E|E|E].
  - destruct (Z.even f) eqn:Ev.
    + split; [split; lia|]. intros _; exact Ev.
    + split; [split; lia|]. intros _. rewrite Z.even_add, Ev. reflexivity.
  - split; [split; lia|]. intros [H|H]; exfalso; lia.
  - split; [split; lia|]. intros [H|H]; exfalso; lia.
Qed.

Lemma inject_Z_lt_le z1 z2 : (z1 < z2)%Z -> inject_Z z1 + 1 <= inject_Z z2.
Proof. intros H. unfold Qle, Qplus, inject_Z; simpl. lia. Qed.

Lemma rhe_mono x y : x <= y -> (rhe x <= rhe y)%Z.
Proof.
  intros H. destruct (rhe_spec x) as [[A B] C], (rhe_spec y) as [[A' B'] C'].
  destruct (Z.le_gt_cases (rhe x) (rhe y)) as [|G]; [assumption|exfalso].
  pose proof (inject_Z_lt_le _ _ G) as G'.
  assert (X : x == inject_Z (rhe x) - (1#2)) by lra.
  assert (Y : y == inject_Z (rhe y) + (1#2)) by lra.
  assert (Hz : inject_Z (rhe x) == inject_Z (rhe y) + 1) by lra.
  assert (rhe x = rhe y + 1)%Z as E by (unfold Qeq, Qplus, inject_Z in Hz; simpl in Hz; lia).
  specialize (C (or_introl X)). specialize (C' (or_intror Y)).
  rewrite E, Z.even_add, C' in C. discriminate.
Qed.

Lemma rhe_inject z : rhe (inject_Z z) = z.
Proof.
  unfold rhe, inject_Z; simpl. rewrite Z.div_1_r, Z.mod_1_r. reflexivity.
Qed.

#[export] Instance rhe_proper : Proper (Qeq ==> eq) rhe.
Proof.
  intros x y H. apply Z.le_antisymm; apply rhe_mono; rewrite H; apply Qle_refl.
Qed.

(** [ilog2 q] is the floor of the binary logarithm of a positive [q]. *)
Definition ilog2 (q : Q) : Z :=
  let n := Qnum q in let d := Zpos (Qden q) in
  let e := (Z.log2 n - Z.log2 d)%Z in
  if Qle_bool (Qpower 2 e) q then e else (e - 1)%Z.

Lemma ilog2_spec q : 0 < q -> Qpower 2 (ilog2 q) <= q /\ q < Qpower 2 (ilog2 q + 1).
Proof.
  intros Hq. unfold ilog2. destruct q as [n d]. simpl Qnum; simpl Qden.
  assert (Hn : (0 < n)%Z) by (unfold Qlt in Hq; simpl in Hq; lia).
  pose proof (Z.log2_spec n Hn) as [L1 L2].
  pose proof (Z.log2_spec (Zpos d) ltac:(lia)) as [M1 M2].
  pose proof (Z.log2_nonneg n) as P1. pose proof (Z.log2_nonneg (Zpos d)) as P2.
  set (a := Z.log2 n) in *. set (b := Z.log2 (Zpos d)) in *.
  assert (Hpow : forall z, (0 <= z)%Z -> Qpower 2 z == inject_Z (2 ^ z)).
  { intros z Hz. change 2 with (inject_Z 2). rewrite <- Zpower_Qpower by lia. reflexivity. }
  assert (Hdiv : (n # d) * inject_Z (Zpos d) == inject_Z n).
  { unfold Qeq, Qmult, inject_Z; simpl. lia. }
  assert (Hd0 : 0 < inject_Z (Zpos d)) by (unfold Qlt; simpl; lia).
  assert (U : (n # d) < Qpower 2 (a - b + 1)).
  { apply (Qmult_lt_r _ _ (inject_Z (Zpos d)) Hd0).
    rewrite Hdiv.
    apply Qlt_le_trans with (Qpower 2 (a - b + 1) * Qpower 2 b).
    - rewrite <- Qpower_plus by (intros E; discriminate E).
      replace (a - b + 1 + b)%Z with (a + 1)%Z by lia. rewrite Hpow by lia. rewrite <- Zlt_Qlt.
      rewrite <- Z.add_1_r in L2. lia.
    - rewrite Qmult_comm, (Qmult_comm _ (inject_Z (Zpos d))).
      apply Qmult_le_compat_r.
      + rewrite Hpow by lia. rewrite <- Zle_Qle. lia.
      + apply Qpower_pos. discriminate. }
  assert (D : Qpower 2 (a - b - 1) <= (n # d)).
  { apply (Qmult_le_r _ _ (inject_Z (Zpos d)) Hd0).
    rewrite Hdiv.
    apply Qle_trans with (Qpower 2 (a - b - 1) * Qpower 2 (b + 1)).
    - rewrite Qmult_comm, (Qmult_comm _ (Qpower 2 (b + 1))).
      apply Qmult_le_compat_r.
      + rewrite Hpow by lia. rewrite <- Zle_Qle. rewrite <- Z.add_1_r in M2. lia.
      + apply Qpower_pos. discriminate.
    - rewrite <- Qpower_plus by (intros E; discriminate E).
      replace (a - b - 1 + (b + 1))%Z with a by lia. rewrite Hpow by lia. rewrite <- Zle_Qle. lia. }
  destruct (Qle_bool (Qpower 2 (a - b)) (n # d)) eqn:E.
  - apply Qle_bool_iff in E. split; [exact E|exact U].
  - split; [exact D|]. replace (a - b - 1 + 1)%Z with (a - b)%Z by lia.
    apply Qnot_le_lt. intros F. apply Qle_bool_iff in F. congruence.
Qed.

(** ** Rounding to the 53-bit grid *)

Definition grid_exp (q : Q) : Z := Z.max (ilog2 q - 52) (-1074).

Definition to_grid (e : Z) (q : Q) : Q := inject_Z (rhe (q * 2 ^ (- e))) * 2 ^ e.

Definition rnd (q : Q) : Q :=
  match q ?= 0 with
  | Eq => 0
  | Gt => Qred (to_grid (grid_exp q) q)
  | Lt => Qred (- to_grid (grid_exp (- q)) (- q))
  end.

Lemma pow2_pos e : 0 < 2 ^ e.
Proof. apply Qpower_0_lt. reflexivity. Qed.

Lemma pow2_inject z : (0 <= z)%Z -> 2 ^ z == inject_Z (2 ^ z).
Proof. intros H. rewrite Zpower_Qpower by exact H. reflexivity. Qed.

Lemma pow2_cancel e : 2 ^ (- e) * 2 ^ e == 1.
Proof.
  rewrite <- Qpower_plus by (intros E; discriminate E).
  replace (- e + e)%Z with 0%Z by lia. reflexivity.
Qed.

Lemma to_grid_le e x y : x <= y -> to_grid e x <= to_grid e y.
Proof.
  intros H. unfold to_grid. apply Qmult_le_compat_r; [|apply Qlt_le_weak, pow2_pos].
  rewrite <- Zle_Qle. apply rhe_mono, Qmult_le_compat_r; [exact H|apply Qlt_le_weak, pow2_pos].
Qed.

(** A multiple of the grid step is a fixed point. *)
Lemma to_grid_fix e k : to_grid e (inject_Z k * 2 ^ e) == inject_Z k * 2 ^ e.
Proof.
  unfold to_grid.
  assert (E : inject_Z k * 2 ^ e * 2 ^ (- e) == inject_Z k).
  { rewrite <- Qmult_assoc, (Qmult_comm (2 ^ e)), pow2_cancel. ring. }
  rewrite E, rhe_inject. reflexivity.
Qed.

Lemma pow2_on_grid e l : (e <= l)%Z -> 2 ^ l == inject_Z (2 ^ (l - e)) * 2 ^ e.
Proof.
  intros H. rewrite <- pow2_inject by lia.
  rewrite <- Qpower_plus by (intros E; discriminate E).
  replace (l - e + e)%Z with l by lia. reflexivity.
Qed.

#[export] Instance to_grid_proper : Proper (eq ==> Qeq ==> Qeq) to_grid.
Proof. intros e ? <- x y H. unfold to_grid. rewrite H. reflexivity. Qed.

Lemma to_grid_pow2 e l : (e <= l)%Z -> to_grid e (2 ^ l) == 2 ^ l.
Proof. intros H. rewrite (pow2_on_grid e l H). apply to_grid_fix. Qed.

Lemma ilog2_mono x y : 0 < x -> x <= y -> (ilog2 x <= ilog2 y)%Z.
Proof.
  intros Hx H. destruct (ilog2_spec x Hx) as [A _].
  destruct (ilog2_spec y ltac:(lra)) as [_ B].
  assert (C : ~ (2 ^ (ilog2 y + 1) <= 2 ^ (ilog2 x))) by lra.
  destruct (Z.le_gt_cases (ilog2 x) (ilog2 y)) as [|G]; [assumption|].
  exfalso. apply C. apply Qpower_le_compat_l; [lia|discriminate].
Qed.

Lemma rnd_pos_mono x y :
  0 < x -> x <= y -> to_grid (grid_exp x) x <= to_grid (grid_exp y) y.
Proof.
  intros Hx H. pose proof (ilog2_mono x y Hx H) as Hl.
  destruct (Z.eq_dec (grid_exp x) (grid_exp y)) as [->|Hne].
  { apply to_grid_le, H. }
  destruct (ilog2_spec x Hx) as [_ A]. destruct (ilog2_spec y ltac:(lra)) as [B _].
  unfold grid_exp in *.
  set (ex := Z.max (ilog2 x - 52) (-1074)) in *. set (ey := Z.max (ilog2 y - 52) (-1074)) in *.
  assert (K : (ilog2 x + 1 <= ilog2 y)%Z) by lia.
  apply Qle_trans with (2 ^ ilog2 y).
  - rewrite <- (to_grid_pow2 ex (ilog2 y)) by lia. apply to_grid_le.
    apply Qlt_le_weak, Qlt_le_trans with (2 ^ (ilog2 x + 1)); [exact A|].
    apply Qpower_le_compat_l; [exact K|discriminate].
  - rewrite <- (to_grid_pow2 ey (ilog2 y)) at 1 by lia. apply to_grid_le, B.
Qed.

Lemma to_grid_0 e : to_grid e 0 == 0.
Proof. rewrite <- (Qmult_0_l (2 ^ e)) at 1. apply (to_grid_fix e 0). Qed.

Lemma to_grid_nonneg e x : 0 <= x -> 0 <= to_grid e x.
Proof. intros H. rewrite <- (to_grid_0 e). apply to_grid_le, H. Qed.

(** Rounding is monotone: the one fact every bound on a rounded sum rests on. *)
Lemma rnd_mono x y : x <= y -> rnd x <= rnd y.
Proof.
  intros H. unfold rnd.
  destruct (Qcompare_spec x 0) as [X|X|X], (Qcompare_spec y 0) as [Y|Y|Y];
    rewrite ?Qred_correct; try lra.
  - apply to_grid_nonneg; lra.
  - assert (0 <= to_grid (grid_exp (- x)) (- x)) by (apply to_grid_nonneg; lra). lra.
  - assert (to_grid (grid_exp (- y)) (- y) <= to_grid (grid_exp (- x)) (- x))
      by (apply rnd_pos_mono; lra). lra.
  - assert (0 <= to_grid (grid_exp (- x)) (- x)) by (apply to_grid_nonneg; lra).
    assert (0 <= to_grid (grid_exp y) y) by (apply to_grid_nonneg; lra). lra.
  - apply rnd_pos_mono; lra.
Qed.

Lemma rnd_nonneg x : 0 <= x -> 0 <= rnd x.
Proof. intros H. change 0 with (rnd 0). apply rnd_mono, H. Qed.

(** Integers of at most 53 bits are representable. *)
Lemma rnd_int_pos k : (0 < k < 2 ^ 53)%Z -> rnd (inject_Z k) == inject_Z k.
Proof.
  intros Hk. unfold rnd.
  assert (P : 0 < inject_Z k) by (rewrite Zlt_Qlt in Hk; apply Hk).
  destruct (Qcompare_spec (inject_Z k) 0) as [X|X|X]; [lra|lra|].
  rewrite Qred_correct.
  destruct (ilog2_spec _ P) as [A _].
  assert (L : (ilog2 (inject_Z k) < 53)%Z).
  { destruct (Z.lt_ge_cases (ilog2 (inject_Z k)) 53) as [|G]; [assumption|exfalso].
    assert (2 ^ 53 <= inject_Z k).
    { eapply Qle_trans; [|exact A]. apply Qpower_le_compat_l; [exact G|discriminate]. }
    rewrite pow2_inject, <- Zle_Qle in H by lia. lia. }
  set (e := grid_exp (inject_Z k)).
  assert (He : (e <= 0)%Z) by (unfold e, grid_exp; lia).
  assert (E : inject_Z k == inject_Z (k * 2 ^ (- e)) * 2 ^ e).
  { rewrite inject_Z_mult, <- pow2_inject by lia.
    rewrite <- Qmult_assoc, pow2_cancel. ring. }
  rewrite E at 1. rewrite to_grid_fix. symmetry. exact E.
Qed.

Lemma rnd_0 : rnd 0 = 0.
Proof. reflexivity. Qed.

#[export] Instance rnd_proper : Proper (Qeq ==> Qeq) rnd.
Proof. intros x y H. apply Qle_antisym; apply rnd_mono; rewrite H; apply Qle_refl. Qed.

Lemma rnd_nonpos x : x <= 0 -> rnd x <= 0.
Proof. intros H. rewrite <-rnd_0. by apply rnd_mono. Qed.

Lemma rnd_int k : (0 <= k < 2 ^ 53)%Z -> rnd (inject_Z k) == inject_Z k.
Proof.
  intros H. destruct (Z.eq_dec k 0) as [->|N]; [reflexivity|]. apply rnd_int_pos. lia.
Qed.

(** Bounds that are integers survive rounding. *)
Lemma rnd_le_int x k : (0 <= k < 2 ^ 53)%Z -> x <= inject_Z k -> rnd x <= inject_Z k.
Proof. intros Hk H. rewrite <- (rnd_int k Hk). apply rnd_mono, H. Qed.

Lemma rnd_ge_int x k : (0 <= k < 2 ^ 53)%Z -> inject_Z k <= x -> inject_Z k <= rnd x.
Proof. intros Hk H. rewrite <- (rnd_int k Hk). apply rnd_mono, H. Qed.

Lemma rnd_opp q : 0 < q -> rnd (- q) == - rnd q.
Proof.
  intros H. unfold rnd.
  assert (E : - - q = q) by (destruct q as [n d]; unfold Qopp; cbn; by rewrite Z.opp_involutive).
  rewrite (proj1 (Qlt_alt (- q) 0)) by lra. rewrite (proj1 (Qgt_alt q 0)) by lra.
  rewrite E, !Qred_correct. reflexivity.
Qed.

Lemma rnd_neg_int k : (0 <= k < 2 ^ 53)%Z -> rnd (- inject_Z k) == - inject_Z k.
Proof.
  intros H. destruct (Z.eq_dec k 0) as [->|N]; [reflexivity|].
  rewrite rnd_opp, rnd_int by (try exact H; change 0 with (inject_Z 0); rewrite <- Zlt_Qlt; lia). reflexivity.
Qed.

(** ** Float values *)

Inductive fl := Fin (q : Q) | PInf | NInf | NaN.

Definition fl_max_pow : Q := inject_Z (2 ^ 1024).

Definition mk (q : Q) : fl :=
  let r := rnd q in
  if Qle_bool fl_max_pow r then PInf
  else if Qle_bool r (- fl_max_pow) then NInf else Fin r.

Definition fneg (x : fl) : fl :=
  match x with Fin q => Fin (- q) | PInf => NInf | NInf => PInf | NaN => NaN end.

Definition fadd (x y : fl) : fl :=
  match x, y with
  | NaN, _ | _, NaN => NaN
  | PInf, NInf | NInf, PInf => NaN
  | PInf, _ | _, PInf => PInf
  | NInf, _ | _, NInf => NInf
  | Fin a, Fin b => mk (a + b)
  end.

Definition fsub (x y : fl) : fl := fadd x (fneg y).

Definition inf_of_sign (c : comparison) : fl :=
  match c with Eq => NaN | Gt => PInf | Lt => NInf end.

Definition fmul (x y : fl) : fl :=
  match x, y with
  | NaN, _ | _, NaN => NaN
  | Fin a, Fin b => mk (a * b)
  | Fin a, PInf | PInf, Fin a => inf_of_sign (a ?= 0)
  | Fin a, NInf | NInf, Fin a => inf_of_sign (0 ?= a)
  | PInf, PInf | NInf, NInf => PInf
  | PInf, NInf | NInf, PInf => NInf
  end.

(** Division: Python raises on a zero divisor instead of giving an infinity. *)
Definition fdiv (x y : fl) : res fl :=
  match y with
  | Fin b =>
      if Qeq_bool b 0 then Raise ZeroDivisionError
      else Ok (match x with
               | Fin a => mk (a / b)
               | PInf => inf_of_sign (b ?= 0)
               | NInf => inf_of_sign (0 ?= b)
               | NaN => NaN
               end)
  | PInf | NInf => Ok (match x with Fin _ => Fin 0 | _ => NaN end)
  | NaN => Ok NaN
  end.

Definition flt (x y : fl) : bool :=
  match x, y with
  | NaN, _ | _, NaN => false
  | Fin a, Fin b => negb (Qle_bool b a)
  | NInf, NInf | PInf, _ | _, NInf => false
  | NInf, _ | _, PInf => true
  end.

Definition feq (x y : fl) : bool :=
  match x, y with
  | Fin a, Fin b => Qeq_bool a b
  | PInf, PInf | NInf, NInf => true
  | _, _ => false
  end.

Definition fle (x y : fl) : bool := flt x y || feq x y.

(** Python's [max(a, b)] and [min(a, b)]: the first argument unless the second beats it. *)
Definition fmax (a b : fl) : fl := if flt a b then b else a.
Definition fmin (a b : fl) : fl := if flt b a then b else a.

Definition isnan (x : fl) : bool := match x with NaN => true | _ => false end.

(** A decimal literal: the nearest float. *)
Definition lit (q : Q) : fl := Fin (rnd q).

Definition f0 : fl := Fin 0.
Definition f1 : fl := Fin 1.

(** [float(n)] for an int. *)
Definition fl_of_int (z : Z) : res fl :=
  match mk (inject_Z z) with Fin q => Ok (Fin q) | _ => Raise OverflowError end.

(** [a / b] on ints: the correctly rounded quotient. *)
Definition int_truediv (a b : Z) : res fl :=
  if (b =? 0)%Z then Raise ZeroDivisionError
  else match mk (inject_Z a / inject_Z b) with Fin q => Ok (Fin q) | _ => Raise OverflowError end.

(** [round(x)]: an int. *)
Definition round_int (x : fl) : res Z :=
  match x with
  | Fin q => Ok (rhe q)
  | PInf | NInf => Raise OverflowError
  | NaN => Raise ValueError
  end.

(** [round(x, n)]: the float nearest the half-even decimal rounding of the exact value. *)
Definition round_nd (x : fl) (n : Z) : fl :=
  match x with
  | Fin q => mk (inject_Z (rhe (q * inject_Z (10 ^ n))) / inject_Z (10 ^ n))
  | _ => x
  end.

(** [int(x)]: truncation toward zero. *)
Definition int_of_fl (x : fl) : res Z :=
  match x with
  | Fin q => Ok (Z.quot (Qnum q) (Zpos (Qden q)))
  | PInf | NInf => Raise OverflowError
  | NaN => Raise ValueError
  end.

(** [math.ceil(x)] *)
Definition ceil_of_fl (x : fl) : res Z :=
  match x with
  | Fin q => Ok (Qceiling q)
  | PInf | NInf => Raise OverflowError
  | NaN => Raise ValueError
  end.

(** ** Ranges

    [within lo hi x]: the float is finite and lies in the closed range. *)

Definition within (lo hi : Q) (x : fl) : Prop := exists q, x = Fin q /\ lo <= q <= hi.

Lemma mk_fin q : - inject_Z (2 ^ 52) <= q <= inject_Z (2 ^ 52) -> mk q = Fin (rnd q).
Proof.
  intros [H1 H2]. unfold mk.
  assert (U : rnd q <= inject_Z (2 ^ 52)).
  { apply Qle_trans with (rnd (inject_Z (2 ^ 52))); [apply rnd_mono, H2|vm_compute; discriminate]. }
  assert (L : - inject_Z (2 ^ 52) <= rnd q).
  { apply Qle_trans with (rnd (- inject_Z (2 ^ 52))); [vm_compute; discriminate|apply rnd_mono, H1]. }
  assert (B : inject_Z (2 ^ 52) < fl_max_pow) by (vm_compute; reflexivity).
  destruct (Qle_bool fl_max_pow (rnd q)) eqn:E1; [apply Qle_bool_iff in E1; lra|].
  destruct (Qle_bool (rnd q) (- fl_max_pow)) eqn:E2; [apply Qle_bool_iff in E2; lra|reflexivity].
Qed.

Lemma mk_within lo hi q :
  - inject_Z (2 ^ 52) <= q <= inject_Z (2 ^ 52) -> lo <= rnd q <= hi -> within lo hi (mk q).
Proof. intros B H. exists (rnd q). split; [apply mk_fin, B|exact H]. Qed.

Lemma flt_fin a b : flt (Fin a) (Fin b) = true <-> a < b.
Proof.
  simpl. rewrite negb_true_iff. split.
  - intros E. apply Qnot_le_lt. intros H. apply Qle_bool_iff in H. congruence.
  - intros H. destruct (Qle_bool b a) eqn:E; [apply Qle_bool_iff in E; lra|reflexivity].
Qed.

Lemma fle_fin a b : fle (Fin a) (Fin b) = true <-> a <= b.
Proof.
  unfold fle. rewrite orb_true_iff, flt_fin. simpl. rewrite Qeq_bool_iff. split; [lra|].
  intros H. destruct (Qlt_le_dec a b); [by left|right; lra].
Qed.

Lemma fle_fin_false a b : fle (Fin a) (Fin b) = false <-> b < a.
Proof.
  split; intros H.
  - apply Qnot_le_lt. intros E. apply fle_fin in E. congruence.
  - destruct (fle (Fin a) (Fin b)) eqn:E; [apply fle_fin in E; lra|reflexivity].
Qed.

Lemma flt_fin_false a b : flt (Fin a) (Fin b) = false <-> b <= a.
Proof.
  split; intros H.
  - apply Qnot_lt_le. intros E. apply flt_fin in E. congruence.
  - destruct (flt (Fin a) (Fin b)) eqn:E; [apply flt_fin in E; lra|reflexivity].
Qed.

(** [max(lo, min(hi, x))], the clamp the sources write: a NaN is clamped too. *)
Lemma clamp_within lo hi x : lo <= hi -> within lo hi (fmax (Fin lo) (fmin (Fin hi) x)).
Proof.
  intros H. unfold fmax, fmin.
  assert (B : within lo hi (if flt (Fin lo) (Fin hi) then Fin hi else Fin lo)).
  { destruct (flt _ _); [exists hi|exists lo]; (split; [reflexivity|lra]). }
  destruct x as [q| | |]; try exact B.
  - destruct (flt (Fin q) (Fin hi)) eqn:E1; [|exact B].
    apply flt_fin in E1. destruct (flt (Fin lo) (Fin q)) eqn:E2.
    + apply flt_fin in E2. exists q. split; [reflexivity|lra].
    + exists lo. split; [reflexivity|lra].
  - cbn. exists lo. split; [reflexivity|lra].
Qed.

Lemma fadd_within a b c d x y :
  within a b x -> within c d y ->
  - inject_Z (2 ^ 52) <= a + c -> b + d <= inject_Z (2 ^ 52) ->
  within (rnd (a + c)) (rnd (b + d)) (fadd x y).
Proof.
  intros (p & -> & Hp) (q & -> & Hq) L U. simpl. apply mk_within; [lra|].
  split; apply rnd_mono; lra.
Qed.

Lemma fmul_within_pos b d x y :
  within 0 b x -> within 0 d y -> b * d <= inject_Z (2 ^ 52) ->
  within 0 (rnd (b * d)) (fmul x y).
Proof.
  intros (p & -> & Hp) (q & -> & Hq) U. simpl.
  assert (P : 0 <= p * q) by (apply Qmult_le_0_compat; lra).
  assert (PQ : p * q <= b * d).
  { apply Qle_trans with (b * q); [apply Qmult_le_compat_r; lra|].
    rewrite (Qmult_comm b q), (Qmult_comm b d). apply Qmult_le_compat_r; lra. }
  apply mk_within; [|split; [apply rnd_nonneg, P|apply rnd_mono, PQ]].
  split; [|lra]. apply Qle_trans with 0; [discriminate|exact P].
Qed.

Lemma within_weaken a b c d x : within a b x -> c <= a -> b <= d -> within c d x.
Proof. intros (q & E & H) L U. exists q. split; [exact E|lra]. Qed.

Lemma within_fle lo hi x : within lo hi x -> fle (Fin lo) x = true /\ fle x (Fin hi) = true.
Proof. intros (q & -> & H). rewrite !fle_fin. lra. Qed.

(** Evaluate the comparisons between float constants in the goal. *)
Ltac is_lit t := lazymatch t with lit _ => idtac | f0 => idtac | f1 => idtac end.

Ltac lit_cmp :=
  repeat match goal with
  | |- context [flt ?a ?b] =>
      is_lit a; is_lit b; let v := eval vm_compute in (flt a b) in change (flt a b) with v
  | |- context [fle ?a ?b] =>
      is_lit a; is_lit b; let v := eval vm_compute in (fle a b) in change (fle a b) with v
  | |- context [feq ?a ?b] =>
      is_lit a; is_lit b; let v := eval vm_compute in (feq a b) in change (feq a b) with v
  end.

Ltac lit_run := repeat (progress (lit_cmp; cbn [res_bind fst snd andb orb])).

(** Apart from NaN the complement of [flt] is transitive. *)
Lemma flt_asym x y : flt x y = true -> flt y x = false.
Proof. destruct x as [p| | |], y as [q| | |]; try done. rewrite flt_fin, flt_fin_false. apply Qlt_le_weak. Qed.

Lemma flt_chain x y z : isnan x = false -> isnan y = false -> isnan z = false -> flt y x = false -> flt z y = false -> flt z x = false.
Proof. destruct x as [p| | |], y as [q| | |], z as [r| | |]; try done. rewrite !flt_fin_false. intros _ _ _ A B. by eapply Qle_trans. Qed.

Lemma mk_isnan q : isnan (mk q) = false.
Proof. unfold mk. destruct (Qle_bool fl_max_pow _); [done|]. by destruct (Qle_bool _ _). Qed.
