(* ===== verification/FloatErr.v ===== *)
(** * FloatErr: rounding-error analysis and Python's [sum]

    [near eps x q]: the float [x] is finite and within [eps] of the exact
    rational [q].  One lemma per operation carries the bound through an
    expression, so a computed score is compared with its exact formula. *)

From S2P Require Import Prelude Float64.
From Stdlib Require Import QArith Qabs Lqa Qpower.
Open Scope Q_scope.

(** ** [sum] of floats: CPython 3.12's compensated summation (Neumaier) *)

Definition fabs (x : fl) : fl :=
  match x with Fin q => Fin (Qabs q) | NInf => PInf | _ => x end.

Definition sum_step (st : fl * fl) (x : fl) : fl * fl :=
  let '(s, c) := st in
  let t := fadd s x in
  if fle (fabs x) (fabs s) then (t, fadd c (fadd (fsub s t) x))
  else (t, fadd c (fadd (fsub x t) s)).

Definition is_finite (x : fl) : bool := match x with Fin _ => true | _ => false end.

Definition sum_finish (st : fl * fl) : fl :=
  let '(s, c) := st in
  if negb (feq c f0) && is_finite c then fadd s c else s.

Definition py_sum (l : list fl) : fl :=
  match l with
  | [] => f0
  | x :: t => sum_finish (fold_left sum_step t (x, f0))
  end.

(** ** The error of one rounding *)

Lemma Qabs_bound x e : - e <= x <= e -> Qabs x <= e.
Proof. intros [H1 H2]. apply Qabs_Qle_condition. lra. Qed.

Lemma to_grid_err e q : q - 2 ^ (e - 1) <= to_grid e q <= q + 2 ^ (e - 1).
Proof.
  unfold to_grid. destruct (rhe_spec (q * 2 ^ (- e))) as [[A B] _].
  set (z := inject_Z (rhe (q * 2 ^ (- e)))) in *.
  pose proof (pow2_pos e) as P.
  assert (Hq : q * 2 ^ (- e) * 2 ^ e == q) by (rewrite <- Qmult_assoc, pow2_cancel; ring).
  assert (Hh : 2 ^ e == 2 * 2 ^ (e - 1)).
  { replace e with (1 + (e - 1))%Z at 1 by lia. rewrite Qpower_plus by (intros E; discriminate E). reflexivity. }
  assert (A' : (z - (1#2)) * 2 ^ e <= q) by (rewrite <- Hq; apply Qmult_le_compat_r; lra).
  assert (B' : q <= (z + (1#2)) * 2 ^ e) by (rewrite <- Hq at 1; apply Qmult_le_compat_r; lra).
  rewrite Hh in *. lra.
Qed.

Lemma rnd_err_pos k q : (-1000 <= k)%Z -> 0 < q -> q <= 2 ^ k ->
  q - 2 ^ (k - 53) <= to_grid (grid_exp q) q <= q + 2 ^ (k - 53).
Proof.
  intros Hk H0 Hq. destruct (ilog2_spec q H0) as [A _].
  assert (L : (ilog2 q <= k)%Z).
  { destruct (Z.le_gt_cases (ilog2 q) k) as [|G]; [assumption|exfalso].
    assert (2 ^ (k + 1) <= 2 ^ k).
    { apply Qle_trans with (2 ^ ilog2 q); [apply Qpower_le_compat_l; [lia|discriminate]|lra]. }
    rewrite Qpower_plus in H by (intros E; discriminate E). pose proof (pow2_pos k).
    change (2 ^ 1) with 2 in H. lra. }
  assert (E : 2 ^ (grid_exp q - 1) <= 2 ^ (k - 53)).
  { apply Qpower_le_compat_l; [unfold grid_exp; lia|discriminate]. }
  pose proof (to_grid_err (grid_exp q) q). lra.
Qed.

Lemma rnd_err k q : (-1000 <= k)%Z -> - 2 ^ k <= q <= 2 ^ k ->
  q - 2 ^ (k - 53) <= rnd q <= q + 2 ^ (k - 53).
Proof.
  intros Hk [H1 H2]. pose proof (pow2_pos (k - 53)). unfold rnd.
  destruct (Qcompare_spec q 0) as [X|X|X]; rewrite ?Qred_correct.
  - lra.
  - pose proof (rnd_err_pos k (- q) Hk ltac:(lra) ltac:(lra)). lra.
  - apply rnd_err_pos; assumption.
Qed.

(** ** Nearness *)

Definition near (eps : Q) (x : fl) (q : Q) : Prop := exists p, x = Fin p /\ q - eps <= p <= q + eps.

Lemma near_refl q : near 0 (Fin q) q.
Proof. exists q. split; [reflexivity|lra]. Qed.

Lemma near_weaken e e' x q : near e x q -> e <= e' -> near e' x q.
Proof. intros (p & -> & H) L. exists p. split; [reflexivity|lra]. Qed.

Lemma near_within e x q lo hi : near e x q -> lo <= q - e -> q + e <= hi -> within lo hi x.
Proof. intros (p & -> & H) L U. exists p. split; [reflexivity|lra]. Qed.

Lemma near_shift e x q q' d : near e x q -> q' - d <= q <= q' + d -> near (e + d) x q'.
Proof. intros (p & -> & H) L. exists p. split; [reflexivity|lra]. Qed.

#[export] Instance near_proper : Proper (Qeq ==> eq ==> Qeq ==> iff) near.
Proof.
  intros e e' He x ? <- q q' Hq. split; intros (p & -> & H); exists p; (split; [reflexivity|]).
  - rewrite <- He, <- Hq. exact H.
  - rewrite He, Hq. exact H.
Qed.

Lemma pow2_le_52 k : (k <= 52)%Z -> 2 ^ k <= inject_Z (2 ^ 52).
Proof.
  intros H. apply Qle_trans with (2 ^ 52); [apply Qpower_le_compat_l; [exact H|discriminate]|].
  vm_compute. discriminate.
Qed.

Lemma near_mk k e p q :
  (-1000 <= k <= 52)%Z -> q - e <= p <= q + e -> - 2 ^ k <= p <= 2 ^ k ->
  near (e + 2 ^ (k - 53)) (mk p) q.
Proof.
  intros Hk Hp Hb. pose proof (pow2_le_52 k ltac:(lia)).
  exists (rnd p). split; [apply mk_fin; lra|].
  pose proof (rnd_err k p ltac:(lia) Hb). lra.
Qed.

Lemma near_lit k q : (-1000 <= k <= 52)%Z -> - 2 ^ k <= q <= 2 ^ k -> near (2 ^ (k - 53)) (lit q) q.
Proof.
  intros Hk Hb. exists (rnd q). split; [reflexivity|]. pose proof (rnd_err k q ltac:(lia) Hb). lra.
Qed.

Lemma near_add k e1 e2 x y a b :
  near e1 x a -> near e2 y b -> (-1000 <= k <= 52)%Z ->
  - 2 ^ k <= a + b - (e1 + e2) -> a + b + (e1 + e2) <= 2 ^ k ->
  near (e1 + e2 + 2 ^ (k - 53)) (fadd x y) (a + b).
Proof.
  intros (p & -> & Hp) (q & -> & Hq) Hk L U. simpl. apply near_mk; [assumption|lra|lra].
Qed.

Lemma near_neg e x a : near e x a -> near e (fneg x) (- a).
Proof. intros (p & -> & H). exists (- p). split; [reflexivity|lra]. Qed.

Lemma Qmult_bound x y a b : Qabs x <= a -> Qabs y <= b -> - (a * b) <= x * y <= a * b.
Proof.
  intros Ha Hb. assert (Qabs (x * y) <= a * b).
  { rewrite Qabs_Qmult. apply Qmult_le_compat_nonneg; split; auto using Qabs_nonneg. }
  apply Qabs_Qle_condition in H. exact H.
Qed.

Lemma near_mul k e1 e2 A W x y a w :
  near e1 x a -> near e2 y w -> 0 <= a <= A -> 0 <= w <= W -> (-1000 <= k <= 52)%Z ->
  A * W + (e1 * (W + e2) + A * e2) <= 2 ^ k ->
  near (e1 * (W + e2) + A * e2 + 2 ^ (k - 53)) (fmul x y) (a * w).
Proof.
  intros (p & -> & Hp) (q & -> & Hq) Ha Hw Hk U. simpl.
  assert (E : p * q == a * w + ((p - a) * q + a * (q - w))) by ring.
  pose proof (Qmult_bound (p - a) q e1 (W + e2) ltac:(apply Qabs_bound; lra) ltac:(apply Qabs_bound; lra)) as B1.
  pose proof (Qmult_bound a (q - w) A e2 ltac:(apply Qabs_bound; lra) ltac:(apply Qabs_bound; lra)) as B2.
  assert (AW : 0 <= a * w) by (apply Qmult_le_0_compat; lra).
  assert (AW' : a * w <= A * W) by (apply Qmult_le_compat_nonneg; lra).
  apply near_mk; [assumption|lra|lra].
Qed.

(** One step of [sum]: the running total gains one rounding error, and so does
    the compensation, which stays of the order of the errors it collects. *)
Lemma near_sum_step k e d dc s c x a b :
  near e s a -> near 0 x b -> near dc c 0 -> 0 <= e -> d == 2 ^ (k - 53) -> (-900 <= k <= 50)%Z ->
  - 2 ^ k <= a + b - e -> a + b + e <= 2 ^ k -> - 2 ^ k <= a - e -> a + e <= 2 ^ k ->
  - 2 ^ k <= b <= 2 ^ k -> dc <= 2 ^ k -> 0 <= dc ->
  let st := sum_step (s, c) x in
  near (e + d) (fst st) (a + b) /\ near (dc + 13 * d) (snd st) 0.
Proof.
  intros (p & -> & Hp) (q & -> & Hq) (cc & -> & Hc) He Hd Hk L U L' U' Hb Hdc Hdc0 st. subst st.
  assert (q == b) as Eq by lra.
  pose proof (pow2_pos (k - 53)) as P0. pose proof (pow2_pos k) as Pk.
  assert (Pd : d <= (1#1000) * 2 ^ k).
  { rewrite Hd. replace (k - 53)%Z with (-53 + k)%Z by lia.
    rewrite Qpower_plus by (intros E; discriminate E).
    apply Qmult_le_compat_r; [vm_compute; discriminate|lra]. }
  assert (K1 : 2 ^ (k + 2) == 4 * 2 ^ k).
  { rewrite Z.add_comm, Qpower_plus by (intros E; discriminate E). reflexivity. }
  assert (K2 : 2 ^ (k + 2 - 53) == 4 * d).
  { rewrite Hd. replace (k + 2 - 53)%Z with (2 + (k - 53))%Z by lia.
    rewrite Qpower_plus by (intros E; discriminate E). reflexivity. }
  assert (T : near d (mk (p + q)) (p + q)).
  { pose proof (near_mk k 0 (p + q) (p + q) ltac:(lia) ltac:(lra) ltac:(lra)) as N.
    eapply near_weaken; [exact N|lra]. }
  destruct T as (t & Et & Ht).
  assert (R : forall u v, u + v == p + q -> - 2 ^ k <= u <= 2 ^ k -> - 2 ^ k <= v <= 2 ^ k ->
    near (dc + 13 * d) (fadd (Fin cc) (fadd (fsub (Fin u) (Fin t)) (Fin v))) 0).
  { intros u v Huv Hu Hv.
    assert (N1 : near (4 * d) (fsub (Fin u) (Fin t)) (u - t)).
    { pose proof (near_add (k + 2) 0 0 (Fin u) (Fin (- t)) u (- t) (near_refl _) (near_refl _)
        ltac:(lia) ltac:(rewrite K1; lra) ltac:(rewrite K1; lra)) as N.
      rewrite K2 in N. eapply near_weaken; [exact N|lra]. }
    assert (N2 : near (8 * d) (fadd (fsub (Fin u) (Fin t)) (Fin v)) (u - t + v)).
    { pose proof (near_add (k + 2) (4 * d) 0 _ (Fin v) _ v N1 (near_refl _)
        ltac:(lia) ltac:(rewrite K1; lra) ltac:(rewrite K1; lra)) as N.
      rewrite K2 in N. eapply near_weaken; [exact N|lra]. }
    destruct N2 as (y & -> & Hy).
    assert (N4 : near (4 * d) (fadd (Fin cc) (Fin y)) (cc + y)).
    { pose proof (near_add (k + 2) 0 0 (Fin cc) (Fin y) cc y (near_refl _) (near_refl _)
        ltac:(lia)) as N. rewrite K1, K2 in N.
      eapply near_weaken; [apply N; lra|lra]. }
    destruct N4 as (z & -> & Hz). exists z. split; [reflexivity|lra]. }
  unfold sum_step. cbn [fadd] in *. rewrite Et.
  split; [destruct (fle _ _); exists t; (split; [reflexivity|lra])|].
  destruct (fle _ _); cbn [snd]; apply R; lra.
Qed.

(** Closing the sum: the compensation is added back unless it is zero. *)
Lemma near_sum_finish k e dc s c a :
  near e s a -> near dc c 0 -> (-900 <= k <= 50)%Z -> 0 <= dc ->
  - 2 ^ k <= a - (e + dc) -> a + (e + dc) <= 2 ^ k ->
  near (e + dc + 2 ^ (k - 53)) (sum_finish (s, c)) a.
Proof.
  intros Hs Hc Hk Hd L U. unfold sum_finish. pose proof (pow2_pos (k - 53)).
  destruct (_ && _).
  - assert (E : a == a + 0) by ring. rewrite E.
    apply near_add; [assumption|assumption|lia|lra|lra].
  - eapply near_weaken; [exact Hs|lra].
Qed.

(** ** [round(x * 10) / 10] *)

Definition round1 (x : fl) : res fl :=
  let! n := round_int (fmul x (Fin 10)) in int_truediv n 10.

(** The decimal rounding keeps within 0.05 of the value, up to float error, and
    never leaves an interval with integer tenths. *)
Lemma round1_near e x a hi :
  near e x a -> 0 <= e -> e <= 1 # 1000000 -> 0 <= a -> a <= inject_Z hi -> (0 < hi <= 1000)%Z ->
  exists y, round1 x = Ok y /\ near (e + (501 # 10000)) y a /\ within 0 (inject_Z hi) y.
Proof.
  intros (p & -> & Hp) He0 He Ha Hhi Hh.
  assert (Hi : 0 < inject_Z hi <= 1000).
  { change 1000 with (inject_Z 1000). change 0 with (inject_Z 0). rewrite <- Zle_Qle, <- Zlt_Qlt. lia. }
  assert (N : near (1 # 100000000) (fmul (Fin p) (Fin 10)) (p * 10)).
  { simpl fmul. pose proof (near_mk 14 0 (p * 10) (p * 10) ltac:(lia) ltac:(lra)) as M.
    change (2 ^ 14) with 16384 in M. eapply near_weaken; [apply M; lra|vm_compute; discriminate]. }
  destruct N as (y & E & Hy). unfold round1. rewrite E. cbn [round_int res_bind].
  destruct (rhe_spec y) as [[R1 R2] _]. set (n := rhe y) in *.
  assert (N1 : (0 <= n)%Z).
  { apply Z.lt_succ_r. rewrite Zlt_Qlt. unfold Z.succ. rewrite inject_Z_plus.
    change (inject_Z 0) with 0. change (inject_Z 1) with 1. lra. }
  assert (N2 : (n <= hi * 10)%Z).
  { apply Z.lt_succ_r. rewrite Zlt_Qlt. unfold Z.succ. rewrite inject_Z_plus, inject_Z_mult.
    change (inject_Z 10) with 10. change (inject_Z 1) with 1. lra. }
  assert (Q1 : 0 <= inject_Z n) by (change 0 with (inject_Z 0); rewrite <- Zle_Qle; exact N1).
  assert (Q2 : inject_Z n <= inject_Z hi * 10).
  { change 10 with (inject_Z 10). rewrite <- inject_Z_mult, <- Zle_Qle. exact N2. }
  assert (D : inject_Z n / inject_Z 10 == inject_Z n * (1 # 10)) by reflexivity.
  unfold int_truediv. simpl (10 =? 0)%Z.
  assert (B : - inject_Z (2 ^ 52) <= inject_Z n / inject_Z 10 <= inject_Z (2 ^ 52)).
  { rewrite D. change (inject_Z (2 ^ 52)) with 4503599627370496. lra. }
  rewrite mk_fin by exact B. eexists. split; [reflexivity|]. split.
  - pose proof (rnd_err 14 (inject_Z n / inject_Z 10) ltac:(lia)) as RE.
    change (2 ^ 14) with 16384 in RE. rewrite D in RE. specialize (RE ltac:(lra)).
    assert (2 ^ (14 - 53) <= 1 # 100000000) by (vm_compute; discriminate).
    eexists. split; [reflexivity|]. rewrite D. lra.
  - eexists. split; [reflexivity|]. split; [apply rnd_nonneg; rewrite D; lra|].
    apply rnd_le_int; [lia|rewrite D; lra].
Qed.

(** ** Weighted scores

    Both score modules compute [round(sum(raw_k * w_k) * 100 * 10) / 10].  A
    term is its raw value, its weight as a float and the exact weight. *)

Record wterm := mkTerm { t_raw : Q; t_weight : fl; t_exact : Q }.

Definition wterm_ok (t : wterm) : Prop :=
  0 <= t_raw t <= 1 /\ 0 <= t_exact t <= 1 /\ near (1 # 1000000000000) (t_weight t) (t_exact t).

Definition term_fl (t : wterm) : fl := fmul (Fin (t_raw t)) (t_weight t).

Fixpoint weights_sum (l : list wterm) : Q := match l with [] => 0 | t :: r => t_exact t + weights_sum r end.
Fixpoint exact_sum (l : list wterm) : Q := match l with [] => 0 | t :: r => t_raw t * t_exact t + exact_sum r end.

Definition weighted_total (l : list wterm) : fl := fmul (py_sum (map term_fl l)) (Fin 100).

Lemma term_near t : wterm_ok t -> near (1 # 100000000000) (term_fl t) (t_raw t * t_exact t).
Proof.
  intros (Hr & He & Hn). unfold term_fl.
  pose proof (near_mul 1 0 (1 # 1000000000000) 1 1 _ _ _ _ (near_refl (t_raw t)) Hn Hr He ltac:(lia)) as N.
  eapply near_weaken; [apply N; vm_compute; discriminate|vm_compute; discriminate].
Qed.

Lemma exact_sum_le l : Forall wterm_ok l -> 0 <= exact_sum l /\ exact_sum l <= weights_sum l.
Proof.
  induction l as [|t r IH]; simpl; intros H; [lra|].
  inversion H as [|? ? (Hr & He & _) Hf]; subst. destruct (IH Hf).
  assert (0 <= t_raw t * t_exact t) by (apply Qmult_le_0_compat; lra).
  assert (t_raw t * t_exact t <= 1 * t_exact t) by (apply Qmult_le_compat_r; lra). lra.
Qed.

Definition D4 : Q := 2 ^ (2 - 53).

Lemma fold_sum_near l : forall s c a e dc,
  Forall wterm_ok l -> near e s a -> near dc c 0 -> 0 <= a -> 0 <= e -> 0 <= dc ->
  a + weights_sum l <= 2 -> e + inject_Z (Z.of_nat (length l)) * (1 # 10000000000) <= 1 # 4 ->
  dc + inject_Z (Z.of_nat (length l)) * (1 # 10000000000) <= 1 # 4 ->
  let st := fold_left sum_step (map term_fl l) (s, c) in
  near (e + inject_Z (Z.of_nat (length l)) * (1 # 10000000000)) (fst st) (a + exact_sum l) /\
  near (dc + inject_Z (Z.of_nat (length l)) * (1 # 10000000000)) (snd st) 0.
Proof.
  induction l as [|t r IH]; intros s c a e dc Hok Hs Hc Ha He Hd Hw Hel Hdl.
  { cbn [map fold_left length exact_sum fst snd]. change (inject_Z (Z.of_nat 0)) with 0. split.
    - eapply near_weaken; [eapply near_shift with (d := 0); [exact Hs|lra]|lra].
    - eapply near_weaken; [exact Hc|lra]. }
  inversion Hok as [|? ? Ht Hr]; subst. cbn [map fold_left length weights_sum exact_sum] in *.
  rewrite Nat2Z.inj_succ in *. unfold Z.succ in *. rewrite inject_Z_plus in *.
  change (inject_Z 1) with 1 in *.
  assert (Hn : 0 <= inject_Z (Z.of_nat (length r))) by (change 0 with (inject_Z 0); rewrite <- Zle_Qle; lia).
  set (n := inject_Z (Z.of_nat (length r))) in *.
  destruct (term_near t Ht) as (b & Eb & Hb). rewrite Eb in *.
  destruct Ht as (R1 & R2 & _).
  assert (T0 : 0 <= t_raw t * t_exact t) by (apply Qmult_le_0_compat; lra).
  assert (T1 : t_raw t * t_exact t <= 1 * t_exact t) by (apply Qmult_le_compat_r; lra).
  assert (W0 : 0 <= weights_sum r) by (destruct (exact_sum_le r Hr); lra).
  assert (DD : D4 <= 1 # 1000000000000) by (vm_compute; discriminate).
  assert (D0 : 0 <= D4) by (vm_compute; discriminate).
  pose proof (near_sum_step 2 e D4 dc s c (Fin b) a b Hs (near_refl b) Hc He ltac:(reflexivity) ltac:(lia)) as N.
  change (2 ^ 2) with 4 in N. cbv zeta in N.
  destruct N as [N1 N2]; try lra.
  destruct (sum_step (s, c) (Fin b)) as [s' c'] eqn:Est. cbn [fst snd] in N1, N2.
  assert (M1 : near (e + (1 # 10000000000)) s' (a + t_raw t * t_exact t)).
  { eapply near_weaken; [eapply near_shift with (d := 1 # 100000000000); [exact N1|lra]|lra]. }
  assert (M2 : near (dc + (1 # 10000000000)) c' 0) by (eapply near_weaken; [exact N2|lra]).
  destruct (IH s' c' _ _ _ Hr M1 M2) as [F1 F2]; try lra.
  split.
  - eapply near_weaken; [eapply near_shift with (d := 0); [exact F1|lra]|lra].
  - eapply near_weaken; [exact F2|lra].
Qed.

(** The computed total is the exact weighted sum up to 10^-6. *)
Lemma weighted_total_near l :
  Forall wterm_ok l -> weights_sum l <= 1 -> (0 < length l <= 8)%nat ->
  near (1 # 1000000) (weighted_total l) (exact_sum l * 100).
Proof.
  intros Hok Hw Hl. destruct l as [|t r]; [simpl in Hl; lia|].
  inversion Hok as [|? ? Ht Hr]; subst. cbn [weights_sum exact_sum length] in *.
  destruct (exact_sum_le r Hr) as [S0 S1]. destruct Ht as (R1 & R2 & R3).
  pose proof (term_near t (conj R1 (conj R2 R3))) as Nt.
  assert (T0 : 0 <= t_raw t * t_exact t) by (apply Qmult_le_0_compat; lra).
  assert (T1 : t_raw t * t_exact t <= 1 * t_exact t) by (apply Qmult_le_compat_r; lra).
  assert (Hn : 0 <= inject_Z (Z.of_nat (length r)) <= 7).
  { change 7 with (inject_Z 7). change 0 with (inject_Z 0). rewrite <- !Zle_Qle. lia. }
  destruct (fold_sum_near r (term_fl t) f0 (t_raw t * t_exact t) (1 # 100000000000) 0 Hr Nt
    (near_refl 0)) as [F1 F2]; try lra.
  unfold weighted_total, py_sum. cbn [map].
  destruct (fold_left sum_step (map term_fl r) (term_fl t, f0)) as [s c]. cbn [fst snd] in F1, F2.
  set (n := inject_Z (Z.of_nat (length r))) in *. clearbody n.
  assert (F : near (1 # 500000000) (sum_finish (s, c)) (t_raw t * t_exact t + exact_sum r)).
  { pose proof (near_sum_finish 2 _ _ _ _ _ F1 F2 ltac:(lia)) as M. change (2 ^ 2) with 4 in M.
    assert (2 ^ (2 - 53) <= 1 # 1000000000000) by (vm_compute; discriminate).
    eapply near_weaken; [apply M; lra|lra]. }
  pose proof (near_mul 8 _ 0 1 100 _ _ _ _ F (near_refl 100) ltac:(lra) ltac:(lra) ltac:(lia)) as M.
  assert (P8 : 2 ^ 8 == 256) by reflexivity. assert (P8' : 2 ^ (8 - 53) <= 1 # 1000000000) by (vm_compute; discriminate).
  eapply near_weaken; [apply M; rewrite P8; lra|lra].
Qed.

(** A weighted score over raws in [0,1] and weights summing to at most one: it
    exists, lies in [0,100], and is the exact score to within 0.0502. *)
Lemma weighted_score_ok l :
  Forall wterm_ok l -> weights_sum l <= 1 -> (0 < length l <= 8)%nat ->
  exists y, round1 (weighted_total l) = Ok y /\ near (502 # 10000) y (exact_sum l * 100) /\ within 0 100 y.
Proof.
  intros Hok Hw Hl. pose proof (weighted_total_near l Hok Hw Hl) as N.
  destruct (exact_sum_le l Hok) as [S0 S1].
  assert (U : exact_sum l * 100 <= inject_Z 100) by (change (inject_Z 100) with 100; lra).
  destruct (round1_near _ _ _ 100 N) as (y & E & Hy & Hin); [lra|lra|lra|exact U|lia|].
  exists y. split; [exact E|]. split; [|exact Hin]. eapply near_weaken; [exact Hy|lra].
Qed.

(** ** Tenths

    [round1] returns a whole number of tenths; between 0 and 100 a property of
    those floats is a finite check. *)

Definition tenth (n : Z) : fl := mk (inject_Z n / inject_Z 10).

Definition all_tenths (p : Z -> bool) : bool := forallb (fun k => p (Z.of_nat k)) (seq 0 1001).

Lemma all_tenths_spec p n : all_tenths p = true -> (0 <= n <= 1000)%Z -> p n = true.
Proof.
  intros H Hn. unfold all_tenths in H. rewrite forallb_forall in H.
  specialize (H (Z.to_nat n)). rewrite Z2Nat.id in H by lia. apply H, in_seq. lia.
Qed.

Lemma tenth_eq n : (0 <= n <= 1000)%Z -> int_truediv n 10 = Ok (tenth n).
Proof.
  intros H. unfold int_truediv, tenth. simpl (10 =? 0)%Z.
  assert (N : 0 <= inject_Z n <= 1000).
  { change 1000 with (inject_Z 1000). change 0 with (inject_Z 0). by rewrite <- !Zle_Qle. }
  rewrite mk_fin; [reflexivity|].
  assert (D : inject_Z n / inject_Z 10 == inject_Z n * (1 # 10)) by reflexivity.
  rewrite D. change (inject_Z (2 ^ 52)) with 4503599627370496. lra.
Qed.

(** A rounded score in [0,100] is one of the 1001 tenths. *)
Lemma round1_is_tenth x y :
  round1 x = Ok y -> within 0 100 y -> exists n, (0 <= n <= 1000)%Z /\ y = tenth n.
Proof.
  intros H (q & -> & Hq). unfold round1 in H. inv_bind H. unfold int_truediv in H. simpl (10 =? 0)%Z in H.
  assert (D : inject_Z v / inject_Z 10 == inject_Z v * (1 # 10)) by reflexivity.
  exists v. fold (tenth v) in H. assert (T : tenth v = Fin q) by (destruct (tenth v); try discriminate H; by injection H as ->).
  split; [|done]. unfold tenth, mk in T. set (r := rnd (inject_Z v / inject_Z 10)) in *.
  destruct (Qle_bool fl_max_pow r); [done|]. destruct (Qle_bool r _); [done|]. injection T as T.
  split; apply Z.le_ngt; intros L.
  - assert (inject_Z v <= -1) by (change (-1) with (inject_Z (-1)); rewrite <- Zle_Qle; lia).
    assert (r <= rnd (-1 # 10)) by (apply rnd_mono; rewrite D; lra).
    assert (rnd (-1 # 10) < 0) by (vm_compute; reflexivity). rewrite T in *. lra.
  - assert (1001 <= inject_Z v) by (change 1001 with (inject_Z 1001); rewrite <- Zle_Qle; lia).
    assert (rnd (1001 # 10) <= r) by (apply rnd_mono; rewrite D; lra).
    assert (100 < rnd (1001 # 10)) by (vm_compute; reflexivity). rewrite T in *. lra.
Qed.

(** Rounding a tenth again changes nothing. *)
Lemma round1_tenth n : (0 <= n <= 1000)%Z -> round1 (tenth n) = Ok (tenth n).
Proof.
  intros H. unfold round1.
  assert (C : all_tenths (fun n => match round_int (fmul (tenth n) (Fin 10)) with
                                   | Ok m => (m =? n)%Z | Raise _ => false end) = true)
    by (vm_compute; reflexivity).
  pose proof (all_tenths_spec _ n C H) as F. cbv beta in F.
  destruct (round_int (fmul (tenth n) (Fin 10))) as [m|]; [|discriminate F].
  apply Z.eqb_eq in F as ->. by apply tenth_eq.
Qed.
