(* ===== verification/PyVal.v ===== *)
(** * PyVal: dynamically typed Python values

    Rows and profiles reach the scoring code as JSON-shaped objects.  Where the
    code branches on the dynamic type of a field, the field is a [pyval]; a dict
    is the list of its entries in insertion order. *)

From S2P Require Import Prelude PyStr Float64.
From Stdlib Require Import QArith.
Open Scope string_scope.

#[local] Set Warnings "-register-all".
Inductive pyval :=
| PNone
| PBool (b : bool)
| PInt (z : Z)
| PFloat (f : fl)
| PStr (s : string)
| PList (l : list pyval)
| PDict (d : list (string * pyval)).

(** [bool(v)] *)
Definition truthy (v : pyval) : bool :=
  match v with
  | PNone => false
  | PBool b => b
  | PInt z => negb (z =? 0)%Z
  | PFloat f => negb (feq f f0)
  | PStr s => nonempty s
  | PList l => match l with [] => false | _ => true end
  | PDict d => match d with [] => false | _ => true end
  end.

(** [a or b] *)
Definition py_or (a b : pyval) : pyval := if truthy a then a else b.

(** [d.get(k)]; a missing key and a stored [None] both give [PNone]. *)
Fixpoint dget (d : list (string * pyval)) (k : string) : pyval :=
  match d with
  | [] => PNone
  | (k', v) :: t => if String.eqb k' k then v else dget t k
  end.

(** [table.get(k)] on a constant table with string keys. *)
Fixpoint assoc {A} (k : string) (l : list (string * A)) : option A :=
  match l with [] => None | (k', v) :: t => if String.eqb k' k then Some v else assoc k t end.

(** [k in d] *)
Definition dmem (d : list (string * pyval)) (k : string) : bool :=
  existsb (fun e => String.eqb (fst e) k) d.

(** [d[k] = v]: in place when the key exists, else appended. *)
Fixpoint dset {A} (d : list (string * A)) (k : string) (v : A) : list (string * A) :=
  match d with
  | [] => [(k, v)]
  | (k', v') :: t => if String.eqb k' k then (k, v) :: t else (k', v') :: dset t k v
  end.

Fixpoint chars (s : string) : list pyval := match s with "" => [] | String c t => PStr (String c "") :: chars t end.

(** [iter(v)] *)
Definition iter_of (v : pyval) : res (list pyval) :=
  match v with
  | PList l => Ok l
  | PStr s => Ok (chars s)
  | PDict d => Ok (map (fun e => PStr (fst e)) d)
  | _ => Raise TypeError
  end.

(** [v.strip()] *)
Definition strip_of (v : pyval) : res string := match v with PStr s => Ok (strip s) | _ => Raise AttributeError end.

(** [v == n] for an int [n] (bools and floats compare by value). *)
Definition eq_int (v : pyval) (n : Z) : bool :=
  match v with
  | PBool b => ((if b then 1 else 0) =? n)%Z
  | PInt z => (z =? n)%Z
  | PFloat f => feq f (Fin (inject_Z n))
  | _ => false
  end.

(** [v == s] for a string [s]. *)
Definition eq_str (v : pyval) (s : string) : bool :=
  match v with PStr t => String.eqb t s | _ => false end.

(** ** [float(text)] *)

Definition exp10 (m : Z) (e : Z) : Q :=
  if (0 <=? e)%Z then inject_Z (m * 10 ^ e) else (inject_Z m / inject_Z (10 ^ (- e)))%Q.

(** The optional exponent of a float literal: its value and the rest. *)
Definition read_exponent (s : string) : option Z :=
  match s with
  | "" => Some 0%Z
  | String c t =>
      if Ascii.eqb c "e" then
        let '(neg, body) := read_sign t in
        match digits_from 0 0 body with
        | (v, n, "") => if (0 <? n)%Z then Some (if neg then - v else v)%Z else None
        | _ => None
        end
      else None
  end.

Definition read_decimal (s : string) : option Q :=
  let '(ip, n, rest) := digits_from 0 0 s in
  let '(m, nf, rest) :=
    match rest with
    | String "." t =>
        let '(m, k, r) := digits_from ip 0 t in (m, k, r)
    | _ => (ip, 0%Z, rest)
    end in
  if (n + nf =? 0)%Z then None
  else match read_exponent rest with
       | Some e => Some (exp10 m (e - nf))
       | None => None
       end.

Definition float_of_str (text : string) : res fl :=
  let '(neg, body) := read_sign (lower (strip text)) in
  if String.eqb body "inf" || String.eqb body "infinity" then Ok (if neg then NInf else PInf)
  else if String.eqb body "nan" then Ok NaN
  else match read_decimal body with
       | Some q => Ok (mk (if neg then - q else q)%Q)
       | None => Raise ValueError
       end.

(** [float(v)] *)
Definition py_float (v : pyval) : res fl :=
  match v with
  | PNone | PList _ | PDict _ => Raise TypeError
  | PBool b => Ok (if b then f1 else f0)
  | PInt z => fl_of_int z
  | PFloat f => Ok f
  | PStr s => float_of_str s
  end.

(** [int(v)]. *)
Definition py_int (v : pyval) : res Z :=
  match v with
  | PInt z => Ok z
  | PBool b => Ok (if b then 1 else 0)%Z
  | PFloat f => int_of_fl f
  | PStr s => int_of_str s
  | _ => Raise TypeError
  end.

(** [except (TypeError, ValueError)] *)
Definition type_or_value (e : exn) : bool :=
  match e with TypeError | ValueError => true | _ => false end.

(** ** Dictionaries *)

Lemma length_dset {A} (d : list (string * A)) k v :
  length (dset d k v) = match assoc k d with Some _ => length d | None => S (length d) end.
Proof.
  induction d as [|[k' v'] d IH]; [done|]. cbn [dset assoc].
  destruct (String.eqb_spec k' k) as [->|_]; [done|]. cbn [length]. rewrite IH. by destruct (assoc k d).
Qed.

Lemma assoc_dset {A} (d : list (string * A)) k v k' :
  assoc k' (dset d k v) = if String.eqb k k' then Some v else assoc k' d.
Proof.
  induction d as [|[k1 v1] d IH]; cbn [dset assoc]; [done|].
  destruct (String.eqb_spec k1 k) as [->|N]; cbn [assoc].
  - by destruct (String.eqb k k').
  - destruct (String.eqb_spec k1 k') as [->|N']; [|exact IH].
    destruct (String.eqb_spec k k') as [->|_]; [done|done].
Qed.

Lemma dget_dset d k v k' : dget (dset d k v) k' = if String.eqb k k' then v else dget d k'.
Proof.
  induction d as [|[k1 v1] d IH]; cbn [dset dget]; [done|].
  destruct (String.eqb_spec k1 k) as [->|N]; cbn [dget].
  - by destruct (String.eqb k k').
  - destruct (String.eqb_spec k1 k') as [->|N']; [|exact IH]. by destruct (String.eqb_spec k k') as [->|].
Qed.

Lemma assoc_elem {A} (d : list (string * A)) k v : assoc k d = Some v -> (k, v) ∈ d.
Proof.
  induction d as [|[k' v'] d IH]; cbn [assoc]; [done|]. destruct (String.eqb_spec k' k) as [->|_].
  - intros [= ->]. by left.
  - intros H. right. by apply IH.
Qed.

Lemma elem_dset {A} (d : list (string * A)) k v e :
  e ∈ dset d k v -> e = (k, v) \/ e ∈ d.
Proof.
  induction d as [|[k' v'] d IH]; cbn [dset].
  - intros ->%list_elem_of_singleton. by left.
  - destruct (String.eqb k' k); intros [->|H]%elem_of_cons; [by left|right; by right|right; by left|].
    destruct (IH H) as [->|K]; [by left|right; by right].
Qed.

Lemma elem_dset_key {A} (d : list (string * A)) k v k' : k' ∈ map fst (dset d k v) -> k' = k \/ k' ∈ map fst d.
Proof.
  intros H. apply list_elem_of_In, in_map_iff in H as ([k1 v1] & <- & H). apply list_elem_of_In, elem_dset in H as [E|H].
  - injection E as -> ->. by left.
  - right. change k1 with (fst (k1, v1)). by apply list_elem_of_In, in_map, list_elem_of_In.
Qed.

Lemma nodup_dset {A} (d : list (string * A)) k v : NoDup (map fst d) -> NoDup (map fst (dset d k v)).
Proof.
  induction d as [|[k' v'] d IH]; cbn [dset]; [intros _; apply NoDup_singleton|]. intros ND.
  change (NoDup (k' :: map fst d)) in ND. apply NoDup_cons in ND as (Nin & ND).
  destruct (String.eqb_spec k' k) as [->|N].
  - change (NoDup (k :: map fst d)). by apply NoDup_cons.
  - change (NoDup (k' :: map fst (dset d k v))). apply NoDup_cons. split; [|by apply IH].
    intros [->|H]%elem_dset_key; done.
Qed.

Example float_of_str_ex1 : float_of_str " 7.5 " = Ok (Fin (15 # 2)).
Proof. vm_compute. reflexivity. Qed.
Example float_of_str_ex2 : float_of_str "-1.25e2" = Ok (Fin (-125 # 1)).
Proof. vm_compute. reflexivity. Qed.
Example float_of_str_ex3 : float_of_str "1._5" = Raise ValueError.
Proof. vm_compute. reflexivity. Qed.
