(* ===== verification/PyNet.v ===== *)
(** * PyNet: the parts of [ipaddress] and [urllib.parse] the sources use

    IPv4 and IPv6 addresses parsed from text, networks, the classification
    properties; [urlparse] with [hostname] and [port], on ASCII input.  The
    special-purpose tables are those of CPython 3.12.4 and later. *)

From S2P Require Import Prelude PyStr.
Open Scope string_scope.

(** ** [str.partition], [str.rpartition] *)

Definition partition (c : ascii) (s : string) : string * bool * string :=
  match split_once c s with Some (l, r) => (l, true, r) | None => (s, false, "") end.

(** [s.rpartition(c)\[2\]]: what follows the last occurrence. *)
Fixpoint after_last (c : ascii) (s : string) : string :=
  match s with
  | "" => ""
  | String a t => if (fix has (u : string) : bool := match u with "" => false | String b v => Ascii.eqb b c || has v end) t
                  then after_last c t
                  else if Ascii.eqb a c then t else s
  end.

Definition has_char (c : ascii) (s : string) : bool := negb (sforall (fun x => negb (Ascii.eqb x c)) s).

(** ** [ipaddress] *)

Inductive ip := V4 (n : Z) | V6 (n : Z) (scope : option string).

Definition _parse_octet (s : string) : res Z :=
  if negb (nonempty s) then Raise ValueError
  else if negb (sforall is_digit s) then Raise ValueError
  else if (3 <? slen s)%Z then Raise ValueError
  else if negb (String.eqb s "0") && startswith s "0" then Raise ValueError
  else let! n := int_of_str s in if (255 <? n)%Z then Raise ValueError else Ok n.

Definition ipv4_of_text (s : string) : res Z :=
  if has_char "/" s then Raise ValueError
  else
    let octets := split_on "." s in
    if negb (length octets =? 4)%nat then Raise ValueError
    else
      let! vs := map_res _parse_octet octets in
      Ok (fold_left (fun acc v => acc * 256 + v)%Z vs 0%Z).

Definition hex_val (c : ascii) : option Z :=
  if is_digit c then Some (digit_val c)
  else if in_range 97 102 c then Some (Z.of_N (code c) - 87)%Z
  else if in_range 65 70 c then Some (Z.of_N (code c) - 55)%Z
  else None.

Fixpoint hex_acc (acc : Z) (s : string) : option Z :=
  match s with
  | "" => Some acc
  | String c t => match hex_val c with Some v => hex_acc (acc * 16 + v) t | None => None end
  end.

Definition _parse_hextet (s : string) : res Z :=
  match hex_acc 0 s with
  | None => Raise ValueError
  | Some v => if (4 <? slen s)%Z || negb (nonempty s) then Raise ValueError else Ok v
  end.

Definition join_hextets (l : list Z) : Z := fold_left (fun acc v => acc * 65536 + v)%Z l 0%Z.

(** The positions, first and last apart, that hold an empty part. *)
Definition skip_indices (parts : list string) : list nat :=
  filter (fun i => negb (nonempty (nth i parts "x"))) (seq 1 (length parts - 2)).

Definition is_empty_at (parts : list string) (i : nat) : bool := negb (nonempty (nth i parts "x")).

(** The hextets of the parts: value of those before the skipped zeros, and after. *)
Definition ipv6_parts (parts : list string) : res Z :=
  let n := length parts in
  if (n <? 3)%nat || (9 <? n)%nat then Raise ValueError
  else
    match skip_indices parts with
    | [] =>
        if negb (n =? 8)%nat then Raise ValueError
        else let! l := map_res _parse_hextet parts in Ok (join_hextets l)
    | [i] =>
        let first_empty := is_empty_at parts 0 in
        let last_empty := is_empty_at parts (n - 1) in
        let hi := (i - if first_empty then 1 else 0)%nat in
        let lo := (n - i - 1 - if last_empty then 1 else 0)%nat in
        if first_empty && negb (hi =? 0)%nat then Raise ValueError
        else if last_empty && negb (lo =? 0)%nat then Raise ValueError
        else if (7 <? hi + lo)%nat then Raise ValueError
        else
          let! l1 := map_res _parse_hextet (firstn hi parts) in
          let! l2 := map_res _parse_hextet (lastn lo parts) in
          Ok (join_hextets (l1 ++ repeat 0%Z (8 - (hi + lo)) ++ l2))
    | _ => Raise ValueError
    end.

Definition hex_digit (n : Z) : ascii :=
  ascii_of_N (Z.to_N (if (n <? 10)%Z then 48 + n else 87 + n)%Z).

(** ['%x' % n] for a 16-bit value. *)
Definition hex16 (n : Z) : string :=
  let s := String (hex_digit (n / 4096)) (String (hex_digit (n / 256 mod 16))
             (String (hex_digit (n / 16 mod 16)) (String (hex_digit (n mod 16)) ""))) in
  let t := drop_while (fun c => Ascii.eqb c "0") s in if nonempty t then t else "0".

Definition ipv6_int (s : string) : res Z :=
  if negb (nonempty s) then Raise ValueError
  else
    let parts := split_on ":" s in
    if (length parts <? 3)%nat then Raise ValueError
    else
      let final := List.last parts "" in
      if has_char "." final then
        let! v4 := ipv4_of_text final in
        ipv6_parts (removelast parts ++ [hex16 (v4 / 65536 mod 65536); hex16 (v4 mod 65536)])
      else ipv6_parts parts.

Definition ipv6_of_text (s : string) : res ip :=
  if has_char "/" s then Raise ValueError
  else
    let '(addr, sep, scope) := partition "%" s in
    if sep && (negb (nonempty scope) || has_char "%" scope) then Raise ValueError
    else let! n := ipv6_int addr in Ok (V6 n (if sep then Some scope else None)).

Definition ip_address (s : string) : res ip :=
  match ipv4_of_text s with Ok n => Ok (V4 n) | Raise _ => ipv6_of_text s end.

(** Networks: a base address and a prefix length. *)
Inductive net := Net4 (base : Z) (len : Z) | Net6 (base : Z) (len : Z).

Definition in_prefix (width base len n : Z) : bool :=
  (Z.shiftr n (width - len) =? Z.shiftr base (width - len))%Z.

Definition in_net (a : ip) (n : net) : bool :=
  match a, n with
  | V4 x, Net4 b l => in_prefix 32 b l x
  | V6 x _, Net6 b l => in_prefix 128 b l x
  | _, _ => false
  end.

Definition v4 (a b c d : Z) : Z := (((a * 256 + b) * 256 + c) * 256 + d)%Z.
(** The address with the first hextets given, the others zero. *)
Definition v6 (l : list Z) : Z := join_hextets (firstn 8 (l ++ repeat 0%Z 8)).

Definition v4_private : list net :=
  [Net4 (v4 0 0 0 0) 8; Net4 (v4 10 0 0 0) 8; Net4 (v4 127 0 0 0) 8; Net4 (v4 169 254 0 0) 16;
   Net4 (v4 172 16 0 0) 12; Net4 (v4 192 0 0 0) 24; Net4 (v4 192 0 0 170) 31; Net4 (v4 192 0 2 0) 24;
   Net4 (v4 192 168 0 0) 16; Net4 (v4 198 18 0 0) 15; Net4 (v4 198 51 100 0) 24; Net4 (v4 203 0 113 0) 24;
   Net4 (v4 240 0 0 0) 4; Net4 (v4 255 255 255 255) 32].
Definition v4_private_exceptions : list net := [Net4 (v4 192 0 0 9) 32; Net4 (v4 192 0 0 10) 32].

Definition v6_private : list net :=
  [Net6 1 128; Net6 0 128; Net6 (v6 [0; 0; 0; 0; 0; 65535]) 96; Net6 (v6 [0x64; 0xff9b; 1]) 48;
   Net6 (v6 [0x100]) 64; Net6 (v6 [0x2001]) 23; Net6 (v6 [0x2001; 0xdb8]) 32; Net6 (v6 [0x2002]) 16;
   Net6 (v6 [0xfc00]) 7; Net6 (v6 [0xfe80]) 10]%Z.
Definition v6_private_exceptions : list net :=
  [Net6 (v6 [0x2001; 1; 0; 0; 0; 0; 0; 1]) 128; Net6 (v6 [0x2001; 1; 0; 0; 0; 0; 0; 2]) 128;
   Net6 (v6 [0x2001; 3]) 32; Net6 (v6 [0x2001; 4; 0x112]) 48; Net6 (v6 [0x2001; 0x20]) 28;
   Net6 (v6 [0x2001; 0x30]) 28]%Z.

Definition ipv4_mapped (n : Z) : option Z :=
  if (Z.shiftr n 32 =? 65535)%Z then Some (Z.land n 0xFFFFFFFF) else None.

Definition listed (a : ip) (nets exceptions : list net) : bool :=
  existsb (in_net a) nets && negb (existsb (in_net a) exceptions).

Definition is_private (a : ip) : bool :=
  match a with
  | V4 _ => listed a v4_private v4_private_exceptions
  | V6 n _ =>
      match ipv4_mapped n with
      | Some m => listed (V4 m) v4_private v4_private_exceptions
      | None => listed a v6_private v6_private_exceptions
      end
  end.

(** For IPv6 the properties below do not look through a mapped address (3.12). *)
Definition is_loopback (a : ip) : bool :=
  match a with V4 _ => in_net a (Net4 (v4 127 0 0 0) 8) | V6 n _ => (n =? 1)%Z end.
Definition is_link_local (a : ip) : bool :=
  match a with V4 _ => in_net a (Net4 (v4 169 254 0 0) 16) | V6 _ _ => in_net a (Net6 (v6 [0xfe80%Z]) 10) end.
Definition is_unspecified (a : ip) : bool := match a with V4 n | V6 n _ => (n =? 0)%Z end.
Definition is_site_local (a : ip) : bool :=
  match a with V4 _ => false | V6 _ _ => in_net a (Net6 (v6 [0xfec0%Z]) 10) end.

(** ** [urllib.parse] *)

Record url := mkUrl {
  u_scheme : string; u_netloc : string; u_path : string; u_params : string; u_query : string; u_fragment : string
}.

Definition scheme_char (c : ascii) : bool :=
  is_alnum c || Ascii.eqb c "+" || Ascii.eqb c "-" || Ascii.eqb c ".".

Definition is_alpha (c : ascii) : bool := is_upper c || is_lower c.

Fixpoint break_at (p : ascii -> bool) (s : string) : string * string :=
  match s with
  | "" => ("", "")
  | String c t => if p c then ("", s) else let '(a, b) := break_at p t in (String c a, b)
  end.

Definition one_of (l : list ascii) (c : ascii) : bool := existsb (Ascii.eqb c) l.

Definition split_first (c : ascii) (s : string) : string * string :=
  match split_once c s with Some p => p | None => (s, "") end.

(** [re.match(r"\Av[a-fA-F0-9]+\..+\Z", h)] *)
Definition vfuture (h : string) : bool :=
  let '(hexes, rest) := break_at (fun c => match hex_val c with Some _ => false | None => true end) (sdrop 1 h) in
  startswith h "v" && nonempty hexes && startswith rest "." && (2 <=? slen rest)%Z.

Definition _check_bracketed_host (h : string) : res unit :=
  if startswith h "v" then (if vfuture h then Ok tt else Raise ValueError)
  else let! a := ip_address h in match a with V4 _ => Raise ValueError | V6 _ _ => Ok tt end.

Definition _check_bracketed_netloc (netloc : string) : res unit :=
  let hostport := after_last "@" netloc in
  let '(before, open_br, bracketed) := partition "[" hostport in
  if open_br then
    if nonempty before then Raise ValueError
    else
      let '(h, _, port) := partition "]" bracketed in
      if nonempty port && negb (startswith port ":") then Raise ValueError
      else _check_bracketed_host h
  else let '(h, _, _) := partition ":" hostport in _check_bracketed_host h.

Definition uses_params : list string :=
  [""; "ftp"; "hdl"; "prospero"; "http"; "imap"; "https"; "shttp"; "rtsp"; "rtspu"; "sip"; "sips"; "mms"; "sftp"; "tel"].

Definition uses_netloc : list string :=
  [""; "ftp"; "http"; "gopher"; "nntp"; "telnet"; "imap"; "wais"; "file"; "mms"; "https"; "shttp"; "snews";
   "prospero"; "rtsp"; "rtsps"; "rtspu"; "rsync"; "svn"; "svn+ssh"; "sftp"; "nfs"; "git"; "git+ssh"; "ws"; "wss";
   "itms-services"].

(** The last segment's parameters: [_splitparams]. *)
Definition _splitparams (u : string) : string * string :=
  if has_char "/" u then
    let seg := after_last "/" u in
    match split_once ";" seg with
    | Some (l, r) => (stake (String.length u - String.length seg) u +:+ l, r)
    | None => (u, "")
    end
  else split_first ";" u.

Definition urlparse (text : string) : res url :=
  let u := drop_while (fun c => (code c <=? 32)%N) text in
  let u := sfilter (fun c => negb (one_of ["009"; "010"; "013"]%char c)) u in
  let '(scheme, rest) :=
    match split_once ":" u with
    | Some (String c l, r) =>
        if is_alpha c && sforall scheme_char (String c l) then (lower (String c l), r) else ("", u)
    | _ => ("", u)
    end in
  let '(netloc, rest) :=
    if startswith rest "//" then break_at (one_of ["/"; "?"; "#"]%char) (sdrop 2 rest) else ("", rest) in
  let has_open := has_char "[" netloc in
  let has_close := has_char "]" netloc in
  let! _ := (if negb (Bool.eqb has_open has_close) then Raise ValueError
             else if has_open && has_close then _check_bracketed_netloc netloc else Ok tt) in
  let '(rest, fragment) := split_first "#" rest in
  let '(path, query) := split_first "?" rest in
  let '(path, params) :=
    if existsb (String.eqb scheme) uses_params && has_char ";" path then _splitparams path else (path, "") in
  Ok (mkUrl scheme netloc path params query fragment).

(** The host and port texts of a netloc. *)
Definition _hostinfo (netloc : string) : string * option string :=
  let hostinfo := after_last "@" netloc in
  let '(_, open_br, bracketed) := partition "[" hostinfo in
  let '(h, port) :=
    if open_br then
      let '(h, _, tail) := partition "]" bracketed in
      let '(_, _, port) := partition ":" tail in (h, port)
    else let '(h, _, port) := partition ":" hostinfo in (h, port) in
  (h, if nonempty port then Some port else None).

Definition hostname (u : url) : option string :=
  let h := fst (_hostinfo (u_netloc u)) in
  if nonempty h then
    let '(name, percent, zone) := partition "%" h in
    Some (lower name +:+ (if percent then "%" else "") +:+ zone)
  else None.

Definition port (u : url) : res (option Z) :=
  match snd (_hostinfo (u_netloc u)) with
  | None => Ok None
  | Some p =>
      if sforall is_digit p then
        let! n := int_of_str p in
        if (n <=? 65535)%Z then Ok (Some n) else Raise ValueError
      else Raise ValueError
  end.

(** [urlunparse] of six parts. *)
Definition urlunparse (u : url) : string :=
  let p := if nonempty (u_params u) then u_path u +:+ ";" +:+ u_params u else u_path u in
  let p :=
    if nonempty (u_netloc u)
       || (nonempty (u_scheme u) && existsb (String.eqb (u_scheme u)) uses_netloc && negb (startswith p "//")) then
      "//" +:+ u_netloc u +:+ (if nonempty p && negb (startswith p "/") then "/" +:+ p else p)
    else p in
  let p := if nonempty (u_scheme u) then u_scheme u +:+ ":" +:+ p else p in
  let p := if nonempty (u_query u) then p +:+ "?" +:+ u_query u else p in
  if nonempty (u_fragment u) then p +:+ "#" +:+ u_fragment u else p.

(** ** Texts without a character *)

Lemma has_char_none c s : sforall (fun x => negb (Ascii.eqb x c)) s = true -> has_char c s = false.
Proof. unfold has_char. by intros ->. Qed.

Lemma break_at_none p s : sforall (fun c => negb (p c)) s = true -> break_at p s = (s, "").
Proof. induction s as [|c s IH]; [done|]. cbn [sforall break_at]. intros [C%negb_true_iff S]%andb_prop. by rewrite C, IH. Qed.

(** ** Examples *)

Example url1 : urlparse " https://user:pw@Example.COM:8443/a/b;p=1?x=1#f" =
  Ok (mkUrl "https" "user:pw@Example.COM:8443" "/a/b" "p=1" "x=1" "f").
Proof. vm_compute. reflexivity. Qed.
Example host1 : hostname (mkUrl "https" "u@[FE80::1%Eth0]:99" "" "" "" "") = Some "fe80::1%Eth0".
Proof. vm_compute. reflexivity. Qed.
Example port1 : port (mkUrl "https" "host:70000" "" "" "" "") = Raise ValueError.
Proof. vm_compute. reflexivity. Qed.
Example ip1 : ip_address "::ffff:127.0.0.1" = Ok (V6 (65535 * 2 ^ 32 + v4 127 0 0 1) None).
Proof. vm_compute. reflexivity. Qed.
Example ip2 : ip_address "1::2::3" = Raise ValueError.
Proof. vm_compute. reflexivity. Qed.
Example ip3 : ip_address "127.0.0.01" = Raise ValueError.
Proof. vm_compute. reflexivity. Qed.
Example ip4 : ip_address "fe80::1%eth0" = Ok (V6 (v6 [0xfe80; 0; 0; 0; 0; 0; 0; 1]%Z) (Some "eth0")).
Proof. vm_compute. reflexivity. Qed.
