(* ===== verification/UrlText.v ===== *)
(** * UrlText: an address as the host of a URL

    What the characters of an address are, that their case does not matter, and that
    [urlparse] finds in a URL built around an address that address and no other. *)

From S2P Require Import Prelude PyStr DecText PyNet.
Open Scope string_scope.

(** ** The characters of an address *)

Definition hex_char (c : ascii) : bool := match hex_val c with Some _ => true | None => false end.
Definition literal_char (c : ascii) : bool := hex_char c || Ascii.eqb c ":" || Ascii.eqb c ".".
Definition dotted_char (c : ascii) : bool := is_digit c || Ascii.eqb c ".".

Lemma literal_char_facts c : literal_char c = true ->
  Ascii.eqb c "/" = false /\ Ascii.eqb c "?" = false /\ Ascii.eqb c "#" = false /\ Ascii.eqb c "@" = false /\ Ascii.eqb c "[" = false /\ Ascii.eqb c "]" = false /\
  Ascii.eqb c "%" = false /\ Ascii.eqb c "v" = false /\ one_of ["009"; "010"; "013"]%char c = false.
Proof. destruct c as [[] [] [] [] [] [] [] []]; (discriminate || by vm_compute). Qed.

Lemma dotted_literal c : dotted_char c = true -> literal_char c = true /\ Ascii.eqb c ":" = false.
Proof. destruct c as [[] [] [] [] [] [] [] []]; (discriminate || by vm_compute). Qed.

Lemma hex_literal c : hex_char c = true -> literal_char c = true.
Proof. unfold literal_char. by intros ->. Qed.

Lemma split_all p c s : p c = true -> Forall (fun x => sforall p x = true) (split_on c s) -> sforall p s = true.
Proof. intros C F. rewrite <- (sjoin_split_on c s). apply sforall_sjoin; [cbn; by rewrite C|done]. Qed.

Lemma octet_digits s v : _parse_octet s = Ok v -> sforall is_digit s = true.
Proof. unfold _parse_octet. destruct (negb (nonempty s)); [done|]. by destruct (sforall is_digit s). Qed.

Lemma ipv4_chars s n : ipv4_of_text s = Ok n -> sforall dotted_char s = true.
Proof.
  unfold ipv4_of_text. destruct (has_char "/" s); [done|]. destruct (negb _); [done|].
  destruct (map_res _ _) as [vs|] eqn:M; [|done]. intros _. apply (split_all dotted_char "."); [done|]. apply map_res_Forall2 in M.
  induction M as [|x v l r E _ IH]; constructor; [|exact IH]. apply octet_digits in E. eapply sforall_weaken; [|exact E]. intros c C. unfold dotted_char. by rewrite C.
Qed.

Lemma hex_acc_chars s : forall acc v, hex_acc acc s = Some v -> sforall hex_char s = true.
Proof. induction s as [|c s IH]; intros acc v H; [done|]. cbn [hex_acc sforall] in *. unfold hex_char at 1. destruct (hex_val c); [|done]. by eapply IH. Qed.

Lemma hextet_chars s v : _parse_hextet s = Ok v -> sforall hex_char s = true.
Proof. unfold _parse_hextet. destruct (hex_acc 0 s) eqn:H; [|done]. intros _. by eapply hex_acc_chars. Qed.

Lemma hextets_chars l r : map_res _parse_hextet l = Ok r -> Forall (fun x => sforall hex_char x = true) l.
Proof. intros M%map_res_Forall2. induction M as [|x v l' r' E _ IH]; constructor; [|exact IH]. by eapply hextet_chars. Qed.

Lemma empty_at parts i : is_empty_at parts i = true -> nth i parts "x" = "".
Proof. unfold is_empty_at. by destruct (nth i parts "x"). Qed.

Lemma parts_chars parts n : ipv6_parts parts = Ok n -> Forall (fun x => sforall hex_char x = true) parts.
Proof.
  unfold ipv6_parts. destruct (_ || _) eqn:B; [done|]. apply orb_false_iff in B as [B _]. apply Nat.ltb_ge in B.
  destruct (skip_indices parts) as [|i [|? ?]] eqn:K; [| |done].
  - destruct (negb _); [done|]. destruct (map_res _ _) eqn:M; [|done]. intros _. by eapply hextets_chars.
  - cbv zeta. assert (i ∈ skip_indices parts) as I by (rewrite K; by apply list_elem_of_singleton).
    unfold skip_indices in I. apply list_elem_of_filter in I as [E I]. apply elem_of_seq in I. apply negb_prop_elim in E.
    set (fe := is_empty_at parts 0). set (le := is_empty_at parts (length parts - 1)). set (hi := (i - _)%nat). set (lo := (length parts - i - 1 - _)%nat).
    destruct (fe && _) eqn:F; [done|]. destruct (le && _) eqn:L; [done|]. destruct (7 <? hi + lo)%nat; [done|].
    destruct (map_res _ (firstn hi parts)) as [l1|] eqn:M1; [|done]. destruct (map_res _ (lastn lo parts)) as [l2|] eqn:M2; [|done]. intros _.
    apply hextets_chars in M1, M2. apply List.Forall_forall. intros x (j & J & <-)%(In_nth _ _ "x").
    rewrite List.Forall_forall in M1, M2. destruct (Nat.lt_ge_cases j hi) as [A|A].
    { apply M1. assert (nth j parts "x" = nth j (firstn hi parts) "x") as -> by (by rewrite nth_firstn, (proj2 (Nat.ltb_lt _ _) A)). apply nth_In. rewrite length_firstn. lia. }
    destruct (Nat.lt_ge_cases j (length parts - lo)) as [C|C].
    2: { apply M2. unfold lastn. assert (nth j parts "x" = nth (j - (length parts - lo)) (skipn (length parts - lo) parts) "x") as -> by (rewrite nth_skipn; f_equal; lia).
         apply nth_In. rewrite length_skipn. lia. }
    assert (j = i \/ (fe = true /\ j = 0%nat) \/ (le = true /\ j = (length parts - 1)%nat)) as [->|[[Z ->]|[Z ->]]].
    { destruct fe, le; cbn [andb] in F, L; try apply negb_false_iff, Nat.eqb_eq in F; try apply negb_false_iff, Nat.eqb_eq in L; unfold hi, lo in *; lia. }
    + assert (nth i parts "x" = "") as -> by (destruct (nth i parts "x"); [done|by cbn in E]). done.
    + by rewrite (empty_at _ _ Z).
    + by rewrite (empty_at _ _ Z).
Qed.

Lemma ipv6_int_chars s n : ipv6_int s = Ok n -> sforall literal_char s = true.
Proof.
  unfold ipv6_int. destruct (negb (nonempty s)); [done|]. cbv zeta. destruct (_ <? _)%nat; [done|]. intros H.
  apply (split_all literal_char ":"); [done|]. pose proof (split_on_nonempty ":" s) as N. revert H N. generalize (split_on ":" s) as parts. intros parts H N.
  assert (W : forall l, Forall (fun x => sforall hex_char x = true) l -> Forall (fun x => sforall literal_char x = true) l).
  { intros l F. eapply Forall_impl; [exact F|]. intros x X. eapply sforall_weaken; [|exact X]. apply hex_literal. }
  destruct (has_char "." (List.last parts "")).
  - destruct (ipv4_of_text (List.last parts "")) as [v|] eqn:V; [|done]. cbn [res_bind] in H. apply parts_chars, Forall_app in H as [F _]. rewrite (app_removelast_last "" N).
    apply Forall_app. split; [by apply W|]. constructor; [|done]. apply ipv4_chars in V. eapply sforall_weaken; [|exact V]. intros c C. by apply dotted_literal.
  - apply W. by eapply parts_chars.
Qed.

(** An address without a zone. *)
Lemma ip_address_chars s a : ip_address s = Ok a -> has_char "%" s = false ->
  sforall literal_char s = true /\ nonempty s = true /\ match a with V4 _ => has_char ":" s = false | V6 _ z => z = None end.
Proof.
  unfold ip_address. intros H Z. destruct (ipv4_of_text s) as [n|] eqn:H4.
  - injection H as <-. split; [|split].
    + apply ipv4_chars in H4. eapply sforall_weaken; [|exact H4]. intros c C. by apply dotted_literal.
    + by destruct s.
    + apply has_char_none. apply ipv4_chars in H4. eapply sforall_weaken; [|exact H4]. intros c C. by apply dotted_literal in C as [_ ->].
  - unfold ipv6_of_text in H. destruct (has_char "/" s); [done|]. unfold partition in H. rewrite split_once_none in H by (unfold has_char in Z; by apply negb_false_iff in Z). cbn [andb] in H.
    destruct (ipv6_int s) as [n|] eqn:I; [|done]. cbn [res_bind] in H. injection H as <-. split; [by apply ipv6_int_chars in I|]. split; [|done]. by destruct s.
Qed.

(** ** The case of its letters *)

Definition caseless (c : ascii) : Prop := forall x, Ascii.eqb (lower_char x) c = Ascii.eqb x c.
Ltac each_char := intros x; destruct x as [[] [] [] [] [] [] [] []]; reflexivity.

Lemma sforall_lower p s : (forall c, p (lower_char c) = p c) -> sforall p (lower s) = sforall p s.
Proof. intros H. unfold lower. induction s as [|c s IH]; [done|]. cbn [smap sforall]. by rewrite H, IH. Qed.

Lemma split_lower c s : caseless c -> split_on c (lower s) = map lower (split_on c s).
Proof.
  intros C. induction s as [|x s IH]; [done|]. change (lower (String x s)) with (String (lower_char x) (lower s)). cbn [split_on]. rewrite C, IH.
  destruct (Ascii.eqb x c); [done|]. by destruct (split_on c s).
Qed.

Lemma has_lower c s : caseless c -> has_char c (lower s) = has_char c s.
Proof. intros C. unfold has_char. f_equal. apply sforall_lower. intros x. by rewrite C. Qed.

Lemma map_res_lower {A} (f : string -> res A) l : (forall x, f (lower x) = f x) -> map_res f (map lower l) = map_res f l.
Proof. intros H. induction l as [|x l IH]; [done|]. cbn [map map_res]. by rewrite H, IH. Qed.

Lemma digits_lower s : sforall is_digit s = true -> lower s = s.
Proof.
  unfold lower. induction s as [|c s IH]; [done|]. cbn [sforall smap]. intros [C S]%andb_prop. rewrite IH by done. f_equal. destruct c as [[] [] [] [] [] [] [] []]; (discriminate || reflexivity).
Qed.

Lemma octet_lower s : _parse_octet (lower s) = _parse_octet s.
Proof.
  unfold _parse_octet. rewrite nonempty_lower, (sforall_lower is_digit) by each_char. destruct (negb (nonempty s)); [done|]. destruct (sforall is_digit s) eqn:D; [|done]. by rewrite digits_lower.
Qed.

Lemma ipv4_lower s : ipv4_of_text (lower s) = ipv4_of_text s.
Proof. unfold ipv4_of_text. rewrite has_lower, split_lower, length_map, map_res_lower by (apply octet_lower || each_char). done. Qed.

Lemma hextet_lower s : _parse_hextet (lower s) = _parse_hextet s.
Proof.
  unfold _parse_hextet. assert (E : forall acc, hex_acc acc (lower s) = hex_acc acc s).
  { induction s as [|c s IH]; intros acc; [done|]. change (lower (String c s)) with (String (lower_char c) (lower s)). cbn [hex_acc].
    assert (hex_val (lower_char c) = hex_val c) as -> by (destruct c as [[] [] [] [] [] [] [] []]; reflexivity). destruct (hex_val c); [apply IH|done]. }
  rewrite E, nonempty_lower. unfold slen, lower. by rewrite smap_length.
Qed.

Lemma parts_lower parts : ipv6_parts (map lower parts) = ipv6_parts parts.
Proof.
  assert (E : forall i, nonempty (nth i (map lower parts) "x") = nonempty (nth i parts "x")) by (intros i; change "x" with (lower "x") at 1; by rewrite map_nth, nonempty_lower).
  assert (K : skip_indices (map lower parts) = skip_indices parts).
  { unfold skip_indices. rewrite length_map. apply list_filter_iff. intros i. by rewrite E. }
  unfold ipv6_parts. rewrite length_map, K. destruct (_ || _); [done|]. destruct (skip_indices parts) as [|i [|? ?]]; [by rewrite map_res_lower by apply hextet_lower| |done].
  unfold is_empty_at, lastn. rewrite !E, !firstn_map, length_map, skipn_map, !map_res_lower by apply hextet_lower. done.
Qed.

Lemma last_lower l : List.last (map lower l) "" = lower (List.last l "").
Proof. induction l as [|x [|y l] IH]; [done..|]. cbn [map List.last] in *. exact IH. Qed.

Lemma ipv6_int_lower s : ipv6_int (lower s) = ipv6_int s.
Proof.
  unfold ipv6_int. rewrite nonempty_lower, split_lower by each_char. destruct (negb (nonempty s)); [done|]. cbv zeta. rewrite length_map, last_lower, has_lower, ipv4_lower by each_char.
  destruct (_ <? _)%nat; [done|]. destruct (has_char "." (List.last (split_on ":" s) "")) eqn:D; [|apply parts_lower].
  destruct (ipv4_of_text _) as [v|] eqn:V; [|done]. cbn [res_bind]. set (l := split_on ":" s). set (hs := [hex16 _; hex16 _]).
  rewrite <- (parts_lower (removelast (map lower l) ++ hs)), <- (parts_lower (removelast l ++ hs)), !map_app. f_equal. f_equal.
  clearbody l. clear. induction l as [|x [|y l] IH]; [done..|]. cbn [map removelast] in *. by rewrite lower_idemp, IH.
Qed.

Lemma literal_lower s a : ip_address s = Ok a -> has_char "%" s = false -> ip_address (lower s) = Ok a.
Proof.
  intros H Z. revert H. unfold ip_address. rewrite ipv4_lower. destruct (ipv4_of_text s); [done|]. unfold ipv6_of_text. rewrite has_lower by each_char. destruct (has_char "/" s); [done|].
  assert (Z' : has_char "%" (lower s) = false) by (by rewrite has_lower by each_char). unfold has_char in Z, Z'. apply negb_false_iff in Z, Z'.
  unfold partition. rewrite !split_once_none by done. cbn [andb]. by rewrite ipv6_int_lower.
Qed.

(** ** The URL around it *)

Lemma sfilter_app p a b : sfilter p (a +:+ b) = sfilter p a +:+ sfilter p b.
Proof. induction a as [|c a IH]; [done|]. rewrite app_cons. cbn [sfilter]. destruct (p c); [by rewrite app_cons, IH|exact IH]. Qed.

Lemma break_at_app p a c b : sforall (fun x => negb (p x)) a = true -> p c = true -> break_at p (a +:+ String c b) = (a, String c b).
Proof.
  intros N C. induction a as [|x a IH]; [rewrite app_nil; cbn [break_at]; by rewrite C|]. rewrite app_cons. cbn [sforall break_at] in *. apply andb_prop in N as [X%negb_true_iff N].
  by rewrite X, (IH N).
Qed.

Lemma after_last_none c s : sforall (fun x => negb (Ascii.eqb x c)) s = true -> after_last c s = s.
Proof.
  intros N. destruct s as [|x s]; [done|]. cbn [sforall after_last] in *. apply andb_prop in N as [X%negb_true_iff N]. rewrite X. set (has := fix has (u : string) : bool := _).
  assert (has s = false) as ->; [|done]. clear X. induction s as [|y s IH]; [done|]. cbn [sforall] in N. apply andb_prop in N as [Y%negb_true_iff N]. unfold has. rewrite Y. by apply IH.
Qed.

(** The host part of a URL for an address, and the port written after it. *)
Definition host_text (raw : string) : string := if has_char ":" raw then "[" +:+ raw +:+ "]" else raw.
Definition port_text (p : option Z) : string := match p with Some n => ":" +:+ str_of_Z n | None => "" end.

Lemma not_v s : sforall literal_char s = true -> startswith s "v" = false.
Proof.
  destruct s as [|c r]; [done|]. cbn [sforall]. intros [X _]%andb_prop. apply literal_char_facts in X as (_ & _ & _ & _ & _ & _ & _ & X & _).
  unfold startswith. cbn [String.prefix]. destruct (Ascii.ascii_dec "v" c) as [<-|]; [by rewrite Ascii.eqb_refl in X|done].
Qed.

Section literal.
Context (raw : string) (a : ip) (p : option Z).
Hypothesis parsed : ip_address raw = Ok a.
Hypothesis no_zone : has_char "%" raw = false.
Hypothesis port_range : match p with Some n => (0 <= n <= 65535)%Z | None => True end.

Lemma chars : sforall literal_char raw = true.
Proof. exact (proj1 (ip_address_chars raw a parsed no_zone)). Qed.

Lemma raw_not c : literal_char c = false -> sforall (fun x => negb (Ascii.eqb x c)) raw = true.
Proof. intros C. eapply sforall_weaken; [|exact chars]. intros x X. cbn. destruct (Ascii.eqb_spec x c) as [->|]; [congruence|done]. Qed.

Definition net_char (c : ascii) : bool := literal_char c || Ascii.eqb c "[" || Ascii.eqb c "]".

Lemma port_text_chars : sforall (fun c => is_digit c || Ascii.eqb c ":") (port_text p) = true.
Proof.
  unfold port_text. destruct p as [n|]; [|done]. rewrite app_cons, app_nil. cbn [sforall]. apply andb_true_intro. split; [done|].
  eapply sforall_weaken; [|apply str_of_nat_digits; lia]. intros c C. by rewrite C.
Qed.

Lemma net_chars : sforall net_char (host_text raw +:+ port_text p) = true.
Proof.
  assert (sforall net_char raw = true) as R by (eapply sforall_weaken; [|exact chars]; intros c C; unfold net_char; by rewrite C).
  rewrite sforall_app. apply andb_true_intro. split; [unfold host_text; destruct (has_char ":" raw); [by rewrite !sforall_app, R|exact R]|].
  eapply sforall_weaken; [|exact port_text_chars]. intros c C. destruct c as [[] [] [] [] [] [] [] []]; (discriminate || reflexivity).
Qed.

Lemma net_not c : net_char c = false -> sforall (fun x => negb (Ascii.eqb x c)) (host_text raw +:+ port_text p) = true.
Proof. intros C. eapply sforall_weaken; [|exact net_chars]. intros x X. cbn. destruct (Ascii.eqb_spec x c) as [->|]; [congruence|done]. Qed.

Lemma no_user : after_last "@" (host_text raw +:+ port_text p) = host_text raw +:+ port_text p.
Proof. by apply after_last_none, net_not. Qed.

Lemma bare_port_split : partition ":" (port_text p) = match p with Some n => ("", true, str_of_Z n) | None => ("", false, "") end.
Proof. unfold port_text. by destruct p. Qed.

Lemma host_bracketed : has_char ":" raw = true ->
  partition "[" (host_text raw +:+ port_text p) = ("", true, raw +:+ "]" +:+ port_text p) /\ partition "]" (raw +:+ "]" +:+ port_text p) = (raw, true, port_text p).
Proof.
  intros C. unfold host_text. rewrite C. split; unfold partition.
  - rewrite !app_cons, !app_nil, sapp_assoc. reflexivity.
  - rewrite app_cons, app_nil, split_once_app by by apply raw_not. done.
Qed.

Lemma host_bare : has_char ":" raw = false ->
  partition "[" (host_text raw +:+ port_text p) = (raw +:+ port_text p, false, "") /\
  partition ":" (host_text raw +:+ port_text p) = match p with Some n => (raw, true, str_of_Z n) | None => (raw, false, "") end.
Proof.
  intros C. pose proof (fun H => raw_not "[" H) as B. unfold host_text. rewrite C. unfold has_char in C. apply negb_false_iff in C. split; unfold partition.
  - rewrite split_once_none; [done|]. rewrite sforall_app, B by done. cbn [andb]. eapply sforall_weaken; [|exact port_text_chars]. intros c D. destruct c as [[] [] [] [] [] [] [] []]; (discriminate || reflexivity).
  - unfold port_text. destruct p as [n|]; [by rewrite app_cons, app_nil, split_once_app|]. by rewrite app_empty_r, split_once_none.
Qed.

Lemma hostinfo_literal : _hostinfo (host_text raw +:+ port_text p) = (raw, option_map str_of_Z p).
Proof.
  unfold _hostinfo. rewrite no_user. assert (N : forall n, p = Some n -> nonempty (str_of_Z n) = true).
  { intros n _. pose proof (int_of_str_of_Z n) as I. by destruct (str_of_Z n). }
  destruct (has_char ":" raw) eqn:C.
  - destruct (host_bracketed C) as [-> E]. rewrite E, bare_port_split. destruct p as [n|]; cbn [option_map]; [by rewrite (N n)|done].
  - destruct (host_bare C) as [-> E]. rewrite E. destruct p as [n|]; cbn [option_map]; [by rewrite (N n)|done].
Qed.

Lemma brackets_ok : let nl := host_text raw +:+ port_text p in
  has_char "[" nl = has_char ":" raw /\ has_char "]" nl = has_char ":" raw /\ (has_char ":" raw = true -> _check_bracketed_netloc nl = Ok tt).
Proof.
  cbv zeta. assert (P : forall c, c = "["%char \/ c = "]"%char -> sforall (fun x => negb (Ascii.eqb x c)) (port_text p) = true).
  { intros c C. eapply sforall_weaken; [|exact port_text_chars]. intros x D. destruct C as [-> | ->]; destruct x as [[] [] [] [] [] [] [] []]; (discriminate || reflexivity). }
  destruct (has_char ":" raw) eqn:C.
  - split; [unfold has_char, host_text; rewrite C; by rewrite !sforall_app|]. split; [unfold has_char, host_text; rewrite C; by rewrite !sforall_app, !andb_false_r|]. intros _.
    unfold _check_bracketed_netloc. rewrite no_user. destruct (host_bracketed C) as [-> E]. rewrite E. cbn [nonempty].
    assert (nonempty (port_text p) && negb (startswith (port_text p) ":") = false) as -> by (unfold startswith, port_text; destruct p; [by rewrite prefix_app, andb_false_r|done]).
    unfold _check_bracketed_host. pose proof (ip_address_chars raw a parsed no_zone) as (_ & _ & K).
    rewrite (not_v raw chars).
    rewrite parsed. cbn [res_bind]. destruct a as [n|n z]; [congruence|done].
  - unfold has_char, host_text. rewrite C. rewrite !sforall_app, !(raw_not _), !P by (done || tauto). by split.
Qed.

Lemma urlparse_literal t : exists v, urlparse ("https://" +:+ (host_text raw +:+ port_text p) +:+ String "/" t) = Ok v /\
  u_scheme v = "https" /\ u_netloc v = host_text raw +:+ port_text p.
Proof.
  set (nl := host_text raw +:+ port_text p). unfold urlparse. rewrite drop_while_id by done. set (keep := fun c => negb (one_of _ c)).
  assert (sfilter keep ("https://" +:+ nl +:+ String "/" t) = "https://" +:+ nl +:+ String "/" (sfilter keep t)) as ->.
  { rewrite !sfilter_app. f_equal. f_equal. apply sfilter_id. eapply sforall_weaken; [|exact net_chars]. intros c C. unfold keep. destruct c as [[] [] [] [] [] [] [] []]; (discriminate || reflexivity). }
  generalize (sfilter keep t). intros t'. change (split_once ":" ("https://" +:+ nl +:+ String "/" t')) with (Some ("https", "//" +:+ nl +:+ String "/" t')).
  cbv iota zeta beta. change (is_alpha "h" && sforall scheme_char "https") with true. cbv iota beta. assert (startswith ("//" +:+ nl +:+ String "/" t') "//" = true) as -> by apply prefix_app.
  change (sdrop 2 ("//" +:+ nl +:+ String "/" t')) with (nl +:+ String "/" t'). cbv iota zeta beta.
  rewrite break_at_app.
  2: { eapply sforall_weaken; [|exact net_chars]. intros c C. destruct c as [[] [] [] [] [] [] [] []]; (discriminate || reflexivity). }
  2: done. destruct brackets_ok as (B1 & B2 & B3). fold nl in B1, B2, B3. rewrite B1, B2.
  assert ((if negb (Bool.eqb (has_char ":" raw) (has_char ":" raw)) then Raise ValueError else if has_char ":" raw && has_char ":" raw then _check_bracketed_netloc nl else Ok tt) = Ok tt) as ->.
  { rewrite eqb_reflx. cbn [negb]. destruct (has_char ":" raw); [by apply B3|done]. }
  cbn [res_bind]. destruct (split_first "#" _) as [r f]. destruct (split_first "?" r) as [path query]. 
  lazymatch goal with |- context [if ?b then _splitparams path else ?q] => destruct (if b then _splitparams path else q) as [path' params] end. eexists. split; [reflexivity|done].
Qed.

(** A URL built around an address names that address and that port. *)
Lemma literal_url t : exists v, urlparse ("https://" +:+ (host_text raw +:+ port_text p) +:+ String "/" t) = Ok v /\
  u_scheme v = "https" /\ u_netloc v = host_text raw +:+ port_text p /\ hostname v = Some (lower raw) /\ ip_address (lower raw) = Ok a /\ port v = Ok p.
Proof.
  destruct (urlparse_literal t) as (v & U & S & N). exists v. split; [exact U|]. split; [exact S|]. split; [exact N|]. pose proof (ip_address_chars raw a parsed no_zone) as (_ & E & _). split; [|split].
  - unfold hostname. rewrite N, hostinfo_literal. cbn [fst]. rewrite E. unfold partition. rewrite split_once_none by (unfold has_char in no_zone; by apply negb_false_iff in no_zone). by rewrite !app_empty_r.
  - by apply literal_lower.
  - unfold port. rewrite N, hostinfo_literal. cbn [snd option_map]. destruct p as [n|]; [|done]. cbn [option_map].
    rewrite str_of_nat_digits by lia. rewrite int_of_str_of_Z. cbn [res_bind]. by rewrite (proj2 (Z.leb_le _ _)) by lia.
Qed.
End literal.

(** ** The path of a URL with a host *)

Lemma break_at_rest p s a b : break_at p s = (a, b) -> b = "" \/ exists c t, b = String c t /\ p c = true.
Proof.
  revert a. induction s as [|c s IH]; intros a; cbn [break_at]; [intros [= _ <-]; by left|]. destruct (p c) eqn:C; [intros [= _ <-]; right; eauto|].
  destruct (break_at p s) as [a' b'] eqn:B. intros [= _ <-]. by eapply IH.
Qed.

Lemma split_first_head c x t l r : split_first c (String x t) = (l, r) -> if Ascii.eqb x c then l = "" else exists l', l = String x l'.
Proof.
  unfold split_first. cbn [split_once]. destruct (Ascii.eqb x c); [by intros [= <- _]|]. destruct (split_once c t) as [[l' r']|]; intros [= <- _]; eauto.
Qed.

Lemma after_last_length c s : (String.length (after_last c s) <= String.length s)%nat.
Proof. induction s as [|x s IH]; [done|]. cbn [after_last]. destruct ((fix has (u : string) : bool := _) s); [cbn; lia|]. destruct (Ascii.eqb x c); cbn; lia. Qed.

Lemma splitparams_head t l r : _splitparams (String "/" t) = (l, r) -> exists l', l = String "/" l'.
Proof.
  unfold _splitparams. assert (String.length (after_last "/" (String "/" t)) < String.length (String "/" t))%nat as L.
  { cbn [after_last String.length]. pose proof (after_last_length "/" t). destruct ((fix has (u : string) : bool := _) t); cbn; lia. }
  generalize dependent (after_last "/" (String "/" t)). intros seg L. change (has_char "/" (String "/" t)) with true. cbv iota.
  destruct (String.length (String "/" t) - String.length seg)%nat as [|k] eqn:K; [lia|]. destruct (split_once ";" seg) as [[l0 r0]|]; intros H; apply (f_equal fst) in H; cbn [fst stake] in H; rewrite <- H; [|eauto].
  by exists (stake k t +:+ l0).
Qed.

Lemma path_rooted text v : urlparse text = Ok v -> nonempty (u_netloc v) = true -> u_path v = "" \/ exists t, u_path v = String "/" t.
Proof.
  unfold urlparse. destruct (match split_once ":" _ with Some _ => _ | None => _ end) as [scheme rest]. destruct (startswith rest "//").
  2: { cbv iota. destruct (if _ : bool then _ else _) as [[]|]; [|done]. cbn [res_bind]. destruct (split_first "#" rest) as [x f], (split_first "?" x) as [path query].
       lazymatch goal with |- context [if ?b then _splitparams path else ?q] => destruct (if b then _splitparams path else q) as [path' params] end. by intros [= <-]. }
  destruct (break_at _ _) as [netloc r] eqn:B. apply break_at_rest in B. destruct (if _ : bool then Raise ValueError else _) as [[]|]; [|done]. cbn [res_bind].
  destruct (split_first "#" r) as [x f] eqn:F, (split_first "?" x) as [path query] eqn:Q.
  assert (path = "" \/ exists t, path = String "/" t) as P.
  { destruct B as [->|(c & t & -> & C)]; [injection F as <- _; injection Q as <- _; by left|]. apply split_first_head in F.
    assert (c = "/" \/ c = "?" \/ c = "#")%char as [->|[->| ->]] by (unfold one_of in C; cbn [existsb] in C; rewrite !orb_true_iff, !Ascii.eqb_eq in C; destruct C as [C|[C|[C|C]]]; [auto..|discriminate C]).
    - destruct F as [x' ->]. apply split_first_head in Q as [p' ->]. eauto.
    - destruct F as [x' ->]. apply split_first_head in Q. by left.
    - cbn in F. subst x. injection Q as <- _. by left. }
  lazymatch goal with |- context [if ?b then _splitparams path else ?q] => destruct b end; [|intros [= <-] _; exact P].
  destruct (_splitparams path) as [path' params] eqn:S. intros [= <-] _. cbn [u_path]. destruct P as [->|[t ->]]; [injection S as <- _; by left|]. right. by eapply splitparams_head.
Qed.
