(* ===== verification/Dates.v ===== *)
(** * Dates: the proleptic calendar and ISO 8601 parsing

    A [date] is its day number from 1970-01-01; a [datetime] is its wall-clock
    microseconds from the same day with its UTC offset, [None] for a naive one.
    [fromisoformat] covers the calendar spellings of Python 3.11 (extended and
    basic); ISO week dates, which no feed emits, are rejected. *)

From S2P Require Import Prelude PyStr.
Open Scope string_scope.

Definition is_leap (y : Z) : bool :=
  ((y mod 4 =? 0) && (negb (y mod 100 =? 0) || (y mod 400 =? 0)))%Z.

Definition days_in_month (y m : Z) : Z :=
  (if m =? 2 then if is_leap y then 29 else 28
   else if (m =? 4) || (m =? 6) || (m =? 9) || (m =? 11) then 30 else 31)%Z.

(** Day number of a civil date, the year counted from March. *)
Definition days_from_civil (y m d : Z) : Z :=
  (let y' := if m <=? 2 then y - 1 else y in
   let era := y' / 400 in
   let yoe := y' - era * 400 in
   let doy := (153 * (m + (if 2 <? m then -3 else 9)) + 2) / 5 + d - 1 in
   let doe := yoe * 365 + yoe / 4 - yoe / 100 + doy in
   era * 146097 + doe - 719468)%Z.

Definition valid_date (y m d : Z) : bool :=
  ((1 <=? y) && (y <=? 9999) && (1 <=? m) && (m <=? 12) && (1 <=? d) && (d <=? days_in_month y m))%Z.

(** Exactly [n] decimal digits. *)
Fixpoint digits_n (n : nat) (acc : Z) (s : string) : option (Z * string) :=
  match n with
  | O => Some (acc, s)
  | S k => match s with
           | String c t => if is_digit c then digits_n k (10 * acc + digit_val c)%Z t else None
           | "" => None
           end
  end.

Definition eat (c : ascii) (s : string) : option string :=
  match s with String a t => if Ascii.eqb a c then Some t else None | "" => None end.

(** [date.fromisoformat] on a calendar spelling, the whole text consumed. *)
Definition parse_date (s : string) : option Z :=
  match digits_n 4 0 s with
  | None => None
  | Some (y, r) =>
      let sep := match eat "-" r with Some _ => true | None => false end in
      let r := match eat "-" r with Some r' => r' | None => r end in
      match digits_n 2 0 r with
      | None => None
      | Some (m, r) =>
          match (if sep then eat "-" r else Some r) with
          | None => None
          | Some r =>
              match digits_n 2 0 r with
              | Some (d, "") => if valid_date y m d then Some (days_from_civil y m d) else None
              | _ => None
              end
          end
      end
  end.

Fixpoint take_digits (s : string) : string * string :=
  match s with
  | String c t => if is_digit c then let '(a, b) := take_digits t in (String c a, b) else ("", s)
  | "" => ("", "")
  end.

(** The fraction of a second in microseconds: six digits count, more are dropped. *)
Definition parse_fraction (s : string) : option Z :=
  let '(ds, rest) := take_digits s in
  if nonempty ds && negb (nonempty rest) then
    let six := stake 6 (ds +:+ "000000") in
    match digits_n 6 0 six with Some (v, _) => Some v | None => None end
  else None.

(** [HH[:MM[:SS[.f]]]] or [HH[MM[SS[.f]]]]: microseconds, no range check. *)
Definition hms (h m s f : Z) : Z := (((h * 60 + m) * 60 + s) * 1000000 + f)%Z.

Definition parse_clock (t : string) : option (Z * Z * Z * Z) :=
  match digits_n 2 0 t with
  | None => None
  | Some (h, "") => Some (h, 0, 0, 0)%Z
  | Some (h, r) =>
      let sep := match eat ":" r with Some _ => true | None => false end in
      let r := match eat ":" r with Some r' => r' | None => r end in
      match digits_n 2 0 r with
      | None => None
      | Some (m, "") => Some (h, m, 0, 0)%Z
      | Some (m, r) =>
          match (if sep then eat ":" r else Some r) with
          | None => None
          | Some r =>
              match digits_n 2 0 r with
              | None => None
              | Some (s, "") => Some (h, m, s, 0)%Z
              | Some (s, String c r) =>
                  if Ascii.eqb c "." || Ascii.eqb c "," then
                    match parse_fraction r with Some f => Some (h, m, s, f) | None => None end
                  else None
              end
          end
      end
  end.

Definition is_tz_mark (c : ascii) : bool := Ascii.eqb c "+" || Ascii.eqb c "-" || Ascii.eqb c "Z".

(** The clock text and what follows from the first zone mark on. *)
Fixpoint cut_tz (s : string) : string * string :=
  match s with
  | "" => ("", "")
  | String c t => if is_tz_mark c then ("", s) else let '(a, b) := cut_tz t in (String c a, b)
  end.

Definition DAY_US : Z := 86400000000.

(** The zone: [Some None] for a naive time. *)
Definition parse_tz (s : string) : option (option Z) :=
  match s with
  | "" => Some None
  | String "Z" t => if nonempty t then None else Some (Some 0%Z)
  | String c t =>
      match parse_clock t with
      | Some (h, m, sec, f) =>
          let off := hms h m sec f in
          if (off <? DAY_US)%Z then Some (Some (if Ascii.eqb c "-" then - off else off)%Z) else None
      | None => None
      end
  end.

Definition parse_time (t : string) : option (Z * option Z) :=
  let '(clock, tz) := cut_tz t in
  match parse_clock clock, parse_tz tz with
  | Some (h, m, s, f), Some off =>
      if ((h <=? 23) && (m <=? 59) && (s <=? 59))%Z then Some (hms h m s f, off) else None
  | _, _ => None
  end.

Record datetime := { dt_us : Z; dt_off : option Z }.

(** [datetime.fromisoformat(text)]; [None] is the [ValueError]. *)
Definition fromisoformat (s : string) : option datetime :=
  let n := if Ascii.eqb (match sdrop 4 s with String c _ => c | "" => " "%char end) "-" then 10 else 8 in
  match parse_date (stake n s) with
  | None => None
  | Some d =>
      match sdrop n s with
      | "" | String _ "" => Some {| dt_us := d * DAY_US; dt_off := None |}
      | String _ t =>
          match parse_time t with
          | Some (us, off) => Some {| dt_us := d * DAY_US + us; dt_off := off |}
          | None => None
          end
      end
  end.

(** [dt.replace(tzinfo=timezone.utc)] on a naive value, then [astimezone(utc)]:
    the instant in UTC microseconds. *)
Definition utc_us (dt : datetime) : Z := (dt_us dt - match dt_off dt with Some o => o | None => 0 end)%Z.

(** [.date()] of a datetime: its wall-clock day. *)
Definition date_of (dt : datetime) : Z := (dt_us dt / DAY_US)%Z.

(** [text.replace("Z", "+00:00")] *)
Fixpoint replace_Z (s : string) : string :=
  match s with
  | "" => ""
  | String c t => if Ascii.eqb c "Z" then "+00:00" +:+ replace_Z t else String c (replace_Z t)
  end.

(** [text[:-1] + "+00:00"] when the text ends in [Z]. *)
Definition utc_suffix (s : string) : string :=
  if endswith s "Z" then stake (String.length s - 1) s +:+ "+00:00" else s.

(** The character tests [len(text) == 10 and text[4] == "-" and text[7] == "-"]. *)
Definition char_is (s : string) (i : nat) (c : ascii) : bool :=
  match String.get i s with Some a => Ascii.eqb a c | None => false end.

Definition dashed (s : string) : bool := char_is s 4 "-" && char_is s 7 "-".

Definition midnight_suffix (s : string) : string :=
  if (String.length s =? 10)%nat && dashed s then s +:+ "T00:00:00+00:00" else s.

Example fromiso_ex1 :
  fromisoformat "2026-08-24T10:30:00.5+02:00" =
  Some {| dt_us := 1787567400500000; dt_off := Some 7200000000 |}%Z.
Proof. vm_compute. reflexivity. Qed.
Example fromiso_ex2 : fromisoformat "2026-02-29" = None.
Proof. vm_compute. reflexivity. Qed.
Example parse_date_ex : parse_date "1970-01-02" = Some 1%Z.
Proof. vm_compute. reflexivity. Qed.

(** ** Ranges: every instant read lies within the years Python has, give or take
    a zone offset. *)



Lemma digits_n_range n : forall acc s v r, digits_n n acc s = Some (v, r) -> (0 <= acc)%Z ->
  (acc * 10 ^ Z.of_nat n <= v < (acc + 1) * 10 ^ Z.of_nat n)%Z.
Proof.
  induction n as [|n IH]; intros acc s v r; cbn [digits_n].
  - intros [= -> ->]. lia.
  - destruct s as [|c t]; [done|]. destruct (is_digit c) eqn:D; [|done]. intros H A.
    apply digit_val_range in D. apply IH in H; [|lia].
    rewrite Nat2Z.inj_succ, Z.pow_succ_r by lia. nia.
Qed.

Lemma digits_range n s v r : digits_n n 0 s = Some (v, r) -> (0 <= v < 10 ^ Z.of_nat n)%Z.
Proof. intros H. apply digits_n_range in H; lia. Qed.

Lemma civil_range y m d : valid_date y m d = true -> (-719500 <= days_from_civil y m d <= 2932900)%Z.
Proof.
  unfold valid_date. intros H. bool_prop.
  assert (days_in_month y m <= 31)%Z by (unfold days_in_month; repeat case_match; lia).
  unfold days_from_civil. destruct (Z.leb_spec m 2), (Z.ltb_spec 2 m); cbv zeta; Z.to_euclidean_division_equations; lia.
Qed.

Lemma parse_date_range s d : parse_date s = Some d -> (-719500 <= d <= 2932900)%Z.
Proof.
  unfold parse_date. intros H. repeat case_hyp H; try done; injection H as <-; by apply civil_range.
Qed.

Lemma fraction_range s f : parse_fraction s = Some f -> (0 <= f < 1000000)%Z.
Proof.
  unfold parse_fraction. destruct (take_digits s) as [ds rest]. destruct (nonempty ds && negb (nonempty rest)); [|done].
  destruct (digits_n 6 0 _) as [[v r]|] eqn:E; [|done]. intros [= <-]. by apply digits_range in E.
Qed.

Definition clock_range (c : Z * Z * Z * Z) : Prop :=
  let '(h, m, s, f) := c in (0 <= h /\ 0 <= m /\ 0 <= s /\ 0 <= f < 1000000)%Z.

Lemma parse_clock_range t c : parse_clock t = Some c -> clock_range c.
Proof.
  unfold parse_clock. intros H.
  repeat match type of H with
         | context [digits_n 2 0 ?x] => let E := fresh "E" in destruct (digits_n 2 0 x) as [[? ?]|] eqn:E; [apply digits_range in E|done]
         | context [parse_fraction ?x] => let E := fresh "E" in destruct (parse_fraction x) eqn:E; [apply fraction_range in E|done]
         | _ => progress case_hyp H
         end; try done; injection H as <-; cbn; lia.
Qed.

Lemma parse_time_range t us off : parse_time t = Some (us, off) ->
  (0 <= us < DAY_US /\ match off with Some o => - DAY_US < o < DAY_US | None => True end)%Z.
Proof.
  unfold parse_time. destruct (cut_tz t) as [clock tz]. destruct (parse_clock clock) as [[[[h m] s] f]|] eqn:C; [|done].
  apply parse_clock_range in C. cbn in C. destruct (parse_tz tz) as [o|] eqn:T; [|done].
  destruct ((h <=? 23) && (m <=? 59) && (s <=? 59))%Z eqn:B; [|done]. intros [= <- <-]. bool_prop. split.
  { unfold hms, DAY_US. lia. }
  clear - T. destruct o as [o|]; [|done]. unfold parse_tz in T.
  destruct tz as [|c t']; [done|].
  assert (match parse_clock t' with
          | Some (h, m, sec, f) => if (hms h m sec f <? DAY_US)%Z
              then Some (Some (if Ascii.eqb c "-" then - hms h m sec f else hms h m sec f)%Z) else None
          | None => None end = Some (Some o) \/ o = 0%Z) as [K| ->]; [|clear T|unfold DAY_US; lia].
  { repeat case_hyp T; try done; (left; exact T) || (right; by injection T as <-). }
  destruct (parse_clock t') as [[[[h m] s] f]|] eqn:C; [|done]. apply parse_clock_range in C. cbn in C.
  destruct (hms h m s f <? DAY_US)%Z eqn:L; [|done]. bool_prop.
  assert (0 <= hms h m s f)%Z by (unfold hms; lia). injection K as <-. case_match; lia.
Qed.

Lemma fromisoformat_range s dt : fromisoformat s = Some dt -> (Z.abs (utc_us dt) <= 2 ^ 60)%Z.
Proof.
  unfold fromisoformat. destruct (parse_date _) as [d|] eqn:D; [|done]. apply parse_date_range in D.
  assert (forall us off, (0 <= us < DAY_US)%Z -> match off with Some o => (- DAY_US < o < DAY_US)%Z | None => True end ->
    (Z.abs (utc_us {| dt_us := d * DAY_US + us; dt_off := off |}) <= 2 ^ 60)%Z) as B.
  { intros us off U O. unfold utc_us. cbn [dt_us dt_off]. unfold DAY_US in *. destruct off; lia. }
  intros H. repeat case_hyp H; try done; injection H as <-;
    lazymatch goal with
    | E : parse_time _ = Some _ |- _ => apply parse_time_range in E as [U O]; by apply B
    | _ => rewrite <-(Z.add_0_r (d * DAY_US)); apply B; [unfold DAY_US; lia|done]
    end.
Qed.

(** ** The shape of what the digit scanners read *)

Lemma eat_spec c s r : eat c s = Some r <-> s = String c "" +:+ r.
Proof.
  rewrite app_cons, app_nil. destruct s as [|d s]; cbn; [by split|].
  destruct (Ascii.eqb_spec d c) as [->|N]; split; intros E; congruence.
Qed.

Lemma digits_n_shape n : forall acc s v r, digits_n n acc s = Some (v, r) ->
  exists y, s = y +:+ r /\ String.length y = n /\ sforall is_digit y = true.
Proof.
  induction n as [|n IH]; intros acc s v r H; cbn in H; [injection H as <- <-; by exists ""|].
  destruct s as [|c s]; [done|]. destruct (is_digit c) eqn:C; [|done].
  apply IH in H as (y & -> & L & D). exists (String c y). cbn [String.length sforall]. by rewrite app_cons, L, C, D.
Qed.

Lemma digits_n_app y : forall acc r, sforall is_digit y = true -> exists v, digits_n (String.length y) acc (y +:+ r) = Some (v, r).
Proof.
  induction y as [|c y IH]; intros acc r D; [by exists acc|]. cbn [sforall] in D. apply andb_prop in D as [C D].
  rewrite app_cons. cbn [String.length digits_n]. rewrite C. by apply IH.
Qed.

Lemma take_digits_shape s : forall ds r, take_digits s = (ds, r) -> s = ds +:+ r /\ sforall is_digit ds = true.
Proof.
  induction s as [|c s IH]; intros ds r H; cbn [take_digits] in H; [by injection H as <- <-|].
  destruct (is_digit c) eqn:C; [|by injection H as <- <-]. destruct (take_digits s) as [a b]. injection H as <- <-.
  destruct (IH a b eq_refl) as [-> D]. cbn [sforall]. by rewrite app_cons, C, D.
Qed.

Lemma take_digits_app ds : forall r, sforall is_digit ds = true -> head_not is_digit r = true -> take_digits (ds +:+ r) = (ds, r).
Proof.
  induction ds as [|c ds IH]; intros r D H.
  - rewrite app_nil. destruct r as [|c r]; [done|]. cbn [take_digits]. cbn [head_not] in H. apply negb_true_iff in H. by rewrite H.
  - cbn [sforall] in D. apply andb_prop in D as [C D]. rewrite app_cons. cbn [take_digits]. by rewrite C, IH.
Qed.
