(* ===== verification/DateText.v ===== *)
(** * DateText: printed dates and their order

    The civil date of a day number, [strftime("%Y-%m-%d %H:%M:%S")] of a UTC
    instant, the round trip of the two with the parser of [Dates], and the fact
    the database queries rely on: stored texts compare as the instants do. *)

From S2P Require Import Prelude PyStr Dates.
Open Scope string_scope.
Open Scope Z_scope.

Definition civil_from_days (days : Z) : Z * Z * Z :=
  let z := days + 719468 in
  let era := z / 146097 in
  let doe := z - era * 146097 in
  let yoe := (doe - doe / 1460 + doe / 36524 - doe / 146096) / 365 in
  let doy := doe - (365 * yoe + yoe / 4 - yoe / 100) in
  let mp := (5 * doy + 2) / 153 in
  let d := doy - (153 * mp + 2) / 5 + 1 in
  let m := if mp <? 10 then mp + 3 else mp - 9 in
  ((if m <=? 2 then yoe + era * 400 + 1 else yoe + era * 400), m, d).

(** A day of the 400-year era, as century, four-year group, year and day of the March-based year. *)
Lemma era_parts doe : 0 <= doe < 146097 ->
  exists c k r doy, 0 <= c <= 3 /\ 0 <= k <= 24 /\ 0 <= r <= 3 /\ 0 <= doy <= 365 /\
    (doy = 365 -> r = 3 /\ (k = 24 -> c = 3)) /\ doe = 36524 * c + 1461 * k + 365 * r + doy.
Proof.
  intros B.
  exists (Z.min 3 (doe / 36524)). set (c := Z.min 3 (doe / 36524)).
  set (x := doe - 36524 * c).
  assert (0 <= x <= 36524 /\ (x = 36524 -> c = 3) /\ 0 <= c <= 3) as (Bx & Ex & Bc).
  { unfold x, c. clear -B. Z.to_euclidean_division_equations. lia. }
  exists (Z.min 24 (x / 1461)). set (k := Z.min 24 (x / 1461)).
  set (y := x - 1461 * k).
  assert (0 <= y <= 1460 /\ (k = 24 -> y = 1460 -> c = 3) /\ 0 <= k <= 24) as (By_ & Ey & Bk).
  { unfold y, k. clear -Bx Ex. Z.to_euclidean_division_equations. lia. }
  exists (Z.min 3 (y / 365)). set (r := Z.min 3 (y / 365)).
  exists (y - 365 * r).
  assert (0 <= y - 365 * r <= 365 /\ (y - 365 * r = 365 -> r = 3 /\ y = 1460) /\ 0 <= r <= 3) as (Bd & Ed & Br).
  { unfold r. clear -By_. Z.to_euclidean_division_equations. lia. }
  unfold y, x in *. repeat split; try lia.
Qed.

Lemma year_of_era c k r doy (doe := 36524 * c + 1461 * k + 365 * r + doy) (yoe := 100 * c + 4 * k + r) :
  0 <= c <= 3 -> 0 <= k <= 24 -> 0 <= r <= 3 -> 0 <= doy <= 365 -> (doy = 365 -> r = 3 /\ (k = 24 -> c = 3)) ->
  (doe - doe / 1460 + doe / 36524 - doe / 146096) / 365 = yoe /\ 365 * yoe + yoe / 4 - yoe / 100 = doe - doy.
Proof.
  intros Bc Bk Br Bd L.
  assert (yoe / 4 = 25 * c + k /\ yoe / 100 = c) as [E1 E2].
  { unfold yoe. clear -Bc Bk Br. Z.to_euclidean_division_equations. lia. }
  split; [|rewrite E1, E2; unfold yoe, doe; lia].
  set (q := doe / 1460). set (s := doe / 36524 - doe / 146096).
  assert (s = c) as S.
  { unfold s, doe. clear -Bc Bk Br Bd L. Z.to_euclidean_division_equations. lia. }
  assert (25 * c + k <= q <= 25 * c + k + 1 /\ (q = 25 * c + k + 1 <-> 1460 <= 24 * c + k + 365 * r + doy)) as [Q1 Q2].
  { unfold q, doe. clear -Bc Bk Br Bd. Z.to_euclidean_division_equations. lia. }
  symmetry. apply Z.div_unique with (r := doy - (q - 25 * c - k)); [left; clear -Bc Bk Br Bd L Q1 Q2; clearbody q; lia|].
  unfold s in S. fold q. clearbody q. unfold yoe. unfold doe in S |- *. lia.
Qed.

(** The months of the March-based year. *)
Definition month_of (mp : Z) : Z := if mp <? 10 then mp + 3 else mp - 9.
Definition month_start (mp : Z) : Z := (153 * mp + 2) / 5.

Lemma month_start_mono i j : i <= j -> month_start i <= month_start j.
Proof. intros L. unfold month_start. apply Z.div_le_mono; lia. Qed.

Lemma month_table mp : 0 <= mp <= 11 ->
  1 <= month_of mp <= 12 /\ (month_of mp <=? 2) = (10 <=? mp) /\
  month_of mp + (if 2 <? month_of mp then -3 else 9) = mp /\
  (month_of mp = 2 <-> mp = 11) /\ (mp < 11 -> forall y, days_in_month y (month_of mp) = month_start (mp + 1) - month_start mp) /\
  month_start 11 = 337 /\ month_start 12 = 367.
Proof.
  intros B.
  pose proof (zrange_check (fun mp => (1 <=? month_of mp) && (month_of mp <=? 12) && eqb (month_of mp <=? 2) (10 <=? mp) &&
    (month_of mp + (if 2 <? month_of mp then -3 else 9) =? mp) && eqb (month_of mp =? 2) (mp =? 11) &&
    ((11 <=? mp) || (days_in_month 1 (month_of mp) =? month_start (mp + 1) - month_start mp))) 12 mp eq_refl ltac:(cbn; lia)) as H.
  rewrite !andb_true_iff, orb_true_iff, !Z.leb_le, !Z.eqb_eq, !eqb_true_iff in H.
  destruct H as (((((H1 & H2) & H3) & H4) & H5) & H6).
  assert (month_of mp = 2 <-> mp = 11) as H7 by (rewrite <-!Z.eqb_eq, H5; done).
  repeat split; try done; try lia; try apply H7.
  intros L y. destruct H6 as [H6|H6]; [lia|]. rewrite <-H6. unfold days_in_month.
  destruct (Z.eqb_spec (month_of mp) 2); [lia|done].
Qed.

Lemma month_of_year doy (mp := (5 * doy + 2) / 153) : 0 <= doy <= 365 ->
  0 <= mp <= 11 /\ month_start mp <= doy < month_start (mp + 1).
Proof.
  intros B. unfold month_start. split; unfold mp; clear -B; Z.to_euclidean_division_equations; lia.
Qed.

Lemma leap_at_365 c k r era : 0 <= c <= 3 -> 0 <= k <= 24 -> r = 3 -> (k = 24 -> c = 3) ->
  is_leap (100 * c + 4 * k + r + era * 400 + 1) = true.
Proof.
  intros Bc Bk -> L. unfold is_leap. apply andb_true_iff. split.
  - apply Z.eqb_eq. clear. Z.to_euclidean_division_equations. lia.
  - destruct (Z.eq_dec k 24) as [->|Nk]; apply orb_true_iff; [right|left].
    + rewrite (L eq_refl). apply Z.eqb_eq. clear. Z.to_euclidean_division_equations. lia.
    + apply negb_true_iff, Z.eqb_neq. replace (100 * c + 4 * k + 3 + era * 400 + 1) with (4 * k + 4 + (c + 4 * era) * 100) by lia.
      rewrite Z_mod_plus_full, Z.mod_small by lia. lia.
Qed.

Lemma civil_from_days_spec n y m d : days_from_civil 1 1 1 <= n <= days_from_civil 9999 12 31 ->
  civil_from_days n = (y, m, d) -> valid_date y m d = true /\ days_from_civil y m d = n.
Proof.
  intros B. unfold civil_from_days. set (z := n + 719468). set (era := z / 146097).
  assert (0 <= z - era * 146097 < 146097) as Be by (unfold era; clear; Z.to_euclidean_division_equations; lia).
  destruct (era_parts _ Be) as (c & k & r & doy & Bc & Bk & Br & Bd & L & E).
  destruct (year_of_era c k r doy Bc Bk Br Bd L) as [Y D]. rewrite <- E in Y, D.
  set (doe := z - era * 146097) in *. cbv zeta. rewrite Y. set (yoe := 100 * c + 4 * k + r) in *.
  assert (doe - (365 * yoe + yoe / 4 - yoe / 100) = doy) as -> by lia.
  destruct (month_of_year doy Bd) as (M & Md).
  set (mp := (5 * doy + 2) / 153) in *.
  change (if mp <? 10 then mp + 3 else mp - 9) with (month_of mp).
  change ((153 * mp + 2) / 5) with (month_start mp).
  destruct (month_table mp M) as (M1 & M2 & M3 & M4 & M5 & M6 & M7).
  intros [= <- <- <-].
  split.
  - assert (-719162 <= n <= 2932896) as Bn by exact B.
    assert (month_start 10 = 306) as M10 by reflexivity.
    assert (0 <= yoe <= 399) as By_ by (unfold yoe; lia).
    assert (doy - month_start mp + 1 <= days_in_month (if month_of mp <=? 2 then yoe + era * 400 + 1 else yoe + era * 400) (month_of mp)).
    { destruct (Z.eq_dec mp 11) as [Em|Nm]; [|rewrite M5 by lia; lia].
      assert (month_start mp = 337) as -> by (rewrite Em; exact M6).
      replace (month_of mp <=? 2) with true by (rewrite M2, Em; done). rewrite (proj2 M4 Em).
      change (days_in_month (yoe + era * 400 + 1) 2) with (if is_leap (yoe + era * 400 + 1) then 29 else 28).
      destruct (Z.eq_dec doy 365) as [Ed|Nd]; [|destruct is_leap; lia].
      destruct (L Ed) as [Lr Lk]. unfold yoe. rewrite leap_at_365 by done. lia. }
    unfold valid_date. rewrite !andb_true_iff, !Z.leb_le. rewrite M2 in *.
    assert (10 <= mp -> 306 <= doy) by (intros; pose proof (month_start_mono 10 mp); lia).
    assert (mp < 10 -> doy < 306) by (intros; pose proof (month_start_mono (mp + 1) 10); lia).
    unfold yoe in *. destruct (Z.leb_spec 10 mp); repeat split; lia.
  - unfold days_from_civil. rewrite M3. rewrite !M2.
    assert ((if 10 <=? mp then (if 10 <=? mp then yoe + era * 400 + 1 else yoe + era * 400) - 1 else (if 10 <=? mp then yoe + era * 400 + 1 else yoe + era * 400)) = yoe + era * 400) as -> by (destruct (10 <=? mp); lia).
    assert ((yoe + era * 400) / 400 = era) as ->.
    { symmetry. apply Z.div_unique with (r := yoe); [left; unfold yoe; lia|lia]. }
    change ((153 * mp + 2) / 5) with (month_start mp).
    replace (yoe + era * 400 - era * 400) with yoe by lia. unfold doe in *. lia.
Qed.

(** ** Printing *)

Definition digit_char (d : Z) : ascii := ascii_of_N (48 + Z.to_N d).

(** The last [w] decimal digits of [n]: a zero-padded field. *)
Fixpoint zfill (w : nat) (n : Z) : string :=
  match w with O => "" | S w => zfill w (n / 10) +:+ String (digit_char (n mod 10)) "" end.

(** [strftime("%Y-%m-%d %H:%M:%S")] *)
Definition date_text (day : Z) : string :=
  let '(y, m, d) := civil_from_days day in zfill 4 y +:+ "-" +:+ zfill 2 m +:+ "-" +:+ zfill 2 d.

Definition clock_text (us : Z) : string :=
  zfill 2 (us / 3600000000) +:+ ":" +:+ zfill 2 (us / 60000000 mod 60) +:+ ":" +:+ zfill 2 (us / 1000000 mod 60).

Definition strftime (us : Z) : string := date_text (us / DAY_US) +:+ " " +:+ clock_text (us mod DAY_US).

(** [datetime.min] and [datetime.max] in UTC. *)
Definition MIN_US : Z := days_from_civil 1 1 1 * DAY_US.
Definition MAX_US : Z := (days_from_civil 9999 12 31 + 1) * DAY_US - 1.

Lemma digit_char_val d : 0 <= d <= 9 -> is_digit (digit_char d) = true /\ digit_val (digit_char d) = d.
Proof.
  intros B. pose proof (zrange_check (fun d => (10 <=? d) || is_digit (digit_char d) && (digit_val (digit_char d) =? d)) 12 d eq_refl) as H.
  rewrite orb_true_iff, andb_true_iff, Z.leb_le, Z.eqb_eq in H. destruct H as [H|H]; [lia|lia|exact H].
Qed.

Lemma zfill_length w : forall n, String.length (zfill w n) = w.
Proof.
  induction w as [|w IH]; intros n; [done|]. cbn [zfill]. rewrite string_length_app, IH. cbn. lia.
Qed.

Lemma digits_zfill w : forall n r, 0 <= n < 10 ^ Z.of_nat w -> digits_n w 0 (zfill w n +:+ r) = Some (n, r).
Proof.
  assert (forall w acc n r, 0 <= n < 10 ^ Z.of_nat w ->
    digits_n w acc (zfill w n +:+ r) = Some (acc * 10 ^ Z.of_nat w + n, r)) as H; [|intros; by rewrite H].
  clear w. assert (forall w acc n k r, 0 <= n < 10 ^ Z.of_nat w -> digits_n (w + k) acc (zfill w n +:+ r) =
    digits_n k (acc * 10 ^ Z.of_nat w + n) r) as H.
  { induction w as [|w IH]; intros acc n k r B; [cbn in B; cbn [zfill Nat.add]; simpl (_ +:+ _); f_equal; lia|].
    rewrite Nat2Z.inj_succ, Z.pow_succ_r in * by lia. cbn [zfill]. rewrite sapp_assoc.
    replace (S w + k)%nat with (w + S k)%nat by lia. rewrite IH by (split; [apply Z.div_pos; lia|apply Z.div_lt_upper_bound; lia]).
    pose proof (Z.mod_pos_bound n 10 eq_refl) as M. destruct (digit_char_val (n mod 10)) as [D V]; [lia|].
    rewrite app_cons. change ("" +:+ r) with r. cbn [digits_n]. rewrite D, V. f_equal. rewrite (Z.div_mod n 10) at 3 by lia. lia. }
  intros w acc n r B. rewrite <-(Nat.add_0_r w) at 1. by rewrite H.
Qed.

Lemma zfill_digits w : forall n, sforall is_digit (zfill w n) = true.
Proof.
  induction w as [|w IH]; intros n; [done|]. cbn [zfill]. rewrite sforall_app, IH. cbn [sforall].
  pose proof (Z.mod_pos_bound n 10 eq_refl). by rewrite (proj1 (digit_char_val (n mod 10) ltac:(lia))).
Qed.

Lemma date_text_length day : String.length (date_text day) = 10%nat.
Proof.
  unfold date_text. destruct civil_from_days as [[y m] d].
  by rewrite !string_length_app, !zfill_length.
Qed.

Lemma digits_zfill_end w n : 0 <= n < 10 ^ Z.of_nat w -> digits_n w 0 (zfill w n) = Some (n, "").
Proof. intros B. rewrite <-(app_empty_r (zfill w n)). by apply digits_zfill. Qed.

Lemma eat_sep c s : eat c (String c "" +:+ s) = Some s.
Proof. rewrite app_cons. cbn [eat]. by rewrite Ascii.eqb_refl. Qed.

Lemma parse_date_text day : days_from_civil 1 1 1 <= day <= days_from_civil 9999 12 31 -> parse_date (date_text day) = Some day.
Proof.
  intros B. unfold date_text. destruct (civil_from_days day) as [[y m] d] eqn:E.
  destruct (civil_from_days_spec day y m d B E) as [V <-]. pose proof V as W.
  unfold valid_date in W. rewrite !andb_true_iff, !Z.leb_le in W.
  assert (d <= 31) as D by (unfold days_in_month in W; repeat case_match; lia).
  unfold parse_date. rewrite digits_zfill by (cbn; lia). rewrite eat_sep. cbv zeta iota.
  rewrite digits_zfill by (cbn; lia). rewrite eat_sep, digits_zfill_end by (cbn; lia). by rewrite V.
Qed.

Lemma clock_fields us : 0 <= us < DAY_US ->
  let h := us / 3600000000 in let m := us / 60000000 mod 60 in let s := us / 1000000 mod 60 in
  0 <= h <= 23 /\ 0 <= m <= 59 /\ 0 <= s <= 59 /\ hms h m s 0 = us - us mod 1000000.
Proof.
  intros B. cbv zeta. unfold hms, DAY_US in *.
  assert (us / 60000000 = us / 1000000 / 60) as -> by (rewrite Z.div_div by lia; f_equal; lia).
  assert (us / 3600000000 = us / 1000000 / 60 / 60) as -> by (rewrite !Z.div_div by lia; f_equal; lia).
  pose proof (Z.div_mod us 1000000 ltac:(lia)). pose proof (Z.mod_pos_bound us 1000000 eq_refl).
  set (t := us / 1000000) in *. assert (0 <= t < 86400) by lia. clearbody t.
  pose proof (Z.div_mod t 60 ltac:(lia)). pose proof (Z.mod_pos_bound t 60 eq_refl).
  set (q := t / 60) in *. assert (0 <= q < 1440) by lia. clearbody q.
  pose proof (Z.div_mod q 60 ltac:(lia)). pose proof (Z.mod_pos_bound q 60 eq_refl). lia.
Qed.

Lemma cut_tz_app a r : sforall (fun c => negb (is_tz_mark c)) a = true ->
  cut_tz (a +:+ r) = (let '(x, y) := cut_tz r in (a +:+ x, y)).
Proof.
  induction a as [|c a IH]; intros H; [rewrite app_nil; by destruct (cut_tz r)|]. cbn [sforall] in H. apply andb_prop in H as [C H].
  apply negb_true_iff in C. rewrite app_cons. cbn [cut_tz]. rewrite C, (IH H). by destruct (cut_tz r).
Qed.

Lemma clock_text_unmarked us : sforall (fun c => negb (is_tz_mark c)) (clock_text us) = true.
Proof.
  assert (forall w n, sforall (fun c => negb (is_tz_mark c)) (zfill w n) = true) as Z.
  { intros w n. eapply sforall_weaken; [|apply zfill_digits]. intros c. unfold is_digit, is_tz_mark, in_range.
    destruct c as [[] [] [] [] [] [] [] []]; (discriminate || done). }
  unfold clock_text. by rewrite !sforall_app, !Z.
Qed.

Lemma parse_clock_text us : 0 <= us < DAY_US ->
  parse_clock (clock_text us) = Some (us / 3600000000, us / 60000000 mod 60, us / 1000000 mod 60, 0).
Proof.
  intros B. destruct (clock_fields us B) as (H & M & S & _). unfold parse_clock, clock_text.
  rewrite digits_zfill by (cbn; lia). rewrite eat_sep, app_cons. cbv zeta iota.
  rewrite digits_zfill by (cbn; lia). rewrite eat_sep, app_cons. cbv iota.
  by rewrite digits_zfill_end by (cbn; lia).
Qed.

Lemma day_split us : us = us / DAY_US * DAY_US + us mod DAY_US /\ 0 <= us mod DAY_US < DAY_US /\
  (us mod DAY_US) mod 1000000 = us mod 1000000 /\ us / 1000000 = us / DAY_US * 86400 + (us mod DAY_US) / 1000000.
Proof.
  unfold DAY_US. pose proof (Z.div_mod us 86400000000 ltac:(lia)) as E. pose proof (Z.mod_pos_bound us 86400000000 eq_refl).
  set (q := us / 86400000000) in *. set (r := us mod 86400000000) in *. clearbody q r. subst us.
  replace (86400000000 * q + r) with (r + q * 86400 * 1000000) by lia.
  rewrite Z_mod_plus_full, Z.div_add by lia. lia.
Qed.

Lemma day_range us : MIN_US <= us <= MAX_US -> days_from_civil 1 1 1 <= us / DAY_US <= days_from_civil 9999 12 31.
Proof.
  unfold MIN_US, MAX_US. generalize (days_from_civil 1 1 1) (days_from_civil 9999 12 31). intros lo hi B.
  assert (0 < DAY_US) by done. split; [apply Z.div_le_lower_bound; lia|].
  apply Z.lt_succ_r, Z.div_lt_upper_bound; lia.
Qed.

Lemma parse_time_text us : 0 <= us < DAY_US -> parse_time (clock_text us) = Some (us - us mod 1000000, None).
Proof.
  intros M. unfold parse_time. pose proof (cut_tz_app (clock_text us) "" (clock_text_unmarked _)) as T.
  rewrite app_empty_r in T. rewrite T. cbn [cut_tz]. rewrite app_empty_r, parse_clock_text by done. cbn [parse_tz].
  destruct (clock_fields _ M) as (H & Mi & S & E).
  rewrite (proj2 (Z.leb_le _ 23)), (proj2 (Z.leb_le _ 59)), (proj2 (Z.leb_le _ 59)) by lia. cbn [andb]. by rewrite E.
Qed.

Lemma strftime_parts us : stake 10 (strftime us) = date_text (us / DAY_US) /\
  sdrop 10 (strftime us) = " " +:+ clock_text (us mod DAY_US) /\ exists r, sdrop 4 (strftime us) = "-" +:+ r.
Proof.
  unfold strftime. generalize (us / DAY_US) (clock_text (us mod DAY_US)). intros day t.
  pose proof (stake_app (date_text day) (" " +:+ t)) as S. pose proof (sdrop_app (date_text day) (" " +:+ t)) as D.
  rewrite date_text_length in S, D. split; [exact S|]. split; [exact D|].
  unfold date_text. destruct (civil_from_days day) as [[y m] d]. rewrite sapp_assoc.
  pose proof (sdrop_app (zfill 4 y) (("-" +:+ zfill 2 m +:+ "-" +:+ zfill 2 d) +:+ " " +:+ t)) as Z.
  rewrite zfill_length in Z. rewrite Z, sapp_assoc. eauto.
Qed.

Lemma strftime_parses us : MIN_US <= us <= MAX_US ->
  fromisoformat (strftime us) = Some {| dt_us := us - us mod 1000000; dt_off := None |}.
Proof.
  intros B. destruct (strftime_parts us) as (T & D & r & D4). destruct (day_split us) as (E & M & M6 & _).
  pose proof (parse_date_text _ (day_range us B)) as P. pose proof (parse_time_text _ M) as C.
  assert (exists c s, clock_text (us mod DAY_US) = String c s) as (c & s & N).
  { destruct (clock_text (us mod DAY_US)) as [|c s] eqn:N; [|eauto]. apply (f_equal String.length) in N.
    unfold clock_text in N. rewrite !string_length_app, !zfill_length in N. done. }
  rewrite N in D, C. rewrite app_cons, app_nil in D. rewrite app_cons in D4.
  generalize dependent (strftime us). intros text T D D4.
  unfold fromisoformat. rewrite D4. cbv zeta. rewrite Ascii.eqb_refl. rewrite T, D, P, C, M6. do 2 f_equal. lia.
Qed.

(** ** The order of printed instants *)

Lemma digit_compare a b : 0 <= a <= 9 -> 0 <= b <= 9 -> Ascii.compare (digit_char a) (digit_char b) = (a ?= b).
Proof.
  intros A B. unfold Ascii.compare, digit_char. rewrite !N_ascii_embedding by lia.
  rewrite <-N2Z.inj_compare, !N2Z.inj_add, !Z2N.id by lia. apply Z.add_compare_mono_l.
Qed.

Lemma compare_div_mod n k : (n ?= k) = match n / 10 ?= k / 10 with Eq => n mod 10 ?= k mod 10 | c => c end.
Proof.
  pose proof (Z.div_mod n 10 ltac:(lia)). pose proof (Z.div_mod k 10 ltac:(lia)).
  pose proof (Z.mod_pos_bound n 10 eq_refl). pose proof (Z.mod_pos_bound k 10 eq_refl).
  destruct (Z.compare_spec (n / 10) (k / 10)); [destruct (Z.compare_spec (n mod 10) (k mod 10))|..];
    (apply Z.compare_eq_iff || apply Z.compare_lt_iff || apply Z.compare_gt_iff); lia.
Qed.

Lemma zfill_compare w : forall n k, 0 <= n < 10 ^ Z.of_nat w -> 0 <= k < 10 ^ Z.of_nat w ->
  String.compare (zfill w n) (zfill w k) = (n ?= k).
Proof.
  induction w as [|w IH]; intros n k N K; [cbn in N, K; cbn; symmetry; apply Z.compare_eq_iff; lia|].
  rewrite Nat2Z.inj_succ, Z.pow_succ_r in N, K by lia. cbn [zfill].
  rewrite compare_app by (by rewrite !zfill_length). rewrite compare_div_mod.
  rewrite IH by (split; [apply Z.div_pos; lia|apply Z.div_lt_upper_bound; lia]).
  destruct (n / 10 ?= k / 10); [|done|done]. cbn [String.compare].
  pose proof (Z.mod_pos_bound n 10 eq_refl). pose proof (Z.mod_pos_bound k 10 eq_refl).
  rewrite digit_compare by lia. by destruct (_ ?= _).
Qed.

(** Days of the March-based years before [Y]. *)
Definition year_start (Y : Z) : Z := 365 * Y + Y / 4 - Y / 100 + Y / 400.
Definition march_year (y m : Z) : Z := if m <=? 2 then y - 1 else y.
Definition march_month (m : Z) : Z := m + (if 2 <? m then -3 else 9).

Lemma days_from_civil_alt y m d :
  days_from_civil y m d = year_start (march_year y m) + month_start (march_month m) + d - 1 - 719468.
Proof.
  unfold days_from_civil, year_start. fold (march_year y m). set (Y := march_year y m).
  fold (march_month m). fold (month_start (march_month m)). cbv zeta.
  pose proof (Z.div_mod Y 400 ltac:(lia)). pose proof (Z.mod_pos_bound Y 400 eq_refl).
  set (e := Y / 400) in *. assert (Y - e * 400 = Y mod 400) as -> by lia. set (r := Y mod 400) in *.
  assert (Y / 4 = 100 * e + r / 4) as ->.
  { rewrite H. replace (400 * e + r) with (r + 100 * e * 4) by lia. rewrite Z.div_add by lia. lia. }
  assert (Y / 100 = 4 * e + r / 100) as ->.
  { rewrite H. replace (400 * e + r) with (r + 4 * e * 100) by lia. rewrite Z.div_add by lia. lia. }
  lia.
Qed.

Lemma year_start_step Y : year_start Y + 365 + (if is_leap (Y + 1) then 1 else 0) = year_start (Y + 1).
Proof.
  assert (forall b, 0 < b -> (Y + 1) / b = Y / b + (if (Y + 1) mod b =? 0 then 1 else 0)) as S.
  { intros b B. pose proof (Z.div_mod Y b ltac:(lia)). pose proof (Z.mod_pos_bound Y b B).
    destruct (Z.eq_dec (Y mod b + 1) b) as [E|E].
    - rewrite <-(Z.div_unique (Y + 1) b (Y / b + 1) 0), <-(Z.mod_unique (Y + 1) b (Y / b + 1) 0) by lia. done.
    - rewrite <-(Z.div_unique (Y + 1) b (Y / b) (Y mod b + 1)), <-(Z.mod_unique (Y + 1) b (Y / b) (Y mod b + 1)) by lia.
      destruct (Z.eqb_spec (Y mod b + 1) 0); lia. }
  unfold year_start. rewrite !S by lia. unfold is_leap.
  assert (forall a b, 0 < a -> (Y + 1) mod (a * b) = 0 -> 0 < b -> (Y + 1) mod b = 0) as A.
  { intros a b Pa H Pb. apply Z.mod_divide in H as [q H]; [|lia]. apply Z.mod_divide; [lia|]. exists (q * a). lia. }
  pose proof (A 4 100 eq_refl) as A1. pose proof (A 25 4 eq_refl) as A2.
  change (4 * 100) with 400 in A1. change (25 * 4) with 100 in A2.
  assert ((Y + 1) mod 100 = 0 -> (Y + 1) mod 4 = 0) as B1 by (intros; apply A2; [done|lia]).
  assert ((Y + 1) mod 400 = 0 -> (Y + 1) mod 100 = 0) as B2 by (intros; apply A1; [done|lia]). clear A A1 A2 S.
  destruct (Z.eqb_spec ((Y + 1) mod 4) 0), (Z.eqb_spec ((Y + 1) mod 100) 0), (Z.eqb_spec ((Y + 1) mod 400) 0); cbn [andb orb negb]; try lia;
    exfalso; auto.
Qed.

Lemma year_start_mono Y Y' : Y <= Y' -> year_start Y <= year_start Y'.
Proof.
  intros L. unfold year_start.
  pose proof (Z.div_le_mono Y Y' 4 ltac:(lia) L). pose proof (Z.div_le_mono Y Y' 400 ltac:(lia) L).
  pose proof (Z.div_mod Y 100 ltac:(lia)). pose proof (Z.mod_pos_bound Y 100 eq_refl).
  pose proof (Z.div_mod Y' 100 ltac:(lia)). pose proof (Z.mod_pos_bound Y' 100 eq_refl). lia.
Qed.

Lemma march_parts y m d : valid_date y m d = true ->
  0 <= march_month m <= 11 /\ 12 * y + m = 12 * march_year y m + march_month m + 3 /\ 1 <= d /\
  month_start (march_month m) + d <= 365 + (if is_leap (march_year y m + 1) then 1 else 0) /\
  (march_month m < 11 -> month_start (march_month m) + d <= month_start (march_month m + 1)).
Proof.
  unfold valid_date. rewrite !andb_true_iff, !Z.leb_le. intros V. assert (1 <= m <= 12) as M by lia.
  assert (0 <= march_month m <= 11 /\ 12 * y + m = 12 * march_year y m + march_month m + 3 /\ month_of (march_month m) = m) as (P & Q & R).
  { clear V. unfold march_month, march_year, month_of. destruct (Z.ltb_spec 2 m), (Z.leb_spec m 2); try lia.
    - destruct (Z.ltb_spec (m + -3) 10); lia.
    - destruct (Z.ltb_spec (m + 9) 10); lia. }
  destruct (month_table (march_month m) P) as (_ & _ & _ & T4 & T5 & T6 & T7). rewrite R in T4, T5.
  split; [done|]. split; [done|]. split; [lia|]. split.
  - destruct (Z.eq_dec (march_month m) 11) as [E|N].
    + assert (m = 2) as -> by (by apply T4). rewrite E, T6. change (march_year y 2) with (y - 1). replace (y - 1 + 1) with y by lia.
      destruct V as [_ V]. change (days_in_month y 2) with (if is_leap y then 29 else 28) in V. destruct is_leap; lia.
    + rewrite T5 in V by lia. pose proof (month_start_mono (march_month m + 1) 11). destruct is_leap; lia.
  - intros L. rewrite T5 in V by lia. lia.
Qed.

Lemma days_lt y m d y' m' d' : valid_date y m d = true -> valid_date y' m' d' = true ->
  12 * y + m < 12 * y' + m' \/ (y = y' /\ m = m' /\ d < d') -> days_from_civil y m d < days_from_civil y' m' d'.
Proof.
  intros V V' L. rewrite !days_from_civil_alt.
  destruct (march_parts _ _ _ V) as (P & Q & D & B & N), (march_parts _ _ _ V') as (P' & Q' & D' & B' & N').
  destruct L as [L|(-> & -> & L)]; [|lia].
  destruct (Z.lt_ge_cases (march_year y m) (march_year y' m')) as [Y|Y].
  - pose proof (year_start_step (march_year y m)). pose proof (year_start_mono (march_year y m + 1) (march_year y' m')).
    pose proof (month_start_mono 0 (march_month m') ltac:(lia)) as M0. change (month_start 0) with 0 in M0. lia.
  - assert (march_year y m = march_year y' m') as <- by lia.
    pose proof (month_start_mono (march_month m + 1) (march_month m')). lia.
Qed.

(** Two printed days compare as the days do. *)
Lemma date_text_compare a b :
  days_from_civil 1 1 1 <= a <= days_from_civil 9999 12 31 -> days_from_civil 1 1 1 <= b <= days_from_civil 9999 12 31 ->
  String.compare (date_text a) (date_text b) = (a ?= b).
Proof.
  intros A B. unfold date_text. destruct (civil_from_days a) as [[y m] d] eqn:Ea, (civil_from_days b) as [[y' m'] d'] eqn:Eb.
  destruct (civil_from_days_spec _ _ _ _ A Ea) as [V <-], (civil_from_days_spec _ _ _ _ B Eb) as [V' <-].
  pose proof V as W. pose proof V' as W'. unfold valid_date in W, W'. rewrite !andb_true_iff, !Z.leb_le in W, W'.
  assert (d <= 31 /\ d' <= 31) as D by (unfold days_in_month in W, W'; repeat case_match; lia).
  rewrite compare_app, zfill_compare by (by rewrite ?zfill_length || (cbn; lia)).
  rewrite (compare_app "-" "-") by done. change (String.compare "-" "-") with Eq. cbv iota.
  rewrite compare_app, zfill_compare by (by rewrite ?zfill_length || (cbn; lia)).
  rewrite (compare_app "-" "-") by done. change (String.compare "-" "-") with Eq. cbv iota.
  rewrite zfill_compare by (cbn; lia).
  pose proof (days_lt _ _ _ _ _ _ V V') as L1. pose proof (days_lt _ _ _ _ _ _ V' V) as L2.
  symmetry. destruct (Z.compare_spec y y') as [->| |]; [destruct (Z.compare_spec m m') as [->| |]; [destruct (Z.compare_spec d d') as [->| |]|..]|..];
    [apply Z.compare_refl|(apply Z.compare_lt_iff, L1; lia) || (apply Z.compare_gt_iff, L2; lia)..].
Qed.

Lemma clock_text_compare a b : 0 <= a < DAY_US -> 0 <= b < DAY_US ->
  String.compare (clock_text a) (clock_text b) = (a / 1000000 ?= b / 1000000).
Proof.
  intros A B. unfold clock_text. destruct (clock_fields a A) as (Ha & Ma & Sa & Ea), (clock_fields b B) as (Hb & Mb & Sb & Eb).
  unfold hms in Ea, Eb. pose proof (Z.div_mod a 1000000 ltac:(lia)). pose proof (Z.div_mod b 1000000 ltac:(lia)).
  rewrite compare_app, zfill_compare by (by rewrite ?zfill_length || (cbn; lia)).
  rewrite (compare_app ":" ":") by done. change (String.compare ":" ":") with Eq. cbv iota.
  rewrite compare_app, zfill_compare by (by rewrite ?zfill_length || (cbn; lia)).
  rewrite (compare_app ":" ":") by done. change (String.compare ":" ":") with Eq. cbv iota.
  rewrite zfill_compare by (cbn; lia).
  set (h := a / 3600000000) in *. set (m := a / 60000000 mod 60) in *. set (s := a / 1000000 mod 60) in *.
  set (h' := b / 3600000000) in *. set (m' := b / 60000000 mod 60) in *. set (s' := b / 1000000 mod 60) in *.
  assert (a / 1000000 = (h * 60 + m) * 60 + s) as -> by lia. assert (b / 1000000 = (h' * 60 + m') * 60 + s') as -> by lia.
  clearbody h m s h' m' s'. clear -Ha Ma Sa Hb Mb Sb.
  symmetry. destruct (Z.compare_spec h h') as [->| |]; [destruct (Z.compare_spec m m') as [->| |]; [destruct (Z.compare_spec s s') as [->| |]|..]|..];
    [apply Z.compare_refl|(apply Z.compare_lt_iff; lia) || (apply Z.compare_gt_iff; lia)..].
Qed.

(** Stored texts compare as the seconds they print. *)
Lemma strftime_compare a b : MIN_US <= a <= MAX_US -> MIN_US <= b <= MAX_US ->
  String.compare (strftime a) (strftime b) = (a / 1000000 ?= b / 1000000).
Proof.
  intros A B. pose proof (day_range a A) as Da. pose proof (day_range b B) as Db.
  destruct (day_split a) as (_ & Ma & _ & ->), (day_split b) as (_ & Mb & _ & ->).
  unfold strftime. rewrite compare_app by (by rewrite !date_text_length). rewrite date_text_compare by done.
  rewrite (compare_app " " " ") by done. change (String.compare " " " ") with Eq. cbv iota.
  rewrite clock_text_compare by done.
  assert (forall u, 0 <= u < DAY_US -> 0 <= u / 1000000 < 86400) as T.
  { intros u U. unfold DAY_US in U. split; [apply Z.div_pos; lia|apply Z.div_lt_upper_bound; lia]. }
  pose proof (T _ Ma). pose proof (T _ Mb). clear A B Da Db Ma Mb T.
  generalize dependent (a / DAY_US). generalize dependent (b / DAY_US).
  generalize dependent (a mod DAY_US / 1000000). generalize dependent (b mod DAY_US / 1000000). intros s L s' L' d d'.
  symmetry. destruct (Z.compare_spec d' d) as [->| |];
    [apply Z.add_compare_mono_l|(apply Z.compare_lt_iff; lia)|(apply Z.compare_gt_iff; lia)].
Qed.
