(* ===== verification/CveRow.v ===== *)
(** * CveRow: the rows and profiles the scoring code reads

    The dicts keep the keys the scoring modules look up.  A key that is missing
    and a key holding [None] are both [None] (or [PNone]): the sources read them
    through [.get].  Fields whose dynamic type the code tests are [pyval]s. *)

From S2P Require Import Prelude PyStr Float64 PyVal.
Open Scope string_scope.

(** The [affected_products] column: absent, one string, or a list of strings. *)
Inductive products := NoProducts | OneProduct (s : string) | Products (l : list string).

(** An element of [public_exploits]: a dict with its text fields, or a string. *)
Inductive exploit :=
| ExDict (ty title source url : option string) (other_keys : bool)
| ExText (s : string).

Record cve := mkCve {
  affected_products : products;
  description : option string;
  summary : option string;
  is_kev : pyval;
  is_vulncheck_exploited : pyval;
  kev_date_added : option string;
  epss_score : pyval;
  cvss_score : pyval;
  severity : option string;
  public_exploits : list exploit;
  source_urls : list string;
  has_poc : pyval
}.

(** An entry of a profile list: a bare string, a dict with its text fields, or
    another JSON value. *)
Inductive profile_item :=
| ItText (s : string)
| ItDict (vendor product cpeProduct version : option string)
| ItOther.

Record profile := mkProfile {
  operatingSystems : option (list profile_item);
  applications : option (list profile_item);
  aiSystems : option (list profile_item);
  pf_internet_facing : option pyval;
  pf_criticality : option pyval;
  pf_privileged_service : option pyval;
  pf_ot_safety : option pyval;
  pf_other_keys : bool
}.

Definition is_some {A} (o : option A) : bool := match o with Some _ => true | None => false end.

(** [bool(profile)] for a dict: it has a key. *)
Definition profile_truthy (p : profile) : bool :=
  is_some (operatingSystems p) || is_some (applications p) || is_some (aiSystems p)
  || is_some (pf_internet_facing p) || is_some (pf_criticality p)
  || is_some (pf_privileged_service p) || is_some (pf_ot_safety p) || pf_other_keys p.

(** [x or ""] on an optional string, [x or \[\]] on an optional list. *)
Definition text_or (o : option string) : string := match o with Some s => s | None => "" end.
Definition list_or {A} (o : option (list A)) : list A := match o with Some l => l | None => [] end.

(** [a or b] on optional strings, the empty string being false. *)
Definition str_or (a b : option string) : option string :=
  match a with Some s => if nonempty s then a else b | None => b end.

Definition exploit_truthy (e : exploit) : bool :=
  match e with
  | ExDict ty ti so ur other => is_some ty || is_some ti || is_some so || is_some ur || other
  | ExText s => nonempty s
  end.

(** The row with nothing set: a base for concrete inputs. *)
Definition empty_cve : cve :=
  mkCve NoProducts None None PNone PNone None PNone PNone None [] [] PNone.
Definition empty_profile : profile := mkProfile None None None None None None None false.
