(* ===== verification/AssetMatch.v ===== *)
(** * AssetMatch: scoring/asset_match.py

    Fuzzy matching of a CVE row against an asset profile: the graduation table
    (tiers 1-9), the CPE backend score and how the two are combined. *)

From S2P Require Import Prelude PyStr Float64 PyVal CveRow.
From Stdlib Require Import QArith.
Open Scope string_scope.

Definition DEFAULT_ASSET_UNKNOWN : fl := lit (1#2).

Definition NO_ASSETS : string := "No matching assets in your profile".

Definition _profile_product_name (item : profile_item) : string :=
  match item with
  | ItText s => strip s
  | ItDict _ product cpe _ => strip (text_or (str_or product cpe))
  | ItOther => ""
  end.

Record match_asset := mkAsset { a_product : string; a_version : string; a_vendor : string }.

(** Flatten a profile to CPE-match rows: systems, applications, AI systems. *)
Definition os_assets (items : list profile_item) : list match_asset :=
  flat_map (fun it => match it with
    | ItDict vendor product _ version =>
        if nonempty (strip (text_or product)) then
          [mkAsset (strip (text_or product)) (strip (text_or version)) (strip (text_or vendor))]
        else []
    | _ => []
    end) items.

Definition app_assets (items : list profile_item) : list match_asset :=
  flat_map (fun it => match it with
    | ItDict vendor product cpe version =>
        if nonempty (strip (text_or (str_or product cpe))) then
          [mkAsset (strip (text_or (str_or cpe product))) (strip (text_or version)) (strip (text_or vendor))]
        else []
    | _ => []
    end) items.

Definition ai_assets (items : list profile_item) : list match_asset :=
  flat_map (fun it => let name := _profile_product_name it in
    if nonempty name then [mkAsset name "" ""] else []) items.

Definition profile_to_match_assets (p : option profile) : list match_asset :=
  match p with
  | Some p =>
      if profile_truthy p then
        os_assets (list_or (operatingSystems p)) ++ app_assets (list_or (applications p))
        ++ ai_assets (list_or (aiSystems p))
      else []
  | None => []
  end.

(** The CPE backend's 0-100 score as a component score and its label. *)
Definition asset_score_from_backend (match_score : option Z) : res (fl * string) :=
  let score := match match_score with Some z => z | None => 0%Z end in
  if (100 <=? score)%Z then Ok (f1, "Your asset directly affected (exact CPE version match)")
  else if (55 <=? score)%Z then
    Ok (lit (55#100), "Your asset found in affected products (CPE product match)")
  else if (0 <? score)%Z then
    let! s := int_truediv score 100 in Ok (s, "Partial match to your asset profile")
  else Ok (f0, NO_ASSETS).

Definition _affected_products (c : cve) : list string :=
  match affected_products c with
  | NoProducts => []
  | OneProduct s => if nonempty s then [lower s] else []
  | Products l => map lower (List.filter nonempty l)
  end.

(** The loop state: [best_score], [best_tier], [best_label]. *)
Record best := mkBest { b_score : fl; b_tier : string; b_label : option string }.

Definition best0 : best := mkBest f0 "no match" None.

(** [vendor and (vendor == aff or aff in vendor or vendor in aff)] *)
Definition overlaps (mine theirs : string) : bool :=
  nonempty mine && (String.eqb mine theirs || str_in theirs mine || str_in mine theirs).

(** [parts\[0\]] and [parts\[1\] if len(parts) > 1 else prod], stripped. *)
Definition split_product (prod : string) : string * string :=
  match split_on ":" prod with
  | v :: p :: _ => (strip v, strip p)
  | v :: _ => (strip v, strip prod)
  | [] => ("", strip prod)
  end.

(** One application against one affected product. *)
Definition app_product_step (vendor cpe display version : string) (b : best) (prod : string) : best :=
  let '(aff_vendor, aff_product) := split_product prod in
  let vendor_match := overlaps vendor aff_vendor in
  let product_match := overlaps cpe aff_product in
  if vendor_match && product_match then
    if nonempty version then
      if flt (b_score b) f1 then mkBest f1 "exact CPE match" (Some (strip (display +:+ " " +:+ version))) else b
    else if flt (b_score b) (lit (9#10)) then
      mkBest (lit (9#10)) "CPE product match" (Some (if nonempty display then display else cpe))
    else b
  else if product_match && negb vendor_match && flt (b_score b) (lit (75#100)) then
    mkBest (lit (75#100)) "product match" (Some (if nonempty display then display else cpe))
  else if vendor_match && negb product_match && flt (b_score b) (lit (65#100)) then
    mkBest (lit (65#100)) "vendor match" (Some vendor)
  else b.

(** One application: the products, then the description fallback. *)
Definition app_step (affected : list string) (desc_blob : string) (b : best) (it : profile_item) : best :=
  match it with
  | ItDict vendor product cpe version =>
      let vendor := strip (lower (text_or vendor)) in
      let cpe_product := strip (lower (text_or cpe)) in
      let display_name := strip (text_or product) in
      let version := strip (text_or version) in
      let b := fold_left (app_product_step vendor cpe_product display_name version) affected b in
      if flt (b_score b) (lit (45#100)) then
        let needle := lower display_name in
        if (nonempty needle && str_in needle desc_blob)
           || (nonempty cpe_product && str_in cpe_product desc_blob)
        then mkBest (lit (45#100)) "description mention"
               (Some (if nonempty display_name then display_name else cpe_product))
        else b
      else b
  | _ => b
  end.

(** [(prod.split(":")\[1\] if ":" in prod else prod).strip()] *)
Definition second_part (prod : string) : string :=
  match split_on ":" prod with
  | _ :: p :: _ => strip p
  | _ => strip prod
  end.

Definition os_step (affected : list string) (desc_blob : string) (b : best) (it : profile_item) : best :=
  match it with
  | ItDict _ product _ version =>
      let os_prod := strip (lower (text_or product)) in
      let os_version := strip (text_or version) in
      let os_display := strip (text_or product) in
      let b := fold_left (fun b prod =>
        let aff_product := second_part prod in
        if nonempty os_prod
           && (str_in aff_product os_prod || str_in os_prod aff_product || str_in os_prod prod)
           && flt (b_score b) (lit (8#10))
        then mkBest (lit (8#10)) "OS match"
               (Some (os_display +:+ (if nonempty os_version then " " +:+ os_version else "")))
        else b) affected b in
      if flt (b_score b) (lit (45#100)) && nonempty os_prod && str_in os_prod desc_blob
      then mkBest (lit (45#100)) "description mention" (Some os_display)
      else b
  | _ => b
  end.

Definition ai_step (affected : list string) (desc_blob : string) (b : best) (it : profile_item) : best :=
  let ai_name := _profile_product_name it in
  if nonempty ai_name then
    let ai_lower := lower ai_name in
    let b := fold_left (fun b prod =>
      let aff_product := second_part prod in
      if nonempty ai_lower
         && (str_in aff_product ai_lower || str_in ai_lower aff_product || str_in ai_lower prod)
         && flt (b_score b) (lit (55#100))
      then mkBest (lit (55#100)) "AI system match" (Some ai_name)
      else b) affected b in
    if flt (b_score b) (lit (35#100)) && nonempty ai_lower && str_in ai_lower desc_blob
    then mkBest (lit (35#100)) "AI system reference" (Some ai_name)
    else b
  else b.

(** [match_type_map]: the sentence a tier prints for a label. *)
Definition match_type_map (tier lbl : string) : option string :=
  if String.eqb tier "exact CPE match" then Some (lbl +:+ " directly affected (exact CPE match)")
  else if String.eqb tier "CPE product match" then Some (lbl +:+ " found in affected products (CPE product match)")
  else if String.eqb tier "product match" then Some (lbl +:+ " found in affected products (product match)")
  else if String.eqb tier "vendor match" then Some (lbl +:+ " vendor matched in affected products")
  else if String.eqb tier "OS match" then Some (lbl +:+ " found in affected products (OS match)")
  else if String.eqb tier "AI system match" then Some (lbl +:+ " AI/ML system in affected products")
  else if String.eqb tier "AI system reference" then Some (lbl +:+ " referenced in vulnerability description")
  else if String.eqb tier "description mention" then Some (lbl +:+ " mentioned in vulnerability description")
  else None.

Definition best_match (c : cve) (p : profile) : best :=
  let affected := _affected_products c in
  let desc_blob := lower (text_or (description c) +:+ " " +:+ text_or (summary c)) in
  let b := fold_left (app_step affected desc_blob) (list_or (applications p)) best0 in
  let b := fold_left (os_step affected desc_blob) (list_or (operatingSystems p)) b in
  fold_left (ai_step affected desc_blob) (list_or (aiSystems p)) b.

Definition asset_match_info (c : cve) (p : option profile) : fl * string :=
  match p with
  | Some p =>
      if profile_truthy p then
        let b := best_match c p in
        match b_label b with
        | Some lbl =>
            if nonempty lbl then
              match match_type_map (b_tier b) lbl with
              | Some text => (b_score b, text)
              | None => (b_score b, NO_ASSETS)
              end
            else (b_score b, NO_ASSETS)
        | None => (b_score b, NO_ASSETS)
        end
      else (DEFAULT_ASSET_UNKNOWN, "")
  | None => (DEFAULT_ASSET_UNKNOWN, "")
  end.

(** CPE backend match first; the fuzzy graduation only when the CPE score is zero. *)
Definition resolve_asset_component (c : cve) (p : option profile) (backend : option Z) : res (fl * string) :=
  match p with
  | Some pf =>
      if profile_truthy pf then
        let! cpe := asset_score_from_backend backend in
        if feq (fst cpe) f0 then
          let fuzzy := asset_match_info c p in
          if flt (fst cpe) (fst fuzzy) then Ok fuzzy else Ok cpe
        else Ok cpe
      else Ok (asset_match_info c p)
  | None => Ok (asset_match_info c p)
  end.

(** ** The graduation table

    Every state of the match loop names the tier its score belongs to, and has
    a label to print unless nothing matched. *)

Definition TIERS : list (string * Q) :=
  [("no match", 0%Q); ("exact CPE match", 1%Q); ("CPE product match", 9#10); ("OS match", 8#10);
   ("product match", 75#100); ("vendor match", 65#100); ("AI system match", 55#100);
   ("description mention", 45#100); ("AI system reference", 35#100)].

Definition labelled (b : best) : bool :=
  String.eqb (b_tier b) "no match" || match b_label b with Some l => nonempty l | None => false end.

Definition tier_consistent (b : best) : Prop :=
  labelled b = true /\ exists q, In (b_tier b, q) TIERS /\ b_score b = lit q.

Ltac tier_pick :=
  eexists; split; [simpl; repeat (first [left; reflexivity | right])|vm_compute; reflexivity].

Lemma best0_consistent : tier_consistent best0.
Proof. split; [reflexivity|tier_pick]. Qed.

(** A new state is consistent once its label is not empty. *)
Lemma labelled_intro q t l : nonempty l = true -> labelled (mkBest q t (Some l)) = true.
Proof. intros H. unfold labelled. cbn [b_label]. rewrite H. apply orb_true_r. Qed.

Ltac new_tier := split; [apply labelled_intro|tier_pick].

Lemma strip_version_nonempty d w : nonempty (strip w) = true -> nonempty (strip (d +:+ " " +:+ strip w)) = true.
Proof.
  rewrite !nonempty_strip. intros H. unfold blank in *. rewrite !sforall_app.
  fold (blank (strip w)). rewrite blank_strip. apply negb_true_iff in H. unfold blank. rewrite H.
  by rewrite !andb_false_r.
Qed.

Lemma overlaps_nonempty a b : overlaps a b = true -> nonempty a = true.
Proof. unfold overlaps. intros H. by apply andb_true_iff in H as [? _]. Qed.

Lemma nonempty_pick (a b : string) : nonempty b = true -> nonempty (if nonempty a then a else b) = true.
Proof. by destruct (nonempty a) eqn:E; [rewrite E|]. Qed.

Lemma app_product_step_consistent v c d w b prod :
  tier_consistent b -> tier_consistent (app_product_step v c d (strip w) b prod).
Proof.
  intros H. unfold app_product_step. destruct (split_product prod) as [av ap].
  destruct (overlaps v av) eqn:V, (overlaps c ap) eqn:C; cbn [andb negb];
    [destruct (nonempty (strip w)) eqn:W| | |]; try exact H;
    match goal with |- context [if flt ?x ?y then _ else _] => destruct (flt x y) end;
    try exact H; new_tier.
  - by apply strip_version_nonempty.
  - apply nonempty_pick, (overlaps_nonempty _ _ C).
  - apply (overlaps_nonempty _ _ V).
  - apply nonempty_pick, (overlaps_nonempty _ _ C).
Qed.

Lemma app_step_consistent aff desc b it :
  tier_consistent b -> tier_consistent (app_step aff desc b it).
Proof.
  intros H. unfold app_step. destruct it; try exact H.
  match goal with |- context [fold_left ?f aff b] => set (b' := fold_left f aff b) end.
  assert (tier_consistent b') by (apply fold_left_inv; [intros; by apply app_product_step_consistent|exact H]).
  destruct (flt (b_score b') _); [|assumption].
  rewrite nonempty_lower.
  match goal with |- context [if nonempty ?d && ?x || ?y then _ else _] =>
    destruct (nonempty d && x || y) eqn:E end; [|assumption].
  new_tier. case_goal; [assumption|]. by apply andb_true_iff in E as [? _].
Qed.

Lemma os_display_nonempty p : nonempty (strip (lower p)) = nonempty (strip p).
Proof. by rewrite !nonempty_strip, blank_lower. Qed.

Lemma os_step_consistent aff desc b it :
  tier_consistent b -> tier_consistent (os_step aff desc b it).
Proof.
  intros H. unfold os_step. destruct it as [| |]; try exact H.
  rewrite os_display_nonempty.
  match goal with |- context [fold_left ?f aff b] => set (b' := fold_left f aff b) end.
  assert (tier_consistent b').
  { apply fold_left_inv; [|exact H]. intros a prod _ Ha. case_goal; [|exact Ha].
    bool_prop. new_tier. rewrite nonempty_app. by apply orb_true_iff; left. }
  case_goal; [|assumption]. bool_prop. by new_tier.
Qed.

Lemma ai_step_consistent aff desc b it :
  tier_consistent b -> tier_consistent (ai_step aff desc b it).
Proof.
  intros H. unfold ai_step. destruct (nonempty (_profile_product_name it)) eqn:N; [|exact H].
  match goal with |- context [fold_left ?f aff b] => set (b' := fold_left f aff b) end.
  assert (tier_consistent b').
  { apply fold_left_inv; [|exact H]. intros a prod _ Ha. case_goal; [by new_tier|exact Ha]. }
  case_goal; [by new_tier|assumption].
Qed.

Lemma best_match_consistent c p : tier_consistent (best_match c p).
Proof.
  unfold best_match.
  apply fold_left_inv; [intros; by apply ai_step_consistent|].
  apply fold_left_inv; [intros; by apply os_step_consistent|].
  apply fold_left_inv; [intros; by apply app_step_consistent|].
  apply best0_consistent.
Qed.
