(* ===== verification/Environment.v ===== *)
(** * Environment: scoring/environment.py

    The six-tier Environment Relevance classification of a CVE against a
    profile (ADR-002): which signal gives which tier. *)

From S2P Require Import Prelude PyStr Float64 PyVal CveRow AssetMatch.
From Stdlib Require Import QArith Lqa.
Open Scope string_scope.

Definition VERSION : string := "environment-1.0".

Definition TIER_RANK : list (string * Z) :=
  [("CONFIRMED", 5); ("LIKELY", 4); ("POSSIBLE", 3); ("WEAK", 2); ("UNKNOWN", 1); ("NO_MATCH", 0)]%Z.

(** [TIER_RANK.get(tier, 0)] *)
Definition tier_rank (t : string) : Z := match assoc t TIER_RANK with Some r => r | None => 0%Z end.

Record env_class := mkEnv {
  e_version : string;
  e_tier : string;
  e_score : option fl;
  e_version_verified : bool;
  e_evidence : string
}.

Definition or_no_assets (label : string) : string := if nonempty label then label else NO_ASSETS.

Definition classify_environment (c : cve) (p : option profile) (backend : option Z) : res env_class :=
  match p with
  | None => Ok (mkEnv VERSION "UNKNOWN" None false "No asset profile loaded")
  | Some _ =>
      let! r := resolve_asset_component c p backend in
      let asset_score := fst r in
      let match_type := snd r in
      let backend_score := match backend with Some z => z | None => 0%Z end in
      let mt_lower := lower match_type in
      if feq asset_score f0 then
        Ok (mkEnv VERSION "NO_MATCH" (Some f0) false (or_no_assets match_type))
      else if (100 <=? backend_score)%Z then
        Ok (mkEnv VERSION "CONFIRMED" (Some asset_score) true match_type)
      else if fle f1 asset_score && str_in "exact cpe match" mt_lower then
        Ok (mkEnv VERSION "CONFIRMED" (Some asset_score) true match_type)
      else if fle (lit (9#10)) asset_score || (fle (lit (8#10)) asset_score && str_in "os match" mt_lower) then
        Ok (mkEnv VERSION "LIKELY" (Some asset_score) false match_type)
      else if fle (lit (65#100)) asset_score then
        Ok (mkEnv VERSION "POSSIBLE" (Some asset_score) false match_type)
      else if fle (lit (35#100)) asset_score then
        Ok (mkEnv VERSION "WEAK" (Some asset_score) false match_type)
      else
        Ok (mkEnv VERSION "NO_MATCH" (Some asset_score) false (or_no_assets match_type))
  end.

(** ** Lemmas *)

(** The quotient [n / 100] of a partial CPE score. *)
Lemma partial_score_ok n :
  (0 < n < 55)%Z -> int_truediv n 100 = Ok (Fin (rnd (inject_Z n / inject_Z 100))).
Proof.
  intros H. unfold int_truediv. simpl (100 =? 0)%Z.
  rewrite mk_fin; [reflexivity|].
  assert (Hn : (1 <= inject_Z n <= 54)%Q).
  { change 1%Q with (inject_Z 1). change 54%Q with (inject_Z 54). rewrite <- !Zle_Qle. lia. }
  assert (B : (1 # 100 <= inject_Z n / inject_Z 100 <= 54 # 100)%Q).
  { split; [apply Qle_shift_div_l|apply Qle_shift_div_r]; try reflexivity; change (inject_Z 100) with 100%Q; lra. }
  split; [apply Qle_trans with (1#100); [discriminate|apply B]|
          apply Qle_trans with (54#100); [apply B|discriminate]].
Qed.

Lemma partial_score_le m n :
  (m <= n)%Z -> (rnd (inject_Z m / inject_Z 100) <= rnd (inject_Z n / inject_Z 100))%Q.
Proof.
  intros H. apply rnd_mono. apply Qmult_le_compat_r; [by rewrite <- Zle_Qle|discriminate].
Qed.

Lemma resolve_total c p backend : is_ok (resolve_asset_component c p backend) = true.
Proof.
  unfold resolve_asset_component. destruct p as [pf|]; [|reflexivity].
  destruct (profile_truthy pf); [|reflexivity].
  unfold asset_score_from_backend. set (s := match backend with Some z => z | None => 0%Z end).
  destruct (100 <=? s)%Z eqn:E1; [by vm_compute|].
  destruct (55 <=? s)%Z eqn:E2; [by vm_compute|].
  destruct (0 <? s)%Z eqn:E3; [|simpl; by case_match].
  bool_prop. rewrite partial_score_ok by lia.
  cbn [res_bind fst]. repeat case_match; reflexivity.
Qed.

(** The tier ADR-002's table assigns to each match of the graduation loop. *)
Definition adr_tier (match_tier : string) : string :=
  if String.eqb match_tier "exact CPE match" then "CONFIRMED"
  else if String.eqb match_tier "CPE product match" || String.eqb match_tier "OS match" then "LIKELY"
  else if String.eqb match_tier "product match" || String.eqb match_tier "vendor match" then "POSSIBLE"
  else if String.eqb match_tier "no match" then "NO_MATCH" else "WEAK".

(** A sentence of [match_type_map] ends in its own marker, whatever the label. *)
Lemma marker_found label suffix marker :
  str_in marker (lower suffix) = true -> str_in marker (lower (label +:+ suffix)) = true.
Proof. intros H. rewrite lower_app. by apply str_in_app_r. Qed.

(** The tier a 0-100 CPE backend score maps to. *)
Definition backend_tier (n : Z) : string :=
  if (100 <=? n)%Z then "CONFIRMED" else if (35 <=? n)%Z then "WEAK" else "NO_MATCH".

(** ** Theorems *)

(** Totality: the classification never raises, whatever the row, profile and score. *)
Theorem classify_total c p backend : exists e, classify_environment c p backend = Ok e.
Proof.
  unfold classify_environment. destruct p as [pf|]; [|eauto].
  pose proof (resolve_total c (Some pf) backend) as T.
  destruct (resolve_asset_component c (Some pf) backend) as [r|]; [|discriminate T].
  cbn [res_bind]. repeat case_match; eauto.
Qed.

(** The version of an asset counts as verified exactly in the CONFIRMED tier. *)
Theorem verified_iff_confirmed c p backend e :
  classify_environment c p backend = Ok e ->
  e_version_verified e = true <-> e_tier e = "CONFIRMED".
Proof.
  unfold classify_environment. destruct p as [pf|]; intros H.
  - apply res_bind_ok in H as (r & _ & H).
    repeat case_hyp H; injection H as <-; simpl; split; done.
  - injection H as <-. done.
Qed.

(** Without a CPE backend score the tier is the one ADR-002's table assigns to the
    best match of the graduation loop: the threshold cascade and the substring
    tests on the printed sentence implement that table. *)
Theorem fuzzy_tier_refines_adr c pf backend e :
  profile_truthy pf = true ->
  match backend with Some n => (n <= 0)%Z | None => True end ->
  classify_environment c (Some pf) backend = Ok e ->
  e_tier e = adr_tier (b_tier (best_match c pf)).
Proof.
  intros Hp Hb. unfold classify_environment, resolve_asset_component, asset_score_from_backend.
  rewrite Hp. set (s := match backend with Some z => z | None => 0%Z end).
  assert (Hs : (s <= 0)%Z) by (unfold s; destruct backend; lia).
  rewrite (proj2 (Z.leb_gt 100 s)) by lia. rewrite (proj2 (Z.leb_gt 55 s)) by lia.
  rewrite (proj2 (Z.ltb_ge 0 s)) by lia. cbn [res_bind fst snd].
  change (feq f0 f0) with true. cbn match.
  unfold asset_match_info. rewrite Hp.
  destruct (best_match_consistent c pf) as [Hl (q & Hin & Hq)].
  destruct (best_match c pf) as [sc tier label]; cbn [b_score b_tier b_label] in *. subst sc.
  unfold labelled in Hl; cbn [b_tier b_label] in Hl.
  unfold TIERS in Hin; cbn [In] in Hin.
  repeat destruct Hin as [Hin|Hin]; try contradiction;
    injection Hin as <- <-; cbn [String.eqb] in Hl.
  { destruct label as [l|]; [destruct (nonempty l)|]; cbn; intros H; by injection H as <-. }
  all: destruct label as [l|]; [|discriminate Hl]; cbn in Hl; rewrite Hl.
  all: unfold match_type_map; cbn [String.eqb Ascii.eqb Bool.eqb fst snd]; lit_run.
  all: rewrite ?(proj2 (Z.leb_gt 100 s)) by lia; lit_run.
  all: rewrite ?(marker_found l " directly affected (exact CPE match)" "exact cpe match") by reflexivity.
  all: rewrite ?(marker_found l " found in affected products (OS match)" "os match") by reflexivity.
  all: intros H; injection H as <-; reflexivity.
Qed.

(** With a positive CPE backend score the tier depends on that score alone. *)
Theorem backend_tier_spec c pf n e :
  profile_truthy pf = true -> (0 < n)%Z ->
  classify_environment c (Some pf) (Some n) = Ok e ->
  e_tier e = backend_tier n.
Proof.
  intros Hp Hn. unfold classify_environment, resolve_asset_component, asset_score_from_backend, backend_tier.
  rewrite Hp. cbv zeta. cbn match. destruct (Z.leb_spec 100 n) as [A|A].
  { lit_run. intros H. by injection H as <-. }
  destruct (Z.leb_spec 55 n) as [B|B].
  { lit_run.
    rewrite (proj2 (Z.leb_le 35 n)) by lia. intros H. by injection H as <-. }
  rewrite (proj2 (Z.ltb_lt 0 n)) by lia. rewrite partial_score_ok by lia.
  set (q := rnd (inject_Z n / inject_Z 100)).
  assert (L : (rnd (1 # 100) <= q)%Q) by (apply (partial_score_le 1); lia).
  assert (U : (q <= rnd (54 # 100))%Q) by (apply (partial_score_le n 54); lia).
  assert (P : feq (Fin q) f0 = false).
  { destruct (feq (Fin q) f0) eqn:E; [|done]. apply Qeq_bool_iff in E. rewrite E in L. by vm_compute in L. }
  assert (F : forall k, (rnd (54 # 100) < rnd k)%Q -> fle (lit k) (Fin q) = false).
  { intros k Hk. apply fle_fin_false. eapply Qle_lt_trans; eassumption. }
  do 2 (cbn [res_bind fst snd]; rewrite P).
  change f1 with (lit 1). rewrite !F by reflexivity. cbn [andb orb].
  destruct (Z.leb_spec 35 n) as [C|C].
  - assert (fle (lit (35#100)) (Fin q) = true) as ->
      by (apply fle_fin, (partial_score_le 35); lia).
    cbn [andb orb]. intros H. by injection H as <-.
  - assert (fle (lit (35#100)) (Fin q) = false) as ->.
    { apply fle_fin_false, Qle_lt_trans with (rnd (34#100)); [apply (partial_score_le n 34); lia|reflexivity]. }
    cbn [andb orb]. intros H. by injection H as <-.
Qed.

(** A loaded profile is an empty object, yet the row is graded WEAK: the test
    for "no profile" is [is None] here and truthiness in [asset_match_info]. *)
Theorem empty_profile_is_weak c :
  classify_environment c (Some empty_profile) None
  = Ok (mkEnv VERSION "WEAK" (Some DEFAULT_ASSET_UNKNOWN) false "").
Proof. unfold classify_environment. cbn [res_bind resolve_asset_component]. reflexivity. Qed.

(** ** Concrete rows *)

Definition httpd_row : cve :=
  mkCve (Products ["apache httpd 2.4.57"]) None None PNone PNone None PNone PNone None [] [] PNone.
Definition httpd_profile : profile :=
  mkProfile None (Some [ItDict (Some "apache") (Some "httpd") None (Some "2.4.57")]) None None None None None false.
Definition tier_of (r : res env_class) : string := match r with Ok e => e_tier e | Raise _ => "" end.

Lemma verified_iff_confirmed_witness :
  exists e, classify_environment httpd_row (Some httpd_profile) (Some 100%Z) = Ok e /\ e_version_verified e = true.
Proof.
  destruct (classify_environment httpd_row (Some httpd_profile) (Some 100%Z)) as [e|] eqn:E; [|vm_compute in E; discriminate E].
  exists e. split; [done|]. apply (verified_iff_confirmed _ _ _ e E).
  change (e_tier e) with (tier_of (Ok e)). rewrite <- E. vm_compute. reflexivity.
Defined.

Lemma fuzzy_tier_refines_adr_witness :
  tier_of (classify_environment httpd_row (Some httpd_profile) None) = adr_tier (b_tier (best_match httpd_row httpd_profile)).
Proof.
  destruct (classify_environment httpd_row (Some httpd_profile) None) as [e|] eqn:E; [|vm_compute in E; discriminate E].
  apply (fuzzy_tier_refines_adr _ httpd_profile None e); [reflexivity|done|exact E].
Defined.

Lemma backend_tier_spec_witness :
  tier_of (classify_environment httpd_row (Some httpd_profile) (Some 40%Z)) = "WEAK".
Proof.
  destruct (classify_environment httpd_row (Some httpd_profile) (Some 40%Z)) as [e|] eqn:E; [|vm_compute in E; discriminate E].
  apply (backend_tier_spec httpd_row httpd_profile 40 e); [reflexivity|lia|exact E].
Defined.
