(* ===== verification/Risk.v ===== *)
(** * Risk: scoring/risk.py

    The component raws (KEV recency, exploit graduation), the v1.1b risk score
    with its sentences, and the momentum signals.  [today] is [date.today()] as
    a day number and [now] the UTC clock in microseconds. *)

From S2P Require Import Prelude PyStr Float64 FloatErr PyVal Dates CveRow AssetMatch Environment.
From Stdlib Require Import QArith Qabs Lqa.
Open Scope string_scope.

Definition WEIGHT_ASSET : fl := lit (35#100).
Definition WEIGHT_KEV : fl := lit (25#100).
Definition WEIGHT_EPSS : fl := lit (15#100).
Definition WEIGHT_EXPLOIT : fl := lit (10#100).
Definition WEIGHT_CVSS : fl := lit (10#100).
Definition WEIGHT_MOMENTUM : fl := lit (5#100).

Definition _parse_date (value : option string) : option Z :=
  match value with
  | None => None
  | Some v =>
      let text := strip v in
      if negb (nonempty text) then None
      else
        let direct := if (10 <=? String.length text)%nat && dashed text
                      then parse_date (stake 10 text) else None in
        match direct with
        | Some d => Some d
        | None => match fromisoformat (replace_Z text) with
                  | Some dt => Some (date_of dt)
                  | None => None
                  end
        end
  end.

Definition _days_since (today : Z) (value : option string) : option Z :=
  match _parse_date value with Some d => Some (today - d)%Z | None => None end.

Definition _boolish (v : pyval) : bool :=
  match v with PBool true => true | _ => false end || eq_int v 1 || eq_str v "1" || eq_str v "true".

Definition _num (value : pyval) (fallback : fl) : res fl :=
  match value with
  | PNone | PStr "" => Ok fallback
  | _ => try_except (let! n := py_float value in Ok (if isnan n then fallback else n)) type_or_value (Ok fallback)
  end.

(** KEV recency tiers. *)
Definition _kev_score_v11b (today : Z) (c : cve) : fl :=
  if _boolish (is_kev c) then
    match _days_since today (kev_date_added c) with
    | None => lit (84#100)
    | Some added_days =>
        if (added_days <=? 7)%Z then f1
        else if (added_days <=? 30)%Z then lit (94#100)
        else if (added_days <=? 90)%Z then lit (88#100)
        else lit (84#100)
    end
  else if _boolish (is_vulncheck_exploited c) then lit (72#100)
  else f0.

(** [types] and the searched text of the exploit list. *)
Definition exploit_types (c : cve) : list string :=
  flat_map (fun e => match e with
    | ExDict ty _ _ _ _ => if exploit_truthy e then [lower (text_or ty)] else []
    | ExText _ => []
    end) (public_exploits c).

Definition exploit_texts (c : cve) : list string :=
  flat_map (fun e => match e with
    | ExDict _ ti so ur _ =>
        if exploit_truthy e then [text_or ti +:+ " " +:+ text_or so +:+ " " +:+ text_or ur] else []
    | ExText _ => []
    end) (public_exploits c).

Definition url_blob (c : cve) : string := lower (sjoin " " (source_urls c ++ exploit_texts c)%list).

Definition _exploit_score_v11b (c : cve) : fl :=
  let exploits := List.filter exploit_truthy (public_exploits c) in
  let types := exploit_types c in
  let blob := url_blob c in
  if existsb (String.eqb "metasploit") types || str_in "metasploit" blob then f1
  else if existsb (fun t => String.eqb t "weaponised" || String.eqb t "weaponized") types
       || existsb (fun h => str_in h blob) ["weaponized"; "weaponised"; "in-the-wild"] then lit (88#100)
  else if existsb (String.eqb "poc") types then lit (55#100)
  else if truthy (has_poc c) || match exploits with [] => false | _ => true end then lit (35#100)
  else f0.

(** ** Sentences *)

Definition pad_left (n : nat) (s : string) : string :=
  (fix go (k : nat) : string := match k with O => s | S k' => "0" +:+ go k' end) (n - String.length s)%nat.

(** [f"{x:.nf}"] *)
Definition fmt_fixed (n : nat) (x : fl) : string :=
  match x with
  | Fin q =>
      let k := rhe (Qabs q * inject_Z (10 ^ Z.of_nat n)) in
      let ip := (k / 10 ^ Z.of_nat n)%Z in
      let fp := (k mod 10 ^ Z.of_nat n)%Z in
      (if negb (Qle_bool 0 q) then "-" else "") +:+ str_of_Z ip
      +:+ (match n with O => "" | _ => "." +:+ pad_left n (str_of_Z fp) end)
  | PInf => "inf" | NInf => "-inf" | NaN => "nan"
  end.

Record sentences := mkSentences {
  st_asset : string; st_kev : string; st_epss : string;
  st_exploit : string; st_cvss : string; st_momentum : string
}.

Definition kev_sentence (today : Z) (c : cve) : string :=
  if negb (_boolish (is_kev c)) then "Not listed in CISA Known Exploited Vulnerabilities catalogue"
  else match _days_since today (kev_date_added c) with
       | None => "Listed in CISA Known Exploited Vulnerabilities catalogue"
       | Some d =>
           if (d =? 0)%Z then "Added to CISA KEV today — immediate priority"
           else if (d =? 1)%Z then "Added to CISA KEV yesterday"
           else if (d <=? 7)%Z then "Added to CISA KEV " +:+ str_of_Z d +:+ " days ago"
           else if (d <=? 30)%Z then "Added to CISA KEV " +:+ str_of_Z d +:+ " days ago"
           else
             let weeks := (d / 7)%Z in
             if (weeks =? 1)%Z then "Listed in CISA KEV for over a week"
             else "Listed in CISA KEV for " +:+ str_of_Z weeks +:+ " weeks"
       end.

(** The first truthy [source] of a dict in the exploit list. *)
Fixpoint first_source (l : list exploit) : option string :=
  match l with
  | [] => None
  | ExDict _ _ (Some s) _ _ :: t => if nonempty s then Some s else first_source t
  | _ :: t => first_source t
  end.

Definition _build_component_sentences_v11b (today : Z) (c : cve) (p : option profile)
    (exploit_score mom_score : fl) (asset_match_type : string) : res sentences :=
  let asset_sentence :=
    if negb (match p with Some p => profile_truthy p | None => false end)
    then "Load an asset profile for personalised scoring"
    else if nonempty asset_match_type && negb (String.eqb asset_match_type NO_ASSETS) then asset_match_type
    else "No matching assets found in your profile" in
  let! epss_sentence :=
    (match epss_score c with
     | PNone => Ok "No EPSS data available for this CVE"
     | v => let! e := py_float v in Ok (fmt_fixed 1 (fmul e (Fin 100)) +:+ "% exploitation probability")
     end) in
  let exploit_sentence :=
    if fle f1 exploit_score then "Metasploit module available — actively weaponised"
    else if fle (lit (88#100)) exploit_score then
      match first_source (public_exploits c) with
      | Some src => "Weaponised exploit on " +:+ src
      | None => "Weaponised exploit available in public sources"
      end
    else if fle (lit (55#100)) exploit_score then "Public proof-of-concept exploit available"
    else if flt f0 exploit_score then "Exploit references found in public sources"
    else "No public exploits identified" in
  let! cvss_sentence :=
    (match cvss_score c with
     | PNone => Ok ("Severity: " +:+ match severity c with Some s => if nonempty s then s else "unknown" | None => "unknown" end)
     | v => let! s := py_float v in Ok (fmt_fixed 1 s +:+ " / 10.0")
     end) in
  let momentum_sentence :=
    if flt f0 mom_score then "Threat momentum active — score raised by active signals"
    else "No recent threat momentum signals detected" in
  Ok (mkSentences asset_sentence (kev_sentence today c) epss_sentence exploit_sentence cvss_sentence momentum_sentence).

(** ** The risk score *)

Record component := mkComponent { cp_score : fl; cp_weight : fl; cp_points : fl; cp_sentence : string }.

Record risk_result := mkRisk {
  r_total : fl;
  r_components : list (string * component);
  r_asset_match_type : string;
  r_has_profile : bool;
  r_momentum_score : fl
}.

Definition risk_component (score weight : fl) (sentence : string) : res component :=
  let! points := round1 (fmul (fmul score weight) (Fin 100)) in
  Ok (mkComponent score weight points sentence).

(** [max(0.0, min(1.0, float(momentum_score or 0)))] *)
Definition clamp01 (x : fl) : fl := fmax f0 (fmin f1 x).

(** The row is not empty: the source returns [{}] for an empty one. *)
Definition calculate_risk_score (today : Z) (c : cve) (p : option profile) (backend : option Z)
    (momentum_score : fl) : res risk_result :=
  let! asset := resolve_asset_component c p backend in
  let asset_score := fst asset in
  let kev_score := _kev_score_v11b today c in
  let! epss_score := _num (epss_score c) f0 in
  let exploit_score := _exploit_score_v11b c in
  let! cvss_raw := _num (cvss_score c) f0 in
  let! cvss_score := fdiv cvss_raw (Fin 10) in
  let mom_score := clamp01 momentum_score in
  let! sent := _build_component_sentences_v11b today c p exploit_score mom_score (snd asset) in
  let raw_total := py_sum
    [fmul asset_score WEIGHT_ASSET; fmul kev_score WEIGHT_KEV; fmul epss_score WEIGHT_EPSS;
     fmul exploit_score WEIGHT_EXPLOIT; fmul cvss_score WEIGHT_CVSS; fmul mom_score WEIGHT_MOMENTUM] in
  let! total := round1 (fmul raw_total (Fin 100)) in
  let! ca := risk_component asset_score WEIGHT_ASSET (st_asset sent) in
  let! ck := risk_component kev_score WEIGHT_KEV (st_kev sent) in
  let! ce := risk_component epss_score WEIGHT_EPSS (st_epss sent) in
  let! cx := risk_component exploit_score WEIGHT_EXPLOIT (st_exploit sent) in
  let! cc := risk_component cvss_score WEIGHT_CVSS (st_cvss sent) in
  let! cm := risk_component mom_score WEIGHT_MOMENTUM (st_momentum sent) in
  Ok (mkRisk total [("asset", ca); ("kev", ck); ("epss", ce); ("exploit", cx); ("cvss", cc); ("momentum", cm)]
        (snd asset) (is_some p) mom_score).

(** ** Momentum *)

Inductive signal_type := epss_rising | otx_pulse | kev_recent | rapid_exploitation.

Record signal := mkSignal { sg_type : signal_type; sg_description : string; sg_contribution : fl }.

(** The CVE row joined with its KEV date. *)
Record momentum_row := mkMomentumRow { mr_is_kev : bool; mr_kev_date_added : option string; mr_published : option string }.

Definition score_or_zero (o : option fl) : fl := match o with Some s => if feq s f0 then f0 else s | None => f0 end.

(** EPSS snapshots, newest first: the rise from the oldest to the newest. *)
Definition epss_signal (rows : list (option fl)) : list signal :=
  match rows with
  | newest :: (_ :: _) as tl =>
      let latest := score_or_zero newest in
      let oldest := score_or_zero (List.last rows None) in
      let delta := fsub latest oldest in
      let pct := fmt_fixed 1 (fmul delta (Fin 100)) in
      if fle (lit (10#100)) delta then
        [mkSignal epss_rising ("Rising EPSS +" +:+ pct +:+ "% over " +:+ str_of_Z (Z.of_nat (length rows)) +:+ " days")
           (round_nd (fmin (lit (50#100)) (fadd (lit (40#100)) delta)) 2)]
      else if fle (lit (5#100)) delta then
        [mkSignal epss_rising ("Rising EPSS +" +:+ pct +:+ "% recently")
           (round_nd (fmin (lit (35#100)) (fmul delta (Fin 4))) 2)]
      else if fle (lit (2#100)) delta then
        [mkSignal epss_rising ("Slight EPSS increase +" +:+ pct +:+ "%") (lit (10#100))]
      else []
  | _ => []
  end.

(** [(a - b).total_seconds()] of two instants in microseconds. *)
Definition total_seconds (us : Z) : res fl := int_truediv us 1000000.

Definition otx_signal (now : Z) (created : option string) : res (list signal) :=
  match created with
  | None => Ok []
  | Some s =>
      if negb (nonempty s) then Ok []
      else
        match fromisoformat (midnight_suffix (utc_suffix (strip s))) with
        | None => Ok []
        | Some dt =>
            let! secs := total_seconds (now - utc_us dt) in
            let! hours := fdiv secs (Fin 3600) in
            let hours_ago := fmax f0 hours in
            if fle hours_ago (Fin 24) then
              Ok [mkSignal otx_pulse ("New OTX pulse " +:+ fmt_fixed 0 hours_ago +:+ "h ago") (lit (50#100))]
            else if fle hours_ago (Fin 168) then
              let! days_ago := fdiv hours_ago (Fin 24) in
              Ok [mkSignal otx_pulse ("New OTX pulse " +:+ fmt_fixed 1 days_ago +:+ " days ago") (lit (30#100))]
            else Ok []
        end
  end.

Definition kev_signals (now : Z) (row : momentum_row) : list signal :=
  let kev_str := strip (text_or (mr_kev_date_added row)) in
  if mr_is_kev row && nonempty kev_str then
    match fromisoformat (replace_Z kev_str) with
    | None => []
    | Some dt =>
        let days_kev := Z.max 0 ((now - utc_us dt) / DAY_US) in
        if (days_kev <=? 7)%Z then
          [mkSignal kev_recent ("Added to CISA KEV " +:+ str_of_Z days_kev +:+ " day"
             +:+ (if (days_kev =? 1)%Z then "" else "s") +:+ " ago") (lit (40#100))]
        else []
    end
  else [].

Definition published_signals (now : Z) (row : momentum_row) : list signal :=
  let pub_str := strip (text_or (mr_published row)) in
  if mr_is_kev row && nonempty pub_str then
    match fromisoformat (replace_Z pub_str) with
    | None => []
    | Some dt =>
        let days_pub := ((now - utc_us dt) / DAY_US)%Z in
        if (0 <=? days_pub)%Z && (days_pub <=? 30)%Z then
          [mkSignal rapid_exploitation ("Exploited within " +:+ str_of_Z days_pub +:+ " days of publication") (lit (30#100))]
        else []
    end
  else [].

Record momentum := mkMomentum { m_cve_id : string; m_score : fl; m_signals : list signal }.

Definition _momentum_from_prefetched (now : Z) (cve_upper : string) (epss_rows : list (option fl))
    (otx_created_date : option string) (cve_row : option momentum_row) : res momentum :=
  let s1 := epss_signal epss_rows in
  let! s2 := otx_signal now otx_created_date in
  let s3 := match cve_row with Some r => (kev_signals now r ++ published_signals now r)%list | None => [] end in
  let signals := (s1 ++ s2 ++ s3)%list in
  let total := fold_left (fun t s => fadd t (sg_contribution s)) signals f0 in
  Ok (mkMomentum cve_upper (round_nd (fmin f1 total) 3) signals).

(** ** Lemmas *)

(** A score drawn from constants in [0,1]. *)
Definition unit_fl (x : fl) : Prop := exists q, x = Fin q /\ (0 <= q <= 1)%Q.

Lemma unit_lit q : (0 <= q <= 1)%Q -> unit_fl (lit q).
Proof.
  intros [L U]. eexists. split; [reflexivity|]. split; [apply rnd_nonneg, L|].
  apply (rnd_le_int q 1); [lia|exact U].
Qed.

Lemma unit_f0 : unit_fl f0. Proof. exists 0%Q. split; [reflexivity|lra]. Qed.
Lemma unit_f1 : unit_fl f1. Proof. exists 1%Q. split; [reflexivity|lra]. Qed.

Ltac unit_const := first [apply unit_f0 | apply unit_f1 | apply unit_lit; lra].

Lemma kev_score_unit today c : unit_fl (_kev_score_v11b today c).
Proof. unfold _kev_score_v11b. repeat case_goal; unit_const. Qed.

Lemma exploit_score_unit c : unit_fl (_exploit_score_v11b c).
Proof. unfold _exploit_score_v11b. repeat case_goal; unit_const. Qed.

Lemma clamp01_unit x : unit_fl (clamp01 x).
Proof. apply (clamp_within 0 1 x). lra. Qed.

Lemma asset_info_unit c p : unit_fl (fst (asset_match_info c p)).
Proof.
  unfold asset_match_info. destruct p as [pf|]; [|unit_const].
  destruct (profile_truthy pf); [|unit_const].
  assert (U : unit_fl (b_score (best_match c pf))).
  { destruct (best_match_consistent c pf) as [_ (q & Hin & ->)]. apply unit_lit.
    unfold TIERS in Hin; cbn [In] in Hin.
    repeat destruct Hin as [Hin|Hin]; try contradiction; injection Hin as _ <-; lra. }
  repeat case_goal; exact U.
Qed.

Lemma backend_score_unit backend r :
  asset_score_from_backend backend = Ok r -> unit_fl (fst r).
Proof.
  unfold asset_score_from_backend. set (s := match backend with Some z => z | None => 0%Z end).
  destruct (100 <=? s)%Z eqn:E1; [intros H; injection H as <-; unit_const|].
  destruct (55 <=? s)%Z eqn:E2; [intros H; injection H as <-; unit_const|].
  destruct (0 <? s)%Z eqn:E3; [|intros H; injection H as <-; unit_const]. bool_prop.
  rewrite partial_score_ok by lia. intros H. injection H as <-. cbn [fst].
  assert (B : (0 < inject_Z s <= 54)%Q).
  { change 0%Q with (inject_Z 0). change 54%Q with (inject_Z 54). rewrite <- Zlt_Qlt, <- Zle_Qle. lia. }
  assert (D2 : (inject_Z s / inject_Z 100 == inject_Z s * (1 # 100))%Q) by reflexivity.
  eexists. split; [reflexivity|]. split; [apply rnd_nonneg; rewrite D2; lra|].
  apply (rnd_le_int _ 1); [lia|]. rewrite D2. change (inject_Z 1) with 1%Q. lra.
Qed.

Lemma resolve_unit c p backend r : resolve_asset_component c p backend = Ok r -> unit_fl (fst r).
Proof.
  assert (D : forall r, Ok (asset_match_info c p) = Ok r -> unit_fl (fst r)).
  { intros r' H. injection H as <-. apply asset_info_unit. }
  unfold resolve_asset_component. destruct p as [pf|]; [|apply D].
  destruct (profile_truthy pf); [|apply D].
  intros H. inv_bind H. pose proof (backend_score_unit backend _ E) as U.
  pose proof (asset_info_unit c (Some pf)) as UA.
  generalize dependent (asset_match_info c (Some pf)). intros f _ H UA.
  repeat case_hyp H; injection H as <-; assumption.
Qed.

(** A nullable REAL column: NULL, or a finite float. *)
Definition real_column (v : pyval) (q : Q) : Prop := (v = PNone /\ q = 0%Q) \/ v = PFloat (Fin q).

Lemma num_real v q : real_column v q -> _num v f0 = Ok (Fin q).
Proof. by intros [[-> ->]| ->]. Qed.

Lemma div10_unit v : (0 <= v <= 10)%Q -> exists q, fdiv (Fin v) (Fin 10) = Ok (Fin q) /\ (0 <= q <= 1)%Q.
Proof.
  intros H. cbn [fdiv]. change (Qeq_bool 10 0) with false. cbn match.
  assert (D : (v / 10 == v * (1 # 10))%Q) by reflexivity.
  rewrite mk_fin by (rewrite D; change (inject_Z (2 ^ 52)) with 4503599627370496%Q; lra).
  eexists. split; [reflexivity|]. split; [apply rnd_nonneg; rewrite D; lra|].
  apply (rnd_le_int _ 1); [lia|]. rewrite D. change (inject_Z 1) with 1%Q. lra.
Qed.

Lemma sentences_real today c p x m a e v :
  real_column (epss_score c) e -> real_column (cvss_score c) v ->
  exists s, _build_component_sentences_v11b today c p x m a = Ok s.
Proof.
  intros [[He _]|He] [[Hv _]|Hv]; unfold _build_component_sentences_v11b; rewrite He, Hv;
    cbn [res_bind py_float]; eexists; reflexivity.
Qed.

(** A weight constant is its decimal to twelve places, by evaluation. *)
Ltac weight_near :=
  eexists; split; [vm_compute; reflexivity|split; vm_compute; discriminate].

Ltac term_wf := unfold wterm_ok; cbn [t_raw t_exact t_weight]; split; [lra|split; [lra|weight_near]].

Lemma component_ok q w wq s :
  wterm_ok (mkTerm q w wq) -> exists cp, risk_component (Fin q) w s = Ok cp /\ cp_score cp = Fin q.
Proof.
  intros H. destruct (weighted_score_ok [mkTerm q w wq]) as (y & E & _).
  - by constructor.
  - destruct H as (_ & H & _). cbn in *. lra.
  - simpl; lia.
  - unfold risk_component. change (weighted_total [mkTerm q w wq]) with (fmul (fmul (Fin q) w) (Fin 100)) in E.
    rewrite E. eexists. split; reflexivity.
Qed.

(** ** Theorems *)

Definition component_scores (r : risk_result) : list fl := map (fun e => cp_score (snd e)) (r_components r).

(** C11 On database-typed rows (EPSS in [0,1], CVSS in [0,10], either may be NULL)
    the risk score is computed without an exception, lies in [0,100], and is the
    exact weighted sum of its six component scores to within 0.0502, for all the
    float rounding in between. *)
Theorem risk_score_accurate today c p backend mom e v :
  real_column (epss_score c) e -> (0 <= e <= 1)%Q ->
  real_column (cvss_score c) v -> (0 <= v <= 10)%Q ->
  exists r a k x d m, calculate_risk_score today c p backend mom = Ok r /\
    component_scores r = map Fin [a; k; e; x; d; m] /\
    within 0 100 (r_total r) /\
    near (502 # 10000) (r_total r)
      (35 * a + 25 * k + 15 * e + 10 * x + 10 * d + 5 * m)%Q.
Proof.
  intros He Hee Hv Hvv. unfold calculate_risk_score.
  pose proof (resolve_total c p backend) as T.
  destruct (resolve_asset_component c p backend) as [[a lbl]|] eqn:R; [clear T|discriminate T].
  destruct (resolve_unit c p backend _ R) as (qa & Ea & Ha). cbn [fst] in Ea. subst a.
  cbn [res_bind fst snd].
  rewrite (num_real _ _ He), (num_real _ _ Hv). cbn [res_bind].
  destruct (div10_unit v Hvv) as (d & -> & Hd). cbn [res_bind].
  destruct (kev_score_unit today c) as (k & -> & Hk).
  destruct (exploit_score_unit c) as (x & -> & Hx).
  destruct (clamp01_unit mom) as (m & Em & Hm). rewrite Em.
  destruct (sentences_real today c p (Fin x) (Fin m) lbl e v He Hv) as (st & ->). cbn [res_bind].
  destruct (weighted_score_ok [mkTerm qa WEIGHT_ASSET (35#100); mkTerm k WEIGHT_KEV (25#100);
    mkTerm e WEIGHT_EPSS (15#100); mkTerm x WEIGHT_EXPLOIT (10#100); mkTerm d WEIGHT_CVSS (10#100);
    mkTerm m WEIGHT_MOMENTUM (5#100)]) as (y & Ey & Ny & Wy).
  { repeat constructor; cbn [t_raw t_exact t_weight]; try lra; weight_near. }
  { cbn [weights_sum t_exact]. lra. }
  { simpl; lia. }
  unfold weighted_total in Ey. cbn [map] in Ey. unfold term_fl in Ey. cbn [t_raw t_weight] in Ey.
  rewrite Ey. cbn [res_bind].
  destruct (component_ok qa WEIGHT_ASSET (35#100) (st_asset st)) as (c1 & -> & S1); [term_wf|].
  destruct (component_ok k WEIGHT_KEV (25#100) (st_kev st)) as (c2 & -> & S2); [term_wf|].
  destruct (component_ok e WEIGHT_EPSS (15#100) (st_epss st)) as (c3 & -> & S3); [term_wf|].
  destruct (component_ok x WEIGHT_EXPLOIT (10#100) (st_exploit st)) as (c4 & -> & S4); [term_wf|].
  destruct (component_ok d WEIGHT_CVSS (10#100) (st_cvss st)) as (c5 & -> & S5); [term_wf|].
  destruct (component_ok m WEIGHT_MOMENTUM (5#100) (st_momentum st)) as (c6 & -> & S6); [term_wf|].
  cbn [res_bind]. eexists _, qa, k, x, d, m. split; [reflexivity|].
  unfold component_scores. cbn [r_components r_total map snd].
  split; [by rewrite S1, S2, S3, S4, S5, S6|]. split; [exact Wy|].
  destruct Ny as (z & -> & Nz). exists z. split; [reflexivity|].
  cbn [exact_sum t_raw t_exact] in Nz. lra.
Qed.

(** A row with EPSS 0.5 and no CVSS, listed in the KEV catalogue. *)
Definition kev_row : cve :=
  mkCve (OneProduct "apache httpd") None None (PBool true) PNone (Some "2026-01-01") (PFloat (Fin (1#2)))
    PNone None [ExText "https://example.org/poc"] [] PNone.

Lemma risk_score_accurate_witness :
  exists r a k x d m, calculate_risk_score (days_from_civil 2026 1 5) kev_row None None f0 = Ok r /\
    component_scores r = map Fin [a; k; (1#2)%Q; x; d; m] /\
    within 0 100 (r_total r) /\
    near (502 # 10000) (r_total r) (35 * a + 25 * k + 15 * (1#2) + 10 * x + 10 * d + 5 * m)%Q.
Proof.
  apply (risk_score_accurate _ kev_row None None f0 (1#2) 0); [by right|lra|left; by split|lra].
Defined.

(** A blank EPSS text, which [_num] reads as "no score", makes the risk score
    raise: the EPSS sentence tests only for [None] before converting it. *)
Theorem blank_epss_raises today c p backend mom v :
  epss_score c = PStr "" -> real_column (cvss_score c) v -> (0 <= v <= 10)%Q ->
  _num (epss_score c) f0 = Ok f0 /\ calculate_risk_score today c p backend mom = Raise ValueError.
Proof.
  intros He Hv Hvv. rewrite He. split; [reflexivity|]. unfold calculate_risk_score. rewrite He.
  pose proof (resolve_total c p backend) as T.
  destruct (resolve_asset_component c p backend) as [[a lbl]|]; [|discriminate T]. cbn [res_bind _num].
  rewrite (num_real _ _ Hv). cbn [res_bind]. destruct (div10_unit v Hvv) as (d & -> & _). cbn [res_bind].
  unfold _build_component_sentences_v11b. by rewrite He.
Qed.

Definition blank_epss_row : cve :=
  mkCve NoProducts None None PNone PNone None (PStr "") (PFloat (Fin 5)) None [] [] PNone.

Lemma blank_epss_raises_witness :
  _num (PStr "") f0 = Ok f0 /\ calculate_risk_score 0 blank_epss_row None None f0 = Raise ValueError.
Proof. apply (blank_epss_raises 0 blank_epss_row None None f0 5); [reflexivity|by right|lra]. Defined.
