(* ===== verification/Threat.v ===== *)
(** * Threat: scoring/threat.py

    The asset-independent threat score: the renormalised additive score, the
    KEV floor and the band. *)

From S2P Require Import Prelude PyStr Float64 FloatErr PyVal Dates CveRow Risk.
From Stdlib Require Import QArith Qabs Lqa.
Open Scope string_scope.

Definition VERSION : string := "threat-1.0".
Definition KEV_FLOOR : fl := Fin 80.

(** A quotient of float literals, taken once at import. *)
Definition quot (a b : Q) : fl := match fdiv (lit a) (lit b) with Ok x => x | Raise _ => NaN end.

Definition WEIGHT_KEV : fl := quot (25#100) (65#100).
Definition WEIGHT_EPSS : fl := quot (15#100) (65#100).
Definition WEIGHT_EXPLOIT : fl := quot (10#100) (65#100).
Definition WEIGHT_CVSS : fl := quot (10#100) (65#100).
Definition WEIGHT_MOMENTUM : fl := quot (5#100) (65#100).

Definition THREAT_WEIGHTS : list (string * fl) :=
  [("kev", WEIGHT_KEV); ("epss", WEIGHT_EPSS); ("exploit", WEIGHT_EXPLOIT);
   ("cvss", WEIGHT_CVSS); ("momentum", WEIGHT_MOMENTUM)].

Definition threat_band (score : fl) : string :=
  if fle (Fin 80) score then "CRIT"
  else if fle (Fin 60) score then "HIGH"
  else if fle (Fin 40) score then "MED"
  else "LOW".

Record threat_component := mkThreatComponent { tc_raw : fl; tc_weight : fl; tc_points : fl }.

Record threat_result := mkThreat {
  th_version : string;
  th_score : fl;
  th_band : string;
  th_components : list (string * threat_component);
  th_kev_floor_applied : bool;
  th_additive_score : fl
}.

(** [THREAT_WEIGHTS\[k\]] *)
Definition weight_of (k : string) : res fl :=
  match assoc k THREAT_WEIGHTS with Some w => Ok w | None => Raise KeyError end.

Definition threat_component_of (e : string * fl) : res (string * threat_component) :=
  let! w := weight_of (fst e) in
  let! points := round1 (fmul (fmul (snd e) w) (Fin 100)) in
  Ok (fst e, mkThreatComponent (snd e) w points).

(** The row is not empty: the source returns [{}] for an empty one. *)
Definition calculate_threat_score (today : Z) (c : cve) (momentum_score : fl) : res threat_result :=
  let kev_raw := _kev_score_v11b today c in
  let! epss_raw := _num (epss_score c) f0 in
  let exploit_raw := _exploit_score_v11b c in
  let! cvss_num := _num (cvss_score c) f0 in
  let! cvss_raw := fdiv cvss_num (Fin 10) in
  let momentum_raw := clamp01 momentum_score in
  let raw_scores := [("kev", kev_raw); ("epss", epss_raw); ("exploit", exploit_raw);
                     ("cvss", cvss_raw); ("momentum", momentum_raw)] in
  let! terms := map_res (fun e => let! w := weight_of (fst e) in Ok (fmul (snd e) w)) raw_scores in
  let! additive := round1 (fmul (py_sum terms) (Fin 100)) in
  let '(score, kev_floor_applied) :=
    if _boolish (is_kev c) then
      let s := fmax additive KEV_FLOOR in (s, flt additive s)
    else (additive, false) in
  let! score := round1 score in
  let! components := map_res threat_component_of raw_scores in
  Ok (mkThreat VERSION score (threat_band score) components kev_floor_applied additive).

(** ** The score in tenths of a point *)

(** What the score should be, over exact tenths. *)
Definition floored (kev : bool) (n : Z) : Z := if kev then Z.max n 800 else n.

Definition band_of (n : Z) : string :=
  if (800 <=? n)%Z then "CRIT" else if (600 <=? n)%Z then "HIGH" else if (400 <=? n)%Z then "MED" else "LOW".

Lemma band_tenth n : (0 <= n <= 1000)%Z -> threat_band (tenth n) = band_of n.
Proof.
  assert (C : all_tenths (fun n => String.eqb (threat_band (tenth n)) (band_of n)) = true)
    by (vm_compute; reflexivity).
  intros H. apply String.eqb_eq, (all_tenths_spec _ _ C H).
Qed.

Lemma below_floor n : (0 <= n <= 1000)%Z -> flt (tenth n) KEV_FLOOR = (n <? 800)%Z.
Proof.
  assert (C : all_tenths (fun n => Bool.eqb (flt (tenth n) KEV_FLOOR) (n <? 800)%Z) = true)
    by (vm_compute; reflexivity).
  intros H. apply eqb_prop, (all_tenths_spec _ _ C H).
Qed.

Lemma flt_irrefl x : flt x x = false.
Proof. destruct x as [q| | |]; try reflexivity. apply flt_fin_false. lra. Qed.

(** The floor and the second rounding, on a score in tenths. *)
Lemma floor_step kev n :
  (0 <= n <= 1000)%Z ->
  let '(s, applied) := if kev : bool then let s := fmax (tenth n) KEV_FLOOR in (s, flt (tenth n) s)
                       else (tenth n, false) in
  round1 s = Ok (tenth (floored kev n)) /\ applied = kev && (n <? 800)%Z.
Proof.
  intros H. destruct kev; cbn [andb floored]; [|split; [by apply round1_tenth|done]].
  unfold fmax. rewrite below_floor by exact H. destruct (Z.ltb_spec n 800) as [L|L].
  - rewrite Z.max_r by lia. split; [by vm_compute|]. rewrite below_floor by exact H. by apply Z.ltb_lt.
  - rewrite Z.max_l by lia. split; [by apply round1_tenth|apply flt_irrefl].
Qed.

Lemma threat_component_ok k q w wq :
  weight_of k = Ok w -> wterm_ok (mkTerm q w wq) ->
  exists cp, threat_component_of (k, Fin q) = Ok (k, cp) /\ tc_raw cp = Fin q.
Proof.
  intros Hw H. destruct (weighted_score_ok [mkTerm q w wq]) as (y & E & _).
  - by constructor.
  - destruct H as (_ & H & _). cbn in *. lra.
  - simpl; lia.
  - unfold threat_component_of. cbn [fst snd]. rewrite Hw. cbn [res_bind].
    change (weighted_total [mkTerm q w wq]) with (fmul (fmul (Fin q) w) (Fin 100)) in E.
    rewrite E. eexists. split; reflexivity.
Qed.

(** ** Theorems *)

(** The weighted sum the score stands for, with the exact weights 25/65, 15/65, ... *)
Definition threat_exact (k e x d m : Q) : Q := (25 * k + 15 * e + 10 * x + 10 * d + 5 * m) * (100 # 65).

(** C10 On database-typed rows the threat score is computed without an exception
    and refines the specification over exact tenths of a point: the additive score
    is within 0.0502 of the exact weighted sum, the score is that tenth raised to
    80 for a KEV row and unchanged by the second rounding otherwise, and the floor
    flag and the band are those of the tenths. *)
Theorem threat_score_refines today c mom e v :
  real_column (epss_score c) e -> (0 <= e <= 1)%Q ->
  real_column (cvss_score c) v -> (0 <= v <= 10)%Q ->
  exists r n k x d m, calculate_threat_score today c mom = Ok r /\
    map (fun p => tc_raw (snd p)) (th_components r) = map Fin [k; e; x; d; m] /\
    (0 <= n <= 1000)%Z /\ th_additive_score r = tenth n /\
    near (502 # 10000) (tenth n) (threat_exact k e x d m) /\
    th_score r = tenth (floored (_boolish (is_kev c)) n) /\
    th_kev_floor_applied r = _boolish (is_kev c) && (n <? 800)%Z /\
    th_band r = band_of (floored (_boolish (is_kev c)) n).
Proof.
  intros He Hee Hv Hvv. unfold calculate_threat_score. cbv zeta.
  rewrite (num_real _ _ He), (num_real _ _ Hv). cbn [res_bind].
  destruct (div10_unit v Hvv) as (d & -> & Hd). cbn [res_bind].
  destruct (kev_score_unit today c) as (k & -> & Hk).
  destruct (exploit_score_unit c) as (x & -> & Hx).
  destruct (clamp01_unit mom) as (m & -> & Hm).
  cbn [map_res fst snd]. cbn [weight_of assoc THREAT_WEIGHTS String.eqb Ascii.eqb Bool.eqb res_bind].
  destruct (weighted_score_ok [mkTerm k WEIGHT_KEV (25#65); mkTerm e WEIGHT_EPSS (15#65);
    mkTerm x WEIGHT_EXPLOIT (10#65); mkTerm d WEIGHT_CVSS (10#65);
    mkTerm m WEIGHT_MOMENTUM (5#65)]) as (y & Ey & Ny & Wy).
  { repeat constructor; cbn [t_raw t_exact t_weight]; try lra; weight_near. }
  { cbn [weights_sum t_exact]. lra. }
  { simpl; lia. }
  unfold weighted_total in Ey. cbn [map] in Ey. unfold term_fl in Ey. cbn [t_raw t_weight] in Ey.
  rewrite Ey. cbn [res_bind].
  destruct (round1_is_tenth _ _ Ey Wy) as (n & Hn & ->).
  pose proof (floor_step (_boolish (is_kev c)) n Hn) as FS.
  destruct (if _boolish (is_kev c) then _ else _) as [s applied]. destruct FS as [-> ->]. cbn [res_bind].
  destruct (threat_component_ok "kev" k WEIGHT_KEV (25#65) eq_refl) as (c1 & -> & S1); [term_wf|].
  destruct (threat_component_ok "epss" e WEIGHT_EPSS (15#65) eq_refl) as (c2 & -> & S2); [term_wf|].
  destruct (threat_component_ok "exploit" x WEIGHT_EXPLOIT (10#65) eq_refl) as (c3 & -> & S3); [term_wf|].
  destruct (threat_component_ok "cvss" d WEIGHT_CVSS (10#65) eq_refl) as (c4 & -> & S4); [term_wf|].
  destruct (threat_component_ok "momentum" m WEIGHT_MOMENTUM (5#65) eq_refl) as (c5 & -> & S5); [term_wf|].
  cbn [res_bind]. eexists _, n, k, x, d, m. split; [reflexivity|].
  cbn [th_components th_additive_score th_score th_kev_floor_applied th_band map snd].
  split; [by rewrite S1, S2, S3, S4, S5|]. split; [exact Hn|]. split; [reflexivity|].
  split; [|split; [reflexivity|split; [reflexivity|]]].
  - destruct Ny as (z & -> & Nz). exists z. split; [reflexivity|].
    cbn [exact_sum t_raw t_exact] in Nz. unfold threat_exact. lra.
  - apply band_tenth. unfold floored. destruct (_boolish (is_kev c)); lia.
Qed.

Lemma threat_score_refines_witness :
  exists r n k x d m, calculate_threat_score (days_from_civil 2026 1 5) kev_row f0 = Ok r /\
    map (fun p => tc_raw (snd p)) (th_components r) = map Fin [k; (1#2)%Q; x; d; m] /\
    (0 <= n <= 1000)%Z /\ th_additive_score r = tenth n /\
    near (502 # 10000) (tenth n) (threat_exact k (1#2) x d m) /\
    th_score r = tenth (floored (_boolish (is_kev kev_row)) n) /\
    th_kev_floor_applied r = _boolish (is_kev kev_row) && (n <? 800)%Z /\
    th_band r = band_of (floored (_boolish (is_kev kev_row)) n).
Proof.
  apply (threat_score_refines _ kev_row f0 (1#2) 0); [by right|lra|left; by split|lra].
Defined.
