(* ===== verification/Priority.v ===== *)
(** * Priority: scoring/priority.py

    Operational Priority v1.2: the base table over threat band and environment
    tier, the EPSS, exposure and correlation escalations, and the queue order. *)

From S2P Require Import Prelude PyStr Float64 PyVal CveRow Environment.
From Stdlib Require Import QArith.
Open Scope string_scope.

Definition VERSION : string := "operational-priority-1.2".
Definition CRITICALITY_VALUES : list string := ["MISSION_CRITICAL"; "IMPORTANT"; "SUPPORTING"].
Definition PRIORITY_ORDER : list string := ["P1"; "P2"; "P3"; "P4"].
Definition PRIORITY_RANK : list (string * Z) := [("P1", 0); ("P2", 1); ("P3", 2); ("P4", 3)]%Z.

Definition row_CRIT : list (string * string) :=
  [("CONFIRMED", "P1"); ("LIKELY", "P1"); ("POSSIBLE", "P2"); ("WEAK", "P2"); ("UNKNOWN", "P1"); ("NO_MATCH", "P3")].
Definition row_HIGH : list (string * string) :=
  [("CONFIRMED", "P1"); ("LIKELY", "P2"); ("POSSIBLE", "P2"); ("WEAK", "P2"); ("UNKNOWN", "P2"); ("NO_MATCH", "P3")].
Definition row_MED : list (string * string) :=
  [("CONFIRMED", "P2"); ("LIKELY", "P2"); ("POSSIBLE", "P3"); ("WEAK", "P3"); ("UNKNOWN", "P3"); ("NO_MATCH", "P4")].
Definition row_LOW : list (string * string) :=
  [("CONFIRMED", "P3"); ("LIKELY", "P3"); ("POSSIBLE", "P4"); ("WEAK", "P4"); ("UNKNOWN", "P4"); ("NO_MATCH", "P4")].

Definition _BASE_TABLE : list (string * list (string * string)) :=
  [("CRIT", row_CRIT); ("HIGH", row_HIGH); ("MED", row_MED); ("LOW", row_LOW)].

Definition _RATIONALE : list ((string * string) * string) :=
  [(("CRIT", "CONFIRMED"), "Strong exploitation signals with confirmed vulnerable version in My Stack.");
   (("CRIT", "LIKELY"), "Strong exploitation signals; product overlap — verify exact version.");
   (("CRIT", "POSSIBLE"), "Strong exploitation signals; partial stack overlap — verify before treating as in-scope.");
   (("CRIT", "WEAK"), "Strong exploitation signals; weak textual overlap only — verify version.");
   (("CRIT", "UNKNOWN"), "Strong exploitation signals; environment not assessed — provisional priority.");
   (("CRIT", "NO_MATCH"), "Strong exploitation signals but no My Stack match — lower urgency for your environment.");
   (("HIGH", "CONFIRMED"), "High exploitation signals with a confirmed vulnerable version match in My Stack — investigate exposure.");
   (("HIGH", "LIKELY"), "High threat with unverified product overlap.");
   (("HIGH", "POSSIBLE"), "High threat with partial overlap — verify version.");
   (("HIGH", "WEAK"), "High threat with weak overlap — verify relevance.");
   (("HIGH", "UNKNOWN"), "High threat; environment unknown — provisional priority.");
   (("HIGH", "NO_MATCH"), "High threat but not matched to your profile.");
   (("MED", "CONFIRMED"), "Moderate threat affecting a confirmed asset — schedule investigation.");
   (("MED", "LIKELY"), "Moderate threat with product overlap.");
   (("MED", "POSSIBLE"), "Moderate threat with unverified overlap.");
   (("MED", "WEAK"), "Moderate threat with weak overlap.");
   (("MED", "UNKNOWN"), "Moderate threat; environment unknown — provisional priority.");
   (("MED", "NO_MATCH"), "Moderate threat with no stack match — informational.");
   (("LOW", "CONFIRMED"), "Low active threat but asset match — scheduled review.");
   (("LOW", "LIKELY"), "Low threat with product overlap.");
   (("LOW", "POSSIBLE"), "Low threat — informational.");
   (("LOW", "WEAK"), "Low threat — informational.");
   (("LOW", "UNKNOWN"), "Low active threat — informational unless environment changes.");
   (("LOW", "NO_MATCH"), "Low threat with no stack relevance.")].

Fixpoint rationale_get (l : list ((string * string) * string)) (tb et : string) : option string :=
  match l with
  | [] => None
  | ((a, b), text) :: t => if String.eqb a tb && String.eqb b et then Some text else rationale_get t tb et
  end.

(** ** Correlation input *)

Record evidence := mkEvidence { ev_type : option string; ev_ioc_type : option string }.

Record campaign := mkCampaign {
  lifecycle : option string;
  confidence : option string;
  member_count : option Z;
  camp_evidence : option (list evidence)
}.

Definition ev_is_same_pulse (e : evidence) : bool :=
  match ev_type e with Some t => String.eqb t "same_pulse" | None => false end.

Definition ev_is_strong_ioc (e : evidence) : bool :=
  match ev_type e with Some t => String.eqb t "shared_indicator" | None => false end
  && (let t := upper (text_or (ev_ioc_type e)) in String.eqb t "HASH" || String.eqb t "DOMAIN").

(** One campaign qualifies: active or emerging, high confidence, two members,
    a shared pulse and a shared hash or domain. *)
Definition campaign_escalates (camp : campaign) : bool :=
  let lc := lower (text_or (lifecycle camp)) in
  if negb (String.eqb lc "active" || String.eqb lc "emerging") then false
  else if negb (String.eqb (lower (text_or (confidence camp))) "high") then false
  else if (match member_count camp with Some n => n | None => 0 end <? 2)%Z then false
  else
    let evidence := list_or (camp_evidence camp) in
    existsb ev_is_same_pulse evidence && existsb ev_is_strong_ioc evidence.

(** The argument is [correlation_result\["campaigns"\]]; [None] when there is no result. *)
Definition correlation_escalation (campaigns : option (list campaign)) : bool :=
  existsb campaign_escalates (list_or campaigns).

(** ** The band *)

Definition _base_priority (threat_band env_tier : string) : string :=
  let row := match assoc threat_band _BASE_TABLE with Some r => r | None => row_LOW end in
  match assoc env_tier row with
  | Some p => p
  | None => match assoc "UNKNOWN" row with Some p => p | None => "P4" end
  end.

Definition priority_rank (band : string) : Z :=
  match assoc band PRIORITY_RANK with Some r => r | None => 3%Z end.

Definition _escalate_band (band : string) : string :=
  let idx := priority_rank band in
  if (idx =? 0)%Z || (3 <=? idx)%Z then band
  else nth (Z.to_nat (idx - 1)) PRIORITY_ORDER band.

Record op_result := mkOp {
  op_version : string;
  op_band : string;
  op_provisional : bool;
  op_escalated : bool;
  op_rationale : string;
  op_base_band : string
}.

Definition NOTE_EPSS : string := "Escalated one band due to EPSS ≥ 0.5.".
Definition NOTE_RISING : string := "Escalated P3→P2 due to rising EPSS.".
Definition NOTE_EXPOSURE : string :=
  "Escalated P2→P1: CISA KEV / CRIT threat with internet-facing asset (Environment not NO_MATCH).".
Definition NOTE_UNKNOWN : string :=
  "Environment unknown — priority may change once a profile is loaded.".
Definition NOTE_CORR : string :=
  "Escalated one band due to high-confidence active campaign linkage.".

(** Absolute EPSS at 0.5 and above: one band for HIGH and MED. *)
Definition epss_step (threat_band : string) (epss_val : fl) (env_ge_possible : bool)
    (st : string * list string) : string * list string :=
  let '(band, notes) := st in
  if (String.eqb threat_band "HIGH" || String.eqb threat_band "MED")
     && fle (lit (1#2)) epss_val && env_ge_possible && negb (String.eqb band "P1") then
    let bumped := _escalate_band band in
    if negb (String.eqb bumped band) then (bumped, (notes ++ [NOTE_EPSS])%list) else (band, notes)
  else (band, notes).

(** Rising EPSS: P3 to P2 when the base band was P3 too. *)
Definition rising_step (epss_rising env_ge_possible : bool) (base : string)
    (st : string * list string) : string * list string :=
  let '(band, notes) := st in
  if epss_rising && env_ge_possible && String.eqb base "P3" && String.eqb band "P3"
  then ("P2", (notes ++ [NOTE_RISING])%list) else (band, notes).

(** KEV or CRIT with an internet-facing asset: P2 to P1. *)
Definition exposure_step (threat_band : string) (is_kev internet_facing : option bool) (env_tier : string)
    (st : string * list string) : string * list string :=
  let '(band, notes) := st in
  let kev_path := String.eqb threat_band "CRIT" || match is_kev with Some true => true | _ => false end in
  if kev_path && match internet_facing with Some true => true | _ => false end
     && negb (String.eqb env_tier "NO_MATCH") && String.eqb band "P2"
  then ("P1", (notes ++ [NOTE_EXPOSURE])%list) else (band, notes).

Definition derive_operational_priority (threat_band env_tier : string) (corr_escalation : bool)
    (epss : option fl) (epss_rising : bool) (internet_facing : option bool)
    (criticality : option string) (is_kev : option bool) : op_result :=
  let base := _base_priority threat_band env_tier in
  let provisional := String.eqb env_tier "UNKNOWN" in
  let epss_val := match epss with Some e => e | None => f0 end in
  let env_ge_possible := (tier_rank "POSSIBLE" <=? tier_rank env_tier)%Z in
  let '(band, notes) :=
    exposure_step threat_band is_kev internet_facing env_tier
      (rising_step epss_rising env_ge_possible base
        (epss_step threat_band epss_val env_ge_possible (base, []))) in
  let band' := if corr_escalation && (String.eqb band "P2" || String.eqb band "P3")
               then _escalate_band band else band in
  let escalated := negb (String.eqb band' band) in
  let rationale := match rationale_get _RATIONALE threat_band env_tier with
                   | Some t => t
                   | None => threat_band +:+ " threat in " +:+ env_tier +:+ " environment."
                   end in
  let rationale := if provisional then rationale +:+ " " +:+ NOTE_UNKNOWN else rationale in
  let rationale := fold_left (fun r note => r +:+ " " +:+ note) notes rationale in
  let rationale := if escalated then rationale +:+ " " +:+ NOTE_CORR else rationale in
  mkOp VERSION band' provisional escalated rationale base.

(** ** Exposure flags and the sort key *)

Record exposure := mkExposure {
  x_internet_facing : option bool;
  x_criticality : option string;
  x_privileged_service : option bool;
  x_ot_safety : option bool
}.

Definition flag_of (v : option pyval) : option bool :=
  match v with Some PNone | None => None | Some v => Some (truthy v) end.

Definition extract_profile_exposure_flags (p : option profile) : exposure :=
  match p with
  | None => mkExposure None None None None
  | Some p =>
      mkExposure (flag_of (pf_internet_facing p))
        (match pf_criticality p with
         | Some (PStr s) =>
             let crit := upper (strip s) in
             if existsb (String.eqb crit) CRITICALITY_VALUES then Some crit else None
         | _ => None
         end)
        (flag_of (pf_privileged_service p)) (flag_of (pf_ot_safety p))
  end.

(** P1 first, then threat descending, tier rank descending, id ascending. *)
Definition operational_priority_sort_key (op_band : string) (threat_score : option fl)
    (env_tier cve_id : string) : Z * fl * Z * string :=
  (priority_rank op_band,
   fneg (match threat_score with Some t => if feq t f0 then f0 else t | None => f0 end),
   (- tier_rank env_tier)%Z, upper cve_id).

(** ** Theorems *)

Definition BANDS : list string := ["LOW"; "MED"; "HIGH"; "CRIT"].
Definition ENV_TIERS : list string := ["NO_MATCH"; "UNKNOWN"; "WEAK"; "POSSIBLE"; "LIKELY"; "CONFIRMED"].

(** The rank a result has; smaller is more urgent. *)
Definition op_rank (r : op_result) : Z := priority_rank (op_band r).

(** The escalations as a function of the EPSS test alone. *)
Definition derive_bits (tb et : string) (corr high_epss rising : bool) (inet kev : option bool) : op_result :=
  derive_operational_priority tb et corr (if high_epss then Some f1 else None) rising inet None kev.

Lemma epss_step_bit tb e env st :
  epss_step tb e env st = epss_step tb (if fle (lit (1#2)) e then f1 else f0) env st.
Proof.
  unfold epss_step. destruct st as [b n]. destruct (fle (lit (1#2)) e) eqn:E; [|reflexivity].
  by change (fle (lit (1#2)) f1) with true.
Qed.

Lemma derive_is_bits tb et corr epss rising inet crit kev :
  derive_operational_priority tb et corr epss rising inet crit kev =
  derive_bits tb et corr (fle (lit (1#2)) (match epss with Some e => e | None => f0 end)) rising inet kev.
Proof.
  unfold derive_bits, derive_operational_priority. cbv zeta.
  rewrite epss_step_bit. by destruct (fle (lit (1#2)) _).
Qed.

(** The exposure flags the code distinguishes from [None]. *)
Definition flag_bit (o : option bool) : option bool := match o with Some true => Some true | _ => None end.

Lemma derive_flag_bits tb et corr h rising inet kev :
  derive_bits tb et corr h rising inet kev = derive_bits tb et corr h rising (flag_bit inet) (flag_bit kev).
Proof. by destruct inet as [[]|], kev as [[]|]. Qed.

(** All concrete inputs the enumerated proofs run over. *)
Definition bools : list bool := [true; false].
Definition flags : list (option bool) := [None; Some true].

Definition check_all (f : string -> string -> bool -> bool -> bool -> option bool -> option bool -> bool) : bool :=
  forallb (fun tb => forallb (fun et => forallb (fun c => forallb (fun h => forallb (fun r =>
    forallb (fun i => forallb (fun k => f tb et c h r i k) flags) flags) bools) bools) bools) ENV_TIERS) BANDS.

Lemma bools_all b : In b bools.
Proof. destruct b; simpl; auto. Qed.

Lemma flags_all o : In (flag_bit o) flags.
Proof. destruct o as [[]|]; simpl; auto. Qed.

Lemma check_all_spec f :
  check_all f = true -> forall tb et c h r i k, In tb BANDS -> In et ENV_TIERS ->
  f tb et c h r (flag_bit i) (flag_bit k) = true.
Proof.
  unfold check_all. intros H tb et c h r i k Htb Het.
  rewrite forallb_forall in H. specialize (H tb Htb).
  rewrite forallb_forall in H. specialize (H et Het).
  rewrite forallb_forall in H. specialize (H c (bools_all c)).
  rewrite forallb_forall in H. specialize (H h (bools_all h)).
  rewrite forallb_forall in H. specialize (H r (bools_all r)).
  rewrite forallb_forall in H. specialize (H _ (flags_all i)).
  rewrite forallb_forall in H. exact (H _ (flags_all k)).
Qed.

(** Threat bands and tiers in order; [UNKNOWN] is not comparable with the graded tiers. *)
Definition band_index (tb : string) : Z :=
  match assoc tb [("LOW", 0); ("MED", 1); ("HIGH", 2); ("CRIT", 3)]%Z with Some i => i | None => 0%Z end.

Definition rank_ok (r : op_result) : bool :=
  existsb (String.eqb (op_band r)) PRIORITY_ORDER && existsb (String.eqb (op_base_band r)) PRIORITY_ORDER
  && (op_rank r <=? priority_rank (op_base_band r))%Z.

(** The result is always one of P1-P4 and the escalations only raise the
    urgency: EPSS, exposure and correlation never move a CVE below its base band. *)
Theorem escalations_only_raise tb et corr epss rising inet crit kev :
  In tb BANDS -> In et ENV_TIERS ->
  let r := derive_operational_priority tb et corr epss rising inet crit kev in
  In (op_band r) PRIORITY_ORDER /\ (op_rank r <= priority_rank (op_base_band r))%Z.
Proof.
  intros Htb Het r. subst r. rewrite derive_is_bits, derive_flag_bits.
  assert (C : check_all (fun tb et c h r i k => rank_ok (derive_bits tb et c h r i k)) = true)
    by (vm_compute; reflexivity).
  pose proof (check_all_spec _ C tb et corr (fle (lit (1#2)) (match epss with Some e => e | None => f0 end))
    rising inet kev Htb Het) as K.
  unfold rank_ok in K. bool_prop. split; [|assumption].
  match goal with H : existsb (String.eqb (op_band _)) _ = true |- _ =>
    apply existsb_exists in H as (x & Hx & E) end.
  apply String.eqb_eq in E. by rewrite E.
Qed.

Lemma escalations_only_raise_witness :
  In "HIGH" BANDS /\ In "POSSIBLE" ENV_TIERS /\
  (op_rank (derive_operational_priority "HIGH" "POSSIBLE" true (Some f1) false None None None)
   <= priority_rank (op_base_band (derive_operational_priority "HIGH" "POSSIBLE" true (Some f1) false None None None)))%Z.
Proof.
  split; [simpl; tauto|]. split; [simpl; tauto|].
  apply (escalations_only_raise "HIGH" "POSSIBLE" true (Some f1) false None None None); simpl; tauto.
Defined.

Definition graded (et : string) : bool := negb (String.eqb et "UNKNOWN").

Definition tier_mono_ok (tb et : string) (c h r : bool) (i k : option bool) : bool :=
  negb (graded et) ||
  forallb (fun et' => negb (graded et') || (tier_rank et' <? tier_rank et)%Z
    || (op_rank (derive_bits tb et' c h r i k) <=? op_rank (derive_bits tb et c h r i k))%Z) ENV_TIERS.

(** C22 A stronger graded environment match never lowers the priority, every other
    input being equal. *)
Theorem priority_monotone_in_environment tb et et' corr epss rising inet crit kev :
  In tb BANDS -> In et ENV_TIERS -> In et' ENV_TIERS ->
  et <> "UNKNOWN" -> et' <> "UNKNOWN" -> (tier_rank et <= tier_rank et')%Z ->
  (op_rank (derive_operational_priority tb et' corr epss rising inet crit kev)
   <= op_rank (derive_operational_priority tb et corr epss rising inet crit kev))%Z.
Proof.
  intros Htb He He' Nu Nu' Hr.
  rewrite !derive_is_bits, (derive_flag_bits tb et), (derive_flag_bits tb et').
  assert (C : check_all tier_mono_ok = true) by (vm_compute; reflexivity).
  pose proof (check_all_spec _ C tb et corr (fle (lit (1#2)) (match epss with Some e => e | None => f0 end))
    rising inet kev Htb He) as K.
  unfold tier_mono_ok, graded in K. rewrite (proj2 (String.eqb_neq et "UNKNOWN") Nu) in K.
  cbn [negb orb] in K. rewrite forallb_forall in K. specialize (K et' He').
  rewrite (proj2 (String.eqb_neq et' "UNKNOWN") Nu') in K. cbn [negb orb] in K.
  apply orb_true_iff in K as [K|K]; bool_prop; lia.
Qed.

Lemma priority_monotone_in_environment_witness :
  (op_rank (derive_operational_priority "MED" "CONFIRMED" false (Some f1) false None None None)
   <= op_rank (derive_operational_priority "MED" "WEAK" false (Some f1) false None None None))%Z.
Proof.
  apply (priority_monotone_in_environment "MED" "WEAK" "CONFIRMED" false (Some f1) false None None None);
    solve [simpl; tauto | discriminate | vm_compute; discriminate].
Defined.

Definition band_mono_ok (tb et : string) (c h r : bool) (i k : option bool) : bool :=
  h || forallb (fun tb' => (band_index tb' <? band_index tb)%Z
    || (op_rank (derive_bits tb' et c h r i k) <=? op_rank (derive_bits tb et c h r i k))%Z) BANDS.

(** Below the EPSS threshold a higher threat band never lowers the priority. *)
Theorem priority_monotone_in_threat tb tb' et corr epss rising inet crit kev :
  In tb BANDS -> In tb' BANDS -> In et ENV_TIERS -> (band_index tb <= band_index tb')%Z ->
  fle (lit (1#2)) (match epss with Some e => e | None => f0 end) = false ->
  (op_rank (derive_operational_priority tb' et corr epss rising inet crit kev)
   <= op_rank (derive_operational_priority tb et corr epss rising inet crit kev))%Z.
Proof.
  intros Htb Htb' He Hb Hq.
  rewrite !derive_is_bits, Hq, (derive_flag_bits tb), (derive_flag_bits tb').
  assert (C : check_all band_mono_ok = true) by (vm_compute; reflexivity).
  pose proof (check_all_spec _ C tb et corr false rising inet kev Htb He) as K.
  unfold band_mono_ok in K. cbn [orb] in K. rewrite forallb_forall in K. specialize (K tb' Htb').
  apply orb_true_iff in K as [K|K]; bool_prop; lia.
Qed.

Lemma priority_monotone_in_threat_witness :
  (op_rank (derive_operational_priority "CRIT" "WEAK" false (Some (lit (1#10))) true None None None)
   <= op_rank (derive_operational_priority "MED" "WEAK" false (Some (lit (1#10))) true None None None))%Z.
Proof.
  apply (priority_monotone_in_threat "MED" "CRIT" "WEAK" false (Some (lit (1#10))) true None None None);
    solve [simpl; tauto | vm_compute; discriminate | vm_compute; reflexivity].
Defined.

(** At EPSS 0.5 and above the order breaks: a CRIT threat in a POSSIBLE environment
    stays P2 where a HIGH one is lifted to P1, because the EPSS rule skips CRIT. *)
Theorem epss_rule_inverts_crit_and_high (epss : fl) :
  fle (lit (1#2)) epss = true ->
  op_band (derive_operational_priority "HIGH" "POSSIBLE" false (Some epss) false None None None) = "P1" /\
  op_band (derive_operational_priority "CRIT" "POSSIBLE" false (Some epss) false None None None) = "P2".
Proof. intros H. rewrite !derive_is_bits, H. split; reflexivity. Qed.

Lemma epss_rule_inverts_crit_and_high_witness :
  op_band (derive_operational_priority "HIGH" "POSSIBLE" false (Some f1) false None None None) = "P1" /\
  op_band (derive_operational_priority "CRIT" "POSSIBLE" false (Some f1) false None None None) = "P2".
Proof. apply epss_rule_inverts_crit_and_high. vm_compute. reflexivity. Defined.

(** What a correlation bump does to a band that is P2 or P3. *)
Definition corr_spec (base : string) : string :=
  if String.eqb base "P3" then "P2" else if String.eqb base "P2" then "P1" else base.

Definition corr_ok (tb et : string) (c h r : bool) (i k : option bool) : bool :=
  let off := derive_bits tb et false h r i k in
  let on := derive_bits tb et true h r i k in
  String.eqb (op_band on) (corr_spec (op_band off))
  && Bool.eqb (op_escalated on) (String.eqb (op_band off) "P2" || String.eqb (op_band off) "P3")
  && negb (op_escalated off).

(** Correlation lifts exactly the bands P2 and P3, by one step, and reports it:
    P1 stays P1 and an informational P4 is never lifted. *)
Theorem correlation_lifts_one_band tb et epss rising inet crit kev :
  In tb BANDS -> In et ENV_TIERS ->
  let off := derive_operational_priority tb et false epss rising inet crit kev in
  let on := derive_operational_priority tb et true epss rising inet crit kev in
  op_band on = corr_spec (op_band off) /\
  op_escalated on = (String.eqb (op_band off) "P2" || String.eqb (op_band off) "P3") /\
  op_escalated off = false.
Proof.
  intros Htb Het off on. subst off on. rewrite !derive_is_bits, (derive_flag_bits tb et false), (derive_flag_bits tb et true).
  assert (C : check_all corr_ok = true) by (vm_compute; reflexivity).
  pose proof (check_all_spec _ C tb et false (fle (lit (1#2)) (match epss with Some e => e | None => f0 end))
    rising inet kev Htb Het) as K.
  unfold corr_ok in K. bool_prop. split; [assumption|]. split; [|assumption]. by apply eqb_prop.
Qed.

Lemma correlation_lifts_one_band_witness :
  op_band (derive_operational_priority "HIGH" "LIKELY" true None false None None None)
  = corr_spec (op_band (derive_operational_priority "HIGH" "LIKELY" false None false None None None)).
Proof.
  apply (correlation_lifts_one_band "HIGH" "LIKELY" None false None None None); simpl; tauto.
Defined.

(** A campaign escalates only with a same-pulse edge and a shared hash or domain
    among at least two members of an active or emerging high-confidence campaign:
    address-only overlap never does. *)
Theorem escalation_needs_strong_edge camps :
  correlation_escalation (Some camps) = true ->
  exists c, In c camps /\
    (lower (text_or (lifecycle c)) = "active" \/ lower (text_or (lifecycle c)) = "emerging") /\
    lower (text_or (confidence c)) = "high" /\
    (exists n, member_count c = Some n /\ (2 <= n)%Z) /\
    (exists e, In e (list_or (camp_evidence c)) /\ ev_type e = Some "same_pulse") /\
    (exists e, In e (list_or (camp_evidence c)) /\ ev_type e = Some "shared_indicator" /\
       In (upper (text_or (ev_ioc_type e))) ["HASH"; "DOMAIN"]).
Proof.
  unfold correlation_escalation. cbn [list_or]. intros H.
  apply existsb_exists in H as (c & Hc & H). exists c. split; [exact Hc|].
  unfold campaign_escalates in H.
  destruct (String.eqb (lower (text_or (lifecycle c))) "active"
    || String.eqb (lower (text_or (lifecycle c))) "emerging") eqn:E1; [|discriminate H].
  destruct (String.eqb (lower (text_or (confidence c))) "high") eqn:E2; [|discriminate H].
  destruct (_ <? 2)%Z eqn:E3; [discriminate H|]. cbn [negb] in H. bool_prop.
  repeat split.
  - apply orb_true_iff in E1 as [E|E]; apply String.eqb_eq in E; auto.
  - assumption.
  - destruct (member_count c) as [n|]; [|lia]. exists n. split; [done|lia].
  - match goal with H : existsb ev_is_same_pulse _ = true |- _ => apply existsb_exists in H as (e & He & S) end.
    exists e. split; [exact He|]. unfold ev_is_same_pulse in S. destruct (ev_type e); [|discriminate S].
    apply String.eqb_eq in S. by subst.
  - match goal with H : existsb ev_is_strong_ioc _ = true |- _ => apply existsb_exists in H as (e & He & S) end.
    exists e. split; [exact He|]. unfold ev_is_strong_ioc in S. destruct (ev_type e); [|discriminate S].
    bool_prop. subst. split; [done|]. match goal with H : _ || _ = true |- _ => apply orb_true_iff in H as [E|E] end;
      apply String.eqb_eq in E; rewrite E; simpl; auto.
Qed.

Definition sample_campaign : campaign :=
  mkCampaign (Some "Active") (Some "HIGH") (Some 3%Z)
    (Some [mkEvidence (Some "same_pulse") None; mkEvidence (Some "shared_indicator") (Some "domain")]).

Lemma escalation_needs_strong_edge_witness :
  correlation_escalation (Some [sample_campaign]) = true /\
  exists c, In c [sample_campaign] /\ lower (text_or (confidence c)) = "high".
Proof.
  split; [vm_compute; reflexivity|].
  destruct (escalation_needs_strong_edge [sample_campaign] ltac:(vm_compute; reflexivity)) as (c & H & _ & E & _).
  exists c. split; assumption.
Defined.
