(* ===== verification/Ssvc.v ===== *)
(** * Ssvc: scoring/ssvc.py

    The SSVC annotation: exploitation status, technical impact, mission
    prevalence and the decision tree over the three. *)

From S2P Require Import Prelude PyStr Float64 PyVal CveRow.
From Stdlib Require Import QArith.
Open Scope string_scope.

Definition VERSION : string := "ssvc-annotation-1.0".
Definition OUTCOMES : list string := ["Act"; "Attend"; "Track*"; "Track"].

Definition EXPLOITATION_NONE : string := "none".
Definition EXPLOITATION_POC : string := "poc".
Definition EXPLOITATION_ACTIVE : string := "active".
Definition IMPACT_PARTIAL : string := "partial".
Definition IMPACT_TOTAL : string := "total".
Definition MISSION_LOW : string := "low".
Definition MISSION_MEDIUM : string := "medium".
Definition MISSION_HIGH : string := "high".

Definition _HIGH_ENV : list string := ["CONFIRMED"; "LIKELY"].
Definition _MED_ENV : list string := ["POSSIBLE"; "WEAK"].

(** What the annotation reads of a threat score: its band and the [raw] value
    of each component. *)
Record threat_view := mkThreatView {
  tv_band : option string;
  tv_raw : list (string * pyval)
}.

Definition _component_raw (threat : threat_view) (key : string) : res fl :=
  let raw := match assoc key (tv_raw threat) with Some v => v | None => PNone end in
  try_except (py_float (py_or raw (PFloat f0))) type_or_value (Ok f0).

(** [value is True or value == 1 or value == "1" or value == "true"] *)
Definition _boolish (v : pyval) : bool :=
  match v with PBool true => true | _ => false end || eq_int v 1 || eq_str v "1" || eq_str v "true".

Definition _cvss (c : cve) : res (option fl) :=
  match cvss_score c with
  | PNone | PStr "" => Ok None
  | raw =>
      try_except (let! n := py_float raw in Ok (if isnan n then None else Some n)) type_or_value (Ok None)
  end.

Definition exploitation_status (threat : threat_view) (c : cve) : res string :=
  let! kev := (if _boolish (is_kev c) then Ok f1 else _component_raw threat "kev") in
  if _boolish (is_kev c) || flt f0 kev then Ok EXPLOITATION_ACTIVE
  else
    let! exploit_raw := _component_raw threat "exploit" in
    if fle (lit (88#100)) exploit_raw then Ok EXPLOITATION_ACTIVE
    else if fle (lit (35#100)) exploit_raw || _boolish (has_poc c) then Ok EXPLOITATION_POC
    else Ok EXPLOITATION_NONE.

Definition technical_impact (c : cve) : res string :=
  let! score := _cvss c in
  match score with
  | Some s => if fle (Fin 7) s then Ok IMPACT_TOTAL else Ok IMPACT_PARTIAL
  | None => Ok IMPACT_PARTIAL
  end.

Definition mem_str (s : string) (l : list string) : bool := existsb (String.eqb s) l.

Definition opt_is (o : option string) (s : string) : bool :=
  match o with Some t => String.eqb t s | None => false end.

Definition mission_prevalence (env_tier : option string) (internet_facing : option bool)
    (criticality : option string) : string :=
  let tier := upper (match env_tier with Some t => if nonempty t then t else "UNKNOWN" | None => "UNKNOWN" end) in
  let base :=
    if opt_is criticality "MISSION_CRITICAL" then MISSION_HIGH
    else if opt_is criticality "SUPPORTING" then MISSION_LOW
    else if opt_is criticality "IMPORTANT" then MISSION_MEDIUM
    else if mem_str tier _HIGH_ENV then MISSION_HIGH
    else if mem_str tier _MED_ENV then MISSION_MEDIUM
    else MISSION_LOW in
  let facing := match internet_facing with Some true => true | _ => false end in
  let base :=
    if facing then
      if String.eqb base MISSION_MEDIUM then MISSION_HIGH
      else if String.eqb base MISSION_LOW && negb (String.eqb tier "NO_MATCH") then MISSION_MEDIUM
      else base
    else base in
  if opt_is criticality "MISSION_CRITICAL" then MISSION_HIGH
  else if opt_is criticality "SUPPORTING" && negb facing then MISSION_LOW
  else base.

Definition _decide (exploitation impact mission : string) : string * string :=
  if String.eqb exploitation EXPLOITATION_ACTIVE then
    if String.eqb mission MISSION_HIGH then ("Act", "active+high→Act")
    else if String.eqb mission MISSION_MEDIUM then ("Attend", "active+medium→Attend")
    else if String.eqb impact IMPACT_TOTAL then ("Attend", "active+low+total→Attend")
    else ("Track*", "active+low+partial→Track*")
  else if String.eqb exploitation EXPLOITATION_POC then
    if String.eqb mission MISSION_HIGH && String.eqb impact IMPACT_TOTAL then ("Attend", "poc+high+total→Attend")
    else if mem_str mission [MISSION_HIGH; MISSION_MEDIUM] then ("Track*", "poc+" +:+ mission +:+ "→Track*")
    else ("Track", "poc+low→Track")
  else if String.eqb mission MISSION_HIGH && String.eqb impact IMPACT_TOTAL then
    ("Track*", "none+high+total→Track*")
  else ("Track", "none+" +:+ mission +:+ "→Track").

Record ssvc_factors := mkFactors {
  f_exploitation : string;
  f_technical_impact : string;
  f_mission_prevalence : string;
  f_environment_tier : string;
  f_threat_band : option string;
  f_internet_facing : option bool;
  f_criticality : option string;
  f_privileged_service : option bool;
  f_ot_safety : option bool
}.

Record ssvc_result := mkSsvc {
  s_version : string;
  s_outcome : string;
  s_factors : ssvc_factors;
  s_path : string
}.

Definition calculate_ssvc_outcome (threat : threat_view) (env_tier : option string) (c : cve)
    (internet_facing : option bool) (criticality : option string)
    (privileged_service ot_safety : option bool) : res ssvc_result :=
  let! exploitation := exploitation_status threat c in
  let! impact := technical_impact c in
  let mission := mission_prevalence env_tier internet_facing criticality in
  let '(outcome, path) := _decide exploitation impact mission in
  let '(outcome, path) :=
    if negb (mem_str outcome OUTCOMES) then ("Track", path +:+ "|fallback→Track") else (outcome, path) in
  let factors := mkFactors exploitation impact mission
    (match env_tier with Some t => if nonempty t then t else "UNKNOWN" | None => "UNKNOWN" end)
    (tv_band threat) internet_facing criticality privileged_service ot_safety in
  Ok (mkSsvc VERSION outcome factors path).

(** ** Lemmas *)

Definition EXPLOITATIONS : list string := [EXPLOITATION_NONE; EXPLOITATION_POC; EXPLOITATION_ACTIVE].
Definition IMPACTS : list string := [IMPACT_PARTIAL; IMPACT_TOTAL].
Definition MISSIONS : list string := [MISSION_LOW; MISSION_MEDIUM; MISSION_HIGH].

Fixpoint index_of (s : string) (l : list string) : Z :=
  match l with [] => 0 | x :: t => if String.eqb x s then 0 else 1 + index_of s t end.

(** Urgency of an outcome: [Act] is 0. *)
Definition outcome_rank (o : string) : Z := index_of o OUTCOMES.

Lemma exploitation_status_in threat c s : exploitation_status threat c = Ok s -> In s EXPLOITATIONS.
Proof.
  unfold exploitation_status. intros H. inv_bind H.
  case_hyp H; [injection H as <-; simpl; auto|]. inv_bind H.
  repeat case_hyp H; injection H as <-; simpl; auto.
Qed.

Lemma technical_impact_in c s : technical_impact c = Ok s -> In s IMPACTS.
Proof.
  unfold technical_impact. intros H. inv_bind H.
  repeat case_hyp H; injection H as <-; simpl; auto.
Qed.

Lemma mission_prevalence_in t i c : In (mission_prevalence t i c) MISSIONS.
Proof.
  unfold mission_prevalence. set (tier := upper _). clearbody tier.
  destruct (opt_is c "MISSION_CRITICAL"), (opt_is c "SUPPORTING"), (opt_is c "IMPORTANT"),
    (mem_str tier _HIGH_ENV), (mem_str tier _MED_ENV), i as [[]|]; simpl; auto;
  case_goal; simpl; auto.
Qed.

Definition decide_all (f : string -> string -> string -> bool) : bool :=
  forallb (fun e => forallb (fun i => forallb (fun m => f e i m) MISSIONS) IMPACTS) EXPLOITATIONS.

Lemma decide_all_spec f : decide_all f = true -> forall e i m,
  In e EXPLOITATIONS -> In i IMPACTS -> In m MISSIONS -> f e i m = true.
Proof.
  unfold decide_all. intros H e i m He Hi Hm.
  rewrite forallb_forall in H. specialize (H e He).
  rewrite forallb_forall in H. specialize (H i Hi).
  rewrite forallb_forall in H. exact (H m Hm).
Qed.

(** What a returned annotation is made of. *)
Lemma calculate_ssvc_inv threat t c i cr ps ot r :
  calculate_ssvc_outcome threat t c i cr ps ot = Ok r ->
  exists e im, In e EXPLOITATIONS /\ In im IMPACTS /\
    exploitation_status threat c = Ok e /\ technical_impact c = Ok im /\
    s_outcome r = fst (_decide e im (mission_prevalence t i cr)) /\
    s_path r = snd (_decide e im (mission_prevalence t i cr)).
Proof.
  unfold calculate_ssvc_outcome. intros H. inv_bind H. inv_bind H.
  pose proof (exploitation_status_in _ _ _ E) as He.
  pose proof (technical_impact_in _ _ E0) as Hi.
  pose proof (mission_prevalence_in t i cr) as Hm.
  exists v, v0. do 4 (split; [assumption|]).
  set (m := mission_prevalence t i cr) in *.
  assert (C : decide_all (fun e i m => mem_str (fst (_decide e i m)) OUTCOMES) = true) by (vm_compute; reflexivity).
  pose proof (decide_all_spec _ C v v0 m He Hi Hm) as K; cbn beta in K.
  destruct (_decide v v0 m) as [o p]. cbn [fst snd] in *. rewrite K in H. cbn [negb] in H.
  by injection H as <-.
Qed.

(** ** Theorems *)

(** ADR-002's Act rule, both ways: the outcome is Act exactly for active
    exploitation and high mission prevalence; technical impact has no say. *)
Theorem act_iff_active_and_high threat t c i cr ps ot r :
  calculate_ssvc_outcome threat t c i cr ps ot = Ok r ->
  s_outcome r = "Act" <->
  exploitation_status threat c = Ok EXPLOITATION_ACTIVE /\ mission_prevalence t i cr = MISSION_HIGH.
Proof.
  intros H. apply calculate_ssvc_inv in H as (e & im & He & Hi & Ee & _ & -> & _).
  rewrite Ee. pose proof (mission_prevalence_in t i cr) as Hm.
  set (m := mission_prevalence t i cr) in *. clearbody m.
  assert (C : decide_all (fun e i m => Bool.eqb (String.eqb (fst (_decide e i m)) "Act")
    (String.eqb e EXPLOITATION_ACTIVE && String.eqb m MISSION_HIGH)) = true) by (vm_compute; reflexivity).
  pose proof (decide_all_spec _ C e im m He Hi Hm) as K. apply eqb_prop in K.
  rewrite <- String.eqb_eq, K, andb_true_iff, !String.eqb_eq.
  split; intros [A B]; (split; [congruence|exact B]).
Qed.

Definition kev_row : cve :=
  mkCve NoProducts None None (PBool true) PNone None PNone PNone None [] [] PNone.

Lemma act_iff_active_and_high_witness :
  exists r, calculate_ssvc_outcome (mkThreatView None []) (Some "LIKELY") kev_row None None None None = Ok r /\
  (s_outcome r = "Act" <-> exploitation_status (mkThreatView None []) kev_row = Ok EXPLOITATION_ACTIVE /\
     mission_prevalence (Some "LIKELY") None None = MISSION_HIGH).
Proof.
  eexists. split; [vm_compute; reflexivity|].
  apply (act_iff_active_and_high (mkThreatView None []) (Some "LIKELY") kev_row None None None None).
  vm_compute. reflexivity.
Defined.

(** The outcome is monotone: more exploitation, impact or mission prevalence
    never gives a less urgent outcome. *)
Theorem decide_monotone e e' i i' m m' :
  In e EXPLOITATIONS -> In e' EXPLOITATIONS -> In i IMPACTS -> In i' IMPACTS ->
  In m MISSIONS -> In m' MISSIONS ->
  (index_of e EXPLOITATIONS <= index_of e' EXPLOITATIONS)%Z ->
  (index_of i IMPACTS <= index_of i' IMPACTS)%Z -> (index_of m MISSIONS <= index_of m' MISSIONS)%Z ->
  (outcome_rank (fst (_decide e' i' m')) <= outcome_rank (fst (_decide e i m)))%Z.
Proof.
  intros He He' Hi Hi' Hm Hm' Le Li Lm.
  assert (C : decide_all (fun e i m => decide_all (fun e' i' m' =>
    (index_of e' EXPLOITATIONS <? index_of e EXPLOITATIONS)%Z || (index_of i' IMPACTS <? index_of i IMPACTS)%Z
    || (index_of m' MISSIONS <? index_of m MISSIONS)%Z
    || (outcome_rank (fst (_decide e' i' m')) <=? outcome_rank (fst (_decide e i m)))%Z)) = true)
    by (vm_compute; reflexivity).
  pose proof (decide_all_spec _ (decide_all_spec _ C e i m He Hi Hm) e' i' m' He' Hi' Hm') as K.
  rewrite !orb_true_iff in K. destruct K as [[[K|K]|K]|K]; bool_prop; lia.
Qed.

Lemma decide_monotone_witness :
  (outcome_rank (fst (_decide "active" "total" "high")) <= outcome_rank (fst (_decide "poc" "total" "medium")))%Z.
Proof. apply decide_monotone; solve [simpl; tauto | vm_compute; discriminate]. Defined.

(** An asset facing the internet never makes a NO_MATCH environment high, unless
    the profile itself says MISSION_CRITICAL or IMPORTANT. *)
Theorem exposure_never_fabricates_high criticality :
  criticality <> Some "MISSION_CRITICAL" -> criticality <> Some "IMPORTANT" ->
  forall internet_facing, mission_prevalence (Some "NO_MATCH") internet_facing criticality = MISSION_LOW.
Proof.
  intros N1 N2 f. unfold mission_prevalence.
  assert (E1 : opt_is criticality "MISSION_CRITICAL" = false).
  { destruct criticality as [s|]; [|done]. apply String.eqb_neq. congruence. }
  assert (E2 : opt_is criticality "IMPORTANT" = false).
  { destruct criticality as [s|]; [|done]. apply String.eqb_neq. congruence. }
  rewrite E1, E2. destruct (opt_is criticality "SUPPORTING"), f as [[]|]; reflexivity.
Qed.

Lemma exposure_never_fabricates_high_witness :
  mission_prevalence (Some "NO_MATCH") (Some true) (Some "SUPPORTING") = MISSION_LOW.
Proof. apply exposure_never_fabricates_high; discriminate. Defined.
