(* ===== verification/Cpe.v ===== *)
(** * Cpe: matching/cpe.py

    Version tokens and their order, version ranges, vendor/product keys, and the
    0 / 55 / 100 score of an asset list against a CVE's CPE matches.  Versions
    and bounds are text or absent; numeric runs are shorter than the 4300 digits
    at which [int] refuses. *)

From S2P Require Import Prelude PyStr PyVal CveRow.
From Stdlib Require Import Sorted.
Open Scope string_scope.

(** ** Version tokens *)

Inductive vtoken := TInt (n : Z) | TStr (s : string).

(** [re.findall(r"(\d+|\D+)")]: the maximal runs of digits and of other characters. *)
Fixpoint version_runs (s : string) : list (bool * string) :=
  match s with
  | "" => []
  | String c t =>
      match version_runs t with
      | (d, r) :: rest =>
          if Bool.eqb d (is_digit c) then (d, String c r) :: rest
          else (is_digit c, String c "") :: (d, r) :: rest
      | [] => [(is_digit c, String c "")]
      end
  end.

Definition int_of_digits (s : string) : Z := fst (fst (digits_from 0 0 s)).

Definition version_token (run : bool * string) : vtoken :=
  if fst run then TInt (int_of_digits (snd run)) else TStr (snd run).

Definition _version_tuple (version : option string) : list vtoken :=
  match version with
  | None => []
  | Some v =>
      if negb (nonempty v) then []
      else
        let v_str := lower (strip v) in
        if String.eqb v_str "*" || String.eqb v_str "-" || String.eqb v_str "" then []
        else map version_token (version_runs v_str)
  end.

Definition token_str (t : vtoken) : string := match t with TInt n => str_of_Z n | TStr s => s end.

Definition token_eqb (a b : vtoken) : bool :=
  match a, b with
  | TInt x, TInt y => (x =? y)%Z
  | TStr x, TStr y => String.eqb x y
  | _, _ => false
  end.

(** The order of two different tokens. *)
Definition token_lt (a b : vtoken) : bool :=
  match a, b with
  | TInt x, TInt y => (x <? y)%Z
  | _, _ => String.ltb (token_str a) (token_str b)
  end.

Definition token_step (a b : vtoken) : Z := if token_lt a b then -1 else 1.

(** The loop over positions; the shorter tuple is padded with the int 0. *)
Fixpoint compare_tokens (a b : list vtoken) : Z :=
  match a, b with
  | [], [] => 0
  | x :: a', [] => if token_eqb x (TInt 0) then compare_tokens a' [] else token_step x (TInt 0)
  | [], y :: b' =>
      (fix pad (b : list vtoken) : Z :=
         match b with
         | [] => 0
         | y :: b' => if token_eqb (TInt 0) y then pad b' else token_step (TInt 0) y
         end) b
  | x :: a', y :: b' => if token_eqb x y then compare_tokens a' b' else token_step x y
  end%Z.

Definition _compare_versions (left right : option string) : Z :=
  compare_tokens (_version_tuple left) (_version_tuple right).

Definition _is_version_bound (value : option string) : bool :=
  match value with
  | None => false
  | Some v =>
      nonempty v && negb (existsb (String.eqb (strip v)) [""; "*"; "-"])
  end.

Record bounds := mkBounds {
  start_including : option string; start_excluding : option string;
  end_including : option string; end_excluding : option string
}.

Definition version_in_range (version : string) (b : bounds) : bool :=
  if negb (nonempty version) || negb (nonempty (strip version)) then true
  else
    let v := Some (strip version) in
    if _is_version_bound (start_including b) && (_compare_versions v (start_including b) <? 0)%Z then false
    else if _is_version_bound (start_excluding b) && (_compare_versions v (start_excluding b) <=? 0)%Z then false
    else if _is_version_bound (end_including b) && (0 <? _compare_versions v (end_including b))%Z then false
    else if _is_version_bound (end_excluding b) && (0 <=? _compare_versions v (end_excluding b))%Z then false
    else true.

(** ** Vendor and product keys *)

(** [re.sub(r"\[^a-z0-9\]+", "", value.lower())] *)
Definition _normalize_key (value : string) : string :=
  sfilter (fun c => is_lower c || is_digit c) (lower value).

Definition product_keys_match (asset_product : string) (asset_vendor : option string)
    (cpe_vendor cpe_product : string) : bool :=
  let asset_p := _normalize_key asset_product in
  let asset_v := _normalize_key (text_or asset_vendor) in
  let cpe_p := _normalize_key cpe_product in
  let cpe_v := _normalize_key cpe_vendor in
  if nonempty asset_v && nonempty cpe_v && negb (String.eqb asset_v cpe_v)
     && negb (str_in asset_v cpe_v) && negb (str_in cpe_v asset_v) then false
  else if nonempty asset_v && String.eqb asset_v cpe_v && String.eqb asset_p cpe_p then true
  else if nonempty asset_p && String.eqb asset_p cpe_p then true
  else if nonempty asset_p && nonempty cpe_p &&
          (let '(shorter, longer) :=
             if (String.length asset_p <? String.length cpe_p)%nat then (asset_p, cpe_p) else (cpe_p, asset_p) in
           (3 <=? String.length shorter)%nat && str_in shorter longer) then true
  else
    let combined := _normalize_key (text_or asset_vendor +:+ asset_product) in
    let cpe_combined := _normalize_key (cpe_vendor +:+ cpe_product) in
    nonempty combined && nonempty cpe_combined
    && (str_in combined cpe_combined || str_in cpe_combined combined).

(** ** Scores *)

Record asset := mkCpeAsset { as_product : option string; as_vendor : option string; as_version : option string }.

Record cpe_match := mkCpeMatch {
  cm_vendor : option string; cm_product : option string; cm_version : option string; cm_bounds : bounds
}.

Definition score_asset_against_cpe (a : asset) (m : cpe_match) : option Z :=
  if negb (product_keys_match (text_or (as_product a)) (as_vendor a) (text_or (cm_vendor m)) (text_or (cm_product m)))
  then None
  else
    let version := strip (text_or (as_version a)) in
    let cpe_version := strip (text_or (cm_version m)) in
    if _is_version_bound (Some cpe_version) && nonempty version
       && negb (_compare_versions (Some version) (Some cpe_version) =? 0)%Z then None
    else
      let in_range := version_in_range version (cm_bounds m) in
      if negb (nonempty version) then Some 55%Z
      else if in_range then Some 100%Z
      else None.

Definition best_step (a : asset) (best : Z) (m : cpe_match) : Z :=
  match score_asset_against_cpe a m with
  | Some score => if (best <? score)%Z then score else best
  | None => best
  end.

Definition score_cve_for_assets (cpe_matches : list cpe_match) (assets : list asset) : Z :=
  fold_left (fun best a => fold_left (best_step a) cpe_matches best) assets 0%Z.

(** ** Lemmas *)

Definition pad_compare (b : list vtoken) : Z := compare_tokens [] b.

Lemma compare_nil_cons y b :
  compare_tokens [] (y :: b) =
  if token_eqb (TInt 0) y then compare_tokens [] b else token_step (TInt 0) y.
Proof. destruct b; reflexivity. Qed.

Lemma token_eqb_sym a b : token_eqb a b = token_eqb b a.
Proof. destruct a, b; simpl; try done; [apply Z.eqb_sym|apply String.eqb_sym]. Qed.

Lemma token_eqb_refl a : token_eqb a a = true.
Proof. destruct a; simpl; [apply Z.eqb_refl|apply String.eqb_refl]. Qed.

Lemma compare_app_common p a b : compare_tokens (p ++ a) (p ++ b) = compare_tokens a b.
Proof. induction p as [|t p IH]; simpl; [done|]. by rewrite token_eqb_refl. Qed.

Lemma compare_prefix_l p b : compare_tokens p (p ++ b) = compare_tokens [] b.
Proof. rewrite <- (app_nil_r p) at 1. apply compare_app_common. Qed.

Lemma compare_prefix_r p a : compare_tokens (p ++ a) p = compare_tokens a [].
Proof. rewrite <- (app_nil_r p) at 2. apply compare_app_common. Qed.

(** A dotted release number as tokens. *)
Fixpoint dotted_tokens (l : list Z) : list vtoken :=
  match l with [] => [] | [n] => [TInt n] | n :: t => TInt n :: TStr "." :: dotted_tokens t end.

(** The order releases are meant to have: component by component. *)
Fixpoint lex (a b : list Z) : Z :=
  match a, b with
  | x :: a', y :: b' => if (x =? y)%Z then lex a' b' else if (x <? y)%Z then -1 else 1
  | _, _ => 0
  end%Z.

Lemma compare_dotted_tokens a : forall b,
  length a = length b -> compare_tokens (dotted_tokens a) (dotted_tokens b) = lex a b.
Proof.
  induction a as [|x a IH]; intros [|y b] H; try discriminate H; [reflexivity|].
  injection H as H. specialize (IH b H).
  destruct a as [|x' a], b as [|y' b]; try discriminate H.
  - cbn. by destruct (x =? y)%Z.
  - cbn [dotted_tokens compare_tokens lex] in IH |- *. cbn [token_eqb].
    destruct (x =? y)%Z; [|done]. rewrite String.eqb_refl. exact IH.
Qed.

(** *** Scores *)

Lemma score_values a m s : score_asset_against_cpe a m = Some s -> s = 55%Z \/ s = 100%Z.
Proof.
  unfold score_asset_against_cpe. repeat case_goal; intros H; try discriminate H; injection H as <-; auto.
Qed.

(** Both loops are one loop over the pairs. *)
Definition pairs (ms : list cpe_match) (assets : list asset) : list (asset * cpe_match) :=
  flat_map (fun a => map (pair a) ms) assets.

Lemma score_cve_pairs ms assets :
  score_cve_for_assets ms assets =
  fold_left (fun best p => best_step (fst p) best (snd p)) (pairs ms assets) 0%Z.
Proof.
  unfold score_cve_for_assets, pairs. generalize 0%Z.
  induction assets as [|a t IH]; intros z; cbn [flat_map fold_left]; [done|].
  rewrite fold_left_app, IH. f_equal. clear. revert z.
  induction ms as [|m ms IHm]; intros z; cbn [map fold_left fst snd]; [done|]. apply IHm.
Qed.

Definition score_or_0 (p : asset * cpe_match) : Z :=
  match score_asset_against_cpe (fst p) (snd p) with Some s => s | None => 0%Z end.

Lemma best_step_max l : forall z, (0 <= z)%Z ->
  fold_left (fun best p => best_step (fst p) best (snd p)) l z = fold_left Z.max (map score_or_0 l) z.
Proof.
  induction l as [|p l IH]; intros z H; cbn [fold_left map]; [done|].
  assert (E : best_step (fst p) z (snd p) = Z.max z (score_or_0 p)).
  { unfold best_step, score_or_0. destruct (score_asset_against_cpe _ _); [|lia].
    destruct (Z.ltb_spec z z0); lia. }
  rewrite E. apply IH. lia.
Qed.

Lemma fold_max_in l z : In (fold_left Z.max l z) (z :: l).
Proof.
  revert z; induction l as [|x l IH]; intros z; cbn [fold_left]; [by left|].
  destruct (IH (Z.max z x)) as [E|E]; [|by right; right].
  rewrite <- E. destruct (Z.max_spec z x) as [[_ ->]|[_ ->]]; [by right; left|by left].
Qed.

Lemma fold_max_ub l : forall z x, In x l -> (x <= fold_left Z.max l z)%Z.
Proof.
  induction l as [|y l IH]; intros z x; [easy|]. cbn [fold_left]. intros [->|H]; [|by apply IH].
  pose proof (fold_max_ge l (Z.max z x)). lia.
Qed.

Lemma in_pairs ms assets a m : In (a, m) (pairs ms assets) <-> In a assets /\ In m ms.
Proof.
  unfold pairs. rewrite in_flat_map. split.
  - intros (a' & Ha & Hm). apply in_map_iff in Hm as (m' & E & Hm). by injection E as -> ->.
  - intros [Ha Hm]. exists a. split; [exact Ha|]. by apply in_map.
Qed.

Lemma score_attained ms assets :
  score_cve_for_assets ms assets = 0%Z \/
  exists a m, In a assets /\ In m ms /\ score_asset_against_cpe a m = Some (score_cve_for_assets ms assets).
Proof.
  rewrite score_cve_pairs, best_step_max by lia.
  destruct (fold_max_in (map score_or_0 (pairs ms assets)) 0) as [E|E]; [by left|].
  apply in_map_iff in E as ([a m] & E & Hp). apply in_pairs in Hp as [Ha Hm]. rewrite <- E.
  unfold score_or_0. cbn [fst snd]. destruct (score_asset_against_cpe a m) eqn:S; [right|by left].
  exists a, m. by rewrite S.
Qed.

Lemma score_upper ms assets a m k :
  In a assets -> In m ms -> score_asset_against_cpe a m = Some k -> (k <= score_cve_for_assets ms assets)%Z.
Proof.
  intros Ha Hm H. rewrite score_cve_pairs, best_step_max by lia. apply fold_max_ub.
  apply in_map_iff. exists (a, m). split; [unfold score_or_0; cbn [fst snd]; by rewrite H|by apply in_pairs].
Qed.

(** ** Theorems *)

(** Two dotted releases of the same length compare component by component,
    as numbers and not as texts. *)
Theorem compare_dotted_releases l r xs ys :
  _version_tuple (Some l) = dotted_tokens xs -> _version_tuple (Some r) = dotted_tokens ys ->
  length xs = length ys -> _compare_versions (Some l) (Some r) = lex xs ys.
Proof. intros Hl Hr H. unfold _compare_versions. rewrite Hl, Hr. by apply compare_dotted_tokens. Qed.

Lemma compare_dotted_releases_witness :
  _compare_versions (Some "2.9.1") (Some "2.14.0") = lex [2; 9; 1]%Z [2; 14; 0]%Z.
Proof. apply (compare_dotted_releases "2.9.1" "2.14.0"); reflexivity. Defined.

(** A patch release of the version a range starts at is placed below the range:
    the padding 0 is compared as the text "0" with the separator, and "." sorts
    first.  So 9.0.5 is "not affected" by a range that starts at 9.0 inclusive. *)
Theorem patch_release_below_start v b c s rest :
  nonempty (strip v) = true ->
  _is_version_bound (start_including b) = true ->
  _version_tuple (Some (strip v)) = (_version_tuple (start_including b) ++ TStr (String c s) :: rest)%list ->
  String.ltb (String c s) "0" = true ->
  version_in_range v b = false.
Proof.
  intros Hs Hb Ht Hc. unfold version_in_range. rewrite Hs. cbn [negb].
  destruct (nonempty v) eqn:Hv; [|by destruct v]. cbn [negb orb]. cbv zeta. rewrite Hb.
  unfold _compare_versions. rewrite Ht, compare_prefix_r. cbn [compare_tokens token_eqb].
  unfold token_step, token_lt, token_str.
  change (str_of_Z 0) with "0". rewrite Hc. reflexivity.
Qed.

Lemma patch_release_below_start_witness :
  version_in_range "9.0.5" (mkBounds (Some "9.0") None None (Some "10.0")) = false.
Proof.
  apply (patch_release_below_start "9.0.5" _ "." "" [TInt 5]); reflexivity.
Defined.

(** The score of an asset list is the best score of a pair: 100 exactly when
    some asset with a version is in range of a CPE match, 55 when only a pair
    without a version matches, and 0 when no pair matches. *)
Theorem score_cve_spec ms assets :
  let s := score_cve_for_assets ms assets in
  (s = 100%Z <-> exists a m, In a assets /\ In m ms /\ score_asset_against_cpe a m = Some 100%Z) /\
  (s = 0%Z <-> forall a m, In a assets -> In m ms -> score_asset_against_cpe a m = None) /\
  (s = 0%Z \/ s = 55%Z \/ s = 100%Z).
Proof.
  cbv zeta. set (s := score_cve_for_assets ms assets).
  pose proof (score_attained ms assets) as A. pose proof (score_upper ms assets) as U. fold s in A, U.
  assert (V : s = 0%Z \/ s = 55%Z \/ s = 100%Z).
  { destruct A as [A|(a & m & _ & _ & A)]; [by left|right]. by apply (score_values a m). }
  split; [|split; [|exact V]]; split.
  - intros H. destruct A as [A|(a & m & Ha & Hm & A)]; [lia|]. exists a, m. by rewrite H in A.
  - intros (a & m & Ha & Hm & H). specialize (U a m 100%Z Ha Hm H). lia.
  - intros H a m Ha Hm. destruct (score_asset_against_cpe a m) as [k|] eqn:E; [|done].
    pose proof (U a m k Ha Hm E). destruct (score_values a m k E); lia.
  - intros H. destruct A as [A|(a & m & Ha & Hm & A)]; [exact A|]. by rewrite H in A.
Qed.

Lemma normalize_app a b : _normalize_key (a +:+ b) = _normalize_key a +:+ _normalize_key b.
Proof.
  unfold _normalize_key. rewrite lower_app. generalize (lower b); intros t.
  induction (lower a) as [|c s IH]; [done|]. rewrite app_cons. cbn [sfilter].
  case_match; [|exact IH]. by rewrite IH, app_cons.
Qed.

(** The minimum length of three for a product key found inside another is not
    in force for an asset without a vendor: the combined key is then the product
    key itself, and the last test has no length guard. *)
Theorem short_product_guard_bypassed asset_product cpe_vendor cpe_product :
  nonempty (_normalize_key asset_product) = true ->
  str_in (_normalize_key asset_product) (_normalize_key cpe_product) = true ->
  product_keys_match asset_product None cpe_vendor cpe_product = true.
Proof.
  intros Ha Hin. unfold product_keys_match. cbn [text_or]. change (_normalize_key "") with "".
  cbn [nonempty andb]. rewrite Ha. cbv zeta. cbn [andb].
  destruct (String.eqb _ _); [done|]. case_goal; [done|].
  rewrite app_nil, Ha. rewrite normalize_app, nonempty_app.
  assert (nonempty (_normalize_key cpe_product) = true) as ->.
  { destruct (_normalize_key cpe_product); [|done].
    destruct (_normalize_key asset_product); [done|]. discriminate Hin. }
  rewrite orb_true_r. cbn [andb]. rewrite str_in_app_r by exact Hin. done.
Qed.

Lemma short_product_guard_bypassed_witness : product_keys_match "Go" None "mongodb" "mongo_shell" = true.
Proof. apply (short_product_guard_bypassed "Go"); reflexivity. Defined.
