(* ===== verification/StackAssets.v ===== *)
(** * StackAssets: preferences/validate.py and matching/stack_assets.py

    Stack terms and profiles as a user submits them, the assets built from them,
    and the match of a CVE row against those assets.  [json_loads] is
    [json.loads] on a database text, [None] for a [JSONDecodeError]; [py_str] is
    [str] on a JSON value that is not text. *)

From S2P Require Import Prelude PyStr PyVal CveRow Cpe.
Open Scope string_scope.

Section validate.
Variable py_str : pyval -> string.

(** [str(v)] *)
Definition to_str (v : pyval) : string := match v with PStr s => s | _ => py_str v end.

(** [str(d.get(k) or default)] *)
Definition field (d : list (string * pyval)) (k default : string) : string :=
  to_str (py_or (dget d k) (PStr default)).

Definition MAX_STACK_TERMS_LEN : Z := 4096.
Definition MAX_PROFILE_JSON_LEN : Z := 65536.

Definition normalize_stack_terms (raw : string) : string :=
  sjoin "," (map strip (filter (fun p => nonempty (strip p)) (split_on "," raw))).

Definition validate_stack_terms (raw : option string) : res string :=
  match raw with
  | None => Raise ValueError
  | Some raw =>
      if (MAX_STACK_TERMS_LEN <? slen raw)%Z then Raise ValueError
      else Ok (normalize_stack_terms raw)
  end.

Record app_item := mkApp { ap_product : string; ap_cpeProduct : string; ap_version : string; ap_vendor : string }.

Record clean_profile := mkClean {
  cl_version : pyval;
  cl_operatingSystems : list (string * string * string);
  cl_applications : list app_item;
  cl_internetFacing : string;
  cl_industry : string;
  cl_criticality : string;
  cl_aiSystems : list string
}.

Definition list_items (v : pyval) : list pyval := match v with PList l => l | _ => [] end.

Definition os_item (v : pyval) : list (string * string * string) :=
  match v with PDict d => [(field d "product" "", field d "version" "", field d "vendor" "")] | _ => [] end.

Definition app_item_of (v : pyval) : list app_item :=
  match v with
  | PDict d => [mkApp (field d "product" "") (field d "cpeProduct" "") (field d "version" "") (field d "vendor" "")]
  | _ => []
  end.

Definition ai_item (v : pyval) : list string := match v with PNone => [] | _ => [to_str v] end.

Definition sanitize_profile (data : pyval) : res (option clean_profile) :=
  match data with
  | PNone => Ok None
  | PDict d =>
      let env := match dget d "environment" with PDict e => e | _ => [] end in
      Ok (Some (mkClean (py_or (dget d "version") (PInt 1))
        (flat_map os_item (list_items (dget d "operatingSystems")))
        (flat_map app_item_of (list_items (dget d "applications")))
        (field env "internetFacing" "Some") (field env "industry" "Technology")
        (field env "criticality" "Medium")
        (flat_map ai_item (list_items (dget d "aiSystems")))))
  | _ => Raise ValueError
  end.

(** The sanitised profile as the JSON object it is stored as. *)
Definition os_json (o : string * string * string) : pyval :=
  let '(p, v, d) := o in PDict [("product", PStr p); ("version", PStr v); ("vendor", PStr d)].
Definition app_json (a : app_item) : pyval :=
  PDict [("product", PStr (ap_product a)); ("cpeProduct", PStr (ap_cpeProduct a));
         ("version", PStr (ap_version a)); ("vendor", PStr (ap_vendor a))].
Definition profile_json (c : clean_profile) : pyval :=
  PDict [("version", cl_version c);
         ("operatingSystems", PList (map os_json (cl_operatingSystems c)));
         ("applications", PList (map app_json (cl_applications c)));
         ("environment", PDict [("internetFacing", PStr (cl_internetFacing c));
                                ("industry", PStr (cl_industry c));
                                ("criticality", PStr (cl_criticality c))]);
         ("aiSystems", PList (map PStr (cl_aiSystems c)))].

(** [dumps] is [json.dumps(..., sort_keys=True)]. *)
Definition encode_profile (dumps : pyval -> string) (p : option clean_profile) : res (option string) :=
  match p with
  | None => Ok None
  | Some c =>
      let encoded := dumps (profile_json c) in
      if (MAX_PROFILE_JSON_LEN <? slen encoded)%Z then Raise ValueError
      else Ok (Some encoded)
  end.

(** ** stack_assets.py *)

Variable json_loads : string -> option pyval.

Definition text_asset (product vendor version : string) : asset :=
  mkCpeAsset (Some product) (Some vendor) (Some version).

Definition terms_to_assets (stack_terms : string) : list asset :=
  flat_map (fun raw => let product := strip raw in
    if nonempty product then [text_asset product "" ""] else []) (split_on "," stack_terms).

Definition assets_to_terms (assets : list asset) : list string :=
  fold_left (fun terms a =>
    let product := strip (text_or (as_product a)) in
    if nonempty product && negb (existsb (String.eqb product) terms) then (terms ++ [product])%list else terms)
    assets [].

Definition profile_to_assets (profile : pyval) : res (list asset) :=
  let! clean := (if truthy profile then sanitize_profile profile else Ok None) in
  match clean with
  | None => Ok []
  | Some c =>
      Ok (flat_map (fun o => let '(p, v, d) := o in
            if nonempty (strip p) then [text_asset (strip p) (strip d) (strip v)] else []) (cl_operatingSystems c)
          ++ flat_map (fun a =>
            let product := strip (if nonempty (ap_cpeProduct a) then ap_cpeProduct a else ap_product a) in
            if nonempty product then [text_asset product (strip (ap_vendor a)) (strip (ap_version a))] else [])
            (cl_applications c))%list
  end.

Definition _parse_json_list (raw : pyval) : list pyval :=
  match raw with
  | PList l => l
  | PStr s =>
      if nonempty s then match json_loads s with Some (PList l) => l | _ => [] end else []
  | _ => []
  end.

Definition no_bounds : bounds := mkBounds None None None None.

Definition _affected_to_cpes (affected_products : pyval) : list cpe_match :=
  flat_map (fun item =>
    let text := strip (to_str (py_or item (PStr ""))) in
    if nonempty text then
      let '(vendor, product) := match split_once ":" text with Some p => p | None => ("", text) end in
      [mkCpeMatch (Some (strip vendor)) (Some (strip product)) (Some "*") no_bounds]
    else []) (_parse_json_list affected_products).

(** The text fields of a stored CPE match. *)
Definition text_field (d : list (string * pyval)) (k : string) : option string :=
  match dget d k with PStr s => Some s | _ => None end.

Definition cpe_of_dict (d : list (string * pyval)) : cpe_match :=
  mkCpeMatch (text_field d "vendor") (text_field d "product") (text_field d "version")
    (mkBounds (text_field d "version_start_including") (text_field d "version_start_excluding")
       (text_field d "version_end_including") (text_field d "version_end_excluding")).

Definition parsed_cpes (cpe_matches : pyval) : list cpe_match :=
  flat_map (fun v => match v with PDict d => [cpe_of_dict d] | _ => [] end) (_parse_json_list cpe_matches).

Definition cve_matches_assets (cpe_matches affected_products : pyval) (assets : list asset) : bool :=
  match assets with
  | [] => false
  | _ =>
      if (0 <? score_cve_for_assets (parsed_cpes cpe_matches) assets)%Z then true
      else (0 <? score_cve_for_assets (_affected_to_cpes affected_products) assets)%Z
  end.

(** ** Lemmas *)

Lemma field_hit k d s default : dget d k = PStr s -> nonempty s = true -> field d k default = s.
Proof. intros H N. unfold field, py_or. rewrite H. cbn [truthy]. by rewrite N. Qed.

Lemma field_text k d s : dget d k = PStr s -> field d k "" = s.
Proof. intros H. unfold field, py_or. rewrite H. cbn [truthy]. by destruct s. Qed.

Lemma flat_map_singleton {A B} (f : A -> list B) (g : B -> A) l :
  (forall b, f (g b) = [b]) -> flat_map f (map g l) = l.
Proof. intros H. induction l as [|b t IH]; simpl; [done|]. by rewrite H, IH. Qed.

Definition cut (p : string) : list string := if nonempty (strip p) then [strip p] else [].

Lemma normalize_cut raw : normalize_stack_terms raw = sjoin "," (flat_map cut (split_on "," raw)).
Proof.
  unfold normalize_stack_terms. f_equal. induction (split_on "," raw) as [|p t IH]; [done|].
  rewrite filter_cons. cbn [flat_map]. unfold cut at 1. case_decide as H.
  - rewrite (Is_true_true_1 _ H). cbn [map app]. by rewrite IH.
  - destruct (nonempty (strip p)); [by destruct H|]. exact IH.
Qed.

End validate.

Lemma cut_cut p q : In q (cut p) -> cut q = [q].
Proof.
  unfold cut. destruct (nonempty (strip p)) eqn:E; [|easy]. intros [<-|[]].
  by rewrite strip_idemp, E.
Qed.

Lemma cut_clean l : flat_map cut (flat_map cut l) = flat_map cut l.
Proof.
  induction l as [|p l IH]; [done|]. cbn [flat_map]. rewrite flat_map_app, IH. f_equal.
  unfold cut at 2 3. destruct (nonempty (strip p)) eqn:E; [|done]. cbn [flat_map].
  rewrite (cut_cut p); [done|]. unfold cut. rewrite E. by left.
Qed.

Definition no_comma (p : string) : Prop := sforall (fun x => negb (Ascii.eqb x ",")) p = true.

Lemma cut_no_comma l : Forall no_comma l -> Forall no_comma (flat_map cut l).
Proof.
  induction 1 as [|p l Hp Hl IH]; [constructor|]. cbn [flat_map]. apply Forall_app. split; [|exact IH].
  unfold cut. case_match; [|constructor]. constructor; [|constructor]. by apply sforall_strip.
Qed.

Lemma normalize_idemp raw : normalize_stack_terms (normalize_stack_terms raw) = normalize_stack_terms raw.
Proof.
  rewrite !normalize_cut. set (parts := flat_map cut (split_on "," raw)).
  destruct (decide (parts = [])) as [->|N]; [reflexivity|].
  rewrite split_on_sjoin; [|exact N|apply cut_no_comma, split_on_parts].
  unfold parts. by rewrite cut_clean.
Qed.

Lemma cut_join_len l : (join_len (flat_map cut l) <= join_len l)%Z.
Proof.
  induction l as [|p l IH]; [done|]. cbn [flat_map]. unfold cut at 1.
  pose proof (slen_strip p). pose proof (slen_nonneg p).
  case_match; cbn [app join_len fold_right]; fold (join_len (flat_map cut l)); fold (join_len l); lia.
Qed.

Lemma normalize_shrinks raw : (slen (normalize_stack_terms raw) <= slen raw)%Z.
Proof.
  rewrite normalize_cut. set (parts := flat_map cut (split_on "," raw)).
  destruct (decide (parts = [])) as [->|N]; [apply slen_nonneg|].
  rewrite slen_sjoin by exact N. rewrite <- (sjoin_split_on "," raw) at 1.
  rewrite slen_sjoin by apply split_on_nonempty.
  pose proof (cut_join_len (split_on "," raw)). unfold parts. lia.
Qed.

(** ** Theorems *)

(** What is stored for the stack terms validates again, to itself: saving a
    loaded preference is a no-op and never crosses the length limit. *)
Theorem stored_terms_stable raw t :
  validate_stack_terms raw = Ok t -> validate_stack_terms (Some t) = Ok t.
Proof.
  unfold validate_stack_terms. destruct raw as [raw|]; [|discriminate].
  destruct (Z.ltb_spec MAX_STACK_TERMS_LEN (slen raw)) as [L|L]; [discriminate|]. intros H. injection H as <-.
  pose proof (normalize_shrinks raw). destruct (Z.ltb_spec MAX_STACK_TERMS_LEN (slen (normalize_stack_terms raw))); [lia|].
  by rewrite normalize_idemp.
Qed.

Lemma stored_terms_stable_witness : validate_stack_terms (Some "nginx,log4j") = Ok "nginx,log4j".
Proof. apply (stored_terms_stable (Some " nginx ,, log4j,")). vm_compute. reflexivity. Defined.

(** A sanitised profile, stored as JSON and sanitised again, is itself: the
    cleaning is a projection.  [str] of a JSON value that is not false is not empty. *)
Theorem sanitize_roundtrip py_str data c :
  (forall v, truthy v = true -> nonempty (to_str py_str v) = true) ->
  sanitize_profile py_str data = Ok (Some c) ->
  sanitize_profile py_str (profile_json c) = Ok (Some c).
Proof.
  intros Hs H. destruct data as [| | | | | |d]; try discriminate H.
  assert (F : forall e k dflt, nonempty dflt = true -> nonempty (field py_str e k dflt) = true).
  { intros e k dflt Hd. apply Hs. unfold py_or. by destruct (truthy (dget e k)) eqn:E. }
  set (env := match dget d "environment" with PDict e => e | _ => [] end).
  injection H as <-. fold env. cbn [sanitize_profile profile_json dget String.eqb Ascii.eqb Bool.eqb].
  cbn [list_items cl_operatingSystems cl_applications cl_aiSystems cl_version cl_internetFacing cl_industry cl_criticality].
  rewrite !flat_map_singleton.
  - do 2 f_equal. f_equal.
    + unfold py_or at 1. destruct (truthy (py_or (dget d "version") (PInt 1))) eqn:E; [done|].
      unfold py_or in E. destruct (truthy (dget d "version")) eqn:E2; [congruence|discriminate E].
    + by apply field_hit, F.
    + by apply field_hit, F.
    + by apply field_hit, F.
  - reflexivity.
  - intros [p1 p2 p3 p4]. cbn [app_json app_item_of ap_product ap_cpeProduct ap_version ap_vendor].
    by erewrite !field_text by reflexivity.
  - intros [[p v] w]. cbn [os_json os_item]. by erewrite !field_text by reflexivity.
Qed.

Definition sample_profile : pyval :=
  PDict [("operatingSystems", PList [PDict [("product", PStr "ubuntu"); ("version", PInt 22)]; PStr "junk"]);
         ("environment", PDict [("internetFacing", PStr "Yes")]);
         ("aiSystems", PList [PNone; PStr "ollama"])].

Definition sample_clean : clean_profile :=
  mkClean (PInt 1) [("ubuntu", "22", "")] [] "Yes" "Technology" "Medium" ["ollama"].

Lemma sanitize_roundtrip_witness :
  sanitize_profile (fun _ => "22") (profile_json sample_clean) = Ok (Some sample_clean).
Proof.
  apply (sanitize_roundtrip (fun _ => "22") sample_profile sample_clean).
  - intros [] H; try reflexivity. exact H.
  - reflexivity.
Defined.
