(* ===== verification/Ssrf.v ===== *)
(** * Ssrf: webhooks/ssrf.py

    Address checks, pinned URLs and header filtering for outbound webhooks, and
    the request loop.  External code enters as arguments: [getaddrinfo] (the
    resolver: [None] is a resolution failure), [idna] (the IDNA codec) and the
    outcomes of [client.request].  The loop returns its trace of effects. *)

From S2P Require Import Prelude PyStr DecText PyVal PyNet UrlText CveRow.
Open Scope string_scope.

Definition WEBHOOK_RETRIES : nat := 2.
Definition RETRYABLE_STATUS : list Z := [500; 502; 503; 504]%Z.

Definition BLOCKED_NETWORKS : list net :=
  [Net4 (v4 10 0 0 0) 8; Net4 (v4 172 16 0 0) 12; Net4 (v4 192 168 0 0) 16; Net4 (v4 100 64 0 0) 10;
   Net4 (v4 127 0 0 0) 8; Net4 (v4 169 254 0 0) 16; Net4 (v4 0 0 0 0) 8; Net6 1 128; Net6 (v6 [0xfc00%Z]) 7].

Definition FORBIDDEN_OUTBOUND_HEADERS : list string :=
  ["authorization"; "x-briefr-admin-key"; "x-api-key"; "x-virustotal-api-key"; "x-nvd-api-key";
   "x-github-token"; "x-groq-api-key"; "x-abuseipdb-api-key"; "x-greynoise-api-key"; "x-circl-api-key"].

Definition is_blocked_ip (addr : ip) : bool :=
  if is_private addr || is_loopback addr || is_link_local addr then true
  else if is_unspecified addr then true
  else if is_site_local addr then true
  else existsb (in_net addr) BLOCKED_NETWORKS.

Definition check_ip (raw : string) : res string :=
  match ip_address raw with
  | Raise _ => Raise SSRFError
  | Ok addr => if is_blocked_ip addr then Raise SSRFError else Ok raw
  end.

Definition validate_resolved_ips (ips : list string) : res (list string) :=
  match ips with [] => Raise SSRFError | _ => map_res check_ip ips end.

(** [sorted(set(l))] *)
Fixpoint sorted_insert (s : string) (l : list string) : list string :=
  match l with
  | [] => [s]
  | h :: t => if String.eqb s h then l else if String.ltb s h then s :: l else h :: sorted_insert s t
  end.
Definition sorted_set (l : list string) : list string := fold_right sorted_insert [] l.

Definition resolve_hostname (getaddrinfo : string -> option (list string)) (hostname : string) : res (list string) :=
  if negb (nonempty hostname) then Raise SSRFError
  else match getaddrinfo hostname with
       | None => Raise SSRFError
       | Some addrs => validate_resolved_ips (sorted_set addrs)
       end.

Definition parse_https_url (u : string) : res (string * Z * string * string) :=
  let! parsed := urlparse (strip u) in
  if negb (String.eqb (u_scheme parsed) "https") then Raise SSRFError
  else
    match hostname parsed with
    | None => Raise SSRFError
    | Some host =>
        let! p := port parsed in
        let port_no := match p with Some n => if (n =? 0)%Z then 443%Z else n | None => 443%Z end in
        let path := if nonempty (u_path parsed) then u_path parsed else "/" in
        let path := if nonempty (u_query parsed) then path +:+ "?" +:+ u_query parsed else path in
        Ok (host, port_no, path, u_netloc parsed)
    end.

Definition build_pinned_url (port_no : Z) (path pinned_ip : string) : string :=
  let bracketed := if has_char ":" pinned_ip then "[" +:+ pinned_ip +:+ "]" else pinned_ip in
  if (port_no =? 443)%Z then "https://" +:+ bracketed +:+ path
  else "https://" +:+ bracketed +:+ ":" +:+ str_of_Z port_no +:+ path.

Definition forbidden_header (key : string) : bool :=
  existsb (String.eqb (lower key)) FORBIDDEN_OUTBOUND_HEADERS || startswith (lower key) "x-briefr-".

Definition sanitize_outbound_headers (headers : option (list (string * string))) : list (string * string) :=
  fold_left (fun safe kv => if forbidden_header (fst kv) then safe else dset safe (fst kv) (snd kv))
    (list_or headers) [].

(** ** The request loop *)

(** What the loop reads of an [httpx.Response]; [rsp_raises] is what
    [raise_for_status] does. *)
Record response := mkResponse {
  rsp_status : Z; rsp_is_redirect : bool; rsp_is_server_error : bool; rsp_is_client_error : bool;
  rsp_raises : bool
}.

Inductive outcome :=
| Resp (r : response)
| HttpFailure           (** an [httpx.HTTPError] *)
| OtherFailure (e : exn).  (** cancellation, or any other exception *)

Inductive effect :=
| EAwaitSlot
| ERequest (url : string) (headers : list (string * string)) (sni : option string)
| EApplyHeaders (r : response)
| EFailure
| ESuccess
| ESleep (n : nat)
| ERelease.

(** The rest of an iteration after the response: what happened, and whether to
    go round again ([inr attempt]) or leave ([inl]). *)
Definition handle_response (apply : response -> res unit) (retries attempt : nat) (r : response)
  : list effect * (res response + nat) :=
  if (rsp_status r =? 429)%Z then
    match apply r with
    | Ok _ => ([EApplyHeaders r], inr attempt)
    | Raise e => ([EApplyHeaders r], inl (Raise e))
    end
  else if existsb (Z.eqb (rsp_status r)) RETRYABLE_STATUS && (attempt <? retries)%nat then
    ([ESleep attempt], inr (S attempt))
  else
    let retry_failed := existsb (Z.eqb (rsp_status r)) RETRYABLE_STATUS in
    let pre := if retry_failed then [EFailure] else [] in
    if retry_failed && rsp_raises r then (pre, inl (Raise HTTPStatusError))
    else if rsp_is_redirect r then ((pre ++ [EFailure])%list, inl (Raise SSRFError))
    else
      let pre := if rsp_is_server_error r then (pre ++ [EFailure])%list else pre in
      if rsp_is_server_error r && rsp_raises r then (pre, inl (Raise HTTPStatusError))
      else
        let pre := if rsp_is_client_error r then (pre ++ [EFailure])%list else pre in
        if rsp_is_client_error r && rsp_raises r then (pre, inl (Raise HTTPStatusError))
        else
          match apply r with
          | Ok _ => ((pre ++ [ESuccess; EApplyHeaders r])%list, inl (Ok r))
          | Raise e => ((pre ++ [ESuccess; EApplyHeaders r])%list, inl (Raise e))
          end.

(** The loop over the outcomes of its requests; [None]: still waiting for one. *)
Fixpoint request_loop (apply : response -> res unit) (req : effect) (retries attempt : nat) (outs : list outcome)
  : list effect * option (res response) :=
  match outs with
  | [] => ([], None)
  | o :: rest =>
      let '(tr, next) :=
        match o with
        | HttpFailure => ([EFailure], inl (Raise HTTPError))
        | OtherFailure e => ([], inl (Raise e))
        | Resp r => handle_response apply retries attempt r
        end in
      let tr := (EAwaitSlot :: req :: tr ++ [ERelease])%list in
      match next with
      | inl out => (tr, Some out)
      | inr attempt' =>
          let '(tr', out) := request_loop apply req retries attempt' rest in ((tr ++ tr')%list, out)
      end
  end.

(** Everything before the loop: the URL, the resolved and validated address, the
    headers.  [resolver] is [resolve] or the default resolver. *)
Definition prepare_request (resolver : string -> res (list string)) (idna : string -> res string)
    (url : string) (headers : option (list (string * string))) : res effect :=
  let! parts := parse_https_url url in
  let '(host, port_no, path, _) := parts in
  let! answered := resolver host in
  let! pinned_ips := validate_resolved_ips answered in
  match pinned_ips with
  | [] => Raise IndexError
  | pinned_ip :: _ =>
      let outbound_headers := dset (sanitize_outbound_headers headers) "Host" host in
      let! sni := (match ip_address host with
                   | Ok _ => Ok None
                   | Raise _ => let! h := idna host in Ok (Some h)
                   end) in
      Ok (ERequest (build_pinned_url port_no path pinned_ip) outbound_headers sni)
  end.

Definition safe_webhook_request (resolver : string -> res (list string)) (idna : string -> res string)
    (apply : response -> res unit) (url : string) (headers : option (list (string * string)))
    (retries : nat) (outs : list outcome) : list effect * option (res response) :=
  match prepare_request resolver idna url headers with
  | Raise e => ([], Some (Raise e))
  | Ok req => request_loop apply req retries 0 outs
  end.

Definition webhook_json_payload (message event_type : string) (dedupe_key : option string)
    (extra : list (string * pyval)) : list (string * pyval) :=
  let body := [("text", PStr message); ("event_type", PStr event_type); ("source", PStr "briefr")] in
  let body := match dedupe_key with
              | Some k => if nonempty k then dset body "dedupe_key" (PStr k) else body
              | None => body end in
  fold_left (fun b e => dset b (fst e) (snd e)) extra body.

(** ** Lemmas *)

Lemma map_res_check ips l :
  map_res check_ip ips = Ok l ->
  l = ips /\ Forall (fun raw => exists a, ip_address raw = Ok a /\ is_blocked_ip a = false) ips.
Proof.
  revert l. induction ips as [|raw ips IH]; intros l H; [by injection H as <-|].
  cbn [map_res] in H. inv_bind H. inv_bind H. injection H as <-. apply IH in E0 as [-> F].
  unfold check_ip in E. destruct (ip_address raw) as [a|] eqn:A; [|discriminate E].
  destruct (is_blocked_ip a) eqn:B; [discriminate E|]. injection E as <-.
  split; [done|]. constructor; [eauto|exact F].
Qed.

Lemma validated ips l :
  validate_resolved_ips ips = Ok l ->
  l = ips /\ Forall (fun raw => exists a, ip_address raw = Ok a /\ is_blocked_ip a = false) ips.
Proof. destruct ips as [|i t]; [discriminate|]. apply map_res_check. Qed.

(** *** The pinned URL *)

(** What a port number of 443 or none means. *)
Definition effective_port (p : option Z) : Z := match p with Some n => if (n =? 0)%Z then 443%Z else n | None => 443%Z end.

Lemma port_bounds u p : port u = Ok p -> (0 <= effective_port p <= 65535)%Z.
Proof.
  unfold port. destruct (snd _) as [t|]; [|by intros [= <-]]. destruct (sforall is_digit t) eqn:D; [|done]. destruct (int_of_str t) as [n|] eqn:I; [|done]. cbn [res_bind].
  destruct (Z.leb_spec n 65535); [|done]. intros [= <-]. cbn. apply int_of_digits_nonneg in I; [|done]. destruct (n =? 0)%Z; lia.
Qed.

Lemma parse_https_spec url host n path nl : parse_https_url url = Ok (host, n, path, nl) ->
  exists asked p t, urlparse (strip url) = Ok asked /\ u_scheme asked = "https" /\ hostname asked = Some host /\ port asked = Ok p /\ n = effective_port p /\ path = String "/" t.
Proof.
  unfold parse_https_url. intros H. destruct (urlparse (strip url)) as [asked|] eqn:U; [|done]. cbn [res_bind] in H. destruct (String.eqb_spec (u_scheme asked) "https") as [S|]; [|done]. cbn [negb] in H.
  destruct (hostname asked) as [h|] eqn:Hn; [|done]. destruct (port asked) as [p|] eqn:P; [|done]. cbn [res_bind] in H. injection H as <- <- <- _.
  assert (N : nonempty (u_netloc asked) = true).
  { unfold hostname in Hn. by destruct (u_netloc asked). }
  destruct (path_rooted _ _ U N) as [E|[t E]]; rewrite E; cbn [nonempty]; exists asked, p; (destruct (nonempty (u_query asked)); [|by eexists]); eexists; (do 5 (split; [done|])); rewrite ?app_cons; reflexivity.
Qed.

Lemma pinned_is n path raw : build_pinned_url n path raw = "https://" +:+ (host_text raw +:+ port_text (if (n =? 443)%Z then None else Some n)) +:+ path.
Proof. unfold build_pinned_url, host_text, port_text. destruct (n =? 443)%Z; by rewrite ?app_empty_r, ?sapp_assoc. Qed.

(** The delivery to [url] is a request for [target]: the host that [urlparse] finds in [target] is an address the resolver gave for the
    host of [url], and every address it gave passed the checks; the netloc is that host and its port, without user or password. *)
Definition goes_to_checked (resolver : string -> res (list string)) (url target : string) : Prop :=
  exists asked host answers raw a n v p, urlparse (strip url) = Ok asked /\ u_scheme asked = "https" /\ hostname asked = Some host /\ port asked = Ok n /\
    resolver host = Ok answers /\ In raw answers /\ Forall (fun r => exists b, ip_address r = Ok b /\ is_blocked_ip b = false) answers /\
    ip_address raw = Ok a /\ is_blocked_ip a = false /\
    urlparse target = Ok v /\ u_scheme v = "https" /\ u_netloc v = host_text raw +:+ port_text p /\ port v = Ok p /\ effective_port p = effective_port n /\
    hostname v = Some (lower raw) /\ ip_address (lower raw) = Ok a.

Lemma prepare_request_is resolver idna url headers req : prepare_request resolver idna url headers = Ok req -> exists target hs sni, req = ERequest target hs sni.
Proof.
  unfold prepare_request. intros H. inv_bind H. destruct v as [[[host p] path] nl].
  inv_bind H. inv_bind H. destruct v0 as [|raw t]; [discriminate H|]. inv_bind H. injection H as <-. eauto.
Qed.

Lemma prepare_pinned resolver idna url headers target hs sni : (forall host answers raw, resolver host = Ok answers -> In raw answers -> has_char "%" raw = false) ->
  prepare_request resolver idna url headers = Ok (ERequest target hs sni) -> goes_to_checked resolver url target.
Proof.
  intros NZ. unfold prepare_request. intros H. inv_bind H. destruct v as [[[host n] path] nl]. apply parse_https_spec in E as (asked & p & t & U & S & Hn & P & -> & ->).
  inv_bind H. rename v into answers. inv_bind H. apply validated in E0 as [-> F]. destruct answers as [|raw rest] eqn:A; [discriminate H|]. rewrite <- A in *. inv_bind H. injection H as <- _ _.
  assert (I : In raw answers) by (rewrite A; by left). pose proof (proj1 (List.Forall_forall _ _) F raw I) as (a & RA & RB). pose proof (port_bounds _ _ P) as B.
  set (q := if (effective_port p =? 443)%Z then None else Some (effective_port p)).
  destruct (literal_url raw a q RA (NZ _ _ _ E I) ltac:(unfold q; destruct (_ =? 443)%Z; [done|lia]) t) as (v' & V1 & V2 & V3 & V4 & V5 & V6).
  exists asked, host, answers, raw, a, p, v', q. rewrite pinned_is. fold q. repeat (split; [done|]). split; [|by split].
  unfold q. destruct (Z.eqb_spec (effective_port p) 443) as [E443|N]; [by rewrite E443|]. cbn. destruct (Z.eqb_spec (effective_port p) 0) as [Z0|]; [|done].
  revert Z0. unfold effective_port. destruct p as [z|]; [destruct (Z.eqb_spec z 0); [done|]; intros ->; done|done].
Qed.

Definition is_request (e : effect) : bool := match e with ERequest _ _ _ => true | _ => false end.

(** A handler's effects are none of the loop's own. *)
Lemma handle_response_effects apply retries attempt r e :
  In e (fst (handle_response apply retries attempt r)) ->
  match e with EAwaitSlot | ERelease | ERequest _ _ _ => False | _ => True end.
Proof.
  unfold handle_response.
  repeat case_goal; cbn [fst app]; intros H; cbn [In] in H;
    repeat (destruct H as [H|H]; [by subst e|]); contradiction.
Qed.

Definition effects_of_kind (p : effect -> bool) (tr : list effect) : nat := length (List.filter p tr).

Definition awaits (tr : list effect) : nat :=
  effects_of_kind (fun e => match e with EAwaitSlot => true | _ => false end) tr.
Definition releases (tr : list effect) : nat :=
  effects_of_kind (fun e => match e with ERelease => true | _ => false end) tr.
Definition sleeps (tr : list effect) : nat :=
  effects_of_kind (fun e => match e with ESleep _ => true | _ => false end) tr.

Lemma kind_app p a b : effects_of_kind p (a ++ b)%list = (effects_of_kind p a + effects_of_kind p b)%nat.
Proof. unfold effects_of_kind. by rewrite List.filter_app, length_app. Qed.

Lemma kind_none p tr : (forall e, In e tr -> p e = false) -> effects_of_kind p tr = 0%nat.
Proof.
  unfold effects_of_kind. induction tr as [|e tr IH]; intros H; [done|]. cbn [List.filter].
  rewrite H by (by left). apply IH. intros e' He. apply H. by right.
Qed.

(** One turn of the loop on any outcome. *)
Definition turn (apply : response -> res unit) (retries attempt : nat) (o : outcome) : list effect * (res response + nat) :=
  match o with
  | HttpFailure => ([EFailure], inl (Raise HTTPError))
  | OtherFailure e => ([], inl (Raise e))
  | Resp r => handle_response apply retries attempt r
  end.

Lemma turn_effects apply retries attempt o e :
  In e (fst (turn apply retries attempt o)) ->
  match e with EAwaitSlot | ERelease | ERequest _ _ _ => False | _ => True end.
Proof.
  destruct o as [r| |x]; cbn [turn fst].
  - apply handle_response_effects.
  - by intros [<-|[]].
  - by intros [].
Qed.

Lemma turn_silent apply retries attempt o p :
  (forall e, p e = true -> match e with EAwaitSlot | ERelease | ERequest _ _ _ => True | _ => False end) ->
  effects_of_kind p (fst (turn apply retries attempt o)) = 0%nat.
Proof.
  intros Hp. apply kind_none. intros e He. destruct (p e) eqn:P; [|done].
  apply Hp in P. apply turn_effects in He. by destruct e.
Qed.

Lemma loop_unfold apply req retries attempt o rest :
  request_loop apply req retries attempt (o :: rest) =
  let t := turn apply retries attempt o in
  let tr := (EAwaitSlot :: req :: fst t ++ [ERelease])%list in
  match snd t with
  | inl out => (tr, Some out)
  | inr attempt' =>
      let r := request_loop apply req retries attempt' rest in ((tr ++ fst r)%list, snd r)
  end.
Proof.
  cbn [request_loop]. unfold turn. destruct o as [r| |e]; cbn [fst snd]; try reflexivity.
  destruct (handle_response apply retries attempt r) as [tr [out|a]]; cbn [fst snd]; [done|].
  by destruct (request_loop apply req retries a rest).
Qed.

Lemma loop_balanced apply req retries outs : is_request req = true -> forall attempt,
  let tr := fst (request_loop apply req retries attempt outs) in awaits tr = releases tr.
Proof.
  intros Hreq. induction outs as [|o rest IH]; intros attempt; [done|].
  rewrite loop_unfold. cbv zeta.
  assert (B : awaits (EAwaitSlot :: req :: fst (turn apply retries attempt o) ++ [ERelease])%list
            = releases (EAwaitSlot :: req :: fst (turn apply retries attempt o) ++ [ERelease])%list).
  { pose proof (turn_silent apply retries attempt o) as S.
    change (?a :: ?b :: ?c)%list with ([a; b] ++ c)%list. unfold awaits, releases.
    rewrite !kind_app, !S by (by intros []).
    destruct req; try discriminate Hreq. reflexivity. }
  destruct (snd (turn apply retries attempt o)) as [out|a]; [exact B|].
  cbn [fst]. unfold awaits, releases in *. rewrite !kind_app, B. f_equal. apply IH.
Qed.

Lemma loop_requests apply req retries outs : forall attempt e,
  In e (fst (request_loop apply req retries attempt outs)) -> is_request e = true -> e = req.
Proof.
  induction outs as [|o rest IH]; intros attempt e; [done|].
  rewrite loop_unfold. cbv zeta. intros H R.
  assert (T : In e (EAwaitSlot :: req :: fst (turn apply retries attempt o) ++ [ERelease])%list -> e = req).
  { intros [<-|[<-|Hi]]; [done|done|]. apply in_app_iff in Hi as [Hi|[<-|[]]]; [|done].
    apply turn_effects in Hi. by destruct e. }
  destruct (snd (turn apply retries attempt o)); [exact (T H)|].
  cbn [fst] in H. apply in_app_iff in H as [H|H]; [exact (T H)|]. by apply (IH n).
Qed.

Lemma turn_sleeps apply retries attempt o :
  match snd (turn apply retries attempt o) with
  | inl _ => sleeps (fst (turn apply retries attempt o)) = 0%nat
  | inr a => (sleeps (fst (turn apply retries attempt o)) + attempt = a)%nat /\ (a <= Nat.max retries attempt)%nat
  end.
Proof.
  destruct o as [r| |e]; cbn [turn fst snd]; [|done|done].
  unfold handle_response. destruct (rsp_status r =? 429)%Z.
  { destruct (apply r); cbn [fst snd]; [split; [done|lia]|done]. }
  destruct (existsb (Z.eqb (rsp_status r)) RETRYABLE_STATUS), (Nat.ltb_spec attempt retries); cbn [andb fst snd];
    [split; [cbn; lia|lia]| | |]; repeat case_goal; done.
Qed.

Lemma loop_sleeps apply req retries outs : is_request req = true -> forall attempt,
  (sleeps (fst (request_loop apply req retries attempt outs)) + attempt <= Nat.max retries attempt)%nat.
Proof.
  intros Hreq. induction outs as [|o rest IH]; intros attempt; [cbn; lia|].
  rewrite loop_unfold. cbv zeta. pose proof (turn_sleeps apply retries attempt o) as T.
  assert (P : sleeps (EAwaitSlot :: req :: fst (turn apply retries attempt o) ++ [ERelease])%list
            = sleeps (fst (turn apply retries attempt o))).
  { change (?a :: ?b :: ?c)%list with ([a; b] ++ c)%list. unfold sleeps. rewrite !kind_app.
    destruct req; try discriminate Hreq. cbn. lia. }
  destruct (snd (turn apply retries attempt o)) as [out|a]; cbn [fst]; [lia|].
  unfold sleeps at 1. rewrite kind_app. fold (sleeps (EAwaitSlot :: req :: fst (turn apply retries attempt o) ++ [ERelease])%list).
  fold (sleeps (fst (request_loop apply req retries a rest))).
  specialize (IH a). lia.
Qed.

Lemma dset_fresh {A} (d : list (string * A)) k v : ~ In k (map fst d) -> dset d k v = (d ++ [(k, v)])%list.
Proof.
  induction d as [|[k1 v1] d IH]; intros H; [done|]. cbn [dset map fst In] in *.
  destruct (String.eqb_spec k1 k) as [->|_]; [by destruct H; left|].
  rewrite IH; [done|]. intros Hi. apply H. by right.
Qed.

(** On distinct names the loop is a filter. *)
Lemma sanitize_fold (headers : list (string * string)) : forall safe,
  NoDup (map fst headers) -> (forall k, In k (map fst headers) -> ~ In k (map fst safe)) ->
  fold_left (fun safe kv => if forbidden_header (fst kv) then safe else dset safe (fst kv) (snd kv)) headers safe
  = (safe ++ List.filter (fun kv => negb (forbidden_header (fst kv))) headers)%list.
Proof.
  induction headers as [|[k v] t IH]; intros safe N D; cbn [fold_left List.filter fst snd]; [by rewrite app_nil_r|].
  inversion N as [|? ? Hk Nt]; subst. rewrite list_elem_of_In in Hk.
  destruct (forbidden_header k); cbn [negb].
  - apply IH; [exact Nt|]. intros k' Hk'. apply D. by right.
  - rewrite dset_fresh by (apply D; by left). rewrite IH; [by rewrite <- app_assoc|exact Nt|].
    intros k' Hk'. rewrite map_app, in_app_iff. intros [Hs|[<-|[]]]; [|by apply Hk].
    apply (D k'); [by right|exact Hs].
Qed.

(** *** Ranges of networks *)

Lemma in_prefix_range w b l n :
  (l <= w)%Z -> in_prefix w b l n = true ->
  (b / 2 ^ (w - l) * 2 ^ (w - l) <= n < (b / 2 ^ (w - l) + 1) * 2 ^ (w - l))%Z.
Proof.
  intros Hl H. unfold in_prefix in H. apply Z.eqb_eq in H. rewrite !Z.shiftr_div_pow2 in H by lia.
  rewrite <- H. assert (P : (0 < 2 ^ (w - l))%Z) by lia.
  pose proof (Z.div_mod n _ (ltac:(lia) : 2 ^ (w - l) <> 0)%Z). pose proof (Z.mod_pos_bound n _ P). lia.
Qed.

Lemma mapped_of n : (0 <= n < 2 ^ 32)%Z -> ipv4_mapped (65535 * 2 ^ 32 + n) = Some n.
Proof.
  intros H. unfold ipv4_mapped. rewrite Z.shiftr_div_pow2 by lia.
  rewrite Z.div_add_l by lia. rewrite (Z.div_small n) by lia. simpl (65535 + 0 =? 65535)%Z. cbn match.
  change 4294967295%Z with (Z.ones 32). rewrite Z.land_ones, Z.add_comm, Z.mod_add by lia.
  by rewrite Z.mod_small by lia.
Qed.

Lemma in_net_false a n : (in_net a n = true -> False) -> in_net a n = false.
Proof. destruct (in_net a n); [intros H; by destruct H|done]. Qed.

(** Evaluate the closed ends of a range. *)
Ltac eval_range H :=
  match type of H with (?a <= ?n < ?b)%Z =>
    let a' := eval vm_compute in a in let b' := eval vm_compute in b in
    change (a' <= n < b')%Z in H
  end.

(** An address outside a network, by its range. *)
Ltac not_in :=
  apply in_net_false; let E := fresh in intros E;
  lazymatch type of E with
  | in_net (V4 _) (Net6 _ _) = true => discriminate E
  | in_net (V6 _ _) (Net4 _ _) = true => discriminate E
  | _ => unfold in_net in E; apply in_prefix_range in E; [eval_range E; lia | lia]
  end.

Ltac none_in :=
  apply existsb_false; let x := fresh in let Hx := fresh in
  intros x Hx; cbn [In v4_private BLOCKED_NETWORKS] in Hx;
  repeat (destruct Hx as [<- | Hx]; [not_in|]); contradiction.

(** ** Theorems *)

(** C6 Whatever addresses the resolver answers (texts without a zone, as getaddrinfo gives them) and however the server responds,
    the requests of a delivery are all the same one. Parsing its URL as the code parses URLs gives the https scheme, the port that was
    asked for, no user part, and as the host the text of an address; the resolver gave this address for the host that was asked for,
    and it and every other address it gave passed the block checks. *)
Theorem requests_only_to_checked_addresses resolver idna apply url headers retries outs :
  (forall host answers raw, resolver host = Ok answers -> In raw answers -> has_char "%" raw = false) ->
  let sent := List.filter is_request (fst (safe_webhook_request resolver idna apply url headers retries outs)) in
  (forall e e', In e sent -> In e' sent -> e = e') /\
  forall e, In e sent -> exists target hs sni, e = ERequest target hs sni /\ goes_to_checked resolver url target.
Proof.
  intros NZ. cbv zeta. unfold safe_webhook_request. destruct (prepare_request resolver idna url headers) as [req|x] eqn:P; [|by split].
  assert (All : forall e, In e (List.filter is_request (fst (request_loop apply req retries 0 outs))) -> e = req) by (intros e [I R]%filter_In; by eapply loop_requests).
  split; [intros e e' ->%All ->%All; done|]. intros e ->%All. pose proof (prepare_request_is _ _ _ _ _ P) as (target & hs & sni & ->). exists target, hs, sni. split; [done|]. by eapply prepare_pinned.
Qed.

(** The loop gives back every slot it takes, on each way out (success, retries
    spent, redirect, transport error, cancellation) and while it waits; and it
    backs off at most [retries] times. *)
Theorem slots_balanced_and_retries_bounded resolver idna apply url headers retries outs :
  let tr := fst (safe_webhook_request resolver idna apply url headers retries outs) in
  awaits tr = releases tr /\ (sleeps tr <= retries)%nat.
Proof.
  cbv zeta. unfold safe_webhook_request.
  destruct (prepare_request resolver idna url headers) as [req|x] eqn:P; [|cbn; split; [done|lia]].
  apply prepare_request_is in P as (target & h & sni & ->).
  split; [by apply loop_balanced|].
  pose proof (loop_sleeps apply (ERequest target h sni) retries outs eq_refl 0%nat). lia.
Qed.

(** An IPv4-mapped IPv6 address of the carrier-grade NAT range passes the checks
    that block the same address written as IPv4: the mapped form is private only
    when [ipaddress] says so, and 100.64.0.0/10 is in the blocked list as IPv4 only. *)
Theorem mapped_cgnat_not_blocked n :
  in_net (V4 n) (Net4 (v4 100 64 0 0) 10) = true ->
  is_blocked_ip (V4 n) = true /\ is_blocked_ip (V6 (65535 * 2 ^ 32 + n) None) = false.
Proof.
  intros H. split.
  - unfold is_blocked_ip. repeat (case_goal; [done|]). cbn [BLOCKED_NETWORKS existsb]. rewrite H.
    by rewrite !orb_true_r.
  - apply in_prefix_range in H; [|lia]. eval_range H.
    assert (M : ipv4_mapped (65535 * 2 ^ 32 + n) = Some n) by (apply mapped_of; lia).
    unfold is_blocked_ip, is_private. rewrite M.
    assert (P : existsb (in_net (V4 n)) v4_private = false) by none_in.
    unfold listed. rewrite P. cbn [andb orb].
    assert (L : is_link_local (V6 (65535 * 2 ^ 32 + n) None) = false) by not_in.
    assert (S : is_site_local (V6 (65535 * 2 ^ 32 + n) None) = false) by not_in.
    assert (B : existsb (in_net (V6 (65535 * 2 ^ 32 + n) None)) BLOCKED_NETWORKS = false) by none_in.
    rewrite L, S, B. unfold is_loopback, is_unspecified.
    rewrite (proj2 (Z.eqb_neq _ 1)), (proj2 (Z.eqb_neq _ 0)) by lia. done.
Qed.

Lemma mapped_cgnat_not_blocked_witness :
  is_blocked_ip (V4 (v4 100 64 0 1)) = true /\ is_blocked_ip (V6 (65535 * 2 ^ 32 + v4 100 64 0 1) None) = false.
Proof. apply mapped_cgnat_not_blocked. reflexivity. Defined.

Definition demo_resolver (host : string) : res (list string) := if String.eqb host "example.org" then Ok ["2606:2800:21F::1"; "8.8.8.8"] else Raise SSRFError.

Lemma demo_no_zone host answers raw : demo_resolver host = Ok answers -> In raw answers -> has_char "%" raw = false.
Proof. unfold demo_resolver. destruct (String.eqb host "example.org"); [|done]. intros [= <-] [<-|[<-|[]]]; reflexivity. Qed.

Lemma requests_only_to_checked_addresses_witness :
  let sent := List.filter is_request (fst (safe_webhook_request demo_resolver (fun h => Ok h) (fun _ => Ok tt) "https://user:pw@Example.org:8443?to=10.0.0.1" None 2 [HttpFailure])) in
  sent = [ERequest "https://[2606:2800:21F::1]:8443/?to=10.0.0.1" [("Host", "example.org")] (Some "example.org")] /\
  exists target hs sni, ERequest "https://[2606:2800:21F::1]:8443/?to=10.0.0.1" [("Host", "example.org")] (Some "example.org") = ERequest target hs sni /\
    goes_to_checked demo_resolver "https://user:pw@Example.org:8443?to=10.0.0.1" target.
Proof.
  intros sent. assert (E : sent = [ERequest "https://[2606:2800:21F::1]:8443/?to=10.0.0.1" [("Host", "example.org")] (Some "example.org")]) by (vm_compute; reflexivity). split; [exact E|].
  apply (requests_only_to_checked_addresses demo_resolver (fun h => Ok h) (fun _ => Ok tt) "https://user:pw@Example.org:8443?to=10.0.0.1" None 2 [HttpFailure] demo_no_zone). fold sent. rewrite E. by left.
Defined.

(** Finding [parameters_are_dropped]: the path is taken without the parameters of its last segment, so a delivery to a URL with a
    semicolon goes to another path. *)
Example parameters_are_dropped : parse_https_url "https://hooks.example/in;v=1?k=2" = Ok ("hooks.example", 443%Z, "/in?k=2", "hooks.example").
Proof. vm_compute. reflexivity. Qed.

(** The headers sent are those given, minus every name on the secret list or with
    the internal prefix, in any letter case. *)
Theorem sanitized_headers_spec headers k v :
  NoDup (map fst headers) ->
  In (k, v) (sanitize_outbound_headers (Some headers)) <-> In (k, v) headers /\ forbidden_header k = false.
Proof.
  intros N. unfold sanitize_outbound_headers. cbn [list_or].
  rewrite (sanitize_fold headers []); [cbn [app]|exact N|intros ? _ []].
  rewrite filter_In. cbn [fst]. by rewrite negb_true_iff.
Qed.

Lemma sanitized_headers_spec_witness :
  In ("X-Sig", "1") (sanitize_outbound_headers (Some [("X-API-Key", "k"); ("X-Sig", "1")])) <->
  In ("X-Sig", "1") [("X-API-Key", "k"); ("X-Sig", "1")] /\ forbidden_header "X-Sig" = false.
Proof. apply sanitized_headers_spec. by apply (bool_decide_unpack (NoDup _)). Defined.
