(* ===== verification/QueueTasks.v ===== *)
(** * QueueTasks: api_queue_operations.py

    Task labels, the safe context of a queued request and the public states. *)

From S2P Require Import Prelude PyStr PyVal PyNet CveRow Float64 Ssrf.
Open Scope string_scope.

(** ** The patterns

    [re.match] with a closing [$], which also matches before a final newline. *)

Definition dollar (s : string) : string :=
  if endswith s (String "010" "") then stake (String.length s - 1) s else s.

Fixpoint take_while (p : ascii -> bool) (s : string) : string * string :=
  match s with
  | String c t => if p c then let '(a, b) := take_while p t in (String c a, b) else ("", s)
  | "" => ("", "")
  end.

(** [CVE-\d{4}-\d{4,}], any case. *)
Definition CVE_RE (text : string) : bool :=
  let s := upper (dollar text) in
  startswith s "CVE-"
  && sforall is_digit (stake 4 (sdrop 4 s)) && (slen (stake 4 (sdrop 4 s)) =? 4)%Z
  && startswith (sdrop 8 s) "-"
  && sforall is_digit (sdrop 9 s) && (4 <=? slen (sdrop 9 s))%Z.

(** [25\[0-5\]|2\[0-4\]\d|\[01\]?\d\d?]: one to three digits, at most 255. *)
Definition octet_re (s : string) : bool :=
  sforall is_digit s && (1 <=? slen s)%Z && (slen s <=? 3)%Z
  && match int_of_str s with Ok n => (n <=? 255)%Z | Raise _ => false end.

Definition IPV4_RE (text : string) : bool :=
  let parts := split_on "." (dollar text) in (length parts =? 4)%nat && forallb octet_re parts.

Definition is_hex (c : ascii) : bool := match hex_val c with Some _ => true | None => false end.

Definition HASH_RE (text : string) : bool :=
  let s := dollar text in sforall is_hex s && (32 <=? slen s)%Z && (slen s <=? 128)%Z.

(** A host label: 1 to 63 letters, digits and inner hyphens. *)
Definition label_re (s : string) : bool :=
  (1 <=? slen s)%Z && (slen s <=? 63)%Z
  && sforall (fun c => is_alnum c || Ascii.eqb c "-") s
  && negb (startswith s "-") && negb (endswith s "-").

Definition DOMAIN_RE (text : string) : bool :=
  let labels := split_on "." (dollar text) in (2 <=? length labels)%nat && forallb label_re labels.

(** ** Tables *)

Definition WAIT_REASON_LABELS : list (string * string) :=
  [("concurrency", "Waiting for active request");
   ("pacing", "Provider pacing");
   ("circuit_open", "Provider circuit recovery");
   ("retry-after", "Provider rate limit");
   ("token_quota", "Provider token limit");
   ("request_quota", "Provider request limit");
   ("github_quota", "GitHub rate limit");
   ("rate_limit", "Provider rate limit")].

Definition RATE_LIMIT_REASONS : list string :=
  ["retry-after"; "token_quota"; "request_quota"; "github_quota"; "rate_limit"].

Definition is_rate_limit_reason (r : string) : bool := existsb (String.eqb r) RATE_LIMIT_REASONS.

Definition OPERATION_LABELS : list (string * string) :=
  [("exploit_search", "Searching public exploit references");
   ("advisory_lookup", "Checking GitHub security advisories");
   ("repository_lookup", "Inspecting referenced repository");
   ("detection_rule_search", "Searching detection rule sources");
   ("pulse_lookup", "Checking OTX threat pulses");
   ("indicator_lookup", "Enriching threat observable");
   ("ip_lookup", "Checking IP reputation");
   ("observable_lookup", "Enriching observable");
   ("hash_lookup", "Checking malware sample");
   ("url_lookup", "Checking malicious URL intelligence");
   ("cve_lookup", "Fetching vulnerability intelligence");
   ("product_extraction", "Extracting affected product metadata");
   ("report_summary", "Generating report summary");
   ("detection_context", "Extracting detection context");
   ("pdf_summary", "Generating report summary");
   ("cve_ingest", "Syncing NVD vulnerability feed");
   ("exploit_feed_sync", "Syncing public exploit index");
   ("news_feed_sync", "Syncing incident news feed");
   ("threat_intel_sync", "Syncing TI catalog indicators");
   ("osv_lookup", "Fetching OSV vulnerability record");
   ("outbound_request", "Outbound API request");
   ("webhook_delivery", "Delivering webhook notification")].

Definition DEFAULT_OPERATION : string := "outbound_request".
Definition DEFAULT_LABEL : string := "Outbound API request".

(** [(operation or DEFAULT).strip().lower()] *)
Definition operation_key (operation : option string) : string :=
  lower (strip (match operation with Some o => if nonempty o then o else DEFAULT_OPERATION | None => DEFAULT_OPERATION end)).

Definition operation_label (operation : option string) : string :=
  match assoc (operation_key operation) OPERATION_LABELS with Some l => l | None => DEFAULT_LABEL end.

Definition wait_reason_label (reason : option string) : option string :=
  match reason with
  | Some r =>
      if nonempty r then
        Some (match assoc (lower (strip r)) WAIT_REASON_LABELS with Some l => l | None => "Waiting for provider slot" end)
      else None
  | None => None
  end.

(** ** The context of a task *)

Definition context : Type := option (string * string).

Definition ellipsis : string := "…".

Definition is_webhook_host (path host : string) : bool :=
  str_in "webhook" (lower path)
  || String.eqb host "discord.com" || String.eqb host "discordapp.com"
  || endswith host ".discord.com" || endswith host ".discordapp.com"
  || String.eqb host "hooks.slack.com" || endswith host ".hooks.slack.com".

Definition url_context (raw : string) : context :=
  let base := fst (split_first "#" (fst (split_first "?" raw))) in
  match urlparse base with
  | Raise _ => None
  | Ok parsed =>
      let host := lower (text_or (hostname parsed)) in
      let path_parts := List.filter nonempty (split_on "/" (u_path parsed)) in
      let base :=
        if (2 <=? length path_parts)%nat && is_webhook_host (u_path parsed) host then
          let redacted_path := "/" +:+ sjoin "/" (removelast path_parts ++ [ellipsis]) in
          urlunparse (mkUrl (u_scheme parsed) (u_netloc parsed) redacted_path "" "" "")
        else base in
      let base := if (96 <? ulen base)%Z then utake 96 base +:+ ellipsis else base in
      if startswith base "http://" || startswith base "https://" then Some ("url", base) else None
  end.

Definition sanitize_context (context_type context_id : option string) : context :=
  match context_id with
  | None => None
  | Some cid =>
      if negb (nonempty cid) then None
      else
        let raw := strip cid in
        if negb (nonempty raw) || (128 <? ulen raw)%Z then None
        else
          let ctype := lower (strip (text_or context_type)) in
          if String.eqb ctype "cve" then if CVE_RE (upper raw) then Some ("cve", upper raw) else None
          else if String.eqb ctype "ip" then if IPV4_RE raw then Some ("ip", raw) else None
          else if String.eqb ctype "hash" then if HASH_RE raw then Some ("hash", lower raw) else None
          else if String.eqb ctype "domain" then
            let host := fst (split_first "?" (fst (split_first "/" (lower raw)))) in
            if DOMAIN_RE host then Some ("domain", host) else None
          else if String.eqb ctype "url" then url_context raw
          else if String.eqb ctype "observable" then
            Some ("observable", if (64 <? ulen raw)%Z then utake 64 raw +:+ ellipsis else raw)
          else if String.eqb ctype "task" then
            let safe := stake 48 (sfilter (fun c => is_lower c || is_digit c || Ascii.eqb c "_" || Ascii.eqb c "-") (lower raw)) in
            if nonempty safe then Some ("task", safe) else None
          else None
  end.

Record task := mkTask {
  t_source : string; t_operation : string; t_display_label : string; t_context : context
}.

Definition resolve_queue_task (source : string) (operation context_type context_id : option string) : task :=
  let op := operation_key operation in
  let op := match assoc op OPERATION_LABELS with Some _ => op | None => DEFAULT_OPERATION end in
  mkTask source op (operation_label (Some op)) (sanitize_context context_type context_id).

Inductive request_state := queued | waiting | rate_limited | active.

#[export] Instance request_state_eq_dec : EqDecision request_state.
Proof. solve_decision. Defined.

Definition public_request_state (internal : request_state) (wait_reason : option string) (paused_for : fl) : request_state :=
  match internal with
  | active => active
  | _ =>
      let reason := lower (strip (text_or wait_reason)) in
      if flt f0 paused_for || is_rate_limit_reason reason then rate_limited
      else match internal with
           | queued => if nonempty reason then waiting else queued
           | _ => waiting
           end
  end.

Example ctx1 : sanitize_context (Some "url") (Some "https://discord.com/api/webhooks/1/secret?wait=1")
  = Some ("url", "https://discord.com/api/webhooks/1/…").
Proof. vm_compute. reflexivity. Qed.
Example ctx2 : sanitize_context (Some "Hash ") (Some "D41D8CD98F00B204E9800998ECF8427E")
  = Some ("hash", "d41d8cd98f00b204e9800998ecf8427e").
Proof. vm_compute. reflexivity. Qed.

(** ** Theorems *)

Lemma assoc_in {A} k (l : list (string * A)) v : assoc k l = Some v -> In (k, v) l.
Proof.
  induction l as [|[k' v'] l IH]; [discriminate|]. cbn [assoc].
  destruct (String.eqb_spec k' k) as [->|_]; [intros H; injection H as ->; by left|].
  intros H. right. by apply IH.
Qed.

(** Neither a query nor a fragment: no [?] and no [#]. *)
Definition clean_char (c : ascii) : bool := negb (Ascii.eqb c "?") && negb (Ascii.eqb c "#").
Definition clean (s : string) : bool := sforall clean_char s.

Lemma clean_lower s : clean s = true -> clean (lower s) = true.
Proof. apply sforall_smap. intros c H. destruct c as [[] [] [] [] [] [] [] []]; by vm_compute in H |- *. Qed.

Lemma clean_break p s : clean s = true -> clean (fst (break_at p s)) = true /\ clean (snd (break_at p s)) = true.
Proof.
  unfold clean. induction s as [|c s IH]; [done|]. cbn [sforall break_at]. intros H.
  apply andb_true_iff in H as [Hc Hs]. destruct (p c); cbn [fst snd sforall]; [by rewrite Hc, Hs|].
  destruct (break_at p s) as [a b]. cbn [fst snd sforall] in *. destruct (IH Hs). by rewrite Hc.
Qed.

Lemma clean_split_first c s : clean s = true -> clean (fst (split_first c s)) = true /\ clean (snd (split_first c s)) = true.
Proof.
  intros H. unfold split_first. destruct (split_once c s) as [[l r]|] eqn:E; [|done].
  exact (sforall_split_once _ _ _ _ _ E H).
Qed.

Lemma clean_after_last c s : clean s = true -> clean (after_last c s) = true.
Proof.
  induction s as [|a s IH]; [done|]. intros H. cbn [after_last]. cbn [sforall clean] in H.
  unfold clean in H. cbn [sforall] in H. apply andb_true_iff in H as [Ha Hs].
  repeat case_goal; [by apply IH|exact Hs|]. unfold clean. cbn. by rewrite Ha, Hs.
Qed.

Lemma clean_splitparams s : clean s = true -> clean (fst (_splitparams s)) = true.
Proof.
  intros H. unfold _splitparams. destruct (has_char "/" s); [|by apply clean_split_first].
  destruct (split_once ";" (after_last "/" s)) as [[l r]|] eqn:E; [|done]. cbn [fst].
  unfold clean. rewrite sforall_app. apply andb_true_iff; split; [by apply sforall_stake|].
  exact (proj1 (sforall_split_once _ _ _ _ _ E (clean_after_last _ _ H))).
Qed.

(** Parsing cuts text; it adds no separator. *)
Lemma urlparse_clean text u :
  urlparse text = Ok u -> clean text = true ->
  clean (u_scheme u) = true /\ clean (u_netloc u) = true /\ clean (u_path u) = true.
Proof.
  unfold urlparse. intros H C.
  set (t0 := sfilter _ _) in H. assert (C0 : clean t0 = true) by (apply sforall_sfilter, sforall_drop, C).
  clearbody t0. cbv zeta in H.
  match type of H with (let '(_, _) := ?e in _) = _ => set (sr := e) in H;
    assert (C1 : clean (fst sr) = true /\ clean (snd sr) = true) end.
  { unfold sr. destruct (split_once ":" t0) as [[[|c l] r]|] eqn:E; [done| |done].
    destruct (sforall_split_once _ _ _ _ _ E C0) as [Cl Cr].
    case_goal; cbn [fst snd]; [|done]. split; [by apply clean_lower|exact Cr]. }
  destruct sr as [scheme rest]. cbn [fst snd] in C1. destruct C1 as [C1 C2].
  match type of H with (let '(_, _) := ?e in _) = _ => set (nr := e) in H;
    assert (C3 : clean (fst nr) = true /\ clean (snd nr) = true) end.
  { unfold nr. case_goal; [|done]. by apply clean_break, sforall_sdrop. }
  destruct nr as [netloc rest']. cbn [fst snd] in C3. destruct C3 as [C3 C4].
  inv_bind H. clear E.
  pose proof (clean_split_first "#" rest' C4) as C5. destruct (split_first "#" rest') as [r1 fragment].
  pose proof (clean_split_first "?" r1 (proj1 C5)) as C6. destruct (split_first "?" r1) as [path query].
  cbn [fst snd] in C6. destruct C6 as [C6 _].
  match type of H with (let '(_, _) := ?e in _) = _ => set (pp := e) in H;
    assert (C7 : clean (fst pp) = true) end.
  { unfold pp. case_goal; [|done]. by apply clean_splitparams. }
  destruct pp as [path' params]. injection H as <-. by cbn.
Qed.

Lemma clean_utake n s : clean s = true -> clean (utake n s) = true.
Proof.
  unfold clean. revert n. induction s as [|c s IH]; intros n; [done|]. cbn [sforall utake]. intros H.
  apply andb_true_iff in H as [Hc Hs]. destruct (is_cont c); cbn [sforall]; [by rewrite Hc, IH|].
  destruct n; [done|]. cbn [sforall]. by rewrite Hc, IH.
Qed.

Lemma clean_urlunparse s n p : clean s = true -> clean n = true -> clean p = true ->
  clean (urlunparse (mkUrl s n p "" "" "")) = true.
Proof.
  intros Hs Hn Hp. unfold urlunparse, clean in *.
  cbn [u_params u_scheme u_netloc u_path u_query u_fragment nonempty].
  repeat case_goal; rewrite ?sforall_app, ?Hs, ?Hn, ?Hp; done.
Qed.

Lemma url_context_clean raw t u : url_context raw = Some (t, u) -> t = "url" /\ clean u = true.
Proof.
  unfold url_context. set (base := fst (split_first "#" _)).
  assert (CB : clean base = true).
  { unfold base, split_first. destruct (split_once "?" raw) as [[l r]|] eqn:E1; cbn [fst].
    - apply split_once_head in E1. destruct (split_once "#" l) as [[l' r']|] eqn:E2; cbn [fst].
      + destruct (sforall_split_once _ _ _ _ _ E2 E1) as [Q _]. apply split_once_head in E2.
        unfold clean, clean_char. by apply sforall_both.
      + apply split_once_none_inv in E2. by apply sforall_both.
    - apply split_once_none_inv in E1. destruct (split_once "#" raw) as [[l' r']|] eqn:E2; cbn [fst].
      + destruct (sforall_split_once _ _ _ _ _ E2 E1) as [Q _]. apply split_once_head in E2. by apply sforall_both.
      + apply split_once_none_inv in E2. by apply sforall_both. }
  clearbody base. destruct (urlparse base) as [parsed|] eqn:P; [|discriminate].
  destruct (urlparse_clean _ _ P CB) as (C1 & C2 & C3). cbv zeta.
  match goal with |- context [if ?b then urlunparse ?x else base] => set (red := if b then urlunparse x else base) end.
  assert (CR : clean red = true).
  { unfold red. case_goal; [|exact CB]. apply clean_urlunparse; [exact C1|exact C2|].
    unfold clean. rewrite sforall_app. apply sforall_sjoin; [done|]. apply Forall_app. split; [|by repeat constructor].
    apply Forall_removelast, Forall_lfilter, sforall_split_on, C3. }
  clearbody red. assert (CF : clean (if (96 <? ulen red)%Z then utake 96 red +:+ ellipsis else red) = true).
  { case_goal; [|exact CR]. unfold clean. rewrite sforall_app. fold (clean (utake 96 red)). by rewrite clean_utake. }
  case_goal; [|discriminate]. intros H. by injection H as <- <-.
Qed.

(** A queued URL is shown without its query string and fragment, whatever the
    caller passed: nothing after [?] or [#] reaches the queue status. *)
Theorem url_context_drops_query ct cid u :
  sanitize_context ct cid = Some ("url", u) -> clean u = true.
Proof.
  unfold sanitize_context. destruct cid as [cid|]; [|discriminate]. cbv zeta. intros H.
  repeat case_hyp H; try discriminate H. exact (proj2 (url_context_clean _ _ _ H)).
Qed.

Lemma url_context_drops_query_witness : clean "https://example.org/hooks/a" = true.
Proof. apply (url_context_drops_query (Some "URL") (Some "https://example.org/hooks/a?token=1#x")). vm_compute. reflexivity. Defined.

(** *** The URL of a pinned delivery *)

(** A path character that no cut and no strip touches. *)
Definition plain (c : ascii) : bool :=
  in_range 33 126 c && clean_char c && negb (Ascii.eqb c ";").

Lemma plain_facts c : plain c = true ->
  is_space c = false /\ is_cont c = false /\ one_of ["009"; "010"; "013"]%char c = false /\
  Ascii.eqb c "?" = false /\ Ascii.eqb c "#" = false /\ Ascii.eqb c ";" = false.
Proof. destruct c as [[] [] [] [] [] [] [] []]; vm_compute; intros H; try discriminate H; repeat split. Qed.

Ltac plain_char :=
  let x := fresh in let Hx := fresh in
  intros x Hx; destruct (plain_facts x Hx) as (? & ? & ? & ? & ? & ?); assumption.

Lemma plain_negb (q : ascii -> bool) s :
  (forall c, plain c = true -> q c = false) -> sforall plain s = true -> sforall (fun c => negb (q c)) s = true.
Proof. intros Hq. apply sforall_weaken. intros c H. by rewrite Hq. Qed.

Definition PINNED : string := "https://149.154.167.220".

Lemma urlparse_pinned p :
  sforall plain p = true ->
  urlparse (PINNED +:+ String "/" p) = Ok (mkUrl "https" "149.154.167.220" (String "/" p) "" "" "").
Proof.
  intros H. unfold urlparse.
  assert (C : forall c, Ascii.eqb "/" c = false -> (forall x, plain x = true -> Ascii.eqb x c = false) ->
              sforall (fun x => negb (Ascii.eqb x c)) (String "/" p) = true).
  { intros c Hc Hp. cbn [sforall]. rewrite Hc. apply (plain_negb (fun x => Ascii.eqb x c)); assumption. }
  set (T := PINNED +:+ String "/" p). cbv zeta.
  assert (E1 : drop_while (fun c => (code c <=? 32)%N) T = T) by reflexivity. rewrite E1.
  rewrite sfilter_id.
  2: { unfold T. rewrite sforall_app. cbn [sforall].
       rewrite (plain_negb (one_of ["009"; "010"; "013"]%char) p); [done| |exact H]. plain_char. }
  assert (E2 : split_once ":" T = Some ("https", "//149.154.167.220" +:+ String "/" p)) by reflexivity.
  rewrite E2. change (is_alpha "h" && sforall scheme_char "https") with true. cbn match.
  change (lower "https") with "https".
  change (startswith ("//149.154.167.220" +:+ String "/" p) "//") with true. cbn match.
  change (break_at (one_of ["/"; "?"; "#"]%char) (sdrop 2 ("//149.154.167.220" +:+ String "/" p)))
    with ("149.154.167.220", String "/" p). cbn match.
  change (has_char "[" "149.154.167.220") with false. change (has_char "]" "149.154.167.220") with false.
  cbn [eqb negb andb res_bind]. unfold split_first.
  rewrite (split_once_none "#") by (apply C; [done|plain_char]).
  rewrite (split_once_none "?") by (apply C; [done|plain_char]).
  assert (E3 : has_char ";" (String "/" p) = false).
  { unfold has_char. rewrite (C ";"%char); [done|done|plain_char]. }
  rewrite E3, andb_false_r. done.
Qed.

(** The masking of webhook paths looks at the host name, and a delivery is queued
    under its pinned URL, whose host is an address.  So the secret path of a
    destination that is recognised by host only, such as the bot token of the
    Telegram API, is shown in full in the queue status. *)
Theorem pinned_path_not_masked p :
  sforall plain p = true -> (slen p <= 70)%Z -> str_in "webhook" (lower (String "/" p)) = false ->
  sanitize_context (Some "url") (Some (build_pinned_url 443 (String "/" p) "149.154.167.220"))
  = Some ("url", PINNED +:+ String "/" p).
Proof.
  intros H L W. change (build_pinned_url 443 (String "/" p) "149.154.167.220") with (PINNED +:+ String "/" p).
  set (T := PINNED +:+ String "/" p).
  assert (P : forall q : ascii -> bool, sforall q PINNED = true -> q "/"%char = true -> sforall q p = true -> sforall q T = true).
  { intros q Q1 Q2 Q3. unfold T. rewrite sforall_app, Q1. cbn [sforall]. by rewrite Q2, Q3. }
  assert (S : strip T = T).
  { apply strip_id, P; [done|done|]. apply (plain_negb is_space); [|exact H]. plain_char. }
  assert (U : ulen T = (slen p + 24)%Z).
  { unfold ulen. rewrite sfilter_id.
    - unfold T. rewrite slen_app, slen_cons. change (slen PINNED) with 23%Z. lia.
    - apply P; [done|done|]. apply (plain_negb is_cont); [|exact H]. plain_char. }
  assert (N : forall c, Ascii.eqb "/" c = false -> sforall (fun x => negb (Ascii.eqb x c)) PINNED = true ->
              (forall x, plain x = true -> Ascii.eqb x c = false) -> split_once c T = None).
  { intros c N1 N2 N3. apply split_once_none, P; [exact N2|by rewrite N1|].
    by apply (plain_negb (fun x => Ascii.eqb x c)). }
  unfold sanitize_context. change (nonempty T) with true. cbn [negb]. cbv zeta. rewrite S, U.
  change (nonempty T) with true. cbn [negb orb]. rewrite (proj2 (Z.ltb_ge 128 _)) by lia.
  change (lower (strip (text_or (Some "url")))) with "url". cbn [String.eqb Ascii.eqb Bool.eqb].
  unfold url_context, split_first.
  rewrite (N "?"%char) by (done || plain_char). cbn [fst].
  rewrite (N "#"%char) by (done || plain_char). cbn [fst].
  pose proof (urlparse_pinned p H) as UP; fold T in UP; rewrite UP. cbv zeta. cbn [u_path].
  assert (M : is_webhook_host (String "/" p) (lower (text_or (hostname (mkUrl "https" "149.154.167.220" (String "/" p) "" "" "")))) = false).
  { unfold is_webhook_host. rewrite W. reflexivity. }
  rewrite M, andb_false_r, U, (proj2 (Z.ltb_ge 96 _)) by lia. reflexivity.
Qed.

Lemma pinned_path_not_masked_witness :
  sanitize_context (Some "url")
    (Some (build_pinned_url 443 "/bot123456:AAF-secret/sendMessage" "149.154.167.220"))
  = Some ("url", "https://149.154.167.220/bot123456:AAF-secret/sendMessage").
Proof. apply (pinned_path_not_masked "bot123456:AAF-secret/sendMessage"); [reflexivity|by vm_compute|reflexivity]. Defined.
