(* ===== verification/Pacing.v ===== *)
(** * Pacing: source_rate_limits.py, ai/llm_pacing.py, ai/groq_config.py

    The pacing profile of every outbound source and how the environment changes
    its interval.  [env] is [os.environ.get], [json_loads] is [json.loads] ([None]:
    a [JSONDecodeError]), [catchup] is [is_catchup_active()]. *)

From S2P Require Import Prelude PyStr Float64 PyVal.
From Stdlib Require Import QArith.
Open Scope string_scope.

Record pacing := mkPacing {
  min_interval_seconds : fl;
  max_concurrent : Z;
  docs_url : string;
  notes : string
}.

(** A quotient of float constants. *)
Definition fquot (a b : Q) : fl := match fdiv (lit a) (lit b) with Ok x => x | Raise _ => NaN end.

Definition PACING_PROFILES : list (string * pacing) :=
  [("nvd", mkPacing (lit (6#1)) 1 "https://nvd.nist.gov/developers/start"
     "Overridden at runtime when NVD_API_KEY is set (conservative vs 50/30s).");
   ("groq", mkPacing (lit (15#1)) 1 "https://console.groq.com/docs/rate-limits"
     "openai/gpt-oss-20b TPM is usually tighter than RPM.");
   ("gemini", mkPacing (lit (1#1)) 1 "https://ai.google.dev/gemini-api/docs/rate-limits"
     "Flash-Lite free tier; conservative default spacing.");
   ("cerebras", mkPacing (lit (1#1)) 1 "https://inference-docs.cerebras.ai/"
     "Free-tier overflow; conservative default spacing.");
   ("openrouter", mkPacing (lit (2#1)) 1 "https://openrouter.ai/docs/api-reference/limits"
     "`:free` models last resort; conservative spacing.");
   ("anthropic", mkPacing (lit (1#1)) 1 "https://docs.anthropic.com/en/api/rate-limits"
     "Legacy profile; no longer used by the LLM router.");
   ("virustotal", mkPacing (lit (15#1)) 1 "https://docs.virustotal.com/reference/public-vs-premium-api"
     "Public API: 4 requests/minute.");
   ("abuseipdb", mkPacing (lit (1#2)) 1 "https://docs.abuseipdb.com/"
     "Daily quota (1,000/day free) enforced separately in tracking.has_quota.");
   ("greynoise", mkPacing (lit (2#1)) 1 "https://docs.greynoise.io/docs/using-the-greynoise-community-api"
     "50 lookups/week on free Community API.");
   ("github", mkPacing (lit (3#4)) 1 "https://docs.github.com/en/rest/using-the-rest-api/rate-limits-for-the-rest-api"
     "Faster with GITHUB_TOKEN (5,000 req/hour).");
   ("otx", mkPacing (lit (1#2)) 1 "https://otx.alienvault.com/api"
     "10,000 req/hour with API key; BRIEFR targets ~7,200/hour (2 req/sec).");
   ("epss", mkPacing (lit (2#1)) 1 "https://www.first.org/epss/api"
     "No published per-minute cap; scheduler backfill spacing.");
   ("osv", mkPacing (lit (1#4)) 1 "https://google.github.io/osv.dev/api/"
     "");
   ("kev", mkPacing (lit (0#1)) 1 "https://www.cisa.gov/known-exploited-vulnerabilities-catalog"
     "Static JSON; no published rate limit.");
   ("mitre", mkPacing (lit (1#1)) 2 "https://github.com/mitre/cti"
     "Large GitHub raw downloads.");
   ("rss", mkPacing (lit (1#2)) 3 ""
     "Parallel RSS fetches with modest spacing.");
   ("webhook", mkPacing (lit (1#2)) 2 ""
     "Outbound Discord/Telegram/custom webhooks.");
   ("sploitus", mkPacing (lit (1#1)) 1 ""
     "");
   ("circl", mkPacing (lit (2#1)) 1 "https://cve.circl.lu/"
     "abuse.ch fair-use spacing (~1 req/2s).");
   ("malwarebazaar", mkPacing (lit (2#1)) 1 "https://bazaar.abuse.ch/api/"
     "abuse.ch fair-use spacing (~1 req/2s).");
   ("urlhaus", mkPacing (lit (2#1)) 1 "https://urlhaus.abuse.ch/api/"
     "abuse.ch fair-use spacing (~1 req/2s).");
   ("threatfox", mkPacing (lit (2#1)) 1 "https://threatfox.abuse.ch/api/"
     "abuse.ch fair-use spacing (~1 req/2s).");
   ("feodo", mkPacing (lit (2#1)) 1 "https://feodotracker.abuse.ch/blocklist/"
     "Public CC0 CSV; abuse.ch fair-use spacing.");
   ("phishtank", mkPacing (lit (5#1)) 1 "https://phishtank.org/developer_info.php"
     "Community CSV; optional PHISHTANK_APP_KEY for higher limits.");
   ("tranco", mkPacing (lit (30#1)) 1 "https://tranco-list.eu/"
     "Daily top-1M ZIP download; weekly import default.");
   ("vulncheck", mkPacing (fquot 60 1000) 1 "https://docs.vulncheck.com/"
     "Community tier ~1,000 req/min; conservative default spacing.");
   ("default", mkPacing (lit (1#1)) 1 ""
     "")].

Definition DEFAULT_PROFILE : pacing := mkPacing (lit 1) 1 "" "".

(** [PACING_PROFILES.get(key, PACING_PROFILES\["default"\])] *)
Definition profile_of (key : string) : pacing :=
  match assoc key PACING_PROFILES with Some p => p | None => DEFAULT_PROFILE end.

Definition _SOURCE_ALIASES : list (string * string) :=
  [("epss_bulk", "epss"); ("poc_github", "github"); ("cvelistv5", "github"); ("vulnrichment", "github");
   ("metasploit", "github"); ("nuclei", "github"); ("exploitdb", "github"); ("atlas", "github")].

Definition resolve_pacing_key (source : string) : string :=
  if startswith source "rss:" then "rss"
  else if startswith source "webhook." then "webhook"
  else match assoc source _SOURCE_ALIASES with Some k => k | None => source end.

Definition _SOURCE_API_KEY_ENV : list (string * string) :=
  [("nvd", "NVD_API_KEY"); ("github", "GITHUB_TOKEN"); ("virustotal", "VIRUSTOTAL_API_KEY");
   ("abuseipdb", "ABUSEIPDB_API_KEY"); ("greynoise", "GREYNOISE_API_KEY"); ("otx", "OTX_API_KEY");
   ("circl", "CIRCL_API_KEY"); ("vulncheck", "VULNCHECK_API_KEY"); ("groq", "GROQ_API_KEY");
   ("gemini", "GEMINI_API_KEY"); ("cerebras", "CEREBRAS_API_KEY"); ("openrouter", "OPENROUTER_API_KEY")].

Definition _PREMIUM_INTERVAL_FACTOR : fl := lit (1#2).

(** ** catchup_mode.py: the headroom during a catch-up window *)

Definition CATCHUP_LLM_HEADROOM_PCT : Z := 95.

Definition effective_llm_headroom_pct (catchup : bool) (base : Z) : Z :=
  if negb catchup then base else Z.min 100 (Z.max base CATCHUP_LLM_HEADROOM_PCT).

Section environment.
Variable env : string -> option string.
Variable json_loads : string -> option pyval.
Variable catchup : bool.

(** [os.environ.get(name, default)] *)
Definition env_get (name default : string) : string := match env name with Some v => v | None => default end.
Definition env_set (name : string) : bool := nonempty (strip (env_get name "")).

(** ** LLM provider limits *)

Record provider_limits := mkLimits {
  rpm : Z; tpm : Z; estimated_tokens_per_request : Z; headroom_pct : Z; limit_interval : fl
}.

Definition _env_int (name : string) (default : Z) : Z :=
  match env name with
  | Some v => match int_of_str v with Ok n => n | Raise _ => default end
  | None => default
  end.

(** The default is itself a number, so only a set variable can fail to parse. *)
Definition _env_float (name : string) (default : fl) : fl :=
  match env name with
  | Some v => match float_of_str v with Ok x => x | Raise _ => default end
  | None => default
  end.

Definition compute_min_interval (rpm tpm estimated_tokens headroom : Z) (floor_seconds : fl)
    (override_seconds : option fl) : res fl :=
  let! rpm_num := fl_of_int (rpm * headroom) in
  let! tpm_num := fl_of_int (tpm * headroom) in
  let! rpm_q := fdiv rpm_num (Fin 100) in
  let! tpm_q := fdiv tpm_num (Fin 100) in
  let effective_rpm := fmax rpm_q f1 in
  let effective_tpm := fmax tpm_q f1 in
  let! min_from_rpm := fdiv (Fin 60) effective_rpm in
  let! tokens := fl_of_int estimated_tokens in
  let! min_from_tpm := fdiv (fmul (Fin 60) tokens) effective_tpm in
  let default_interval := fmax (fmax min_from_rpm min_from_tpm) floor_seconds in
  match override_seconds with
  | Some o => Ok (fmax o floor_seconds)
  | None => Ok (fmax default_interval floor_seconds)
  end.

Definition limits_from_env (prefix : string) (default_rpm default_tpm default_est_tokens : Z)
    (floor_seconds : fl) : res provider_limits :=
  let rpm := _env_int (prefix +:+ "_RPM_LIMIT") default_rpm in
  let tpm := _env_int (prefix +:+ "_TPM_LIMIT") default_tpm in
  let est := _env_int (prefix +:+ "_ESTIMATED_TOKENS_PER_REQUEST") default_est_tokens in
  let headroom := effective_llm_headroom_pct catchup (_env_int (prefix +:+ "_HEADROOM_PCT") 85) in
  let name := prefix +:+ "_MIN_REQUEST_INTERVAL_SECONDS" in
  let override := if env_set name then Some (_env_float name f0) else None in
  let! interval := compute_min_interval rpm tpm est headroom floor_seconds override in
  Ok (mkLimits rpm tpm est headroom interval).

Definition groq_limits : res provider_limits := limits_from_env "GROQ" 30 8000 1000 (lit (1#2)).
Definition gemini_limits : res provider_limits := limits_from_env "GEMINI" 15 250000 1500 (lit (1#2)).
Definition cerebras_limits : res provider_limits := limits_from_env "CEREBRAS" 5 30000 1500 (lit (1#2)).
Definition openrouter_limits : res provider_limits := limits_from_env "OPENROUTER" 20 40000 1500 f1.

(** ** source_rate_limits.py *)

Definition _nvd_interval : fl := if env_set "NVD_API_KEY" then fquot 60 50 else fquot 60 5.
Definition _github_interval : fl := if env_set "GITHUB_TOKEN" then fquot 3600 5000 else fquot 3600 60.

Definition get_openrouter_daily_limit : option Z :=
  let raw := strip (env_get "OPENROUTER_DAILY_LIMIT" "50") in
  if negb (nonempty raw) || existsb (String.eqb (lower raw)) ["none"; "0"; "unlimited"] then None
  else match int_of_str raw with Ok n => Some (Z.max 1 n) | Raise _ => Some 50%Z end.

Definition resolve_pacing_tier : string :=
  let tier := lower (strip (env_get "OUTBOUND_PACING_TIER" "free")) in
  if existsb (String.eqb tier) ["free"; "premium_auto"; "custom"] then tier else "free".

Definition _has_api_key_for_source (key : string) : bool :=
  match assoc key _SOURCE_API_KEY_ENV with Some v => env_set v | None => false end.

(** [out\[source\] = max(0.0, float(value))], skipping what is no number. *)
Definition override_step (out : list (string * fl)) (e : string * pyval) : res (list (string * fl)) :=
  try_except (let! x := py_float (snd e) in Ok (dset out (fst e) (fmax f0 x))) type_or_value (Ok out).

Definition _parse_custom_overrides : res (list (string * fl)) :=
  let raw := strip (env_get "OUTBOUND_PACING_OVERRIDES" "") in
  if negb (nonempty raw) then Ok []
  else match json_loads raw with
       | Some (PDict d) => fold_res override_step d []
       | _ => Ok []
       end.

Definition _custom_override (key : string) : res (option pacing) :=
  let! overrides := _parse_custom_overrides in
  match assoc key overrides with
  | None => Ok None
  | Some interval =>
      let base := profile_of key in
      Ok (Some (mkPacing interval (max_concurrent base) (docs_url base)
        "Custom operator override (OUTBOUND_PACING_OVERRIDES)."))
  end.

(** An exception while reading the provider's limits keeps the profile's interval. *)
Definition limit_or (l : res provider_limits) (interval : fl) : fl :=
  match l with Ok p => limit_interval p | Raise _ => interval end.

Definition _base_interval_for_key (key : string) : fl :=
  let interval := min_interval_seconds (profile_of key) in
  let interval :=
    if String.eqb key "nvd" then _nvd_interval
    else if String.eqb key "github" then _github_interval
    else if String.eqb key "groq" then limit_or groq_limits interval
    else if String.eqb key "gemini" then limit_or gemini_limits interval
    else if String.eqb key "cerebras" then limit_or cerebras_limits interval
    else if String.eqb key "openrouter" then limit_or openrouter_limits interval
    else interval in
  fmax interval f0.

Definition _premium_profile (key : string) : pacing :=
  let base := profile_of key in
  let interval := fmul (_base_interval_for_key key) _PREMIUM_INTERVAL_FACTOR in
  mkPacing (fmax interval f0) (max_concurrent base) (docs_url base) (notes base).

Definition get_source_pacing (source : string) : res pacing :=
  let key := resolve_pacing_key source in
  let tier := resolve_pacing_tier in
  let! custom := (if String.eqb tier "custom" then _custom_override key else Ok None) in
  match custom with
  | Some p => Ok p
  | None =>
      if String.eqb tier "premium_auto" && _has_api_key_for_source key then Ok (_premium_profile key)
      else
        let profile := profile_of key in
        Ok (mkPacing (_base_interval_for_key key) (max_concurrent profile) (docs_url profile) (notes profile))
  end.

Definition get_otx_hourly_limit : res Z :=
  let! n := int_of_str (env_get "OTX_HOURLY_LIMIT" "10000") in Ok (Z.max 1 n).

(** ** Lemmas *)

(** The concurrency of a source is that of its profile, in every tier. *)
Lemma pacing_concurrency source p :
  get_source_pacing source = Ok p -> max_concurrent p = max_concurrent (profile_of (resolve_pacing_key source)).
Proof.
  unfold get_source_pacing. intros H. inv_bind H. destruct v as [q|].
  - injection H as ->. destruct (String.eqb resolve_pacing_tier "custom"); [|discriminate E].
    unfold _custom_override in E. inv_bind E. case_match; [|discriminate E]. by injection E as <-.
  - repeat case_hyp H; by injection H as <-.
Qed.

End environment.

Lemma profile_concurrency_pos key : (1 <= max_concurrent (profile_of key))%Z.
Proof.
  unfold profile_of. cbn [assoc PACING_PROFILES].
  repeat (case_goal; [cbn; lia|]). cbn; lia.
Qed.
