(* ===== verification/ApiQueue.v ===== *)
(** * ApiQueue: api_queue.py

    The outbound request queue: pauses, pacing, slots and their release.  The
    module's dicts are the fields of [queue]; a request object is shared by the
    dict and by the coroutine that waits on it, so the objects live in a heap
    ([objects]) and [requests] holds the ids the dict has.  Each coroutine step
    between two awaits is one operation; clock readings are arguments. *)

From S2P Require Import Prelude PyStr Float64 PyVal Dates CveRow QueueTasks Pacing.
From Stdlib Require Import QArith Lqa.
Open Scope string_scope.

Record source_state := mkSource {
  ss_queued : Z; ss_active : Z; ss_pause_until : fl; ss_last_request_at : fl; ss_wait_reason : string
}.

Definition new_source : source_state := mkSource 0 0 f0 f0 "".

Record api_request := mkRequest {
  rq_source : string; rq_pacing_key : string; rq_task : task; rq_state : request_state;
  rq_queued_at_mono : fl; rq_started_at_mono : option fl; rq_wait_reason : option string
}.

Record queue := mkQueue {
  states : gmap string source_state;
  objects : gmap string api_request;
  requests : gset string;
  active_stacks : gmap string (list string)
}.

Definition empty_queue : queue := mkQueue ∅ ∅ ∅ ∅.

(** [_states.setdefault(key, _SourceQueueState())], and writing the object back. *)
Definition source_at (q : queue) (key : string) : source_state :=
  match states q !! key with Some s => s | None => new_source end.
Definition set_source (q : queue) (key : string) (s : source_state) : queue :=
  mkQueue (<[key := s]> (states q)) (objects q) (requests q) (active_stacks q).
Definition stack_at (q : queue) (key : string) : list string :=
  match active_stacks q !! key with Some s => s | None => [] end.
Definition set_stack (q : queue) (key : string) (s : list string) : queue :=
  mkQueue (states q) (objects q) (requests q) (<[key := s]> (active_stacks q)).
Definition set_request (q : queue) (rid : string) (r : api_request) : queue :=
  mkQueue (states q) (<[rid := r]> (objects q)) (requests q) (active_stacks q).
Definition pop_request (q : queue) (rid : string) : queue :=
  mkQueue (states q) (objects q) (requests q ∖ {[rid]}) (active_stacks q).

(** ** Durations *)

Definition _MAX_SOURCE_PAUSE_SECONDS : fl := Fin 3600.
Definition _UNIX_SECONDS_FLOOR : fl := Fin 1000000000.
Definition _UNIX_MS_FLOOR : fl := Fin 1000000000000.

(** An optional group [(\d+)u] of the duration pattern: its digits, and the rest. *)
Definition digits_unit (u : ascii) (s : string) : option string * string :=
  let '(ds, rest) := take_while is_digit s in
  match rest with
  | String c t => if nonempty ds && Ascii.eqb (lower_char c) u then (Some ds, t) else (None, s)
  | "" => (None, s)
  end.

(** The minutes group: [m] not followed by [s]. *)
Definition minutes_group (s : string) : option string * string :=
  match digits_unit "m" s with
  | (Some ds, String c t) => if Ascii.eqb (lower_char c) "s" then (None, s) else (Some ds, String c t)
  | r => r
  end.

(** The seconds group: digits with an optional fraction, then [ms] or [s]. *)
Definition seconds_group (s : string) : option (string * bool) * string :=
  let '(ds, rest) := take_while is_digit s in
  let '(text, rest) :=
    match rest with
    | String "." t => let '(fs, r) := take_while is_digit t in
                      if nonempty fs then (ds +:+ "." +:+ fs, r) else (ds, rest)
    | _ => (ds, rest)
    end in
  if negb (nonempty ds) then (None, s)
  else match rest with
       | String c t =>
           if Ascii.eqb (lower_char c) "s" then (Some (text, false), t)
           else if Ascii.eqb (lower_char c) "m" then
             match t with
             | String d t' => if Ascii.eqb (lower_char d) "s" then (Some (text, true), t') else (None, s)
             | "" => (None, s)
             end
           else (None, s)
       | "" => (None, s)
       end.

Definition parse_units (text : string) : option (option string * option string * option (string * bool)) :=
  let '(hours, r1) := digits_unit "h" text in
  let '(mins, r2) := minutes_group r1 in
  let '(secs, r3) := seconds_group r2 in
  if nonempty r3 then None
  else match hours, mins, secs with
       | None, None, None => None
       | _, _, _ => Some (hours, mins, secs)
       end.

Definition int_group (g : option string) : res fl :=
  match g with Some ds => let! n := int_of_str ds in fl_of_int n | None => Ok f0 end.

(** [parsedate] is the email date parser: the instant in microseconds, [None] for
    a text it cannot read (caught, with a warning). *)
Definition _parse_duration_seconds (parsedate : string -> option Z) (wall : fl) (wall_us : Z) (value : string) : res fl :=
  let text := strip value in
  if negb (nonempty text) then Ok f0
  else
    match parse_units text with
    | Some (hours, mins, secs) =>
        let! s := (match secs with
                   | Some (raw, ms) => let! x := float_of_str raw in if ms : bool then fdiv x (Fin 1000) else Ok x
                   | None => Ok f0
                   end) in
        let! h := int_group hours in
        let! m := int_group mins in
        Ok (fadd (fadd (fmul h (Fin 3600)) (fmul m (Fin 60))) s)
    | None =>
        let date := match parsedate text with
                    | Some us => let! d := int_truediv (us - wall_us) 1000000 in Ok (fmax f0 d)
                    | None => Ok f0
                    end in
        match float_of_str text with
        | Raise _ => date
        | Ok num =>
            if isnan num then date
            else if fle _UNIX_MS_FLOOR num then
              let! s := fdiv num (Fin 1000) in Ok (fmax f0 (fsub s wall))
            else if fle _UNIX_SECONDS_FLOOR num then Ok (fmax f0 (fsub num wall))
            else Ok (fmax f0 num)
        end
    end.

(** ** Pauses *)

Definition reason_or_none (s : string) : option string := if nonempty s then Some s else None.

(** The state [_sync_request_wait_states] gives a waiting request. *)
Definition synced (s : source_state) (now : fl) (r : api_request) : api_request :=
  let reason := reason_or_none (ss_wait_reason s) in
  let paused := if flt now (ss_pause_until s) then fmax f0 (fsub (ss_pause_until s) now) else f0 in
  let st := if flt f0 paused || match reason with Some x => is_rate_limit_reason x | None => false end
            then rate_limited
            else match reason with Some _ => waiting | None => queued end in
  mkRequest (rq_source r) (rq_pacing_key r) (rq_task r) st (rq_queued_at_mono r) (rq_started_at_mono r) reason.

Definition is_active (r : api_request) : bool := match rq_state r with active => true | _ => false end.

Definition sync_one (q : queue) (key : string) (s : source_state) (now : fl) (rid : string) (r : api_request) : api_request :=
  if bool_decide (rid ∈ requests q) && String.eqb (rq_pacing_key r) key && negb (is_active r)
  then synced s now r else r.

Definition _sync_request_wait_states (q : queue) (source : string) (now : fl) : queue :=
  let key := resolve_pacing_key source in
  let s := source_at q key in
  mkQueue (states q) (map_imap (fun rid r => Some (sync_one q key s now rid r)) (objects q)) (requests q) (active_stacks q).

(** [now] is read for the pause, [now'] for the propagation. *)
Definition schedule_source_pause (now now' : fl) (q : queue) (source : string) (seconds : fl) (reason : string) : queue :=
  if fle seconds f0 then q
  else
    let seconds := if flt _MAX_SOURCE_PAUSE_SECONDS seconds then _MAX_SOURCE_PAUSE_SECONDS else seconds in
    let key := resolve_pacing_key source in
    let s := source_at q key in
    let s' := mkSource (ss_queued s) (ss_active s) (fmax (ss_pause_until s) (fadd now seconds))
                (ss_last_request_at s) reason in
    _sync_request_wait_states (set_source q key s') source now'.

(** ** Rate-limit headers

    [headers] is the case-insensitive [get]; [clock] the readings of one pause, the
    [n]-th of a call under [clocks n]. *)

Record clock := mkClock { wall : fl; wall_us : Z; mono : fl; mono' : fl }.

Section headers.
Variable parsedate : string -> option Z.
Variable headers : string -> option string.
Variable clocks : nat -> clock.
Variable source : string.

Definition get_text (k : string) : string := text_or (headers k).

Definition pause_for (c : clock) (q : queue) (text reason : string) : res queue :=
  let! secs := _parse_duration_seconds parsedate (wall c) (wall_us c) text in
  Ok (schedule_source_pause (mono c) (mono' c) q source secs reason).

Definition value_error (e : exn) : bool := match e with ValueError => true | _ => false end.

(** [if remaining is not None and reset: try: if int(remaining) < limit: pause
    except ValueError: pass] *)
Definition quota_pause (c : clock) (q : queue) (remaining reset : string) (limit : Z) (reason : string) : res queue :=
  match headers remaining with
  | Some text =>
      if nonempty (get_text reset) then
        try_except
          (let! n := int_of_str text in
           if (n <? limit)%Z then pause_for c q (get_text reset) reason else Ok q)
          value_error (Ok q)
      else Ok q
  | None => Ok q
  end.

Definition github_pause (c : clock) (q : queue) : res queue :=
  match headers "x-ratelimit-remaining" with
  | Some text =>
      if nonempty (get_text "x-ratelimit-reset") then
        try_except
          (let! n := int_of_str text in
           if (n <=? 0)%Z then
             let! reset_at := float_of_str (get_text "x-ratelimit-reset") in
             Ok (schedule_source_pause (mono c) (mono' c) q source
                   (fmax (lit (1#2)) (fsub reset_at (wall c))) "github_quota")
           else Ok q)
          value_error (Ok q)
      else Ok q
  | None => Ok q
  end.

Definition apply_rate_limit_headers (estimated_tokens : option Z) (q : queue) : res queue :=
  let! q1 := (if nonempty (get_text "retry-after") then pause_for (clocks 0%nat) q (get_text "retry-after") "retry-after" else Ok q) in
  let! q2 := (match estimated_tokens with
              | Some n => quota_pause (clocks 1%nat) q1 "x-ratelimit-remaining-tokens" "x-ratelimit-reset-tokens" n "token_quota"
              | None => Ok q1
              end) in
  let! q3 := quota_pause (clocks 2%nat) q2 "x-ratelimit-remaining-requests" "x-ratelimit-reset-requests" 1 "request_quota" in
  github_pause (clocks 3%nat) q3.
End headers.

(** ** Slots *)

(** [await_api_slot] up to its loop: register the request. *)
Definition enqueue (q : queue) (rid source : string) (operation context_type context_id : option string) (now : fl) : queue :=
  let key := resolve_pacing_key source in
  let s := source_at q key in
  let r := mkRequest source key (resolve_queue_task source operation context_type context_id) queued now None None in
  mkQueue (<[key := mkSource (ss_queued s + 1) (ss_active s) (ss_pause_until s) (ss_last_request_at s) (ss_wait_reason s)]> (states q))
    (<[rid := r]> (objects q)) (requests q ∪ {[rid]}) (active_stacks q).

Definition with_state (r : api_request) (st : request_state) (reason : option string) : api_request :=
  mkRequest (rq_source r) (rq_pacing_key r) (rq_task r) st (rq_queued_at_mono r) (rq_started_at_mono r) reason.

(** The [finally] block. *)
Definition leave (q : queue) (rid key : string) : queue :=
  let s := source_at q key in
  let q := set_source q key (mkSource (Z.max 0 (ss_queued s - 1)) (ss_active s) (ss_pause_until s)
             (ss_last_request_at s) (ss_wait_reason s)) in
  match objects q !! rid with
  | Some r => if is_active r then q else pop_request q rid
  | None => q
  end.

Definition earliest (s : source_state) (p : pacing) : fl :=
  fmax (ss_pause_until s) (fadd (ss_last_request_at s) (min_interval_seconds p)).

(** One turn of the loop under the lock: [inl wait] to sleep, [inr] once active
    (the [finally] block included).  [now], [t1], [t2] are successive readings. *)
Definition poll (q : queue) (rid : string) (r : api_request) (p : pacing) (now t1 t2 : fl) : queue * option fl :=
  let key := rq_pacing_key r in
  let s := source_at q key in
  if (max_concurrent p <=? ss_active s)%Z then
    (set_request (set_source q key (mkSource (ss_queued s) (ss_active s) (ss_pause_until s) (ss_last_request_at s) "concurrency"))
       rid (with_state r waiting (Some "concurrency")), Some (lit (1#4)))
  else if flt now (earliest s p) then
    let reason := if nonempty (ss_wait_reason s) then ss_wait_reason s else "pacing" in
    let paused := flt now (ss_pause_until s) in
    let st := if paused && is_rate_limit_reason reason then rate_limited else waiting in
    (set_request (set_source q key (mkSource (ss_queued s) (ss_active s) (ss_pause_until s) (ss_last_request_at s) reason))
       rid (with_state r st (Some reason)), Some (fsub (earliest s p) now))
  else
    let s' := mkSource (ss_queued s) (ss_active s + 1) (ss_pause_until s) t1 "" in
    let r' := mkRequest (rq_source r) key (rq_task r) active (rq_queued_at_mono r) (Some t2) None in
    let q := set_request (set_source q key s') rid r' in
    (leave (set_stack q key (stack_at q key ++ [rid])) rid key, None).

(** [asyncio.sleep(min(wait, 1.0))] *)
Definition sleep_for (wait : fl) : fl := fmin wait f1.

(** [stack.remove(x)]: the first occurrence. *)
Fixpoint remove_first (x : string) (l : list string) : list string :=
  match l with [] => [] | y :: t => if String.eqb y x then t else y :: remove_first x t end.

Definition dec_active (q : queue) (key : string) : queue :=
  let s := source_at q key in
  set_source q key (mkSource (ss_queued s) (Z.max 0 (ss_active s - 1)) (ss_pause_until s) (ss_last_request_at s) (ss_wait_reason s)).

Definition release_api_slot (q : queue) (source : string) (request_id : option string) : queue :=
  let key := resolve_pacing_key source in
  let q := set_stack (set_source q key (source_at q key)) key (stack_at q key) in
  match request_id with
  | Some rid =>
      if bool_decide (rid ∈ requests q) then
        dec_active (set_stack (pop_request q rid) key (remove_first rid (stack_at q key))) key
      else q
  | None =>
      match stack_at q key with
      | [] => dec_active q key
      | st => dec_active (pop_request (set_stack q key (removelast st)) (List.last st "")) key
      end
  end.

(** ** The queue as a transition system

    The steps of the coroutines and their callers.  A request id is fresh when it
    is drawn; a slot is released by id only by the coroutine it was granted to,
    under a source of the same pacing key.  [step_release_top] is the call without
    an id. *)

Inductive step (q : queue) : queue -> Prop :=
| step_enqueue rid source op ct cid now :
    objects q !! rid = None -> step q (enqueue q rid source op ct cid now)
| step_poll rid r p now t1 t2 :
    rid ∈ requests q -> objects q !! rid = Some r -> is_active r = false ->
    max_concurrent p = max_concurrent (profile_of (rq_pacing_key r)) ->
    step q (fst (poll q rid r p now t1 t2))
| step_cancel rid r :
    rid ∈ requests q -> objects q !! rid = Some r -> is_active r = false ->
    step q (leave q rid (rq_pacing_key r))
| step_release rid r source :
    objects q !! rid = Some r -> is_active r = true -> resolve_pacing_key source = rq_pacing_key r ->
    step q (release_api_slot q source (Some rid))
| step_release_top source : step q (release_api_slot q source None)
| step_pause now now' source seconds reason : step q (schedule_source_pause now now' q source seconds reason).

Inductive reachable : queue -> Prop :=
| reachable_empty : reachable empty_queue
| reachable_step q q' : reachable q -> step q q' -> reachable q'.

(** ** The invariant, per pacing key *)

Definition waiting_for (q : queue) (key rid : string) : Prop :=
  rid ∈ requests q /\ exists r, objects q !! rid = Some r /\ is_active r = false /\ rq_pacing_key r = key.

Definition holds_slot (q : queue) (key rid : string) : Prop :=
  rid ∈ requests q /\ exists r, objects q !! rid = Some r /\ is_active r = true /\ rq_pacing_key r = key.

Record key_inv (q : queue) (key : string) : Prop := mkKeyInv {
  ki_queued : exists X : gset string, (forall rid, rid ∈ X <-> waiting_for q key rid) /\ ss_queued (source_at q key) = Z.of_nat (size X);
  ki_nodup : NoDup (stack_at q key);
  ki_stack : forall rid, rid ∈ stack_at q key <-> holds_slot q key rid;
  ki_active : ss_active (source_at q key) = Z.of_nat (length (stack_at q key));
  ki_bound : (ss_active (source_at q key) <= max_concurrent (profile_of key))%Z
}.

(** Two queues that agree on everything the invariant of [key] reads. *)
Record same_view (key : string) (q q' : queue) : Prop := mkSame {
  sv_queued : ss_queued (source_at q' key) = ss_queued (source_at q key);
  sv_active : ss_active (source_at q' key) = ss_active (source_at q key);
  sv_stack : stack_at q' key = stack_at q key;
  sv_waiting : forall rid, waiting_for q' key rid <-> waiting_for q key rid;
  sv_holds : forall rid, holds_slot q' key rid <-> holds_slot q key rid
}.

Lemma key_inv_view key q q' : same_view key q q' -> key_inv q key -> key_inv q' key.
Proof.
  intros [V1 V2 V3 V4 V5] [(X & HX & HQ) N S A B]. split; rewrite ?V1, ?V2, ?V3; try assumption.
  - exists X. split; [|exact HQ]. intros rid. by rewrite V4.
  - intros rid. by rewrite V5.
Qed.

Lemma source_at_set q k k' s : source_at (set_source q k s) k' = if decide (k = k') then s else source_at q k'.
Proof.
  unfold source_at, set_source. cbn [states]. case_decide as D; [subst; by rewrite lookup_insert_eq|].
  by rewrite lookup_insert_ne.
Qed.

Lemma stack_at_set q k k' l : stack_at (set_stack q k l) k' = if decide (k = k') then l else stack_at q k'.
Proof.
  unfold stack_at, set_stack. cbn [active_stacks]. case_decide as D; [subst; by rewrite lookup_insert_eq|].
  by rewrite lookup_insert_ne.
Qed.

(** Updating a source's bookkeeping, not its counters, changes no view. *)
Lemma view_set_source key q k s :
  ss_queued s = ss_queued (source_at q k) -> ss_active s = ss_active (source_at q k) ->
  same_view key q (set_source q k s).
Proof.
  intros HQ HA. split; rewrite ?source_at_set; try (case_decide; subst; congruence); done.
Qed.

Lemma view_refl key q : same_view key q q.
Proof. by split. Qed.

Lemma view_trans key q1 q2 q3 : same_view key q1 q2 -> same_view key q2 q3 -> same_view key q1 q3.
Proof.
  intros [A1 A2 A3 A4 A5] [B1 B2 B3 B4 B5].
  split; [congruence|congruence|congruence|intros; by rewrite B4, A4|intros; by rewrite B5, A5].
Qed.

#[export] Instance same_view_preorder key : PreOrder (same_view key).
Proof. split; [intros q; apply view_refl|intros q1 q2 q3; apply view_trans]. Qed.

(** Rewriting a request object in place, its key and activity kept. *)
Lemma view_set_request key q rid r r' :
  objects q !! rid = Some r -> is_active r' = is_active r -> rq_pacing_key r' = rq_pacing_key r ->
  same_view key q (set_request q rid r').
Proof.
  intros H HA HK. split; try done; intros rid'; unfold waiting_for, holds_slot, set_request; cbn [requests objects];
    destruct (decide (rid = rid')) as [<-|N]; rewrite ?lookup_insert_eq, ?lookup_insert_ne by done; try done.
  all: split; intros (Hr & x & Hx & Ha & Hk); (split; [exact Hr|]).
  - injection Hx as <-. exists r. by rewrite <- HA, <- HK.
  - rewrite H in Hx. injection Hx as <-. exists r'. by rewrite HA, HK.
  - injection Hx as <-. exists r. by rewrite <- HA, <- HK.
  - rewrite H in Hx. injection Hx as <-. exists r'. by rewrite HA, HK.
Qed.

Lemma view_sync key q source now : same_view key q (_sync_request_wait_states q source now).
Proof.
  set (s := source_at q (resolve_pacing_key source)).
  assert (L : forall rid, objects (_sync_request_wait_states q source now) !! rid
            = sync_one q (resolve_pacing_key source) s now rid <$> objects q !! rid).
  { intros rid. unfold _sync_request_wait_states. cbn [objects]. rewrite map_lookup_imap.
    by destruct (objects q !! rid). }
  assert (P : forall rid r, is_active (sync_one q (resolve_pacing_key source) s now rid r) = is_active r
            /\ rq_pacing_key (sync_one q (resolve_pacing_key source) s now rid r) = rq_pacing_key r).
  { intros rid r. unfold sync_one. destruct (_ && _) eqn:E; [|done]. apply andb_true_iff in E as [_ E].
    split; [|done]. apply negb_true_iff in E. rewrite E. unfold synced, is_active. cbn [rq_state].
    by repeat case_match. }
  split; try done; intros rid; unfold waiting_for, holds_slot; rewrite L;
    (split; intros (Hr & x & Hx & Ha & Hk); split; [exact Hr| |exact Hr|]).
  1,3: destruct (objects q !! rid) as [r|]; [|discriminate Hx]; injection Hx as <-; exists r;
       destruct (P rid r) as [P1 P2]; by rewrite <- P1, <- P2.
  all: rewrite Hx; eexists; split; [reflexivity|]; destruct (P rid x) as [-> ->]; done.
Qed.

Definition queue_inv (q : queue) : Prop := forall key, key_inv q key.

Lemma inv_view q q' : (forall key, same_view key q q') -> queue_inv q -> queue_inv q'.
Proof. intros V I key. eapply key_inv_view; [apply V|apply I]. Qed.

Lemma inv_pause q now now' source seconds reason :
  queue_inv q -> queue_inv (schedule_source_pause now now' q source seconds reason).
Proof.
  intros I. unfold schedule_source_pause. destruct (fle seconds f0); [exact I|].
  eapply inv_view; [|exact I]. intros key. etransitivity; [|apply view_sync]. by apply view_set_source.
Qed.

(** The other keys do not see an operation on [k]. *)
Lemma inv_at q q' k :
  (forall key, key <> k -> same_view key q q') -> key_inv q' k -> queue_inv q -> queue_inv q'.
Proof.
  intros V K I key. destruct (decide (key = k)) as [->|N]; [exact K|].
  eapply key_inv_view; [by apply V|apply I].
Qed.

Lemma other_predicates q rid k key :
  (forall x, objects q !! rid = Some x -> rq_pacing_key x = k) -> key <> k ->
  ~ waiting_for q key rid /\ ~ holds_slot q key rid.
Proof. intros H N. split; intros (_ & x & Hx & _ & Hk); apply N; rewrite <- Hk; by apply H. Qed.

Lemma inv_enqueue q rid source op ct cid now :
  objects q !! rid = None -> queue_inv q -> queue_inv (enqueue q rid source op ct cid now).
Proof.
  intros Hf I. set (k := resolve_pacing_key source).
  assert (P : forall key rid', rid' <> rid ->
    (waiting_for (enqueue q rid source op ct cid now) key rid' <-> waiting_for q key rid') /\
    (holds_slot (enqueue q rid source op ct cid now) key rid' <-> holds_slot q key rid')).
  { intros key rid' N. unfold waiting_for, holds_slot, enqueue. cbn [requests objects].
    rewrite lookup_insert_ne by done. rewrite elem_of_union, elem_of_singleton. naive_solver. }
  assert (W : forall key, waiting_for (enqueue q rid source op ct cid now) key rid <-> key = k).
  { intros key. unfold waiting_for, enqueue. cbn [requests objects]. rewrite lookup_insert_eq.
    split; [intros (_ & x & Hx & _ & <-); by injection Hx as <-|intros ->]. split; [set_solver|]. by eexists. }
  assert (H : forall key, ~ holds_slot (enqueue q rid source op ct cid now) key rid).
  { intros key (_ & x & Hx & Ha & _). unfold enqueue in Hx. cbn [objects] in Hx. rewrite lookup_insert_eq in Hx.
    by injection Hx as <-. }
  assert (F : forall key, ~ waiting_for q key rid /\ ~ holds_slot q key rid).
  { intros key. split; intros (_ & x & Hx & _); congruence. }
  assert (S : forall key, source_at (enqueue q rid source op ct cid now) key =
    if decide (k = key) then mkSource (ss_queued (source_at q k) + 1) (ss_active (source_at q k))
      (ss_pause_until (source_at q k)) (ss_last_request_at (source_at q k)) (ss_wait_reason (source_at q k))
    else source_at q key).
  { intros key. apply (source_at_set q k key). }
  apply (inv_at q _ k); [|destruct (I k) as [(X & HX & HQ) N K A B]|exact I].
  - intros key N. split; rewrite ?S, ?decide_False by congruence; try done; intros rid';
      (destruct (decide (rid' = rid)) as [->|D]; [|by apply P]).
    + rewrite W. split; [done|]. intros Hw. by destruct (proj1 (F key)).
    + split; intros Hh; [by destruct (H key)|by destruct (proj2 (F key))].
  - split; rewrite ?S, ?decide_True by done; cbn [ss_queued ss_active]; try assumption.
    + exists ({[rid]} ∪ X). split.
      * intros rid'. rewrite elem_of_union, elem_of_singleton, HX. destruct (decide (rid' = rid)) as [->|D].
        -- rewrite W. naive_solver.
        -- rewrite (proj1 (P k rid' D)). naive_solver.
      * rewrite size_union, size_singleton; [lia|]. apply disjoint_singleton_l. rewrite HX. apply F.
    + intros rid'. destruct (decide (rid' = rid)) as [->|D].
      * change (stack_at (enqueue q rid source op ct cid now) k) with (stack_at q k). rewrite K.
        split; intros Hh; [by destruct (proj2 (F k))|by destruct (H k)].
      * rewrite (proj2 (P k rid' D)). apply K.
Qed.

(** [leave] on a request that is still waiting: it goes, and only it. *)
Lemma inv_cancel q rid r :
  rid ∈ requests q -> objects q !! rid = Some r -> is_active r = false ->
  queue_inv q -> queue_inv (leave q rid (rq_pacing_key r)).
Proof.
  intros Hin Hr Ha I. set (k := rq_pacing_key r).
  assert (E : leave q rid k = pop_request (set_source q k (mkSource (Z.max 0 (ss_queued (source_at q k) - 1))
    (ss_active (source_at q k)) (ss_pause_until (source_at q k)) (ss_last_request_at (source_at q k))
    (ss_wait_reason (source_at q k)))) rid).
  { unfold leave. cbv zeta. cbn [set_source objects]. by rewrite Hr, Ha. }
  rewrite E. set (s' := mkSource _ _ _ _ _).
  assert (W : forall key rid', waiting_for (pop_request (set_source q k s') rid) key rid'
    <-> waiting_for q key rid' /\ rid' <> rid).
  { intros key rid'. unfold waiting_for, pop_request, set_source. cbn [requests objects].
    rewrite elem_of_difference, elem_of_singleton. naive_solver. }
  assert (H : forall key rid', holds_slot (pop_request (set_source q k s') rid) key rid' <-> holds_slot q key rid').
  { intros key rid'. unfold holds_slot, pop_request, set_source. cbn [requests objects].
    rewrite elem_of_difference, elem_of_singleton. split; [naive_solver|]. intros [Hq Hx]. split; [|exact Hx].
    split; [exact Hq|]. intros ->. destruct Hx as (x & Hx & Hax & _). congruence. }
  assert (S : forall key, source_at (pop_request (set_source q k s') rid) key
    = if decide (k = key) then s' else source_at q key) by (intros key; apply (source_at_set q k key)).
  assert (Wk : waiting_for q k rid) by (split; [exact Hin|exists r; by repeat split]).
  apply (inv_at q _ k); [|destruct (I k) as [(X & HX & HQ) N K A B]|exact I].
  - intros key N. split; rewrite ?S, ?decide_False by congruence; try done; intros rid'; try apply H.
    rewrite W. split; [by intros [? _]|]. intros Hw. split; [exact Hw|]. intros ->.
    destruct Hw as (_ & x & Hx & _ & Hk). apply N. rewrite <- Hk. unfold k. congruence.
  - split; rewrite ?S, ?decide_True by done; try assumption.
    + exists (X ∖ {[rid]}). split.
      * intros rid'. rewrite elem_of_difference, elem_of_singleton, HX, W. done.
      * assert (rid ∈ X) by by apply HX. rewrite size_difference, size_singleton by set_solver.
        unfold s'. cbn [ss_queued].
        assert (size X <> 0%nat). { intros Z0. apply size_empty_inv in Z0. set_solver. } lia.
    + intros rid'. rewrite H. apply K.
Qed.

(** The queue a granted request leaves behind. *)
Definition granted (q : queue) (rid : string) (r : api_request) (t1 t2 : fl) : queue :=
  let key := rq_pacing_key r in
  let s := source_at q key in
  mkQueue
    (<[key := mkSource (Z.max 0 (ss_queued s - 1)) (ss_active s + 1) (ss_pause_until s) t1 ""]> (states q))
    (<[rid := mkRequest (rq_source r) key (rq_task r) active (rq_queued_at_mono r) (Some t2) None]> (objects q))
    (requests q) (<[key := (stack_at q key ++ [rid])%list]> (active_stacks q)).

Lemma leave_active q rid key :
  match objects q !! rid with Some r => is_active r = true | None => False end ->
  let s := source_at q key in
  leave q rid key = set_source q key (mkSource (Z.max 0 (ss_queued s - 1)) (ss_active s) (ss_pause_until s)
                      (ss_last_request_at s) (ss_wait_reason s)).
Proof.
  unfold leave. cbv zeta. cbn [set_source objects]. destruct (objects q !! rid); [|done]. by intros ->.
Qed.

Lemma poll_cases q rid r p now t1 t2 :
  let key := rq_pacing_key r in
  let s := source_at q key in
  ((max_concurrent p <= ss_active s)%Z /\
     exists s' r', fst (poll q rid r p now t1 t2) = set_request (set_source q key s') rid r' /\
       ss_queued s' = ss_queued s /\ ss_active s' = ss_active s /\ is_active r' = false /\ rq_pacing_key r' = key) \/
  ((ss_active s < max_concurrent p)%Z /\ flt now (earliest s p) = true /\
     exists s' r', fst (poll q rid r p now t1 t2) = set_request (set_source q key s') rid r' /\
       ss_queued s' = ss_queued s /\ ss_active s' = ss_active s /\ is_active r' = false /\ rq_pacing_key r' = key) \/
  ((ss_active s < max_concurrent p)%Z /\ flt now (earliest s p) = false /\
     poll q rid r p now t1 t2 = (granted q rid r t1 t2, None)).
Proof.
  cbv zeta. unfold poll. destruct (Z.leb_spec (max_concurrent p) (ss_active (source_at q (rq_pacing_key r)))) as [L|L].
  { left. split; [exact L|]. do 2 eexists. by repeat split. }
  destruct (flt now _) eqn:F; right; [left|right].
  - split; [exact L|]. split; [done|]. do 2 eexists. split; [reflexivity|]. split; [done|]. split; [done|].
    split; [|done]. unfold is_active, with_state. cbn [rq_state]. by case_match; case_match.
  - split; [exact L|]. split; [done|]. f_equal. set (k := rq_pacing_key r). set (s' := mkSource _ (_ + 1) _ t1 "").
    rewrite leave_active by (unfold set_stack, set_request; cbn [objects]; by rewrite lookup_insert_eq).
    change (source_at (set_stack _ k _) k) with (source_at (set_source q k s') k).
    rewrite source_at_set, decide_True by done.
    unfold granted, set_stack, set_request, set_source at 1. cbn [states objects requests active_stacks].
    unfold set_source. cbn [states]. by rewrite insert_insert_eq.
Qed.

Lemma inv_granted q rid r t1 t2 :
  rid ∈ requests q -> objects q !! rid = Some r -> is_active r = false ->
  (ss_active (source_at q (rq_pacing_key r)) < max_concurrent (profile_of (rq_pacing_key r)))%Z ->
  queue_inv q -> queue_inv (granted q rid r t1 t2).
Proof.
  intros Hin Hr Ha Hb I. set (k := rq_pacing_key r) in *.
  assert (S : forall key, source_at (granted q rid r t1 t2) key = if decide (k = key) then
     mkSource (Z.max 0 (ss_queued (source_at q k) - 1)) (ss_active (source_at q k) + 1) (ss_pause_until (source_at q k)) t1 ""
     else source_at q key) by (intros key; apply (source_at_set q k key)).
  assert (T : forall key, stack_at (granted q rid r t1 t2) key = if decide (k = key) then (stack_at q k ++ [rid])%list
     else stack_at q key) by (intros key; apply (stack_at_set q k key)).
  assert (O : forall rid', rid' <> rid -> objects (granted q rid r t1 t2) !! rid' = objects q !! rid').
  { intros rid' N. unfold granted. cbn [objects]. by rewrite lookup_insert_ne. }
  assert (P : forall key rid', rid' <> rid ->
    (waiting_for (granted q rid r t1 t2) key rid' <-> waiting_for q key rid') /\
    (holds_slot (granted q rid r t1 t2) key rid' <-> holds_slot q key rid')).
  { intros key rid' N. unfold waiting_for, holds_slot. by rewrite O. }
  assert (W : forall key, ~ waiting_for (granted q rid r t1 t2) key rid).
  { intros key (_ & x & Hx & Hax & _). unfold granted in Hx. cbn [objects] in Hx. rewrite lookup_insert_eq in Hx.
    by injection Hx as <-. }
  assert (H : forall key, holds_slot (granted q rid r t1 t2) key rid <-> key = k).
  { intros key. unfold holds_slot, granted. cbn [objects requests]. rewrite lookup_insert_eq.
    split; [intros (_ & x & Hx & _ & <-); by injection Hx as <-|intros ->]. split; [exact Hin|]. by eexists. }
  assert (Wk : waiting_for q k rid) by (split; [exact Hin|exists r; by repeat split]).
  assert (Hk : forall key, ~ holds_slot q key rid) by (intros key (_ & x & Hx & Hax & _); congruence).
  apply (inv_at q _ k); [|destruct (I k) as [(X & HX & HQ) N K A B]|exact I].
  - intros key N. split; rewrite ?S, ?T, ?decide_False by congruence; try done; intros rid';
      (destruct (decide (rid' = rid)) as [->|D]; [|by apply P]); split; intros Hx.
    + by destruct (W key).
    + destruct Hx as (_ & x & Hx & _ & Hkx). destruct N. rewrite <- Hkx. unfold k. congruence.
    + by apply H in Hx.
    + by destruct (Hk key).
  - split; rewrite ?S, ?T, ?decide_True by done; cbn [ss_queued ss_active].
    + exists (X ∖ {[rid]}). split.
      * intros rid'. rewrite elem_of_difference, elem_of_singleton, HX. destruct (decide (rid' = rid)) as [->|D].
        -- split; [by intros []|]. intros Hx. by destruct (W k).
        -- rewrite (proj1 (P k rid' D)). naive_solver.
      * assert (rid ∈ X) by by apply HX. rewrite size_difference, size_singleton by set_solver.
        assert (size X <> 0%nat). { intros Z0. apply size_empty_inv in Z0. set_solver. } lia.
    + apply NoDup_app. split; [exact N|]. split; [|apply NoDup_singleton].
      intros x Hx ->%list_elem_of_singleton. apply K in Hx. by destruct (Hk k).
    + intros rid'. rewrite elem_of_app, list_elem_of_singleton, K. destruct (decide (rid' = rid)) as [->|D].
      * rewrite H. naive_solver.
      * rewrite (proj2 (P k rid' D)). naive_solver.
    + rewrite length_app. cbn [length]. lia.
    + lia.
Qed.

Lemma inv_poll q rid r p now t1 t2 :
  rid ∈ requests q -> objects q !! rid = Some r -> is_active r = false ->
  max_concurrent p = max_concurrent (profile_of (rq_pacing_key r)) ->
  queue_inv q -> queue_inv (fst (poll q rid r p now t1 t2)).
Proof.
  intros Hin Hr Ha Hp I.
  destruct (poll_cases q rid r p now t1 t2) as [(_ & s' & r' & -> & V)|[(_ & _ & s' & r' & -> & V)|(L & _ & ->)]].
  1,2: destruct V as (V1 & V2 & V3 & V4); eapply inv_view; [|exact I]; intros key;
       (etransitivity; [by apply (view_set_source key q (rq_pacing_key r) s')|]);
       eapply view_set_request; [exact Hr|by rewrite V3, Ha|exact V4].
  cbn [fst]. apply inv_granted; try assumption. by rewrite <- Hp.
Qed.

Lemma remove_first_spec x l :
  NoDup l -> x ∈ l ->
  NoDup (remove_first x l) /\ length l = S (length (remove_first x l)) /\
  forall y, y ∈ remove_first x l <-> y ∈ l /\ y <> x.
Proof.
  induction l as [|z l IH]; intros N Hx; [by apply not_elem_of_nil in Hx|].
  apply NoDup_cons in N as [Hz N]. cbn [remove_first]. destruct (String.eqb_spec z x) as [->|D].
  - split; [exact N|]. split; [done|]. intros y. rewrite elem_of_cons. split; [|naive_solver].
    intros Hy. split; [by right|]. by intros ->.
  - apply elem_of_cons in Hx as [->|Hx]; [done|]. destruct (IH N Hx) as (N' & L & E). split; [|split].
    + apply NoDup_cons. split; [|exact N']. rewrite E. naive_solver.
    + cbn [length]. lia.
    + intros y. rewrite !elem_of_cons, E. naive_solver.
Qed.

Lemma last_spec (l : list string) :
  l <> [] -> NoDup l ->
  List.last l "" ∈ l /\ NoDup (removelast l) /\ length l = S (length (removelast l)) /\
  forall y, y ∈ removelast l <-> y ∈ l /\ y <> List.last l "".
Proof.
  intros Hl N. rewrite (app_removelast_last "" Hl) in N.
  assert (E : l = (removelast l ++ [List.last l ""])%list) by by apply app_removelast_last.
  apply NoDup_app in N as (N & D & _). set (x := List.last l "") in *. clearbody x. set (r := removelast l) in *.
  clearbody r. subst l. split; [set_solver|]. split; [exact N|]. split; [rewrite length_app; cbn; lia|].
  intros y. rewrite elem_of_app, list_elem_of_singleton. split; [|naive_solver].
  intros Hy. split; [by left|]. intros ->. apply (D x Hy). by apply list_elem_of_singleton.
Qed.

(** Taking one holder out: its id leaves the dict and its stack, the count drops. *)
Lemma inv_drop q k rid l :
  holds_slot q k rid ->
  NoDup l -> length (stack_at q k) = S (length l) ->
  (forall y, y ∈ l <-> y ∈ stack_at q k /\ y <> rid) ->
  queue_inv q -> queue_inv (dec_active (set_stack (pop_request q rid) k l) k).
Proof.
  intros Hh Nl Ll El I. set (q' := dec_active _ _).
  assert (S : forall key, source_at q' key = if decide (k = key) then
     mkSource (ss_queued (source_at q k)) (Z.max 0 (ss_active (source_at q k) - 1)) (ss_pause_until (source_at q k))
       (ss_last_request_at (source_at q k)) (ss_wait_reason (source_at q k))
     else source_at q key) by (intros key; unfold q', dec_active; cbv zeta; by rewrite source_at_set).
  assert (T : forall key, stack_at q' key = if decide (k = key) then l else stack_at q key)
    by (intros key; exact (stack_at_set (pop_request q rid) k key l)).
  assert (W : forall key rid', waiting_for q' key rid' <-> waiting_for q key rid').
  { intros key rid'. unfold waiting_for, q'. cbn [requests objects dec_active set_source set_stack pop_request].
    rewrite elem_of_difference, elem_of_singleton. split; [naive_solver|]. intros [Hr Hx]. split; [|exact Hx].
    split; [exact Hr|]. intros ->. destruct Hx as (x & Hx & Ha & _), Hh as (_ & y & Hy & Hb & _). congruence. }
  assert (H : forall key rid', holds_slot q' key rid' <-> holds_slot q key rid' /\ rid' <> rid).
  { intros key rid'. unfold holds_slot, q'. cbn [requests objects dec_active set_source set_stack pop_request].
    rewrite elem_of_difference, elem_of_singleton. naive_solver. }
  apply (inv_at q _ k); [|destruct (I k) as [(X & HX & HQ) N K A B]|exact I].
  - intros key Nk. split; rewrite ?S, ?T, ?decide_False by congruence; try done; intros rid'; try apply W.
    rewrite H. split; [by intros []|]. intros Hx. split; [exact Hx|]. intros ->.
    destruct Hx as (_ & x & Hx & _ & Hkx), Hh as (_ & y & Hy & _ & Hky). apply Nk. congruence.
  - split; rewrite ?S, ?T, ?decide_True by done; cbn [ss_queued ss_active].
    + exists X. split; [|exact HQ]. intros rid'. by rewrite W.
    + exact Nl.
    + intros rid'. by rewrite H, El, K.
    + lia.
    + lia.
Qed.

Lemma view_touch q k key : same_view key q (set_stack (set_source q k (source_at q k)) k (stack_at q k)).
Proof.
  assert (S : source_at (set_stack (set_source q k (source_at q k)) k (stack_at q k)) key = source_at q key).
  { etransitivity; [apply (source_at_set q k key)|]. by case_decide; subst. }
  split; rewrite ?S; try done. rewrite stack_at_set. by case_decide; subst.
Qed.

Lemma inv_release q source request_id :
  match request_id with
  | Some rid => exists r, objects q !! rid = Some r /\ is_active r = true /\ resolve_pacing_key source = rq_pacing_key r
  | None => True
  end ->
  queue_inv q -> queue_inv (release_api_slot q source request_id).
Proof.
  intros Hp I. unfold release_api_slot. set (k := resolve_pacing_key source).
  set (q0 := set_stack (set_source q k (source_at q k)) k (stack_at q k)).
  assert (I0 : queue_inv q0) by (eapply inv_view; [intros key; apply view_touch|exact I]).
  destruct (I0 k) as [_ N K A B]. destruct request_id as [rid|].
  - case_bool_decide as D; [|exact I0]. destruct Hp as (r & Hr & Ha & Hk).
    assert (Hh : holds_slot q0 k rid) by (split; [exact D|exists r; repeat split; [exact Hr|exact Ha|by rewrite <- Hk]]).
    destruct (remove_first_spec rid (stack_at q0 k)) as (N' & L & E); [exact N|by apply K|].
    by apply inv_drop.
  - destruct (stack_at q0 k) as [|x t] eqn:St.
    + eapply inv_view; [|exact I0]. intros key. apply view_set_source; [done|]. cbn [ss_active].
      by rewrite A.
    + destruct (last_spec (x :: t)) as (Hin & N' & L & E); [done|exact N|].
      apply (inv_drop q0 k (List.last (x :: t) "") (removelast (x :: t))); try assumption.
      * by apply K.
      * by rewrite St.
      * intros y. by rewrite St.
Qed.

Lemma step_inv q q' : step q q' -> queue_inv q -> queue_inv q'.
Proof.
  intros [] I.
  - by apply inv_enqueue.
  - by apply inv_poll.
  - by apply inv_cancel.
  - apply inv_release; [eauto|exact I].
  - by apply inv_release.
  - by apply inv_pause.
Qed.

Lemma empty_inv : queue_inv empty_queue.
Proof.
  intros key. split.
  - exists ∅. split; [|done]. intros rid. split; [set_solver|]. intros [Hr _]. set_solver.
  - constructor.
  - intros rid. split; [set_solver|]. intros [Hr _]. set_solver.
  - done.
  - pose proof (profile_concurrency_pos key).
    change (ss_active (source_at empty_queue key)) with 0%Z. lia.
Qed.

Lemma reachable_inv q : reachable q -> queue_inv q.
Proof. induction 1; [apply empty_inv|]. by eapply step_inv. Qed.

(** ** Pauses are bounded *)

(** No pause shrinks, and none reaches past the cap from [now]. *)
Definition pause_within (n : Q) (q q' : queue) : Prop :=
  forall key o, ss_pause_until (source_at q key) = Fin o ->
    exists p, ss_pause_until (source_at q' key) = Fin p /\ (o <= p)%Q /\ (p <= o \/ p <= rnd (n + 3600))%Q.

Lemma pause_within_refl n q : pause_within n q q.
Proof. intros key o H. exists o. split; [exact H|]. split; [|left]; apply Qle_refl. Qed.

Lemma pause_within_trans n q1 q2 q3 : pause_within n q1 q2 -> pause_within n q2 q3 -> pause_within n q1 q3.
Proof.
  intros A B key o H. destruct (A key o H) as (p & Hp & L1 & U1). destruct (B key p Hp) as (p' & Hp' & L2 & U2).
  exists p'. split; [exact Hp'|]. split; [by eapply Qle_trans|].
  destruct U2 as [U2|U2]; [|by right]. destruct U1 as [U1|U1]; [left|right]; by eapply Qle_trans.
Qed.

Lemma source_at_sync q source now key : source_at (_sync_request_wait_states q source now) key = source_at q key.
Proof. reflexivity. Qed.

(** What a pause adds to the clock: at most the cap, and never a NaN that counts. *)
Lemma pause_until_bound o m seconds :
  (0 <= m <= inject_Z (2 ^ 50))%Q -> fle seconds f0 = false ->
  let seconds := if flt _MAX_SOURCE_PAUSE_SECONDS seconds then _MAX_SOURCE_PAUSE_SECONDS else seconds in
  exists p, fmax (Fin o) (fadd (Fin m) seconds) = Fin p /\ (o <= p)%Q /\ (p <= o \/ p <= rnd (m + 3600))%Q.
Proof.
  intros [M0 M1] Hs. cbv zeta. change (inject_Z (2 ^ 50)) with 1125899906842624%Q in M1.
  assert (B : forall s, (0 <= s <= 3600)%Q -> fadd (Fin m) (Fin s) = Fin (rnd (m + s))).
  { intros s [S0 S1]. cbn [fadd]. apply mk_fin. change (inject_Z (2 ^ 52)) with 4503599627370496%Q. lra. }
  assert (C : forall s, (0 <= s <= 3600)%Q -> exists p, fmax (Fin o) (fadd (Fin m) (Fin s)) = Fin p /\ (o <= p)%Q /\ (p <= o \/ p <= rnd (m + 3600))%Q).
  { intros s Hr. rewrite B by exact Hr. unfold fmax. destruct (flt (Fin o) _) eqn:F.
    - apply flt_fin in F. eexists. split; [reflexivity|]. split; [lra|]. right. apply rnd_mono. lra.
    - exists o. split; [reflexivity|]. split; [|left]; apply Qle_refl. }
  destruct seconds as [s| | |].
  - destruct (flt _MAX_SOURCE_PAUSE_SECONDS (Fin s)) eqn:F; [apply C; lra|].
    apply flt_fin_false in F. apply fle_fin_false in Hs. apply C. lra.
  - apply C. lra.
  - discriminate Hs.
  - exists o. split; [reflexivity|]. split; [|left]; apply Qle_refl.
Qed.

Lemma schedule_within n m now' q source seconds reason :
  (0 <= m <= n)%Q -> (n <= inject_Z (2 ^ 50))%Q ->
  pause_within n q (schedule_source_pause (Fin m) now' q source seconds reason).
Proof.
  intros [M0 M1] N. unfold schedule_source_pause. destruct (fle seconds f0) eqn:F; [apply pause_within_refl|].
  intros key o H. rewrite source_at_sync, source_at_set. case_decide as D.
  - subst key. cbn [ss_pause_until]. rewrite H.
    destruct (pause_until_bound o m seconds) as (p & E & L & U); [lra|exact F|].
    exists p. split; [exact E|]. split; [exact L|]. destruct U as [U|U]; [by left|right].
    eapply Qle_trans; [exact U|]. apply rnd_mono. lra.
  - exists o. split; [exact H|]. split; [|left]; apply Qle_refl.
Qed.

Section bounded.
Context (parsedate : string -> option Z) (headers : string -> option string) (source : string) (n : Q).
Hypothesis n_small : (n <= inject_Z (2 ^ 50))%Q.

Definition clock_ok (c : clock) : Prop := exists m, mono c = Fin m /\ (0 <= m <= n)%Q.

Lemma pause_for_within c q text reason q' :
  clock_ok c -> pause_for parsedate source c q text reason = Ok q' -> pause_within n q q'.
Proof.
  intros (m & E & M) H. unfold pause_for in H. inv_bind H. injection H as <-. rewrite E. by apply schedule_within.
Qed.

Lemma try_value_error_within (m : res queue) q q' :
  (forall q', m = Ok q' -> pause_within n q q') -> try_except m value_error (Ok q) = Ok q' -> pause_within n q q'.
Proof.
  intros Hm. destruct m as [x|e]; cbn [try_except]; intros H; [apply Hm, H|].
  destruct (value_error e); [|discriminate H]. injection H as <-. apply pause_within_refl.
Qed.

Lemma quota_within c q remaining reset limit reason q' :
  clock_ok c -> quota_pause parsedate headers source c q remaining reset limit reason = Ok q' -> pause_within n q q'.
Proof.
  intros C. unfold quota_pause. destruct (headers remaining); [|intros H; injection H as <-; apply pause_within_refl].
  destruct (nonempty _); [|intros H; injection H as <-; apply pause_within_refl].
  apply try_value_error_within. intros x H. inv_bind H. destruct (v <? limit)%Z; [by apply (pause_for_within c) in H|].
  injection H as <-. apply pause_within_refl.
Qed.

Lemma github_within c q q' :
  clock_ok c -> github_pause headers source c q = Ok q' -> pause_within n q q'.
Proof.
  intros (m & E & M). unfold github_pause.
  destruct (headers _); [|intros H; injection H as <-; apply pause_within_refl].
  destruct (nonempty _); [|intros H; injection H as <-; apply pause_within_refl].
  apply try_value_error_within. intros x H. inv_bind H. destruct (v <=? 0)%Z; [|injection H as <-; apply pause_within_refl].
  inv_bind H. injection H as <-. rewrite E. by apply schedule_within.
Qed.
End bounded.

(** ** Theorems *)

(** C2 In every reachable state and for every pacing key, the slots in use are the
    ids on the key's stack, without repetition, they are exactly the registered
    active requests, their number is the [active] counter and never exceeds the
    profile's concurrency, and the [queued] counter is the number of waiters. *)
Theorem slots_conserved q key :
  reachable q ->
  NoDup (stack_at q key) /\
  (forall rid, rid ∈ stack_at q key <-> holds_slot q key rid) /\
  ss_active (source_at q key) = Z.of_nat (length (stack_at q key)) /\
  (ss_active (source_at q key) <= max_concurrent (profile_of key))%Z /\
  exists X : gset string, (forall rid, rid ∈ X <-> waiting_for q key rid) /\ ss_queued (source_at q key) = Z.of_nat (size X).
Proof. intros R. by destruct (reachable_inv q R key). Qed.

(** Whatever rate-limit headers a provider sends, applying them pauses no source
    past an hour from now, and shortens no pause: an absolute time misread as a
    duration cannot stall the queue. *)
Theorem headers_pause_bounded parsedate headers clocks source tokens q q' n :
  (n <= inject_Z (2 ^ 50))%Q -> (forall i, clock_ok n (clocks i)) ->
  apply_rate_limit_headers parsedate headers clocks source tokens q = Ok q' ->
  pause_within n q q'.
Proof.
  intros N C H. unfold apply_rate_limit_headers in H. inv_bind H. inv_bind H. inv_bind H.
  apply (github_within headers source n N _ _ _ (C 3%nat)) in H.
  apply (quota_within parsedate headers source n N _ _ _ _ _ _ _ (C 2%nat)) in E1.
  assert (A1 : pause_within n q v).
  { destruct (nonempty _); [by apply (pause_for_within parsedate source n N _ _ _ _ _ (C 0%nat)) in E|].
    injection E as <-. apply pause_within_refl. }
  assert (A2 : pause_within n v v0).
  { destruct tokens; [by apply (quota_within parsedate headers source n N _ _ _ _ _ _ _ (C 1%nat)) in E0|].
    injection E0 as <-. apply pause_within_refl. }
  repeat (eapply pause_within_trans; [eassumption|]). apply pause_within_refl.
Qed.

(** Releasing a slot by id twice is releasing it once: the second call finds the
    id gone and leaves the counters alone. *)
Theorem release_idempotent q source rid :
  let q1 := release_api_slot q source (Some rid) in release_api_slot q1 source (Some rid) = q1.
Proof.
  cbv zeta. set (k := resolve_pacing_key source).
  assert (N : rid ∉ requests (release_api_slot q source (Some rid))).
  { unfold release_api_slot. case_bool_decide as D; cbn; [set_solver|exact D]. }
  set (q1 := release_api_slot q source (Some rid)) in *. unfold release_api_slot at 1. fold k.
  assert (SL : states q1 !! k = Some (source_at q1 k) /\ active_stacks q1 !! k = Some (stack_at q1 k)).
  { unfold source_at, stack_at, q1, release_api_slot. fold k.
    case_bool_decide; cbn; rewrite !lookup_insert_eq; done. }
  destruct SL as [S L]. rewrite bool_decide_eq_false_2 by exact N.
  unfold set_stack, set_source, stack_at. cbn [states objects requests active_stacks].
  fold (stack_at q1 k). rewrite insert_id by exact S. rewrite insert_id by exact L. by destruct q1.
Qed.

Definition demo_pacing : pacing := mkPacing (Fin 6) 1 "" "".
Definition demo_queued : queue := enqueue empty_queue "r1" "nvd" None None None f0.
Definition demo_request : api_request :=
  mkRequest "nvd" "nvd" (resolve_queue_task "nvd" None None None) queued f0 None None.
Definition demo_active : queue := fst (poll demo_queued "r1" demo_request demo_pacing (Fin 10) (Fin 10) (Fin 10)).

Lemma demo_reachable : reachable demo_active.
Proof.
  eapply reachable_step; [eapply reachable_step; [apply reachable_empty|]|].
  - by apply (step_enqueue _ "r1" "nvd").
  - apply step_poll; [set_solver|reflexivity|reflexivity|reflexivity].
Qed.

Lemma slots_conserved_witness :
  stack_at demo_active "nvd" = ["r1"] /\
  NoDup (stack_at demo_active "nvd") /\
  (forall rid, rid ∈ stack_at demo_active "nvd" <-> holds_slot demo_active "nvd" rid) /\
  ss_active (source_at demo_active "nvd") = Z.of_nat (length (stack_at demo_active "nvd")) /\
  (ss_active (source_at demo_active "nvd") <= max_concurrent (profile_of "nvd"))%Z /\
  exists X : gset string, (forall rid, rid ∈ X <-> waiting_for demo_active "nvd" rid) /\
    ss_queued (source_at demo_active "nvd") = Z.of_nat (size X).
Proof. split; [vm_compute; reflexivity|]. apply (slots_conserved demo_active "nvd"), demo_reachable. Defined.

Lemma headers_pause_bounded_witness :
  exists q', apply_rate_limit_headers (fun _ => None) (fun k => if String.eqb k "retry-after" then Some "86400" else None)
    (fun _ => mkClock (Fin 0) 0 (Fin 5) (Fin 5)) "nvd" None empty_queue = Ok q' /\ pause_within 5 empty_queue q'.
Proof.
  eexists. split; [vm_compute; reflexivity|].
  eapply (headers_pause_bounded (fun _ => None) (fun k => if String.eqb k "retry-after" then Some "86400" else None)
    (fun _ => mkClock (Fin 0) 0 (Fin 5) (Fin 5)) "nvd" None).
  - by vm_compute.
  - intros i. exists 5%Q. split; [reflexivity|lra].
  - vm_compute. reflexivity.
Defined.

Lemma flt_fmax x a b : isnan a = false -> isnan b = false -> flt x (fmax a b) = flt x a || flt x b.
Proof.
  intros Ha Hb. unfold fmax. destruct (flt a b) eqn:F.
  - destruct (flt x a) eqn:G; [|done]. cbn [orb].
    destruct x as [x| | |], a as [a| | |], b as [b| | |]; try done.
    apply flt_fin in F, G. apply flt_fin. lra.
  - destruct (flt x b) eqn:G; [|by rewrite orb_false_r]. rewrite orb_true_r.
    destruct x as [x| | |], a as [a| | |], b as [b| | |]; try done.
    apply flt_fin in G. apply flt_fin_false in F. apply flt_fin. lra.
Qed.

(** A turn of the wait loop grants the slot exactly when one is free, the pause
    is over and the minimum interval since the last request has passed; then it
    records the grant.  Otherwise it sleeps, a second at most, and tries again. *)
Theorem poll_grants_exactly q rid r p now t1 t2 :
  isnan (ss_pause_until (source_at q (rq_pacing_key r))) = false ->
  isnan (fadd (ss_last_request_at (source_at q (rq_pacing_key r))) (min_interval_seconds p)) = false ->
  let s := source_at q (rq_pacing_key r) in
  let free := (ss_active s <? max_concurrent p)%Z && negb (flt now (ss_pause_until s))
              && negb (flt now (fadd (ss_last_request_at s) (min_interval_seconds p))) in
  if free then poll q rid r p now t1 t2 = (granted q rid r t1 t2, None)
  else exists q' wait, poll q rid r p now t1 t2 = (q', Some wait) /\ flt f1 (sleep_for wait) = false /\
       ss_active (source_at q' (rq_pacing_key r)) = ss_active s /\ stack_at q' (rq_pacing_key r) = stack_at q (rq_pacing_key r).
Proof.
  intros Na Nb. cbv zeta. pose proof (poll_cases q rid r p now t1 t2) as C. cbv zeta in C.
  assert (S : forall w, flt f1 (sleep_for w) = false).
  { intros w. unfold sleep_for, fmin. by destruct (flt f1 w) eqn:F. }
  assert (E : flt now (earliest (source_at q (rq_pacing_key r)) p)
    = flt now (ss_pause_until (source_at q (rq_pacing_key r)))
      || flt now (fadd (ss_last_request_at (source_at q (rq_pacing_key r))) (min_interval_seconds p)))
    by by apply flt_fmax.
  assert (V : forall s' r', ss_active s' = ss_active (source_at q (rq_pacing_key r)) ->
    ss_active (source_at (set_request (set_source q (rq_pacing_key r) s') rid r') (rq_pacing_key r))
    = ss_active (source_at q (rq_pacing_key r))).
  { intros s' r' Hs. etransitivity; [apply (f_equal ss_active), (source_at_set q (rq_pacing_key r) (rq_pacing_key r))|].
    by rewrite decide_True. }
  destruct (flt now (ss_pause_until _)) eqn:F1, (flt now (fadd _ _)) eqn:F2;
    destruct (Z.ltb_spec (ss_active (source_at q (rq_pacing_key r))) (max_concurrent p)) as [L|L]; cbn [andb orb negb] in *.
  all: try (destruct C as [(C & _)|[(_ & C & _)|(_ & _ & C)]]; [lia|congruence|exact C]).
  all: destruct C as [(C & D)|[(C & _ & D)|(C & C' & _)]]; try lia; try congruence.
  all: destruct D as (s' & r' & D & D1 & D2 & _).
  all: unfold poll in *; cbv zeta in *; repeat case_match; try (bool_prop; lia); try congruence; cbn [fst] in D;
    do 2 eexists; (split; [reflexivity|split; [apply S|split; [by apply V|reflexivity]]]).
Qed.

Lemma poll_grants_exactly_witness :
  poll demo_queued "r1" demo_request demo_pacing (Fin 10) (Fin 10) (Fin 11)
  = (granted demo_queued "r1" demo_request (Fin 10) (Fin 11), None).
Proof.
  exact (poll_grants_exactly demo_queued "r1" demo_request demo_pacing (Fin 10) (Fin 10) (Fin 11) eq_refl eq_refl).
Defined.
