(* ===== verification/Resilient.v ===== *)
(** * Resilient: resilient_client.py

    The health registry with its circuit breaker, one logical request with its
    bounded retries, and the outer loop with queue slots.  What the network does
    is a list of outcomes, each with the clock readings of its handling; the
    functions return the registry and the trace of effects.  Metering, logging
    and the client pool are left out. *)

From S2P Require Import Prelude PyStr Float64 PyVal CveRow QueueTasks Pacing ApiQueue.
From Stdlib Require Import QArith.
Open Scope string_scope.

Definition DEFAULT_RETRIES : nat := 2.
Definition RETRY_BACKOFF_SECONDS : fl := lit (3#2).
Definition RETRYABLE_STATUS : list Z := [500; 502; 503; 504]%Z.

Record health := mkHealth {
  last_success : option fl;
  last_failure : option fl;
  last_error : option string;
  consecutive_failures : Z;
  circuit_open_until : fl
}.

Abbreviation registry := (gmap string health).
Definition new_health : health := mkHealth None None None 0 f0.
Definition health_of (h : registry) (source : string) : health :=
  match h !! source with Some s => s | None => new_health end.

(** [_state(source)] inserts the fresh entry of a source it has not seen. *)
Definition _state (h : registry) (source : string) : registry :=
  match h !! source with Some _ => h | None => <[source := new_health]> h end.

Section client.
(** The environment's thresholds, read once at import. *)
Variable CIRCUIT_FAILURE_THRESHOLD : Z.
Variable CIRCUIT_COOLDOWN_SECONDS : fl.

Definition _record_success (h : registry) (source : string) (now : fl) : registry :=
  let s := health_of h source in
  <[source := mkHealth (Some now) (last_failure s) None 0 f0]> h.

(** [now] and [now'] are the readings for the failure and for the cooldown. *)
Definition _record_failure (h : registry) (source error : string) (cooldown_seconds : option fl) (now now' : fl) : registry :=
  let s := health_of h source in
  let failures := (consecutive_failures s + 1)%Z in
  let cooldown := match cooldown_seconds with Some c => c | None => CIRCUIT_COOLDOWN_SECONDS end in
  let open := if (CIRCUIT_FAILURE_THRESHOLD <=? failures)%Z then fadd now' cooldown else circuit_open_until s in
  <[source := mkHealth (last_success s) (Some now) (Some (utake 300 error)) failures open]> h.

(** [bool(open_until and now < open_until)] *)
Definition circuit_open_at (h : registry) (source : string) (now : fl) : bool :=
  let u := circuit_open_until (health_of h source) in negb (feq u f0) && flt now u.

(** The admin action. *)
Definition reset_circuit (h : registry) (source : string) : res registry :=
  match h !! source with
  | None => Raise KeyError
  | Some s => Ok (<[source := mkHealth (last_success s) (last_failure s) None 0 f0]> h)
  end.

(** ** One logical request *)

Record rsp := mkRsp {
  r_status : Z; r_is_server_error : bool; r_is_client_error : bool; r_raises : bool;
  r_retry_after : option string; r_remaining : option string;
  r_apply : res unit    (** the result of [apply_rate_limit_headers] *)
}.

Inductive net_outcome := Response (r : rsp) | TransportError (text : string) | OtherError (e : exn).

(** An outcome and the readings of [time.time()] while it is handled. *)
Record event := mkEvent { ev_outcome : net_outcome; ev_now : fl; ev_now' : fl; ev_wall_us : Z }.

(** How a request ends: its response, or the exception, with the response an
    [HTTPStatusError] carries. *)
Inductive ending := Returned (r : rsp) | StatusError (r : rsp) | Failed (e : exn).

Inductive act := Request | Sleep (seconds : fl) | ApplyHeaders (r : rsp) | AcquireSlot | ReleaseSlot | PauseSource (seconds : fl).

Variable parsedate : string -> option Z.

Definition backoff (attempt : nat) : res fl :=
  let! n := fl_of_int (2 ^ Z.of_nat attempt) in Ok (fmul RETRY_BACKOFF_SECONDS n).

(** The two header spellings name the same header, so one lookup is enough. *)
Definition _retry_after_seconds (e : event) (r : rsp) (attempt : nat) : res fl :=
  let text := strip (text_or (r_retry_after r)) in
  if nonempty text then
    let! parsed := _parse_duration_seconds parsedate (ev_now e) (ev_wall_us e) text in
    if flt f0 parsed then Ok (fmin parsed (Fin 120)) else backoff attempt
  else backoff attempt.

Record options := mkOptions {
  o_retries : nat; o_record_client_error : bool; o_record_circuit : bool;
  o_wait_on_rate_limit : bool; o_wait_on_circuit : bool; o_ignore_circuit : bool
}.

Definition failure (o : options) (h : registry) (source error : string) (cooldown : option fl) (e : event) : registry :=
  if o_record_circuit o then _record_failure h source error cooldown (ev_now e) (ev_now' e) else h.

Definition http_text (r : rsp) : string := "HTTP " +:+ str_of_Z (r_status r).

(** The end of the handling of one attempt: done, or sleep and try again. *)
Inductive next := Done (en : ending) | Again (seconds : fl).

Definition again_or (s : res fl) : next := match s with Ok x => Again x | Raise e => Done (Failed e) end.

(** From [if response.is_server_error] on. *)
Definition finish (o : options) (h : registry) (source : string) (e : event) (r : rsp) (tr : list act)
  : registry * list act * next :=
  let h := if r_is_server_error r then failure o h source (http_text r) None e else h in
  if r_is_server_error r && r_raises r then (h, tr, Done (StatusError r))
  else
    let h := if r_is_client_error r && o_record_client_error o then
               let s := health_of h source in
               <[source := mkHealth (last_success s) (last_failure s) (Some (http_text r))
                             (consecutive_failures s) (circuit_open_until s)]> h
             else h in
    if r_is_client_error r && r_raises r then (h, tr, Done (StatusError r))
    else
      let h := if o_record_circuit o then _record_success h source (ev_now e) else h in
      let tr := (tr ++ [ApplyHeaders r])%list in
      match r_apply r with Ok _ => (h, tr, Done (Returned r)) | Raise x => (h, tr, Done (Failed x)) end.

(** The 429 and 403 branches, then the rest. *)
Definition after_retryable (o : options) (h : registry) (source : string) (e : event) (r : rsp) (attempt : nat)
  : registry * list act * next :=
  let last := negb (attempt <? o_retries o)%nat in
  if (r_status r =? 429)%Z then
    match r_apply r with
    | Raise x => (h, [ApplyHeaders r], Done (Failed x))
    | Ok _ => if last then (h, [ApplyHeaders r], Done (StatusError r))
              else (h, [ApplyHeaders r], again_or (_retry_after_seconds e r attempt))
    end
  else if (r_status r =? 403)%Z then
    match r_apply r with
    | Raise x => (h, [ApplyHeaders r], Done (Failed x))
    | Ok _ =>
        let exhausted := match r_remaining r with
                         | Some t => match int_of_str t with Ok n => (n <=? 0)%Z | Raise _ => false end
                         | None => false
                         end in
        if exhausted then
          if last then (h, [ApplyHeaders r], Done (StatusError r))
          else match _retry_after_seconds e r attempt with
               | Ok x => (h, [ApplyHeaders r], Again x)
               | Raise ValueError => finish o h source e r [ApplyHeaders r]
               | Raise x => (h, [ApplyHeaders r], Done (Failed x))
               end
        else finish o h source e r [ApplyHeaders r]
    end
  else finish o h source e r [].

Definition is_retryable (r : rsp) : bool := existsb (Z.eqb (r_status r)) RETRYABLE_STATUS.

Definition handle (o : options) (h : registry) (source : string) (e : event) (attempt : nat)
  : registry * list act * next :=
  match ev_outcome e with
  | OtherError x => (h, [], Done (Failed x))
  | TransportError text =>
      if (attempt <? o_retries o)%nat then (h, [], again_or (backoff attempt))
      else (failure o h source text None e, [], Done (Failed HTTPError))
  | Response r =>
      if is_retryable r then
        if (attempt <? o_retries o)%nat then (h, [], again_or (_retry_after_seconds e r attempt))
        else
          match _retry_after_seconds e r attempt with
          | Raise x => (h, [], Done (Failed x))
          | Ok s =>
              let h := failure o h source (http_text r) (Some (fmax s CIRCUIT_COOLDOWN_SECONDS)) e in
              if r_raises r then (h, [], Done (StatusError r)) else after_retryable o h source e r attempt
          end
      else after_retryable o h source e r attempt
  end.

(** [for attempt in range(retries + 1)]; [None]: an outcome is still awaited. *)
Fixpoint execute (o : options) (h : registry) (source : string) (attempt : nat) (evs : list event)
  : registry * list act * option (ending * list event) :=
  match evs with
  | [] => (h, [], None)
  | e :: rest =>
      let '(h, tr, n) := handle o h source e attempt in
      match n with
      | Done en => (h, Request :: tr, Some (en, rest))
      | Again s =>
          let '(h, tr', out) := execute o h source (S attempt) rest in
          (h, (Request :: tr ++ Sleep s :: tr')%list, out)
      end
  end.

Definition _execute_request_attempt (o : options) (h : registry) (source : string) (evs : list event) :=
  execute o h source 0 evs.

(** ** The outer loop *)

Definition is_rate_limited (r : rsp) : bool :=
  (r_status r =? 429)%Z
  || (r_status r =? 403)%Z && match r_remaining r with Some t => String.eqb t "0" | None => false end.

(** One turn of [while True]: the readings of the circuit check, and the events
    of the request made when the circuit lets it through. *)
Record round := mkRound { rd_now : fl; rd_now' : fl; rd_events : list event }.

Fixpoint resilient_request (o : options) (h : registry) (source : string) (rounds : list round)
  : registry * list act * option ending :=
  match rounds with
  | [] => (h, [], None)
  | rd :: rest =>
      let h := _state h source in
      if circuit_open_at h source (rd_now rd) && negb (o_ignore_circuit o) then
        if o_wait_on_circuit o then
          let wait := fadd (fsub (circuit_open_until (health_of h source)) (rd_now' rd)) (lit (1#10)) in
          let '(h, tr, out) := resilient_request o h source rest in (h, PauseSource wait :: Sleep wait :: tr, out)
        else (h, [], Some (Failed CircuitOpenError))
      else
        match _execute_request_attempt o h source (rd_events rd) with
        | (h, tr, None) => (h, AcquireSlot :: tr, None)
        | (h, tr, Some (en, _)) =>
            let tr := (AcquireSlot :: tr ++ [ReleaseSlot])%list in
            match en with
            | StatusError r =>
                if o_wait_on_rate_limit o && is_rate_limited r then
                  let '(h, tr', out) := resilient_request o h source rest in (h, (tr ++ tr')%list, out)
                else (h, tr, Some en)
            | _ => (h, tr, Some en)
            end
        end
  end.
End client.

(** ** The breaker as a counter

    What the registry remembers of a source is the run of failures since the last
    success or reset, and the last failure's cooldown. *)

Inductive health_event :=
| Success (now : fl)
| Failure (error : string) (cooldown : option fl) (now now' : fl)
| Reset.

Section breaker.
Context (threshold : Z) (cooldown : fl) (source : string).

Definition health_step (h : registry) (ev : health_event) : registry :=
  match ev with
  | Success now => _record_success h source now
  | Failure error cd now now' => _record_failure threshold cooldown h source error cd now now'
  | Reset => match reset_circuit h source with Ok h' => h' | Raise _ => h end
  end.

Definition run (l : list health_event) : registry := fold_left health_step l ∅.

(** The run of failures at the end of a history, newest first. *)
Fixpoint failure_run (l : list health_event) : Z :=
  match l with Failure _ _ _ _ :: t => (failure_run t + 1)%Z | _ => 0%Z end.

Definition open_time (l : list health_event) : fl :=
  match l with
  | Failure _ cd _ now' :: _ =>
      if (threshold <=? failure_run l)%Z then fadd now' (match cd with Some c => c | None => cooldown end) else f0
  | _ => f0
  end.

Lemma run_refines l :
  (1 <= threshold)%Z ->
  consecutive_failures (health_of (run l) source) = failure_run (rev l) /\
  circuit_open_until (health_of (run l) source) = open_time (rev l).
Proof.
  intros HT. induction l as [|ev l IH] using rev_ind; [done|].
  unfold run in *. rewrite fold_left_app, rev_app_distr. cbn [fold_left rev app].
  set (h := fold_left health_step l ∅) in *. destruct IH as [I1 I2].
  unfold health_of in *. destruct ev as [now|error cd now now'|]; cbn [health_step].
  - unfold _record_success. by rewrite lookup_insert_eq.
  - unfold _record_failure, health_of. rewrite lookup_insert_eq. cbn [consecutive_failures circuit_open_until failure_run open_time].
    rewrite I1. split; [done|]. destruct (Z.leb_spec threshold (failure_run (rev l) + 1)); [done|].
    rewrite I2. unfold open_time. destruct (rev l) as [|[] t]; try done.
    cbn [failure_run] in *. rewrite (proj2 (Z.leb_gt _ _)) by lia. done.
  - unfold reset_circuit. destruct (h !! source) as [s|] eqn:E; [by rewrite lookup_insert_eq|].
    rewrite E. by split.
Qed.
End breaker.

(** ** Attempts *)

Definition is_request (a : act) : bool := match a with Request => true | _ => false end.
Definition request_count (tr : list act) : nat := length (List.filter is_request tr).

Lemma request_count_app a b : request_count (a ++ b) = (request_count a + request_count b)%nat.
Proof. unfold request_count. by rewrite List.filter_app, length_app. Qed.

Section attempts.
Context (threshold : Z) (cooldown : fl) (parsedate : string -> option Z).

Abbreviation handle := (handle threshold cooldown parsedate).
Abbreviation execute := (execute threshold cooldown parsedate).
Abbreviation finish := (finish threshold cooldown).

Lemma finish_done o h source e r tr :
  exists en, snd (finish o h source e r tr) = Done en.
Proof. unfold Resilient.finish. repeat case_goal; eexists; reflexivity. Qed.

Lemma finish_requests o h source e r tr :
  request_count tr = 0%nat -> request_count (snd (fst (finish o h source e r tr))) = 0%nat.
Proof.
  intros H. unfold Resilient.finish. repeat case_goal; cbn [fst snd]; rewrite ?request_count_app, H; done.
Qed.

Lemma handle_again o h source e attempt s :
  snd (handle o h source e attempt) = Again s -> (attempt < o_retries o)%nat.
Proof.
  assert (F : forall h' e' r tr, snd (finish o h' source e' r tr) = Again s -> False).
  { intros h' e' r tr H. destruct (finish_done o h' source e' r tr) as (en & E). congruence. }
  assert (A : forall h', snd (after_retryable threshold cooldown parsedate o h' source e
     match ev_outcome e with Response r => r | _ => mkRsp 0 false false false None None (Ok tt) end attempt) = Again s -> (attempt < o_retries o)%nat).
  { intros h'. unfold after_retryable. set (r := match ev_outcome e with Response r => r | _ => _ end).
    destruct (Nat.ltb_spec attempt (o_retries o)) as [L|L]; [done|]. cbn [negb].
    intros H. repeat case_hyp H; cbn [snd] in H; try discriminate H; by apply F in H. }
  unfold Resilient.handle. destruct (ev_outcome e) as [r|t|x]; [|destruct (Nat.ltb_spec attempt (o_retries o)); done|done].
  destruct (is_retryable r); [|apply A].
  destruct (Nat.ltb_spec attempt (o_retries o)) as [L|L]; [done|].
  destruct (_retry_after_seconds parsedate e r attempt); [|done]. destruct (r_raises r); [done|]. apply A.
Qed.

Lemma handle_requests o h source e attempt : request_count (snd (fst (handle o h source e attempt))) = 0%nat.
Proof.
  unfold Resilient.handle, after_retryable.
  repeat case_goal; try reflexivity; by apply finish_requests.
Qed.

Lemma execute_cons o h source attempt e rest :
  execute o h source attempt (e :: rest) =
  let x := handle o h source e attempt in
  match snd x with
  | Done en => (fst (fst x), Request :: snd (fst x), Some (en, rest))
  | Again s =>
      let y := execute o (fst (fst x)) source (S attempt) rest in
      (fst (fst y), (Request :: snd (fst x) ++ Sleep s :: snd (fst y))%list, snd y)
  end.
Proof.
  cbn [Resilient.execute]. destruct (handle o h source e attempt) as [[h' tr] [en|s]]; cbn [fst snd]; [done|].
  by destruct (execute o h' source (S attempt) rest) as [[? ?] ?].
Qed.

Lemma execute_bounded o source evs : forall h attempt,
  (attempt <= o_retries o)%nat ->
  (request_count (snd (fst (execute o h source attempt evs))) + attempt <= S (o_retries o))%nat /\
  ((S (o_retries o) <= attempt + length evs)%nat -> snd (execute o h source attempt evs) <> None).
Proof.
  induction evs as [|e rest IH]; intros h attempt Ha; [cbn; split; [lia|intros; lia]|].
  rewrite execute_cons. cbv zeta. pose proof (handle_requests o h source e attempt) as R.
  pose proof (handle_again o h source e attempt) as G.
  destruct (handle o h source e attempt) as [[h' tr] [en|s]]; cbn [fst snd] in *.
  - split; [|done]. change (Request :: tr)%list with ([Request] ++ tr)%list. rewrite request_count_app, R. cbn. lia.
  - specialize (G s eq_refl). destruct (IH h' (S attempt) ltac:(lia)) as [B T]. split.
    + change (Request :: tr ++ Sleep s :: ?x)%list with ([Request] ++ tr ++ [Sleep s] ++ x)%list.
      rewrite !request_count_app, R. change (request_count [Request]) with 1%nat. change (request_count [Sleep s]) with 0%nat. lia.
    + cbn [length]. intros L. apply T. lia.
Qed.
End attempts.

(** ** The registry under a request *)

(** Nothing the breaker reads has changed, for any source. *)
Definition same_circuits (h h' : registry) : Prop :=
  forall s, consecutive_failures (health_of h' s) = consecutive_failures (health_of h s) /\
            circuit_open_until (health_of h' s) = circuit_open_until (health_of h s).

Lemma same_circuits_refl h : same_circuits h h.
Proof. by split. Qed.

Lemma same_circuits_trans h1 h2 h3 : same_circuits h1 h2 -> same_circuits h2 h3 -> same_circuits h1 h3.
Proof. intros A B s. destruct (A s), (B s). split; congruence. Qed.

Lemma same_circuits_error h source text :
  let s := health_of h source in
  same_circuits h (<[source := mkHealth (last_success s) (last_failure s) text (consecutive_failures s) (circuit_open_until s)]> h).
Proof.
  cbv zeta. intros s. unfold health_of. destruct (decide (source = s)) as [->|N];
    [by rewrite lookup_insert_eq|by rewrite lookup_insert_ne].
Qed.

Section isolation.
Context (threshold : Z) (cooldown : fl) (parsedate : string -> option Z) (o : options) (source : string).
Hypothesis probe : o_record_circuit o = false.

Lemma finish_probe h e r tr : same_circuits h (fst (fst (finish threshold cooldown o h source e r tr))).
Proof.
  unfold finish, failure. rewrite probe.
  repeat case_goal; cbn [fst]; first [apply same_circuits_refl | apply same_circuits_error].
Qed.

Lemma handle_probe h e attempt : same_circuits h (fst (fst (handle threshold cooldown parsedate o h source e attempt))).
Proof.
  unfold handle, after_retryable, failure. rewrite probe.
  repeat case_goal; cbn [fst]; first [apply same_circuits_refl | apply finish_probe].
Qed.

Lemma execute_probe evs : forall h attempt,
  same_circuits h (fst (fst (execute threshold cooldown parsedate o h source attempt evs))).
Proof.
  induction evs as [|e rest IH]; intros h attempt; [apply same_circuits_refl|].
  rewrite execute_cons. cbv zeta. pose proof (handle_probe h e attempt) as P.
  destruct (handle _ _ _ _ _ _ _ _) as [[h' tr] [en|s]]; cbn [fst snd] in *; [exact P|].
  eapply same_circuits_trans; [exact P|apply IH].
Qed.
End isolation.

Definition is_429 (e : event) : Prop := exists r, ev_outcome e = Response r /\ r_status r = 429%Z.

Lemma handle_429 threshold cooldown parsedate o h source e attempt :
  is_429 e -> fst (fst (handle threshold cooldown parsedate o h source e attempt)) = h.
Proof.
  intros (r & E & S). unfold handle. rewrite E. unfold is_retryable. rewrite S. cbn [existsb RETRYABLE_STATUS Z.eqb Pos.eqb orb].
  unfold after_retryable. rewrite S. cbn [Z.eqb Pos.eqb]. repeat case_goal; reflexivity.
Qed.

Lemma execute_429 threshold cooldown parsedate o source evs : forall h attempt,
  Forall is_429 evs -> fst (fst (execute threshold cooldown parsedate o h source attempt evs)) = h.
Proof.
  induction evs as [|e rest IH]; intros h attempt F; [done|]. inversion F as [|? ? He Hr]; subst.
  rewrite execute_cons. cbv zeta. pose proof (handle_429 threshold cooldown parsedate o h source e attempt He) as P.
  destruct (handle _ _ _ _ _ _ _ _) as [[h' tr] [en|s]]; cbn [fst snd] in *; subst; [done|]. by apply IH.
Qed.

Lemma state_open h source t : circuit_open_at h source t = true -> _state h source = h.
Proof. unfold circuit_open_at, health_of, _state. by destruct (h !! source). Qed.

(** ** Theorems *)

(** C12 The breaker is a counter: after any history of successes, failures and resets
    of a source its circuit is open at a time exactly when the history ends in at
    least [threshold] failures in a row and the cooldown of the last one has not
    elapsed. *)
Theorem circuit_open_iff_failure_run threshold cooldown source l t :
  (1 <= threshold)%Z ->
  circuit_open_at (run threshold cooldown source l) source t =
  match rev l with
  | Failure _ cd _ failed_at :: _ =>
      let until := fadd failed_at (match cd with Some c => c | None => cooldown end) in
      (threshold <=? failure_run (rev l))%Z && negb (feq until f0) && flt t until
  | _ => false
  end.
Proof.
  intros HT. destruct (run_refines threshold cooldown source l HT) as [_ R].
  unfold circuit_open_at. rewrite R. unfold open_time. destruct (rev l) as [|[] r]; try done.
  destruct (threshold <=? _)%Z; [reflexivity|]. reflexivity.
Qed.

Lemma circuit_open_iff_failure_run_witness :
  circuit_open_at (run 3 (Fin 60) "nvd" [Failure "e" None (Fin 1) (Fin 1); Failure "e" None (Fin 2) (Fin 2); Failure "e" None (Fin 3) (Fin 3)])
    "nvd" (Fin 10) = true.
Proof.
  etransitivity; [apply (circuit_open_iff_failure_run 3 (Fin 60) "nvd"); lia|]. vm_compute. reflexivity.
Defined.

(** A logical request makes at most [retries + 1] HTTP requests and, once that
    many outcomes are in, it has returned or raised: the loop never spins. *)
Theorem request_attempts_bounded threshold cooldown parsedate o h source evs :
  let r := _execute_request_attempt threshold cooldown parsedate o h source evs in
  (request_count (snd (fst r)) <= S (o_retries o))%nat /\
  ((S (o_retries o) <= length evs)%nat -> snd r <> None).
Proof.
  cbv zeta. unfold _execute_request_attempt.
  destruct (execute_bounded threshold cooldown parsedate o source evs h 0 ltac:(lia)) as [B T].
  split; [lia|]. intros L. apply T. lia.
Qed.

(** Rate limiting is not failure: however many 429s a source answers, the health
    registry stays as it was and its circuit cannot open. *)
Theorem rate_limits_never_trip threshold cooldown parsedate o h source evs :
  Forall is_429 evs -> fst (fst (_execute_request_attempt threshold cooldown parsedate o h source evs)) = h.
Proof. apply execute_429. Qed.

Definition sample_429 : event :=
  mkEvent (Response (mkRsp 429 false true true (Some "1") None (Ok tt))) (Fin 0) (Fin 0) 0.
Definition sample_options : options := mkOptions 2 true true true false false.

Lemma rate_limits_never_trip_witness :
  fst (fst (_execute_request_attempt 1 (Fin 60) (fun _ => None) sample_options ∅ "otx" [sample_429; sample_429; sample_429])) = ∅.
Proof.
  apply (rate_limits_never_trip 1 (Fin 60) (fun _ => None) sample_options ∅ "otx").
  repeat constructor; by exists (mkRsp 429 false true true (Some "1") None (Ok tt)).
Defined.

(** A probe ([record_circuit=False]) leaves every circuit as it found it, on all
    outcomes: neither the failure counts nor the open times move. *)
Theorem probes_leave_circuits threshold cooldown parsedate o h source evs :
  o_record_circuit o = false ->
  same_circuits h (fst (fst (_execute_request_attempt threshold cooldown parsedate o h source evs))).
Proof. intros H. by apply execute_probe. Qed.

Lemma probes_leave_circuits_witness :
  same_circuits ∅ (fst (fst (_execute_request_attempt 1 (Fin 60) (fun _ => None) (mkOptions 0 true false true false true) ∅ "otx"
    [mkEvent (TransportError "ConnectError") (Fin 0) (Fin 0) 0]))).
Proof. by apply (probes_leave_circuits 1 (Fin 60) (fun _ => None) (mkOptions 0 true false true false true)). Defined.

(** While a circuit is open no request is sent and no slot is taken, whether the
    caller fails fast or waits: the trace holds pauses and sleeps only. *)
Theorem open_circuit_sends_nothing threshold cooldown parsedate o h source rounds :
  o_ignore_circuit o = false ->
  Forall (fun rd => circuit_open_at h source (rd_now rd) = true) rounds ->
  let r := resilient_request threshold cooldown parsedate o h source rounds in
  fst (fst r) = h /\ Forall (fun a => match a with PauseSource _ | Sleep _ => True | _ => False end) (snd (fst r)).
Proof.
  intros Hi F. cbv zeta. induction F as [|rd rest Hrd _ IH]; [by split|].
  cbn [resilient_request]. rewrite (state_open _ _ _ Hrd), Hrd, Hi. cbn [negb andb]. destruct (o_wait_on_circuit o); [|by split].
  destruct (resilient_request _ _ _ _ _ _ rest) as [[h' tr] out]. cbn [fst snd] in *. destruct IH as [-> T].
  split; [done|]. by repeat constructor.
Qed.

Definition open_registry : registry := {[ "nvd" := mkHealth None None None 3 (Fin 100) ]}.

Lemma open_circuit_sends_nothing_witness :
  fst (fst (resilient_request 3 (Fin 60) (fun _ => None) (mkOptions 2 true true true true false) open_registry "nvd"
    [mkRound (Fin 50) (Fin 50) []; mkRound (Fin 99) (Fin 99) []])) = open_registry.
Proof.
  apply (open_circuit_sends_nothing 3 (Fin 60) (fun _ => None) (mkOptions 2 true true true true false) open_registry "nvd").
  - reflexivity.
  - repeat constructor; vm_compute; reflexivity.
Defined.
