(* ===== verification/RateLimit.v ===== *)
(** * RateLimit: rate_limit.py and rate_limit_store.py

    Token buckets in memory and in the shared store, the client key they are
    charged to, and the 429 of a route.  A bucket dict keeps its insertion order
    (the eviction sort is stable); the shared store is a load and a save. *)

From S2P Require Import Prelude PyStr Float64 FloatErr PyVal CveRow PyNet.
From Stdlib Require Import QArith Qabs Lqa.
Open Scope string_scope.

Definition _PRUNE_THRESHOLD : nat := 1024.
Definition _MAX_BUCKETS : nat := 2 * _PRUNE_THRESHOLD.
Definition _TRUSTED_PROXY_PEERS : list string := ["127.0.0.1"; "::1"; "localhost"].

Definition trusted (peer : string) : bool := existsb (String.eqb peer) _TRUSTED_PROXY_PEERS.

(** ** The bucket *)

Record token_bucket := mkBucket {
  rate_per_minute : Z;
  capacity : fl;
  refill_per_second : fl;
  tb_name : string;
  hit_count : Z;
  buckets : list (string * (fl * fl));   (** tokens remaining, last update *)
  hits : list (string * Z)
}.

Definition new_bucket (rate : Z) (name : string) : res token_bucket :=
  let rate := Z.max 1 rate in
  let! capacity := fl_of_int rate in
  let! refill := fdiv capacity (Fin 60) in
  Ok (mkBucket rate capacity refill name 0 [] []).

Definition with_buckets (b : token_bucket) (bs : list (string * (fl * fl))) (hs : list (string * Z)) : token_bucket :=
  mkBucket (rate_per_minute b) (capacity b) (refill_per_second b) (tb_name b) (hit_count b) bs hs.

(** [sorted(items, key=last, reverse=True)], stable. *)
Fixpoint insert_recent (x : string * (fl * fl)) (l : list (string * (fl * fl))) :=
  match l with
  | [] => [x]
  | y :: t => if fle (snd (snd y)) (snd (snd x)) then x :: l else y :: insert_recent x t
  end.
Definition by_recency (l : list (string * (fl * fl))) := fold_right insert_recent [] l.

Definition active_hits (bs : list (string * (fl * fl))) (hs : list (string * Z)) : list (string * Z) :=
  List.filter (fun h => existsb (fun e => String.eqb (fst e) (fst h)) bs) hs.

Definition _maybe_prune (b : token_bucket) (now : fl) : res token_bucket :=
  if (length (buckets b) <? _PRUNE_THRESHOLD)%nat then Ok b
  else
    let! full_after := fdiv (capacity b) (refill_per_second b) in
    let bs := List.filter (fun e => flt (fsub now (snd (snd e))) full_after) (buckets b) in
    let hs := active_hits bs (hits b) in
    if (length bs <=? _MAX_BUCKETS)%nat then Ok (with_buckets b bs hs)
    else
      let bs := firstn _PRUNE_THRESHOLD (by_recency bs) in
      Ok (with_buckets b bs (active_hits bs hs)).

(** The refill of one entry. *)
Definition refilled (b : token_bucket) (key : string) (now : fl) : fl :=
  let '(tokens, last) := match assoc key (buckets b) with Some e => e | None => (capacity b, now) end in
  fmin (capacity b) (fadd tokens (fmul (fsub now last) (refill_per_second b))).

Definition count_hit (b : token_bucket) (key : string) : token_bucket :=
  mkBucket (rate_per_minute b) (capacity b) (refill_per_second b) (tb_name b) (hit_count b + 1) (buckets b)
    (dset (hits b) key (match assoc key (hits b) with Some n => n | None => 0 end + 1)%Z).

(** [acquire] with the in-memory store: the bucket, and 0 or the wait. *)
Definition acquire (b : token_bucket) (key : string) (now : fl) : res (token_bucket * fl) :=
  let b := count_hit b key in
  let tokens := refilled b key now in
  if fle f1 tokens then
    let! b := _maybe_prune (with_buckets b (dset (buckets b) key (fsub tokens f1, now)) (hits b)) now in
    Ok (b, f0)
  else
    let! retry := fdiv (fsub f1 tokens) (refill_per_second b) in
    Ok (with_buckets b (dset (buckets b) key (tokens, now)) (hits b), retry).

(** ** The client key *)

Record http_request := mkHttp { peer_host : option string; header : string -> string }.

(** The rightmost hop that is no proxy of ours. *)
Definition rightmost_hop (forwarded : string) : option string :=
  find (fun hop => negb (trusted hop)) (rev (map strip (List.filter (fun h => nonempty (strip h)) (split_on "," forwarded)))).

Definition client_key (r : http_request) : string :=
  let peer := text_or (peer_host r) in
  if negb (trusted peer) then (if nonempty peer then peer else "unknown")
  else
    let cf_ip := strip (header r "cf-connecting-ip") in
    if nonempty cf_ip then cf_ip
    else
      match rightmost_hop (header r "x-forwarded-for") with
      | Some hop => hop
      | None =>
          let real_ip := strip (header r "x-real-ip") in
          if nonempty real_ip && negb (trusted real_ip) then real_ip else peer
      end.

(** [_enforce]: the bucket after the request, and the [Retry-After] of a 429. *)
Definition _enforce (enabled : bool) (b : token_bucket) (r : http_request) (now : fl) : res (token_bucket * option Z) :=
  if negb enabled then Ok (b, None)
  else
    let! a := acquire b (client_key r) now in
    if flt f0 (snd a) then
      let! secs := ceil_of_fl (snd a) in Ok (fst a, Some (Z.max 1 secs))
    else Ok (fst a, None).

(** ** The shared store *)

Record stored := mkStored { st_tokens : option pyval; st_last : option pyval; st_hits : option pyval }.

Definition stored_float (v : option pyval) (default : fl) : res fl :=
  match v with Some v => py_float v | None => Ok default end.

(** The new stored row, and 0 or the wait. *)
Definition shared_acquire (row : option stored) (rate_per_minute : Z) (now : fl) : res (stored * fl) :=
  let rate := Z.max 1 rate_per_minute in
  let! capacity := fl_of_int rate in
  let! refill := fdiv capacity (Fin 60) in
  let s := match row with Some s => s | None => mkStored None None None end in
  let! tokens := stored_float (st_tokens s) capacity in
  let! last := stored_float (st_last s) now in
  let! n := (match st_hits s with Some v => py_int v | None => Ok 0%Z end) in
  let save (t : fl) := mkStored (Some (PFloat t)) (Some (PFloat now)) (Some (PInt (n + 1))) in
  let tokens := fmin capacity (fadd tokens (fmul (fsub now last) refill)) in
  if fle f1 tokens then Ok (save (fsub tokens f1), f0)
  else let! retry := fdiv (fsub f1 tokens) refill in Ok (save tokens, retry).

(** ** Lemmas *)

Lemma split_on_app2 c a t : split_on c (a +:+ String c t) = (split_on c a ++ split_on c t)%list.
Proof.
  induction a as [|x a IH]; rewrite ?app_nil, ?app_cons; cbn [split_on].
  - by rewrite Ascii.eqb_refl.
  - rewrite IH. destruct (Ascii.eqb x c); [done|].
    pose proof (split_on_nonempty c a). by destruct (split_on c a).
Qed.

(** A float that is the integer [k]. *)
Definition int_fl (x : fl) (k : Z) : Prop := exists q, x = Fin q /\ (q == inject_Z k)%Q.

Lemma mk_int q k : (q == inject_Z k)%Q -> (0 <= k <= 2 ^ 51)%Z -> int_fl (mk q) k.
Proof.
  intros E H. assert (B : (0 <= inject_Z k <= inject_Z (2 ^ 51))%Q).
  { change 0%Q with (inject_Z 0). by rewrite <- !Zle_Qle. }
  change (inject_Z (2 ^ 51)) with 2251799813685248%Q in B.
  exists (rnd q). split; [apply mk_fin; rewrite E; change (inject_Z (2 ^ 52)) with 4503599627370496%Q; lra|].
  rewrite E. apply rnd_int. lia.
Qed.

Lemma feq_sub_self t : int_fl (fsub (Fin t) (Fin t)) 0.
Proof. cbn [fsub fadd fneg]. apply mk_int; [ring|lia]. Qed.

(** A bucket as its constructor makes it. *)
Record bucket_ok (b : token_bucket) : Prop := mkBucketOk {
  bo_rate : (1 <= rate_per_minute b <= 1000000)%Z;
  bo_capacity : int_fl (capacity b) (rate_per_minute b);
  bo_refill : exists r, refill_per_second b = Fin r /\ (0 < r <= 20000)%Q
}.

Lemma new_bucket_ok rate name b : (rate <= 1000000)%Z -> new_bucket rate name = Ok b -> bucket_ok b.
Proof.
  intros Hr H. unfold new_bucket in H. set (n := Z.max 1 rate) in H. assert (Hn : (1 <= n <= 1000000)%Z) by lia.
  clearbody n. inv_bind H. inv_bind H. injection H as <-.
  unfold fl_of_int in E. destruct (mk_int (inject_Z n) n) as (q & Eq & Q); [reflexivity|lia|].
  rewrite Eq in E. injection E as <-. cbn [fdiv] in E0. change (Qeq_bool 60 0) with false in E0. injection E0 as <-.
  assert (B : (1 <= inject_Z n <= 1000000)%Q).
  { change 1%Q with (inject_Z 1). change 1000000%Q with (inject_Z 1000000). by rewrite <- !Zle_Qle. }
  assert (D : (q / 60 == q * (1 # 60))%Q) by reflexivity.
  split; cbn [rate_per_minute capacity refill_per_second]; [exact Hn|by exists q|].
  exists (rnd (q / 60)). split.
  - apply mk_fin. rewrite D, Q. change (inject_Z (2 ^ 52)) with 4503599627370496%Q. lra.
  - split.
    + assert (L : (rnd (1 # 60) <= rnd (q / 60))%Q) by (apply rnd_mono; rewrite D, Q; lra).
      assert (P : (0 < rnd (1 # 60))%Q) by (vm_compute; reflexivity). lra.
    + apply (rnd_le_int _ 20000); [lia|]. rewrite D, Q. change (inject_Z 20000) with 20000%Q. lra.
Qed.

Lemma with_buckets_ok b bs hs : bucket_ok b -> bucket_ok (with_buckets b bs hs).
Proof. by intros [A B C]. Qed.
Lemma count_hit_ok b key : bucket_ok b -> bucket_ok (count_hit b key).
Proof. by intros [A B C]. Qed.

(** A key the bucket does not know starts full. *)
Lemma refilled_fresh b key now :
  bucket_ok b -> assoc key (buckets b) = None -> fle f1 (refilled b key now) = true.
Proof.
  intros [R (c & C & Q) (r & Rf & Rr)] N. unfold refilled. rewrite N, C, Rf.
  assert (B : (1 <= inject_Z (rate_per_minute b))%Q) by (change 1%Q with (inject_Z 1); rewrite <- Zle_Qle; lia).
  assert (G : forall x, (forall y, x = Fin y -> (1 <= y)%Q) -> x <> NInf -> fle f1 (fmin (Fin c) x) = true).
  { intros x H1 H2. unfold fmin. destruct (flt x (Fin c)) eqn:F.
    - destruct x as [y| | |]; try done. apply fle_fin, H1. done.
    - apply fle_fin. rewrite Q. exact B. }
  destruct now as [t| | |]; try (apply G; done).
  destruct (feq_sub_self t) as (z & -> & Z0). cbn [fmul].
  destruct (mk_int (z * r) 0) as (z' & -> & Z1); [rewrite Z0; ring|lia|]. cbn [fadd].
  destruct (mk_int (c + z') (rate_per_minute b)) as (z2 & -> & Z2); [rewrite Z1, Q; ring|lia|].
  apply G; [|done]. intros y Hy. injection Hy as <-. by rewrite Z2.
Qed.

Lemma length_insert_recent x l : length (insert_recent x l) = S (length l).
Proof. induction l as [|y l IH]; cbn [insert_recent]; [done|]. case_goal; cbn [length]; [done|by rewrite IH]. Qed.

Lemma filter_length_le {A} (f : A -> bool) l : (length (List.filter f l) <= length l)%nat.
Proof. induction l as [|x l IH]; simpl; [lia|]. destruct (f x); simpl; lia. Qed.

Lemma prune_length b now b' :
  _maybe_prune b now = Ok b' -> (length (buckets b) <= S _MAX_BUCKETS)%nat -> (length (buckets b') <= _MAX_BUCKETS)%nat.
Proof.
  unfold _maybe_prune. destruct (Nat.ltb_spec (length (buckets b)) _PRUNE_THRESHOLD) as [L|L]; intros H B.
  - injection H as <-. unfold _MAX_BUCKETS, _PRUNE_THRESHOLD in *. lia.
  - inv_bind H. destruct (Nat.leb_spec (length (List.filter (fun e => flt (fsub now (snd (snd e))) v) (buckets b))) _MAX_BUCKETS);
      injection H as <-; cbn [with_buckets buckets]; [done|].
    rewrite length_firstn. unfold _MAX_BUCKETS, _PRUNE_THRESHOLD. lia.
Qed.

(** *** A burst at one instant *)

Definition has_tokens (b : token_bucket) (key : string) (now : fl) (k : Z) : Prop := int_fl (refilled b key now) k.

Lemma fmin_int c x k n : int_fl c n -> int_fl x k -> (k <= n)%Z -> int_fl (fmin c x) k.
Proof.
  intros (q & -> & Q) (y & -> & Y) H. unfold fmin. destruct (flt (Fin y) (Fin q)) eqn:F; [by exists y|].
  apply flt_fin_false in F. exists q. split; [done|]. rewrite Q, Y in F. rewrite <- Zle_Qle in F.
  assert (E : k = n) by lia. by rewrite E.
Qed.

(** No time, no refill. *)
Lemma refill_now b x k t :
  bucket_ok b -> int_fl x k -> (0 <= k <= rate_per_minute b)%Z ->
  int_fl (fmin (capacity b) (fadd x (fmul (fsub (Fin t) (Fin t)) (refill_per_second b)))) k.
Proof.
  intros [R C (r & Rf & Rr)] (q & -> & Q) H. rewrite Rf.
  destruct (feq_sub_self t) as (z & -> & Z0). cbn [fmul].
  destruct (mk_int (z * r) 0) as (z' & -> & Z1); [rewrite Z0; ring|lia|]. cbn [fadd].
  destruct (mk_int (q + z') k) as (z2 & -> & Z2); [rewrite Z1, Q; ring|lia|].
  eapply fmin_int; [exact C|by exists z2|lia].
Qed.

Lemma has_tokens_fresh b key t :
  bucket_ok b -> assoc key (buckets b) = None -> has_tokens b key (Fin t) (rate_per_minute b).
Proof.
  intros O N. unfold has_tokens, refilled. rewrite N. apply refill_now; [exact O|apply O|]. destruct O; lia.
Qed.

Lemma acquire_step b key t k :
  bucket_ok b -> has_tokens b key (Fin t) k -> (1 <= k <= rate_per_minute b)%Z ->
  (length (dset (buckets b) key (f0, f0)) < _PRUNE_THRESHOLD)%nat ->
  exists b', acquire b key (Fin t) = Ok (b', f0) /\ bucket_ok b' /\ has_tokens b' key (Fin t) (k - 1) /\
    rate_per_minute b' = rate_per_minute b /\ (length (dset (buckets b') key (f0, f0)) < _PRUNE_THRESHOLD)%nat.
Proof.
  intros O (q & T & Q) H L. unfold acquire.
  change (refilled (count_hit b key) key (Fin t)) with (refilled b key (Fin t)). rewrite T.
  assert (F : fle f1 (Fin q) = true).
  { apply fle_fin. rewrite Q. change 1%Q with (inject_Z 1). rewrite <- Zle_Qle. lia. }
  rewrite F. set (e := (fsub (Fin q) f1, Fin t)).
  assert (N : forall v v' : fl * fl, length (dset (buckets b) key v) = length (dset (buckets b) key v')).
  { intros v v'. by rewrite !length_dset. }
  set (b1 := with_buckets (count_hit b key) (dset (buckets (count_hit b key)) key e) (hits (count_hit b key))).
  assert (P : _maybe_prune b1 (Fin t) = Ok b1).
  { unfold _maybe_prune. cbn [buckets b1 with_buckets count_hit].
    rewrite (N e (f0, f0)). by rewrite (proj2 (Nat.ltb_lt _ _) L). }
  rewrite P. cbn [res_bind]. exists b1. split; [done|]. assert (O1 : bucket_ok b1) by (apply with_buckets_ok, count_hit_ok, O).
  split; [exact O1|]. split; [|split; [done|]].
  - unfold has_tokens, refilled. cbn [buckets b1 with_buckets count_hit]. rewrite assoc_dset, String.eqb_refl. unfold e.
    apply (refill_now b1); [exact O1| |cbn; lia]. cbn [fsub fadd fneg f1]. apply mk_int; [|destruct O; lia].
    rewrite Q. unfold Z.sub. rewrite inject_Z_plus. reflexivity.
  - cbn [buckets b1 with_buckets count_hit]. rewrite length_dset, assoc_dset, String.eqb_refl.
    by rewrite (N e (f0, f0)).
Qed.

Fixpoint acquire_n (n : nat) (b : token_bucket) (key : string) (now : fl) : res (token_bucket * list fl) :=
  match n with
  | O => Ok (b, [])
  | S m => let! a := acquire b key now in let! r := acquire_n m (fst a) key now in Ok (fst r, snd a :: snd r)
  end.

Lemma acquire_n_spec n : forall b key t k,
  bucket_ok b -> has_tokens b key (Fin t) k -> (Z.of_nat n <= k <= rate_per_minute b)%Z ->
  (length (dset (buckets b) key (f0, f0)) < _PRUNE_THRESHOLD)%nat ->
  exists b', acquire_n n b key (Fin t) = Ok (b', repeat f0 n) /\ bucket_ok b' /\ has_tokens b' key (Fin t) (k - Z.of_nat n).
Proof.
  induction n as [|n IH]; intros b key t k O T H L.
  - exists b. split; [done|]. split; [exact O|]. by rewrite Z.sub_0_r.
  - destruct (acquire_step b key t k O T ltac:(lia) L) as (b1 & E & O1 & T1 & R1 & L1).
    destruct (IH b1 key t (k - 1)%Z O1 T1 ltac:(lia) L1) as (b2 & E2 & O2 & T2).
    exists b2. cbn [acquire_n]. rewrite E. cbn [res_bind fst snd]. rewrite E2. cbn [res_bind fst snd].
    split; [done|]. split; [exact O2|]. by replace (k - Z.of_nat (S n))%Z with (k - 1 - Z.of_nat n)%Z by lia.
Qed.

(** A missing token takes positive time. *)
Lemma wait_positive y r : (1 <= y)%Q -> (0 < r <= 20000)%Q -> flt f0 (mk (y / r)) = true.
Proof.
  intros Y Rr. assert (D : (1 # 20000 <= y / r)%Q) by (apply Qle_shift_div_l; lra).
  assert (M : (rnd (1 # 20000) <= rnd (y / r))%Q) by (apply rnd_mono, D).
  assert (P : (0 < rnd (1 # 20000))%Q) by (vm_compute; reflexivity).
  unfold mk. destruct (Qle_bool fl_max_pow _); [done|]. destruct (Qle_bool (rnd (y / r)) (- fl_max_pow)) eqn:G.
  - apply Qle_bool_iff in G. exfalso. assert (X : (- fl_max_pow < 0)%Q) by (vm_compute; reflexivity). lra.
  - apply flt_fin. lra.
Qed.

(** An empty bucket denies, with a positive wait. *)
Lemma acquire_denied b key t :
  bucket_ok b -> has_tokens b key (Fin t) 0 ->
  exists b' w, acquire b key (Fin t) = Ok (b', w) /\ flt f0 w = true.
Proof.
  intros O (q & T & Q). destruct O as [R C (r & Rf & Rr)]. unfold acquire.
  change (refilled (count_hit b key) key (Fin t)) with (refilled b key (Fin t)). rewrite T.
  assert (F : fle f1 (Fin q) = false) by (apply fle_fin_false; rewrite Q; reflexivity). rewrite F.
  change (refill_per_second (count_hit b key)) with (refill_per_second b). rewrite Rf.
  cbn [fsub fadd fneg f1]. destruct (mk_int (1 + - q) 1) as (y & -> & Y); [rewrite Q; reflexivity|lia|].
  unfold fdiv. destruct (Qeq_bool r 0) eqn:Z0; [apply Qeq_bool_iff in Z0; lra|]. cbn [res_bind].
  do 2 eexists. split; [reflexivity|]. apply wait_positive; [rewrite Y; apply Qle_refl|exact Rr].
Qed.

(** ** Theorems *)

(** A client that is no proxy of ours is charged under its socket address,
    whatever headers it sends. *)
Theorem direct_client_key_unforgeable r r' :
  peer_host r = peer_host r' -> trusted (text_or (peer_host r)) = false -> client_key r = client_key r'.
Proof. intros E T. unfold client_key. rewrite <- E, T. reflexivity. Qed.

Lemma direct_client_key_unforgeable_witness :
  client_key (mkHttp (Some "203.0.113.9") (fun _ => "10.0.0.1")) = client_key (mkHttp (Some "203.0.113.9") (fun _ => "")).
Proof. by apply direct_client_key_unforgeable. Defined.

(** Behind our proxy, what a client puts in front of the forwarded chain does not
    move its bucket: the last hop alone decides. *)
Theorem forwarded_prefix_ignored r prefix hop :
  trusted (text_or (peer_host r)) = true -> strip (header r "cf-connecting-ip") = "" ->
  header r "x-forwarded-for" = prefix +:+ String "," hop ->
  sforall (fun c => negb (Ascii.eqb c ",")) hop = true ->
  nonempty (strip hop) = true -> trusted (strip hop) = false ->
  client_key r = strip hop.
Proof.
  intros Tp Cf F Hc Hn Ht. unfold client_key. rewrite Tp, Cf, F. cbn [negb nonempty].
  unfold rightmost_hop. rewrite split_on_app2, (split_on_none "," hop Hc), List.filter_app, map_app, rev_app_distr.
  cbn [List.filter]. rewrite Hn. cbn [map rev app find]. by rewrite Ht.
Qed.

Lemma forwarded_prefix_ignored_witness :
  client_key (mkHttp (Some "127.0.0.1") (fun h => if String.eqb h "x-forwarded-for" then "1.1.1.1, 203.0.113.9" else ""))
  = "203.0.113.9".
Proof. by apply (forwarded_prefix_ignored _ "1.1.1.1" " 203.0.113.9"). Defined.

(** Whatever keys are thrown at it, a bucket table never holds more than
    2048 entries. *)
Theorem bucket_memory_bounded b key now b' retry :
  bucket_ok b -> (length (buckets b) <= _MAX_BUCKETS)%nat ->
  acquire b key now = Ok (b', retry) -> (length (buckets b') <= _MAX_BUCKETS)%nat.
Proof.
  intros O L H. unfold acquire in H. pose proof (refilled_fresh (count_hit b key) key now (count_hit_ok _ _ O)) as Fr.
  destruct (fle f1 (refilled (count_hit b key) key now)).
  - inv_bind H. injection H as <- _. apply prune_length in E; [exact E|].
    cbn [with_buckets buckets count_hit]. rewrite length_dset. destruct (assoc key (buckets b)); lia.
  - inv_bind H. injection H as <- _. cbn [with_buckets buckets count_hit] in *. rewrite length_dset.
    destruct (assoc key (buckets b)); [lia|]. by specialize (Fr eq_refl).
Qed.

Definition sample_bucket : token_bucket := mkBucket 2 (Fin 2) (Fin (1#30)) "ioc" 0 [("a", (Fin 0, Fin 10))] [].

Lemma sample_bucket_ok : bucket_ok sample_bucket.
Proof. split; [cbn; lia|by exists 2%Q|exists (1#30)%Q; split; [reflexivity|lra]]. Qed.

Lemma bucket_memory_bounded_witness :
  exists b' retry, acquire sample_bucket "b" (Fin 10) = Ok (b', retry) /\ (length (buckets b') <= _MAX_BUCKETS)%nat.
Proof.
  do 2 eexists. split; [vm_compute; reflexivity|].
  eapply (bucket_memory_bounded sample_bucket "b" (Fin 10)); [apply sample_bucket_ok|cbn; lia|vm_compute; reflexivity].
Defined.

(** A client new to a bucket can spend exactly its per-minute rate at once: that
    many calls in one instant are granted, the next is told to wait, with no drift
    from float arithmetic. *)
Theorem burst_is_exactly_the_rate b key t :
  bucket_ok b -> assoc key (buckets b) = None -> (S (length (buckets b)) < _PRUNE_THRESHOLD)%nat ->
  let n := Z.to_nat (rate_per_minute b) in
  exists b', acquire_n n b key (Fin t) = Ok (b', repeat f0 n) /\
    exists b'' w, acquire b' key (Fin t) = Ok (b'', w) /\ flt f0 w = true.
Proof.
  intros O N L. cbv zeta. pose proof (has_tokens_fresh b key t O N) as T. destruct O as [R C F] eqn:EO. clear EO.
  destruct (acquire_n_spec (Z.to_nat (rate_per_minute b)) b key t (rate_per_minute b)) as (b' & E & O' & T').
  - by split.
  - exact T.
  - lia.
  - by rewrite length_dset, N.
  - exists b'. split; [exact E|]. apply acquire_denied; [exact O'|].
    by replace (rate_per_minute b - Z.of_nat (Z.to_nat (rate_per_minute b)))%Z with 0%Z in T' by lia.
Qed.

Lemma burst_is_exactly_the_rate_witness :
  exists b', acquire_n 2 sample_bucket "b" (Fin 10) = Ok (b', [f0; f0]) /\
    exists b'' w, acquire b' "b" (Fin 10) = Ok (b'', w) /\ flt f0 w = true.
Proof. apply (burst_is_exactly_the_rate sample_bucket "b" 10); [apply sample_bucket_ok|reflexivity|unfold _PRUNE_THRESHOLD; cbn [length sample_bucket buckets]; lia]. Defined.

(** The shared store keeps monotonic clock readings across processes.  When the
    stored reading is a minute or more ahead of ours, as after a reboot, a client
    is refused whatever tokens it had, with a positive wait. *)
Theorem stored_clock_ahead_locks_out tokens last hits rate t :
  (1 <= rate <= 1000000)%Z -> (0 <= tokens <= inject_Z rate)%Q ->
  (0 <= t)%Q -> (t + 61 <= last)%Q -> (last <= inject_Z (2 ^ 36))%Q ->
  exists row w,
    shared_acquire (Some (mkStored (Some (PFloat (Fin tokens))) (Some (PFloat (Fin last))) (Some (PInt hits)))) rate (Fin t)
    = Ok (row, w) /\ flt f0 w = true.
Proof.
  intros Hr Ht T0 TL L. change (inject_Z (2 ^ 36)) with 68719476736%Q in L.
  unfold shared_acquire. rewrite Z.max_r by lia.
  destruct (mk_int (inject_Z rate) rate) as (c & Ec & C); [reflexivity|lia|].
  unfold fl_of_int. rewrite Ec. cbn [res_bind].
  assert (B : (1 <= inject_Z rate <= 1000000)%Q).
  { change 1%Q with (inject_Z 1). change 1000000%Q with (inject_Z 1000000). rewrite <- !Zle_Qle. lia. }
  unfold fdiv at 1. change (Qeq_bool 60 0) with false. cbn match. cbn [res_bind].
  assert (D : (c / 60 == c * (1 # 60))%Q) by reflexivity.
  rewrite (mk_fin (c / 60)) by (rewrite D, C; change (inject_Z (2 ^ 52)) with 4503599627370496%Q; lra).
  pose proof (rnd_err 15 (c / 60) ltac:(lia)) as RE. change (2 ^ 15)%Q with 32768%Q in RE.
  rewrite D, C in RE. specialize (RE ltac:(lra)). set (r := rnd (c / 60)) in *.
  assert (RE' : (inject_Z rate * (1 # 60) - (1 # 100000000) <= r <= 20000)%Q).
  { assert (2 ^ (15 - 53) <= 1 # 100000000)%Q by (vm_compute; discriminate).
    assert (rnd (inject_Z rate * (1 # 60)) == r)%Q by (unfold r; rewrite D, C; reflexivity). lra. }
  cbn [stored_float st_tokens st_last st_hits py_float py_int res_bind]. cbv zeta.
  cbn [fsub fadd fneg]. rewrite (mk_fin (t + - last)) by (change (inject_Z (2 ^ 52)) with 4503599627370496%Q; lra).
  set (x := rnd (t + - last)).
  assert (X : (-68719476736 <= x <= -61)%Q).
  { split.
    - assert (E : (rnd (-68719476736) == -68719476736)%Q) by (vm_compute; reflexivity). rewrite <- E. apply rnd_mono. lra.
    - assert (E : (rnd (-61) == -61)%Q) by (vm_compute; reflexivity). rewrite <- E. apply rnd_mono. lra. }
  clearbody x r. cbn [fmul].
  assert (XR : (-(68719476736 * 20000) <= x * r <= - inject_Z rate)%Q) by nra.
  rewrite (mk_fin (x * r)) by (change (inject_Z (2 ^ 52)) with 4503599627370496%Q; lra). cbn [fadd].
  set (p := rnd (x * r)).
  assert (P : (-(68719476736 * 20000) <= p <= - inject_Z rate)%Q).
  { split.
    - assert (E : (rnd (-(68719476736 * 20000)) == -(68719476736 * 20000))%Q) by (vm_compute; reflexivity).
      rewrite <- E. apply rnd_mono. lra.
    - rewrite <- (rnd_neg_int rate) by lia. apply rnd_mono. lra. }
  clearbody p. rewrite (mk_fin (tokens + p)) by (change (inject_Z (2 ^ 52)) with 4503599627370496%Q; lra).
  set (y := rnd (tokens + p)). assert (Y : (-(68719476736 * 20000) <= y <= 0)%Q).
  { split.
    - assert (E : (rnd (-(68719476736 * 20000)) == -(68719476736 * 20000))%Q) by (vm_compute; reflexivity).
      rewrite <- E. apply rnd_mono. lra.
    - apply (rnd_le_int _ 0); [lia|]. change (inject_Z 0) with 0%Q. lra. }
  clearbody y. unfold fmin. rewrite (proj2 (flt_fin y c)) by (rewrite C; lra).
  assert (G : fle f1 (Fin y) = false) by (apply fle_fin_false; lra). rewrite G.
  unfold fdiv. assert (R0 : Qeq_bool r 0 = false).
  { destruct (Qeq_bool r 0) eqn:E; [|done]. apply Qeq_bool_iff in E. lra. }
  rewrite R0. cbn [res_bind f1 fsub fadd fneg]. rewrite mk_fin by (change (inject_Z (2 ^ 52)) with 4503599627370496%Q; lra).
  do 2 eexists. split; [reflexivity|]. apply wait_positive; [|lra].
  apply (rnd_ge_int _ 1); [lia|]. change (inject_Z 1) with 1%Q. lra.
Qed.

Lemma stored_clock_ahead_locks_out_witness :
  exists row w,
    shared_acquire (Some (mkStored (Some (PFloat (Fin 120))) (Some (PFloat (Fin 500000))) (Some (PInt 3)))) 120 (Fin 40)
    = Ok (row, w) /\ flt f0 w = true.
Proof.
  apply (stored_clock_ahead_locks_out 120 500000 3 120 40); [lia|split; vm_compute; discriminate|lra|lra|vm_compute; discriminate].
Defined.
