(* ===== verification/LlmRouter.v ===== *)
(** * LlmRouter: ai/llm_router.py, llm_session.py, model_catalog.py, llm_payload.py

    The failover chain of LLM providers.  [env] is [os.environ.get]; [secrets] is
    what [_secret_values()] lists (its order among equally long values is that of
    a Python set).  What awaiting a provider, the operations recorder and the
    payload store do is given per provider by a [step_io]; [chat_completion_task]
    returns the session, the trace of its effects and how it ended. *)

From S2P Require Import Prelude PyStr Float64 PyVal FloatErr QueueTasks Pacing Resilient.
From Stdlib Require Import QArith Lqa Sorted.
Open Scope string_scope.

Inductive LLMTask := product_extraction | pdf_summary | detection_context.

Definition task_name (t : LLMTask) : string :=
  match t with
  | product_extraction => "product_extraction" | pdf_summary => "pdf_summary"
  | detection_context => "detection_context"
  end.

Definition LLM_TASK_OPERATIONS (t : LLMTask) : string :=
  match t with
  | product_extraction => "product_extraction" | pdf_summary => "report_summary"
  | detection_context => "detection_context"
  end.

Record ProviderStep := mkStep { provider : string; model : string }.
Record LLMCompletion := mkCompletion { content : string; c_provider : string; c_model : string }.

(** [s.replace(old, new)] for a nonempty [old]. *)
Fixpoint replace_from (skip : nat) (old new s : string) : string :=
  match s with
  | "" => ""
  | String c t =>
      match skip with
      | S k => replace_from k old new t
      | O => if startswith s old then new +:+ replace_from (String.length old - 1) old new t
             else String c (replace_from 0 old new t)
      end
  end.

Definition is_word (c : ascii) : bool := is_alnum c || (code c =? 95)%N.

(** [re.search(r"\b([45]\d\d)\b", s)]; [word] tells whether a word character precedes. *)
Fixpoint http_status_from (word : bool) (s : string) : bool :=
  match s with
  | String a t =>
      negb word && in_range 52 53 a &&
      match t with
      | String b (String c u) =>
          is_digit b && is_digit c && match u with String d _ => negb (is_word d) | "" => true end
      | _ => false
      end || http_status_from (is_word a) t
  | "" => false
  end.
Definition _HTTP_STATUS_RE : string -> bool := http_status_from false.

(** ** Exceptions as the router sees them

    One element of [_exception_chain]: its text, whether its errno is -2 or -3 or
    it is a [gaierror], and whether it is a [ConnectionError]. *)
Record link := mkLink { l_text : string; l_resolver : bool; l_connection : bool }.
Record exc := mkExc { x_name : string; x_self : link; x_causes : list link }.

Inductive raised :=
| AsTimeout            (** [asyncio.TimeoutError], the builtin [TimeoutError] *)
| AsCircuit (x : exc)  (** [CircuitOpenError] *)
| AsException (x : exc)
| AsBase (e : exn).    (** not an [Exception]: cancellation *)

Definition chain_of (x : exc) : list link := x_self x :: x_causes x.
Definition has_any (tokens : list string) (text : string) : bool := existsb (fun t => str_in t text) tokens.

Definition _is_dns_failure (x : exc) : bool :=
  existsb (fun l => l_resolver l || has_any ["name resolution"; "errno -3"; "errno -2"; "gaierror";
                                             "name or service not known"] (lower (l_text l))) (chain_of x).
Definition _is_network_failure (x : exc) : bool :=
  existsb (fun l => l_connection l || has_any ["connection refused"; "connection reset"; "connecterror";
     "network is unreachable"; "ssl"; "tls"; "certificate verify failed"; "handshake"] (lower (l_text l))) (chain_of x).

(** [classify_llm_error] past its tests on the exception's class. *)
Definition classify_message (x : exc) : string :=
  let msg := lower (l_text (x_self x)) in
  if has_any ["timeout"; "timed out"] msg then "timeout"
  else if has_any ["401"; "403"; "unauthorized"; "invalid api key"] msg then "auth"
  else if has_any ["429"; "rate limit"; "too many requests"] msg then "rate_limit"
  else if str_in "404" msg || (str_in "model" msg && str_in "not found" msg) then "model_not_found"
  else if _HTTP_STATUS_RE msg then "unknown"
  else if _is_dns_failure x then "dns"
  else if _is_network_failure x then "network"
  else "unknown".

Definition classify_llm_error (r : option raised) (empty : bool) : string :=
  if empty then "empty"
  else match r with
       | None => "unknown"
       | Some (AsCircuit _) => "circuit_open"
       | Some AsTimeout => "timeout"
       | Some (AsException x) => classify_message x
       | Some (AsBase _) => "unknown"
       end.

Section environment.
Variable env : string -> option string.
Variable secrets : list string.

Definition env_flag_off (raw : string) : bool := existsb (String.eqb raw) ["0"; "false"; "no"; "off"].

(** ** provider_catalog.py: keys and the custom slot *)

Definition _PLACEHOLDER_KEY_MARKERS : list string := ["your_key_here"; "your_api_key_here"; "your_key"].

Definition _is_usable_api_key (value : string) : bool :=
  let val := strip value in
  let lowered := lower val in
  nonempty val && negb (existsb (String.eqb lowered) _PLACEHOLDER_KEY_MARKERS || startswith lowered "your_")
  && negb (str_in "placeholder" lowered).

Definition model_char (c : ascii) : bool := is_alnum c || existsb (Ascii.eqb c) ["."; "_"; ":"; "/"; "-"]%char.

(** [MODEL_NAME_RE.match] on a stripped name. *)
Definition validate_model_name (name : string) : bool :=
  match strip name with
  | "" => false
  | String c t => is_alnum c && sforall model_char t && (slen t <=? 127)%Z
  end.

Definition env_text (name : string) : string := strip (env_get env name "").

Definition custom_provider_configured : bool :=
  nonempty (env_text "CUSTOM_LLM_BASE_URL") && _is_usable_api_key (env_text "CUSTOM_LLM_API_KEY")
  && nonempty (env_text "CUSTOM_LLM_MODEL") && validate_model_name (env_text "CUSTOM_LLM_MODEL").

Definition custom_provider_step : option (string * string * string) :=
  if custom_provider_configured then
    Some (rstrip_by (Ascii.eqb "/") (env_text "CUSTOM_LLM_BASE_URL"), env_text "CUSTOM_LLM_API_KEY", env_text "CUSTOM_LLM_MODEL")
  else None.

(** ** model_catalog.py *)

Definition env_model (key default : string) : string :=
  let v := strip (env_get env key default) in if nonempty v then v else default.

Definition OPENROUTER_FREE_DEFAULT : string := "google/gemma-4-31b-it:free".
Definition GROQ_MODEL : string := env_model "GROQ_MODEL" "openai/gpt-oss-20b".
Definition GROQ_MODEL_SUMMARY : string := env_model "GROQ_MODEL_SUMMARY" "openai/gpt-oss-120b".
Definition gemini_model : string := env_model "GEMINI_MODEL" "gemini-3.1-flash-lite".
Definition cerebras_model : string := env_model "CEREBRAS_MODEL" "gpt-oss-120b".
Definition openrouter_model (t : LLMTask) : string :=
  env_model (match t with
             | pdf_summary => "OPENROUTER_MODEL_PDF" | detection_context => "OPENROUTER_MODEL_DETECTION"
             | product_extraction => "OPENROUTER_MODEL_PRODUCT" end) OPENROUTER_FREE_DEFAULT.

Definition _scheduler_chain (t : LLMTask) (groq_model : string) : list ProviderStep :=
  (match custom_provider_step with Some (_, _, m) => [mkStep "custom" m] | None => [] end ++
   [mkStep "groq" groq_model; mkStep "cerebras" cerebras_model;
    mkStep "openrouter" (openrouter_model t); mkStep "gemini" gemini_model])%list.

Definition task_chain (t : LLMTask) : list ProviderStep :=
  _scheduler_chain t (match t with pdf_summary => GROQ_MODEL_SUMMARY | _ => GROQ_MODEL end).

(** ** llm_payload.py *)

Record message := mkMessage { m_role : option string; m_content : option string }.

Definition _min_user_chars : Z :=
  let raw := env_text "LLM_MIN_USER_CHARS" in
  if nonempty raw then match int_of_str raw with Ok n => Z.max 1 n | Raise _ => 1 end else 1%Z.

Definition message_text (m : message) : string :=
  let role := lower (match m_role m with Some r => r | None => "" end) in
  if existsb (String.eqb role) ["user"; "assistant"]
  then strip (match m_content m with Some c => c | None => "" end) else "".

Definition user_message_text (messages : list message) : string :=
  sjoin (String "010" "") (List.filter nonempty (map message_text messages)).

Definition has_llm_request_payload (messages : list message) : bool :=
  (_min_user_chars <=? slen (user_message_text messages))%Z.

(** ** llm_router.py: timeouts, keys, requests *)

Definition scheduler_llm_timeout : fl :=
  match float_of_str (env_get env "SCHEDULER_LLM_TIMEOUT_SECONDS" "30") with
  | Ok x => fmax (Fin 10) x
  | Raise _ => Fin 30
  end.

Definition llm_provider_timeout : fl :=
  let raw := env_text "LLM_PROVIDER_TIMEOUT_SEC" in
  let otherwise := fmin (Fin 60) scheduler_llm_timeout in
  if nonempty raw then
    match float_of_str raw with
    | Ok x => fmin (Fin 120) (fmax (Fin 10) x)
    | Raise _ => otherwise
    end
  else otherwise.

Definition _PROVIDER_ENV_KEYS : list (string * string) :=
  [("custom", "CUSTOM_LLM_API_KEY"); ("groq", "GROQ_API_KEY"); ("gemini", "GEMINI_API_KEY");
   ("cerebras", "CEREBRAS_API_KEY"); ("openrouter", "OPENROUTER_API_KEY")].

Definition _provider_enabled (p : string) : bool :=
  negb (env_flag_off (lower (env_text ("LLM_PROVIDER_" +:+ upper p +:+ "_ENABLED")))).

Definition _api_key (p : string) : string :=
  if String.eqb p "custom" then
    match custom_provider_step with Some (_, key, _) => if _is_usable_api_key key then key else "" | None => "" end
  else
    match assoc p _PROVIDER_ENV_KEYS with
    | Some name => if _is_usable_api_key (env_text name) then env_text name else ""
    | None => ""
    end.

Definition get_configured_providers : list string :=
  List.filter (fun p => nonempty (_api_key p) && _provider_enabled p) (map fst _PROVIDER_ENV_KEYS).

(** The HTTP request of one provider. *)
Inductive chat_request :=
| OpenAIChat (source url api_key model : string) (extra_headers : list (string * string))
| GeminiChat (api_key model : string).

Definition GROQ_URL : string := "https://api.groq.com/openai/v1/chat/completions".
Definition CEREBRAS_URL : string := "https://api.cerebras.ai/v1/chat/completions".
Definition OPENROUTER_URL : string := "https://openrouter.ai/api/v1/chat/completions".

(** The request [_call_provider] awaits; [None] where it returns [""] at once. *)
Definition provider_request (step : ProviderStep) : option chat_request :=
  let api_key := _api_key (provider step) in
  if negb (nonempty api_key) then None
  else if String.eqb (provider step) "custom" then
    match custom_provider_step with
    | None => None
    | Some (base_url, key, m) =>
        Some (OpenAIChat "custom" (if endswith base_url "/chat/completions" then base_url else base_url +:+ "/chat/completions")
                key (if nonempty m then m else model step) [])
    end
  else if String.eqb (provider step) "groq" then Some (OpenAIChat "groq" GROQ_URL api_key (model step) [])
  else if String.eqb (provider step) "gemini" then Some (GeminiChat api_key (model step))
  else if String.eqb (provider step) "cerebras" then Some (OpenAIChat "cerebras" CEREBRAS_URL api_key (model step) [])
  else if String.eqb (provider step) "openrouter" then
    Some (OpenAIChat "openrouter" OPENROUTER_URL api_key (model step)
            [("HTTP-Referer", env_get env "OPENROUTER_HTTP_REFERER" "https://briefr.local"); ("X-Title", "BRIEFR")])
  else None.

Definition store_failure_payloads_enabled : bool :=
  negb (existsb (String.eqb (lower (strip (env_get env "AI_OPERATIONS_STORE_FAILURE_PAYLOADS" "0"))))
    [""; "0"; "false"; "no"; "off"]).

Definition redact_error_detail (text : string) (limit : nat) : option string :=
  if nonempty text then Some (utake limit (fold_left (fun t s => replace_from 0 s "[REDACTED]" t) secrets text))
  else None.

(** ** The failover loop *)

Variable CIRCUIT_FAILURE_THRESHOLD : Z.
Variable CIRCUIT_COOLDOWN_SECONDS : fl.

(** A row of [ai_operations]; [row_from] is the provider and model failed over from. *)
Record attempt_row := mkRow {
  row_provider : string; row_model : string; row_success : bool; row_retry : Z;
  row_error : option string; row_from : option ProviderStep
}.

Inductive effect := Call (p : string) (rq : option chat_request) | Attempt (row : attempt_row) | StorePayload (p : string).

(** The state the router shares between tasks: circuit registry, the job's skipped
    providers ([None] outside a job), and the answered (task, CVE) pairs. *)
Record session := mkSession {
  health : registry;
  skipped : option (gset string);
  recent : gmap (string * string) fl
}.

(** What the outside does for one provider: its quota, the health events of its
    own requests, the awaited call, the recorder (whether it returned an id) and
    the payload store, twice since a handler calls them again, and the clock at
    the circuit check, for a failure, in a handler, and at the end. *)
Record step_io := mkIo {
  io_quota : raised + bool;
  io_events : list health_event;
  io_call : raised + string;
  io_record : raised + bool; io_store : raised + unit;
  io_record' : raised + bool; io_store' : raised + unit;
  io_check : fl; io_fail : fl * fl; io_fail' : fl * fl; io_end : fl
}.

Record loop := mkLoop {
  sess : session; trace : list effect; attempt_index : Z; last_failed : option ProviderStep
}.

Inductive flow := Continue (l : loop) | Finish (l : loop) (c : LLMCompletion) | Escape (l : loop) (r : raised).

Definition set_health (s : session) (h : registry) : session := mkSession h (skipped s) (recent s).
Definition log (l : loop) (e : effect) : loop :=
  mkLoop (sess l) (trace l ++ [e])%list (attempt_index l) (last_failed l).
Definition with_session (l : loop) (s : session) : loop := mkLoop s (trace l) (attempt_index l) (last_failed l).
(** [last_failed_provider = ...; attempt_index += 1] *)
Definition failed (l : loop) (step : ProviderStep) : loop :=
  mkLoop (sess l) (trace l) (attempt_index l + 1) (Some step).

Definition is_provider_skipped_in_job (s : session) (p : string) : bool :=
  match skipped s with Some j => bool_decide (p ∈ j) | None => false end.

Definition skip_in_job (s : session) (p : string) : session :=
  mkSession (health s) (option_map (fun j => {[p]} ∪ j) (skipped s)) (recent s).

Definition record_source_failure (s : session) (p error : string) (t : fl * fl) : session :=
  set_health s (_record_failure CIRCUIT_FAILURE_THRESHOLD CIRCUIT_COOLDOWN_SECONDS (health s) p error None (fst t) (snd t)).
Definition record_source_success (s : session) (p : string) (now : fl) : session :=
  set_health s (_record_success (health s) p now).

Definition mark_provider_empty_response (s : session) (p : string) (t : fl * fl) : session :=
  skip_in_job (record_source_failure s p "empty LLM response content" t) p.
Definition mark_provider_transport_failure : session -> string -> session := skip_in_job.

Definition _IDEMPOTENCY_WINDOW_SEC : fl := Fin 30.

Definition _idempotency_blocked (s : session) (task context_type context_id : string) (now : fl) : bool :=
  if negb (String.eqb context_type "cve") || negb (nonempty context_id) then false
  else match recent s !! (task, context_id) with
       | Some last => flt (fsub now last) _IDEMPOTENCY_WINDOW_SEC
       | None => false
       end.

Definition _record_idempotency (s : session) (task context_type context_id : string) (now : fl) : session :=
  if negb (String.eqb context_type "cve") || negb (nonempty context_id) then s
  else
    let r := <[(task, context_id) := now]> (recent s) in
    let r := if (256 <? size r)%nat
             then filter (fun e => negb (flt (snd e) (fsub now _IDEMPOTENCY_WINDOW_SEC)) = true) r else r in
    mkSession (health s) (skipped s) r.

(** One [chat_completion_task] call. *)
Record request := mkRequest {
  task : LLMTask; messages : list message; timeout_repr : string; cve_id : option string;
  context_type : option string; context_id : option string; ignore_provider_circuit : bool
}.

Definition truthy_text (o : option string) : bool := match o with Some t => nonempty t | None => false end.
Definition queue_context_type (q : request) : string :=
  match context_type q with Some t => t | None => if truthy_text (cve_id q) then "cve" else "task" end.
Definition queue_context_id (q : request) : string :=
  match context_id q with
  | Some t => t
  | None => match cve_id q with Some c => if nonempty c then c else task_name (task q) | None => task_name (task q) end
  end.

Section task.
Variable q : request.
Variable io : string -> step_io.

Definition failure_row (l : loop) (step : ProviderStep) (error : string) : attempt_row :=
  mkRow (provider step) (model step) false (attempt_index l) (Some error) None.

(** [operation_id = await _record_attempt(...); await _store_failure_payload(...)];
    then the next provider. *)
Definition record_failure (l : loop) (step : ProviderStep) (error : string) (rec : raised + bool) (store : raised + unit)
  : loop * (raised + unit) :=
  let l := log l (Attempt (failure_row l step error)) in
  match rec with
  | inl r => (l, inl r)
  | inr id =>
      if id && store_failure_payloads_enabled then
        let l := log l (StorePayload (provider step)) in
        match store with inl r => (l, inl r) | inr _ => (failed l step, inr tt) end
      else (failed l step, inr tt)
  end.

(** The [except] clauses; what they raise themselves leaves the task. *)
Definition on_raise (l : loop) (step : ProviderStep) (r : raised) : flow :=
  let i := io (provider step) in
  let report l error :=
    match record_failure l step error (io_record' i) (io_store' i) with
    | (l, inr _) => Continue l
    | (l, inl r') => Escape l r'
    end in
  match r with
  | AsBase _ => Escape l r
  | AsTimeout =>
      report (with_session l (record_source_failure (sess l) (provider step)
                ("timeout after " +:+ timeout_repr q +:+ "s") (io_fail' i))) "timeout"
  | AsCircuit _ => report l (classify_llm_error (Some r) false)
  | AsException x =>
      let text := match redact_error_detail (l_text (x_self x)) 300 with
                  | Some t => if nonempty t then t else x_name x | None => x_name x end in
      let s := record_source_failure (sess l) (provider step) text (io_fail' i) in
      let error := classify_llm_error (Some r) false in
      let s := if existsb (String.eqb error) ["dns"; "network"] then mark_provider_transport_failure s (provider step) else s in
      report (with_session l s) error
  end.

(** The [try] body and its handlers, for a provider that passed the guards. *)
Definition attempt (l : loop) (step : ProviderStep) : flow :=
  let p := provider step in
  let i := io p in
  let l := log l (Call p (provider_request step)) in
  let l := with_session l (set_health (sess l)
             (fold_left (health_step CIRCUIT_FAILURE_THRESHOLD CIRCUIT_COOLDOWN_SECONDS p) (io_events i) (health (sess l)))) in
  match io_call i with
  | inl r => on_raise l step r
  | inr raw =>
      let text := strip raw in
      if nonempty text then
        let l := with_session l (record_source_success (sess l) p (io_end i)) in
        let l := log l (Attempt (mkRow p (model step) true (attempt_index l) None (last_failed l))) in
        match io_record i with
        | inl r => on_raise l step r
        | inr _ =>
            Finish (with_session l (_record_idempotency (sess l) (task_name (task q)) (queue_context_type q) (queue_context_id q) (io_end i)))
                   (mkCompletion text p (model step))
        end
      else
        let l := with_session l (mark_provider_empty_response (sess l) p (io_fail i)) in
        match record_failure l step (classify_llm_error None true) (io_record i) (io_store i) with
        | (l, inr _) => Continue l
        | (l, inl r) => on_raise l step r
        end
  end.

Definition configured (step : ProviderStep) : bool :=
  nonempty (_api_key (provider step)) && _provider_enabled (provider step).

Definition circuit_blocks (s : session) (p : string) : bool :=
  negb (ignore_provider_circuit q) && circuit_open_at (health s) p (io_check (io p)).

(** One turn of the loop over the chain. *)
Definition try_step (l : loop) (step : ProviderStep) : flow :=
  let p := provider step in
  if negb (configured step) then Continue l
  else match io_quota (io p) with
       | inl r => Escape l r
       | inr false => Continue (failed l step)
       | inr true =>
           if is_provider_skipped_in_job (sess l) p || circuit_blocks (sess l) p
           then Continue (failed l step)
           else attempt l step
       end.

Inductive ending := Answer (c : option LLMCompletion) | Escaped (r : raised).

Fixpoint run_chain (l : loop) (steps : list ProviderStep) : loop * ending :=
  match steps with
  | [] => (l, Answer None)
  | step :: rest =>
      match try_step l step with
      | Continue l => run_chain l rest
      | Finish l c => (l, Answer (Some c))
      | Escape l r => (l, Escaped r)
      end
  end.

(** [instance_quota] is [has_ai_request_quota()], [now] the clock of the duplicate check. *)
Definition chat_completion_task (s : session) (instance_quota : raised + bool) (now : fl) : session * list effect * ending :=
  if negb (has_llm_request_payload (messages q)) then (s, [], Answer None)
  else match instance_quota with
       | inl r => (s, [], Escaped r)
       | inr false => (s, [], Answer None)
       | inr true =>
           if _idempotency_blocked s (task_name (task q)) (queue_context_type q) (queue_context_id q) now
           then (s, [], Answer None)
           else let '(l, e) := run_chain (mkLoop s [] 0 None) (task_chain (task q)) in (sess l, trace l, e)
       end.
End task.
End environment.

(** ** What one step leaves alone *)

Definition flow_loop (f : flow) : loop := match f with Continue l | Finish l _ | Escape l _ => l end.

Definition frame (p : string) (s s' : session) : Prop :=
  forall p', p' <> p -> health s' !! p' = health s !! p' /\
             is_provider_skipped_in_job s' p' = is_provider_skipped_in_job s p'.

#[export] Instance frame_preorder p : PreOrder (frame p).
Proof.
  split; [by intros s p' _|]. intros s s1 s2 H H1 p' N. destruct (H p' N), (H1 p' N). split; congruence.
Qed.

Lemma frame_skip p s : frame p s (skip_in_job s p).
Proof.
  intros p' N. split; [done|]. unfold is_provider_skipped_in_job, skip_in_job. cbn. destruct (skipped s) as [j|]; [|done].
  cbn. apply bool_decide_ext. set_solver.
Qed.

Lemma frame_failure th cd p s e t : frame p s (record_source_failure th cd s p e t).
Proof.
  intros p' N. split; [|done]. unfold record_source_failure, _record_failure. cbn. by rewrite lookup_insert_ne.
Qed.

Lemma frame_success p s now : frame p s (record_source_success s p now).
Proof.
  intros p' N. split; [|done]. unfold record_source_success, _record_success. cbn. by rewrite lookup_insert_ne.
Qed.

Lemma frame_recent p s t c i now : frame p s (_record_idempotency s t c i now).
Proof. intros p' _. unfold _record_idempotency. by destruct (_ || _). Qed.

Lemma frame_events th cd p s evs : frame p s (set_health s (fold_left (health_step th cd p) evs (health s))).
Proof.
  intros p' N. split; [|done]. cbn. generalize (health s) as h.
  induction evs as [|ev evs IH]; intros h; [done|]. cbn [fold_left]. rewrite IH.
  destruct ev; cbn [health_step]; unfold _record_success, _record_failure, reset_circuit;
    [by rewrite lookup_insert_ne..|]. destruct (h !! p); [by rewrite lookup_insert_ne|done].
Qed.

Section properties.
Context (env : string -> option string) (secrets : list string) (th : Z) (cd : fl).
Context (q : request) (io : string -> step_io).

Abbreviation attempt := (attempt env secrets th cd q io).
Abbreviation on_raise := (on_raise env secrets th cd q io).
Abbreviation try_step := (try_step env secrets th cd q io).
Abbreviation run_chain := (run_chain env secrets th cd q io).
Abbreviation record_failure := (record_failure env).

Lemma record_failure_sess l step e r st : sess (fst (record_failure l step e r st)) = sess l.
Proof. unfold LlmRouter.record_failure. by repeat case_goal. Qed.

Lemma on_raise_frame l step r : frame (provider step) (sess l) (sess (flow_loop (on_raise l step r))).
Proof.
  assert (R : forall l0 e, frame (provider step) (sess l) (sess l0) ->
    frame (provider step) (sess l) (sess (flow_loop
      match record_failure l0 step e (io_record' (io (provider step))) (io_store' (io (provider step))) with
      | (l1, inr _) => Continue l1 | (l1, inl r') => Escape l1 r' end))).
  { intros l0 e H. pose proof (record_failure_sess l0 step e (io_record' (io (provider step))) (io_store' (io (provider step)))) as E.
    destruct (record_failure l0 step e _ _) as [l1 [r'|u]]; cbn in *; by rewrite E. }
  unfold LlmRouter.on_raise. destruct r as [|x|x|e]; [| | |done]; apply R.
  - apply frame_failure.
  - done.
  - cbn. case_match; [|apply frame_failure]. etrans; [apply frame_failure|apply frame_skip].
Qed.

Lemma try_step_frame l step : frame (provider step) (sess l) (sess (flow_loop (try_step l step))).
Proof.
  unfold LlmRouter.try_step. repeat case_goal; try done. unfold LlmRouter.attempt.
  set (l1 := with_session _ _).
  assert (F1 : frame (provider step) (sess l) (sess l1)) by apply frame_events. clearbody l1.
  etrans; [exact F1|]. destruct (io_call _) as [r|raw]; [apply on_raise_frame|].
  destruct (nonempty (strip raw)).
  - destruct (io_record _) as [r|?]; cbn.
    + etrans; [|apply on_raise_frame]. apply frame_success.
    + etrans; [apply frame_success|]. apply frame_recent.
  - match goal with |- context [LlmRouter.record_failure _ ?l2 _ ?e ?r ?st] =>
      pose proof (record_failure_sess l2 step e r st) as E;
      assert (F2 : frame (provider step) (sess l1) (sess l2)) by (etrans; [apply frame_failure|apply frame_skip]);
      destruct (LlmRouter.record_failure _ l2 step e r st) as [l3 [r'|u]] end; cbn in *.
    + etrans; [|apply on_raise_frame]. by rewrite E.
    + by rewrite E.
Qed.

(** ** The specification of failover *)

(** The step would deliver: configured, within quota, not skipped, circuit
    closed, and its answer is not blank. *)
Definition answer_of (step : ProviderStep) : option string :=
  match io_call (io (provider step)) with
  | inr raw => if nonempty (strip raw) then Some (strip raw) else None
  | inl _ => None
  end.

Definition answers (s : session) (step : ProviderStep) : bool :=
  let p := provider step in
  configured env step && match io_quota (io p) with inr b => b | inl _ => false end
  && negb (is_provider_skipped_in_job s p) && negb (circuit_blocks q io s p)
  && bool_decide (is_Some (answer_of step)).

Definition completion_of (step : ProviderStep) : LLMCompletion :=
  mkCompletion (match answer_of step with Some t => t | None => "" end) (provider step) (model step).

(** Quota store, recorder and payload store work, and nobody cancels. *)
Definition undisturbed (i : step_io) : Prop :=
  (exists b, io_quota i = inr b) /\ (exists b, io_record i = inr b) /\ (exists b, io_record' i = inr b) /\
  io_store i = inr tt /\ io_store' i = inr tt /\ (forall e, io_call i <> inl (AsBase e)).

Definition rows (tr : list effect) : list attempt_row :=
  flat_map (fun e => match e with Attempt r => [r] | _ => [] end) tr.
Definition calls (tr : list effect) : list string :=
  flat_map (fun e => match e with Call p _ => [p] | _ => [] end) tr.

Lemma rows_app a b : rows (a ++ b) = (rows a ++ rows b)%list.
Proof. apply flat_map_app. Qed.
Lemma calls_app a b : calls (a ++ b) = (calls a ++ calls b)%list.
Proof. apply flat_map_app. Qed.

Lemma calls_call p rq tr : calls (Call p rq :: tr) = p :: calls tr.
Proof. done. Qed.

(** What an undisturbed failed attempt adds to the trace. *)
Definition fails_with (l l' : loop) (step : ProviderStep) : Prop :=
  attempt_index l' = (attempt_index l + 1)%Z /\
  exists new row, trace l' = (trace l ++ new)%list /\ calls new = [] /\ rows new = [row] /\
    row_provider row = provider step /\ row_retry row = attempt_index l /\ row_success row = false.

Lemma record_failure_ok l step e b :
  exists l', record_failure l step e (inr b) (inr tt) = (l', inr tt) /\ fails_with l l' step.
Proof.
  unfold LlmRouter.record_failure. destruct (b && _); eexists; (split; [reflexivity|]);
    (split; [reflexivity|]); cbn; rewrite <- ?app_assoc; eexists _, _; (split; [reflexivity|]); by cbn.
Qed.

Lemma on_raise_ok l step r :
  undisturbed (io (provider step)) -> (forall e, r <> AsBase e) ->
  exists l', on_raise l step r = Continue l' /\ fails_with l l' step.
Proof.
  intros (_ & _ & (b & R) & _ & S & _) N. unfold LlmRouter.on_raise. rewrite R, S.
  destruct r as [|x|x|e]; [| | |by destruct (N e)];
  match goal with |- context [LlmRouter.record_failure _ ?l0 _ ?e _ _] =>
    destruct (record_failure_ok l0 step e b) as (l' & -> & F) end; by exists l'.
Qed.

(** One step of an undisturbed run, by the specification. *)
Lemma try_step_spec l step :
  undisturbed (io (provider step)) ->
  if answers (sess l) step then
    exists l' new row, try_step l step = Finish l' (completion_of step) /\ trace l' = (trace l ++ new)%list /\
      calls new = [provider step] /\ rows new = [row] /\ row_provider row = provider step /\
      row_model row = model step /\ row_retry row = attempt_index l /\ row_success row = true
  else
    exists l', try_step l step = Continue l' /\
    ((trace l' = trace l /\ (attempt_index l <= attempt_index l')%Z) \/
     exists l1 rq, trace l1 = (trace l ++ [Call (provider step) rq])%list /\ attempt_index l1 = attempt_index l /\
       fails_with l1 l' step).
Proof.
  intros U. pose proof U as ((b & Q) & (b1 & R1) & _ & S1 & _ & N).
  unfold answers, answer_of, completion_of, answer_of, LlmRouter.try_step. rewrite Q.
  destruct (configured env step); [|exists l; split; [done|]; left; split; [done|lia]].
  destruct b; [|exists (failed l step); split; [done|]; left; split; [done|cbn; lia]]. cbn [negb andb].
  destruct (is_provider_skipped_in_job _ _); [exists (failed l step); split; [done|]; left; split; [done|cbn; lia]|].
  destruct (circuit_blocks _ _ _ _); [exists (failed l step); split; [done|]; left; split; [done|cbn; lia]|].
  cbn [negb andb orb]. unfold LlmRouter.attempt.
  set (l1 := with_session _ _).
  assert (T1 : trace l1 = (trace l ++ [Call (provider step) (provider_request env step)])%list) by done.
  assert (A1 : attempt_index l1 = attempt_index l) by done. clearbody l1.
  destruct (io_call _) as [r|raw] eqn:C.
  - rewrite bool_decide_eq_false_2 by (intros [? [=]]).
    destruct (on_raise_ok l1 step r U) as (l' & E & F); [congruence|]. exists l'. split; [exact E|]. right. eauto.
  - destruct (nonempty (strip raw)) eqn:NE.
    + rewrite bool_decide_eq_true_2 by eauto. rewrite R1. eexists _, _, _. split; [reflexivity|].
      cbn. rewrite T1, <- app_assoc. split; [reflexivity|]. cbn. by rewrite A1.
    + rewrite bool_decide_eq_false_2 by (intros [? [=]]). rewrite R1, S1.
      match goal with |- context [LlmRouter.record_failure _ ?l2 _ ?e _ _] =>
        destruct (record_failure_ok l2 step e b1) as (l' & -> & F) end.
      exists l'. split; [done|]. right. by exists l1, (provider_request env step).
Qed.

Lemma answers_frame p s s' step :
  frame p s s' -> provider step <> p -> answers s' step = answers s step.
Proof.
  intros F N. destruct (F _ N) as [H1 H2]. unfold answers, circuit_blocks, circuit_open_at, health_of.
  by rewrite H1, H2.
Qed.

(** [find] *)
Fixpoint first_answer (s : session) (steps : list ProviderStep) : option ProviderStep :=
  match steps with [] => None | step :: rest => if answers s step then Some step else first_answer s rest end.

Lemma first_answer_frame p s s' steps :
  frame p s s' -> p ∉ map provider steps -> first_answer s' steps = first_answer s steps.
Proof.
  intros F. induction steps as [|st steps IH]; [done|]. cbn [map first_answer]. intros N.
  rewrite (answers_frame p s s') by (try done; set_solver). rewrite IH by set_solver. done.
Qed.

Lemma run_chain_spec steps l :
  NoDup (map provider steps) -> Forall (fun st => undisturbed (io (provider st))) steps ->
  snd (run_chain l steps) = Answer (option_map completion_of (first_answer (sess l) steps)).
Proof.
  revert l. induction steps as [|st steps IH]; intros l ND U; [done|].
  change (NoDup (provider st :: map provider steps)) in ND.
  apply NoDup_cons in ND as [N ND]. apply Forall_cons in U as [U1 U].
  cbn [LlmRouter.run_chain first_answer]. pose proof (try_step_spec l st U1) as S.
  pose proof (try_step_frame l st) as F.
  destruct (answers (sess l) st) eqn:A.
  - by destruct S as (l' & ? & ? & -> & _).
  - destruct S as (l' & E & _). rewrite E in F |- *. cbn in F. rewrite IH by done.
    by rewrite (first_answer_frame _ _ _ _ F N).
Qed.

Lemma task_chain_nodup t : NoDup (map provider (task_chain env t)).
Proof.
  clear q io. unfold task_chain, _scheduler_chain. destruct (custom_provider_step env) as [[[? ?] ?]|]; cbn;
    repeat (constructor; [set_solver|]); constructor.
Qed.

(** ** The audit trail of a run *)

Definition trail (l l' : loop) (e : ending) : Prop :=
  exists new, trace l' = (trace l ++ new)%list /\ map row_provider (rows new) = calls new /\
    StronglySorted Z.lt (map row_retry (rows new)) /\
    Forall (fun r => attempt_index l <= row_retry r)%Z (rows new) /\
    match e with
    | Answer (Some c) => exists rs r, rows new = (rs ++ [r])%list /\ Forall (fun r => row_success r = false) rs /\
        row_success r = true /\ row_provider r = c_provider c /\ row_model r = c_model c
    | _ => Forall (fun r => row_success r = false) (rows new)
    end.

Lemma trail_skip l l1 l2 e :
  trace l1 = trace l -> (attempt_index l <= attempt_index l1)%Z -> trail l1 l2 e -> trail l l2 e.
Proof.
  intros T I (new & E & H1 & H2 & H3 & H4). exists new. rewrite E, T. split_and!; try done.
  eapply Forall_impl; [exact H3|]. cbn. lia.
Qed.

Lemma trail_failed l l1 l2 l3 st rq e :
  trace l1 = (trace l ++ [Call (provider st) rq])%list -> attempt_index l1 = attempt_index l ->
  fails_with l1 l2 st -> trail l2 l3 e -> trail l l3 e.
Proof.
  intros T I (A & new1 & row & T1 & C1 & R1 & P & Rr & Sf) (new & E & H1 & H2 & H3 & H4).
  exists (Call (provider st) rq :: new1 ++ new)%list.
  rewrite E, T1, T, <- !app_assoc. split; [done|].
  assert (ER : rows (Call (provider st) rq :: new1 ++ new) = row :: rows new)
    by (cbn; fold (rows (new1 ++ new)); rewrite rows_app, R1; done).
  assert (EC : calls (Call (provider st) rq :: new1 ++ new) = provider st :: calls new)
    by (cbn; fold (calls (new1 ++ new)); rewrite calls_app, C1; done).
  rewrite ER, EC. cbn [map]. split_and!.
  - by rewrite P, H1.
  - constructor; [done|]. apply List.Forall_map. eapply Forall_impl; [exact H3|]. cbn. lia.
  - constructor; [lia|]. eapply Forall_impl; [exact H3|]. cbn. lia.
  - destruct e as [[c|]|r]; [|by constructor..]. destruct H4 as (rs & r & Er & F & G).
    exists (row :: rs), r. rewrite Er. split; [done|]. split; [by constructor|done].
Qed.

Lemma run_chain_trail steps l :
  Forall (fun st => undisturbed (io (provider st))) steps ->
  trail l (fst (run_chain l steps)) (snd (run_chain l steps)).
Proof.
  revert l. induction steps as [|st steps IH]; intros l U.
  - exists []. cbn. rewrite app_nil_r. split_and!; done || constructor.
  - apply Forall_cons in U as [U1 U]. cbn [LlmRouter.run_chain]. pose proof (try_step_spec l st U1) as S.
    destruct (answers (sess l) st).
    + destruct S as (l' & new & row & -> & T & C & R & P & M & Rr & Sc). cbn [fst snd].
      exists new. rewrite R, C. cbn. rewrite P. split_and!; try done.
      * repeat constructor.
      * constructor; [lia|constructor].
      * exists [], row. by split_and!.
    + destruct S as (l' & -> & [[T I]|(l1 & rq & T & I & F)]).
      * eapply trail_skip; eauto.
      * eapply trail_failed; eauto.
Qed.

(** ** Skips of a job *)

Definition grows (s s' : session) : Prop :=
  (skipped s = None <-> skipped s' = None) /\
  forall p, is_provider_skipped_in_job s p = true -> is_provider_skipped_in_job s' p = true.

#[local] Instance grows_preorder : PreOrder grows.
Proof. split; [by intros s; split|]. intros s s1 s2 [H I] [H1 I1]. split; [by rewrite H|auto]. Qed.

Lemma grows_skip s p : grows s (skip_in_job s p).
Proof.
  unfold grows, is_provider_skipped_in_job, skip_in_job. cbn. destruct (skipped s) as [j|]; cbn; [|done].
  split; [done|]. intros p'. rewrite !bool_decide_eq_true. set_solver.
Qed.

Lemma skip_in_job_in s p : skipped s <> None -> is_provider_skipped_in_job (skip_in_job s p) p = true.
Proof.
  unfold is_provider_skipped_in_job, skip_in_job. cbn. destruct (skipped s) as [j|]; [|done]. intros _.
  cbn. apply bool_decide_eq_true. set_solver.
Qed.

Lemma grows_same s s' : skipped s' = skipped s -> grows s s'.
Proof. intros E. unfold grows, is_provider_skipped_in_job. by rewrite E. Qed.

(** The answers after which the router leaves a provider alone for the job. *)
Definition dead (i : step_io) : bool :=
  match io_call i with
  | inr raw => negb (nonempty (strip raw))
  | inl (AsException x) => existsb (String.eqb (classify_message x)) ["dns"; "network"]
  | inl _ => false
  end.

Lemma record_failure_calls l step e r st :
  exists new, trace (fst (record_failure l step e r st)) = (trace l ++ new)%list /\ calls new = [].
Proof.
  unfold LlmRouter.record_failure. repeat case_goal; cbn; rewrite <- ?app_assoc; by eexists.
Qed.

Lemma on_raise_skips l step r :
  (exists new, trace (flow_loop (on_raise l step r)) = (trace l ++ new)%list /\ calls new = []) /\
  grows (sess l) (sess (flow_loop (on_raise l step r))) /\
  (skipped (sess l) <> None -> match r with AsException x => existsb (String.eqb (classify_message x)) ["dns"; "network"] | _ => false end = true ->
   is_provider_skipped_in_job (sess (flow_loop (on_raise l step r))) (provider step) = true).
Proof.
  assert (R : forall l0 e, trace l0 = trace l ->
    let f := match record_failure l0 step e (io_record' (io (provider step))) (io_store' (io (provider step))) with
      | (l1, inr _) => Continue l1 | (l1, inl r') => Escape l1 r' end in
    (exists new, trace (flow_loop f) = (trace l ++ new)%list /\ calls new = []) /\ sess (flow_loop f) = sess l0).
  { intros l0 e T. pose proof (record_failure_sess l0 step e (io_record' (io (provider step))) (io_store' (io (provider step)))) as E.
    pose proof (record_failure_calls l0 step e (io_record' (io (provider step))) (io_store' (io (provider step)))) as C.
    rewrite T in C. destruct (record_failure l0 step e _ _) as [l1 [r'|u]]; cbn in *; by split. }
  unfold LlmRouter.on_raise. destruct r as [|x|x|e].
  4:{ split; [exists []; by rewrite app_nil_r|]. done. }
  all: match goal with |- context [LlmRouter.record_failure _ ?l0 _ ?e _ _] => destruct (R l0 e eq_refl) as [C S]; rewrite S end.
  - split; [exact C|]. split; [by apply grows_same|done].
  - split; [exact C|]. split; done.
  - split; [exact C|]. cbn [sess with_session classify_llm_error].
    destruct (existsb (String.eqb (classify_message x)) ["dns"; "network"]); [|split; [by apply grows_same|discriminate]]. split.
    + etrans; [|apply grows_skip]. by apply grows_same.
    + intros J _. apply skip_in_job_in. by cbn.
Qed.

Lemma try_step_skips l step :
  let l' := flow_loop (try_step l step) in
  grows (sess l) (sess l') /\
  exists new, trace l' = (trace l ++ new)%list /\
  (calls new = [] \/
   (calls new = [provider step] /\ is_provider_skipped_in_job (sess l) (provider step) = false /\
    (skipped (sess l) <> None -> dead (io (provider step)) = true -> is_provider_skipped_in_job (sess l') (provider step) = true))).
Proof.
  unfold LlmRouter.try_step.
  assert (K : forall f, sess (flow_loop f) = sess l -> trace (flow_loop f) = trace l ->
    grows (sess l) (sess (flow_loop f)) /\ exists new, trace (flow_loop f) = (trace l ++ new)%list /\
    (calls new = [] \/
     (calls new = [provider step] /\ is_provider_skipped_in_job (sess l) (provider step) = false /\
      (skipped (sess l) <> None -> dead (io (provider step)) = true -> is_provider_skipped_in_job (sess (flow_loop f)) (provider step) = true)))).
  { intros f E T. rewrite E, T. split; [done|]. exists []. rewrite app_nil_r. by split; [|left]. }
  cbv zeta. destruct (negb _); [by apply K|]. destruct (io_quota _) as [r|[]]; [by apply K| |by apply K].
  destruct (is_provider_skipped_in_job (sess l) _) eqn:SK; [by apply K|].
  destruct (circuit_blocks _ _ _ _); [by apply K|]. clear K. cbn [orb].
  unfold LlmRouter.attempt. set (l1 := with_session _ _).
  assert (T1 : trace l1 = (trace l ++ [Call (provider step) (provider_request env step)])%list) by done.
  assert (G1 : skipped (sess l1) = skipped (sess l)) by done. clearbody l1.
  unfold dead. destruct (io_call _) as [r|raw].
  - destruct (on_raise_skips l1 step r) as ((new & T & C) & G & D). split; [by etrans; [apply grows_same|]|].
    exists (Call (provider step) (provider_request env step) :: new). rewrite T, T1, <- app_assoc. split; [done|].
    right. split; [by rewrite calls_call, C|]. split; [done|]. intros J DD. apply D; [congruence|exact DD].
  - destruct (nonempty (strip raw)).
    + destruct (io_record _) as [r|b]; cbn.
      * match goal with |- context [LlmRouter.on_raise _ _ _ _ _ _ ?l2 _ _] =>
          destruct (on_raise_skips l2 step r) as ((new & T & C) & G & _); set (l3 := flow_loop _) in * end.
        split; [etrans; [|exact G]; by apply grows_same|]. rewrite T. cbn. rewrite T1, <- !app_assoc. eexists. split; [done|].
        right. split; [by rewrite !calls_app, C|]. split; [done|]. discriminate.
      * rewrite T1, <- app_assoc. split; [apply grows_same; unfold _record_idempotency; by destruct (_ || _)|].
        eexists. split; [done|]. by right.
    + set (l2 := with_session l1 _).
      assert (G2 : grows (sess l1) (sess l2)) by (etrans; [|apply grows_skip]; by apply grows_same).
      assert (S2 : skipped (sess l) <> None -> is_provider_skipped_in_job (sess l2) (provider step) = true)
        by (intros J; apply skip_in_job_in; cbn; congruence).
      assert (T2 : trace l2 = trace l1) by done. clearbody l2.
      pose proof (record_failure_sess l2 step (classify_llm_error None true) (io_record (io (provider step))) (io_store (io (provider step)))) as E.
      destruct (record_failure_calls l2 step (classify_llm_error None true) (io_record (io (provider step))) (io_store (io (provider step)))) as (n1 & TT & C1).
      destruct (LlmRouter.record_failure _ l2 _ _ _ _) as [l3 [r'|u]]; cbn in E, TT |- *.
      * destruct (on_raise_skips l3 step r') as ((new & T & C) & G & _).
        split; [etrans; [by apply grows_same|]; etrans; [exact G2|]; by rewrite <- E|].
        exists (Call (provider step) (provider_request env step) :: n1 ++ new)%list. rewrite T, TT, T2, T1, <- !app_assoc.
        split; [done|]. right. split; [|split; [done|]].
        -- by rewrite calls_call, calls_app, C1, C.
        -- intros J _. apply G. rewrite E. auto.
      * split; [etrans; [by apply grows_same|]; by rewrite E|].
        exists (Call (provider step) (provider_request env step) :: n1). rewrite TT, T2, T1, <- !app_assoc.
        split; [done|]. right. split; [by rewrite calls_call, C1|]. split; [done|]. intros J _. rewrite E. auto.
Qed.

Lemma run_chain_skips steps l :
  NoDup (map provider steps) ->
  let l' := fst (run_chain l steps) in
  grows (sess l) (sess l') /\
  exists new, trace l' = (trace l ++ new)%list /\ calls new `sublist_of` map provider steps /\
  forall p, In p (calls new) -> is_provider_skipped_in_job (sess l) p = false /\
    (skipped (sess l) <> None -> dead (io p) = true -> is_provider_skipped_in_job (sess l') p = true).
Proof.
  revert l. induction steps as [|st steps IH]; intros l ND.
  { split; [done|]. exists []. cbn. by rewrite app_nil_r. }
  change (NoDup (provider st :: map provider steps)) in ND. apply NoDup_cons in ND as [N ND].
  cbn [LlmRouter.run_chain]. destruct (try_step_skips l st) as (G & new & T & C).
  pose proof (try_step_frame l st) as F. set (f := try_step l st) in *.
  assert (Stop : forall l1, flow_loop f = l1 ->
    grows (sess l) (sess l1) /\ exists new, trace l1 = (trace l ++ new)%list /\ calls new `sublist_of` map provider (st :: steps) /\
    forall p, In p (calls new) -> is_provider_skipped_in_job (sess l) p = false /\
    (skipped (sess l) <> None -> dead (io p) = true -> is_provider_skipped_in_job (sess l1) p = true)).
  { intros l1 <-. split; [exact G|]. exists new. split; [exact T|]. destruct C as [->|(-> & S & D)].
    - split; [apply sublist_nil_l|done].
    - split; [cbn; apply sublist_skip, sublist_nil_l|]. intros p [<-|[]]. by split. }
  destruct f as [l1|l1 c|l1 r]; cbn [flow_loop fst] in *; [|by apply Stop..]. clear Stop.
  destruct (IH l1 ND) as (G' & new' & T' & Sub & P). split; [by etrans|].
  exists (new ++ new')%list. rewrite T', T, app_assoc. split; [done|]. rewrite calls_app.
  assert (NotIn : forall p, In p (calls new') -> p <> provider st).
  { intros p I ->. apply N. eapply elem_of_sublist; [by apply list_elem_of_In|exact Sub]. }
  split.
  - destruct C as [->|(-> & _)]; cbn; [by apply sublist_cons|by apply sublist_skip].
  - intros p I. apply in_app_or in I as [I|I].
    + destruct C as [E|(E & S & D)]; rewrite E in I; [done|]. destruct I as [<-|[]]. split; [done|].
      intros J Dd. apply G'. auto.
    + destruct (P p I) as [S D]. destruct (F p (NotIn p I)) as [_ Eq]. rewrite <- Eq. split; [done|].
      intros J. apply D. intros Nn. apply J. by apply G.
Qed.

Lemma try_step_finish l step l' c :
  try_step l step = Finish l' c ->
  exists s0, sess l' = _record_idempotency s0 (task_name (task q)) (queue_context_type q) (queue_context_id q) (io_end (io (c_provider c))).
Proof.
  assert (N : forall l0 st r, on_raise l0 st r <> Finish l' c).
  { intros l0 st r. unfold LlmRouter.on_raise. by repeat case_goal. }
  unfold LlmRouter.try_step, LlmRouter.attempt. intros H. repeat case_hyp H; try discriminate H; try (by apply N in H).
  injection H as <- <-. by eexists.
Qed.

Lemma run_chain_answer steps l l' c :
  run_chain l steps = (l', Answer (Some c)) ->
  exists s0, sess l' = _record_idempotency s0 (task_name (task q)) (queue_context_type q) (queue_context_id q) (io_end (io (c_provider c))).
Proof.
  revert l. induction steps as [|st steps IH]; intros l; [done|]. cbn [LlmRouter.run_chain].
  destruct (try_step l st) as [l1|l1 c'|l1 r] eqn:E; intros H; [eauto| |discriminate H].
  injection H as <- <-. by eapply try_step_finish.
Qed.
End properties.

(** Pruning keeps the entry just written. *)
Lemma recent_kept s t i now :
  0 <= now <= 2 ^ 39 -> nonempty i = true ->
  recent (_record_idempotency s t "cve" i (Fin now)) !! (t, i) = Some (Fin now).
Proof.
  intros B N. unfold _record_idempotency. rewrite N. cbn [negb String.eqb Ascii.eqb Bool.eqb orb recent].
  case_match; [|by rewrite lookup_insert_eq]. apply map_lookup_filter_Some. rewrite lookup_insert_eq. split; [done|].
  cbn [snd]. unfold fsub, _IDEMPOTENCY_WINDOW_SEC. cbn [fneg].
  assert (P : 2 ^ 39 == 549755813888) by reflexivity. assert (P' : 2 ^ 40 == 1099511627776) by reflexivity.
  destruct (near_add 40 0 0 (Fin now) (Fin (- (30))) now (- (30)) (near_refl _) (near_refl _)) as (x & -> & X); [lia|lra|lra|].
  assert (P'' : 2 ^ (40 - 53) == 1 # 8192) by reflexivity. rewrite P'' in X.
  by rewrite (proj2 (flt_fin_false now x)) by lra.
Qed.

Lemma fmax_ge_l a x : exists y, fmax (Fin a) x = y /\ match y with Fin q => a <= q | PInf => True | _ => False end.
Proof.
  eexists; split; [reflexivity|]. unfold fmax. destruct (flt (Fin a) x) eqn:E; [|lra].
  destruct x; [|done|discriminate E|discriminate E]. apply flt_fin in E. lra.
Qed.

Lemma fmin_within a b y :
  a <= b -> match y with Fin q => a <= q | PInf => True | _ => False end -> within a b (fmin (Fin b) y).
Proof.
  intros L H. unfold fmin. destruct y as [p| | |]; try done.
  - destruct (flt (Fin p) (Fin b)) eqn:E; [apply flt_fin in E|]; eexists; (split; [reflexivity|lra]).
  - exists b. split; [reflexivity|lra].
Qed.

(** ** Properties *)

(** C8 Failover: while the recorder and the quota stores answer without an exception and nobody cancels the call, the task
    returns [None] when the request has no payload, when the instance has no AI quota left or when the same task was answered for
    the same CVE within the last 30 seconds; otherwise it returns the answer of the first provider of the chain that is configured, within its
    quota, not skipped in the job, not behind an open circuit, and whose text is not blank, and [None] when there is no such
    provider. What earlier providers did in the same run never changes whether a later one is tried. *)
Theorem failover_returns_first_answer env secrets th cd q io s quota_left now :
  (forall p, undisturbed (io p)) ->
  snd (chat_completion_task env secrets th cd q io s (inr quota_left) now) =
  Answer (if has_llm_request_payload env (messages q) && quota_left &&
             negb (_idempotency_blocked s (task_name (task q)) (queue_context_type q) (queue_context_id q) now)
          then option_map (completion_of io) (first_answer env q io s (task_chain env (task q))) else None).
Proof.
  intros U. unfold chat_completion_task. destruct (has_llm_request_payload env (messages q)); [|done].
  destruct quota_left; [|done]. destruct (_idempotency_blocked _ _ _ _ _); [done|]. cbn [negb andb].
  pose proof (run_chain_spec env secrets th cd q io (task_chain env (task q)) (mkLoop s [] 0 None) (task_chain_nodup env _)) as R.
  destruct (run_chain _ _ _ _ _ _ _ _) as [l e]. apply R. apply Forall_forall. intros st _. apply U.
Qed.

(** C21 The audit trail: while the recorder and the quota stores of the providers work and nobody
    cancels the call, every provider is called at most once, each call leaves exactly one row in order, the retry indices of the rows
    increase, and a row is marked successful exactly when it is the last one, of
    the provider and model that are returned. *)
Theorem attempts_are_audited env secrets th cd q io s iq now s' tr e :
  (forall p, undisturbed (io p)) ->
  chat_completion_task env secrets th cd q io s iq now = (s', tr, e) ->
  map row_provider (rows tr) = calls tr /\ NoDup (calls tr) /\
  StronglySorted Z.lt (map row_retry (rows tr)) /\
  match e with
  | Answer (Some c) => exists rs r, rows tr = (rs ++ [r])%list /\ Forall (fun r => row_success r = false) rs /\
      row_success r = true /\ row_provider r = c_provider c /\ row_model r = c_model c
  | _ => Forall (fun r => row_success r = false) (rows tr)
  end.
Proof.
  intros U. unfold chat_completion_task.
  assert (N : forall s0 e0, (s0, @nil effect, e0) = (s', tr, e) -> (forall c, e0 <> Answer (Some c)) ->
    map row_provider (rows tr) = calls tr /\ NoDup (calls tr) /\ StronglySorted Z.lt (map row_retry (rows tr)) /\
    match e with
    | Answer (Some c) => exists rs r, rows tr = (rs ++ [r])%list /\ Forall (fun r => row_success r = false) rs /\
        row_success r = true /\ row_provider r = c_provider c /\ row_model r = c_model c
    | _ => Forall (fun r => row_success r = false) (rows tr)
    end).
  { intros s0 e0 E K. injection E as <- <- <-. split_and!; try done; try constructor.
    destruct e0 as [[c|]|r]; [by destruct (K c)|constructor..]. }
  destruct (negb _); [intros H; by apply N in H|]. destruct iq as [r|[]]; [intros H; by apply N in H| |intros H; by apply N in H].
  destruct (_idempotency_blocked _ _ _ _ _); [intros H; by apply N in H|]. clear N.
  pose proof (run_chain_trail env secrets th cd q io (task_chain env (task q)) (mkLoop s [] 0 None)) as (new & T & H1 & H2 & _ & H4).
  { apply Forall_forall. intros st _. apply U. }
  pose proof (run_chain_skips env secrets th cd q io (task_chain env (task q)) (mkLoop s [] 0 None) (task_chain_nodup env _))
    as (_ & new' & T' & Sub & _).
  destruct (run_chain _ _ _ _ _ _ _ _) as [l e0]. cbn in T, T', H4. rewrite T in T'. subst new'.
  intros H. injection H as <- <- <-. rewrite T. split_and!; try done.
  eapply sublist_NoDup; [apply task_chain_nodup|exact Sub].
Qed.

(** Inside a job, a provider that returned a blank answer or failed at the DNS or
    network level is not called again by a later task of the job, whatever else the
    two tasks meet. *)
Theorem job_leaves_dead_providers env secrets th cd q1 q2 io1 io2 s iq1 iq2 now1 now2 s1 tr1 e1 s2 tr2 e2 p :
  skipped s <> None ->
  chat_completion_task env secrets th cd q1 io1 s iq1 now1 = (s1, tr1, e1) ->
  chat_completion_task env secrets th cd q2 io2 s1 iq2 now2 = (s2, tr2, e2) ->
  In p (calls tr1) -> dead (io1 p) = true -> ~ In p (calls tr2).
Proof.
  intros J H1 H2 I D I2. unfold chat_completion_task in H1, H2.
  repeat case_hyp H1; try (injection H1 as <- <- <-; done).
  repeat case_hyp H2; try (injection H2 as <- <- <-; done).
  pose proof (run_chain_skips env secrets th cd q1 io1 (task_chain env (task q1)) (mkLoop s [] 0 None) (task_chain_nodup env _))
    as (_ & n1 & T1 & _ & P1).
  pose proof (run_chain_skips env secrets th cd q2 io2 (task_chain env (task q2)) (mkLoop s1 [] 0 None) (task_chain_nodup env _))
    as (_ & n2 & T2 & _ & P2).
  rewrite Heqp0 in T1, P1. rewrite Heqp1 in T2, P2. cbn in T1, T2, P1, P2.
  injection H1 as <- <- <-. injection H2 as <- <- <-. rewrite T1 in I. rewrite T2 in I2.
  destruct (P1 p I) as [_ K]. destruct (P2 p I2) as [K2 _]. rewrite (K J D) in K2. discriminate K2.
Qed.

(** A CVE answered for a task is not sent again for the same task within the
    thirty-second window: the repeat returns [None] without any effect. *)
Theorem answered_cve_not_repeated env secrets th cd q q' io io' s iq b now now' s' tr c t :
  chat_completion_task env secrets th cd q io s iq now = (s', tr, Answer (Some c)) ->
  queue_context_type q = "cve" -> nonempty (queue_context_id q) = true ->
  io_end (io (c_provider c)) = Fin t -> 0 <= t <= 2 ^ 39 -> flt (fsub now' (Fin t)) (Fin 30) = true ->
  task q' = task q -> queue_context_type q' = "cve" -> queue_context_id q' = queue_context_id q ->
  chat_completion_task env secrets th cd q' io' s' (inr b) now' = (s', [], Answer None).
Proof.
  intros H CT CI T B W ET ECT ECI. unfold chat_completion_task in H. repeat case_hyp H; try discriminate H.
  injection H as <- <- ->. match goal with E : run_chain _ _ _ _ _ _ _ _ = _ |- _ => apply run_chain_answer in E as (s0 & ->) end.
  unfold chat_completion_task. case_match; [done|]. destruct b; [|done].
  unfold _idempotency_blocked. rewrite ET, ECT, ECI, CT, CI, T. cbn [negb String.eqb Ascii.eqb Bool.eqb orb].
  rewrite recent_kept by done. unfold _IDEMPOTENCY_WINDOW_SEC. by rewrite W.
Qed.

(** Every environment gives a provider timeout between 10 and 120 seconds, also
    when the variables hold text, infinities or NaN. *)
Theorem provider_timeout_bounded env : within 10 120 (llm_provider_timeout env).
Proof.
  assert (S : within 10 120 (fmin (Fin 60) (scheduler_llm_timeout env))).
  { apply (within_weaken 10 60); [|lra|lra]. apply fmin_within; [lra|]. unfold scheduler_llm_timeout.
    destruct (float_of_str _) as [a|e]; [|lra]. by destruct (fmax_ge_l 10 a) as (y & -> & Y). }
  unfold llm_provider_timeout. destruct (nonempty _); [|exact S]. destruct (float_of_str _) as [a|e]; [|exact S].
  apply fmin_within; [lra|]. by destruct (fmax_ge_l 10 a) as (y & -> & Y).
Qed.

(** The operations recorder opens its database connection outside its own error
    handling.  When that raises, a delivered answer is lost: the task ends in the
    recorder's exception, and the provider that answered is charged a failure. *)
Theorem recorder_outage_discards_answer env secrets th cd q io l step raw x r :
  io_call (io (provider step)) = inr raw -> nonempty (strip raw) = true ->
  io_record (io (provider step)) = inl (AsException x) -> io_record' (io (provider step)) = inl r ->
  exists l', attempt env secrets th cd q io l step = Escape l' r /\
    consecutive_failures (health_of (health (sess l')) (provider step)) = 1%Z.
Proof.
  intros C N R R'. unfold attempt. rewrite C, N, R. unfold on_raise, record_failure. rewrite R'.
  eexists. split; [reflexivity|]. cbn.
  assert (E : forall s, health (if existsb (String.eqb (classify_message x)) ["dns"; "network"]
            then mark_provider_transport_failure s (provider step) else s) = health s) by (intros s; by case_goal).
  rewrite E. unfold health_of, record_source_failure, _record_failure, record_source_success, _record_success.
  cbn. rewrite lookup_insert_eq. cbn. unfold health_of. by rewrite lookup_insert_eq.
Qed.

(** ** Concrete runs *)

Definition demo_env (k : string) : option string :=
  assoc k [("GROQ_API_KEY", "gsk-1"); ("CEREBRAS_API_KEY", "csk-1"); ("GEMINI_API_KEY", "your_key_here");
           ("LLM_PROVIDER_TIMEOUT_SEC", "600")].
Definition demo_io (answer : raised + string) : step_io :=
  mkIo (inr true) [] answer (inr true) (inr tt) (inr true) (inr tt) (Fin 100) (Fin 101, Fin 101) (Fin 102, Fin 102) (Fin 103).
Definition refused : exc := mkExc "ConnectError" (mkLink "[Errno 111] Connection refused" false false) [].
Definition demo_world (p : string) : step_io :=
  if String.eqb p "groq" then demo_io (inl (AsException refused)) else demo_io (inr " ok ").
Definition demo_request : request :=
  mkRequest product_extraction [mkMessage (Some "user") (Some "CVE text")] "60.0" (Some "CVE-2024-1") None None false.
Definition demo_session : session := mkSession ∅ (Some ∅) ∅.
Definition demo_task : session -> fl -> session * list effect * ending :=
  fun s now => chat_completion_task demo_env [] 5 (Fin 60) demo_request demo_world s (inr true) now.

Lemma demo_undisturbed p : undisturbed (demo_world p).
Proof. unfold demo_world. destruct (String.eqb p "groq"); (split_and!; try by eexists); done. Qed.

Example demo_run :
  snd (fst (demo_task demo_session (Fin 99))) =
  [Call "groq" (Some (OpenAIChat "groq" GROQ_URL "gsk-1" "openai/gpt-oss-20b" []));
   Attempt (mkRow "groq" "openai/gpt-oss-20b" false 0 (Some "network") None);
   Call "cerebras" (Some (OpenAIChat "cerebras" CEREBRAS_URL "csk-1" "gpt-oss-120b" []));
   Attempt (mkRow "cerebras" "gpt-oss-120b" true 1 None (Some (mkStep "groq" "openai/gpt-oss-20b")))].
Proof. vm_compute. reflexivity. Qed.

Lemma failover_returns_first_answer_witness :
  snd (demo_task demo_session (Fin 99)) = Answer (Some (mkCompletion "ok" "cerebras" "gpt-oss-120b")).
Proof.
  refine (eq_trans (failover_returns_first_answer demo_env [] 5 (Fin 60) demo_request demo_world demo_session true (Fin 99) demo_undisturbed) _);
    vm_compute; reflexivity.
Defined.

Lemma attempts_are_audited_witness :
  match demo_task demo_session (Fin 99) with (_, tr, _) => map row_provider (rows tr) = calls tr end.
Proof.
  unfold demo_task. destruct (chat_completion_task _ _ _ _ _ _ _ _ _) as [[s tr] e] eqn:E.
  apply (attempts_are_audited _ _ _ _ _ _ _ _ _ _ _ _ demo_undisturbed E).
Defined.

Definition demo_after : session := fst (fst (demo_task demo_session (Fin 99))).

Lemma job_leaves_dead_providers_witness :
  match demo_task demo_after (Fin 200) with (_, tr, _) => ~ In "groq" (calls tr) end.
Proof.
  assert (C : In "groq" (calls (snd (fst (demo_task demo_session (Fin 99)))))) by (vm_compute; by left).
  revert C. unfold demo_after, demo_task. destruct (chat_completion_task _ _ _ _ _ _ demo_session _ _) as [[s1 tr1] e1] eqn:E1.
  cbn [fst snd]. destruct (chat_completion_task _ _ _ _ _ _ s1 _ _) as [[s2 tr2] e2] eqn:E2. intros C.
  refine (job_leaves_dead_providers _ _ _ _ _ _ _ _ _ _ _ _ _ _ _ _ _ _ _ "groq" _ E1 E2 C _); [discriminate|].
  vm_compute. reflexivity.
Defined.

Lemma answered_cve_not_repeated_witness :
  demo_task demo_after (Fin 120) = (demo_after, [], Answer None).
Proof.
  assert (A : snd (demo_task demo_session (Fin 99)) = Answer (Some (mkCompletion "ok" "cerebras" "gpt-oss-120b"))) by (vm_compute; reflexivity).
  revert A. unfold demo_after, demo_task. destruct (chat_completion_task _ _ _ _ _ _ demo_session _ _) as [[s1 tr1] e1] eqn:E1.
  cbn [fst snd]. intros ->.
  refine (answered_cve_not_repeated _ _ _ _ _ _ _ _ _ _ true _ _ _ _ _ 103 E1 _ _ _ _ _ _ _ _); try reflexivity.
  - split; vm_compute; discriminate.
Defined.

Lemma recorder_outage_discards_answer_witness :
  exists l', attempt demo_env [] 5 (Fin 60) demo_request
    (fun _ => mkIo (inr true) [] (inr "ok") (inl (AsException refused)) (inr tt) (inl (AsException refused)) (inr tt)
                (Fin 100) (Fin 101, Fin 101) (Fin 102, Fin 102) (Fin 103))
    (mkLoop demo_session [] 0 None) (mkStep "groq" "m") = Escape l' (AsException refused) /\
    consecutive_failures (health_of (health (sess l')) "groq") = 1%Z.
Proof.
  apply (recorder_outage_discards_answer demo_env [] 5 (Fin 60) demo_request
    (fun _ => mkIo (inr true) [] (inr "ok") (inl (AsException refused)) (inr tt) (inl (AsException refused)) (inr tt)
                (Fin 100) (Fin 101, Fin 101) (Fin 102, Fin 102) (Fin 103))
    (mkLoop demo_session [] 0 None) (mkStep "groq" "m") "ok" refused (AsException refused)); reflexivity.
Defined.
