(* ===== verification/Webhooks.v ===== *)
(** * Webhooks: webhooks/destinations.py, webhooks/engine.py

    Destinations, message payloads, the dispatch of one event with its
    per-destination dedupe claims, and the interleaving of concurrent dispatches.
    The claims table is an interface, [ClaimStore]; what a POST does is an argument.
    [env] is [os.environ.get], [json_loads] is [json.loads], [py_str] is [str]. *)

From stdpp Require Import relations.
From S2P Require Import Prelude PyStr PyVal CveRow Float64 QueueTasks StackAssets Pacing.
Open Scope string_scope.

(** ** Event types *)

Definition ALL_EVENT_TYPES : list string :=
  ["kev_alert"; "kev_backlog"; "ioc_watchlist_hit"; "backup_failure"; "health"; "watchlist_alert"; "daily_brief"].
Definition LEGACY_EVENT_ALIASES : list (string * string) :=
  [("kev_stack", "kev_alert"); ("backup_deadman", "backup_failure")].

Definition normalize_event_type (e : string) : string :=
  match assoc e LEGACY_EVENT_ALIASES with Some n => n | None => e end.
Definition mem (x : string) (l : list string) : bool := existsb (String.eqb x) l.

(** [_webhook_alert_types], the spellings under which a claim may be stored. *)
Definition _webhook_alert_types (e : string) : list string :=
  match assoc e [("kev_alert", ["kev_alert"; "kev_stack"]); ("kev_stack", ["kev_alert"; "kev_stack"]);
                 ("backup_failure", ["backup_failure"; "backup_deadman"]);
                 ("backup_deadman", ["backup_failure"; "backup_deadman"])] with
  | Some l => l | None => [e] end.

Section text.
Variable json_loads : string -> option pyval.
Variable py_str : pyval -> string.

Inductive raw_events := RawNone | RawText (s : string) | RawList (l : list pyval).

Definition parse_values (raw : string) : list pyval :=
  if startswith raw "[" then match json_loads raw with Some (PList l) => l | _ => [] end
  else map (fun p => PStr (strip p)) (List.filter (fun p => nonempty (strip p)) (split_on "," raw)).

Definition add_event (normalized : list string) (item : pyval) : list string :=
  let event := normalize_event_type (to_str py_str item) in
  if mem event ALL_EVENT_TYPES && negb (mem event normalized) then (normalized ++ [event])%list else normalized.

Definition parse_event_types (raw : raw_events) : list string :=
  let parse values :=
    match fold_left add_event values [] with [] => ALL_EVENT_TYPES | l => l end in
  match raw with
  | RawNone => ALL_EVENT_TYPES
  | RawList l => parse l
  | RawText s => if nonempty (strip s) then parse (parse_values (strip s)) else ALL_EVENT_TYPES
  end.
End text.

(** ** Destinations *)

Record WebhookDestination := mkDest {
  id : string; kind : string; label : string; enabled : bool;
  event_types : list string; config : list (string * string); source : string
}.

Definition health_source (d : WebhookDestination) : string := "webhook." +:+ id d.
Definition subscribes_to (d : WebhookDestination) (e : string) : bool :=
  enabled d && mem (normalize_event_type e) (event_types d).
Definition cfg (d : WebhookDestination) (k : string) : string :=
  match assoc k (config d) with Some v => v | None => "" end.

Section environment.
Variable env : string -> option string.
Variable json_loads : string -> option pyval.
Variable py_str : pyval -> string.

Definition _env (name : string) : string := strip (env_get env name "").
Definition _truthy (name : string) (default : bool) : bool :=
  match env name with
  | None => default
  | Some raw => negb (mem (lower (strip raw)) ["0"; "false"; "no"; "off"])
  end.
Definition env_events (name : string) : list string :=
  parse_event_types json_loads py_str (if nonempty (_env name) then RawText (_env name) else RawNone).

Definition TOMBSTONE_KEYS : list (string * string) :=
  [("discord", "WEBHOOK_TOMBSTONE_DISCORD"); ("telegram", "WEBHOOK_TOMBSTONE_TELEGRAM"); ("generic", "WEBHOOK_TOMBSTONE_GENERIC")].
Definition env_dest_tombstoned (destination_id : string) : bool :=
  match assoc destination_id TOMBSTONE_KEYS with
  | None => false
  | Some key => mem (lower (_env key)) ["1"; "true"; "yes"; "on"]
  end.

Definition _discord_destination : option WebhookDestination :=
  if env_dest_tombstoned "discord" || negb (nonempty (_env "DISCORD_WEBHOOK_URL")) then None
  else Some (mkDest "discord" "discord" "Discord" (_truthy "DISCORD_WEBHOOK_ENABLED" true)
               (env_events "DISCORD_WEBHOOK_EVENTS") [("url", _env "DISCORD_WEBHOOK_URL")] "env").
Definition _telegram_destination : option WebhookDestination :=
  let token := _env "TELEGRAM_BOT_TOKEN" in let chat_id := _env "TELEGRAM_CHAT_ID" in
  if env_dest_tombstoned "telegram" || negb (nonempty token) || negb (nonempty chat_id) then None
  else Some (mkDest "telegram" "telegram" "Telegram" (_truthy "TELEGRAM_WEBHOOK_ENABLED" true)
               (env_events "TELEGRAM_WEBHOOK_EVENTS") [("token", token); ("chat_id", chat_id)] "env").
Definition _generic_destination : option WebhookDestination :=
  let label := _env "WEBHOOK_GENERIC_LABEL" in
  if env_dest_tombstoned "generic" || negb (nonempty (_env "WEBHOOK_GENERIC_URL")) then None
  else Some (mkDest "generic" "generic" (if nonempty label then label else "Generic HTTPS")
               (_truthy "WEBHOOK_GENERIC_ENABLED" true)
               (env_events "WEBHOOK_GENERIC_EVENTS") [("url", _env "WEBHOOK_GENERIC_URL")] "env").

Definition load_env_destinations : list WebhookDestination :=
  flat_map (fun o => match o with Some d => if env_dest_tombstoned (id d) then [] else [d] | None => [] end)
    [_discord_destination; _telegram_destination; _generic_destination].

Definition find_dest (i : string) (l : list WebhookDestination) : option WebhookDestination :=
  List.find (fun d => String.eqb (id d) i) l.

(** [merged\[id\] = dest] *)
Fixpoint put_dest (d : WebhookDestination) (l : list WebhookDestination) : list WebhookDestination :=
  match l with
  | [] => [d]
  | x :: t => if String.eqb (id x) (id d) then d :: t else x :: put_dest d t
  end.

Definition merge_row (env_dests merged : list WebhookDestination) (row : WebhookDestination) : list WebhookDestination :=
  put_dest (match find_dest (id row) env_dests with
            | Some e => mkDest (id row) (kind e) (if nonempty (label row) then label row else label e)
                          (enabled row) (event_types row) (config e) "env"
            | None => row end) merged.

Fixpoint sort_in (d : WebhookDestination) (l : list WebhookDestination) : list WebhookDestination :=
  match l with [] => [d] | x :: t => if String.ltb (id d) (id x) then d :: l else x :: sort_in d t end.

(** [rows]: the table's rows through [_row_to_destination]. *)
Definition load_destinations (rows : list WebhookDestination) : list WebhookDestination :=
  let env_dests := load_env_destinations in
  match rows with
  | [] => env_dests
  | _ => fold_left (fun l d => sort_in d l)
           (List.filter (fun d => negb (env_dest_tombstoned (id d))) (fold_left (merge_row env_dests) rows env_dests)) []
  end.
End environment.

(** ** Delivery to one destination *)

Definition DISCORD_MAX_CONTENT : nat := 2000.
Definition TELEGRAM_MAX_TEXT : nat := 4096.

Definition _truncate (text : string) (limit : nat) : string :=
  if (ulen text <=? Z.of_nat limit)%Z then text else utake (limit - 1) text +:+ ellipsis.

Inductive payload :=
| Embeds (embeds : list pyval)
| Content (text : string)
| Telegram (chat_id text : string) (parse_mode : option string)
| Generic (body : list (string * pyval)).

(** A POST ends accepted, with an [HTTPStatusError] of a status, or with another exception. *)
Inductive post_result := Accepted | Refused (status : Z) (text : string) | Broken (text : string).

Record event_message := mkEvent {
  m_text : string; m_dedupe : option string; m_skip_dedupe : bool; m_extra : list (string * pyval);
  m_embeds : list pyval; m_parse_mode : option string; m_fallback : option string
}.

Definition truthy_str (o : option string) : bool := match o with Some s => nonempty s | None => false end.
Definition or_str (o : option string) (s : string) : string :=
  match o with Some t => if nonempty t then t else s | None => s end.

Definition webhook_json_payload (message event_type : string) (dedupe_key : option string) (extra : list (string * pyval))
  : list (string * pyval) :=
  let body := [("text", PStr message); ("event_type", PStr event_type); ("source", PStr "briefr")] in
  let body := if truthy_str dedupe_key then dset body "dedupe_key" (PStr (text_or dedupe_key)) else body in
  fold_left (fun b e => dset b (fst e) (snd e)) extra body.

Section delivery.
Variable post : WebhookDestination -> payload -> post_result.
Variable m : event_message.

(** The error of a POST, the payloads already sent in front. *)
Definition posted (d : WebhookDestination) (p : payload) : list payload * option string :=
  ([p], match post d p with Accepted => None | Refused _ t | Broken t => Some t end).

Definition _deliver_discord (d : WebhookDestination) : list payload * option string :=
  let content := Content (_truncate (or_str (m_fallback m) (m_text m)) DISCORD_MAX_CONTENT) in
  match m_embeds m with
  | [] => posted d content
  | embeds =>
      match post d (Embeds embeds) with
      | Accepted => ([Embeds embeds], None)
      | Refused status text =>
          if negb (status =? 400)%Z then ([Embeds embeds], Some text)
          else let '(ps, e) := posted d content in (Embeds embeds :: ps, e)
      | Broken text => ([Embeds embeds], Some text)
      end
  end.

Definition _deliver_telegram (d : WebhookDestination) : list payload * option string :=
  let token := cfg d "token" in let chat_id := cfg d "chat_id" in
  if negb (nonempty token) || negb (nonempty chat_id) then ([], Some "telegram destination missing token or chat_id")
  else posted d (Telegram chat_id (_truncate (m_text m) TELEGRAM_MAX_TEXT)
                   (if truthy_str (m_parse_mode m) then m_parse_mode m else None)).

Definition _deliver_generic (d : WebhookDestination) (event_type : string) : list payload * option string :=
  posted d (Generic (webhook_json_payload (m_text m) event_type (m_dedupe m) (m_extra m))).

(** The payloads posted and the error of the result ([None]: ok). *)
Definition deliver_to_destination (d : WebhookDestination) (event_type : string) : list payload * option string :=
  let '(ps, e) :=
    if String.eqb (kind d) "discord" then _deliver_discord d
    else if String.eqb (kind d) "telegram" then _deliver_telegram d
    else if String.eqb (kind d) "generic" then _deliver_generic d event_type
    else ([], Some ("unknown destination kind: " +:+ kind d)) in
  (ps, option_map (utake 300) e).
End delivery.

(** ** The claims table *)

(** A row of [webhook_destination_dedupe]: destination, event type, dedupe key. *)
Definition claim_key : Type := string * string * string.

(** [clock] is the database's time in seconds, the default of [recorded_at]; [drop] is a
    DELETE of the rows for which the condition holds of key and time. *)
Class ClaimStore (S : Type) := {
  clock : S -> Z;
  recorded : S -> claim_key -> option Z;
  claim : S -> claim_key -> S * bool;
  drop : S -> (claim_key -> Z -> bool) -> S;
  tick : S -> Z -> S;
  claim_granted : forall s k, snd (claim s k) = match recorded s k with None => true | Some _ => false end;
  claim_recorded : forall s k k',
    recorded (fst (claim s k)) k' = match recorded s k' with None => if bool_decide (k = k') then Some (clock s) else None | Some t => Some t end;
  drop_recorded : forall s p k, recorded (drop s p) k = match recorded s k with Some t => if p k t then None else Some t | None => None end;
  tick_recorded : forall s d k, recorded (tick s d) k = recorded s k;
  claim_clock : forall s k, clock (fst (claim s k)) = clock s;
  drop_clock : forall s p, clock (drop s p) = clock s;
  tick_clock : forall s d, clock (tick s d) = (clock s + d)%Z
}.

(** The table itself: an insert that does nothing on conflict, and a delete. *)
Record claims_table := mkClaims { t_clock : Z; t_rows : gmap claim_key Z }.

#[export] Program Instance table_claims : ClaimStore claims_table := {
  clock s := t_clock s;
  recorded s k := t_rows s !! k;
  claim s k := match t_rows s !! k with Some _ => (s, false) | None => (mkClaims (t_clock s) (<[k := t_clock s]> (t_rows s)), true) end;
  drop s p := mkClaims (t_clock s) (filter (fun kt => p (fst kt) (snd kt) = false) (t_rows s));
  tick s d := mkClaims (t_clock s + d)%Z (t_rows s)
}.
Next Obligation. intros s k. cbn. by destruct (t_rows s !! k). Qed.
Next Obligation.
  intros s k k'. cbn. destruct (t_rows s !! k) as [t|] eqn:E; cbn [fst t_rows].
  - case_bool_decide as D; [subst k'; by rewrite E|]. by destruct (t_rows s !! k').
  - case_bool_decide as D; [subst k'; by rewrite lookup_insert_eq, E|]. rewrite lookup_insert_ne by done. by destruct (t_rows s !! k').
Qed.
Next Obligation.
  intros s p k. cbn. destruct (t_rows s !! k) as [t|] eqn:E.
  - destruct (p k t) eqn:P; [apply map_lookup_filter_None; right|apply map_lookup_filter_Some]; cbn; [|done]. intros x X. rewrite E in X. injection X as <-. cbn. by rewrite P.
  - apply map_lookup_filter_None. by left.
Qed.
Next Obligation. done. Qed.
Next Obligation. intros s k. cbn. by destruct (t_rows s !! k). Qed.
Next Obligation. done. Qed.
Next Obligation. done. Qed.

Definition no_claims : claims_table := mkClaims 0 ∅.

Section claims.
Context {S : Type} `{ClaimStore S}.

Definition held (s : S) (k : claim_key) : bool := match recorded s k with Some _ => true | None => false end.

(** [clear_webhook_destination_dedupe_for_dest] *)
Definition release (s : S) (i : string) (types : list string) (dk : string) : S :=
  drop s (fun k _ => String.eqb (fst (fst k)) i && mem (snd (fst k)) types && String.eqb (snd k) dk).

Lemma claim_result s k : snd (claim s k) = negb (held s k).
Proof. rewrite claim_granted. unfold held. by destruct (recorded s k). Qed.

Lemma claim_held s k k' : held (fst (claim s k)) k' = held s k' || bool_decide (k = k').
Proof. unfold held. rewrite claim_recorded. destruct (recorded s k'); [done|]. by case_bool_decide. Qed.

Lemma release_held s i types dk k' :
  held (release s i types dk) k' =
  held s k' && negb (String.eqb (fst (fst k')) i && mem (snd (fst k')) types && String.eqb (snd k') dk).
Proof. unfold held, release. rewrite drop_recorded. destruct (recorded s k'); [|done]. by destruct (_ && _ && _). Qed.
End claims.

(** ** dispatch_event *)

Record delivery_row := mkRow { d_dest : string; d_event : string; d_key : option string; d_ok : bool; d_error : option string }.

Record report := mkReport {
  status : string; reason : option string; sent : list string; errors : list (string * string); skipped : list string
}.

Section dispatch.
Context {S : Type} `{ClaimStore S}.
Variable post : WebhookDestination -> payload -> post_result.

Record run := mkRun {
  r_claims : S; r_posts : list (string * payload); r_rows : list delivery_row;
  r_sent : list string; r_errors : list (string * string); r_skipped : list string
}.

Definition dedupes (m : event_message) : bool := truthy_str (m_dedupe m) && negb (m_skip_dedupe m).
Definition key_of (d : WebhookDestination) (event : string) (m : event_message) : claim_key := (id d, event, text_or (m_dedupe m)).

(** [if result\["error"\]: errors\[dest.id\] = ...] *)
Definition add_error (errors : list (string * string)) (i e : string) : list (string * string) :=
  if nonempty e then dset errors i e else errors.

(** The delivery, its row, and the rollback of the claim when it failed. *)
Definition deliver_one (m : event_message) (event : string) (r : run) (claims : S) (d : WebhookDestination) : run :=
  let '(ps, err) := deliver_to_destination post m d event in
  let posts := (r_posts r ++ map (pair (id d)) ps)%list in
  let row := mkRow (id d) event (m_dedupe m) (match err with None => true | _ => false end) err in
  match err with
  | None => mkRun claims posts (r_rows r ++ [row]) (r_sent r ++ [id d]) (r_errors r) (r_skipped r)
  | Some e =>
      let claims := if dedupes m then release claims (id d) (_webhook_alert_types event) (text_or (m_dedupe m)) else claims in
      mkRun claims posts (r_rows r ++ [row]) (r_sent r) (add_error (r_errors r) (id d) e) (r_skipped r)
  end.

(** One turn of the delivery loop: claim before sending. *)
Definition deliver_step (m : event_message) (event : string) (r : run) (d : WebhookDestination) : run :=
  if dedupes m then
    let '(claims, claimed) := claim (r_claims r) (key_of d event m) in
    if claimed then deliver_one m event r claims d
    else mkRun claims (r_posts r) (r_rows r) (r_sent r) (r_errors r) (r_skipped r ++ [id d])
  else deliver_one m event r (r_claims r) d.

Definition empty {A} (l : list A) : bool := match l with [] => true | _ => false end.

Definition outcome (r : run) : report :=
  let status :=
    if negb (empty (r_sent r)) && empty (r_errors r) then "ok"
    else if empty (r_sent r) && negb (empty (r_skipped r)) && empty (r_errors r) then "skipped"
    else if negb (empty (r_sent r)) then "partial" else "failed" in
  let deduped := String.eqb status "skipped" && negb (empty (r_skipped r)) in
  mkReport status (if deduped then Some "deduped" else None) (r_sent r) (r_errors r) (if deduped then r_skipped r else []).

Definition targets (event : string) (active : list WebhookDestination) : list WebhookDestination :=
  List.filter (fun d => subscribes_to d event) active.

Definition dispatch_event (event_type : string) (m : event_message) (active : list WebhookDestination) (claims : S) : run * report :=
  let event := normalize_event_type event_type in
  let start := mkRun claims [] [] [] [] [] in
  if negb (mem event ALL_EVENT_TYPES) then (start, mkReport "failed" (Some "unknown_event_type") [] [] [])
  else if negb (existsb enabled active) then (start, mkReport "skipped" (Some "no_webhook_destinations") [] [] [])
  else if empty (targets event active) then (start, mkReport "skipped" (Some "no_subscribers") [] [] [])
  else let r := fold_left (deliver_step m event) (targets event active) start in (r, outcome r).

(** [clear_webhook_destination_dedupe]: the claims of every destination. *)
Definition clears (event_type dedupe_key : string) (k : claim_key) : bool :=
  mem (snd (fst k)) (_webhook_alert_types (normalize_event_type event_type)) && String.eqb (snd k) dedupe_key.
Definition clear_event_dedupe (event_type dedupe_key : string) (claims : S) : S :=
  drop claims (fun k _ => clears event_type dedupe_key k).
End dispatch.
Arguments run S : clear implicits.

(** ** The nightly clean-up (db/cache_retention.py)

    A row of webhook_delivery_log with its [attempted_at]; times are whole seconds. *)

Abbreviation delivery_log := (list (delivery_row * Z)).

Definition STRANDED_DEDUPE_GRACE_HOURS : Z := 1.
Definition WEBHOOK_DELIVERY_LOG_RETENTION_DAYS : Z := 30.
Definition hours_ago (now hours : Z) : Z := (now - hours * 3600)%Z.

Definition purge_old_webhook_delivery_log (now : Z) (log : delivery_log) : delivery_log :=
  List.filter (fun e => negb (snd e <? hours_ago now (WEBHOOK_DELIVERY_LOG_RETENTION_DAYS * 24)))%Z log.

(** A row of the log says that the claim's alert went out. *)
Definition confirms (k : claim_key) (e : delivery_row * Z) : bool :=
  String.eqb (d_dest (fst e)) (fst (fst k)) && String.eqb (d_event (fst e)) (snd (fst k)) &&
  bool_decide (d_key (fst e) = Some (snd k)) && d_ok (fst e).

Definition stranded (now : Z) (log : delivery_log) (k : claim_key) (recorded_at : Z) : bool :=
  (recorded_at <? hours_ago now STRANDED_DEDUPE_GRACE_HOURS)%Z &&
  (hours_ago now (WEBHOOK_DELIVERY_LOG_RETENTION_DAYS * 24) <=? recorded_at)%Z && negb (existsb (confirms k) log).

Definition purge_stranded_webhook_dedupe {S : Type} `{ClaimStore S} (log : delivery_log) (claims : S) : S :=
  drop claims (stranded (clock claims) log).

(** ** Concurrent dispatches

    A worker is a dispatch in progress; its phases are the points between which
    another worker can run.  A crash may hit at any of them. *)

Inductive phase :=
| Idle
| Claimed (d : WebhookDestination)
| Delivered (d : WebhookDestination) (err : option string)
| Unclaiming (d : WebhookDestination) (e : string).

Record worker := mkWorker {
  w_event : string; w_msg : event_message; w_todo : list WebhookDestination; w_phase : phase;
  w_sent : list string; w_errors : list (string * string); w_skipped : list string
}.

Section machine.
Context {S : Type} `{ClaimStore S}.

Definition w_key (w : worker) (d : WebhookDestination) : claim_key := key_of d (w_event w) (w_msg w).
Definition with_phase (w : worker) (p : phase) : worker :=
  mkWorker (w_event w) (w_msg w) (w_todo w) p (w_sent w) (w_errors w) (w_skipped w).

(** One step of a worker; [err] is what a delivery in flight ends with.  It gives the
    deduplicated delivery that was accepted, if any, and the rows it logs. *)
Definition advance (err : option string) (claims : S) (w : worker) : S * list claim_key * list delivery_row * worker :=
  let m := w_msg w in
  match w_phase w with
  | Idle =>
      match w_todo w with
      | [] => (claims, [], [], w)
      | d :: rest =>
          let '(claims, go) := if dedupes m then claim claims (w_key w d) else (claims, true) in
          if go then (claims, [], [], mkWorker (w_event w) m rest (Claimed d) (w_sent w) (w_errors w) (w_skipped w))
          else (claims, [], [], mkWorker (w_event w) m rest Idle (w_sent w) (w_errors w) (w_skipped w ++ [id d]))
      end
  | Claimed d =>
      (claims, match err with None => if dedupes m then [w_key w d] else [] | Some _ => [] end, [], with_phase w (Delivered d err))
  | Delivered d None =>
      (claims, [], [mkRow (id d) (w_event w) (m_dedupe m) true None],
       mkWorker (w_event w) m (w_todo w) Idle (w_sent w ++ [id d]) (w_errors w) (w_skipped w))
  | Delivered d (Some e) => (claims, [], [mkRow (id d) (w_event w) (m_dedupe m) false (Some e)], with_phase w (Unclaiming d e))
  | Unclaiming d e =>
      (if dedupes m then release claims (id d) (_webhook_alert_types (w_event w)) (text_or (m_dedupe m)) else claims, [], [],
       mkWorker (w_event w) m (w_todo w) Idle (w_sent w) (add_error (w_errors w) (id d) e) (w_skipped w))
  end.

(** The worker has claimed [k] and not finished with it. *)
Definition flying (k : claim_key) (w : worker) : bool :=
  match w_phase w with Idle => false | Claimed d | Delivered d _ | Unclaiming d _ => dedupes (w_msg w) && bool_decide (w_key w d = k) end.
(** Its delivery of [k] was accepted and is not in the log yet. *)
Definition unlogged (k : claim_key) (w : worker) : bool :=
  match w_phase w with Delivered d None => dedupes (w_msg w) && bool_decide (w_key w d = k) | _ => false end.

(** [excuses k] counts the events after which [k] may be delivered once more: a claim
    cleared on purpose, a crash between an accepted delivery and its row, and a sweep
    that takes the claim of a worker still at it after the hour of grace. *)
Record world := mkWorld { claims : S; log : delivery_log; accepted : list claim_key; excuses : claim_key -> nat; workers : list worker }.

Definition b2n (b : bool) : nat := if b then 1 else 0.
Definition swept (log : delivery_log) (s : S) (k : claim_key) : bool :=
  match recorded s k with Some t => stranded (clock s) log k t | None => false end.

Inductive world_step : world -> world -> Prop :=
| Start s lg a x ws event m ds :
    mem event ALL_EVENT_TYPES = true ->
    world_step (mkWorld s lg a x ws) (mkWorld s lg a x (ws ++ [mkWorker event m ds Idle [] [] []]))
| Advance s lg a x ws1 w ws2 err s' a' rows w' :
    advance err s w = (s', a', rows, w') ->
    world_step (mkWorld s lg a x (ws1 ++ w :: ws2)) (mkWorld s' (lg ++ map (fun r => (r, clock s)) rows) (a ++ a') x (ws1 ++ w' :: ws2))
| Crash s lg a x ws1 w ws2 :
    world_step (mkWorld s lg a x (ws1 ++ w :: ws2)) (mkWorld s lg a (fun k => x k + b2n (unlogged k w)) (ws1 ++ ws2))
| Tick s lg a x ws d :
    (0 <= d)%Z -> world_step (mkWorld s lg a x ws) (mkWorld (tick s d) lg a x ws)
| PurgeLog s lg a x ws :
    world_step (mkWorld s lg a x ws) (mkWorld s (purge_old_webhook_delivery_log (clock s) lg) a x ws)
| Sweep s lg a x ws :
    world_step (mkWorld s lg a x ws)
      (mkWorld (purge_stranded_webhook_dedupe lg s) lg a (fun k => x k + b2n (swept lg s k && existsb (flying k) ws)) ws)
| Clear s lg a x ws event_type dedupe_key :
    world_step (mkWorld s lg a x ws)
      (mkWorld (clear_event_dedupe event_type dedupe_key s) lg a (fun k => x k + b2n (held s k && clears event_type dedupe_key k)) ws).

(** From an empty table. *)
Definition reachable (w : world) : Prop :=
  exists s, (forall k, recorded s k = None) /\ rtc world_step (mkWorld s [] [] (fun _ => 0) []) w.

Definition event_of (k : claim_key) : string := snd (fst k).
Definition count (k : claim_key) (l : list claim_key) : nat := length (List.filter (fun k' => bool_decide (k' = k)) l).

(** The worker owns the claim [k]: it is delivering, or about to roll it back. *)
Definition holds (k : claim_key) (w : worker) : nat :=
  match w_phase w with
  | Claimed d | Delivered d (Some _) | Unclaiming d _ => if dedupes (w_msg w) && bool_decide (w_key w d = k) then 1 else 0
  | _ => 0
  end.
Definition owners (k : claim_key) (ws : list worker) : nat := fold_right (fun w n => holds k w + n) 0 ws.

Lemma owners_app k a b : owners k (a ++ b) = owners k a + owners k b.
Proof. induction a as [|w a IH]; [done|]. cbn [owners fold_right app] in *. unfold owners in *. rewrite IH. lia. Qed.

Lemma owners_cons k w ws : owners k (w :: ws) = holds k w + owners k ws.
Proof. done. Qed.

Lemma count_app k a b : count k (a ++ b) = count k a + count k b.
Proof. unfold count. by rewrite List.filter_app, length_app. Qed.

#[local] Arguments owners : simpl never.
#[local] Arguments holds : simpl never.

Lemma alert_types_own e e' :
  mem e ALL_EVENT_TYPES = true -> mem e' ALL_EVENT_TYPES = true -> mem e' (_webhook_alert_types e) = true -> e' = e.
Proof.
  unfold mem. rewrite !existsb_exists. intros (x & I & X) (y & J & Y). apply String.eqb_eq in X as <-. apply String.eqb_eq in Y as <-.
  cbn [In ALL_EVENT_TYPES] in I, J.
  repeat destruct I as [<-|I]; try contradiction; repeat destruct J as [<-|J]; try contradiction;
    vm_compute; intros (z & K & Z); repeat destruct K as [<-|K]; try contradiction; congruence || discriminate.
Qed.

(** ** What protects a delivered claim *)

(** The log says the alert went out at [t] or later. *)
Definition logged_since (k : claim_key) (t : Z) (lg : delivery_log) : Prop := exists e, In e lg /\ confirms k e = true /\ (t <= snd e)%Z.
Definition out_of_sweep (now t : Z) : Prop := (t < hours_ago now (WEBHOOK_DELIVERY_LOG_RETENTION_DAYS * 24))%Z.

(** With [n] deliveries and owners: at most the excuses, or one more, while the claim
    stands and is in a worker's hands, in the log, or too old for the sweep. *)
Definition covered (s : S) (lg : delivery_log) (n x : nat) (f : bool) (k : claim_key) : Prop :=
  n <= x \/ n <= 1 + x /\ exists t, recorded s k = Some t /\ (f = true \/ logged_since k t lg \/ out_of_sweep (clock s) t).

Lemma logged_more k t lg new : logged_since k t lg -> logged_since k t (lg ++ new).
Proof. intros (e & I & L0). exists e. split; [apply in_app_iff; by left|done]. Qed.

Lemma logged_or_old k t now lg : logged_since k t lg -> logged_since k t (purge_old_webhook_delivery_log now lg) \/ out_of_sweep now t.
Proof.
  intros (e & I & C & T). destruct (Z.ltb_spec (snd e) (hours_ago now (WEBHOOK_DELIVERY_LOG_RETENTION_DAYS * 24))) as [L|L]; [right; unfold out_of_sweep; lia|].
  left. exists e. split; [|done]. apply filter_In. split; [done|]. by rewrite (proj2 (Z.ltb_ge _ _) L).
Qed.

Lemma not_stranded k t now lg : logged_since k t lg \/ out_of_sweep now t -> stranded now lg k t = false.
Proof.
  unfold stranded, out_of_sweep. intros [(e & I & C & _)|L].
  - rewrite (existsb_In _ _ _ I C). cbn. by rewrite andb_false_r.
  - by rewrite (proj2 (Z.leb_gt _ _) L), andb_false_r.
Qed.

Record inv (w : world) : Prop := mkInv {
  inv_events : Forall (fun x => mem (w_event x) ALL_EVENT_TYPES = true) (workers w);
  inv_accepted : Forall (fun k => mem (event_of k) ALL_EVENT_TYPES = true) (accepted w);
  inv_clock : forall k t, recorded (claims w) k = Some t -> (t <= clock (claims w))%Z;
  inv_covered : forall k, mem (event_of k) ALL_EVENT_TYPES = true ->
    covered (claims w) (log w) (count k (accepted w) + owners k (workers w)) (excuses w k) (existsb (flying k) (workers w)) k }.

(** A step that leaves the claim of [k], its counts and the hands it is in. *)
Lemma covered_keep s s' lg new n n' x f f' k : recorded s' k = recorded s k -> clock s' = clock s -> n' <= n -> f' = f ->
  covered s lg n x f k -> covered s' (lg ++ new) n' x f' k.
Proof.
  intros R C N -> [L0|(L0 & t & T & P)]; [left; lia|]. right. split; [lia|]. exists t. rewrite R, C. split; [done|].
  destruct P as [P|[P|P]]; [by left|right; left; by apply logged_more|by do 2 right].
Qed.

Lemma known_types d event m k s : mem event ALL_EVENT_TYPES = true -> mem (event_of k) ALL_EVENT_TYPES = true -> key_of d event m <> k ->
  recorded (release s (id d) (_webhook_alert_types event) (text_or (m_dedupe m))) k = recorded s k.
Proof.
  intros E K N. unfold release. rewrite drop_recorded. destruct (recorded s k) as [t|]; [|done].
  destruct (String.eqb (fst (fst k)) (id d)) eqn:E1; [|done]. destruct (mem (snd (fst k)) (_webhook_alert_types event)) eqn:E2; [|done].
  destruct (String.eqb (snd k) _) eqn:E3; [|done]. exfalso. apply N. apply (alert_types_own _ _ E K) in E2. apply String.eqb_eq in E1, E3.
  destruct k as [[a b] c]. cbn in *. unfold key_of. congruence.
Qed.

Lemma release_key d event m s : mem event ALL_EVENT_TYPES = true ->
  recorded (release s (id d) (_webhook_alert_types event) (text_or (m_dedupe m))) (key_of d event m) = None.
Proof.
  intros E. unfold release. rewrite drop_recorded. destruct (recorded s _) as [t|]; [|done]. unfold key_of. cbn [fst snd]. rewrite !String.eqb_refl.
  apply existsb_exists in E as (e & I & X). apply String.eqb_eq in X as <-. cbn [In ALL_EVENT_TYPES] in I. repeat destruct I as [<-|I]; try contradiction; reflexivity.
Qed.

Lemma dedupes_key m : dedupes m = true -> m_dedupe m = Some (text_or (m_dedupe m)).
Proof. unfold dedupes, truthy_str. by destruct (m_dedupe m). Qed.

Lemma confirms_own d event m now : dedupes m = true -> confirms (key_of d event m) (mkRow (id d) event (m_dedupe m) true None, now) = true.
Proof. intros D. unfold confirms, key_of. cbn. rewrite !String.eqb_refl, bool_decide_eq_true_2 by by apply dedupes_key. done. Qed.

#[local] Arguments count : simpl never.
#[local] Arguments covered : simpl never.

Lemma count_own k k' : count k [k'] = if bool_decide (k' = k) then 1 else 0.
Proof. unfold count. cbn. by case_bool_decide. Qed.

(** A worker's own step: [n] counts the deliveries and the other owners, [f] the other hands. *)
Lemma advance_covers err s lg w s' a' rows w' k n x f :
  mem (w_event w) ALL_EVENT_TYPES = true -> mem (event_of k) ALL_EVENT_TYPES = true -> (forall t, recorded s k = Some t -> (t <= clock s)%Z) ->
  advance err s w = (s', a', rows, w') ->
  covered s lg (n + holds k w) x (flying k w || f) k ->
  covered s' (lg ++ map (fun r => (r, clock s)) rows) (n + count k a' + holds k w') x (flying k w' || f) k.
Proof.
  intros E K B. unfold advance, holds, flying. destruct (w_phase w) as [|d|d [e|]|d e] eqn:P; cbn [orb].
  - destruct (w_todo w) as [|d rest]; [intros [= <- <- <- <-]; rewrite P; change (count k []) with 0; apply covered_keep; [done..|lia|done]|].
    destruct (dedupes (w_msg w)) eqn:D; [|intros [= <- <- <- <-]; cbn; rewrite D; change (count k []) with 0; apply covered_keep; [done..|cbn; lia|done]].
    pose proof (claim_granted s (w_key w d)) as G. pose proof (claim_recorded s (w_key w d) k) as R. pose proof (claim_clock s (w_key w d)) as C.
    destruct (claim s (w_key w d)) as [s1 go]. cbn [fst snd] in G, R, C. subst go. destruct (recorded s (w_key w d)) as [t0|] eqn:HK.
    + intros [= <- <- <- <-]. cbn. change (count k []) with 0. apply covered_keep; [|done|lia|done]. rewrite R. destruct (recorded s k) eqn:RK; [done|]. case_bool_decide; [subst k; congruence|done].
    + intros [= <- <- <- <-]. unfold w_key in *. cbn [w_msg w_phase w_event]. rewrite D. cbn [andb]. case_bool_decide as Ek.
      * subst k. rewrite HK in R. intros [L0|(_ & t & T & _)]; [|congruence]. cbn [orb count]. change (count _ []) with 0.
        right. split; [lia|]. exists (clock s). split; [by rewrite R|by left].
      * apply covered_keep; [|done|change (count k []) with 0; lia|done]. rewrite R. by destruct (recorded s k).
  - intros [= <- <- <- <-]. unfold w_key. cbn [with_phase w_phase w_msg w_event]. apply covered_keep; [done..| |done].
    destruct err as [e|]; [change (count k []) with 0; cbn; lia|]. destruct (dedupes (w_msg w)); [|change (count k []) with 0; cbn; lia]. rewrite count_own. cbn. case_bool_decide; lia.
  - intros [= <- <- <- <-]. unfold w_key. cbn [with_phase w_phase w_msg w_event]. apply covered_keep; [done..|change (count k []) with 0; lia|done].
  - intros [= <- <- <- <-]. cbn [w_phase]. change (count k []) with 0. unfold w_key. case_bool_decide as Ek; [|rewrite andb_false_r; apply covered_keep; [done..|lia|done]].
    destruct (dedupes (w_msg w)) eqn:D; cbn [andb orb]; [|apply covered_keep; [done..|lia|done]].
    intros [L0|(L0 & t & T & _)]; [left; lia|]. right. split; [lia|]. exists t. split; [done|]. right. left. eexists. split; [apply in_app_iff; right; by left|].
    rewrite <-Ek. split; [by apply confirms_own|]. by apply B.
  - intros [= <- <- <- <-]. cbn [w_phase]. change (count k []) with 0. unfold w_key. destruct (dedupes (w_msg w)) eqn:D; cbn [andb orb]; [|apply covered_keep; [done..|lia|done]].
    case_bool_decide as Ek.
    + intros [L0|(L0 & _)]; left; lia.
    + apply covered_keep; [by apply known_types|apply drop_clock|lia|done].
Qed.

Lemma advance_types err s w s' a' rows w' : mem (w_event w) ALL_EVENT_TYPES = true -> advance err s w = (s', a', rows, w') ->
  w_event w' = w_event w /\ Forall (fun k => mem (event_of k) ALL_EVENT_TYPES = true) a' /\ clock s' = clock s /\
  forall k t, recorded s' k = Some t -> recorded s k = Some t \/ t = clock s.
Proof.
  intros E. unfold advance. destruct (w_phase w) as [|d|d [e|]|d e].
  - destruct (w_todo w) as [|d rest]; [intros [= <- <- <- <-]; repeat split; by auto|]. destruct (dedupes (w_msg w)).
    + pose proof (claim_recorded s (w_key w d)) as R. pose proof (claim_clock s (w_key w d)) as C. destruct (claim s (w_key w d)) as [s1 [|]]; cbn [fst] in R, C;
        intros [= <- <- <- <-]; (repeat split; [constructor|done|]); intros k t; rewrite R; destruct (recorded s k); [by left| |by left|]; case_bool_decide; try done; intros [= <-]; by right.
    + intros [= <- <- <- <-]. repeat split; by auto.
  - intros [= <- <- <- <-]. repeat split; [|by auto]. destruct err; [constructor|]. destruct (dedupes _); by repeat constructor.
  - intros [= <- <- <- <-]. repeat split; by auto.
  - intros [= <- <- <- <-]. repeat split; by auto.
  - intros [= <- <- <- <-]. destruct (dedupes _); [|repeat split; by auto]. repeat split; [constructor|apply drop_clock|]. unfold release. intros k t. rewrite drop_recorded.
    destruct (recorded s k) as [t0|]; [|done]. destruct (_ && _ && _); [done|]. by left.
Qed.

Lemma holds_flying k w : holds k w <= b2n (flying k w) /\ (holds k w = 0 -> flying k w = true -> unlogged k w = true).
Proof. unfold holds, flying, unlogged. destruct (w_phase w) as [|d|d [e|]|d e]; try (cbn; split; [lia|done]); destruct (dedupes _ && _); cbn; split; done || lia. Qed.

Lemma flying_mid k ws1 w ws2 : existsb (flying k) (ws1 ++ w :: ws2) = flying k w || existsb (flying k) (ws1 ++ ws2).
Proof. rewrite !existsb_app. cbn [existsb]. by destruct (existsb _ ws1), (flying k w). Qed.

Lemma owners_mid k ws1 w ws2 : owners k (ws1 ++ w :: ws2) = holds k w + owners k (ws1 ++ ws2).
Proof. rewrite !owners_app, owners_cons. lia. Qed.

Lemma inv_step w w' : inv w -> world_step w w' -> inv w'.
Proof.
  intros [I1 I2 I3 I4] St. destruct St as [s lg a x ws event m ds M|s lg a x ws1 w ws2 err s' a' rows w1 A|s lg a x ws1 w ws2|s lg a x ws d D|s lg a x ws|s lg a x ws|s lg a x ws et dk];
    cbn [claims log accepted excuses workers] in *; split; cbn [claims log accepted excuses workers]; try done.
  - apply Forall_app; split; [done|by repeat constructor].
  - intros k K. specialize (I4 k K). rewrite owners_app, existsb_app. cbn. unfold owners. cbn. by rewrite orb_false_r, Nat.add_0_r.
  - apply Forall_app in I1 as [F1 F2]. apply Forall_cons in F2 as [Fw F2]. apply Forall_app; split; [done|]. constructor; [|done]. by destruct (advance_types _ _ _ _ _ _ _ Fw A) as [-> _].
  - apply Forall_app in I1 as [F1 F2]. apply Forall_cons in F2 as [Fw F2]. apply Forall_app; split; [done|]. by destruct (advance_types _ _ _ _ _ _ _ Fw A) as (_ & ? & _).
  - apply Forall_app in I1 as [F1 F2]. apply Forall_cons in F2 as [Fw F2]. destruct (advance_types _ _ _ _ _ _ _ Fw A) as (_ & _ & -> & R). intros k t [T| ->]%R; [by apply (I3 k)|done].
  - apply Forall_app in I1 as [F1 F2]. apply Forall_cons in F2 as [Fw F2]. intros k K. specialize (I4 k K). rewrite owners_mid, flying_mid, count_app in *.
    pose proof (advance_covers err s lg w s' a' rows w1 k (count k a + owners k (ws1 ++ ws2)) (x k) (existsb (flying k) (ws1 ++ ws2)) Fw K (I3 k) A) as C.
    replace (count k a + count k a' + (holds k w1 + owners k (ws1 ++ ws2))) with (count k a + owners k (ws1 ++ ws2) + count k a' + holds k w1) by lia. apply C.
    by replace (count k a + owners k (ws1 ++ ws2) + holds k w) with (count k a + (holds k w + owners k (ws1 ++ ws2))) by lia.
  - apply Forall_app in I1 as [F1 F2]. apply Forall_cons in F2 as [Fw F2]. by apply Forall_app.
  - intros k K. specialize (I4 k K). rewrite owners_mid, flying_mid in I4. destruct (holds_flying k w) as [Hf Hu]. destruct I4 as [L0|(L0 & t & T & P)]; [left; lia|].
    destruct (flying k w) eqn:F; cbn [orb b2n] in *; [|right; split; [lia|]; by exists t]. destruct (holds k w) as [|h]; [rewrite Hu by done; cbn [b2n]; left; lia|left; lia].
  - intros k t T. rewrite tick_recorded in T. rewrite tick_clock. specialize (I3 k t T). lia.
  - intros k K. destruct (I4 k K) as [L0|(L0 & t & T & P)]; [by left|]. right. split; [done|]. exists t. rewrite tick_recorded, tick_clock. split; [done|]. unfold out_of_sweep, hours_ago in *. destruct P as [P|[P|P]]; [auto..|]. do 2 right. lia.
  - intros k K. destruct (I4 k K) as [L0|(L0 & t & T & P)]; [by left|]. right. split; [done|]. exists t. split; [done|]. destruct P as [P|[P|P]]; [by left| |by do 2 right]. right. by apply logged_or_old.
  - intros k t. unfold purge_stranded_webhook_dedupe. rewrite drop_recorded, drop_clock. destruct (recorded s k) as [t0|] eqn:T; [|done]. destruct (stranded _ _ _ _); [done|]. intros [= <-]. by apply (I3 k).
  - intros k K. unfold swept. destruct (I4 k K) as [L0|(L0 & t & T & P)]; [left; lia|]. rewrite T. unfold purge_stranded_webhook_dedupe. destruct (stranded (clock s) lg k t) eqn:Sw; cbn [andb].
    + destruct P as [->|P]; [left; cbn; lia|]. by rewrite (not_stranded _ _ _ _ P) in Sw.
    + right. split; [cbn; lia|]. exists t. rewrite drop_recorded, T, Sw, drop_clock. done.
  - intros k t. unfold clear_event_dedupe. rewrite drop_recorded, drop_clock. destruct (recorded s k) as [t0|] eqn:T; [|done]. destruct (clears _ _ _); [done|]. intros [= <-]. by apply (I3 k).
  - intros k K. destruct (I4 k K) as [L0|(L0 & t & T & P)]; [left; lia|]. unfold held. rewrite T. cbn [andb]. destruct (clears et dk k) eqn:C; [left; cbn; lia|].
    right. split; [cbn; lia|]. exists t. unfold clear_event_dedupe. rewrite drop_recorded, T, C, drop_clock. done.
Qed.

Lemma world_inv w : reachable w -> inv w.
Proof.
  intros (s & E & R). remember (mkWorld s [] [] (fun _ => 0) []) as w0 eqn:E0.
  assert (I : inv w0). { subst w0. split; cbn; [constructor..|intros k t; by rewrite E|]. intros k _. left. apply Nat.le_0_l. } clear E0 E.
  induction R as [|w1 w2 w3 St R IH]; [done|]. apply IH. by eapply inv_step.
Qed.
End machine.

(** ** A dispatch as a worker of the machine *)

Section alone.
Context {S : Type} `{ClaimStore S}.
Context (post : WebhookDestination -> payload -> post_result) (m : event_message) (event : string).

Abbreviation step := (deliver_step post m event).
Definition worker_at (r : run S) (todo : list WebhookDestination) : worker :=
  mkWorker event m todo Idle (r_sent r) (r_errors r) (r_skipped r).
Definition keys_of (ids : list string) : list claim_key :=
  if dedupes m then map (fun i => (i, event, text_or (m_dedupe m))) ids else [].
Definition stamped (s : S) (rows : list delivery_row) : delivery_log := map (fun r => (r, clock s)) rows.

Lemma keys_of_app a b : keys_of (a ++ b) = (keys_of a ++ keys_of b)%list.
Proof. unfold keys_of. destruct (dedupes m); [apply map_app|done]. Qed.

Lemma keys_of_nil : keys_of [] = [].
Proof. unfold keys_of. by destruct (dedupes m). Qed.

Lemma advance_once s lg a x ws w err s' a' rows w' : advance err s w = (s', a', rows, w') ->
  rtc world_step (mkWorld s lg a x (ws ++ [w])) (mkWorld s' (lg ++ stamped s rows) (a ++ a') x (ws ++ [w'])).
Proof. intros E. apply rtc_once. by eapply Advance. Qed.

(** What a stretch of the loop adds to the run, and the steps of the machine that do it. *)
Record stretch (r r' : run S) (s : S) (w w' : worker) : Prop := mkStretch {
  st_clock : clock (r_claims r') = clock s;
  st_run : exists new rows, r_sent r' = (r_sent r ++ new)%list /\ r_rows r' = (r_rows r ++ rows)%list /\
    forall lg a x ws, rtc world_step (mkWorld s lg a x (ws ++ [w])) (mkWorld (r_claims r') (lg ++ stamped s rows) (a ++ keys_of new) x (ws ++ [w'])) }.

Lemma deliver_one_run r s d rest :
  stretch r (deliver_one post m event r s d) s (mkWorker event m rest (Claimed d) (r_sent r) (r_errors r) (r_skipped r)) (worker_at (deliver_one post m event r s d) rest).
Proof.
  unfold deliver_one. destruct (deliver_to_destination post m d event) as [ps [e|]]; split; cbn.
  - destruct (dedupes m); [apply drop_clock|done].
  - exists [], [mkRow (id d) event (m_dedupe m) false (Some e)]. rewrite app_nil_r, keys_of_nil. split; [done|]. split; [done|]. intros lg a x ws. rewrite app_nil_r.
    etrans; [eapply (advance_once _ _ _ _ _ _ (Some e)); reflexivity|]. cbn. rewrite !app_nil_r.
    etrans; [eapply (advance_once _ _ _ _ _ _ None); reflexivity|]. cbn. rewrite !app_nil_r.
    etrans; [eapply (advance_once _ _ _ _ _ _ None); reflexivity|]. cbn. by rewrite !app_nil_r.
  - done.
  - exists [id d], [mkRow (id d) event (m_dedupe m) true None]. split; [done|]. split; [done|]. intros lg a x ws.
    etrans; [eapply (advance_once _ _ _ _ _ _ None); reflexivity|]. cbn. rewrite !app_nil_r.
    etrans; [eapply (advance_once _ _ _ _ _ _ None); reflexivity|]. cbn. by rewrite app_nil_r.
Qed.

Lemma deliver_step_run r d rest : stretch r (step r d) (r_claims r) (worker_at r (d :: rest)) (worker_at (step r d) rest).
Proof.
  assert (A : forall s' w', advance None (r_claims r) (worker_at r (d :: rest)) = (s', [], [], w') -> forall lg a x ws,
    rtc world_step (mkWorld (r_claims r) lg a x (ws ++ [worker_at r (d :: rest)])) (mkWorld s' lg a x (ws ++ [w']))).
  { intros s' w' E lg a x ws. pose proof (advance_once _ lg a x ws _ _ _ _ _ _ E) as R. cbn in R. by rewrite !app_nil_r in R. }
  unfold deliver_step. cbn [advance worker_at w_phase w_todo w_msg] in A. unfold w_key in A. cbn [w_event w_msg worker_at] in A.
  destruct (dedupes m).
  - pose proof (claim_clock (r_claims r) (key_of d event m)) as C. destruct (claim (r_claims r) (key_of d event m)) as [s2 [|]]; cbn [fst] in C.
    + destruct (deliver_one_run r s2 d rest) as [C' (new & rows & E & F & R)]. split; [by rewrite C'|]. exists new, rows. split; [done|]. split; [done|]. intros lg a x ws.
      etrans; [by apply A|]. unfold stamped in *. rewrite <-C. apply R.
    + split; [exact C|]. exists [], []. rewrite keys_of_nil, !app_nil_r. split; [done|]. split; [done|]. intros lg a x ws. cbn. rewrite !app_nil_r. by apply A.
  - destruct (deliver_one_run r (r_claims r) d rest) as [C (new & rows & E & F & R)]. split; [done|]. exists new, rows. split; [done|]. split; [done|]. intros lg a x ws. etrans; [by apply A|apply R].
Qed.

Lemma run_alone ds r : stretch r (fold_left step ds r) (r_claims r) (worker_at r ds) (worker_at (fold_left step ds r) []).
Proof.
  revert r. induction ds as [|d ds IH]; intros r.
  - split; [done|]. exists [], []. cbn. rewrite !app_nil_r, keys_of_nil. split; [done|]. split; [done|]. intros lg a x ws. by rewrite !app_nil_r.
  - cbn [fold_left]. destruct (deliver_step_run r d ds) as [C1 (n1 & l1 & E1 & F1 & R1)]. destruct (IH (step r d)) as [C2 (n2 & l2 & E2 & F2 & R2)].
    split; [by rewrite C2|]. exists (n1 ++ n2)%list, (l1 ++ l2)%list. split; [by rewrite E2, E1, app_assoc|]. split; [by rewrite F2, F1, app_assoc|]. intros lg a x ws.
    etrans; [apply R1|]. unfold stamped in *. rewrite map_app, keys_of_app, !app_assoc, <-C1. apply R2.
Qed.
End alone.

(** ** What a dispatch sends *)

Section sequential.
Context {S : Type} `{ClaimStore S}.
Context (m : event_message) (event : string).
Hypothesis known : mem event ALL_EVENT_TYPES = true.
Hypothesis deduped : dedupes m = true.

Definition accepts (post : WebhookDestination -> payload -> post_result) (d : WebhookDestination) : bool :=
  match snd (deliver_to_destination post m d event) with None => true | Some _ => false end.

Lemma release_own s (d : WebhookDestination) k :
  mem (event_of k) ALL_EVENT_TYPES = true ->
  held (release s (id d) (_webhook_alert_types event) (text_or (m_dedupe m))) k = held s k && negb (bool_decide (key_of d event m = k)).
Proof.
  intros K. rewrite release_held. f_equal. f_equal. destruct k as [[i e] dk]. cbn [fst snd event_of] in K |- *. unfold key_of.
  apply eq_true_iff_eq. rewrite !andb_true_iff, bool_decide_eq_true, !String.eqb_eq. split.
  - intros [[-> T] ->]. f_equal. f_equal. symmetry. by apply alert_types_own.
  - intros [= <- <- <-]. split; [split|]; [done| |done]. clear K deduped.
    pose proof known as M. apply existsb_exists in M as (x & I & X). apply String.eqb_eq in X as <-.
    cbn [In ALL_EVENT_TYPES] in I. repeat destruct I as [<-|I]; try contradiction; reflexivity.
Qed.

Lemma deliver_step_spec post (r : run S) d :
  r_sent (deliver_step post m event r d) =
    (r_sent r ++ if negb (held (r_claims r) (key_of d event m)) && accepts post d then [id d] else [])%list /\
  forall k, mem (event_of k) ALL_EVENT_TYPES = true ->
    held (r_claims (deliver_step post m event r d)) k =
    held (r_claims r) k || (bool_decide (key_of d event m = k) && accepts post d).
Proof.
  unfold deliver_step. rewrite deduped.
  pose proof (claim_result (r_claims r) (key_of d event m)) as R. pose proof (claim_held (r_claims r) (key_of d event m)) as C.
  destruct (claim (r_claims r) (key_of d event m)) as [s go]. cbn in R, C. subst go.
  destruct (held (r_claims r) (key_of d event m)) eqn:Hd; cbn [negb andb].
  - cbn. rewrite app_nil_r. split; [done|]. intros k _. rewrite C. case_bool_decide as E; cbn; [|done]. subst k. by rewrite Hd.
  - unfold accepts, deliver_one. destruct (deliver_to_destination post m d event) as [ps [e|]]; cbn.
    + rewrite app_nil_r. split; [done|]. intros k K. rewrite deduped, release_own, C by done. case_bool_decide as E; cbn.
      * subst k. by rewrite Hd.
      * by rewrite orb_false_r, andb_true_r.
    + split; [done|]. intros k K. by rewrite C, andb_true_r.
Qed.

Lemma key_of_inj d d' : key_of d event m = key_of d' event m -> id d = id d'.
Proof. by intros [= E]. Qed.

Lemma key_known d : mem (event_of (key_of d event m)) ALL_EVENT_TYPES = true.
Proof. exact known. Qed.

Lemma fold_spec post ds (r : run S) :
  NoDup (map id ds) ->
  r_sent (fold_left (deliver_step post m event) ds r) =
    (r_sent r ++ map id (List.filter (fun d => negb (held (r_claims r) (key_of d event m)) && accepts post d) ds))%list /\
  forall k, mem (event_of k) ALL_EVENT_TYPES = true ->
    held (r_claims (fold_left (deliver_step post m event) ds r)) k =
    held (r_claims r) k || existsb (fun d => bool_decide (key_of d event m = k) && accepts post d) ds.
Proof.
  revert r. induction ds as [|d ds IH]; intros r ND.
  { cbn. rewrite app_nil_r. split; [done|]. intros k _. by rewrite orb_false_r. }
  change (NoDup (id d :: map id ds)) in ND. apply NoDup_cons in ND as [N ND]. cbn [fold_left List.filter existsb].
  destruct (deliver_step_spec post r d) as [E1 E2]. destruct (IH (deliver_step post m event r d) ND) as [F1 F2]. split.
  - rewrite F1, E1, <- app_assoc. f_equal.
    assert (Fl : List.filter (fun x => negb (held (r_claims (deliver_step post m event r d)) (key_of x event m)) && accepts post x) ds
               = List.filter (fun x => negb (held (r_claims r) (key_of x event m)) && accepts post x) ds).
    { apply filter_ext_in. intros x I. rewrite E2 by apply key_known. rewrite bool_decide_eq_false_2; [by rewrite orb_false_r|].
      intros K. apply N. rewrite (key_of_inj _ _ K). apply list_elem_of_In, in_map, I. }
    rewrite Fl. by destruct (negb _ && accepts post d).
  - intros k K. rewrite F2, E2 by done. by rewrite orb_assoc.
Qed.
End sequential.

(** ** Destination ids are unique *)

Lemma put_dest_ids d l : map id (put_dest d l) = if mem (id d) (map id l) then map id l else (map id l ++ [id d])%list.
Proof.
  induction l as [|x t IH]; [done|]. cbn [put_dest map mem existsb]. rewrite String.eqb_sym.
  destruct (String.eqb (id d) (id x)) eqn:E; cbn; [by apply String.eqb_eq in E as ->|]. rewrite IH. fold (mem (id d) (map id t)).
  by destruct (mem _ _).
Qed.

Lemma put_dest_nodup d l : NoDup (map id l) -> NoDup (map id (put_dest d l)).
Proof.
  intros ND. rewrite put_dest_ids. destruct (mem _ _) eqn:E; [done|]. apply NoDup_app. split_and!; [done| |apply NoDup_singleton].
  intros x I J. apply list_elem_of_singleton in J as ->. apply list_elem_of_In in I.
  unfold mem in E. rewrite existsb_false in E. specialize (E _ I). by rewrite String.eqb_refl in E.
Qed.

Lemma sort_in_perm d l : sort_in d l ≡ₚ d :: l.
Proof. induction l as [|x t IH]; [done|]. cbn. destruct (String.ltb _ _); [done|]. rewrite IH. apply perm_swap. Qed.

Lemma map_filter_sublist f l : map id (List.filter f l) `sublist_of` map id l.
Proof.
  induction l as [|x t IH]; [constructor|]. cbn. destruct (f x); [by apply sublist_skip|by apply sublist_cons].
Qed.

Lemma load_destinations_nodup env json_loads py_str rows : NoDup (map id (load_destinations env json_loads py_str rows)).
Proof.
  assert (E : NoDup (map id (load_env_destinations env json_loads py_str))).
  { unfold load_env_destinations, _discord_destination, _telegram_destination, _generic_destination. cbn [flat_map].
    repeat case_goal; repeat match goal with H : Some _ = Some _ |- _ => injection H as <- end;
    try discriminate; cbn; repeat (constructor; [set_solver|]); constructor. }
  unfold load_destinations. destruct rows as [|row rows]; [exact E|].
  set (l := List.filter _ _).
  assert (L : NoDup (map id l)).
  { unfold l. eapply sublist_NoDup.
    - exact (fold_left_inv (fun l => NoDup (map id l)) (merge_row (load_env_destinations env json_loads py_str)) (row :: rows)
        (fun a b _ Ha => put_dest_nodup _ _ Ha) _ E).
    - apply map_filter_sublist. }
  clearbody l. assert (P : forall l acc, fold_left (fun l d => sort_in d l) l acc ≡ₚ l ++ acc).
  { clear. induction l as [|d l IH]; intros acc; [done|]. cbn [fold_left]. rewrite IH, sort_in_perm. cbn. by rewrite Permutation_middle. }
  rewrite (P l []), app_nil_r. exact L.
Qed.

(** ** Lemmas on texts and event lists *)

Lemma empty_true {A} (l : list A) : empty l = true -> l = [].
Proof. by destruct l. Qed.


Lemma ulen_app a b : ulen (a +:+ b) = (ulen a + ulen b)%Z.
Proof.
  unfold ulen. induction a as [|c a IH]; [done|]. rewrite app_cons. cbn [sfilter]. destruct (negb (is_cont c)); rewrite ?slen_cons; lia.
Qed.

Lemma ulen_utake n s : (ulen (utake n s) <= Z.of_nat n)%Z.
Proof.
  unfold ulen. revert n. induction s as [|c s IH]; intros n; [apply Nat2Z.is_nonneg|]. cbn [utake].
  destruct (is_cont c) eqn:E; [cbn [sfilter]; rewrite E; cbn [negb]; apply IH|].
  destruct n as [|n]; [done|]. cbn [sfilter]. rewrite E. cbn [negb]. rewrite slen_cons. specialize (IH n). lia.
Qed.

Lemma truncate_bound text limit : (1 <= limit)%nat -> (ulen (_truncate text limit) <= Z.of_nat limit)%Z.
Proof.
  intros L. unfold _truncate. destruct (Z.leb_spec (ulen text) (Z.of_nat limit)) as [H|H]; [done|].
  rewrite ulen_app. pose proof (ulen_utake (limit - 1) text). assert (ulen ellipsis = 1%Z) by reflexivity. lia.
Qed.

Definition payload_fits (p : payload) : Prop :=
  match p with
  | Content t => (ulen t <= 2000)%Z
  | Telegram _ t _ => (ulen t <= 4096)%Z
  | _ => True
  end.

Definition well_formed_events (l : list string) : Prop := l <> [] /\ NoDup l /\ forall e, In e l -> In e ALL_EVENT_TYPES.

Lemma all_events_well_formed : well_formed_events ALL_EVENT_TYPES.
Proof. split_and!; [done| |done]. unfold ALL_EVENT_TYPES. repeat (constructor; [set_solver|]). constructor. Qed.

Lemma mem_In x l : mem x l = true <-> In x l.
Proof.
  unfold mem. rewrite existsb_exists. split; [intros (y & I & E); by apply String.eqb_eq in E as ->|].
  intros I. exists x. by rewrite String.eqb_refl.
Qed.

Lemma add_event_ok py_str l item :
  NoDup l /\ (forall e, In e l -> In e ALL_EVENT_TYPES) ->
  NoDup (add_event py_str l item) /\ (forall e, In e (add_event py_str l item) -> In e ALL_EVENT_TYPES).
Proof.
  intros [ND All]. unfold add_event. set (e0 := normalize_event_type _). destruct (mem e0 ALL_EVENT_TYPES) eqn:K; [|done].
  destruct (mem e0 l) eqn:M; [done|]. cbn [andb negb]. apply mem_In in K.
  assert (N : ~ In e0 l) by (rewrite <- mem_In; congruence). split.
  - apply NoDup_app. split_and!; [done| |apply NoDup_singleton].
    intros x I J. apply list_elem_of_singleton in J as ->. by apply N, list_elem_of_In.
  - intros e I. apply in_app_or in I as [I|[<-|[]]]; [by apply All|exact K].
Qed.

Lemma parse_well_formed py_str values :
  well_formed_events (match fold_left (add_event py_str) values [] with [] => ALL_EVENT_TYPES | l => l end).
Proof.
  assert (H : NoDup (fold_left (add_event py_str) values []) /\ forall e, In e (fold_left (add_event py_str) values []) -> In e ALL_EVENT_TYPES).
  { apply (fold_left_inv (fun l => NoDup l /\ forall e, In e l -> In e ALL_EVENT_TYPES)); [intros a b _; apply add_event_ok|].
    split; [constructor|done]. }
  destruct (fold_left _ _ _) as [|e l]; [apply all_events_well_formed|]. destruct H. by split_and!.
Qed.

Lemma fold_blank {S} `{ClaimStore S} post m event ds (r : run S) :
  dedupes m = false -> r_errors r = [] ->
  (forall d, In d ds -> snd (deliver_to_destination post m d event) = None \/ snd (deliver_to_destination post m d event) = Some "") ->
  r_errors (fold_left (deliver_step post m event) ds r) = [] /\
  r_sent (fold_left (deliver_step post m event) ds r) = (r_sent r ++ map id (List.filter (accepts m event post) ds))%list.
Proof.
  intros D. revert r. induction ds as [|d ds IH]; intros r E B; [cbn; by rewrite app_nil_r|].
  cbn [fold_left List.filter].
  assert (St : r_errors (deliver_step post m event r d) = [] /\
               r_sent (deliver_step post m event r d) = (r_sent r ++ if accepts m event post d then [id d] else [])%list).
  { unfold deliver_step, deliver_one, accepts. rewrite D. pose proof (B d (or_introl eq_refl)) as Bd.
    destruct (deliver_to_destination post m d event) as [ps [e|]]; cbn in *; [|done].
    destruct Bd as [Bd|Bd]; [done|]. injection Bd as ->. cbn. by rewrite app_nil_r. }
  destruct St as [St1 St2]. destruct (IH (deliver_step post m event r d) St1) as [F1 F2]; [intros x I; apply B; by right|].
  split; [exact F1|]. rewrite F2, St2, <- app_assoc. by destruct (accepts m event post d).
Qed.

(** ** Properties *)

(** C1 At most once: however dispatches interleave, crash and retry beside the nightly clean-up of the log and of stranded claims
    and beside the resets of claims, the accepted deliveries of an event with its dedupe key to a destination and those in flight
    or not yet rolled back are together at most one more than the events that excuse another: the claim was cleared by
    clear_event_dedupe, or a dispatch ended between an accepted delivery and its row of the log, or was still running when the
    clean-up found its claim more than an hour old. *)
Theorem accepted_at_most_once {S} `{ClaimStore S} (w : world) k :
  reachable w -> (count k (accepted w) + owners k (workers w) <= 1 + excuses w k)%nat.
Proof.
  intros R. apply world_inv in R as [I1 I2 _ I4]. destruct (mem (event_of k) ALL_EVENT_TYPES) eqn:K.
  - destruct (I4 k K) as [L|[L _]]; lia.
  - clear I4. assert (C : count k (accepted w) = 0%nat).
    { unfold count. induction I2 as [|k' l Hk Hl IH]; [done|]. cbn. case_bool_decide as E; [|done]. subst. congruence. }
    assert (O : owners k (workers w) = 0%nat).
    { induction I1 as [|x l Hx Hl IH]; [done|]. rewrite owners_cons, IH. unfold holds. clear IH.
      destruct (w_phase x) as [|d|d [e|]|d e]; try done; destruct (dedupes _); try done; cbn;
        (case_bool_decide as E; [|done]); subst k; change (mem (w_event x) ALL_EVENT_TYPES = false) in K; congruence. }
    lia.
Qed.

(** The delivery loop of [dispatch_event] is a run of one worker of that machine:
    same claims, same accepted deliveries, same rows of the log, same report. *)
Theorem dispatch_is_a_worker {S} `{ClaimStore S} post event_type m active (s : S) lg a x ws :
  let event := normalize_event_type event_type in
  let r := fst (dispatch_event post event_type m active s) in
  mem event ALL_EVENT_TYPES = true -> targets event active <> [] ->
  rtc world_step (mkWorld s lg a x ws)
    (mkWorld (r_claims r) (lg ++ stamped s (r_rows r)) (a ++ keys_of m event (r_sent r)) x (ws ++ [worker_at m event r []])).
Proof.
  intros event r K T. unfold r, dispatch_event. clear r. fold event. rewrite K. cbn [negb].
  destruct (existsb enabled active) eqn:E; cbn [negb].
  - destruct (empty (targets event active)) eqn:Em; [by apply empty_true in Em|]. cbn [fst].
    destruct (run_alone post m event (targets event active) (mkRun s [] [] [] [] [])) as [_ (new & rows & N & F & R)].
    cbn [r_sent r_rows app] in N, F. rewrite N, F. eapply rtc_l; [|apply R]. by apply Start.
  - exfalso. apply T. unfold targets. rewrite existsb_false in E. clear T. induction active as [|d l IH]; [done|].
    cbn. unfold subscribes_to at 1. rewrite E by by left. cbn. apply IH. intros y I. apply E. by right.
Qed.

(** C13 Retry safety: a deduplicated event dispatched twice is sent the first time to
    the subscribers without a claim, and the second time exactly to those of them
    that failed the first time; what was delivered is never repeated. *)
Theorem redispatch_only_to_failed {S} `{ClaimStore S} env json_loads py_str table post1 post2 event_type m (s : S) :
  let event := normalize_event_type event_type in
  let active := load_destinations env json_loads py_str table in
  let first := dispatch_event post1 event_type m active s in
  let second := dispatch_event post2 event_type m active (r_claims (fst first)) in
  mem event ALL_EVENT_TYPES = true -> dedupes m = true ->
  sent (snd first) = map id (List.filter (fun d => negb (held s (key_of d event m)) && accepts m event post1 d) (targets event active)) /\
  sent (snd second) = map id (List.filter (fun d => negb (held s (key_of d event m)) && negb (accepts m event post1 d) && accepts m event post2 d)
                                (targets event active)).
Proof.
  intros event active first second K D.
  assert (ND : NoDup (map id (targets event active))).
  { eapply sublist_NoDup; [apply load_destinations_nodup|apply map_filter_sublist]. }
  unfold second, first, dispatch_event. clear second first. fold event. rewrite K. cbn [negb].
  destruct (existsb enabled active) eqn:E; cbn [negb].
  2:{ assert (T : targets event active = []).
      { unfold targets. rewrite existsb_false in E. clear -E. induction active as [|d l IH]; [done|].
        cbn. unfold subscribes_to at 1. rewrite E by by left. cbn. apply IH. intros x I. apply E. by right. }
      by rewrite T. }
  destruct (empty (targets event active)) eqn:Em; [apply empty_true in Em; by rewrite Em|]. cbn [fst snd outcome sent].
  destruct (fold_spec m event K D post1 (targets event active) (mkRun s [] [] [] [] []) ND) as [F1 F2].
  set (r1 := fold_left _ _ (mkRun s _ _ _ _ _)) in *.
  destruct (fold_spec m event K D post2 (targets event active) (mkRun (r_claims r1) [] [] [] [] []) ND) as [G1 _].
  cbn [r_sent r_claims app] in *. rewrite F1, G1. split; [done|]. f_equal. apply filter_ext_in. intros d I.
  rewrite F2 by apply key_known, K. rewrite negb_orb.
  assert (X : existsb (fun d0 => bool_decide (key_of d0 event m = key_of d event m) && accepts m event post1 d0) (targets event active)
              = accepts m event post1 d); [|by rewrite X].
  clear -I ND. induction (targets event active) as [|x l IH]; [done|].
  change (NoDup (id x :: map id l)) in ND. apply NoDup_cons in ND as [N ND]. cbn. destruct I as [->|I].
  - rewrite bool_decide_eq_true_2 by done. cbn. destruct (accepts m event post1 d); [done|]. cbn. apply existsb_false.
    intros y J. rewrite bool_decide_eq_false_2; [done|]. intros Ke. apply N. rewrite <- (key_of_inj _ _ _ _ Ke). apply list_elem_of_In, in_map, J.
  - rewrite IH by done. rewrite bool_decide_eq_false_2; [done|]. intros Ke. apply N. rewrite (key_of_inj _ _ _ _ Ke). apply list_elem_of_In, in_map, I.
Qed.

(** Whatever is stored or configured for them, the parsed event types of a
    destination are a nonempty list of known types without repetition. *)
Theorem parsed_events_well_formed json_loads py_str raw : well_formed_events (parse_event_types json_loads py_str raw).
Proof.
  unfold parse_event_types. destruct raw as [|s|l]; [apply all_events_well_formed| |apply parse_well_formed].
  destruct (nonempty (strip s)); [apply parse_well_formed|apply all_events_well_formed].
Qed.

(** Every text posted to Discord has at most 2000 characters and every text posted
    to Telegram at most 4096, whatever the message and the fallback text. *)
Theorem posted_texts_fit post m d event p :
  In p (fst (deliver_to_destination post m d event)) -> payload_fits p.
Proof.
  assert (C : payload_fits (Content (_truncate (or_str (m_fallback m) (m_text m)) DISCORD_MAX_CONTENT)))
    by (apply truncate_bound; unfold DISCORD_MAX_CONTENT; lia).
  assert (D : Forall payload_fits (fst (_deliver_discord post m d))).
  { unfold _deliver_discord, posted. destruct (m_embeds m) as [|e l]; [by repeat constructor|].
    destruct (post d (Embeds (e :: l))); [by repeat constructor| |by repeat constructor].
    destruct (negb _); by repeat constructor. }
  assert (T : Forall payload_fits (fst (_deliver_telegram post m d))).
  { unfold _deliver_telegram, posted. destruct (_ || _); [constructor|]. repeat constructor.
    apply truncate_bound. unfold TELEGRAM_MAX_TEXT. lia. }
  unfold deliver_to_destination. intros I.
  assert (F : Forall payload_fits (fst (if String.eqb (kind d) "discord" then _deliver_discord post m d
    else if String.eqb (kind d) "telegram" then _deliver_telegram post m d
    else if String.eqb (kind d) "generic" then _deliver_generic post m d event
    else ([], Some ("unknown destination kind: " +:+ kind d))))).
  { repeat case_goal; try done; by repeat constructor. }
  destruct (if String.eqb (kind d) "discord" then _ else _) as [ps e]. rewrite List.Forall_forall in F. by apply F.
Qed.

(** A delivery that fails with an exception without text, as HTTP timeouts often
    have, is neither sent nor an error: the dispatch reports [ok], and keeps no
    trace of the failure in its report. *)
Theorem blank_error_reported_ok {S} `{ClaimStore S} post event_type m active (s : S) d d' :
  let event := normalize_event_type event_type in
  mem event ALL_EVENT_TYPES = true -> dedupes m = false ->
  In d (targets event active) -> snd (deliver_to_destination post m d event) = Some "" ->
  In d' (targets event active) -> snd (deliver_to_destination post m d' event) = None ->
  (forall x, In x (targets event active) ->
     snd (deliver_to_destination post m x event) = None \/ snd (deliver_to_destination post m x event) = Some "") ->
  status (snd (dispatch_event post event_type m active s)) = "ok" /\ errors (snd (dispatch_event post event_type m active s)) = [].
Proof.
  intros event K D I _ I' A B. unfold dispatch_event. fold event. rewrite K. cbn [negb].
  assert (E : existsb enabled active = true).
  { apply filter_In in I as [I Sb]. eapply existsb_In; [exact I|]. unfold subscribes_to in Sb. by bool_prop. }
  rewrite E. cbn [negb]. destruct (empty (targets event active)) eqn:Em; [apply empty_true in Em; by rewrite Em in I|]. cbn [snd].
  destruct (fold_blank post m event (targets event active) (mkRun s [] [] [] [] []) D eq_refl B) as [F1 F2].
  set (r := fold_left _ _ _) in *. unfold outcome. cbn [errors status]. rewrite F1. split; [|done].
  assert (N : empty (r_sent r) = false).
  { rewrite F2. cbn [r_sent app]. assert (J : In d' (List.filter (accepts m event post) (targets event active))).
    { apply filter_In. split; [done|]. unfold accepts. by rewrite A. }
    by destruct (List.filter (accepts m event post) _). }
  by rewrite N.
Qed.

(** ** Concrete dispatches *)

Definition hook : WebhookDestination :=
  mkDest "hook-1" "generic" "SIEM" true ["kev_alert"; "health"] [("url", "https://siem.example/hook")] "db".
Definition room : WebhookDestination :=
  mkDest "room-1" "discord" "Room" true ["kev_alert"] [("url", "https://discord.com/api/webhooks/1/t")] "db".
Definition kev_message (dedupe : option string) : event_message :=
  mkEvent "KEV: CVE-2024-1" dedupe false [] [] None None.
Definition room_down (error : string) (d : WebhookDestination) (p : payload) : post_result :=
  if String.eqb (id d) "room-1" then Broken error else Accepted.
Definition all_up (d : WebhookDestination) (p : payload) : post_result := Accepted.
Definition no_env (k : string) : option string := None.
Definition no_json (s : string) : option pyval := None.
Definition no_str (v : pyval) : string := "".

Definition k_room : claim_key := ("room-1", "kev_alert", "CVE-2024-1").

Lemma accepted_at_most_once_witness :
  exists w : world (S := claims_table), accepted w = [("hook-1", "kev_alert", "CVE-2024-1"); k_room] /\ excuses w k_room = 0%nat
    /\ (count k_room (accepted w) + owners k_room (workers w) <= 1 + excuses w k_room)%nat.
Proof.
  destruct (run_alone all_up (kev_message (Some "CVE-2024-1")) "kev_alert" [hook; room] (mkRun no_claims [] [] [] [] [])) as [_ (new & rows & E & F & R)].
  specialize (R [] [] (fun _ => 0%nat) []). vm_compute in E. subst new.
  eexists. split; [|split; [|apply accepted_at_most_once]].
  3:{ exists no_claims. split; [done|]. eapply rtc_l; [|exact R]. by apply Start. }
  - vm_compute. reflexivity.
  - reflexivity.
Defined.

Lemma dispatch_is_a_worker_witness :
  exists w : world (S := claims_table),
    rtc world_step (mkWorld no_claims [] [] (fun _ => 0%nat) []) w /\ accepted w = [("hook-1", "kev_alert", "CVE-2024-1")] /\ length (log w) = 2%nat.
Proof.
  eexists. split; [apply (dispatch_is_a_worker (room_down "") "kev_stack" (kev_message (Some "CVE-2024-1")) [hook; room] no_claims [] [] (fun _ => 0%nat) []); [reflexivity|discriminate]|].
  split; vm_compute; reflexivity.
Defined.

(** Finding [crash_and_sweep_deliver_twice]: a dispatch ends after its delivery was accepted and before the row of the log; an hour later the
    clean-up takes the claim for a stranded one, and the next dispatch of the alert delivers it a second time. *)
Lemma crash_and_sweep_deliver_twice : exists w : world (S := claims_table), reachable w /\ count k_room (accepted w) = 2%nat /\ excuses w k_room = 1%nat.
Proof.
  set (m := kev_message (Some "CVE-2024-1")). set (k := k_room).
  set (w0 := mkWorker "kev_alert" m [room] Idle [] [] []). set (w1 := mkWorker "kev_alert" m [] (Claimed room) [] [] []). set (w2 := mkWorker "kev_alert" m [] (Delivered room None) [] [] []).
  set (t1 := mkClaims 0 {[k := 0%Z]}). set (t2 := mkClaims 7200 {[k := 0%Z]}).
  eexists. split.
  - exists no_claims. split; [done|].
    eapply rtc_l; [apply (Start _ _ _ _ _ "kev_alert" m [room]); reflexivity|].
    eapply rtc_l; [apply (Advance _ _ _ _ [] w0 [] None); reflexivity|].
    eapply rtc_l; [apply (Advance _ _ _ _ [] w1 [] None); reflexivity|].
    eapply rtc_l; [apply (Crash _ _ _ _ [] w2 [])|].
    eapply rtc_l; [apply (Tick _ _ _ _ _ 7200); lia|].
    eapply rtc_l; [apply Sweep|].
    eapply rtc_l; [apply (Start _ _ _ _ _ "kev_alert" m [room]); reflexivity|].
    eapply rtc_l; [apply (Advance _ _ _ _ [] w0 [] None); reflexivity|].
    eapply rtc_l; [apply (Advance _ _ _ _ [] w1 [] None); reflexivity|]. apply rtc_refl.
  - split; vm_compute; reflexivity.
Qed.

Lemma redispatch_only_to_failed_witness :
  let first := dispatch_event (room_down "boom") "kev_alert" (kev_message (Some "CVE-2024-1"))
                 (load_destinations no_env no_json no_str [hook; room]) no_claims in
  let second := dispatch_event all_up "kev_alert" (kev_message (Some "CVE-2024-1"))
                 (load_destinations no_env no_json no_str [hook; room]) (r_claims (fst first)) in
  sent (snd first) = ["hook-1"] /\ sent (snd second) = ["room-1"].
Proof.
  intros first second.
  destruct (redispatch_only_to_failed no_env no_json no_str [hook; room] (room_down "boom") all_up "kev_alert"
    (kev_message (Some "CVE-2024-1")) no_claims) as [E1 E2]; [reflexivity..|].
  split; [refine (eq_trans E1 _)|refine (eq_trans E2 _)]; vm_compute; reflexivity.
Defined.

Lemma posted_texts_fit_witness :
  payload_fits (Content "KEV: CVE-2024-1").
Proof.
  apply (posted_texts_fit all_up (kev_message None) room "kev_alert"). vm_compute. by left.
Defined.

Lemma blank_error_reported_ok_witness :
  status (snd (dispatch_event (room_down "") "kev_alert" (kev_message None) [hook; room] no_claims)) = "ok".
Proof.
  apply (blank_error_reported_ok (room_down "") "kev_alert" (kev_message None) [hook; room] no_claims room hook);
    try (vm_compute; auto; fail).
  intros x I. destruct I as [<-|[<-|[]]]; vm_compute; auto.
Defined.
