(* ===== verification/Campaigns.v ===== *)
(** * Campaigns: correlation/lifecycle.py, hub_suppress.py, config.py

    The lifecycle of a campaign from the dates of its evidence, and the cap on
    hub CVEs and campaign members.  Instants are UTC microseconds; stored dates
    are texts.  [env] is [os.environ.get]. *)

From S2P Require Import Prelude PyStr PyVal Dates CveRow Pacing.
From Stdlib Require Import Sorted.
Open Scope string_scope.
Open Scope Z_scope.

(** ** lifecycle.py *)

Inductive Lifecycle := emerging | active | declining | stale.

#[export] Instance Lifecycle_eq_dec : EqDecision Lifecycle.
Proof. solve_decision. Defined.

Definition LIFECYCLE_EMERGING_DAYS : Z := 7.
Definition LIFECYCLE_ACTIVE_DAYS : Z := 14.
Definition LIFECYCLE_DECLINING_DAYS : Z := 30.
Definition LIFECYCLE_STALE_PULSE_DAYS : Z := 365.

Record member := mkMember {
  mb_is_kev : pyval; mb_has_poc : pyval;
  published : option string; modified : option string;
  kev_date_added : option string; epss_activity_at : option string
}.

Definition _parse_dt (value : option string) : option Z :=
  let text := strip (text_or value) in
  if nonempty text then option_map utc_us (fromisoformat (midnight_suffix (utc_suffix text))) else None.

Definition _days_ago (dt : option Z) (now : Z) : option Z := option_map (fun t => now / DAY_US - t / DAY_US) dt.

Definition _has_local_boosters (members : list member) : bool :=
  existsb (fun m => truthy (mb_is_kev m) || truthy (mb_has_poc m)) members.

Section lifecycle.
Variable now : Z.

Definition cutoff (days : Z) : Z := now - days * DAY_US.
Definition emerging_cutoff : Z := cutoff LIFECYCLE_EMERGING_DAYS.
Definition active_cutoff : Z := cutoff LIFECYCLE_ACTIVE_DAYS.
Definition declining_cutoff : Z := cutoff LIFECYCLE_DECLINING_DAYS.

(** [if last_activity is None or dt > last_activity: last_activity = dt] *)
Definition later (last : option Z) (dt : Z) : option Z :=
  match last with None => Some dt | Some l => if l <? dt then Some dt else last end.

(** A date is recent enough for the verdict, or it moves [last_activity]. *)
Definition see (limit : Z) (verdict : Lifecycle) (dt : option Z) (last : option Z) : Lifecycle + option Z :=
  match dt with
  | None => inr last
  | Some t => if limit <=? t then inl verdict else inr (later last t)
  end.

Definition next {A} (s : Lifecycle + option Z) (k : option Z -> Lifecycle + A) : Lifecycle + A :=
  match s with inl v => inl v | inr last => k last end.

Fixpoint see_observations (observed : list (option string)) (last : option Z) : Lifecycle + option Z :=
  match observed with
  | [] => inr last
  | o :: rest => next (see emerging_cutoff emerging (_parse_dt o) last) (see_observations rest)
  end.

Definition poc_date (m : member) : option Z :=
  match _parse_dt (modified m) with Some t => Some t | None => _parse_dt (published m) end.

Definition see_member (m : member) (last : option Z) : Lifecycle + option Z :=
  next (see emerging_cutoff emerging (_parse_dt (published m)) last) (fun last =>
  next (see emerging_cutoff emerging (_parse_dt (modified m)) last) (fun last =>
  next (if truthy (mb_is_kev m) then see active_cutoff active (_parse_dt (kev_date_added m)) last else inr last) (fun last =>
  next (if truthy (mb_has_poc m) then see active_cutoff active (poc_date m) last else inr last) (fun last =>
  see active_cutoff active (_parse_dt (epss_activity_at m)) last)))).

Fixpoint see_members (members : list member) (last : option Z) : Lifecycle + option Z :=
  match members with [] => inr last | m :: rest => next (see_member m last) (see_members rest) end.

Definition compute_campaign_lifecycle (pulse_created_date : option string) (members : list member)
    (member_observation_at : list (option string)) : Lifecycle :=
  let pulse_dt := _parse_dt pulse_created_date in
  let old := match _days_ago pulse_dt now with Some d => LIFECYCLE_STALE_PULSE_DAYS <? d | None => false end in
  if old && negb (_has_local_boosters members) then stale
  else match next (see_observations member_observation_at pulse_dt) (see_members members) with
       | inl v => v
       | inr None => declining
       | inr (Some last) => if last <? declining_cutoff then declining else active
       end.

(** ** The evidence behind a verdict *)

(** A dated signal: the cutoff that makes it decisive, its verdict and its date. *)
Definition signal : Type := Z * Lifecycle * option Z.
Definition sig_emerging (dt : option Z) : signal := (emerging_cutoff, emerging, dt).
Definition sig_active (dt : option Z) : signal := (active_cutoff, active, dt).

Definition member_signals (m : member) : list signal :=
  ([sig_emerging (_parse_dt (published m)); sig_emerging (_parse_dt (modified m))]
   ++ (if truthy (mb_is_kev m) then [sig_active (_parse_dt (kev_date_added m))] else [])
   ++ (if truthy (mb_has_poc m) then [sig_active (poc_date m)] else [])
   ++ [sig_active (_parse_dt (epss_activity_at m))])%list.

Definition evidence (members : list member) (observed : list (option string)) : list signal :=
  (map (fun o => sig_emerging (_parse_dt o)) observed ++ flat_map member_signals members)%list.

Fixpoint see_all (l : list signal) (last : option Z) : Lifecycle + option Z :=
  match l with [] => inr last | (limit, v, dt) :: rest => next (see limit v dt last) (see_all rest) end.

Lemma next_assoc {A} (s : Lifecycle + option Z) f (g : option Z -> Lifecycle + A) :
  next (next s f) g = next s (fun last => next (f last) g).
Proof. by destruct s. Qed.

Lemma see_all_app a b last : see_all (a ++ b) last = next (see_all a last) (see_all b).
Proof.
  revert last. induction a as [|[[limit v] dt] a IH]; intros last; [done|]. cbn. rewrite next_assoc.
  destruct (see limit v dt last); [done|]. apply IH.
Qed.

Lemma see_member_all m last : see_member m last = see_all (member_signals m) last.
Proof.
  unfold see_member, member_signals, sig_emerging, sig_active. destruct (truthy (mb_is_kev m)), (truthy (mb_has_poc m)); cbn;
    repeat match goal with |- next (see ?a ?b ?c ?d) _ = _ => destruct (see a b c d); cbn; [reflexivity|] end; by destruct (see _ _ _ _).
Qed.

Lemma see_members_all members last : see_members members last = see_all (flat_map member_signals members) last.
Proof.
  revert last. induction members as [|m l IH]; intros last; [done|]. cbn [see_members flat_map]. rewrite see_all_app, see_member_all.
  destruct (see_all _ _); [done|]. apply IH.
Qed.

Lemma see_observations_all obs last :
  see_observations obs last = see_all (map (fun o => sig_emerging (_parse_dt o)) obs) last.
Proof.
  revert last. induction obs as [|o l IH]; intros last; [done|]. cbn. destruct (see _ _ _ _); [done|]. apply IH.
Qed.

Lemma evidence_all members obs last :
  next (see_observations obs last) (see_members members) = see_all (evidence members obs) last.
Proof.
  unfold evidence. rewrite see_all_app, see_observations_all. destruct (see_all _ _); [done|]. apply see_members_all.
Qed.

(** Some known date is at or after [limit]. *)
Definition dated_since (limit : Z) (dts : list (option Z)) : Prop := exists t, In (Some t) dts /\ limit <= t.

Lemma dated_since_mono a b dts : a <= b -> dated_since b dts -> dated_since a dts.
Proof. intros L (t & I & H). exists t. split; [done|lia]. Qed.

Lemma dated_since_app l a b : dated_since l (a ++ b) <-> dated_since l a \/ dated_since l b.
Proof. unfold dated_since. setoid_rewrite in_app_iff. firstorder. Qed.

Lemma dated_since_cons l dt dts : dated_since l (dt :: dts) <-> dated_since l [dt] \/ dated_since l dts.
Proof. apply (dated_since_app l [dt] dts). Qed.

Lemma dated_since_one l t : dated_since l [Some t] <-> l <= t.
Proof. split; [intros (t' & [E|[]] & H); by injection E as ->|]. intros H. exists t. split; [by left|done]. Qed.

Definition sig_date (s : signal) : option Z := snd s.

Lemma see_all_last l last d :
  (forall limit v dt, In (limit, v, dt) l -> d <= limit) ->
  match see_all l last with
  | inl v => exists limit dt, In (limit, v, dt) l /\ dated_since limit [dt]
  | inr last' => (forall limit v dt, In (limit, v, dt) l -> ~ dated_since limit [dt]) /\
      (dated_since d [last'] <-> dated_since d (last :: map sig_date l))
  end.
Proof.
  revert last. induction l as [|[[limit v] dt] l IH]; intros last B; [by cbn|].
  cbn [see_all map]. unfold see. destruct dt as [t|].
  - destruct (Z.leb_spec limit t) as [L|L]; cbn [next].
    + exists limit, (Some t). split; [by left|]. by apply dated_since_one.
    + assert (B' : forall limit v dt, In (limit, v, dt) l -> d <= limit) by (intros; eapply B; by right).
      specialize (IH (later last t) B'). destruct (see_all l (later last t)) as [v'|last'].
      * destruct IH as (li & dt & I & H). exists li, dt. split; [by right|done].
      * destruct IH as [N E]. split.
        -- intros li v' dt' [Eq|I]; [|by eapply N]. injection Eq as <- <- <-. rewrite dated_since_one. lia.
        -- rewrite E. assert (M : dated_since d [later last t] <-> dated_since d [last] \/ d <= t).
           { unfold later. destruct last as [l0|]; [|rewrite dated_since_one; split; [by right|intros [(x & [X|[]] & _)|]; done]].
             destruct (Z.ltb_spec l0 t); rewrite !dated_since_one; lia. }
           cbn [sig_date snd]. rewrite (dated_since_cons d (later last t)), (dated_since_cons d last), (dated_since_cons d (Some t)).
           rewrite M, dated_since_one. tauto.
  - cbn [next]. assert (B' : forall limit v dt, In (limit, v, dt) l -> d <= limit) by (intros; eapply B; by right).
    specialize (IH last B'). destruct (see_all l last) as [v'|last'].
    + destruct IH as (li & dt & I & H). exists li, dt. split; [by right|done].
    + destruct IH as [N E]. assert (NN : forall x, ~ dated_since x [@None Z]) by (intros x (t & [X|[]] & _); done). split.
      * intros li v' dt' [Eq|I]; [|by eapply N]. injection Eq as <- <- <-. apply NN.
      * rewrite E. cbn [sig_date snd]. rewrite (dated_since_cons d last (map sig_date l)), (dated_since_cons d last (None :: _)), (dated_since_cons d None).
        specialize (NN d). tauto.
Qed.
End lifecycle.

Definition is_quiet_pulse (now : Z) (pulse_created_date : option string) (members : list member) : bool :=
  match _days_ago (_parse_dt pulse_created_date) now with Some d => LIFECYCLE_STALE_PULSE_DAYS <? d | None => false end
  && negb (_has_local_boosters members).

Definition known_dates (now : Z) (pulse : option string) (members : list member) (obs : list (option string)) : list (option Z) :=
  _parse_dt pulse :: map sig_date (evidence now members obs).

Lemma evidence_shape now members obs limit v dt :
  In (limit, v, dt) (evidence now members obs) ->
  (limit = emerging_cutoff now /\ v = emerging) \/ (limit = active_cutoff now /\ v = active).
Proof.
  unfold evidence. rewrite in_app_iff, in_map_iff, in_flat_map. unfold sig_emerging, sig_active.
  intros [(o & [= <- <- <-] & _)|(m & _ & I)]; [by left|].
  unfold member_signals, sig_emerging, sig_active in I. rewrite !in_app_iff in I. cbn [In] in I.
  destruct I as [[[= <- <- <-]|[[= <- <- <-]|[]]]|[I|[I|[[= <- <- <-]|[]]]]]; [by left|by left| | |by right];
    destruct (truthy _); try contradiction; destruct I as [[= <- <- <-]|[]]; by right.
Qed.

Lemma cutoffs now : declining_cutoff now <= active_cutoff now /\ active_cutoff now <= emerging_cutoff now.
Proof. unfold declining_cutoff, active_cutoff, emerging_cutoff, cutoff, DAY_US,
  LIFECYCLE_DECLINING_DAYS, LIFECYCLE_ACTIVE_DAYS, LIFECYCLE_EMERGING_DAYS. lia. Qed.

(** What each verdict says of the dates: the core of the lifecycle theorems. *)
Lemma lifecycle_cases now pulse members obs :
  match compute_campaign_lifecycle now pulse members obs with
  | stale => is_quiet_pulse now pulse members = true
  | declining => is_quiet_pulse now pulse members = false /\ ~ dated_since (declining_cutoff now) (known_dates now pulse members obs)
  | active => is_quiet_pulse now pulse members = false /\ dated_since (declining_cutoff now) (known_dates now pulse members obs)
  | emerging => is_quiet_pulse now pulse members = false /\ dated_since (declining_cutoff now) (known_dates now pulse members obs) /\
      exists t, In (sig_emerging now (Some t)) (evidence now members obs) /\ emerging_cutoff now <= t
  end.
Proof.
  unfold compute_campaign_lifecycle. fold (is_quiet_pulse now pulse members).
  destruct (is_quiet_pulse now pulse members) eqn:Q; [done|]. rewrite evidence_all.
  destruct (cutoffs now) as [C1 C2].
  pose proof (see_all_last (evidence now members obs) (_parse_dt pulse) (declining_cutoff now)) as S.
  assert (B : forall limit v dt, In (limit, v, dt) (evidence now members obs) -> declining_cutoff now <= limit).
  { intros limit v dt I. destruct (evidence_shape _ _ _ _ _ _ I) as [[-> _]|[-> _]]; lia. }
  specialize (S B). destruct (see_all (evidence now members obs) _) as [v|last].
  - destruct S as (limit & dt & I & t & [T|[]] & L). subst dt.
    assert (D : dated_since (declining_cutoff now) (known_dates now pulse members obs)).
    { exists t. split; [|pose proof (B _ _ _ I); lia]. right. apply in_map_iff. exists (limit, v, Some t). by split. }
    destruct (evidence_shape _ _ _ _ _ _ I) as [[-> ->]|[-> ->]]; split_and!; try done. exists t. by split.
  - destruct S as [_ E]. fold (known_dates now pulse members obs) in E. destruct last as [t|].
    + rewrite dated_since_one in E. destruct (Z.ltb_spec t (declining_cutoff now)); (split; [done|]); rewrite <- E; lia.
    + split; [done|]. rewrite <- E. intros (t & [X|[]] & _). done.
Qed.

(** ** hub_suppress.py *)

Section hubs.
Variable env : string -> option string.

Definition get_hub_cve_pulse_cap : res Z :=
  let! n := int_of_str (env_get env "CORRELATION_HUB_CVE_PULSE_CAP" "50") in Ok (Z.max 1 n).
Definition get_max_campaign_members : res Z :=
  let! n := int_of_str (env_get env "CORRELATION_MAX_CAMPAIGN_MEMBERS" "25") in Ok (Z.max 2 n).

Definition is_hub_cve (pulse_count cap : Z) : bool := cap <? pulse_count.

(** [sorted(l)] and [sorted(set(l))] *)
Fixpoint insert_sorted (s : string) (l : list string) : list string :=
  match l with [] => [s] | h :: t => if String.ltb h s then h :: insert_sorted s t else s :: l end.
Definition sorted (l : list string) : list string := fold_right insert_sorted [] l.
Definition sorted_distinct (l : list string) : list string := sorted (remove_dups l).

(** [l\[:n\]] *)
Definition slice_to {A} (n : Z) (l : list A) : list A :=
  firstn (Z.to_nat (if n <? 0 then Z.of_nat (length l) + n else n)) l.

Definition or_limit (max_members : option Z) : res Z :=
  match max_members with Some n => Ok n | None => get_max_campaign_members end.

Definition apply_member_cap (members : list string) (max_members : option Z) : res (list string) :=
  let! limit := or_limit max_members in
  if Z.of_nat (length members) <=? limit then Ok (sorted members) else Ok (slice_to limit (sorted members)).

(** [pulse_count_by_cve.get(cve, 0)] *)
Definition pulses_of (counts : gmap string Z) (cve : string) : Z := match counts !! cve with Some n => n | None => 0 end.

Definition filter_campaign_members (cve_id : string) (members : list string) (pulse_count_by_cve : gmap string Z)
    (hub_cap max_members : option Z) : res (list string) :=
  let anchor := upper cve_id in
  let unique := sorted_distinct (map upper (List.filter nonempty members)) in
  let unique := sorted (if existsb (String.eqb anchor) unique then unique else unique ++ [anchor])%list in
  let pulses := pulses_of pulse_count_by_cve in
  let! cap := match hub_cap with Some c => Ok c | None => get_hub_cve_pulse_cap end in
  let peers := List.filter (fun m => negb (String.eqb m anchor)) unique in
  if is_hub_cve (pulses anchor) cap then
    let! limit := match max_members with Some n => if n =? 0 then get_max_campaign_members else Ok n | None => get_max_campaign_members end in
    apply_member_cap (anchor :: slice_to (Z.max 1 (limit - 1)) peers) max_members
  else apply_member_cap (anchor :: List.filter (fun p => negb (is_hub_cve (pulses p) cap)) peers) max_members.
End hubs.

(** ** Sorting and slicing *)

Definition before (a b : string) : Prop := String.ltb a b = true.

Lemma insert_sorted_perm s l : insert_sorted s l ≡ₚ s :: l.
Proof. induction l as [|h t IH]; [done|]. cbn. destruct (String.ltb h s); [|done]. rewrite IH. apply perm_swap. Qed.

Lemma sorted_perm l : sorted l ≡ₚ l.
Proof. induction l as [|x l IH]; [done|]. cbn. by rewrite insert_sorted_perm, IH. Qed.

Lemma insert_sorted_strict s l :
  StronglySorted before l -> ~ In s l -> StronglySorted before (insert_sorted s l).
Proof.
  induction 1 as [|h t Ht IH F]; intros N; cbn; [by repeat constructor|].
  destruct (String.ltb h s) eqn:E.
  - constructor; [apply IH; intros I; apply N; by right|]. apply List.Forall_forall. intros x I.
    apply (Permutation_in _ (insert_sorted_perm s t)) in I as [<-|I]; [done|].
    rewrite List.Forall_forall in F. auto.
  - destruct (ltb_total _ _ E) as [->|L]; [exfalso; apply N; by left|].
    constructor; [by constructor|]. constructor; [done|]. eapply List.Forall_impl; [|exact F].
    intros x Hx. by eapply ltb_trans.
Qed.

Lemma sorted_strict l : NoDup l -> StronglySorted before (sorted l).
Proof.
  induction 1 as [|x l N ND IH]; [constructor|]. cbn. apply insert_sorted_strict; [exact IH|].
  intros I. apply N, list_elem_of_In. by apply (Permutation_in _ (sorted_perm l)).
Qed.

Lemma strict_firstn x l n :
  StronglySorted before l -> In x l ->
  (In x (firstn n l) <-> (length (List.filter (fun y => String.ltb y x) l) < n)%nat).
Proof.
  intros S. revert n. induction S as [|h t St IH F]; intros n I; [done|]. rewrite List.Forall_forall in F.
  destruct I as [<-|I].
  - cbn [List.filter]. rewrite ltb_irrefl. assert (E : List.filter (fun y => String.ltb y h) t = []).
    { destruct (List.filter (fun y => String.ltb y h) t) as [|y l] eqn:Ef; [done|].
      assert (J : In y (List.filter (fun y => String.ltb y h) t)) by (rewrite Ef; by left).
      apply filter_In in J as [J L]. pose proof (ltb_trans _ _ _ L (F y J)) as C. by rewrite ltb_irrefl in C. }
    rewrite E. cbn [length]. destruct n; cbn; [lia|]. split; [lia|by left].
  - cbn [List.filter]. rewrite (F x I). cbn [length]. destruct n as [|n]; cbn [firstn In]; [lia|].
    rewrite IH by done. split; [intros [->|H]|intros H; right; lia]; [|lia].
    pose proof (F x I) as C. unfold before in C. by rewrite ltb_irrefl in C.
Qed.

Lemma filter_length_perm {A} (f : A -> bool) l l' : l ≡ₚ l' -> length (List.filter f l) = length (List.filter f l').
Proof. induction 1; cbn; repeat case_goal; cbn; congruence. Qed.

Lemma strict_nodup l : StronglySorted before l -> NoDup l.
Proof.
  induction 1 as [|h t St IH F]; [constructor|]. constructor; [|done]. rewrite list_elem_of_In. intros I.
  rewrite List.Forall_forall in F. pose proof (F h I) as C. unfold before in C. by rewrite ltb_irrefl in C.
Qed.

Lemma strict_take n l : StronglySorted before l -> StronglySorted before (firstn n l).
Proof.
  intros S. revert n. induction S as [|h t St IH F]; intros [|n]; cbn; try constructor; [apply IH|].
  apply List.Forall_forall. intros x I. rewrite List.Forall_forall in F. apply F. rewrite <- (firstn_skipn n t). apply in_app_iff. by left.
Qed.

(** The capped list keeps [x] exactly when fewer than [limit] members sort before it. *)
Lemma cap_spec env l max_members limit r :
  NoDup l -> or_limit env max_members = Ok limit -> 0 <= limit -> apply_member_cap env l max_members = Ok r ->
  StronglySorted before r /\ Z.of_nat (length r) <= limit /\
  forall x, In x r <-> In x l /\ Z.of_nat (length (List.filter (fun y => String.ltb y x) l)) < limit.
Proof.
  intros ND L P. unfold apply_member_cap. rewrite L. cbn [res_bind].
  pose proof (sorted_strict l ND) as S. pose proof (Permutation_length (sorted_perm l)) as Le.
  assert (C : forall x, length (List.filter (fun y => String.ltb y x) (sorted l)) = length (List.filter (fun y => String.ltb y x) l))
    by (intros x; apply filter_length_perm, sorted_perm).
  destruct (Z.leb_spec (Z.of_nat (length l)) limit) as [H|H]; intros E; injection E as <-.
  - split_and!; [done|lia|]. intros x. split.
    + intros I. assert (I' : In x l) by (by apply (Permutation_in _ (sorted_perm l))). split; [done|].
      pose proof (filter_length_le (fun y => String.ltb y x) l) as Fl.
      assert (length (List.filter (fun y => String.ltb y x) l) < length l)%nat; [|lia].
      clear -I'. induction l as [|h t IH]; [done|]. cbn. pose proof (filter_length_le (fun y => String.ltb y x) t).
      destruct I' as [->|I]; [rewrite ltb_irrefl; lia|]. specialize (IH I). destruct (String.ltb h x); cbn; lia.
    + intros [I _]. by apply (Permutation_in _ (symmetry (sorted_perm l))).
  - unfold slice_to. rewrite (proj2 (Z.ltb_ge limit 0)) by lia. split_and!.
    + by apply strict_take.
    + rewrite length_firstn. lia.
    + intros x. split.
      * intros I. assert (J : In x (sorted l)) by (rewrite <- (firstn_skipn (Z.to_nat limit) (sorted l)); apply in_app_iff; by left).
        apply (strict_firstn x (sorted l) _ S J) in I. rewrite C in I. split; [by apply (Permutation_in _ (sorted_perm l))|lia].
      * intros [J K]. apply (Permutation_in _ (symmetry (sorted_perm l))) in J. apply strict_firstn; [done..|]. rewrite C. lia.
Qed.

Definition distinct_members (members : list string) : list string := remove_dups (map upper (List.filter nonempty members)).

(** The sorted candidates: the distinct members and the anchor. *)
Lemma unique_perm anchor members :
  let u := sorted_distinct (map upper (List.filter nonempty members)) in
  sorted (if existsb (String.eqb anchor) u then u else u ++ [anchor])%list ≡ₚ
  if existsb (String.eqb anchor) (distinct_members members) then distinct_members members else (anchor :: distinct_members members)%list.
Proof.
  intros u. assert (U : u ≡ₚ distinct_members members) by apply sorted_perm.
  assert (E : existsb (String.eqb anchor) u = existsb (String.eqb anchor) (distinct_members members)).
  { apply eq_true_iff_eq. rewrite !existsb_exists. split; intros (x & I & H); exists x; (split; [|done]).
    - exact (Permutation_in _ U I).
    - exact (Permutation_in _ (symmetry U) I). }
  rewrite sorted_perm, E. destruct (existsb _ (distinct_members members)); [exact U|]. rewrite U. by rewrite Permutation_app_comm.
Qed.

Lemma peers_perm anchor members :
  let u := sorted_distinct (map upper (List.filter nonempty members)) in
  List.filter (fun m => negb (String.eqb m anchor)) (sorted (if existsb (String.eqb anchor) u then u else u ++ [anchor])%list)
  ≡ₚ List.filter (fun m => negb (String.eqb m anchor)) (distinct_members members).
Proof.
  intros u. assert (F : forall (f : string -> bool) l l', l ≡ₚ l' -> List.filter f l ≡ₚ List.filter f l').
  { intros f l l'. induction 1; cbn; repeat case_goal; eauto using perm_swap, Permutation_trans. }
  etrans; [apply F, unique_perm|]. destruct (existsb _ (distinct_members members)); [done|]. cbn. by rewrite String.eqb_refl.
Qed.

Lemma peers_ok anchor members l :
  l ≡ₚ List.filter (fun m => negb (String.eqb m anchor)) (distinct_members members) ->
  NoDup (anchor :: l) /\ forall p, In p l -> In p (map upper (List.filter nonempty members)).
Proof.
  intros P. assert (I : forall p, In p l <-> In p (distinct_members members) /\ p <> anchor).
  { intros p. split.
    - intros J. apply (Permutation_in _ P), filter_In in J as [J N]. split; [done|]. intros ->. by rewrite String.eqb_refl in N.
    - intros [J N]. apply (Permutation_in _ (symmetry P)), filter_In. split; [done|]. by rewrite (proj2 (String.eqb_neq _ _) N). }
  split.
  - constructor; [rewrite list_elem_of_In, I; tauto|]. rewrite P. unfold distinct_members.
    assert (F : forall f (l : list string), NoDup l -> NoDup (List.filter f l)); [|apply F, NoDup_remove_dups].
    clear. intros f l. induction 1 as [|x l N ND IH]; [constructor|]. cbn. destruct (f x); [|done]. constructor; [|done].
    rewrite list_elem_of_In, filter_In, <- list_elem_of_In. tauto.
  - intros p J. apply I in J as [J _]. apply list_elem_of_In. apply list_elem_of_In in J. unfold distinct_members in J. by rewrite elem_of_remove_dups in J.
Qed.

(** ** Properties *)

(** The lifecycle, read off the evidence: [stale] is a pulse older than a year
    without KEV or exploit members; [declining] is no known date in the last thirty
    days; any other verdict has such a date, and [emerging] an observation or a
    publication within the last week. *)
Theorem lifecycle_reads_evidence now pulse members obs :
  let v := compute_campaign_lifecycle now pulse members obs in
  (v = stale <-> is_quiet_pulse now pulse members = true) /\
  (v = declining <-> is_quiet_pulse now pulse members = false /\ ~ dated_since (declining_cutoff now) (known_dates now pulse members obs)) /\
  (v = emerging -> exists t, In (sig_emerging now (Some t)) (evidence now members obs) /\ emerging_cutoff now <= t).
Proof.
  intros v. pose proof (lifecycle_cases now pulse members obs) as C. fold v in C.
  destruct v; split_and!; try (split; intros H); intuition congruence.
Qed.

(** The rows of a campaign come in no fixed order.  Reordering members or
    observations never changes [stale] or [declining]; it can only exchange
    [emerging] and [active]. *)
Theorem lifecycle_order_effects now pulse members members' obs obs' :
  members ≡ₚ members' -> obs ≡ₚ obs' ->
  let v := compute_campaign_lifecycle now pulse members obs in
  let v' := compute_campaign_lifecycle now pulse members' obs' in
  v = v' \/ (v = emerging /\ v' = active) \/ (v = active /\ v' = emerging).
Proof.
  intros Pm Po v v'. pose proof (lifecycle_cases now pulse members obs) as C. pose proof (lifecycle_cases now pulse members' obs') as C'.
  fold v in C. fold v' in C'.
  assert (Q : is_quiet_pulse now pulse members = is_quiet_pulse now pulse members').
  { unfold is_quiet_pulse, _has_local_boosters. f_equal. f_equal. apply eq_true_iff_eq. rewrite !existsb_exists.
    split; intros (x & I & H); exists x; (split; [|done]); [exact (Permutation_in _ Pm I)|exact (Permutation_in _ (symmetry Pm) I)]. }
  assert (D : dated_since (declining_cutoff now) (known_dates now pulse members obs) <->
              dated_since (declining_cutoff now) (known_dates now pulse members' obs')).
  { assert (P : known_dates now pulse members obs ≡ₚ known_dates now pulse members' obs').
    { unfold known_dates, evidence. constructor. apply Permutation_map. apply Permutation_app; [by apply Permutation_map|].
      by apply Permutation_flat_map. }
    unfold dated_since. split; intros (t & I & H); exists t; (split; [|done]);
      [exact (Permutation_in _ P I)|exact (Permutation_in _ (symmetry P) I)]. }
  destruct v, v'; intuition congruence.
Qed.

(** It does exchange them: the loop returns at the first decisive member, so a
    KEV entry of the last fortnight before a CVE published this week gives [active],
    and the same two rows the other way round give [emerging]. *)
Theorem lifecycle_depends_on_row_order now kev fresh k p :
  truthy (mb_is_kev kev) = true -> published kev = None -> modified kev = None ->
  _parse_dt (kev_date_added kev) = Some k -> active_cutoff now <= k ->
  _parse_dt (published fresh) = Some p -> emerging_cutoff now <= p ->
  compute_campaign_lifecycle now None [kev; fresh] [] = active /\
  compute_campaign_lifecycle now None [fresh; kev] [] = emerging.
Proof.
  intros K P M Dk Lk Df Lf. unfold compute_campaign_lifecycle. cbn [_parse_dt text_or strip lstrip drop_while rstrip_by srev srev_app nonempty _days_ago option_map andb].
  change (_parse_dt None) with (@None Z). cbn [see_observations next see_members].
  unfold see_member. rewrite P, M, K, Dk, Df. change (_parse_dt None) with (@None Z). cbn [see next].
  rewrite (proj2 (Z.leb_le _ _) Lk), (proj2 (Z.leb_le _ _) Lf). by cbn.
Qed.

(** The members kept for a campaign: sorted, at most [limit], all from the input or
    the anchor, no hub among them unless the anchor is one; a hub anchor is kept. *)
Theorem campaign_members_spec env cve_id members counts hub_cap max_members cap limit r :
  match hub_cap with Some c => Ok c | None => get_hub_cve_pulse_cap env end = Ok cap ->
  or_limit env max_members = Ok limit -> 2 <= limit ->
  filter_campaign_members env cve_id members counts hub_cap max_members = Ok r ->
  StronglySorted before r /\ Z.of_nat (length r) <= limit /\
  (forall p, In p r -> p = upper cve_id \/ In p (map upper (List.filter nonempty members))) /\
  (is_hub_cve (pulses_of counts (upper cve_id)) cap = false ->
     forall p, In p r -> p = upper cve_id \/ is_hub_cve (pulses_of counts p) cap = false) /\
  (is_hub_cve (pulses_of counts (upper cve_id)) cap = true -> In (upper cve_id) r).
Proof.
  intros Hc Hl L2. unfold filter_campaign_members. rewrite Hc. cbn [res_bind].
  pose proof (peers_perm (upper cve_id) members) as P. cbv zeta in P. set (peers := List.filter _ (sorted _)) in *.
  destruct (is_hub_cve (pulses_of counts (upper cve_id)) cap) eqn:H.
  - assert (Lm : match max_members with Some n => if n =? 0 then get_max_campaign_members env else Ok n | None => get_max_campaign_members env end = Ok limit).
    { unfold or_limit in Hl. destruct max_members as [n|]; [|done]. injection Hl as ->. by rewrite (proj2 (Z.eqb_neq limit 0)) by lia. }
    rewrite Lm. cbn [res_bind]. destruct (peers_ok (upper cve_id) members peers P) as [ND In1].
    set (kept := slice_to _ peers).
    assert (Sub : kept `sublist_of` peers) by apply sublist_take.
    assert (Len : Z.of_nat (length kept) <= limit - 1).
    { unfold kept, slice_to. rewrite length_firstn. destruct (Z.ltb_spec (Z.max 1 (limit - 1)) 0); lia. }
    intros E. apply (cap_spec env _ _ limit) in E as (S & Lr & M); [| |done|lia].
    2:{ eapply sublist_NoDup; [exact ND|by apply sublist_skip]. }
    assert (Inp : forall p, In p kept -> In p peers).
    { intros p I. apply list_elem_of_In. eapply elem_of_sublist; [by apply list_elem_of_In|exact Sub]. }
    split_and!; try done.
    + intros p I. apply M in I as [[<-|I] _]; [by left|right; auto].
    + intros _. apply M. split; [by left|]. pose proof (filter_length_le (fun y => String.ltb y (upper cve_id)) kept).
      cbn [List.filter]. rewrite ltb_irrefl. lia.
  - set (kept := List.filter _ peers). destruct (peers_ok (upper cve_id) members peers P) as [ND In1].
    intros E. apply (cap_spec env _ _ limit) in E as (S & Lr & M); [| |done|lia].
    2:{ eapply sublist_NoDup; [exact ND|]. apply sublist_skip, filter_sublist. }
    assert (Inp : forall p, In p kept -> In p peers /\ is_hub_cve (pulses_of counts p) cap = false).
    { intros p I. unfold kept in I. apply filter_In in I as [I N]. split; [done|]. by apply negb_true_iff in N. }
    split_and!; try done.
    + intros p I. apply M in I as [[<-|I] _]; [by left|right; apply In1, Inp, I].
    + intros _ p I. apply M in I as [[<-|I] _]; [by left|right; apply Inp, I].
Qed.

(** The cap of a campaign around an ordinary CVE can drop that CVE itself: it is
    kept only when fewer than [limit] of its non-hub peers sort before it. *)
Theorem anchor_kept_iff env cve_id members counts hub_cap max_members cap limit r :
  match hub_cap with Some c => Ok c | None => get_hub_cve_pulse_cap env end = Ok cap ->
  or_limit env max_members = Ok limit -> 0 <= limit ->
  is_hub_cve (pulses_of counts (upper cve_id)) cap = false ->
  filter_campaign_members env cve_id members counts hub_cap max_members = Ok r ->
  (In (upper cve_id) r <->
   Z.of_nat (length (List.filter (fun y => String.ltb y (upper cve_id) && negb (is_hub_cve (pulses_of counts y) cap)) (distinct_members members))) < limit).
Proof.
  intros Hc Hl L2 H. unfold filter_campaign_members. rewrite Hc. cbn [res_bind]. rewrite H.
  pose proof (peers_perm (upper cve_id) members) as P. cbv zeta in P. set (peers := List.filter _ (sorted _)) in *.
  destruct (peers_ok (upper cve_id) members peers P) as [ND _]. set (kept := List.filter _ peers).
  intros E. apply (cap_spec env _ _ limit) in E as (_ & _ & M); [| |done|lia].
  2:{ eapply sublist_NoDup; [exact ND|]. apply sublist_skip, filter_sublist. }
  rewrite M. cbn [List.filter]. rewrite ltb_irrefl.
  assert (C : length (List.filter (fun y => String.ltb y (upper cve_id)) kept) =
    length (List.filter (fun y => String.ltb y (upper cve_id) && negb (is_hub_cve (pulses_of counts y) cap)) (distinct_members members))).
  { assert (FF : forall (f g : string -> bool) l, List.filter f (List.filter g l) = List.filter (fun y => f y && g y) l).
    { clear. intros f g l. induction l as [|x l IH]; [done|]. cbn. destruct (g x); cbn; [destruct (f x); cbn; by rewrite IH|].
      rewrite andb_false_r. exact IH. }
    unfold kept. rewrite FF, (filter_length_perm _ _ _ P), FF. f_equal. apply filter_ext. intros y.
    destruct (String.eqb y (upper cve_id)) eqn:Ey; cbn; [|by rewrite andb_true_r]. apply String.eqb_eq in Ey as ->. by rewrite ltb_irrefl. }
  rewrite C. split; [tauto|]. intros K. split; [by left|done].
Qed.

(** ** Concrete campaigns *)

Definition kev_member : member := mkMember (PBool true) (PBool false) None None (Some "2026-07-10") None.
Definition fresh_member : member := mkMember (PBool false) (PBool false) (Some "2026-07-18T08:00:00Z") None None None.
Definition july_20 : Z := days_from_civil 2026 7 20 * DAY_US.

Lemma lifecycle_order_effects_witness :
  compute_campaign_lifecycle july_20 (Some "2026-01-01") [kev_member; fresh_member] [None] <> declining.
Proof.
  destruct (lifecycle_order_effects july_20 (Some "2026-01-01") [kev_member; fresh_member] [fresh_member; kev_member] [None] [None])
    as [E|[[E _]|[E _]]]; [apply perm_swap|done| | |]; rewrite E; [|discriminate..]. vm_compute. discriminate.
Defined.

Lemma lifecycle_depends_on_row_order_witness :
  compute_campaign_lifecycle july_20 None [kev_member; fresh_member] [] = active /\
  compute_campaign_lifecycle july_20 None [fresh_member; kev_member] [] = emerging.
Proof.
  apply (lifecycle_depends_on_row_order july_20 kev_member fresh_member (days_from_civil 2026 7 10 * DAY_US)
    (days_from_civil 2026 7 18 * DAY_US + 8 * 3600000000)); vm_compute; done.
Defined.

Lemma campaign_members_spec_witness :
  exists r, filter_campaign_members (fun _ => None) "cve-2024-9" ["CVE-2024-1"; "cve-2024-2"; "CVE-2024-2"; ""] {["CVE-2024-1" := 99]} None None = Ok r /\
    Z.of_nat (length r) <= 25.
Proof.
  destruct (filter_campaign_members (fun _ => None) "cve-2024-9" ["CVE-2024-1"; "cve-2024-2"; "CVE-2024-2"; ""] {["CVE-2024-1" := 99]} None None)
    as [r|e] eqn:E; [|vm_compute in E; discriminate E].
  exists r. split; [done|]. apply (campaign_members_spec _ _ _ _ _ _ 50 25 r) in E; [tauto|reflexivity|reflexivity|lia].
Defined.

Definition no_counts : gmap string Z := ∅.

Lemma anchor_kept_iff_witness :
  exists r, filter_campaign_members (fun _ => None) "CVE-2024-9" ["CVE-2024-1"; "CVE-2024-2"] no_counts None (Some 2) = Ok r /\ ~ In "CVE-2024-9" r.
Proof.
  destruct (filter_campaign_members (fun _ => None) "CVE-2024-9" ["CVE-2024-1"; "CVE-2024-2"] no_counts None (Some 2))
    as [r|e] eqn:E; [|vm_compute in E; discriminate E].
  exists r. split; [done|]. intros I.
  pose proof (proj1 (anchor_kept_iff (fun _ => None) "CVE-2024-9" ["CVE-2024-1"; "CVE-2024-2"] no_counts None (Some 2) 50 2 r
    eq_refl eq_refl ltac:(lia) ltac:(vm_compute; reflexivity) E) I) as L.
  vm_compute in L. discriminate L.
Defined.
