(* ===== verification/CorrScore.v ===== *)
(** * CorrScore: correlation/attribution.py, correlation/priority.py

    Alias families and attribution conflicts, and the combined correlation
    priority.  [json_loads] is [json.loads], [py_str] is [str]. *)

From S2P Require Import Prelude PyStr Float64 FloatErr PyVal CveRow Risk StackAssets LlmRouter.
From Stdlib Require Import QArith Lqa Sorted.
Open Scope string_scope.

(** ** attribution.py *)

Definition normalize_actor_token (name : string) : string := lower (strip name).

(** A row of [mitre_groups]; the aliases column is a JSON text, a list, or neither. *)
Inductive alias_column := AliasText (s : string) | AliasList (l : list pyval) | AliasOther.
Record group_row := mkGroup { g_name : option string; g_aliases : alias_column }.

Abbreviation alias_index := (gmap string (gset string)).

Section attribution.
Variable json_loads : string -> option pyval.
Variable py_str : pyval -> string.

Definition alias_values (c : alias_column) : list pyval :=
  match c with
  | AliasText s => match json_loads s with Some (PList l) => l | _ => [] end
  | AliasList l => l
  | AliasOther => []
  end.

Definition group_names (row : group_row) : list string :=
  List.filter nonempty (strip (text_or (g_name row)) :: map (fun a => strip (to_str py_str (py_or a (PStr "")))) (alias_values (g_aliases row))).

Definition family_of (row : group_row) : gset string := list_to_set (map normalize_actor_token (group_names row)).

(** [index\[token\] = index.get(token, set()) | family] *)
Definition add_token (family : gset string) (token : string) (index : alias_index) : alias_index :=
  <[token := match index !! token with Some s => s | None => ∅ end ∪ family]> index.

Definition add_family (index : alias_index) (row : group_row) : alias_index :=
  let family := family_of row in set_fold (add_token family) index family.

Definition build_alias_families (groups : list group_row) : alias_index := fold_left add_family groups ∅.

Definition family_in (index : alias_index) (token : string) : gset string :=
  match index !! token with Some s => s | None => {[token]} end.

Definition actors_in_same_family (a b : string) (index : alias_index) : bool :=
  let a_tok := normalize_actor_token a in
  let b_tok := normalize_actor_token b in
  if negb (nonempty a_tok) || negb (nonempty b_tok) then false
  else if str_in a_tok b_tok || str_in b_tok a_tok then true
  else negb (bool_decide (family_in index a_tok ∩ family_in index b_tok = ∅)).

Definition attribution_conflict (otx_adversary : string) (mitre_actors : list string) (index : alias_index) : bool :=
  nonempty otx_adversary && negb (match mitre_actors with [] => true | _ => false end)
  && negb (existsb (fun name => nonempty name && actors_in_same_family otx_adversary name index) mitre_actors).

Record claim := mkClaim { cl_value : string; cl_source : string; cl_observed_at : string }.

Definition build_attribution_claims (otx_adversary : string) (mitre_actors : list string) (index : alias_index)
    (otx_observed_at : string) : option (list claim) :=
  if attribution_conflict otx_adversary mitre_actors index then
    Some [mkClaim (strip otx_adversary) "otx" otx_observed_at;
          mkClaim (match List.find nonempty mitre_actors with Some n => n | None => "" end) "mitre_technique" ""]
  else None.
End attribution.

(** ** priority.py *)

Definition CAP_CAMPAIGN : Z := 40.
Definition CAP_INFRASTRUCTURE : Z := 25.
Definition CAP_ACTOR : Z := 20.
Definition CAP_TEMPORAL : Z := 15.

Definition _CONFIDENCE_FRACTION : list (string * fl) := [("high", f1); ("medium", lit (5#8)); ("low", lit (1#4))].
Definition _confidence_fraction (value : option string) : fl :=
  match assoc (lower (text_or value)) _CONFIDENCE_FRACTION with Some f => f | None => f0 end.

Record campaign := mkCampaign { ca_confidence : option string; ca_label : option string; ca_kev : pyval; ca_exploit : pyval }.
Record infra := mkInfra { in_confidence : option string; in_cve_id_b : option string; in_shared_ioc_count : Z }.
Record actor_link := mkActor { ac_confidence : option string; ac_name : option string; ac_source : option string; ac_sector_match : pyval }.
Record anomaly := mkAnomaly { an_score : fl; an_vendor : option string; an_week_count : Z; an_average : fl }.

(** [max(items, key=...)]: the first of the greatest. *)
Definition max_by {A} (key : A -> fl) (first : A) (rest : list A) : A :=
  fold_left (fun best x => if flt (key best) (key x) then x else best) rest first.

(** [d.get(key, default)] *)
Definition or_default (o : option string) (d : string) : string := match o with Some s => s | None => d end.

(** [round(cap * min(1.0, x), 1)] *)
Definition capped_points (cap : Z) (x : fl) : fl := round_nd (fmul (Fin (inject_Z cap)) (fmin f1 x)) 1.

(** A contribution: its points, and the sentence when there are any. *)
Definition contribution : Type := fl * option string.
Definition contribute (points : fl) (sentence : string) : contribution :=
  if fle points f0 then (f0, None) else (points, Some sentence).

Definition _campaign_contribution (campaigns : list campaign) : contribution :=
  match campaigns with
  | [] => (f0, None)
  | c :: rest =>
      let best := max_by (fun i => _confidence_fraction (ca_confidence i)) c rest in
      let bonus := if truthy (ca_kev best) || truthy (ca_exploit best) then lit (15#100) else f0 in
      contribute (capped_points CAP_CAMPAIGN (fadd (_confidence_fraction (ca_confidence best)) bonus))
        ("Linked to a " +:+ or_default (ca_confidence best) "low" +:+ "-confidence campaign ("
         +:+ or_default (ca_label best) "OTX pulse" +:+ ")."
         +:+ if truthy (ca_kev best) then " Includes a KEV-listed member."
             else if truthy (ca_exploit best) then " Includes a publicly exploited member." else "")
  end.

Definition _infrastructure_contribution (infrastructure : list infra) : res contribution :=
  match infrastructure with
  | [] => Ok (f0, None)
  | i :: rest =>
      let best := max_by (fun i => _confidence_fraction (in_confidence i)) i rest in
      let! n := fl_of_int (in_shared_ioc_count best) in
      let ioc_bonus := fmin (lit (2#10)) (fmul n (lit (2#100))) in
      Ok (contribute (capped_points CAP_INFRASTRUCTURE (fadd (_confidence_fraction (in_confidence best)) ioc_bonus))
            ("Shares infrastructure with " +:+ or_default (in_cve_id_b best) "another CVE"
             +:+ " (" +:+ or_default (in_confidence best) "low" +:+ " confidence)."))
  end.

Definition _actor_contribution (actor : list actor_link) : contribution :=
  let sector_matches := List.filter (fun a => truthy (ac_sector_match a)) actor in
  let matched := match sector_matches with [] => false | _ => true end in
  match (if matched then sector_matches else actor) with
  | [] => (f0, None)
  | a :: rest =>
      let best := max_by (fun a => _confidence_fraction (ac_confidence a)) a rest in
      let bonus := if matched then lit (3#10) else f0 in
      contribute (capped_points CAP_ACTOR (fadd (_confidence_fraction (ac_confidence best)) bonus))
        (if matched then or_default (ac_name best) "An actor" +:+
           " is historically associated with targeting your declared sector. Verify relevance to your environment."
         else "Linked to " +:+ or_default (ac_name best) "an actor" +:+ " via " +:+ or_default (ac_source best) "OTX" +:+ ".")
  end.

Definition _format_vendor_name (vendor : string) : string :=
  let v := replace_from 0 "_" " " (strip vendor) in
  if nonempty v then title_from false v else "This product vendor".

Definition _temporal_contribution (temporal : list anomaly) : res contribution :=
  match temporal with
  | [] => Ok (f0, None)
  | t :: rest =>
      let best := max_by an_score t rest in
      let! q := fdiv (an_score best) (Fin 5) in
      Ok (contribute (capped_points CAP_TEMPORAL q)
            ("Unusual CVE volume for " +:+ _format_vendor_name (text_or (an_vendor best)) +:+ ": "
             +:+ str_of_Z (an_week_count best) +:+ " published this week (~" +:+ fmt_fixed 1 (an_score best)
             +:+ "× the normal weekly average of " +:+ fmt_fixed 1 (an_average best) +:+ ")."))
  end.

Record component := mkComponent { c_signal : string; c_points : fl; c_sentence : option string }.
Record priority := mkPriority { p_score : fl; p_components : list component }.
Record findings := mkFindings { campaigns : list campaign; infrastructure : list infra; actor : list actor_link; temporal : list anomaly }.

(** [sort(key=points, reverse=True)], which keeps the order of equal points. *)
Fixpoint insert_desc (c : component) (l : list component) : list component :=
  match l with [] => [c] | h :: t => if flt (c_points c) (c_points h) then h :: insert_desc c t else c :: l end.

Definition compute_correlation_priority (r : findings) : res priority :=
  let c := _campaign_contribution (campaigns r) in
  let! i := _infrastructure_contribution (infrastructure r) in
  let a := _actor_contribution (actor r) in
  let! t := _temporal_contribution (temporal r) in
  let contributions := [("campaign", c); ("infrastructure", i); ("actor", a); ("temporal", t)] in
  let total := fold_left (fun s e => fadd s (fst (snd e))) contributions f0 in
  let components := flat_map (fun e => if flt f0 (fst (snd e)) then [mkComponent (fst e) (fst (snd e)) (snd (snd e))] else []) contributions in
  Ok (mkPriority (round_nd (fmin (Fin 100) total) 1) (fold_right insert_desc [] components)).

(** ** Lemmas *)

Lemma rhe_le_int q z : q <= inject_Z z -> (rhe q <= z)%Z.
Proof. intros H. rewrite <- (rhe_inject z). by apply rhe_mono. Qed.

Lemma rhe_ge_int q z : inject_Z z <= q -> (z <= rhe q)%Z.
Proof. intros H. rewrite <- (rhe_inject z). by apply rhe_mono. Qed.

Lemma div10_bounds k cap : (0 <= k <= cap * 10)%Z -> 0 <= inject_Z k / inject_Z 10 <= inject_Z cap.
Proof.
  intros [H1 H2]. rewrite Zle_Qle in H1, H2. rewrite inject_Z_mult in H2. change (inject_Z 0) with 0 in H1. split.
  - apply Qle_shift_div_l; [done|]. lra.
  - apply Qle_shift_div_r; [done|]. exact H2.
Qed.

(** Rounding to one decimal stays within an interval with integer bounds. *)
Lemma round_nd1_within cap q : (0 <= cap <= 1000)%Z -> 0 <= q <= inject_Z cap -> within 0 (inject_Z cap) (round_nd (Fin q) 1).
Proof.
  intros Hc [L U]. unfold round_nd. change (10 ^ 1)%Z with 10%Z.
  assert (B : (0 <= rhe (q * inject_Z 10) <= cap * 10)%Z).
  { split; [apply rhe_ge_int; change (inject_Z 0) with 0; change (inject_Z 10) with 10; lra|].
    apply rhe_le_int. rewrite inject_Z_mult. apply Qmult_le_compat_r; [exact U|discriminate]. }
  pose proof (div10_bounds _ _ B) as [D1 D2].
  assert (C : inject_Z cap <= 1000) by (change 1000 with (inject_Z 1000); rewrite <- Zle_Qle; lia).
  assert (P52 : 1000 <= inject_Z (2 ^ 52)) by (vm_compute; discriminate).
  apply mk_within; [lra|]. split; [by apply rnd_nonneg|].
  apply rnd_le_int; [lia|exact D2].
Qed.

Lemma round_nd1_nonpos q : q <= 0 -> fle (round_nd (Fin q) 1) f0 = true.
Proof.
  intros L. unfold round_nd, mk. change (10 ^ 1)%Z with 10%Z.
  assert (B : (rhe (q * inject_Z 10) <= 0)%Z) by (apply rhe_le_int; change (inject_Z 0) with 0; change (inject_Z 10) with 10; lra).
  assert (D : inject_Z (rhe (q * inject_Z 10)) / inject_Z 10 <= 0).
  { apply Qle_shift_div_r; [done|]. rewrite Qmult_0_l. change 0 with (inject_Z 0). by rewrite <- Zle_Qle. }
  apply rnd_nonpos in D. set (r := rnd _) in *.
  destruct (Qle_bool fl_max_pow r) eqn:E1.
  - apply Qle_bool_iff in E1. exfalso. assert (0 < fl_max_pow) by (vm_compute; reflexivity). lra.
  - destruct (Qle_bool r (- fl_max_pow)); [done|]. by apply fle_fin.
Qed.

(** Whatever the signal's strength, even an infinity or NaN, its points lie
    between 0 and the cap. *)
Lemma contribute_within cap x s : (0 < cap <= 100)%Z -> within 0 (inject_Z cap) (fst (contribute (capped_points cap x) s)).
Proof.
  intros Hc. assert (Z0 : within 0 (inject_Z cap) f0).
  { exists 0. split; [done|]. split; [lra|]. change 0 with (inject_Z 0). rewrite <- Zle_Qle. lia. }
  assert (C1 : 0 < inject_Z cap) by (change 0 with (inject_Z 0); rewrite <- Zlt_Qlt; lia).
  assert (C2 : inject_Z cap <= 100) by (change 100 with (inject_Z 100); rewrite <- Zle_Qle; lia).
  assert (P52 : 100 <= inject_Z (2 ^ 52)) by (vm_compute; discriminate).
  assert (Main : within 0 (inject_Z cap) (capped_points cap x) \/ fle (capped_points cap x) f0 = true).
  { unfold capped_points, fmin.
    assert (One : within 0 (inject_Z cap) (round_nd (fmul (Fin (inject_Z cap)) f1) 1)).
    { assert (E : fmul (Fin (inject_Z cap)) f1 = Fin (rnd (inject_Z cap * 1))) by (apply mk_fin; lra).
      rewrite E. apply round_nd1_within; [lia|]. split; [apply rnd_nonneg; lra|apply rnd_le_int; [lia|lra]]. }
    destruct x as [q| | |]; try (by left).
    - destruct (flt (Fin q) f1) eqn:F; [|by left]. apply flt_fin in F. destruct (Qlt_le_dec q 0) as [N|P].
      + right. assert (M : inject_Z cap * q <= 0).
        { rewrite <- (Qmult_0_r (inject_Z cap)). rewrite !(Qmult_comm (inject_Z cap)). apply Qmult_le_compat_r; lra. }
        cbn [fmul]. unfold mk. apply rnd_nonpos in M. set (r := rnd _) in *.
        destruct (Qle_bool fl_max_pow r) eqn:E1.
        * apply Qle_bool_iff in E1. exfalso. assert (0 < fl_max_pow) by (vm_compute; reflexivity). lra.
        * destruct (Qle_bool r (- fl_max_pow)); [done|]. by apply round_nd1_nonpos.
      + left. assert (M : inject_Z cap * q <= inject_Z cap).
        { rewrite <- (Qmult_1_r (inject_Z cap)) at 2. rewrite !(Qmult_comm (inject_Z cap)). apply Qmult_le_compat_r; lra. }
        assert (M0 : 0 <= inject_Z cap * q) by (apply Qmult_le_0_compat; lra).
        cbn [fmul]. rewrite mk_fin by lra. apply round_nd1_within; [lia|]. split; [by apply rnd_nonneg|apply rnd_le_int; [lia|exact M]].
    - right. change (flt NInf f1) with true. cbn iota. unfold fmul, inf_of_sign.
      assert (K : Qcompare 0 (inject_Z cap) = Lt) by (by apply Qlt_alt). by rewrite K. }
  unfold contribute. destruct (fle (capped_points cap x) f0) eqn:F; [exact Z0|]. cbn [fst].
  destruct Main as [M|M]; [exact M|]. congruence.
Qed.

Lemma fadd_int_within a b x y :
  (0 <= a <= 1000)%Z -> (0 <= b <= 1000)%Z -> within 0 (inject_Z a) x -> within 0 (inject_Z b) y -> within 0 (inject_Z (a + b)) (fadd x y).
Proof.
  intros Ha Hb X Y. rewrite inject_Z_plus.
  assert (A : inject_Z a <= 1000) by (change 1000 with (inject_Z 1000); rewrite <- Zle_Qle; lia).
  assert (B : inject_Z b <= 1000) by (change 1000 with (inject_Z 1000); rewrite <- Zle_Qle; lia).
  assert (P52 : 2000 <= inject_Z (2 ^ 52)) by (vm_compute; discriminate).
  eapply within_weaken; [apply (fadd_within 0 (inject_Z a) 0 (inject_Z b)); [exact X|exact Y|lra|lra]| |].
  - apply rnd_nonneg. lra.
  - rewrite <- inject_Z_plus. apply rnd_le_int; [lia|apply Qle_refl].
Qed.

Definition component_ok (c : component) : Prop := within 0 40 (c_points c) /\ flt f0 (c_points c) = true.
Definition not_above (a b : component) : Prop := flt (c_points a) (c_points b) = false.

Lemma insert_desc_perm c l : insert_desc c l ≡ₚ c :: l.
Proof. induction l as [|h t IH]; [done|]. cbn. destruct (flt _ _); [|done]. rewrite IH. apply perm_swap. Qed.

Lemma sort_desc_perm l : fold_right insert_desc [] l ≡ₚ l.
Proof. induction l as [|c l IH]; [done|]. cbn. by rewrite insert_desc_perm, IH. Qed.

Lemma sort_desc_forall (P : component -> Prop) l : Forall P l -> Forall P (fold_right insert_desc [] l).
Proof. intros F. by rewrite sort_desc_perm. Qed.

Lemma insert_desc_sorted c l :
  component_ok c -> Forall component_ok l -> StronglySorted not_above l -> StronglySorted not_above (insert_desc c l).
Proof.
  intros C F S. induction S as [|h t St IH Fh]; [by repeat constructor|]. cbn. apply Forall_cons in F as [H F].
  destruct (flt (c_points c) (c_points h)) eqn:E.
  - constructor; [by apply IH|]. apply List.Forall_forall. intros x I. apply (Permutation_in _ (insert_desc_perm c t)) in I as [<-|I].
    + unfold not_above. destruct C as [(p & Ec & _) _], H as [(q & Eh & _) _]. rewrite Ec, Eh in E. rewrite Ec, Eh.
      apply flt_fin in E. apply flt_fin_false. lra.
    + rewrite List.Forall_forall in Fh. auto.
  - constructor; [by constructor|]. constructor; [exact E|]. apply List.Forall_forall. intros x I.
    rewrite List.Forall_forall in Fh. specialize (Fh x I). rewrite Forall_forall in F.
    destruct (F x) as [(r & Er & _) _]; [by apply list_elem_of_In|].
    destruct C as [(p & Ec & _) _], H as [(q & Eh & _) _]. unfold not_above in *.
    rewrite Ec, Eh in E. rewrite Eh, Er in Fh. rewrite Ec, Er. apply flt_fin_false in E, Fh. apply flt_fin_false. lra.
Qed.

Lemma sort_desc_sorted l : Forall component_ok l -> StronglySorted not_above (fold_right insert_desc [] l).
Proof.
  induction l as [|c l IH]; [constructor|]. intros F. apply Forall_cons in F as [C F]. cbn. apply insert_desc_sorted; [exact C| |by apply IH].
  by apply sort_desc_forall.
Qed.

(** ** Alias families *)

Section families.
Context (json_loads : string -> option pyval) (py_str : pyval -> string).

Abbreviation family_of := (family_of json_loads py_str).
Abbreviation add_family := (add_family json_loads py_str).

Lemma add_tokens_lookup family index token :
  set_fold (add_token family) index family !! token =
  if decide (token ∈ family) then Some (match index !! token with Some s => s | None => ∅ end ∪ family) else index !! token.
Proof.
  set (P := fun (i : alias_index) (done : gset string) => forall t, i !! t =
    if decide (t ∈ done) then Some (match index !! t with Some s => s | None => ∅ end ∪ family) else index !! t).
  assert (H : P (set_fold (add_token family) index family) family); [|exact (H token)].
  apply (set_fold_ind_L (fun i done => P i done)).
  - intros t. rewrite decide_False by set_solver. done.
  - intros x done i N IH t. unfold add_token. destruct (decide (t = x)) as [->|Ne].
    + rewrite lookup_insert_eq, decide_True by set_solver. rewrite (IH x), decide_False by done. done.
    + rewrite lookup_insert_ne by done. rewrite (IH t). destruct (decide (t ∈ done)); [rewrite decide_True by set_solver|rewrite decide_False by set_solver]; done.
Qed.

Definition covers (index : alias_index) (family : gset string) : Prop :=
  forall t, t ∈ family -> exists s, index !! t = Some s /\ family ⊆ s.

Lemma add_family_covers index row : covers (add_family index row) (family_of row).
Proof.
  intros t I. unfold CorrScore.add_family. rewrite add_tokens_lookup, decide_True by done. eexists. split; [done|]. set_solver.
Qed.

Lemma add_family_keeps index row family : covers index family -> covers (add_family index row) family.
Proof.
  intros C t I. destruct (C t I) as (s & E & S). unfold CorrScore.add_family. rewrite add_tokens_lookup, E.
  destruct (decide _); eexists; (split; [done|]); set_solver.
Qed.

Lemma families_cover groups index row :
  In row groups -> covers (fold_left add_family groups index) (family_of row).
Proof.
  revert index. induction groups as [|g groups IH]; intros index I; [done|]. cbn [fold_left]. destruct I as [->|I]; [|by apply IH].
  clear IH. assert (C : covers (add_family index row) (family_of row)) by apply add_family_covers.
  revert C. generalize (add_family index row). induction groups as [|g groups IH]; intros i C; [done|].
  cbn [fold_left]. apply IH. by apply add_family_keeps.
Qed.
End families.

(** ** Contributions *)

Definition contribution_ok (cap : Z) (c : contribution) : Prop :=
  within 0 (inject_Z cap) (fst c) /\ (fle (fst c) f0 = false -> snd c <> None).

Lemma no_contribution_ok cap : (0 <= cap)%Z -> contribution_ok cap (f0, None).
Proof.
  intros H. split; [|done]. exists 0. split; [done|]. split; [lra|]. change 0 with (inject_Z 0). by rewrite <- Zle_Qle.
Qed.

Lemma contribute_ok cap x s : (0 < cap <= 100)%Z -> contribution_ok cap (contribute (capped_points cap x) s).
Proof.
  intros H. split; [by apply contribute_within|]. unfold contribute. by destruct (fle (capped_points cap x) f0) eqn:F.
Qed.

Lemma campaign_ok l : contribution_ok 40 (_campaign_contribution l).
Proof. destruct l; [by apply no_contribution_ok|by apply contribute_ok]. Qed.

Lemma infrastructure_ok l c : _infrastructure_contribution l = Ok c -> contribution_ok 25 c.
Proof.
  destruct l; intros E; [injection E as <-; by apply no_contribution_ok|].
  unfold _infrastructure_contribution in E. inv_bind E. injection E as <-. by apply contribute_ok.
Qed.

Lemma actor_ok l : contribution_ok 20 (_actor_contribution l).
Proof. unfold _actor_contribution. case_match; [by apply no_contribution_ok|by apply contribute_ok]. Qed.

Lemma temporal_ok l c : _temporal_contribution l = Ok c -> contribution_ok 15 c.
Proof.
  destruct l; intros E; [injection E as <-; by apply no_contribution_ok|].
  unfold _temporal_contribution in E. inv_bind E. injection E as <-. by apply contribute_ok.
Qed.

(** A contribution that counts becomes one well-formed component. *)
Lemma component_of_ok cap n (c : contribution) :
  (cap <= 40)%Z -> contribution_ok cap c ->
  Forall (fun c => component_ok c /\ c_sentence c <> None) (if flt f0 (fst c) then [mkComponent n (fst c) (snd c)] else []).
Proof.
  intros Hc [W S]. destruct (flt f0 (fst c)) eqn:F; [|constructor]. repeat constructor; [|exact F|].
  - eapply within_weaken; [exact W|lra|]. change 40 with (inject_Z 40). by rewrite <- Zle_Qle.
  - apply S. destruct W as (q & Eq & _). rewrite Eq in F |- *. apply flt_fin in F. by apply fle_fin_false.
Qed.

(** ** Properties *)

(** Names of one MITRE group are one family: an OTX adversary and a technique
    actor that a group lists under any of its names never raise an attribution
    conflict, wherever the group's row stands and whatever other rows add. *)
Theorem aliases_never_conflict json_loads py_str groups row a b others :
  In row groups -> In a (group_names json_loads py_str row) -> In b (group_names json_loads py_str row) ->
  attribution_conflict a (others ++ [b]) (build_alias_families json_loads py_str groups) = false.
Proof.
  intros R Ia Ib. unfold attribution_conflict.
  assert (Ne : forall n, In n (group_names json_loads py_str row) -> nonempty n = true /\ strip n = n).
  { intros n I. unfold group_names in I. apply filter_In in I as [I N]. split; [done|].
    destruct I as [<-|I]; [apply strip_idemp|]. apply in_map_iff in I as (x & <- & _). apply strip_idemp. }
  destruct (Ne a Ia) as [Na Sa], (Ne b Ib) as [Nb Sb].
  assert (F : forall n, In n (group_names json_loads py_str row) -> normalize_actor_token n ∈ family_of json_loads py_str row).
  { intros n I. unfold family_of. apply elem_of_list_to_set, list_elem_of_In, in_map, I. }
  assert (S : actors_in_same_family a b (build_alias_families json_loads py_str groups) = true).
  { unfold actors_in_same_family. assert (L : forall n, nonempty n = true -> strip n = n -> nonempty (normalize_actor_token n) = true).
    { intros n N E. unfold normalize_actor_token. rewrite E. by destruct n. }
    rewrite !L by done. cbn [negb orb]. case_goal; [done|]. apply negb_true_iff, bool_decide_eq_false.
    pose proof (families_cover json_loads py_str groups ∅ row R) as C.
    destruct (C _ (F a Ia)) as (sa & Ea & Ca), (C _ (F b Ib)) as (sb & Eb & Cb).
    unfold build_alias_families, family_in. rewrite Ea, Eb. pose proof (F a Ia). set_solver. }
  rewrite existsb_app. cbn. rewrite Nb, S. cbn. by rewrite orb_true_r, andb_false_r.
Qed.

(** The family test starts with a substring test on the names.  Two different
    groups, one whose name begins the other's as [APT1] does [APT10]'s, never
    conflict, whatever the alias table says. *)
Theorem name_prefix_hides_conflict a suffix index :
  nonempty (normalize_actor_token a) = true -> strip (a +:+ suffix) = a +:+ suffix -> strip a = a ->
  attribution_conflict a [a +:+ suffix] index = false.
Proof.
  intros N S Sa. unfold attribution_conflict, actors_in_same_family.
  assert (E : normalize_actor_token (a +:+ suffix) = normalize_actor_token a +:+ lower suffix).
  { unfold normalize_actor_token. by rewrite S, Sa, lower_app. }
  assert (In1 : str_in (normalize_actor_token a) (normalize_actor_token a +:+ lower suffix) = true).
  { assert (Pf : forall x y, startswith (x +:+ y) x = true).
    { intros x y. unfold startswith. induction x as [|c x IH]; [by destruct y|].
      rewrite app_cons. cbn [String.prefix]. destruct (ascii_dec c c); [exact IH|done]. }
    specialize (Pf (normalize_actor_token a) (lower suffix)). revert Pf. generalize (normalize_actor_token a +:+ lower suffix).
    intros h Pf. destruct h as [|c h]; cbn [str_in]; unfold startswith in Pf; by rewrite Pf. }
  cbn [existsb]. rewrite N, E, In1. assert (N2 : nonempty (normalize_actor_token a +:+ lower suffix) = true) by (by destruct (normalize_actor_token a)).
  rewrite N2. assert (N3 : nonempty a = true) by (by destruct a). assert (N4 : nonempty (a +:+ suffix) = true) by (by destruct a).
  by rewrite N3, N4.
Qed.

(** The combined priority: on every result it lies between 0 and 100, and the
    components are in decreasing order, each positive, at most 40 points, and with
    the sentence that explains it. *)
Theorem correlation_priority_bounded r p :
  compute_correlation_priority r = Ok p ->
  within 0 100 (p_score p) /\ StronglySorted not_above (p_components p) /\
  Forall (fun c => component_ok c /\ c_sentence c <> None) (p_components p).
Proof.
  intros H. unfold compute_correlation_priority in H. inv_bind H. inv_bind H. injection H as <-.
  pose proof (campaign_ok (campaigns r)) as C1. pose proof (actor_ok (actor r)) as C3.
  apply infrastructure_ok in E. apply temporal_ok in E0.
  assert (All : Forall (fun c => component_ok c /\ c_sentence c <> None)
    (flat_map (fun e : string * contribution => if flt f0 (fst (snd e)) then [mkComponent (fst e) (fst (snd e)) (snd (snd e))] else [])
      [("campaign", _campaign_contribution (campaigns r)); ("infrastructure", v); ("actor", _actor_contribution (actor r)); ("temporal", v0)])).
  { cbn [flat_map fst snd]. repeat (apply Forall_app; split); [| | | |constructor]; (eapply component_of_ok; [|eassumption]); lia. }
  assert (T : within 0 (inject_Z 100) (fadd (fadd (fadd (fadd f0 (fst (_campaign_contribution (campaigns r)))) (fst v)) (fst (_actor_contribution (actor r)))) (fst v0))).
  { apply (fadd_int_within 85 15); [lia|lia| |apply E0]. apply (fadd_int_within 65 20); [lia|lia| |apply C3].
    apply (fadd_int_within 40 25); [lia|lia| |apply E]. apply (fadd_int_within 0 40); [lia|lia| |apply C1].
    exists 0. split; [done|]. split; apply Qle_refl. }
  assert (Sc : within 0 100 (round_nd (fmin (Fin 100) (fadd (fadd (fadd (fadd f0 (fst (_campaign_contribution (campaigns r)))) (fst v)) (fst (_actor_contribution (actor r)))) (fst v0))) 1)).
  { destruct T as (q & -> & Hq). change 100 with (inject_Z 100) in *. unfold fmin. destruct (flt (Fin q) (Fin (inject_Z 100))) eqn:F.
    - apply round_nd1_within; [lia|]. lra.
    - apply round_nd1_within; [lia|]. split; [discriminate|apply Qle_refl]. }
  split_and!; [exact Sc| |by apply sort_desc_forall].
  apply sort_desc_sorted. eapply Forall_impl; [exact All|]. by intros x [? _].
Qed.

(** ** Concrete inputs *)

Definition apt29 : group_row := mkGroup (Some "APT29") (AliasList [PStr "Cozy Bear"; PStr " NOBELIUM "]).
Definition sample_findings : findings :=
  mkFindings [mkCampaign (Some "medium") (Some "Pulse") (PBool true) PNone] [mkInfra (Some "high") (Some "CVE-2024-2") 3] []
    [mkAnomaly (Fin (7 # 2)) (Some "acme_corp") 12 (Fin (34 # 10))].
Definition no_json (s : string) : option pyval := None.
Definition no_str (v : pyval) : string := "".

Lemma aliases_never_conflict_witness :
  attribution_conflict "Cozy Bear" ["FIN7"; "NOBELIUM"] (build_alias_families no_json no_str [mkGroup (Some "FIN7") AliasOther; apt29]) = false.
Proof.
  apply (aliases_never_conflict no_json no_str [mkGroup (Some "FIN7") AliasOther; apt29] apt29 "Cozy Bear" "NOBELIUM" ["FIN7"]);
    vm_compute; auto.
Defined.

Lemma name_prefix_hides_conflict_witness :
  attribution_conflict "APT1" ["APT10"]
    (build_alias_families no_json no_str [mkGroup (Some "APT1") AliasOther; mkGroup (Some "APT10") AliasOther]) = false.
Proof. apply (name_prefix_hides_conflict "APT1" "0"); reflexivity. Defined.

Lemma correlation_priority_bounded_witness :
  exists p, compute_correlation_priority sample_findings = Ok p /\ within 0 100 (p_score p).
Proof.
  destruct (compute_correlation_priority sample_findings) as [p|e] eqn:E; [|vm_compute in E; discriminate E].
  exists p. split; [done|]. by apply (correlation_priority_bounded sample_findings p).
Defined.
