(* ===== verification/Sha256.v ===== *)
(** * Sha256: hashlib.sha256 and hmac

    The digest the identifiers of pulse families and campaigns are cut from, and
    the keyed digest that signs session cookies.  Words are 32-bit integers kept
    below [2^32]; texts are their UTF-8 bytes. *)

From S2P Require Import Prelude PyStr PyNet.
Open Scope string_scope.
Open Scope Z_scope.

Definition word (z : Z) : Z := Z.land z 4294967295.
Definition add32 (a b : Z) : Z := word (a + b).
Definition rotr (n x : Z) : Z := Z.lor (Z.shiftr x n) (word (Z.shiftl x (32 - n))).

(** The constants are cut from irrational numbers: the first 32 bits behind the
    point of the cube roots of the first 64 primes, and of the square roots of
    the first 8. *)
Definition is_prime (n : Z) : bool :=
  forallb (fun d => negb (n mod Z.of_nat d =? 0)) (seq 2 (Z.to_nat (Z.sqrt n) - 1)).

Definition small_primes : list Z := List.filter is_prime (map Z.of_nat (seq 2 310)).

(** The largest [r + b] whose cube is at most [n], adding [2^bits] downwards. *)
Fixpoint cube_root (bits : nat) (n r : Z) : Z :=
  match bits with
  | O => r
  | S b => let r' := r + 2 ^ Z.of_nat b in cube_root b n (if r' * r' * r' <=? n then r' else r)
  end.

Definition round_constants : list Z :=
  Eval vm_compute in map (fun p => word (cube_root 40 (p * 2 ^ 96) 0)) small_primes.

Definition initial_state : list Z :=
  Eval vm_compute in map (fun p => word (Z.sqrt (p * 2 ^ 64))) (firstn 8 small_primes).

Definition sigma0 (x : Z) : Z := Z.lxor (Z.lxor (rotr 7 x) (rotr 18 x)) (Z.shiftr x 3).
Definition sigma1 (x : Z) : Z := Z.lxor (Z.lxor (rotr 17 x) (rotr 19 x)) (Z.shiftr x 10).
Definition Sigma0 (x : Z) : Z := Z.lxor (Z.lxor (rotr 2 x) (rotr 13 x)) (rotr 22 x).
Definition Sigma1 (x : Z) : Z := Z.lxor (Z.lxor (rotr 6 x) (rotr 11 x)) (rotr 25 x).
Definition Ch (x y z : Z) : Z := Z.lxor (Z.land x y) (Z.land (Z.lxor x 4294967295) z).
Definition Maj (x y z : Z) : Z := Z.lxor (Z.lxor (Z.land x y) (Z.land x z)) (Z.land y z).

(** The message schedule, newest word first. *)
Fixpoint extend (n : nat) (w : list Z) : list Z :=
  match n with
  | O => w
  | S n => extend n (add32 (add32 (sigma1 (nth 1 w 0)) (nth 6 w 0)) (add32 (sigma0 (nth 14 w 0)) (nth 15 w 0)) :: w)
  end.

Definition round (st : list Z) (kw : Z * Z) : list Z :=
  match st with
  | [a; b; c; d; e; f; g; h] =>
      let t1 := add32 (add32 (add32 h (Sigma1 e)) (add32 (Ch e f g) (fst kw))) (snd kw) in
      let t2 := add32 (Sigma0 a) (Maj a b c) in
      [add32 t1 t2; a; b; c; add32 d t1; e; f; g]
  | _ => st
  end.

Definition compress (st block : list Z) : list Z :=
  zip_with add32 st (fold_left round (combine round_constants (rev (extend 48 (rev block)))) st).

Fixpoint bytes_of (s : string) : list Z :=
  match s with "" => [] | String c t => Z.of_N (code c) :: bytes_of t end.

(** Big-endian words, as long as four bytes are left. *)
Fixpoint words (l : list Z) : list Z :=
  match l with a :: b :: c :: d :: t => ((a * 256 + b) * 256 + c) * 256 + d :: words t | _ => [] end.

Definition padded (msg : list Z) : list Z :=
  let n := Z.of_nat (length msg) in
  words (msg ++ [128] ++ repeat 0 (Z.to_nat ((55 - n) mod 64))) ++ [Z.shiftr (8 * n) 32; word (8 * n)].

Fixpoint blocks (fuel : nat) (w : list Z) : list (list Z) :=
  match fuel with O => [] | S f => match w with [] => [] | _ => firstn 16 w :: blocks f (skipn 16 w) end end.

Definition digest (msg : list Z) : list Z :=
  let w := padded msg in fold_left compress (blocks (length w) w) initial_state.

Definition hex_word (z : Z) : string :=
  fold_right (fun k acc => String (hex_digit (Z.land (Z.shiftr z k) 15)) acc) "" [28; 24; 20; 16; 12; 8; 4; 0].

Definition hex_words (l : list Z) : string := fold_right (fun w acc => hex_word w +:+ acc) "" l.

(** [hashlib.sha256(s.encode()).hexdigest()] *)
Definition sha256_hex (s : string) : string := hex_words (digest (bytes_of s)).

(** The eight words of a digest as bytes. *)
Definition bytes_of_words (l : list Z) : list Z :=
  flat_map (fun w => map (fun k => Z.land (Z.shiftr w k) 255) [24; 16; 8; 0]) l.

(** [hmac.new(key.encode(), msg.encode(), hashlib.sha256).hexdigest()] *)
Definition hmac_sha256_hex (key msg : string) : string :=
  let k := bytes_of key in
  let k := if (64 <? length k)%nat then bytes_of_words (digest k) else k in
  let k := (k ++ repeat 0 (64 - length k))%list in
  let inner := digest (map (Z.lxor 54) k ++ bytes_of msg) in
  hex_words (digest (map (Z.lxor 92) k ++ bytes_of_words inner)).

Example sha256_abc : sha256_hex "abc" = "ba7816bf8f01cfea414140de5dae2223b00361a396177a9cb410ff61f20015ad".
Proof. vm_compute. reflexivity. Qed.

Example sha256_two_blocks :
  sha256_hex "abcdbcdecdefdefgefghfghighijhijkijkljklmklmnlmnomnopnopq" = "248d6a61d20638b8e5c026930c3e6039a33ce45964ff2167f6ecedd419db06c1".
Proof. vm_compute. reflexivity. Qed.

Example hmac_fox :
  hmac_sha256_hex "key" "The quick brown fox jumps over the lazy dog"
  = "f7bc83f430538424b13298e6aa6fb143ef4d59a14946175997479dbc2d1a3cd8".
Proof. vm_compute. reflexivity. Qed.

(** ** The alphabet of a digest *)

Definition is_hex_lower (c : ascii) : bool := is_digit c || in_range 97 102 c.

Lemma hex_digit_hex n : 0 <= n < 16 -> is_hex_lower (hex_digit n) = true.
Proof.
  intros B. exact (zrange_check (fun k => is_hex_lower (hex_digit k)) 16 n eq_refl B).
Qed.

Lemma hex_word_hex z : sforall is_hex_lower (hex_word z) = true.
Proof.
  unfold hex_word. assert (forall l, sforall is_hex_lower (fold_right (fun k acc =>
      String (hex_digit (Z.land (Z.shiftr z k) 15)) acc) "" l) = true) as H; [|apply H].
  induction l as [|k l IH]; [done|]. cbn [fold_right sforall]. rewrite IH, andb_true_r. apply hex_digit_hex.
  change 15 with (Z.ones 4). rewrite Z.land_ones by lia. apply Z.mod_pos_bound. lia.
Qed.

Lemma hex_words_hex l : sforall is_hex_lower (hex_words l) = true.
Proof.
  induction l as [|w l IH]; [done|]. unfold hex_words. cbn [fold_right]. rewrite sforall_app, hex_word_hex. exact IH.
Qed.
