(* ===== verification/UnionFind.v ===== *)
(** * UnionFind: the disjoint sets of correlation/pulse_families.py

    [_union_find_parent] and [_union_find_merge] on the parent dictionary, with
    the path halving they do, and the partition they maintain: [represents]
    reads the root of a node off the dictionary, [joined] is the relation the
    merges done so far generate. *)

From stdpp Require Import relations.
From S2P Require Import Prelude.
Open Scope string_scope.

Abbreviation parents := (gmap string string).

(** The [while] loop.  [KeyError] is Python's; [RuntimeError] marks the end of
    the fuel, which [_union_find_parent_ok] shows is never reached. *)
Fixpoint climb (fuel : nat) (parent : parents) (node : string) : res (parents * string) :=
  match fuel with
  | O => Raise RuntimeError
  | S fuel =>
      match parent !! node with
      | None => Raise KeyError
      | Some p =>
          if decide (p = node) then Ok (parent, node)
          else match parent !! p with
               | None => Raise KeyError
               | Some g => climb fuel (<[node := g]> parent) g
               end
      end
  end.

Definition setdefault (parent : parents) (node : string) : parents :=
  match parent !! node with Some _ => parent | None => <[node := node]> parent end.

Definition _union_find_parent (parent : parents) (node : string) : res (parents * string) :=
  let parent := setdefault parent node in climb (S (size parent)) parent node.

Definition _union_find_merge (parent : parents) (a b : string) : res parents :=
  let! ra := _union_find_parent parent a in
  let! rb := _union_find_parent (fst ra) b in
  if decide (snd ra = snd rb) then Ok (fst rb) else Ok (<[snd rb := snd ra]> (fst rb)).

(** ** Roots *)

(** [node] reaches its root in [n] steps. *)
Inductive root_at (parent : parents) : nat -> string -> string -> Prop :=
| root_here x : parent !! x = Some x -> root_at parent 0 x x
| root_up n x p r : parent !! x = Some p -> p <> x -> root_at parent n p r -> root_at parent (S n) x r.

(** Every key has a root: the values are keys and there is no cycle but a root's own. *)
Definition forest (parent : parents) : Prop :=
  forall x, is_Some (parent !! x) -> exists n r, root_at parent n x r.

Definition represents (parent : parents) (x r : string) : Prop :=
  (exists n, root_at parent n x r) \/ (parent !! x = None /\ r = x).

Lemma root_det parent n m x r s : root_at parent n x r -> root_at parent m x s -> n = m /\ r = s.
Proof.
  intros H; revert m s; induction H as [x E|n x p r E N H IH]; intros m s K.
  - destruct K as [x E'|m x p s E' N' K]; [done|congruence].
  - destruct K as [x E'|m x p' s E' N' K]; [congruence|].
    replace p' with p in K by congruence. by destruct (IH _ _ K) as [-> ->].
Qed.

Lemma root_key parent n x r : root_at parent n x r -> is_Some (parent !! x).
Proof. destruct 1; eauto. Qed.

Lemma root_root parent n x r : root_at parent n x r -> parent !! r = Some r.
Proof. induction 1; done. Qed.

Lemma represents_det parent x r s : represents parent x r -> represents parent x s -> r = s.
Proof.
  intros [[n H]|[E ->]] [[m K]|[E' ->]]; [by eapply root_det| | |done].
  - apply root_key in H as [? H]. congruence.
  - apply root_key in K as [? K]. congruence.
Qed.

Lemma represents_total parent x : forest parent -> exists r, represents parent x r.
Proof.
  intros F. destruct (parent !! x) as [p|] eqn:E.
  - destruct (F x) as (n & r & H); [eauto|]. exists r; left; eauto.
  - exists x; by right.
Qed.

(** The path to the root is shorter than the dictionary. *)
Lemma root_path parent n x r :
  root_at parent n x r ->
  exists path, length path = S n /\ NoDup path /\
    forall y, y ∈ path -> is_Some (parent !! y) /\ exists k, (k <= n)%nat /\ root_at parent k y r.
Proof.
  induction 1 as [x E|n x p r E N H (path & L & ND & P)].
  - exists [x]. split; [done|]. split; [apply NoDup_singleton|].
    intros y ->%list_elem_of_singleton. split; [eauto|]. exists 0%nat. split; [lia|by constructor].
  - exists (x :: path). split; [simpl; lia|]. split.
    + apply NoDup_cons; split; [|done]. intros IN. destruct (P x IN) as (_ & k & Le & K).
      destruct (root_det _ _ _ _ _ _ (root_up _ _ _ _ _ E N H) K). lia.
    + intros y [->|IN]%elem_of_cons.
      * split; [eauto|]. exists (S n). split; [lia|by econstructor].
      * destruct (P y IN) as (S' & k & Le & K). split; [done|]. exists k. split; [lia|done].
Qed.

Lemma root_bound parent n x r : root_at parent n x r -> (n < size parent)%nat.
Proof.
  intros H. destruct (root_path _ _ _ _ H) as (path & L & ND & P).
  pose proof (size_dom (M:=gmap string) (D:=gset string) parent) as SZ. rewrite <-SZ. enough (list_to_set path ⊆ dom parent) as Sub.
  { apply subseteq_size in Sub. rewrite size_list_to_set in Sub by done. lia. }
  intros y Y%elem_of_list_to_set. apply elem_of_dom. by apply P.
Qed.

(** ** Path halving *)

Section halving.
Context (parent : parents) (node p g : string).
Hypothesis to_p : parent !! node = Some p.
Hypothesis up : p <> node.
Hypothesis to_g : parent !! p = Some g.

(** It shortens paths and moves no root. *)
Lemma halve_root n x r : root_at parent n x r -> exists m, (m <= n)%nat /\ root_at (<[node := g]> parent) m x r.
Proof using to_p up to_g.
  revert x; induction n as [n IH] using lt_wf_ind; intros x H.
  destruct (decide (x = node)) as [->|X].
  - destruct H as [y E|k y q r E N H]; [congruence|]. replace q with p in * by congruence.
    destruct H as [q' E'|k' q' g' r E' N' H].
    + replace g with q' in * by congruence. exists 1%nat. split; [lia|].
      eapply root_up; [by rewrite lookup_insert_eq|done|].
      constructor. by rewrite lookup_insert_ne.
    + replace g' with g in * by congruence. destruct (IH k' ltac:(lia) g H) as (m & Le & K).
      exists (S m). split; [lia|]. eapply root_up; [by rewrite lookup_insert_eq| |done].
      intros ->. pose proof (root_up _ _ _ _ _ E N (root_up _ _ _ _ _ E' N' H)) as H2.
      destruct (root_det _ _ _ _ _ _ H H2). lia.
  - destruct H as [y E|k y q r E N H].
    + exists 0%nat. split; [lia|]. constructor. by rewrite lookup_insert_ne.
    + destruct (IH k ltac:(lia) q H) as (m & Le & K). exists (S m). split; [lia|].
      eapply root_up; [by rewrite lookup_insert_ne|done|done].
Qed.
End halving.

Lemma lookup_halved (parent : parents) node p g x :
  parent !! node = Some p -> <[node := g]> parent !! x = None <-> parent !! x = None.
Proof.
  intros E. destruct (decide (x = node)) as [->|X]; [|by rewrite lookup_insert_ne].
  by rewrite lookup_insert_eq, E.
Qed.

(** What a call does to the dictionary: same keys, no path longer. *)
Definition compressed (parent parent' : parents) : Prop :=
  (forall x, parent' !! x = None <-> parent !! x = None) /\
  (forall n x r, root_at parent n x r -> exists m, (m <= n)%nat /\ root_at parent' m x r).

Lemma climb_ok fuel : forall parent n x r,
  root_at parent n x r -> (n < fuel)%nat ->
  exists parent', climb fuel parent x = Ok (parent', r) /\ compressed parent parent'.
Proof.
  induction fuel as [|fuel IH]; intros parent n x r H L; [lia|]. cbn [climb].
  destruct H as [x E|k x p r E N H]; rewrite E.
  - rewrite decide_True by done. exists parent. split; [done|]. split; [done|]. intros i y s Y. exists i. by split.
  - rewrite decide_False by done. destruct (root_key _ _ _ _ H) as [g G]. rewrite G.
    destruct (halve_root parent x p g E N G k p r H) as (m & Le & K).
    assert (exists j, (j <= k)%nat /\ root_at (<[x := g]> parent) j g r) as (j & Lj & J).
    { destruct K as [q E'|m q g' r E' N' K].
      - rewrite lookup_insert_ne in E' by done. assert (g = q) as -> by congruence. exists 0%nat. split; [lia|].
        constructor. by rewrite lookup_insert_ne.
      - rewrite lookup_insert_ne in E' by done. assert (g' = g) as -> by congruence. exists m. split; [lia|done]. }
    destruct (IH _ _ _ _ J ltac:(lia)) as (parent' & C & (C1 & C2)). exists parent'. split; [done|].
    split; [intros y; rewrite C1; by eapply lookup_halved|].
    intros i y s Y. destruct (halve_root parent x p g E N G i y s Y) as (i' & Li & Y').
    destruct (C2 _ _ _ Y') as (i'' & Li' & Y''). exists i''. split; [lia|done].
Qed.

Lemma compressed_forest parent parent' : compressed parent parent' -> forest parent -> forest parent'.
Proof.
  intros (K & R) F x X. destruct (F x) as (n & r & H).
  - destruct (parent !! x) eqn:E; [eauto|]. apply K in E. rewrite E in X. by destruct X.
  - destruct (R _ _ _ H) as (m & _ & H'). eauto.
Qed.

Lemma compressed_represents parent parent' x r :
  forest parent -> compressed parent parent' -> represents parent' x r <-> represents parent x r.
Proof.
  intros F (K & R).
  assert (forall s, represents parent x s -> represents parent' x s) as Fwd.
  { intros s [[n H]|[E ->]]; [|right; split; [by apply K|done]].
    destruct (R _ _ _ H) as (m & _ & H'). left; eauto. }
  split; [|apply Fwd]. intros H. destruct (represents_total parent x F) as (s & H').
  by rewrite (represents_det _ _ _ _ H (Fwd _ H')).
Qed.

Lemma setdefault_root parent node n x r : root_at parent n x r -> root_at (setdefault parent node) n x r.
Proof.
  unfold setdefault. destruct (parent !! node) eqn:E; [done|].
  induction 1 as [x E'|n x p r E' N H IH].
  - constructor. rewrite lookup_insert_ne by congruence. done.
  - eapply root_up; [rewrite lookup_insert_ne by congruence; done|done|done].
Qed.

Lemma setdefault_forest parent node : forest parent -> forest (setdefault parent node).
Proof.
  intros F x. destruct (parent !! x) eqn:E.
  - intros _. destruct (F x) as (n & r & H); [eauto|]. eauto using setdefault_root.
  - unfold setdefault. destruct (parent !! node) eqn:E'; [rewrite E; by intros []|].
    destruct (decide (x = node)) as [->|X]; [|rewrite lookup_insert_ne, E by done; by intros []].
    intros _. exists 0%nat, node. constructor. by rewrite lookup_insert_eq.
Qed.

Lemma setdefault_represents parent node x r :
  forest parent -> represents (setdefault parent node) x r <-> represents parent x r.
Proof.
  intros F.
  assert (forall s, represents parent x s -> represents (setdefault parent node) x s) as Fwd.
  { intros s [[n H]|[E ->]]; [left; eauto using setdefault_root|]. unfold setdefault.
    destruct (parent !! node) eqn:E'; [by right|]. destruct (decide (x = node)) as [->|X].
    - left. exists 0%nat. constructor. by rewrite lookup_insert_eq.
    - right. by rewrite lookup_insert_ne. }
  split; [|apply Fwd]. intros H. destruct (represents_total parent x F) as (s & H').
  by rewrite (represents_det _ _ _ _ H (Fwd _ H')).
Qed.

(** The lookup returns, with the root, and moves no root. *)
Lemma find_ok parent node r :
  forest parent -> represents parent node r ->
  exists parent', _union_find_parent parent node = Ok (parent', r) /\ forest parent' /\
    (forall x s, represents parent' x s <-> represents parent x s) /\ parent' !! r = Some r /\
    (forall x, parent !! x = Some x -> parent' !! x = Some x).
Proof.
  intros F R. set (q := setdefault parent node).
  assert (forest q) as Fq by by apply setdefault_forest.
  assert (is_Some (q !! node)) as [v V].
  { unfold q, setdefault. destruct (parent !! node) eqn:E; [eauto|]. rewrite lookup_insert_eq; eauto. }
  assert (represents q node r) as Rq by by apply setdefault_represents.
  destruct Rq as [[n H]|[E _]]; [|congruence].
  destruct (climb_ok (S (size q)) q n node r H) as (parent' & C & K).
  { apply root_bound in H. lia. }
  exists parent'. split; [done|]. split; [by eapply compressed_forest|]. split.
  - intros x s. rewrite compressed_represents by done. by apply setdefault_represents.
  - destruct K as (_ & K). split.
    + destruct (K _ _ _ H) as (m & _ & H'). by eapply root_root.
    + intros x X. apply root_here, (setdefault_root _ node), K in X as (m & Le & X').
      by eapply root_root.
Qed.

(** ** The partition *)

Definition joined (merged : list (string * string)) : string -> string -> Prop :=
  rtsc (fun x y => (x, y) ∈ merged).

(** The dictionary holds the partition generated by the pairs merged so far. *)
Definition partition (parent : parents) (merged : list (string * string)) : Prop :=
  forest parent /\
  forall x y r s, represents parent x r -> represents parent y s -> (r = s <-> joined merged x y).

Lemma joined_equivalence merged : Equivalence (joined merged).
Proof. unfold joined. apply rtsc_equivalence. Qed.

Lemma joined_mono merged merged' x y :
  (forall e, e ∈ merged -> e ∈ merged') -> joined merged x y -> joined merged' x y.
Proof.
  intros Sub. apply rtc_subrel. intros u v [H|H]; [left|right]; apply Sub, H.
Qed.

Lemma joined_in merged a b : (a, b) ∈ merged -> joined merged a b.
Proof. intros H. by apply rtsc_lr. Qed.

(** One more pair joins two classes. *)
Lemma joined_cons merged a b x y :
  joined ((a, b) :: merged) x y <->
  joined merged x y \/ (joined merged x a /\ joined merged b y) \/ (joined merged x b /\ joined merged a y).
Proof.
  pose proof (joined_equivalence merged) as Eq.
  assert (forall u v, joined merged u v -> joined ((a, b) :: merged) u v) as Up.
  { intros u v. apply joined_mono. intros e. by right. }
  pose proof (joined_in ((a, b) :: merged) a b ltac:(by left)) as AB.
  split.
  - induction 1 as [x|x y z H _ IH]; [left; reflexivity|].
    assert ((x = a /\ y = b) \/ (x = b /\ y = a) \/ joined merged x y) as [(-> & ->)|[(-> & ->)|J]].
    { destruct H as [H|H]; apply elem_of_cons in H as [H|H].
      - injection H as -> ->; auto.
      - right; right; by apply joined_in.
      - injection H as -> ->; auto.
      - right; right. symmetry. by apply joined_in. }
    + destruct IH as [J|[(J1 & J2)|(J1 & J2)]].
      * right; left. split; [reflexivity|done].
      * right; left. split; [reflexivity|done].
      * by left.
    + destruct IH as [J|[(J1 & J2)|(J1 & J2)]].
      * right; right. split; [reflexivity|done].
      * by left.
      * right; right. split; [reflexivity|done].
    + destruct IH as [J'|[(J1 & J2)|(J1 & J2)]].
      * left. by transitivity y.
      * right; left. split; [by transitivity y|done].
      * right; right. split; [by transitivity y|done].
  - pose proof (joined_equivalence ((a, b) :: merged)) as Eq'.
    intros [J|[(J1 & J2)|(J1 & J2)]]; [by apply Up| |].
    + transitivity a; [by apply Up|]. transitivity b; [done|by apply Up].
    + transitivity b; [by apply Up|]. transitivity a; [by symmetry|by apply Up].
Qed.

(** Linking a root under another one. *)
Lemma link_root (parent : parents) ra rb n x r :
  parent !! ra = Some ra -> ra <> rb -> root_at parent n x r -> parent !! rb = Some rb ->
  exists m, root_at (<[rb := ra]> parent) m x (if decide (r = rb) then ra else r).
Proof.
  intros A N H B. induction H as [x E|n x p r E Np H (m & IH)].
  - destruct (decide (x = rb)) as [->|X].
    + exists 1%nat. eapply root_up; [by rewrite lookup_insert_eq|done|].
      constructor. by rewrite lookup_insert_ne.
    + exists 0%nat. constructor. by rewrite lookup_insert_ne.
  - exists (S m). eapply root_up; [|done|done].
    rewrite lookup_insert_ne; [done|]. intros ->. congruence.
Qed.

Lemma link_represents (parent : parents) ra rb x r :
  parent !! ra = Some ra -> parent !! rb = Some rb -> ra <> rb -> represents parent x r ->
  represents (<[rb := ra]> parent) x (if decide (r = rb) then ra else r).
Proof.
  intros A B N [[n H]|[E ->]].
  - left. by eapply link_root.
  - right. destruct (decide (x = rb)) as [->|X]; [congruence|]. by rewrite lookup_insert_ne.
Qed.

Lemma link_forest (parent : parents) ra rb :
  parent !! ra = Some ra -> parent !! rb = Some rb -> ra <> rb -> forest parent -> forest (<[rb := ra]> parent).
Proof.
  intros A B N F x X. assert (is_Some (parent !! x)) as K.
  { destruct (decide (x = rb)) as [->|Y]; [eauto|]. by rewrite lookup_insert_ne in X. }
  destruct (F x K) as (n & r & H). destruct (link_root parent ra rb n x r) as (m & H'); eauto.
Qed.

(** The merge returns, and adds exactly its pair to the partition. *)
Lemma merge_ok parent merged a b :
  partition parent merged ->
  exists parent', _union_find_merge parent a b = Ok parent' /\ partition parent' ((a, b) :: merged).
Proof.
  intros (F & P). pose proof (joined_equivalence merged) as Eq.
  destruct (represents_total parent a F) as (ra & A), (represents_total parent b F) as (rb & B).
  destruct (find_ok _ _ _ F A) as (p1 & E1 & F1 & R1 & A1 & _).
  destruct (find_ok p1 b rb F1 ltac:(by apply R1)) as (p2 & E2 & F2 & R2 & B2 & K2).
  assert (forall x s, represents p2 x s <-> represents parent x s) as R by (intros; by rewrite R2, R1).
  unfold _union_find_merge. rewrite E1. cbn [res_bind fst snd]. rewrite E2. cbn [res_bind fst snd].
  destruct (decide (ra = rb)) as [<-|N].
  - exists p2. split; [done|]. split; [done|]. intros x y r s X%R Y%R.
    rewrite joined_cons, (P _ _ _ _ X Y).
    assert (joined merged a b) as J by by apply (P _ _ _ _ A B).
    split; [by left|]. intros [H|[(H1 & H2)|(H1 & H2)]]; [done| |].
    + transitivity a; [done|]. by transitivity b.
    + transitivity b; [done|]. transitivity a; [by symmetry|done].
  - assert (p2 !! ra = Some ra) as A2.
    { by apply K2. }
    exists (<[rb := ra]> p2). split; [done|]. split; [by apply link_forest|].
    intros x y r s X Y.
    destruct (represents_total p2 x F2) as (r0 & X0), (represents_total p2 y F2) as (s0 & Y0).
    pose proof (link_represents p2 ra rb x r0 A2 B2 N X0) as X1.
    pose proof (link_represents p2 ra rb y s0 A2 B2 N Y0) as Y1.
    rewrite (represents_det _ _ _ _ X X1), (represents_det _ _ _ _ Y Y1).
    apply R in X0, Y0. rewrite joined_cons.
    rewrite <-(P _ _ _ _ X0 Y0), <-(P _ _ _ _ X0 A), <-(P _ _ _ _ B Y0), <-(P _ _ _ _ X0 B), <-(P _ _ _ _ A Y0).
    destruct (decide (r0 = rb)), (decide (s0 = rb)); naive_solver.
Qed.

(** A dictionary of singletons. *)
Lemma partition_singletons (parent : parents) :
  (forall x p, parent !! x = Some p -> p = x) -> partition parent [].
Proof.
  intros H. split.
  - intros x [p E]. rewrite (H _ _ E) in E. exists 0%nat, x. by constructor.
  - assert (forall x r, represents parent x r -> r = x) as D.
    { intros x r [[n K]|[_ ->]]; [|done]. destruct K as [x E|n x p r E N K]; [done|]. by apply H in E. }
    intros x y r s ->%D ->%D. split; [intros ->; apply (joined_equivalence [])|].
    induction 1 as [|x y z K _ IH]; [done|]. destruct K as [K|K]; by apply elem_of_nil in K.
Qed.
