(* ===== verification/PulseFamilies.v ===== *)
(** * PulseFamilies: correlation/pulse_families.py

    The families of OTX pulses: pulses with the same CVEs and normalised name, or
    with a Jaccard similarity of at least 0.7 between their non-hub IOC sets, are
    merged, and each family is named after its oldest pulse.  The rows of the
    three queries are arguments; [set_order] is the iteration order of a set of
    texts, which Python does not fix. *)

From Stdlib Require Import QArith Lqa.
From stdpp Require Import relations.
From S2P Require Import Prelude PyStr PyVal Float64 FloatErr Dates CveRow Campaigns Sha256 UnionFind.
Open Scope string_scope.
Open Scope Z_scope.

Definition _JACCARD_THRESHOLD : fl := lit (7 # 10)%Q.
Definition _MIN_IOCS_FOR_JACCARD : nat := 3.

(** ** Names and identifiers *)

(** [\s+] and [\d+]: the rest after at least one such character. *)
Definition some_of (p : ascii -> bool) (s : string) : option string :=
  match s with String c t => if p c then Some (drop_while p t) else None | "" => None end.

Definition literal (p s : string) : option string :=
  if startswith s p then Some (sdrop (String.length p) s) else None.

(** [_PART_SUFFIX_RE] at the head of a lower-case text, up to its end. *)
Definition part_suffix (s : string) : bool :=
  match (s ← literal "|" (lstrip s); s ← literal "part" (lstrip s); s ← some_of is_space s;
         s ← some_of is_digit s; s ← literal "/" (lstrip s); some_of is_digit (lstrip s)) with
  | Some s => blank s
  | None => false
  end.

(** [_PART_SUFFIX_RE.sub("", s)]: the leftmost match is cut, with all that follows. *)
Fixpoint cut_part (s : string) : string :=
  if part_suffix s then "" else match s with "" => "" | String c t => String c (cut_part t) end.

(** [re.sub(r"\s+", " ", s)] *)
Fixpoint collapse_from (in_space : bool) (s : string) : string :=
  match s with
  | "" => ""
  | String c t =>
      if is_space c then (if in_space then collapse_from true t else String " " (collapse_from true t))
      else String c (collapse_from false t)
  end.
Definition collapse : string -> string := collapse_from false.

Definition is_stop (c : ascii) : bool := Ascii.eqb c "." || Ascii.eqb c "!" || Ascii.eqb c "?".

Definition normalize_pulse_name (name : string) : string :=
  let text := cut_part (lower (strip name)) in
  let text := smap (fun c => if Ascii.eqb c "_" then " "%char else c) text in
  let text := strip (collapse text) in
  strip (rstrip_by is_stop text).

Definition family_id_for_oldest_pulse (oldest_pulse_id : string) : string :=
  "fam_" +:+ stake 12 (sha256_hex oldest_pulse_id).
Definition campaign_id_for_family (family_id oldest_pulse_id : string) : string :=
  "camp_" +:+ stake 12 (sha256_hex oldest_pulse_id).
Definition legacy_campaign_id_for_pulse (pulse_id : string) : string :=
  "camp_" +:+ stake 12 (sha256_hex pulse_id).

(** ** Similarity *)

Definition _jaccard (a b : gset string) : res fl :=
  if bool_decide (a = ∅) || bool_decide (b = ∅) then Ok f0
  else
    let inter := Z.of_nat (size (a ∩ b)) in
    let union := Z.of_nat (size (a ∪ b)) in
    if union =? 0 then Ok f0 else int_truediv inter union.

(** ** The oldest pulse of a family *)

(** [(0, dt.timestamp(), pid)] or [(1, pid)] *)
Definition sort_key : Type := option fl * string.

Definition key_of (created_map : gmap string string) (pid : string) : res sort_key :=
  match _parse_dt (created_map !! pid) with
  | None => Ok (None, pid)
  | Some us => let! t := int_truediv us 1000000 in Ok (Some t, pid)
  end.

Definition key_lt (k k' : sort_key) : bool :=
  match fst k, fst k' with
  | Some t, Some t' => flt t t' || (feq t t' && String.ltb (snd k) (snd k'))
  | Some _, None => true
  | None, Some _ => false
  | None, None => String.ltb (snd k) (snd k')
  end.

(** [sorted(pulse_ids, key=sort_key)[0]]: the first of the smallest. *)
Definition _oldest_pulse_id (pulse_ids : list string) (created_map : gmap string string) : res string :=
  let! keys := map_res (key_of created_map) pulse_ids in
  match keys with
  | [] => Raise IndexError
  | k :: ks => Ok (snd (fold_left (fun best k => if key_lt k best then k else best) ks k))
  end.

(** ** The rebuild *)

Record pulse_row := mkPulse { pulse_id : string; pulse_name : option string; created_date : option string }.
Record ioc_row := mkIoc { io_pulse : string; io_type : string; io_value : string; io_degree : option Z }.

Section rebuild.
Variable set_order : gset string -> list string.

Definition created_map_of (rows : list pulse_row) : gmap string string :=
  fold_left (fun m r => <[pulse_id r := text_or (created_date r)]> m) rows ∅.
Definition name_map_of (rows : list pulse_row) : gmap string string :=
  fold_left (fun m r => <[pulse_id r := normalize_pulse_name (text_or (pulse_name r))]> m) rows ∅.

(** [sets\[pid\].add(x)] on a [defaultdict(set)]: an association list keeps the
    order in which keys appear. *)
Definition set_at (sets : list (string * gset string)) (pid : string) : gset string :=
  match assoc pid sets with Some s => s | None => ∅ end.
Definition add_to (sets : list (string * gset string)) (pid x : string) : list (string * gset string) :=
  dset sets pid (set_at sets pid ∪ {[ x ]}).

Definition cve_sets_of (rows : list (string * string)) : list (string * gset string) :=
  fold_left (fun sets r => add_to sets (fst r) (snd r)) rows [].

Definition ioc_sets_of (hub_cap : Z) (rows : list ioc_row) : list (string * gset string) :=
  fold_left (fun sets r =>
      if hub_cap <? match io_degree r with Some d => d | None => 0 end then sets
      else add_to sets (io_pulse r) (io_type r +:+ ":" +:+ io_value r)) rows [].

(** *** Pulses with the same CVEs and name *)

Definition bucket_key : Type := gset string * string.

Definition bucket_of (cve_sets : list (string * gset string)) (name_map : gmap string string) (pid : string) : bucket_key :=
  (set_at cve_sets pid, match name_map !! pid with Some n => n | None => "" end).

Fixpoint add_bucket (k : bucket_key) (pid : string) (buckets : list (bucket_key * list string))
  : list (bucket_key * list string) :=
  match buckets with
  | [] => [(k, [pid])]
  | (k', group) :: t => if decide (k' = k) then (k', group ++ [pid])%list :: t else (k', group) :: add_bucket k pid t
  end.

Definition buckets_of cve_sets name_map (pulse_ids : list string) : list (bucket_key * list string) :=
  fold_left (fun b pid => add_bucket (bucket_of cve_sets name_map pid) pid b) pulse_ids [].

Definition merge_group (parent : parents) (group : list string) : res parents :=
  match group with
  | anchor :: others => fold_res (fun parent other => _union_find_merge parent anchor other) others parent
  | [] => Ok parent
  end.

(** *** Pulses with similar IOCs *)

Definition append_to (m : list (string * list string)) (k pid : string) : list (string * list string) :=
  dset m k (match assoc k m with Some l => l | None => [] end ++ [pid])%list.

Definition ioc_to_pulses_of (ioc_sets : list (string * gset string)) : list (string * list string) :=
  fold_left (fun m e =>
      if (size (snd e) <? _MIN_IOCS_FOR_JACCARD)%nat then m
      else fold_left (fun m ioc => append_to m ioc (fst e)) (set_order (snd e)) m) ioc_sets [].

(** [tuple(sorted((a, b)))] *)
Definition ordered (a b : string) : string * string := if String.ltb b a then (b, a) else (a, b).

Definition visit_pair (ioc_sets : list (string * gset string)) (st : gset (string * string) * parents) (p : string * string)
  : res (gset (string * string) * parents) :=
  let '(a, b) := p in
  if decide (ordered a b ∈ fst st) then Ok st
  else
    let seen := {[ ordered a b ]} ∪ fst st in
    let set_a := set_at ioc_sets a in let set_b := set_at ioc_sets b in
    if (size set_a <? _MIN_IOCS_FOR_JACCARD)%nat || (size set_b <? _MIN_IOCS_FOR_JACCARD)%nat then Ok (seen, snd st)
    else
      let! j := _jaccard set_a set_b in
      if fle _JACCARD_THRESHOLD j then let! parent := _union_find_merge (snd st) a b in Ok (seen, parent)
      else Ok (seen, snd st).

(** The pairs [(pulses\[i\], pulses\[j\])] with [i < j], in the order of the two loops. *)
Fixpoint pairs_of (pulses : list string) : list (string * string) :=
  match pulses with [] => [] | a :: t => map (pair a) t ++ pairs_of t end.

Definition candidate_pairs (ioc_to_pulses : list (string * list string)) : list (string * string) :=
  flat_map (fun e => pairs_of (snd e)) ioc_to_pulses.

(** *** Families *)

Definition add_member (families : list (string * list string)) (root pid : string) : list (string * list string) :=
  append_to families root pid.

Definition gather (st : parents * list (string * list string)) (pid : string) : res (parents * list (string * list string)) :=
  let! f := _union_find_parent (fst st) pid in Ok (fst f, add_member (snd st) (snd f) pid).

Definition singletons (pulse_ids : list string) : parents := fold_left (fun m pid => <[pid := pid]> m) pulse_ids ∅.

Definition families_of (hub_cap : Z) (pulse_rows : list pulse_row) (cve_rows : list (string * string)) (ioc_rows : list ioc_row)
  : res (list (string * list string)) :=
  let pulse_ids := map pulse_id pulse_rows in
  let cve_sets := cve_sets_of cve_rows in
  let ioc_sets := ioc_sets_of hub_cap ioc_rows in
  let buckets := buckets_of cve_sets (name_map_of pulse_rows) pulse_ids in
  let! parent := fold_res merge_group (map snd buckets) (singletons pulse_ids) in
  let! st := fold_res (visit_pair ioc_sets) (candidate_pairs (ioc_to_pulses_of ioc_sets)) (∅, parent) in
  let! fams := fold_res gather pulse_ids (snd st, []) in
  Ok (snd fams).

Record family_row := mkFamilyRow { fr_pulse : string; fr_family : string }.

Definition family_rows (created_map : gmap string string) (members : list string) : res (list family_row) :=
  let! oldest := _oldest_pulse_id members created_map in
  Ok (map (fun pid => mkFamilyRow pid (family_id_for_oldest_pulse oldest)) members).

(** The rows of [pulse_families] after the rebuild, and the two counts it reports. *)
Definition rebuild_pulse_families (hub_cap : Z) (pulse_rows : list pulse_row) (cve_rows : list (string * string))
    (ioc_rows : list ioc_row) : res (list family_row * (Z * Z)) :=
  match pulse_rows with
  | [] => Ok ([], (0, 0))
  | _ =>
      let! fams := families_of hub_cap pulse_rows cve_rows ioc_rows in
      let! rows := map_res (fun e => family_rows (created_map_of pulse_rows) (snd e)) fams in
      Ok (List.concat rows, (Z.of_nat (length fams), Z.of_nat (length pulse_rows)))
  end.
End rebuild.


(** ** The similarity threshold, exactly *)

Lemma mk_unit q : (0 <= q <= 1)%Q -> mk q = Fin (rnd q).
Proof.
  intros [L U]. apply mk_fin. split.
  - apply Qle_trans with 0%Q; [by vm_compute|done].
  - apply Qle_trans with 1%Q; [done|by vm_compute].
Qed.

Lemma ratio_unit i u : 0 <= i <= u -> 0 < u -> (0 <= inject_Z i / inject_Z u <= 1)%Q.
Proof.
  intros I U. assert (0 < inject_Z u)%Q by (change 0%Q with (inject_Z 0); by rewrite <-Zlt_Qlt). split.
  - apply Qle_shift_div_l; [done|]. rewrite Qmult_0_l. change 0%Q with (inject_Z 0). rewrite <-Zle_Qle. lia.
  - apply Qle_shift_div_r; [done|]. rewrite Qmult_1_l, <-Zle_Qle. lia.
Qed.

(** The float comparison decides the exact one, for sets of a practical size. *)
Lemma threshold_exact i u :
  0 <= i <= u -> 0 < u -> u <= 2 ^ 40 ->
  exists j, int_truediv i u = Ok j /\ (fle _JACCARD_THRESHOLD j = true <-> 7 * u <= 10 * i).
Proof.
  intros I U B. pose proof (ratio_unit i u I U) as R. unfold int_truediv.
  rewrite (proj2 (Z.eqb_neq u 0)) by lia. rewrite mk_unit by done.
  exists (Fin (rnd (inject_Z i / inject_Z u))). split; [done|].
  unfold _JACCARD_THRESHOLD, lit. rewrite fle_fin.
  assert (0 < inject_Z u)%Q as Uq by (change 0%Q with (inject_Z 0); by rewrite <-Zlt_Qlt).
  assert (inject_Z u <= inject_Z (2 ^ 40))%Q as Bq by by rewrite <-Zle_Qle.
  split.
  - intros H. destruct (Z_le_gt_dec (7 * u) (10 * i)) as [|G]; [done|exfalso].
    pose proof (rnd_err 0 (7 # 10) ltac:(lia) ltac:(split; by vm_compute)) as [E1 _].
    pose proof (rnd_err 0 (inject_Z i / inject_Z u) ltac:(lia) ltac:(split; [apply Qle_trans with 0%Q; [by vm_compute|]|]; apply R)) as [_ E2].
    assert (inject_Z i / inject_Z u <= (7 # 10) - (1 # 10) / inject_Z (2 ^ 40))%Q as D.
    { apply Qle_shift_div_r; [done|].
      assert (inject_Z 10 * inject_Z i <= inject_Z 7 * inject_Z u - 1)%Q as N.
      { assert (inject_Z (10 * i) <= inject_Z (7 * u - 1))%Q as N by (rewrite <-Zle_Qle; lia).
        unfold Z.sub in N. rewrite inject_Z_plus, !inject_Z_mult in N. exact N. }
      change (inject_Z 10) with 10%Q in N. change (inject_Z 7) with 7%Q in N.
      assert ((1 # 10) / inject_Z (2 ^ 40) * inject_Z u <= 1 # 10)%Q as S.
      { apply Qle_trans with ((1 # 10) / inject_Z (2 ^ 40) * inject_Z (2 ^ 40))%Q; [|by vm_compute].
        rewrite (Qmult_comm _ (inject_Z u)), (Qmult_comm _ (inject_Z (2 ^ 40))).
        apply Qmult_le_compat_r; [done|by vm_compute]. }
      lra. }
    assert (2 * Qpower 2 (0 - 53) < (1 # 10) / inject_Z (2 ^ 40))%Q as G2 by by vm_compute.
    lra.
  - intros H. apply rnd_mono. apply Qle_shift_div_l; [done|].
    assert (inject_Z 7 * inject_Z u <= inject_Z 10 * inject_Z i)%Q as N.
    { rewrite <-!inject_Z_mult, <-Zle_Qle. lia. }
    change (inject_Z 10) with 10%Q in N. change (inject_Z 7) with 7%Q in N. lra.
Qed.

(** What the two sets have to satisfy. *)
Definition similar (a b : gset string) : Prop :=
  (3 <= size a)%nat /\ (3 <= size b)%nat /\ 7 * Z.of_nat (size (a ∪ b)) <= 10 * Z.of_nat (size (a ∩ b)).

Lemma jaccard_similar (a b : gset string) :
  Z.of_nat (size (a ∪ b)) <= 2 ^ 40 -> (3 <= size a)%nat -> (3 <= size b)%nat ->
  exists j, _jaccard a b = Ok j /\ (fle _JACCARD_THRESHOLD j = true <-> similar a b).
Proof.
  intros B A A'. unfold _jaccard.
  assert (a <> ∅) as Na by (intros ->; rewrite size_empty in A; lia).
  assert (b <> ∅) as Nb by (intros ->; rewrite size_empty in A'; lia).
  rewrite !bool_decide_eq_false_2 by done. cbn [orb].
  assert (size a <= size (a ∪ b))%nat by (apply subseteq_size; set_solver).
  assert (size (a ∩ b) <= size (a ∪ b))%nat by (apply subseteq_size; set_solver).
  rewrite (proj2 (Z.eqb_neq _ 0)) by lia.
  destruct (threshold_exact (Z.of_nat (size (a ∩ b))) (Z.of_nat (size (a ∪ b)))) as (j & E & T); [lia|lia|lia|].
  exists j. split; [done|]. rewrite T. unfold similar. tauto.
Qed.

Lemma similar_sym a b : similar a b -> similar b a.
Proof. intros (A & B & H). split; [done|]. split; [done|]. by rewrite (union_comm_L b a), (intersection_comm_L b a). Qed.

Lemma similar_share a b : similar a b -> exists x, x ∈ a /\ x ∈ b.
Proof.
  intros (A & B & H). destruct (decide (a ∩ b = ∅)) as [E|N].
  - rewrite E, size_empty in H. assert (size a <= size (a ∪ b))%nat by (apply subseteq_size; set_solver). lia.
  - apply set_choose_L in N as (x & X). exists x. set_solver.
Qed.

(** ** The first loop: equal buckets *)

Lemma merges_ok l : forall parent merged,
  partition parent merged ->
  exists parent', fold_res (fun parent p => _union_find_merge parent (fst p) (snd p)) l parent = Ok parent' /\
    partition parent' (rev l ++ merged).
Proof.
  induction l as [|[a b] l IH]; intros parent merged P; cbn [fold_res rev fst snd]; [eauto|].
  destruct (merge_ok parent merged a b P) as (p1 & E & P1). rewrite E. cbn [res_bind fst snd].
  destruct (IH _ _ P1) as (p2 & E2 & P2). exists p2. split; [done|]. by rewrite <-app_assoc.
Qed.

Definition anchored (group : list string) : list (string * string) :=
  match group with [] => [] | anchor :: others => map (pair anchor) others end.

Lemma merge_group_as_pairs parent group :
  merge_group parent group = fold_res (fun parent p => _union_find_merge parent (fst p) (snd p)) (anchored group) parent.
Proof.
  destruct group as [|a t]; [done|]. cbn [merge_group anchored]. revert parent.
  induction t as [|b t IH]; intros parent; [done|]. cbn [fold_res map fst snd].
  destruct (_union_find_merge parent a b); [apply IH|done].
Qed.

Lemma groups_ok groups : forall parent merged,
  partition parent merged ->
  exists parent' merged', fold_res merge_group groups parent = Ok parent' /\ partition parent' merged' /\
    forall e, e ∈ merged' <-> e ∈ merged \/ exists g, g ∈ groups /\ e ∈ anchored g.
Proof.
  induction groups as [|g groups IH]; intros parent merged P; cbn [fold_res].
  - exists parent, merged. split; [done|]. split; [done|]. intros e. set_solver.
  - rewrite merge_group_as_pairs. destruct (merges_ok (anchored g) parent merged P) as (p1 & E & P1).
    rewrite E. cbn [res_bind]. destruct (IH _ _ P1) as (p2 & m2 & E2 & P2 & M). exists p2, m2.
    split; [done|]. split; [done|]. intros e. rewrite M, elem_of_app, elem_of_rev.
    set_solver.
Qed.

Lemma anchored_joined group x y merged :
  (forall e, e ∈ anchored group -> e ∈ merged) -> x ∈ group -> y ∈ group -> joined merged x y.
Proof.
  intros Sub. pose proof (joined_equivalence merged) as Eq. destruct group as [|a t]; [by intros ?%elem_of_nil|].
  assert (forall z, z ∈ a :: t -> joined merged a z) as H.
  { intros z [->|Z]%elem_of_cons; [reflexivity|]. apply joined_in, Sub. cbn [anchored].
    apply list_elem_of_In, in_map, list_elem_of_In, Z. }
  intros X Y. transitivity a; [symmetry|]; by apply H.
Qed.

Section buckets.
Context (key : string -> bucket_key).

(** Pulses with one key are in one group, and a group has one key. *)
Definition bucketed (ds : list string) (b : list (bucket_key * list string)) : Prop :=
  NoDup (map fst b) /\
  (forall p, p ∈ ds -> exists g, (key p, g) ∈ b /\ p ∈ g) /\
  (forall k g p, (k, g) ∈ b -> p ∈ g -> p ∈ ds /\ key p = k).

Lemma add_bucket_keys k pid b k' : k' ∈ map fst (add_bucket k pid b) <-> k' = k \/ k' ∈ map fst b.
Proof.
  induction b as [|[k1 g1] b IH]; cbn [add_bucket map fst]; [set_solver|].
  destruct (decide (k1 = k)) as [->|N]; cbn [map fst]; [set_solver|]. rewrite !elem_of_cons, IH. tauto.
Qed.

Lemma add_bucket_in k pid b e :
  NoDup (map fst b) ->
  e ∈ add_bucket k pid b <->
  (fst e <> k /\ e ∈ b) \/ (exists g, (k, g) ∈ b /\ e = (k, (g ++ [pid])%list)) \/ (e = (k, [pid]) /\ k ∉ map fst b).
Proof.
  induction b as [|[k1 g1] b IH]; cbn [add_bucket map fst].
  - intros _. rewrite list_elem_of_singleton. set_solver.
  - intros ND. change (NoDup (k1 :: map fst b)) in ND. apply NoDup_cons in ND as (Nin & ND).
    destruct (decide (k1 = k)) as [->|N].
    + rewrite !elem_of_cons. split.
      * intros [->|H]; [right; left; exists g1; set_solver|].
        left. split; [|by right]. intros E. apply Nin. rewrite <-E.
        by apply list_elem_of_In, in_map, list_elem_of_In.
      * intros [(Ne & [->|H])|[(g & [G|H]%elem_of_cons & ->)|(_ & H)]]; [done|by right|injection G as ->; by left| |set_solver].
        exfalso. apply Nin. change k with (fst (k, g)). by apply list_elem_of_In, in_map, list_elem_of_In.
    + rewrite !elem_of_cons, IH by done. split.
      * intros [->|[(Ne & H)|[(g & H & ->)|(-> & H)]]].
        -- left. split; [done|by left].
        -- left. split; [done|by right].
        -- right; left. exists g. split; [by right|done].
        -- right; right. split; [done|]. intros [E|E]; [by subst|done].
      * intros [(Ne & [->|H])|[(g & [[= -> ->]|H]%elem_of_cons & ->)|(-> & H)]]; [by left| |done| |].
        -- right; left; done.
        -- right; right; left. eauto.
        -- right; right; right. split; [done|]. tauto.
Qed.

Lemma add_bucket_nodup k pid b : NoDup (map fst b) -> NoDup (map fst (add_bucket k pid b)).
Proof.
  induction b as [|[k1 g1] b IH]; cbn [add_bucket map fst]; intros ND; [apply NoDup_singleton|].
  change (NoDup (k1 :: map fst b)) in ND. apply NoDup_cons in ND as (Nin & ND).
  destruct (decide (k1 = k)) as [->|N]; [by apply NoDup_cons|].
  change (NoDup (k1 :: map fst (add_bucket k pid b))). apply NoDup_cons. split; [|by auto].
  rewrite add_bucket_keys. intros [->|H]; done.
Qed.

Lemma bucketed_step ds b pid : bucketed ds b -> bucketed (pid :: ds) (add_bucket (key pid) pid b).
Proof.
  intros (ND & C & O). split; [by apply add_bucket_nodup|]. split.
  - intros p Hp. destruct (decide (p = pid)) as [->|N].
    + destruct (decide (key pid ∈ map fst b)) as [K|K].
      * apply list_elem_of_In, in_map_iff in K as ([k g] & E & K). cbn in E. subst k.
        exists (g ++ [pid])%list. rewrite add_bucket_in by done. split; [|set_solver].
        right; left. exists g. split; [by apply list_elem_of_In|done].
      * exists [pid]. rewrite add_bucket_in by done. set_solver.
    + apply elem_of_cons in Hp as [->|Hp]; [done|]. destruct (C p Hp) as (g & G & Pg).
      destruct (decide (key p = key pid)) as [E|E].
      * exists (g ++ [pid])%list. rewrite add_bucket_in, E by done. rewrite E in G. set_solver.
      * exists g. rewrite add_bucket_in by done. split; [left; split; done|done].
  - intros k g p G Pg. apply add_bucket_in in G as [(Ne & G)|[(g0 & G & [= -> ->])|([= -> ->] & _)]]; [| | |done].
    + destruct (O k g p G Pg). split; [by right|done].
    + apply elem_of_app in Pg as [Pg|Pg]; [destruct (O _ g0 p G Pg); split; [by right|done]|].
      apply list_elem_of_singleton in Pg as ->. split; [by left|done].
    + apply list_elem_of_singleton in Pg as ->. split; [by left|done].
Qed.

Lemma bucketed_all l : forall ds b,
  bucketed ds b -> bucketed (rev l ++ ds) (fold_left (fun b pid => add_bucket (key pid) pid b) l b).
Proof.
  induction l as [|p l IH]; intros ds b B; [done|]. cbn [fold_left rev].
  rewrite <-app_assoc. cbn [app]. apply IH. by apply bucketed_step.
Qed.
End buckets.

Lemma buckets_spec cve_sets name_map pulse_ids :
  bucketed (bucket_of cve_sets name_map) (rev pulse_ids) (buckets_of cve_sets name_map pulse_ids).
Proof.
  rewrite <-(app_nil_r (rev pulse_ids)). unfold buckets_of. apply (bucketed_all (bucket_of cve_sets name_map)).
  split; [by apply NoDup_nil|]. split; set_solver.
Qed.

Lemma buckets_joined cve_sets name_map pulse_ids merged x y :
  (forall g e, g ∈ map snd (buckets_of cve_sets name_map pulse_ids) -> e ∈ anchored g -> e ∈ merged) ->
  x ∈ pulse_ids -> y ∈ pulse_ids -> bucket_of cve_sets name_map x = bucket_of cve_sets name_map y ->
  joined merged x y.
Proof.
  intros Sub X Y E. destruct (buckets_spec cve_sets name_map pulse_ids) as (ND & C & _).
  destruct (C x ltac:(by apply elem_of_rev)) as (g & G & Xg), (C y ltac:(by apply elem_of_rev)) as (g' & G' & Yg).
  rewrite <-E in G'. assert (g' = g) as -> by by eapply nodup_keys.
  apply (anchored_joined g); [|done|done]. intros e. apply Sub. by eapply in_snd.
Qed.

Lemma buckets_sound cve_sets name_map pulse_ids g a b :
  g ∈ map snd (buckets_of cve_sets name_map pulse_ids) -> (a, b) ∈ anchored g ->
  a ∈ pulse_ids /\ b ∈ pulse_ids /\ bucket_of cve_sets name_map a = bucket_of cve_sets name_map b.
Proof.
  intros G AB. destruct (buckets_spec cve_sets name_map pulse_ids) as (_ & _ & O).
  apply list_elem_of_In, in_map_iff in G as ([k g'] & E & G). cbn in E. subst g'. apply list_elem_of_In in G.
  destruct g as [|x t]; [by apply elem_of_nil in AB|]. cbn [anchored] in AB.
  apply list_elem_of_In, in_map_iff in AB as (y & [= -> ->] & Y). apply list_elem_of_In in Y.
  destruct (O k (a :: t) a G ltac:(by left)) as (A & Ka), (O k (a :: t) b G ltac:(by right)) as (B & Kb).
  rewrite elem_of_rev in A, B. by rewrite Ka, Kb.
Qed.

(** ** The second loop: similar IOC sets *)

Lemma ordered_eq a b c d : ordered a b = ordered c d -> (a = c /\ b = d) \/ (a = d /\ b = c).
Proof. unfold ordered. repeat case_match; intros [= -> ->]; auto. Qed.

Section similar_pairs.
Context (ioc_sets : list (string * gset string)).
Hypothesis small : forall a b, Z.of_nat (size (set_at ioc_sets a ∪ set_at ioc_sets b)) <= 2 ^ 40.

Definition similar_pulses (a b : string) : Prop := similar (set_at ioc_sets a) (set_at ioc_sets b).

Definition visited (seen : gset (string * string)) (merged : list (string * string)) : Prop :=
  forall a b, ordered a b ∈ seen -> similar_pulses a b -> joined merged a b.

(** One pair: either it is similar and merged, or it is not and nothing happens. *)
Lemma visit_pair_ok seen parent merged a b :
  partition parent merged -> visited seen merged ->
  exists seen' parent' merged', visit_pair ioc_sets (seen, parent) (a, b) = Ok (seen', parent') /\
    partition parent' merged' /\ visited seen' merged' /\ ordered a b ∈ seen' /\
    (forall e, e ∈ seen -> e ∈ seen') /\ (forall e, e ∈ merged -> e ∈ merged') /\
    (forall e, e ∈ merged' -> e ∈ merged \/ similar_pulses (fst e) (snd e)).
Proof using small.
  intros P V. unfold visit_pair. cbn [fst snd].
  assert (forall S M, visited seen merged -> (forall e, e ∈ merged -> e ∈ M) -> S = {[ordered a b]} ∪ seen ->
            (similar_pulses a b -> joined M a b) -> visited S M) as Vis.
  { intros S M Vs Sub -> J c d [E%elem_of_singleton|H]%elem_of_union K.
    - pose proof (joined_equivalence M) as Eq. apply ordered_eq in E as [[-> ->]|[-> ->]]; [by apply J|].
      symmetry. apply J. by apply similar_sym.
    - apply (joined_mono merged); [done|by apply Vs]. }
  case_decide as D; [exists seen, parent, merged; do 4 (split; [done|]); auto|].
  destruct ((size (set_at ioc_sets a) <? _MIN_IOCS_FOR_JACCARD)%nat || (size (set_at ioc_sets b) <? _MIN_IOCS_FOR_JACCARD)%nat) eqn:Sz.
  - exists ({[ordered a b]} ∪ seen), parent, merged. split; [done|]. split; [done|]. split.
    + apply Vis; auto. intros (A & B & _). apply orb_true_iff in Sz as [Sz|Sz]; apply Nat.ltb_lt in Sz;
        unfold _MIN_IOCS_FOR_JACCARD in Sz; lia.
    + set_solver.
  - apply orb_false_iff in Sz as [SA%Nat.ltb_ge SB%Nat.ltb_ge].
    destruct (jaccard_similar _ _ (small a b) SA SB) as (j & -> & J). cbn [res_bind].
    destruct (fle _JACCARD_THRESHOLD j) eqn:F.
    + destruct (merge_ok parent merged a b P) as (p1 & -> & P1). cbn [res_bind].
      exists ({[ordered a b]} ∪ seen), p1, ((a, b) :: merged). split; [done|]. split; [done|].
      assert (similar_pulses a b) as Sim by by apply J.
      split; [apply Vis; auto; [set_solver|intros _; apply joined_in; by left]|].
      split; [set_solver|]. split; [set_solver|]. split; [set_solver|].
      intros e [->|H]%elem_of_cons; [by right|by left].
    + exists ({[ordered a b]} ∪ seen), parent, merged. split; [done|]. split; [done|].
      split; [apply Vis; auto; intros Sim; by apply J in Sim|]. set_solver.
Qed.

Lemma visits_ok l : forall seen parent merged,
  partition parent merged -> visited seen merged ->
  exists seen' parent' merged', fold_res (visit_pair ioc_sets) l (seen, parent) = Ok (seen', parent') /\
    partition parent' merged' /\
    (forall a b, (a, b) ∈ l -> similar_pulses a b -> joined merged' a b) /\
    (forall e, e ∈ merged -> e ∈ merged') /\
    (forall e, e ∈ merged' -> e ∈ merged \/ similar_pulses (fst e) (snd e)).
Proof using small.
  enough (forall l seen parent merged, partition parent merged -> visited seen merged ->
    exists seen' parent' merged', fold_res (visit_pair ioc_sets) l (seen, parent) = Ok (seen', parent') /\
      partition parent' merged' /\ visited seen' merged' /\
      (forall e, e ∈ seen -> e ∈ seen') /\ (forall a b, (a, b) ∈ l -> ordered a b ∈ seen') /\
      (forall e, e ∈ merged -> e ∈ merged') /\
      (forall e, e ∈ merged' -> e ∈ merged \/ similar_pulses (fst e) (snd e))) as Main.
  { intros seen parent merged P V. destruct (Main l seen parent merged P V) as (s & p & m & E & P' & V' & _ & L & Sub & Or).
    exists s, p, m. split; [done|]. split; [done|]. split; [|done]. intros a b AB. apply V'. by apply L. }
  clear l. induction l as [|[a b] l IH]; intros seen parent merged P V; cbn [fold_res].
  - exists seen, parent, merged. repeat (split; [done|]). split; [by intros a b ?%elem_of_nil|]. split; auto.
  - destruct (visit_pair_ok seen parent merged a b P V) as (s1 & p1 & m1 & -> & P1 & V1 & O1 & S1 & M1 & N1).
    cbn [res_bind]. destruct (IH s1 p1 m1 P1 V1) as (s2 & p2 & m2 & E2 & P2 & V2 & S2 & L2 & M2 & N2).
    exists s2, p2, m2. split; [done|]. split; [done|]. split; [done|]. split; [by auto|]. split; [|split; [by auto|]].
    + intros c d [[= -> ->]|H]%elem_of_cons; auto.
    + intros e H. destruct (N2 e H) as [K|K]; [by apply N1|by right].
Qed.
End similar_pairs.

(** *** Completeness of the candidate pairs *)

Lemma pairs_of_complete l a b : a ∈ l -> b ∈ l -> a <> b -> (a, b) ∈ pairs_of l \/ (b, a) ∈ pairs_of l.
Proof.
  induction l as [|x l IH]; [by intros ?%elem_of_nil|]. cbn [pairs_of].
  assert (forall y, y ∈ l -> (x, y) ∈ map (pair x) l) as H.
  { intros y Y. apply list_elem_of_In, in_map, list_elem_of_In, Y. }
  setoid_rewrite elem_of_app.
  intros [->|A]%elem_of_cons [->|B]%elem_of_cons N; [done|left; left; auto|right; left; auto|].
  destruct (IH A B N); auto.
Qed.

Lemma append_to_at m k pid k' :
  assoc k' (append_to m k pid) =
  if String.eqb k k' then Some (match assoc k m with Some l => l | None => [] end ++ [pid])%list else assoc k' m.
Proof. apply assoc_dset. Qed.

(** [pid] is listed under [k]. *)
Definition lists_at (m : list (string * list string)) (k pid : string) : Prop :=
  exists l, assoc k m = Some l /\ pid ∈ l.

Lemma append_to_lists m k pid k' pid' :
  lists_at (append_to m k pid) k' pid' <-> (k' = k /\ pid' = pid) \/ lists_at m k' pid'.
Proof.
  unfold lists_at. rewrite append_to_at. destruct (String.eqb_spec k k') as [<-|N].
  - split.
    + intros (l & [= <-] & [H|H%list_elem_of_singleton]%elem_of_app); [|by left].
      right. destruct (assoc k m); [eauto|by apply elem_of_nil in H].
    + intros [[_ ->]|(l & -> & H)]; eexists; (split; [done|]); set_solver.
  - split; [by right|]. intros [[-> _]|H]; done.
Qed.

Section candidates.
Variable set_order : gset string -> list string.
Hypothesis set_order_spec : forall X x, x ∈ set_order X <-> x ∈ X.

Lemma ioc_to_pulses_spec ioc_sets : forall ioc pid,
  lists_at (ioc_to_pulses_of set_order ioc_sets) ioc pid <->
  exists X, (pid, X) ∈ ioc_sets /\ (3 <= size X)%nat /\ ioc ∈ X.
Proof using set_order_spec.
  unfold ioc_to_pulses_of. intros ioc pid.
  assert (forall l m pid', lists_at (fold_left (fun m i => append_to m i pid') l m) ioc pid <->
            lists_at m ioc pid \/ (ioc ∈ l /\ pid = pid')) as Inner.
  { induction l as [|i l IH]; intros m pid'; cbn [fold_left].
    - split; [by left|]. intros [H|[H%elem_of_nil _]]; done.
    - rewrite IH, append_to_lists, elem_of_cons. naive_solver. }
  enough (forall m, lists_at (fold_left (fun m e => if (size (snd e) <? _MIN_IOCS_FOR_JACCARD)%nat then m
              else fold_left (fun m ioc => append_to m ioc (fst e)) (set_order (snd e)) m) ioc_sets m) ioc pid <->
            lists_at m ioc pid \/ exists X, (pid, X) ∈ ioc_sets /\ (3 <= size X)%nat /\ ioc ∈ X) as Main.
  { rewrite Main. unfold lists_at. cbn [assoc]. naive_solver. }
  induction ioc_sets as [|[p X] t IH]; intros m; cbn [fold_left fst snd].
  - split; [by left|]. intros [H|(X & H%elem_of_nil & _)]; done.
  - setoid_rewrite elem_of_cons. destruct (Nat.ltb_spec (size X) _MIN_IOCS_FOR_JACCARD) as [L|L]; unfold _MIN_IOCS_FOR_JACCARD in L.
    + rewrite IH. split; [naive_solver|]. intros [H|(Y & [[= -> ->]|H] & Le & I)]; [auto|lia|eauto].
    + rewrite IH, Inner, set_order_spec. split.
      * intros [[H|[H ->]]|(Y & H & Le & I)]; [by left|right; eauto|right; eauto].
      * intros [H|(Y & [[= -> ->]|H] & Le & I)]; [auto|auto|right; eauto].
Qed.

(** A pair of distinct similar pulses is visited, in one of the two orders. *)
Lemma candidates_complete ioc_sets a b :
  similar_pulses ioc_sets a b -> a <> b ->
  (a, b) ∈ candidate_pairs (ioc_to_pulses_of set_order ioc_sets) \/
  (b, a) ∈ candidate_pairs (ioc_to_pulses_of set_order ioc_sets).
Proof using set_order_spec.
  intros Sim N. pose proof (similar_share _ _ Sim) as (ioc & A & B). destruct Sim as (SA & SB & _).
  assert (forall p, ioc ∈ set_at ioc_sets p -> (3 <= size (set_at ioc_sets p))%nat ->
            lists_at (ioc_to_pulses_of set_order ioc_sets) ioc p) as L.
  { intros p I S. apply ioc_to_pulses_spec. exists (set_at ioc_sets p). split; [|done].
    unfold set_at in *. destruct (assoc p ioc_sets) eqn:E; [by apply assoc_elem|set_solver]. }
  destruct (L a A SA) as (l & El & Al), (L b B SB) as (l' & El' & Bl).
  rewrite El in El'. injection El' as <-. apply assoc_elem in El.
  assert (forall e, e ∈ pairs_of l -> e ∈ candidate_pairs (ioc_to_pulses_of set_order ioc_sets)) as Sub.
  { intros e He. unfold candidate_pairs. apply list_elem_of_In, in_flat_map. exists (ioc, l).
    split; by apply list_elem_of_In. }
  destruct (pairs_of_complete l a b Al Bl N); auto.
Qed.
End candidates.

(** *** The size of the IOC sets *)

Definition ioc_key (r : ioc_row) : string := io_type r +:+ ":" +:+ io_value r.

Lemma set_at_add sets pid x pid' : set_at (add_to sets pid x) pid' = set_at sets pid' ∪ (if String.eqb pid pid' then {[x]} else ∅).
Proof.
  unfold add_to, set_at at 1. rewrite assoc_dset. destruct (String.eqb_spec pid pid') as [->|N]; [done|].
  fold (set_at sets pid'). set_solver.
Qed.

Lemma ioc_sets_keys hub_cap rows a x : x ∈ set_at (ioc_sets_of hub_cap rows) a -> x ∈ map ioc_key rows.
Proof.
  unfold ioc_sets_of. enough (forall sets, x ∈ set_at (fold_left (fun sets r =>
      if hub_cap <? match io_degree r with Some d => d | None => 0 end then sets
      else add_to sets (io_pulse r) (ioc_key r)) rows sets) a -> x ∈ set_at sets a \/ x ∈ map ioc_key rows) as Main.
  { intros H. destruct (Main [] H) as [K|K]; [unfold set_at in K; cbn in K; set_solver|done]. }
  induction rows as [|r rows IH]; intros sets; cbn [fold_left map]; [by left|].
  intros H. apply IH in H as [H|H]; [|right; by right]. case_match; [by left|].
  rewrite set_at_add in H. apply elem_of_union in H as [H|H]; [by left|right].
  case_match; [|set_solver]. apply elem_of_singleton in H as ->. by left.
Qed.

Lemma ioc_sets_small hub_cap rows a b :
  Z.of_nat (length rows) <= 2 ^ 40 ->
  Z.of_nat (size (set_at (ioc_sets_of hub_cap rows) a ∪ set_at (ioc_sets_of hub_cap rows) b)) <= 2 ^ 40.
Proof.
  intros B. enough (size (set_at (ioc_sets_of hub_cap rows) a ∪ set_at (ioc_sets_of hub_cap rows) b) <= length rows)%nat by lia.
  transitivity (size (list_to_set (map ioc_key rows) : gset string)).
  - apply subseteq_size. intros x [H|H]%elem_of_union; apply elem_of_list_to_set; by eapply ioc_sets_keys.
  - rewrite <-(length_map ioc_key rows). generalize (map ioc_key rows) as l.
    induction l as [|y l IH]; cbn [list_to_set length]; [by rewrite size_empty|].
    rewrite size_union_alt, size_singleton.
    pose proof (subseteq_size (list_to_set l ∖ {[y]} : gset string) (list_to_set l) ltac:(set_solver)). lia.
Qed.

(** ** The families *)

(** Members found so far, under the roots of the final partition. *)
Definition gathered (parent0 : parents) (ds : list string) (fams : list (string * list string)) : Prop :=
  (forall root l x, (root, l) ∈ fams -> x ∈ l -> x ∈ ds /\ represents parent0 x root) /\
  (forall x root, x ∈ ds -> represents parent0 x root -> lists_at fams root x) /\
  (forall root l, (root, l) ∈ fams -> l <> []) /\
  List.concat (map snd fams) ≡ₚ ds /\ NoDup (map fst fams).

Lemma concat_append_to m k pid : List.concat (map snd (append_to m k pid)) ≡ₚ pid :: List.concat (map snd m).
Proof.
  unfold append_to. induction m as [|[k' l] m IH]; [done|]. cbn [dset assoc].
  destruct (String.eqb k' k); cbn [map snd List.concat].
  - rewrite <-app_assoc. symmetry. apply Permutation_middle.
  - rewrite IH. by rewrite Permutation_middle.
Qed.

Lemma append_to_elem m k pid root l :
  (root, l) ∈ append_to m k pid ->
  (root, l) ∈ m \/ (root = k /\ exists l', l = (l' ++ [pid])%list /\ (l' = [] \/ (k, l') ∈ m)).
Proof.
  intros [E|H]%elem_dset; [|by left]. injection E as -> ->. right. split; [done|].
  eexists; split; [done|]. destruct (assoc k m) eqn:A; [right; by apply assoc_elem|by left].
Qed.

Lemma gathered_step parent0 ds fams root pid :
  gathered parent0 ds fams -> represents parent0 pid root -> gathered parent0 (pid :: ds) (append_to fams root pid).
Proof.
  intros (S & C & NE & P & ND) R. split; [|split; [|split; [|split]]].
  - intros r l x H X. apply append_to_elem in H as [H|(-> & l' & -> & H)].
    + destruct (S r l x H X). split; [by right|done].
    + apply elem_of_app in X as [X|X%list_elem_of_singleton]; [|subst; split; [by left|done]].
      destruct H as [->|H]; [by apply elem_of_nil in X|]. destruct (S root l' x H X). split; [by right|done].
  - intros x r [->|X]%elem_of_cons H; apply append_to_lists; [left|right; by apply C].
    split; [by eapply represents_det|done].
  - intros r l H. apply append_to_elem in H as [H|(-> & l' & -> & _)]; [by eapply NE|].
    by intros [_ ?]%app_eq_nil.
  - by rewrite concat_append_to, P.
  - by apply nodup_dset.
Qed.

Lemma gathers_ok parent0 l : forall ds fams parent,
  forest parent -> (forall x s, represents parent x s <-> represents parent0 x s) -> gathered parent0 ds fams ->
  exists parent' fams', fold_res gather l (parent, fams) = Ok (parent', fams') /\ gathered parent0 (rev l ++ ds) fams'.
Proof.
  induction l as [|p l IH]; intros ds fams parent F R G; cbn [fold_res rev]; [eauto|].
  destruct (represents_total parent p F) as (r & Rp).
  destruct (find_ok parent p r F Rp) as (p1 & E & F1 & R1 & _). unfold gather at 1. cbn [fst]. rewrite E.
  cbn [res_bind fst snd]. rewrite <-app_assoc. apply IH; [done|intros; by rewrite R1|].
  apply gathered_step; [done|by apply R].
Qed.

Section components.
Variable set_order : gset string -> list string.
Hypothesis set_order_spec : forall X x, x ∈ set_order X <-> x ∈ X.
Context (hub_cap : Z) (pulse_rows : list pulse_row) (cve_rows : list (string * string)) (ioc_rows : list ioc_row).
Hypothesis rows_bound : Z.of_nat (length ioc_rows) <= 2 ^ 40.

(** The two rules that put pulses in one family. *)
Definition linked (a b : string) : Prop :=
  (a ∈ map pulse_id pulse_rows /\ b ∈ map pulse_id pulse_rows /\
   bucket_of (cve_sets_of cve_rows) (name_map_of pulse_rows) a = bucket_of (cve_sets_of cve_rows) (name_map_of pulse_rows) b) \/
  similar_pulses (ioc_sets_of hub_cap ioc_rows) a b.

Lemma singletons_partition ids : partition (singletons ids) [].
Proof.
  apply partition_singletons. unfold singletons.
  enough (forall m : parents, (forall x p, m !! x = Some p -> p = x) ->
            forall x p, fold_left (fun m pid => <[pid := pid]> m) ids m !! x = Some p -> p = x) as H.
  { apply H. intros x p. by rewrite lookup_empty. }
  induction ids as [|i ids IH]; cbn [fold_left]; [done|]. intros m M. apply IH.
  intros x p. destruct (decide (x = i)) as [->|N]; [rewrite lookup_insert_eq; by intros [= ->]|].
  rewrite lookup_insert_ne by done. apply M.
Qed.

Lemma joined_linked merged :
  (forall e, e ∈ merged -> linked (fst e) (snd e)) ->
  (forall a b, linked a b -> joined merged a b) -> forall a b, joined merged a b <-> rtsc linked a b.
Proof.
  intros Sound Complete a b. pose proof (joined_equivalence merged) as Eq. split.
  - intros H. eapply rtc_subrel; [|exact H]. intros x y [K|K]; [left|right]; by apply Sound in K.
  - induction 1 as [|x y z H _ IH]; [reflexivity|]. transitivity y; [|done].
    destruct H as [H|H]; [by apply Complete|symmetry; by apply Complete].
Qed.

(** The clustering returns, and its families are the classes of [linked]. *)
Lemma families_spec :
  exists fams, families_of set_order hub_cap pulse_rows cve_rows ioc_rows = Ok fams /\
    List.concat (map snd fams) ≡ₚ map pulse_id pulse_rows /\ (forall g, g ∈ map snd fams -> g <> []) /\
    forall g a, g ∈ map snd fams -> a ∈ g -> forall b, b ∈ g <-> b ∈ map pulse_id pulse_rows /\ rtsc linked a b.
Proof using set_order_spec rows_bound.
  unfold families_of. set (ids := map pulse_id pulse_rows).
  set (buckets := buckets_of _ _ _).
  destruct (groups_ok (map snd buckets) _ _ (singletons_partition ids)) as (p1 & m1 & -> & P1 & M1). cbn [res_bind].
  set (iocs := ioc_sets_of hub_cap ioc_rows).
  destruct (visits_ok iocs ltac:(intros; by apply ioc_sets_small) (candidate_pairs (ioc_to_pulses_of set_order iocs)) ∅ p1 m1 P1
              ltac:(intros a b ?%elem_of_empty; done)) as (sn & p2 & m2 & -> & P2 & V & Sub & Or). cbn [res_bind snd].
  destruct P2 as (F2 & Pt).
  destruct (gathers_ok p2 ids [] [] p2 F2 ltac:(done)) as (p3 & fams & -> & (S & C & NE & P & ND)).
  { split; [by intros ? ? ? ?%elem_of_nil|]. split; [by intros ? ? ?%elem_of_nil|]. split; [by intros ? ? ?%elem_of_nil|].
    split; [done|by apply NoDup_nil]. }
  cbn [res_bind snd]. exists fams. split; [done|]. rewrite app_nil_r in *. split; [rewrite P; symmetry; apply Permutation_rev|]. split.
  { intros g G. apply list_elem_of_In, in_map_iff in G as ([r g'] & <- & G). apply (NE r). by apply list_elem_of_In. }
  assert (forall a b, joined m2 a b <-> rtsc linked a b) as J.
  { apply joined_linked.
    - intros [a b] [H|H]%Or; [|by right]. left. apply M1 in H as [H|(g & G & H)]; [by apply elem_of_nil in H|].
      by eapply buckets_sound.
    - intros a b [(A & B & E)|H].
      + apply (buckets_joined (cve_sets_of cve_rows) (name_map_of pulse_rows) ids); [|done|done|done].
        intros g e G H. apply Sub, M1. right. eauto.
      + destruct (decide (a = b)) as [->|N]; [apply (joined_equivalence m2)|].
        destruct (candidates_complete set_order set_order_spec iocs a b H N) as [K|K]; [by apply V|].
        symmetry. apply V; [done|by apply similar_sym]. }
  intros g a G Ag b. rewrite <-J. apply list_elem_of_In, in_map_iff in G as ([r g'] & E & G). cbn in E. subst g'.
  apply list_elem_of_In in G. destruct (S r g a G Ag) as (_ & Ra). split.
  - intros Bg. destruct (S r g b G Bg) as (B & Rb). rewrite elem_of_rev in B. split; [done|]. by apply (Pt a b r r Ra Rb).
  - intros (B & Jab). destruct (represents_total p2 b F2) as (rb & Rb). apply (Pt a b r rb Ra Rb) in Jab. subst rb.
    destruct (C b r ltac:(by rewrite elem_of_rev) Rb) as (l & El & Bl). apply assoc_elem in El.
    by rewrite (nodup_keys _ _ _ _ ND G El).
Qed.
End components.

(** ** The oldest pulse *)

Lemma parse_dt_range o us : _parse_dt o = Some us -> Z.abs us <= 2 ^ 60.
Proof.
  unfold _parse_dt. case_match; [|done]. destruct (fromisoformat _) as [dt|] eqn:E; [|done]. intros [= <-].
  by eapply fromisoformat_range.
Qed.

Lemma timestamp_ok us : Z.abs us <= 2 ^ 60 -> exists q, int_truediv us 1000000 = Ok (Fin q).
Proof.
  intros B. unfold int_truediv. cbn [Z.eqb]. rewrite mk_fin; [eauto|].
  assert (0 < inject_Z 1000000)%Q by by vm_compute. split.
  - apply Qle_shift_div_l; [done|]. rewrite <-inject_Z_opp, <-inject_Z_mult, <-Zle_Qle. lia.
  - apply Qle_shift_div_r; [done|]. rewrite <-inject_Z_mult, <-Zle_Qle. lia.
Qed.

(** A key as the code builds it: no NaN, no infinity. *)
Definition plain_key (k : sort_key) : Prop := match fst k with Some t => exists q, t = Fin q | None => True end.

Definition age (created_map : gmap string string) (pid : string) : sort_key :=
  match key_of created_map pid with Ok k => k | Raise _ => (None, pid) end.

Lemma key_of_age cm pid : key_of cm pid = Ok (age cm pid) /\ snd (age cm pid) = pid /\ plain_key (age cm pid).
Proof.
  unfold age, key_of, plain_key. destruct (_parse_dt (cm !! pid)) as [us|] eqn:E; [|done].
  destruct (timestamp_ok us) as (q & ->); [by eapply parse_dt_range|]. cbn. eauto.
Qed.

Lemma key_lt_trans a b c :
  plain_key a -> plain_key b -> plain_key c -> key_lt a b = false -> key_lt b c = false -> key_lt a c = false.
Proof.
  destruct a as [[ta|] sa], b as [[tb|] sb], c as [[tc|] sc]; unfold plain_key, key_lt; cbn [fst snd]; try done.
  - intros [a ->] [b ->] [c ->].
    rewrite !orb_false_iff, !andb_false_iff, !flt_fin_false. cbn [feq].
    assert (forall x y, Qeq_bool x y = false <-> ~ (x == y)%Q) as QN.
    { intros x y. rewrite <-Qeq_bool_iff. by destruct (Qeq_bool x y). }
    rewrite !QN. intros [L1 O1] [L2 O2]. split; [lra|].
    destruct O1 as [N1|O1]; [left; lra|]. destruct O2 as [N2|O2]; [left; lra|]. right.
    destruct (String.ltb sa sc) eqn:L; [|done].
    destruct (ltb_total sb sc O2) as [->|K]; [congruence|].
    destruct (ltb_total sa sb O1) as [->|K']; [congruence|].
    pose proof (ltb_trans _ _ _ L K). congruence.
  - intros _ _ _ O1 O2. destruct (String.ltb sa sc) eqn:L; [|done].
    destruct (ltb_total sb sc O2) as [->|K]; [congruence|]. pose proof (ltb_trans _ _ _ L K). congruence.
Qed.

Lemma key_lt_tie a b : plain_key a -> plain_key b -> key_lt a b = false -> key_lt b a = false -> snd a = snd b.
Proof.
  destruct a as [[ta|] sa], b as [[tb|] sb]; unfold plain_key, key_lt; cbn [fst snd]; try done.
  - intros [a ->] [b ->]. rewrite !orb_false_iff, !andb_false_iff, !flt_fin_false. cbn [feq].
    intros [L1 O1] [L2 O2]. assert (a == b)%Q as E by lra.
    assert (Qeq_bool a b = true) as E1 by by apply Qeq_bool_iff.
    assert (Qeq_bool b a = true) as E2 by (apply Qeq_bool_iff; by symmetry).
    destruct O1 as [N|O1]; [congruence|]. destruct O2 as [N|O2]; [congruence|].
    destruct (ltb_total sa sb O1) as [->|K]; [done|congruence].
  - intros _ _ O1 O2. destruct (ltb_total sa sb O1) as [->|K]; [done|congruence].
Qed.

(** [o] is the oldest of [ids]: among them, and none is older. *)
Definition oldest_of (cm : gmap string string) (ids : list string) (o : string) : Prop :=
  o ∈ ids /\ forall p, p ∈ ids -> key_lt (age cm p) (age cm o) = false.

Lemma key_lt_asym a b : plain_key a -> plain_key b -> key_lt a b = true -> key_lt b a = false.
Proof.
  destruct a as [[ta|] sa], b as [[tb|] sb]; unfold plain_key, key_lt; cbn [fst snd]; try done.
  - intros [a ->] [b ->]. rewrite orb_true_iff, andb_true_iff, orb_false_iff, andb_false_iff, flt_fin, flt_fin_false.
    cbn [feq]. rewrite Qeq_bool_iff. intros [L|[E L]].
    + split; [lra|]. left. destruct (Qeq_bool b a) eqn:E; [|done]. apply Qeq_bool_iff in E. lra.
    + split; [lra|]. right. destruct (String.ltb sb sa) eqn:L'; [|done].
      pose proof (ltb_trans _ _ _ L L') as X. by rewrite ltb_irrefl in X.
  - intros _ _ L. destruct (String.ltb sb sa) eqn:L'; [|done].
    pose proof (ltb_trans _ _ _ L L') as X. by rewrite ltb_irrefl in X.
Qed.

Lemma key_lt_irrefl a : plain_key a -> key_lt a a = false.
Proof. intros P. destruct (key_lt a a) eqn:E; [|done]. by rewrite (key_lt_asym a a P P E) in E. Qed.

Lemma oldest_unique cm ids ids' o o' :
  (forall p, p ∈ ids <-> p ∈ ids') -> oldest_of cm ids o -> oldest_of cm ids' o' -> o = o'.
Proof.
  intros E (I & M) (I' & M'). destruct (key_of_age cm o) as (_ & S & P), (key_of_age cm o') as (_ & S' & P').
  rewrite <-S, <-S'. apply key_lt_tie; [done|done| |]; [apply M', E, I|apply M, E, I'].
Qed.

Lemma first_smallest ks : forall k,
  (forall k', k' ∈ k :: ks -> plain_key k') ->
  let best := fold_left (fun best k => if key_lt k best then k else best) ks k in
  best ∈ k :: ks /\ forall k', k' ∈ k :: ks -> key_lt k' best = false.
Proof.
  induction ks as [|x ks IH]; intros k A; cbn [fold_left].
  - split; [by left|]. intros k' ->%list_elem_of_singleton. apply key_lt_irrefl, A. by left.
  - set (k1 := if key_lt x k then x else k).
    assert (forall y, y ∈ k1 :: ks -> y ∈ k :: x :: ks) as Sub.
    { intros y [->|Y]%elem_of_cons; [unfold k1; case_match; set_solver|set_solver]. }
    destruct (IH k1) as (B & M); [by auto|]. split; [by apply Sub|].
    pose proof (M k1 ltac:(by left)) as M1. set (best := fold_left _ ks k1) in *.
    pose proof (A best ltac:(by apply Sub)) as Pb. pose proof (A k ltac:(by left)) as Pk.
    pose proof (A x ltac:(by right; left)) as Px.
    assert (key_lt k best = false /\ key_lt x best = false) as [Kk Kx].
    { unfold k1 in M1. destruct (key_lt x k) eqn:L.
      - split; [|done]. apply (key_lt_trans k x best); [done|done|done| |done]. by apply key_lt_asym.
      - split; [done|]. by apply (key_lt_trans x k best). }
    intros k' [->|[->|H]%elem_of_cons]%elem_of_cons; [done|done|]. apply M. by right.
Qed.

Lemma oldest_ok cm ids : ids <> [] -> exists o, _oldest_pulse_id ids cm = Ok o /\ oldest_of cm ids o.
Proof.
  intros N. unfold _oldest_pulse_id.
  assert (map_res (key_of cm) ids = Ok (map (age cm) ids)) as ->.
  { clear N. induction ids as [|p ids IH]; [done|]. cbn [map_res map].
    destruct (key_of_age cm p) as (-> & _). cbn [res_bind]. by rewrite IH. }
  cbn [res_bind]. destruct ids as [|p ids]; [done|]. cbn [map].
  destruct (first_smallest (map (age cm) ids) (age cm p)) as (B & M).
  { intros k K. change (age cm p :: map (age cm) ids) with (map (age cm) (p :: ids)) in K.
    apply list_elem_of_In, in_map_iff in K as (q & <- & _). apply key_of_age. }
  set (best := fold_left _ _ _) in *. exists (snd best). split; [done|].
  change (age cm p :: map (age cm) ids) with (map (age cm) (p :: ids)) in *.
  apply list_elem_of_In, in_map_iff in B as (q & Eq & Q). apply list_elem_of_In in Q.
  destruct (key_of_age cm q) as (_ & S & _). rewrite <-Eq, S. split; [done|]. intros r R. rewrite Eq. apply M.
  by apply list_elem_of_In, in_map, list_elem_of_In.
Qed.

(** ** The rows of the rebuild *)

Lemma rebuild_nonempty set_order hub_cap pulse_rows cve_rows ioc_rows :
  pulse_rows <> [] ->
  rebuild_pulse_families set_order hub_cap pulse_rows cve_rows ioc_rows =
  let! fams := families_of set_order hub_cap pulse_rows cve_rows ioc_rows in
  let! rows := map_res (fun e => family_rows (created_map_of pulse_rows) (snd e)) fams in
  Ok (List.concat rows, (Z.of_nat (length fams), Z.of_nat (length pulse_rows))).
Proof. by destruct pulse_rows. Qed.

Section rows.
Context (hub_cap : Z) (pulse_rows : list pulse_row) (cve_rows : list (string * string)) (ioc_rows : list ioc_row).
#[local] Abbreviation ids := (map pulse_id pulse_rows).
#[local] Abbreviation cm := (created_map_of pulse_rows).

(** The oldest pulse linked to [a]. *)
Definition eldest (a o : string) : Prop :=
  o ∈ ids /\ rtsc (linked hub_cap pulse_rows cve_rows ioc_rows) a o /\
  forall q, q ∈ ids -> rtsc (linked hub_cap pulse_rows cve_rows ioc_rows) a q -> key_lt (age cm q) (age cm o) = false.

Lemma eldest_unique a o o' : eldest a o -> eldest a o' -> o = o'.
Proof.
  intros (I & L & M) (I' & L' & M'). destruct (key_of_age cm o) as (_ & S & P), (key_of_age cm o') as (_ & S' & P').
  rewrite <-S, <-S'. apply key_lt_tie; [done|done|by apply M'|by apply M].
Qed.

Lemma family_rows_ok (fams : list (string * list string)) :
  (forall g, g ∈ map snd fams -> g <> []) ->
  exists rows, map_res (fun e => family_rows cm (snd e)) fams = Ok rows /\
    map fr_pulse (List.concat rows) = List.concat (map snd fams) /\
    forall r, r ∈ List.concat rows -> exists g o, g ∈ map snd fams /\ fr_pulse r ∈ g /\ oldest_of cm g o /\
      fr_family r = family_id_for_oldest_pulse o.
Proof.
  induction fams as [|[root g] fams IH]; intros NE.
  - exists []. split; [done|]. split; [done|]. by intros r ?%elem_of_nil.
  - cbn [map_res snd]. unfold family_rows at 1.
    destruct (oldest_ok cm g) as (o & -> & O); [apply NE; by left|]. cbn [res_bind].
    destruct IH as (rows & -> & E & R); [intros g' G'; apply NE; by right|]. cbn [res_bind]. eexists. split; [done|].
    cbn [List.concat map snd]. split.
    + rewrite map_app, map_map, E. cbn [fr_pulse]. by rewrite map_id.
    + intros r [H|H]%elem_of_app.
      * apply list_elem_of_In, in_map_iff in H as (p & <- & P). exists g, o. cbn [fr_pulse fr_family].
        split; [by left|]. split; [by apply list_elem_of_In|done].
      * destruct (R r H) as (g' & o' & G' & K). exists g', o'. split; [by right|done].
Qed.

Lemma rebuild_spec set_order :
  (forall X x, x ∈ set_order X <-> x ∈ X) -> Z.of_nat (length ioc_rows) <= 2 ^ 40 ->
  exists rows n, rebuild_pulse_families set_order hub_cap pulse_rows cve_rows ioc_rows = Ok (rows, (n, Z.of_nat (length pulse_rows))) /\
    map fr_pulse rows ≡ₚ ids /\
    forall r, r ∈ rows -> exists o, eldest (fr_pulse r) o /\ fr_family r = family_id_for_oldest_pulse o.
Proof.
  intros SO B. destruct (families_spec set_order SO hub_cap pulse_rows cve_rows ioc_rows B) as (fams & E & P & NE & C).
  destruct (decide (pulse_rows = [])) as [->|NZ].
  { exists [], 0. split; [done|]. split; [done|]. by intros r ?%elem_of_nil. }
  rewrite rebuild_nonempty, E by done. cbn [res_bind].
  destruct (family_rows_ok fams NE) as (rows & -> & Er & R). cbn [res_bind].
  exists (List.concat rows), (Z.of_nat (length fams)). split; [done|]. split; [by rewrite Er, P|].
  intros r H. destruct (R r H) as (g & o & G & Pg & (Og & Om) & F). exists o. split; [|done].
  destruct (proj1 (C g _ G Pg o) Og) as (Oi & Ol). split; [done|]. split; [done|].
  intros q Q L. apply Om. by apply (C g _ G Pg).
Qed.
End rows.

(** C4 The families are the connected components of the two rules: the rebuild
    always returns, writes one row per pulse, and gives two pulses the same family
    members exactly when a chain of equal buckets and similar IOC sets joins them.
    Neither the candidate search over shared IOCs nor the float threshold loses or
    adds a pair. *)
Theorem families_are_components set_order hub_cap pulse_rows cve_rows ioc_rows :
  (forall X x, x ∈ set_order X <-> x ∈ X) -> Z.of_nat (length ioc_rows) <= 2 ^ 40 ->
  exists fams, families_of set_order hub_cap pulse_rows cve_rows ioc_rows = Ok fams /\
    List.concat (map snd fams) ≡ₚ map pulse_id pulse_rows /\
    forall g a, g ∈ map snd fams -> a ∈ g ->
      forall b, b ∈ g <-> b ∈ map pulse_id pulse_rows /\ rtsc (linked hub_cap pulse_rows cve_rows ioc_rows) a b.
Proof.
  intros SO B. destruct (families_spec set_order SO hub_cap pulse_rows cve_rows ioc_rows B) as (fams & E & P & _ & C). eauto.
Qed.

(** Python iterates a set in an order that changes from process to process.  The
    family rows do not depend on it: every pulse gets the identifier of the oldest
    pulse of its component, whatever the order was. *)
Theorem family_rows_order_free order order' hub_cap pulse_rows cve_rows ioc_rows :
  (forall X x, x ∈ order X <-> x ∈ X) -> (forall X x, x ∈ order' X <-> x ∈ X) ->
  Z.of_nat (length ioc_rows) <= 2 ^ 40 ->
  exists rows rows' n n',
    rebuild_pulse_families order hub_cap pulse_rows cve_rows ioc_rows = Ok (rows, n) /\
    rebuild_pulse_families order' hub_cap pulse_rows cve_rows ioc_rows = Ok (rows', n') /\
    map fr_pulse rows ≡ₚ map pulse_id pulse_rows /\ rows ≡ₚ rows' /\
    forall r, r ∈ rows -> exists o, eldest hub_cap pulse_rows cve_rows ioc_rows (fr_pulse r) o /\
      fr_family r = family_id_for_oldest_pulse o.
Proof.
  intros O O' B.
  destruct (rebuild_spec hub_cap pulse_rows cve_rows ioc_rows order O B) as (rows & n & E & P & R).
  destruct (rebuild_spec hub_cap pulse_rows cve_rows ioc_rows order' O' B) as (rows' & n' & E' & P' & R').
  exists rows, rows', (n, Z.of_nat (length pulse_rows)), (n', Z.of_nat (length pulse_rows)).
  do 3 (split; [done|]). split; [|done].
  apply (keyed_permutation fr_pulse); [by rewrite P, P'|]. intros [p f] [p' f'] H H' Ep. cbn in Ep. subst p'.
  destruct (R _ H) as (o & L & F), (R' _ H') as (o' & L' & F'). cbn in *.
  by rewrite F, F', (eldest_unique _ _ _ _ _ _ _ L L').
Qed.

(** ** At concrete rows *)

Definition demo_pulses : list pulse_row :=
  [mkPulse "p2" (Some "Storm | Part 2/2") (Some "2026-05-02"); mkPulse "p1" (Some "Storm | Part 1/2") (Some "2026-05-01");
   mkPulse "p3" (Some "Other") None; mkPulse "p4" (Some "Alone") (Some "2026-05-03")].
Definition demo_cves : list (string * string) :=
  [("p1", "CVE-1"); ("p2", "CVE-1"); ("p1", "CVE-2"); ("p2", "CVE-2"); ("p3", "CVE-3"); ("p4", "CVE-3")].
Definition demo_iocs : list ioc_row :=
  flat_map (fun p => map (fun v => mkIoc p "IP" v (Some 2)) ["1.1.1.9"; "1.1.1.8"; "1.1.1.7"]) ["p1"; "p3"].

Definition elements_order (X : gset string) : list string := elements X.

Lemma elements_order_spec X x : x ∈ elements_order X <-> x ∈ X.
Proof. apply elem_of_elements. Qed.

Example part_suffix_cut : normalize_pulse_name " Lazarus_Group  ops! | Part 2 / 3 " = "lazarus group ops".
Proof. vm_compute. reflexivity. Qed.

Example demo_families :
  families_of elements_order 50 demo_pulses demo_cves demo_iocs
  = Ok [("p2", ["p2"; "p1"; "p3"]); ("p4", ["p4"])].
Proof. vm_compute. auto. Qed.

Lemma families_are_components_witness :
  (exists fams, families_of elements_order 50 demo_pulses demo_cves demo_iocs = Ok fams /\
    List.concat (map snd fams) ≡ₚ map pulse_id demo_pulses /\
    forall g a, g ∈ map snd fams -> a ∈ g ->
      forall b, b ∈ g <-> b ∈ map pulse_id demo_pulses /\ rtsc (linked 50 demo_pulses demo_cves demo_iocs) a b).
Proof. apply families_are_components; [exact elements_order_spec|by vm_compute]. Defined.

Lemma family_rows_order_free_witness :
  exists rows rows' n n',
    rebuild_pulse_families elements_order 50 demo_pulses demo_cves demo_iocs = Ok (rows, n) /\
    rebuild_pulse_families (fun X => rev (elements_order X)) 50 demo_pulses demo_cves demo_iocs = Ok (rows', n') /\
    map fr_pulse rows ≡ₚ map pulse_id demo_pulses /\ rows ≡ₚ rows' /\
    forall r, r ∈ rows -> exists o, eldest 50 demo_pulses demo_cves demo_iocs (fr_pulse r) o /\
      fr_family r = family_id_for_oldest_pulse o.
Proof.
  apply family_rows_order_free; [exact elements_order_spec| |by vm_compute].
  intros X x. rewrite elem_of_rev. apply elements_order_spec.
Defined.
