(* ===== verification/Wallboard.v ===== *)
(** * Wallboard: wallboard/token_store.py, wallboard/session.py

    The kiosk token of the wallboard, its rotation, the signed session cookies and
    the issuance tokens, and what a revocation revokes.  The settings table is a
    map; each server process caches the generation and the token.  Encryption
    (settings_crypto, Fernet) and JWT (PyJWT) are parameters. *)

From Stdlib Require Import QArith Qround DecimalString.
From S2P Require Import Prelude PyStr DecText PyVal CveRow Sha256.
Open Scope string_scope.
Open Scope Z_scope.

Definition GEN_KEY : string := "wallboard.token_generation".
Definition ROTATED_TOKEN_KEY : string := "wallboard.rotated_token".
Definition LAST_ROTATION_KEY : string := "wallboard.last_rotation_at".
Definition ISSUANCE_PREFIX : string := "wbiss.".
Definition TTL_SECONDS : Z := 30 * 86400.

Record settings := mkSettings { wallboard_auto_token : bool; wallboard_token : string; jwt_secret : string; issuance_minutes : Z }.

Abbreviation app_settings := (gmap string string).
Record process := mkProc { _generation_cache : option Z; _rotated_token_cache : option string }.

(** The claims of an issuance token that are read back: [exp] in seconds, the rest as stored. *)
Record claims := mkClaims { cl_sub : string; cl_exp : Q; cl_gen : Z; cl_typ : string }.

Section tokens.
Variable cfg : settings.
Variable encrypt_secret : string -> option string.
Variable decrypt_secret : string -> res string.
Variable jwt_encode : claims -> string -> string.
(** [jwt.decode] at an instant: [None] is any [PyJWTError]. *)
Variable jwt_decode : Q -> string -> string -> option claims.

Definition or_text (a b : string) : string := if nonempty a then a else b.

(** ** token_store.py *)

Definition stored_generation (db : app_settings) : Z :=
  match int_of_str (or_text (text_or (db !! GEN_KEY)) "0") with Ok n => n | Raise _ => 0 end.

Definition _load_generation (db : app_settings) (p : process) : Z * process :=
  (stored_generation db, mkProc (Some (stored_generation db)) (_rotated_token_cache p)).

Definition get_token_generation (db : app_settings) (p : process) : Z * process :=
  match _generation_cache p with Some g => (g, p) | None => _load_generation db p end.

Definition stored_token (db : app_settings) : string :=
  match db !! ROTATED_TOKEN_KEY with
  | Some stored => if nonempty stored then match decrypt_secret stored with Ok t => t | Raise _ => "" end else ""
  | None => ""
  end.

Definition _load_rotated_token (db : app_settings) (p : process) : string * process :=
  (stored_token db, mkProc (_generation_cache p) (Some (stored_token db))).

Definition get_effective_wallboard_token (db : app_settings) (p : process) : string * process :=
  if negb (wallboard_auto_token cfg) then (wallboard_token cfg, p)
  else match _rotated_token_cache p with
       | Some t => (or_text t (wallboard_token cfg), p)
       | None => let '(t, p) := _load_rotated_token db p in (or_text t (wallboard_token cfg), p)
       end.

Definition _invalidate_caches (p : process) : process := mkProc None None.

Definition token_digest (token : string) : list Z := digest (bytes_of token).

Definition token_matches_configured (db : app_settings) (p : process) (provided : string) : bool * process :=
  let '(configured, p) := get_effective_wallboard_token db p in
  (nonempty configured && bool_decide (token_digest provided = token_digest configured), p).

Definition _signing_key : string :=
  or_text (jwt_secret cfg) (or_text (wallboard_token cfg) "briefr-wallboard-dev").

Definition issue_issuance_token (now : Q) (username : string) (generation : Z) : string * Q :=
  let exp := (now + inject_Z (60 * Z.max 1 (issuance_minutes cfg)))%Q in
  (ISSUANCE_PREFIX +:+ jwt_encode (mkClaims username exp generation "wallboard_issuance") _signing_key, exp).

Definition verify_issuance_token (now : Q) (token : string) (expected_generation : Z) : bool :=
  if negb (nonempty token) || negb (startswith token ISSUANCE_PREFIX) then false
  else match jwt_decode now (sdrop (String.length ISSUANCE_PREFIX) token) _signing_key with
       | None => false
       | Some c =>
           if negb (String.eqb (cl_typ c) "wallboard_issuance") then false
           else (if cl_gen c =? 0 then -1 else cl_gen c) =? expected_generation
       end.

Definition stored_form (token : string) : string := match encrypt_secret token with Some e => e | None => token end.

Definition rotate_wallboard_token (new_token stamp : string) (db : app_settings) (p : process) : app_settings * process :=
  let generation := stored_generation db + 1 in
  (<[LAST_ROTATION_KEY := stamp]> (<[ROTATED_TOKEN_KEY := stored_form new_token]> (<[GEN_KEY := str_of_Z generation]> db)),
   _invalidate_caches p).

Definition revoke_wallboard_tokens (stamp : string) (db : app_settings) (p : process) : app_settings * process :=
  let generation := stored_generation db + 1 in
  (<[LAST_ROTATION_KEY := stamp]> (<[GEN_KEY := str_of_Z generation]> db), _invalidate_caches p).

Definition ensure_rotated_token_seeded (random stamp : string) (db : app_settings) (p : process) : app_settings * process :=
  if negb (wallboard_auto_token cfg) || nonempty (text_or (db !! ROTATED_TOKEN_KEY)) then (db, p)
  else
    let seed := or_text (wallboard_token cfg) random in
    (<[LAST_ROTATION_KEY := stamp]> (<[GEN_KEY := "1"]> (<[ROTATED_TOKEN_KEY := stored_form seed]> db)), _invalidate_caches p).

(** ** session.py *)

Definition session_signature (payload : string) : string := hmac_sha256_hex _signing_key payload.

Definition issue_session_token (now : Q) (nonce : string) (generation : Z) : string :=
  let exp := Z.quot (Qnum now) (Zpos (Qden now)) + TTL_SECONDS in
  let payload := nonce +:+ "." +:+ str_of_Z exp +:+ "." +:+ str_of_Z generation in
  payload +:+ "." +:+ session_signature payload.

(** [exp < time.time()] on the text of the expiry. *)
Definition expired (now : Q) (exp_s : string) : bool :=
  match int_of_str exp_s with Ok exp => negb (Qle_bool now (inject_Z exp)) | Raise _ => true end.

Definition verify_session_token (now : Q) (token : string) (expected_generation : option Z) : bool :=
  match split_on "." token with
  | [nonce; exp_s; sig] =>
      if match expected_generation with Some g => 0 <? g | None => false end then false
      else negb (expired now exp_s) && String.eqb sig (session_signature (nonce +:+ "." +:+ exp_s))
  | [nonce; exp_s; gen_s; sig] =>
      match int_of_str gen_s with
      | Raise _ => false
      | Ok generation =>
          if match expected_generation with Some g => negb (generation =? g) | None => false end then false
          else negb (expired now exp_s) && String.eqb sig (session_signature (nonce +:+ "." +:+ exp_s +:+ "." +:+ gen_s))
      end
  | _ => false
  end.

Definition wallboard_token_matches (now : Q) (db : app_settings) (p : process) (provided : string) : bool * process :=
  if negb (nonempty provided) then (false, p)
  else if wallboard_auto_token cfg then
    let '(generation, p) := get_token_generation db p in
    if verify_issuance_token now provided generation then (true, p) else token_matches_configured db p provided
  else token_matches_configured db p provided.

(** ** dependencies.require_wallboard_token *)

Definition session_generation (db : app_settings) (p : process) : Z * process :=
  if wallboard_auto_token cfg then get_token_generation db p else (0, p).

(** Whether a request passes, with this cookie and this token header. *)
Definition require_wallboard_token (now : Q) (db : app_settings) (p : process) (cookie header : string) : bool * process :=
  let '(effective, p) := get_effective_wallboard_token db p in
  if negb (nonempty effective) && negb (nonempty (wallboard_token cfg)) then (true, p)
  else
    let '(generation, p) := session_generation db p in
    if nonempty cookie && verify_session_token now cookie (Some generation) then (true, p)
    else wallboard_token_matches now db p header.

(** ** The server: a settings table shared by processes with caches *)

Inductive request :=
| Check (now : Q) (cookie header : string)
| Rotate (new_token stamp : string)
| Revoke (stamp : string)
| Restart (random stamp : string).

Definition serve (r : request) (db : app_settings) (p : process) : app_settings * process :=
  match r with
  | Check now cookie header => (db, snd (require_wallboard_token now db p cookie header))
  | Rotate t stamp => rotate_wallboard_token t stamp db p
  | Revoke stamp => revoke_wallboard_tokens stamp db p
  | Restart random stamp => ensure_rotated_token_seeded random stamp db (mkProc None None)
  end.

Definition serve_all (rs : list request) (db : app_settings) (p : process) : app_settings * process :=
  fold_left (fun st r => serve r (fst st) (snd st)) rs (db, p).
End tokens.

(** ** Texts of a session token *)


Lemma hex_no_dot l : no_dot (hex_words l) = true.
Proof.
  eapply sforall_weaken; [|apply hex_words_hex]. intros c H.
  destruct (Ascii.eqb_spec c "."%char) as [->|]; done.
Qed.

Lemma split_four a b c d :
  no_dot a = true -> no_dot b = true -> no_dot c = true -> no_dot d = true ->
  split_on "." (a +:+ "." +:+ b +:+ "." +:+ c +:+ "." +:+ d) = [a; b; c; d].
Proof.
  intros A B C D. apply (split_on_sjoin "." [a; b; c; d]); [done|]. by repeat constructor.
Qed.

(** ** The generation *)

Section server.
Variable cfg : settings.
Variable encrypt_secret : string -> option string.
Variable decrypt_secret : string -> res string.
Variable jwt_encode : claims -> string -> string.
Variable jwt_decode : Q -> string -> string -> option claims.

#[local] Abbreviation serve := (serve cfg encrypt_secret decrypt_secret jwt_decode).
#[local] Abbreviation serve_all := (serve_all cfg encrypt_secret decrypt_secret jwt_decode).

(** The cache is empty or right. *)
Definition coherent (db : app_settings) (p : process) : Prop :=
  match _generation_cache p with None => True | Some g => g = stored_generation db end.

Definition seeded (db : app_settings) : Prop := nonempty (text_or (db !! ROTATED_TOKEN_KEY)) = true.

(** A rotation stores a token that is not empty. *)
Definition proper (r : request) : Prop :=
  match r with Rotate t _ => nonempty (stored_form encrypt_secret t) = true | _ => True end.

Lemma stored_generation_bump (db : app_settings) stamp n :
  stored_generation (<[LAST_ROTATION_KEY := stamp]> (<[GEN_KEY := str_of_Z n]> db)) = n.
Proof.
  unfold stored_generation. rewrite lookup_insert_ne by done. rewrite lookup_insert_eq. cbn [text_or].
  unfold or_text. assert (nonempty (str_of_Z n) = true) as ->.
  { pose proof (int_of_str_of_Z n) as E. by destruct (str_of_Z n). }
  by rewrite int_of_str_of_Z.
Qed.

Lemma seeded_insert (db : app_settings) k v : k <> ROTATED_TOKEN_KEY -> seeded db -> seeded (<[k := v]> db).
Proof. unfold seeded. intros N H. by rewrite lookup_insert_ne. Qed.

Lemma get_generation db p : coherent db p ->
  fst (get_token_generation db p) = stored_generation db /\ coherent db (snd (get_token_generation db p)).
Proof. unfold get_token_generation, coherent. destruct (_generation_cache p) as [g|] eqn:E; [|done]. intros ->. cbn [fst snd]. by rewrite ?E. Qed.

Lemma effective_coherent db p :
  coherent db p -> coherent db (snd (get_effective_wallboard_token cfg decrypt_secret db p)).
Proof.
  unfold get_effective_wallboard_token. destruct (negb (wallboard_auto_token cfg)); [done|].
  by destruct (_rotated_token_cache p).
Qed.

Lemma matches_coherent db p t :
  coherent db p -> coherent db (snd (token_matches_configured cfg decrypt_secret db p t)).
Proof.
  intros C. apply effective_coherent in C. unfold token_matches_configured.
  by destruct (get_effective_wallboard_token cfg decrypt_secret db p).
Qed.

Lemma check_coherent now db p cookie header :
  coherent db p -> coherent db (snd (require_wallboard_token cfg decrypt_secret jwt_decode now db p cookie header)).
Proof.
  intros C. apply effective_coherent in C. unfold require_wallboard_token.
  destruct (get_effective_wallboard_token cfg decrypt_secret db p) as [e p1]. cbn [snd] in C. case_match; [done|].
  assert (coherent db (snd (session_generation cfg db p1))) as C2.
  { unfold session_generation. case_match; [by apply get_generation|done]. }
  destruct (session_generation cfg db p1) as [g p2]. cbn [snd] in C2. case_match; [done|].
  unfold wallboard_token_matches. case_match; [done|]. case_match; [|by apply matches_coherent].
  pose proof (get_generation db p2 C2) as [_ C3]. destruct (get_token_generation db p2) as [g3 p3]. cbn [snd] in C3.
  case_match; [done|by apply matches_coherent].
Qed.

(** Every request keeps the cache right and the generation from going back. *)
Lemma serve_ok r db p :
  proper r -> coherent db p -> seeded db ->
  let st := serve r db p in
  coherent (fst st) (snd st) /\ seeded (fst st) /\ stored_generation db <= stored_generation (fst st).
Proof.
  intros P C S. destruct r as [now cookie header|t stamp|stamp|random stamp]; cbn [Wallboard.serve].
  - cbn [fst snd]. split; [by apply check_coherent|]. split; [done|lia].
  - unfold rotate_wallboard_token. cbn [fst snd]. split; [done|]. split.
    + apply seeded_insert; [done|]. unfold seeded. by rewrite lookup_insert_eq.
    + rewrite (insert_insert_ne _ ROTATED_TOKEN_KEY GEN_KEY) by done. rewrite stored_generation_bump. lia.
  - unfold revoke_wallboard_tokens. cbn [fst snd]. split; [done|]. split; [by do 2 (apply seeded_insert; [done|])|].
    rewrite stored_generation_bump. lia.
  - unfold ensure_rotated_token_seeded. rewrite S, orb_true_r. cbn [fst snd]. split; [done|]. split; [done|lia].
Qed.

Lemma serve_all_ok rs : forall db p,
  Forall proper rs -> coherent db p -> seeded db ->
  let st := serve_all rs db p in
  coherent (fst st) (snd st) /\ stored_generation db <= stored_generation (fst st).
Proof.
  induction rs as [|r rs IH]; intros db p P C S; [cbn; split; [done|lia]|].
  inversion P as [|? ? Pr Prs]; subst. destruct (serve_ok r db p Pr C S) as (C1 & S1 & L1).
  unfold Wallboard.serve_all. cbn [fold_left fst snd]. destruct (serve r db p) as [db1 p1]. cbn [fst snd] in *.
  destruct (IH db1 p1 Prs C1 S1) as (C2 & L2). split; [exact C2|]. unfold Wallboard.serve_all in L2. lia.
Qed.

Lemma verify_issued now now' nonce generation expected :
  no_dot nonce = true ->
  verify_session_token cfg now' (issue_session_token cfg now nonce generation) (Some expected)
  = (generation =? expected) && Qle_bool now' (inject_Z (Z.quot (Qnum now) (Zpos (Qden now)) + TTL_SECONDS)).
Proof.
  intros N. unfold verify_session_token, issue_session_token. set (exp := Z.quot _ _ + TTL_SECONDS).
  assert (forall a b c d : string, (a +:+ "." +:+ b +:+ "." +:+ c) +:+ "." +:+ d = a +:+ "." +:+ b +:+ "." +:+ c +:+ "." +:+ d) as A.
  { intros. by rewrite !sapp_assoc. }
  rewrite A, split_four; [|done|apply str_of_Z_no_dot|apply str_of_Z_no_dot|apply hex_no_dot].
  rewrite int_of_str_of_Z. unfold expired. rewrite int_of_str_of_Z, negb_involutive, String.eqb_refl, andb_true_r.
  by destruct (generation =? expected).
Qed.

(** PyJWT at the level used: a token it made decodes under its key, until the
    whole second in which it expires, to the claims it was made of. *)
Definition jwt_law : Prop :=
  forall now c secret, jwt_decode now (jwt_encode c secret) secret =
    if Qle_bool (inject_Z (Qfloor (cl_exp c))) now then None
    else Some (mkClaims (cl_sub c) (inject_Z (Qfloor (cl_exp c))) (cl_gen c) (cl_typ c)).

Lemma issuance_verified now now' username generation expected :
  jwt_law ->
  let issued := issue_issuance_token cfg jwt_encode now username generation in
  verify_issuance_token cfg jwt_decode now' (fst issued) expected
  = negb (Qle_bool (inject_Z (Qfloor (snd issued))) now') && ((if generation =? 0 then -1 else generation) =? expected).
Proof.
  intros Law. unfold verify_issuance_token, issue_issuance_token. cbn [fst snd].
  change (sdrop (String.length ISSUANCE_PREFIX) (ISSUANCE_PREFIX +:+ jwt_encode ?c ?k)) with (jwt_encode c k).
  rewrite Law. cbn [cl_exp cl_gen cl_typ].
  assert (startswith (ISSUANCE_PREFIX +:+ jwt_encode (mkClaims username
     (now + inject_Z (60 * Z.max 1 (issuance_minutes cfg)))%Q generation "wallboard_issuance") (_signing_key cfg)) ISSUANCE_PREFIX = true) as ->
    by apply prefix_app.
  cbn [nonempty ISSUANCE_PREFIX orb negb]. by destruct (Qle_bool _ now').
Qed.
End server.

(** *** Properties *)

(** A session cookie is accepted exactly until its expiry, thirty days after the
    second it was issued in, and only at the generation it was issued for. *)
Theorem session_roundtrip cfg now now' nonce generation expected :
  no_dot nonce = true ->
  let cookie := issue_session_token cfg now nonce generation in
  verify_session_token cfg now' cookie (Some expected) = true <->
  generation = expected /\ (now' <= inject_Z (Z.quot (Qnum now) (Zpos (Qden now)) + TTL_SECONDS))%Q.
Proof. intros N. cbn zeta. rewrite verify_issued by done. by rewrite andb_true_iff, Z.eqb_eq, Qle_bool_iff. Qed.

(** C5 Revocation, with automatic tokens: every session cookie and every issuance
    token handed out before it is refused after it, for good, whatever requests,
    rotations, revocations and restarts follow in that process. *)
Theorem revoked_tokens_stay_out cfg encrypt decrypt jwt_encode jwt_decode stamp rs db p :
  wallboard_auto_token cfg = true -> jwt_law jwt_encode jwt_decode ->
  coherent db p -> seeded db -> Forall (proper encrypt) rs ->
  let st := serve_all cfg encrypt decrypt jwt_decode (Revoke stamp :: rs) db p in
  let current := fst (session_generation cfg (fst st) (snd st)) in
  forall generation, 0 < generation <= stored_generation db ->
    (forall t nonce now, no_dot nonce = true -> verify_session_token cfg now (issue_session_token cfg t nonce generation) (Some current) = false) /\
    (forall t user now, verify_issuance_token cfg jwt_decode now (fst (issue_issuance_token cfg jwt_encode t user generation)) current = false).
Proof.
  intros Auto Law C S P. set (db1 := fst (revoke_wallboard_tokens stamp db p)). set (p1 := snd (revoke_wallboard_tokens stamp db p)).
  assert (stored_generation db1 = stored_generation db + 1) as G by apply stored_generation_bump.
  assert (seeded db1) as S1 by (unfold db1; cbn; by do 2 (apply seeded_insert; [done|])).
  destruct (serve_all_ok cfg encrypt decrypt jwt_decode rs db1 p1 P I S1) as (C2 & L2).
  change (serve_all cfg encrypt decrypt jwt_decode (Revoke stamp :: rs) db p)
    with (serve_all cfg encrypt decrypt jwt_decode rs db1 p1).
  set (st := serve_all cfg encrypt decrypt jwt_decode rs db1 p1) in *. cbn zeta.
  unfold session_generation. rewrite Auto, (proj1 (get_generation _ _ C2)). intros g B. split; intros.
  - rewrite verify_issued by done. by rewrite (proj2 (Z.eqb_neq _ _)) by lia.
  - rewrite issuance_verified by done. rewrite (proj2 (Z.eqb_neq g 0)), (proj2 (Z.eqb_neq g _)), andb_false_r by lia. done.
Qed.

(** Without automatic tokens the revocation revokes nothing: cookies are issued
    for generation 0 and checked against 0, so one issued before it is accepted
    until it expires. *)
Theorem manual_revocation_is_void cfg encrypt decrypt jwt_decode rs db p t nonce now :
  wallboard_auto_token cfg = false -> no_dot nonce = true ->
  (now <= inject_Z (Z.quot (Qnum t) (Zpos (Qden t)) + TTL_SECONDS))%Q ->
  let st := serve_all cfg encrypt decrypt jwt_decode rs db p in
  fst (require_wallboard_token cfg decrypt jwt_decode now (fst st) (snd st) (issue_session_token cfg t nonce 0) "") = true.
Proof.
  intros Manual N L. cbn zeta. set (st := serve_all _ _ _ _ _ _ _). unfold require_wallboard_token.
  destruct (get_effective_wallboard_token _ _ _ _) as [e p1]. case_match; [done|].
  unfold session_generation. rewrite Manual. rewrite verify_issued by done.
  rewrite (proj2 (Qle_bool_iff _ _)) by done.
  assert (nonempty (issue_session_token cfg t nonce 0) = true) as ->; [|done].
  unfold issue_session_token. rewrite !nonempty_app. by rewrite !orb_true_r.
Qed.

(** Each server process caches the generation without a time limit, and a
    revocation clears the cache of its own process only: another worker that has
    served a request goes on accepting the revoked cookies. *)
Theorem other_worker_accepts_revoked cfg encrypt decrypt jwt_decode db p other t nonce stamp now :
  wallboard_auto_token cfg = true -> no_dot nonce = true ->
  _generation_cache other = Some (stored_generation db) ->
  (now <= inject_Z (Z.quot (Qnum t) (Zpos (Qden t)) + TTL_SECONDS))%Q ->
  let db' := fst (serve cfg encrypt decrypt jwt_decode (Revoke stamp) db p) in
  fst (require_wallboard_token cfg decrypt jwt_decode now db' other (issue_session_token cfg t nonce (stored_generation db)) "") = true.
Proof.
  intros Auto N C L. cbn zeta. unfold require_wallboard_token.
  destruct (get_effective_wallboard_token cfg decrypt _ other) as [e p1] eqn:E. case_match; [done|].
  assert (_generation_cache p1 = Some (stored_generation db)) as C1.
  { unfold get_effective_wallboard_token in E. rewrite Auto in E. cbn [negb] in E.
    destruct (_rotated_token_cache other); injection E as <- <-; done. }
  unfold session_generation, get_token_generation. rewrite Auto, C1. rewrite verify_issued by done.
  rewrite Z.eqb_refl, (proj2 (Qle_bool_iff _ _)) by done.
  assert (nonempty (issue_session_token cfg t nonce (stored_generation db)) = true) as ->; [|done].
  unfold issue_session_token. rewrite !nonempty_app. by rewrite !orb_true_r.
Qed.

(** *** At concrete values *)

Definition demo_cfg (auto : bool) : settings := mkSettings auto "kiosk" "secret" 5.
Definition demo_db : app_settings := <[GEN_KEY := "3"]> {[ROTATED_TOKEN_KEY := "tok"]}.
Definition no_encryption (t : string) : option string := None.
Definition plain_decrypt (t : string) : res string := Ok t.

(** A stand-in for PyJWT that keeps the claims in the clear. *)
Definition clear_encode (c : claims) (secret : string) : string :=
  str_of_Z (Qfloor (cl_exp c)) +:+ "." +:+ str_of_Z (cl_gen c) +:+ "." +:+ str_of_Z (slen (cl_sub c)) +:+ "." +:+ cl_sub c +:+ cl_typ c.

Definition clear_decode (now : Q) (token secret : string) : option claims :=
  '(e, r) ← split_once "." token; '(g, r) ← split_once "." r; '(n, r) ← split_once "." r;
  match int_of_str e, int_of_str g, int_of_str n with
  | Ok e, Ok g, Ok n =>
      if Qle_bool (inject_Z e) now then None
      else Some (mkClaims (stake (Z.to_nat n) r) (inject_Z e) g (sdrop (Z.to_nat n) r))
  | _, _, _ => None
  end.

Lemma clear_law : jwt_law clear_encode clear_decode.
Proof.
  intros now c secret. unfold clear_encode, clear_decode.
  rewrite !(app_cons "."), !app_nil.
  do 3 (rewrite split_once_app by apply str_of_Z_no_dot; cbn [mbind option_bind]).
  rewrite !int_of_str_of_Z. unfold slen. rewrite Nat2Z.id, stake_app, sdrop_app. done.
Qed.

Lemma session_roundtrip_witness :
  no_dot "a1" = true /\
  (verify_session_token (demo_cfg true) 200 (issue_session_token (demo_cfg true) 100 "a1" 3) (Some 3) = true <->
   3 = 3 /\ (200 <= inject_Z (Z.quot (Qnum 100) (Zpos (Qden 100)) + TTL_SECONDS))%Q).
Proof. split; [done|]. by apply session_roundtrip. Defined.

Lemma revoked_tokens_stay_out_witness :
  verify_session_token (demo_cfg true) 200 (issue_session_token (demo_cfg true) 100 "a1" 3)
    (Some (fst (session_generation (demo_cfg true)
       (fst (serve_all (demo_cfg true) no_encryption plain_decrypt clear_decode [Revoke "s"; Check 150 "c" "h"; Restart "r" "s"] demo_db (mkProc (Some 3) None)))
       (snd (serve_all (demo_cfg true) no_encryption plain_decrypt clear_decode [Revoke "s"; Check 150 "c" "h"; Restart "r" "s"] demo_db (mkProc (Some 3) None)))))) = false.
Proof.
  assert (coherent demo_db (mkProc (Some 3) None)) as C by by vm_compute.
  assert (0 < 3 <= stored_generation demo_db) as B by (split; [lia|by vm_compute]).
  assert (Forall (proper no_encryption) [Check 150 "c" "h"; Restart "r" "s"]) as P by by repeat constructor.
  exact (proj1 (revoked_tokens_stay_out (demo_cfg true) no_encryption plain_decrypt clear_encode clear_decode "s"
           [Check 150 "c" "h"; Restart "r" "s"] demo_db (mkProc (Some 3) None) eq_refl clear_law C eq_refl P 3 B) 100%Q "a1" 200%Q eq_refl).
Defined.

Lemma manual_revocation_is_void_witness :
  fst (require_wallboard_token (demo_cfg false) plain_decrypt clear_decode 200
    (fst (serve_all (demo_cfg false) no_encryption plain_decrypt clear_decode [Revoke "s"] demo_db (mkProc None None)))
    (snd (serve_all (demo_cfg false) no_encryption plain_decrypt clear_decode [Revoke "s"] demo_db (mkProc None None)))
    (issue_session_token (demo_cfg false) 100 "a1" 0) "") = true.
Proof. apply (manual_revocation_is_void (demo_cfg false)); [reflexivity|reflexivity|by vm_compute]. Defined.

Lemma other_worker_accepts_revoked_witness :
  fst (require_wallboard_token (demo_cfg true) plain_decrypt clear_decode 200
    (fst (serve (demo_cfg true) no_encryption plain_decrypt clear_decode (Revoke "s") demo_db (mkProc None None)))
    (mkProc (Some 3) None) (issue_session_token (demo_cfg true) 100 "a1" (stored_generation demo_db)) "") = true.
Proof. apply (other_worker_accepts_revoked (demo_cfg true)); [reflexivity|reflexivity|reflexivity|by vm_compute]. Defined.
