(* ===== verification/Catchup.v ===== *)
(** * Catchup: catchup_mode.py

    Catch-up mode: a window of at most a day in which the backlog jobs run with
    larger batches.  Its in-memory state, the row it is persisted in, and the
    limits it changes.  Instants are UTC microseconds; every reading of the clock
    is an argument.  The persisted JSON is kept as the value it denotes. *)

From Stdlib Require Import QArith Qround Lqa.
From S2P Require Import Prelude PyStr Float64 PyVal Dates DateText.
Open Scope string_scope.
Open Scope Z_scope.

Definition DEFAULT_DURATION_HOURS : Z := 6.
Definition MAX_DURATION_HOURS : Z := 24.
Definition WIND_DOWN_SECONDS : Z := 300.
Definition CATCHUP_LLM_HEADROOM_PCT : Z := 95.
Definition _EMBEDDINGS_MAX_CAP : Z := 5000.
Definition _CORRELATION_PRECOMPUTE_MAX_CAP : Z := 2000.

Record CatchupState := mkState {
  active : bool; started_at : option Z; ends_at : option Z; duration_hours : option fl;
  started_by : option string; cleared_reason : option string; db_persisted : bool
}.

Definition fresh : CatchupState := mkState false None None None None None true.

(** ** Dates and durations *)

(** [_format_utc]: [isoformat()] of a UTC instant, with [Z] for the zone. *)
Definition _format_utc (value : Z) : string :=
  let '(y, m, d) := civil_from_days (value / DAY_US) in
  let us := value mod DAY_US in
  zfill 4 y +:+ "-" +:+ zfill 2 m +:+ "-" +:+ zfill 2 d +:+ "T" +:+
  zfill 2 (us / 3600000000) +:+ ":" +:+ zfill 2 (us / 60000000 mod 60) +:+ ":" +:+ zfill 2 (us / 1000000 mod 60) +:+
  (if us mod 1000000 =? 0 then "" else "." +:+ zfill 6 (us mod 1000000)) +:+ "Z".

Definition _parse_iso_datetime (value : string) : option Z := option_map utc_us (fromisoformat (replace_Z value)).

Definition HOUR_US : Z := 3600000000.

(** [timedelta(hours=x)] in microseconds: the whole hours exactly, the fraction
    through one float product, rounded half to even; at most 999999999 days. *)
Definition timedelta_hours (x : fl) : res Z :=
  match x with
  | Fin q =>
      let whole := Z.quot (Qnum q) (Zpos (Qden q)) in
      match fmul (Fin (inject_Z HOUR_US)) (Fin (q - inject_Z whole)%Q) with
      | Fin us =>
          let total := whole * HOUR_US + rhe us in
          if Z.abs (total / DAY_US) <=? 999999999 then Ok total else Raise OverflowError
      | _ => Raise OverflowError
      end
  | NaN => Raise ValueError
  | _ => Raise OverflowError
  end.

(** [started_at + delta] *)
Definition add_us (t delta : Z) : res Z :=
  if (MIN_US <=? t + delta) && (t + delta <=? MAX_US) then Ok (t + delta) else Raise OverflowError.

(** [(end - start).total_seconds() / 3600] *)
Definition hours_between (started ends : Z) : res fl := let! s := int_truediv (ends - started) 1000000 in fdiv s (Fin 3600).

Definition _resolve_window (started : Z) (duration : option fl) (until : option datetime) : res (fl * Z) :=
  match duration, until with
  | Some _, Some _ => Raise CatchupValidationError
  | _, _ =>
      let! w := match until with
                | Some dt => let! d := hours_between started (utc_us dt) in Ok (d, utc_us dt)
                | None =>
                    let d := match duration with Some d => d | None => Fin (inject_Z DEFAULT_DURATION_HOURS) end in
                    let! delta := timedelta_hours d in let! e := add_us started delta in Ok (d, e)
                end in
      if fle (fst w) f0 then Raise CatchupValidationError
      else if flt (Fin (inject_Z MAX_DURATION_HOURS)) (fst w) then Raise CatchupValidationError
      else Ok w
  end.

(** ** The state machine *)

Definition _expire_if_needed (now : Z) (s : CatchupState) : CatchupState :=
  match ends_at s with
  | Some e => if active s && (e <=? now)
              then mkState false (started_at s) (ends_at s) (duration_hours s) (started_by s) (Some "expired") false else s
  | None => s
  end.

Definition _in_wind_down_locked (now : Z) (s : CatchupState) : bool :=
  match ends_at s with
  | Some e => active s && (e - now <=? WIND_DOWN_SECONDS * 1000000)
  | None => false
  end.

Definition opt_val {A} (f : A -> pyval) (o : option A) : pyval := match o with Some a => f a | None => PNone end.

(** The status without its in-memory field, as it is persisted. *)
Definition _public_status (now : Z) (s : CatchupState) : list (string * pyval) :=
  [("active", PBool (active s)); ("started_at", opt_val (fun t => PStr (_format_utc t)) (started_at s));
   ("ends_at", opt_val (fun t => PStr (_format_utc t)) (ends_at s)); ("duration_hours", opt_val PFloat (duration_hours s));
   ("started_by", opt_val PStr (started_by s)); ("cleared_reason", opt_val PStr (cleared_reason s));
   ("in_wind_down", PBool (_in_wind_down_locked now s));
   ("should_start_new_work", PBool (active s && negb (_in_wind_down_locked now s)))].

Definition is_catchup_active (now : Z) (s : CatchupState) : bool * CatchupState :=
  let s := _expire_if_needed now s in (active s, s).

Definition get_catchup_status (now now' : Z) (s : CatchupState) : list (string * pyval) * CatchupState :=
  let s := _expire_if_needed now s in (_public_status now' s, s).

Definition start_catchup (now now' : Z) (duration : option fl) (until : option datetime) (by_ : option string) (s : CatchupState)
  : res CatchupState * CatchupState :=
  let s := _expire_if_needed now s in
  if active s then (Raise CatchupConflictError, s)
  else match _resolve_window now' duration until with
       | Raise e => (Raise e, s)
       | Ok (d, e) => let s := mkState true (Some now') (Some e) (Some d) by_ None false in (Ok s, s)
       end.

Definition stop_catchup (now : Z) (reason : string) (s : CatchupState) : CatchupState :=
  let s := _expire_if_needed now s in
  if active s then mkState false (started_at s) (ends_at s) (duration_hours s) (started_by s) (Some reason) false else s.

(** ** Persistence *)

(** The row of [sync_state]: absent or empty, not JSON, or a value. *)
Inductive row := NoRow | NotJson | Json (v : pyval).

(** The two halves of [persist_catchup_status], with the database in between. *)
Definition write_status (payload : list (string * pyval)) (r : row) : row := Json (PDict payload).
Definition mark_persisted (s : CatchupState) : CatchupState :=
  mkState (active s) (started_at s) (ends_at s) (duration_hours s) (started_by s) (cleared_reason s) true.

Definition _last_blob_looked_active (now : Z) (previous : list (string * pyval)) : bool :=
  match dget previous "active", dget previous "ends_at" with
  | PBool true, PStr e =>
      nonempty e && match _parse_iso_datetime e with Some t => now <? t | None => false end
  | _, _ => false
  end.

(** The cleared blob; [pop] comes last, so the order of the keys is kept. *)
Definition cleared_blob (now : Z) (previous : list (string * pyval)) : list (string * pyval) :=
  let d := dset previous "active" (PBool false) in
  let d := dset d "cleared_reason" (PStr (if _last_blob_looked_active now previous then "restart" else "expired")) in
  let d := dset d "in_wind_down" (PBool false) in
  let d := dset d "should_start_new_work" (PBool false) in
  List.filter (fun e => negb (String.eqb (fst e) "db_persisted")) d.

Definition clear_catchup_after_restart (now : Z) (r : row) (s : CatchupState) : row * CatchupState :=
  match r with
  | Json (PDict previous) =>
      match dget previous "active" with
      | PBool true => (Json (PDict (cleared_blob now previous)), fresh)
      | _ => (r, fresh)
      end
  | _ => (r, fresh)
  end.

(** ** The limits it changes *)

Definition effective_embeddings_max_per_run (now : Z) (s : CatchupState) (base : Z) : Z :=
  if fst (is_catchup_active now s) then Z.min (base * 2) _EMBEDDINGS_MAX_CAP else base.
Definition effective_correlation_precompute_max_per_run (now : Z) (s : CatchupState) (base : Z) : Z :=
  if fst (is_catchup_active now s) then Z.min (base * 2) _CORRELATION_PRECOMPUTE_MAX_CAP else base.
Definition effective_llm_headroom_pct (now : Z) (s : CatchupState) (base : Z) : Z :=
  if fst (is_catchup_active now s) then Z.min 100 (Z.max base CATCHUP_LLM_HEADROOM_PCT) else base.

Example format_ex : _format_utc (days_from_civil 2026 2 28 * DAY_US + 3661000005) = "2026-02-28T01:01:01.000005Z".
Proof. vm_compute. reflexivity. Qed.
Example format_ex2 : _format_utc (days_from_civil 2024 2 29 * DAY_US) = "2024-02-29T00:00:00Z".
Proof. vm_compute. reflexivity. Qed.
Example timedelta_ex : timedelta_hours (lit (1 # 10)) = Ok 360000000.
Proof. vm_compute. reflexivity. Qed.

(** ** The window *)

Lemma mk_fin_inv q r : mk q = Fin r -> r = rnd q.
Proof. unfold mk. repeat case_match; by intros [= <-]. Qed.

Lemma whole_part q : (0 <= q)%Q -> let w := Z.quot (Qnum q) (Zpos (Qden q)) in 0 <= w /\ (inject_Z w <= q)%Q /\ (q < inject_Z (w + 1))%Q.
Proof.
  intros P. assert (0 <= Qnum q) as N by (unfold Qle in P; cbn in P; lia).
  rewrite Z.quot_div_nonneg by lia. change (Qnum q / Zpos (Qden q)) with (Qnum q / QDen q).
  assert (Qnum q / QDen q = Qfloor q) as -> by (by destruct q).
  split; [|split; [apply Qfloor_le|apply Qlt_floor]].
  exact (Qfloor_resp_le 0 q P).
Qed.

(** A duration of at most a day is at most a day of microseconds. *)
Lemma timedelta_range q delta :
  (0 <= q <= 24)%Q -> timedelta_hours (Fin q) = Ok delta -> 0 <= delta <= 24 * HOUR_US.
Proof.
  intros [L U] H. cbn [timedelta_hours] in H. destruct (whole_part q L) as (W0 & W1 & W2).
  set (w := Z.quot (Qnum q) (Zpos (Qden q))) in *. cbn [fmul] in H.
  set (frac := (q - inject_Z w)%Q) in *.
  assert (0 <= frac <= 1)%Q as F.
  { unfold frac. rewrite inject_Z_plus in W2. change (inject_Z 1) with 1%Q in W2. split; lra. }
  destruct (mk (inject_Z HOUR_US * frac)) as [us| | |] eqn:M; try discriminate H. apply mk_fin_inv in M.
  destruct (Z.abs _ <=? _); [|discriminate H]. injection H as <-.
  assert (w <= 24) as W24 by (rewrite Zle_Qle; change (inject_Z 24) with 24%Q; lra).
  assert (0 <= inject_Z HOUR_US * frac <= inject_Z HOUR_US)%Q as B.
  { unfold HOUR_US. change (inject_Z 3600000000) with 3600000000%Q. split; lra. }
  assert (0 <= us <= inject_Z HOUR_US)%Q as Us.
  { subst us. split; [apply rnd_nonneg, B|]. apply rnd_le_int; [unfold HOUR_US; lia|apply B]. }
  assert (0 <= rhe us <= HOUR_US) as R.
  { rewrite <-(rhe_inject 0), <-(rhe_inject HOUR_US). split; apply rhe_mono; apply Us. }
  destruct (Z.eq_dec w 24) as [E|]; [|unfold HOUR_US in *; lia].
  assert (frac == 0)%Q as Z0.
  { unfold frac in *. rewrite E in F |- *. change (inject_Z 24) with 24%Q in *. lra. }
  assert (us == 0)%Q as U0. { subst us. rewrite Z0, Qmult_0_r. by rewrite rnd_0. }
  assert (rhe us = 0) as -> by (rewrite U0; apply (rhe_inject 0)). unfold HOUR_US in *. lia.
Qed.

Lemma truediv_inv a b x : int_truediv a b = Ok x -> x = Fin (rnd (inject_Z a / inject_Z b)).
Proof.
  unfold int_truediv. case_match; [done|]. destruct (mk _) eqn:M; try done. intros [= <-]. by rewrite (mk_fin_inv _ _ M).
Qed.

(** Nor does the division by 3600 hide a microsecond beyond a day. *)
Lemma hours_between_range started ends d :
  hours_between started ends = Ok d -> fle d f0 = false -> flt (Fin 24) d = false -> 0 < ends - started <= 24 * HOUR_US.
Proof.
  intros H L U. unfold hours_between in H. inv_bind H. apply truediv_inv in E. subst v. cbn [fdiv] in H.
  change (Qeq_bool 3600 0) with false in H. cbv iota in H. injection H as <-.
  set (us := ends - started) in *. set (secs := rnd (inject_Z us / inject_Z 1000000)) in *.
  destruct (mk (secs / 3600)) as [h| | |] eqn:M; [|by cbn in U|by cbn in L|].
  2:{ unfold mk in M. repeat case_match; done. }
  apply mk_fin_inv in M. apply fle_fin_false in L. apply flt_fin_false in U.
  split.
  - destruct (Z.le_gt_cases us 0) as [N|]; [|done]. exfalso.
    assert (secs <= 0)%Q as S.
    { apply rnd_nonpos. apply Qle_shift_div_r; [by vm_compute|]. rewrite Qmult_0_l. change 0%Q with (inject_Z 0). by rewrite <-Zle_Qle. }
    assert (secs / 3600 <= 0)%Q as S' by (apply Qle_shift_div_r; [by vm_compute|]; lra).
    apply rnd_nonpos in S'. rewrite <-M in S'. lra.
  - destruct (Z.le_gt_cases us (24 * HOUR_US)) as [|G]; [done|exfalso].
    set (c := rnd (inject_Z 86400000001 / inject_Z 1000000)).
    assert (c <= secs)%Q as S.
    { apply rnd_mono. unfold Qdiv. apply Qmult_le_compat_r; [|by vm_compute]. rewrite <-Zle_Qle. unfold HOUR_US in G. lia. }
    assert (rnd (c / 3600) <= h)%Q as S2.
    { rewrite M. apply rnd_mono. unfold Qdiv. by apply Qmult_le_compat_r; [|by vm_compute]. }
    assert (24 < rnd (c / 3600))%Q as S3 by by vm_compute. lra.
Qed.

Lemma resolve_window_range started duration until d e :
  _resolve_window started duration until = Ok (d, e) -> 0 <= e - started <= 24 * HOUR_US.
Proof.
  intros H. assert (exists w, (match until with
     | Some dt => let! d := hours_between started (utc_us dt) in Ok (d, utc_us dt)
     | None => let d := match duration with Some d => d | None => Fin (inject_Z DEFAULT_DURATION_HOURS) end in
               let! delta := timedelta_hours d in let! e := add_us started delta in Ok (d, e)
     end) = Ok w /\ fle (fst w) f0 = false /\ flt (Fin (inject_Z MAX_DURATION_HOURS)) (fst w) = false /\ w = (d, e))
    as (w & W & L & U & ->).
  { unfold _resolve_window in H. destruct duration, until; try discriminate H; inv_bind H;
      exists v; (split; [done|]); repeat case_hyp H; try discriminate H; by injection H as ->. }
  cbn [fst] in L, U. clear H. destruct until as [dt|].
  - inv_bind W. injection W as -> <-. pose proof (hours_between_range _ _ _ E L U). lia.
  - set (x := match duration with Some d => d | None => Fin (inject_Z DEFAULT_DURATION_HOURS) end) in W. cbn zeta in W.
    inv_bind W. inv_bind W. injection W as -> ->.
    destruct d as [q| | |]; [|done|done|done]. apply fle_fin_false in L. apply flt_fin_false in U.
    assert (0 <= v <= 24 * HOUR_US) as R by (apply (timedelta_range q); [split; [lra|exact U]|done]).
    unfold add_us in E0. destruct (_ && _); [|discriminate E0]. injection E0 as <-. lia.
Qed.

Inductive op :=
| Start (now now' : Z) (duration : option fl) (until : option datetime) (by_ : option string)
| Stop (now : Z) (reason : string)
| Look (now : Z)
| Restarted (now : Z) (r : row)
| Persisted.

Definition perform (s : CatchupState) (o : op) : CatchupState :=
  match o with
  | Start now now' duration until by_ => snd (start_catchup now now' duration until by_ s)
  | Stop now reason => stop_catchup now reason s
  | Look now => snd (is_catchup_active now s)
  | Restarted now r => snd (clear_catchup_after_restart now r s)
  | Persisted => mark_persisted s
  end.

Definition window_ok (s : CatchupState) : Prop :=
  active s = true -> exists t e, started_at s = Some t /\ ends_at s = Some e /\ 0 <= e - t <= 24 * HOUR_US.

Lemma expire_ok now s : window_ok s -> window_ok (_expire_if_needed now s).
Proof. unfold _expire_if_needed. intros W. repeat case_match; done. Qed.

Lemma perform_ok s o : window_ok s -> window_ok (perform s o).
Proof.
  intros W. destruct o as [now now' duration until by_|now reason|now|now r|]; cbn [perform].
  - apply (expire_ok now) in W. unfold start_catchup. destruct (active (_expire_if_needed now s)); [done|].
    destruct (_resolve_window now' duration until) as [[d e]|] eqn:E; [|done]. cbn [snd]. intros _.
    exists now', e. split; [done|]. split; [done|]. by eapply resolve_window_range.
  - apply (expire_ok now) in W. unfold stop_catchup. case_match; [by intros|done].
  - by apply expire_ok.
  - unfold clear_catchup_after_restart. repeat case_match; by intros.
  - exact W.
Qed.

Lemma dget_filter d p k : (forall v, p (k, v) = true) -> dget (List.filter p d) k = dget d k.
Proof.
  intros P. induction d as [|[k1 v1] d IH]; cbn [List.filter dget]; [done|].
  destruct (p (k1, v1)) eqn:E; cbn [dget].
  - by rewrite IH.
  - destruct (String.eqb_spec k1 k) as [->|_]; [by rewrite P in E|exact IH].
Qed.

Lemma cleared_get now d k : k <> "db_persisted" ->
  dget (cleared_blob now d) k =
  if String.eqb "should_start_new_work" k then PBool false
  else if String.eqb "in_wind_down" k then PBool false
  else if String.eqb "cleared_reason" k then PStr (if _last_blob_looked_active now d then "restart" else "expired")
  else if String.eqb "active" k then PBool false else dget d k.
Proof.
  intros N. unfold cleared_blob. rewrite dget_filter; [by rewrite !dget_dset|].
  intros v. cbn [fst]. by rewrite (proj2 (String.eqb_neq _ _)).
Qed.

(** ** Properties *)

(** Catch-up mode never outlives a day: after any sequence of starts, stops,
    status reads and restarts, under any clock, a mode that reads as active at
    [now] was started with an end after [now], at most 24 hours after its start,
    exact to the microsecond. *)
Theorem catchup_window_bounded ops now :
  let s := fold_left perform ops fresh in
  fst (is_catchup_active now s) = true ->
  exists t e, started_at s = Some t /\ ends_at s = Some e /\ now < e /\ t <= e <= t + 24 * HOUR_US.
Proof.
  cbn zeta. set (s := fold_left perform ops fresh).
  assert (window_ok s) as W by (apply fold_left_inv; [intros; by apply perform_ok|done]).
  unfold is_catchup_active. cbn [fst]. intros A.
  assert (active s = true) as A'. { revert A. unfold _expire_if_needed. repeat case_match; done. }
  destruct (W A') as (t & e & T & E & B). exists t, e. split; [done|]. split; [done|]. split; [|lia].
  unfold _expire_if_needed in A. rewrite E, A' in A. destruct (Z.leb_spec e now); [done|lia].
Qed.

(** A restart ends the mode: the in-memory state is fresh, a row that was marked
    active is cleared, as interrupted when its end was still ahead and as expired
    otherwise, any other row is left alone, and a second restart changes nothing. *)
Theorem restart_clears now r s :
  let st := clear_catchup_after_restart now r s in
  snd st = fresh /\
  (forall d, r = Json (PDict d) -> dget d "active" = PBool true ->
     exists d', fst st = Json (PDict d') /\ dget d' "active" = PBool false /\ dget d' "ends_at" = dget d "ends_at" /\
       dget d' "cleared_reason" = PStr (if _last_blob_looked_active now d then "restart" else "expired")) /\
  ((forall d, r = Json (PDict d) -> dget d "active" <> PBool true) -> fst st = r) /\
  forall now2 s2, clear_catchup_after_restart now2 (fst st) s2 = (fst st, fresh).
Proof.
  cbn zeta. destruct r as [| |[| | | | | |d]]; try (by repeat split; intros; simplify_eq).
  cbn [clear_catchup_after_restart].
  destruct (dget d "active") as [|[]| | | | |] eqn:A;
    try (split; [done|]; split; [intros d' [= <-]; by rewrite A|]; split; [done|];
         intros; cbn [fst clear_catchup_after_restart]; by rewrite A).
  split; [done|]. split; [|split].
  - intros d' [= <-] _. eexists. split; [done|]. by rewrite !cleared_get.
  - intros H. exfalso. by apply (H d).
  - intros now2 s2. cbn [fst clear_catchup_after_restart]. by rewrite cleared_get.
Qed.

(** Outside catch-up mode the limits are the configured ones; inside, a batch size
    within its cap is raised, to at most twice itself, and the LLM headroom is
    raised to at least 95 percent and never beyond 100. *)
Theorem catchup_limits now s base :
  let on := fst (is_catchup_active now s) in
  (on = false -> effective_embeddings_max_per_run now s base = base /\
     effective_correlation_precompute_max_per_run now s base = base /\ effective_llm_headroom_pct now s base = base) /\
  (on = true -> 0 <= base ->
     (base <= _EMBEDDINGS_MAX_CAP -> base <= effective_embeddings_max_per_run now s base <= 2 * base) /\
     (base <= _CORRELATION_PRECOMPUTE_MAX_CAP -> base <= effective_correlation_precompute_max_per_run now s base <= 2 * base) /\
     95 <= effective_llm_headroom_pct now s base <= 100).
Proof.
  cbn zeta. unfold effective_embeddings_max_per_run, effective_correlation_precompute_max_per_run, effective_llm_headroom_pct.
  unfold _EMBEDDINGS_MAX_CAP, _CORRELATION_PRECOMPUTE_MAX_CAP, CATCHUP_LLM_HEADROOM_PCT.
  destruct (fst (is_catchup_active now s)); split; intros; try done; lia.
Qed.

(** A configured batch size above the cap is lowered by turning catch-up on. *)
Theorem catchup_lowers_large_base now s base :
  fst (is_catchup_active now s) = true -> _EMBEDDINGS_MAX_CAP < base ->
  effective_embeddings_max_per_run now s base < base.
Proof. unfold effective_embeddings_max_per_run. intros -> L. unfold _EMBEDDINGS_MAX_CAP in *. lia. Qed.

(** A duration of more than a billion days, or NaN, leaves the validation by
    another exception than its own: the end of the window is computed first. *)
Theorem overlong_duration_escapes started z :
  24 * 10 ^ 9 <= z ->
  _resolve_window started (Some (Fin (inject_Z z))) None = Raise OverflowError /\
  _resolve_window started (Some NaN) None = Raise ValueError.
Proof.
  intros L. split; [|done]. unfold _resolve_window. cbn [timedelta_hours].
  assert (Z.quot (Qnum (inject_Z z)) (Zpos (Qden (inject_Z z))) = z) as -> by apply Z.quot_1_r.
  set (frac := (inject_Z z - inject_Z z)%Q). cbn [fmul].
  assert (frac == 0)%Q as Z0 by (unfold frac; ring).
  destruct (mk (inject_Z HOUR_US * frac)) as [us| | |] eqn:M; try done.
  apply mk_fin_inv in M. assert (us == 0)%Q as U0 by (subst us; rewrite Z0, Qmult_0_r; by rewrite rnd_0).
  assert (rhe us = 0) as -> by (rewrite U0; apply (rhe_inject 0)).
  rewrite (proj2 (Z.leb_gt _ _)); [done|]. rewrite Z.add_0_r. unfold HOUR_US, DAY_US.
  replace (z * 3600000000) with (z * 1 * 3600000000) by lia. change 86400000000 with (24 * 3600000000).
  rewrite Z.div_mul_cancel_r by lia. assert (10 ^ 9 <= z * 1 / 24) by (apply Z.div_le_lower_bound; lia). lia.
Qed.

(** Two overlapping requests, a start and a stop, write their rows in the other
    order: the state is inactive and marked as persisted, and the row says active. *)
Theorem late_write_is_lost_track_of now now2 s :
  active s = true -> ends_at s <> None -> now2 < match ends_at s with Some e => e | None => 0 end ->
  let started := _public_status now s in
  let stopped := stop_catchup now2 "ended_early" s in
  let s' := mark_persisted (mark_persisted stopped) in
  let r := write_status started (write_status (_public_status now2 stopped) NoRow) in
  active s' = false /\ db_persisted s' = true /\ exists d, r = Json (PDict d) /\ dget d "active" = PBool true.
Proof.
  intros A E L. cbn zeta. destruct (ends_at s) as [e|] eqn:Ee; [|done].
  unfold stop_catchup, _expire_if_needed. rewrite Ee, A. rewrite (proj2 (Z.leb_gt e now2)) by lia. cbn [andb].
  rewrite A. split; [done|]. split; [done|]. eexists. split; [done|]. cbn. by rewrite A.
Qed.

(** *** At concrete values *)

Definition july_20 : Z := days_from_civil 2026 7 20 * DAY_US.
Definition demo_start : op := Start july_20 july_20 None None (Some "admin").
Definition demo_state : CatchupState := perform fresh demo_start.

Lemma catchup_window_bounded_witness :
  fst (is_catchup_active (july_20 + HOUR_US) (fold_left perform [demo_start; Persisted] fresh)) = true /\
  exists t e, started_at (fold_left perform [demo_start; Persisted] fresh) = Some t /\
    ends_at (fold_left perform [demo_start; Persisted] fresh) = Some e /\ july_20 + HOUR_US < e /\ t <= e <= t + 24 * HOUR_US.
Proof. split; [by vm_compute|]. apply (catchup_window_bounded [demo_start; Persisted]). by vm_compute. Defined.

Lemma catchup_lowers_large_base_witness : effective_embeddings_max_per_run july_20 demo_state 8000 < 8000.
Proof. apply catchup_lowers_large_base; [by vm_compute|by vm_compute]. Defined.

Lemma overlong_duration_escapes_witness :
  _resolve_window july_20 (Some (Fin (inject_Z (10 ^ 12)))) None = Raise OverflowError /\
  _resolve_window july_20 (Some NaN) None = Raise ValueError.
Proof. apply overlong_duration_escapes. by vm_compute. Defined.

Lemma late_write_is_lost_track_of_witness :
  active (mark_persisted (mark_persisted (stop_catchup (july_20 + 5) "ended_early" demo_state))) = false /\
  db_persisted (mark_persisted (mark_persisted (stop_catchup (july_20 + 5) "ended_early" demo_state))) = true /\
  exists d, write_status (_public_status july_20 demo_state)
              (write_status (_public_status (july_20 + 5) (stop_catchup (july_20 + 5) "ended_early" demo_state)) NoRow)
            = Json (PDict d) /\ dget d "active" = PBool true.
Proof. apply late_write_is_lost_track_of; [by vm_compute|by vm_compute|by vm_compute]. Defined.
