(* ===== verification/AuthDb.v ===== *)
(** * AuthDb: auth/repo.py, auth/usernames.py, auth/passwords.py, auth/tokens.py

    The users and sessions of the built-in login and the operations on them.  The
    tables are lists of rows in insertion order; a SELECT that can match one row
    at most takes the first.  bcrypt enters as [hashpw] (with the salt it draws)
    and [checkpw]; a refresh token is stored as its SHA-256.  Other tables are
    kept as the user ids that own their rows.  [now] is the clock in microseconds. *)

From S2P Require Import Prelude PyStr Dates DateText Sha256.
Open Scope string_scope.
Open Scope Z_scope.

Record user := mkUser {
  user_id : Z; username : string; password_hash : string; role : string; is_active : bool; last_login_at : option string }.

Record session := mkSession {
  session_id : Z; session_user : Z; refresh_token_hash : string; last_used_at : string; expires_at : string;
  revoked_at : option string; user_agent : string; ip : string; remember_me : bool }.

Record auth_db := mkDb {
  users : list user; sessions : list session; next_user : Z; next_session : Z;
  user_notifications : list Z; ioc_watchlist : list Z; user_preferences : list Z; stack_backfill_runs : list Z }.

Definition with_users (us : list user) (db : auth_db) : auth_db :=
  mkDb us (sessions db) (next_user db) (next_session db)
    (user_notifications db) (ioc_watchlist db) (user_preferences db) (stack_backfill_runs db).
Definition with_sessions (ss : list session) (db : auth_db) : auth_db :=
  mkDb (users db) ss (next_user db) (next_session db)
    (user_notifications db) (ioc_watchlist db) (user_preferences db) (stack_backfill_runs db).

(** ** Usernames *)

Definition USERNAME_MIN_LEN : Z := 3.
Definition USERNAME_MAX_LEN : Z := 32.

Definition normalize_username (raw : string) : string := lower (strip raw).

Definition name_edge (c : ascii) : bool := is_digit c || is_lower c.
Definition name_inner (c : ascii) : bool := name_edge c || Ascii.eqb c "_" || Ascii.eqb c "-".

(** [USERNAME_RE.match], on a text that has no newline at its end. *)
Definition USERNAME_RE (s : string) : bool :=
  match s with
  | "" => false
  | String first rest =>
      match srev rest with
      | "" => false
      | String last middle =>
          name_edge first && name_edge last && sforall name_inner middle &&
          ((1 <=? String.length middle)%nat && (String.length middle <=? 30)%nat)
      end
  end.

Definition validate_username (raw : string) : res string :=
  let name := normalize_username raw in
  if (slen name <? USERNAME_MIN_LEN) || (USERNAME_MAX_LEN <? slen name) then Raise ValueError
  else if USERNAME_RE name then Ok name else Raise ValueError.

Definition is_valid_username (raw : string) : bool := is_ok (validate_username raw).

(** ** Passwords and tokens *)

Definition PASSWORD_MAX_LEN : Z := 128.

Definition validate_password_strength (password : string) : res unit :=
  if slen password <? 8 then Raise ValueError
  else if PASSWORD_MAX_LEN <? slen password then Raise ValueError
  else Ok tt.

(** [hashlib.sha256(token.encode("utf-8")).hexdigest()] *)
Definition hash_refresh_token (token : string) : string := sha256_hex token.

(** [utcnow_str()] *)
Definition utcnow_str (now : Z) : string := strftime now.

Section Passwords.
Context (hashpw : string -> string -> res string) (checkpw : string -> string -> res bool).

Definition hash_password (salt plain : string) : res string := hashpw plain salt.

Definition verify_password (plain hashed : string) : res bool :=
  try_except (checkpw plain hashed) (fun e => bool_decide (e = ValueError)) (Ok false).

(** ** Users *)

Definition count_users (db : auth_db) : Z := Z.of_nat (length (users db)).

Definition get_user_by_username (db : auth_db) (name : string) : option user :=
  List.find (fun u => String.eqb (username u) (normalize_username name)) (users db).

Definition get_user_by_id (db : auth_db) (uid : Z) : option user :=
  List.find (fun u => user_id u =? uid) (users db).

Definition set_password (hash : string) (u : user) : user :=
  mkUser (user_id u) (username u) hash (role u) (is_active u) (last_login_at u).
Definition set_last_login (t : string) (u : user) : user :=
  mkUser (user_id u) (username u) (password_hash u) (role u) (is_active u) (Some t).
Definition update_user (uid : Z) (f : user -> user) (db : auth_db) : auth_db :=
  with_users (map (fun u => if user_id u =? uid then f u else u) (users db)) db.

Definition set_revoked (t : string) (s : session) : session :=
  mkSession (session_id s) (session_user s) (refresh_token_hash s) (last_used_at s) (expires_at s)
    (Some t) (user_agent s) (ip s) (remember_me s).
Definition set_used (t : string) (s : session) : session :=
  mkSession (session_id s) (session_user s) (refresh_token_hash s) t (expires_at s)
    (revoked_at s) (user_agent s) (ip s) (remember_me s).

Definition is_live (s : session) : bool := match revoked_at s with None => true | Some _ => false end.

(** [UPDATE sessions SET revoked_at = ? WHERE user_id = ? AND revoked_at IS NULL] *)
Definition revoke_all_sessions_for_user (now uid : Z) (db : auth_db) : auth_db :=
  with_sessions (map (fun s => if (session_user s =? uid) && is_live s then set_revoked (utcnow_str now) s else s) (sessions db)) db.

(** Inserts the account, or gives the one that has the name a new password. *)
Definition create_user (now : Z) (salt name password role_ : string) (db : auth_db) : res (user * auth_db) :=
  let normalized := normalize_username name in
  let! hash := hash_password salt password in
  match get_user_by_username db normalized with
  | Some existing =>
      let db := update_user (user_id existing) (set_password hash) db in
      Ok (set_password hash existing, revoke_all_sessions_for_user now (user_id existing) db)
  | None =>
      let u := mkUser (next_user db) normalized hash role_ true None in
      Ok (u, mkDb (users db ++ [u])%list (sessions db) (next_user db + 1) (next_session db)
               (user_notifications db) (ioc_watchlist db) (user_preferences db) (stack_backfill_runs db))
  end.

Definition delete_user (uid : Z) (db : auth_db) : bool * auth_db :=
  match get_user_by_id db uid with
  | None => (false, db)
  | Some _ =>
      let others := List.filter (fun o => negb (o =? uid)) in
      (true, mkDb (List.filter (fun u => negb (user_id u =? uid)) (users db))
                  (List.filter (fun s => negb (session_user s =? uid)) (sessions db)) (next_user db) (next_session db)
                  (others (user_notifications db)) (others (ioc_watchlist db)) (others (user_preferences db)) (stack_backfill_runs db))
  end.

Definition update_last_login (now uid : Z) (db : auth_db) : auth_db := update_user uid (set_last_login (utcnow_str now)) db.

(** ** Sessions *)

Definition create_session (now uid : Z) (refresh_token expires agent addr : string) (remember : bool) (db : auth_db)
  : session * auth_db :=
  let s := mkSession (next_session db) uid (hash_refresh_token refresh_token) (utcnow_str now) expires None agent addr remember in
  (s, mkDb (users db) (sessions db ++ [s])%list (next_user db) (next_session db + 1)
        (user_notifications db) (ioc_watchlist db) (user_preferences db) (stack_backfill_runs db)).

Definition get_session_by_token (db : auth_db) (refresh_token : string) : option session :=
  List.find (fun s => String.eqb (refresh_token_hash s) (hash_refresh_token refresh_token)) (sessions db).

Definition update_session (sid : Z) (f : session -> session) (db : auth_db) : auth_db :=
  with_sessions (map (fun s => if session_id s =? sid then f s else s) (sessions db)) db.

Definition rotate_session (now : Z) (old : session) (new_refresh_token expires : string) (db : auth_db) : session * auth_db :=
  let t := utcnow_str now in
  let db := update_session (session_id old) (fun s => set_used t (set_revoked t s)) db in
  create_session now (session_user old) new_refresh_token expires (user_agent old) (ip old) (remember_me old) db.

Definition revoke_session (now sid : Z) (db : auth_db) : auth_db :=
  update_session sid (fun s => if is_live s then set_revoked (utcnow_str now) s else s) db.

Fixpoint insert_used (s : session) (l : list session) : list session :=
  match l with
  | [] => [s]
  | x :: r => if String.ltb (last_used_at x) (last_used_at s) then s :: l else x :: insert_used s r
  end.

(** [ORDER BY last_used_at DESC] *)
Definition list_active_sessions (db : auth_db) (uid : Z) : list session :=
  fold_left (fun l s => insert_used s l) (List.filter (fun s => (session_user s =? uid) && is_live s) (sessions db)) [].

(** [DELETE FROM sessions WHERE expires_at < ?] *)
Definition purge_expired_sessions (now : Z) (db : auth_db) : Z * auth_db :=
  let keep := List.filter (fun s => negb (String.ltb (expires_at s) (strftime now))) (sessions db) in
  (Z.of_nat (length (sessions db)) - Z.of_nat (length keep), with_sessions keep db).

End Passwords.
