(* ===== verification/AuthRoutes.v ===== *)
(** * AuthRoutes: routers/auth.py

    Login, refresh with its rotation and reuse detection, logout, first-run setup
    and the session list.  A handler returns the tables it commits, its reply and
    the actions it hands to [audit]; a handler that raises commits nothing.  The
    clock is read once per request; [jwt_encode] is PyJWT, [dummy] is
    [DUMMY_HASH].  Each handler runs on its own connection; [refresh] is split
    where the statements that read end and the statements that write begin. *)

From S2P Require Import Prelude PyStr Dates DateText Sha256 AuthDb.
Open Scope string_scope.
Open Scope Z_scope.

Record auth_settings := mkSettings { jwt_secret : string; jwt_access_token_minutes : Z; refresh_token_days : Z }.

(** The payload of an access token; [iat] and [exp] are in seconds. *)
Record access_claims := mkAccess { sub : string; claim_username : string; claim_role : string; iat : Z; exp : Z }.

Inductive reply :=
| Issued (access refresh : string) (persistent : bool) (name role : string)
| Refused (status : Z)
| Cleared (status : Z)
| Revoked.

Definition audit_trail : Type := list (string * string).

Record login_request := mkLogin { l_username : string; l_password : string; l_remember : bool; l_agent : string; l_ip : string }.

Section Routes.
Context (cfg : auth_settings) (hashpw : string -> string -> res string) (checkpw : string -> string -> res bool)
  (dummy : string) (jwt_encode : access_claims -> string -> string).

Definition create_access_token (now uid : Z) (name role_ : string) : string :=
  jwt_encode (mkAccess (str_of_Z uid) name role_ (now / 1000000) (now / 1000000 + jwt_access_token_minutes cfg * 60)) (jwt_secret cfg).

Definition _refresh_expiry (now : Z) : res string :=
  let t := now + refresh_token_days cfg * DAY_US in
  if (MIN_US <=? t) && (t <=? MAX_US) then Ok (strftime t) else Raise OverflowError.

Definition within (lo hi : Z) (s : string) : bool := (lo <=? slen s) && (slen s <=? hi).

Definition valid_login (r : login_request) : bool := within 1 32 (l_username r) && within 1 PASSWORD_MAX_LEN (l_password r).

Definition issue (now : Z) (u : user) (refresh_token : string) (persistent : bool) : reply :=
  Issued (create_access_token now (user_id u) (username u) (role u)) refresh_token persistent (username u) (role u).

(** The session a login or the setup opens. *)
Definition open_session (now : Z) (u : user) (token : string) (r : login_request) (remember : bool) (db : auth_db) : res auth_db :=
  let! expires := _refresh_expiry now in
  let '(_, db) := create_session now (user_id u) token expires (stake 255 (l_agent r)) (l_ip r) remember db in
  Ok (update_last_login now (user_id u) db).

Definition login (now : Z) (ip_limited name_limited : bool) (token : string) (r : login_request) (db : auth_db)
  : res (auth_db * reply * audit_trail) :=
  if ip_limited then Ok (db, Refused 429, []) else
  if negb (valid_login r) then Ok (db, Refused 422, []) else
  match validate_username (normalize_username (l_username r)) with
  | Raise _ => let! _ := verify_password checkpw (l_password r) dummy in Ok (db, Refused 401, [])
  | Ok name =>
      if name_limited then Ok (db, Refused 429, []) else
      let unknown := let! _ := verify_password checkpw (l_password r) dummy in Ok (db, Refused 401, [("auth.login_failed", name)]) in
      match get_user_by_username db name with
      | None => unknown
      | Some u =>
          if negb (is_active u) then unknown else
          let! ok := verify_password checkpw (l_password r) (password_hash u) in
          if ok then
            let! db' := open_session now u token r (l_remember r) db in
            Ok (db', issue now u token (l_remember r), [("auth.login", username u)])
          else Ok (db, Refused 401, [("auth.login_failed", username u)])
      end
  end.

Definition logout (now : Z) (cookie : string) (db : auth_db) : auth_db * reply * audit_trail :=
  let db := if nonempty cookie then
              match get_session_by_token db cookie with
              | Some s => if is_live s then revoke_session now (session_id s) db else db
              | None => db
              end
            else db in
  (db, Cleared 200, []).

(** ** Refresh *)

Inductive refresh_plan := Deny | Replayed (uid : Z) | Rotate (old : session) (u : user).

(** [datetime.fromisoformat(str(expires_val).strip().replace("Z", "+00:00"))], in UTC. *)
Definition expiry_of (s : session) : option Z := option_map utc_us (fromisoformat (replace_Z (strip (expires_at s)))).

(** What the handler decides from the rows it reads. *)
Definition refresh_read (now : Z) (cookie : string) (db : auth_db) : refresh_plan :=
  if negb (nonempty cookie) then Deny else
  match get_session_by_token db cookie with
  | None => Deny
  | Some s =>
      if negb (nonempty (expires_at s)) then Deny else
      match expiry_of s with
      | None => Deny
      | Some e =>
          if e <? now then Deny
          else if negb (is_live s) then Replayed (session_user s)
          else match get_user_by_id db (session_user s) with
               | Some u => if is_active u then Rotate s u else Deny
               | None => Deny
               end
      end
  end.

(** What it then writes and answers. *)
Definition refresh_write (now : Z) (token : string) (plan : refresh_plan) (db : auth_db) : res (auth_db * reply * audit_trail) :=
  match plan with
  | Deny => Ok (db, Refused 401, [])
  | Replayed uid => Ok (revoke_all_sessions_for_user now uid db, Cleared 401, [("auth.token_reuse_detected", str_of_Z uid)])
  | Rotate old u =>
      let! expires := _refresh_expiry now in
      let '(rotated, db) := rotate_session now old token expires db in
      Ok (db, issue now u token (remember_me rotated), [])
  end.

Definition refresh (now : Z) (limited : bool) (cookie token : string) (db : auth_db) : res (auth_db * reply * audit_trail) :=
  if limited then Ok (db, Refused 429, []) else refresh_write now token (refresh_read now cookie db) db.

(** ** Setup and the session list *)

Definition setup_required (db : auth_db) : bool := count_users db =? 0.

Definition setup_body (r : login_request) : option string :=
  if within 1 32 (l_username r) && within 1 PASSWORD_MAX_LEN (l_password r) then
    match validate_username (l_username r), validate_password_strength (l_password r) with
    | Ok name, Ok _ => Some name
    | _, _ => None
    end
  else None.

Definition setup (now : Z) (limited : bool) (salt token : string) (r : login_request) (db : auth_db)
  : res (auth_db * reply * audit_trail) :=
  if limited then Ok (db, Refused 429, []) else
  match setup_body r with
  | None => Ok (db, Refused 422, [])
  | Some name =>
      if 0 <? count_users db then Ok (db, Refused 409, []) else
      let! made := create_user hashpw now salt name (l_password r) "admin" db in
      let '(u, db) := made in
      let! db := open_session now u token r false db in
      Ok (db, issue now u token false, [("auth.setup_completed", username u)])
  end.

(** One entry of the list: the row, and whether it is the caller's own. *)
Definition get_sessions (uid : Z) (current_rt : string) (db : auth_db) : list (session * bool) :=
  map (fun s => (s, nonempty current_rt && String.eqb (refresh_token_hash s) (hash_refresh_token current_rt))) (list_active_sessions db uid).

Definition revoke_session_endpoint (now uid sid : Z) (db : auth_db) : auth_db * reply * audit_trail :=
  match List.find (fun s => (session_id s =? sid) && is_live s) (sessions db) with
  | None => (db, Refused 404, [])
  | Some s =>
      if negb (session_user s =? uid) then (db, Refused 403, [])
      else (revoke_session now sid db, Revoked, [("auth.session_revoked", str_of_Z sid)])
  end.

(** ** Histories *)

Inductive action :=
| Login (now : Z) (ip_limited name_limited : bool) (token : string) (r : login_request)
| Refresh (now : Z) (limited : bool) (cookie token : string)
| Logout (now : Z) (cookie : string)
| Setup (now : Z) (limited : bool) (salt token : string) (r : login_request)
| RevokeOne (now uid sid : Z)
| ResetPassword (now : Z) (salt name password role_ : string)
| DeleteUser (uid : Z)
| SetActive (uid : Z) (active : bool)
| Purge (now : Z).

Definition set_active (b : bool) (u : user) : user :=
  mkUser (user_id u) (username u) (password_hash u) (role u) b (last_login_at u).

(** [SetActive] stands for an operator's UPDATE; [ResetPassword] for scripts/create_user.py. *)
Definition serve (a : action) (db : auth_db) : res (auth_db * reply * audit_trail) :=
  match a with
  | Login now il nl token r => login now il nl token r db
  | Refresh now limited cookie token => refresh now limited cookie token db
  | Logout now cookie => Ok (logout now cookie db)
  | Setup now limited salt token r => setup now limited salt token r db
  | RevokeOne now uid sid => Ok (revoke_session_endpoint now uid sid db)
  | ResetPassword now salt name password role_ =>
      let! made := create_user hashpw now salt name password role_ db in Ok (snd made, Revoked, [])
  | DeleteUser uid => Ok (snd (delete_user uid db), Revoked, [])
  | SetActive uid b => Ok (update_user uid (set_active b) db, Revoked, [])
  | Purge now => Ok (snd (purge_expired_sessions now db), Revoked, [])
  end.

Definition perform (db : auth_db) (a : action) : auth_db :=
  match serve a db with Ok (db', _, _) => db' | Raise _ => db end.

Definition history (db : auth_db) (l : list action) : auth_db := fold_left perform l db.

(** *** Overlapping refreshes

    [Served] is a request whose statements no other request comes between.  A refresh may
    also [Begin], which reads the rows, and write later, in [Finish], what it decided from
    them; the second component of the state holds the refreshes in between. *)
Inductive event :=
| Served (a : action)
| Begin (now : Z) (cookie : string)
| Finish (k : nat) (now : Z) (token : string).

Definition traffic : Type := auth_db * list refresh_plan.

Definition meet (t : traffic) (e : event) : traffic :=
  match e with
  | Served a => (perform (fst t) a, snd t)
  | Begin now cookie => (fst t, snd t ++ [refresh_read now cookie (fst t)])%list
  | Finish k now token =>
      match snd t !! k with
      | Some plan => (match refresh_write now token plan (fst t) with Ok (db', _, _) => db' | Raise _ => fst t end, delete k (snd t))
      | None => t
      end
  end.

Definition traffic_after (l : list event) (t : traffic) : traffic := fold_left meet l t.

(** The refresh writes a new session of [uid] although the one it read is no longer live. *)
Definition overtaken (uid : Z) (t : traffic) (e : event) : bool :=
  match e with
  | Finish k _ _ =>
      match snd t !! k with
      | Some (Rotate old _) =>
          (session_user old =? uid) &&
          negb (existsb (fun s => (session_id s =? session_id old) && ((session_user s =? uid) && is_live s)) (sessions (fst t)))
      | _ => false
      end
  | _ => false
  end.

Fixpoint overtakings (uid : Z) (t : traffic) (l : list event) : nat :=
  match l with
  | [] => 0
  | e :: l => (if overtaken uid t e then 1 else 0) + overtakings uid (meet t e) l
  end.

End Routes.

(** ** How requests move the rows *)

(** What a step may do to a row: the token, the owner and the expiry stay, and a
    revoked session stays revoked. *)
Definition ages (f : session -> session) : Prop :=
  forall s, refresh_token_hash (f s) = refresh_token_hash s /\ session_user (f s) = session_user s /\
    expires_at (f s) = expires_at s /\ (is_live (f s) = true -> is_live s = true).

Lemma ages_id : ages (fun s => s).
Proof. done. Qed.

Lemma ages_if (p : session -> bool) f : ages f -> ages (fun s => if p s then f s else s).
Proof. intros H s. destruct (p s); [apply H|done]. Qed.

Lemma ages_revoked t : ages (set_revoked t).
Proof. done. Qed.

Lemma ages_used t u : ages (fun s => set_used t (set_revoked u s)).
Proof. done. Qed.

#[local] Hint Resolve ages_id ages_if ages_revoked ages_used : briefr.

(** The token an action may store. *)
Definition minted (a : action) : option string :=
  match a with Login _ _ _ t _ | Refresh _ _ _ t | Setup _ _ _ t _ => Some t | _ => None end.

Definition moved (t : option string) (ss ss' : list session) : Prop :=
  exists f p new, ages f /\ ss' = (map f (List.filter p ss) ++ new)%list /\
    (new = [] \/ exists token s, t = Some token /\ new = [s] /\ refresh_token_hash s = hash_refresh_token token).

Lemma moved_map t f ss : ages f -> moved t ss (map f ss).
Proof.
  intros H. exists f, (fun _ => true), []. rewrite app_nil_r. repeat split; [apply H..| |by left].
  f_equal. induction ss as [|s ss IH]; [done|]. cbn. by rewrite <-IH.
Qed.

Lemma moved_same t ss : moved t ss ss.
Proof. rewrite <-(map_id ss) at 2. by apply moved_map. Qed.

Lemma moved_filter t p ss : moved t ss (List.filter p ss).
Proof. exists (fun s => s), p, []. rewrite map_id, app_nil_r. split; [apply ages_id|]. split; [done|by left]. Qed.

Lemma moved_open token f s ss : ages f -> refresh_token_hash s = hash_refresh_token token ->
  moved (Some token) ss (map f ss ++ [s])%list.
Proof.
  intros H E. destruct (moved_map None f ss H) as (f' & p & new & A & -> & [->|(t & s' & T & _)]); [|done].
  exists f', p, [s]. rewrite app_nil_r. split; [done|]. split; [done|]. right. eauto.
Qed.

#[local] Hint Resolve moved_map moved_same moved_filter moved_open : briefr.

Section Facts.
Context (cfg : auth_settings) (hashpw : string -> string -> res string) (checkpw : string -> string -> res bool)
  (dummy : string) (jwt_encode : access_claims -> string -> string).

Lemma open_session_sessions now u token r remember db db' : open_session cfg now u token r remember db = Ok db' ->
  exists s, sessions db' = (sessions db ++ [s])%list /\ refresh_token_hash s = hash_refresh_token token /\
    session_user s = user_id u /\ is_live s = true /\ users db' = users (update_last_login now (user_id u) db).
Proof.
  unfold open_session. destruct (_refresh_expiry cfg now) as [e|]; [|done]. cbn [res_bind create_session]. intros [= <-].
  eexists. cbn [sessions update_last_login update_user with_users]. split; [done|]. done.
Qed.

Lemma create_user_sessions now salt name password role_ db u db' : create_user hashpw now salt name password role_ db = Ok (u, db') ->
  moved None (sessions db) (sessions db').
Proof.
  unfold create_user. destruct (hash_password _ _ _) as [h|]; [|done]. cbn [res_bind].
  destruct (get_user_by_username _ _); intros [= <- <-]; cbn; auto with briefr.
Qed.

Lemma moved_trans_open token ss s ss' : moved None ss ss' -> refresh_token_hash s = hash_refresh_token token ->
  moved (Some token) ss (ss' ++ [s])%list.
Proof.
  intros (f' & p & new & A & -> & [->|(t & s' & T & _)]) E; [|done].
  exists f', p, [s]. rewrite app_nil_r. split; [done|]. split; [done|]. right. eauto.
Qed.

(** How a login ends. *)
Lemma login_inv now il nl token r db db' rep au : login cfg checkpw dummy jwt_encode now il nl token r db = Ok (db', rep, au) ->
  (db' = db /\ exists st, rep = Refused st) \/
  exists name u, il = false /\ nl = false /\ valid_login r = true /\ validate_username (normalize_username (l_username r)) = Ok name /\
    get_user_by_username db name = Some u /\ is_active u = true /\ verify_password checkpw (l_password r) (password_hash u) = Ok true /\
    open_session cfg now u token r (l_remember r) db = Ok db' /\
    rep = issue cfg jwt_encode now u token (l_remember r) /\ au = [("auth.login", username u)].
Proof.
  unfold login. intros H. destruct il; [injection H as <- <- _; eauto|].
  destruct (valid_login r); cbn [negb] in H; [|injection H as <- <- _; eauto].
  destruct (validate_username _) as [name|] eqn:V.
  2: { destruct (verify_password _ _ dummy); cbn in H; [injection H as <- <- _; eauto|discriminate]. }
  destruct nl; [injection H as <- <- _; eauto|]. cbv zeta in H.
  assert ((let! _ := verify_password checkpw (l_password r) dummy in Ok (db, Refused 401, [("auth.login_failed", name)])) = Ok (db', rep, au) ->
    db' = db /\ exists st, rep = Refused st) as U
    by (destruct (verify_password _ _ dummy); cbn; [intros [= <- <- _]; eauto|done]).
  destruct (get_user_by_username db name) as [u|] eqn:G; [|left; auto].
  destruct (is_active u) eqn:A; cbn [negb] in H; [|left; auto].
  destruct (verify_password checkpw (l_password r) (password_hash u)) as [[]|] eqn:P; cbn [res_bind] in H; [|injection H as <- <- _; eauto|done].
  destruct (open_session _ _ _ _ _ _ _) as [db1|] eqn:O; cbn [res_bind] in H; [|done]. injection H as <- <- <-.
  right. exists name, u. done.
Qed.

Lemma setup_inv now limited salt token r db db' rep au : setup cfg hashpw jwt_encode now limited salt token r db = Ok (db', rep, au) ->
  (db' = db /\ exists st, rep = Refused st) \/
  exists name u db1, count_users db = 0 /\ setup_body r = Some name /\ create_user hashpw now salt name (l_password r) "admin" db = Ok (u, db1) /\
    open_session cfg now u token r false db1 = Ok db' /\ rep = issue cfg jwt_encode now u token false.
Proof.
  unfold setup. intros H. destruct limited; [injection H as <- <- _; eauto|].
  destruct (setup_body r) as [name|]; [|injection H as <- <- _; eauto].
  destruct (0 <? count_users db) eqn:C; [injection H as <- <- _; eauto|].
  destruct (create_user _ _ _ _ _ _ db) as [[u db1]|] eqn:K; cbn [res_bind] in H; [|done].
  destruct (open_session _ _ _ _ _ _ _) as [db2|] eqn:O; cbn [res_bind] in H; [|done]. injection H as <- <- _.
  right. exists name, u, db1. repeat split; try done. apply Z.ltb_ge in C. unfold count_users in *. lia.
Qed.

Lemma refresh_inv now limited cookie token db db' rep au : refresh cfg jwt_encode now limited cookie token db = Ok (db', rep, au) ->
  (db' = db /\ exists st, rep = Refused st) \/
  (exists uid, refresh_read now cookie db = Replayed uid /\ db' = revoke_all_sessions_for_user now uid db /\ rep = Cleared 401 /\
     au = [("auth.token_reuse_detected", str_of_Z uid)]) \/
  (exists old u e, refresh_read now cookie db = Rotate old u /\ _refresh_expiry cfg now = Ok e /\
     db' = snd (rotate_session now old token e db) /\ rep = issue cfg jwt_encode now u token (remember_me old)).
Proof.
  unfold refresh. intros H. destruct limited; [injection H as <- <- _; eauto|].
  destruct (refresh_read now cookie db) as [|uid|old u]; cbn [refresh_write] in H.
  - injection H as <- <- _; eauto.
  - injection H as <- <- <-. right. left. eauto.
  - destruct (_refresh_expiry cfg now) as [e|]; cbn [res_bind] in H; [|done]. injection H as <- <- _. right. right. eauto 7.
Qed.

Lemma refresh_read_inv now cookie db old u : refresh_read now cookie db = Rotate old u ->
  get_session_by_token db cookie = Some old /\ is_live old = true /\ get_user_by_id db (session_user old) = Some u /\ is_active u = true /\
  exists e, expiry_of old = Some e /\ now <= e.
Proof.
  unfold refresh_read. destruct (nonempty cookie); [|done]. cbn [negb].
  destruct (get_session_by_token db cookie) as [s|]; [|done]. destruct (nonempty (expires_at s)); [|done]. cbn [negb].
  destruct (expiry_of s) as [e|] eqn:E; [|done]. destruct (Z.ltb_spec e now); [done|].
  destruct (is_live s) eqn:L; [|done]. cbn [negb]. destruct (get_user_by_id _ _) as [v|] eqn:G; [|done].
  destruct (is_active v) eqn:A; [|done]. intros [= <- <-]. eauto 8.
Qed.

Lemma perform_moved db a : moved (minted a) (sessions db) (sessions (perform cfg hashpw checkpw dummy jwt_encode db a)).
Proof.
  unfold perform. destruct (serve _ _ _ _ _ a db) as [[[db' r] l]|e] eqn:H; [|apply moved_same].
  destruct a as [now il nl token r0|now limited cookie token|now cookie|now limited salt token r0|now uid sid|now salt name pw ro|uid|uid b|now];
    cbn [serve minted] in *.
  - apply login_inv in H as [[-> _]|(name & u & H)]; [apply moved_same|]. destruct H as (_ & _ & _ & _ & _ & _ & _ & O & _).
    apply open_session_sessions in O as (s & -> & E & _). apply moved_trans_open; [apply moved_same|done].
  - apply refresh_inv in H as [[-> _]|[(uid & _ & -> & _)|(old & u & e & _ & _ & -> & _)]]; [apply moved_same|..]; cbn; auto 6 with briefr.
  - injection H as <- _ _. unfold logout. destruct (nonempty cookie); [|apply moved_same].
    destruct (get_session_by_token db cookie) as [s|]; [|apply moved_same]. destruct (is_live s); [|apply moved_same]. cbn. auto 6 with briefr.
  - apply setup_inv in H as [[-> _]|(name & u & db1 & _ & _ & K & O & _)]; [apply moved_same|].
    apply create_user_sessions in K. apply open_session_sessions in O as (s & -> & E & _). by eapply moved_trans_open.
  - injection H as H. unfold revoke_session_endpoint in H. destruct (List.find _ _) as [s|]; [|injection H as <- _ _; apply moved_same].
    destruct (negb _); injection H as <- _ _; [apply moved_same|]. cbn. auto 6 with briefr.
  - destruct (create_user _ _ _ _ _ _ db) as [[u db1]|] eqn:K; [|done]. injection H as <- _ _. by eapply create_user_sessions.
  - injection H as <- _ _. unfold delete_user. destruct (get_user_by_id _ _); cbn; auto with briefr.
  - injection H as <- _ _. cbn. apply moved_same.
  - injection H as <- _ _. cbn. auto with briefr.
Qed.

#[local] Abbreviation perform := (perform cfg hashpw checkpw dummy jwt_encode).
#[local] Abbreviation serve := (serve cfg hashpw checkpw dummy jwt_encode).
#[local] Abbreviation history := (history cfg hashpw checkpw dummy jwt_encode).

(** ** A spent token stays spent *)

(** No live session is filed under the hash [h]. *)
Definition spent (h : string) (db : auth_db) : Prop :=
  forall s, In s (sessions db) -> refresh_token_hash s = h -> is_live s = false.

Lemma moved_spent h t ss ss' : moved t ss ss' -> (forall token, t = Some token -> hash_refresh_token token <> h) ->
  (forall s, In s ss -> refresh_token_hash s = h -> is_live s = false) ->
  forall s, In s ss' -> refresh_token_hash s = h -> is_live s = false.
Proof.
  intros (f & p & new & A & -> & N) F S s I E. apply in_app_iff in I as [I|I].
  - apply in_map_iff in I as (s0 & <- & I). apply filter_In in I as [I _]. destruct (A s0) as (A1 & _ & _ & A4).
    rewrite A1 in E. specialize (S s0 I E). destruct (is_live (f s0)) eqn:L; [|done]. by rewrite A4 in S.
  - destruct N as [->|(token & s0 & -> & -> & Hs)]; [done|]. destruct I as [<-|[]]. exfalso. apply (F token eq_refl). congruence.
Qed.

Definition remints (h : string) (acts : list action) : Prop :=
  exists a token, In a acts /\ minted a = Some token /\ hash_refresh_token token = h.

Lemma history_spent h acts : forall db, spent h db -> ~ remints h acts -> spent h (history db acts).
Proof.
  induction acts as [|a acts IH]; intros db S N; [done|]. cbn. apply IH.
  - intros s. apply (moved_spent h (minted a) (sessions db)); [apply perform_moved| |exact S].
    intros token M E. apply N. exists a, token. split; [by left|]. done.
  - intros (b & token & I & M). apply N. exists b, token. split; [by right|done].
Qed.

Lemma spent_refused db now token cookie db' a rt p n ro au : spent (hash_refresh_token cookie) db ->
  serve (Refresh now false cookie token) db <> Ok (db', Issued a rt p n ro, au).
Proof.
  intros S H. cbn [AuthRoutes.serve] in H. apply refresh_inv in H as [[_ [st H]]|[(uid & _ & _ & H & _)|(old & u & e & R & _)]]; [done..|].
  apply refresh_read_inv in R as (G & L & _). unfold get_session_by_token in G. apply find_some in G as [I E].
  apply String.eqb_eq in E. by rewrite (S old I E) in L.
Qed.

Lemma revoke_all_spent now uid db s : NoDup (map refresh_token_hash (sessions db)) ->
  In s (sessions db) -> session_user s = uid -> spent (refresh_token_hash s) (revoke_all_sessions_for_user now uid db).
Proof.
  intros N I U x J E. cbn in J. apply in_map_iff in J as (y & <- & J).
  assert (refresh_token_hash y = refresh_token_hash s) as E' by (destruct (_ && _) in E; exact E).
  assert (y = s) as -> by (by eapply (key_unique refresh_token_hash)).
  rewrite U, Z.eqb_refl. destruct (is_live s) eqn:L; [done|exact L].
Qed.

(** ** Live sessions *)

Definition live_of (uid : Z) (db : auth_db) : nat := length (List.filter (fun s => (session_user s =? uid) && is_live s) (sessions db)).
Definition opens (a : action) : bool := match a with Login _ _ _ _ _ | Setup _ _ _ _ _ => true | _ => false end.

Lemma in_live uid s : (session_user s =? uid) && is_live s = true <-> session_user s = uid /\ is_live s = true.
Proof. by rewrite andb_true_iff, Z.eqb_eq. Qed.

Lemma moved_live uid t ss ss' (q := fun s => (session_user s =? uid) && is_live s) : moved t ss ss' ->
  (length (List.filter q ss') <= length (List.filter q ss) + 1)%nat /\
  (t = None -> (length (List.filter q ss') <= length (List.filter q ss))%nat).
Proof.
  intros (f & p & new & A & -> & N). rewrite List.filter_app, length_app.
  assert (forall x, q (f x) = true -> q x = true) as Q.
  { intros x. unfold q. rewrite !in_live. destruct (A x) as (_ & -> & _ & L). tauto. }
  pose proof (filter_map_le q f (List.filter p ss) Q). pose proof (filter_filter_le q p ss).
  destruct N as [->|(token & s & -> & -> & _)]; cbn [List.filter length]; [lia|].
  split; [destruct (q s); cbn; lia|done].
Qed.

Lemma rotate_live uid now old token e db :
  (exists s, In s (sessions db) /\ session_id s = session_id old /\ session_user s = session_user old /\ is_live s = true) ->
  (live_of uid (snd (rotate_session now old token e db)) <= live_of uid db)%nat.
Proof.
  intros (s & I & D & W & L). unfold live_of. cbn. rewrite List.filter_app, length_app. cbn [List.filter is_live revoked_at session_user].
  set (q := fun s => (session_user s =? uid) && is_live s). set (f := fun s => if session_id s =? session_id old then set_used (utcnow_str now) (set_revoked (utcnow_str now) s) else s).
  assert (forall x, q (f x) = true -> q x = true) as Q.
  { intros x. unfold q, f. destruct (session_id x =? session_id old); [cbn; by rewrite andb_false_r|done]. }
  destruct (session_user old =? uid) eqn:U; cbn [andb length].
  - assert (q (f s) = false) as F by (unfold q, f; rewrite D, Z.eqb_refl; cbn; by rewrite andb_false_r).
    pose proof (filter_map_lt q f (sessions db) s Q I ltac:(unfold q; by rewrite W, U, L) F). lia.
  - pose proof (filter_map_le q f (sessions db) Q). lia.
Qed.

Lemma rotate_live_one uid now old token e db : (live_of uid (snd (rotate_session now old token e db)) <= live_of uid db + (if (session_user old =? uid)%Z then 1 else 0))%nat.
Proof.
  unfold live_of. cbn. rewrite List.filter_app, length_app. cbn [List.filter is_live revoked_at session_user].
  match goal with |- context [List.filter ?q (map ?f ?l)] => pose proof (filter_map_le q f l) as M end. lapply M.
  - clear M. intros M. destruct (session_user old =? uid); cbn [andb length]; lia.
  - intros x. destruct (session_id x =? session_id old); [cbn; by rewrite andb_false_r|done].
Qed.

Lemma revoke_all_live uid now v db : (live_of uid (revoke_all_sessions_for_user now v db) <= live_of uid db)%nat.
Proof.
  assert (moved None (sessions db) (sessions (revoke_all_sessions_for_user now v db))) as M by (cbn; auto 6 with briefr).
  destruct (moved_live uid _ _ _ M) as [_ M0]. by apply M0.
Qed.

Lemma perform_live uid db a : (live_of uid (perform db a) <= live_of uid db + (if opens a then 1 else 0))%nat.
Proof.
  destruct (moved_live uid _ _ _ (perform_moved db a)) as [M1 M0]. fold (live_of uid (perform db a)) in *. fold (live_of uid db) in *.
  destruct a as [now il nl token r0|now limited cookie token|now cookie|now limited salt token r0|now uid' sid|now salt name pw ro|uid'|uid' b|now];
    cbn [opens minted] in *; try lia; try (rewrite Nat.add_0_r; by apply M0).
  clear M1 M0. unfold AuthRoutes.perform. rewrite Nat.add_0_r.
  destruct (AuthRoutes.serve _ _ _ _ _ _ db) as [[[db' r] l]|e] eqn:H; [|done]. cbn [AuthRoutes.serve] in H.
  apply refresh_inv in H as [[-> _]|[(v & _ & -> & _)|(old & u & e & R & _ & -> & _)]]; [done|..].
  - apply revoke_all_live.
  - apply refresh_read_inv in R as (G & L & _). apply find_some in G as [I _]. apply rotate_live. eauto.
Qed.

Definition opening (e : event) : bool := match e with Served a => opens a | _ => false end.
Abbreviation meet := (meet cfg hashpw checkpw dummy jwt_encode).
Abbreviation traffic_after := (traffic_after cfg hashpw checkpw dummy jwt_encode).
Abbreviation overtakings := (overtakings cfg hashpw checkpw dummy jwt_encode).

Lemma meet_live uid t e : (live_of uid (fst (meet t e)) <= live_of uid (fst t) + (if opening e then 1 else 0) + (if overtaken uid t e then 1 else 0))%nat.
Proof.
  destruct t as [db plans], e as [a|now cookie|k now token]; cbn [AuthRoutes.meet opening overtaken fst snd].
  - pose proof (perform_live uid db a). lia.
  - lia.
  - destruct (plans !! k) as [[|v|old u]|]; cbn [fst refresh_write]; [lia| |..|lia].
    + pose proof (revoke_all_live uid now v db). lia.
    + destruct (_refresh_expiry cfg now) as [x|]; cbn [res_bind]; [|cbn [fst]; lia].
      pose proof (rotate_live_one uid now old token x db) as One. pose proof (rotate_live uid now old token x db) as L.
      destruct (rotate_session now old token x db) as [s db'] eqn:R. cbn [fst snd] in *.
      destruct (session_user old =? uid) eqn:U; cbn [andb]; [|lia]. destruct (existsb _ (sessions db)) eqn:X; cbn [negb]; [|lia].
      apply existsb_exists in X as (y & I & B). apply andb_prop in B as [B1 B2]. apply in_live in B2 as [B2 B3].
      apply Z.eqb_eq in B1, U. assert (live_of uid db' <= live_of uid db)%nat; [|lia]. apply L. exists y. rewrite U. done.
Qed.

(** ** Theorems *)

(** C14 A login or the setup opens one session and a refresh trades one for another: over any history of requests, in which a
    refresh may read its rows and write at any later point, a user has at most as many live sessions as before plus one for each
    login or setup request in it and one for each refresh that was overtaken, which means that the session it read was no longer
    live when it wrote. A refresh that no other request comes between is the refresh of the serial histories and is never
    overtaken. *)
Theorem sessions_bounded_by_logins uid t events :
  (live_of uid (fst (traffic_after events t)) <= live_of uid (fst t) + length (List.filter opening events) + overtakings uid t events)%nat /\
  (forall now cookie token, let begun := meet t (Begin now cookie) in let finish := Finish (length (snd t)) now token in
     meet begun finish = meet t (Served (Refresh now false cookie token)) /\ overtaken uid begun finish = false).
Proof.
  split.
  - revert t. induction events as [|e events IH]; intros t; [cbn; lia|].
    cbn [AuthRoutes.traffic_after fold_left List.filter AuthRoutes.overtakings]. unfold AuthRoutes.traffic_after in IH. specialize (IH (meet t e)). pose proof (meet_live uid t e).
    destruct (opening e); cbn [length]; lia.
  - intros now cookie token begun finish. destruct t as [db plans]. unfold begun, finish. cbn [AuthRoutes.meet overtaken fst snd].
    rewrite lookup_app_r, Nat.sub_diag by lia. cbn [lookup list_lookup]. split.
    + rewrite delete_middle, app_nil_r. done.
    + destruct (refresh_read now cookie db) as [|v|old u] eqn:R; [done..|].
      apply refresh_read_inv in R as (G & L & _). apply find_some in G as [I _].
      destruct (session_user old =? uid) eqn:U; [|done]. cbn [andb]. apply negb_false_iff, existsb_exists.
      exists old. by rewrite Z.eqb_refl, U, L.
Qed.

(** C3 Theft response.  When a token that was rotated or logged out is presented
    before it expires, the request is refused, the cookies are cleared, the reuse
    is audited, and every token issued to that user until then is dead: whatever
    requests follow, none of them is exchanged for new tokens again. *)
Theorem replay_ends_every_session db now cookie fresh s e :
  get_session_by_token db cookie = Some s -> is_live s = false -> nonempty cookie = true -> nonempty (expires_at s) = true ->
  expiry_of s = Some e -> now <= e -> NoDup (map refresh_token_hash (sessions db)) ->
  exists db1, serve (Refresh now false cookie fresh) db = Ok (db1, Cleared 401, [("auth.token_reuse_detected", str_of_Z (session_user s))]) /\
    forall x token acts, In x (sessions db) -> session_user x = session_user s -> refresh_token_hash x = hash_refresh_token token ->
      ~ remints (hash_refresh_token token) acts ->
      forall now' fresh' db' a rt p n ro au, serve (Refresh now' false token fresh') (history db1 acts) <> Ok (db', Issued a rt p n ro, au).
Proof.
  intros G L C X E B N. exists (revoke_all_sessions_for_user now (session_user s) db). split.
  - cbn [AuthRoutes.serve refresh]. unfold refresh_read. rewrite C, G, X, E, L. cbn [negb].
    by rewrite (proj2 (Z.ltb_ge e now) B).
  - intros x token acts I U Hx Nm now' fresh' db' a rt p n ro au. apply spent_refused, history_spent; [|done].
    rewrite <-Hx. by apply revoke_all_spent.
Qed.

(** Two refreshes with one token that both read before either writes are both
    answered with tokens, and both new sessions are live: the reuse goes unnoticed. *)
Theorem concurrent_refresh_forks db now cookie t1 t2 old u e :
  refresh_read now cookie db = Rotate old u -> _refresh_expiry cfg now = Ok e -> session_id old < next_session db ->
  exists db1 db2, refresh_write cfg jwt_encode now t1 (refresh_read now cookie db) db = Ok (db1, issue cfg jwt_encode now u t1 (remember_me old), []) /\
    refresh_write cfg jwt_encode now t2 (refresh_read now cookie db) db1 = Ok (db2, issue cfg jwt_encode now u t2 (remember_me old), []) /\
    forall token, token = t1 \/ token = t2 -> exists s, In s (sessions db2) /\ refresh_token_hash s = hash_refresh_token token /\
      session_user s = session_user old /\ is_live s = true.
Proof.
  intros R E B. rewrite R. cbn [refresh_write]. rewrite E. cbn [res_bind rotate_session create_session].
  do 2 eexists. split; [reflexivity|]. split; [reflexivity|].
  intros token [-> | ->]; cbn [sessions update_session with_sessions next_session].
  - eexists. split; [apply in_app_iff; left; apply in_map_iff; eexists; split; [|apply in_app_iff; right; by left]|].
    + cbn [session_id]. rewrite (proj2 (Z.eqb_neq _ _)) by lia. reflexivity.
    + done.
  - eexists. split; [apply in_app_iff; right; by left|]. done.
Qed.

(** ** The life of a session *)

Lemma find_app_new {A} (p : A -> bool) l x : (forall y, In y l -> p y = false) -> p x = true -> List.find p (l ++ [x]) = Some x.
Proof.
  intros H P. induction l as [|y l IH]; cbn; [by rewrite P|]. rewrite H by (by left). apply IH. intros z I. apply H. by right.
Qed.

Lemma get_new_session db s token : ~ In (hash_refresh_token token) (map refresh_token_hash (sessions db)) ->
  refresh_token_hash s = hash_refresh_token token -> List.find (fun s => String.eqb (refresh_token_hash s) (hash_refresh_token token)) (sessions db ++ [s]) = Some s.
Proof.
  intros N E. apply find_app_new; [|by apply String.eqb_eq].
  intros y I. apply String.eqb_neq. intros Y. apply N. rewrite <-Y. by apply in_map.
Qed.

Lemma replace_Z_id s : sforall (fun c => negb (Ascii.eqb c "Z")) s = true -> replace_Z s = s.
Proof.
  induction s as [|c s IH]; [done|]. cbn [sforall]. intros H. apply andb_prop in H as [C H]. apply negb_true_iff in C.
  cbn [replace_Z]. rewrite (IH H). by destruct (Ascii.eqb c "Z").
Qed.

Lemma zfill_head w n : exists c r, zfill (S w) n = String c r /\ is_digit c = true.
Proof.
  pose proof (zfill_digits (S w) n) as D. pose proof (zfill_length (S w) n) as L.
  destruct (zfill (S w) n) as [|c r]; [done|]. cbn [sforall] in D. apply andb_prop in D as [D _]. eauto.
Qed.

Lemma strftime_no_Z us : sforall (fun c => negb (Ascii.eqb c "Z")) (strftime us) = true.
Proof.
  assert (forall w n, sforall (fun c => negb (Ascii.eqb c "Z")) (zfill w n) = true) as NZ.
  { intros w n. eapply sforall_weaken; [|apply zfill_digits]. intros c. by destruct c as [[] [] [] [] [] [] [] []]. }
  unfold strftime, date_text, clock_text. destruct (civil_from_days _) as [[y m] d]. by rewrite !sforall_app, !NZ.
Qed.

Lemma strip_strftime us : strip (strftime us) = strftime us.
Proof.
  assert (exists c r, strftime us = String c r /\ is_digit c = true) as (c & r & E & C).
  { unfold strftime, date_text. destruct (civil_from_days _) as [[y m] d].
    destruct (zfill_head 3 y) as (c & r & -> & C). rewrite !app_cons. eauto. }
  assert (exists x d, strftime us = x +:+ String d "" /\ is_digit d = true) as (x & d & X & D).
  { unfold strftime, clock_text. set (s := us mod DAY_US / 1000000 mod 60).
    exists (date_text (us / DAY_US) +:+ " " +:+ zfill 2 (us mod DAY_US / 3600000000) +:+ ":" +:+ zfill 2 (us mod DAY_US / 60000000 mod 60) +:+ ":" +:+ zfill 1 (s / 10)), (digit_char (s mod 10)).
    pose proof (Z.mod_pos_bound s 10 eq_refl). split; [|apply digit_char_val; lia].
    change (zfill 2 s) with (zfill 1 (s / 10) +:+ String (digit_char (s mod 10)) ""). by rewrite !sapp_assoc. }
  unfold strip, rstrip_by, lstrip. rewrite E at 1.
  rewrite (drop_while_id is_space (String c r)) by (cbn [head_not]; by rewrite digit_not_space).
  rewrite <-E, X, srev_snoc, drop_while_id by (cbn [head_not]; by rewrite digit_not_space).
  by rewrite <-srev_snoc, srev_involutive.
Qed.

(** The expiry read back from a stored text is the printed instant. *)
Lemma expiry_of_printed s us : expires_at s = strftime us -> MIN_US <= us <= MAX_US -> expiry_of s = Some (us - us mod 1000000).
Proof.
  intros E B. unfold expiry_of. rewrite E, strip_strftime, replace_Z_id, strftime_parses by (done || apply strftime_no_Z).
  cbn. f_equal. unfold utc_us. cbn. lia.
Qed.

Lemma refresh_expiry_inv now e : _refresh_expiry cfg now = Ok e ->
  e = strftime (now + refresh_token_days cfg * DAY_US) /\ MIN_US <= now + refresh_token_days cfg * DAY_US <= MAX_US.
Proof.
  unfold _refresh_expiry. destruct (_ && _) eqn:B; [|done]. intros [= <-]. split; [done|].
  apply andb_prop in B as [B1 B2]. apply Z.leb_le in B1, B2. done.
Qed.

Lemma find_by_id (us : list user) (f : user -> user) u : NoDup (map user_id us) -> (forall v, user_id (f v) = user_id v) -> In u us ->
  List.find (fun v => user_id v =? user_id u) (map f us) = Some (f u).
Proof.
  intros N F. induction us as [|v us IH]; [done|]. cbn in N. apply NoDup_cons in N as [N1 N2].
  intros [->|I]; cbn [map List.find]; rewrite F; [by rewrite Z.eqb_refl|].
  destruct (Z.eqb_spec (user_id v) (user_id u)) as [E|_]; [|by apply IH].
  exfalso. apply N1. rewrite E. by apply list_elem_of_In, in_map.
Qed.

Lemma strftime_nonempty us : nonempty (strftime us) = true.
Proof.
  unfold strftime, date_text. destruct (civil_from_days _) as [[y m] d].
  destruct (zfill_head 3 y) as (c & r & -> & _). by rewrite !app_cons.
Qed.

(** The refresh token of a login is exchanged for new tokens of the same account
    until the configured days have passed, to the second, and is refused from
    then on; the new cookie is as persistent as the login asked for. *)
Theorem login_token_lasts now token r db db' access rt p name ro au :
  login cfg checkpw dummy jwt_encode now false false token r db = Ok (db', Issued access rt p name ro, au) ->
  nonempty token = true -> ~ In (hash_refresh_token token) (map refresh_token_hash (sessions db)) -> NoDup (map user_id (users db)) ->
  rt = token /\ p = l_remember r /\
  let t := now + refresh_token_days cfg * DAY_US in
  forall now' t2 e2, _refresh_expiry cfg now' = Ok e2 ->
    if now' <=? t - t mod 1000000
    then exists db2 access2, refresh cfg jwt_encode now' false token t2 db' = Ok (db2, Issued access2 t2 (l_remember r) name ro, [])
    else refresh cfg jwt_encode now' false token t2 db' = Ok (db', Refused 401, []).
Proof.
  intros H T F N. apply login_inv in H as [[_ [st H]]|(nm & u & _ & _ & _ & _ & G & A & _ & O & R & _)]; [done|].
  injection R as -> -> -> -> ->. split; [done|]. split; [done|]. intros t now' t2 e2 E2.
  unfold open_session in O. destruct (_refresh_expiry cfg now) as [e|] eqn:E; [|done]. injection O as <-.
  apply refresh_expiry_inv in E as [-> B]. fold t in B.
  unfold refresh, refresh_read. rewrite T. cbn [negb].
  unfold get_session_by_token. cbn [sessions update_last_login update_user with_users]. rewrite get_new_session by done.
  cbn [expires_at]. fold t. rewrite strftime_nonempty. cbn [negb].
  rewrite (expiry_of_printed _ t) by done. rewrite Z.ltb_antisym.
  destruct (now' <=? t - t mod 1000000); cbn [negb is_live revoked_at]; [|done].
  unfold get_user_by_id. cbn [users session_user update_last_login update_user with_users]. unfold get_user_by_username in G. apply find_some in G as [I _].
  rewrite (find_by_id _ _ u N) by (done || (intros v; by destruct (_ =? _))). rewrite Z.eqb_refl. cbn [set_last_login is_active].
  rewrite A. cbn [refresh_write]. rewrite E2. cbn [res_bind rotate_session create_session session_user]. eauto.
Qed.

(** Every stored expiry is a text the code printed. *)
Definition printed_expiries (db : auth_db) : Prop :=
  forall s, In s (sessions db) -> exists us, MIN_US <= us <= MAX_US /\ expires_at s = strftime us.

(** The clean-up is invisible: a row it deletes was already refused, so every
    later refresh is answered as if the row were still there. *)
Theorem purge_is_invisible now now' cookie db :
  MIN_US <= now <= MAX_US -> now <= now' -> printed_expiries db -> NoDup (map refresh_token_hash (sessions db)) ->
  refresh_read now' cookie (snd (purge_expired_sessions now db)) = refresh_read now' cookie db.
Proof.
  intros B L P N. unfold refresh_read. destruct (nonempty cookie); [|done]. cbn [negb].
  unfold get_session_by_token. cbn [snd purge_expired_sessions sessions with_sessions].
  set (keep := fun s => negb (String.ltb (expires_at s) (strftime now))).
  set (p := fun s => String.eqb (refresh_token_hash s) (hash_refresh_token cookie)).
  destruct (List.find p (sessions db)) as [s|] eqn:F.
  - apply find_some in F as F'. destruct F' as [I Ps]. destruct (keep s) eqn:K.
    + replace (List.find p (List.filter keep (sessions db))) with (Some s); [done|]. symmetry.
      clear -F K. induction (sessions db) as [|x l IH]; [done|]. cbn [List.find List.filter] in *.
      destruct (p x) eqn:Px; [injection F as ->; rewrite K; cbn; by rewrite Px|].
      destruct (keep x); cbn [List.find]; [rewrite Px|]; auto.
    + destruct (P s I) as (us & Bu & E). rewrite E, strftime_nonempty, (expiry_of_printed s us) by done. cbn [negb].
      unfold keep in K. rewrite E in K. apply negb_false_iff in K. unfold String.ltb in K. rewrite strftime_compare in K by done.
      destruct (Z.compare_spec (us / 1000000) (now / 1000000)) as [| Lt |]; [done| |done].
      pose proof (Z.div_mod us 1000000 ltac:(lia)). pose proof (Z.div_mod now 1000000 ltac:(lia)).
      pose proof (Z.mod_pos_bound now 1000000 eq_refl).
      rewrite (proj2 (Z.ltb_lt _ now')) by lia.
      destruct (List.find p (List.filter keep (sessions db))) as [x|] eqn:X; [|done].
      apply find_some in X as [Ix Px]. apply filter_In in Ix as [Ix Kx]. apply String.eqb_eq in Ps, Px.
      assert (x = s) as -> by (eapply (key_unique refresh_token_hash); [done..|congruence]).
      unfold keep in Kx. rewrite E in Kx. unfold String.ltb in Kx. rewrite strftime_compare in Kx by done.
      by rewrite (proj2 (Z.compare_lt_iff _ _) Lt) in Kx.
  - destruct (List.find p (List.filter keep (sessions db))) as [x|] eqn:X; [|done].
    apply find_some in X as [Ix Px]. apply filter_In in Ix as [Ix _]. by rewrite (find_none _ _ F x Ix) in Px.
Qed.

(** ** Logins that fail *)

(** bcrypt answers or refuses its input with ValueError, and nothing hashes to
    the random [DUMMY_HASH]. *)
Definition checkpw_law : Prop :=
  (forall p h, exists b, checkpw p h = Ok b \/ checkpw p h = Raise ValueError) /\ forall p, verify_password checkpw p dummy = Ok false.

Lemma verify_total p h : checkpw_law -> exists b, verify_password checkpw p h = Ok b.
Proof.
  intros [H _]. unfold verify_password, try_except. destruct (H p h) as [b [-> | ->]]; [by exists b|]. by exists false.
Qed.

(** C26 A well-formed login request within the limits gets tokens exactly when the
    account exists, is active and the password verifies.  In every other case the
    answer is the same 401 and the tables are unchanged: an unknown name, a
    disabled account and a wrong password cannot be told apart by the reply. *)
Theorem failed_logins_look_alike now token r db name e : checkpw_law ->
  valid_login r = true -> validate_username (normalize_username (l_username r)) = Ok name -> _refresh_expiry cfg now = Ok e ->
  let accepted := exists u, get_user_by_username db name = Some u /\ is_active u = true /\
                            verify_password checkpw (l_password r) (password_hash u) = Ok true in
  (accepted -> exists db' a rt p n ro, login cfg checkpw dummy jwt_encode now false false token r db = Ok (db', Issued a rt p n ro, [("auth.login", n)])) /\
  (~ accepted -> exists who, login cfg checkpw dummy jwt_encode now false false token r db = Ok (db, Refused 401, [("auth.login_failed", who)])).
Proof.
  intros C V N E accepted. unfold login. rewrite V, N. cbn [negb]. cbv zeta.
  destruct (verify_total (l_password r) dummy C) as [b ->]. cbn [res_bind].
  unfold accepted. destruct (get_user_by_username db name) as [u|]; [|split; [by intros (u & ? & _)|eauto]].
  destruct (is_active u) eqn:A; cbn [negb]; [|split; [intros (v & [= ->] & A' & _); congruence|eauto]].
  destruct (verify_total (l_password r) (password_hash u) C) as [[] P]; rewrite P; cbn [res_bind].
  - split; [|intros H; exfalso; eauto]. intros _. unfold open_session. rewrite E. cbn [res_bind create_session]. unfold issue. eauto 8.
  - split; [intros (v & [= ->] & _ & P'); congruence|eauto].
Qed.

(** bcrypt 5 raises ValueError on a password of more than 72 bytes. *)
Definition hashpw_limit : Prop := forall p salt, 72 < slen p -> hashpw p salt = Raise ValueError.

(** Such a password passes the validation of the setup form when it has at most
    128 characters, and the exception leaves the handler. *)
Theorem long_password_escapes now salt token r db name : hashpw_limit ->
  72 < slen (l_password r) <= PASSWORD_MAX_LEN -> 1 <= slen (l_username r) <= 32 -> validate_username (l_username r) = Ok name ->
  users db = [] -> setup cfg hashpw jwt_encode now false salt token r db = Raise ValueError.
Proof.
  intros L P U N E. unfold setup, setup_body, within, validate_password_strength, count_users. rewrite N, E.
  rewrite !(proj2 (Z.leb_le _ _)) by lia. rewrite !(proj2 (Z.ltb_ge _ _)) by (unfold PASSWORD_MAX_LEN in *; lia). cbn [andb length Z.of_nat Z.ltb].
  change (0 <? 0) with false. cbv iota. unfold create_user, hash_password. by rewrite L by lia.
Qed.

(** ** Accounts *)

(** Erasing an account removes its row and every row it owns in four of the five
    tables that keep a user id; its backfill runs stay. *)
Theorem erased_account_leaves_backfill uid db u : get_user_by_id db uid = Some u ->
  let db' := snd (delete_user uid db) in
  fst (delete_user uid db) = true /\ get_user_by_id db' uid = None /\ (forall s, In s (sessions db') -> session_user s <> uid) /\
  ~ In uid (user_notifications db') /\ ~ In uid (ioc_watchlist db') /\ ~ In uid (user_preferences db') /\
  stack_backfill_runs db' = stack_backfill_runs db.
Proof.
  intros G. cbv zeta. unfold delete_user. rewrite G. cbn.
  assert (forall l, ~ In uid (List.filter (fun o => negb (o =? uid)) l)) as O
    by (intros l [_ E]%filter_In; by rewrite Z.eqb_refl in E).
  split; [done|]. split.
  - unfold get_user_by_id. cbn [users]. destruct (List.find _ _) as [v|] eqn:F; [|done]. apply find_some in F as [I E].
    apply filter_In in I as [_ I]. by rewrite E in I.
  - split; [|repeat split; auto]. intros s I E. apply filter_In in I as [_ I]. by rewrite E, Z.eqb_refl in I.
Qed.

Lemma update_users_length uid f db : length (users (update_user uid f db)) = length (users db).
Proof. apply length_map. Qed.

Lemma create_user_count now salt name pw ro db u db' : create_user hashpw now salt name pw ro db = Ok (u, db') ->
  (length (users db) <= length (users db'))%nat.
Proof.
  unfold create_user. destruct (hash_password _ _ _) as [h|]; [|done]. cbn [res_bind].
  destruct (get_user_by_username _ _); intros [= <- <-]; cbn; [by rewrite length_map|rewrite length_app; lia].
Qed.

(** The setup form is closed for good by the first account: as long as no account
    is deleted, every later setup request is refused. *)
Theorem setup_closed_by_first_account db acts now salt token r db' a rt p n ro au :
  users db <> [] -> (forall uid, ~ In (DeleteUser uid) acts) ->
  serve (Setup now false salt token r) (history db acts) <> Ok (db', Issued a rt p n ro, au).
Proof.
  intros U D H. assert (forall acts db, (forall uid, ~ In (DeleteUser uid) acts) -> (length (users db) <= length (users (history db acts)))%nat) as M.
  { clear. induction acts as [|x acts IH]; intros db D; [done|]. cbn. etransitivity; [|apply IH; intros uid I; apply (D uid); by right].
    unfold AuthRoutes.perform. destruct (AuthRoutes.serve _ _ _ _ _ x db) as [[[db' rep] l]|e] eqn:H; [|done].
    destruct x as [now il nl token r0|now limited cookie token|now cookie|now limited salt token r0|now uid sid|now salt name pw ro|uid|uid b|now];
      cbn [AuthRoutes.serve] in H.
    - apply login_inv in H as [[-> _]|(nm & u & _ & _ & _ & _ & _ & _ & _ & O & _)]; [done|].
      apply open_session_sessions in O as (s & _ & _ & _ & _ & ->). unfold update_last_login. by rewrite update_users_length.
    - apply refresh_inv in H as [[-> _]|[(v & _ & -> & _)|(old & u & e & _ & _ & -> & _)]]; done.
    - injection H as <- _ _. unfold logout. repeat case_match; done.
    - apply setup_inv in H as [[-> _]|(nm & u & db1 & _ & _ & K & O & _)]; [done|]. apply create_user_count in K.
      apply open_session_sessions in O as (s & _ & _ & _ & _ & ->). unfold update_last_login. by rewrite update_users_length.
    - injection H as H. unfold revoke_session_endpoint in H. destruct (List.find _ _) as [s|]; [|injection H as <- _ _; done].
      destruct (negb _); injection H as <- _ _; done.
    - destruct (create_user _ _ _ _ _ _ db) as [[u db1]|] eqn:K; [|done]. injection H as <- _ _. by apply create_user_count in K.
    - destruct (D uid). by left.
    - injection H as <- _ _. cbn. by rewrite length_map.
    - injection H as <- _ _. done. }
  specialize (M acts db D). cbn [AuthRoutes.serve] in H. apply setup_inv in H as [[_ [st H]]|(nm & u & db1 & C & _)]; [done|].
  unfold count_users in C. destruct (users db); [done|]. cbn [length] in M. lia.
Qed.

(** The session list lets a user end his own sessions only: with distinct session
    ids, the rows of every other user are as they were, and an id that is not his
    is answered 403 or 404. *)
Theorem sessions_ended_by_owner_only now uid sid db : NoDup (map session_id (sessions db)) ->
  let st := revoke_session_endpoint now uid sid db in
  (forall s, In s (sessions db) -> session_user s <> uid -> In s (sessions (fst (fst st)))) /\
  (forall s, In s (sessions db) -> session_id s = sid -> session_user s <> uid -> snd (fst st) = Refused 403 \/ snd (fst st) = Refused 404) /\
  (forall s, In s (sessions db) -> session_id s = sid -> session_user s = uid ->
     forall x, In x (sessions (fst (fst st))) -> session_id x = sid -> is_live x = false).
Proof.
  intros N. cbv zeta. unfold revoke_session_endpoint. destruct (List.find _ _) as [o|] eqn:F; cycle 1.
  { split; [done|]. split; [by right|]. intros s I E U x J X. pose proof (find_none _ _ F x J) as L. cbn in L. by rewrite X, Z.eqb_refl in L. }
  apply find_some in F as [I P]. apply andb_prop in P as [P L]. apply Z.eqb_eq in P.
  destruct (negb _) eqn:U; cbn [fst snd].
  - split; [done|]. split; [by left|]. intros s J E V. apply negb_true_iff, Z.eqb_neq in U.
    assert (s = o) as -> by (eapply (key_unique session_id); [done..|congruence]). done.
  - apply negb_false_iff, Z.eqb_eq in U. cbn [sessions revoke_session update_session with_sessions]. split; [|split].
    + intros s J V. apply in_map_iff. exists s. split; [|done]. destruct (Z.eqb_spec (session_id s) sid) as [E|]; [|done].
      assert (s = o) as -> by (eapply (key_unique session_id); [done..|congruence]). done.
    + intros s J E V. assert (s = o) as -> by (eapply (key_unique session_id); [done..|congruence]). done.
    + intros s J E V x X Ex. apply in_map_iff in X as (y & <- & Y). destruct (Z.eqb_spec (session_id y) sid) as [Ey|Ny].
      * destruct (is_live y) eqn:Ly; [done|exact Ly].
      * exfalso. apply Ny. rewrite <-Ex. by destruct (is_live y).
Qed.
End Facts.

(** ** Instances *)

Definition demo_cfg : auth_settings := mkSettings "secret" 15 30.
Definition demo_hashpw (plain salt : string) : res string := if 72 <? slen plain then Raise ValueError else Ok (salt +:+ plain).
Definition demo_checkpw (plain hashed : string) : res bool :=
  if 72 <? slen plain then Raise ValueError else Ok (String.eqb hashed ("s" +:+ plain)).
Definition demo_encode (c : access_claims) (secret : string) : string := sub c.
Definition july_20 : Z := days_from_civil 2026 7 20 * DAY_US.
Definition ops : user := mkUser 1 "ops" "scorrect horse" "admin" true None.
Definition old_session : session := mkSession 1 1 (hash_refresh_token "t0") "" (strftime (july_20 + DAY_US)) (Some "2026-07-19 00:00:00") "" "" false.
Definition live_session : session := mkSession 2 1 (hash_refresh_token "t1") "" (strftime (july_20 + DAY_US)) None "" "" true.
Definition demo_db : auth_db := mkDb [ops] [old_session; live_session] 2 3 [1] [] [1] [1; 1].
Definition demo_login (password : string) : login_request := mkLogin " Ops " password true "agent" "10.0.0.1".

Lemma demo_hashes : NoDup (map refresh_token_hash (sessions demo_db)).
Proof. apply (bool_decide_unpack _). vm_compute. exact I. Qed.

Lemma replay_ends_every_session_witness :
  exists db1, serve demo_cfg demo_hashpw demo_checkpw "" demo_encode (Refresh july_20 false "t0" "t2") demo_db
    = Ok (db1, Cleared 401, [("auth.token_reuse_detected", "1")]) /\
    forall now' fresh' db' a rt p n ro au, serve demo_cfg demo_hashpw demo_checkpw "" demo_encode (Refresh now' false "t1" fresh')
      (history demo_cfg demo_hashpw demo_checkpw "" demo_encode db1 [Refresh july_20 false "t1" "t3"]) <> Ok (db', Issued a rt p n ro, au).
Proof.
  destruct (replay_ends_every_session demo_cfg demo_hashpw demo_checkpw "" demo_encode demo_db july_20 "t0" "t2" old_session (july_20 + DAY_US)) as (db1 & H & D);
    [vm_compute; reflexivity|reflexivity|reflexivity|vm_compute; reflexivity|vm_compute; reflexivity|vm_compute; discriminate|exact demo_hashes|].
  exists db1. split; [exact H|].
  apply (D live_session "t1" [Refresh july_20 false "t1" "t3"]); [right; left; reflexivity|reflexivity|reflexivity|].
  intros (a & token & [<-|[]] & [= <-] & E). vm_compute in E. discriminate E.
Defined.

Lemma concurrent_refresh_forks_witness :
  refresh_read july_20 "t1" demo_db = Rotate live_session ops /\
  exists db1 db2, refresh_write demo_cfg demo_encode july_20 "a" (refresh_read july_20 "t1" demo_db) demo_db = Ok (db1, issue demo_cfg demo_encode july_20 ops "a" true, []) /\
    refresh_write demo_cfg demo_encode july_20 "b" (refresh_read july_20 "t1" demo_db) db1 = Ok (db2, issue demo_cfg demo_encode july_20 ops "b" true, []) /\
    forall token, token = "a" \/ token = "b" -> exists s, In s (sessions db2) /\ refresh_token_hash s = hash_refresh_token token /\
      session_user s = 1 /\ is_live s = true.
Proof.
  split; [vm_compute; reflexivity|].
  apply (concurrent_refresh_forks demo_cfg demo_encode demo_db july_20 "t1" "a" "b" live_session ops (strftime (july_20 + 30 * DAY_US)));
    [vm_compute; reflexivity|vm_compute; reflexivity|vm_compute; reflexivity].
Defined.

(** Both refreshes of [concurrent_refresh_forks] as a history: the second is overtaken. *)
Example overlap_is_counted :
  let events := [Begin july_20 "t1"; Begin july_20 "t1"; Finish 0 july_20 "a"; Finish 0 july_20 "b"] in
  let after := traffic_after demo_cfg demo_hashpw demo_checkpw "" demo_encode events (demo_db, []) in
  (live_of 1 demo_db, live_of 1 (fst after), overtakings demo_cfg demo_hashpw demo_checkpw "" demo_encode 1 (demo_db, []) events) = (1, 2, 1)%nat.
Proof. vm_compute. reflexivity. Qed.

Lemma login_token_lasts_witness :
  exists db' access, login demo_cfg demo_checkpw "" demo_encode july_20 false false "t9" (demo_login "correct horse") demo_db
    = Ok (db', Issued access "t9" true "ops" "admin", [("auth.login", "ops")]) /\
  exists db2 access2, refresh demo_cfg demo_encode (july_20 + DAY_US) false "t9" "t10" db' = Ok (db2, Issued access2 "t10" true "ops" "admin", []).
Proof.
  do 2 eexists. split; [vm_compute; reflexivity|].
  pose proof (proj2 (proj2 (login_token_lasts demo_cfg demo_checkpw "" demo_encode july_20 "t9" (demo_login "correct horse") demo_db _ _ _ _ _ _ _
    ltac:(vm_compute; reflexivity) eq_refl ltac:(apply (bool_decide_unpack _); vm_compute; exact I) ltac:(apply (bool_decide_unpack _); vm_compute; exact I)))
    (july_20 + DAY_US) "t10" _ ltac:(vm_compute; reflexivity)) as H.
  vm_compute in H. vm_compute. exact H.
Defined.

Lemma purge_is_invisible_witness :
  refresh_read (july_20 + 2 * DAY_US) "t1" (snd (purge_expired_sessions (july_20 + 2 * DAY_US) demo_db)) = refresh_read (july_20 + 2 * DAY_US) "t1" demo_db.
Proof.
  apply purge_is_invisible; [vm_compute; split; discriminate|vm_compute; discriminate| |exact demo_hashes].
  intros s [<-|[<-|[]]]; exists (july_20 + DAY_US); (split; [vm_compute; split; discriminate|reflexivity]).
Defined.

Lemma demo_law : checkpw_law demo_checkpw "".
Proof.
  split; [|intros p; unfold verify_password, demo_checkpw; by destruct (72 <? slen p)].
  intros p h. unfold demo_checkpw. destruct (72 <? slen p); [exists true; by right|]. eexists. by left.
Qed.

Lemma failed_logins_look_alike_witness :
  exists who, login demo_cfg demo_checkpw "" demo_encode july_20 false false "t9" (demo_login "wrong") demo_db
    = Ok (demo_db, Refused 401, [("auth.login_failed", who)]).
Proof.
  apply (proj2 (failed_logins_look_alike demo_cfg demo_checkpw "" demo_encode july_20 "t9" (demo_login "wrong") demo_db "ops"
    (strftime (july_20 + 30 * DAY_US)) demo_law eq_refl ltac:(vm_compute; reflexivity) ltac:(vm_compute; reflexivity))).
  intros (u & G & _ & P). vm_compute in G. injection G as <-. vm_compute in P. discriminate P.
Defined.

Lemma long_password_escapes_witness :
  setup demo_cfg demo_hashpw demo_encode july_20 false "s" "t9" (mkLogin "ops" (String.concat "" (repeat "correct horse " 6)) false "" "") (mkDb [] [] 1 1 [] [] [] [])
  = Raise ValueError.
Proof.
  apply long_password_escapes with (name := "ops"); [|vm_compute; split; reflexivity || discriminate|vm_compute; split; discriminate|vm_compute; reflexivity|reflexivity].
  intros p salt L. unfold demo_hashpw. by rewrite (proj2 (Z.ltb_lt _ _) L).
Defined.

Lemma erased_account_leaves_backfill_witness :
  fst (delete_user 1 demo_db) = true /\ stack_backfill_runs (snd (delete_user 1 demo_db)) = [1; 1].
Proof.
  destruct (erased_account_leaves_backfill 1 demo_db ops eq_refl) as (H & _ & _ & _ & _ & _ & K). split; [exact H|exact K].
Defined.

Lemma setup_closed_by_first_account_witness :
  forall db' a rt p n ro au, serve demo_cfg demo_hashpw demo_checkpw "" demo_encode (Setup july_20 false "s" "t9" (demo_login "correct horse"))
    (history demo_cfg demo_hashpw demo_checkpw "" demo_encode demo_db [SetActive 1 false]) <> Ok (db', Issued a rt p n ro, au).
Proof.
  intros. apply setup_closed_by_first_account; [discriminate|]. intros uid [E|[]]. discriminate E.
Defined.

Lemma sessions_ended_by_owner_only_witness :
  forall x, In x (sessions (fst (fst (revoke_session_endpoint july_20 1 2 demo_db)))) -> session_id x = 2 -> is_live x = false.
Proof.
  apply (proj2 (proj2 (sessions_ended_by_owner_only july_20 1 2 demo_db ltac:(apply (bool_decide_unpack _); vm_compute; exact I))) live_session);
    [right; left; reflexivity|reflexivity|reflexivity].
Defined.
