(* ===== verification/AuthGate.v ===== *)
(** * AuthGate: auth_middleware.py, dependencies.py, db/search_tokens.py

    Who may reach an API route: the session gate of the middleware, the scoped
    search tokens it also admits, and the user and administrator dependencies.
    [jwt_decode now token secret] is [jwt.decode], [None] when it raises; the rows
    of search_api_tokens are a list.  Methods and paths are ASCII texts. *)

From S2P Require Import Prelude PyStr DecText Dates DateText Sha256 AuthDb AuthRoutes.
Open Scope string_scope.
Open Scope Z_scope.

(** ** Paths *)

Definition _PUBLIC_PREFIXES : list string := ["/api/auth/"; "/api/wallboard/"].
Definition _PUBLIC_EXACT : list string :=
  ["/api/health"; "/api/health/live"; "/api/docs"; "/api/redoc"; "/api/openapi.json"].
Definition _ADMIN_PREFIXES : list string := ["/api/admin/"; "/api/refresh"].
Definition _SEARCH_TOKEN_PREFIX : string := "briefr_search_".

Definition _is_public_api_path (path : string) : bool :=
  existsb (String.eqb path) _PUBLIC_EXACT || existsb (startswith path) _PUBLIC_PREFIXES.

Definition _skip_session_gate (path : string) : bool :=
  if negb (startswith path "/api/") then true
  else if _is_public_api_path path then true
  else existsb (startswith path) _ADMIN_PREFIXES.

(** The rest of [s] after [p]. *)
Definition after (p s : string) : option string :=
  if startswith s p then Some (sdrop (String.length p) s) else None.

(** [/api/cves/CVE-\d{4}-\d+], letters in either case: what follows it. *)
Definition cve_path_rest (path : string) : option string :=
  match after "/api/cves/cve-" (lower path) with
  | None => None
  | Some r =>
      match digits_n 4 0 r with
      | None => None
      | Some (_, r) =>
          match eat "-" r with
          | None => None
          | Some r => let '(ds, rest) := take_digits r in if nonempty ds then Some rest else None
          end
      end
  end.

Definition _CVE_ID_PATH (path : string) : bool :=
  match cve_path_rest path with Some "" => true | _ => false end.
Definition _CVE_RELATED_OR_DRAWER (path : string) : bool :=
  match cve_path_rest path with Some r => String.eqb r "/related" || String.eqb r "/drawer" | None => false end.

Definition search_token_path_allowed (path method : string) : bool :=
  if negb (String.eqb (upper method) "GET") then false
  else String.eqb path "/api/search/semantic" || _CVE_ID_PATH path || _CVE_RELATED_OR_DRAWER path.

Definition _bearer_token (authorization : string) : option string :=
  if negb (startswith (lower authorization) "bearer ") then None
  else let t := strip (sdrop 7 authorization) in if nonempty t then Some t else None.

(** ** Search tokens *)

Record search_token := mkToken {
  token_id : Z; token_prefix : string; token_hash : string; token_revoked : option string; token_used : option string }.

Definition LOOKUP_LEN : Z := 26.

Definition token_lookup_prefix (plaintext : string) : string :=
  let text := strip plaintext in if slen text <? LOOKUP_LEN then text else stake 26 text.

Definition token_live (t : search_token) : bool := match token_revoked t with None => true | Some _ => false end.

(** [revoke_search_token]: whether an active row was there, and the rows after it. *)
Definition revoke_search_token (stamp : string) (id : Z) (rows : list search_token) : bool * list search_token :=
  let hit := fun t => (token_id t =? id) && token_live t in
  (existsb hit rows,
   map (fun t => if hit t then mkToken (token_id t) (token_prefix t) (token_hash t) (Some stamp) (token_used t) else t) rows).

(** ** Users and administrators *)

Inductive verdict (A : Type) := Pass (a : A) | Stop (status : Z).
Arguments Pass {A} _.
Arguments Stop {A} _.

(** [request.state] after a user passed: the payload and the row, [None] for the
    stand-in row of the test suite. *)
Definition identity : Type := access_claims * option user.

Inductive caller := Anyone | SearchToken (id : Z) | Member (who : identity).

Section Gate.
Context (cfg : auth_settings) (checkpw : string -> string -> res bool)
  (jwt_decode : Z -> string -> string -> option access_claims) (in_pytest : bool).

Definition touch (stamp : string) (id : Z) (t : search_token) : search_token :=
  if token_id t =? id then mkToken (token_id t) (token_prefix t) (token_hash t) (token_revoked t) (Some stamp) else t.

(** The row of a valid token, and the rows with its last use noted. *)
Definition verify_search_token (stamp : string) (rows : list search_token) (plaintext : string)
  : res (option search_token * list search_token) :=
  let text := strip plaintext in
  if negb (startswith text _SEARCH_TOKEN_PREFIX) || (slen text <? LOOKUP_LEN) then Ok (None, rows) else
  match List.find (fun t => String.eqb (token_prefix t) (token_lookup_prefix text) && token_live t) rows with
  | None => Ok (None, rows)
  | Some row =>
      let! ok := verify_password checkpw text (token_hash row) in
      Ok (if ok then (Some row, map (touch stamp (token_id row)) rows) else (None, rows))
  end.

(** [int(payload.get("sub") or 0)] *)
Definition subject (c : access_claims) : option Z :=
  if nonempty (sub c) then match int_of_str (sub c) with Ok n => Some n | Raise _ => None end else Some 0.

Definition require_user (now : Z) (cookie : string) (db : auth_db) : verdict identity :=
  if negb (nonempty cookie) then Stop 401 else
  match jwt_decode now cookie (jwt_secret cfg) with
  | None => Stop 401
  | Some payload =>
      if negb (nonempty (claim_username payload)) then Stop 401 else
      match subject payload with
      | None => Stop 401
      | Some uid =>
          if uid <=? 0 then Stop 401 else
          match get_user_by_id db uid with
          | None => if in_pytest then Pass (payload, None) else Stop 401
          | Some u => if is_active u then Pass (payload, Some u) else Stop 401
          end
      end
  end.

Definition require_admin (now : Z) (cookie : string) (db : auth_db) : verdict (access_claims * user) :=
  match require_user now cookie db with
  | Stop status => Stop status
  | Pass (payload, found) =>
      let row := match found with
                 | Some u => Some u
                 | None => match subject payload with
                           | Some uid => if uid <=? 0 then None else
                                         match get_user_by_id db uid with
                                         | Some u => if is_active u then Some u else None
                                         | None => None
                                         end
                           | None => None
                           end
                 end in
      match row with
      | None => Stop 401
      | Some u => if String.eqb (role u) "admin" then Pass (mkAccess (sub payload) (claim_username payload) (role u) (iat payload) (exp payload), u) else Stop 403
      end
  end.

(** [session_auth_middleware]: who the request is passed on for, and the token rows. *)
Definition session_auth_middleware (now : Z) (method path authorization cookie : string) (limited : bool)
  (rows : list search_token) (db : auth_db) : res (verdict caller * list search_token) :=
  if String.eqb method "OPTIONS" || _skip_session_gate path then Ok (Pass Anyone, rows) else
  let member := Ok (match require_user now cookie db with Pass who => Pass (Member who) | Stop status => Stop status end, rows) in
  match _bearer_token authorization with
  | Some bearer =>
      if startswith bearer _SEARCH_TOKEN_PREFIX then
        if negb (search_token_path_allowed path method) then Ok (Stop 403, rows)
        else if limited then Ok (Stop 429, rows)
        else let! found := verify_search_token (utcnow_str now) rows bearer in
             Ok (match fst found with Some t => Pass (SearchToken (token_id t)) | None => Stop 401 end, snd found)
      else member
  | None => member
  end.

End Gate.

(** ** Paths a search token may read *)

Lemma after_spec p s r : after p s = Some r <-> s = p +:+ r.
Proof.
  unfold after, startswith. split.
  - destruct (String.prefix p s) eqn:P; [|done]. intros [= <-]. by apply prefix_split.
  - intros ->. by rewrite prefix_app, sdrop_app.
Qed.

(** A path of one CVE, its year and number, and what it asks of it. *)
Definition cve_path (suffix path : string) : Prop :=
  exists year number, lower path = "/api/cves/cve-" +:+ year +:+ "-" +:+ number +:+ suffix /\
    String.length year = 4%nat /\ sforall is_digit year = true /\ nonempty number = true /\ sforall is_digit number = true.

Lemma cve_path_rest_spec path r : head_not is_digit r = true -> cve_path_rest path = Some r <-> cve_path r path.
Proof.
  intros H. unfold cve_path_rest, cve_path. split.
  - destruct (after _ _) as [a|] eqn:A; [|done]. apply after_spec in A. rewrite A.
    destruct (digits_n 4 0 a) as [[v b]|] eqn:D; [|done]. apply digits_n_shape in D as (y & -> & L & Y).
    destruct (eat "-" b) as [c|] eqn:E; [|done]. apply eat_spec in E as ->.
    destruct (take_digits c) as [ds rest] eqn:T. apply take_digits_shape in T as [-> N].
    destruct (nonempty ds) eqn:Z; [|done]. intros [= <-]. exists y, ds. done.
  - intros (y & ds & E & L & Y & Z & N). rewrite (proj2 (after_spec _ _ _) E).
    destruct (digits_n_app y 0 ("-" +:+ ds +:+ r) Y) as [v ->%(eq_trans (f_equal (fun n => digits_n n _ _) (eq_sym L)))].
    rewrite (proj2 (eat_spec "-" _ _) eq_refl), take_digits_app by done. by rewrite Z.
Qed.

(** The routes open to search tokens: reading, and then only the semantic
    search, one CVE, its related CVEs and its drawer. *)
Theorem token_paths_exact path method :
  search_token_path_allowed path method = true <->
  upper method = "GET" /\ (path = "/api/search/semantic" \/ cve_path "" path \/ cve_path "/related" path \/ cve_path "/drawer" path).
Proof.
  assert (forall r, head_not is_digit r = true -> (cve_path r path <-> cve_path_rest path = Some r)) as S
    by (intros r H; symmetry; by apply cve_path_rest_spec).
  rewrite !S by done. unfold search_token_path_allowed, _CVE_ID_PATH, _CVE_RELATED_OR_DRAWER.
  destruct (String.eqb_spec (upper method) "GET") as [->|N]; cbn [negb]; [|split; [done|by intros [? _]]].
  rewrite !orb_true_iff, String.eqb_eq. split; [intros H; split; [done|]|intros [_ H]].
  - destruct H as [[H|H]|H]; [by left| |].
    + destruct (cve_path_rest path) as [[|c r]|]; by auto.
    + destruct (cve_path_rest path) as [r|]; [|done]. apply orb_true_iff in H as [H|H]; apply String.eqb_eq in H as ->; auto.
  - destruct H as [H|[H|[H|H]]]; [by do 2 left|left; right; by rewrite H|right; by rewrite H..].
Qed.

Section Facts.
Context (cfg : auth_settings) (checkpw : string -> string -> res bool) (jwt_decode : Z -> string -> string -> option access_claims).

Lemma require_user_pass now cookie db c found : require_user cfg jwt_decode false now cookie db = Pass (c, found) ->
  exists u uid, found = Some u /\ jwt_decode now cookie (jwt_secret cfg) = Some c /\ nonempty (claim_username c) = true /\
    subject c = Some uid /\ 0 < uid /\ get_user_by_id db uid = Some u /\ is_active u = true.
Proof.
  unfold require_user. destruct (nonempty cookie); [|done]. cbn [negb]. destruct (jwt_decode _ _ _) as [c'|] eqn:J; [|done].
  destruct (nonempty (claim_username c')) eqn:N; [|done]. cbn [negb]. destruct (subject c') as [uid|] eqn:S; [|done].
  destruct (Z.leb_spec uid 0); [done|]. destruct (get_user_by_id db uid) as [u|] eqn:G; [|done].
  destruct (is_active u) eqn:A; [|done]. intros [= <- <-]. eauto 10.
Qed.

Lemma get_user_in db uid u : get_user_by_id db uid = Some u -> In u (users db) /\ user_id u = uid.
Proof. intros H. apply find_some in H as [I E]. by apply Z.eqb_eq in E. Qed.

(** C23 Every analyst route is gated: a request for a path under /api/ that is
    neither public nor behind the administrator check is passed on only without an
    identity when its method is OPTIONS, for a member whose signed cookie names an
    account that is in the table and active at that moment, or for a live search token
    whose hash the bearer verifies, and then only to read one of the token's routes. *)
Theorem analyst_routes_are_gated now method path authorization cookie limited rows db who rows' :
  startswith path "/api/" = true -> _is_public_api_path path = false -> existsb (startswith path) _ADMIN_PREFIXES = false ->
  session_auth_middleware cfg checkpw jwt_decode false now method path authorization cookie limited rows db = Ok (Pass who, rows') ->
  (method = "OPTIONS" /\ who = Anyone) \/
  (exists c u, who = Member (c, Some u) /\ jwt_decode now cookie (jwt_secret cfg) = Some c /\ subject c = Some (user_id u) /\
     In u (users db) /\ is_active u = true) \/
  (exists t bearer, who = SearchToken (token_id t) /\ In t rows /\ token_live t = true /\ _bearer_token authorization = Some bearer /\
     verify_password checkpw (strip bearer) (token_hash t) = Ok true /\ search_token_path_allowed path method = true).
Proof.
  intros P1 P2 P3. unfold session_auth_middleware, _skip_session_gate. rewrite P1, P2, P3. cbn [negb orb].
  destruct (String.eqb_spec method "OPTIONS") as [M|M]; cbn [orb]; [intros [= <- _]; by left|]. intros Step. right. revert Step.
  set (member := match require_user _ _ _ _ _ _ with Pass w => _ | Stop s => _ end).
  assert (member = Pass who -> exists c u, who = Member (c, Some u) /\ jwt_decode now cookie (jwt_secret cfg) = Some c /\
    subject c = Some (user_id u) /\ In u (users db) /\ is_active u = true) as Mem.
  { unfold member. destruct (require_user _ _ _ _ _ _) as [[c found]|st] eqn:R; [|done]. intros [= <-].
    apply require_user_pass in R as (u & uid & -> & J & _ & S & _ & G & A). apply get_user_in in G as [I <-]. eauto 8. }
  destruct (_bearer_token authorization) as [bearer|] eqn:B; [|intros [= H _]; left; auto].
  destruct (startswith bearer _SEARCH_TOKEN_PREFIX); [|intros [= H _]; left; auto].
  destruct (search_token_path_allowed path method) eqn:A; [|done]. cbn [negb]. destruct limited; [done|].
  unfold verify_search_token. destruct (negb _ || _); [done|].
  destruct (List.find _ rows) as [t|] eqn:F; [|done]. apply find_some in F as [I L]. apply andb_prop in L as [_ L].
  destruct (verify_password checkpw (strip bearer) (token_hash t)) as [[]|] eqn:V; cbn [res_bind fst snd]; [|done..].
  intros [= <- _]. right. exists t, bearer. done.
Qed.

(** The administrator check reads the role from the table: whatever role the
    cookie was signed with, a request passes exactly when the account it names is
    in the table, active and an administrator at that moment. *)
Theorem admin_by_the_table now cookie db c uid :
  jwt_decode now cookie (jwt_secret cfg) = Some c -> nonempty cookie = true -> nonempty (claim_username c) = true -> subject c = Some uid -> 0 < uid ->
  match require_admin cfg jwt_decode false now cookie db with
  | Pass (c', u) => get_user_by_id db uid = Some u /\ is_active u = true /\ role u = "admin" /\ claim_role c' = "admin"
  | Stop 403 => exists u, get_user_by_id db uid = Some u /\ is_active u = true /\ role u <> "admin"
  | Stop status => status = 401 /\ forall u, get_user_by_id db uid = Some u -> is_active u = false
  end.
Proof.
  intros J C N S P. unfold require_admin, require_user. rewrite C, J, N, S, (proj2 (Z.leb_gt uid 0) P). cbn [negb].
  destruct (get_user_by_id db uid) as [u|]; [|done]. destruct (is_active u) eqn:A.
  - destruct (String.eqb_spec (role u) "admin") as [E|E]; [done|]. by exists u.
  - split; [done|]. by intros v [= <-].
Qed.
End Facts.

(** PyJWT accepts a token it signed from the second it was issued until it expires. *)
Definition access_jwt_law (jwt_encode : access_claims -> string -> string) (jwt_decode : Z -> string -> string -> option access_claims) : Prop :=
  forall now c secret, jwt_decode now (jwt_encode c secret) secret =
    if (iat c * 1000000 <=? now) && (now <? exp c * 1000000) then Some c else None.

(** The access token of a login identifies its account for the configured
    minutes and not a second longer, and only while the account is in the table
    and active; ending sessions does not end it. *)
Theorem access_token_follows_the_account cfg checkpw dummy jwt_encode jwt_decode now token r db db1 access rt p name ro au :
  access_jwt_law jwt_encode jwt_decode ->
  login cfg checkpw dummy jwt_encode now false false token r db = Ok (db1, Issued access rt p name ro, au) ->
  nonempty access = true -> Forall (fun u => 0 < user_id u /\ nonempty (username u) = true) (users db) ->
  exists uid, forall now' db2, now <= now' ->
    (exists c u, require_user cfg jwt_decode false now' access db2 = Pass (c, Some u) /\ claim_username c = name /\ claim_role c = ro) <->
    now' < (now / 1000000 + jwt_access_token_minutes cfg * 60) * 1000000 /\ exists u, get_user_by_id db2 uid = Some u /\ is_active u = true.
Proof.
  intros J H N W. apply login_inv in H as [[_ [st H]]|(nm & u & _ & _ & _ & _ & G & A & _ & O & R & _)]; [done|].
  injection R as -> _ _ -> ->. exists (user_id u). intros now' db2 L.
  apply find_some in G as [I _]. rewrite List.Forall_forall in W. destruct (W u I) as [Pos Nm].
  set (c := mkAccess (str_of_Z (user_id u)) (username u) (role u) (now / 1000000) (now / 1000000 + jwt_access_token_minutes cfg * 60)) in *.
  assert (subject c = Some (user_id u)) as S.
  { unfold subject, c. cbn [sub]. rewrite int_of_str_of_Z. destruct (str_of_Z (user_id u)) as [|x s] eqn:E; [|done].
    pose proof (int_of_str_of_Z (user_id u)) as Q. by rewrite E in Q. }
  unfold create_access_token in *. fold c in N |- *. unfold require_user. rewrite N, J. cbn [negb].
  assert ((iat c * 1000000 <=? now') = true) as -> by (apply Z.leb_le; cbn [iat c]; pose proof (Z.mul_div_le now 1000000); lia).
  cbn [andb]. change (exp c) with (now / 1000000 + jwt_access_token_minutes cfg * 60).
  destruct (Z.ltb_spec now' ((now / 1000000 + jwt_access_token_minutes cfg * 60) * 1000000)) as [B|B].
  - change (claim_username c) with (username u). rewrite Nm, S, (proj2 (Z.leb_gt _ 0) Pos). cbn [negb]. destruct (get_user_by_id db2 (user_id u)) as [v|].
    + destruct (is_active v) eqn:V; split; [eauto| |by intros (x & y & X & _)|intros (_ & x & [= <-] & X); congruence].
      intros _. exists c, v. done.
    + split; [by intros (x & y & X & _)|by intros (_ & x & X & _)].
  - split; [by intros (x & y & X & _)|]. lia.
Qed.

(** ** At concrete values *)

(** A stand-in for PyJWT that keeps the claims in the clear. *)
Definition clear_access (c : access_claims) (secret : string) : string :=
  str_of_Z (iat c) +:+ "." +:+ str_of_Z (exp c) +:+ "." +:+ str_of_Z (slen (sub c)) +:+ "." +:+ str_of_Z (slen (claim_username c)) +:+ "." +:+
  sub c +:+ claim_username c +:+ claim_role c.

Definition read_access (now : Z) (token secret : string) : option access_claims :=
  '(i, r) ← split_once "." token; '(e, r) ← split_once "." r; '(n, r) ← split_once "." r; '(m, r) ← split_once "." r;
  match int_of_str i, int_of_str e, int_of_str n, int_of_str m with
  | Ok i, Ok e, Ok n, Ok m =>
      if (i * 1000000 <=? now) && (now <? e * 1000000)
      then Some (mkAccess (stake (Z.to_nat n) r) (stake (Z.to_nat m) (sdrop (Z.to_nat n) r)) (sdrop (Z.to_nat m) (sdrop (Z.to_nat n) r)) i e)
      else None
  | _, _, _, _ => None
  end.

Lemma clear_access_law : access_jwt_law clear_access read_access.
Proof.
  intros now c secret. unfold clear_access, read_access. rewrite !(app_cons "."), !app_nil.
  do 4 (rewrite split_once_app by apply str_of_Z_no_dot; cbn [mbind option_bind]).
  rewrite !int_of_str_of_Z. unfold slen. rewrite !Nat2Z.id, !stake_app, !sdrop_app, ?stake_app.
  destruct (_ && _); [|done]. by destruct c.
Qed.

Definition demo_access : string := clear_access (mkAccess "1" "ops" "admin" 100 2000) "secret".
Definition demo_token : search_token := mkToken 7 "briefr_search_0123456789ab" "sbriefr_search_0123456789abcdef" None None.
Definition demoted : auth_db := update_user 1 (fun u => mkUser 1 "ops" "" "user" true None) demo_db.

Lemma analyst_routes_are_gated_witness :
  session_auth_middleware demo_cfg demo_checkpw read_access false 200000000 "get" "/api/cves/CVE-2024-3094/drawer"
    "Bearer briefr_search_0123456789abcdef" "" false [demo_token] demo_db
    = Ok (Pass (SearchToken 7), [mkToken 7 (token_prefix demo_token) (token_hash demo_token) None (Some "1970-01-01 00:03:20")]) /\
  (("get" = "OPTIONS" /\ SearchToken 7 = Anyone) \/ (exists c u, SearchToken 7 = Member (c, Some u) /\ read_access 200000000 "" "secret" = Some c /\ subject c = Some (user_id u) /\
     In u (users demo_db) /\ is_active u = true) \/
   (exists t bearer, SearchToken 7 = SearchToken (token_id t) /\ In t [demo_token] /\ token_live t = true /\
     _bearer_token "Bearer briefr_search_0123456789abcdef" = Some bearer /\
     verify_password demo_checkpw (strip bearer) (token_hash t) = Ok true /\
     search_token_path_allowed "/api/cves/CVE-2024-3094/drawer" "get" = true)).
Proof.
  assert (session_auth_middleware demo_cfg demo_checkpw read_access false 200000000 "get" "/api/cves/CVE-2024-3094/drawer"
    "Bearer briefr_search_0123456789abcdef" "" false [demo_token] demo_db
    = Ok (Pass (SearchToken 7), [mkToken 7 (token_prefix demo_token) (token_hash demo_token) None (Some "1970-01-01 00:03:20")])) as H
    by (vm_compute; reflexivity).
  split; [exact H|].
  exact (analyst_routes_are_gated demo_cfg demo_checkpw read_access 200000000 "get" "/api/cves/CVE-2024-3094/drawer"
    "Bearer briefr_search_0123456789abcdef" "" false [demo_token] demo_db _ _ eq_refl eq_refl eq_refl H).
Defined.

Lemma admin_by_the_table_witness :
  exists u, get_user_by_id demoted 1 = Some u /\ is_active u = true /\ role u <> "admin".
Proof.
  exact (admin_by_the_table demo_cfg read_access 200000000 demo_access demoted (mkAccess "1" "ops" "admin" 100 2000) 1
    eq_refl eq_refl eq_refl eq_refl eq_refl).
Defined.

Lemma access_token_follows_the_account_witness :
  exists db1 access, login demo_cfg demo_checkpw "" clear_access july_20 false false "t9" (demo_login "correct horse") demo_db
    = Ok (db1, Issued access "t9" true "ops" "admin", [("auth.login", "ops")]) /\
  exists uid, forall now' db2, july_20 <= now' ->
    (exists c u, require_user demo_cfg read_access false now' access db2 = Pass (c, Some u) /\ claim_username c = "ops" /\ claim_role c = "admin") <->
    now' < (july_20 / 1000000 + 15 * 60) * 1000000 /\ exists u, get_user_by_id db2 uid = Some u /\ is_active u = true.
Proof.
  do 2 eexists. split; [vm_compute; reflexivity|].
  eapply (access_token_follows_the_account demo_cfg demo_checkpw "" clear_access read_access july_20 "t9" (demo_login "correct horse") demo_db);
    [exact clear_access_law|vm_compute; reflexivity|reflexivity|repeat constructor].
Defined.
