(* ===== verification/IpText.v ===== *)
(** * IpText: [str] of an address

    Addresses as CPython 3.12 prints them, and the proof that [ip_address] reads
    the text back: the dotted form of IPv4, and the compressed form of IPv6. *)

From S2P Require Import Prelude PyStr DecText PyNet.
Open Scope string_scope.
Open Scope Z_scope.

Definition str_v4 (n : Z) : string :=
  str_of_Z (n / 16777216) +:+ "." +:+ str_of_Z (n / 65536 mod 256) +:+ "." +:+
  str_of_Z (n / 256 mod 256) +:+ "." +:+ str_of_Z (n mod 256).

(** The eight groups of an IPv6 address, most significant first. *)
Definition hextets (n : Z) : list string :=
  map (fun i => hex16 (Z.land (Z.shiftr n i) 65535)) [112; 96; 80; 64; 48; 32; 16; 0].

(** The first longest run of zero groups: its start and its length. *)
Definition best_run (l : list string) : nat * nat :=
  let step := fun st h =>
    let '(index, start, len, bstart, blen) := st in
    if String.eqb h "0" then
      let start := if (len =? 0)%nat then index else start in
      if (blen <? S len)%nat then (S index, start, S len, start, S len) else (S index, start, S len, bstart, blen)
    else (S index, 0%nat, 0%nat, bstart, blen) in
  let '(_, _, _, bstart, blen) := fold_left step l (0, 0, 0, 0, 0)%nat in (bstart, blen).

(** [_compress_hextets] *)
Definition compress_hextets (l : list string) : list string :=
  let '(start, len) := best_run l in
  if (1 <? len)%nat then
    let l' := if (start + len =? length l)%nat then (l ++ [""])%list else l in
    let l' := (firstn start l' ++ [""] ++ skipn (start + len) l')%list in
    if (start =? 0)%nat then "" :: l' else l'
  else l.

Definition str_ip (a : ip) : string :=
  match a with
  | V4 n => str_v4 n
  | V6 n scope => sjoin ":" (compress_hextets (hextets n)) +:+ match scope with Some z => "%" +:+ z | None => "" end
  end.

(** ** Reading the text back *)

Lemma hex_digit_val d : 0 <= d < 16 ->
  hex_val (hex_digit d) = Some d /\ (Ascii.eqb (hex_digit d) "0" = (d =? 0)) /\
  sforall (fun c => is_digit c || in_range 97 102 c) (String (hex_digit d) "") = true.
Proof.
  intros B. pose proof (zrange_check (fun d => match hex_val (hex_digit d) with Some v => v =? d | None => false end &&
    Bool.eqb (Ascii.eqb (hex_digit d) "0") (d =? 0) && sforall (fun c => is_digit c || in_range 97 102 c) (String (hex_digit d) "")) 16 d eq_refl B) as H.
  apply andb_prop in H as [H H3]. apply andb_prop in H as [H1 H2]. apply eqb_prop in H2.
  destruct (hex_val (hex_digit d)) as [v|]; [|done]. apply Z.eqb_eq in H1 as ->. done.
Qed.

Lemma hex16_spec v : 0 <= v < 65536 ->
  _parse_hextet (hex16 v) = Ok v /\ nonempty (hex16 v) = true /\
  sforall (fun c => is_digit c || in_range 97 102 c) (hex16 v) = true /\ (hex16 v = "0" -> v = 0).
Proof.
  intros B.
  assert (v = ((v / 4096 * 16 + v / 256 mod 16) * 16 + v / 16 mod 16) * 16 + v mod 16 /\ 0 <= v / 4096 < 16 /\
    0 <= v / 256 mod 16 < 16 /\ 0 <= v / 16 mod 16 < 16 /\ 0 <= v mod 16 < 16) as (E & B3 & B2 & B1 & B0).
  { assert (v / 4096 = v / 16 / 16 / 16) as -> by (rewrite !Z.div_div by lia; f_equal; lia).
    assert (v / 256 = v / 16 / 16) as -> by (rewrite !Z.div_div by lia; f_equal; lia).
    pose proof (Z.div_mod v 16 ltac:(lia)). pose proof (Z.mod_pos_bound v 16 eq_refl). set (a := v / 16) in *.
    pose proof (Z.div_mod a 16 ltac:(lia)). pose proof (Z.mod_pos_bound a 16 eq_refl). set (b := a / 16) in *.
    pose proof (Z.div_mod b 16 ltac:(lia)). pose proof (Z.mod_pos_bound b 16 eq_refl). lia. }
  unfold hex16. set (d3 := v / 4096) in *. set (d2 := v / 256 mod 16) in *. set (d1 := v / 16 mod 16) in *. set (d0 := v mod 16) in *.
  clearbody d3 d2 d1 d0.
  destruct (hex_digit_val d3 B3) as (V3 & Z3 & S3), (hex_digit_val d2 B2) as (V2 & Z2 & S2), (hex_digit_val d1 B1) as (V1 & Z1 & S1), (hex_digit_val d0 B0) as (V0 & Z0 & S0).
  cbn [sforall] in S3, S2, S1, S0. rewrite andb_true_r in S3, S2, S1, S0.
  cbn [drop_while]. rewrite Z3. destruct (Z.eqb_spec d3 0) as [->|N3].
  - cbn [drop_while]. rewrite Z2. destruct (Z.eqb_spec d2 0) as [->|N2].
    + cbn [drop_while]. rewrite Z1. destruct (Z.eqb_spec d1 0) as [->|N1].
      * cbn [drop_while]. rewrite Z0. destruct (Z.eqb_spec d0 0) as [->|N0].
        -- subst v. done.
        -- cbn [drop_while nonempty]. unfold _parse_hextet. cbn [hex_acc sforall]. rewrite V0, S0. cbn.
           split; [f_equal; lia|]. split; [done|]. split; [done|]. intros [= Q]. by rewrite Q in Z0.
      * cbn [nonempty]. unfold _parse_hextet. cbn [hex_acc sforall]. rewrite V1, V0, S1, S0. cbn. split; [f_equal; lia|]. split; [done|]. split; [done|intros [=]].
    + cbn [nonempty]. unfold _parse_hextet. cbn [hex_acc sforall]. rewrite V2, V1, V0, S2, S1, S0. cbn. split; [f_equal; lia|]. split; [done|]. split; [done|intros [=]].
  - cbn [nonempty]. unfold _parse_hextet. cbn [hex_acc sforall]. rewrite V3, V2, V1, V0, S3, S2, S1, S0. cbn. split; [f_equal; lia|]. split; [done|]. split; [done|intros [=]].
Qed.

(** ** Printing an address and reading it back *)

Definition group_text (s : string) : bool := sforall (fun c => is_digit c || in_range 97 102 c) s.

Lemma no_special s c : group_text s = true -> (is_digit c || in_range 97 102 c) = false ->
  sforall (fun x => negb (Ascii.eqb x c)) s = true.
Proof.
  intros G C. eapply sforall_weaken; [|exact G]. intros x X. cbn. destruct (Ascii.eqb_spec x c) as [->|]; [congruence|done].
Qed.

Lemma best_run_zeros l start len : best_run l = (start, len) ->
  (start + len <= length l)%nat /\ firstn len (skipn start l) = repeat "0" len.
Proof.
  set (step := fun (st : nat * nat * nat * nat * nat) (h : string) =>
    let '(index, start, len, bstart, blen) := st in
    if String.eqb h "0" then
      let start := if (len =? 0)%nat then index else start in
      if (blen <? S len)%nat then (S index, start, S len, start, S len) else (S index, start, S len, bstart, blen)
    else (S index, 0%nat, 0%nat, bstart, blen)).
  assert (forall p, let '(index, s, n, bs, bn) := fold_left step p (0, 0, 0, 0, 0)%nat in
    index = length p /\ (n <> 0%nat -> (s + n = index)%nat) /\ (n <= index)%nat /\ skipn (index - n) p = repeat "0" n /\
    (bs + bn <= index)%nat /\ firstn bn (skipn bs p) = repeat "0" bn) as I.
  { induction p as [|h p IH] using rev_ind; [done|]. rewrite fold_left_app. cbn [fold_left].
    destruct (fold_left step p _) as [[[[index s] n] bs] bn]. destruct IH as (-> & Hs & Hn & Z & Hb & W).
    assert (forall k m, (k + m <= length p)%nat -> firstn m (skipn k (p ++ [h])) = firstn m (skipn k p)) as Keep.
    { intros k m L. rewrite skipn_app, firstn_app, length_skipn. replace (m - (length p - k))%nat with 0%nat by lia.
      by rewrite firstn_0, app_nil_r. }
    rewrite length_app. cbn [length]. unfold step. destruct (String.eqb_spec h "0") as [->|N].
    - assert (skipn (length p - n) (p ++ ["0"]) = repeat "0" (S n)) as Z'.
      { rewrite skipn_app. replace (length p - n - length p)%nat with 0%nat by lia. cbn [skipn]. rewrite Z.
        change ["0"] with (repeat "0" 1). by rewrite <-repeat_app, Nat.add_1_r. }
      assert ((if (n =? 0)%nat then length p else s) = (length p - n)%nat) as S.
      { destruct (Nat.eqb_spec n 0) as [->|K]; [lia|]. specialize (Hs K). lia. }
      cbv zeta. rewrite S. destruct (bn <? Datatypes.S n)%nat.
      + repeat split; try lia; [by replace (length p + 1 - Datatypes.S n)%nat with (length p - n)%nat by lia|].
        rewrite Z'. rewrite firstn_all2; [done|]. by rewrite repeat_length.
      + repeat split; try lia; [by replace (length p + 1 - Datatypes.S n)%nat with (length p - n)%nat by lia|].
        rewrite Keep by lia. exact W.
    - repeat split; try lia; [by rewrite Nat.sub_0_r, skipn_all2 by (rewrite length_app; cbn; lia)|]. rewrite Keep by lia. exact W. }
  specialize (I l). unfold best_run. fold step. destruct (fold_left step l _) as [[[[index s] n] bs] bn].
  destruct I as (-> & _ & _ & _ & B & W). intros [= <- <-]. done.
Qed.

Ltac group_facts v g :=
  let P := fresh "P" in let N := fresh "N" in let Z := fresh "Z" in
  match goal with B : 0 <= v < 65536 |- _ => destruct (hex16_spec v B) as (P & N & _ & Z) end;
  generalize dependent (hex16 v); intros g P N Z; destruct g as [|? ?]; [discriminate N|]; clear N.

Lemma compress_parse vs : length vs = 8%nat -> Forall (fun v => 0 <= v < 65536) vs ->
  ipv6_parts (compress_hextets (map hex16 vs)) = Ok (join_hextets vs).
Proof.
  intros L F.
  destruct vs as [|v0 [|v1 [|v2 [|v3 [|v4 [|v5 [|v6 [|v7 [|? ?]]]]]]]]]; try discriminate L. clear L.
  rewrite !Forall_cons in F. destruct F as (B0 & B1 & B2 & B3 & B4 & B5 & B6 & B7 & _). cbn [map].
  group_facts v0 g0. group_facts v1 g1. group_facts v2 g2. group_facts v3 g3.
  group_facts v4 g4. group_facts v5 g5. group_facts v6 g6. group_facts v7 g7.
  unfold compress_hextets. destruct (best_run _) as [start len] eqn:R. apply best_run_zeros in R as [Len W]. cbn [length] in Len.
  destruct (Nat.ltb_spec 1 len) as [L2|L1].
  2: { unfold ipv6_parts. cbn -[_parse_hextet join_hextets]. rewrite P, P0, P1, P2, P3, P4, P5, P6. reflexivity. }
  assert (_parse_hextet "0" = Ok 0) as P00 by reflexivity.
  do 7 (destruct start as [|start]; [do 9 (destruct len as [|len]; [try lia; shelve|]); lia|]).
  lia.
  Unshelve.
  all: try (exfalso; lia).
  all: cbn [firstn skipn repeat] in W; injection W; intros; subst;
    repeat match goal with H : _parse_hextet "0" = Ok ?v |- _ => is_var v; rewrite P00 in H; injection H as <- end;
    lazy -[_parse_hextet join_hextets];
    repeat match goal with H : _parse_hextet ?g = Ok _ |- context [_parse_hextet ?g] => rewrite H; lazy -[_parse_hextet join_hextets] end; reflexivity.
Qed.

Lemma hextets_join n : 0 <= n < 2 ^ 128 -> exists vs, hextets n = map hex16 vs /\ length vs = 8%nat /\
  Forall (fun v => 0 <= v < 65536) vs /\ join_hextets vs = n.
Proof.
  intros B. exists (map (fun i => Z.land (Z.shiftr n i) 65535) [112; 96; 80; 64; 48; 32; 16; 0]).
  split; [by unfold hextets; rewrite map_map|]. split; [done|].
  assert (forall i, 0 <= i -> Z.land (Z.shiftr n i) 65535 = n / 2 ^ i mod 65536) as E.
  { intros i I. rewrite Z.shiftr_div_pow2 by done. change 65535 with (Z.ones 16). rewrite Z.land_ones by lia. reflexivity. }
  cbn [map]. rewrite !E by lia. split.
  - repeat (apply List.Forall_cons; [apply Z.mod_pos_bound; lia|]). by constructor.
  - assert (forall i, 0 <= i -> n / 2 ^ i = n / 2 ^ (i + 16) * 65536 + n / 2 ^ i mod 65536) as S.
    { intros i I. rewrite Z.pow_add_r, <-Z.div_div by lia. change (2 ^ 16) with 65536. pose proof (Z.div_mod (n / 2 ^ i) 65536). lia. }
    unfold join_hextets. cbn [fold_left].
    assert (n / 2 ^ 128 = 0) as Z by (apply Z.div_small; lia).
    pose proof (S 0 ltac:(lia)) as S0. pose proof (S 16 ltac:(lia)) as S1. pose proof (S 32 ltac:(lia)) as S2. pose proof (S 48 ltac:(lia)) as S3.
    pose proof (S 64 ltac:(lia)) as S4. pose proof (S 80 ltac:(lia)) as S5. pose proof (S 96 ltac:(lia)) as S6. pose proof (S 112 ltac:(lia)) as S7.
    cbn [Z.add Pos.add Pos.succ] in S0, S1, S2, S3, S4, S5, S6, S7. change (112 + 16) with 128 in S7. change (2 ^ 0) with 1 in *. rewrite Z.div_1_r in *.
    change (0 + 16) with 16 in *. change (16 + 16) with 32 in *. change (32 + 16) with 48 in *. change (48 + 16) with 64 in *.
    change (64 + 16) with 80 in *. change (80 + 16) with 96 in *. change (96 + 16) with 112 in *. rewrite Z in S7. clear S E Z B. lia.
Qed.

Lemma compress_texts l : Forall (fun s => group_text s = true) l -> Forall (fun s => group_text s = true) (compress_hextets l).
Proof.
  intros F. unfold compress_hextets. destruct (best_run l) as [start len]. destruct (1 <? len)%nat; [|done].
  assert (Forall (fun s => group_text s = true) (if (start + len =? length l)%nat then (l ++ [""])%list else l)) as F'
    by (destruct (_ =? _)%nat; [apply Forall_app; by repeat constructor|done]).
  assert (Forall (fun s => group_text s = true) (firstn start (if (start + len =? length l)%nat then (l ++ [""])%list else l) ++ [""] ++
    skipn (start + len) (if (start + len =? length l)%nat then (l ++ [""])%list else l))).
  { apply Forall_app. split; [by apply Forall_take|]. constructor; [done|]. by apply Forall_drop. }
  destruct (start =? 0)%nat; [by constructor|done].
Qed.

Lemma parse_v6 n : 0 <= n < 2 ^ 128 -> ip_address (str_ip (V6 n None)) = Ok (V6 n None).
Proof.
  intros B. destruct (hextets_join n B) as (vs & H & L & F & J). cbn [str_ip]. rewrite app_empty_r, H.
  pose proof (compress_parse vs L F) as P. rewrite J in P.
  assert (Forall (fun s => group_text s = true) (compress_hextets (map hex16 vs))) as G.
  { apply compress_texts, Forall_map. eapply Forall_impl; [exact F|]. intros v Bv. by apply hex16_spec. }
  set (parts := compress_hextets (map hex16 vs)) in *. clearbody parts.
  assert (3 <= length parts)%nat as Len.
  { unfold ipv6_parts in P. destruct (Nat.ltb_spec (length parts) 3) as [|K]; [done|exact K]. }
  assert (forall c, (is_digit c || in_range 97 102 c) = false -> c <> ":"%char -> sforall (fun x => negb (Ascii.eqb x c)) (sjoin ":" parts) = true) as N.
  { intros c C D. apply sforall_sjoin; [cbn [sforall]; destruct (Ascii.eqb_spec ":" c) as [E|]; [congruence|done]|].
    eapply Forall_impl; [exact G|]. intros s S. apply no_special; [exact S|done]. }
  unfold ip_address. assert (exists e, ipv4_of_text (sjoin ":" parts) = Raise e) as [e ->].
  { unfold ipv4_of_text. destruct (has_char "/" _); [eauto|]. rewrite split_on_none by (apply N; done). cbn. eauto. }
  unfold ipv6_of_text. rewrite has_char_none by (apply N; done). unfold partition. rewrite split_once_none by (apply N; done). cbn [andb].
  unfold ipv6_int. assert (nonempty (sjoin ":" parts) = true) as ->.
  { destruct parts as [|p [|q r]]; [cbn in Len; lia..|]. cbn [sjoin]. destruct p; cbn; [by destruct (sjoin ":" (q :: r))|done]. }
  cbn [negb]. rewrite split_on_sjoin.
  - rewrite (proj2 (Nat.ltb_ge _ 3) Len). rewrite has_char_none; [by rewrite P|].
    assert (group_text (List.last parts "") = true) as LG.
    { clear -G. induction G as [|s l S G IH]; [done|]. destruct l; [exact S|]. exact IH. }
    by apply no_special.
  - by destruct parts.
  - eapply Forall_impl; [exact G|]. intros s S. apply no_special; [exact S|done].
Qed.

Lemma parse_octet o : 0 <= o < 256 -> _parse_octet (str_of_Z o) = Ok o /\ sforall is_digit (str_of_Z o) = true.
Proof.
  intros B. split; [|apply str_of_nat_digits; lia].
  pose proof (zrange_check (fun o => match _parse_octet (str_of_Z o) with Ok v => v =? o | _ => false end) 256 o eq_refl B) as H. cbn beta in H.
  destruct (_parse_octet _) as [v|]; [|done]. by apply Z.eqb_eq in H as ->.
Qed.

Lemma parse_v4 n : 0 <= n < 2 ^ 32 -> ip_address (str_ip (V4 n)) = Ok (V4 n).
Proof.
  intros B. cbn [str_ip]. unfold str_v4, ip_address, ipv4_of_text.
  assert (n = ((n / 16777216 * 256 + n / 65536 mod 256) * 256 + n / 256 mod 256) * 256 + n mod 256 /\ 0 <= n / 16777216 < 256) as [E B3].
  { assert (n / 16777216 = n / 256 / 256 / 256) as -> by (rewrite !Z.div_div by lia; f_equal; lia).
    assert (n / 65536 = n / 256 / 256) as -> by (rewrite !Z.div_div by lia; f_equal; lia).
    pose proof (Z.div_mod n 256 ltac:(lia)). pose proof (Z.mod_pos_bound n 256 eq_refl). set (a := n / 256) in *.
    pose proof (Z.div_mod a 256 ltac:(lia)). pose proof (Z.mod_pos_bound a 256 eq_refl). set (b := a / 256) in *.
    pose proof (Z.div_mod b 256 ltac:(lia)). pose proof (Z.mod_pos_bound b 256 eq_refl). lia. }
  pose proof (Z.mod_pos_bound (n / 65536) 256 eq_refl) as B2. pose proof (Z.mod_pos_bound (n / 256) 256 eq_refl) as B1. pose proof (Z.mod_pos_bound n 256 eq_refl) as B0.
  set (d3 := n / 16777216) in *. set (d2 := n / 65536 mod 256) in *. set (d1 := n / 256 mod 256) in *. set (d0 := n mod 256) in *. clearbody d3 d2 d1 d0.
  destruct (parse_octet d3 B3) as [P3 S3], (parse_octet d2 B2) as [P2 S2], (parse_octet d1 B1) as [P1 S1], (parse_octet d0 B0) as [P0 S0].
  assert (forall c s, is_digit c = false -> sforall is_digit s = true -> sforall (fun x => negb (Ascii.eqb x c)) s = true) as N.
  { intros c s C D. eapply sforall_weaken; [|exact D]. intros x X. cbn. destruct (Ascii.eqb_spec x c) as [->|]; [congruence|done]. }
  change (str_of_Z d3 +:+ "." +:+ str_of_Z d2 +:+ "." +:+ str_of_Z d1 +:+ "." +:+ str_of_Z d0) with (sjoin "." [str_of_Z d3; str_of_Z d2; str_of_Z d1; str_of_Z d0]).
  rewrite has_char_none by (apply sforall_sjoin; [done|]; repeat (apply List.Forall_cons; [by apply N|]); by constructor).
  rewrite split_on_sjoin by (done || (repeat (apply List.Forall_cons; [by apply N|]); by constructor)).
  cbn [length Nat.eqb negb map_res res_bind]. rewrite P3, P2, P1, P0. cbn [res_bind fold_left]. do 2 f_equal. lia.
Qed.
