(* ===== verification/Ioc.v ===== *)
(** * Ioc: correlation/ioc_normalize.py

    Indicators of compromise in canonical form: refanging, the type names, and one
    spelling per address, domain, URL and hash; and the edge key that corroboration
    (correlation/source_evidence.py) joins on.  Addresses print as CPython 3.12
    prints them.  [meta] of the source is [ioc_meta]. *)

From S2P Require Import Prelude PyStr DecText Dates PyNet IpText.
Open Scope string_scope.
Open Scope Z_scope.

Definition v6_reserved : list net :=
  [Net6 0 8; Net6 (v6 [0x100]) 8; Net6 (v6 [0x200]) 7; Net6 (v6 [0x400]) 6; Net6 (v6 [0x800]) 5; Net6 (v6 [0x1000]) 4;
   Net6 (v6 [0x4000]) 3; Net6 (v6 [0x6000]) 3; Net6 (v6 [0x8000]) 3; Net6 (v6 [0xa000]) 3; Net6 (v6 [0xc000]) 3;
   Net6 (v6 [0xe000]) 4; Net6 (v6 [0xf000]) 5; Net6 (v6 [0xf800]) 6; Net6 (v6 [0xfe00]) 9].

Definition is_reserved (a : ip) : bool :=
  match a with V4 _ => in_net a (Net4 (v4 240 0 0 0) 4) | V6 _ _ => existsb (in_net a) v6_reserved end.

(** ** Refanging *)

(** [re.sub]: [m] gives the length of the match at the head of a text, 0 for none. *)
Fixpoint resub (m : string -> nat) (rep : string) (skip : nat) (s : string) : string :=
  match s with
  | "" => ""
  | String c t =>
      match skip with
      | S k => resub m rep k t
      | O => match m s with O => String c (resub m rep 0 t) | S k => rep +:+ resub m rep k t end
      end
  end.

Definition match_text (p : string) (s : string) : nat := if startswith s p then String.length p else 0%nat.

(** [hxxps?://], letters in either case *)
Definition match_hxxp (s : string) : nat :=
  let l := lower s in if startswith l "hxxps://" then 8%nat else if startswith l "hxxp://" then 7%nat else 0%nat.

Definition _DEFANG_REPLACEMENTS : list ((string -> nat) * string) :=
  [(match_hxxp, "http://"); (match_text "[.]", "."); (match_text "[:]", ":"); (match_text "[@]", "@")].

Definition refang (value : string) : string :=
  fold_left (fun out r => resub (fst r) (snd r) 0 out) _DEFANG_REPLACEMENTS (strip value).

(** ** Canonical forms *)

Definition normalize_ioc_type (ioc_type : string) : string :=
  let t := upper (strip ioc_type) in
  if one_in ["IP"; "IPV4"; "IPV6"] t then "IP"
  else if one_in ["DOMAIN"; "HOSTNAME"] t then "DOMAIN"
  else if one_in ["URL"; "URI"] t then "URL"
  else if one_in ["FILE"; "HASH"; "MD5"; "SHA1"; "SHA256"; "SHA512"] t then "HASH"
  else if nonempty t then t else "UNKNOWN".

Definition is_hex_char (c : ascii) : bool := match hex_val c with Some _ => true | None => false end.

Definition _normalize_hash (value : string) : string := lower (sfilter is_hex_char value).

Definition cut_www (host : string) : string := if startswith host "www." then sdrop 4 host else host.

Definition _normalize_domain (value : string) : string :=
  cut_www (rstrip_by (fun c => Ascii.eqb c ".") (lower (strip value))).

Definition _normalize_url (value : string) : res string :=
  let v := strip (refang value) in
  let v := if str_in "://" v then v else "http://" +:+ v in
  let! p := urlparse v in
  let scheme := lower (if nonempty (u_scheme p) then u_scheme p else "http") in
  Ok (urlunparse (mkUrl scheme (lower (u_netloc p)) (u_path p) (u_params p) (u_query p) (u_fragment p))).

Definition _url_host (value : string) : res string :=
  let! p := urlparse (if str_in "://" value then value else "http://" +:+ value) in
  let host := match hostname p with Some h => h | None => "" end in
  Ok (cut_www (rstrip_by (fun c => Ascii.eqb c ".") (lower host))).

Definition _PUBLIC_RESOLVER_IPS : list string :=
  ["8.8.8.8"; "8.8.4.4"; "2001:4860:4860::8888"; "2001:4860:4860::8844"; "1.1.1.1"; "1.0.0.1";
   "2606:4700:4700::1111"; "2606:4700:4700::1001"; "9.9.9.9"; "149.112.112.112"; "2620:fe::fe"; "2620:fe::9";
   "208.67.222.222"; "208.67.220.220"; "2620:119:35::35"; "2620:119:53::53"; "4.2.2.1"; "4.2.2.2"; "64.6.64.6"; "64.6.65.6"].

Definition is_noise_ip (value : string) : bool :=
  let stripped := strip value in
  if one_in _PUBLIC_RESOLVER_IPS stripped then true
  else match ip_address stripped with
       | Ok a => is_private a || is_loopback a || is_link_local a || is_reserved a
       | Raise _ => false
       end.

(** ** Indicators *)

Record ioc_meta := mkMeta { raw_value : string; noise : option bool; meta_host : option string }.

(** The canonical type and value, and what is noted about them; [None] when the
    indicator is dropped. *)
Definition normalize_ioc (ioc_type ioc_value : string) : res (option (string * string * ioc_meta)) :=
  let raw := strip ioc_value in
  if negb (nonempty raw) then Ok None else
  let canon_type := normalize_ioc_type ioc_type in
  let refanged := refang raw in
  if String.eqb canon_type "IP" then
    match ip_address refanged with
    | Raise _ => Ok None
    | Ok a => Ok (Some (canon_type, str_ip a, mkMeta ioc_value (Some (is_noise_ip (str_ip a))) None))
    end
  else if String.eqb canon_type "DOMAIN" then
    let v := _normalize_domain refanged in
    if negb (nonempty v) || negb (str_in "." v) then Ok None
    else Ok (Some (canon_type, v, mkMeta ioc_value None (Some v)))
  else if String.eqb canon_type "URL" then
    let! v := _normalize_url refanged in
    if slen v <? 8 then Ok None
    else let! h := _url_host v in Ok (Some (canon_type, v, mkMeta ioc_value None (Some h)))
  else if String.eqb canon_type "HASH" then
    let v := _normalize_hash refanged in
    if slen v <? 32 then Ok None else Ok (Some (canon_type, v, mkMeta ioc_value None None))
  else Ok (Some (canon_type, refanged, mkMeta ioc_value None None)).

(** ** The edge key of corroboration (correlation/source_evidence.py) *)

Definition ioc_edge_key (ioc_type ioc_value : string) : res (option (string * string)) :=
  let! n := normalize_ioc ioc_type ioc_value in
  Ok (match n with Some (t, v, _) => Some (t, lower v) | None => None end).

Example spellings :
  map (fun '(t, v) => match normalize_ioc t v with Ok (Some (t, v, _)) => t +:+ " " +:+ v | _ => "-" end)
    [("ipv4", " 10.0.0.1 "); ("IPv6", "2001:DB8:0:0:0:0:0:1"); ("hostname", "WWW.Evil[.]Example."); ("url", "hxxps://Evil[.]example/A?b=C");
     ("FileHash", "x"); ("md5", "D41D8CD9 8F00B204 E9800998 ECF8427E"); ("ip", "fe80::1%eth0"); ("ip", "::")]
  = ["IP 10.0.0.1"; "IP 2001:db8::1"; "DOMAIN evil.example"; "URL http://evil.example/A?b=C"; "FILEHASH x";
     "HASH d41d8cd98f00b204e9800998ecf8427e"; "IP fe80::1%eth0"; "IP ::"].
Proof. vm_compute. reflexivity. Qed.

(** ** Plain texts *)

Definition plain_char (c : ascii) : bool := is_alnum c || Ascii.eqb c "." || Ascii.eqb c "-" || Ascii.eqb c "_" || Ascii.eqb c ":".
Definition plain (s : string) : bool := sforall plain_char s.

Lemma plain_not c d : plain_char d = false -> plain_char c = true -> Ascii.eqb c d = false.
Proof. intros D C. destruct (Ascii.eqb_spec c d) as [->|]; [congruence|done]. Qed.

Lemma plain_char_facts c : plain_char c = true -> is_space c = false /\ c <> "["%char /\ c <> "/"%char /\ c <> "]"%char /\ plain_char (lower_char c) = true.
Proof. destruct c as [[] [] [] [] [] [] [] []]; (discriminate || done). Qed.

Lemma plain_strip s : plain s = true -> strip s = s.
Proof.
  intros P. apply strip_id. eapply sforall_weaken; [|exact P]. intros c C. apply plain_char_facts in C as [-> _]. done.
Qed.

Lemma resub_none m rep s : (forall a b, s = a +:+ b -> m b = 0%nat) -> resub m rep 0 s = s.
Proof.
  induction s as [|c s IH]; intros H; [done|]. cbn [resub]. rewrite (H "" (String c s)) by done. f_equal. apply IH.
  intros a b ->. by apply (H (String c a)).
Qed.

Lemma plain_tail a b : plain (a +:+ b) = true -> plain b = true.
Proof. unfold plain. rewrite sforall_app. by intros [_ H]%andb_prop. Qed.

Lemma startswith_plain s p : plain s = true -> sforall plain_char p = false -> startswith s p = false.
Proof.
  intros S P. destruct (startswith s p) eqn:E; [|done]. apply prefix_split in E. rewrite E in S. unfold plain in S.
  rewrite sforall_app, P in S. done.
Qed.

Lemma plain_lower s : plain s = true -> plain (lower s) = true.
Proof. apply sforall_smap. intros c C. apply plain_char_facts in C. tauto. Qed.

Lemma refang_plain s : plain s = true -> refang s = s.
Proof.
  intros P. unfold refang. rewrite plain_strip by done. unfold _DEFANG_REPLACEMENTS. cbn [fold_left fst snd].
  assert (forall p, sforall plain_char p = false -> forall rep, resub (match_text p) rep 0 s = s) as M.
  { intros p Hp rep. apply resub_none. intros a b ->. apply plain_tail in P. unfold match_text. by rewrite startswith_plain. }
  assert (resub match_hxxp "http://" 0 s = s) as ->.
  { apply resub_none. intros a b ->. apply plain_tail in P. unfold match_hxxp. cbv zeta.
    by rewrite !startswith_plain by (done || by apply plain_lower). }
  by rewrite !M.
Qed.

(** ** Addresses *)

Lemma octet_range s v : _parse_octet s = Ok v -> 0 <= v < 256.
Proof.
  unfold _parse_octet. destruct (negb (nonempty s)); [done|]. destruct (sforall is_digit s) eqn:D; [|done]. cbn [negb].
  destruct (3 <? slen s); [done|]. destruct (_ && _); [done|]. destruct (int_of_str s) as [n|] eqn:I; [|done]. cbn [res_bind].
  destruct (Z.ltb_spec 255 n); [done|]. intros [= <-]. split; [|lia]. by eapply int_of_digits_nonneg.
Qed.

Lemma map_res_forall {A B} (f : A -> res B) (P : B -> Prop) l r : (forall a b, f a = Ok b -> P b) -> map_res f l = Ok r ->
  Forall P r /\ length r = length l.
Proof.
  intros H. revert r. induction l as [|a l IH]; intros r E; cbn in E; [by injection E as <-|].
  destruct (f a) as [b|] eqn:F; [|done]. cbn [res_bind] in E. destruct (map_res f l) as [bs|]; [|done]. injection E as <-.
  destruct (IH bs eq_refl) as [G L]. cbn. split; [constructor; [by eapply H|done]|by rewrite L].
Qed.

Lemma ipv4_range s n : ipv4_of_text s = Ok n -> 0 <= n < 2 ^ 32.
Proof.
  unfold ipv4_of_text. destruct (has_char "/" s); [done|]. destruct (Nat.eqb_spec (length (split_on "." s)) 4) as [L|]; [|done]. cbn [negb].
  destruct (map_res _ _) as [vs|] eqn:M; [|done]. cbn [res_bind]. intros [= <-].
  apply (map_res_forall _ _ _ _ octet_range) in M as [F L']. rewrite L in L'.
  destruct vs as [|a [|b [|c [|d [|? ?]]]]]; try discriminate L'. rewrite !Forall_cons in F. cbn [fold_left]. lia.
Qed.

Lemma hex_val_range c v : hex_val c = Some v -> 0 <= v < 16.
Proof. destruct c as [[] [] [] [] [] [] [] []]; vm_compute; intros [= <-]; split; congruence. Qed.

Lemma hex_acc_range s : forall acc v k, hex_acc acc s = Some v -> 0 <= acc < 16 ^ k -> 0 <= k -> 0 <= v < 16 ^ (k + slen s).
Proof.
  induction s as [|c s IH]; intros acc v k H B K; cbn [hex_acc] in H; [injection H as <-; by rewrite Z.add_0_r|].
  destruct (hex_val c) as [d|] eqn:D; [|done]. apply hex_val_range in D. rewrite slen_cons.
  replace (k + (slen s + 1)) with (k + 1 + slen s) by lia. apply (IH _ _ _ H); [|lia].
  rewrite Z.pow_add_r, Z.pow_1_r by lia. lia.
Qed.

Lemma hextet_range s v : _parse_hextet s = Ok v -> 0 <= v < 65536.
Proof.
  unfold _parse_hextet. destruct (hex_acc 0 s) as [x|] eqn:H; [|done]. destruct (Z.ltb_spec 4 (slen s)); [done|].
  destruct (negb (nonempty s)); [done|]. intros [= <-]. apply (hex_acc_range s 0 x 0) in H; [|lia|lia].
  pose proof (Z.pow_le_mono_r 16 (0 + slen s) 4). lia.
Qed.

Lemma join_range l : Forall (fun v => 0 <= v < 65536) l -> length l = 8%nat -> 0 <= join_hextets l < 2 ^ 128.
Proof.
  intros F L. destruct l as [|a [|b [|c [|d [|e [|f [|g [|h [|? ?]]]]]]]]]; try discriminate L.
  rewrite !Forall_cons in F. unfold join_hextets. cbn [fold_left]. lia.
Qed.

Lemma ipv6_parts_range parts n : ipv6_parts parts = Ok n -> 0 <= n < 2 ^ 128.
Proof.
  unfold ipv6_parts. destruct (_ || _); [done|]. destruct (skip_indices parts) as [|i [|? ?]] eqn:K; [| |done].
  - destruct (Nat.eqb_spec (length parts) 8) as [L|]; [|done]. cbn [negb]. destruct (map_res _ _) as [l|] eqn:M; [|done]. cbn [res_bind].
    intros [= <-]. apply (map_res_forall _ _ _ _ hextet_range) in M as [F L']. apply join_range; [done|congruence].
  - cbv zeta. destruct (_ && _); [done|]. destruct (_ && _); [done|]. set (hi := (i - _)%nat). set (lo := (length parts - i - 1 - _)%nat).
    destruct (Nat.ltb_spec 7 (hi + lo)) as [|B]; [done|].
    destruct (map_res _ (firstn hi parts)) as [l1|] eqn:M1; [|done]. destruct (map_res _ (lastn lo parts)) as [l2|] eqn:M2; [|done]. cbn [res_bind].
    intros [= <-]. apply (map_res_forall _ _ _ _ hextet_range) in M1 as [F1 L1], M2 as [F2 L2].
    apply join_range.
    + apply Forall_app. split; [done|]. apply Forall_app. split; [|done]. apply List.Forall_forall. intros x X. apply repeat_spec in X as ->. lia.
    + assert (i ∈ skip_indices parts) as I by (rewrite K; by apply list_elem_of_singleton).
      unfold skip_indices in I. apply list_elem_of_filter in I as [_ I]. apply elem_of_seq in I.
      rewrite !length_app, repeat_length, L1, L2. unfold lastn. rewrite length_firstn, length_skipn. lia.
Qed.


Definition addr_char (c : ascii) : bool := is_digit c || in_range 97 102 c || Ascii.eqb c ":" || Ascii.eqb c ".".

Lemma addr_char_facts c : addr_char c = true -> plain_char c = true /\ lower_char c = c /\ Ascii.eqb c "%" = false.
Proof. destruct c as [[] [] [] [] [] [] [] []]; (discriminate || done). Qed.

Definition in_width (a : ip) : Prop := match a with V4 n => 0 <= n < 2 ^ 32 | V6 n _ => 0 <= n < 2 ^ 128 end.

Lemma ipv6_int_range s n : ipv6_int s = Ok n -> 0 <= n < 2 ^ 128.
Proof.
  unfold ipv6_int. destruct (negb _); [done|]. cbv zeta. destruct (_ <? _)%nat; [done|]. destruct (has_char "." _).
  - destruct (ipv4_of_text _); [|done]. cbn [res_bind]. apply ipv6_parts_range.
  - apply ipv6_parts_range.
Qed.

Lemma ip_address_range s a : ip_address s = Ok a -> in_width a.
Proof.
  unfold ip_address. destruct (ipv4_of_text s) as [n|] eqn:H4; [intros [= <-]; by apply ipv4_range in H4|]. unfold ipv6_of_text.
  destruct (has_char _ _); [done|]. destruct (partition _ _) as [[addr sep] scope]. destruct (_ && _); [done|].
  destruct (ipv6_int addr) as [n|] eqn:H6; [|done]. cbn [res_bind]. intros [= <-]. by apply ipv6_int_range in H6.
Qed.

Lemma str_ip_chars a : in_width a -> match a with V6 _ (Some _) => False | _ => True end -> sforall addr_char (str_ip a) = true.
Proof.
  destruct a as [n|n [?|]]; intros W S; [|done|]; cbn [str_ip in_width] in *.
  - unfold str_v4. rewrite !sforall_app.
    assert (forall o, 0 <= o -> sforall addr_char (str_of_Z o) = true) as D.
    { intros o O. eapply sforall_weaken; [|by apply str_of_nat_digits]. intros c C. unfold addr_char. by rewrite C. }
    rewrite !D by (apply Z.div_pos || apply Z.mod_pos_bound; lia). done.
  - rewrite app_empty_r. destruct (hextets_join n W) as (vs & -> & L & F & _). apply sforall_sjoin; [done|].
    eapply Forall_impl; [apply compress_texts, Forall_map; eapply Forall_impl; [exact F|]; intros v V; by apply hex16_spec|].
    intros g G. eapply sforall_weaken; [|exact G]. intros c C. unfold addr_char. apply orb_prop in C as [-> | ->]; [done|by rewrite orb_true_r].
Qed.

Lemma parse_str_ip a : in_width a -> match a with V6 _ (Some _) => False | _ => True end -> ip_address (str_ip a) = Ok a.
Proof. destruct a as [n|n [?|]]; intros W S; [by apply parse_v4|done|by apply parse_v6]. Qed.

(** ** Lower-case texts *)

Definition low (s : string) : bool := sforall (fun c => Ascii.eqb (lower_char c) c) s.

Lemma low_id s : low s = true -> lower s = s.
Proof.
  induction s as [|c s IH]; [done|]. cbn [low sforall lower smap]. intros [C S]%andb_prop. apply Ascii.eqb_eq in C as ->. f_equal. by apply IH.
Qed.

Lemma low_lower s : low (lower s) = true.
Proof. induction s as [|c s IH]; [done|]. cbn [low sforall lower smap]. rewrite lower_char_idemp, Ascii.eqb_refl. exact IH. Qed.

Lemma rstrip_forall p q s : sforall p s = true -> sforall p (rstrip_by q s) = true.
Proof. intros H. unfold rstrip_by. rewrite sforall_srev. apply sforall_drop. by rewrite sforall_srev. Qed.

Lemma domain_low x : low (_normalize_domain x) = true.
Proof. unfold _normalize_domain, cut_www. destruct (startswith _ _); [apply sforall_sdrop|]; apply rstrip_forall, low_lower. Qed.

Definition dot (c : ascii) : bool := Ascii.eqb c ".".

Lemma rstrip_tail s : head_not dot (srev (rstrip_by dot s)) = true.
Proof. unfold rstrip_by. rewrite srev_involutive. apply drop_while_head. Qed.

Lemma head_not_app p a b : a <> "" -> head_not p (a +:+ b) = head_not p a.
Proof. by destruct a. Qed.

Lemma srev_app_str a b : srev (a +:+ b) = srev b +:+ srev a.
Proof.
  induction a as [|c a IH]; [by rewrite app_empty_r|]. rewrite app_cons. unfold srev at 1. cbn [srev_app].
  rewrite srev_app_app, IH, sapp_assoc. f_equal. unfold srev at 2. cbn [srev_app]. by rewrite srev_app_app.
Qed.

Lemma domain_tail x : _normalize_domain x <> "" -> head_not dot (srev (_normalize_domain x)) = true.
Proof.
  unfold _normalize_domain. set (h := rstrip_by _ _). assert (head_not dot (srev h) = true) as H by apply rstrip_tail. clearbody h.
  unfold cut_www. destruct (startswith h "www.") eqn:E; [|done]. apply prefix_split in E. change (String.length "www.") with 4%nat in E.
  intros N. rewrite E, srev_app_str in H. rewrite head_not_app in H; [exact H|]. intros Z. apply N.
  by rewrite <-(srev_involutive (sdrop 4 h)), Z.
Qed.

Lemma rstrip_id s : head_not dot (srev s) = true -> rstrip_by dot s = s.
Proof. intros H. unfold rstrip_by. by rewrite drop_while_id, srev_involutive. Qed.

Lemma domain_fixed v : plain v = true -> low v = true -> head_not dot (srev v) = true -> startswith v "www." = false -> _normalize_domain v = v.
Proof.
  intros P L T W. unfold _normalize_domain. rewrite plain_strip, low_id by done. change (fun c => Ascii.eqb c ".") with dot.
  rewrite rstrip_id by done. unfold cut_www. by rewrite W.
Qed.

(** ** Edge keys *)

Lemma key_of_domain x v : plain x = true -> nonempty x = true -> _normalize_domain x = v -> low v = true -> nonempty v = true ->
  str_in "." v = true -> ioc_edge_key "DOMAIN" x = Ok (Some ("DOMAIN", v)).
Proof.
  intros P X E L N D. unfold ioc_edge_key, normalize_ioc. rewrite plain_strip, X by done. cbn [negb]. change (normalize_ioc_type "DOMAIN") with "DOMAIN".
  rewrite refang_plain by done. cbn [String.eqb Ascii.eqb Bool.eqb]. rewrite E, N, D. cbn. by rewrite low_id.
Qed.

Lemma hex_char_facts c : is_hex_char c = true -> plain_char c = true /\ is_hex_char (lower_char c) = true.
Proof. destruct c as [[] [] [] [] [] [] [] []]; (discriminate || done). Qed.

Lemma key_of_hash v : sforall is_hex_char v = true -> low v = true -> 32 <= slen v -> ioc_edge_key "HASH" v = Ok (Some ("HASH", v)).
Proof.
  intros H L N. unfold ioc_edge_key, normalize_ioc.
  assert (plain v = true) as P by (eapply sforall_weaken; [|exact H]; intros c C; by apply hex_char_facts).
  rewrite plain_strip by done. assert (nonempty v = true) as -> by (destruct v; [done|done]). cbn [negb]. change (normalize_ioc_type "HASH") with "HASH".
  rewrite refang_plain by done. cbn [String.eqb Ascii.eqb Bool.eqb]. unfold _normalize_hash. rewrite sfilter_id, low_id by done.
  rewrite (proj2 (Z.ltb_ge _ _) N). cbn. by rewrite low_id.
Qed.

Lemma key_of_ip a : in_width a -> match a with V6 _ (Some _) => False | _ => True end -> ioc_edge_key "IP" (str_ip a) = Ok (Some ("IP", str_ip a)).
Proof.
  intros W S. pose proof (str_ip_chars a W S) as C. unfold ioc_edge_key, normalize_ioc.
  assert (plain (str_ip a) = true) as P by (eapply sforall_weaken; [|exact C]; intros c A; by apply addr_char_facts).
  assert (low (str_ip a) = true) as L by (eapply sforall_weaken; [|exact C]; intros c A; apply addr_char_facts in A as (_ & -> & _); apply Ascii.eqb_refl).
  pose proof (parse_str_ip a W S) as R. rewrite plain_strip by done.
  assert (nonempty (str_ip a) = true) as -> by (destruct (str_ip a); [vm_compute in R; discriminate|done]).
  cbn [negb]. change (normalize_ioc_type "IP") with "IP". rewrite refang_plain by done. cbn [String.eqb Ascii.eqb Bool.eqb]. rewrite R. cbn.
  by rewrite low_id.
Qed.

(** An address without a zone, a digest, a plain domain without a further [www.]. *)
Definition settled (k : string * string) : bool :=
  String.eqb (fst k) "IP" && negb (has_char "%" (snd k)) || String.eqb (fst k) "HASH" ||
  String.eqb (fst k) "DOMAIN" && plain (snd k) && negb (startswith (snd k) "www.").

(** [edge_key_stable]: an edge key is in canonical form: read again as an indicator
    of its own type, an address, a digest or a plain domain gives the same key.  So the
    keys that [batch_source_evidence] files its evidence under are the ones the callers
    look up with. *)
Theorem edge_key_stable ty v k : ioc_edge_key ty v = Ok (Some k) -> settled k = true -> ioc_edge_key (fst k) (snd k) = Ok (Some k).
Proof.
  unfold ioc_edge_key at 1. unfold normalize_ioc. destruct (negb _); [done|]. set (x := refang _). clearbody x.
  set (t := normalize_ioc_type ty). clearbody t. destruct (String.eqb_spec t "IP") as [->|NI].
  - destruct (ip_address x) as [a|] eqn:A; [|done]. apply ip_address_range in A as W. cbn [res_bind]. intros [= <-]. unfold settled.
    cbn [fst snd String.eqb Ascii.eqb Bool.eqb andb orb]. rewrite !orb_false_r. intros Z.
    assert (match a with V6 _ (Some _) => False | _ => True end) as S.
    { destruct a as [|n [z|]]; [done| |done]. apply negb_true_iff in Z. unfold has_char in Z. cbn [str_ip] in Z. rewrite lower_app, sforall_app in Z.
      cbn in Z. by rewrite andb_false_r in Z. }
    pose proof (str_ip_chars a W S) as C. rewrite low_id; [by apply key_of_ip|].
    eapply sforall_weaken; [|exact C]. intros c H. apply addr_char_facts in H as (_ & -> & _). apply Ascii.eqb_refl.
  - destruct (String.eqb_spec t "DOMAIN") as [->|ND].
    + destruct (nonempty (_normalize_domain x)) eqn:N; [|done]. destruct (str_in "." (_normalize_domain x)) eqn:D; [|done]. cbn [negb orb res_bind].
      rewrite low_id by apply domain_low. intros [= <-]. unfold settled. cbn [fst snd String.eqb Ascii.eqb Bool.eqb andb orb].
      intros [P W%negb_true_iff]%andb_prop.
      apply key_of_domain; [done|by destruct (_normalize_domain x)| |apply domain_low|done..]. apply domain_fixed; [done|apply domain_low|apply domain_tail; by intros E; rewrite E in N|done].
    + destruct (String.eqb_spec t "URL") as [->|NU].
      { destruct (_normalize_url x) as [u|]; [|done]. cbn [res_bind]. destruct (_ <? _); [done|]. destruct (_url_host u); [|done]. by intros [= <-]. }
      destruct (String.eqb_spec t "HASH") as [->|NH].
      * destruct (Z.ltb_spec (slen (_normalize_hash x)) 32) as [|B]; [done|]. cbn [res_bind]. intros [= <-] _. cbn [fst snd].
        unfold _normalize_hash in *. rewrite lower_idemp. apply key_of_hash; [|apply low_lower|done].
        apply sforall_smap; [|apply sfilter_forall]. intros c C. by apply hex_char_facts.
      * cbn [res_bind]. intros [= <-]. unfold settled. cbn [fst snd]. apply String.eqb_neq in NI, ND, NH. by rewrite NI, ND, NH.
Qed.

Lemma edge_key_stable_witness : ioc_edge_key " ipv6 " "2001:DB8:0:0:0:0:0[:]1" = Ok (Some ("IP", "2001:db8::1")) /\
  ioc_edge_key "IP" "2001:db8::1" = Ok (Some ("IP", "2001:db8::1")).
Proof.
  assert (ioc_edge_key " ipv6 " "2001:DB8:0:0:0:0:0[:]1" = Ok (Some ("IP", "2001:db8::1"))) as E by (vm_compute; reflexivity).
  split; [exact E|]. apply (edge_key_stable _ _ _ E). vm_compute. reflexivity.
Defined.

Lemma www_cut v : plain v = true -> low v = true -> head_not dot (srev v) = true -> v <> "" ->
  _normalize_domain ("www." +:+ v) = v.
Proof.
  intros P L T N. unfold _normalize_domain. rewrite plain_strip by (unfold plain; by rewrite sforall_app).
  rewrite lower_app, (low_id v) by done. change (lower "www.") with "www.". change (fun c => Ascii.eqb c ".") with dot.
  rewrite rstrip_id; [unfold cut_www, startswith; rewrite prefix_app; exact (sdrop_app "www." v)|]. rewrite srev_app_str, head_not_app; [done|]. intros Z. apply N. by rewrite <-(srev_involutive v), Z.
Qed.

Lemma has_dot_nonempty v : str_in "." v = true -> nonempty v = true /\ v <> "".
Proof. by destruct v. Qed.

(** [doubled_www_unstable]: the side condition is needed: only one [www.] is cut, so
    the key of [www.www.x.y] is [www.x.y], whose own key is [x.y], another text. *)
Theorem doubled_www_unstable v : plain v = true -> low v = true -> head_not dot (srev v) = true -> str_in "." v = true ->
  ioc_edge_key "DOMAIN" ("www.www." +:+ v) = Ok (Some ("DOMAIN", "www." +:+ v)) /\
  ioc_edge_key "DOMAIN" ("www." +:+ v) = Ok (Some ("DOMAIN", v)) /\ v <> "www." +:+ v.
Proof.
  intros P L T D. destruct (has_dot_nonempty v D) as [N E].
  assert (head_not dot (srev ("www." +:+ v)) = true) as T'
    by (rewrite srev_app_str, head_not_app; [done|]; intros Z; apply E; by rewrite <-(srev_involutive v), Z).
  split; [|split].
  - apply key_of_domain; [done|done| |done|done|by apply (str_in_app_r "." "www." v)]. by apply (www_cut ("www." +:+ v)).
  - apply key_of_domain; [done|done|by apply www_cut|done..].
  - intros Z. apply (f_equal slen) in Z. rewrite slen_app in Z. change (slen "www.") with 4 in Z. lia.
Qed.

Lemma doubled_www_unstable_witness : ioc_edge_key "DOMAIN" "www.www.evil.example" = Ok (Some ("DOMAIN", "www.evil.example")).
Proof. apply (doubled_www_unstable "evil.example"); vm_compute; reflexivity. Defined.

(** ** URLs that do not parse *)

Definition open_bracket : string := "http://[".

Lemma open_none m r : (forall b, plain b = true -> m b = 0%nat) ->
  forallb (fun k => Nat.eqb (m (sdrop k open_bracket +:+ r)) 0) (seq 0 8) = true ->
  plain r = true -> forall a b, open_bracket +:+ r = a +:+ b -> m b = 0%nat.
Proof.
  intros M H P a b E. rewrite forallb_forall in H. unfold open_bracket in *.
  do 8 (destruct a as [|? a];
    [change (String.append "" b) with b in E; subst b; lazymatch goal with |- m ?t = _ => idtac end; apply Nat.eqb_eq;
     first [exact (H 0%nat ltac:(by left))|exact (H 1%nat ltac:(by right; left))|exact (H 2%nat ltac:(by do 2 right; left))|
            exact (H 3%nat ltac:(by do 3 right; left))|exact (H 4%nat ltac:(by do 4 right; left))|exact (H 5%nat ltac:(by do 5 right; left))|
            exact (H 6%nat ltac:(by do 6 right; left))|exact (H 7%nat ltac:(by do 7 right; left))]|injection E as _ E]).
  apply M. change (r = a +:+ b) in E. rewrite E in P. by apply plain_tail in P.
Qed.

Lemma startswith_open p r : plain r = true -> sforall plain_char p = false -> startswith ("[" +:+ r) (String "[" p) = false.
Proof. intros P H. change (startswith r p = false). by apply startswith_plain. Qed.

Lemma refang_open r : plain r = true -> refang (open_bracket +:+ r) = open_bracket +:+ r.
Proof.
  intros P. unfold refang. rewrite strip_id.
  2: { rewrite sforall_app. apply andb_true_intro. split; [done|]. eapply sforall_weaken; [|exact P]. intros c C. by apply plain_char_facts in C as [-> _]. }
  unfold _DEFANG_REPLACEMENTS. cbn [fold_left fst snd].
  assert (forall p rep, sforall plain_char p = false -> resub (match_text (String "[" p)) rep 0 (open_bracket +:+ r) = open_bracket +:+ r) as T.
  { intros p rep N. apply resub_none. apply open_none; [|..|done].
    - intros b B. unfold match_text. by rewrite startswith_plain.
    - cbn [seq forallb]. unfold match_text. change (sdrop 7 open_bracket) with "[". rewrite startswith_open by done. reflexivity. }
  rewrite (resub_none match_hxxp); [by rewrite !T|]. apply open_none; [|reflexivity|done].
  intros b B. unfold match_hxxp. cbv zeta. by rewrite !startswith_plain by (done || by apply plain_lower).
Qed.

Lemma urlparse_open r : plain r = true -> urlparse (open_bracket +:+ r) = Raise ValueError.
Proof.
  intros P. unfold urlparse. rewrite drop_while_id by done.
  rewrite sfilter_id by (rewrite sforall_app; apply andb_true_intro; split; [done|]; eapply sforall_weaken; [|exact P];
    intros c C; destruct c as [[] [] [] [] [] [] [] []]; (discriminate || done)).
  change (split_once ":" (open_bracket +:+ r)) with (Some ("http", "//[" +:+ r)).
  cbv iota zeta beta. change (is_alpha "h" && sforall scheme_char "http") with true. cbv iota beta. change (startswith ("//[" +:+ r) "//") with true.
  change (sdrop 2 ("//[" +:+ r)) with ("[" +:+ r). cbv iota zeta beta.
  rewrite break_at_none.
  2: { apply andb_true_intro. split; [done|]. eapply sforall_weaken; [|exact P].
       intros c C; destruct c as [[] [] [] [] [] [] [] []]; (discriminate || done). }
  change (has_char "[" ("[" +:+ r)) with true. rewrite has_char_none; [reflexivity|].
  apply andb_true_intro. split; [done|]. eapply sforall_weaken; [|exact P].
  intros c C; destruct c as [[] [] [] [] [] [] [] []]; (discriminate || done).
Qed.

Lemma open_raises ty r : normalize_ioc_type ty = "URL" -> plain r = true -> normalize_ioc ty (open_bracket +:+ r) = Raise ValueError.
Proof.
  intros T P. pose proof (refang_open r P) as R. unfold normalize_ioc. rewrite T.
  assert (strip (open_bracket +:+ r) = open_bracket +:+ r) as S.
  { apply strip_id. rewrite sforall_app. apply andb_true_intro. split; [done|]. eapply sforall_weaken; [|exact P]. intros c C. by apply plain_char_facts in C as [-> _]. }
  rewrite S. change (nonempty (open_bracket +:+ r)) with true. cbn [negb]. rewrite R. cbn [String.eqb Ascii.eqb Bool.eqb]. unfold _normalize_url.
  change (nonempty (open_bracket +:+ r)) with true. cbn [negb]. rewrite R, S.
  change (str_in "://" (open_bracket +:+ r)) with true. cbv iota. by rewrite urlparse_open.
Qed.
