(* ===== verification/PulseStore.v ===== *)
(** * PulseStore: the indicators of a threat pulse (db/correlation.py)

    [replace_otx_pulse_iocs] makes the stored rows of one pulse those of one upstream
    answer: canonical form, upsert by key, then deletion of the keys that are gone.
    The table's key is the pulse, the type and [key_of] of the value: the value itself
    on SQLite, its digest on PostgreSQL. *)

From S2P Require Import Prelude PyStr Ioc.
From stdpp Require Import gmap strings.
Open Scope string_scope.
Open Scope Z_scope.

(** An indicator as the feed hands it over; absent texts are [""], as [or ""] reads them. *)
Record ioc_row := mkRow { ioc_type : string; ioc_value : string; description : string; observed_at : string }.

(** A row of otx_pulse_iocs, less its key. *)
Record stored := mkStored {
  st_value : string; st_description : string; st_fetched_at : string; st_observed_at : option string;
  st_raw_ioc : string; st_host_ioc : string
}.

Abbreviation table := (gmap (string * (string * string)) stored).

Section store.
Context (key_of : string -> string).

(** [normalize_ioc_row] and the row built from it: its key in the pulse and its columns. *)
Definition normalized_row (now : string) (row : ioc_row) : res (option ((string * string) * stored)) :=
  let! n := normalize_ioc (ioc_type row) (ioc_value row) in
  Ok (match n with
      | None => None
      | Some (t, v, meta) =>
          let observed := strip (observed_at row) in
          Some ((t, key_of v),
                mkStored v (description row) now (if nonempty observed then Some observed else None) (raw_value meta)
                  (match meta_host meta with Some h => h | None => "" end))
      end).

Definition normalized_rows (now : string) (iocs : list ioc_row) : res (list ((string * string) * stored)) :=
  fold_left (fun acc row => let! l := acc in let! r := normalized_row now row in
                            Ok (match r with Some x => l ++ [x] | None => l end)%list) iocs (Ok []).

Definition upsert (pulse : string) (tbl : table) (r : (string * string) * stored) : table := <[(pulse, fst r) := snd r]> tbl.

Definition replace_otx_pulse_iocs (now pulse : string) (iocs : list ioc_row) (tbl : table) : res table :=
  let! rows := normalized_rows now iocs in
  match rows with
  | [] => Ok (filter (fun kv => fst (fst kv) <> pulse) tbl)
  | _ =>
      let tbl := fold_left (upsert pulse) rows tbl in
      let new_keys := map fst rows in
      Ok (filter (fun kv => ~ (fst (fst kv) = pulse /\ snd (fst kv) ∉ new_keys)) tbl)
  end.

(** [read_otx_pulse_iocs]: the rows younger than the cut-off; [None] for none.  Their
    order is the database's. *)
Definition read_otx_pulse_iocs (cutoff pulse : string) (tbl : table) : option (list ((string * (string * string)) * stored)) :=
  let rows := map_to_list (filter (fun kv => fst (fst kv) = pulse /\ String.ltb cutoff (st_fetched_at (snd kv)) = true) tbl) in
  match rows with [] => None | _ => Some rows end.

(** ** Lemmas *)

(** The canonical row of every indicator, in order, when none raises. *)
Lemma normalized_rows_spec now iocs rows : normalized_rows now iocs = Ok rows ->
  exists rs, Forall2 (fun row r => normalized_row now row = Ok r) iocs rs /\ rows = omap id rs.
Proof.
  unfold normalized_rows. assert (forall l acc, fold_left (fun acc row => let! l := acc in let! r := normalized_row now row in
    Ok (match r with Some x => l ++ [x] | None => l end)%list) l acc = Ok rows ->
    exists l0 rs, acc = Ok l0 /\ Forall2 (fun row r => normalized_row now row = Ok r) l rs /\ rows = (l0 ++ omap id rs)%list) as G.
  { induction l as [|row l IH]; intros acc H; cbn [fold_left] in H.
    - exists rows, []. cbn. rewrite app_nil_r. auto.
    - apply IH in H as (l1 & rs & A & F & ->). destruct acc as [l0|]; [|done]. cbn [res_bind] in A.
      destruct (normalized_row now row) as [r|] eqn:R; [|done]. cbn [res_bind] in A. injection A as <-.
      exists l0, (r :: rs). split; [done|]. split; [by constructor|]. destruct r; cbn; [|done]. by rewrite <-app_assoc. }
  intros H. apply G in H as (l0 & rs & [= <-] & F & ->). eauto.
Qed.

Lemma normalized_rows_raise now l1 row l2 e : normalized_row now row = Raise e ->
  (forall r, r ∈ l1 -> exists o, normalized_row now r = Ok o) -> normalized_rows now (l1 ++ row :: l2) = Raise e.
Proof.
  intros R O. unfold normalized_rows. set (step := fun acc row => _). rewrite fold_left_app. cbn [fold_left].
  assert (forall l acc, (forall r, r ∈ l -> exists o, normalized_row now r = Ok o) -> (exists x, acc = Ok x) -> exists x, fold_left step l acc = Ok x) as G.
  { induction l as [|r l IH]; intros acc H [x ->]; [by eexists|]. cbn [fold_left]. apply IH.
    - intros r' I. apply H. by right.
    - destruct (H r ltac:(left)) as [o E]. unfold step. cbn [res_bind]. rewrite E. cbn [res_bind]. eauto. }
  destruct (G l1 (Ok []) O (ex_intro _ _ eq_refl)) as [x ->]. unfold step at 2. cbn [res_bind]. rewrite R. cbn [res_bind].
  induction l2 as [|r l2 IH]; [done|]. exact IH.
Qed.

Lemma upserts_other pulse rows tbl k : fst k <> pulse -> fold_left (upsert pulse) rows tbl !! k = tbl !! k.
Proof.
  intros N. revert tbl. induction rows as [|r rows IH]; intros tbl; [done|]. cbn [fold_left]. rewrite IH. unfold upsert.
  rewrite lookup_insert_ne; [done|]. intros <-. by apply N.
Qed.

(** The last row with a key wins. *)
Definition last_with (key : string * string) (rows : list ((string * string) * stored)) : option stored :=
  fold_left (fun acc r => if decide (fst r = key) then Some (snd r) else acc) rows None.

Lemma upserts_lookup pulse rows tbl key : fold_left (upsert pulse) rows tbl !! (pulse, key) =
  fold_left (fun acc r => if decide (fst r = key) then Some (snd r) else acc) rows (tbl !! (pulse, key)).
Proof.
  revert tbl. induction rows as [|r rows IH]; intros tbl; [done|]. cbn [fold_left]. rewrite IH. f_equal. unfold upsert.
  case_decide as D; [subst key; by rewrite lookup_insert_eq|]. rewrite lookup_insert_ne; [done|]. congruence.
Qed.

Lemma last_with_start key rows o : key ∈ map fst rows ->
  fold_left (fun acc r => if decide (fst r = key) then Some (snd r) else acc) rows o = last_with key rows.
Proof.
  unfold last_with. generalize (@None stored) as o'. revert o. induction rows as [|r rows IH]; intros o o' H; cbn in H; [by apply not_elem_of_nil in H|].
  cbn [fold_left]. case_decide as D; [reflexivity|]. apply IH. apply elem_of_cons in H as [->|H]; [done|exact H].
Qed.

Lemma last_with_none key rows : key ∉ map fst rows -> last_with key rows = None.
Proof.
  unfold last_with. generalize (@None stored) as o. induction rows as [|r rows IH]; intros o H; [done|]. cbn [fold_left]. cbn in H.
  apply not_elem_of_cons in H as [N H]. case_decide; [congruence|]. by apply IH.
Qed.

(** [replace_is_exact]: after the replacement the pulse has exactly the canonical rows
    of the answer, each key with the columns of its last row, whatever was stored before;
    no other pulse's row is touched.  This holds for the digest key as for the value. *)
Theorem replace_is_exact now pulse iocs tbl tbl' : replace_otx_pulse_iocs now pulse iocs tbl = Ok tbl' ->
  exists rows, normalized_rows now iocs = Ok rows /\
    forall k, tbl' !! k = if decide (fst k = pulse) then last_with (snd k) rows else tbl !! k.
Proof.
  unfold replace_otx_pulse_iocs. destruct (normalized_rows now iocs) as [rows|] eqn:R; [|done]. cbn [res_bind]. intros H. exists rows.
  split; [done|]. intros [p key]. cbn [fst snd].
  assert (rows = [] /\ tbl' = filter (fun kv => fst (fst kv) <> pulse) tbl \/
          tbl' = filter (fun kv => ~ (fst (fst kv) = pulse /\ snd (fst kv) ∉ map fst rows)) (fold_left (upsert pulse) rows tbl)) as [[-> ->]| ->]
    by (destruct rows; injection H as <-; auto); clear H.
  - rewrite map_lookup_filter. case_decide as D; cbn.
    + destruct (tbl !! (p, key)); cbn; [|done]. by rewrite option_guard_False by (intros []; done).
    + destruct (tbl !! (p, key)); cbn; [|done]. by rewrite option_guard_True.
  - rewrite map_lookup_filter. case_decide as D; cbn.
    + subst p. rewrite upserts_lookup. destruct (decide (key ∈ map fst rows)) as [I|I].
      * rewrite last_with_start by done. destruct (last_with key rows); cbn; [|done]. by rewrite option_guard_True by tauto.
      * rewrite last_with_none by done. destruct (fold_left _ _ _); cbn; [|done]. by rewrite option_guard_False by tauto.
    + rewrite upserts_other by done. destruct (tbl !! (p, key)); cbn; [|done]. by rewrite option_guard_True by tauto.
Qed.

Lemma replace_ok now pulse iocs tbl rows : normalized_rows now iocs = Ok rows -> exists tbl', replace_otx_pulse_iocs now pulse iocs tbl = Ok tbl'.
Proof. intros R. unfold replace_otx_pulse_iocs. rewrite R. cbn [res_bind]. destruct rows; eauto. Qed.

(** [bad_url_loses_the_pulse]: an indicator that does not normalise is dropped, except
    a URL with an unpaired bracket: [normalize_ioc] raises, so nothing of the pulse is
    stored, whatever else the answer holds. *)
Theorem bad_url_loses_the_pulse now pulse l1 row rest l2 tbl :
  (forall r, r ∈ l1 -> exists o, normalized_row now r = Ok o) ->
  normalize_ioc_type (ioc_type row) = "URL" -> plain rest = true -> ioc_value row = open_bracket +:+ rest ->
  replace_otx_pulse_iocs now pulse (l1 ++ row :: l2) tbl = Raise ValueError.
Proof.
  intros O T P V. unfold replace_otx_pulse_iocs. erewrite normalized_rows_raise; [done| |exact O].
  unfold normalized_row. by rewrite V, open_raises.
Qed.

End store.

Definition sample : list ioc_row :=
  [mkRow "domain" "WWW.Evil.example" "a" ""; mkRow "hostname" "evil[.]example." "b" " 2026-01-01 "; mkRow "IPv4" "not an address" "" ""].

Lemma replace_is_exact_witness :
  match replace_otx_pulse_iocs id "2026-02-01 00:00:00" "p" sample {[("p", ("IP", "10.0.0.1")) := mkStored "10.0.0.1" "" "" None "" ""]} with
  | Ok tbl => tbl !! ("p", ("DOMAIN", "evil.example")) = Some (mkStored "evil.example" "b" "2026-02-01 00:00:00" (Some "2026-01-01") "evil[.]example." "evil.example") /\
              tbl !! ("p", ("IP", "10.0.0.1")) = None
  | Raise _ => False
  end.
Proof.
  set (old := {[_ := _]}). assert (exists rows, normalized_rows id "2026-02-01 00:00:00" sample = Ok rows) as [rows R] by (eexists; vm_compute; reflexivity).
  destruct (replace_ok id "2026-02-01 00:00:00" "p" sample old rows R) as [tbl E]. rewrite E.
  destruct (replace_is_exact _ _ _ _ _ _ E) as (rows' & R' & L). rewrite !L. vm_compute in R'. injection R' as <-. clear. by vm_compute.
Defined.

Lemma bad_url_loses_the_pulse_witness : replace_otx_pulse_iocs id "2026-02-01 00:00:00" "p" (sample ++ [mkRow "URL" "http://[evil" "" ""]) ∅ = Raise ValueError.
Proof.
  apply (bad_url_loses_the_pulse id "2026-02-01 00:00:00" "p" sample (mkRow "URL" "http://[evil" "" "") "evil" []); [|done..].
  intros r H. destruct (normalized_row id "2026-02-01 00:00:00" r) as [o|] eqn:E; [by exists o|].
  apply list_elem_of_In in H. destruct H as [<-|[<-|[<-|[]]]]; vm_compute in E; discriminate.
Defined.
