(* ===== verification/Confidence.v ===== *)
(** * Confidence: confidence of a shared indicator (correlation/confidence.py, freshness.py)

    An edge between two CVEs that share an indicator is low, medium or high.  The rules
    of confidence.py give a level from the indicator's type, what services confirm about
    it and how many CVEs share it; freshness.py gives another from a product of factors.
    [math.log2] and [0.5 ** x] belong to the C library: they are the operations of the
    class [MathLib], with the accuracy its theorems need.  The half lives and the floor
    are those of correlation/config.py, read from the environment. *)

From S2P Require Import Prelude PyStr DecText Float64 FloatErr PyVal Dates CveRow Pacing Campaigns CorrScore.
From Stdlib Require Import QArith Qpower Qround Lqa.
Open Scope string_scope.
Open Scope Z_scope.

(** ** The C library *)

Class MathLib := {
  log2 : fl -> fl;
  half_pow : fl -> fl;
  log2_lower : forall (x : Q) (p : Z) (q : positive), (0 < x)%Q -> (Qpower 2 p <= Qpower x (Zpos q))%Q ->
    exists r, log2 (Fin x) = Fin r /\ ((p # q) - (1 # 64) <= r)%Q;
  log2_upper : forall (x : Q) (p : Z) (q : positive), (0 < x)%Q -> (Qpower x (Zpos q) <= Qpower 2 p)%Q ->
    exists r, log2 (Fin x) = Fin r /\ (r <= (p # q) + (1 # 64))%Q;
  log2_mono : forall x y : Q, (0 < x)%Q -> (x <= y)%Q -> exists a b, log2 (Fin x) = Fin a /\ log2 (Fin y) = Fin b /\ (a <= b)%Q;
  half_pow_unit : forall x, fle f0 x = true -> within 0 1 (half_pow x)
}.

(** ** Levels *)

Definition _LEVELS : list string := ["low"; "medium"; "high"].

(** [_LEVELS.index(level)], 0 for another text *)
Definition _level_index (level : string) : Z :=
  if String.eqb level "medium" then 1 else if String.eqb level "high" then 2 else 0.

Definition level_at (idx : Z) : string := nth (Z.to_nat idx) _LEVELS "low".

Definition bump_confidence (level : string) (steps : Z) (cap : string) : string :=
  level_at (Z.min (_level_index level + steps) (_level_index cap)).

Definition downrank_confidence (level : string) (steps : Z) (floor : string) : string :=
  level_at (Z.max (_level_index level - steps) (_level_index floor)).

(** ** freshness.py *)

Definition _IOC_BASE_SCORE : list (string * fl) := [("HASH", lit (9#10)); ("DOMAIN", lit (3#5)); ("URL", lit (13#20)); ("IP", lit (3#10))].
Definition _DEFAULT_FRESHNESS_HALF_LIFE_DAYS : list (string * Z) := [("IP", 30); ("URL", 60); ("DOMAIN", 120); ("HASH", 365)].

Definition ip_alias (t : string) : string := if String.eqb t "IPV4" || String.eqb t "IPV6" then "IP" else t.

(** A blank or absent value has no instant. *)
Definition parse_observation_dt (value : option string) : option Z :=
  match value with
  | None => None
  | Some v =>
      let text := strip v in
      if nonempty text then option_map utc_us (fromisoformat (midnight_suffix (utc_suffix text))) else None
  end.

Definition score_to_confidence_level (score : fl) : string :=
  if fle (lit (13#20)) score then "high" else if fle (lit (2#5)) score then "medium" else "low".

Record freshness := mkFreshness {
  freshness_factor : fl; age_days : option fl; fresh_observed_at : option Z; fresh_ingested_at : option (Z + string);
  freshness_reason : string; freshness_fallback : bool
}.

(** What services say about the indicator. *)
Record confirmations := mkConfirmations { greynoise : option string; malwarebazaar : bool; urlhaus_active : bool }.

(** An entry of [confidence_factors]: its name, value, reason and other keys. *)
Record factor := mkFactor { f_name : string; f_value : pyval; f_reason : string; f_extra : list (string * pyval) }.

(** The level, [why] and factors so far. *)
Abbreviation progress := (string * option string * list factor)%type.

Section confidence.
Context {lib : MathLib}.
Variable env : string -> option string.

Definition get_freshness_half_life_days (ioc_type : string) : Z :=
  let key := ip_alias (upper ioc_type) in
  let default := match assoc key _DEFAULT_FRESHNESS_HALF_LIFE_DAYS with Some d => d | None => 120 end in
  let raw := strip (env_get env ("CORRELATION_FRESHNESS_HALF_LIFE_" +:+ key) "") in
  if nonempty raw then match int_of_str raw with Ok n => Z.max 1 n | Raise _ => default end else default.

Definition get_freshness_floor : res fl :=
  let! x := float_of_str (env_get env "CORRELATION_FRESHNESS_FLOOR" "0.25") in Ok (fmax f0 (fmin f1 x)).

Definition degree_factor (degree : Z) : res fl :=
  let d := Z.max 0 degree in
  if d <=? 3 then Ok f1 else let! x := int_truediv d 3 in fdiv f1 (fadd f1 (log2 x)).

Definition freshness_multiplier (ioc_type : string) (age_days : fl) : res fl :=
  let half_life := get_freshness_half_life_days ioc_type in
  let age := fmax f0 age_days in
  let! floor := get_freshness_floor in
  let! h := fl_of_int half_life in
  let! r := fdiv age h in
  Ok (fmax floor (half_pow r)).

Definition corroboration_factor (k : fl) : fl :=
  let sources := fmax f1 (if feq k f0 then f1 else k) in
  fmin f1 (fadd (lit (3#5)) (fmul (lit (1#5)) (log2 (fadd f1 sources)))).

Definition numeric_edge_level (ioc_type : string) (degree : Z) (freshness corroboration_k : fl) : res string :=
  let t := ip_alias (upper ioc_type) in
  let base := match assoc t _IOC_BASE_SCORE with Some b => b | None => lit (3#10) end in
  let! df := degree_factor degree in
  Ok (score_to_confidence_level (fmul (fmul (fmul base df) freshness) (corroboration_factor corroboration_k))).

Definition kept_text (v : option string) : option (Z + string) :=
  match v with Some s => if nonempty s then Some (inr (strip s)) else None | None => None end.

Definition freshness_context (ioc_type : string) (observed_at ingested_at : option string) (now : Z) : res freshness :=
  let observed_dt := parse_observation_dt observed_at in
  let ingested_dt := parse_observation_dt ingested_at in
  let used_fallback := match observed_dt with None => true | _ => false end in
  match (match observed_dt with Some t => Some t | None => ingested_dt end) with
  | None => Ok (mkFreshness f1 None None (kept_text ingested_at) "No observation timestamp available" true)
  | Some anchor =>
      let! seconds := int_truediv (now - anchor) 1000000 in
      let! days := fdiv seconds (Fin 86400) in
      let age_days := fmax f0 days in
      let! raw_factor := freshness_multiplier ioc_type age_days in
      let! whole := int_of_fl age_days in
      let '(factor, reason) :=
        if used_fallback then
          (f1, "Observation time unknown — staleness decay skipped (ingested " +:+ str_of_Z whole +:+ "d ago)")
        else
          (raw_factor, "Indicator observed " +:+ str_of_Z whole +:+ "d ago (" +:+ upper ioc_type +:+ " half-life " +:+
                       str_of_Z (get_freshness_half_life_days ioc_type) +:+ "d)") in
      Ok (mkFreshness (round_nd factor 4) (Some (round_nd age_days 2)) observed_dt
            (match ingested_dt with Some t => Some (inl t) | None => kept_text ingested_at end) reason used_fallback)
  end.

(** ** confidence.py *)

Definition one_factor (n : string) (v : pyval) (why : string) : factor := mkFactor n v why [].

(** The source of a receipt [source:ref], for those that have one. *)
Definition receipt_sources (corroborated_by : list string) : list string :=
  remove_dups (omap (fun r => option_map fst (split_once ":" r)) corroborated_by).

Definition corroboration_count (corroborated_by : list string) : res (Z * Z * fl) :=
  let k_sources := Z.of_nat (length (receipt_sources corroborated_by)) in
  let k_receipts := Z.of_nat (length corroborated_by) in
  let! s := fl_of_int k_sources in
  let! extra := fl_of_int (Z.max 0 (k_receipts - k_sources)) in
  Ok (k_sources, k_receipts, fadd (fadd f1 s) (fmul (lit (1#2)) extra)).

Definition base_level (t : string) : string :=
  if String.eqb t "HASH" then "high" else if String.eqb t "DOMAIN" || String.eqb t "URL" then "medium" else "low".

Definition confirm (c : confirmations) (st : progress) : progress :=
  let '(level, why, factors) := st in
  let g := match greynoise c with Some g => g | None => "" end in
  let '(level, why, factors) :=
    if String.eqb g "malicious" then
      (bump_confidence level 1 "high", why,
       factors ++ [one_factor "confirmation" (PStr "greynoise_malicious") "GreyNoise classifies this IP as malicious"])%list
    else if String.eqb g "benign" || String.eqb g "riot" then
      let w := "GreyNoise classifies this IP as benign noise" in
      (downrank_confidence level 1 "low", Some w, factors ++ [one_factor "confirmation" (PStr "greynoise_benign") w])%list
    else (level, why, factors) in
  let '(level, factors) :=
    if malwarebazaar c then
      (bump_confidence level 1 "high", factors ++ [one_factor "confirmation" (PStr "malwarebazaar") "MalwareBazaar sample match"])%list
    else (level, factors) in
  let '(level, factors) :=
    if urlhaus_active c then
      (bump_confidence level 1 "high", factors ++ [one_factor "confirmation" (PStr "urlhaus_active") "URLhaus active distribution"])%list
    else (level, factors) in
  (level, why, factors).

Definition ip_note (t : string) (st : progress) : progress :=
  let '(level, why, factors) := st in
  if String.eqb t "IP" && String.eqb level "low" && negb (nonempty (text_or why)) then
    let w := "IP-only edges are weaker than domain or hash matches" in
    (level, Some w, factors ++ [one_factor "ip_only" PNone w])%list
  else st.

Definition hub_step (degree : Z) (st : progress) : progress :=
  let '(level, why, factors) := st in
  let w := "Shared indicator hub — seen across " +:+ str_of_Z degree +:+ " CVEs" in
  if 10 <? degree then ("low", Some w, factors ++ [one_factor "degree" (PInt degree) w])%list
  else if 3 <? degree then
    let downranked := downrank_confidence level 1 "low" in
    if String.eqb downranked level then st else (downranked, Some w, factors ++ [one_factor "degree" (PInt degree) w])%list
  else st.

(** The numeric level against the rules' level. *)
Definition settle (fresh_level : string) (fresh_why : string) (corroborated : bool) (level : string) (why : option string) : string * option string :=
  if _level_index fresh_level <? _level_index level then (fresh_level, Some fresh_why)
  else if corroborated && (_level_index level <? _level_index fresh_level) then
    (fresh_level, if String.eqb fresh_level "high" then None else why)
  else (level, why).


Definition confidence_for_ioc_edge (ioc_type : string) (c : confirmations) (is_noise_ip : bool) (degree : Z)
    (observed_at ingested_at : option string) (now : Z) (corroborated_by : list string) : res progress :=
  let t := upper ioc_type in
  if String.eqb t "IP" && is_noise_ip then
    let why := "Private or reserved IP range" in Ok ("low", Some why, [one_factor "noise_ip" PNone why])
  else
    let typed := one_factor "ioc_type" (PStr t) ((if nonempty t then title_from false t else "Unknown") +:+ "-type indicator") in
    let '(level, why, factors) := hub_step degree (ip_note t (confirm c (base_level t, None, [typed]))) in
    let! fresh := freshness_context t observed_at ingested_at now in
    let! count := (if nonempty_list corroborated_by then corroboration_count corroborated_by else Ok (0, 0, f1)) in
    let '(k_sources, k_receipts, corroboration_k) := count in
    let! fresh_level := numeric_edge_level t degree (freshness_factor fresh) corroboration_k in
    let '(level, why) := settle fresh_level (freshness_reason fresh) (nonempty_list corroborated_by) level why in
    let corroboration :=
      mkFactor "corroboration" (PFloat (round_nd (corroboration_factor corroboration_k) 4))
        (if nonempty_list corroborated_by then "Independent corroborating source observation" else "Single community (OTX) source")
        [("k_sources", PInt k_sources); ("k_receipts", PInt k_receipts)] in
    let freshness := mkFactor "freshness" (PFloat (freshness_factor fresh)) (freshness_reason fresh)
                       (if freshness_fallback fresh then [("freshness_fallback", PBool true)] else []) in
    Ok (level, why, factors ++ [corroboration; freshness])%list.

End confidence.

(** ** A table of logarithms

    The laws of [MathLib] hold of a function that gives six binary digits. *)

Definition log2_table (x : fl) : fl :=
  match x with
  | Fin q => if Qle_bool q 0 then NaN else Fin (ilog2 (Qpower q 64) # 64)
  | PInf => PInf
  | _ => NaN
  end.

Definition half_pow_table (x : fl) : fl :=
  match x with Fin q => if Qle_bool 0 q then Fin (Qpower 2 (- Qfloor q)) else PInf | PInf => Fin 0 | NInf => PInf | NaN => NaN end.

Lemma log2_table_fin x : (0 < x)%Q -> log2_table (Fin x) = Fin (ilog2 (Qpower x 64) # 64) /\
  (Qpower 2 (ilog2 (Qpower x 64)) <= Qpower x 64)%Q /\ (Qpower x 64 < Qpower 2 (ilog2 (Qpower x 64) + 1))%Q.
Proof.
  intros P. cbn [log2_table]. destruct (Qle_bool x 0) eqn:E; [apply Qle_bool_iff in E; lra|]. split; [done|].
  apply ilog2_spec. by apply Qpower_0_lt.
Qed.

Lemma Qpower_mono x y n : (0 <= x)%Q -> (x <= y)%Q -> (Qpower x (Zpos n) <= Qpower y (Zpos n))%Q.
Proof.
  intros P L. induction n using Pos.peano_ind; [cbn; exact L|].
  rewrite Pos2Z.inj_succ. unfold Z.succ. rewrite !Qpower_plus' by lia. change (Qpower x 1) with x. change (Qpower y 1) with y.
  apply Qmult_le_compat_nonneg; (split; [|done]); [by apply Qpower_0_le|done].
Qed.

Lemma Qpower_mono_lt x y n : (0 <= x)%Q -> (x < y)%Q -> (Qpower x (Zpos n) < Qpower y (Zpos n))%Q.
Proof.
  intros P L. induction n using Pos.peano_ind; [cbn; exact L|].
  rewrite Pos2Z.inj_succ. unfold Z.succ. rewrite !Qpower_plus' by lia. change (Qpower x 1) with x. change (Qpower y 1) with y.
  apply Qle_lt_trans with (Qpower x (Zpos n) * y)%Q.
  - rewrite (Qmult_comm _ x), (Qmult_comm _ y). apply Qmult_le_compat_r; [lra|by apply Qpower_0_le].
  - apply Qmult_lt_compat_r; [lra|done].
Qed.

#[export, refine] Instance table_lib : MathLib := {| log2 := log2_table; half_pow := half_pow_table |}.
Proof.
  - intros x p q P L. destruct (log2_table_fin x P) as (-> & _ & U). eexists. split; [done|].
    set (m := ilog2 _) in *. assert (p * 64 < (m + 1) * Zpos q) as B.
    { apply (Qpower_lt_compat_l_inv 2); [|done]. rewrite !Qpower_mult.
      apply Qle_lt_trans with (Qpower (Qpower x (Zpos q)) 64).
      - apply Qpower_mono; [by apply Qpower_0_le|done].
      - rewrite <-Qpower_mult, Z.mul_comm, Qpower_mult. apply Qpower_mono_lt; [apply Qpower_0_le; lra|done]. }
    unfold Qle, Qminus, Qplus, Qopp. cbn [Qnum Qden]. lia.
  - intros x p q P L. destruct (log2_table_fin x P) as (-> & D & _). eexists. split; [done|].
    set (m := ilog2 _) in *. assert (m * Zpos q <= p * 64) as B.
    { apply (Qpower_le_compat_l_inv 2); [|done]. rewrite !Qpower_mult.
      apply Qle_trans with (Qpower (Qpower x (Zpos q)) 64).
      - rewrite <-(Qpower_mult x), Z.mul_comm, Qpower_mult. apply Qpower_mono; [by apply Qpower_0_le|done].
      - apply Qpower_mono; [by apply Qpower_0_le; lra|done]. }
    unfold Qle, Qplus. cbn [Qnum Qden]. lia.
  - intros x y P L. destruct (log2_table_fin x P) as (-> & _). destruct (log2_table_fin y ltac:(lra)) as (-> & _).
    do 2 eexists. split; [done|]. split; [done|]. unfold Qle. cbn [Qnum Qden]. apply Z.mul_le_mono_nonneg_r; [lia|].
    apply ilog2_mono; [by apply Qpower_0_lt|]. apply Qpower_mono; [lra|done].
  - intros x H. destruct x as [q| | |]; [|by exists 0%Q|done..]. cbn [half_pow_table]. apply fle_fin in H.
    rewrite (proj2 (Qle_bool_iff _ _) H). eexists. split; [done|]. split; [by apply Qpower_0_le|].
    change 1%Q with (Qpower 2 0). apply Qpower_le_compat_l; [|lra]. apply (Qfloor_resp_le 0 q) in H. change (Qfloor 0) with 0 in H. lia.
Defined.

(** ** The rules as arithmetic on levels 0, 1, 2 *)

Definition rule_index (t : string) (c : confirmations) (degree : Z) : Z :=
  let b := if String.eqb t "HASH" then 2 else if String.eqb t "DOMAIN" || String.eqb t "URL" then 1 else 0 in
  let g := match greynoise c with Some g => g | None => "" end in
  let b := if String.eqb g "malicious" then Z.min 2 (b + 1)
           else if String.eqb g "benign" || String.eqb g "riot" then Z.max 0 (b - 1) else b in
  let b := if malwarebazaar c then Z.min 2 (b + 1) else b in
  let b := if urlhaus_active c then Z.min 2 (b + 1) else b in
  if 10 <? degree then 0 else if 3 <? degree then Z.max 0 (b - 1) else b.

Definition is_level (l : string) : Prop := l = "low" \/ l = "medium" \/ l = "high".

Lemma level_cases l : is_level l -> l = level_at (_level_index l) /\ 0 <= _level_index l <= 2.
Proof. intros [->|[->| ->]]; vm_compute; by split. Qed.

Lemma level_index_at i : 0 <= i <= 2 -> _level_index (level_at i) = i /\ is_level (level_at i).
Proof.
  intros B. assert (i = 0 \/ 0 < i) as [->|P] by lia; [vm_compute; tauto|]. assert (i = 1 \/ 1 < i) as [->|Q] by lia; [vm_compute; tauto|].
  assert (i = 2) as -> by lia. vm_compute. tauto.
Qed.

Lemma level_inj l l' : is_level l -> is_level l' -> _level_index l = _level_index l' -> l = l'.
Proof. intros H H' E. destruct (level_cases l H) as [-> _], (level_cases l' H') as [-> _]. by rewrite E. Qed.

Lemma bump_index l : is_level l -> _level_index (bump_confidence l 1 "high") = Z.min 2 (_level_index l + 1) /\ is_level (bump_confidence l 1 "high").
Proof. intros [->|[->| ->]]; vm_compute; tauto. Qed.

Lemma downrank_index l : is_level l -> _level_index (downrank_confidence l 1 "low") = Z.max 0 (_level_index l - 1) /\ is_level (downrank_confidence l 1 "low").
Proof. intros [->|[->| ->]]; vm_compute; tauto. Qed.

Definition level_of (st : progress) : string := fst (fst st).

Lemma base_level_ok t : is_level (base_level t).
Proof. unfold base_level, is_level. destruct (String.eqb t "HASH"); [tauto|]. destruct (_ || _); tauto. Qed.

Lemma confirm_index c l w f : is_level l ->
  let g := match greynoise c with Some g => g | None => "" end in
  let b := _level_index l in
  let b := if String.eqb g "malicious" then Z.min 2 (b + 1)
           else if String.eqb g "benign" || String.eqb g "riot" then Z.max 0 (b - 1) else b in
  let b := if malwarebazaar c then Z.min 2 (b + 1) else b in
  let b := if urlhaus_active c then Z.min 2 (b + 1) else b in
  is_level (level_of (confirm c (l, w, f))) /\ _level_index (level_of (confirm c (l, w, f))) = b.
Proof.
  intros H. unfold confirm. cbv zeta. generalize (match greynoise c with Some g => g | None => "" end). intros g.
  assert (forall l w f, is_level l -> forall b, b = _level_index l ->
    let st := (let '(level, factors) := if malwarebazaar c then
        (bump_confidence l 1 "high", f ++ [one_factor "confirmation" (PStr "malwarebazaar") "MalwareBazaar sample match"])%list else (l, f) in
      let '(level, factors) := if urlhaus_active c then
        (bump_confidence level 1 "high", factors ++ [one_factor "confirmation" (PStr "urlhaus_active") "URLhaus active distribution"])%list else (level, factors) in
      (level, w, factors) : progress) in
    let b := if malwarebazaar c then Z.min 2 (b + 1) else b in
    let b := if urlhaus_active c then Z.min 2 (b + 1) else b in
    is_level (level_of st) /\ _level_index (level_of st) = b) as G.
  { clear. intros l w f H b ->. destruct (bump_index l H) as [B1 L1]. destruct (bump_index _ L1) as [B2 L2].
    destruct (malwarebazaar c), (urlhaus_active c); cbn [level_of fst]; by rewrite ?B2, ?B1. }
  destruct (String.eqb g "malicious"); [destruct (bump_index l H) as [<- L]; by apply (G _ w _ L)|].
  destruct (_ || _); [|exact (G _ w f H _ eq_refl)]. destruct (downrank_index l H) as [<- L]. exact (G _ (Some "GreyNoise classifies this IP as benign noise") _ L _ eq_refl).
Qed.

Lemma ip_note_level t st : level_of (ip_note t st) = level_of st.
Proof. destruct st as [[l w] f]. unfold ip_note. by destruct (_ && _ && _). Qed.

Lemma hub_index degree st : is_level (level_of st) -> is_level (level_of (hub_step degree st)) /\
  _level_index (level_of (hub_step degree st)) =
  if 10 <? degree then 0 else if 3 <? degree then Z.max 0 (_level_index (level_of st) - 1) else _level_index (level_of st).
Proof.
  destruct st as [[l w] f]. intros H. unfold hub_step. cbv zeta. cbn [level_of fst] in *. destruct (10 <? degree); [by split; [left|]|].
  destruct (3 <? degree); [|done]. destruct (downrank_index l H) as [<- L]. destruct (String.eqb_spec (downrank_confidence l 1 "low") l) as [->|]; done.
Qed.

Lemma base_level_index t : _level_index (base_level t) = if String.eqb t "HASH" then 2 else if String.eqb t "DOMAIN" || String.eqb t "URL" then 1 else 0.
Proof. unfold base_level. destruct (String.eqb t "HASH"); [done|]. by destruct (_ || _). Qed.

Lemma rules_index t c degree w f : let l := level_of (hub_step degree (ip_note t (confirm c (base_level t, w, f)))) in
  is_level l /\ _level_index l = rule_index t c degree.
Proof.
  cbv zeta. destruct (confirm_index c (base_level t) w f (base_level_ok t)) as [L E]. rewrite <-(ip_note_level t) in L, E.
  destruct (hub_index degree _ L) as [L' ->]. split; [exact L'|]. rewrite E. unfold rule_index.
  by rewrite base_level_index.
Qed.

Lemma score_level_ok s : is_level (score_to_confidence_level s).
Proof. unfold score_to_confidence_level, is_level. destruct (fle _ s); [tauto|]. destruct (fle _ s); tauto. Qed.

Lemma settle_index n why corr l w : is_level n -> is_level l ->
  let r := fst (settle n why corr l w) in
  is_level r /\ _level_index r = if corr then _level_index n else Z.min (_level_index l) (_level_index n).
Proof.
  intros N L. unfold settle. destruct (Z.ltb_spec (_level_index n) (_level_index l)); cbn [fst].
  - split; [done|]. destruct corr; lia.
  - destruct (Z.ltb_spec (_level_index l) (_level_index n)); destruct corr; cbn [andb fst]; (split; [done|lia]).
Qed.


(** ** Bounds of the factors *)

Open Scope Q_scope.

Lemma fmax_within lo hi x y : within lo hi x -> within lo hi y -> within lo hi (fmax x y).
Proof. intros H1 H2. unfold fmax. by destruct (flt x y). Qed.

Lemma round4_unit x : within 0 1 x -> within 0 1 (round_nd x 4).
Proof.
  intros (q & -> & H). unfold round_nd. change (10 ^ 4)%Z with 10000%Z.
  assert (rhe (inject_Z 0) <= rhe (q * inject_Z 10000))%Z as A by (apply rhe_mono; change (inject_Z 0) with 0; change (inject_Z 10000) with 10000; lra).
  assert (rhe (q * inject_Z 10000) <= rhe (inject_Z 10000))%Z as B by (apply rhe_mono; change (inject_Z 10000) with 10000; lra).
  rewrite rhe_inject in A, B.
  rewrite Zle_Qle in A, B. change (inject_Z 0) with 0 in A. change (inject_Z 10000) with 10000 in B |- *.
  set (k := inject_Z (rhe _)) in *. assert (0 <= k / 10000 <= 1) as [C D].
  { split; [apply Qle_shift_div_l; lra|apply Qle_shift_div_r; lra]. }
  apply mk_within; [split; [|]; [apply Qle_trans with 0; [discriminate|done]|apply Qle_trans with 1; [done|discriminate]]|].
  split; [by apply rnd_nonneg|]. change 1 with (inject_Z 1). apply rnd_le_int; [lia|exact D].
Qed.

Section bounds.
Context {lib : MathLib}.
Variable env : string -> option string.

Lemma floor_unit f : get_freshness_floor env = Ok f -> within 0 1 f.
Proof. unfold get_freshness_floor. destruct (float_of_str _) as [x|]; [|done]. cbn [res_bind]. intros [= <-]. apply clamp_within. lra. Qed.

Lemma half_life_pos t : (1 <= get_freshness_half_life_days env t)%Z.
Proof.
  unfold get_freshness_half_life_days. cbv zeta. generalize (ip_alias (upper t)). intros key.
  assert (1 <= match assoc key _DEFAULT_FRESHNESS_HALF_LIFE_DAYS with Some d => d | None => 120 end)%Z as D.
  { unfold _DEFAULT_FRESHNESS_HALF_LIFE_DAYS. cbn [assoc]. repeat (destruct (String.eqb _ key); [lia|]). lia. }
  destruct (nonempty _); [|done]. destruct (int_of_str _); [lia|done].
Qed.

Lemma fl_of_int_pos z x : (1 <= z)%Z -> fl_of_int z = Ok x -> exists q, x = Fin q /\ 1 <= q.
Proof.
  intros B H. unfold fl_of_int in H. unfold mk in H. destruct (Qle_bool fl_max_pow _); [done|]. destruct (Qle_bool _ _); [done|].
  injection H as <-. eexists. split; [done|]. change 1 with (inject_Z 1). apply rnd_ge_int; [lia|]. by rewrite <-Zle_Qle.
Qed.

Lemma mk_nonneg q : 0 <= q -> fle f0 (mk q) = true.
Proof.
  intros H. apply rnd_nonneg in H. unfold mk. destruct (Qle_bool fl_max_pow _); [done|]. destruct (Qle_bool _ _) eqn:E.
  - apply Qle_bool_iff in E. assert (0 < fl_max_pow) by reflexivity. lra.
  - by apply fle_fin.
Qed.

Lemma fmax0_nonneg x : fle f0 (fmax f0 x) = true.
Proof.
  unfold fmax. destruct (flt f0 x) eqn:E; [|reflexivity]. unfold fle. by rewrite E.
Qed.

Lemma multiplier_unit t age m : freshness_multiplier env t age = Ok m -> within 0 1 m.
Proof.
  unfold freshness_multiplier. cbv zeta. destruct (get_freshness_floor env) as [f|] eqn:F; [|done]. cbn [res_bind].
  destruct (fl_of_int _) as [h|] eqn:H; [|done]. cbn [res_bind]. destruct (fl_of_int_pos _ _ (half_life_pos t) H) as (q & -> & P).
  destruct (fdiv _ _) as [r|] eqn:D; [|done]. cbn [res_bind]. intros [= <-]. apply fmax_within; [by eapply floor_unit|].
  apply half_pow_unit. unfold fdiv in D. destruct (Qeq_bool q 0) eqn:Z; [done|]. injection D as <-.
  pose proof (fmax0_nonneg age) as N. destruct (fmax f0 age) as [a| | |]; [|by destruct q as [[] ?]|done..].
  apply mk_nonneg. apply fle_fin in N. apply Qle_shift_div_l; lra.
Qed.

Lemma freshness_unit t obs ing now fr : freshness_context env t obs ing now = Ok fr -> within 0 1 (freshness_factor fr).
Proof.
  unfold freshness_context. cbv zeta. assert (within 0 1 f1) as O by (exists 1; split; [done|lra]).
  destruct (match parse_observation_dt obs with Some t => Some t | None => _ end) as [anchor|]; [|by intros [= <-]].
  destruct (int_truediv _ _); [|done]. cbn [res_bind]. destruct (fdiv _ _); [|done]. cbn [res_bind].
  destruct (freshness_multiplier _ _ _) as [m|] eqn:M; [|done]. cbn [res_bind]. destruct (int_of_fl _); [|done]. cbn [res_bind].
  apply multiplier_unit in M. destruct (parse_observation_dt obs); intros H; apply (f_equal (fun r => match r with Ok x => freshness_factor x | _ => f1 end)) in H;
    cbn [freshness_factor] in H; rewrite <-H; by apply round4_unit.
Qed.

Lemma fin_of_mk q x : mk q = Fin x -> x = rnd q /\ x < fl_max_pow.
Proof.
  unfold mk. cbv zeta. destruct (Qle_bool fl_max_pow (rnd q)) eqn:E; [done|]. destruct (Qle_bool (rnd q) _); [done|]. intros H. injection H as H. subst x. split; [done|].
  apply Qnot_le_lt. intros H. apply Qle_bool_iff in H. congruence.
Qed.

(** [math.log2] of a float from 1 on, above a bound [p/q] with [2^p <= x^q]. *)
Lemma log2_range x p q : 1 <= x -> x < fl_max_pow -> Qpower 2 p <= Qpower x (Zpos q) ->
  exists r, log2 (Fin x) = Fin r /\ (p # q) - (1 # 64) <= r <= 1025.
Proof.
  intros L U H. destruct (log2_lower x p q ltac:(lra) H) as (r & E & B). exists r. split; [done|]. split; [done|].
  destruct (log2_upper x 1024 1 ltac:(lra)) as (r' & E' & B').
  - change (Qpower x 1) with x. apply Qlt_le_weak. eapply Qlt_le_trans; [exact U|]. apply Qle_bool_iff. vm_compute. reflexivity.
  - rewrite E in E'. injection E' as <-. lra.
Qed.

Lemma inv_antitone a b : 0 < a -> a <= b -> / b <= / a.
Proof. intros P L. apply Qle_shift_inv_l; [done|]. rewrite Qmult_comm. apply Qle_shift_div_r; lra. Qed.

Lemma inverse_within l r : - (1 # 64) <= l -> l <= r <= 1025 ->
  exists y, fdiv f1 (fadd f1 (Fin r)) = Ok y /\ within 0 (rnd (/ rnd (1 + l))) y.
Proof.
  intros L B. cbn [fadd f1]. assert (rnd (1 + - (1 # 64)) <= rnd (1 + l)) as M by (apply rnd_mono; lra).
  assert (1 # 2 <= rnd (1 + - (1 # 64))) as C by (apply Qle_bool_iff; vm_compute; reflexivity).
  assert (rnd (1 + l) <= rnd (1 + r)) as M' by (apply rnd_mono; lra).
  rewrite mk_fin. 2: { change (inject_Z (2 ^ 52)) with 4503599627370496. lra. }
  cbn [fdiv]. destruct (Qeq_bool (rnd (1 + r)) 0) eqn:Z; [apply Qeq_bool_iff in Z; lra|]. eexists. split; [done|].
  assert (0 <= 1 / rnd (1 + r) <= / rnd (1 + l)) as [P Q].
  { split; [apply Qle_shift_div_l; lra|]. unfold Qdiv. rewrite Qmult_1_l.
    apply inv_antitone; lra. }
  assert (/ rnd (1 + l) <= 2) as T by (apply Qle_trans with (/ (1 # 2)); [apply inv_antitone; lra|discriminate]).
  apply mk_within; [change (inject_Z (2 ^ 52)) with 4503599627370496; lra|]. split; [by apply rnd_nonneg|by apply rnd_mono].
Qed.

Lemma degree_steps d f : (3 < d)%Z -> degree_factor d = Ok f -> exists x, x < fl_max_pow /\ 1 <= x /\
  x = rnd (inject_Z d / 3) /\ fdiv f1 (fadd f1 (log2 (Fin x))) = Ok f.
Proof.
  intros D H. unfold degree_factor in H. cbv zeta in H. rewrite Z.max_r in H by lia. destruct (Z.leb_spec d 3); [lia|].
  unfold int_truediv in H. cbn [Z.eqb] in H. change (inject_Z 3) with 3 in H.
  destruct (mk (inject_Z d / 3)) as [x| | |] eqn:M; [|done..]. cbn [res_bind] in H. apply fin_of_mk in M as [E U]. exists x. split; [done|].
  split; [|done]. rewrite E. change 1 with (inject_Z 1). apply rnd_ge_int; [lia|]. change (inject_Z 1) with 1. apply Qle_shift_div_l; [lra|].
  change (1 * 3) with (inject_Z 3). rewrite <-Zle_Qle. lia.
Qed.

Lemma degree_unit d f : degree_factor d = Ok f -> within 0 (102 # 100) f.
Proof.
  intros H. destruct (Z.leb_spec d 3) as [L|L].
  - unfold degree_factor in H. cbv zeta in H. destruct (Z.leb_spec (Z.max 0 d) 3); [|lia]. injection H as <-. exists 1. split; [done|lra].
  - destruct (degree_steps d f L H) as (x & U & P & _ & F). destruct (log2_range x 0 1 P U) as (r & R & B); [exact P|].
    rewrite R in F. destruct (inverse_within (- (1 # 64)) r) as (y & Y & W); [lra|lra|]. rewrite Y in F. injection F as <-.
    eapply within_weaken; [exact W|lra|]. apply Qle_bool_iff. vm_compute. reflexivity.
Qed.

Lemma hub_factor d f : (10 < d)%Z -> degree_factor d = Ok f -> within 0 (36 # 100) f.
Proof.
  intros L H. destruct (degree_steps d f ltac:(lia) H) as (x & U & P & E & F).
  assert (rnd (11 # 3) <= x) as X.
  { rewrite E. apply rnd_mono. apply Qle_shift_div_l; [lra|]. apply Qle_trans with (inject_Z 11); [discriminate|]. rewrite <-Zle_Qle. lia. }
  destruct (log2_range x 9 5 P U) as (r & R & B).
  { apply Qle_trans with (Qpower (rnd (11 # 3)) 5); [apply Qle_bool_iff; vm_compute; reflexivity|].
    apply Qpower_mono; [apply Qle_bool_iff; vm_compute; reflexivity|done]. }
  rewrite R in F. destruct (inverse_within ((9 # 5) - (1 # 64)) r) as (y & Y & W); [lra|lra|]. rewrite Y in F. injection F as <-.
  eapply within_weaken; [exact W|lra|]. apply Qle_bool_iff. vm_compute. reflexivity.
Qed.

Lemma corroboration_steps c : 1 <= c <= 1125899906842624 -> exists x r, x == rnd (1 + c) /\ 2 <= x /\
  log2 (Fin x) = Fin r /\ 1 - (1 # 64) <= r <= 1025 /\
  corroboration_factor (Fin c) = fmin f1 (Fin (rnd (rnd (3 # 5) + rnd (rnd (1 # 5) * r)))).
Proof.
  intros B. assert (exists c', fmax f1 (if feq (Fin c) f0 then f1 else Fin c) = Fin c' /\ c' == c) as (c' & M & EC).
  { assert (feq (Fin c) f0 = false) as -> by (cbn [feq f0]; apply not_true_iff_false; intros Z; apply Qeq_bool_iff in Z; lra).
    unfold fmax. destruct (flt f1 (Fin c)) eqn:T; [by exists c|]. exists 1. split; [done|]. apply flt_fin_false in T. lra. }
  assert (2 <= rnd (1 + c')) as G.
  { change 2 with (inject_Z 2). apply rnd_ge_int; [lia|]. change (inject_Z 2) with 2. lra. }
  assert (rnd (1 + c') <= rnd (1 + 1125899906842624)) as U by (apply rnd_mono; lra).
  assert (rnd (1 + 1125899906842624) <= 1125899906842625) as U' by (apply Qle_bool_iff; vm_compute; reflexivity).
  assert (1125899906842625 < fl_max_pow) as U'' by reflexivity.
  destruct (log2_range (rnd (1 + c')) 1 1) as (r & R & L); [lra|lra|exact G|]. exists (rnd (1 + c')), r.
  split; [apply Qle_antisym; apply rnd_mono; lra|]. split; [done|]. split; [done|]. split; [change (1 # 1) with 1 in L; lra|].
  unfold corroboration_factor. cbv zeta. rewrite M. cbn [fadd f1]. rewrite mk_fin by (change (inject_Z (2 ^ 52)) with 4503599627370496; lra).
  rewrite R. unfold lit. cbn [fmul]. assert (0 <= rnd (1 # 5) <= 1) as F by (split; apply Qle_bool_iff; vm_compute; reflexivity).
  assert (0 <= rnd (3 # 5) <= 1) as F' by (split; apply Qle_bool_iff; vm_compute; reflexivity).
  change (1 # 1) with 1 in L. assert (0 <= rnd (1 # 5) * r <= 1025) as P by nra. rewrite mk_fin by (change (inject_Z (2 ^ 52)) with 4503599627370496; lra).
  assert (0 <= rnd (rnd (1 # 5) * r)) by (apply rnd_nonneg; lra).
  assert (rnd (rnd (1 # 5) * r) <= 1025) by (change 1025 with (inject_Z 1025); apply rnd_le_int; [lia|]; change (inject_Z 1025) with 1025; lra).
  cbn [fadd]. by rewrite mk_fin by (change (inject_Z (2 ^ 52)) with 4503599627370496; lra).
Qed.

Lemma fmin1_mono a b : 0 <= a -> a <= b -> exists x y, fmin f1 (Fin a) = Fin x /\ fmin f1 (Fin b) = Fin y /\ 0 <= x /\ x <= y /\ y <= 1.
Proof.
  intros P L. unfold fmin, f1. destruct (flt (Fin a) (Fin 1)) eqn:T, (flt (Fin b) (Fin 1)) eqn:T'; 
    (apply flt_fin in T || apply flt_fin_false in T); (apply flt_fin in T' || apply flt_fin_false in T');
    (do 2 eexists; split; [done|]; split; [done|]); lra.
Qed.

Lemma corroboration_mono c c' : 1 <= c -> c <= c' -> c' <= 1125899906842624 ->
  exists a b, corroboration_factor (Fin c) = Fin a /\ corroboration_factor (Fin c') = Fin b /\ 0 <= a /\ a <= b /\ b <= 1.
Proof.
  intros L M U. destruct (corroboration_steps c) as (x & r & X & P & R & B & ->); [lra|]. destruct (corroboration_steps c') as (x' & r' & X' & P' & R' & B' & ->); [lra|].
  assert (rnd (1 + c) <= rnd (1 + c')) by (apply rnd_mono; lra). destruct (log2_mono x x') as (u & u' & U1 & U2 & LE); [lra..|].
  rewrite R in U1. injection U1 as <-. rewrite R' in U2. injection U2 as <-.
  assert (0 <= rnd (1 # 5) /\ 0 <= rnd (3 # 5)) as [F F'] by (split; apply Qle_bool_iff; vm_compute; reflexivity).
  assert (0 <= rnd (rnd (1 # 5) * r)) by (apply rnd_nonneg; nra).
  assert (rnd (rnd (1 # 5) * r) <= rnd (rnd (1 # 5) * r')) as M1 by (apply rnd_mono; nra).
  apply fmin1_mono; [apply rnd_nonneg; lra|apply rnd_mono; lra].
Qed.

Lemma count_range receipts ks kr k : (Z.of_nat (length receipts) <= 4294967296)%Z -> corroboration_count receipts = Ok (ks, kr, k) ->
  within 1 1125899906842624 k.
Proof.
  intros L. unfold corroboration_count. cbv zeta. set (s := Z.of_nat (length (receipt_sources receipts))). set (n := Z.of_nat (length receipts)) in *.
  assert (0 <= s <= n)%Z as S.
  { split; [lia|]. unfold s, n, receipt_sources. apply inj_le. etrans; [apply remove_dups_length|].
    clear. induction receipts as [|r l IH]; [done|]. cbn. destruct (split_once ":" r) as [[? ?]|]; cbn in *; lia. }
  assert (forall z, 0 <= z <= 4294967296 -> exists x, fl_of_int z = Ok x /\ within 0 4294967296 x)%Z as I.
  { intros z [Z1 Z2]. unfold fl_of_int. rewrite Zle_Qle in Z1, Z2. change (inject_Z 0) with 0 in Z1. change (inject_Z 4294967296) with 4294967296 in Z2.
    rewrite mk_fin by (change (inject_Z (2 ^ 52)) with 4503599627370496; lra). eexists. split; [done|]. eexists. split; [done|].
    split; [by apply rnd_nonneg|]. change 4294967296 with (inject_Z 4294967296). by apply rnd_le_int. }
  destruct (I s ltac:(lia)) as (x & -> & X). destruct (I (Z.max 0 (n - s))%Z ltac:(lia)) as (y & -> & Y). cbn [res_bind]. intros E.
  injection E as _ _ <-.
  assert (within 1 1 f1) as O by (exists 1; split; [done|lra]).
  assert (within (rnd (1 + 0)) (rnd (1 + 4294967296)) (fadd f1 x)) as A by (apply fadd_within; try done; change (inject_Z (2 ^ 52)) with 4503599627370496; lra).
  assert (within 0 (rnd ((1 # 2) * 4294967296)) (fmul (lit (1 # 2)) y)) as M.
  { apply fmul_within_pos; [|done|change (inject_Z (2 ^ 52)) with 4503599627370496; lra]. eexists. split; [done|]. split; apply Qle_bool_iff; vm_compute; reflexivity. }
  eapply within_weaken; [eapply fadd_within; [exact A|exact M|..]|..]; apply Qle_bool_iff; vm_compute; reflexivity.
Qed.

(** The three factors that do not depend on the receipts. *)
Definition edge_product (t : string) (df fresh : fl) : fl :=
  fmul (fmul (match assoc (ip_alias (upper t)) _IOC_BASE_SCORE with Some b => b | None => lit (3#10) end) df) fresh.

Lemma base_within t : within 0 (91 # 100) (match assoc t _IOC_BASE_SCORE with Some b => b | None => lit (3#10) end).
Proof.
  unfold _IOC_BASE_SCORE. cbn [assoc]. repeat (destruct (String.eqb _ t));
    (eexists; split; [reflexivity|]; split; apply Qle_bool_iff; vm_compute; reflexivity).
Qed.

Lemma product_within t df fresh hi : within 0 hi df -> within 0 1 fresh -> 0 <= hi <= 2 ->
  within 0 (rnd (rnd ((91 # 100) * hi) * 1)) (edge_product t df fresh).
Proof.
  intros D F H. unfold edge_product. pose proof (base_within (ip_alias (upper t))) as B. set (b := match assoc _ _ with Some _ => _ | None => _ end) in *.
  assert (rnd ((91 # 100) * hi) <= 2) by (change 2 with (inject_Z 2); apply rnd_le_int; [lia|]; change (inject_Z 2) with 2; lra).
  apply fmul_within_pos; [|done|change (inject_Z (2 ^ 52)) with 4503599627370496; lra].
  apply fmul_within_pos; try done; change (inject_Z (2 ^ 52)) with 4503599627370496; lra.
Qed.

Lemma score_mono a b : a <= b -> (_level_index (score_to_confidence_level (Fin a)) <= _level_index (score_to_confidence_level (Fin b)))%Z.
Proof.
  intros L. unfold score_to_confidence_level. unfold lit. assert (rnd (2 # 5) <= rnd (13 # 20)) as C by (apply rnd_mono; discriminate).
  destruct (fle (Fin (rnd (13 # 20))) (Fin a)) eqn:A1, (fle (Fin (rnd (13 # 20))) (Fin b)) eqn:B1;
    (apply fle_fin in A1 || apply fle_fin_false in A1); (apply fle_fin in B1 || apply fle_fin_false in B1);
    [done|lra| |]; (destruct (fle (Fin (rnd (2 # 5))) (Fin a)) eqn:A2; [apply fle_fin in A2|apply fle_fin_false in A2]); try (vm_compute; discriminate);
    (destruct (fle (Fin (rnd (2 # 5))) (Fin b)) eqn:B2; [apply fle_fin in B2|apply fle_fin_false in B2]); (lra || (vm_compute; discriminate)).
Qed.

Lemma numeric_mono t d fresh c c' n n' : within 0 1 fresh -> 1 <= c -> c <= c' -> c' <= 1125899906842624 ->
  numeric_edge_level t d fresh (Fin c) = Ok n -> numeric_edge_level t d fresh (Fin c') = Ok n' -> (_level_index n <= _level_index n')%Z.
Proof.
  intros F L M U. unfold numeric_edge_level. cbv zeta. destruct (degree_factor d) as [df|] eqn:D; [|done]. cbn [res_bind].
  destruct (corroboration_mono c c' L M U) as (a & b & -> & -> & A & AB & B). intros E1 E2. apply ok_inj in E1 as <-, E2 as <-.
  destruct (product_within t df fresh (102 # 100) (degree_unit d df D) F ltac:(lra)) as (p & E & P). unfold edge_product in E. rewrite E.
  assert (p <= 1) as P1 by (eapply Qle_trans; [apply P|]; apply Qle_bool_iff; vm_compute; reflexivity).
  cbn [fmul]. assert (0 <= p * a <= 1) by nra. assert (0 <= p * b <= 1) by nra.
  rewrite !mk_fin by (change (inject_Z (2 ^ 52)) with 4503599627370496; lra). apply score_mono, rnd_mono. nra.
Qed.


End bounds.

(** ** Theorems *)

Open Scope Z_scope.

Section theorems.
Context {lib : MathLib}.
Variable env : string -> option string.

(** The count of receipts the formula gets: 1 without any. *)
Definition receipt_count (receipts : list string) : res (Z * Z * fl) :=
  if nonempty_list receipts then corroboration_count receipts else Ok (0, 0, f1).

Lemma edge_steps ty c noise degree obs ing now receipts st :
  confidence_for_ioc_edge env ty c noise degree obs ing now receipts = Ok st -> String.eqb (upper ty) "IP" && noise = false ->
  exists fr ks kr k n, freshness_context env (upper ty) obs ing now = Ok fr /\ receipt_count receipts = Ok (ks, kr, k) /\
    numeric_edge_level (upper ty) degree (freshness_factor fr) k = Ok n /\ is_level (level_of st) /\
    _level_index (level_of st) = if nonempty_list receipts then _level_index n else Z.min (rule_index (upper ty) c degree) (_level_index n).
Proof.
  unfold confidence_for_ioc_edge. cbv zeta. intros H N. rewrite N in H. clear N. set (typed := one_factor "ioc_type" _ _) in H. clearbody typed.
  pose proof (rules_index (upper ty) c degree None [typed]) as R. cbv zeta in R.
  destruct (hub_step degree _) as [[l w] f]. destruct R as [L R]. cbn [level_of fst] in L, R.
  destruct (freshness_context _ _ _ _ _) as [fr|]; [|done]. cbn [res_bind] in H. fold (receipt_count receipts) in H.
  destruct (receipt_count receipts) as [[[ks kr] k]|]; [|done]. cbn [res_bind] in H. destruct (numeric_edge_level _ _ _ _) as [n|] eqn:N; [|done]. cbn [res_bind] in H.
  assert (is_level n) as NL by (unfold numeric_edge_level in N; cbv zeta in N; destruct (degree_factor degree); [|done]; apply ok_inj in N as <-; apply score_level_ok).
  pose proof (settle_index n (freshness_reason fr) (nonempty_list receipts) l w NL L) as S. cbv zeta in S. destruct (settle _ _ _ _ _) as [l' w']. cbn [fst] in S.
  exists fr, ks, kr, k, n. apply ok_inj in H as <-. cbn [level_of fst]. rewrite <-R. tauto.
Qed.

(** C7 [edge_level_rule]: an edge for which the computation returns: a noise IP gives a low edge, whatever else is known of it.
    Of any other indicator the level is one of the three, and it is the numeric level
    alone when any receipt corroborates it, otherwise the lower of the numeric level
    and the rules' level. *)
Theorem edge_level_rule ty c noise degree obs ing now receipts st :
  confidence_for_ioc_edge env ty c noise degree obs ing now receipts = Ok st ->
  if String.eqb (upper ty) "IP" && noise then level_of st = "low" else
  exists fr ks kr k n, freshness_context env (upper ty) obs ing now = Ok fr /\ receipt_count receipts = Ok (ks, kr, k) /\
    numeric_edge_level (upper ty) degree (freshness_factor fr) k = Ok n /\ is_level n /\
    level_of st = if nonempty_list receipts then n else level_at (Z.min (rule_index (upper ty) c degree) (_level_index n)).
Proof.
  intros H. destruct (String.eqb (upper ty) "IP" && noise) eqn:N.
  { unfold confidence_for_ioc_edge in H. cbv zeta in H. rewrite N in H. by apply ok_inj in H as <-. }
  destruct (edge_steps _ _ _ _ _ _ _ _ _ H N) as (fr & ks & kr & k & n & F & K & E & L & I). exists fr, ks, kr, k, n.
  assert (is_level n) as NL by (unfold numeric_edge_level in E; cbv zeta in E; destruct (degree_factor degree); [|done]; apply ok_inj in E as <-; apply score_level_ok).
  destruct (level_cases _ L) as [X _]. clear H. do 4 (split; [assumption|]). rewrite X, I. destruct (nonempty_list receipts); [|done]. symmetry. by apply level_cases.
Qed.

Lemma receipt_range receipts ks kr k : Z.of_nat (length receipts) <= 4294967296 -> receipt_count receipts = Ok (ks, kr, k) -> within 1 1125899906842624 k.
Proof.
  intros L. unfold receipt_count. destruct (nonempty_list receipts); [by apply count_range|]. intros H. apply ok_inj in H. injection H as _ _ <-.
  exists 1%Q. split; [done|lra].
Qed.

(** [hub_stays_low]: an indicator shared by more than ten CVEs gives a low edge,
    whatever its type, whatever confirms it, however fresh it is and however many
    receipts corroborate it. *)
Theorem hub_stays_low ty c noise degree obs ing now receipts st :
  confidence_for_ioc_edge env ty c noise degree obs ing now receipts = Ok st -> 10 < degree ->
  Z.of_nat (length receipts) <= 4294967296 -> level_of st = "low".
Proof.
  intros H D R. destruct (String.eqb (upper ty) "IP" && noise) eqn:N.
  { unfold confidence_for_ioc_edge in H. cbv zeta in H. rewrite N in H. by apply ok_inj in H as <-. }
  destruct (edge_steps _ _ _ _ _ _ _ _ _ H N) as (fr & ks & kr & k & n & F & K & E & L & I).
  apply freshness_unit in F. destruct (receipt_range _ _ _ _ R K) as (q & -> & Q).
  assert (n = "low") as ->.
  { unfold numeric_edge_level in E. cbv zeta in E. destruct (degree_factor degree) as [df|] eqn:DF; [|done]. cbn [res_bind] in E. apply ok_inj in E as <-.
    pose proof (product_within (upper ty) df _ _ (hub_factor degree df D DF) F ltac:(lra)) as P. unfold edge_product in P.
    destruct (corroboration_mono q q) as (a & b & -> & _ & A & A2 & A1); [lra..|].
    assert (within 0 1 (Fin a)) as C by (exists a; split; [done|lra]).
    destruct (fmul_within_pos _ _ _ _ P C) as (s & -> & S); [apply Qle_bool_iff; vm_compute; reflexivity|].
    unfold score_to_confidence_level. assert (s < rnd (2 # 5))%Q as B by (eapply Qle_lt_trans; [apply S|]; vm_compute; reflexivity).
    assert (s < rnd (13 # 20))%Q as B' by (eapply Qlt_trans; [exact B|]; vm_compute; reflexivity). unfold lit.
    by rewrite (proj2 (fle_fin_false _ _) B'), (proj2 (fle_fin_false _ _) B). }
  apply level_inj; [done|by left|]. rewrite I. unfold rule_index. rewrite (proj2 (Z.ltb_lt 10 degree) D). change (_level_index "low") with 0.
  by destruct (nonempty_list receipts).
Qed.

(** [corroboration_never_lowers]: receipts never lower the level an edge has without
    any. *)
Theorem corroboration_never_lowers ty c noise degree obs ing now receipts st st' :
  confidence_for_ioc_edge env ty c noise degree obs ing now [] = Ok st ->
  confidence_for_ioc_edge env ty c noise degree obs ing now receipts = Ok st' ->
  Z.of_nat (length receipts) <= 4294967296 -> _level_index (level_of st) <= _level_index (level_of st').
Proof.
  intros H H' R. destruct (String.eqb (upper ty) "IP" && noise) eqn:N.
  { unfold confidence_for_ioc_edge in H, H'. cbv zeta in H, H'. rewrite N in H, H'. apply ok_inj in H as <-, H' as <-. done. }
  destruct (edge_steps _ _ _ _ _ _ _ _ _ H N) as (fr & ks & kr & k & n & F & K & E & L & I).
  destruct (edge_steps _ _ _ _ _ _ _ _ _ H' N) as (fr' & ks' & kr' & k' & n' & F' & K' & E' & L' & I').
  rewrite F in F'. apply ok_inj in F' as <-. apply freshness_unit in F. apply ok_inj in K. injection K as _ _ <-.
  destruct (receipt_range _ _ _ _ R K') as (q & -> & Q). pose proof (numeric_mono _ _ _ 1 q n n' F ltac:(lra) ltac:(lra) ltac:(lra) E E').
  rewrite I, I'. cbn [nonempty_list]. destruct (nonempty_list receipts) eqn:X; [lia|].
  destruct receipts; [|done]. apply ok_inj in K'. injection K' as _ _ <-. change (Fin 1) with f1 in E'. rewrite E in E'. apply ok_inj in E' as <-. lia.
Qed.

(** Lower bound of a degree factor. *)
Lemma inverse_above r h : (- (1 # 64) <= r)%Q -> (r <= h)%Q -> (h <= 1025)%Q -> exists y, fdiv f1 (fadd f1 (Fin r)) = Ok (Fin y) /\ (rnd (/ rnd (1 + h)) <= y <= 2)%Q.
Proof.
  intros L U H. destruct (inverse_within r r) as (y & E & q & -> & B); [done|lra|]. exists q. split; [done|].
  cbn [fadd f1] in E. assert (rnd (1 + - (1 # 64)) <= rnd (1 + r))%Q as M by (apply rnd_mono; lra).
  assert ((1 # 2) <= rnd (1 + - (1 # 64)))%Q as C by (apply Qle_bool_iff; vm_compute; reflexivity).
  assert (rnd (1 + r) <= rnd (1 + h))%Q as M' by (apply rnd_mono; lra).
  assert (/ rnd (1 + r) <= 2)%Q as T by (apply Qle_trans with (/ (1 # 2))%Q; [apply inv_antitone; lra|discriminate]).
  assert (rnd (/ rnd (1 + r)) <= 2)%Q by (change 2%Q with (inject_Z 2); apply rnd_le_int; [lia|exact T]).
  rewrite mk_fin in E by (change (inject_Z (2 ^ 52)) with 4503599627370496%Q; lra). cbn [fdiv] in E.
  destruct (Qeq_bool (rnd (1 + r)) 0) eqn:Z; [done|]. apply ok_inj in E. unfold Qdiv, f1 in E. rewrite mk_fin in E.
  - injection E as <-. split; [|rewrite Qmult_1_l; lra]. apply rnd_mono. rewrite Qmult_1_l. apply inv_antitone; lra.
  - rewrite Qmult_1_l. split; [|change (inject_Z (2 ^ 52)) with 4503599627370496%Q; lra].
    apply Qle_trans with 0%Q; [discriminate|]. apply Qinv_le_0_compat. lra.
Qed.

Lemma degree_4 : exists y, degree_factor 4 = Ok (Fin y) /\ ((69 # 100) <= y <= 2)%Q.
Proof.
  change (degree_factor 4) with (fdiv f1 (fadd f1 (log2 (Fin (rnd (4 # 3)))))).
  destruct (log2_range (rnd (4 # 3)) 0 1) as (r & R & B1 & B2); try (apply Qle_bool_iff; vm_compute; reflexivity); [vm_compute; reflexivity|].
  destruct (log2_upper (rnd (4 # 3)) 5 12) as (r' & R' & B'); [vm_compute; reflexivity|apply Qle_bool_iff; vm_compute; reflexivity|].
  rewrite R in R'. injection R' as <-. rewrite R. destruct (inverse_above r ((5 # 12) + (1 # 64))) as (y & -> & Y); [lra..|].
  exists y. split; [done|]. split; [|lra]. eapply Qle_trans; [|apply Y]. apply Qle_bool_iff. vm_compute. reflexivity.
Qed.

Definition no_confirmation : confirmations := mkConfirmations None false false.

Definition undated : freshness := mkFreshness f1 None None None "No observation timestamp available" true.

Lemma undated_context now : freshness_context env "DOMAIN" None None now = Ok undated.
Proof. reflexivity. Qed.

Lemma undated_domain now receipts ks kr k : receipt_count receipts = Ok (ks, kr, k) ->
  exists st, confidence_for_ioc_edge env "DOMAIN" no_confirmation false 4 None None now receipts = Ok st.
Proof.
  intros K. unfold confidence_for_ioc_edge. cbv zeta. change (upper "DOMAIN") with "DOMAIN". change (String.eqb "DOMAIN" "IP" && false) with false. cbv iota.
  destruct (hub_step 4 _) as [[l w] f]. rewrite undated_context. cbn [res_bind]. fold (receipt_count receipts). rewrite K. cbn [res_bind].
  unfold numeric_edge_level. destruct degree_4 as (y & -> & _). cbv zeta. cbn [res_bind]. destruct (settle _ _ _ _ _). eauto.
Qed.

Lemma numeric_4 c : (3 <= c <= 1000)%Q -> numeric_edge_level "DOMAIN" 4 f1 (Fin c) = Ok "medium".
Proof.
  intros C. unfold numeric_edge_level. change (ip_alias (upper "DOMAIN")) with "DOMAIN". cbv zeta. destruct degree_4 as (y & D & Y1 & _).
  destruct (degree_unit 4 _ D) as (y' & E & _ & Y2). injection E as <-. rewrite D. cbn [res_bind]. change (assoc "DOMAIN" _IOC_BASE_SCORE) with (Some (lit (3 # 5))).
  destruct (corroboration_steps c ltac:(lra)) as (x & r & X & X2 & R & _ & ->).
  assert (4 <= x)%Q as X4 by (rewrite X; change 4%Q with (inject_Z 4); apply rnd_ge_int; [lia|]; change (inject_Z 4) with 4%Q; lra).
  destruct (log2_lower x 2 1 ltac:(lra)) as (r' & R' & L); [exact X4|]. rewrite R in R'. injection R' as <-. change (2 # 1)%Q with 2%Q in L.
  assert (exists a, fmin f1 (Fin (rnd (rnd (3 # 5) + rnd (rnd (1 # 5) * r)))) = Fin a /\ ((99 # 100) <= a <= 1)%Q) as (a & -> & A).
  { assert ((99 # 100) <= rnd (rnd (3 # 5) + rnd (rnd (1 # 5) * r)))%Q as B.
    { apply Qle_trans with (rnd (rnd (3 # 5) + rnd (rnd (1 # 5) * (198 # 100)))); [apply Qle_bool_iff; vm_compute; reflexivity|].
      apply rnd_mono. assert (rnd (rnd (1 # 5) * (198 # 100)) <= rnd (rnd (1 # 5) * r))%Q; [|lra]. apply rnd_mono.
      assert (0 <= rnd (1 # 5))%Q by (apply Qle_bool_iff; vm_compute; reflexivity). nra. }
    unfold fmin. destruct (flt _ f1) eqn:T; [apply flt_fin in T; eexists; split; [done|lra]|]. exists 1%Q. split; [done|lra]. }
  assert (forall x lo hi, (0 <= lo)%Q -> (hi <= 2)%Q -> (lo <= x <= hi)%Q -> exists z, mk x = Fin z /\ (rnd lo <= z <= rnd hi)%Q) as M.
  { intros z lo hi P Q B. rewrite mk_fin by (change (inject_Z (2 ^ 52)) with 4503599627370496%Q; lra). eexists. split; [done|]. split; apply rnd_mono; lra. }
  unfold lit, f1. cbn [fmul]. assert ((59 # 100) <= rnd (3 # 5) <= (601 # 1000))%Q as F by (split; apply Qle_bool_iff; vm_compute; reflexivity).
  destruct (M (rnd (3 # 5) * y)%Q (rnd (3 # 5) * (69 # 100))%Q (614 # 1000)%Q) as (p1 & -> & P1); [lra..|split; nra|].
  assert ((413 # 1000) <= rnd (rnd (3 # 5) * (69 # 100)))%Q as B1 by (apply Qle_bool_iff; vm_compute; reflexivity).
  assert (rnd (614 # 1000) <= (615 # 1000))%Q as B2 by (apply Qle_bool_iff; vm_compute; reflexivity).
  cbn [fmul]. destruct (M (p1 * 1)%Q (413 # 1000)%Q (615 # 1000)%Q) as (p2 & -> & P2); [lra..|].
  assert ((412 # 1000) <= rnd (413 # 1000))%Q as B3 by (apply Qle_bool_iff; vm_compute; reflexivity).
  assert (rnd (615 # 1000) <= (616 # 1000))%Q as B4 by (apply Qle_bool_iff; vm_compute; reflexivity).
  cbn [fmul]. destruct (M (p2 * a)%Q (407 # 1000)%Q (616 # 1000)%Q) as (p3 & -> & P3); [lra..|split; nra|].
  unfold score_to_confidence_level, lit. assert (p3 < rnd (13 # 20))%Q as G by (eapply Qle_lt_trans; [apply P3|]; vm_compute; reflexivity).
  assert (rnd (2 # 5) <= p3)%Q as G' by (eapply Qle_trans; [|apply P3]; apply Qle_bool_iff; vm_compute; reflexivity).
  by rewrite (proj2 (fle_fin_false _ _) G), (proj2 (fle_fin _ _) G').
Qed.

(** [rescued_hub]: the downranking of a hub is not the last word: a domain shared by
    four CVEs is low without receipts, and medium again with receipts of three sources. *)
Theorem rescued_hub now : match confidence_for_ioc_edge env "DOMAIN" no_confirmation false 4 None None now [],
                                confidence_for_ioc_edge env "DOMAIN" no_confirmation false 4 None None now ["threatfox:1"; "urlhaus:2"; "phishtank:3"] with
                          | Ok st, Ok st' => level_of st = "low" /\ level_of st' = "medium"
                          | _, _ => False
                          end.
Proof.
  assert (exists k, receipt_count ["threatfox:1"; "urlhaus:2"; "phishtank:3"] = Ok (3, 3, Fin k) /\ (3 <= k <= 1000)%Q) as (k & K & B)
    by (eexists; split; [vm_compute; reflexivity|]; split; apply Qle_bool_iff; vm_compute; reflexivity).
  destruct (undated_domain now [] 0 0 f1 eq_refl) as [st E]. destruct (undated_domain now _ _ _ _ K) as [st' E']. rewrite E, E'.
  destruct (edge_steps _ _ _ _ _ _ _ _ _ E eq_refl) as (fr & ? & ? & ? & n & _ & _ & _ & L & I).
  destruct (edge_steps _ _ _ _ _ _ _ _ _ E' eq_refl) as (fr' & ? & ? & ? & n' & F' & K' & N' & L' & I').
  change (upper "DOMAIN") with "DOMAIN" in *. rewrite undated_context in F'. apply ok_inj in F' as <-. rewrite K in K'. apply ok_inj in K'. injection K' as _ _ <-.
  change (freshness_factor undated) with f1 in N'. rewrite (numeric_4 k B) in N'. apply ok_inj in N' as <-. clear E E'. split; [apply level_inj; [exact L|by left|]|apply level_inj; [exact L'|right; by left|]].
  - rewrite I. cbn [nonempty_list]. change (rule_index "DOMAIN" no_confirmation 4) with 0. change (_level_index "low") with 0.
    assert (0 <= _level_index n); [|lia]. unfold _level_index. repeat destruct (String.eqb _ _); lia.
  - rewrite I'. reflexivity.
Qed.

End theorems.

(** ** Witnesses *)

Definition no_env (k : string) : option string := None.
Definition noted : confirmations := mkConfirmations (Some "malicious") true true.

Definition may_20 : option string := Some "2026-05-20T10:00:00Z".
Definition july_20 : Z := days_from_civil 2026 7 20 * DAY_US.
Definition receipts : list string := ["threatfox:1"; "threatfox:2"; "urlhaus:9"; "unsourced"].

Lemma edge_level_rule_witness : exists st, confidence_for_ioc_edge no_env "url" noted false 2 may_20 None july_20 [] = Ok st /\ exists n, is_level n /\ level_of st = level_at (Z.min 2 (_level_index n)).
Proof.
  destruct (is_ok_spec (confidence_for_ioc_edge no_env "url" noted false 2 may_20 None july_20 [])) as [st E]; [vm_compute; reflexivity|].
  exists st. split; [exact E|]. destruct (edge_level_rule no_env _ _ _ _ _ _ _ _ _ E) as (_ & _ & _ & _ & n & _ & _ & _ & N & L). exists n. split; [exact N|exact L].
Defined.

Lemma hub_stays_low_witness : exists st, confidence_for_ioc_edge no_env "md5" noted false 11 may_20 None july_20 receipts = Ok st /\ level_of st = "low".
Proof.
  destruct (is_ok_spec (confidence_for_ioc_edge no_env "md5" noted false 11 may_20 None july_20 receipts)) as [st E]; [vm_compute; reflexivity|].
  exists st. split; [exact E|]. apply (hub_stays_low no_env _ _ _ _ _ _ _ _ _ E); [lia|cbn; lia].
Defined.

Lemma corroboration_never_lowers_witness : exists st st', confidence_for_ioc_edge no_env "domain" noted false 5 may_20 None july_20 [] = Ok st /\
  confidence_for_ioc_edge no_env "domain" noted false 5 may_20 None july_20 receipts = Ok st' /\ _level_index (level_of st) <= _level_index (level_of st').
Proof.
  destruct (is_ok_spec (confidence_for_ioc_edge no_env "domain" noted false 5 may_20 None july_20 [])) as [st E]; [vm_compute; reflexivity|].
  destruct (is_ok_spec (confidence_for_ioc_edge no_env "domain" noted false 5 may_20 None july_20 receipts)) as [st' E']; [vm_compute; reflexivity|].
  exists st, st'. split; [exact E|]. split; [exact E'|]. apply (corroboration_never_lowers no_env _ _ _ _ _ _ _ _ _ _ E E'). cbn. lia.
Defined.
