(* ===== verification/SourceEvidence.v ===== *)
(** * SourceEvidence: corroboration by the mirrored catalogues (correlation/source_evidence.py)

    The rows of ti_mirror_iocs that match an indicator of a pulse, over the catalogue
    sources of sources/registry.py.  The table is the list of its rows in the order the
    database returns them; an absent text is [""].  The digest of db/ioc_digest.py
    (MD5 in hexadecimal) is a parameter. *)

From S2P Require Import Prelude PyStr PyNet PyVal Ioc.
Open Scope string_scope.
Open Scope Z_scope.

(** A row of ti_mirror_iocs. *)
Record mirror_row := mkMirror {
  m_source : string; m_ref_id : string; m_ioc_type : string; m_ioc_value : string; m_digest : string;
  m_raw_ioc : string; m_host_ioc : string; m_malware : string; m_threat_type : string; m_confidence_level : Z;
  m_first_seen : string; m_fetched_at : string
}.

Record SourceDescriptor := mkSource { source_key : string; mirror_type_map : list (string * string) }.

Definition CATALOG_SOURCES : list SourceDescriptor :=
  [mkSource "threatfox" [("IP", "ip"); ("DOMAIN", "domain"); ("HASH", "hash"); ("URL", "domain")];
   mkSource "urlhaus" [("URL", "url"); ("DOMAIN", "url")];
   mkSource "malwarebazaar" [("HASH", "hash")];
   mkSource "feodo" [("IP", "ip")];
   mkSource "phishtank" [("URL", "url"); ("DOMAIN", "url")]].

Definition canonical_type (desc : SourceDescriptor) (ioc_type : string) : option string :=
  assoc (normalize_ioc_type ioc_type) (mirror_type_map desc).

Definition corroboration_receipt (source_key ref_id : string) : string := source_key +:+ ":" +:+ ref_id.

(** The columns a mirror row is joined on. *)
Inductive join_column := host_ioc | ioc_value.

#[export] Instance join_column_eq_dec : EqDecision join_column.
Proof. solve_decision. Defined.

Abbreviation edge_key := (string * string)%type.
Abbreviation lookup_pair := (join_column * string * string)%type.

Definition _mirror_lookup_pair (desc : SourceDescriptor) (ty value : string) : res (option lookup_pair) :=
  match canonical_type desc ty with
  | None => Ok None
  | Some mirror_type =>
      let! n := normalize_ioc ty value in
      match n with
      | None => Ok None
      | Some (canon_type, canon_value, _) =>
          if String.eqb mirror_type "url" && String.eqb canon_type "DOMAIN" then Ok (Some (host_ioc, "url", lower canon_value))
          else if String.eqb mirror_type "url" && String.eqb canon_type "URL" then Ok (Some (ioc_value, "url", lower canon_value))
          else if String.eqb mirror_type "domain" && String.eqb canon_type "URL" then
            let! host := _url_host canon_value in
            Ok (if nonempty host then Some (ioc_value, "domain", host) else None)
          else Ok (Some (ioc_value, mirror_type, lower canon_value))
      end
  end.

Definition key_eqb (a b : edge_key) : bool := String.eqb (fst a) (fst b) && String.eqb (snd a) (snd b).

(** [d\[k\] = v] on a dict keyed by edges. *)
Fixpoint kset {A} (d : list (edge_key * A)) (k : edge_key) (v : A) : list (edge_key * A) :=
  match d with
  | [] => [(k, v)]
  | (k', v') :: t => if key_eqb k' k then (k, v) :: t else (k', v') :: kset t k v
  end.

Section evidence.
Context (ioc_value_digest : string -> string).

(** The WHERE clause of one lookup on a row. *)
Definition clause (p : lookup_pair) (row : mirror_row) : bool :=
  let '(column, mirror_type, value) := p in
  String.eqb (m_ioc_type row) mirror_type &&
  match column with
  | ioc_value => String.eqb (m_digest row) (ioc_value_digest value) ||
                 String.eqb (m_digest row) "" && String.eqb (lower (m_ioc_value row)) value
  | host_ioc => String.eqb (lower (m_host_ioc row)) value
  end.

Definition candidates (row : mirror_row) : list lookup_pair :=
  let mirror_type := lower (strip (m_ioc_type row)) in
  let value := lower (strip (m_ioc_value row)) in
  if String.eqb mirror_type "url" then
    let host := lower (strip (m_host_ioc row)) in
    ((if nonempty host then [(host_ioc, "url", host)] else []) ++ (if nonempty value then [(ioc_value, "url", value)] else []))%list
  else [(ioc_value, mirror_type, value)].

Definition pair_eqb (a b : lookup_pair) : bool := if decide (a = b) then true else false.

(** The edges a row was looked up for: the keys whose pair is one of its candidates. *)
Definition matched_keys (lookup : list (edge_key * lookup_pair)) (row : mirror_row) : list edge_key :=
  map fst (List.filter (fun kp => existsb (pair_eqb (snd kp)) (candidates row)) lookup).

Definition edge_keys (iocs : list (string * string)) : res (list (edge_key * (string * string))) :=
  fold_left (fun acc i => let! d := acc in let! k := ioc_edge_key (fst i) (snd i) in
                          Ok (match k with Some k => kset d k i | None => d end)) iocs (Ok []).

Definition suppressed (suppress_host_level : list string) (p : lookup_pair) : bool :=
  match p with (host_ioc, _, value) => existsb (String.eqb value) suppress_host_level | _ => false end.

Definition lookup_of (desc : SourceDescriptor) (suppress_host_level : list string) (keys : list (edge_key * (string * string)))
    : res (list (edge_key * lookup_pair)) :=
  fold_left (fun acc ki => let! l := acc in let! p := _mirror_lookup_pair desc (fst (snd ki)) (snd (snd ki)) in
                           Ok (match p with
                               | Some p => if suppressed suppress_host_level p then l else l ++ [(fst ki, p)]
                               | None => l
                               end)%list) keys (Ok []).

(** The pairs of edge and row one source adds, in the order of its rows. *)
Definition source_hits (desc : SourceDescriptor) (lookup : list (edge_key * lookup_pair)) (table : list mirror_row) : list (edge_key * mirror_row) :=
  let rows := List.filter (fun row => String.eqb (m_source row) (source_key desc) && existsb (fun kp => clause (snd kp) row) lookup) table in
  flat_map (fun row => map (fun k => (k, row)) (matched_keys lookup row)) rows.

(** The dict from edges to rows, as the list of its appends. *)
Definition batch_source_evidence (table : list mirror_row) (iocs : list (string * string)) (suppress_host_level : list string)
    : res (list (edge_key * mirror_row)) :=
  let! keys := edge_keys iocs in
  fold_left (fun acc desc => let! hits := acc in
                             let! lookup := lookup_of desc suppress_host_level keys in
                             Ok (hits ++ source_hits desc lookup table)%list) CATALOG_SOURCES (Ok []).

(** [hits.get(key, [])] *)
Definition hits_of (hits : list (edge_key * mirror_row)) (k : edge_key) : list mirror_row :=
  map snd (List.filter (fun h => key_eqb (fst h) k) hits).

End evidence.

(** ** Where the hits come from *)

Lemma key_eqb_spec a b : reflect (a = b) (key_eqb a b).
Proof.
  unfold key_eqb. destruct a as [x y], b as [x' y']. cbn. destruct (String.eqb_spec x x') as [->|N]; cbn.
  - destruct (String.eqb_spec y y') as [->|N]; constructor; congruence.
  - constructor. congruence.
Qed.

Lemma kset_in {A} (d : list (edge_key * A)) k v k' v' : (k', v') ∈ kset d k v -> k' = k /\ v' = v \/ (k', v') ∈ d.
Proof.
  induction d as [|[q w] d IH]; cbn; [rewrite list_elem_of_singleton; intros [= -> ->]; tauto|].
  destruct (key_eqb_spec q k) as [->|N]; rewrite !elem_of_cons; [intros [[= -> ->]|H]; tauto|]. intros [H|H]; [tauto|]. apply IH in H. tauto.
Qed.

Section facts.
Context (ioc_value_digest : string -> string).

Lemma edge_keys_from iocs d : edge_keys iocs = Ok d -> forall k i, (k, i) ∈ d -> i ∈ iocs /\ ioc_edge_key (fst i) (snd i) = Ok (Some k).
Proof.
  unfold edge_keys. intros H. refine (fold_ok (fun d => forall k i, (k, i) ∈ d -> i ∈ iocs /\ ioc_edge_key (fst i) (snd i) = Ok (Some k)) _ _ _ _ H _ _).
  - intros a [= <-] k i I. by apply not_elem_of_nil in I.
  - intros a x a' IH X F k i I. destruct (ioc_edge_key (fst x) (snd x)) as [o|] eqn:E; [|done]. cbn [res_bind] in F. apply ok_inj in F as <-.
    destruct o as [k0|]; [|by apply IH]. apply kset_in in I as [[-> ->]|I]; [done|by apply IH].
Qed.

Lemma lookup_from desc sup keys l : lookup_of desc sup keys = Ok l -> forall k p, (k, p) ∈ l ->
  exists i, (k, i) ∈ keys /\ _mirror_lookup_pair desc (fst i) (snd i) = Ok (Some p) /\ suppressed sup p = false.
Proof.
  unfold lookup_of. intros H.
  refine (fold_ok (fun l => forall k p, (k, p) ∈ l -> exists i, (k, i) ∈ keys /\ _mirror_lookup_pair desc (fst i) (snd i) = Ok (Some p) /\ suppressed sup p = false) _ _ _ _ H _ _).
  - intros a [= <-] k p I. by apply not_elem_of_nil in I.
  - intros a [k0 i0] a' IH X F k p I. cbn [fst snd] in F. destruct (_mirror_lookup_pair _ _ _) as [o|] eqn:E; [|done]. cbn [res_bind] in F. apply ok_inj in F as <-.
    destruct o as [p0|]; [|by apply IH]. destruct (suppressed sup p0) eqn:S; [by apply IH|]. apply elem_of_app in I as [I|I]; [by apply IH|].
    apply list_elem_of_singleton in I as [= -> ->]. by exists i0.
Qed.

Lemma matched_in lookup row k : k ∈ matched_keys lookup row <-> exists p, (k, p) ∈ lookup /\ p ∈ candidates row.
Proof.
  unfold matched_keys. rewrite list_elem_of_fmap. split.
  - intros ([k' p] & -> & H). apply list_elem_of_In, List.filter_In in H as [H C]. apply existsb_exists in C as (c & C & E). cbn [snd fst] in *.
    exists p. split; [by apply list_elem_of_In|]. unfold pair_eqb in E. case_decide; [|done]. subst c. by apply list_elem_of_In.
  - intros (p & H & C). exists (k, p). split; [done|]. apply list_elem_of_In, List.filter_In. split; [by apply list_elem_of_In|].
    apply existsb_exists. exists p. split; [by apply list_elem_of_In|]. unfold pair_eqb. by rewrite decide_True.
Qed.

Lemma source_hits_in desc lookup table k row : (k, row) ∈ source_hits ioc_value_digest desc lookup table ->
  row ∈ table /\ m_source row = source_key desc /\ (exists kp, kp ∈ lookup /\ clause ioc_value_digest (snd kp) row = true) /\
  exists p, (k, p) ∈ lookup /\ p ∈ candidates row.
Proof.
  unfold source_hits. intros H. apply list_elem_of_In, in_flat_map in H as (r & R & H). apply in_map_iff in H as (k' & [= -> ->] & H).
  apply List.filter_In in R as [R C]. apply andb_prop in C as [S C]. apply String.eqb_eq in S. apply existsb_exists in C as (kp & K & C).
  split; [by apply list_elem_of_In|]. split; [done|]. split; [exists kp; split; [by apply list_elem_of_In|done]|].
  apply matched_in. by apply list_elem_of_In.
Qed.

(** What a hit is: a row of a catalogue source in the table, selected by the clause of
    some edge of the batch, with a candidate that is the lookup of the hit's edge. *)
Lemma hits_from table iocs sup hits : batch_source_evidence ioc_value_digest table iocs sup = Ok hits -> forall k row, (k, row) ∈ hits ->
  exists desc i p, desc ∈ CATALOG_SOURCES /\ row ∈ table /\ m_source row = source_key desc /\ i ∈ iocs /\ ioc_edge_key (fst i) (snd i) = Ok (Some k) /\
    _mirror_lookup_pair desc (fst i) (snd i) = Ok (Some p) /\ suppressed sup p = false /\ p ∈ candidates row /\
    exists i' p', i' ∈ iocs /\ _mirror_lookup_pair desc (fst i') (snd i') = Ok (Some p') /\ clause ioc_value_digest p' row = true.
Proof.
  unfold batch_source_evidence. destruct (edge_keys iocs) as [keys|] eqn:K; [|done]. cbn [res_bind]. intros H k row.
  pose proof (edge_keys_from _ _ K) as KF.
  refine (fold_ok (fun hits => (k, row) ∈ hits -> _) _ _ _ _ H _ _).
  - intros a [= <-] I. by apply not_elem_of_nil in I.
  - intros a desc a' IH D F I. destruct (lookup_of desc sup keys) as [l|] eqn:L; [|done]. cbn [res_bind] in F. apply ok_inj in F as <-.
    apply elem_of_app in I as [I|I]; [by apply IH|]. apply source_hits_in in I as (R & S & ([k' p'] & K' & C) & p & P & M).
    destruct (lookup_from _ _ _ _ L _ _ P) as (i & I & E & U). destruct (KF _ _ I) as [I1 I2].
    destruct (lookup_from _ _ _ _ L _ _ K') as (i' & I' & E' & _). destruct (KF _ _ I') as [I1' _].
    exists desc, i, p. split_and!; try done. by exists i', p'.
Qed.

(** ** Batches of domains *)

Lemma domain_edge v k : ioc_edge_key "DOMAIN" v = Ok (Some k) -> exists c, k = ("DOMAIN", lower c) /\ exists meta, normalize_ioc "DOMAIN" v = Ok (Some ("DOMAIN", c, meta)).
Proof.
  unfold ioc_edge_key, normalize_ioc. destruct (negb _); [done|]. change (normalize_ioc_type "DOMAIN") with "DOMAIN". cbn [String.eqb Ascii.eqb Bool.eqb].
  destruct (_ || _); [done|]. cbn [res_bind]. intros H. apply ok_inj in H. injection H as <-. eauto.
Qed.

Lemma domain_lookup desc v k : desc ∈ CATALOG_SOURCES -> ioc_edge_key "DOMAIN" v = Ok (Some k) ->
  _mirror_lookup_pair desc "DOMAIN" v =
  Ok (if String.eqb (source_key desc) "threatfox" then Some (ioc_value, "domain", snd k)
      else if String.eqb (source_key desc) "urlhaus" || String.eqb (source_key desc) "phishtank" then Some (host_ioc, "url", snd k) else None).
Proof.
  intros D K. destruct (domain_edge v k K) as (c & -> & meta & N). unfold _mirror_lookup_pair, canonical_type.
  change (normalize_ioc_type "DOMAIN") with "DOMAIN". rewrite N.
  unfold CATALOG_SOURCES in D. rewrite !elem_of_cons in D. destruct D as [->|[->|[->|[->|[->|D]]]]]; [reflexivity..|by apply not_elem_of_nil in D].
Qed.

(** A domain's hit is a row of a threatfox domain, or a URL row with that host. *)
Lemma domain_hit table iocs sup hits d row : (forall i, i ∈ iocs -> fst i = "DOMAIN") ->
  batch_source_evidence ioc_value_digest table iocs sup = Ok hits -> (("DOMAIN", d), row) ∈ hits ->
  row ∈ table /\ (m_source row = "threatfox" /\ m_ioc_type row = "domain" /\ lower (strip (m_ioc_value row)) = d \/
    (m_source row = "urlhaus" \/ m_source row = "phishtank") /\ m_ioc_type row = "url" /\ nonempty (lower (strip (m_host_ioc row))) = true /\
    lower (strip (m_host_ioc row)) = d /\ existsb (String.eqb d) sup = false).
Proof.
  intros ALL H I. destruct (hits_from _ _ _ _ H _ _ I) as (desc & [ty v] & p & D & R & S & I1 & K & L & U & C & [ty' v'] & p' & I1' & L' & CL).
  pose proof (ALL _ I1) as T. pose proof (ALL _ I1') as T'. cbn [fst snd] in *. subst ty ty'. split; [done|].
  rewrite (domain_lookup _ _ _ D K) in L. apply ok_inj in L.
  assert (exists k', ioc_edge_key "DOMAIN" v' = Ok (Some k')) as [k' K'].
  { unfold _mirror_lookup_pair in L'. destruct (canonical_type desc "DOMAIN"); [|done]. unfold ioc_edge_key.
    destruct (normalize_ioc "DOMAIN" v') as [[[[? ?] ?]|]|]; [eauto|done..]. }
  rewrite (domain_lookup _ _ _ D K') in L'. apply ok_inj in L'. cbn [snd] in L.
  assert (m_ioc_type row = snd (fst p')) as TY by (destruct p' as [[? mt] ?]; cbn in CL; apply andb_prop in CL as [CL _]; by apply String.eqb_eq in CL).
  rewrite S. destruct (String.eqb_spec (source_key desc) "threatfox") as [->|N].
  - left. injection L as <-. injection L' as <-. cbn [fst snd] in TY. split; [done|]. split; [done|].
    unfold candidates in C. rewrite TY in C. change (lower (strip "domain")) with "domain" in C. cbn [String.eqb Ascii.eqb Bool.eqb] in C.
    apply list_elem_of_singleton in C. by injection C as ->.
  - destruct (_ || _) eqn:O; [|done]. injection L as <-. injection L' as <-. cbn [fst snd] in TY. right. split.
    { apply orb_prop in O as [O|O]; apply String.eqb_eq in O; tauto. }
    split; [done|]. unfold candidates in C. rewrite TY in C. change (lower (strip "url")) with "url" in C. change (String.eqb "url" "url") with true in C. cbv iota in C.
    apply elem_of_app in C as [C|C]; [|destruct (nonempty (lower (strip (m_ioc_value row)))); [apply list_elem_of_singleton in C; discriminate C|by apply not_elem_of_nil in C]].
    destruct (nonempty (lower (strip (m_host_ioc row)))) eqn:NE; [|by apply not_elem_of_nil in C]. apply list_elem_of_singleton in C. injection C as ->.
    split; [done|]. split; [done|]. exact U.
Qed.

End facts.

(** ** Suppression of shared hosts *)

Definition keeps (sup : list string) (h : edge_key * mirror_row) : bool :=
  negb (String.eqb (m_ioc_type (snd h)) "url" && existsb (String.eqb (snd (fst h))) sup).

Definition unsuppressed (sup : list string) (kp : edge_key * lookup_pair) : bool := negb (suppressed sup (snd kp)).

Lemma lookup_filter desc sup keys : lookup_of desc sup keys = res_bind (lookup_of desc [] keys) (fun l => Ok (List.filter (unsuppressed sup) l)).
Proof.
  unfold lookup_of. assert (forall acc, fold_left (fun acc ki => let! l := acc in let! p := _mirror_lookup_pair desc (fst (snd ki)) (snd (snd ki)) in
      Ok (match p with Some p => if suppressed sup p then l else l ++ [(fst ki, p)] | None => l end)%list) keys (res_bind acc (fun l => Ok (List.filter (unsuppressed sup) l))) =
    res_bind (fold_left (fun acc ki => let! l := acc in let! p := _mirror_lookup_pair desc (fst (snd ki)) (snd (snd ki)) in
      Ok (match p with Some p => if suppressed [] p then l else l ++ [(fst ki, p)] | None => l end)%list) keys acc) (fun l => Ok (List.filter (unsuppressed sup) l))) as G.
  { induction keys as [|ki keys IH]; intros acc; [done|]. cbn [fold_left]. rewrite <-IH. f_equal. destruct acc as [l|]; [|done]. cbn [res_bind].
    destruct (_mirror_lookup_pair _ _ _) as [[p|]|]; [|done..]. cbn [res_bind]. assert (suppressed [] p = false) as -> by (destruct p as [[[] ?] ?]; done).
    rewrite List.filter_app. cbn [List.filter]. assert (unsuppressed sup (fst ki, p) = negb (suppressed sup p)) as -> by done.
    destruct (suppressed sup p); cbn [negb]; [by rewrite List.app_nil_r|done]. }
  exact (G (Ok [])).
Qed.

Section suppression.
Context (ioc_value_digest : string -> string).

(** All lookups of one source join on the host of URL rows, or none does. *)
Definition host_lookups (l : list (edge_key * lookup_pair)) : Prop := forall k p, In (k, p) l -> p = (host_ioc, "url", snd k).
Definition value_lookups (l : list (edge_key * lookup_pair)) : Prop := forall k p, In (k, p) l -> p = (ioc_value, "domain", snd k).

Lemma value_hits sup desc l table : value_lookups l ->
  source_hits ioc_value_digest desc (List.filter (unsuppressed sup) l) table = List.filter (keeps sup) (source_hits ioc_value_digest desc l table).
Proof.
  intros V. assert (List.filter (unsuppressed sup) l = l) as ->.
  { induction l as [|[k p] l IH]; [done|]. cbn [List.filter]. rewrite (V k p (or_introl eq_refl)). cbn. f_equal. apply IH. intros k' p' I. apply V. by right. }
  assert (forall h, In h (source_hits ioc_value_digest desc l table) -> keeps sup h = true) as K.
  { intros [k row] H. apply list_elem_of_In, source_hits_in in H as (_ & _ & ([k' p'] & I & C) & _). apply list_elem_of_In, V in I as ->. cbn in C.
    apply andb_prop in C as [C _]. apply String.eqb_eq in C. unfold keeps. cbn [snd fst]. by rewrite C. }
  induction (source_hits _ _ _ _) as [|h hs IH]; [done|]. cbn [List.filter]. rewrite (K h (or_introl eq_refl)). f_equal. apply IH.
  intros h' I. apply K. by right.
Qed.

Lemma host_hits sup desc l table : host_lookups l -> (forall row, In row table -> strip (m_host_ioc row) = m_host_ioc row) ->
  source_hits ioc_value_digest desc (List.filter (unsuppressed sup) l) table = List.filter (keeps sup) (source_hits ioc_value_digest desc l table).
Proof.
  intros V T. unfold source_hits. apply flat_map_filter. intros row I. specialize (T row I).
  destruct (String.eqb (m_source row) (source_key desc)); [|done]. cbn [andb].
  assert (matched_keys (List.filter (unsuppressed sup) l) row = List.filter (fun k => negb (existsb (String.eqb (snd k)) sup)) (matched_keys l row)) as M.
  { unfold matched_keys. rewrite filter_map_comm, filter_swap. f_equal. apply List.filter_ext_in. intros [k p] J. apply List.filter_In in J as [J _].
    unfold unsuppressed. cbn [snd fst]. by rewrite (V k p J). }
  assert (forall l', (forall k p, In (k, p) l' -> In (k, p) l) -> existsb (fun kp => clause ioc_value_digest (snd kp) row) l' = true <->
    m_ioc_type row = "url" /\ exists k p, In (k, p) l' /\ snd k = lower (m_host_ioc row)) as C.
  { intros l' S. rewrite existsb_exists. split.
    - intros ([k p] & J & E). cbn [snd] in E. rewrite (V k p (S k p J)) in E. cbn in E. apply andb_prop in E as [E1 E2].
      apply String.eqb_eq in E1, E2. split; [done|]. by exists k, p.
    - intros (E & k & p & J & K). exists (k, p). split; [done|]. cbn [snd]. rewrite (V k p (S k p J)). unfold clause. apply andb_true_intro. split; apply String.eqb_eq; congruence. }
  pose proof (C l (fun k p H => H)) as C1. specialize (C (List.filter (unsuppressed sup) l) (fun k p H => proj1 (proj1 (List.filter_In _ _ _) H))) as C2.
  destruct (existsb (fun kp => clause ioc_value_digest (snd kp) row) l) eqn:E1.
  2: { destruct (existsb _ (List.filter _ l)) eqn:E2; [|done]. destruct (proj1 C2 eq_refl) as (U & k & p & J & K).
       assert (false = true) as X by (apply C1; split; [done|]; exists k, p; split; [exact (proj1 (proj1 (List.filter_In _ _ _) J))|exact K]). discriminate X. }
  destruct (proj1 C1 eq_refl) as (U & _).
  rewrite map_filter_pair.
  assert (List.filter (fun k => keeps sup (k, row)) (matched_keys l row) = List.filter (fun k => negb (existsb (String.eqb (snd k)) sup)) (matched_keys l row)) as ->
    by (apply List.filter_ext; intros k; unfold keeps; cbn [fst snd]; by rewrite U).
  rewrite M. destruct (existsb _ (List.filter _ l)) eqn:E2; [done|]. destruct (List.filter _ (matched_keys l row)) as [|k ks] eqn:F; [done|].
  assert (In k (k :: ks)) as J by by left. rewrite <-F in J. apply List.filter_In in J as [J S]. apply list_elem_of_In, matched_in in J as (p & J & CA).
  apply list_elem_of_In in J. rewrite (V k p J) in CA. unfold candidates in CA. rewrite U, T in CA. change (lower (strip "url")) with "url" in CA.
  change (String.eqb "url" "url") with true in CA. cbv iota zeta in CA. apply elem_of_app in CA as [CA|CA].
  - destruct (nonempty _); [|by apply not_elem_of_nil in CA]. apply list_elem_of_singleton in CA. injection CA as CA.
    assert (false = true) as X; [|discriminate X]. apply C2. split; [done|]. exists k, p. split; [|done]. apply List.filter_In. split; [done|].
    unfold unsuppressed. cbn [snd]. rewrite (V k p J). exact S.
  - destruct (nonempty _); [|by apply not_elem_of_nil in CA]. apply list_elem_of_singleton in CA. discriminate CA.
Qed.

Lemma lookup_shape desc keys l iocs : desc ∈ CATALOG_SOURCES -> (forall i, i ∈ iocs -> fst i = "DOMAIN") -> edge_keys iocs = Ok keys ->
  lookup_of desc [] keys = Ok l -> host_lookups l \/ value_lookups l.
Proof.
  intros D ALL K L. pose proof (edge_keys_from _ _ K) as KF.
  assert (forall k p, In (k, p) l -> Ok (Some p) = Ok (if String.eqb (source_key desc) "threatfox" then Some (ioc_value, "domain", snd k)
      else if String.eqb (source_key desc) "urlhaus" || String.eqb (source_key desc) "phishtank" then Some (host_ioc, "url", snd k) else None)) as F.
  { intros k p I. apply list_elem_of_In in I. destruct (lookup_from _ _ _ _ L _ _ I) as ([ty v] & J & E & _). destruct (KF _ _ J) as [J1 J2].
    pose proof (ALL _ J1) as T. cbn [fst snd] in *. subst ty. by rewrite <-(domain_lookup _ _ _ D J2). }
  destruct (String.eqb (source_key desc) "threatfox"); [right; intros k p I; specialize (F k p I); congruence|].
  left. intros k p I. specialize (F k p I). destruct (_ || _); [congruence|]. apply ok_inj in F. done.
Qed.

(** C15 [suppression_is_filter]: for a batch of domains, suppressing hosts removes from
    the evidence exactly the URL rows of those hosts: every exact match of a suppressed
    domain survives, and so does all evidence of the other domains. *)
Theorem suppression_is_filter table iocs sup hits : (forall i, i ∈ iocs -> fst i = "DOMAIN") ->
  (forall row, In row table -> strip (m_host_ioc row) = m_host_ioc row) ->
  batch_source_evidence ioc_value_digest table iocs [] = Ok hits ->
  batch_source_evidence ioc_value_digest table iocs sup = Ok (List.filter (keeps sup) hits).
Proof.
  intros ALL T. unfold batch_source_evidence. destruct (edge_keys iocs) as [keys|] eqn:K; [|done]. cbn [res_bind].
  assert (forall srcs acc, (forall d, In d srcs -> d ∈ CATALOG_SOURCES) -> forall r,
    fold_left (fun acc desc => let! hits := acc in let! lookup := lookup_of desc [] keys in
      Ok (hits ++ source_hits ioc_value_digest desc lookup table)%list) srcs (Ok acc) = Ok r ->
    fold_left (fun acc desc => let! hits := acc in let! lookup := lookup_of desc sup keys in
      Ok (hits ++ source_hits ioc_value_digest desc lookup table)%list) srcs (Ok (List.filter (keeps sup) acc)) = Ok (List.filter (keeps sup) r)) as G.
  { induction srcs as [|d srcs IH]; intros acc S r H; [by apply ok_inj in H as <-|]. cbn [fold_left res_bind] in H |- *. rewrite lookup_filter.
    destruct (lookup_of d [] keys) as [l|] eqn:L; cbn [res_bind] in H |- *.
    - assert (source_hits ioc_value_digest d (List.filter (unsuppressed sup) l) table = List.filter (keeps sup) (source_hits ioc_value_digest d l table)) as ->.
      { destruct (lookup_shape d keys l iocs (S d (or_introl eq_refl)) ALL K L); [by apply host_hits|by apply value_hits]. }
      rewrite <-List.filter_app. apply IH; [|exact H]. intros d' I. apply S. by right.
    - exfalso. clear -H. induction srcs as [|d' srcs IH]; [done|]. by apply IH. }
  intros H. apply (G CATALOG_SOURCES []); [|exact H]. intros d I. by apply list_elem_of_In.
Qed.

End suppression.

(** ** URLs whose path has capitals *)

Definition capital_url : string := "http://evil.example/Login".
Definition url_row (digest : string) : mirror_row :=
  mkMirror "urlhaus" "7" "url" capital_url digest "hxxp://evil.example/Login" "evil.example" "" "malware_download" 100 "2026-07-01" "2026-07-02 00:00:00".

(** [url_hit_needs_its_domain]: the digest stored for a URL is that of the URL as
    normalised, with its capitals; the lookup digests the URL in lower case.  So the
    catalogue's row of such a URL is not found for the same URL, unless the batch also
    holds the domain of its host, whose clause fetches the row: then both edges get it. *)
Theorem url_hit_needs_its_domain ioc_value_digest :
  ioc_value_digest capital_url <> ioc_value_digest (lower capital_url) -> ioc_value_digest capital_url <> "" ->
  let row := url_row (ioc_value_digest capital_url) in
  ioc_edge_key "URL" capital_url = Ok (Some ("URL", lower capital_url)) /\
  batch_source_evidence ioc_value_digest [row] [("URL", capital_url)] [] = Ok [] /\
  batch_source_evidence ioc_value_digest [row] [("URL", capital_url); ("DOMAIN", "evil.example")] [] =
    Ok [(("URL", lower capital_url), row); (("DOMAIN", "evil.example"), row)].
Proof.
  intros N E. cbv zeta. split; [vm_compute; reflexivity|].
  set (row := url_row _).
  assert (clause ioc_value_digest (ioc_value, "url", lower capital_url) row = false) as C.
  { unfold clause. cbn [m_ioc_type m_digest row url_row]. apply String.eqb_neq in N, E. by rewrite N, E. }
  assert (clause ioc_value_digest (host_ioc, "url", "evil.example") row = true) as H by reflexivity.
  assert (candidates row = [(host_ioc, "url", "evil.example"); (ioc_value, "url", lower capital_url)]) as CA by (vm_compute; reflexivity).
  assert (forall desc lookup, source_hits ioc_value_digest desc lookup [row] =
    if String.eqb "urlhaus" (source_key desc) && existsb (fun kp => clause ioc_value_digest (snd kp) row) lookup
    then map (fun k => (k, row)) (matched_keys lookup row) else []) as S.
  { intros desc lookup. unfold source_hits. cbn [List.filter]. change (m_source row) with "urlhaus". destruct (_ && _); [cbn [flat_map]; by rewrite app_nil_r|done]. }
  assert (forall l, existsb (fun kp => clause ioc_value_digest (snd kp) row) ((("URL", lower capital_url), (ioc_value, "url", lower capital_url)) :: l) =
    existsb (fun kp => clause ioc_value_digest (snd kp) row) l) as X by (intros l; cbn [existsb snd]; by rewrite C).
  assert (forall l, existsb (fun kp => clause ioc_value_digest (snd kp) row) ((("DOMAIN", "evil.example"), (host_ioc, "url", "evil.example")) :: l) = true) as Y
    by (intros l; cbn [existsb snd]; by rewrite H).
  unfold batch_source_evidence. split.
  - replace (edge_keys [("URL", capital_url)]) with (Ok [(("URL", lower capital_url), ("URL", capital_url))]) by (vm_compute; reflexivity).
    set (u := [_]). cbn [res_bind]. unfold CATALOG_SOURCES. cbn [fold_left].
    repeat match goal with |- context [lookup_of ?d [] u] => let l := eval vm_compute in (lookup_of d [] u) in change (lookup_of d [] u) with l end.
    cbn [res_bind]. rewrite !S. cbn [source_key String.eqb Ascii.eqb Bool.eqb andb]. change "http://evil.example/login" with (lower capital_url).
    rewrite X. reflexivity.
  - replace (edge_keys [("URL", capital_url); ("DOMAIN", "evil.example")]) with
      (Ok [(("URL", lower capital_url), ("URL", capital_url)); (("DOMAIN", "evil.example"), ("DOMAIN", "evil.example"))]) by (vm_compute; reflexivity).
    set (u := [_; _]). cbn [res_bind]. unfold CATALOG_SOURCES. cbn [fold_left].
    repeat match goal with |- context [lookup_of ?d [] u] => let l := eval vm_compute in (lookup_of d [] u) in change (lookup_of d [] u) with l end.
    cbn [res_bind]. rewrite !S. cbn [source_key String.eqb Ascii.eqb Bool.eqb andb]. change "http://evil.example/login" with (lower capital_url).
    rewrite X, Y. unfold matched_keys. rewrite CA. vm_compute. reflexivity.
Qed.

(** A digest that tells texts apart. *)
Definition demo_digest (s : string) : string := "d" +:+ s.

Lemma url_hit_needs_its_domain_witness : batch_source_evidence demo_digest [url_row (demo_digest capital_url)] [("URL", capital_url)] [] = Ok [].
Proof. apply (url_hit_needs_its_domain demo_digest); vm_compute; discriminate. Defined.

Lemma suppression_is_filter_witness :
  let table := [url_row "d7"; mkMirror "threatfox" "1" "domain" "evil.example" (demo_digest "evil.example") "evil.example" "" "" "" 50 "" ""] in
  exists hits, batch_source_evidence demo_digest table [("DOMAIN", "www.evil.example")] [] = Ok hits /\ length hits = 2%nat /\
    batch_source_evidence demo_digest table [("DOMAIN", "www.evil.example")] ["evil.example"] = Ok (List.filter (keeps ["evil.example"]) hits).
Proof.
  cbv zeta. set (table := [_; _]). eexists. split; [vm_compute; reflexivity|]. split; [reflexivity|].
  apply (suppression_is_filter demo_digest table).
  - intros i H. by apply list_elem_of_singleton in H as ->.
  - intros row [<-|[<-|[]]]; reflexivity.
  - vm_compute. reflexivity.
Defined.
