(* ===== verification/Blocklist.v ===== *)
(** * Blocklist: the export of malicious domains (blocklist/classify.py, build.py)

    Candidates come from the mirrored catalogues and from the indicators of pulses;
    infrastructure classifications keep shared hosts out of the domain list.  The rows
    of the three queries of db/blocklist.py are the arguments: [table] is the mirror,
    of which [fetch_catalog_evidence] selects and orders some rows.  Absent texts are
    [""].  Texts that only describe the export are left out of [meta]. *)

From S2P Require Import Prelude PyStr DecText Float64 PyVal Ioc Campaigns Confidence SourceEvidence.
Open Scope string_scope.
Open Scope Z_scope.

(** ** classify.py *)

Definition LEGITIMATE_DOMAIN : string := "LEGITIMATE_DOMAIN".
Definition SHARED_LEGITIMATE_INFRASTRUCTURE : string := "SHARED_LEGITIMATE_INFRASTRUCTURE".
Definition TRUSTED_SERVICE : string := "TRUSTED_SERVICE".
Definition UNKNOWN : string := "UNKNOWN".

Definition EXCLUSION_CLASSIFICATIONS : list string := [LEGITIMATE_DOMAIN; SHARED_LEGITIMATE_INFRASTRUCTURE; TRUSTED_SERVICE].

(** A row of infra_classifications. *)
Record infra_row := mkInfraRow { i_host : string; i_classification : string; i_enabled : Z; i_reason : string; i_notes : string }.

Record classified := mkClassified { c_host : string; classification : string; enabled : Z; c_reason : string; c_notes : string }.

Definition canonical_host (value : string) : string := _normalize_domain value.

(** The dict from canonical host to row: a later row replaces an earlier one. *)
Definition _index_classifications (rows : list infra_row) : list (string * infra_row) :=
  fold_left (fun index row => let host := canonical_host (i_host row) in if nonempty host then dset index host row else index) rows [].

Definition unknown_host (canon : string) : classified := mkClassified canon UNKNOWN 0 "" "".

Definition classify_host (host : string) (index : list (string * infra_row)) : classified :=
  let canon := canonical_host host in
  if negb (nonempty canon) then unknown_host canon
  else match assoc canon index with
       | None => unknown_host canon
       | Some row =>
           let c := if nonempty (i_classification row) then i_classification row else UNKNOWN in
           let c := if one_in [LEGITIMATE_DOMAIN; SHARED_LEGITIMATE_INFRASTRUCTURE; TRUSTED_SERVICE; UNKNOWN] c then c else UNKNOWN in
           mkClassified canon c (i_enabled row) (i_reason row) (i_notes row)
       end.

Definition is_excluded_from_export (c : classified) : bool :=
  if enabled c =? 0 then false else one_in EXCLUSION_CLASSIFICATIONS (classification c).

Definition is_excluded_from_domain_export (c : classified) : bool := is_excluded_from_export c.

(** [(eligible_domain, eligible_url)] *)
Definition export_eligibility (base_eligible : bool) (c : classified) (ioc_type : string) : bool * bool :=
  if negb base_eligible then (false, false)
  else if is_excluded_from_domain_export c && String.eqb ioc_type "url" then (false, true)
  else if is_excluded_from_domain_export c then (false, false)
  else (true, String.eqb ioc_type "url").

(** ** Evidence *)

(** A row of otx_pulse_iocs. *)
Record otx_row := mkOtx {
  o_pulse_id : string; o_ioc_type : string; o_ioc_value : string; o_raw_ioc : string; o_host_ioc : string;
  o_description : string; o_fetched_at : string; o_observed_at : string
}.

Record evidence := mkEvidence {
  source : string; ref_id : string; e_ioc_type : string; e_ioc_value : string; raw_ioc : string; e_host_ioc : string;
  malware : string; threat_type : string; confidence_level : Z; first_seen : string; fetched_at : string;
  pulse_id : string; e_description : string
}.

(** [_evidence_row] of a mirror row and of a pulse row. *)
Definition mirror_evidence (r : mirror_row) : evidence :=
  mkEvidence (m_source r) (m_ref_id r) (m_ioc_type r) (m_ioc_value r) (m_raw_ioc r) (m_host_ioc r) (m_malware r) (m_threat_type r)
    (m_confidence_level r) (m_first_seen r) (m_fetched_at r) "" "".
Definition otx_evidence (r : otx_row) : evidence :=
  mkEvidence (if nonempty (o_pulse_id r) then "otx" else "") "" (o_ioc_type r) (o_ioc_value r) (o_raw_ioc r) (o_host_ioc r) "" ""
    0 (o_observed_at r) (o_fetched_at r) (o_pulse_id r) (o_description r).

Definition or_url_host (host value : string) : res string :=
  let host := strip host in if nonempty host then Ok host else _url_host value.

Definition _candidate_domain_for_row (r : mirror_row) : res string :=
  if String.eqb (lower (strip (m_ioc_type r))) "url" then let! host := or_url_host (m_host_ioc r) (m_ioc_value r) in Ok (canonical_host host)
  else Ok (canonical_host (m_ioc_value r)).

Definition _otx_domain_for_row (r : otx_row) : res string :=
  if String.eqb (normalize_ioc_type (o_ioc_type r)) "URL" then let! host := or_url_host (o_host_ioc r) (o_ioc_value r) in Ok (canonical_host host)
  else Ok (canonical_host (o_ioc_value r)).

Definition _ioc_type_for (ioc_type raw_ioc : string) : string :=
  if String.eqb (lower (strip ioc_type)) "url" || str_in "://" raw_ioc then "url" else "domain".

(** [sorted(l, key=key)] where the key is a tuple of texts: stable. *)
Fixpoint key_lt (a b : list string) : bool :=
  match a, b with
  | x :: a, y :: b => if String.eqb x y then key_lt a b else String.ltb x y
  | [], _ :: _ => true
  | _, [] => false
  end.
Fixpoint insert_by {A} (key : A -> list string) (x : A) (l : list A) : list A :=
  match l with [] => [x] | y :: t => if key_lt (key y) (key x) then y :: insert_by key x t else x :: l end.
Definition sorted_by {A} (key : A -> list string) (l : list A) : list A := fold_right (insert_by key) [] l.

Definition _evidence_sort_key (e : evidence) : list string := [source e; ref_id e; pulse_id e; first_seen e; fetched_at e].
Definition _sorted_evidence (l : list evidence) : list evidence := sorted_by _evidence_sort_key l.

Definition str_min (a b : string) : string := if String.ltb b a then b else a.
Definition str_max (a b : string) : string := if String.ltb a b then b else a.

(** [min(l or \[d\])] and [max(l or \[d\])] *)
Definition min_or (l : list string) (d : string) : string := match l with [] => d | x :: t => fold_left str_min t x end.
Definition max_or (l : list string) (d : string) : string := match l with [] => d | x :: t => fold_left str_max t x end.

Definition _earliest_observed_at (l : list evidence) : string :=
  min_or (List.filter nonempty (map first_seen (_sorted_evidence l))) "".

Definition first_nonempty (a b : string) : string := if nonempty (strip a) then strip a else strip b.

Definition _candidate_ioc (l : list evidence) : string * string :=
  let sorted_evidence := sorted_by (fun e => [e_ioc_type e; source e; ref_id e; raw_ioc e]) l in
  match sorted_evidence with
  | [] => ("domain", "")
  | primary :: _ =>
      match List.find (fun e => String.eqb (_ioc_type_for (e_ioc_type e) (raw_ioc e)) "url") sorted_evidence with
      | Some u => ("url", first_nonempty (raw_ioc u) (e_ioc_value u))
      | None => ("domain", first_nonempty (raw_ioc primary) (e_ioc_value primary))
      end
  end.

(** Distinct values in the order of their first occurrence. *)
Definition add_new (seen : list string) (s : string) : list string := if nonempty s && negb (one_in seen s) then seen ++ [s] else seen.

Definition _catalog_receipts (rows : list mirror_row) : list string :=
  fold_left (fun receipts row => add_new receipts (corroboration_receipt (m_source row) (m_ref_id row))) rows [].

Definition _upstream_confidence (levels : list Z) : Z := match levels with [] => 0 | x :: t => fold_left Z.max t x end.

Definition _upstream_level (level : Z) : string := if 80 <=? level then "high" else if 50 <=? level then "medium" else "low".

(** ** Candidates *)

Record record := mkRecord {
  r_domain : string; r_ioc_type : string; exact_ioc : string; eligible : bool; eligible_domain : bool; eligible_url : bool;
  reason : string; r_classification : string; classification_enabled : bool; sources : list string;
  corroborating_sources : list string; otx_corroborated : bool; r_evidence : list evidence; r_confidence_level : Z;
  confidence : string; confidence_factors : list factor; r_malware : list string; r_threat_type : list string;
  r_first_seen : string; r_fetched_at : string
}.

(** A dict of lists keyed by domain: [d.setdefault(k, \[\]).append(v)]. *)
Fixpoint dappend {A} (d : list (string * list A)) (k : string) (v : A) : list (string * list A) :=
  match d with
  | [] => [(k, [v])]
  | (k', l) :: t => if String.eqb k' k then (k', l ++ [v])%list :: t else (k', l) :: dappend t k v
  end.

Definition group {A} (domain_of : A -> res string) (row_of : A -> evidence) (rows : list A) : res (list (string * list evidence)) :=
  fold_left (fun acc row => let! d := acc in let! domain := domain_of row in
                            Ok (if nonempty domain && str_in "." domain then dappend d domain (row_of row) else d)) rows (Ok []).

Definition evidence_at (d : list (string * list evidence)) (domain : string) : list evidence :=
  match assoc domain d with Some l => l | None => [] end.

Definition catalog_selected (r : mirror_row) : bool :=
  one_in ["threatfox"; "urlhaus"; "phishtank"] (m_source r) && one_in ["domain"; "url"] (m_ioc_type r).
Definition catalog_order (r : mirror_row) : list string :=
  [m_source r; m_ref_id r; m_ioc_type r; m_ioc_value r; m_first_seen r; m_fetched_at r].
Definition fetch_catalog_evidence (table : list mirror_row) : list mirror_row := sorted_by catalog_order (List.filter catalog_selected table).

Definition otx_selected (r : otx_row) : bool := one_in ["DOMAIN"; "HOSTNAME"; "URL"] (upper (o_ioc_type r)).
Definition otx_order (r : otx_row) : list string := [o_pulse_id r; o_ioc_type r; o_ioc_value r; o_observed_at r; o_fetched_at r].
Definition fetch_otx_candidates (pulses : list otx_row) : list otx_row := sorted_by otx_order (List.filter otx_selected pulses).

Definition distinct_of (f : evidence -> string) (l : list evidence) : list string := sorted_distinct (List.filter nonempty (map f l)).

(** The sources named by the receipts. *)
Definition sources_of (receipts : list string) : list string := sorted_distinct (omap (fun r => option_map fst (split_once ":" r)) receipts).

Section build.
Context {lib : MathLib} (ioc_value_digest : string -> string) (env : string -> option string).

(** The clock of the confidence rules and the time stamp of the export. *)
Variable now : Z.
Variable generated_at : string.

Definition edge_confidence (receipts : list string) (otx_ev : list evidence) (fetched : string) : res progress :=
  confidence_for_ioc_edge env "DOMAIN" (mkConfirmations None false false) false 0
    (Some (_earliest_observed_at otx_ev)) (Some fetched) now receipts.

(** One candidate domain: [inl] for the list, [inr] for the exclusions. *)
Definition candidate (index : list (string * infra_row)) (hits : list (SourceEvidence.edge_key * mirror_row))
    (catalog_by_domain otx_by_domain : list (string * list evidence)) (domain : string) : res (record + record) :=
  let catalog_ev := evidence_at catalog_by_domain domain in
  let otx_ev := evidence_at otx_by_domain domain in
  let c := classify_host domain index in
  let ev := _sorted_evidence (catalog_ev ++ otx_ev) in
  let srcs := distinct_of source ev in
  let malwares := distinct_of malware ev in
  let threats := distinct_of threat_type ev in
  let first := min_or (List.filter nonempty (map first_seen ev)) generated_at in
  let fetched := max_or (List.filter nonempty (map fetched_at ev)) generated_at in
  let '(ty, exact) := _candidate_ioc ev in
  let upstream := _upstream_confidence (map confidence_level catalog_ev) in
  let rec_of := fun (elig : bool) (urls : bool * bool) why corr_sources corroborated level conf factors =>
    mkRecord domain ty exact elig (fst urls) (snd urls) why (classification c) (negb (enabled c =? 0)) srcs corr_sources corroborated
      ev level conf factors malwares threats first fetched in
  if is_excluded_from_domain_export c && negb (String.eqb ty "url") then
    Ok (inr (rec_of false (false, false) ("Infrastructure classification: " +:+ classification c) [] false upstream (_upstream_level upstream) []))
  else
    let corroborating_rows := hits_of hits ("DOMAIN", lower domain) in
    let receipts := _catalog_receipts corroborating_rows in
    let corr_sources := sources_of receipts in
    let corroborated := nonempty_list corroborating_rows in
    if nonempty_list catalog_ev then
      let! st := (if nonempty_list otx_ev && corroborated then edge_confidence receipts otx_ev fetched else Ok (_upstream_level upstream, None, [])) in
      Ok (inl (rec_of true (export_eligibility true c ty) "Catalog source evidence (ThreatFox/URLhaus/PhishTank)"
                 (if nonempty_list otx_ev then corr_sources else []) corroborated upstream (level_of st) (snd st)))
    else if negb corroborated then
      Ok (inr (rec_of false (export_eligibility false c ty) "OTX-only candidate without catalog corroboration" [] false 0 "low" []))
    else
      let! st := edge_confidence receipts otx_ev fetched in
      if _level_index (level_of st) <? _level_index "medium" then
        Ok (inr (rec_of false (export_eligibility false c ty) ("OTX-only candidate below BRIEFR medium confidence (" +:+ level_of st +:+ ")")
                   corr_sources true upstream (level_of st) (snd st)))
      else
        Ok (inl (rec_of true (export_eligibility true c ty) "Catalog corroboration of OTX candidate" corr_sources true
                   (_upstream_confidence (map m_confidence_level corroborating_rows)) (level_of st) (snd st))).

Record payload := mkPayload {
  p_generated_at : string; candidate_count : Z; eligible_count : Z; eligible_domain_count : Z; eligible_url_count : Z;
  excluded_count : Z; domains : list record; excluded : list record
}.

Definition count_by {A} (f : A -> bool) (l : list A) : Z := Z.of_nat (length (List.filter f l)).

Definition excluded_hosts (infra_rows : list infra_row) : list string :=
  map (fun r => canonical_host (i_host r))
    (List.filter (fun r => nonempty (canonical_host (i_host r)) && negb (i_enabled r =? 0) && one_in EXCLUSION_CLASSIFICATIONS (i_classification r)) infra_rows).

Definition build_blocklist (infra_rows : list infra_row) (table : list mirror_row) (pulses : list otx_row) : res payload :=
  let index := _index_classifications infra_rows in
  let! catalog_by_domain := group _candidate_domain_for_row mirror_evidence (fetch_catalog_evidence table) in
  let! otx_by_domain := group _otx_domain_for_row otx_evidence (fetch_otx_candidates pulses) in
  let otx_domain_edges := map (fun d => ("DOMAIN", d)) (sorted (map fst otx_by_domain)) in
  let! hits := batch_source_evidence ioc_value_digest table otx_domain_edges (excluded_hosts infra_rows) in
  let all_candidate_domains := sorted_distinct (map fst catalog_by_domain ++ map fst otx_by_domain) in
  let! verdicts := map_res (candidate index hits catalog_by_domain otx_by_domain) all_candidate_domains in
  let listed := sorted_by (fun r => [r_domain r]) (omap (fun v => match v with inl r => Some r | inr _ => None end) verdicts) in
  let left_out := sorted_by (fun r => [r_domain r]) (omap (fun v => match v with inr r => Some r | inl _ => None end) verdicts) in
  Ok (mkPayload generated_at (Z.of_nat (length all_candidate_domains)) (Z.of_nat (length listed)) (count_by eligible_domain listed)
        (count_by eligible_url listed) (Z.of_nat (length left_out)) listed left_out).

End build.

(** ** Hosts in lower case *)

Lemma lower_strip s : lower (strip s) = strip (lower s).
Proof. apply smap_strip. exact is_space_lower. Qed.

(** A name that is already canonical is the canonical host of every text that shows it. *)
Lemma canonical_of_shown x d : lower (strip x) = d -> _normalize_domain d = d -> canonical_host x = d.
Proof.
  intros <-. unfold canonical_host, _normalize_domain. rewrite <-lower_strip, strip_idemp, lower_idemp. done.
Qed.

Lemma canonical_strip x d : lower (strip x) = d -> _normalize_domain d = d -> canonical_host (strip x) = d.
Proof. intros E N. apply canonical_of_shown; [by rewrite strip_idemp|done]. Qed.

(** ** Grouping by domain *)

Lemma dappend_at {A} (d : list (string * list A)) k v k' : assoc k' (dappend d k v) =
  if String.eqb k k' then Some (match assoc k d with Some l => l | None => [] end ++ [v])%list else assoc k' d.
Proof.
  induction d as [|[q l] d IH]; cbn; [by destruct (String.eqb k k')|]. destruct (String.eqb_spec q k) as [->|N]; cbn.
  - by destruct (String.eqb_spec k k').
  - destruct (String.eqb_spec q k') as [->|N']; [|exact IH]. destruct (String.eqb_spec k k'); [congruence|done].
Qed.

Lemma dappend_keys {A} (d : list (string * list A)) k v k' : k' ∈ map fst (dappend d k v) <-> k' = k \/ k' ∈ map fst d.
Proof.
  induction d as [|[q l] d IH]; cbn; [rewrite list_elem_of_singleton; set_solver|]. destruct (String.eqb_spec q k) as [->|N]; cbn; rewrite !elem_of_cons; [tauto|].
  rewrite IH. tauto.
Qed.

Definition grouped {A} (domain_of : A -> res string) (row : A) (domain : string) : Prop :=
  domain_of row = Ok domain /\ nonempty domain && str_in "." domain = true.

Lemma group_spec {A} (domain_of : A -> res string) (row_of : A -> evidence) rows d : group domain_of row_of rows = Ok d ->
  (forall domain e, e ∈ evidence_at d domain <-> exists row, row ∈ rows /\ grouped domain_of row domain /\ e = row_of row) /\
  (forall domain, domain ∈ map fst d <-> exists row, row ∈ rows /\ grouped domain_of row domain).
Proof.
  unfold group. intros H.
  set (P := fun (seen : list A) (d : list (string * list evidence)) =>
    (forall domain e, e ∈ evidence_at d domain <-> exists row, row ∈ seen /\ grouped domain_of row domain /\ e = row_of row) /\
    (forall domain, domain ∈ map fst d <-> exists row, row ∈ seen /\ grouped domain_of row domain)).
  change (P rows d). assert (forall l seen acc, fold_left (fun acc row => let! d := acc in let! domain := domain_of row in
      Ok (if nonempty domain && str_in "." domain then dappend d domain (row_of row) else d)) l acc = Ok d ->
    (forall a, acc = Ok a -> P seen a) -> P (seen ++ l)%list d) as G.
  { clear H. induction l as [|row l IH]; intros seen acc H S; cbn [fold_left] in H; [rewrite app_nil_r; by apply S|].
    change (row :: l) with ([row] ++ l)%list. rewrite app_assoc. eapply IH; [exact H|]. intros a E. destruct acc as [a0|]; [|done]. cbn [res_bind] in E.
    destruct (domain_of row) as [dom|] eqn:D; [|done]. cbn [res_bind] in E. apply ok_inj in E as <-. destruct (S a0 eq_refl) as [S1 S2]. split.
    - intros domain e. unfold evidence_at. destruct (nonempty dom && str_in "." dom) eqn:OK.
      + rewrite dappend_at. destruct (String.eqb_spec dom domain) as [->|N].
        * rewrite elem_of_app, list_elem_of_singleton. fold (evidence_at a0 domain). rewrite S1. split.
          -- intros [(r & R & X)| ->]; [exists r; split; [apply elem_of_app; by left|done]|]. exists row. split; [apply elem_of_app; right; by left|]. by split.
          -- intros (r & R & X & ->). apply elem_of_app in R as [R|R]; [left; by exists r|]. apply list_elem_of_singleton in R as ->. by right.
        * fold (evidence_at a0 domain). rewrite S1. split; intros (r & R & X & ->); exists r; (split; [|done]).
          -- apply elem_of_app. by left.
          -- apply elem_of_app in R as [R|R]; [done|]. apply list_elem_of_singleton in R as ->. destruct X as [X _]. congruence.
      + fold (evidence_at a0 domain). rewrite S1. split; intros (r & R & X & ->); exists r; (split; [|done]).
        * apply elem_of_app. by left.
        * apply elem_of_app in R as [R|R]; [done|]. apply list_elem_of_singleton in R as ->. destruct X as [X X']. congruence.
    - intros domain. destruct (nonempty dom && str_in "." dom) eqn:OK.
      + rewrite dappend_keys, S2. split.
        * intros [->|(r & R & X)]; [exists row; split; [apply elem_of_app; right; by left|by split]|exists r; split; [apply elem_of_app; by left|done]].
        * intros (r & R & X). apply elem_of_app in R as [R|R]; [right; by exists r|]. apply list_elem_of_singleton in R as ->. destruct X as [X _]. left. congruence.
      + rewrite S2. split; intros (r & R & X); exists r; (split; [|done]).
        * apply elem_of_app. by left.
        * apply elem_of_app in R as [R|R]; [done|]. apply list_elem_of_singleton in R as ->. destruct X as [X X']. congruence. }
  apply (G rows [] (Ok [])); [exact H|]. intros a E. apply ok_inj in E as <-. split.
  - intros domain e. split; [intros I; by apply not_elem_of_nil in I|]. intros (r & R & _). by apply not_elem_of_nil in R.
  - intros domain. split; [intros I; by apply not_elem_of_nil in I|]. intros (r & R & _). by apply not_elem_of_nil in R.
Qed.

(** ** Sorting *)

Lemma insert_by_perm {A} (key : A -> list string) x l : insert_by key x l ≡ₚ x :: l.
Proof. induction l as [|y l IH]; [done|]. cbn. destruct (key_lt _ _); [|done]. rewrite IH. apply perm_swap. Qed.

Lemma sorted_by_perm {A} (key : A -> list string) l : sorted_by key l ≡ₚ l.
Proof. induction l as [|x l IH]; [done|]. cbn. by rewrite insert_by_perm, IH. Qed.

Lemma sorted_by_in {A} (key : A -> list string) l x : x ∈ sorted_by key l <-> x ∈ l.
Proof. by rewrite sorted_by_perm. Qed.

Lemma sorted_distinct_spec l : NoDup (sorted_distinct l) /\ forall x, x ∈ sorted_distinct l <-> x ∈ l.
Proof.
  unfold sorted_distinct. split.
  - rewrite sorted_perm. apply NoDup_remove_dups.
  - intros x. rewrite sorted_perm. apply elem_of_remove_dups.
Qed.



(** ** One candidate *)

Section facts.
Context {lib : MathLib} (ioc_value_digest : string -> string) (env : string -> option string).
Variable now : Z.
Variable generated_at : string.

Definition verdict_record (v : record + record) : record := match v with inl r => r | inr r => r end.

(** What a verdict says of its domain. *)
Lemma candidate_spec index hits catalog otx domain v : candidate env now generated_at index hits catalog otx domain = Ok v ->
  let c := classify_host domain index in
  r_domain (verdict_record v) = domain /\ eligible (verdict_record v) = (match v with inl _ => true | _ => false end) /\
  (eligible_domain (verdict_record v), eligible_url (verdict_record v)) = export_eligibility (eligible (verdict_record v)) c (r_ioc_type (verdict_record v)) /\
  (forall r, v = inl r -> evidence_at catalog domain <> [] /\ reason r = "Catalog source evidence (ThreatFox/URLhaus/PhishTank)" \/
                          evidence_at catalog domain = [] /\ hits_of hits ("DOMAIN", lower domain) <> []).
Proof.
  unfold candidate. cbv zeta. set (ev := _sorted_evidence _). destruct (_candidate_ioc ev) as [ty exact]. set (c := classify_host domain index).
  set (catalog_ev := evidence_at catalog domain). set (rows := hits_of hits ("DOMAIN", lower domain)).
  destruct (is_excluded_from_domain_export c && negb (String.eqb ty "url")) eqn:X.
  { intros E. apply ok_inj in E as <-. cbn [verdict_record r_domain eligible eligible_domain eligible_url r_ioc_type fst snd]. done. }
  assert (forall l : list evidence, nonempty_list l = true -> l <> []) as NE by (by intros []).
  destruct (nonempty_list catalog_ev) eqn:C.
  - destruct (if nonempty_list (evidence_at otx domain) && nonempty_list rows then _ else _) as [st|]; [|done]. cbn [res_bind]. intros E.
    apply ok_inj in E as <-. cbn [verdict_record r_domain eligible eligible_domain eligible_url r_ioc_type fst snd]. split; [done|]. split; [done|].
    split; [by destruct (export_eligibility _ _ _)|]. intros r R. injection R as <-. left. split; [by apply NE|done].
  - destruct (nonempty_list rows) eqn:R; cbn [negb].
    + destruct (edge_confidence _ _ _ _ _) as [st|]; [|done]. cbn [res_bind]. destruct (_level_index (level_of st) <? _); intros E; apply ok_inj in E as <-;
        cbn [verdict_record r_domain eligible eligible_domain eligible_url r_ioc_type fst snd]; (split; [done|]; split; [done|]; split; [by destruct (export_eligibility _ _ _)|]);
        intros r E; [discriminate E|]. right. split; [by destruct catalog_ev|]. by destruct rows.
    + intros E. apply ok_inj in E as <-. cbn [verdict_record r_domain eligible eligible_domain eligible_url r_ioc_type fst snd]. done.
Qed.

(** The parts of a build that succeeds. *)
Lemma build_steps infra table pulses p : build_blocklist ioc_value_digest env now generated_at infra table pulses = Ok p ->
  exists catalog otx hits verdicts,
    group _candidate_domain_for_row mirror_evidence (fetch_catalog_evidence table) = Ok catalog /\
    group _otx_domain_for_row otx_evidence (fetch_otx_candidates pulses) = Ok otx /\
    batch_source_evidence ioc_value_digest table (map (fun d => ("DOMAIN", d)) (sorted (map fst otx))) (excluded_hosts infra) = Ok hits /\
    let all := sorted_distinct (map fst catalog ++ map fst otx) in
    Forall2 (fun d v => candidate env now generated_at (_index_classifications infra) hits catalog otx d = Ok v) all verdicts /\
    domains p ≡ₚ omap (fun v => match v with inl r => Some r | inr _ => None end) verdicts /\
    excluded p ≡ₚ omap (fun v => match v with inr r => Some r | inl _ => None end) verdicts /\
    candidate_count p = Z.of_nat (length all) /\ eligible_count p = Z.of_nat (length (domains p)) /\ excluded_count p = Z.of_nat (length (excluded p)).
Proof.
  unfold build_blocklist. cbv zeta. destruct (group _candidate_domain_for_row _ _) as [catalog|] eqn:C; [|done]. cbn [res_bind].
  destruct (group _otx_domain_for_row _ _) as [otx|] eqn:O; [|done]. cbn [res_bind].
  destruct (batch_source_evidence _ _ _ _) as [hits|] eqn:H; [|done]. cbn [res_bind].
  destruct (map_res _ _) as [vs|] eqn:M; [|done]. cbn [res_bind]. intros E. apply ok_inj in E as <-. exists catalog, otx, hits, vs.
  split_and!; try done; [by apply map_res_Forall2 in M|apply sorted_by_perm..].
Qed.

Lemma listed_verdict {p verdicts} r : domains p ≡ₚ omap (fun v : record + record => match v with inl r => Some r | inr _ => None end) verdicts -> r ∈ domains p -> inl r ∈ verdicts.
Proof. intros P. rewrite P, list_elem_of_omap. intros ([r'|r'] & I & E); [by injection E as <-|done]. Qed.

Lemma excluded_verdict {p verdicts} r : excluded p ≡ₚ omap (fun v : record + record => match v with inr r => Some r | inl _ => None end) verdicts -> r ∈ excluded p -> inr r ∈ verdicts.
Proof. intros P. rewrite P, list_elem_of_omap. intros ([r'|r'] & I & E); [done|by injection E as <-]. Qed.

End facts.

Lemma Forall2_elem_r {A B} (P : A -> B -> Prop) l k y : Forall2 P l k -> y ∈ k -> exists x, x ∈ l /\ P x y.
Proof.
  induction 1 as [|a b l k H F IH]; intros I; [by apply not_elem_of_nil in I|]. apply elem_of_cons in I as [->|I]; [exists a; split; [by left|done]|].
  destruct (IH I) as (x & X & Y). exists x. split; [by right|done].
Qed.

(** ** Theorems *)

Section theorems.
Context {lib : MathLib} (ioc_value_digest : string -> string) (env : string -> option string).
Variable now : Z.
Variable generated_at : string.

Lemma hits_of_in hits k : hits_of hits k <> [] -> exists row, (k, row) ∈ hits.
Proof.
  unfold hits_of. destruct (List.filter _ hits) as [|[k' row] l] eqn:F; [done|]. intros _. exists row.
  assert (In (k', row) (List.filter (fun h => key_eqb (fst h) k) hits)) as I by (rewrite F; by left).
  apply List.filter_In in I as [I E]. cbn [fst] in E. destruct (key_eqb_spec k' k) as [->|]; [|done]. by apply list_elem_of_In.
Qed.

(** A catalogue row that corroborates a canonical domain groups under it. *)
Lemma corroborating_row row d : (m_source row = "threatfox" /\ m_ioc_type row = "domain" /\ lower (strip (m_ioc_value row)) = d \/
    (m_source row = "urlhaus" \/ m_source row = "phishtank") /\ m_ioc_type row = "url" /\ nonempty (lower (strip (m_host_ioc row))) = true /\
    lower (strip (m_host_ioc row)) = d) -> _normalize_domain d = d -> catalog_selected row = true /\ _candidate_domain_for_row row = Ok d.
Proof.
  intros [(S & T & V)|(S & T & NE & V)] N; unfold catalog_selected, _candidate_domain_for_row; rewrite T.
  - rewrite S. split; [done|]. change (String.eqb (lower (strip "domain")) "url") with false. cbv iota. f_equal. by apply canonical_of_shown.
  - split; [by destruct S as [-> | ->]|]. change (String.eqb (lower (strip "url")) "url") with true. cbv iota. unfold or_url_host.
    rewrite nonempty_lower in NE. cbv zeta. rewrite NE. cbn [res_bind]. f_equal. by apply canonical_strip.
Qed.

(** C9 [catalog_backs_every_export]: every listed domain with a canonical name is the
    domain of a row of ThreatFox, URLhaus or PhishTank in the mirror, and is listed for
    that reason: a corroborating row of a domain seen in pulses is itself a catalogue
    row of that domain, so the rule that asks for medium confidence is never reached. *)
Theorem catalog_backs_every_export infra table pulses p r :
  build_blocklist ioc_value_digest env now generated_at infra table pulses = Ok p -> r ∈ domains p ->
  _normalize_domain (r_domain r) = r_domain r ->
  reason r = "Catalog source evidence (ThreatFox/URLhaus/PhishTank)" /\
  exists row, row ∈ table /\ catalog_selected row = true /\ _candidate_domain_for_row row = Ok (r_domain r).
Proof.
  intros B I N. destruct (build_steps _ _ _ _ _ _ _ _ B) as (catalog & otx & hits & vs & C & O & H & V & L & _).
  apply (listed_verdict r L) in I. destruct (Forall2_elem_r _ _ _ _ V I) as (d & D & E).
  destruct (candidate_spec _ _ _ _ _ _ _ _ _ E) as (RD & _ & _ & WHY). cbn [verdict_record] in RD. rewrite RD in *.
  destruct (group_spec _ _ _ _ C) as [CE CK]. destruct (group_spec _ _ _ _ O) as [OE OK].
  assert (forall row, row ∈ table -> catalog_selected row = true -> _candidate_domain_for_row row = Ok d -> nonempty d && str_in "." d = true -> evidence_at catalog d <> []) as FILL.
  { intros row R S G X Z. assert (mirror_evidence row ∈ evidence_at catalog d) as J; [|rewrite Z in J; by apply not_elem_of_nil in J].
    apply CE. exists row. split; [|done]. unfold fetch_catalog_evidence. apply sorted_by_in, list_elem_of_In, List.filter_In. split; [by apply list_elem_of_In|done]. }
  destruct (WHY r eq_refl) as [[NE ->]|[EMPTY HITS]].
  - split; [done|]. destruct (evidence_at catalog d) as [|e l] eqn:EV; [done|]. assert (e ∈ evidence_at catalog d) as J by (rewrite EV; by left).
    apply CE in J as (row & R & [G _] & _). exists row. unfold fetch_catalog_evidence in R. apply sorted_by_in, list_elem_of_In, List.filter_In in R as [R S].
    split; [by apply list_elem_of_In|done].
  - exfalso. apply hits_of_in in HITS as [row J].
    assert (d ∈ map fst catalog \/ d ∈ map fst otx) as K by (apply sorted_distinct_spec, elem_of_app in D; exact D).
    assert (nonempty d && str_in "." d = true) as X by (destruct K as [K|K]; [apply CK in K|apply OK in K]; by destruct K as (? & _ & _ & K)).
    assert (lower d = d) as LD by (rewrite <-N; apply low_id, domain_low). rewrite LD in J.
    assert (forall i, i ∈ map (fun d => ("DOMAIN", d)) (sorted (map fst otx)) -> fst i = "DOMAIN") as ALL by (intros i Hi; by apply list_elem_of_fmap in Hi as (? & -> & _)).
    destruct (domain_hit _ _ _ _ _ _ _ ALL H J) as [R W].
    destruct (corroborating_row row d) as [S G]; [destruct W as [W|(W1 & W2 & W3 & W4 & _)]; [by left|by right]|done|].
    by apply (FILL row R S G X).
Qed.

(** C16 [classified_hosts_stay_out]: every listed record is eligible, every excluded one
    is not, and no record of a host with an enabled exclusion is eligible as a domain,
    though it can be as a URL. *)
Theorem classified_hosts_stay_out infra table pulses p r :
  build_blocklist ioc_value_digest env now generated_at infra table pulses = Ok p -> r ∈ (domains p ++ excluded p)%list ->
  let c := classify_host (r_domain r) (_index_classifications infra) in
  (eligible r = true <-> r ∈ domains p) /\
  eligible_domain r = eligible r && negb (is_excluded_from_domain_export c) /\
  eligible_url r = eligible r && String.eqb (r_ioc_type r) "url".
Proof.
  intros B I. destruct (build_steps _ _ _ _ _ _ _ _ B) as (catalog & otx & hits & vs & _ & _ & _ & V & L & X & _). cbv zeta.
  assert (forall v, v ∈ vs -> verdict_record v = r -> eligible r = (match v with inl _ => true | _ => false end) /\
    (eligible_domain r, eligible_url r) = export_eligibility (eligible r) (classify_host (r_domain r) (_index_classifications infra)) (r_ioc_type r)) as S.
  { intros v J <-. destruct (Forall2_elem_r _ _ _ _ V J) as (d & _ & E). destruct (candidate_spec _ _ _ _ _ _ _ _ _ E) as (RD & EL & EE & _). by rewrite RD. }
  assert (eligible r = true <-> r ∈ domains p) as EL.
  { split; intros J.
    - apply elem_of_app in I as [I|I]; [done|]. apply (excluded_verdict r X) in I. destruct (S _ I eq_refl) as [F _]. congruence.
    - apply (listed_verdict r L) in J. by destruct (S _ J eq_refl). }
  split; [done|]. assert (exists v, v ∈ vs /\ verdict_record v = r) as (v & J & E).
  { apply elem_of_app in I as [I|I]; [apply (listed_verdict r L) in I; by exists (inl r)|apply (excluded_verdict r X) in I; by exists (inr r)]. }
  destruct (S v J E) as [_ F]. unfold export_eligibility in F. destruct (eligible r); cbn [negb andb] in F |- *; [|by injection F as -> ->].
  destruct (is_excluded_from_domain_export _), (String.eqb (r_ioc_type r) "url"); cbn in F; by injection F as -> ->.
Qed.

(** [every_candidate_once]: each candidate domain is either listed or excluded, once,
    and the counts of the export add up. *)
Theorem every_candidate_once infra table pulses p :
  build_blocklist ioc_value_digest env now generated_at infra table pulses = Ok p ->
  NoDup (map r_domain (domains p ++ excluded p)%list) /\
  candidate_count p = eligible_count p + excluded_count p /\ eligible_count p = Z.of_nat (length (domains p)) /\
  forall d, d ∈ map r_domain (domains p ++ excluded p)%list <->
    (exists row, row ∈ table /\ catalog_selected row = true /\ grouped _candidate_domain_for_row row d) \/
    (exists row, row ∈ pulses /\ otx_selected row = true /\ grouped _otx_domain_for_row row d).
Proof.
  intros B. destruct (build_steps _ _ _ _ _ _ _ _ B) as (catalog & otx & hits & vs & C & O & _ & V & L & X & N1 & N2 & N3).
  set (all := sorted_distinct _) in *.
  assert ((domains p ++ excluded p)%list ≡ₚ map verdict_record vs) as P.
  { rewrite L, X. clear. induction vs as [|[r|r] vs IH]; [done|..]; cbn.
    - constructor. exact IH.
    - rewrite <-Permutation_middle. constructor. exact IH. }
  assert (map r_domain (map verdict_record vs) = all) as D.
  { clear -V. induction V as [|d v ds vs E F IH]; [done|]. cbn. f_equal; [|exact IH]. by destruct (candidate_spec _ _ _ _ _ _ _ _ _ E) as (-> & _). }
  assert (map r_domain (domains p ++ excluded p)%list ≡ₚ all) as Q by (rewrite <-D; apply Permutation_map, P).
  destruct (sorted_distinct_spec (map fst catalog ++ map fst otx)) as [ND MEM]. fold all in ND, MEM.
  split; [by rewrite Q|]. split.
  { rewrite N1, N2, N3, <-D, length_map, length_map. rewrite <-(length_map verdict_record), <-(Permutation_length P), length_app. lia. }
  split; [done|]. intros d. rewrite Q, MEM, elem_of_app. destruct (group_spec _ _ _ _ C) as [_ CK]. destruct (group_spec _ _ _ _ O) as [_ OK].
  rewrite CK, OK. unfold fetch_catalog_evidence, fetch_otx_candidates.
  split; (intros [(row & R)|(row & R)]; [left|right]; exists row).
  - destruct R as [R G]. apply sorted_by_in, list_elem_of_In, List.filter_In in R as [R S]. split; [by apply list_elem_of_In|done].
  - destruct R as [R G]. apply sorted_by_in, list_elem_of_In, List.filter_In in R as [R S]. split; [by apply list_elem_of_In|done].
  - destruct R as (R & S & G). split; [|done]. apply sorted_by_in, list_elem_of_In, List.filter_In. split; [by apply list_elem_of_In|done].
  - destruct R as (R & S & G). split; [|done]. apply sorted_by_in, list_elem_of_In, List.filter_In. split; [by apply list_elem_of_In|done].
Qed.

End theorems.

(** ** A small mirror *)

Definition drive (ref path : string) : mirror_row :=
  mkMirror "urlhaus" ref "url" ("https://drive.google.com/" +:+ path) ref ("https://drive.google.com/" +:+ path) "drive.google.com" "" "malware_download" 100 "2026-07-01" "2026-07-02 00:00:00".
Definition demo_mirror : list mirror_row :=
  [drive "12" "b"; drive "11" "a";
   mkMirror "threatfox" "5" "domain" "evil.example" "d" "evil.example" "" "Lumma" "c2" 75 "2026-07-03" "2026-07-04 00:00:00"].
Definition demo_pulses : list otx_row :=
  [mkOtx "p1" "hostname" "WWW.Evil.example" "" "" "" "2026-07-05 00:00:00" "2026-07-01"; mkOtx "p2" "domain" "alone.example" "" "" "" "2026-07-05 00:00:00" ""].
Definition demo_infra : list infra_row := [mkInfraRow "drive.google.com" SHARED_LEGITIMATE_INFRASTRUCTURE 1 "curated" ""].
Definition demo_build : res payload := build_blocklist demo_digest no_env july_20 "2026-07-20 00:00:00" demo_infra demo_mirror demo_pulses.

Example demo_export : match demo_build with
  | Ok p => map (fun r => (r_domain r, exact_ioc r, eligible_domain r, eligible_url r, confidence r)) (domains p) =
              [("drive.google.com", "https://drive.google.com/a", false, true, "high"); ("evil.example", "evil.example", true, false, "medium")] /\
            map (fun r => (r_domain r, reason r)) (excluded p) = [("alone.example", "OTX-only candidate without catalog corroboration")]
  | Raise _ => False
  end.
Proof. vm_compute. split; reflexivity. Qed.

Lemma demo_ok : exists p, demo_build = Ok p.
Proof. apply is_ok_spec. vm_compute. reflexivity. Qed.

Lemma demo_listed p : demo_build = Ok p -> exists r, r ∈ domains p /\ r_domain r = "evil.example".
Proof.
  intros E. pose proof demo_export as D. rewrite E in D. destruct D as [D _]. apply (f_equal (map (fun x => fst (fst (fst (fst x)))))) in D.
  rewrite map_map in D. change (map r_domain (domains p) = ["drive.google.com"; "evil.example"]) in D. assert ("evil.example" ∈ map r_domain (domains p)) as I by (rewrite D; right; by left).
  apply list_elem_of_fmap in I as (r & -> & I). exists r. split; [exact I|reflexivity].
Qed.

Lemma catalog_backs_every_export_witness : exists p r, demo_build = Ok p /\ r ∈ domains p /\ reason r = "Catalog source evidence (ThreatFox/URLhaus/PhishTank)".
Proof.
  destruct demo_ok as [p E]. destruct (demo_listed p E) as (r & I & D). exists p, r. split; [exact E|]. split; [exact I|].
  apply (catalog_backs_every_export _ _ _ _ _ _ _ _ _ E I). rewrite D. reflexivity.
Defined.

Lemma classified_hosts_stay_out_witness : exists p r, demo_build = Ok p /\ r ∈ domains p /\ eligible r = true.
Proof.
  destruct demo_ok as [p E]. destruct (demo_listed p E) as (r & I & D). exists p, r. split; [exact E|]. split; [exact I|].
  apply (classified_hosts_stay_out _ _ _ _ _ _ _ p r E); [apply elem_of_app; left|]; exact I.
Defined.

Lemma every_candidate_once_witness : exists p, demo_build = Ok p /\ candidate_count p = eligible_count p + excluded_count p.
Proof. destruct demo_ok as [p E]. exists p. split; [exact E|]. apply (every_candidate_once _ _ _ _ _ _ _ _ E). Defined.
