(* ===== verification/Csv.v ===== *)
(** * Csv: the csv module with its default dialect

    [csv.writer] with [lineterminator="\n"] and minimal quoting, as in CPython 3.11, the oldest the project runs on, and
    the state machine of [csv.reader] over the lines of a text, which end at line feeds; and the proof that the
    reader gives back the rows written.  The reader's error is [None]. *)

From S2P Require Import Prelude PyStr.
Open Scope string_scope.

Definition QUOTE : ascii := "034".
Definition LF : ascii := "010".
Definition CR : ascii := "013".

(** ** Writing *)

Definition special (c : ascii) : bool := Ascii.eqb c "," || Ascii.eqb c QUOTE || Ascii.eqb c LF.

Fixpoint doubled (s : string) : string :=
  match s with "" => "" | String c t => if Ascii.eqb c QUOTE then String c (String c (doubled t)) else String c (doubled t) end.

Definition quoted (s : string) : string := String QUOTE (doubled s +:+ String QUOTE "").

Definition write_field (s : string) : string := if sforall (fun c => negb (special c)) s then s else quoted s.

Definition writerow (row : list string) : string :=
  match row with
  | [s] => (if nonempty s then write_field s else quoted s) +:+ String LF ""
  | _ => sjoin "," (map write_field row) +:+ String LF ""
  end.

Definition writerows (rows : list (list string)) : string := fold_right (fun r t => writerow r +:+ t) "" rows.

(** ** Reading *)

Inductive rstate := START_RECORD | START_FIELD | IN_FIELD | IN_QUOTED_FIELD | QUOTE_IN_QUOTED_FIELD | EAT_CRNL.

(** The parser's state, the field and the fields so far, the rows returned; [mid] tells
    that the current line has characters. *)
Record reader := mkReader { rs : rstate; field : string; fields : list string; rows : list (list string); mid : bool }.

Definition line_end (c : ascii) : bool := Ascii.eqb c LF || Ascii.eqb c CR.

Definition add_char (r : reader) (s : rstate) (c : ascii) : reader := mkReader s (field r +:+ String c "") (fields r) (rows r) true.
Definition save (r : reader) (s : rstate) : reader := mkReader s "" (fields r ++ [field r]) (rows r) true.
Definition go (r : reader) (s : rstate) : reader := mkReader s (field r) (fields r) (rows r) true.

Definition start_field (r : reader) (c : ascii) : reader :=
  if line_end c then save r EAT_CRNL
  else if Ascii.eqb c QUOTE then go r IN_QUOTED_FIELD
  else if Ascii.eqb c "," then save r START_FIELD
  else add_char r IN_FIELD c.

(** [parse_process_char] on a character of a line. *)
Definition process (r : reader) (c : ascii) : option reader :=
  match rs r with
  | START_RECORD => Some (if line_end c then go r EAT_CRNL else start_field r c)
  | START_FIELD => Some (start_field r c)
  | IN_FIELD => Some (if line_end c then save r EAT_CRNL else if Ascii.eqb c "," then save r START_FIELD else add_char r IN_FIELD c)
  | IN_QUOTED_FIELD => Some (if Ascii.eqb c QUOTE then go r QUOTE_IN_QUOTED_FIELD else add_char r IN_QUOTED_FIELD c)
  | QUOTE_IN_QUOTED_FIELD =>
      Some (if Ascii.eqb c QUOTE then add_char r IN_QUOTED_FIELD c
            else if Ascii.eqb c "," then save r START_FIELD
            else if line_end c then save r EAT_CRNL else add_char r IN_FIELD c)
  | EAT_CRNL => if line_end c then Some (go r EAT_CRNL) else None
  end.

(** The end of a line: the record ends unless a quoted field is open. *)
Definition record_done (r : reader) : reader := mkReader START_RECORD "" [] (rows r ++ [fields r]) false.
Definition end_line (r : reader) : reader :=
  match rs r with
  | START_RECORD | EAT_CRNL => record_done r
  | START_FIELD | IN_FIELD | QUOTE_IN_QUOTED_FIELD => record_done (save r START_RECORD)
  | IN_QUOTED_FIELD => mkReader IN_QUOTED_FIELD (field r) (fields r) (rows r) false
  end.

Fixpoint read (r : reader) (s : string) : option reader :=
  match s with
  | "" => Some r
  | String c t => match process r c with
                  | None => None
                  | Some r => read (if Ascii.eqb c LF then end_line r else r) t
                  end
  end.

Definition empty_reader : reader := mkReader START_RECORD "" [] [] false.

Definition csv_rows (text : string) : option (list (list string)) :=
  match read empty_reader text with
  | None => None
  | Some r =>
      let r := if mid r then end_line r else r in
      Some (match rs r with IN_QUOTED_FIELD => rows (record_done (save r START_RECORD)) | _ => rows r end)
  end.

(** ** Reading back *)

Lemma read_app r s t : read r (s +:+ t) = match read r s with Some r => read r t | None => None end.
Proof. revert r. induction s as [|c s IH]; intros r; [done|]. rewrite app_cons. cbn [read]. destruct (process r c); [apply IH|done]. Qed.

Definition plain_csv (c : ascii) : bool := negb (special c) && negb (Ascii.eqb c CR).

Lemma plain_csv_facts c : plain_csv c = true -> line_end c = false /\ Ascii.eqb c QUOTE = false /\ Ascii.eqb c "," = false /\ Ascii.eqb c LF = false.
Proof.
  unfold plain_csv, special, line_end. destruct (Ascii.eqb c ","), (Ascii.eqb c QUOTE), (Ascii.eqb c LF), (Ascii.eqb c CR); done.
Qed.

Lemma read_in_field s f fs out : sforall plain_csv s = true -> forall m, exists m', read (mkReader IN_FIELD f fs out m) s = Some (mkReader IN_FIELD (f +:+ s) fs out m').
Proof.
  revert f. induction s as [|c s IH]; intros f P m; [exists m; by rewrite app_empty_r|]. cbn [sforall] in P. apply andb_prop in P as [C P].
  destruct (plain_csv_facts c C) as (L & Q & K & N). cbn [read process rs]. rewrite L, K, N. destruct (IH (f +:+ String c "") P true) as [m' E].
  exists m'. unfold add_char. cbn [field fields rows]. rewrite E, sapp_assoc. done.
Qed.

Lemma read_quoted s f fs out m : exists m', read (mkReader IN_QUOTED_FIELD f fs out m) (doubled s) = Some (mkReader IN_QUOTED_FIELD (f +:+ s) fs out m').
Proof.
  revert f m. induction s as [|c s IH]; intros f m; [exists m; by rewrite app_empty_r|]. cbn [doubled]. destruct (Ascii.eqb_spec c QUOTE) as [->|N].
  - change (read (mkReader IN_QUOTED_FIELD f fs out m) (String QUOTE (String QUOTE (doubled s)))) with
      (read (mkReader IN_QUOTED_FIELD (f +:+ String QUOTE "") fs out true) (doubled s)).
    destruct (IH (f +:+ String QUOTE "") true) as [m' E]. exists m'. rewrite E, sapp_assoc. done.
  - cbn [read process rs]. rewrite (proj2 (Ascii.eqb_neq _ _) N). unfold add_char. cbn [field fields rows].
    destruct (IH (f +:+ String c "") true) as [m' E], (IH (f +:+ String c "") false) as [m'' E'].
    destruct (Ascii.eqb c LF); [exists m''|exists m']; cbn [end_line rs field fields rows]; rewrite ?E, ?E', sapp_assoc; done.
Qed.

(** After a field: what a delimiter or the end of the line does next. *)
Definition field_read (r : reader) (s : string) (fs : list string) (out : list (list string)) : Prop :=
  process r "," = Some (mkReader START_FIELD "" (fs ++ [s]) out true) /\
  process r LF = Some (mkReader EAT_CRNL "" (fs ++ [s]) out true).

Definition no_cr (s : string) : bool := sforall (fun c => negb (Ascii.eqb c CR)) s.

Lemma read_quoted_field s st fs out m : st = START_RECORD \/ st = START_FIELD ->
  exists r, read (mkReader st "" fs out m) (quoted s) = Some r /\ field_read r s fs out.
Proof.
  intros S. unfold quoted. assert (process (mkReader st "" fs out m) QUOTE = Some (mkReader IN_QUOTED_FIELD "" fs out true)) as P by (by destruct S as [-> | ->]).
  cbn [read]. rewrite P. change (Ascii.eqb QUOTE LF) with false. cbv iota. rewrite read_app. destruct (read_quoted s "" fs out true) as [m' E].
  rewrite E. eexists. split; [reflexivity|]. by split.
Qed.

Lemma read_field s st fs out m : st = START_RECORD \/ st = START_FIELD -> (st = START_RECORD -> nonempty s = true) -> no_cr s = true ->
  exists r, read (mkReader st "" fs out m) (write_field s) = Some r /\ field_read r s fs out.
Proof.
  intros S NE C. unfold write_field. destruct (sforall _ s) eqn:P; [|by apply read_quoted_field].
  assert (sforall plain_csv s = true) as PL by (by apply sforall_both). destruct s as [|c s].
  - destruct S as [-> | ->]; [by specialize (NE eq_refl)|]. eexists. split; [reflexivity|]. by split.
  - cbn [sforall] in PL. apply andb_prop in PL as [PC PL]. destruct (plain_csv_facts c PC) as (L & Q & K & N).
    assert (process (mkReader st "" fs out m) c = Some (mkReader IN_FIELD (String c "") fs out true)) as F.
    { destruct S as [-> | ->]; cbn [process rs]; rewrite ?L; unfold start_field; by rewrite L, Q, K. }
    cbn [read]. rewrite F, N. destruct (read_in_field s (String c "") fs out PL true) as [m' E]. rewrite E. eexists. split; [reflexivity|]. by split.
Qed.

(** The rest of a row, after its first field. *)
Lemma read_rest l s0 r fs out : field_read r s0 fs out -> forallb no_cr l = true ->
  read r (fold_right (fun s t => String "," (write_field s +:+ t)) (String LF "") l) = Some (mkReader START_RECORD "" [] (out ++ [(fs ++ s0 :: l)%list])%list false).
Proof.
  revert s0 r fs. induction l as [|s l IH]; intros s0 r fs [FC FL] C; cbn [fold_right].
  - cbn [read]. rewrite FL. reflexivity.
  - cbn [forallb] in C. apply andb_prop in C as [C CL]. cbn [read]. rewrite FC. change (Ascii.eqb "," LF) with false. cbv iota. rewrite read_app.
    destruct (read_field s START_FIELD (fs ++ [s0])%list out true) as (r' & -> & F); [by right|done|done|]. rewrite (IH s r' (fs ++ [s0])%list F CL).
    by rewrite <-app_assoc.
Qed.

Lemma sjoin_fold s l : sjoin "," (map write_field (s :: l)) +:+ String LF "" =
  write_field s +:+ fold_right (fun s t => String "," (write_field s +:+ t)) (String LF "") l.
Proof.
  revert s. induction l as [|s' l IH]; intros s; [done|]. cbn [map fold_right]. cbn [map] in IH.
  change (sjoin "," (write_field s :: write_field s' :: map write_field l)) with (write_field s +:+ "," +:+ sjoin "," (write_field s' :: map write_field l)).
  rewrite !sapp_assoc, IH. done.
Qed.

(** A row's first field when more follow may be empty: at the start of a record. *)
Lemma read_first s l out : forallb no_cr (s :: l) = true -> l <> [] ->
  exists r, read (mkReader START_RECORD "" [] out false) (write_field s) = Some r /\ field_read r s [] out \/ s = "".
Proof.
  intros C N. cbn [forallb] in C. apply andb_prop in C as [C _]. destruct (nonempty s) eqn:E; [|exists empty_reader; right; by destruct s].
  destruct (read_field s START_RECORD [] out false) as (r & R & F); [by left|done|done|]. exists r. by left.
Qed.

Lemma read_row row out : forallb no_cr row = true ->
  read (mkReader START_RECORD "" [] out false) (writerow row) = Some (mkReader START_RECORD "" [] (out ++ [row])%list false).
Proof.
  intros C. destruct row as [|s [|s' l]].
  - reflexivity.
  - cbn [writerow]. cbn [forallb] in C. apply andb_prop in C as [C _]. rewrite read_app.
    assert (exists r, read (mkReader START_RECORD "" [] out false) (if nonempty s then write_field s else quoted s) = Some r /\ field_read r s [] out) as (r & -> & F).
    { destruct (nonempty s) eqn:E; [apply read_field|apply read_quoted_field]; auto. }
    exact (read_rest [] s r [] out F eq_refl).
  - unfold writerow. rewrite sjoin_fold, read_app. destruct (read_first s (s' :: l) out C) as (r & [[-> F]| ->]); [done| |].
    + apply (read_rest (s' :: l) s r [] out F). cbn [forallb] in C |- *. by apply andb_prop in C as [_ C].
    + change (write_field "") with "". cbn [read fold_right process rs]. change (line_end ",") with false. cbv iota. unfold start_field. change (line_end ",") with false.
      change (Ascii.eqb "," QUOTE) with false. change (Ascii.eqb "," ",") with true. change (Ascii.eqb "," LF) with false. cbv iota. rewrite read_app.
      cbn [forallb] in C. apply andb_prop in C as [_ C]. apply andb_prop in C as [C CL]. unfold save. cbn [field fields rows app].
      destruct (read_field s' START_FIELD [""] out true) as (r' & -> & F); [by right|done|done|]. by rewrite (read_rest l s' r' [""] out F CL).
Qed.

Lemma read_rows l out : forallb (forallb no_cr) l = true ->
  read (mkReader START_RECORD "" [] out false) (writerows l) = Some (mkReader START_RECORD "" [] (out ++ l)%list false).
Proof.
  revert out. induction l as [|row l IH]; intros out C; cbn [writerows fold_right]; [by rewrite app_nil_r|].
  cbn [forallb] in C. apply andb_prop in C as [C CL]. rewrite read_app, read_row by done. fold (writerows l). rewrite IH by done. by rewrite <-app_assoc.
Qed.

Lemma csv_roundtrip l : forallb (forallb no_cr) l = true -> csv_rows (writerows l) = Some l.
Proof. intros C. unfold csv_rows, empty_reader. by rewrite read_rows. Qed.

Example csv_ex : csv_rows (writerows [["a,b"; String QUOTE "x"; ""]; [""]; []; [String LF "y"; "z"]]) = Some [["a,b"; String QUOTE "x"; ""]; [""]; []; [String LF "y"; "z"]].
Proof. vm_compute. reflexivity. Qed.
