(* ===== verification/Export.v ===== *)
(** * Export: the blocklist as text and CSV (blocklist/serialize.py)

    The representations of one payload of [Blocklist.build_blocklist].  Modes are the
    texts the code tests.  [to_json] hands the payload over unchanged. *)

From S2P Require Import Prelude PyStr DecText Campaigns Confidence SourceEvidence Blocklist Csv.
Open Scope string_scope.
Open Scope Z_scope.

Definition _VALID_MODES : list string := ["domains"; "urls"; "all"].

Definition normalize_export_mode (mode : option string) : res string :=
  let m := match mode with Some m => if nonempty m then m else "domains" | None => "domains" end in
  let normalized := lower (strip m) in
  if one_in _VALID_MODES normalized then Ok normalized else Raise ValueError.

(** The admin route: [None] is the answer 400. *)
Definition _admin_export_mode (mode : option string) (allow_all : bool) : option string :=
  match normalize_export_mode mode with
  | Raise _ => None
  | Ok parsed => if negb allow_all && String.eqb parsed "all" then None else Some parsed
  end.

Definition _record_matches_mode (r : record) (mode : string) : bool :=
  if negb (eligible r) then false
  else if String.eqb mode "domains" then eligible_domain r
  else if String.eqb mode "urls" then eligible_url r
  else eligible_domain r || eligible_url r.

Definition matching (p : payload) (mode : string) : list record := List.filter (fun r => _record_matches_mode r mode) (domains p).

Definition _eligible_count (p : payload) (mode : string) : Z := Z.of_nat (length (matching p mode)).

(** The value a record contributes to the text; blank URLs contribute none. *)
Definition txt_value (mode : string) (r : record) : option string :=
  if String.eqb mode "urls" then let v := strip (exact_ioc r) in if nonempty v then Some v else None else Some (r_domain r).

Definition NL : string := String LF "".

Definition txt_lines (p : payload) (mode : string) : list string := sorted (omap (txt_value mode) (matching p mode)).

Definition txt_header (p : payload) (mode : string) : list string :=
  ["# BRIEFR malicious-domain candidates"; "# generated_at: " +:+ p_generated_at p; "# mode: " +:+ mode;
   "# eligible: " +:+ str_of_Z (_eligible_count p mode); "# excluded: " +:+ str_of_Z (excluded_count p)].

Definition to_txt (p : payload) (mode : string) : string :=
  let header := sjoin NL (txt_header p mode) +:+ NL in
  let body := sjoin NL (txt_lines p mode) in
  if nonempty body then header +:+ body +:+ NL else header.

(** Cells that a spreadsheet would read as a formula. *)
Definition formula_char (c : ascii) : bool := Ascii.eqb c "=" || Ascii.eqb c "+" || Ascii.eqb c "-" || Ascii.eqb c "@".
Definition formula (s : string) : bool := match s with String c _ => formula_char c | "" => false end.

Definition _escape_spreadsheet_value (value : string) : string := if formula value then "'" +:+ value else value.

Definition CSV_HEADER : list string := ["type"; "value"; "source"; "confidence"; "first_seen"; "malware"; "threat_type"].

Definition csv_row (r : record) : list string :=
  [_escape_spreadsheet_value (if nonempty (r_ioc_type r) then r_ioc_type r else "domain"); _escape_spreadsheet_value (exact_ioc r);
   sjoin ";" (sources r); confidence r; r_first_seen r; sjoin ";" (r_malware r); sjoin ";" (r_threat_type r)].

Definition to_csv (p : payload) (mode : string) : string := writerows (CSV_HEADER :: map csv_row (matching p mode)).

(** ** Theorems *)

Definition no_lf (s : string) : bool := sforall (fun c => negb (Ascii.eqb c LF)) s.

(** What a mode asks of a record: to be eligible, and in the way the mode names. *)
Definition wanted (mode : string) (r : record) : bool :=
  eligible r && (if String.eqb mode "domains" then eligible_domain r else if String.eqb mode "urls" then eligible_url r
                 else eligible_domain r || eligible_url r).

(** A cell a spreadsheet shows as the text, although it may start like a formula. *)
Definition shows (cell text : string) : Prop :=
  (cell = text \/ cell = "'" +:+ text) /\ match cell with String c _ => c <> "="%char /\ c <> "+"%char /\ c <> "-"%char /\ c <> "@"%char | "" => True end.

(** The row a reader gets for a record. *)
Definition row_of (r : record) (row : list string) : Prop :=
  exists type value, row = [type; value; sjoin ";" (sources r); confidence r; r_first_seen r; sjoin ";" (r_malware r); sjoin ";" (r_threat_type r)] /\
    shows type (if String.eqb (r_ioc_type r) "" then "domain" else r_ioc_type r) /\ shows value (exact_ioc r).

Definition texts (r : record) : list string := r_ioc_type r :: exact_ioc r :: confidence r :: r_first_seen r :: sources r ++ r_malware r ++ r_threat_type r.

Lemma escape_shows s : shows (_escape_spreadsheet_value s) s.
Proof.
  unfold _escape_spreadsheet_value, shows. destruct (formula s) eqn:F; [split; [by right|done]|]. split; [by left|].
  destruct s as [|c s]; [done|]. unfold formula, formula_char in F. rewrite !orb_false_iff, !Ascii.eqb_neq in F. tauto.
Qed.

Lemma no_cr_join l : Forall (fun s => no_cr s = true) l -> no_cr (sjoin ";" l) = true.
Proof.
  induction 1 as [|s l S _ IH]; [done|]. destruct l as [|s' l]; [exact S|]. cbn [sjoin] in *. unfold no_cr in *. by rewrite !sforall_app, S, IH.
Qed.

Lemma no_cr_row r : Forall (fun s => no_cr s = true) (texts r) -> forallb no_cr (csv_row r) = true.
Proof.
  unfold texts. rewrite !List.Forall_cons_iff, !Forall_app. intros (T & V & C & F & S & M & K).
  assert (forall s, no_cr s = true -> no_cr (_escape_spreadsheet_value s) = true) as E by (intros s N; unfold _escape_spreadsheet_value; destruct (formula s); exact N).
  cbn [csv_row forallb]. rewrite !no_cr_join, C, F by done. rewrite !E; [done|done|]. by destruct (nonempty (r_ioc_type r)).
Qed.

(** C18 [csv_export_reads_back]: where no text of the exported records holds a carriage return, a reader of the CSV export in a
    valid mode gets a header of seven columns and then, in order, one row for each record that is eligible in that mode and none
    for any other: its type (domain when it has none), its exact indicator, its sources, confidence, first sighting, malware and
    threat types, the lists joined by semicolons, whatever commas, quotes or line feeds they hold; and the type and the indicator
    never start like a formula: a quote sign goes before one that would. *)
Theorem csv_export_reads_back p requested mode : normalize_export_mode requested = Ok mode ->
  (forall r, In r (domains p) -> wanted mode r = true -> Forall (fun s => no_cr s = true) (texts r)) ->
  exists rows, csv_rows (to_csv p mode) = Some (["type"; "value"; "source"; "confidence"; "first_seen"; "malware"; "threat_type"] :: rows) /\
    Forall2 row_of (List.filter (wanted mode) (domains p)) rows.
Proof.
  intros _ C. assert (matching p mode = List.filter (wanted mode) (domains p)) as M.
  { apply List.filter_ext. intros r. unfold _record_matches_mode, wanted. destruct (eligible r); [|done]. cbn [negb andb]. by destruct (String.eqb mode "domains"), (String.eqb mode "urls"). }
  exists (map csv_row (matching p mode)). split.
  - unfold to_csv. apply csv_roundtrip. cbn [forallb]. apply forallb_forall. intros row (r & <- & I)%in_map_iff. rewrite M in I. apply filter_In in I as [I W]. apply no_cr_row. by apply C.
  - rewrite M. generalize (List.filter (wanted mode) (domains p)). intros l. induction l as [|r l IH]; [constructor|]. constructor; [|exact IH].
    do 2 eexists. split; [reflexivity|]. split; [|apply escape_shows].
    assert ((if nonempty (r_ioc_type r) then r_ioc_type r else "domain") = if String.eqb (r_ioc_type r) "" then "domain" else r_ioc_type r) as -> by by destruct (r_ioc_type r).
    apply escape_shows.
Qed.

Lemma escape_safe s : formula (_escape_spreadsheet_value s) = false.
Proof. unfold _escape_spreadsheet_value. destruct (formula s) eqn:F; [done|exact F]. Qed.

(** [csv_formula_columns]: the type and the value of a CSV row never read as a
    formula; the malware column is written as it came, so it does whenever the first
    malware name of the record does. *)
Theorem csv_formula_columns r : formula (nth 0 (csv_row r) "") = false /\ formula (nth 1 (csv_row r) "") = false /\
  forall m t, r_malware r = m :: t -> formula m = true -> formula (nth 5 (csv_row r) "") = true.
Proof.
  split; [apply escape_safe|]. split; [apply escape_safe|]. intros m t E F. cbn [nth csv_row]. rewrite E. destruct m as [|c m]; [done|]. by destruct t.
Qed.

Lemma split_lines l : l <> [] -> Forall (fun s => no_lf s = true) l -> split_on LF (sjoin NL l +:+ NL) = (l ++ [""])%list.
Proof.
  intros N F. induction l as [|s l IH]; [done|]. apply List.Forall_cons_iff in F as [S F]. destruct l as [|s' l].
  - cbn [sjoin]. unfold NL. rewrite split_on_app by exact S. done.
  - change (sjoin NL (s :: s' :: l)) with (s +:+ NL +:+ sjoin NL (s' :: l)). rewrite !sapp_assoc. unfold NL at 1. rewrite app_cons, app_nil.
    rewrite split_on_app by exact S. rewrite IH; done.
Qed.

(** [txt_lists_the_eligible]: the lines of the domain export are its header and then
    the sorted names of the records eligible as a domain, as many as the header says. *)
Theorem txt_lists_the_eligible p : no_lf (p_generated_at p) = true -> 0 <= excluded_count p -> Forall (fun r => no_lf (r_domain r) = true /\ nonempty (r_domain r) = true) (domains p) ->
  let names := sorted (map r_domain (List.filter (fun r => eligible r && eligible_domain r) (domains p))) in
  split_on LF (to_txt p "domains") = (txt_header p "domains" ++ names ++ [""])%list /\ Z.of_nat (length names) = _eligible_count p "domains".
Proof.
  intros G X F. cbv zeta.
  assert (matching p "domains" = List.filter (fun r => eligible r && eligible_domain r) (domains p)) as M
    by (apply List.filter_ext; intros r; unfold _record_matches_mode; by destruct (eligible r)).
  assert (txt_lines p "domains" = sorted (map r_domain (List.filter (fun r => eligible r && eligible_domain r) (domains p)))) as T.
  { unfold txt_lines. by rewrite M. }
  rewrite <-T. split.
  2: { unfold _eligible_count. rewrite T, (Permutation_length (sorted_perm _)), length_map, M. done. }
  assert (forall z, 0 <= z -> no_lf (str_of_Z z) = true) as Z.
  { intros z P. eapply sforall_weaken; [|by apply str_of_nat_digits]. intros c C. destruct (Ascii.eqb_spec c LF) as [->|]; done. }
  assert (Forall (fun s => no_lf s = true) (txt_header p "domains")) as H.
  { assert (forall a b, no_lf a = true -> no_lf b = true -> no_lf (a +:+ b) = true) as A by (intros a b A B; unfold no_lf in *; by rewrite sforall_app, A, B).
    repeat (apply List.Forall_cons; [first [reflexivity|apply A; [reflexivity|first [done|apply Z; unfold _eligible_count; lia]]]|]). constructor. }
  assert (Forall (fun s => no_lf s = true /\ nonempty s = true) (txt_lines p "domains")) as L.
  { rewrite T. apply List.Forall_forall. intros s I. apply (Permutation_in _ (sorted_perm _)), in_map_iff in I as (r & <- & I).
    apply List.filter_In in I as [I _]. rewrite List.Forall_forall in F. exact (F r I). }
  unfold to_txt. destruct (txt_lines p "domains") as [|s l] eqn:E.
  - cbn [sjoin nonempty]. by rewrite split_lines.
  - rewrite <-E in *. assert (nonempty (sjoin NL (txt_lines p "domains")) = true) as ->.
    { rewrite E in L |- *. apply List.Forall_cons_iff in L as [[_ N] _]. destruct l; cbn [sjoin]; [done|]. rewrite nonempty_app, N. done. }
    rewrite <-sapp_assoc. assert ((sjoin NL (txt_header p "domains") +:+ NL) +:+ sjoin NL (txt_lines p "domains") = sjoin NL (txt_header p "domains" ++ txt_lines p "domains")) as ->.
    { rewrite E. unfold txt_header. cbn [sjoin app]. by rewrite !sapp_assoc. }
    rewrite split_lines; [by rewrite <-app_assoc|done|]. apply Forall_app. split; [exact H|]. eapply Forall_impl; [exact L|]. by intros s' [? _].
Qed.

(** ** Witnesses *)

Definition demo_payload : payload := match demo_build with Ok p => p | Raise _ => mkPayload "" 0 0 0 0 0 [] [] end.

Lemma csv_export_reads_back_witness : exists rows,
  csv_rows (to_csv demo_payload "all") = Some (["type"; "value"; "source"; "confidence"; "first_seen"; "malware"; "threat_type"] :: rows) /\
  Forall2 row_of (List.filter (wanted "all") (domains demo_payload)) rows /\ length rows = 2%nat.
Proof.
  destruct (csv_export_reads_back demo_payload (Some " ALL ") "all") as (rows & E & F); [vm_compute; reflexivity| |].
  - assert (B : forallb (fun r => forallb no_cr (texts r)) (domains demo_payload) = true) by (vm_compute; reflexivity).
    intros r I _. rewrite forallb_forall in B. specialize (B r I). rewrite forallb_forall in B. apply List.Forall_forall. exact B.
  - exists rows. split; [exact E|]. split; [exact F|]. apply Forall2_length in F. rewrite <-F. vm_compute. reflexivity.
Defined.

(** Finding [carriage_return_breaks_the_export]: the writer quotes a line feed but not a carriage return; a reader of lines that end
    at line feeds refuses the whole file, one whose lines end at carriage returns too splits the row. *)
Definition split_name (r : record) : record :=
  mkRecord (r_domain r) (r_ioc_type r) (exact_ioc r) (eligible r) (eligible_domain r) (eligible_url r) (reason r) (r_classification r) (classification_enabled r)
    (sources r) (corroborating_sources r) (otx_corroborated r) (r_evidence r) (r_confidence_level r) (confidence r) (confidence_factors r)
    ["Emotet" +:+ String CR "loader"] (r_threat_type r) (r_first_seen r) (r_fetched_at r).
Example carriage_return_breaks_the_export :
  csv_rows (to_csv (mkPayload "" 0 0 0 0 0 (map split_name (domains demo_payload)) []) "all") = None.
Proof. vm_compute. reflexivity. Qed.

Lemma txt_lists_the_eligible_witness : split_on LF (to_txt demo_payload "domains") = (txt_header demo_payload "domains" ++ ["evil.example"; ""])%list.
Proof.
  destruct (txt_lists_the_eligible demo_payload) as [E _]; [vm_compute; reflexivity|vm_compute; discriminate| |rewrite E; vm_compute; reflexivity].
  vm_compute. repeat constructor.
Defined.
