(* ===== verification/InfraStore.v ===== *)
(** * InfraStore: the infrastructure classifications (db/blocklist.py and its writers)

    The table app.infra_classifications under its writers: the curated seed, the admin
    routes (routers/admin/blocklist.py) and the import of the Tranco list
    (blocklist/tranco_sync.py).  Rows are kept in the order of insertion; the clock is
    the text each operation writes.  A request body is a dict of values; [str_of] is
    [str] of a value that is no text. *)

From S2P Require Import Prelude PyStr PyVal Ioc Campaigns Blocklist.
Open Scope string_scope.
Open Scope Z_scope.

Record infra := mkInfra {
  id : Z; host : string; in_class : string; in_enabled : Z; provenance : string; in_reason : string; notes : string;
  created_at : string; updated_at : string
}.

(** The table and its next identifier. *)
Record store := mkStore { rows : list infra; next_id : Z }.

Definition has_host (s : store) (h : string) : bool := existsb (fun r => String.eqb (host r) h) (rows s).

(** [INSERT ... ON CONFLICT (host) DO NOTHING]: the number of rows written.  A skipped
    row uses up an identifier as well. *)
Definition insert_missing (s : store) (h class : string) (enabled : Z) (prov why note now : string) : store * Z :=
  if has_host s h then (mkStore (rows s) (next_id s + 1), 0)
  else (mkStore (rows s ++ [mkInfra (next_id s) h class enabled prov why note now now]) (next_id s + 1), 1).

(** ** The seed *)

Definition seed_infra_classifications (seed : list (string * string * string)) (now : string) (s : store) : store * Z :=
  fold_left (fun acc '(h, class, why) => let '(s, written) := acc in
                                         let '(s, n) := insert_missing s h class 1 "curated" why "" now in (s, written + n)) seed (s, 0).

(** ** The Tranco import *)

(** One host of the batch. *)
Definition bulk_step (class prov why now : string) (acc : store * Z) (h : string) : store * Z :=
  let '(s, written) := acc in
  let '(s, n) := insert_missing s h class 1 prov why "" now in (s, written + n).

Definition bulk_insert_infra_classifications (hosts : list string) (class prov why now : string) (s : store) : store * Z :=
  fold_left (bulk_step class prov why now) hosts (s, 0).

Definition from_tranco (r : infra) : bool := startswith (provenance r) "tranco:".

Definition set_enabled (e : Z) (now : string) (r : infra) : infra :=
  mkInfra (id r) (host r) (in_class r) e (provenance r) (in_reason r) (notes r) (created_at r) now.

Definition expire_superseded_tranco_hosts (keep_hosts : list string) (now : string) (s : store) : store * Z :=
  match keep_hosts with
  | [] => (s, 0)
  | _ =>
      let drop := fun r => (in_enabled r =? 1) && from_tranco r && negb (one_in keep_hosts (host r)) in
      (mkStore (map (fun r => if drop r then set_enabled 0 now r else r) (rows s)) (next_id s), count_by drop (rows s))
  end.

Definition _apply_tranco_snapshot (list_date : string) (domains : list string) (now : string) (s : store) : store * Z :=
  let prov := "tranco:" +:+ (if nonempty list_date then list_date else stake 10 now) in
  let '(s, inserted) := bulk_insert_infra_classifications domains LEGITIMATE_DOMAIN prov "" now s in
  let '(s, _) := expire_superseded_tranco_hosts domains now s in (s, inserted).

(** The host column of each row of the list, canonical. *)
Definition tranco_domains (list_rows : list (list string)) : list string :=
  omap (fun row => match row with
                   | _ :: h :: _ => let h := canonical_host h in if nonempty h && str_in "." h then Some h else None
                   | _ => None
                   end) list_rows.

Definition sync_tranco_infra_classifications (list_date : string) (list_rows : list (list string)) (now : string) (s : store) : store * Z :=
  match tranco_domains list_rows with [] => (s, 0) | domains => _apply_tranco_snapshot list_date domains now s end.

(** ** The admin routes *)

(** An answer, or the status of a refusal; an exception no handler takes is [Crash]. *)
Inductive answer (A : Type) := Done (a : A) | Refused (status : Z) | Crash (e : exn).
Arguments Done {A} _. Arguments Refused {A} _. Arguments Crash {A} _.

Section routes.
Context (str_of : pyval -> string).

Definition bind {A B} (m : answer A) (k : A -> answer B) : answer B :=
  match m with Done a => k a | Refused n => Refused n | Crash e => Crash e end.

Definition CLASSIFICATIONS : list string := [LEGITIMATE_DOMAIN; SHARED_LEGITIMATE_INFRASTRUCTURE; TRUSTED_SERVICE; UNKNOWN].

Definition _validate_classification (v : pyval) : answer string :=
  match v with
  | PStr s => let c := upper (strip s) in if one_in CLASSIFICATIONS c then Done c else Refused 400
  | _ => Refused 400
  end.

Definition _bool_int (v : pyval) : answer Z :=
  match v with
  | PBool b => Done (if b then 1 else 0)
  | PInt z => if (z =? 0) || (z =? 1) then Done z else Refused 400
  | PStr s =>
      let t := lower (strip s) in
      if one_in ["1"; "0"; "true"; "false"] t then Done (if one_in ["1"; "true"] t then 1 else 0) else Refused 400
  | _ => Refused 400
  end.

(** [canonical_host(v or "")]: only a text has the methods. *)
Definition host_of (v : pyval) : answer string :=
  if truthy v then match v with PStr s => Done (canonical_host s) | _ => Crash AttributeError end else Done "".

Definition text_of (v : pyval) : string := match v with PStr s => s | _ => str_of v end.
(** [str(v)] stripped and cut to [n] characters. *)
Definition clipped (n : nat) (v : pyval) : string := stake n (strip (text_of v)).
Definition or_blank (v : pyval) : pyval := if truthy v then v else PStr "".

Definition get_default (body : list (string * pyval)) (k : string) (d : pyval) : pyval := if dmem body k then dget body k else d.

Definition create_infra_classification (body : list (string * pyval)) (now : string) (s : store) : answer (store * infra) :=
  bind (host_of (dget body "host")) (fun h =>
  if negb (nonempty h) || negb (str_in "." h) then Refused 400
  else bind (_validate_classification (or_blank (dget body "classification"))) (fun class =>
  bind (_bool_int (get_default body "enabled" (PInt 1))) (fun en =>
  let prov := clipped 200 (or_blank (dget body "provenance")) in
  let why := clipped 500 (or_blank (dget body "reason")) in
  let note := clipped 1000 (or_blank (dget body "notes")) in
  if has_host s h then Refused 409
  else let r := mkInfra (next_id s) h class en (if nonempty prov then prov else "admin") why note now now in
       Done (mkStore (rows s ++ [r]) (next_id s + 1), r)))).

(** The changes of a PATCH: the keys present in the body. *)
Record changes := mkChanges { ch_class : option string; ch_enabled : option Z; ch_provenance : option string; ch_reason : option string; ch_notes : option string }.

Definition change {A} (body : list (string * pyval)) (k : string) (f : pyval -> answer A) : answer (option A) :=
  if dmem body k then bind (f (dget body k)) (fun a => Done (Some a)) else Done None.

Definition read_changes (body : list (string * pyval)) : answer changes :=
  bind (change body "classification" _validate_classification) (fun c =>
  bind (change body "enabled" _bool_int) (fun e =>
  bind (change body "provenance" (fun v => Done (clipped 200 v))) (fun p =>
  bind (change body "reason" (fun v => Done (clipped 500 v))) (fun r =>
  bind (change body "notes" (fun v => Done (clipped 1000 v))) (fun n => Done (mkChanges c e p r n)))))).

Definition some_change (c : changes) : bool :=
  match c with mkChanges None None None None None => false | _ => true end.

Definition changed (c : changes) (now : string) (r : infra) : infra :=
  let old := fun {A} (o : option A) (d : A) => match o with Some a => a | None => d end in
  if some_change c then
    mkInfra (id r) (host r) (old (ch_class c) (in_class r)) (old (ch_enabled c) (in_enabled r)) (old (ch_provenance c) (provenance r))
      (old (ch_reason c) (in_reason r)) (old (ch_notes c) (notes r)) (created_at r) now
  else r.

Definition update_infra_classification (row_id : Z) (c : changes) (now : string) (s : store) : store * option infra :=
  match List.find (fun r => id r =? row_id) (rows s) with
  | None => (s, None)
  | Some r => (mkStore (map (fun r => if id r =? row_id then changed c now r else r) (rows s)) (next_id s), Some (changed c now r))
  end.

Definition update_infra_classification_route (row_id : Z) (body : list (string * pyval)) (now : string) (s : store) : answer (store * infra) :=
  bind (read_changes body) (fun c =>
  match update_infra_classification row_id c now s with (s, Some r) => Done (s, r) | (_, None) => Refused 404 end).

Definition delete_infra_classification_route (row_id : Z) (s : store) : answer store :=
  if existsb (fun r => id r =? row_id) (rows s) then Done (mkStore (List.filter (fun r => negb (id r =? row_id)) (rows s)) (next_id s))
  else Refused 404.

(** ** Histories *)

Inductive op :=
| Seed (seed : list (string * string * string)) (now : string)
| Sync (list_date : string) (list_rows : list (list string)) (now : string)
| Create (body : list (string * pyval)) (now : string)
| Update (row_id : Z) (body : list (string * pyval)) (now : string)
| Delete (row_id : Z).

Definition kept (s : store) (m : answer (store * infra)) : store := match m with Done (s, _) => s | _ => s end.

Definition perform (s : store) (o : op) : store :=
  match o with
  | Seed seed now => fst (seed_infra_classifications seed now s)
  | Sync d l now => fst (sync_tranco_infra_classifications d l now s)
  | Create body now => kept s (create_infra_classification body now s)
  | Update i body now => kept s (update_infra_classification_route i body now s)
  | Delete i => match delete_infra_classification_route i s with Done s => s | _ => s end
  end.

End routes.

(** ** Lemmas *)

Lemma insert_rows s h class e prov why note now :
  exists l, rows (fst (insert_missing s h class e prov why note now)) = (rows s ++ l)%list /\
    l = if has_host s h then [] else [mkInfra (next_id s) h class e prov why note now now].
Proof. unfold insert_missing. destruct (has_host s h); cbn; eexists; (split; [|done]); [by rewrite app_nil_r|done]. Qed.

(** A batch of insertions appends rows of its own, one for each new host. *)
Definition fresh_ok (hosts : list string) (class prov : string) (s : store) (r : infra) : Prop :=
  host r ∈ hosts /\ has_host s (host r) = false /\ in_enabled r = 1 /\ in_class r = class /\ provenance r = prov.

Lemma has_host_in s h : has_host s h = true <-> h ∈ map host (rows s).
Proof.
  unfold has_host. rewrite existsb_exists, list_elem_of_fmap. split.
  - intros (r & I & E). apply String.eqb_eq in E as <-. exists r. split; [done|by apply list_elem_of_In].
  - intros (r & -> & I). exists r. split; [by apply list_elem_of_In|apply String.eqb_refl].
Qed.

Definition well_formed (s : store) : Prop :=
  NoDup (map host (rows s)) /\ NoDup (map id (rows s)) /\ Forall (fun r => id r < next_id s) (rows s).

(** Appending a row of a new host, under the next identifier. *)
Lemma append_well_formed s r : well_formed s -> has_host s (host r) = false -> id r = next_id s ->
  well_formed (mkStore (rows s ++ [r]) (next_id s + 1)).
Proof.
  intros (H & I & B) K E. unfold well_formed. cbn [rows next_id]. rewrite !map_app. cbn [map]. split; [|split].
  - apply NoDup_app. split; [done|]. split; [|by apply NoDup_singleton]. intros x X. rewrite list_elem_of_singleton. intros ->.
    apply has_host_in in X. congruence.
  - apply NoDup_app. split; [done|]. split; [|by apply NoDup_singleton]. intros x X. rewrite list_elem_of_singleton. intros ->.
    apply list_elem_of_fmap in X as (q & Q & X). rewrite List.Forall_forall in B. apply list_elem_of_In, B in X. lia.
  - apply Forall_app. split; [eapply Forall_impl; [exact B|]; cbn; lia|]. repeat constructor. lia.
Qed.

Lemma insert_well_formed s h class e prov why note now : well_formed s -> well_formed (fst (insert_missing s h class e prov why note now)).
Proof.
  intros W. unfold insert_missing. destruct (has_host s h) eqn:K; cbn [fst]; [|by apply append_well_formed].
  destruct W as (H & I & B). split; [done|]. split; [done|]. eapply Forall_impl; [exact B|]. cbn. lia.
Qed.

Lemma bulk_cons h l class prov why now s w :
  fold_left (bulk_step class prov why now) (h :: l) (s, w) =
  fold_left (bulk_step class prov why now) l (fst (insert_missing s h class 1 prov why "" now), w + snd (insert_missing s h class 1 prov why "" now)).
Proof. cbn [fold_left]. unfold bulk_step at 2. by destruct (insert_missing _ _ _ _ _ _ _ _). Qed.

Lemma bulk_spec_from hosts class prov why now s w :
  let s' := fst (fold_left (bulk_step class prov why now) hosts (s, w)) in
  (exists l, rows s' = (rows s ++ l)%list /\ Forall (fresh_ok hosts class prov s) l) /\ (forall h, h ∈ hosts -> has_host s' h = true) /\
  (well_formed s -> well_formed s').
Proof.
  revert s w. induction hosts as [|h l IH]; intros s w; cbv zeta.
  { cbn. split; [exists []; by rewrite app_nil_r|]. split; [intros h I; by apply not_elem_of_nil in I|done]. }
  rewrite bulk_cons. pose proof (insert_well_formed s h class 1 prov why "" now) as W.
  destruct (insert_rows s h class 1 prov why "" now) as (fr0 & R0 & E0).
  destruct (insert_missing s h class 1 prov why "" now) as [s1 n]. cbn [fst snd] in R0, W |- *. destruct (IH s1 (w + n)) as ((fr & R & F) & M & W').
  split; [|split; [|auto]].
  - exists (fr0 ++ fr)%list. rewrite R, R0, app_assoc. split; [done|]. apply Forall_app. split.
    + rewrite E0. destruct (has_host s h) eqn:K; [constructor|]. constructor; [|constructor]. split; [by left|]. split; [exact K|]. done.
    + eapply Forall_impl; [exact F|]. intros r (A & B & C). split; [by right|]. split; [|done]. apply not_true_iff_false. intros X.
      apply not_true_iff_false in B. apply B, has_host_in. rewrite R0, map_app. apply elem_of_app. left. by apply has_host_in.
  - intros h' I. apply elem_of_cons in I as [->|I]; [|by apply M]. apply has_host_in. rewrite R, map_app. apply elem_of_app. left.
    rewrite R0, map_app. apply elem_of_app. destruct (has_host s h) eqn:K; [left; by apply has_host_in|right; rewrite E0; by left].
Qed.

Lemma bulk_spec hosts class prov why now s :
  let s' := fst (bulk_insert_infra_classifications hosts class prov why now s) in
  (exists l, rows s' = (rows s ++ l)%list /\ Forall (fresh_ok hosts class prov s) l) /\ (forall h, h ∈ hosts -> has_host s' h = true) /\
  (well_formed s -> well_formed s').
Proof. apply bulk_spec_from. Qed.

(** The row of a host after an import that did not list it. *)
Definition expired (keep : list string) (now : string) (r : infra) : infra :=
  if (in_enabled r =? 1) && from_tranco r && negb (one_in keep (host r)) then set_enabled 0 now r else r.

Lemma expire_rows keep now s : keep <> [] -> fst (expire_superseded_tranco_hosts keep now s) = mkStore (map (expired keep now) (rows s)) (next_id s).
Proof. by destruct keep. Qed.

Lemma expired_same keep now r : host (expired keep now r) = host r /\ id (expired keep now r) = id r.
Proof. unfold expired. by destruct (_ && _ && _). Qed.

Lemma map_same {A B} (f : A -> A) (g : A -> B) l : (forall x, g (f x) = g x) -> map g (map f l) = map g l.
Proof. intros H. rewrite map_map. apply map_ext. done. Qed.

Lemma map_well_formed (f : infra -> infra) l n : (forall r, host (f r) = host r /\ id (f r) = id r) -> well_formed (mkStore l n) -> well_formed (mkStore (map f l) n).
Proof.
  intros S (H & I & B). unfold well_formed in *. cbn [rows next_id] in *. rewrite !map_same by (intros r; apply S). split; [done|]. split; [done|].
  apply Forall_map. eapply Forall_impl; [exact B|]. intros r. cbn. by rewrite (proj2 (S r)).
Qed.

(** ** Theorems *)

(** [sync_effect]: an import keeps every row; it disables the enabled rows that an
    import wrote and whose host is no longer listed, and appends an enabled row for each
    listed host that had none.  No row is enabled again, and no row of another
    provenance is touched. *)
Theorem sync_effect list_date list_rows now s : let domains := tranco_domains list_rows in
  domains <> [] -> let s' := fst (sync_tranco_infra_classifications list_date list_rows now s) in
  exists fresh, rows s' = (map (expired domains now) (rows s) ++ fresh)%list /\
    Forall (fun r => host r ∈ domains /\ has_host s (host r) = false /\ in_enabled r = 1 /\ from_tranco r = true) fresh /\
    (forall h, h ∈ domains -> has_host s' h = true).
Proof.
  cbv zeta. unfold sync_tranco_infra_classifications. set (domains := tranco_domains list_rows). intros N.
  destruct domains as [|d ds] eqn:D; [done|]. unfold _apply_tranco_snapshot. set (prov := "tranco:" +:+ _).
  destruct (bulk_spec (d :: ds) LEGITIMATE_DOMAIN prov "" now s) as ((l & R & F) & M & _).
  destruct (bulk_insert_infra_classifications _ _ _ _ _ _) as [s1 n]. cbn [fst] in R, M.
  pose proof (expire_rows (d :: ds) now s1 ltac:(done)) as X. destruct (expire_superseded_tranco_hosts (d :: ds) now s1) as [s2 k]. cbn [fst] in X |- *. subst s2. cbn [rows].
  exists (map (expired (d :: ds) now) l). rewrite R, map_app. split; [done|].
  assert (forall r, fresh_ok (d :: ds) LEGITIMATE_DOMAIN prov s r -> expired (d :: ds) now r = r) as K.
  { intros r (I & _). unfold expired. rewrite (proj2 (one_in_spec _ _) I). by rewrite andb_false_r. }
  split.
  - apply Forall_map. eapply Forall_impl; [exact F|]. intros r O. cbn. rewrite (K r O). destruct O as (A & B & C & _ & P). split; [done|]. split; [done|]. split; [done|].
    unfold from_tranco. rewrite P. apply prefix_app.
  - intros h I. apply has_host_in. cbn [rows]. rewrite <-map_app, map_same by (intros; apply expired_same). rewrite <-R. apply has_host_in. by apply M.
Qed.

(** [relisted_host_stays_disabled]: a host that fell off the list and is listed again
    keeps its disabled row: the insertion skips it and nothing enables it. *)
Theorem relisted_host_stays_disabled list_date list_rows now s r : r ∈ rows s -> in_enabled r = 0 -> host r ∈ tranco_domains list_rows ->
  r ∈ rows (fst (sync_tranco_infra_classifications list_date list_rows now s)).
Proof.
  intros I E L. unfold sync_tranco_infra_classifications. destruct (tranco_domains list_rows) as [|d ds]; [by apply not_elem_of_nil in L|]. unfold _apply_tranco_snapshot.
  destruct (bulk_spec (d :: ds) LEGITIMATE_DOMAIN ("tranco:" +:+ (if nonempty list_date then list_date else stake 10 now)) "" now s) as ((l & R & _) & _).
  destruct (bulk_insert_infra_classifications _ _ _ _ _ _) as [s1 n]. cbn [fst] in R.
  pose proof (expire_rows (d :: ds) now s1 ltac:(done)) as X. destruct (expire_superseded_tranco_hosts (d :: ds) now s1) as [s2 k]. cbn [fst] in X |- *. subst s2. cbn [rows].
  apply list_elem_of_fmap. exists r. split; [unfold expired; by rewrite E|]. rewrite R. apply elem_of_app. by left.
Qed.

Lemma filter_NoDup_map {A B} (g : A -> B) (p : A -> bool) l : NoDup (map g l) -> NoDup (map g (List.filter p l)).
Proof.
  induction l as [|x l IH]; cbn; [done|]. intros [N D]%NoDup_cons. destruct (p x); cbn; [|by apply IH].
  apply NoDup_cons. split; [|by apply IH]. intros I. apply N. apply list_elem_of_fmap in I as (y & -> & I).
  apply list_elem_of_fmap. exists y. split; [done|]. apply list_elem_of_In in I. apply list_elem_of_In. apply filter_In in I. by destruct I.
Qed.

Section histories.
Context (str_of : pyval -> string).

Lemma seed_well_formed seed now s : well_formed s -> well_formed (fst (seed_infra_classifications seed now s)).
Proof.
  unfold seed_infra_classifications. intros W. apply (fold_left_inv (fun acc => well_formed (fst acc))); [|exact W].
  intros [s0 w] [[h c] y] _ H. pose proof (insert_well_formed s0 h c 1 "curated" y "" now H) as K. by destruct (insert_missing _ _ _ _ _ _ _ _).
Qed.

Lemma changed_same c now r : host (changed c now r) = host r /\ id (changed c now r) = id r.
Proof. unfold changed. by destruct (some_change c). Qed.

(** [one_row_per_host]: whatever is done to the table, it has one row per host, and
    identifiers that are all different. *)
Theorem one_row_per_host ops s : well_formed s -> well_formed (fold_left (perform str_of) ops s).
Proof.
  intros W. apply fold_left_inv; [|exact W]. clear. intros s o _ W. destruct o as [seed now|d l now|body now|i body now|i]; cbn [perform].
  - by apply seed_well_formed.
  - unfold sync_tranco_infra_classifications. destruct (tranco_domains l) as [|h hs]; [done|]. unfold _apply_tranco_snapshot.
    destruct (bulk_spec (h :: hs) LEGITIMATE_DOMAIN ("tranco:" +:+ (if nonempty d then d else stake 10 now)) "" now s) as (_ & _ & K).
    destruct (bulk_insert_infra_classifications _ _ _ _ _ _) as [s1 n]. cbn [fst] in K.
    pose proof (expire_rows (h :: hs) now s1 ltac:(done)) as X. destruct (expire_superseded_tranco_hosts (h :: hs) now s1) as [s2 k]. cbn [fst] in X |- *. subst s2.
    apply map_well_formed; [intros; apply expired_same|]. destruct s1. by apply K.
  - unfold create_infra_classification, bind. destruct (host_of _) as [h| |]; [|done..]. destruct (_ || _); [done|].
    destruct (_validate_classification _) as [c| |]; [|done..]. destruct (_bool_int _) as [e| |]; [|done..]. destruct (has_host s h) eqn:K; [done|]. cbn [kept].
    set (prov := if nonempty _ then _ else _). pose proof (insert_well_formed s h c e prov (clipped str_of 500 (or_blank (dget body "reason"))) (clipped str_of 1000 (or_blank (dget body "notes"))) now W) as G.
    unfold insert_missing in G. by rewrite K in G.
  - unfold update_infra_classification_route, bind. destruct (read_changes _ _) as [c| |]; [|done..]. unfold update_infra_classification.
    destruct (List.find _ _) as [r|]; [|done]. cbn [kept]. apply map_well_formed; [|by destruct s]. intros r'. destruct (_ =? _); [apply changed_same|done].
  - unfold delete_infra_classification_route. destruct (existsb _ _); [|done]. destruct W as (H & I & B). unfold well_formed. cbn [rows next_id].
    split; [by apply filter_NoDup_map|]. split; [by apply filter_NoDup_map|]. by apply Forall_lfilter.
Qed.

End histories.

(** ** Witnesses *)

Definition tranco_list : list (list string) := [["1"; "Example.com."]; ["2"; "www.example.org"]; ["broken"]; ["4"; "localhost"]].
Definition tranco_row (i : Z) (h : string) (e : Z) : infra := mkInfra i h LEGITIMATE_DOMAIN e "tranco:2026-07-01" "" "" "2026-07-01" "2026-07-01".
Definition july : store := mkStore [tranco_row 1 "example.com" 0; tranco_row 2 "gone.example" 1] 3.

Lemma sync_effect_witness :
  rows (fst (sync_tranco_infra_classifications "2026-07-08" tranco_list "2026-07-08" july)) =
    [tranco_row 1 "example.com" 0;
     mkInfra 2 "gone.example" LEGITIMATE_DOMAIN 0 "tranco:2026-07-01" "" "" "2026-07-01" "2026-07-08";
     mkInfra 4 "example.org" LEGITIMATE_DOMAIN 1 "tranco:2026-07-08" "" "" "2026-07-08" "2026-07-08"] /\
  exists fresh, rows (fst (sync_tranco_infra_classifications "2026-07-08" tranco_list "2026-07-08" july)) =
      (map (expired (tranco_domains tranco_list) "2026-07-08") (rows july) ++ fresh)%list /\
    Forall (fun r => host r ∈ tranco_domains tranco_list /\ has_host july (host r) = false /\ in_enabled r = 1 /\ from_tranco r = true) fresh /\
    (forall h, h ∈ tranco_domains tranco_list -> has_host (fst (sync_tranco_infra_classifications "2026-07-08" tranco_list "2026-07-08" july)) h = true).
Proof. split; [vm_compute; reflexivity|]. apply (sync_effect "2026-07-08" tranco_list "2026-07-08" july). vm_compute. discriminate. Defined.

Lemma relisted_host_stays_disabled_witness :
  "example.com" ∈ tranco_domains tranco_list /\
  tranco_row 1 "example.com" 0 ∈ rows (fst (sync_tranco_infra_classifications "2026-07-08" tranco_list "2026-07-08" july)).
Proof. split; [by left|]. apply relisted_host_stays_disabled; [by left|reflexivity|by left]. Defined.

(** A year of the table: the seed, an import, an operator's row and its change, a
    deletion and a second import. *)
Definition table_ops : list op :=
  [Seed [("github.com", "SHARED_LEGITIMATE_INFRASTRUCTURE", "code host"); ("example.org", "TRUSTED_SERVICE", "docs")] "t0";
   Sync "2026-07-08" tranco_list "t1";
   Create [("host", PStr "CDN.example.net"); ("classification", PStr "trusted_service")] "t2";
   Create [("host", PStr "github.com"); ("classification", PStr "UNKNOWN")] "t2";
   Update 1 [("enabled", PBool false)] "t3"; Delete 2; Sync "" tranco_list "2026-08-01"].

Lemma one_row_per_host_witness :
  map host (rows (fold_left (perform (fun _ => "")) table_ops (mkStore [] 1))) = ["github.com"; "example.com"; "cdn.example.net"; "example.org"] /\
  well_formed (fold_left (perform (fun _ => "")) table_ops (mkStore [] 1)).
Proof. split; [vm_compute; reflexivity|]. apply one_row_per_host. repeat split; constructor. Defined.
