(* ===== verification/IocGraph.v ===== *)
(** * IocGraph: correlation/ioc_graph.py, correlation/confirm.py

    The CVEs that share an indicator with a CVE through the pulses that name both: the
    join of otx_pulse_iocs with itself, the confidence of each shared indicator
    ([Confidence], with the corroboration of [SourceEvidence] and the cached
    confirmations), and the ranking of the peers.  A table is the list of its rows; the
    digest of an indicator and the JSON parser are parameters, [set_order] is the order in
    which Python iterates a set of texts. *)

From Stdlib Require Import Sorted.
From S2P Require Import Prelude PyStr DecText PyVal Float64 Dates CveRow Pacing Ioc Campaigns Confidence SourceEvidence.
Open Scope string_scope.
Open Scope Z_scope.

(** ** The tables *)

Record ioc_row := mkIoc {
  io_pulse : string; io_type : string; io_value : string; io_digest : string; io_observed_at : option string; io_fetched_at : option string }.
Record link := mkLink { l_cve : string; l_pulse : string; l_created : option string; l_adversary : option string }.
(** The cache of indicator look-ups: the value, the JSON stored and its time. *)
Record cached := mkCached { c_value : string; c_result : string; cached_at : string }.

Record tables := mkTables {
  iocs : list ioc_row; links : list link; cve_ids : list string; degrees : list (string * string * Z);
  mirror : list mirror_row; ioc_cache : list cached }.

(** ** The join *)

(** [_SHARED_IOC_DIGEST_JOIN] *)
Definition same_ioc (oi oi2 : ioc_row) : bool :=
  String.eqb (io_type oi2) (io_type oi) &&
  ((nonempty (io_digest oi) && nonempty (io_digest oi2) && String.eqb (io_digest oi2) (io_digest oi)) ||
   ((negb (nonempty (io_digest oi)) || negb (nonempty (io_digest oi2))) && String.eqb (lower (io_value oi2)) (lower (io_value oi)))).

Definition tags (t : tables) (cve pulse : string) : bool := existsb (fun l => String.eqb (l_cve l) cve && String.eqb (l_pulse l) pulse) (links t).

(** [COALESCE(deg.cve_count, 0)] *)
Definition degree_of (t : tables) (ty value : string) : Z :=
  match List.find (fun d => String.eqb (fst (fst d)) ty && String.eqb (snd (fst d)) value) (degrees t) with Some (_, n) => n | None => 0 end.

(** The peers of one indicator of the CVE, through the pulses that hold it too. *)
Definition peers_through (t : tables) (cve : string) (oi : ioc_row) : list string :=
  flat_map (fun oi2 => if same_ioc oi oi2 then
      map l_cve (List.filter (fun l => String.eqb (l_pulse l) (io_pulse oi2) && negb (String.eqb (l_cve l) cve) && one_in (cve_ids t) (l_cve l)) (links t))
    else []) (iocs t).

Definition joined (t : tables) (cve : string) : list (string * ioc_row) :=
  flat_map (fun oi => if tags t cve (io_pulse oi) then map (fun peer => (peer, oi)) (peers_through t cve oi) else []) (iocs t).

(** MAX over texts, NULLs apart. *)
Definition max_text (l : list (option string)) : option string :=
  fold_left (fun acc o => match acc, o with Some a, Some b => Some (if String.ltb a b then b else a) | None, _ => o | _, None => acc end) l None.

Record shared := mkShared { s_peer : string; s_type : string; s_value : string; s_observed_at : option string; s_fetched_at : option string; s_degree : Z }.

Abbreviation group_key := (string * string * string)%type.
Definition key_of_row (r : string * ioc_row) : group_key := (fst r, io_type (snd r), io_value (snd r)).
Definition same_key (a b : group_key) : bool := if decide (a = b) then true else false.

(** The groups, ORDER BY the peer; inside a peer SQL leaves the order open. *)
Definition grouped (t : tables) (rows : list (string * ioc_row)) : list shared :=
  sort_on (fun a b => String.ltb (s_peer a) (s_peer b))
    (map (fun k => let group := List.filter (fun r => same_key (key_of_row r) k) rows in
                   mkShared (fst (fst k)) (snd (fst k)) (snd k) (max_text (map (fun r => io_observed_at (snd r)) group))
                     (max_text (map (fun r => io_fetched_at (snd r)) group)) (degree_of t (snd (fst k)) (snd k)))
       (remove_dups (map key_of_row rows))).

(** [d.setdefault(k, \[\]).append(x)] *)
Definition append_at {A} (d : list (string * list A)) (kx : string * A) : list (string * list A) :=
  dset d (fst kx) ((match assoc (fst kx) d with Some l => l | None => [] end) ++ [snd kx])%list.

Section graph.
Context {lib : MathLib}.
Variable env : string -> option string.
Variable digest : string -> string.
Variable json_loads : string -> option pyval.
Variable set_order : gset string -> list string.

Definition _shared_ioc_rows (t : tables) (cve_id : string) : res (list shared) :=
  let cve := upper cve_id in
  let! hub_cap := get_hub_cve_pulse_cap env in
  Ok (grouped t (List.filter (fun r => degree_of t (io_type (snd r)) (io_value (snd r)) <=? hub_cap) (joined t cve))).

Definition count_hub_suppressed_ioc_peers (t : tables) (cve_id : string) : res Z :=
  let cve := upper cve_id in
  let! hub_cap := get_hub_cve_pulse_cap env in
  Ok (Z.of_nat (length (remove_dups (map fst (List.filter (fun r => hub_cap <? degree_of t (io_type (snd r)) (io_value (snd r))) (joined t cve)))))).

(** ** correlation/confirm.py *)

Definition confirmations_enabled : bool := negb (one_in ["0"; "false"; "False"] (strip (env_get env "CORRELATION_CONFIRM_ENABLED" "1"))).

(** [cached.get(k) or {}], whose [get] is called next. *)
Definition section_of (d : list (string * pyval)) (k : string) : res (list (string * pyval)) :=
  let v := dget d k in if truthy v then match v with PDict e => Ok e | _ => Raise AttributeError end else Ok [].

Definition _parse_confirmations (v : pyval) : res confirmations :=
  match v with
  | PDict d =>
      let! gn := section_of d "greynoise" in
      let! raw := (let c := dget gn "classification" in if truthy c then strip_of c else Ok "") in
      let classification := lower raw in
      let! uh := section_of d "urlhaus" in
      Ok (mkConfirmations (if nonempty classification then Some classification else None)
            (truthy (dget d "malwarebazaar_sentence") || truthy (dget d "malwarebazaar"))
            (eq_str (dget uh "url_status") "online" || truthy (dget d "urlhaus_sentence")))
  | _ => Raise AttributeError
  end.

(** The rows of ioc_cache for these values that are younger than the cutoff; the value is
    the key of the table. *)
Definition confirmations_for_iocs_batch (t : tables) (cutoff : string) (values : list string) : res (list (string * confirmations)) :=
  if negb confirmations_enabled || negb (nonempty_list values) then Ok []
  else
    let! loaded := map_res (fun c => match json_loads (c_result c) with Some v => Ok (c_value c, v) | None => Raise ValueError end)
                     (List.filter (fun c => one_in values (c_value c) && String.ltb cutoff (cached_at c)) (ioc_cache t)) in
    map_res (fun cv => let! p := _parse_confirmations (snd cv) in Ok (fst cv, p)) loaded.

Definition confirmation_receipt (c : option confirmations) : option string :=
  match c with
  | None => None
  | Some c =>
      let parts := ((match greynoise c with Some g => if nonempty g then ["GreyNoise: " +:+ g] else [] | None => [] end) ++
                    (if malwarebazaar c then ["MalwareBazaar: sample seen"] else []) ++ (if urlhaus_active c then ["URLhaus: active URL"] else []))%list in
      if nonempty_list parts then Some (sjoin "; " parts) else None
  end.

(** ** find_shared_infrastructure_v2 *)

Record edge := mkEdge {
  e_type : string; e_value : string; e_confidence : string; e_why : option string; e_factors : list factor;
  e_observed_at : option string; e_ingested_at : option string; e_corroborated_by : list string; e_confirmation : option string }.

(** freshness_factor, freshness_reason and freshness_fallback: those of the first factor of that name. *)
Definition e_freshness (e : edge) : option factor := List.find (fun f => String.eqb (f_name f) "freshness") (e_factors e).

Definition edge_of (hits : list (edge_key * mirror_row)) (confirmed : list (string * confirmations)) (now : Z) (row : shared) : res (string * edge) :=
  let confirmations := assoc (s_value row) confirmed in
  let noise := String.eqb (upper (s_type row)) "IP" && is_noise_ip (s_value row) in
  let! key := ioc_edge_key (s_type row) (s_value row) in
  let rows := match key with Some k => hits_of hits k | None => [] end in
  let corroborated_by := map (fun r => corroboration_receipt (m_source r) (m_ref_id r)) (List.filter (fun r => nonempty (m_source r) && nonempty (m_ref_id r)) rows) in
  let! p := confidence_for_ioc_edge env (s_type row) (match confirmations with Some c => c | None => mkConfirmations None false false end) noise (s_degree row)
              (s_observed_at row) (s_fetched_at row) now corroborated_by in
  let '(conf, why, factors) := p in
  Ok (s_peer row, mkEdge (s_type row) (s_value row) conf why factors (s_observed_at row) (s_fetched_at row) corroborated_by (confirmation_receipt confirmations)).

(** HASH, DOMAIN, URL and IP edges. *)
Definition kind_of (ty : string) : string := ip_alias (upper ty).
Definition count_kind (kind : string) (edges : list edge) : Z := Z.of_nat (length (List.filter (fun e => String.eqb (kind_of (e_type e)) kind) edges)).
Definition _count_by_type (edges : list edge) : list (string * Z) :=
  map (fun k => (k, count_kind k edges)) ["IP"; "DOMAIN"; "HASH"; "URL"].

(** confidence.py: [aggregate_infrastructure_confidence]; the evidence is a projection of the edges. *)
Record evidence := mkEvidence {
  v_type : string; v_value : string; v_confirmation : option string; v_observed_at : option string; v_ingested_at : option string;
  v_freshness : option factor; v_corroborated_by : list string }.
Definition evidence_of (e : edge) : evidence :=
  mkEvidence (e_type e) (e_value e) (e_confirmation e) (e_observed_at e) (e_ingested_at e) (e_freshness e) (e_corroborated_by e).

Definition aggregate_infrastructure_confidence (edges : list edge) : string * list evidence * option string * list factor :=
  match edges with
  | [] => ("low", [], None, [])
  | _ =>
      let confidence := level_at (fold_left (fun m e => Z.max m (_level_index (e_confidence e))) edges 0) in
      let at_level := List.filter (fun e => String.eqb (e_confidence e) confidence) edges in
      (confidence, map evidence_of edges,
       match omap (fun e => match e_why e with Some w => if nonempty w then Some w else None | None => None end) at_level with w :: _ => Some w | [] => None end,
       match List.filter nonempty_list (map e_factors at_level) with f :: _ => f | [] => [] end)
  end.

Record peer := mkPeer {
  p_cve : string; p_ip : Z; p_domain : Z; p_hash : Z; p_url : Z; p_count : Z; p_confidence : string; p_evidence : list evidence;
  p_sources : list string; p_why : option string; p_factors : list factor }.

(** "otx", then the prefixes of the receipts in the order of a set. *)
Definition sources_of (edges : list edge) : list string :=
  let prefixes := list_to_set (omap (fun r => option_map fst (split_once ":" r)) (flat_map e_corroborated_by edges)) : gset string in
  fold_left (fun acc p => if one_in acc p then acc else acc ++ [p])%list (set_order prefixes) ["otx"].

Definition peer_of (pe : string * list edge) : peer :=
  let '(cve, edges) := pe in
  let counts := _count_by_type edges in
  let '(confidence, evidence, why, factors) := aggregate_infrastructure_confidence edges in
  let n k := match assoc k counts with Some n => n | None => 0 end in
  mkPeer cve (n "IP") (n "DOMAIN") (n "HASH") (n "URL") (fold_left Z.add (map snd counts) 0) confidence evidence (sources_of edges) why factors.

Definition _CONFIDENCE_RANK : list (string * Z) := [("low", 0); ("medium", 1); ("high", 2)].
Definition rank (p : peer) : list Z :=
  [- (match assoc (p_confidence p) _CONFIDENCE_RANK with Some r => r | None => 0 end); - p_hash p; - p_domain p; - p_url p; - p_ip p].

(** Tuples of numbers that end in a text. *)
Fixpoint tuple_lt (a b : list Z) (last : bool) : bool :=
  match a, b with x :: a, y :: b => if x <? y then true else if y <? x then false else tuple_lt a b last | _, _ => last end.
Definition peer_lt (a b : peer) : bool := tuple_lt (rank a) (rank b) (String.ltb (p_cve a) (p_cve b)).

Definition ranked_peers (t : tables) (cve_id cutoff : string) (now : Z) : res (list peer) :=
  let! rows := _shared_ioc_rows t cve_id in
  let! confirmed := confirmations_for_iocs_batch t cutoff (map s_value rows) in
  let! hits := batch_source_evidence digest (mirror t) (map (fun r => (s_type r, s_value r)) rows) [] in
  let! edges := map_res (edge_of hits confirmed now) rows in
  Ok (sort_on peer_lt (map peer_of (fold_left append_at edges []))).

Definition find_shared_infrastructure_v2 (t : tables) (cve_id cutoff : string) (now : Z) (limit : Z) : res (list peer) :=
  let! all := ranked_peers t cve_id cutoff now in Ok (slice_to limit all).

End graph.

(** ** The edges of a campaign *)

(** [batch_ioc_edges_for_peers]: the indicators shared with each of these peers; no degree is asked for. *)
Definition batch_ioc_edges_for_peers (t : tables) (cve_id : string) (peers : list string) : list (string * list (string * string)) :=
  let cve := upper cve_id in
  let pairs := flat_map (fun oi => if tags t cve (io_pulse oi) then
      flat_map (fun oi2 => if same_ioc oi oi2 then
          map (fun l => (l_cve l, (io_type oi, io_value oi)))
            (List.filter (fun l => String.eqb (l_pulse l) (io_pulse oi2) && one_in (map upper peers) (l_cve l)) (links t))
        else []) (iocs t)
    else []) (iocs t) in
  if negb (nonempty_list peers) then []
  else fold_left append_at (remove_dups pairs) [].

(** [related_cves_for_ioc] *)
Definition related_cves_for_ioc (digest : string -> string) (t : tables) (ioc_type ioc_value : string) (limit : Z) : res (list string) :=
  let! n := normalize_ioc ioc_type ioc_value in
  match n with
  | None => Ok []
  | Some (canon_type, canon_value, _) =>
      let matches oi := String.eqb (lower (io_type oi)) (lower canon_type) &&
        (String.eqb (io_digest oi) (digest canon_value) || (negb (nonempty (io_digest oi)) && String.eqb (lower (io_value oi)) (lower canon_value))) in
      let found := flat_map (fun oi => if matches oi then map l_cve (List.filter (fun l => String.eqb (l_pulse l) (io_pulse oi) && one_in (cve_ids t) (l_cve l)) (links t)) else []) (iocs t) in
      Ok (firstn (Z.to_nat limit) (sorted_distinct found))
  end.

(** ** Dictionaries of lists *)

Lemma append_at_keys {A} (l : list (string * A)) d : NoDup (map fst d) -> NoDup (map fst (fold_left append_at l d)).
Proof. revert d. induction l as [|kx l IH]; intros d N; [done|]. apply IH, nodup_dset, N. Qed.

Definition at_key {A} (k : string) (l : list (string * A)) : list A := map snd (List.filter (fun kx => String.eqb (fst kx) k) l).

(** What a key holds: what it held, then what was appended under it. *)
Lemma append_at_assoc {A} (l : list (string * A)) d k :
  assoc k (fold_left append_at l d) = match at_key k l with [] => assoc k d | g => Some ((match assoc k d with Some o => o | None => [] end) ++ g)%list end.
Proof.
  revert d. induction l as [|[k' x] l IH]; intros d; [done|]. cbn [fold_left]. rewrite IH. unfold append_at, at_key. cbn [fst snd List.filter]. rewrite assoc_dset.
  destruct (String.eqb_spec k' k) as [->|N]; cbn [map]; [|done]. destruct (map snd (List.filter _ l)) as [|y g]; [done|]. by rewrite <-app_assoc.
Qed.

Lemma assoc_at {A} k (v : A) d : NoDup (map fst d) -> In (k, v) d <-> assoc k d = Some v.
Proof.
  induction d as [|[k' v'] d IH]; [done|]. cbn [map assoc In]. intros [N ND]%NoDup_cons. destruct (String.eqb_spec k' k) as [->|E].
  - split; [intros [[= ->]|I]; [done|]|intros [= ->]; by left]. exfalso. apply N, list_elem_of_In, in_map_iff. by exists (k, v).
  - rewrite <-IH by done. split; [intros [[= <- _]|I]; [done|done]|by right].
Qed.

(** The groups of a list of pairs: one for each key, of what stands under it. *)
Lemma append_at_groups {A} (l : list (string * A)) k g : In (k, g) (fold_left append_at l []) <-> g = at_key k l /\ In k (map fst l).
Proof.
  rewrite assoc_at by (apply append_at_keys; constructor). rewrite append_at_assoc. cbn [assoc].
  assert (In k (map fst l) <-> at_key k l <> []) as ->.
  { unfold at_key. induction l as [|[k' x] l IH]; [done|]. cbn [map fst In List.filter]. destruct (String.eqb_spec k' k) as [->|N]; [by split; [intros _|by left]|]. rewrite <-IH. naive_solver. }
  destruct (at_key k l) as [|y g']; [naive_solver|]. cbn. naive_solver.
Qed.

(** ** The join *)

Lemma same_ioc_sym oi oi2 : same_ioc oi oi2 = same_ioc oi2 oi.
Proof.
  unfold same_ioc. rewrite (String.eqb_sym (io_type oi)), (String.eqb_sym (io_digest oi)), (String.eqb_sym (lower (io_value oi))).
  f_equal. f_equal; [|by rewrite orb_comm]. by rewrite (andb_comm (nonempty (io_digest oi))).
Qed.

Lemma tags_spec t cve pulse : tags t cve pulse = true <-> exists l, In l (links t) /\ l_cve l = cve /\ l_pulse l = pulse.
Proof.
  unfold tags. rewrite existsb_exists. split; intros (l & I & H); exists l; (split; [done|]).
  - by apply andb_true_iff in H as [->%String.eqb_eq ->%String.eqb_eq].
  - destruct H as [-> ->]. by rewrite !String.eqb_refl.
Qed.

Lemma joined_spec t cve b oi : In (b, oi) (joined t cve) <->
  In oi (iocs t) /\ tags t cve (io_pulse oi) = true /\ b <> cve /\ In b (cve_ids t) /\ exists oi2, In oi2 (iocs t) /\ same_ioc oi oi2 = true /\ tags t b (io_pulse oi2) = true.
Proof.
  unfold joined. rewrite in_flat_map. split.
  - intros (o & I & H). destruct (tags t cve (io_pulse o)) eqn:T; [|done]. apply in_map_iff in H as (p & [= <- <-] & H).
    unfold peers_through in H. apply in_flat_map in H as (oi2 & I2 & H). destruct (same_ioc o oi2) eqn:S; [|done].
    apply in_map_iff in H as (l & <- & [Il H]%filter_In). apply andb_true_iff in H as [[P N]%andb_true_iff K]. apply String.eqb_eq in P.
    apply negb_true_iff, String.eqb_neq in N. apply one_in_spec, list_elem_of_In in K. repeat split; try done. exists oi2. repeat split; try done. apply tags_spec. by exists l.
  - intros (I & T & N & K & oi2 & I2 & S & (l & Il & <- & P)%tags_spec). exists oi. rewrite T. split; [done|]. apply in_map_iff. exists (l_cve l). split; [done|]. unfold peers_through. apply in_flat_map.
    exists oi2. rewrite S. split; [done|]. apply in_map, filter_In. split; [done|]. rewrite P, String.eqb_refl. apply String.eqb_neq in N. rewrite N. by apply one_in_spec, list_elem_of_In.
Qed.

(** Two CVEs share an indicator that is not a hub. *)
Definition shares (t : tables) (cap : Z) (a b : string) : Prop :=
  exists oi oi2, In oi (iocs t) /\ In oi2 (iocs t) /\ same_ioc oi oi2 = true /\ tags t a (io_pulse oi) = true /\ tags t b (io_pulse oi2) = true /\
    degree_of t (io_type oi) (io_value oi) <= cap.

Lemma grouped_peers t rows b : In b (map s_peer (grouped t rows)) <-> In b (map fst rows).
Proof.
  unfold grouped. rewrite sort_on_perm, map_map, !in_map_iff. split.
  - intros (k & <- & I). apply list_elem_of_In, elem_of_remove_dups, list_elem_of_In, in_map_iff in I as (r & <- & I). by exists r.
  - intros (r & <- & I). exists (key_of_row r). split; [done|]. apply list_elem_of_In, elem_of_remove_dups, list_elem_of_In, in_map, I.
Qed.

Lemma grouped_degree t rows s : In s (grouped t rows) -> exists r, In r rows /\ s_peer s = fst r /\ s_type s = io_type (snd r) /\ s_value s = io_value (snd r) /\ s_degree s = degree_of t (io_type (snd r)) (io_value (snd r)).
Proof.
  unfold grouped. rewrite sort_on_perm. intros (k & <- & I)%in_map_iff. apply list_elem_of_In, elem_of_remove_dups, list_elem_of_In, in_map_iff in I as (r & <- & I). by exists r.
Qed.

Section facts.
Context {lib : MathLib}.
Variable env : string -> option string.
Variable digest : string -> string.
Variable json_loads : string -> option pyval.
Variable set_order : gset string -> list string.
Abbreviation ranked := (ranked_peers env digest json_loads set_order).
Abbreviation find_shared := (find_shared_infrastructure_v2 env digest json_loads set_order).

(** How a ranking comes about: each row of the join gives an edge of its peer. *)
Lemma ranked_from t cve cutoff now all : ranked t cve cutoff now = Ok all ->
  exists cap hits confirmed edges, get_hub_cve_pulse_cap env = Ok cap /\
    map_res (edge_of env hits confirmed now) (grouped t (List.filter (fun r => degree_of t (io_type (snd r)) (io_value (snd r)) <=? cap) (joined t (upper cve)))) = Ok edges /\
    all = sort_on peer_lt (map (peer_of set_order) (fold_left append_at edges [])).
Proof.
  unfold ranked_peers, _shared_ioc_rows. intros H. destruct (get_hub_cve_pulse_cap env) as [cap|]; [|done]. cbn [res_bind] in H. set (rows := grouped _ _) in *.
  destruct (confirmations_for_iocs_batch _ _ _ _ _) as [confirmed|]; [|done]. cbn [res_bind] in H. destruct (batch_source_evidence _ _ _ _) as [hits|]; [|done]. cbn [res_bind] in H.
  destruct (map_res _ rows) as [edges|] eqn:E; [|done]. cbn [res_bind] in H. apply ok_inj in H. by exists cap, hits, confirmed, edges.
Qed.

Lemma edge_of_peer hits confirmed now row pe : edge_of env hits confirmed now row = Ok pe -> fst pe = s_peer row.
Proof.
  unfold edge_of. destruct (ioc_edge_key _ _); [|done]. cbn [res_bind]. destruct (confidence_for_ioc_edge _ _ _ _ _ _ _ _ _) as [[[c w] f]|]; [|done]. cbn [res_bind]. intros H.
  by apply ok_inj in H as <-.
Qed.

Lemma edges_in hits confirmed now rows edges : map_res (edge_of env hits confirmed now) rows = Ok edges ->
  map fst edges = map s_peer rows /\ forall pe, In pe edges -> exists row, In row rows /\ edge_of env hits confirmed now row = Ok pe.
Proof.
  revert edges. induction rows as [|row rows IH]; intros edges; cbn [map_res]; [intros H; apply ok_inj in H as <-; done|].
  destruct (edge_of env hits confirmed now row) as [pe|] eqn:E; [|done]. cbn [res_bind]. destruct (map_res _ rows) as [es|]; [|done]. cbn [res_bind]. intros H. apply ok_inj in H as <-.
  destruct (IH es eq_refl) as [A B]. split; [cbn [map]; by rewrite A, (edge_of_peer _ _ _ _ _ E)|]. intros p [<-|I]; [exists row; by split; [left|]|].
  destruct (B p I) as (r & R & X). exists r. by split; [right|].
Qed.

Lemma p_cve_of pe : p_cve (peer_of set_order pe) = fst pe.
Proof. destruct pe as [k g]. unfold peer_of. by destruct (aggregate_infrastructure_confidence g) as [[[? ?] ?] ?]. Qed.

Lemma peers_spec t cve cutoff now all : ranked t cve cutoff now = Ok all -> exists cap, get_hub_cve_pulse_cap env = Ok cap /\
  forall b, In b (map p_cve all) <-> b <> upper cve /\ In b (cve_ids t) /\ shares t cap (upper cve) b.
Proof.
  intros H. apply ranked_from in H as (cap & hits & confirmed & edges & C & E & ->). apply edges_in in E as [K _]. exists cap. split; [done|]. intros b.
  rewrite sort_on_perm, map_map, (map_ext _ fst) by apply p_cve_of. rewrite in_map_iff.
  assert ((exists x, fst x = b /\ In x (fold_left append_at edges [])) <-> In b (map fst edges)) as ->.
  { split; [intros ([k g] & <- & [_ I]%append_at_groups); done|]. intros I. exists (b, at_key b edges). split; [done|]. by apply append_at_groups. }
  rewrite K, grouped_peers, in_map_iff. unfold shares. split.
  - intros ([b' oi] & [= ->] & [(I & T & N & Kn & oi2 & I2 & S & T2)%joined_spec D%Z.leb_le]%filter_In). cbn [snd] in D. repeat split; try done. by exists oi, oi2.
  - intros (N & Kn & oi & oi2 & I & I2 & S & T & T2 & D). exists (b, oi). split; [done|]. apply filter_In. split; [apply joined_spec; repeat split; try done; by exists oi2|]. cbn [snd]. by apply Z.leb_le.
Qed.

(** C36 [peers_share_an_indicator]: before its cut the ranking lists, each once, exactly the other known CVEs that
    share with the CVE an indicator seen in no more CVEs than the hub cap. *)
Theorem peers_share_an_indicator t cve cutoff now all : ranked t cve cutoff now = Ok all ->
  NoDup (map p_cve all) /\
  exists cap, get_hub_cve_pulse_cap env = Ok cap /\
    forall b, In b (map p_cve all) <-> b <> upper cve /\ In b (cve_ids t) /\ shares t cap (upper cve) b.
Proof.
  intros H. split; [|by eapply peers_spec]. apply ranked_from in H as (cap & hits & confirmed & edges & _ & _ & ->).
  rewrite sort_on_perm, map_map, (map_ext _ fst) by apply p_cve_of. apply append_at_keys. constructor.
Qed.

(** [sharing_is_symmetric]: where the spellings of one indicator have one degree, a CVE lists another exactly if it is listed by it. *)
Theorem sharing_is_symmetric t a b cutoff cutoff' now now' la lb : ranked t a cutoff now = Ok la -> ranked t b cutoff' now' = Ok lb ->
  (forall oi oi2, In oi (iocs t) -> In oi2 (iocs t) -> same_ioc oi oi2 = true -> degree_of t (io_type oi) (io_value oi) = degree_of t (io_type oi2) (io_value oi2)) ->
  In (upper a) (cve_ids t) -> In (upper b) (map p_cve la) -> In (upper a) (map p_cve lb).
Proof.
  intros A B D K I. destruct (peers_spec _ _ _ _ _ A) as (cap & C & PA). destruct (peers_spec _ _ _ _ _ B) as (cap' & C' & PB).
  rewrite C in C'. apply ok_inj in C' as <-. destruct (proj1 (PA _) I) as (N & _ & oi & oi2 & I1 & I2 & S & T & T2 & L). apply PB. split; [congruence|]. split; [done|].
  exists oi2, oi. rewrite same_ioc_sym, <-(D oi oi2) by done. by repeat split.
Qed.

(** ** The ranking *)

Lemma tuple_lt_asym a b t1 t2 : length a = length b -> (t1 = true -> t2 = false) -> tuple_lt a b t1 = true -> tuple_lt b a t2 = false.
Proof.
  revert b. induction a as [|x a IH]; intros [|y b] L T; cbn [tuple_lt]; try done. injection L as L.
  destruct (Z.ltb_spec x y), (Z.ltb_spec y x); try lia; try done. by apply IH.
Qed.

Lemma tuple_not_after a b c t1 t2 t3 : length a = length b -> length b = length c -> (t1 = false -> t2 = false -> t3 = false) ->
  tuple_lt b a t1 = false -> tuple_lt c b t2 = false -> tuple_lt c a t3 = false.
Proof.
  revert b c. induction a as [|x a IH]; intros [|y b] [|z c] L M T; cbn [tuple_lt]; try done. injection L as L. injection M as M.
  destruct (Z.ltb_spec y x), (Z.ltb_spec x y), (Z.ltb_spec z y), (Z.ltb_spec y z), (Z.ltb_spec z x), (Z.ltb_spec x z); try lia; try done. by apply IH.
Qed.

Lemma ltb_not_after a b c : String.ltb b a = false -> String.ltb c b = false -> String.ltb c a = false.
Proof.
  intros A B. apply not_true_is_false. intros C. destruct (ltb_total b a A) as [->|L]; [congruence|].
  rewrite (ltb_trans _ _ _ C L) in B. done.
Qed.

Lemma peer_lt_asym a b : peer_lt a b = true -> peer_lt b a = false.
Proof.
  apply tuple_lt_asym; [done|]. intros L. apply not_true_is_false. intros M. pose proof (ltb_trans _ _ _ L M) as X. by rewrite ltb_irrefl in X.
Qed.

Lemma peer_not_after a b c : not_after peer_lt a b -> not_after peer_lt b c -> not_after peer_lt a c.
Proof. unfold not_after, peer_lt. intros A B. eapply tuple_not_after; [| | |exact A|exact B]; [done|done|]. apply ltb_not_after. Qed.

Lemma rank_of_level l : match assoc l _CONFIDENCE_RANK with Some r => r | None => 0 end = _level_index l.
Proof.
  unfold _CONFIDENCE_RANK, _level_index. cbn [assoc]. destruct (String.eqb_spec "low" l) as [<-|N]; [done|]. rewrite !(String.eqb_sym l).
  by destruct (String.eqb "medium" l), (String.eqb "high" l).
Qed.

Lemma peer_lt_level a b : peer_lt b a = false -> _level_index (p_confidence b) <= _level_index (p_confidence a).
Proof.
  unfold peer_lt, rank. rewrite !rank_of_level. cbn [tuple_lt]. destruct (Z.ltb_spec (- _level_index (p_confidence b)) (- _level_index (p_confidence a))); [done|]. intros _. lia.
Qed.

(** [strongest_peers_are_kept]: the list is the start of the full ranking, and no peer left out has a
    higher confidence than one that is shown. *)
Theorem strongest_peers_are_kept t cve cutoff now limit shown : 0 <= limit -> find_shared t cve cutoff now limit = Ok shown ->
  exists all, ranked t cve cutoff now = Ok all /\ shown = firstn (Z.to_nat limit) all /\
    forall p q, In p shown -> In q (skipn (Z.to_nat limit) all) -> _level_index (p_confidence q) <= _level_index (p_confidence p).
Proof.
  intros L. unfold find_shared_infrastructure_v2. destruct (ranked t cve cutoff now) as [all|] eqn:R; [|done]. cbn [res_bind]. intros H. apply ok_inj in H as <-.
  exists all. unfold slice_to. destruct (Z.ltb_spec limit 0); [lia|]. repeat split. intros p q P Q. apply peer_lt_level.
  apply ranked_from in R as (cap & hits & confirmed & edges & _ & _ & ->). eapply sorted_cut; [|exact P|exact Q]. apply sort_on_sorted; [apply peer_lt_asym|apply peer_not_after].
Qed.

(** ** The confidence of a peer *)

Lemma level_max l m : 0 <= m <= 2 -> let r := fold_left (fun m e => Z.max m (_level_index (e_confidence e))) l m in
  m <= r <= 2 /\ (forall e, In e l -> _level_index (e_confidence e) <= r) /\ (r = m \/ exists e, In e l /\ _level_index (e_confidence e) = r).
Proof.
  assert (forall x, 0 <= _level_index x <= 2) as LB by (intros x; unfold _level_index; destruct (String.eqb _ _); [lia|]; destruct (String.eqb _ _); lia).
  revert m. induction l as [|e l IH]; intros m B; cbn [fold_left]; [split; [lia|]; split; [done|by left]|]. pose proof (LB (e_confidence e)) as E.
  destruct (IH (Z.max m (_level_index (e_confidence e)))) as (A & C & D); [lia|]. cbv zeta. split; [lia|]. split.
  - intros x [<-|I]; [lia|by apply C].
  - destruct D as [->|(x & I & X)]; [|right; exists x; by split; [right|]]. destruct (Z.max_spec m (_level_index (e_confidence e))) as [[_ ->]|[_ ->]]; [right; exists e; by split; [left|]|by left].
Qed.

Lemma level_at_index n : 0 <= n <= 2 -> is_level (level_at n) /\ _level_index (level_at n) = n.
Proof. intros B. assert (n = 0 \/ n = 1 \/ n = 2) as [->|[->| ->]] by lia; (split; [|done]); unfold is_level; cbn; tauto. Qed.

Lemma edge_level hits confirmed now row k e : edge_of env hits confirmed now row = Ok (k, e) ->
  is_level (e_confidence e) /\ (10 < s_degree row -> Z.of_nat (length (e_corroborated_by e)) <= 4294967296 -> e_confidence e = "low").
Proof.
  unfold edge_of. destruct (ioc_edge_key _ _) as [key|]; [|done]. cbn [res_bind]. destruct (confidence_for_ioc_edge _ _ _ _ _ _ _ _ _) as [[[c w] f]|] eqn:E; [|done].
  cbn [res_bind]. intros H. apply ok_inj in H. injection H as <- <-. cbn [e_confidence e_corroborated_by]. split; [|intros D L; exact (hub_stays_low env _ _ _ _ _ _ _ _ _ E D L)].
  destruct (String.eqb (upper (s_type row)) "IP" && (String.eqb (upper (s_type row)) "IP" && is_noise_ip (s_value row))) eqn:N.
  - unfold confidence_for_ioc_edge in E. cbv zeta in E. rewrite N in E. apply ok_inj in E. injection E as <- _ _. by left.
  - by destruct (edge_steps env _ _ _ _ _ _ _ _ _ E N) as (fr & ks & kr & q & n & _ & _ & _ & L & _).
Qed.

(** The edges a listed peer comes from. *)
Lemma peer_edges t cve cutoff now all p : ranked t cve cutoff now = Ok all -> In p all ->
  exists cap hits confirmed edges, get_hub_cve_pulse_cap env = Ok cap /\ edges <> [] /\ p = peer_of set_order (p_cve p, edges) /\
    forall e, In e edges -> exists row, edge_of env hits confirmed now row = Ok (p_cve p, e) /\ s_degree row <= cap /\
      exists oi, In (p_cve p, oi) (joined t (upper cve)) /\ e_type e = io_type oi /\ e_value e = io_value oi /\ s_degree row = degree_of t (io_type oi) (io_value oi).
Proof.
  intros H I. apply ranked_from in H as (cap & hits & confirmed & edges & C & E & ->). rewrite sort_on_perm in I. apply in_map_iff in I as ([k g] & <- & I).
  apply append_at_groups in I as [-> K]. rewrite p_cve_of. cbn [fst]. exists cap, hits, confirmed, (at_key k edges). split; [done|]. split.
  { apply in_map_iff in K as ([k' e] & <- & I). unfold at_key. cbn [fst]. intros Z. apply map_eq_nil in Z. assert (In (k', e) []) as []; rewrite <-Z. apply filter_In. by rewrite String.eqb_refl. }
  split; [done|]. intros e Ie. unfold at_key in Ie. apply in_map_iff in Ie as ([k' e'] & <- & [Ie Q]%filter_In). cbn [fst snd] in *. apply String.eqb_eq in Q as ->.
  apply edges_in in E as [_ E]. destruct (E _ Ie) as (row & R & X). exists row. split; [done|].
  apply grouped_degree in R as ([b oi] & R & P & Ty & V & D). cbn [fst snd] in *. apply filter_In in R as [R Cp%Z.leb_le]. cbn [snd] in Cp. rewrite D. split; [done|].
  pose proof (edge_of_peer _ _ _ _ _ X) as Q. cbn [fst] in Q. exists oi. split; [by rewrite Q, P|].
  unfold edge_of in X. destruct (ioc_edge_key _ _); [|done]. cbn [res_bind] in X. destruct (confidence_for_ioc_edge _ _ _ _ _ _ _ _ _) as [[[c w] f]|]; [|done]. cbn [res_bind] in X.
  apply ok_inj in X. injection X as _ <-. by rewrite <-Ty, <-V.
Qed.

Lemma aggregate_level edges : edges <> [] -> Forall (fun e => is_level (e_confidence e)) edges ->
  let p := peer_of set_order ("", edges) in
  is_level (p_confidence p) /\ (exists e, In e edges /\ e_confidence e = p_confidence p) /\ forall e, In e edges -> _level_index (e_confidence e) <= _level_index (p_confidence p).
Proof.
  intros N F. cbv zeta. unfold peer_of. destruct edges as [|e0 l] eqn:Q; [done|]. rewrite <-Q in *. clear N.
  destruct (level_max edges 0) as (A & B & C); [lia|]. cbv zeta in A, B, C.
  assert (p_confidence (peer_of set_order ("", edges)) = level_at (fold_left (fun m e => Z.max m (_level_index (e_confidence e))) edges 0)) as K by (unfold peer_of; by rewrite Q).
  unfold peer_of in K. rewrite K. set (m := fold_left _ edges 0) in *. destruct (level_at_index m) as [L X]; [lia|]. rewrite X. split; [done|]. split; [|done].
  destruct C as [->|(e & I & C)]; [|exists e; split; [done|]; apply level_inj; [by apply (proj1 (List.Forall_forall _ _) F)|done|congruence]].
  exists e0. split; [rewrite Q; by left|]. apply level_inj; [apply (proj1 (List.Forall_forall _ _) F); rewrite Q; by left|by left|]. pose proof (B e0 ltac:(rewrite Q; by left)).
  assert (is_level (e_confidence e0)) as Le by (apply (proj1 (List.Forall_forall _ _) F); rewrite Q; by left). unfold is_level in Le. destruct Le as [Z|[Z|Z]]; rewrite Z in *; cbn in *; lia.
Qed.

(** [peer_has_its_strongest_edge]: a listed peer has the confidence of the strongest of the indicators it shares, and
    a peer whose every shared indicator is seen in more than ten CVEs is low, whatever
    corroborates them. *)
Theorem peer_has_its_strongest_edge t cve cutoff now all p : ranked t cve cutoff now = Ok all -> In p all ->
  exists edges, p_evidence p = map evidence_of edges /\
    (exists e, In e edges /\ e_confidence e = p_confidence p) /\ (forall e, In e edges -> _level_index (e_confidence e) <= _level_index (p_confidence p)) /\
    (forall e, In e edges -> exists oi, In (p_cve p, oi) (joined t (upper cve)) /\ e_type e = io_type oi /\ e_value e = io_value oi) /\
    ((forall oi, In (p_cve p, oi) (joined t (upper cve)) -> 10 < degree_of t (io_type oi) (io_value oi)) ->
     Forall (fun v => Z.of_nat (length (v_corroborated_by v)) <= 4294967296) (p_evidence p) -> p_confidence p = "low").
Proof.
  intros H I. destruct (peer_edges _ _ _ _ _ _ H I) as (cap & hits & confirmed & edges & _ & N & P & E). exists edges.
  assert (p_evidence p = map evidence_of edges) as V by (transitivity (p_evidence (peer_of set_order (p_cve p, edges))); [by rewrite <-P|]; unfold peer_of; by destruct edges).
  assert (p_confidence p = p_confidence (peer_of set_order ("", edges))) as C by (transitivity (p_confidence (peer_of set_order (p_cve p, edges))); [by rewrite <-P|]; unfold peer_of; by destruct (aggregate_infrastructure_confidence edges) as [[[? ?] ?] ?]).
  destruct (aggregate_level edges N) as (_ & A & B). { apply List.Forall_forall. intros e Ie. destruct (E e Ie) as (row & X & _). by apply edge_level in X as [X _]. }
  rewrite C. split; [done|]. split; [done|]. split; [done|]. split.
  { intros e Ie. destruct (E e Ie) as (row & _ & _ & oi & J & T & V' & _). by exists oi. }
  intros D R. destruct A as (e & Ie & <-). destruct (E e Ie) as (row & X & _ & oi & J & _ & _ & G). apply edge_level in X as [_ X]. apply X; [rewrite G; by apply D|].
  rewrite V, List.Forall_forall in R. apply (R (evidence_of e)), in_map, Ie.
Qed.
End facts.

(** ** Concrete tables *)

Definition no_json (_ : string) : option pyval := None.
Definition any_order (s : gset string) : list string := elements s.
Definition dig (s : string) : string := "d:" +:+ lower s.
Definition an_ioc (pulse ty v : string) : ioc_row := mkIoc pulse ty v (dig v) (Some "2026-07-19T00:00:00Z") (Some "2026-07-20 00:00:00").
Definition tag (cve pulse : string) : link := mkLink cve pulse None None.

(** Two pulses share a domain, two an address that sixty CVEs have and an older hash. *)
Definition sample : tables := mkTables
  [an_ioc "p1" "DOMAIN" "evil.example"; an_ioc "p2" "DOMAIN" "EVIL.example"; an_ioc "p1" "IP" "203.0.113.7"; an_ioc "p3" "IP" "203.0.113.7";
   an_ioc "p1" "IP" "198.51.100.1"; an_ioc "p4" "IP" "198.51.100.1"]
  [tag "CVE-2026-1" "p1"; tag "CVE-2026-2" "p2"; tag "CVE-2026-3" "p3"; tag "CVE-2026-4" "p4"; tag "CVE-2026-9" "p2"]
  ["CVE-2026-1"; "CVE-2026-2"; "CVE-2026-3"; "CVE-2026-4"]
  [("IP", "203.0.113.7", 60); ("IP", "198.51.100.1", 12)] [] [].

Abbreviation peers_of cve := (ranked_peers no_env dig no_json any_order sample cve "2026-07-19 00:00:00" july_20).

Example sample_peers : (let! l := peers_of "cve-2026-1" in Ok (map (fun p => (p_cve p, p_confidence p, p_domain p, p_count p)) l)) =
  Ok [("CVE-2026-2", "medium", 1, 1); ("CVE-2026-4", "low", 0, 1)].
Proof. vm_compute. reflexivity. Qed.

Example sample_sizes : (let! l := peers_of "CVE-2026-1" in Ok (length l)) = Ok 2%nat /\ (let! l := peers_of "CVE-2026-2" in Ok (length l)) = Ok 1%nat.
Proof. vm_compute. done. Qed.

Lemma peers_share_an_indicator_witness : exists all, peers_of "CVE-2026-1" = Ok all /\ NoDup (map p_cve all) /\
  (exists cap, get_hub_cve_pulse_cap no_env = Ok cap /\
    forall b, In b (map p_cve all) <-> b <> upper "CVE-2026-1" /\ In b (cve_ids sample) /\ shares sample cap (upper "CVE-2026-1") b).
Proof.
  destruct (is_ok_spec (peers_of "CVE-2026-1")) as [all E]; [vm_compute; reflexivity|]. exists all. split; [exact E|].
  exact (peers_share_an_indicator no_env dig no_json any_order sample "CVE-2026-1" "2026-07-19 00:00:00" july_20 all E).
Defined.

Lemma sharing_is_symmetric_witness : exists la lb, peers_of "CVE-2026-1" = Ok la /\ peers_of "CVE-2026-2" = Ok lb /\ In "CVE-2026-1" (map p_cve lb).
Proof.
  destruct (is_ok_spec (peers_of "CVE-2026-1")) as [la A]; [vm_compute; reflexivity|]. destruct (is_ok_spec (peers_of "CVE-2026-2")) as [lb B]; [vm_compute; reflexivity|].
  exists la, lb. split; [exact A|]. split; [exact B|].
  apply (sharing_is_symmetric no_env dig no_json any_order sample "CVE-2026-1" "CVE-2026-2" "2026-07-19 00:00:00" "2026-07-19 00:00:00" july_20 july_20 la lb A B).
  - intros oi oi2 I I2 S. repeat (destruct I as [<-|I]; [repeat (destruct I2 as [<-|I2]; [first [reflexivity | discriminate S]|]); destruct I2|]). destruct I.
  - by left.
  - pose proof sample_peers as X. change (peers_of "cve-2026-1") with (peers_of "CVE-2026-1") in X. rewrite A in X. cbn [res_bind] in X. apply ok_inj in X.
    destruct la as [|p la]; [done|]. cbn [map] in X. injection X as X _ _ _ _. left. exact X.
Defined.

Lemma strongest_peers_are_kept_witness : exists shown all, find_shared_infrastructure_v2 no_env dig no_json any_order sample "CVE-2026-1" "2026-07-19 00:00:00" july_20 1 = Ok shown /\
  peers_of "CVE-2026-1" = Ok all /\ length all = 2%nat /\ shown = firstn 1 all /\
  forall p q, In p shown -> In q (skipn 1 all) -> _level_index (p_confidence q) <= _level_index (p_confidence p).
Proof.
  destruct (is_ok_spec (find_shared_infrastructure_v2 no_env dig no_json any_order sample "CVE-2026-1" "2026-07-19 00:00:00" july_20 1)) as [shown E]; [vm_compute; reflexivity|].
  destruct (strongest_peers_are_kept no_env dig no_json any_order sample "CVE-2026-1" "2026-07-19 00:00:00" july_20 1 shown ltac:(lia) E) as (all & A & S & K).
  exists shown, all. split; [exact E|]. split; [exact A|]. split; [|split; [exact S|exact K]].
  pose proof (proj1 sample_sizes) as X. rewrite A in X. by apply ok_inj in X.
Defined.

Lemma peer_has_its_strongest_edge_witness : exists all, peers_of "CVE-2026-1" = Ok all /\ length all = 2%nat /\
  Forall (fun p => exists edges, p_evidence p = map evidence_of edges /\ (exists e, In e edges /\ e_confidence e = p_confidence p)) all.
Proof.
  destruct (is_ok_spec (peers_of "CVE-2026-1")) as [all E]; [vm_compute; reflexivity|]. exists all. split; [exact E|]. split.
  { pose proof (proj1 sample_sizes) as X. rewrite E in X. by apply ok_inj in X. }
  apply List.Forall_forall. intros p I.
  destruct (peer_has_its_strongest_edge no_env dig no_json any_order sample "CVE-2026-1" "2026-07-19 00:00:00" july_20 all p E I) as (edges & V & X & _). exists edges. split; [exact V|exact X].
Defined.

(** The reference says why_not_higher is the reason of the last factor; the factors of the
    corroboration and of the freshness come after it. *)
Lemma why_is_not_the_last_reason :
  match confidence_for_ioc_edge no_env "DOMAIN" (mkConfirmations None false false) false 12 (Some "2026-07-19T00:00:00Z") None july_20 [] with
  | Ok (_, why, factors) => why = Some "Shared indicator hub — seen across 12 CVEs" /\ option_map f_name (last factors) = Some "freshness" /\ option_map f_reason (last factors) <> why
  | Raise _ => False
  end.
Proof. vm_compute. split; [done|]. split; [done|]. discriminate. Qed.

(** The campaigns' join asks for no degree: an address of sixty CVEs, which the peers' join
    leaves out, still counts as an indicator that a campaign's members share. *)
Lemma hub_indicator_joins_campaigns :
  batch_ioc_edges_for_peers sample "CVE-2026-1" ["CVE-2026-3"] = [("CVE-2026-3", [("IP", "203.0.113.7")])] /\
  match peers_of "CVE-2026-1" with Ok l => ~ In "CVE-2026-3" (map p_cve l) | Raise _ => False end.
Proof. split; [vm_compute; reflexivity|]. vm_compute. intuition discriminate. Qed.
