(* ===== verification/CampaignStore.v ===== *)
(** * CampaignStore: correlation/campaigns.py, correlation/suppressions.py

    The nightly rebuild of the campaigns from the pulse families of [PulseFamilies], the
    pruning of their members, and the campaigns shown for a CVE: those of the table that
    are not suppressed, with the peers that share a strong indicator ([IocGraph]), the
    hub filter of [Campaigns] and the attribution of [CorrScore].  A table is the list of
    its rows, an SQL statement the function of that list it denotes; the clock is in
    microseconds. *)

From Stdlib Require Import Sorted.
From S2P Require Import Prelude PyStr DecText PyVal Float64 Dates DateText CveRow Pacing Campaigns Sha256 UnionFind.
From S2P Require PulseFamilies.
From S2P Require Import CorrScore Confidence SourceEvidence IocGraph.
Open Scope string_scope.
Open Scope Z_scope.

(** ** The tables *)

Record pulse := mkPulse {
  pulse_id : string; pulse_name : option string; author : option string; created_date : option string; adversary : option string;
  malware_families : option string; p_tags : option string; targeted_countries : option string }.
Record cve := mkCve { cve_id : string; is_kev : pyval; has_poc : pyval; c_published : option string; c_modified : option string }.
Record campaign := mkCampaign {
  campaign_id : string; primary_pulse_id : string; label : string; c_adversary : string; c_malware : string; c_tags : string; c_countries : string;
  confidence : string; member_count : Z; lifecycle : Lifecycle; computed_at : string; family_id : option string;
  first_seen : string; last_seen : string; author_count : Z; retracted_at : option string }.
Record suppression := mkSuppression { s_cve : string; s_scope : string; s_key : string }.

Abbreviation family_row := PulseFamilies.family_row.

Record world := mkWorld {
  pulses : list pulse; cves : list cve; pulse_iocs : list ioc_row; cve_pulses : list link; ioc_degree : list (string * string * Z);
  ti_mirror : list mirror_row; cache : list cached; kev_deadlines : list (string * option string); epss_history : list (string * string);
  correlation_actor : list (string * string); mitre_groups : list group_row; suppressions : list suppression;
  pulse_families : list family_row; campaigns : list campaign; members : list (string * string); sync_state : list (string * string) }.

Definition graph_of (w : world) : tables :=
  mkTables (pulse_iocs w) (cve_pulses w) (map cve_id (cves w)) (ioc_degree w) (ti_mirror w) (cache w).

Definition with_families (f : list family_row) (w : world) : world :=
  mkWorld (pulses w) (cves w) (pulse_iocs w) (cve_pulses w) (ioc_degree w) (ti_mirror w) (cache w) (kev_deadlines w) (epss_history w)
    (correlation_actor w) (mitre_groups w) (suppressions w) f (campaigns w) (members w) (sync_state w).
Definition with_campaigns (c : list campaign) (m : list (string * string)) (w : world) : world :=
  mkWorld (pulses w) (cves w) (pulse_iocs w) (cve_pulses w) (ioc_degree w) (ti_mirror w) (cache w) (kev_deadlines w) (epss_history w)
    (correlation_actor w) (mitre_groups w) (suppressions w) (pulse_families w) c m (sync_state w).
Definition with_sync (s : list (string * string)) (w : world) : world :=
  mkWorld (pulses w) (cves w) (pulse_iocs w) (cve_pulses w) (ioc_degree w) (ti_mirror w) (cache w) (kev_deadlines w) (epss_history w)
    (correlation_actor w) (mitre_groups w) (suppressions w) (pulse_families w) (campaigns w) (members w) s.

Definition CORRELATION_BUILD_WATERMARK_KEY : string := "correlation_build_watermark".
Definition CORRELATION_LAST_RUN_KEY : string := "correlation_last_run".

(** [isoformat()] of a UTC instant. *)
Definition isoformat (us : Z) : string :=
  date_text (us / DAY_US) +:+ "T" +:+ clock_text (us mod DAY_US) +:+
  (if us mod 1000000 =? 0 then "" else "." +:+ zfill 6 (us mod 1000000)) +:+ "+00:00".

Definition known (w : world) (c : string) : bool := existsb (fun r => String.eqb (cve_id r) c) (cves w).
(** The distinct known CVEs of some pulses, ORDER BY the id. *)
Definition cves_of (w : world) (pids : list string) : list string :=
  sorted_distinct (map l_cve (List.filter (fun l => one_in pids (l_pulse l) && known w (l_cve l)) (cve_pulses w))).

Section build.
Variable env : string -> option string.
Variable set_order : gset string -> list string.
Variable json_loads : string -> option pyval.
Variable json_dumps : pyval -> string.

Definition _parse_json_list (value : option string) : list pyval :=
  match value with Some s => match json_loads s with Some (PList l) => l | _ => [] end | None => [] end.

(** ** The families *)

(** The three queries of [rebuild_pulse_families]. *)
Definition family_pulses (w : world) : list PulseFamilies.pulse_row :=
  map (fun p => PulseFamilies.mkPulse (pulse_id p) (pulse_name p) (created_date p)) (List.filter (fun p => 2 <=? Z.of_nat (length (cves_of w [pulse_id p]))) (pulses w)).
Definition family_cves (w : world) : list (string * string) :=
  let ids := map PulseFamilies.pulse_id (family_pulses w) in map (fun l => (l_pulse l, l_cve l)) (List.filter (fun l => one_in ids (l_pulse l)) (cve_pulses w)).
Definition family_iocs (w : world) : list PulseFamilies.ioc_row :=
  let ids := map PulseFamilies.pulse_id (family_pulses w) in
  map (fun oi => PulseFamilies.mkIoc (io_pulse oi) (io_type oi) (io_value oi) (Some (degree_of (graph_of w) (io_type oi) (io_value oi))))
    (List.filter (fun oi => one_in ids (io_pulse oi)) (pulse_iocs w)).

Definition rebuild_families (w : world) : res (world * Z) :=
  let! hub_cap := get_hub_cve_pulse_cap env in
  let! r := PulseFamilies.rebuild_pulse_families set_order hub_cap (family_pulses w) (family_cves w) (family_iocs w) in
  Ok (with_families (fst r) w, fst (snd r)).

(** NULL before any text. *)
Definition null_lt (a b : option string) : bool := match a, b with None, Some _ => true | Some x, Some y => String.ltb x y | _, None => false end.
Definition row_lt (a b : family_row * option pulse) : bool :=
  let fa := PulseFamilies.fr_family (fst a) in let fb := PulseFamilies.fr_family (fst b) in
  let ca := match snd a with Some p => created_date p | None => None end in let cb := match snd b with Some p => created_date p | None => None end in
  if String.ltb fa fb then true else if String.ltb fb fa then false
  else if null_lt ca cb then true else if null_lt cb ca then false
  else String.ltb (PulseFamilies.fr_pulse (fst a)) (PulseFamilies.fr_pulse (fst b)).

Definition find_pulse (w : world) (pid : string) : option pulse := List.find (fun p => String.eqb (pulse_id p) pid) (pulses w).

(** The dict of families, each with its rows: the pulse's id and what otx_pulses holds of it. *)
Definition families_dict (w : world) : list (string * list (string * option pulse)) :=
  fold_left append_at (map (fun r => (PulseFamilies.fr_family (fst r), (PulseFamilies.fr_pulse (fst r), snd r)))
    (sort_on row_lt (map (fun f => (f, find_pulse w (PulseFamilies.fr_pulse f))) (pulse_families w)))) [].

(** ** One campaign *)

Definition field (f : pulse -> option string) (p : option pulse) : string := match p with Some p => text_or (f p) | None => "" end.
Definition opt_field (f : pulse -> option string) (p : option pulse) : option string := match p with Some p => f p | None => None end.

(** The oldest first; an unreadable date counts as [datetime.min]. *)
Definition age_lt (a b : string * option pulse) : bool :=
  let key r := match _parse_dt (Some (field created_date (snd r))) with Some t => t | None => MIN_US end in
  if key a <? key b then true else if key b <? key a then false else String.ltb (fst a) (fst b).

Definition min_of (l : list Z) : option Z := match l with [] => None | x :: t => Some (fold_left Z.min t x) end.
Definition max_of (l : list Z) : option Z := match l with [] => None | x :: t => Some (fold_left Z.max t x) end.

(** [fetch_member_lifecycle_inputs] *)
Definition lifecycle_members (w : world) (ids : list string) : list member :=
  map (fun c => mkMember (is_kev c) (has_poc c) (c_published c) (c_modified c)
                  (match assoc (cve_id c) (kev_deadlines w) with Some d => d | None => None end)
                  (max_text (map (fun e => Some (snd e)) (List.filter (fun e => String.eqb (fst e) (cve_id c)) (epss_history w)))))
    (List.filter (fun c => one_in ids (cve_id c)) (cves w)).
Definition lifecycle_observations (w : world) (pid : string) (ids : list string) : list (option string) :=
  (map l_created (List.filter (fun l => String.eqb (l_pulse l) pid && one_in ids (l_cve l) && nonempty (strip (text_or (l_created l)))) (cve_pulses w)) ++
   map io_observed_at (List.filter (fun oi => String.eqb (io_pulse oi) pid && nonempty (text_or (io_observed_at oi))) (pulse_iocs w)))%list.

Definition or_text (s default : string) : string := if nonempty s then s else default.

(** The campaign of a family and its members; [None] where fewer than two are left. *)
Definition campaign_of (now : Z) (w : world) (fam : string) (rows : list (string * option pulse)) : res (option (campaign * list string)) :=
  let rows := List.filter (fun r => nonempty (fst r)) rows in
  match sort_on age_lt rows with
  | [] => Ok None
  | (oldest, primary) :: _ =>
      let! max_members := get_max_campaign_members env in
      let ids := slice_to max_members (cves_of w (map fst rows)) in
      if Z.of_nat (length ids) <? 2 then Ok None
      else
        let authors := remove_dups (List.filter nonempty (map (fun r => strip (field author (snd r))) rows)) in
        let seen := omap (fun r => _parse_dt (Some (field created_date (snd r)))) rows in
        let created := field created_date primary in
        let first := match min_of seen with Some t => isoformat t | None => created end in
        let dump f := json_dumps (PList (_parse_json_list (opt_field f primary))) in
        Ok (Some (mkCampaign (PulseFamilies.campaign_id_for_family fam oldest) oldest
                    (or_text (strip (or_text (field pulse_name primary) "OTX pulse")) "OTX pulse") (strip (field adversary primary))
                    (dump malware_families) (dump p_tags) (dump targeted_countries) "medium" (Z.of_nat (length ids))
                    (compute_campaign_lifecycle now (Some created) (lifecycle_members w ids) (lifecycle_observations w oldest ids))
                    (isoformat now) (Some fam) first (match max_of seen with Some t => isoformat t | None => first end)
                    (Z.max 1 (Z.of_nat (length authors))) None, ids))
  end.

(** ** The rebuild *)

Definition active (c : campaign) : bool := match retracted_at c with None => true | Some _ => false end.
Definition retract (now : string) (c : campaign) : campaign :=
  mkCampaign (campaign_id c) (primary_pulse_id c) (label c) (c_adversary c) (c_malware c) (c_tags c) (c_countries c) (confidence c) (member_count c) declining
    (computed_at c) (family_id c) (first_seen c) (last_seen c) (author_count c) (Some now).

(** UPDATE .. WHERE family_id is among the vanished ones AND retracted_at IS NULL *)
Definition vanished (families : list string) (c : campaign) : bool :=
  match family_id c with Some f => nonempty f && negb (one_in families f) | None => false end.
Definition retract_vanished (now : string) (families : list string) (l : list campaign) : list campaign :=
  map (fun c => if vanished families c && active c then retract now c else c) l.

(** The INSERT of a campaign and of its members; campaign_id, and campaign_id with cve_id, are primary keys. *)
Definition insert_member (cid : string) (m : list (string * string)) (c : string) : res (list (string * string)) :=
  if existsb (fun r => String.eqb (fst r) cid && String.eqb (snd r) c) m then Raise IntegrityError else Ok (m ++ [(cid, c)])%list.
Definition insert_campaign (tbl : list campaign * list (string * string)) (c : campaign) (ids : list string) : res (list campaign * list (string * string)) :=
  if existsb (fun x => String.eqb (campaign_id x) (campaign_id c)) (fst tbl) then Raise IntegrityError
  else let! m := fold_res (insert_member (campaign_id c)) ids (snd tbl) in Ok ((fst tbl ++ [c])%list, m).

Definition write_family (now : Z) (w : world) (tbl : list campaign * list (string * string)) (f : string * list (string * option pulse)) : res (list campaign * list (string * string)) :=
  let! c := campaign_of now w (fst f) (snd f) in
  match c with None => Ok tbl | Some (c, ids) => insert_campaign tbl c ids end.

(** The tables as the deletions leave them: the retracted campaigns with their members,
    and members of no campaign. *)
Definition cleared (now : Z) (w : world) (families : list string) : list campaign * list (string * string) :=
  let marked := retract_vanished (isoformat now) families (campaigns w) in
  (List.filter (fun c => negb (active c)) marked,
   List.filter (fun m => negb (existsb (fun c => active c && String.eqb (campaign_id c) (fst m)) marked)) (members w)).

(** The world after the rebuild and the number of families; nothing is kept when it raises. *)
Definition build_campaigns_from_pulses (now : Z) (w : world) : res (world * Z) :=
  let! r := rebuild_families w in
  let '(w, families) := r in
  let dict := families_dict w in
  let! tbl := fold_res (write_family now w) dict (cleared now w (map fst dict)) in
  let stamped := dset (dset (sync_state w) CORRELATION_BUILD_WATERMARK_KEY (isoformat now)) CORRELATION_LAST_RUN_KEY (isoformat now) in
  Ok (with_sync stamped (with_campaigns (fst tbl) (snd tbl) w), families).

(** ** The members of rows that are gone *)

Definition set_count (n : Z) (c : campaign) : campaign :=
  mkCampaign (campaign_id c) (primary_pulse_id c) (label c) (c_adversary c) (c_malware c) (c_tags c) (c_countries c) (confidence c) n (lifecycle c)
    (computed_at c) (family_id c) (first_seen c) (last_seen c) (author_count c) (retracted_at c).
Definition count_members (m : list (string * string)) (cid : string) : Z := Z.of_nat (length (List.filter (fun r => String.eqb (fst r) cid) m)).

Definition prune_invalid_campaign_members (w : world) : world * Z :=
  let kept := List.filter (fun m => known w (snd m)) (members w) in
  (with_campaigns (map (fun c => set_count (count_members kept (campaign_id c)) c) (List.filter (fun c => existsb (fun m => String.eqb (fst m) (campaign_id c)) kept) (campaigns w)))
     kept w, Z.of_nat (length (members w) - length kept)).

(** engine.py, [run_nightly_correlation]: its pruning and its rebuild; an exception of the
    rebuild is logged and what was not committed, the pruning with it, is rolled back. *)
Definition nightly_campaigns (now : Z) (w : world) : world :=
  match build_campaigns_from_pulses now (fst (prune_invalid_campaign_members w)) with Ok (w', _) => w' | Raise _ => w end.
End build.

(** ** What a rebuild writes *)

Section rebuild.
Variable env : string -> option string.
Variable set_order : gset string -> list string.
Variable json_loads : string -> option pyval.
Variable json_dumps : pyval -> string.
Abbreviation build := (build_campaigns_from_pulses env set_order json_loads json_dumps).
Abbreviation campaign_for := (campaign_of env json_loads json_dumps).
Abbreviation nightly := (nightly_campaigns env set_order json_loads json_dumps).

(** Every campaign has one row, every member row belongs to a campaign and stands once. *)
Record store_ok (w : world) : Prop := {
  so_ids : NoDup (map campaign_id (campaigns w)); so_members : NoDup (members w);
  so_owner : forall m, In m (members w) -> In (fst m) (map campaign_id (campaigns w)) }.

Definition new_of (now : Z) (w : world) (dict : list (string * list (string * option pulse))) : list (campaign * list string) :=
  flat_map (fun f => match campaign_for now w (fst f) (snd f) with Ok (Some b) => [b] | _ => [] end) dict.
Definition rows_of (b : campaign * list string) : list (string * string) := map (pair (campaign_id (fst b))) (snd b).

Lemma insert_members cid ids : forall m m', fold_res (insert_member cid) ids m = Ok m' -> m' = (m ++ map (pair cid) ids)%list /\ (NoDup m -> NoDup m').
Proof.
  induction ids as [|c ids IH]; intros m m'; cbn [fold_res]; [intros H; apply ok_inj in H as <-; by rewrite app_nil_r|].
  unfold insert_member at 1. destruct (existsb _ m) eqn:E; [done|]. cbn [res_bind]. intros [-> N]%IH. split; [by rewrite <-app_assoc|]. intros ND. apply N.
  apply NoDup_app. split; [done|]. split; [|apply NoDup_singleton]. intros r I ->%list_elem_of_singleton. apply list_elem_of_In in I.
  pose proof (proj1 (existsb_false _ _) E _ I) as X. cbn in X. by rewrite !String.eqb_refl in X.
Qed.

(** The tables after all families: what was there, then the new campaigns and their members. *)
Lemma written now w dict : forall tbl tbl', fold_res (write_family env json_loads json_dumps now w) dict tbl = Ok tbl' ->
  fst tbl' = (fst tbl ++ map fst (new_of now w dict))%list /\ snd tbl' = (snd tbl ++ flat_map rows_of (new_of now w dict))%list /\
  (NoDup (map campaign_id (fst tbl)) -> NoDup (map campaign_id (fst tbl'))) /\ (NoDup (snd tbl) -> NoDup (snd tbl')).
Proof.
  induction dict as [|f dict IH]; intros tbl tbl'; cbn [fold_res new_of flat_map]; [intros H; apply ok_inj in H as <-; cbn; by rewrite !app_nil_r|].
  unfold write_family at 1. destruct (campaign_for now w (fst f) (snd f)) as [[[c ids]|]|] eqn:C; cbn [res_bind]; [| |done].
  - unfold insert_campaign. destruct (existsb _ (fst tbl)) eqn:E; [done|]. destruct (fold_res (insert_member (campaign_id c)) ids (snd tbl)) as [m|] eqn:M; [|done]. cbn [res_bind].
    apply insert_members in M as [-> MN]. intros (A & B & N & NM)%IH. cbn [fst snd] in *. cbn [app map flat_map]. rewrite A, B, <-!app_assoc. repeat split.
    + intros ND. rewrite A, <-app_assoc in N. apply N. rewrite map_app. apply NoDup_app. split; [done|]. split; [|apply NoDup_singleton].
      intros k I ->%list_elem_of_singleton. apply list_elem_of_fmap in I as (x & Q & I). apply list_elem_of_In in I. pose proof (proj1 (existsb_false _ _) E _ I) as X. cbn in X, Q.
      rewrite <-Q, String.eqb_refl in X. done.
    + intros ND. rewrite B, <-app_assoc in NM. by apply NM, MN.
  - apply IH.
Qed.

(** What stands in the way of an insert stops the rebuild. *)
Lemma blocked now w fam rows c ids : campaign_for now w fam rows = Ok (Some (c, ids)) -> forall dict tbl, In (fam, rows) dict ->
  In (campaign_id c) (map campaign_id (fst tbl)) -> is_ok (fold_res (write_family env json_loads json_dumps now w) dict tbl) = false.
Proof.
  intros C. induction dict as [|f dict IH]; intros tbl; [done|]. intros I B. cbn [fold_res]. destruct I as [->|I].
  - unfold write_family at 1. cbn [fst snd]. rewrite C. cbn [res_bind]. unfold insert_campaign. destruct (existsb _ (fst tbl)) eqn:E; [done|]. exfalso.
    apply in_map_iff in B as (x & Q & Ix). pose proof (proj1 (existsb_false _ _) E _ Ix) as X. cbn in X. by rewrite Q, String.eqb_refl in X.
  - destruct (write_family _ _ _ now w tbl f) as [tbl'|] eqn:W; [|done]. cbn [res_bind]. apply IH; [done|].
    pose proof (written now w [f] tbl tbl') as H. cbn [fold_res] in H. rewrite W in H. destruct (H eq_refl) as (-> & _). rewrite map_app. apply in_app_iff. by left.
Qed.

(** ** The families *)

(** The pulses of a family, those without an id apart. *)
Definition family_ids (w : world) (fam : string) : list string :=
  List.filter nonempty (map PulseFamilies.fr_pulse (List.filter (fun f => String.eqb (PulseFamilies.fr_family f) fam) (pulse_families w))).

Lemma cves_of_ext w a b : (forall x, In x a <-> In x b) -> cves_of w a = cves_of w b.
Proof.
  intros E. unfold cves_of. do 2 f_equal. apply filter_ext. intros l. f_equal. destruct (one_in a (l_pulse l)) eqn:A, (one_in b (l_pulse l)) eqn:B; try done.
  - apply one_in_spec, list_elem_of_In, E, list_elem_of_In, one_in_spec in A. congruence.
  - apply one_in_spec, list_elem_of_In, E, list_elem_of_In, one_in_spec in B. congruence.
Qed.

Lemma dict_keys w : NoDup (map fst (families_dict w)).
Proof. apply append_at_keys. constructor. Qed.

Lemma dict_in w fam rows : In (fam, rows) (families_dict w) ->
  (exists f, In f (pulse_families w) /\ PulseFamilies.fr_family f = fam) /\
  forall pid, In pid (map fst (List.filter (fun r => nonempty (fst r)) rows)) <-> In pid (family_ids w fam).
Proof.
  unfold families_dict. intros [-> K]%append_at_groups. split.
  - rewrite map_map in K. apply in_map_iff in K as ([f p] & <- & I). rewrite sort_on_perm in I. apply in_map_iff in I as (f' & [= -> _] & I). by exists f.
  - intros pid. unfold at_key, family_ids. rewrite filter_In, !in_map_iff. split.
    + intros ([q p] & <- & [I N]%filter_In). cbn [fst] in *. split; [|done]. apply in_map_iff in I as ([k [q' p']] & [= <- <-] & [I Q]%filter_In). cbn [fst] in Q. apply String.eqb_eq in Q as ->.
      apply in_map_iff in I as ([f p2] & [= <- <- _] & I). rewrite sort_on_perm in I. apply in_map_iff in I as (f' & [= -> _] & I).
      exists f. split; [done|]. apply filter_In. by rewrite String.eqb_refl.
    + intros ((f & <- & [I Q]%filter_In) & N). exists (PulseFamilies.fr_pulse f, find_pulse w (PulseFamilies.fr_pulse f)). split; [done|]. apply filter_In. split; [|done].
      apply in_map_iff. exists (fam, (PulseFamilies.fr_pulse f, find_pulse w (PulseFamilies.fr_pulse f))). split; [done|]. apply filter_In. split; [|apply String.eqb_refl].
      apply String.eqb_eq in Q as <-. apply in_map_iff. exists (f, find_pulse w (PulseFamilies.fr_pulse f)). split; [done|]. rewrite sort_on_perm. apply in_map_iff. by exists f.
Qed.

Lemma dict_has w f : In f (pulse_families w) -> exists rows, In (PulseFamilies.fr_family f, rows) (families_dict w).
Proof.
  intros I. eexists. apply append_at_groups. split; [reflexivity|]. rewrite map_map. apply in_map_iff. exists (f, find_pulse w (PulseFamilies.fr_pulse f)). split; [done|].
  rewrite sort_on_perm. apply in_map_iff. by exists f.
Qed.

(** A family has a campaign exactly when it has two known CVEs. *)
Lemma campaign_of_spec now w fam rows r : campaign_for now w fam rows = Ok r ->
  let ids := cves_of w (map fst (List.filter (fun r => nonempty (fst r)) rows)) in
  match r with
  | None => Z.of_nat (length ids) < 2
  | Some (c, l) => 2 <= Z.of_nat (length ids) /\ family_id c = Some fam /\ active c = true /\ member_count c = Z.of_nat (length l) /\ 2 <= member_count c /\
      exists max, get_max_campaign_members env = Ok max /\ l = firstn (Z.to_nat max) ids
  end.
Proof.
  unfold campaign_of. cbv zeta. set (rows' := List.filter _ rows). destruct (sort_on age_lt rows') as [|[oldest primary] t] eqn:S.
  { intros H. apply ok_inj in H as <-. pose proof (sort_on_perm age_lt rows') as P. rewrite S in P. apply Permutation_nil in P as ->. cbn.
    unfold cves_of. assert (List.filter (fun l => one_in [] (l_pulse l) && known w (l_cve l)) (cve_pulses w) = []) as ->; [|done]. by induction (cve_pulses w). }
  destruct (get_max_campaign_members env) as [max|] eqn:M; [|done]. cbn [res_bind]. set (ids := cves_of w (map fst rows')).
  assert (2 <= max) as M2 by (unfold get_max_campaign_members in M; destruct (int_of_str _); [|done]; apply ok_inj in M; lia).
  unfold slice_to. destruct (Z.ltb_spec max 0); [lia|]. destruct (Z.ltb_spec (Z.of_nat (length (firstn (Z.to_nat max) ids))) 2) as [L|L]; intros E; apply ok_inj in E as <-.
  - rewrite length_firstn in L. lia.
  - assert (Z.of_nat (length (firstn (Z.to_nat max) ids)) <= Z.of_nat (length ids)) by (rewrite length_firstn; lia). cbn [family_id active retracted_at member_count]. repeat split; [lia|lia|by exists max].
Qed.

(** ** The rebuild as a whole *)

Lemma build_from now w w' n : build now w = Ok (w', n) -> exists w1 dict, rebuild_families env set_order w = Ok (w1, n) /\ dict = families_dict w1 /\
  cves w1 = cves w /\ cve_pulses w1 = cve_pulses w /\ campaigns w1 = campaigns w /\ members w1 = members w /\
  pulse_families w' = pulse_families w1 /\ cves w' = cves w /\
  (fst (cleared now w (map fst dict)) ++ map fst (new_of now w1 dict))%list = campaigns w' /\
  (snd (cleared now w (map fst dict)) ++ flat_map rows_of (new_of now w1 dict))%list = members w' /\
  (NoDup (map campaign_id (fst (cleared now w (map fst dict)))) -> NoDup (map campaign_id (campaigns w'))) /\
  (NoDup (snd (cleared now w (map fst dict))) -> NoDup (members w')) /\
  (forall f, In f dict -> exists r, campaign_for now w1 (fst f) (snd f) = Ok r).
Proof.
  unfold build_campaigns_from_pulses. destruct (rebuild_families env set_order w) as [[w1 k]|] eqn:R; [|done]. cbn [res_bind].
  assert (cves w1 = cves w /\ cve_pulses w1 = cve_pulses w /\ campaigns w1 = campaigns w /\ members w1 = members w) as (A & B & C & D).
  { unfold rebuild_families in R. destruct (get_hub_cve_pulse_cap env); [|done]. cbn [res_bind] in R. destruct (PulseFamilies.rebuild_pulse_families _ _ _ _ _); [|done].
    cbn [res_bind] in R. apply ok_inj in R. by injection R as <- _. }
  assert (forall fams, cleared now w1 fams = cleared now w fams) as Q by (intros fams; unfold cleared; by rewrite C, D). rewrite Q.
  destruct (fold_res _ _ _) as [tbl|] eqn:F; [|done]. cbn [res_bind]. intros H. apply ok_inj in H. injection H as <- <-.
  exists w1, (families_dict w1). pose proof (written _ _ _ _ _ F) as (X & Y & N & NM). cbn [with_sync with_campaigns campaigns members pulse_families cves].
  rewrite X, Y in *. repeat split; try done. intros f I.
  destruct (campaign_for now w1 (fst f) (snd f)) as [r|] eqn:E; [by exists r|]. exfalso. revert F I. clear -E. generalize (cleared now w (map fst (families_dict w1))). generalize (families_dict w1).
  induction l as [|g l IH]; intros t F; [done|]. cbn [fold_res] in F. destruct (write_family env json_loads json_dumps now w1 t g) as [t'|] eqn:W; [|done]. cbn [res_bind] in F.
  intros [->|I]; [|by eapply IH]. unfold write_family in W. by rewrite E in W.
Qed.

Lemma filter_all {A} (p : A -> bool) l : (forall x, In x l -> p x = true) -> List.filter p l = l.
Proof. induction l as [|x l IH]; intros H; [done|]. cbn [List.filter]. rewrite (H x) by (by left). f_equal. apply IH. intros y I. apply H. by right. Qed.

Lemma nodup_map_inj {A B} (f : A -> B) l x y : NoDup (map f l) -> In x l -> In y l -> f x = f y -> x = y.
Proof.
  induction l as [|z l IH]; [done|]. cbn [map]. intros [N ND]%NoDup_cons [<-|I] [<-|J] E; [done| | |by apply IH].
  - exfalso. apply N, list_elem_of_In. rewrite E. by apply in_map.
  - exfalso. apply N, list_elem_of_In. rewrite <-E. by apply in_map.
Qed.

Lemma filter_none {A} (p : A -> bool) l : (forall x, In x l -> p x = false) -> List.filter p l = [].
Proof. induction l as [|x l IH]; intros H; [done|]. cbn [List.filter]. rewrite (H x) by (by left). apply IH. intros y I. apply H. by right. Qed.

Lemma new_in now w dict b : In b (new_of now w dict) <-> exists f, In f dict /\ campaign_for now w (fst f) (snd f) = Ok (Some b).
Proof.
  unfold new_of. rewrite in_flat_map. split; intros (f & I & H); exists f; (split; [done|]).
  - destruct (campaign_for now w (fst f) (snd f)) as [[b'|]|]; try done. by destruct H as [->|[]].
  - rewrite H. by left.
Qed.

Lemma new_families now w dict : sublist (map family_id (map fst (new_of now w dict))) (map Some (map fst dict)).
Proof.
  induction dict as [|f dict IH]; [done|]. cbn [new_of flat_map map]. destruct (campaign_for now w (fst f) (snd f)) as [[[c ids]|]|] eqn:C; cbn [app map fst]; [|by apply sublist_cons..].
  apply campaign_of_spec in C as (_ & -> & _). by apply sublist_skip.
Qed.

Lemma all_new_active now w dict : List.filter active (map fst (new_of now w dict)) = map fst (new_of now w dict).
Proof.
  apply filter_all. intros c I. apply in_map_iff in I as ([c' ids] & <- & I). apply new_in in I as (f & _ & C). by apply campaign_of_spec in C as (_ & _ & A & _).
Qed.

Lemma active_campaigns now w w' n : build now w = Ok (w', n) -> exists w1, rebuild_families env set_order w = Ok (w1, n) /\ cves w1 = cves w /\ cve_pulses w1 = cve_pulses w /\
  pulse_families w' = pulse_families w1 /\ List.filter active (campaigns w') = map fst (new_of now w1 (families_dict w1)) /\
  (forall f, In f (families_dict w1) -> exists r, campaign_for now w1 (fst f) (snd f) = Ok r).
Proof.
  intros (w1 & dict & R & -> & C & L & _ & _ & P & _ & A & _ & _ & _ & T)%build_from. exists w1. do 4 (split; [done|]). split; [|done].
  rewrite <-A, List.filter_app, all_new_active. unfold cleared. cbn [fst]. rewrite filter_both. assert (forall l, List.filter (fun x => negb (active x) && active x) l = []) as ->; [|done].
  induction l as [|x l IH]; [done|]. cbn [List.filter]. by rewrite andb_negb_l.
Qed.

Lemma rows_at (l : list (campaign * list string)) c ids : NoDup (map campaign_id (map fst l)) -> In (c, ids) l ->
  List.filter (fun m => String.eqb (fst m) (campaign_id c)) (flat_map rows_of l) = map (pair (campaign_id c)) ids.
Proof.
  assert (Z : forall (b : campaign * list string), campaign_id (fst b) <> campaign_id c -> List.filter (fun m => String.eqb (fst m) (campaign_id c)) (rows_of b) = []).
  { intros b N. apply filter_none. intros m (x & <- & _)%in_map_iff. by apply String.eqb_neq. }
  induction l as [|b l IH]; [done|]. cbn [map flat_map]. intros [N ND]%NoDup_cons I. rewrite List.filter_app. destruct I as [->|I].
  - cbn [fst]. rewrite (filter_all _ (rows_of (c, ids))) by (intros m (x & <- & _)%in_map_iff; apply String.eqb_refl). unfold rows_of at 1. cbn [fst snd]. rewrite <-(app_nil_r (map _ ids)) at 2. f_equal.
    apply filter_none. intros m (b & Ib & J)%in_flat_map. apply in_map_iff in J as (x & <- & _). apply String.eqb_neq. intros Q. apply N, list_elem_of_In. cbn [fst] in *. rewrite <-Q. by apply in_map, in_map.
  - rewrite Z; [by apply IH|]. intros Q. apply N, list_elem_of_In. rewrite Q. apply in_map. apply in_map_iff. by exists (c, ids).
Qed.

Lemma cves_of_same w w1 pids : cves w1 = cves w -> cve_pulses w1 = cve_pulses w -> cves_of w1 pids = cves_of w pids.
Proof. intros A B. unfold cves_of, known. by rewrite A, B. Qed.

Lemma marked_ids now families l : map campaign_id (retract_vanished now families l) = map campaign_id l.
Proof. unfold retract_vanished. rewrite map_map. apply map_ext. intros c. by destruct (_ && _). Qed.

Lemma cleared_ids now w families : NoDup (map campaign_id (campaigns w)) -> NoDup (map campaign_id (fst (cleared now w families))).
Proof.
  intros N. unfold cleared. cbn [fst]. eapply sublist_NoDup; [|apply (fmap_sublist campaign_id), filter_sublist]. change (fmap campaign_id) with (map campaign_id). by rewrite marked_ids.
Qed.

(** C31 [campaigns_are_the_families]: after a rebuild the campaigns in force are, one each, the pulse families with at least
    two known CVEs; the members of a campaign are the first of them up to the cap, in
    the order of their ids, and its count is their number. *)
Theorem campaigns_are_the_families now w w' n : store_ok w -> build now w = Ok (w', n) ->
  NoDup (map family_id (List.filter active (campaigns w'))) /\
  (forall fam, In (Some fam) (map family_id (List.filter active (campaigns w'))) <-> 2 <= Z.of_nat (length (cves_of w (family_ids w' fam)))) /\
  (forall c, In c (campaigns w') -> active c = true -> exists fam max, family_id c = Some fam /\ get_max_campaign_members env = Ok max /\
     map snd (List.filter (fun m => String.eqb (fst m) (campaign_id c)) (members w')) = firstn (Z.to_nat max) (cves_of w (family_ids w' fam)) /\
     member_count c = Z.of_nat (length (List.filter (fun m => String.eqb (fst m) (campaign_id c)) (members w'))) /\ 2 <= member_count c).
Proof.
  intros [SI SM SO] H. destruct (active_campaigns _ _ _ _ H) as (w1 & R & C & L & P & A & T).
  assert (F : forall fam, family_ids w' fam = family_ids w1 fam) by (intros fam; unfold family_ids; by rewrite P).
  assert (G : forall fam rows, In (fam, rows) (families_dict w1) -> cves_of w1 (map fst (List.filter (fun r => nonempty (fst r)) rows)) = cves_of w (family_ids w' fam)).
  { intros fam rows I. rewrite F, <-(cves_of_same w w1) by done. by apply cves_of_ext, dict_in. }
  rewrite A. split; [|split].
  - eapply sublist_NoDup; [|apply new_families]. apply (NoDup_fmap_2 Some), dict_keys.
  - intros fam. rewrite in_map_iff. split.
    + intros (c & Q & I). apply in_map_iff in I as ([c' ids] & <- & I). apply new_in in I as ([fam' rows] & I & E). cbn [fst snd] in *.
      apply campaign_of_spec in E as (E & Q' & _). rewrite Q in Q'. injection Q' as ->. by rewrite <-(G _ _ I).
    + intros E. destruct (pulse_families w1) as [|f0 l0] eqn:PF.
      { exfalso. unfold family_ids in E. rewrite P in E. cbn in E. unfold cves_of in E. rewrite filter_none in E; [cbn in E; lia|]. done. }
      rewrite <-PF in *. destruct (List.filter (fun f => String.eqb (PulseFamilies.fr_family f) fam) (pulse_families w1)) as [|f l] eqn:FF.
      { exfalso. rewrite F in E. unfold family_ids in E. rewrite FF in E. cbn in E. unfold cves_of in E. rewrite filter_none in E; [cbn in E; lia|]. done. }
      assert (In f (pulse_families w1) /\ PulseFamilies.fr_family f = fam) as [If Qf].
      { assert (In f (List.filter (fun f => String.eqb (PulseFamilies.fr_family f) fam) (pulse_families w1))) as X by (rewrite FF; by left).
        apply filter_In in X as [X Y]. by apply String.eqb_eq in Y. }
      destruct (dict_has w1 f If) as [rows I]. rewrite Qf in I. destruct (T _ I) as [r E']. cbn [fst snd] in E'. pose proof (campaign_of_spec _ _ _ _ _ E') as S. cbv zeta in S.
      rewrite (G _ _ I) in S. destruct r as [[c ids]|]; [|lia]. exists c. split; [by destruct S as (_ & S & _)|]. apply in_map_iff. exists (c, ids). split; [done|]. apply new_in. by exists (fam, rows).
  - intros c I Ac. assert (In c (map fst (new_of now w1 (families_dict w1)))) as J by (rewrite <-A; by apply filter_In).
    apply in_map_iff in J as ([c' ids] & <- & J). cbn [fst] in *. pose proof J as J0. apply new_in in J as ([fam rows] & K & E). cbn [fst snd] in E.
    pose proof (campaign_of_spec _ _ _ _ _ E) as (_ & Q & _ & M & M2 & max & MX & Il). rewrite (G _ _ K) in Il. exists fam, max.
    destruct (build_from _ _ _ _ H) as (w1' & dict & R' & -> & _ & _ & _ & _ & _ & _ & Ca & Me & NC & _). rewrite R in R'. apply ok_inj in R'. injection R' as <-.
    specialize (NC (cleared_ids _ _ _ SI)).
    assert (X : List.filter (fun m => String.eqb (fst m) (campaign_id c')) (members w') = map (pair (campaign_id c')) ids).
    { rewrite <-Me, List.filter_app, (rows_at _ c' ids); [|rewrite <-Ca, map_app in NC; by apply NoDup_app in NC as (_ & _ & NC)|done].
      rewrite filter_none; [done|]. intros m [Im D]%filter_In. apply String.eqb_neq. intros Qm. destruct (proj1 (in_map_iff _ _ _) (SO m Im)) as (x & Qx & Ix).
      assert (In (campaign_id x) (map campaign_id (retract_vanished (isoformat now) (map fst (families_dict w1)) (campaigns w)))) as Iy by (rewrite marked_ids; by apply in_map).
      apply in_map_iff in Iy as (y & Qy & Iy). destruct (active y) eqn:Ay.
      - apply negb_true_iff in D. pose proof (proj1 (existsb_false _ _) D _ Iy) as Z. cbn in Z. by rewrite Ay, Qy, Qx, String.eqb_refl in Z.
      - rewrite <-Ca, map_app in NC. apply NoDup_app in NC as (_ & NC & _). apply (NC (campaign_id c')).
        + apply list_elem_of_In. rewrite <-Qm, <-Qx, <-Qy. apply in_map. unfold cleared. cbn [fst]. apply filter_In. by rewrite Ay.
        + apply list_elem_of_In, in_map, in_map_iff. by exists (c', ids). }
    rewrite X, map_map, length_map. cbn. rewrite map_id. by repeat split.
Qed.

(** ** What is kept *)

(** C37 [retractions_are_kept]: a rebuild touches no retracted campaign and no member row of one, and a campaign in
    force whose family is gone is retracted, with its members, and not deleted. *)
Theorem retractions_are_kept now w w' n c : store_ok w -> build now w = Ok (w', n) -> In c (campaigns w) ->
  (active c = false -> In c (campaigns w') /\ forall x, In (campaign_id c, x) (members w) -> In (campaign_id c, x) (members w')) /\
  (active c = true -> forall fam, family_id c = Some fam -> nonempty fam = true -> (forall f, In f (pulse_families w') -> PulseFamilies.fr_family f <> fam) ->
   In (retract (isoformat now) c) (campaigns w') /\ forall x, In (campaign_id c, x) (members w) -> In (campaign_id c, x) (members w')).
Proof.
  intros [SI SM SO] H I. destruct (build_from _ _ _ _ H) as (w1 & dict & R & -> & _ & _ & _ & _ & P & _ & Ca & Me & _).
  set (fams := map fst (families_dict w1)) in *. set (marked := retract_vanished (isoformat now) fams (campaigns w)).
  assert (K : forall y, In y marked -> campaign_id y = campaign_id c -> active y = false -> In y (campaigns w') /\ forall x, In (campaign_id c, x) (members w) -> In (campaign_id c, x) (members w')).
  { intros y Iy Q A. split; [rewrite <-Ca; apply in_app_iff; left; apply filter_In; by rewrite A|]. intros x Ix. rewrite <-Me. apply in_app_iff. left. apply filter_In. split; [done|].
    apply negb_true_iff, existsb_false. intros z Iz. cbn [fst]. destruct (active z) eqn:Az; [|done]. cbn [andb]. apply String.eqb_neq. intros Qz.
    assert (z = y) as ->; [|congruence]. apply (nodup_map_inj campaign_id marked); [unfold marked; by rewrite marked_ids|done|done|congruence]. }
  split.
  - intros A. apply (K c); [|done|done]. unfold marked, retract_vanished. apply in_map_iff. exists c. by rewrite A, andb_false_r.
  - intros A fam Q N G. apply (K (retract (isoformat now) c)); [|done|done]. unfold marked, retract_vanished. apply in_map_iff. exists c. rewrite A, andb_true_r.
    assert (vanished fams c = true) as ->; [|done]. unfold vanished. rewrite Q, N. cbn [andb]. apply negb_true_iff, not_true_is_false. intros X. apply one_in_spec, list_elem_of_In in X.
    apply in_map_iff in X as ([f rows] & <- & X). apply dict_in in X as [(f' & If & Qf) _]. rewrite <-P in If. by apply (G f').
Qed.

Lemma build_keeps_ok now w w' n : store_ok w -> build now w = Ok (w', n) -> store_ok w'.
Proof.
  intros [SI SM SO] H. destruct (build_from _ _ _ _ H) as (w1 & dict & R & -> & _ & _ & _ & _ & _ & _ & Ca & Me & NC & NM & _).
  split; [by apply NC, cleared_ids|apply NM; unfold cleared; eapply sublist_NoDup; [exact SM|apply filter_sublist]|].
  intros m Im. rewrite <-Me in Im. rewrite <-Ca, map_app. apply in_app_iff in Im as [Im|Im]; apply in_app_iff.
  - left. apply filter_In in Im as [Im D%negb_true_iff]. specialize (SO m Im). rewrite <-(marked_ids (isoformat now) (map fst (families_dict w1))) in SO.
    apply in_map_iff in SO as (x & Q & Ix). apply in_map_iff. exists x. split; [done|]. apply filter_In. split; [done|]. pose proof (proj1 (existsb_false _ _) D _ Ix) as Z. cbn in Z.
    rewrite Q, String.eqb_refl, andb_true_r in Z. by rewrite Z.
  - right. apply in_flat_map in Im as (b & Ib & Im). apply in_map_iff in Im as (x & <- & _). cbn [fst]. by apply in_map, in_map.
Qed.

Lemma prune_keeps_ok w : store_ok w -> store_ok (fst (prune_invalid_campaign_members w)).
Proof.
  intros [SI SM SO]. unfold prune_invalid_campaign_members. cbn [fst]. set (kept := List.filter _ (members w)). split; cbn [with_campaigns campaigns members].
  - rewrite map_map. cbn. eapply sublist_NoDup; [exact SI|]. apply (fmap_sublist campaign_id), filter_sublist.
  - eapply sublist_NoDup; [exact SM|apply filter_sublist].
  - intros m Im. rewrite map_map. cbn [campaign_id set_count]. destruct (proj1 (in_map_iff _ _ _) (SO m (proj1 (proj1 (filter_In _ _ _) Im)))) as (x & Q & Ix). apply in_map_iff. exists x.
    split; [done|]. apply filter_In. split; [done|]. apply existsb_exists. exists m. by rewrite Q, String.eqb_refl.
Qed.

(** The nights, and between them whatever ingestion does to the other tables. *)
Inductive event := Night (now : Z) | Ingest (change : world -> world).
Definition step (w : world) (e : event) : world :=
  match e with
  | Night now => nightly now w
  | Ingest change => with_campaigns (campaigns w) (members w) (change w)
  end.

(** [campaign_rows_stay_sound]: over every history of nights and changes of the other tables, a campaign has one
    row, a member stands once, and every member row belongs to a campaign. *)
Theorem campaign_rows_stay_sound w l : campaigns w = [] -> members w = [] -> store_ok (fold_left step l w).
Proof.
  intros C M. apply fold_left_inv; [|split; rewrite ?C, ?M; [apply NoDup_nil_2|apply NoDup_nil_2|by intros m []]].
  intros w1 [now|change] _ O; cbn [step]; [|by destruct O; split].
  unfold nightly_campaigns. destruct (build_campaigns_from_pulses _ _ _ _ _ _) as [[w2 n]|] eqn:E; [|done]. eapply build_keeps_ok; [|exact E]. by apply prune_keeps_ok.
Qed.

(** ** A family that returns *)

(** Finding [returned_family_freezes_campaigns]: a retracted campaign keeps its row, and the identifier of a campaign is
    that of its family's oldest pulse.  So when the family is found again its INSERT meets the
    primary key: the night's rebuild raises and is rolled back, for every family, and the
    next one too, for as long as the family stays. *)
Theorem returned_family_freezes_campaigns now w w1 n c fam rows c' ids :
  rebuild_families env set_order (fst (prune_invalid_campaign_members w)) = Ok (w1, n) ->
  In c (campaigns w) -> active c = false -> (exists x, In (campaign_id c, x) (members w) /\ known w x = true) ->
  In (fam, rows) (families_dict w1) -> campaign_for now w1 fam rows = Ok (Some (c', ids)) -> campaign_id c' = campaign_id c ->
  nightly now w = w.
Proof.
  intros R I A (x & Ix & Kx) F E Q. unfold nightly_campaigns. set (p := fst (prune_invalid_campaign_members w)) in *.
  assert (is_ok (build now p) = false) as B; [|by destruct (build_campaigns_from_pulses _ _ _ _ now p) as [[w2 m]|]].
  unfold build_campaigns_from_pulses. rewrite R. cbn [res_bind]. assert (campaigns w1 = campaigns p) as C.
  { unfold rebuild_families in R. destruct (get_hub_cve_pulse_cap env); [|done]. cbn [res_bind] in R. destruct (PulseFamilies.rebuild_pulse_families _ _ _ _ _); [|done].
    cbn [res_bind] in R. apply ok_inj in R. by injection R as <- _. }
  pose proof (blocked now w1 fam rows c' ids E (families_dict w1) (cleared now w1 (map fst (families_dict w1))) F) as H.
  destruct (fold_res _ _ _) as [tbl|]; [|done]. apply H. rewrite Q. unfold cleared. cbn [fst].
  set (kept := List.filter (fun m => known w (snd m)) (members w)).
  apply in_map_iff. exists (set_count (count_members kept (campaign_id c)) c). split; [done|].
  apply filter_In. split; [|unfold active, set_count; cbn; unfold active in A; by destruct (retracted_at c)].
  unfold retract_vanished. apply in_map_iff. exists (set_count (count_members kept (campaign_id c)) c).
  assert (active (set_count (count_members kept (campaign_id c)) c) = false) as A' by (unfold active, set_count; cbn; unfold active in A; by destruct (retracted_at c)).
  rewrite A', andb_false_r. split; [done|]. rewrite C. unfold p, prune_invalid_campaign_members. cbn [fst with_campaigns campaigns]. fold kept.
  apply in_map_iff. exists c. split; [done|]. apply filter_In. split; [done|]. apply existsb_exists. exists (campaign_id c, x). cbn [fst]. rewrite String.eqb_refl. split; [|done]. by apply filter_In.
Qed.
End rebuild.

(** ** correlation/suppressions.py *)

Definition VALID_SCOPES : list string := ["campaign_id"; "cve_pair"; "pulse_id"; "infrastructure"].

(** The suppressions of a CVE, and the campaign ids they name. *)
Definition load_suppressions (w : world) (cve_id : string) : list suppression := List.filter (fun s => String.eqb (s_cve s) (upper cve_id)) (suppressions w).
Definition direct_ids (l : list suppression) : list string :=
  map s_key (List.filter (fun s => String.eqb (s_scope s) "campaign_id" && nonempty (s_key s)) l).

(** The oldest first; here an unreadable date counts as 1970. *)
Definition epoch_lt (a b : string * option pulse) : bool :=
  let key r := match _parse_dt (Some (field created_date (snd r))) with Some t => t | None => 0 end in
  if key a <? key b then true else if key b <? key a then false else String.ltb (fst a) (fst b).

Definition suppressed_rows (w : world) : list (string * list (string * option pulse)) :=
  fold_left append_at (map (fun f => (PulseFamilies.fr_family f, (PulseFamilies.fr_pulse f, find_pulse w (PulseFamilies.fr_pulse f)))) (pulse_families w)) [].

(** The family's campaign, where one of its pulses is suppressed under its old identifier. *)
Definition expanded_id (direct : list string) (f : string * list (string * option pulse)) : list string :=
  if existsb (fun r => one_in direct (PulseFamilies.legacy_campaign_id_for_pulse (fst r))) (snd f) then
    match sort_on epoch_lt (snd f) with (oldest, _) :: _ => [PulseFamilies.campaign_id_for_family (fst f) oldest] | [] => [] end
  else [].

Definition resolve_suppressed_campaign_ids (w : world) (l : list suppression) : list string :=
  let direct := direct_ids l in
  if negb (nonempty_list direct) then [] else (direct ++ flat_map (expanded_id direct) (suppressed_rows w))%list.

Definition is_infrastructure_suppressed (l : list suppression) (peer_cve : string) : bool :=
  let peer := upper peer_cve in
  existsb (fun s => String.eqb (s_scope s) "infrastructure" && String.eqb (s_key s) peer || String.eqb (s_scope s) "cve_pair" && String.eqb (s_key s) peer) l.

(** ** correlation/narrative.py, correlation/local.py, campaign_confidence *)

(** [html.escape] *)
Definition escape_char (c : ascii) : string :=
  if Ascii.eqb c "&" then "&amp;" else if Ascii.eqb c "<" then "&lt;" else if Ascii.eqb c ">" then "&gt;"
  else if Ascii.eqb c "034" then "&quot;" else if Ascii.eqb c "'" then "&#x27;" else String c "".
Fixpoint html_escape (s : string) : string := match s with "" => "" | String c t => escape_char c +:+ html_escape t end.

Definition sanitize_pulse_text (value : string) (max_len : Z) : string :=
  let text := html_escape (strip value) in if max_len <? ulen text then utake (Z.to_nat (max_len - 1)) text +:+ "…" else text.

Definition kev_exploit_boosters (w : world) (ids : list string) (anchor : string) : list string * list string :=
  let others := sorted_distinct (List.filter (fun m => nonempty m && negb (String.eqb m anchor)) ids) in
  let rows := List.filter (fun c => one_in others (cve_id c)) (cves w) in
  (sorted (map cve_id (List.filter (fun c => truthy (is_kev c)) rows)),
   sorted (map cve_id (List.filter (fun c => truthy (has_poc c) && negb (truthy (is_kev c))) rows))).

Definition is_strong (e : string * string) : bool := one_in ["HASH"; "DOMAIN"] (upper (fst e)).
Definition campaign_confidence (base : string) (ioc_edges : list (string * string)) (has_same_pulse : bool) : string * option string * list factor :=
  let factors := if has_same_pulse then [one_factor "same_pulse" PNone "Co-tagged in the same OTX pulse"] else [] in
  let strong := existsb is_strong ioc_edges in
  let '(level, factors) :=
    if has_same_pulse && strong then ("high", factors ++ [one_factor "shared_indicators" PNone "Backed by shared hash or domain indicators"])%list
    else if has_same_pulse then ((if nonempty base then bump_confidence base 0 "high" else "medium"), factors) else (base, factors) in
  if negb strong && negb (existsb (fun e => String.eqb (upper (fst e)) "URL") ioc_edges) && String.eqb level "high" then
    let why := "No shared hash or domain indicators" in ("medium", Some why, factors ++ [one_factor "shared_indicators" PNone why])%list
  else (level, None, factors).

(** ** get_campaigns_for_cve *)

Inductive receipt :=
| SamePulse (pulse_id pulse_name : string) | SharedIndicator (ioc_type value : string) | KevBooster (cves : list string) | ExploitBooster (cves : list string).

Record view := mkView {
  v_id : string; v_label : string; v_pulse : string; v_adversary : string; v_members : list string; v_confidence : string; v_lifecycle : Lifecycle;
  v_boosters : list string * list string; v_evidence : list receipt; v_why : option string; v_factors : list factor; v_conflict : bool;
  v_claims : option (list claim); v_author_count : Z; v_family : string }.

Section view.
Context {lib : MathLib}.
Variable env : string -> option string.
Variable digest : string -> string.
Variable set_order : gset string -> list string.
Variable json_loads : string -> option pyval.
Variable py_str : pyval -> string.

(** ORDER BY member_count DESC, label ASC *)
Definition shown_lt (a b : campaign) : bool :=
  if member_count b <? member_count a then true else if member_count a <? member_count b then false else String.ltb (label a) (label b).
Definition campaign_rows (w : world) (cve : string) : list campaign :=
  sort_on shown_lt (List.filter (fun c => existsb (fun m => String.eqb (fst m) (campaign_id c) && String.eqb (snd m) cve) (members w) && active c) (campaigns w)).

Definition members_of (w : world) (cid : string) : list string := sorted (map snd (List.filter (fun m => String.eqb (fst m) cid) (members w))).

(** COUNT(DISTINCT pulse_id) of each of these CVEs *)
Definition pulse_counts (w : world) (ids : list string) : gmap string Z :=
  fold_left (fun m c => match remove_dups (map l_pulse (List.filter (fun l => String.eqb (l_cve l) c) (cve_pulses w))) with
                        | [] => m | p => <[c := Z.of_nat (length p)]> m end) ids ∅.

(** The stored members and the peers that are not among them yet. *)
Definition with_peers (stored peers : list string) : list string :=
  fold_left (fun acc p => if one_in acc p then acc else acc ++ [p])%list peers stored.

Definition shared_edges (cve : string) (edges : list (string * list (string * string))) (filtered : list string) : list (string * string) :=
  fold_left (fun acc e => if existsb (fun x => key_eqb x e) acc then acc else acc ++ [e])%list
    (flat_map (fun p => if String.eqb p cve then [] else match assoc p edges with Some l => l | None => [] end) filtered) [].

Definition view_of (w : world) (cve : string) (names : list string) (index : alias_index) (edges : list (string * list (string * string))) (c : campaign) (filtered : list string) : view :=
  let ioc_edges := shared_edges cve edges filtered in
  let '(level, why, factors) := campaign_confidence (or_text (confidence c) "medium") ioc_edges true in
  let safe_label := sanitize_pulse_text (label c) 240 in
  let conflict := attribution_conflict (c_adversary c) names index in
  let reason := "Adversary attribution conflicts with MITRE technique-matched actors" in
  let boosters := kev_exploit_boosters w filtered cve in
  mkView (campaign_id c) safe_label (primary_pulse_id c) (sanitize_pulse_text (c_adversary c) 120) filtered
    (if conflict && String.eqb level "high" then "medium" else level) (lifecycle c) boosters
    ([SamePulse (primary_pulse_id c) safe_label] ++ map (fun e => SharedIndicator (fst e) (snd e)) (firstn 5 ioc_edges) ++
     (if nonempty_list (fst boosters) then [KevBooster (firstn 5 (fst boosters))] else if nonempty_list (snd boosters) then [ExploitBooster (firstn 5 (snd boosters))] else []))%list
    (if conflict then Some reason else why) (if conflict then factors ++ [one_factor "attribution_conflict" PNone reason] else factors)%list conflict
    (build_attribution_claims (c_adversary c) names index (first_seen c)) (if author_count c =? 0 then 1 else author_count c) (text_or (family_id c)).

(** The peers by strong indicators, where the caller does not pass them. *)
Definition strong_peers (w : world) (cve cutoff : string) (now : Z) (given : option (list string)) : res (list string) :=
  match given with
  | Some l => Ok l
  | None => let! peers := find_shared_infrastructure_v2 env digest json_loads set_order (graph_of w) cve cutoff now 20 in
            Ok (map p_cve (List.filter (fun p => negb (p_hash p =? 0) || negb (p_domain p =? 0)) peers))
  end.

Definition get_campaigns_for_cve (w : world) (cve_id cutoff : string) (now : Z) (given : option (list string)) : res (list view) :=
  let cve := upper cve_id in
  let hidden := resolve_suppressed_campaign_ids w (load_suppressions w cve) in
  let! strong := strong_peers w cve cutoff now given in
  let rows := List.filter (fun c => negb (one_in hidden (campaign_id c))) (campaign_rows w cve) in
  let counts := pulse_counts w (cve :: strong ++ flat_map (fun c => members_of w (campaign_id c)) rows)%list in
  let names := List.filter nonempty (map snd (List.filter (fun a => String.eqb (fst a) cve) (correlation_actor w))) in
  let index := build_alias_families json_loads py_str (mitre_groups w) in
  let! filtered := map_res (fun c => let! f := filter_campaign_members env cve (with_peers (members_of w (campaign_id c)) strong) counts None None in Ok (c, f)) rows in
  let kept := List.filter (fun cf => 2 <=? Z.of_nat (length (snd cf))) filtered in
  let edges := batch_ioc_edges_for_peers (graph_of w) cve (List.filter (fun p => negb (String.eqb p cve)) (flat_map snd kept)) in
  Ok (map (fun cf => view_of w cve names index edges (fst cf) (snd cf)) kept).
End view.

Section shown.
Context {lib : MathLib}.
Variable env : string -> option string.
Variable digest : string -> string.
Variable set_order : gset string -> list string.
Variable json_loads : string -> option pyval.
Variable py_str : pyval -> string.
Abbreviation shown := (get_campaigns_for_cve env digest set_order json_loads py_str).

(** Where a shown campaign comes from. *)
Lemma shown_from w cve_id cutoff now given l v : shown w cve_id cutoff now given = Ok l -> In v l ->
  exists strong c filtered counts names index edges, strong_peers env digest set_order json_loads w (upper cve_id) cutoff now given = Ok strong /\
    In c (campaigns w) /\ active c = true /\ In (campaign_id c, upper cve_id) (members w) /\
    ~ In (campaign_id c) (resolve_suppressed_campaign_ids w (load_suppressions w (upper cve_id))) /\
    filter_campaign_members env (upper cve_id) (with_peers (members_of w (campaign_id c)) strong) counts None None = Ok filtered /\ 2 <= Z.of_nat (length filtered) /\
    v = view_of w (upper cve_id) names index edges c filtered.
Proof.
  unfold get_campaigns_for_cve. destruct (strong_peers _ _ _ _ w (upper cve_id) cutoff now given) as [strong|] eqn:St; [|done]. cbn [res_bind].
  set (hidden := resolve_suppressed_campaign_ids _ _). set (rows := List.filter _ (campaign_rows w _)). set (counts := pulse_counts w _).
  destruct (map_res _ rows) as [filtered|] eqn:F; [|done]. cbn [res_bind]. intros H I. apply ok_inj in H as <-. apply in_map_iff in I as ([c f] & <- & [I K%Z.leb_le]%filter_In).
  assert (J : In c rows /\ filter_campaign_members env (upper cve_id) (with_peers (members_of w (campaign_id c)) strong) counts None None = Ok f).
  { clear K. clearbody rows counts. revert filtered F I. induction rows as [|r rows IH]; intros filtered F I; cbn [map_res] in F; [apply ok_inj in F as <-; done|].
    destruct (filter_campaign_members env (upper cve_id) (with_peers (members_of w (campaign_id r)) strong) counts None None) as [g|] eqn:G; [|done]. cbn [res_bind] in F. destruct (map_res _ rows) as [fs|] eqn:M; [|done]. cbn [res_bind] in F. apply ok_inj in F as <-.
    destruct I as [[= -> ->]|I]; [by split; [left|]|]. destruct (IH fs eq_refl I) as [A B]. by split; [right|]. }
  destruct J as [Ic Ef]. apply filter_In in Ic as [Ic Nh]. unfold campaign_rows in Ic. rewrite sort_on_perm in Ic. apply filter_In in Ic as [Ic [Mb A]%andb_true_iff].
  apply existsb_exists in Mb as ([m x] & Im & [Q1%String.eqb_eq Q2%String.eqb_eq]%andb_true_iff). cbn [fst snd] in *. subst m x. eexists strong, c, f, counts, _, _, _.
  split; [done|]. split; [done|]. split; [done|]. split; [done|]. split; [|by repeat split].
  intros X. apply negb_true_iff in Nh. apply list_elem_of_In, one_in_spec in X. subst hidden. by rewrite X in Nh.
Qed.

Lemma view_parts w cve names index edges c f : let v := view_of w cve names index edges c f in
  v_id v = campaign_id c /\ v_members v = f /\ v_conflict v = attribution_conflict (c_adversary c) names index /\
  let level := fst (fst (campaign_confidence (or_text (confidence c) "medium") (shared_edges cve edges f) true)) in
  v_confidence v = (if v_conflict v && String.eqb level "high" then "medium" else level).
Proof. unfold view_of. by destruct (campaign_confidence _ _ _) as [[level why] factors]. Qed.

Lemma direct_hidden w l s : In s l -> s_scope s = "campaign_id" -> nonempty (s_key s) = true -> In (s_key s) (resolve_suppressed_campaign_ids w l).
Proof.
  intros I S K. assert (In (s_key s) (direct_ids l)) as D. { unfold direct_ids. apply in_map, filter_In. by rewrite S, K. }
  unfold resolve_suppressed_campaign_ids. destruct (direct_ids l); [done|]. cbn [negb nonempty_list]. apply in_app_iff. by left.
Qed.

(** [shown_campaigns_are_in_force]: a campaign is shown for a CVE only where it is in force, has the CVE as a stored
    member and is not suppressed for it; it shows at least two CVEs, no more than the cap. *)
Theorem shown_campaigns_are_in_force w cve_id cutoff now given l v : shown w cve_id cutoff now given = Ok l -> In v l ->
  (exists c, In c (campaigns w) /\ campaign_id c = v_id v /\ active c = true) /\ In (v_id v, upper cve_id) (members w) /\
  (forall s, In s (suppressions w) -> s_cve s = upper cve_id -> s_scope s = "campaign_id" -> nonempty (s_key s) = true -> s_key s <> v_id v) /\
  exists max, get_max_campaign_members env = Ok max /\ 2 <= Z.of_nat (length (v_members v)) <= max.
Proof.
  intros H I. destruct (shown_from _ _ _ _ _ _ _ H I) as (strong & c & f & counts & names & index & edges & St & Ic & A & M & N & F & K & ->).
  destruct (view_parts w (upper cve_id) names index edges c f) as (-> & -> & _). split; [by exists c|]. split; [done|]. split.
  { intros s Is Sc Ss Sk Q. apply N. rewrite <-Q. apply direct_hidden; [|done|done]. unfold load_suppressions. apply filter_In. split; [done|]. rewrite Sc. apply String.eqb_eq. symmetry. apply upper_idemp. }
  destruct (get_hub_cve_pulse_cap env) as [cap|] eqn:Hc; [|unfold filter_campaign_members in F; by rewrite Hc in F].
  destruct (get_max_campaign_members env) as [max|] eqn:Hm.
  - exists max. split; [done|]. assert (2 <= max) as M2 by (unfold get_max_campaign_members in Hm; destruct (int_of_str _); [|done]; apply ok_inj in Hm; lia).
    destruct (campaign_members_spec env _ _ counts None None cap max f Hc Hm M2 F) as (_ & L & _). lia.
  - unfold filter_campaign_members in F. rewrite Hc in F. cbn [res_bind] in F. rewrite Hm in F. unfold apply_member_cap, or_limit in F. rewrite Hm in F. cbn [res_bind] in F. by destruct (is_hub_cve _ _).
Qed.

(** [high_means_strong_and_uncontested]: a campaign whose stored confidence is medium, as every rebuild stores it, is
    shown as high exactly when its members share a hash or a domain with the CVE and its
    adversary does not conflict with the actors of ATT&CK, and as medium otherwise. *)
Theorem high_means_strong_and_uncontested w cve names index edges c filtered : confidence c = "medium" ->
  let v := view_of w cve names index edges c filtered in
  let strong := existsb is_strong (shared_edges cve edges filtered) in
  v_confidence v = (if strong && negb (attribution_conflict (c_adversary c) names index) then "high" else "medium").
Proof.
  intros M. cbv zeta. destruct (view_parts w cve names index edges c filtered) as (_ & _ & -> & ->). rewrite M. unfold campaign_confidence. cbn [or_text nonempty andb].
  destruct (existsb is_strong _); cbn; [by destruct (attribution_conflict _ _ _)|]. by rewrite !andb_false_r.
Qed.
End shown.

(** ** Suppressions under an old identifier *)

Section oldest.
Context (key : string * option pulse -> Z).
Definition keyed_lt (a b : string * option pulse) : bool := if key a <? key b then true else if key b <? key a then false else String.ltb (fst a) (fst b).

Lemma keyed_asym a b : keyed_lt a b = true -> keyed_lt b a = false.
Proof.
  unfold keyed_lt. destruct (Z.ltb_spec (key a) (key b)), (Z.ltb_spec (key b) (key a)); try lia; try done. intros L. apply not_true_is_false. intros M.
  pose proof (ltb_trans _ _ _ L M) as X. by rewrite ltb_irrefl in X.
Qed.

Lemma keyed_trans a b c : not_after keyed_lt a b -> not_after keyed_lt b c -> not_after keyed_lt a c.
Proof.
  unfold not_after, keyed_lt. destruct (Z.ltb_spec (key b) (key a)), (Z.ltb_spec (key a) (key b)), (Z.ltb_spec (key c) (key b)), (Z.ltb_spec (key b) (key c)), (Z.ltb_spec (key c) (key a)), (Z.ltb_spec (key a) (key c));
    try lia; try done. apply ltb_not_after.
Qed.

Lemma keyed_head l x t : sort_on keyed_lt l = x :: t -> In x l /\ forall y, In y l -> keyed_lt y x = false.
Proof.
  intros S. pose proof (sort_on_perm keyed_lt l) as P. rewrite S in P. split; [rewrite <-P; by left|]. intros y I. rewrite <-P in I.
  pose proof (sort_on_sorted keyed_lt l keyed_asym keyed_trans) as O. rewrite S in O. destruct I as [<-|I].
  - unfold keyed_lt. rewrite Z.ltb_irrefl. apply ltb_irrefl.
  - apply StronglySorted_inv in O as [_ O]. rewrite List.Forall_forall in O. by apply O.
Qed.
End oldest.

(** Rows of pulses dated after 1970, or not at all. *)
Definition dated_since_1970 (rows : list (string * option pulse)) : Prop := forall r t, In r rows -> _parse_dt (Some (field created_date (snd r))) = Some t -> 0 < t.

Lemma same_oldest rows rows' x x' t t' : (forall r, In r rows <-> In r rows') -> dated_since_1970 rows ->
  sort_on age_lt rows = x :: t -> sort_on epoch_lt rows' = x' :: t' -> fst x = fst x'.
Proof.
  intros E D S S'. destruct (keyed_head _ _ _ _ S) as [I M]. destruct (keyed_head _ _ _ _ S') as [I' M']. apply E in I'. specialize (M x' I'). specialize (M' x (proj1 (E x) I)).
  unfold keyed_lt in M, M'. assert (MIN_US < 0) as N by (vm_compute; reflexivity).
  destruct (_parse_dt (Some (field created_date (snd x)))) as [a|] eqn:A; [pose proof (D _ _ I A)|]; (destruct (_parse_dt (Some (field created_date (snd x')))) as [b|] eqn:B; [pose proof (D _ _ I' B)|]).
  - destruct (Z.ltb_spec b a), (Z.ltb_spec a b); try done; try lia. destruct (ltb_total _ _ M); [done|congruence].
  - destruct (Z.ltb_spec MIN_US a); [done|lia].
  - destruct (Z.ltb_spec 0 b); [done|lia].
  - rewrite !Z.ltb_irrefl in *. destruct (ltb_total _ _ M); [done|congruence].
Qed.

(** [old_suppression_follows_the_family]: a suppression made under the identifier a pulse's own campaign had
    hides the campaign that a rebuild gives the pulse's family. *)
Theorem old_suppression_follows_the_family env json_loads json_dumps now w cve_id s pid fam rows c ids :
  In s (load_suppressions w cve_id) -> s_scope s = "campaign_id" -> s_key s = PulseFamilies.legacy_campaign_id_for_pulse pid ->
  In (PulseFamilies.mkFamilyRow pid fam) (pulse_families w) -> (forall f, In f (pulse_families w) -> nonempty (PulseFamilies.fr_pulse f) = true) ->
  In (fam, rows) (families_dict w) -> dated_since_1970 rows -> campaign_of env json_loads json_dumps now w fam rows = Ok (Some (c, ids)) ->
  In (campaign_id c) (resolve_suppressed_campaign_ids w (load_suppressions w cve_id)).
Proof.
  intros I S K F NE R D C. set (l := load_suppressions w cve_id) in *.
  assert (In (s_key s) (direct_ids l)) as Di. { unfold direct_ids. apply in_map, filter_In. by rewrite S, K. }
  unfold resolve_suppressed_campaign_ids. destruct (direct_ids l) as [|d0 ds] eqn:Q; [done|]. rewrite <-Q in *. assert (nonempty_list (direct_ids l) = true) as -> by (by rewrite Q). cbn [negb].
  apply in_app_iff. right. apply in_flat_map. set (mine := at_key fam (map (fun f => (PulseFamilies.fr_family f, (PulseFamilies.fr_pulse f, find_pulse w (PulseFamilies.fr_pulse f)))) (pulse_families w))).
  assert (M : forall r, In r rows <-> In r mine).
  { unfold families_dict in R. apply append_at_groups in R as [-> _]. intros r. unfold mine, at_key. rewrite !in_map_iff. split; intros ([k r'] & <- & [J G]%filter_In); exists (k, r'); (split; [done|]); apply filter_In; (split; [|done]).
    - apply in_map_iff in J as ([f p] & [= <- <-] & J). rewrite sort_on_perm in J. apply in_map_iff in J as (f' & [= -> <-] & J). apply in_map_iff. by exists f.
    - apply in_map_iff in J as (f & [= <- <-] & J). apply in_map_iff. exists (f, find_pulse w (PulseFamilies.fr_pulse f)). split; [done|]. rewrite sort_on_perm. apply in_map_iff. by exists f. }
  exists (fam, mine). split.
  { unfold suppressed_rows. apply append_at_groups. split; [done|]. rewrite map_map. apply in_map_iff. by exists (PulseFamilies.mkFamilyRow pid fam). }
  unfold expanded_id. cbn [fst snd]. assert (existsb (fun r => one_in (direct_ids l) (PulseFamilies.legacy_campaign_id_for_pulse (fst r))) mine = true) as ->.
  { apply existsb_exists. exists (pid, find_pulse w pid). split; [|apply one_in_spec, list_elem_of_In; cbn [fst]; by rewrite <-K].
    unfold mine, at_key. apply in_map_iff. exists (fam, (pid, find_pulse w pid)). split; [done|]. apply filter_In. split; [|apply String.eqb_refl]. apply in_map_iff. by exists (PulseFamilies.mkFamilyRow pid fam). }
  unfold campaign_of in C. cbv zeta in C. assert (List.filter (fun r => nonempty (fst r)) rows = rows) as NR.
  { apply filter_all. intros r Ir. apply M in Ir. unfold mine, at_key in Ir. apply in_map_iff in Ir as ([k r'] & <- & [Ir _]%filter_In). apply in_map_iff in Ir as (f & [= _ <-] & Ir). by apply NE. }
  rewrite NR in C. destruct (sort_on age_lt rows) as [|[oldest primary] t] eqn:So; [done|]. destruct (sort_on epoch_lt mine) as [|[oldest' p'] t'] eqn:So'.
  { exfalso. pose proof (sort_on_perm epoch_lt mine) as P. rewrite So' in P. apply Permutation_nil in P. pose proof (sort_on_perm age_lt rows) as P2. rewrite So in P2.
    assert (In (oldest, primary) mine) as X by (apply M; rewrite <-P2; by left). by rewrite P in X. }
  pose proof (same_oldest _ _ _ _ _ _ M D So So') as E. cbn [fst] in E. subst oldest'.
  destruct (get_max_campaign_members env); [|done]. cbn [res_bind] in C. destruct (_ <? 2); [done|]. apply ok_inj in C. injection C as <- _. by left.
Qed.

(** ** Concrete nights *)

Definition no_docs (_ : string) : option pyval := None.
Definition no_text (_ : pyval) : string := "[]".
Definition july_20 : Z := days_from_civil 2026 7 20 * DAY_US.
Definition a_cve (i : string) : cve := mkCve i (PBool false) (PBool false) (Some "2026-05-01") None.
Definition a_pulse (i : string) (created : option string) : pulse := mkPulse i (Some "Storm") (Some "ann") created (Some "APT1") None None None.
Definition base : world := mkWorld
  [a_pulse "p1" (Some "2026-05-02"); a_pulse "p2" (Some "2026-05-01")] [a_cve "CVE-2026-1"; a_cve "CVE-2026-2"]
  [an_ioc "p1" "DOMAIN" "evil.example"; an_ioc "p2" "DOMAIN" "evil.example"]
  [tag "CVE-2026-1" "p1"; tag "CVE-2026-2" "p1"; tag "CVE-2026-1" "p2"; tag "CVE-2026-2" "p2"]
  [] [] [] [] [] [("CVE-2026-1", "APT29")] [] [mkSuppression "CVE-2026-2" "campaign_id" (PulseFamilies.legacy_campaign_id_for_pulse "p1")] [] [] [] [].
(** The same world without its second CVE. *)
Definition with_cves (l : list cve) (w : world) : world :=
  mkWorld (pulses w) l (pulse_iocs w) (cve_pulses w) (ioc_degree w) (ti_mirror w) (cache w) (kev_deadlines w) (epss_history w)
    (correlation_actor w) (mitre_groups w) (suppressions w) (pulse_families w) (campaigns w) (members w) (sync_state w).

Abbreviation rebuilt now w := (build_campaigns_from_pulses no_env any_order no_docs no_text now w).
Abbreviation night now w := (nightly_campaigns no_env any_order no_docs no_text now w).

Definition night_1 : world := Eval vm_compute in night july_20 base.
Definition night_2 : world := Eval vm_compute in night (july_20 + DAY_US) (with_cves [a_cve "CVE-2026-1"] night_1).
Definition returned : world := with_cves (cves base) night_2.

Lemma base_ok : store_ok base.
Proof. split; cbn; [apply NoDup_nil_2..|done]. Qed.

Lemma campaigns_are_the_families_witness : exists w' n, rebuilt july_20 base = Ok (w', n) /\ length (List.filter active (campaigns w')) = 1%nat /\
  forall fam, In (Some fam) (map family_id (List.filter active (campaigns w'))) <-> 2 <= Z.of_nat (length (cves_of base (family_ids w' fam))).
Proof.
  destruct (is_ok_spec (rebuilt july_20 base)) as [[w' n] E]; [vm_compute; reflexivity|]. exists w', n. split; [exact E|]. split.
  - assert ((let! r := rebuilt july_20 base in Ok (length (List.filter active (campaigns (fst r))))) = Ok 1%nat) as X by (vm_compute; reflexivity). rewrite E in X. by apply ok_inj in X.
  - exact (proj1 (proj2 (campaigns_are_the_families no_env any_order no_docs no_text july_20 base w' n base_ok E))).
Defined.

Lemma night_1_ok : store_ok night_1.
Proof. split; cbn; [repeat constructor; set_solver|repeat constructor; set_solver|]. intros m [<-|[<-|[]]]; by left. Qed.

Lemma retractions_are_kept_witness : exists c w' n, In c (campaigns night_1) /\ rebuilt (july_20 + DAY_US) (with_cves [a_cve "CVE-2026-1"] night_1) = Ok (w', n) /\
  In (retract (isoformat (july_20 + DAY_US)) c) (campaigns w').
Proof.
  destruct (campaigns night_1) as [|c t] eqn:C; [discriminate C|]. destruct (is_ok_spec (rebuilt (july_20 + DAY_US) (with_cves [a_cve "CVE-2026-1"] night_1))) as [[w' n] E]; [vm_compute; reflexivity|].
  exists c, w', n. split; [by left|]. split; [exact E|].
  assert ((let! r := rebuilt (july_20 + DAY_US) (with_cves [a_cve "CVE-2026-1"] night_1) in Ok (pulse_families (fst r))) = Ok []) as X by (vm_compute; reflexivity). rewrite E in X. apply ok_inj in X. cbn [fst] in X.
  assert (store_ok (with_cves [a_cve "CVE-2026-1"] night_1)) as O by (destruct night_1_ok; by split).
  destruct (retractions_are_kept no_env any_order no_docs no_text _ _ _ _ c O E) as [_ K]; [cbn [with_cves campaigns]; rewrite C; by left|].
  unfold night_1 in C. cbn [campaigns] in C. injection C as <- <-. eapply K; [reflexivity|reflexivity|reflexivity|]. rewrite X. by intros f [].
Defined.

(** The campaign of night 1 is retracted on night 2, when its second CVE is gone, and when
    the CVE is back the next nights leave everything as it is: no campaign in force. *)
Lemma returned_family_freezes_campaigns_witness :
  map active (campaigns night_1) = [true] /\ map active (campaigns night_2) = [false] /\ night (july_20 + 2 * DAY_US) returned = returned.
Proof.
  split; [reflexivity|]. split; [reflexivity|].
  destruct (campaigns returned) as [|c t] eqn:C; [discriminate C|]. pose proof C as C0. unfold returned, with_cves, night_2 in C0. cbn [campaigns] in C0. injection C0 as <- _.
  destruct (is_ok_spec (rebuild_families no_env any_order (fst (prune_invalid_campaign_members returned)))) as [[w1 n] R]; [vm_compute; reflexivity|].
  assert ((let! r := rebuild_families no_env any_order (fst (prune_invalid_campaign_members returned)) in
           match families_dict (fst r) with [(fam, rows)] => let! b := campaign_of no_env no_docs no_text (july_20 + 2 * DAY_US) (fst r) fam rows in Ok (option_map (fun b => campaign_id (fst b)) b) | _ => Raise KeyError end)
          = Ok (Some (campaign_id (nth 0 (campaigns returned) (mkCampaign "" "" "" "" "" "" "" "" 0 stale "" None "" "" 0 None))))) as X by (vm_compute; reflexivity).
  rewrite R in X. cbn [res_bind fst] in X. destruct (families_dict w1) as [|[fam rows] [|]] eqn:D; [done| |done].
  destruct (campaign_of no_env no_docs no_text (july_20 + 2 * DAY_US) w1 fam rows) as [[[c' ids]|]|] eqn:K; [|done|done]. cbn [res_bind option_map fst] in X. apply ok_inj in X. injection X as X.
  eapply (returned_family_freezes_campaigns no_env any_order no_docs no_text (july_20 + 2 * DAY_US) returned w1 n _ fam rows c' ids R); [rewrite C; left; reflexivity|reflexivity| |rewrite D; by left|exact K|rewrite X; reflexivity].
  exists "CVE-2026-1". split; [vm_compute; by left|reflexivity].
Defined.

Abbreviation seen c := (get_campaigns_for_cve no_env dig any_order no_docs no_text night_1 c "2026-07-19 00:00:00" july_20 None).

Lemma shown_campaigns_are_in_force_witness : exists l, seen "cve-2026-1" = Ok l /\ length l = 1%nat /\
  Forall (fun v => (exists c, In c (campaigns night_1) /\ campaign_id c = v_id v /\ active c = true) /\ v_confidence v = "medium" /\ v_conflict v = true) l.
Proof.
  destruct (is_ok_spec (seen "cve-2026-1")) as [l E]; [vm_compute; reflexivity|]. exists l. split; [exact E|].
  assert ((let! l := seen "cve-2026-1" in Ok (map (fun v => (v_confidence v, v_conflict v)) l)) = Ok [("medium", true)]) as X by (vm_compute; reflexivity). rewrite E in X. cbn [res_bind] in X. apply ok_inj in X.
  destruct l as [|v [|]]; [discriminate X| |discriminate X]. cbn [map] in X. injection X as X1 X2. split; [reflexivity|]. constructor; [|constructor]. split; [|split; [exact X1|exact X2]].
  exact (proj1 (shown_campaigns_are_in_force no_env dig any_order no_docs no_text night_1 "cve-2026-1" "2026-07-19 00:00:00" july_20 None _ v E (or_introl eq_refl))).
Defined.

Lemma high_means_strong_and_uncontested_witness : exists c, In c (campaigns night_1) /\
  v_confidence (view_of night_1 "CVE-2026-1" [] ∅ [("CVE-2026-2", [("DOMAIN", "evil.example")])] c ["CVE-2026-1"; "CVE-2026-2"]) = "high".
Proof.
  eexists. split; [left; reflexivity|]. rewrite high_means_strong_and_uncontested by reflexivity. vm_compute. reflexivity.
Defined.

(** The suppression that names the first pulse's own campaign hides the family's campaign. *)
Lemma old_suppression_follows_the_family_witness : exists c, In c (campaigns night_1) /\
  In (campaign_id c) (resolve_suppressed_campaign_ids night_1 (load_suppressions night_1 "CVE-2026-2")) /\ seen "CVE-2026-2" = Ok [].
Proof.
  destruct (families_dict night_1) as [|[fam rows] [|]] eqn:D; [discriminate D| |discriminate D].
  assert ((match families_dict night_1 with [(fam, rows)] => campaign_of no_env no_docs no_text july_20 night_1 fam rows | _ => Raise KeyError end) =
          Ok (Some (nth 0 (campaigns night_1) (mkCampaign "" "" "" "" "" "" "" "" 0 stale "" None "" "" 0 None), ["CVE-2026-1"; "CVE-2026-2"]))) as K by (vm_compute; reflexivity).
  rewrite D in K. eexists. split; [left; reflexivity|]. split; [|vm_compute; reflexivity].
  eapply (old_suppression_follows_the_family no_env no_docs no_text july_20 night_1 "CVE-2026-2" (mkSuppression "CVE-2026-2" "campaign_id" (PulseFamilies.legacy_campaign_id_for_pulse "p1")) "p1" fam rows);
    [by left|reflexivity|reflexivity| | |rewrite D; by left| |exact K].
  - assert (map fst (families_dict night_1) = map PulseFamilies.fr_family (firstn 1 (pulse_families night_1))) as X by (vm_compute; reflexivity). rewrite D in X. cbn [map fst] in X. injection X as ->. vm_compute. tauto.
  - intros f. vm_compute. intros [<-|[<-|[]]]; reflexivity.
  - assert (snd (nth 0 (families_dict night_1) ("", [])) = [("p2", Some (a_pulse "p2" (Some "2026-05-01"))); ("p1", Some (a_pulse "p1" (Some "2026-05-02")))]) as X by (vm_compute; reflexivity).
    rewrite D in X. cbn [nth snd] in X. subst rows. intros r t [<-|[<-|[]]]; vm_compute; intros [= <-]; reflexivity.
Defined.
