(* ===== verification/Temporal.v ===== *)
(** * Temporal: correlation/engine.py, vendors with unusually many CVEs

    The vendors whose CVEs of the last week exceed three times their weekly average over
    ninety days, the table they are written to, and the rows shown for a CVE.  The counts
    are integers and the averages IEEE doubles; [volume_spikes_follow_the_rule] shows that
    the doubles decide as the exact fractions do.  [json_loads] is [None] where the text is
    no JSON, [py_str] is [str] of a value that is not text, [set_order] the order in which
    Python iterates a set; the clock is in microseconds. *)

From Stdlib Require Import QArith Qpower Lqa Sorted.
From S2P Require Import Prelude PyStr DecText PyVal Float64 FloatErr Dates DateText CveRow Cpe StackAssets Pacing Campaigns.
From S2P Require CorrScore.
Open Scope string_scope.
Open Scope Z_scope.

(** What the query reads of cves; [None] is NULL. *)
Record product_row := mkProducts { affected_products : option string; published : option string }.
(** correlation_temporal, whose key is the vendor. *)
Record spike := mkSpike { vendor : string; current_week_count : Z; average_weekly_count : fl; anomaly_score : fl }.

Abbreviation tally := (list (string * Z)) (only parsing).
Definition count_in (d : list (string * Z)) (v : string) : Z := match assoc v d with Some n => n | None => 0 end.
(** [d\[v\] = d.get(v, 0) + 1] *)
Definition bump (d : list (string * Z)) (v : string) : list (string * Z) := dset d v (count_in d v + 1).

Section temporal.
Variable json_loads : string -> option pyval.
Variable py_str : pyval -> string.

Definition _parse_json_list (value : option string) : list pyval :=
  match value with Some s => match json_loads s with Some (PList l) => l | _ => [] end | None => [] end.

(** [prod.split(":")\[0\].lower().strip()], where there is a colon. *)
Definition vendor_of (p : pyval) : option string :=
  match split_once ":" (to_str py_str p) with Some (v, _) => Some (strip (lower v)) | None => None end.

(** The vendors of a row, each once, in the order of its products. *)
Definition seen_vendors (products : list pyval) : list string :=
  fold_left (fun seen p => match vendor_of p with Some v => if negb (nonempty v) || one_in seen v then seen else (seen ++ [v])%list | None => seen end) products [].

(** The WHERE of the query. *)
Definition in_window (cutoff : string) (r : product_row) : bool :=
  match published r, affected_products r with
  | Some p, Some a => nonempty p && negb (String.ltb p cutoff) && negb (String.eqb a "[]")
  | _, _ => false
  end.

Definition is_recent (week_ago : Z) (r : product_row) : bool :=
  match fromisoformat (replace_Z (strip (text_or (published r)))) with Some d => week_ago <=? utc_us d | None => false end.

(** A row's effect on vendor_week and vendor_total. *)
Definition count_row (week_ago : Z) (d : list (string * Z) * list (string * Z)) (r : product_row) : list (string * Z) * list (string * Z) :=
  let vendors := seen_vendors (_parse_json_list (affected_products r)) in
  (if is_recent week_ago r then fold_left bump vendors (fst d) else fst d, fold_left bump vendors (snd d)).

(** The entry of one vendor of vendor_week, if it has one. *)
Definition spike_of (weeks_in_window : fl) (total : list (string * Z)) (vw : string * Z) : res (option spike) :=
  let '(v, week_count) := vw in
  let! n := fl_of_int (match assoc v total with Some t => t | None => week_count end) in
  let! avg_weekly := fdiv n weeks_in_window in
  if flt avg_weekly (lit (1 # 2)) then Ok None
  else
    let! w := fl_of_int week_count in
    let! score := fdiv w avg_weekly in
    Ok (if fle (Fin 3) score then Some (mkSpike v week_count (round_nd avg_weekly 2) (round_nd score 2)) else None).

(** [sort(key=score, reverse=True)], which keeps the order of equal scores. *)
Definition higher (a b : spike) : bool := flt (anomaly_score b) (anomaly_score a).

Definition window_start (now : Z) : string := date_text ((now - 90 * DAY_US) / DAY_US).
Definition counted (rows : list product_row) (now : Z) : list (string * Z) * list (string * Z) :=
  fold_left (count_row (now - 7 * DAY_US)) (List.filter (in_window (window_start now)) rows) ([], []).

Definition find_temporal_anomalies (rows : list product_row) (now : Z) : res (list spike) :=
  let '(vendor_week, vendor_total) := counted rows now in
  let! weeks_in_window := fdiv (Fin 90) (Fin 7) in
  let! found := map_res (spike_of weeks_in_window vendor_total) vendor_week in
  Ok (firstn 20 (sort_on higher (omap id found))).

(** DELETE, then an INSERT each; the vendor is the primary key. *)
Definition insert_spike (tbl : list spike) (a : spike) : res (list spike) :=
  if existsb (fun s => String.eqb (vendor s) (vendor a)) tbl then Raise IntegrityError else Ok (tbl ++ [a])%list.
Definition _store_temporal_anomalies (anomalies : list spike) : res (list spike) := fold_res insert_spike anomalies [].

(** ** What is shown for a CVE *)

Record cve_signals := mkSignals { cs_products : option string; cs_description : option string; cs_is_kev : pyval; cs_has_poc : pyval }.

(** local.py *)
Definition stack_terms_list (assets : list asset) : list string :=
  map (fun t => lower (strip t)) (List.filter (fun t => nonempty (strip t)) (assets_to_terms assets)).

Definition cve_matches_stack (cve_id description : string) (products : list pyval) (terms : list string) : bool :=
  let products_blob := lower (sjoin " " (map (to_str py_str) products)) in
  existsb (fun t => String.eqb (upper t) (upper cve_id) || str_in t (lower description) || str_in t products_blob) terms.

Variable set_order : gset string -> list string.

Definition vendor_set (products : list pyval) : gset string :=
  list_to_set (List.filter nonempty (omap vendor_of products)).

Definition _get_temporal_for_cve (row : option cve_signals) (assets : list asset) (tbl : list spike) (cve_id : string) : list spike :=
  match row with
  | None => []
  | Some r =>
      let products := _parse_json_list (cs_products r) in
      let vendors := vendor_set products in
      if decide (vendors = ∅) then []
      else
        let terms := stack_terms_list assets in
        let on_stack := cve_matches_stack cve_id (text_or (cs_description r)) products terms in
        let has_signal := truthy (cs_is_kev r) || truthy (cs_has_poc r) in
        if nonempty_list terms && negb on_stack && negb has_signal then []
        else flat_map (fun v => List.filter (fun s => String.eqb (vendor s) v) tbl) (set_order vendors)
  end.

End temporal.

(** ** The doubles decide as the fractions do *)

Section rounding.
Open Scope Q_scope.

Definition unit_roundoff : Q := 1 # 9007199254740992.

(** A positive number of normal size is rounded within half a unit in its last place. *)
Lemma rnd_relative q : 2 ^ (-1000) <= q -> q * (1 - unit_roundoff) <= rnd q <= q * (1 + unit_roundoff).
Proof.
  intros L. pose proof (pow2_pos (-1000)). assert (0 < q) as P by lra. unfold rnd. destruct (Qcompare_spec q 0) as [X|X|X]; [lra|lra|]. rewrite Qred_correct.
  destruct (ilog2_spec q P) as [A B].
  assert (-1001 < ilog2 q)%Z as G.
  { destruct (Z.le_gt_cases (ilog2 q) (-1001)) as [W|W]; [exfalso|done]. assert (2 ^ (ilog2 q + 1) <= 2 ^ (-1000)) by (apply Qpower_le_compat_l; [lia|discriminate]). lra. }
  pose proof (to_grid_err (grid_exp q) q) as [C D]. assert (grid_exp q - 1 = ilog2 q + -53)%Z as E by (unfold grid_exp; lia). rewrite E, Qpower_plus in C, D by discriminate.
  change (2 ^ (-53)) with unit_roundoff in *. assert (2 ^ ilog2 q * unit_roundoff <= q * unit_roundoff) by (apply Qmult_le_compat_r; [done|discriminate]). lra.
Qed.

Definition W : Q := rnd (90 # 7).
Lemma W_bounds : (90 # 7) * (1 + (35 # 100) * unit_roundoff) <= W <= (90 # 7) * (1 + (36 # 100) * unit_roundoff).
Proof. split; vm_compute; discriminate. Qed.

Lemma small_average (t : Z) : (0 <= t < 2 ^ 40)%Z -> let a := rnd (inject_Z t / W) in ((t < 7)%Z -> a < 1 # 2) /\ ((7 <= t)%Z -> (1 # 2) <= a).
Proof.
  intros B. cbv zeta. pose proof W_bounds as [L U]. assert (0 < W) as P by (vm_compute; reflexivity). split; intros H.
  - apply Qle_lt_trans with (rnd (6 / W)); [|vm_compute; reflexivity]. apply rnd_mono. apply Qmult_le_compat_r; [|apply Qlt_le_weak, Qinv_lt_0_compat, P]. change 6 with (inject_Z 6). rewrite <-Zle_Qle. lia.
  - apply Qle_trans with (rnd (7 / W)); [vm_compute; discriminate|]. apply rnd_mono. apply Qmult_le_compat_r; [|apply Qlt_le_weak, Qinv_lt_0_compat, P]. change 7 with (inject_Z 7). rewrite <-Zle_Qle. lia.
Qed.

(** Dividing by the rounded average keeps the side of three the exact ratio is on. *)
Lemma ratio_rule (t w : Z) : (7 <= t < 2 ^ 40)%Z -> (0 <= w <= t)%Z -> let a := rnd (inject_Z t / W) in 3 <= rnd (inject_Z w / a) <-> (7 * t <= 30 * w)%Z.
Proof.
  intros B C. cbv zeta. pose proof W_bounds as [L U]. assert (0 < W) as P by (vm_compute; reflexivity). set (q := inject_Z t / W).
  assert (q * W == inject_Z t) as QW by (unfold q; field; lra).
  assert (7 <= inject_Z t) as T7 by (change 7 with (inject_Z 7); rewrite <-Zle_Qle; lia).
  assert (2 ^ (-1000) <= q) as N.
  { apply Qle_trans with (1 # 2); [vm_compute; discriminate|]. apply Qle_shift_div_l; [done|]. apply Qle_trans with 7; [|done]. vm_compute. discriminate. }
  pose proof (rnd_relative q N) as [A1 A2]. set (a := rnd q) in *. assert (0 < q) by (pose proof (pow2_pos (-1000)); lra).
  assert (0 < 1 - unit_roundoff) by (vm_compute; reflexivity).
  assert (0 < a) as PA. { apply Qlt_le_trans with (q * (1 - unit_roundoff)); [|done]. by apply Qmult_lt_0_compat. }
  assert (q * ((90 # 7) * (1 + (35 # 100) * unit_roundoff)) <= inject_Z t <= q * ((90 # 7) * (1 + (36 # 100) * unit_roundoff))) as [T1 T2].
  { rewrite <-QW. split; (apply Qmult_le_l; [done|]); done. }
  assert (inject_Z t <= inject_Z (2 ^ 40)) as T40 by (rewrite <-Zle_Qle; lia). change (inject_Z (2 ^ 40)) with 1099511627776 in T40.
  split; intros HR.
  - destruct (Z.le_gt_cases (7 * t) (30 * w)) as [|G]; [done|exfalso]. apply (Qlt_irrefl 3).
    apply Qle_lt_trans with (rnd (inject_Z w / a)); [done|]. apply Qle_lt_trans with (rnd (3 - (1 # 2251799813685248))); [|vm_compute; reflexivity].
    apply rnd_mono, Qle_shift_div_r; [done|].
    assert (30 * inject_Z w + 1 <= 7 * inject_Z t) as I. { change 30 with (inject_Z 30). change 7 with (inject_Z 7). change 1 with (inject_Z 1). rewrite <-!inject_Z_mult, <-inject_Z_plus, <-Zle_Qle. lia. }
    unfold unit_roundoff in *. lra.
  - apply Qle_trans with (rnd (3 - (1 # 4503599627370496))); [vm_compute; discriminate|]. apply rnd_mono, Qle_shift_div_l; [done|].
    assert (7 * inject_Z t <= 30 * inject_Z w) as I. { change 30 with (inject_Z 30). change 7 with (inject_Z 7). rewrite <-!inject_Z_mult, <-Zle_Qle. lia. }
    unfold unit_roundoff in *. lra.
Qed.
End rounding.

Section rule.
Open Scope Q_scope.

Lemma rnd_eq x y : x == y -> rnd x == rnd y.
Proof. intros E. apply Qle_antisym; apply rnd_mono; rewrite E; apply Qle_refl. Qed.

Lemma int_is_exact z : (0 <= z < 2 ^ 40)%Z -> exists q, fl_of_int z = Ok (Fin q) /\ q == inject_Z z.
Proof.
  intros B. exists (rnd (inject_Z z)). split; [|apply rnd_int; lia]. unfold fl_of_int. rewrite mk_fin; [done|]. change (- inject_Z (2 ^ 52)) with (inject_Z (- 2 ^ 52)). rewrite <-!Zle_Qle. lia.
Qed.

Lemma nonzero q : 0 < q -> Qeq_bool q 0 = false.
Proof. intros P. destruct (Qeq_bool q 0) eqn:E; [|done]. apply Qeq_bool_eq in E. lra. Qed.

Lemma spike_of_rule v w t total : assoc v total = Some t -> (0 <= w <= t)%Z -> (t < 2 ^ 40)%Z -> exists o, spike_of (Fin W) total (v, w) = Ok o /\
  match o with
  | None => ~ (7 <= t /\ 7 * t <= 30 * w)%Z
  | Some s => vendor s = v /\ current_week_count s = w /\ isnan (anomaly_score s) = false /\ (7 <= t /\ 7 * t <= 30 * w)%Z
  end.
Proof.
  intros A B C. unfold spike_of. rewrite A. destruct (int_is_exact t ltac:(lia)) as (qt & -> & Et). destruct (int_is_exact w ltac:(lia)) as (qw & -> & Ew). cbn [res_bind].
  unfold fdiv at 1. change (Qeq_bool W 0) with false. cbn iota. cbn [res_bind]. assert (0 < W) as PW by (vm_compute; reflexivity).
  assert (0 <= inject_Z t <= inject_Z (2 ^ 40)) as [T0 T40] by (change 0 with (inject_Z 0); rewrite <-!Zle_Qle; lia). change (inject_Z (2 ^ 40)) with 1099511627776 in T40.
  assert (1 <= W) as W1 by (vm_compute; discriminate).
  assert (- inject_Z (2 ^ 52) <= qt / W <= inject_Z (2 ^ 52)) as Bt.
  { rewrite Et. change (inject_Z (2 ^ 52)) with 4503599627370496. split; [apply Qle_trans with 0; [vm_compute; discriminate|]; apply Qle_shift_div_l; lra|apply Qle_shift_div_r; [done|]; lra]. }
  rewrite (mk_fin _ Bt). set (a := rnd (qt / W)). assert (a == rnd (inject_Z t / W)) as Ea by (apply rnd_eq; by rewrite Et).
  destruct (small_average t ltac:(lia)) as [S1 S2]. change (lit (1 # 2)) with (Fin (1 # 2)).
  destruct (Z.lt_ge_cases t 7) as [L|G].
  - exists None. assert (flt (Fin a) (Fin (1 # 2)) = true) as -> by (apply flt_fin; rewrite Ea; by apply S1). split; [done|]. lia.
  - assert (1 # 2 <= a) as Ha by (rewrite Ea; by apply S2). assert (flt (Fin a) (Fin (1 # 2)) = false) as -> by (by apply flt_fin_false).
    assert (0 < a) as Pa by lra. unfold fdiv. rewrite (nonzero a Pa). cbn [res_bind].
    assert (0 <= inject_Z w <= inject_Z (2 ^ 40)) as [W0 W40] by (change 0 with (inject_Z 0); rewrite <-!Zle_Qle; lia). change (inject_Z (2 ^ 40)) with 1099511627776 in W40.
    assert (- inject_Z (2 ^ 52) <= qw / a <= inject_Z (2 ^ 52)) as Bw.
    { rewrite Ew. change (inject_Z (2 ^ 52)) with 4503599627370496. split; [apply Qle_trans with 0; [vm_compute; discriminate|]; apply Qle_shift_div_l; lra|apply Qle_shift_div_r; [done|]; lra]. }
    rewrite (mk_fin _ Bw). pose proof (ratio_rule t w ltac:(lia) B) as R. cbv zeta in R. rewrite (rnd_eq (inject_Z w / rnd (inject_Z t / W)) (qw / a)) in R by (by rewrite Ew, Ea).
    eexists. split; [reflexivity|]. destruct (fle (Fin 3) _) eqn:F.
    + cbn [vendor current_week_count anomaly_score]. apply fle_fin, R in F. unfold round_nd. by rewrite mk_isnan.
    + apply fle_fin_false in F. intros [_ H]. apply R in H. lra.
Qed.
End rule.

(** ** The counts *)

Definition times (l : list string) (v : string) : Z := Z.of_nat (length (List.filter (String.eqb v) l)).

Lemma key_assoc {A} (d : list (string * A)) v : In v (map fst d) <-> assoc v d <> None.
Proof. induction d as [|[k x] d IH]; cbn [map fst In assoc]; [done|]. destruct (String.eqb_spec k v) as [->|N]; [split; [done|by left]|]. rewrite <-IH. tauto. Qed.

Lemma bumped l : forall d, (NoDup (map fst d) -> NoDup (map fst (fold_left bump l d))) /\ (forall v, In v (map fst (fold_left bump l d)) <-> In v (map fst d) \/ In v l) /\
  forall v, count_in (fold_left bump l d) v = count_in d v + times l v.
Proof.
  induction l as [|x l IH]; intros d; cbn [fold_left]; [split; [done|]; split; [cbn; tauto|]; intros v; unfold times; cbn; lia|].
  destruct (IH (bump d x)) as (N & K & C). split; [intros ND; by apply N, nodup_dset|]. split; intros v.
  - rewrite K. assert (In v (map fst (bump d x)) <-> In v (map fst d) \/ x = v) as ->; [|cbn [In]; tauto].
    unfold bump. rewrite !key_assoc, assoc_dset. destruct (String.eqb_spec x v) as [->|Ne]; [split; [by right|by intros _]|]. tauto.
  - rewrite C. unfold bump at 1, count_in, times. rewrite assoc_dset. cbn [List.filter]. rewrite (String.eqb_sym v x). destruct (String.eqb_spec x v) as [->|Ne]; [|done]. cbn [length]. unfold count_in. lia.
Qed.

Section counts.
Variable json_loads : string -> option pyval.
Variable py_str : pyval -> string.

(** A CVE names a vendor: one of its products stands under it. *)
Definition names (r : product_row) (v : string) : bool :=
  nonempty v && existsb (fun p => match vendor_of py_str p with Some v' => String.eqb v' v | None => false end) (_parse_json_list json_loads (affected_products r)).

(** The CVEs of the window that name a vendor, and those of the week among them. *)
Definition in_window_naming (rows : list product_row) (now : Z) (v : string) : list product_row :=
  List.filter (fun r => in_window (window_start now) r && names r v) rows.
Definition total_of rows now v : Z := Z.of_nat (length (in_window_naming rows now v)).
Definition week_of rows now v : Z := Z.of_nat (length (List.filter (is_recent (now - 7 * DAY_US)) (in_window_naming rows now v))).

Lemma seen_spec products : NoDup (seen_vendors py_str products) /\
  forall v, In v (seen_vendors py_str products) <-> nonempty v = true /\ exists p, In p products /\ vendor_of py_str p = Some v.
Proof.
  unfold seen_vendors. set (f := fun seen p => _).
  assert (G : forall products seen, (NoDup seen -> NoDup (fold_left f products seen)) /\
    forall v, In v (fold_left f products seen) <-> In v seen \/ nonempty v = true /\ exists p, In p products /\ vendor_of py_str p = Some v).
  { clear products. induction products as [|p products IH]; intros seen; cbn [fold_left]; [split; [done|]; intros v; split; [by left|by intros [I|(_ & p & [] & _)]]|].
    destruct (IH (f seen p)) as [N K]. assert (F : (NoDup seen -> NoDup (f seen p)) /\ forall v, In v (f seen p) <-> In v seen \/ nonempty v = true /\ vendor_of py_str p = Some v).
    { unfold f. destruct (vendor_of py_str p) as [x|]; [|split; [done|]; intros v; split; [by left|by intros [I|[_ ?]]]].
      destruct (nonempty x) eqn:X; cbn [negb orb]; [|split; [done|]; intros v; split; [by left|]; intros [I|[Y [= <-]]]; [done|congruence]].
      destruct (one_in seen x) eqn:O.
      - split; [done|]. intros v. split; [by left|]. intros [I|[_ [= <-]]]; [done|]. by apply list_elem_of_In, one_in_spec.
      - split; [|intros v; rewrite in_app_iff; cbn [In]; split; [intros [I|[<-|[]]]; [by left|by right]|intros [I|[_ [= <-]]]; [by left|right; by left]]]. intros ND. apply NoDup_app. split; [done|]. split; [|apply NoDup_singleton].
        intros y I ->%list_elem_of_singleton. apply one_in_spec in I. congruence. }
    destruct F as [F1 F2]. split; [by intros ND; apply N, F1|]. intros v. rewrite K, F2. split.
    - intros [[I|[Y E]]|(Y & q & I & E)]; [by left|right; split; [done|]; exists p; by split; [left|]|right; split; [done|]; exists q; by split; [right|]].
    - intros [I|(Y & q & [<-|I] & E)]; [left; by left|left; by right|right; split; [done|]; by exists q]. }
  destruct (G products []) as [N K]. split; [apply N; constructor|]. intros v. rewrite K. cbn [In]. tauto.
Qed.

Abbreviation vendors r := (seen_vendors py_str (_parse_json_list json_loads (affected_products r))).

Lemma times_row r v : times (vendors r) v = if names r v then 1 else 0.
Proof.
  destruct (seen_spec (_parse_json_list json_loads (affected_products r))) as [N K]. unfold times, names. set (l := seen_vendors _ _) in *.
  assert (E : nonempty v && existsb (fun p => match vendor_of py_str p with Some v' => String.eqb v' v | None => false end) (_parse_json_list json_loads (affected_products r)) = one_in l v).
  { apply eq_true_iff_eq. rewrite one_in_spec, list_elem_of_In, K, andb_true_iff, existsb_exists. split; intros (A & p & I & X); (split; [done|]); exists p; (split; [done|]).
    - destruct (vendor_of py_str p); [|done]. by apply String.eqb_eq in X as ->.
    - rewrite X. apply String.eqb_refl. }
  rewrite E. clear -N. induction l as [|x l IH]; [done|]. apply NoDup_cons in N as [Nx N]. cbn [List.filter one_in existsb]. destruct (String.eqb_spec v x) as [->|Ne]; cbn [orb length]; [|by apply IH].
  destruct (List.filter (String.eqb x) l) as [|y t] eqn:F; [done|]. exfalso. assert (In y (List.filter (String.eqb x) l)) as [I ->%String.eqb_eq]%filter_In by (rewrite F; by left). by apply Nx, list_elem_of_In.
Qed.

Lemma counted_rows week_ago rows : forall d, let d' := fold_left (count_row json_loads py_str week_ago) rows d in
  fst d' = fold_left bump (flat_map (fun r => vendors r) (List.filter (is_recent week_ago) rows)) (fst d) /\ snd d' = fold_left bump (flat_map (fun r => vendors r) rows) (snd d).
Proof.
  cbv zeta. induction rows as [|r rows IH]; intros d; cbn [fold_left flat_map List.filter]; [done|]. destruct (IH (count_row json_loads py_str week_ago d r)) as [-> ->]. unfold count_row. cbn [fst snd].
  rewrite fold_left_app. split; [|done]. destruct (is_recent week_ago r); cbn [flat_map]; [by rewrite fold_left_app|done].
Qed.

Lemma times_rows rows v : times (flat_map (fun r => vendors r) rows) v = Z.of_nat (length (List.filter (fun r => names r v) rows)).
Proof.
  induction rows as [|r rows IH]; [done|]. cbn [flat_map List.filter]. unfold times in *. rewrite List.filter_app, length_app, Nat2Z.inj_add, IH. pose proof (times_row r v) as T. unfold times in T. rewrite T.
  destruct (names r v); cbn [length]; lia.
Qed.

(** The two dictionaries hold the counts; vendor_week the vendors of the week's CVEs. *)
Lemma counted_spec rows now : let d := counted json_loads py_str rows now in
  NoDup (map fst (fst d)) /\ (forall v n, In (v, n) (fst d) -> n = week_of rows now v /\ 1 <= n <= total_of rows now v /\ assoc v (snd d) = Some (total_of rows now v)) /\
  (forall v, 1 <= week_of rows now v -> In (v, week_of rows now v) (fst d)).
Proof.
  cbv zeta. unfold counted. set (kept := List.filter (in_window _) rows). destruct (counted_rows (now - 7 * DAY_US) kept ([], [])) as [-> ->]. cbn [fst snd].
  set (lw := flat_map _ (List.filter _ kept)). set (lt := flat_map _ kept). destruct (bumped lw []) as (N & K & C). destruct (bumped lt []) as (_ & K2 & C2).
  assert (Wk : forall v, times lw v = week_of rows now v).
  { intros v. unfold lw, week_of, in_window_naming, kept. rewrite times_rows, !filter_both. do 2 f_equal. apply filter_ext. intros r. destruct (in_window _ r), (is_recent _ r), (names r v); done. }
  assert (Tt : forall v, times lt v = total_of rows now v) by (intros v; unfold lt, total_of, in_window_naming, kept; by rewrite times_rows, filter_both).
  assert (Pos : forall l v, In v l <-> 1 <= times l v).
  { intros l v. unfold times. split; [intros I|].
    - assert (In v (List.filter (String.eqb v) l)) as J by (apply filter_In; by rewrite String.eqb_refl). destruct (List.filter (String.eqb v) l); [done|cbn [length]; lia].
    - destruct (List.filter (String.eqb v) l) as [|x t] eqn:F; [done|]. intros _. assert (In x (List.filter (String.eqb v) l)) as [I ->%String.eqb_eq]%filter_In by (rewrite F; by left). done. }
  assert (LE : forall v, week_of rows now v <= total_of rows now v) by (intros v; unfold week_of, total_of; pose proof (List.filter_length_le (is_recent (now - 7 * DAY_US)) (in_window_naming rows now v)); lia).
  split; [apply N; constructor|]. split.
  - intros v n I. assert (In v (map fst (fold_left bump lw []))) as J by (apply in_map_iff; by exists (v, n)).
    assert (assoc v (fold_left bump lw []) = Some n) as A.
    { pose proof (proj1 (key_assoc _ _) J) as S. destruct (assoc v (fold_left bump lw [])) as [m|] eqn:E; [|done]. f_equal. eapply nodup_keys; [apply N; constructor|by apply assoc_elem|by apply list_elem_of_In]. } apply K in J as [[]|J]. pose proof (C v) as Cv. unfold count_in in Cv at 1. rewrite A, Wk in Cv. cbn in Cv.
    pose proof (proj1 (Pos _ _) J) as P. rewrite Wk in P. specialize (LE v). assert (In v lt) as J2 by (apply Pos; rewrite Tt; lia).
    assert (assoc v (fold_left bump lt []) <> None) as A2 by (apply key_assoc, K2; by right). pose proof (C2 v) as Cv2. unfold count_in in Cv2 at 1. rewrite Tt in Cv2. destruct (assoc v (fold_left bump lt [])) as [m|]; [|done]. cbn in Cv2.
    split; [lia|]. split; [lia|]. f_equal. lia.
  - intros v P. rewrite <-Wk in P. apply Pos in P. assert (assoc v (fold_left bump lw []) <> None) as A by (apply key_assoc, K; by right).
    destruct (assoc v (fold_left bump lw [])) as [m|] eqn:E; [|done]. pose proof (C v) as Cv. unfold count_in in Cv at 1. rewrite E, Wk in Cv. cbn in Cv.
    replace (week_of rows now v) with m by lia. by apply list_elem_of_In, assoc_elem.
Qed.

Lemma higher_orders : orders higher (fun s => isnan (anomaly_score s) = false).
Proof. split; [intros a b; apply flt_asym|]. intros a b c A B C H1 H2. by apply (flt_chain _ (anomaly_score b)). Qed.

(** The entries of vendor_week, where each has its count in vendor_total. *)
Lemma spikes_of total vw : (forall v n, In (v, n) vw -> exists t, assoc v total = Some t /\ 1 <= n <= t /\ t < 2 ^ 40) ->
  exists found, map_res (spike_of (Fin W) total) vw = Ok found /\
    (forall s, In s (omap id found) -> isnan (anomaly_score s) = false /\ exists t, In (vendor s, current_week_count s) vw /\ assoc (vendor s) total = Some t /\ 7 <= t /\ 7 * t <= 30 * current_week_count s) /\
    (forall v n t, In (v, n) vw -> assoc v total = Some t -> 7 <= t -> 7 * t <= 30 * n -> In v (map vendor (omap id found))) /\
    sublist (map vendor (omap id found)) (map fst vw).
Proof.
  induction vw as [|[v n] vw IH]; intros H; cbn [map_res]; [exists []; by repeat split|].
  destruct (H v n (or_introl eq_refl)) as (t & A & B & C). destruct (spike_of_rule v n t total A ltac:(lia) C) as (o & -> & R). cbn [res_bind].
  destruct IH as (found & -> & F1 & F2 & F3); [intros v' n' I; apply H; by right|]. cbn [res_bind]. exists (o :: found). split; [done|].
  destruct o as [s|]; cbn [omap list_omap id].
  - destruct R as (E1 & E2 & E3 & E4). split; [|split].
    + intros x [<-|I]; [split; [done|]; exists t; rewrite E1, E2; repeat split; [by left|done|lia|lia]|]. destruct (F1 x I) as (N & t' & I' & X). split; [done|]. exists t'. by split; [right|].
    + intros v' n' t' [[= <- <-]|I] A' P Q; [left; congruence|]. right. by apply (F2 v' n' t').
    + cbn [map]. rewrite E1. by apply sublist_skip.
  - split; [|split; [|by apply sublist_cons]].
    + intros x I. destruct (F1 x I) as (N & t' & I' & X). split; [done|]. exists t'. by split; [right|].
    + intros v' n' t' [[= <- <-]|I] A' P Q; [|by apply (F2 v' n' t')]. rewrite A in A'. injection A' as <-. exfalso. apply R. lia.
Qed.

(** C20 [volume_spikes_follow_the_rule]: the vendors flagged are exactly those with at least seven CVEs in ninety days of
    which thirty times the week's are at least seven times the whole: the divisions in
    doubles, by 90.0/7.0 and by the rounded average, decide as the exact fractions do.  The
    twenty with the highest scores are returned. *)
Theorem volume_spikes_follow_the_rule rows now : Z.of_nat (length rows) < 2 ^ 40 ->
  exists all, find_temporal_anomalies json_loads py_str rows now = Ok (firstn 20 all) /\ NoDup (map vendor all) /\
    (forall v, In v (map vendor all) <-> 7 <= total_of rows now v /\ 7 * total_of rows now v <= 30 * week_of rows now v) /\
    (forall s, In s all -> current_week_count s = week_of rows now (vendor s)) /\
    (forall a b, In a (firstn 20 all) -> In b (skipn 20 all) -> flt (anomaly_score a) (anomaly_score b) = false).
Proof.
  intros L. destruct (counted_spec rows now) as (N & K1 & K2). unfold find_temporal_anomalies. destruct (counted _ _ rows now) as [vw total]. cbn [fst snd] in *.
  assert (forall v, total_of rows now v < 2 ^ 40) as B.
  { intros v. unfold total_of, in_window_naming. pose proof (List.filter_length_le (fun r => in_window (window_start now) r && names r v) rows). lia. }
  destruct (spikes_of total vw) as (found & M & F1 & F2 & F3). { intros v n I. destruct (K1 v n I) as (_ & P & A). exists (total_of rows now v). repeat split; [done|lia|lia|apply B]. }
  change (fdiv (Fin 90) (Fin 7)) with (Ok (Fin W)). cbn [res_bind]. rewrite M. cbn [res_bind]. exists (sort_on higher (omap id found)). split; [done|]. split; [|split; [|split]].
  - rewrite sort_on_perm. eapply sublist_NoDup; [exact N|exact F3].
  - intros v. rewrite sort_on_perm, in_map_iff. split.
    + intros (s & <- & (_ & t & I & A & P & Q)%F1). destruct (K1 _ _ I) as (E & _ & A'). rewrite A in A'. injection A' as ->. rewrite <-E. lia.
    + intros [P Q]. assert (1 <= week_of rows now v) as W1 by lia. pose proof (K2 v W1) as I. destruct (K1 _ _ I) as (_ & _ & A). apply in_map_iff. by apply (F2 v _ _ I A).
  - intros s I. rewrite sort_on_perm in I. apply F1 in I as (_ & t & I & _). by destruct (K1 _ _ I) as (E & _).
  - intros a b I J. refine (sorted_cut higher 20 _ a b _ I J). eapply sort_on_sorted_in; [apply higher_orders|]. apply List.Forall_forall. intros s Is. by apply F1 in Is as [? _].
Qed.

(** The night's rows replace those of the night before: no INSERT meets another's key. *)
Lemma spikes_are_stored l : NoDup (map vendor l) -> _store_temporal_anomalies l = Ok l.
Proof.
  unfold _store_temporal_anomalies. assert (G : forall acc, NoDup (map vendor (acc ++ l)) -> fold_res insert_spike l acc = Ok (acc ++ l)%list); [|by apply (G [])].
  induction l as [|s l IH]; intros acc N; cbn [fold_res]; [by rewrite app_nil_r|]. unfold insert_spike at 1. destruct (existsb _ acc) eqn:E.
  - apply existsb_exists in E as (x & I & Q%String.eqb_eq). exfalso. rewrite map_app in N. apply NoDup_app in N as (_ & D & _). apply (D (vendor s)); [apply list_elem_of_In, in_map_iff; by exists x|by left].
  - cbn [res_bind]. rewrite IH; rewrite <-app_assoc; done.
Qed.

(** [spikes_shown_concern_the_cve]: a spike shown for a CVE is a stored row of a vendor of its products, and where a
    stack is set the CVE matches it, is known to be exploited or has a public exploit. *)
Theorem spikes_shown_concern_the_cve set_order row assets tbl cve_id s : (forall x, Permutation (set_order x) (elements x)) ->
  In s (_get_temporal_for_cve json_loads py_str set_order row assets tbl cve_id) ->
  exists r, row = Some r /\ In s tbl /\ (exists p, In p (_parse_json_list json_loads (cs_products r)) /\ vendor_of py_str p = Some (vendor s)) /\
    (stack_terms_list assets = [] \/ cve_matches_stack py_str cve_id (text_or (cs_description r)) (_parse_json_list json_loads (cs_products r)) (stack_terms_list assets) = true \/
     truthy (cs_is_kev r) = true \/ truthy (cs_has_poc r) = true).
Proof.
  intros O. unfold _get_temporal_for_cve. destruct row as [r|]; [|done]. set (products := _parse_json_list _ _). destruct (decide _); [done|].
  destruct (nonempty_list (stack_terms_list assets) && _ && _) eqn:G; [done|]. intros I. apply in_flat_map in I as (v & Iv & [I Q%String.eqb_eq]%filter_In). exists r. split; [done|]. split; [done|]. split.
  - rewrite O, <-list_elem_of_In, elem_of_elements in Iv. unfold vendor_set in Iv. apply elem_of_list_to_set, list_elem_of_In, filter_In in Iv as [Iv _]. apply list_elem_of_In, list_elem_of_omap in Iv as (p & Ip & V).
    exists p. rewrite Q. split; [by apply list_elem_of_In|done].
  - destruct (stack_terms_list assets) as [|t ts]; [by left|]. right. cbn [nonempty_list andb] in G. destruct (cve_matches_stack _ _ _ _ _); [by left|]. right. cbn [negb andb] in G.
    apply negb_false_iff, orb_true_iff in G. done.
Qed.
End counts.

(** ** A week in July 2026 *)

(** The stored JSON is a list of products, written here one to a line. *)
Definition lines (s : string) : option pyval := Some (PList (map PStr (split_on "010" s))).
Definition no_str (_ : pyval) : string := "".
Definition acme (day : string) : product_row := mkProducts (Some "Acme:router") (Some day).
(** Seven CVEs of acme in the week and twenty-three before, exactly at the bound; six of another vendor, all in the week. *)
Definition july : list product_row :=
  (repeat (acme "2026-07-18T00:00:00Z") 7 ++ repeat (acme "2026-06-01") 23 ++ repeat (mkProducts (Some "beta:app") (Some "2026-07-19")) 6 ++ [acme "2026-01-01"])%list.
Definition july_20 : Z := days_from_civil 2026 7 20 * DAY_US.

Lemma volume_spikes_follow_the_rule_witness :
  map vendor (match find_temporal_anomalies lines no_str july july_20 with Ok l => l | Raise _ => [] end) = ["acme"] /\
  exists all, find_temporal_anomalies lines no_str july july_20 = Ok (firstn 20 all) /\ In "acme" (map vendor all) /\ ~ In "beta" (map vendor all).
Proof.
  split; [vm_compute; reflexivity|]. destruct (volume_spikes_follow_the_rule lines no_str july july_20) as (all & E & _ & K & _); [vm_compute; reflexivity|]. exists all. split; [exact E|].
  split; [apply K; vm_compute; split; discriminate|]. intros [A _]%K. vm_compute in A. by apply A.
Defined.

Definition log4j : option cve_signals := Some (mkSignals (Some "Acme:router") None (PBool true) PNone).
Lemma spikes_shown_concern_the_cve_witness : exists s, In s (_get_temporal_for_cve lines no_str elements log4j [text_asset "nginx" "" ""] [mkSpike "acme" 7 (Fin 2) (Fin 3)] "CVE-2026-1") /\
  exists r, log4j = Some r /\ In s [mkSpike "acme" 7 (Fin 2) (Fin 3)] /\ truthy (cs_is_kev r) = true.
Proof.
  eexists. assert (In (mkSpike "acme" 7 (Fin 2) (Fin 3)) (_get_temporal_for_cve lines no_str elements log4j [text_asset "nginx" "" ""] [mkSpike "acme" 7 (Fin 2) (Fin 3)] "CVE-2026-1")) as I by (vm_compute; by left).
  split; [exact I|]. destruct (spikes_shown_concern_the_cve lines no_str elements log4j _ _ _ _ (fun x => Permutation_refl _) I) as (r & E & J & _ & [D|[D|[D|D]]]); exists r; injection E as <-.
  - discriminate D.
  - vm_compute in D. discriminate D.
  - split; [reflexivity|]. split; [exact J|exact D].
  - discriminate D.
Defined.
