(* ===== verification/Engine.v ===== *)
(** * Engine: correlation/engine.py, the correlation of a CVE

    The actors linked to a CVE by its techniques and by the pulses that name it, the answer
    composed of the peers of [IocGraph], the campaigns of [CampaignStore], the actors and
    the spikes of [Temporal] with the priority of [CorrScore], the cache and the snapshots
    it is served from, and the dismissals of routers/cves/intel.py.  Requests are taken one
    after another.  [doc] is the type of stored JSON, with [dumps] and [loads] between it
    and an answer; cutoffs, the printed times some hours before now, are arguments. *)

From Stdlib Require Import QArith Lqa Sorted.
From S2P Require Import Prelude PyStr DecText PyVal Float64 FloatErr Dates CveRow Cpe StackAssets Pacing Campaigns.
From S2P Require CorrScore Temporal.
From S2P Require Import Confidence SourceEvidence IocGraph CampaignStore.
Open Scope string_scope.
Open Scope Z_scope.

(** ** The state *)

(** A row of mitre_groups. *)
Record group := mkGroupRow { group_id : string; group_name : string; group_sectors : option string }.

Record actor := mkActorLink {
  actor_name : string; actor_sectors : list pyval; user_sector_match : bool; a_confidence : string; a_source : string; technique_overlap : option fl }.

Record meta := mkMeta { engine_version : string; cache_hit : option bool; precompute : option bool; hub_edges_suppressed : option Z }.
(** What a request answers; [None] is a missing key. *)
Record answer := mkAnswer {
  r_cve : string; r_campaigns : list view; r_infrastructure : list peer; r_actor : list actor; r_temporal : list Temporal.spike;
  r_boosters : list string * list string; r_computed_at : option string; r_otx_status : string; r_error : option string;
  r_priority : CorrScore.priority; r_meta : meta }.

Record clock := mkClock { now : Z; confirm_cutoff : string; cache_cutoff : string; printed : string }.

Definition ENGINE_VERSION : string := "2.0".

(** ** Sectors *)

Definition SECTOR_KEYWORDS : list (string * list string) :=
  [("Technology", ["technology"; "tech company"; "software"; "semiconductor"; "internet"; "cloud"; "saas"; "it services"]);
   ("Finance", ["financial"; "finance"; "banking"; "bank"; "insurance"; "investment"; "trading"; "cryptocurrency"; "fintech"]);
   ("Healthcare", ["healthcare"; "health care"; "medical"; "hospital"; "pharmaceutical"; "pharma"; "biotech"; "life sciences"]);
   ("Government", ["government"; "government agency"; "public sector"; "defense"; "military"; "intelligence"; "espionage"; "nation-state"; "national security"]);
   ("Energy", ["energy"; "oil"; "gas"; "electricity"; "power grid"; "utilities"; "nuclear"; "pipeline"; "petrochemical"]);
   ("Manufacturing", ["manufacturing"; "industrial"; "ics"; "scada"; "critical infrastructure"; "supply chain"; "automotive"]);
   ("Retail", ["retail"; "e-commerce"; "consumer goods"; "commerce"; "hospitality"; "restaurant"]);
   ("Telecommunications", ["telecom"; "telecommunications"; "isp"; "carrier"; "mobile operator"; "internet provider"]);
   ("Education", ["education"; "academic"; "university"; "research institution"; "think tank"]);
   ("Transportation", ["transportation"; "aviation"; "airline"; "shipping"; "logistics"; "maritime"; "railway"]);
   ("Media", ["media"; "news"; "journalism"; "entertainment"; "broadcast"; "publishing"])].
Definition extract_sectors_from_text (text : string) : list string :=
  map fst (List.filter (fun s => existsb (fun kw => str_in kw (lower text)) (snd s)) SECTOR_KEYWORDS).

Section engine.
Context {lib : MathLib}.
Variable env : string -> option string.
Variable digest : string -> string.
Variable json_loads : string -> option pyval.
Variable py_str : pyval -> string.
Variable set_order : gset string -> list string.

Definition get_mitre_min_overlap : res fl := let! v := float_of_str (env_get env "CORRELATION_MITRE_MIN_OVERLAP" "0.25") in Ok (fmax f0 v).
Definition get_correlation_precompute_enabled : bool := negb (one_in ["0"; "false"; "False"] (strip (env_get env "CORRELATION_PRECOMPUTE_ENABLED" "0"))).

(** ** Actors *)

Record actor_tables := mkActors { cve_techniques : list (string * string); group_techniques : list (string * string); groups : list group }.

Definition technique_ids (t : actor_tables) (cve : string) : list string :=
  remove_dups (List.filter nonempty (map snd (List.filter (fun r => String.eqb (fst r) cve) (cve_techniques t)))).

(** COUNT(DISTINCT technique_id) of a group, among these techniques. *)
Definition matched (t : actor_tables) (techniques : list string) (g : group) : Z :=
  Z.of_nat (length (List.filter (fun x => existsb (fun r => String.eqb (fst r) (group_id g) && String.eqb (snd r) x) (group_techniques t)) techniques)).

(** The groups that reach the overlap, with it. *)
Definition score_group (t : actor_tables) (techniques : list string) (min_overlap : fl) (scored : list (fl * group)) (g : group) : res (list (fl * group)) :=
  let! overlap := int_truediv (matched t techniques g) (Z.of_nat (length techniques)) in
  Ok (if fle min_overlap overlap then (scored ++ [(overlap, g)])%list else scored).

Definition more_overlap (a b : fl * group) : bool := flt (fst b) (fst a).

(** [any(user_sector in s.lower() or s.lower() in user_sector for s in sectors)] *)
Fixpoint any_sector (user_sector : string) (sectors : list pyval) : res bool :=
  match sectors with
  | [] => Ok false
  | PStr s :: t => if str_in user_sector (lower s) || str_in (lower s) user_sector then Ok true else any_sector user_sector t
  | _ :: _ => Raise AttributeError
  end.

Definition mitre_actor (user_sector : string) (og : fl * group) : res actor :=
  let '(overlap, g) := og in
  let sectors := _parse_json_list json_loads (group_sectors g) in
  let! sector_match := (if nonempty user_sector then any_sector user_sector sectors else Ok false) in
  Ok (mkActorLink (group_name g) sectors sector_match (if fle (lit (1 # 2)) overlap then "medium" else "low") "mitre_attack" (Some (round_nd overlap 2))).

Definition is_seen (results : list actor) (name : string) : bool := existsb (fun a => String.eqb (actor_name a) name) results.

Definition add_mitre (user_sector : string) (results : list actor) (og : fl * group) : res (list actor) :=
  if is_seen results (group_name (snd og)) then Ok results else let! a := mitre_actor user_sector og in Ok (results ++ [a])%list.

Definition mitre_actors (t : actor_tables) (cve user_sector : string) : res (list actor) :=
  let techniques := technique_ids t cve in
  match techniques with
  | [] => Ok []
  | _ =>
      let rows := List.filter (fun g => 0 <? matched t techniques g) (groups t) in
      let! min_overlap := get_mitre_min_overlap in
      let! scored := fold_res (score_group t techniques min_overlap) rows [] in
      fold_res (add_mitre user_sector) (firstn 3 (sort_on more_overlap scored)) []
  end.

(** SELECT DISTINCT adversary of the pulses that name the CVE. *)
Definition adversaries (links : list link) (cve : string) : list string :=
  remove_dups (omap (fun l => if String.eqb (l_cve l) cve then match l_adversary l with Some a => if nonempty a then Some a else None | None => None end else None) links).

Definition add_adversary (results : list actor) (raw : string) : list actor :=
  let adversary := strip raw in
  if negb (nonempty adversary) || is_seen results adversary then results
  else (results ++ [mkActorLink adversary [] false "low" "otx_pulse" None])%list.

Definition find_actor_sector_correlation (t : actor_tables) (links : list link) (cve_id user_sector : string) : res (list actor) :=
  let cve := upper cve_id in
  let! results := mitre_actors t cve (lower user_sector) in
  Ok (fold_left add_adversary (adversaries links cve) results).

(** DELETE, then an upsert each: what correlation_actor holds of a CVE; only the name is read back. *)
Definition upsert_actor (cve : string) (rows : list (string * string)) (a : actor) : list (string * string) :=
  if existsb (fun r => String.eqb (fst r) cve && String.eqb (snd r) (actor_name a)) rows then rows else (rows ++ [(cve, actor_name a)])%list.
Definition _store_actor_correlation (rows : list (string * string)) (cve_id : string) (findings : list actor) : list (string * string) :=
  fold_left (upsert_actor (upper cve_id)) findings (List.filter (fun r => negb (String.eqb (fst r) (upper cve_id))) rows).

(** ** The answer *)

Record sources := mkSources {
  w : world; actors : actor_tables; signals : list (string * Temporal.cve_signals); products : list Temporal.product_row; spikes : list Temporal.spike; stack : list asset }.

(** What [compute_correlation_priority] reads of an answer. *)
Definition findings_of (campaigns : list view) (infrastructure : list peer) (actor : list actor) (temporal : list Temporal.spike) : CorrScore.findings :=
  CorrScore.mkFindings
    (map (fun c => CorrScore.mkCampaign (Some (v_confidence c)) (Some (v_label c)) (PList (map PStr (fst (v_boosters c)))) (PList (map PStr (snd (v_boosters c))))) campaigns)
    (map (fun p => CorrScore.mkInfra (Some (p_confidence p)) (Some (p_cve p)) (p_count p)) infrastructure)
    (map (fun a => CorrScore.mkActor (Some (a_confidence a)) (Some (actor_name a)) (Some (a_source a)) (PBool (user_sector_match a))) actor)
    (map (fun s => CorrScore.mkAnomaly (Temporal.anomaly_score s) (Some (Temporal.vendor s)) (Temporal.current_week_count s) (Temporal.average_weekly_count s)) temporal).

Definition _compute_correlation_for_cve (s : sources) (clk : clock) (cve_id user_sector : string) : res answer :=
  let cve := upper cve_id in
  let otx_configured := nonempty (strip (env_get env "OTX_API_KEY" "")) in
  let hidden := load_suppressions (w s) cve in
  let! peers := find_shared_infrastructure_v2 env digest json_loads set_order (graph_of (w s)) cve (confirm_cutoff clk) (now clk) 20 in
  let infrastructure := List.filter (fun p => negb (is_infrastructure_suppressed hidden (p_cve p))) peers in
  let! actor := find_actor_sector_correlation (actors s) (cve_pulses (w s)) cve user_sector in
  let temporal := Temporal._get_temporal_for_cve json_loads py_str set_order (assoc cve (signals s)) (stack s) (spikes s) cve in
  let! hub_edges := count_hub_suppressed_ioc_peers env (graph_of (w s)) cve in
  let strong := list_to_set (map p_cve (List.filter (fun p => negb (p_hash p =? 0) || negb (p_domain p =? 0)) infrastructure)) : gset string in
  let! campaigns := get_campaigns_for_cve env digest set_order json_loads py_str (w s) cve (confirm_cutoff clk) (now clk) (Some (set_order strong)) in
  let campaign_members := flat_map v_members campaigns in
  let infrastructure := List.filter (fun p => negb (one_in campaign_members (p_cve p))) infrastructure in
  let otx_status := match campaigns with [] => if otx_configured then "ok" else "not_configured" | _ => "ok" end in
  let boosters := (sorted_distinct (flat_map (fun c => fst (v_boosters c)) campaigns), sorted_distinct (flat_map (fun c => snd (v_boosters c)) campaigns)) in
  let! priority := CorrScore.compute_correlation_priority (findings_of campaigns infrastructure actor temporal) in
  Ok (mkAnswer cve campaigns infrastructure actor temporal boosters (Some (isoformat (now clk))) otx_status None priority
        (mkMeta ENGINE_VERSION (Some false) None (Some hub_edges))).

(** What is answered when the computation raises. *)
Definition degraded (cve_id : string) : answer :=
  mkAnswer (upper cve_id) [] [] [] [] ([], []) None "degraded" (Some "correlation_unavailable") (CorrScore.mkPriority f0 []) (mkMeta ENGINE_VERSION None None None).

(** ** The cache and the snapshots *)

Variable doc : Type.
Variable dumps : answer -> doc.
Variable loads : doc -> option answer.

Record entry := mkEntry { e_key : string; e_result : doc; e_cached_at : string }.
Record snapshot := mkSnapshot { sn_cve : string; sn_payload : doc; sn_version : string; sn_computed_at : string; sn_hub : Z }.
Record store := mkStore { src : sources; feed_cache : list entry; snapshots : list snapshot }.

Definition with_cache (c : list entry) (st : store) : store := mkStore (src st) c (snapshots st).
Definition with_snapshots (l : list snapshot) (st : store) : store := mkStore (src st) (feed_cache st) l.

Definition get_feed_cache (st : store) (key cutoff : string) : res (option answer) :=
  match List.find (fun e => String.eqb (e_key e) key && String.ltb cutoff (e_cached_at e)) (feed_cache st) with
  | Some e => match loads (e_result e) with Some a => Ok (Some a) | None => Raise ValueError end
  | None => Ok None
  end.

Definition set_feed_cache (st : store) (key : string) (a : answer) (at_ : string) : store :=
  with_cache (mkEntry key (dumps a) at_ :: List.filter (fun e => negb (String.eqb (e_key e) key)) (feed_cache st)) st.

(** DELETE .. WHERE cache_key LIKE prefix% *)
Definition delete_feed_cache_prefix (st : store) (prefix : string) : store :=
  with_cache (List.filter (fun e => negb (like (prefix +:+ "%") (e_key e))) (feed_cache st)) st.

(** The row of a CVE, where its payload is readable. *)
Definition get_correlation_cve_snapshot (st : store) (cve : string) : option (snapshot * answer) :=
  match List.find (fun s => String.eqb (sn_cve s) (upper cve)) (snapshots st) with
  | Some s => match loads (sn_payload s) with Some a => Some (s, a) | None => None end
  | None => None
  end.

Definition cache_key (cve user_sector : string) : string := "correlation:v2:" +:+ cve +:+ ":" +:+ user_sector.

(** What is served of a snapshot; with a sector the actors and the priority are computed anew. *)
Definition from_snapshot (st : store) (s : snapshot) (payload : answer) (cve user_sector : string) : res answer :=
  let m := mkMeta (or_text (sn_version s) ENGINE_VERSION) (Some true) (Some true) (Some (sn_hub s)) in
  let computed := if nonempty (sn_computed_at s) then Some (sn_computed_at s) else r_computed_at payload in
  let renew actor priority := mkAnswer (r_cve payload) (r_campaigns payload) (r_infrastructure payload) actor (r_temporal payload) (r_boosters payload) computed
                                (r_otx_status payload) (r_error payload) priority m in
  if nonempty user_sector then
    let! actor := find_actor_sector_correlation (actors (src st)) (cve_pulses (w (src st))) cve user_sector in
    let! priority := CorrScore.compute_correlation_priority (findings_of (r_campaigns payload) (r_infrastructure payload) actor (r_temporal payload)) in
    Ok (renew actor priority)
  else Ok (renew (r_actor payload) (r_priority payload)).

Definition computed_answer (st : store) (clk : clock) (cve_id user_sector : string) : answer * store :=
  let cve := upper cve_id in
  match _compute_correlation_for_cve (src st) clk cve user_sector with
  | Ok a => (a, set_feed_cache st (cache_key cve user_sector) a (printed clk))
  | Raise _ => (degraded cve_id, st)
  end.

Definition get_correlation_for_cve (st : store) (clk : clock) (cve_id user_sector : string) : res (answer * store) :=
  let cve := upper cve_id in
  let! cached := get_feed_cache st (cache_key cve user_sector) (cache_cutoff clk) in
  match cached with
  | Some a => Ok (a, st)
  | None =>
      match (if get_correlation_precompute_enabled then get_correlation_cve_snapshot st cve else None) with
      | Some (s, payload) => let! a := from_snapshot st s payload cve user_sector in Ok (a, set_feed_cache st (cache_key cve user_sector) a (printed clk))
      | None => Ok (computed_answer st clk cve_id user_sector)
      end
  end.

(** The nightly snapshots: a CVE whose computation raises is skipped. *)
Definition upsert_snapshot (l : list snapshot) (s : snapshot) : list snapshot :=
  s :: List.filter (fun x => negb (String.eqb (sn_cve x) (sn_cve s))) l.
Definition precompute_one (clk : clock) (st : store) (cve_id : string) : store :=
  match _compute_correlation_for_cve (src st) clk cve_id "" with
  | Ok a => with_snapshots (upsert_snapshot (snapshots st)
              (mkSnapshot (upper cve_id) (dumps a) ENGINE_VERSION (match r_computed_at a with Some t => t | None => printed clk end)
                 (match hub_edges_suppressed (r_meta a) with Some n => n | None => 0 end))) st
  | Raise _ => st
  end.
Definition run_correlation_precompute_slice (clk : clock) (st : store) (ids : list string) : store := fold_left (precompute_one clk) ids st.

(** ** Dismissals *)

(** [str(v or "")] *)
Definition text_of (v : pyval) : string := if truthy v then to_str py_str v else "".

Definition scope_key_for (scope : string) (key : list (string * pyval)) : string :=
  if String.eqb scope "campaign_id" then text_of (dget key "campaign_id")
  else if String.eqb scope "cve_pair" then upper (text_of (py_or (dget key "cve_id_b") (dget key "peer_cve")))
  else if String.eqb scope "pulse_id" then text_of (dget key "pulse_id")
  else if String.eqb scope "infrastructure" then upper (text_of (dget key "cve_id_b"))
  else py_str (PDict key).

Definition same_suppression (a b : suppression) : bool :=
  String.eqb (s_cve a) (s_cve b) && String.eqb (s_scope a) (s_scope b) && String.eqb (s_key a) (s_key b).

Definition with_suppressions (l : list suppression) (x : world) : world :=
  mkWorld (pulses x) (cves x) (pulse_iocs x) (cve_pulses x) (ioc_degree x) (ti_mirror x) (cache x) (kev_deadlines x) (epss_history x)
    (correlation_actor x) (mitre_groups x) l (pulse_families x) (campaigns x) (members x) (sync_state x).
Definition set_suppressions (l : list suppression) (st : store) : store :=
  mkStore (mkSources (with_suppressions l (w (src st))) (actors (src st)) (signals (src st)) (products (src st)) (spikes (src st)) (stack (src st))) (feed_cache st) (snapshots st).
Abbreviation hidden_in st := (suppressions (w (src st))).

(** The upsert; reason, author and time are not read by the engine. *)
Definition add_suppression (st : store) (cve_id scope : string) (key : list (string * pyval)) : res store :=
  if negb (one_in VALID_SCOPES scope) then Raise ValueError
  else
    let sk := scope_key_for scope key in
    if negb (nonempty sk) then Raise ValueError
    else
      let row := mkSuppression (upper cve_id) scope sk in
      Ok (set_suppressions (List.filter (fun s => negb (same_suppression s row)) (hidden_in st) ++ [row])%list st).

Definition remove_suppression (st : store) (cve_id scope : string) (key : list (string * pyval)) : bool * store :=
  let row := mkSuppression (upper cve_id) scope (scope_key_for scope key) in
  (existsb (fun s => same_suppression s row) (hidden_in st), set_suppressions (List.filter (fun s => negb (same_suppression s row)) (hidden_in st)) st).

(** routers/_validators.py; [None] is status 400. *)
Definition require_cve_id (cve_id : string) : option string :=
  let c := upper (strip cve_id) in if startswith c "CVE-" then Some c else None.

Inductive reply := Answered (a : answer) | Done | Status (code : Z) | ServerError (e : exn).

(** The answer of the route; the labels of provenance it adds are not modelled. *)
Definition cve_correlation (st : store) (clk : clock) (cve_id sector : string) : reply * store :=
  match require_cve_id cve_id with
  | None => (Status 400, st)
  | Some c => match get_correlation_for_cve st clk c (strip sector) with Ok (a, st') => (Answered a, st') | Raise e => (ServerError e, st) end
  end.

Definition suppress_correlation_finding (st : store) (cve_id scope : string) (key : list (string * pyval)) : reply * store :=
  match require_cve_id cve_id with
  | None => (Status 400, st)
  | Some c =>
      match add_suppression st c (strip scope) key with
      | Ok st' => (Done, delete_feed_cache_prefix st' ("correlation:v2:" +:+ c))
      | Raise ValueError => (Status 400, st)
      | Raise e => (ServerError e, st)
      end
  end.

Definition unsuppress_correlation_finding (st : store) (cve_id scope cve_id_b campaign_id pulse_id : string) : reply * store :=
  match require_cve_id cve_id with
  | None => (Status 400, st)
  | Some c =>
      let key := if String.eqb scope "campaign_id" then [("campaign_id", PStr campaign_id)]
                 else if one_in ["cve_pair"; "infrastructure"] scope then [("cve_id_b", PStr cve_id_b)]
                 else if String.eqb scope "pulse_id" then [("pulse_id", PStr pulse_id)] else [] in
      let '(removed, st') := remove_suppression st c scope key in
      if negb removed then (Status 404, st) else (Done, delete_feed_cache_prefix st' ("correlation:v2:" +:+ c))
  end.

End engine.

(** ** Overlaps *)

Section overlaps.
Open Scope Q_scope.

Definition share (m n : Z) : Q := inject_Z m / inject_Z n.

Lemma share_bounds m n : (0 <= m <= n)%Z -> (0 < n)%Z -> 0 <= share m n <= 1.
Proof.
  intros B P. assert (0 < inject_Z n) by (change 0 with (inject_Z 0); by rewrite <-Zlt_Qlt). assert (0 <= inject_Z m <= inject_Z n) by (change 0 with (inject_Z 0); rewrite <-!Zle_Qle; lia).
  unfold share. split; [apply Qle_shift_div_l|apply Qle_shift_div_r]; lra.
Qed.

Lemma overlap_is m n : (0 <= m <= n)%Z -> (0 < n)%Z -> int_truediv m n = Ok (Fin (rnd (share m n))).
Proof.
  intros B P. unfold int_truediv. destruct (Z.eqb_spec n 0); [lia|]. pose proof (share_bounds m n B P). fold (share m n). rewrite mk_fin; [done|]. change (inject_Z (2 ^ 52)) with 4503599627370496. lra.
Qed.

(** A positive share of fewer than 2^40 is far above the least normal number. *)
Lemma share_normal m n : (0 < m)%Z -> (0 < n < 2 ^ 40)%Z -> 2 ^ (-1000) <= share m n /\ share m n * inject_Z n == inject_Z m /\ 1 <= inject_Z n <= 1099511627776 /\ 1 <= inject_Z m.
Proof.
  intros P B. assert (1 <= inject_Z n <= 1099511627776 /\ 1 <= inject_Z m) as [N M].
  { change 1 with (inject_Z 1). change 1099511627776 with (inject_Z 1099511627776). rewrite <-!Zle_Qle. lia. }
  split; [|split; [unfold share; field; lra|done]]. apply Qle_trans with (1 # 1099511627776); [vm_compute; discriminate|]. apply Qle_shift_div_l; lra.
Qed.

Lemma overlap_strict m m' n : (0 < m')%Z -> (m' < m <= n)%Z -> (n < 2 ^ 40)%Z -> rnd (share m' n) < rnd (share m n).
Proof.
  intros P B L. destruct (share_normal m' n P ltac:(lia)) as (N' & E' & R & _). destruct (share_normal m n ltac:(lia) ltac:(lia)) as (N & E & _).
  pose proof (Temporal.rnd_relative _ N) as [A _]. pose proof (Temporal.rnd_relative _ N') as [_ A']. pose proof (share_bounds m n ltac:(lia) ltac:(lia)) as [_ U].
  assert (inject_Z m' + 1 <= inject_Z m) as D by (change 1 with (inject_Z 1); rewrite <-inject_Z_plus, <-Zle_Qle; lia).
  assert (1 # 1099511627776 <= share m n - share m' n) as G.
  { apply Qmult_lt_0_le_reg_r with (inject_Z n); [lra|]. assert ((share m n - share m' n) * inject_Z n == inject_Z m - inject_Z m') as -> by (rewrite <-E, <-E'; ring). lra. }
  unfold Temporal.unit_roundoff in *. lra.
Qed.

Lemma half_rule m n : (0 < m <= n)%Z -> (n < 2 ^ 40)%Z -> (1 # 2) <= rnd (share m n) <-> (n <= 2 * m)%Z.
Proof.
  intros B L. destruct (share_normal m n ltac:(lia) ltac:(lia)) as (N & E & R & M). split; intros H.
  - destruct (Z.le_gt_cases n (2 * m)) as [|G]; [done|exfalso]. pose proof (Temporal.rnd_relative _ N) as [_ A].
    assert (2 * inject_Z m + 1 <= inject_Z n) as D by (change 2 with (inject_Z 2); change 1 with (inject_Z 1); rewrite <-inject_Z_mult, <-inject_Z_plus, <-Zle_Qle; lia).
    assert (share m n <= (1 # 2) - (1 # 2199023255552)) as S.
    { apply Qle_shift_div_r; [lra|]. lra. }
    unfold Temporal.unit_roundoff in *. lra.
  - apply Qle_trans with (rnd (1 # 2)); [vm_compute; discriminate|]. apply rnd_mono. apply Qle_shift_div_l; [lra|].
    assert (inject_Z n <= 2 * inject_Z m) as D by (change 2 with (inject_Z 2); rewrite <-inject_Z_mult, <-Zle_Qle; lia). lra.
Qed.
End overlaps.

(** ** Actors *)

Section actors.
Variable env : string -> option string.
Variable json_loads : string -> option pyval.

Lemma matched_le t T g : 0 <= matched t T g <= Z.of_nat (length T).
Proof. unfold matched. pose proof (List.filter_length_le (fun x => existsb (fun r => String.eqb (fst r) (group_id g) && String.eqb (snd r) x) (group_techniques t)) T). lia. Qed.

Definition overlap_of (t : actor_tables) (T : list string) (g : group) : fl := Fin (rnd (share (matched t T g) (Z.of_nat (length T)))).

Lemma scored_spec t T min rows : T <> [] -> forall acc, fold_res (score_group t T min) rows acc = Ok (acc ++ map (fun g => (overlap_of t T g, g)) (List.filter (fun g => fle min (overlap_of t T g)) rows))%list.
Proof.
  intros N. induction rows as [|g rows IH]; intros acc; cbn [fold_res List.filter map]; [by rewrite app_nil_r|].
  unfold score_group at 1. rewrite overlap_is by (pose proof (matched_le t T g); destruct T; [done|cbn [length] in *; lia]). fold (overlap_of t T g). cbn [res_bind]. rewrite IH.
  destruct (fle min (overlap_of t T g)); [|done]. cbn [map]. by rewrite <-app_assoc.
Qed.

Lemma seen_name results n : is_seen results n = true <-> In n (map actor_name results).
Proof. unfold is_seen. rewrite existsb_exists, in_map_iff. split; intros (a & A & B); exists a; [apply String.eqb_eq in B as ->; done|]. by rewrite A, String.eqb_refl. Qed.

Lemma nodup_snoc results a : NoDup (map actor_name results) -> is_seen results (actor_name a) = false -> NoDup (map actor_name (results ++ [a])).
Proof.
  intros N S. rewrite map_app. apply NoDup_app. split; [done|]. split; [|apply NoDup_singleton]. intros x I ->%list_elem_of_singleton. apply list_elem_of_In, seen_name in I. congruence.
Qed.

Lemma mitre_of us og a : mitre_actor json_loads us og = Ok a ->
  actor_name a = group_name (snd og) /\ a_source a = "mitre_attack" /\ a_confidence a = (if fle (lit (1 # 2)) (fst og) then "medium" else "low").
Proof. destruct og as [o g]. unfold mitre_actor. destruct (if nonempty us then _ else _) as [b|]; [|done]. cbn [res_bind]. intros H. by apply ok_inj in H as <-. Qed.

Lemma mitre_fold us l : forall acc r, fold_res (add_mitre json_loads us) l acc = Ok r ->
  (NoDup (map actor_name acc) -> NoDup (map actor_name r)) /\ (length r <= length acc + length l)%nat /\
  (forall og, In og l -> In (group_name (snd og)) (map actor_name r)) /\ (forall a, In a acc -> In a r) /\
  (forall a, In a r -> In a acc \/ exists og, In og l /\ mitre_actor json_loads us og = Ok a).
Proof.
  induction l as [|og l IH]; intros acc r; cbn [fold_res]; [intros H; apply ok_inj in H as <-; split; [done|]; split; [lia|]; split; [done|]; split; [done|by left]|].
  unfold add_mitre at 1. destruct (is_seen acc (group_name (snd og))) eqn:S; cbn [res_bind].
  - intros (N & L & K & M & F)%IH. cbn [length]. split; [done|]. split; [lia|]. split; [|split; [done|]].
    + intros o [<-|I]; [|by apply K]. apply seen_name, in_map_iff in S as (a & E & I). rewrite <-E. by apply in_map, M.
    + intros a [I|(o & I & E)]%F; [by left|]. right. exists o. by split; [right|].
  - destruct (mitre_actor json_loads us og) as [a|] eqn:A; [|done]. cbn [res_bind]. intros (N & L & K & M & F)%IH. rewrite length_app in L. cbn [length] in *. pose proof (mitre_of _ _ _ A) as (E & _).
    split; [intros ND; apply N, nodup_snoc; [done|by rewrite E]|]. split; [lia|]. split; [|split].
    + intros o [<-|I]; [|by apply K]. rewrite <-E. apply in_map, M, in_app_iff. right. by left.
    + intros x I. apply M, in_app_iff. by left.
    + intros x [[I|[<-|[]]]%in_app_iff|(o & I & X)]%F; [by left|right; exists og; by split; [left|]|right; exists o; by split; [right|]].
Qed.

Lemma adversary_fold l : forall acc, let r := fold_left add_adversary l acc in
  (NoDup (map actor_name acc) -> NoDup (map actor_name r)) /\
  (forall x, In x l -> nonempty (strip x) = true -> In (strip x) (map actor_name r)) /\
  exists extra, r = (acc ++ extra)%list /\ forall a, In a extra -> a_source a = "otx_pulse" /\ a_confidence a = "low" /\ exists x, In x l /\ strip x = actor_name a.
Proof.
  cbv zeta. induction l as [|x l IH]; intros acc; cbn [fold_left]; [split; [done|]; split; [done|]; exists []; by rewrite app_nil_r|].
  destruct (IH (add_adversary acc x)) as (N & K & extra & E & F). rewrite E in N, K |- *. clear E. unfold add_adversary in *.
  assert (forall a, In a extra -> a_source a = "otx_pulse" /\ a_confidence a = "low" /\ exists y, In y (x :: l) /\ strip y = actor_name a) as F' by (intros a (A & B & y & I & Y)%F; repeat split; [done..|]; exists y; by split; [right|]).
  destruct (nonempty (strip x)) eqn:E; cbn [negb orb] in *; [destruct (is_seen acc (strip x)) eqn:S|].
  - split; [done|]. split; [|by exists extra]. intros y [<-|I] Y; [|by apply K]. apply seen_name in S. rewrite map_app. apply in_app_iff. by left.
  - split; [intros ND; by apply N, nodup_snoc|]. rewrite <-app_assoc in *. split.
    + intros y [<-|I] Y; [|by apply K]. rewrite map_app. apply in_app_iff. right. by left.
    + eexists. split; [reflexivity|]. intros a [<-|I]; [|by apply F']. repeat split. exists x. by split; [left|].
  - split; [done|]. split; [|by exists extra]. intros y [<-|I] Y; [congruence|by apply K].
Qed.

Lemma more_overlap_orders : orders more_overlap (fun og => isnan (fst og) = false).
Proof. split; [intros a b; apply flt_asym|]. intros a b c A B C H1 H2. by apply (flt_chain _ (fst b)). Qed.

(** Groups with fewer techniques of the CVE have a smaller overlap, in doubles too. *)
Lemma overlap_order t T g g' : Z.of_nat (length T) < 2 ^ 40 -> 0 < matched t T g' -> flt (overlap_of t T g') (overlap_of t T g) = false -> matched t T g <= matched t T g'.
Proof.
  intros L P H. destruct (Z.le_gt_cases (matched t T g) (matched t T g')) as [|G]; [done|exfalso]. pose proof (matched_le t T g). unfold overlap_of in H. apply flt_fin_false in H.
  pose proof (overlap_strict (matched t T g) (matched t T g') (Z.of_nat (length T)) P ltac:(lia) L) as X. by apply Qle_not_lt in H.
Qed.

(** What the first path lists: at most three groups, none left out with more techniques. *)
Lemma mitre_actors_spec t cve us r : mitre_actors env json_loads t cve us = Ok r -> let T := technique_ids t cve in Z.of_nat (length T) < 2 ^ 40 ->
  NoDup (map actor_name r) /\ (length r <= 3)%nat /\
  forall a, In a r -> a_source a = "mitre_attack" /\ exists g, In g (groups t) /\ group_name g = actor_name a /\ 0 < matched t T g /\
    a_confidence a = (if Z.of_nat (length T) <=? 2 * matched t T g then "medium" else "low") /\
    forall g2, In g2 (groups t) -> ~ In (group_name g2) (map actor_name r) -> matched t T g2 <= matched t T g.
Proof.
  cbv zeta. unfold mitre_actors. set (T := technique_ids t cve). destruct T as [|t0 T0] eqn:ET; [intros H _; apply ok_inj in H as <-; split; [constructor|]; split; [cbn; lia|done]|].
  rewrite <-ET in *. clearbody T. assert (T <> []) as NT by (by rewrite ET). clear ET t0 T0. intros H L. set (rows := List.filter _ (groups t)) in H.
  destruct (get_mitre_min_overlap env) as [min|] eqn:EM; [|done]. cbn [res_bind] in H. rewrite scored_spec in H by done. cbn [res_bind app] in H. set (scored := map _ _) in H.
  assert (isnan min = false) as NM.
  { unfold get_mitre_min_overlap in EM. destruct (float_of_str _) as [v|]; [|done]. cbn [res_bind] in EM. apply ok_inj in EM as <-. unfold fmax. destruct (flt f0 v) eqn:F; [by destruct v|done]. }
  apply mitre_fold in H as (N & Le & K & _ & F). split; [apply N; constructor|]. split.
  { rewrite length_firstn in Le. cbn [length] in Le. lia. }
  assert (S : StronglySorted (not_after more_overlap) (sort_on more_overlap scored)).
  { eapply sort_on_sorted_in; [apply more_overlap_orders|]. apply List.Forall_forall. intros og (g & <- & _)%in_map_iff. done. }
  intros a [[]|(og & I & A)]%F. apply mitre_of in A as (E & Src & C). split; [done|].
  assert (In og scored) as J by (rewrite <-(sort_on_perm more_overlap scored), <-(firstn_skipn 3 (sort_on more_overlap scored)); apply in_app_iff; by left).
  pose proof J as J0. apply in_map_iff in J0 as (g & <- & [Ig Mg]%filter_In). apply filter_In in Ig as [Ig Pg%Z.ltb_lt]. cbn [fst snd] in *. pose proof (matched_le t T g) as B. exists g.
  split; [done|]. split; [done|]. split; [done|]. split.
  { rewrite C. pose proof (half_rule (matched t T g) (Z.of_nat (length T)) ltac:(lia) L) as R. change (lit (1 # 2)) with (Fin (1 # 2)). unfold overlap_of.
    destruct (Z.leb_spec (Z.of_nat (length T)) (2 * matched t T g)) as [X|X]; [assert (fle (Fin (1 # 2)) (Fin (rnd (share (matched t T g) (Z.of_nat (length T))))) = true) as -> by (by apply fle_fin, R); done|].
    destruct (fle _ _) eqn:Y; [|done]. apply fle_fin, R in Y. lia. }
  intros g2 I2 N2. destruct (Z.ltb_spec 0 (matched t T g2)) as [P2|P2]; [|lia]. apply overlap_order; [done|done|].
  destruct (fle min (overlap_of t T g2)) eqn:M2.
  - assert (In (overlap_of t T g2, g2) scored) as J2 by (apply in_map_iff; exists g2; split; [done|]; apply filter_In; split; [apply filter_In; split; [done|by apply Z.ltb_lt]|done]).
    rewrite <-(sort_on_perm more_overlap scored), <-(firstn_skipn 3 (sort_on more_overlap scored)) in J2. apply in_app_iff in J2 as [J2|J2]; [by apply K in J2|].
    exact (sorted_cut _ _ _ _ _ S I J2).
  - unfold overlap_of in *. destruct min as [q| | |]; try done. apply fle_fin in Mg. apply fle_fin_false in M2. apply flt_fin_false. apply Qlt_le_weak. by eapply Qlt_le_trans.
Qed.

(** [strongest_actors_are_named]: the actors of a CVE bear distinct names; at most three are groups of ATT&CK, none
    left out uses more of the CVE's techniques than one that is listed, and such an actor is
    of medium confidence exactly where it uses half of them; every adversary named by a
    pulse of the CVE is listed, and whoever is listed for that reason only is low. *)
Theorem strongest_actors_are_named t links cve_id user_sector l : find_actor_sector_correlation env json_loads t links cve_id user_sector = Ok l ->
  let T := technique_ids t (upper cve_id) in Z.of_nat (length T) < 2 ^ 40 ->
  NoDup (map actor_name l) /\ (length (List.filter (fun a => String.eqb (a_source a) "mitre_attack") l) <= 3)%nat /\
  (forall a, In a l ->
    (a_source a = "mitre_attack" /\ exists g, In g (groups t) /\ group_name g = actor_name a /\ 0 < matched t T g /\
       a_confidence a = (if Z.of_nat (length T) <=? 2 * matched t T g then "medium" else "low") /\
       forall g2, In g2 (groups t) -> ~ In (group_name g2) (map actor_name l) -> matched t T g2 <= matched t T g) \/
    (a_source a = "otx_pulse" /\ a_confidence a = "low" /\ exists k, In k links /\ l_cve k = upper cve_id /\ strip (text_or (l_adversary k)) = actor_name a)) /\
  (forall k, In k links -> l_cve k = upper cve_id -> nonempty (strip (text_or (l_adversary k))) = true -> In (strip (text_or (l_adversary k))) (map actor_name l)).
Proof.
  cbv zeta. unfold find_actor_sector_correlation. destruct (mitre_actors _ _ _ _ _) as [r|] eqn:M; [|done]. cbn [res_bind]. intros H L. apply ok_inj in H as <-.
  destruct (mitre_actors_spec _ _ _ _ M L) as (N & Le & Sp). destruct (adversary_fold (adversaries links (upper cve_id)) r) as (N2 & K & extra & E & F). rewrite E in *. clear E.
  assert (Adv : forall x, In x (adversaries links (upper cve_id)) <-> exists k, In k links /\ l_cve k = upper cve_id /\ text_or (l_adversary k) = x /\ nonempty x = true).
  { intros x. unfold adversaries. rewrite <-list_elem_of_In, elem_of_remove_dups, list_elem_of_omap. split.
    - intros (k & I & X). apply list_elem_of_In in I. destruct (String.eqb_spec (l_cve k) (upper cve_id)); [|done]. destruct (l_adversary k) as [a|] eqn:A; [|done]. destruct (nonempty a) eqn:Y; [|done]. injection X as <-. exists k. by rewrite A.
    - intros (k & I & Q & <- & Y). exists k. split; [by apply list_elem_of_In|]. rewrite Q, String.eqb_refl. destruct (l_adversary k) as [a|]; [|done]. cbn [text_or] in *. by rewrite Y. }
  split; [by apply N2|]. split; [|split].
  - rewrite List.filter_app, length_app. assert (List.filter (fun a => String.eqb (a_source a) "mitre_attack") extra = []) as ->.
    { clear -F. induction extra as [|a extra IH]; [done|]. cbn [List.filter]. destruct (F a (or_introl eq_refl)) as (-> & _). apply IH. intros b I. apply F. by right. }
    pose proof (List.filter_length_le (fun a => String.eqb (a_source a) "mitre_attack") r). cbn [length]. lia.
  - intros a [I|I]%in_app_iff; [left|right].
    + destruct (Sp a I) as (S & g & Ig & Q & P & C & X). split; [done|]. exists g. repeat split; [done..|]. intros g2 I2 N3. apply X; [done|]. intros Y. apply N3. rewrite map_app. apply in_app_iff. by left.
    + destruct (F a I) as (S & C & x & (k & Ik & Q & <- & _)%Adv & E). repeat split; [done..|]. by exists k.
  - intros k Ik Q Y. apply K; [|done]. apply Adv. exists k. repeat split; try done. by destruct (text_or (l_adversary k)).
Qed.
End actors.

(** ** Answers *)

Lemma slice_20 {A} (l : list A) x : In x (slice_to 20 l) -> In x l.
Proof. unfold slice_to. cbn. apply in_firstn_in. Qed.

Section answers.
Context {lib : MathLib}.
Variable env : string -> option string.
Variable digest : string -> string.
Variable json_loads : string -> option pyval.
Variable py_str : pyval -> string.
Variable set_order : gset string -> list string.
Abbreviation compute := (_compute_correlation_for_cve env digest json_loads py_str set_order).

(** An answer shows nothing these dismissals name. *)
Definition respects (hidden : list suppression) (a : answer) : Prop :=
  (forall p, In p (r_infrastructure a) -> is_infrastructure_suppressed hidden (p_cve p) = false) /\
  (forall v s, In v (r_campaigns a) -> In s hidden -> s_scope s = "campaign_id" -> nonempty (s_key s) = true -> s_key s <> v_id v).

Lemma respects_fewer h h' a : (forall s, In s h' -> In s h) -> respects h a -> respects h' a.
Proof.
  intros S [P C]. split; [|intros v s Iv I; by apply C, S]. intros p I. apply existsb_false. intros s J. exact (proj1 (existsb_false _ _) (P p I) s (S s J)).
Qed.

(** Where an answer's parts come from. *)
Lemma compute_parts s clk cve_id user_sector a : compute s clk cve_id user_sector = Ok a ->
  r_error a = None /\
  (exists shown, get_campaigns_for_cve env digest set_order json_loads py_str (w s) (upper cve_id) (confirm_cutoff clk) (now clk) (Some shown) = Ok (r_campaigns a)) /\
  forall p, In p (r_infrastructure a) -> is_infrastructure_suppressed (load_suppressions (w s) (upper cve_id)) (p_cve p) = false /\
    ~ In (p_cve p) (flat_map v_members (r_campaigns a)) /\
    exists all, ranked_peers env digest json_loads set_order (graph_of (w s)) (upper cve_id) (confirm_cutoff clk) (now clk) = Ok all /\ In p all.
Proof.
  unfold _compute_correlation_for_cve. destruct (find_shared_infrastructure_v2 _ _ _ _ _ _ _ _ _) as [peers|] eqn:E; [|done]. cbn [res_bind].
  destruct (find_actor_sector_correlation _ _ _ _ _ _) as [actor|]; [|done]. cbn [res_bind]. destruct (count_hub_suppressed_ioc_peers _ _ _) as [hub|]; [|done]. cbn [res_bind].
  destruct (get_campaigns_for_cve _ _ _ _ _ _ _ _ _ _) as [campaigns|] eqn:C; [|done]. cbn [res_bind]. destruct (CorrScore.compute_correlation_priority _) as [pr|]; [|done]. cbn [res_bind]. intros H. apply ok_inj in H as <-.
  cbn [r_error r_campaigns r_infrastructure]. split; [done|]. split; [by eexists|]. intros p [[I S]%filter_In M]%filter_In. apply negb_true_iff in S, M. split; [done|]. split.
  - intros J. apply list_elem_of_In, one_in_spec in J. congruence.
  - unfold find_shared_infrastructure_v2 in E. destruct (ranked_peers _ _ _ _ _ _ _ _) as [all|]; [|done]. cbn [res_bind] in E. apply ok_inj in E as <-. exists all. split; [done|]. by apply slice_20.
Qed.

Lemma compute_respects s clk cve_id user_sector a : compute s clk cve_id user_sector = Ok a -> respects (load_suppressions (w s) (upper cve_id)) a.
Proof.
  intros (_ & (shown & C) & P)%compute_parts. split; [intros p I; by apply P|]. intros v x Iv Ix Sc K Q.
  destruct (shown_from _ _ _ _ _ _ _ _ _ _ _ _ C Iv) as (strong & c & f & counts & names & index & edges & _ & _ & _ & _ & N & _ & _ & ->).
  destruct (view_parts (w s) (upper (upper cve_id)) names index edges c f) as (V & _). rewrite V in Q.
  apply N. rewrite <-Q. apply direct_hidden; [|done|done]. unfold load_suppressions in *. by rewrite !upper_idemp in *.
Qed.

(** C35 [answer_is_consistent]: an answer's peers are other known CVEs that share with the CVE an indicator that is not a
    hub, none of them a member of a campaign it shows or dismissed for the CVE; its campaigns
    are in force and have the CVE as a stored member; and it carries no error. *)
Theorem answer_is_consistent s clk cve_id user_sector a : compute s clk cve_id user_sector = Ok a ->
  r_error a = None /\
  (exists cap, get_hub_cve_pulse_cap env = Ok cap /\ forall p, In p (r_infrastructure a) ->
     p_cve p <> upper cve_id /\ In (p_cve p) (map CampaignStore.cve_id (cves (w s))) /\ shares (graph_of (w s)) cap (upper cve_id) (p_cve p) /\
     (forall v, In v (r_campaigns a) -> ~ In (p_cve p) (v_members v)) /\
     is_infrastructure_suppressed (load_suppressions (w s) (upper cve_id)) (p_cve p) = false) /\
  (forall v, In v (r_campaigns a) -> In (v_id v, upper cve_id) (members (w s)) /\ exists c, In c (campaigns (w s)) /\ campaign_id c = v_id v /\ active c = true).
Proof.
  intros H. destruct (compute_parts _ _ _ _ _ H) as (E & (given & C) & P). split; [done|].
  assert (exists all, ranked_peers env digest json_loads set_order (graph_of (w s)) (upper cve_id) (confirm_cutoff clk) (now clk) = Ok all) as (all & R).
  { unfold _compute_correlation_for_cve, find_shared_infrastructure_v2 in H. destruct (ranked_peers _ _ _ _ _ _ _ _) as [all|]; [by exists all|done]. }
  split.
  - destruct (peers_spec _ _ _ _ _ _ _ _ _ R) as (cap & Hc & Sp). exists cap. split; [done|]. intros p I. destruct (P p I) as (S & M & all' & R' & J). rewrite R in R'. apply ok_inj in R' as <-.
    destruct (proj1 (Sp (p_cve p)) (in_map _ _ _ J)) as (N & K & Sh). rewrite upper_idemp in *. repeat split; try done. intros v Iv X. apply M, in_flat_map. by exists v.
  - intros v I. destruct (shown_from _ _ _ _ _ _ _ _ _ _ _ _ C I) as (strong & c & f & counts & names & index & edges & _ & Ic & A & M & _ & _ & _ & ->).
    destruct (view_parts (w s) (upper (upper cve_id)) names index edges c f) as (-> & _). rewrite upper_idemp in M. split; [done|]. by exists c.
Qed.
End answers.

(** ** Keys of the cache *)

Definition no_colon : string -> bool := sforall (fun c => negb (Ascii.eqb c ":")).

Lemma prefix_key a b s t : no_colon a = true -> no_colon b = true -> a +:+ String ":" s = b +:+ String ":" t -> a = b.
Proof.
  revert b. induction a as [|x a IH]; intros [|y b] A B; cbn; [done| | |].
  - intros [= <- _]. unfold no_colon in B. cbn in B. done.
  - intros [= -> _]. unfold no_colon in A. cbn in A. done.
  - unfold no_colon in *. cbn [sforall] in *. apply andb_true_iff in A as [_ A], B as [_ B]. intros [= -> H]. f_equal. by apply (IH b).
Qed.

Lemma cache_key_inj c d s t : no_colon c = true -> no_colon d = true -> cache_key c s = cache_key d t -> c = d.
Proof. intros C D H. unfold cache_key in H. cbn in H. injection H as H. by eapply prefix_key. Qed.

Lemma like_any s : like "%" s = true.
Proof. induction s as [|c s IH]; [done|]. cbn in *. by rewrite IH. Qed.

Lemma like_step r s : like (String "%" r) s = like r s || match s with "" => false | String _ t => like (String "%" r) t end.
Proof. by destruct s. Qed.

Lemma like_prefix p s : like (p +:+ "%") (p +:+ s) = true.
Proof.
  revert s. induction p as [|c p IH]; intros s; [apply like_any|]. change (String c p +:+ "%") with (String c (p +:+ "%")). change (String c p +:+ s) with (String c (p +:+ s)).
  destruct (Ascii.eqb_spec c "%") as [->|N].
  - rewrite like_step. apply orb_true_iff. right. rewrite like_step. by rewrite IH.
  - cbn [like]. destruct (Ascii.eqb_spec c "%"); [done|]. by rewrite Ascii.eqb_refl, orb_true_r, IH.
Qed.

Lemma cached_under c s : like (("correlation:v2:" +:+ c) +:+ "%") (cache_key c s) = true.
Proof. unfold cache_key. rewrite <-(sapp_assoc "correlation:v2:" c). apply like_prefix. Qed.

(** ** Histories *)

Section histories.
Context {lib : MathLib}.
Variable env : string -> option string.
Variable digest : string -> string.
Variable json_loads : string -> option pyval.
Variable py_str : pyval -> string.
Variable set_order : gset string -> list string.
Variable doc : Type.
Variable dumps : answer -> doc.
Variable loads : doc -> option answer.
Hypothesis loads_dumps : forall a, loads (dumps a) = Some a.
Abbreviation store := (store doc).
Abbreviation ask := (cve_correlation env digest json_loads py_str set_order doc dumps loads).
Abbreviation dismiss := (suppress_correlation_finding py_str doc).
Abbreviation restore := (unsuppress_correlation_finding py_str doc).
Abbreviation hidden_for st cve := (load_suppressions (w (src doc st)) cve).

(** A request of the routes, or a change of the other tables. *)
Inductive event :=
| Ask (clk : clock) (cve_id sector : string)
| Dismiss (cve_id scope : string) (key : list (string * pyval))
| Undo (cve_id scope cve_id_b campaign_id pulse_id : string)
| Change (s : sources).

Definition step (st : store) (e : event) : store :=
  match e with
  | Ask clk c sector => snd (ask st clk c sector)
  | Dismiss c scope key => snd (dismiss st c scope key)
  | Undo c scope b ca p => snd (restore st c scope b ca p)
  | Change s => mkStore doc (mkSources (with_suppressions (suppressions (w (src doc st))) (w s)) (actors s) (signals s) (products s) (spikes s) (stack s)) (feed_cache doc st) (snapshots doc st)
  end.

(** Identifiers without a colon, as those of the CVE programme are. *)
Definition plain (e : event) : bool := match e with Ask _ c _ => no_colon (upper (strip c)) | _ => true end.

Definition cache_ok (st : store) : Prop :=
  forall e a c sector, In e (feed_cache doc st) -> loads (e_result doc e) = Some a -> no_colon c = true -> upper c = c -> e_key doc e = cache_key c sector -> respects (hidden_for st c) a.

Lemma load_fewer (x y : world) c : (forall s, In s (suppressions x) -> s_cve s = upper c -> In s (suppressions y)) -> forall s, In s (load_suppressions x c) -> In s (load_suppressions y c).
Proof. intros H s [I Q]%filter_In. apply filter_In. split; [|done]. apply H; [done|]. by apply String.eqb_eq. Qed.

(** With the snapshots off: an answer respects the dismissals, and so does what is cached. *)
Lemma get_ok st clk c sector a st' : get_correlation_precompute_enabled env = false -> cache_ok st -> no_colon c = true -> upper c = c ->
  get_correlation_for_cve env digest json_loads py_str set_order doc dumps loads st clk c sector = Ok (a, st') -> respects (hidden_for st c) a /\ cache_ok st' /\ src doc st' = src doc st.
Proof.
  intros Off K NC Up. unfold get_correlation_for_cve. rewrite Off, Up. unfold get_feed_cache. destruct (List.find _ _) as [e|] eqn:F.
  - apply List.find_some in F as [I [Q%String.eqb_eq _]%andb_true_iff]. destruct (loads (e_result doc e)) as [x|] eqn:L; [|done]. cbn [res_bind]. intros H. apply ok_inj in H. injection H as <- <-.
    split; [by apply (K e x c sector)|by split].
  - cbn [res_bind]. intros H. apply ok_inj in H. unfold computed_answer in H. rewrite Up in H. destruct (_compute_correlation_for_cve _ _ _ _ _ _ _ _ _) as [x|] eqn:C.
    + injection H as <- <-. apply compute_respects in C. rewrite Up in C. split; [done|]. split; [|done]. intros e y d s [<-|[I _]%filter_In] L D Ud Q; [|by apply (K e y d s)].
      cbn [e_result e_key] in *. rewrite loads_dumps in L. injection L as <-. by apply cache_key_inj in Q as <-.
    + injection H as <- <-. split; [|by split]. by split.
Qed.

(** A change of the dismissals of one CVE, whose cached answers are dropped. *)
Lemma dropped_ok st hidden c0 : cache_ok st -> (forall s, In s hidden -> In s (suppressions (w (src doc st))) \/ s_cve s = c0) ->
  cache_ok (delete_feed_cache_prefix doc (set_suppressions doc hidden st) ("correlation:v2:" +:+ c0)).
Proof.
  intros K H e a c sector [I D]%filter_In L NC Up Q. cbn [src set_suppressions with_cache delete_feed_cache_prefix w with_suppressions] in *.
  destruct (String.eqb_spec c0 c) as [->|N]; [by rewrite Q, cached_under in D|].
  eapply respects_fewer; [|by apply (K e a c sector)]. apply load_fewer. intros s Is Sc. destruct (H s Is) as [J|J]; [done|]. rewrite J, Up in Sc. done.
Qed.

Lemma required c0 c : require_cve_id c0 = Some c -> c = upper (strip c0) /\ upper c = c.
Proof. unfold require_cve_id. destruct (startswith _ _); [|done]. intros [= <-]. by rewrite upper_idemp. Qed.

Lemma step_ok st e : get_correlation_precompute_enabled env = false -> plain e = true -> cache_ok st -> cache_ok (step st e).
Proof.
  intros Off P K. destruct e as [clk c0 sector|c0 scope key|c0 scope b ca p|s]; cbn [step]; [| | |done].
  - unfold cve_correlation. destruct (require_cve_id c0) as [c|] eqn:R; [|done]. apply required in R as [E Up]. cbn [plain] in P. rewrite <-E in P.
    destruct (get_correlation_for_cve _ _ _ _ _ _ _ _ st clk c (strip sector)) as [[a st']|] eqn:G; [|done]. cbn [snd]. by apply get_ok in G as (_ & ? & _).
  - unfold suppress_correlation_finding. destruct (require_cve_id c0) as [c|] eqn:R; [|done]. apply required in R as [_ Up]. unfold add_suppression.
    destruct (negb (one_in VALID_SCOPES _)); [done|]. destruct (negb (nonempty _)); [done|]. cbn [snd]. rewrite Up. apply dropped_ok; [done|].
    intros x [[I _]%filter_In|[<-|[]]]%in_app_iff; [by left|by right].
  - unfold unsuppress_correlation_finding. destruct (require_cve_id c0) as [c|] eqn:R; [|done]. apply required in R as [_ Up]. unfold remove_suppression. cbv zeta.
    destruct (negb _); [done|]. cbn [snd]. apply dropped_ok; [done|]. intros x [I _]%filter_In. by left.
Qed.

(** C24 [dismissed_findings_stay_gone]: without precomputed snapshots, whatever requests and changes of the other tables
    came before and however long an answer is cached, a CVE's correlation shows no peer and no
    campaign that is dismissed for it at that time. *)
Theorem dismissed_findings_stay_gone st l clk cve_id sector a st' : get_correlation_precompute_enabled env = false -> feed_cache doc st = [] ->
  Forall (fun e => plain e = true) l -> no_colon (upper (strip cve_id)) = true ->
  let now_at := fold_left step l st in
  ask now_at clk cve_id sector = (Answered a, st') -> respects (hidden_for now_at (strip cve_id)) a.
Proof.
  intros Off E P NC. cbv zeta. set (st1 := fold_left step l st).
  assert (cache_ok st1) as K. { apply fold_left_inv; [|by intros e x c s I; rewrite E in I]. intros x e I. rewrite List.Forall_forall in P. by apply step_ok, P. }
  unfold cve_correlation. destruct (require_cve_id cve_id) as [c|] eqn:R; [|done]. apply required in R as [Q Up]. rewrite <-Q in NC.
  destruct (get_correlation_for_cve _ _ _ _ _ _ _ _ st1 clk c (strip sector)) as [[x st2]|] eqn:G; [|done]. intros [= <- <-]. apply get_ok in G as (Re & _); [|done..].
  eapply respects_fewer; [|exact Re]. intros s. unfold load_suppressions. by rewrite Q, upper_idemp.
Qed.

(** Finding [dismissal_misses_snapshot]: with precomputed snapshots the answer to a request without a sector is that of
    the snapshot, whatever has been dismissed since it was made. *)
Theorem dismissal_misses_snapshot st cve_id scope key st' clk s payload : get_correlation_precompute_enabled env = true ->
  (forall c, require_cve_id cve_id = Some c -> get_correlation_cve_snapshot doc loads st c = Some (s, payload)) ->
  dismiss st cve_id scope key = (Done, st') ->
  exists a st2, ask st' clk cve_id "" = (Answered a, st2) /\ r_infrastructure a = r_infrastructure payload /\ r_campaigns a = r_campaigns payload.
Proof.
  intros On S. unfold suppress_correlation_finding, cve_correlation. destruct (require_cve_id cve_id) as [c|] eqn:R; [|done]. apply required in R as [_ Up]. specialize (S c eq_refl).
  unfold add_suppression. destruct (negb (one_in VALID_SCOPES _)); [done|]. destruct (negb (nonempty _)); [done|]. intros H. injection H as <-.
  unfold get_correlation_for_cve. rewrite On, Up. unfold get_feed_cache. destruct (List.find _ _) as [e|] eqn:F.
  { apply List.find_some in F as [[I D]%filter_In [Q%String.eqb_eq _]%andb_true_iff]. change (strip "") with "" in Q. by rewrite Q, cached_under in D. }
  cbn [res_bind]. change (get_correlation_cve_snapshot doc loads _ c) with (get_correlation_cve_snapshot doc loads st c). rewrite S. by eexists _, _.
Qed.

(** Finding [pulse_dismissals_hide_nothing]: a dismissal of scope pulse_id is stored, and the engine reads it nowhere. *)
Lemma pulse_dismissals_hide_nothing w l x : s_scope x = "pulse_id" ->
  resolve_suppressed_campaign_ids w (l ++ [x]) = resolve_suppressed_campaign_ids w l /\ forall p, is_infrastructure_suppressed (l ++ [x]) p = is_infrastructure_suppressed l p.
Proof.
  intros S. split.
  - assert (direct_ids (l ++ [x]) = direct_ids l) as E; [|unfold resolve_suppressed_campaign_ids; by rewrite E]. unfold direct_ids. rewrite List.filter_app. cbn [List.filter]. rewrite S. cbn. by rewrite app_nil_r.
  - intros p. unfold is_infrastructure_suppressed. rewrite existsb_app. cbn [existsb]. rewrite S. cbn. by rewrite orb_false_r.
Qed.

End histories.

(** ** Concrete requests *)

Definition techniques : actor_tables := mkActors
  (map (pair "CVE-2026-1") ["T1059"; "T1190"; "T1566"; "T1003"]) [("G0016", "T1059"); ("G0016", "T1190"); ("G0007", "T1059"); ("G0007", "T9999")]
  [mkGroupRow "G0016" "APT29" None; mkGroupRow "G0007" "APT28" None; mkGroupRow "G0001" "Axiom" None].
Definition named : list link := [mkLink "CVE-2026-1" "p1" None (Some " Sandworm ")].
Abbreviation found := (find_actor_sector_correlation no_env no_docs techniques named "cve-2026-1" "").

Lemma strongest_actors_are_named_witness : exists l, found = Ok l /\ map (fun a => (actor_name a, a_confidence a)) l = [("APT29", "medium"); ("APT28", "low"); ("Sandworm", "low")] /\ NoDup (map actor_name l).
Proof.
  destruct (is_ok_spec found) as [l E]; [vm_compute; reflexivity|]. exists l. split; [exact E|]. split.
  - assert ((let! l := found in Ok (map (fun a => (actor_name a, a_confidence a)) l)) = Ok [("APT29", "medium"); ("APT28", "low"); ("Sandworm", "low")]) as X by (vm_compute; reflexivity). rewrite E in X. by apply ok_inj in X.
  - refine (proj1 (strongest_actors_are_named no_env no_docs techniques named "cve-2026-1" "" l E _)). vm_compute. reflexivity.
Defined.

Definition at_noon : clock := mkClock july_20 "2026-07-19 00:00:00" "2026-07-19 18:00:00" "2026-07-20 00:00:00".
Definition here (x : world) : sources := mkSources x (mkActors [] [] []) [] [] [] [].
Definition text (_ : pyval) : string := "".
Abbreviation computed x c := (_compute_correlation_for_cve no_env dig no_docs text any_order (here x) at_noon c "").

(** The same two CVEs: peers by their domain before a campaign is built, members of one campaign after. *)
Lemma answer_is_consistent_witness : exists a b, computed base "CVE-2026-1" = Ok a /\ map p_cve (r_infrastructure a) = ["CVE-2026-2"] /\
  computed night_1 "CVE-2026-1" = Ok b /\ length (r_campaigns b) = 1%nat /\ (forall p v, In p (r_infrastructure b) -> In v (r_campaigns b) -> ~ In (p_cve p) (v_members v)).
Proof.
  destruct (is_ok_spec (computed base "CVE-2026-1")) as [a A]; [vm_compute; reflexivity|]. destruct (is_ok_spec (computed night_1 "CVE-2026-1")) as [b B]; [vm_compute; reflexivity|]. exists a, b. split; [exact A|]. split; [|split; [exact B|split]].
  - assert ((let! a := computed base "CVE-2026-1" in Ok (map p_cve (r_infrastructure a))) = Ok ["CVE-2026-2"]) as X by (vm_compute; reflexivity). rewrite A in X. by apply ok_inj in X.
  - assert ((let! a := computed night_1 "CVE-2026-1" in Ok (length (r_campaigns a))) = Ok 1%nat) as X by (vm_compute; reflexivity). rewrite B in X. by apply ok_inj in X.
  - destruct (answer_is_consistent no_env dig no_docs text any_order _ _ _ _ _ B) as (_ & (cap & _ & P) & _). intros p v I J. by apply (P p I).
Defined.

Abbreviation asked env st c := (cve_correlation env dig no_docs text any_order answer (fun a => a) Some st at_noon c "").
Abbreviation peers_of r := (match r with (Answered a, _) => map p_cve (r_infrastructure a) | _ => ["?"] end).
Definition fresh : store answer := mkStore answer (here base) [] [].
Definition dismissal : event := Dismiss "cve-2026-1" "infrastructure" [("cve_id_b", PStr "cve-2026-2")].
Abbreviation after l := (fold_left (step no_env dig no_docs text any_order answer (fun a => a) Some) l fresh).

Lemma dismissed_findings_stay_gone_witness : peers_of (asked no_env fresh "CVE-2026-1") = ["CVE-2026-2"] /\
  exists a st, asked no_env (after [Ask at_noon "CVE-2026-1" ""; dismissal]) "CVE-2026-1" = (Answered a, st) /\
    respects (load_suppressions (w (src answer (after [Ask at_noon "CVE-2026-1" ""; dismissal]))) "CVE-2026-1") a.
Proof.
  split; [vm_compute; reflexivity|]. destruct (asked no_env (after [Ask at_noon "CVE-2026-1" ""; dismissal]) "CVE-2026-1") as [r st] eqn:E. destruct r as [a| | |].
  - exists a, st. split; [reflexivity|]. refine (dismissed_findings_stay_gone no_env dig no_docs text any_order answer (fun a => a) Some (fun a => eq_refl) fresh [Ask at_noon "CVE-2026-1" ""; dismissal] at_noon "CVE-2026-1" "" a st _ _ _ _ E); [reflexivity|reflexivity|by repeat constructor|reflexivity].
  - assert ((match fst (asked no_env (after [Ask at_noon "CVE-2026-1" ""; dismissal]) "CVE-2026-1") with Done => 1 | _ => 0 end) = 0) as X by (vm_compute; reflexivity). rewrite E in X. discriminate X.
  - assert ((match fst (asked no_env (after [Ask at_noon "CVE-2026-1" ""; dismissal]) "CVE-2026-1") with Status _ => 1 | _ => 0 end) = 0) as X by (vm_compute; reflexivity). rewrite E in X. discriminate X.
  - assert ((match fst (asked no_env (after [Ask at_noon "CVE-2026-1" ""; dismissal]) "CVE-2026-1") with ServerError _ => 1 | _ => 0 end) = 0) as X by (vm_compute; reflexivity). rewrite E in X. discriminate X.
Defined.

Definition precomputing (k : string) : option string := if String.eqb k "CORRELATION_PRECOMPUTE_ENABLED" then Some "1" else None.
Definition snapped : store answer := run_correlation_precompute_slice precomputing dig no_docs text any_order answer (fun a => a) at_noon fresh ["CVE-2026-1"].

(** The dismissed peer is still shown, until the next night that reaches the CVE. *)
Lemma dismissal_misses_snapshot_witness : exists st, suppress_correlation_finding text answer snapped "CVE-2026-1" "infrastructure" [("cve_id_b", PStr "CVE-2026-2")] = (Done, st) /\
  exists a st2 s p, asked precomputing st "CVE-2026-1" = (Answered a, st2) /\ get_correlation_cve_snapshot answer Some snapped "CVE-2026-1" = Some (s, p) /\ r_infrastructure a = r_infrastructure p /\ map p_cve (r_infrastructure p) = ["CVE-2026-2"].
Proof.
  destruct (suppress_correlation_finding text answer snapped "CVE-2026-1" "infrastructure" [("cve_id_b", PStr "CVE-2026-2")]) as [r st] eqn:D.
  assert (r = Done) as -> by (change r with (fst (r, st)); rewrite <-D; vm_compute; reflexivity). exists st. split; [reflexivity|].
  destruct (get_correlation_cve_snapshot answer Some snapped "CVE-2026-1") as [[s p]|] eqn:S.
  - destruct (dismissal_misses_snapshot precomputing dig no_docs text any_order answer (fun a => a) Some snapped "CVE-2026-1" "infrastructure" [("cve_id_b", PStr "CVE-2026-2")] st at_noon s p) as (a & st2 & A & I & _); [reflexivity|intros c [= <-]; exact S|exact D|].
    exists a, st2, s, p. split; [exact A|]. split; [reflexivity|]. split; [exact I|].
    assert (option_map (fun sp => map p_cve (r_infrastructure (snd sp))) (get_correlation_cve_snapshot answer Some snapped "CVE-2026-1") = Some ["CVE-2026-2"]) as X by (vm_compute; reflexivity). rewrite S in X. by injection X.
  - assert ((match get_correlation_cve_snapshot answer Some snapped "CVE-2026-1" with None => 1 | _ => 0 end) = 0) as X by (vm_compute; reflexivity). rewrite S in X. discriminate X.
Defined.
