(* ===== verification/Nightly.v ===== *)
(** * Nightly: correlation/engine.py, run_nightly_correlation

    The night's phases in their order: the degrees of the indicators, the spikes, the
    pruning, the actors of recent CVEs, the campaigns, the metrics, the snapshots and the
    cached answers, on a connection whose transaction is explicit.  Any phase may raise:
    a [failure] says which do.  A phase in a [try] then rolls back to the last commit and
    the night goes on; an exception of the others ends the night, and the job rolls back.
    What the metrics read and write is not modelled. *)

From S2P Require Import Prelude PyStr PyVal Dates DateText CveRow Pacing Campaigns.
From S2P Require Temporal.
From S2P Require Import Confidence SourceEvidence IocGraph CampaignStore Engine.
Open Scope string_scope.
Open Scope Z_scope.

(** The CVEs of the pulses that hold an indicator. *)
Definition cves_through (x : world) (ty value : string) : list string :=
  remove_dups (flat_map (fun oi => if String.eqb (io_type oi) ty && String.eqb (io_value oi) value
                                   then map l_cve (List.filter (fun l => String.eqb (l_pulse l) (io_pulse oi)) (cve_pulses x)) else []) (pulse_iocs x)).

Definition degree_rows (x : world) : list (string * string * Z) :=
  omap (fun k => match cves_through x (fst k) (snd k) with [] => None | l => Some (fst k, snd k, Z.of_nat (length l)) end)
    (remove_dups (map (fun oi => (io_type oi, io_value oi)) (pulse_iocs x))).

Definition rebuild_ioc_degree (x : world) : world :=
  mkWorld (pulses x) (cves x) (pulse_iocs x) (cve_pulses x) (degree_rows x) (ti_mirror x) (cache x) (kev_deadlines x) (epss_history x)
    (correlation_actor x) (mitre_groups x) (suppressions x) (pulse_families x) (campaigns x) (members x) (sync_state x).
Definition with_actor_rows (rows : list (string * string)) (x : world) : world :=
  mkWorld (pulses x) (cves x) (pulse_iocs x) (cve_pulses x) (ioc_degree x) (ti_mirror x) (cache x) (kev_deadlines x) (epss_history x)
    rows (mitre_groups x) (suppressions x) (pulse_families x) (campaigns x) (members x) (sync_state x).

(** db/correlation.py, [get_recent_cve_ids_for_otx] *)
Definition newest_first (a b : cve) : bool := String.ltb (text_or (c_published b)) (text_or (c_published a)).
Definition get_recent_cve_ids_for_otx (x : world) (now days : Z) : list string :=
  let cutoff := date_text ((now - days * DAY_US) / DAY_US) in
  map cve_id (sort_on newest_first (List.filter (fun c => match c_published c with Some p => nonempty p && negb (String.ltb p cutoff) | None => false end) (cves x))).

(** Where an exception can come from. *)
Inductive phase :=
| Degrees | Spikes | Pruning | RecentIds | Actors (cve_id : string) | CampaignBuild | Metrics
| PrecomputeCommit | PrecomputeIds | Snapshot (cve_id : string) | ClearCache | FinalCommit.

Definition failure : Type := phase -> option exn.

Section night.
Context {lib : MathLib}.
Variable env : string -> option string.
Variable digest : string -> string.
Variable json_loads : string -> option pyval.
Variable json_dumps : pyval -> string.
Variable py_str : pyval -> string.
Variable set_order : gset string -> list string.
Variable doc : Type.
Variable dumps : answer -> doc.

Abbreviation store := (store doc).
Definition on_world (f : world -> world) (st : store) : store :=
  let s := src doc st in mkStore doc (mkSources (f (w s)) (actors s) (signals s) (products s) (spikes s) (stack s)) (feed_cache doc st) (snapshots doc st).
Definition with_spikes (l : list Temporal.spike) (st : store) : store :=
  let s := src doc st in mkStore doc (mkSources (w s) (actors s) (signals s) (products s) l (stack s)) (feed_cache doc st) (snapshots doc st).

(** A connection: what is committed, and what its transaction sees. *)
Record connection := mkConn { durable : store; working : store }.
Definition run_on (f : store -> store) (t : connection) : connection := mkConn (durable t) (f (working t)).
Definition commit (t : connection) : connection := mkConn (working t) (working t).
Definition _recover_db_transaction (t : connection) : connection := mkConn (durable t) (durable t).

(** A phase in a [try]. *)
Definition guarded (fail : option exn) (body : store -> res store) (t : connection) : connection :=
  match fail with
  | Some _ => _recover_db_transaction t
  | None => match body (working t) with Ok st => mkConn (durable t) st | Raise _ => _recover_db_transaction t end
  end.

(** The connection, and the exception that ended the night. *)
Definition running : Type := connection * option exn.
Definition and_then (r : running) (f : connection -> running) : running := match snd r with Some _ => r | None => f (fst r) end.
Definition bare (fail : option exn) (f : connection -> connection) (t : connection) : running :=
  match fail with Some e => (t, Some e) | None => (f t, None) end.

(** *** The phases *)

(** [rebuild_ioc_degree] commits itself. *)
Definition degree_phase (fails : failure) (t : connection) : connection :=
  match fails Degrees with Some _ => _recover_db_transaction t | None => commit (run_on (on_world rebuild_ioc_degree) t) end.

Definition temporal_phase (now : Z) (st : store) : res store :=
  let! l := Temporal.find_temporal_anomalies json_loads py_str (products (src doc st)) now in
  let! rows := Temporal._store_temporal_anomalies l in Ok (with_spikes rows st).

Definition prune_phase : store -> store := on_world (fun x => fst (prune_invalid_campaign_members x)).

Definition actor_phase (cve_id : string) (st : store) : res store :=
  let s := src doc st in
  let! found := find_actor_sector_correlation env json_loads (actors s) (cve_pulses (w s)) cve_id "" in
  match found with [] => Ok st | _ => Ok (on_world (fun x => with_actor_rows (_store_actor_correlation (correlation_actor x) cve_id found) x) st) end.

Definition campaign_phase (now : Z) (st : store) : res store :=
  let! built := build_campaigns_from_pulses env set_order json_loads json_dumps now (w (src doc st)) in Ok (on_world (fun _ => fst built) st).

Definition actor_step (fails : failure) (t : connection) (cve_id : string) : connection := guarded (fails (Actors cve_id)) (actor_phase cve_id) t.

(** One snapshot; it starts from committed rows, so a computation that raises leaves nothing to undo. *)
Definition snapshot_step (clk : clock) (fails : failure) (t : connection) (cve_id : string) : connection :=
  match fails (Snapshot cve_id) with
  | Some _ => _recover_db_transaction t
  | None => commit (run_on (fun st => precompute_one env digest json_loads py_str set_order doc dumps clk st cve_id) t)
  end.

(** [precompute_ids] are those of list_cve_ids_for_precompute. *)
Definition precompute_phase (clk : clock) (fails : failure) (precompute_ids : list string) (t : connection) : running :=
  if get_correlation_precompute_enabled env then
    and_then (bare (fails PrecomputeCommit) commit t) (fun t =>
    bare (fails PrecomputeIds) (fun t => fold_left (snapshot_step clk fails) precompute_ids t) t)
  else (t, None).

Definition clear_answers (st : store) : store :=
  delete_feed_cache_prefix doc (delete_feed_cache_prefix doc st "correlation:v2:") "correlation:v1:".

Definition run_nightly_correlation (clk : clock) (precompute_ids : list string) (fails : failure) (t : connection) : running :=
  let t := degree_phase fails t in
  let t := guarded (fails Spikes) (temporal_phase (now clk)) t in
  and_then (bare (fails Pruning) (run_on prune_phase) t) (fun t =>
  and_then (bare (fails RecentIds) (fun t =>
    let t := fold_left (actor_step fails) (get_recent_cve_ids_for_otx (w (src doc (working t))) (now clk) 7) t in
    let t := guarded (fails CampaignBuild) (campaign_phase (now clk)) t in
    guarded (fails Metrics) Ok t) t) (fun t =>
  and_then (precompute_phase clk fails precompute_ids t) (fun t =>
  and_then (bare (fails ClearCache) (run_on clear_answers) t) (fun t => bare (fails FinalCommit) commit t)))).

(** The job (scheduler.py): on an exception it rolls back; what stays is what was committed. *)
Definition nightly_job (clk : clock) (precompute_ids : list string) (fails : failure) (st : store) : store * option exn :=
  let '(t, e) := run_nightly_correlation clk precompute_ids fails (mkConn st st) in
  match e with Some e => (durable (_recover_db_transaction t), Some e) | None => (durable t, None) end.
End night.

(** ** Degrees *)

(** After the rebuild the degree of an indicator is the number of CVEs of the pulses that hold it. *)
Lemma degree_counts x ty value : degree_of (graph_of (rebuild_ioc_degree x)) ty value = Z.of_nat (length (cves_through x ty value)).
Proof.
  unfold degree_of. cbn [graph_of degrees rebuild_ioc_degree ioc_degree]. unfold degree_rows. set (keys := remove_dups _).
  assert (K : In (ty, value) keys \/ cves_through x ty value = []).
  { destruct (decide ((ty, value) ∈ keys)) as [I|N]; [left; by apply list_elem_of_In|right]. unfold cves_through.
    assert (flat_map (fun oi => if String.eqb (io_type oi) ty && String.eqb (io_value oi) value then map l_cve (List.filter (fun l => String.eqb (l_pulse l) (io_pulse oi)) (cve_pulses x)) else []) (pulse_iocs x) = []) as ->; [|done].
    assert (forall oi, In oi (pulse_iocs x) -> String.eqb (io_type oi) ty && String.eqb (io_value oi) value = false) as F.
    { intros oi I. destruct (String.eqb_spec (io_type oi) ty) as [<-| ]; [|done]. destruct (String.eqb_spec (io_value oi) value) as [<-| ]; [|done]. exfalso. apply N. unfold keys. rewrite elem_of_remove_dups. apply list_elem_of_In, (in_map (fun oi => (io_type oi, io_value oi))), I. }
    clear N keys. induction (pulse_iocs x) as [|oi l IH]; [done|]. cbn [flat_map]. rewrite F by (by left). apply IH. intros o I. apply F. by right. }
  clearbody keys. induction keys as [|[ty' v'] keys IH]; [destruct K as [[]| ->]; done|]. cbn [omap list_omap]. cbn [fst snd].
  destruct (decide ((ty', v') = (ty, value))) as [[= -> ->]|N].
  - destruct (cves_through x ty value) as [|c l] eqn:E; [apply IH; by right|]. cbn [List.find fst snd]. by rewrite !String.eqb_refl.
  - destruct (cves_through x ty' v') as [|c l]; [apply IH; destruct K as [[E|I]|E]; [done|by left|by right]|]. cbn [List.find fst snd].
    destruct (String.eqb_spec ty' ty) as [->|]; cbn [andb]; [destruct (String.eqb_spec v' value) as [->|]; [done|]|]; (apply IH; destruct K as [[E|I]|E]; [done|by left|by right]).
Qed.

Section nights.
Context {lib : MathLib}.
Variable env : string -> option string.
Variable digest : string -> string.
Variable json_loads : string -> option pyval.
Variable json_dumps : pyval -> string.
Variable py_str : pyval -> string.
Variable set_order : gset string -> list string.
Variable doc : Type.
Variable dumps : answer -> doc.
Abbreviation store := (store doc).
Abbreviation connection := (connection doc).
Abbreviation durable := (durable doc).
Abbreviation working := (working doc).
Abbreviation job := (nightly_job env digest json_loads json_dumps py_str set_order doc dumps).
Abbreviation world_of st := (w (src doc st)).

(** [hub_cap_counts_cves]: on the degrees of a night the ranking lists exactly the other known CVEs that share with
    the CVE an indicator whose pulses name no more distinct CVEs than the hub cap. *)
Theorem hub_cap_counts_cves x cve cutoff now all : ranked_peers env digest json_loads set_order (graph_of (rebuild_ioc_degree x)) cve cutoff now = Ok all ->
  exists cap, get_hub_cve_pulse_cap env = Ok cap /\ forall b, In b (map p_cve all) <->
    b <> upper cve /\ In b (map cve_id (cves x)) /\ exists oi oi2, In oi (pulse_iocs x) /\ In oi2 (pulse_iocs x) /\ same_ioc oi oi2 = true /\
      tags (graph_of x) (upper cve) (io_pulse oi) = true /\ tags (graph_of x) b (io_pulse oi2) = true /\ Z.of_nat (length (cves_through x (io_type oi) (io_value oi))) <= cap.
Proof.
  intros (cap & C & S)%peers_spec. exists cap. split; [done|]. intros b. rewrite S. unfold shares.
  split; (intros (N & K & oi & oi2 & I & I2 & E & T & T2 & L); split; [done|]; split; [done|]; exists oi, oi2; rewrite degree_counts in *; done).
Qed.

(** ** The phases *)

Lemma guarded_durable fail body t : durable (guarded doc fail body t) = durable t.
Proof. unfold guarded. destruct fail; [done|]. by destruct (body _). Qed.
Lemma guarded_fails e body t : guarded doc (Some e) body t = mkConn doc (durable t) (durable t).
Proof. done. Qed.
Lemma actors_durable fails ids : forall t, durable (fold_left (actor_step env json_loads doc fails) ids t) = durable t.
Proof. induction ids as [|c ids IH]; intros t; [done|]. cbn [fold_left]. rewrite IH. apply guarded_durable. Qed.

(** What holds of the committed rows and of those the transaction sees. *)
Definition both (P : store -> Prop) (t : connection) : Prop := P (durable t) /\ P (working t).

Lemma both_guarded P fail body t : (forall st st', P st -> body st = Ok st' -> P st') -> both P t -> both P (guarded doc fail body t).
Proof. intros H [D W]. unfold guarded. destruct fail; [by split|]. destruct (body (working t)) eqn:B; [|by split]. split; [done|]. by eapply H. Qed.
Lemma both_on (P : store -> Prop) f t : (forall st, P st -> P (f st)) -> both P t -> both P (run_on doc f t).
Proof. intros H [D W]. split; [done|]. by apply H. Qed.
Lemma both_commit P t : both P t -> both P (commit doc t).
Proof. by intros [D W]. Qed.
Lemma both_bare P fail f t : (both P t -> both P (f t)) -> both P t -> both P (fst (bare doc fail f t)).
Proof. intros H B. unfold bare. destruct fail; [done|]. by apply H. Qed.
Lemma both_then P r f : both P (fst r) -> (forall t, both P t -> both P (fst (f t))) -> both P (fst (and_then doc r f)).
Proof. intros B H. unfold and_then. destruct (snd r); [done|]. by apply H. Qed.
Lemma both_fold {A} P (f : connection -> A -> connection) l t : (forall t a, both P t -> both P (f t a)) -> both P t -> both P (fold_left f l t).
Proof. intros H. revert t. induction l as [|a l IH]; intros t B; [done|]. cbn [fold_left]. apply IH. by apply H. Qed.

(** A property of the rows that no phase breaks holds when the night is over, however it ends. *)
Record kept (P : store -> Prop) : Prop := mkKept {
  k_world : forall st f, P st -> store_ok (f (world_of st)) -> P (on_world doc f st);
  k_ok : forall st, P st -> store_ok (world_of st);
  k_spikes : forall st l, P st -> P (with_spikes doc l st);
  k_snapshots : forall st l, P st -> P (with_snapshots doc l st) }.

Lemma actor_world rows x : store_ok x -> store_ok (with_actor_rows rows x).
Proof. by intros []; split. Qed.
Lemma degree_world x : store_ok x -> store_ok (rebuild_ioc_degree x).
Proof. by intros []; split. Qed.

Lemma precompute_both (P : store -> Prop) clk fails ids t : (forall st l, P st -> P (with_snapshots doc l st)) -> both P t -> both P (fst (precompute_phase env digest json_loads py_str set_order doc dumps clk fails ids t)).
Proof.
  intros K B. unfold precompute_phase. destruct (get_correlation_precompute_enabled env); [|done]. apply both_then; [by apply both_bare; [apply both_commit|]|]. clear t B. intros t B. apply both_bare; [|done]. clear B. intros B.
  apply both_fold; [|done]. clear t B. intros t c B. unfold snapshot_step. destruct (fails _); [by destruct B|]. apply both_commit, both_on; [|done]. intros st Q. unfold precompute_one. destruct (_compute_correlation_for_cve _ _ _ _ _ _ _ _ _); [by apply K|done].
Qed.

(** Everything before the cached answers are deleted. *)
Lemma phases_both P clk fails t : kept P -> both P t -> both P (fst (and_then doc (bare doc (fails Pruning) (run_on doc (prune_phase doc)) (guarded doc (fails Spikes) (temporal_phase json_loads py_str doc (now clk)) (degree_phase doc fails t))) (fun t =>
  bare doc (fails RecentIds) (fun t =>
    guarded doc (fails Metrics) Ok (guarded doc (fails CampaignBuild) (campaign_phase env json_loads json_dumps set_order doc (now clk))
      (fold_left (actor_step env json_loads doc fails) (get_recent_cve_ids_for_otx (world_of (working t)) (now clk) 7) t))) t))).
Proof.
  intros K B. assert (B1 : both P (degree_phase doc fails t)).
  { unfold degree_phase. destruct (fails Degrees); [by destruct B|]. apply both_commit, both_on; [|done]. intros st Q. apply (k_world P K); [done|]. by apply degree_world, (k_ok P K). }
  assert (B2 : both P (guarded doc (fails Spikes) (temporal_phase json_loads py_str doc (now clk)) (degree_phase doc fails t))).
  { apply both_guarded; [|done]. intros st st' Q. unfold temporal_phase. destruct (Temporal.find_temporal_anomalies _ _ _ _) as [l|]; [|done]. cbn [res_bind]. destruct (Temporal._store_temporal_anomalies l); [|done]. intros [= <-]. by apply (k_spikes P K). }
  clear B B1. apply both_then; [apply both_bare; [|done]; intros B; apply both_on; [|done]; intros st Q; apply (k_world P K); [done|]; by apply prune_keeps_ok, (k_ok P K)|].
  clear B2 t. intros t B. apply both_bare; [|done]. clear B. intros B. apply both_guarded; [by intros st st' Q [= <-]|]. apply both_guarded.
  - intros st st' Q. unfold campaign_phase. destruct (build_campaigns_from_pulses _ _ _ _ _ _) as [[x n]|] eqn:E; [|done]. cbn [res_bind fst]. intros [= <-]. pose proof (build_keeps_ok _ _ _ _ _ _ _ _ (k_ok P K st Q) E) as X.
    by apply (k_world P K).
  - apply both_fold; [|done]. clear t B. intros t c B. apply both_guarded; [|done]. intros st st' Q. unfold actor_phase. destruct (find_actor_sector_correlation _ _ _ _ _ _) as [[|a l]|]; [by intros [= <-]| |done].
    cbn [res_bind]. intros [= <-]. apply (k_world P K); [done|]. by apply actor_world, (k_ok P K).
Qed.

Definition unguarded (p : phase) : bool :=
  match p with Pruning | RecentIds | PrecomputeCommit | PrecomputeIds | ClearCache | FinalCommit => true | _ => false end.

Lemma night_raises clk ids fails t e : snd (run_nightly_correlation env digest json_loads json_dumps py_str set_order doc dumps clk ids fails t) = Some e ->
  exists p, unguarded p = true /\ fails p = Some e.
Proof.
  unfold run_nightly_correlation, precompute_phase, and_then, bare. cbv zeta.
  destruct (fails Pruning) eqn:E1; cbn [fst snd]; [intros [= ->]; by exists Pruning|]. destruct (fails RecentIds) eqn:E2; cbn [fst snd]; [intros [= ->]; by exists RecentIds|].
  destruct (get_correlation_precompute_enabled env); cbn [fst snd]; [destruct (fails PrecomputeCommit) eqn:E3; cbn [fst snd]; [intros [= ->]; by exists PrecomputeCommit|]; destruct (fails PrecomputeIds) eqn:E4; cbn [fst snd]; [intros [= ->]; by exists PrecomputeIds|]|];
    (destruct (fails ClearCache) eqn:E5; cbn [fst snd]; [intros [= ->]; by exists ClearCache|]; destruct (fails FinalCommit) eqn:E6; cbn [fst snd]; [intros [= ->]; by exists FinalCommit|done]).
Qed.

(** What a property of the rows says of the night's end: the answers are deleted from such rows and committed, or the night
    raised and they are not. *)
Lemma night_ends P clk ids fails st : kept P -> P st -> let '(after, raised) := job clk ids fails st in
  match raised with None => exists before, P before /\ after = clear_answers doc before | Some _ => P after end.
Proof.
  intros K Q. unfold nightly_job, run_nightly_correlation. cbv zeta. pose proof (phases_both P clk fails (mkConn doc st st) K (conj Q Q)) as B. revert B.
  generalize (guarded doc (fails Spikes) (temporal_phase json_loads py_str doc (now clk)) (degree_phase doc fails (mkConn doc st st))). intros t.
  unfold and_then, bare. destruct (fails Pruning); cbn [fst snd]; [by intros [D _]|]. destruct (fails RecentIds); cbn [fst snd]; [by intros [D _]|]. intros B.
  apply (precompute_both P clk fails ids _ (k_snapshots P K)) in B. revert B. destruct (precompute_phase _ _ _ _ _ _ _ _ _ _ _) as [t3 [x|]]; cbn [fst snd]; [by intros [D _]|]. intros [D W].
  destruct (fails ClearCache); cbn [fst snd]; [done|]. destruct (fails FinalCommit); cbn [fst snd]; [done|]. by exists (working t3).
Qed.

Lemma sound_kept : kept (fun st => store_ok (world_of st)).
Proof. by split. Qed.
Lemma cached_kept c : kept (fun st => store_ok (world_of st) /\ feed_cache doc st = c).
Proof. split; [by intros st f [O <-] N; split|by intros st [O _]|by intros st l [O <-]; split|by intros st l [O <-]; split]. Qed.

(** One night: when it runs, the CVEs to precompute, what raises. *)
Record night := mkNight { at_ : clock; precompute_ids : list string; fails : failure }.
Definition job_of (n : night) (st : store) : store * option exn := job (at_ n) (precompute_ids n) (fails n) st.

(** C32 [nights_keep_campaigns_sound]: over any number of nights, whichever of their phases raise, a campaign has one row, a member
    stands once, and every member row belongs to a campaign. A night that returns leaves no cached answer. A night ends with an
    exception only when the pruning, the query of the recent CVEs, the start of the snapshots, the deletion of the cached answers
    or the last commit raises it, and then every cached answer is still there. *)
Theorem nights_keep_campaigns_sound nights st : store_ok (world_of st) ->
  let st' := fold_left (fun s n => fst (job_of n s)) nights st in
  store_ok (world_of st') /\ forall n after raised, job_of n st' = (after, raised) ->
    match raised with
    | None => forall e c sector, In e (feed_cache doc after) -> e_key doc e <> cache_key c sector
    | Some x => feed_cache doc after = feed_cache doc st' /\ exists p, unguarded p = true /\ fails n p = Some x
    end.
Proof.
  cbv zeta. intros O. set (st' := fold_left _ nights st). assert (O' : store_ok (world_of st')).
  { revert st O st'. induction nights as [|n nights IH]; intros st O st'; [done|]. apply IH. pose proof (night_ends _ (at_ n) (precompute_ids n) (fails n) st sound_kept O) as X.
    unfold job_of. destruct (job _ _ _ st) as [after [x|]]; [done|]. by destruct X as (before & B & ->). }
  split; [done|]. intros n after raised J. pose proof (night_ends _ (at_ n) (precompute_ids n) (fails n) st' (cached_kept (feed_cache doc st')) (conj O' eq_refl)) as X.
  unfold job_of in J. rewrite J in X. destruct raised as [x|].
  - split; [apply X|]. revert J. unfold nightly_job. destruct (run_nightly_correlation _ _ _ _ _ _ _ _ _ _ _ _) as [t [y|]] eqn:R; intros [= _ <-].
    eapply (night_raises (at_ n) (precompute_ids n) (fails n) (mkConn doc st' st') y). by rewrite R.
  - destruct X as (before & _ & ->). intros e c sector [[I D]%filter_In _]%filter_In Q. cbn [e_key] in *. rewrite Q in D. unfold cache_key in D. by rewrite like_prefix in D.
Qed.

(** Finding [late_failure_undoes_the_night]: no phase commits between the degrees and the snapshots, and the handler of a
    failing phase rolls back: when the metrics raise, the spikes, the actors and the
    campaigns of the night are undone with them. *)
Theorem late_failure_undoes_the_night clk ids fails st e : fails Degrees = None -> fails Metrics = Some e ->
  src doc (fst (job clk ids fails st)) = src doc (on_world doc rebuild_ioc_degree st).
Proof.
  intros D M. set (target := src doc (on_world doc rebuild_ioc_degree st)).
  unfold nightly_job, run_nightly_correlation. cbv zeta. set (t0 := guarded doc (fails Spikes) (temporal_phase json_loads py_str doc (now clk)) _). assert (T0 : src doc (durable t0) = target) by (unfold t0; rewrite guarded_durable; unfold degree_phase; by rewrite D).
  clearbody t0. unfold and_then, bare. destruct (fails Pruning); cbn [fst snd]; [exact T0|]. destruct (fails RecentIds); cbn [fst snd]; [exact T0|].
  set (t1 := guarded doc (fails Metrics) Ok _). assert (T1 : src doc (durable t1) = target /\ src doc (working t1) = target).
  { unfold t1. rewrite M, guarded_fails. cbn [Nightly.durable Nightly.working]. rewrite guarded_durable, actors_durable. split; exact T0. }
  clearbody t1. clear T0 t0.
  pose proof (precompute_both (fun st => src doc st = target) clk fails ids t1 (fun _ _ E => E) T1) as T2.
  destruct (precompute_phase _ _ _ _ _ _ _ _ _ _ t1) as [t2 [x|]]; cbn [fst snd] in *; [apply T2|].
  destruct (fails ClearCache); cbn [fst snd]; [apply T2|]. destruct (fails FinalCommit); cbn [fst snd]; apply T2.
Qed.

(** Finding [stale_actors_remain]: a CVE for which no actor is found keeps the rows of earlier nights. *)
Lemma stale_actors_remain st c : find_actor_sector_correlation env json_loads (actors (src doc st)) (cve_pulses (world_of st)) c "" = Ok [] ->
  actor_phase env json_loads doc c st = Ok st.
Proof. unfold actor_phase. by intros ->. Qed.
End nights.

(** ** Concrete nights *)

Definition nothing_fails : failure := fun _ => None.
Definition only (p : phase) : failure := fun q => match p, q with Metrics, Metrics | Pruning, Pruning => Some ValueError | _, _ => None end.
Abbreviation a_night := (fun fails => nightly_job no_env dig no_docs no_text text any_order answer (fun a => a) at_noon [] fails).
Definition asked_before : store answer := snd (asked no_env fresh "CVE-2026-1").

Lemma hub_cap_counts_cves_witness : exists all, ranked_peers no_env dig no_docs any_order (graph_of (rebuild_ioc_degree base)) "CVE-2026-1" "2026-07-19 00:00:00" july_20 = Ok all /\
  In "CVE-2026-2" (map p_cve all) /\ ioc_degree (rebuild_ioc_degree base) = [("DOMAIN", "evil.example", 2)].
Proof.
  destruct (is_ok_spec (ranked_peers no_env dig no_docs any_order (graph_of (rebuild_ioc_degree base)) "CVE-2026-1" "2026-07-19 00:00:00" july_20)) as [all E]; [vm_compute; reflexivity|]. exists all. split; [exact E|]. split; [|vm_compute; reflexivity].
  destruct (hub_cap_counts_cves no_env dig no_docs any_order base "CVE-2026-1" "2026-07-19 00:00:00" july_20 all E) as (cap & C & S). apply S. vm_compute in C. injection C as <-.
  split; [discriminate|]. split; [right; left; reflexivity|]. exists (an_ioc "p1" "DOMAIN" "evil.example"), (an_ioc "p1" "DOMAIN" "evil.example").
  split; [left; reflexivity|]. split; [left; reflexivity|]. split; [reflexivity|]. split; [reflexivity|]. split; [reflexivity|]. vm_compute. discriminate.
Defined.

(** A night builds the campaign of the two CVEs and drops the cached answer; the next, whose pruning raises, leaves everything. *)
Lemma nights_keep_campaigns_sound_witness :
  let st1 := fst (a_night nothing_fails asked_before) in
  length (feed_cache answer asked_before) = 1%nat /\ length (campaigns (w (src answer st1))) = 1%nat /\ store_ok (w (src answer st1)) /\
  (forall e c s, In e (feed_cache answer st1) -> e_key answer e <> cache_key c s) /\
  snd (a_night (only Pruning) asked_before) = Some ValueError /\ feed_cache answer (fst (a_night (only Pruning) asked_before)) = feed_cache answer asked_before.
Proof.
  intros st1. split; [vm_compute; reflexivity|]. split; [vm_compute; reflexivity|].
  pose proof (nights_keep_campaigns_sound no_env dig no_docs no_text text any_order answer (fun a => a)) as T.
  split; [exact (proj1 (T [mkNight at_noon [] nothing_fails] asked_before base_ok))|]. destruct (T [] asked_before base_ok) as [_ C]. split.
  - refine (C (mkNight at_noon [] nothing_fails) st1 None _). vm_compute. reflexivity.
  - assert (R : snd (a_night (only Pruning) asked_before) = Some ValueError) by (vm_compute; reflexivity). split; [exact R|].
    refine (proj1 (C (mkNight at_noon [] (only Pruning)) _ (Some ValueError) _)). rewrite <-R. apply surjective_pairing.
Defined.

Lemma late_failure_undoes_the_night_witness : length (campaigns (w (src answer (fst (a_night nothing_fails fresh))))) = 1%nat /\
  src answer (fst (a_night (only Metrics) fresh)) = src answer (on_world answer rebuild_ioc_degree fresh) /\ campaigns (w (src answer (fst (a_night (only Metrics) fresh)))) = [].
Proof.
  split; [vm_compute; reflexivity|]. split; [|vm_compute; reflexivity]. exact (late_failure_undoes_the_night no_env dig no_docs no_text text any_order answer (fun a => a) at_noon [] (only Metrics) fresh ValueError eq_refl eq_refl).
Defined.
