(* ===== verification/NvdParse.v ===== *)
(** * NvdParse: feeds/nvd.py (an item of the NVD answer), enrichment/cve.py, feeds/ai_context.py

    What is read of an item of the NVD feed: description, score, products, version ranges,
    weaknesses and references, the hints of a public exploit in a reference, the ATT&CK
    technique of a URL and the words that mark a CVE of AI software.  The answer is given
    by records of the fields read, [None] where a key is missing; [set_order] is the order
    in which Python iterates a set.  The regular expressions are written out. *)

From S2P Require Import Prelude PyStr PyNet Float64 CveRow Campaigns.
Open Scope string_scope.
Open Scope Z_scope.

(** ** enrichment/cve.py *)

Definition EXPLOIT_REFERENCE_TAGS : list string := ["exploit"; "exploit code"; "proof of concept"; "poc"].
Definition EXPLOIT_URL_HINTS : list string := ["exploit-db.com"; "exploitdb.com"; "packetstormsecurity.com"; "metasploit.com"; "0day.today"].
Definition _POC_HOSTS : list string := ["github.com"; "www.github.com"; "gitlab.com"; "www.gitlab.com"; "raw.githubusercontent.com"].

(** The texts two lists of separators make around or inside words. *)
Definition around (before : list string) (word : string) (after : list string) : list string := flat_map (fun a => map (fun b => a +:+ word +:+ b) after) before.

(** The alternatives of [POC_URL_RE], each at any place; the [$] also stands before a last newline. *)
Definition POC_WORDS : list string :=
  ["poc.zip"] ++ around (map (fun x => "proof" +:+ x) [""; "-"; "_"]) "of" (map (fun x => x +:+ "concept") [""; "-"; "_"]) ++
  around ["/"; "_"; "."; "-"] "poc" ["/"; "_"; "."; "-"] ++ [".poc."] ++ around ["-"; "_"] "poc" ["-"; "_"; "."].
Definition POC_URL_RE_search (s : string) : bool := existsb (fun w => str_in w s) POC_WORDS || endswith s "/poc" || endswith s ("/poc" +:+ String "010" "").

Definition _host_matches (host : option string) (expected : string) : bool :=
  match host with
  | Some h => nonempty h && (String.eqb (lower h) expected || endswith (lower h) ("." +:+ expected))
  | None => false
  end.

Definition url_looks_like_poc (u : string) : bool :=
  nonempty u &&
  let low := lower u in
  (existsb (fun hint => str_in hint low) EXPLOIT_URL_HINTS || POC_URL_RE_search low ||
   match urlparse u with
   | Ok p => existsb (_host_matches (hostname p)) _POC_HOSTS && (str_in "poc" low || str_in "exploit" low)
   | Raise _ => false
   end).

Definition has_public_poc_from_urls (urls : list string) : bool := existsb (fun u => nonempty u && url_looks_like_poc u) urls.

Record reference := mkReference { ref_url : option string; tags : list string }.
(** [ref.get("url", "")] *)
Definition url_of (r : reference) : string := match ref_url r with Some u => u | None => "" end.

Definition has_public_poc (references : list reference) : bool :=
  existsb (fun r => existsb (fun t => one_in EXPLOIT_REFERENCE_TAGS (lower t)) (tags r) || url_looks_like_poc (url_of r)) references.

(** The first n characters, where they are digits. *)
Definition take_digits (n : nat) (s : string) : option string :=
  let d := stake n s in if (String.length d =? n)%nat && sforall is_digit d then Some d else None.

(** [MITRE_TECHNIQUE_RE] at this place of a text. *)
Definition technique_here (s : string) : option string :=
  let head := "attack.mitre.org/techniques/t" in
  if startswith (lower s) head then
    let rest := sdrop (String.length head) s in
    match take_digits 4 rest with
    | None => None
    | Some d =>
        match sdrop 4 rest with
        | String "/" t => match take_digits 3 t with Some sub => Some ("T" +:+ d +:+ "." +:+ sub) | None => Some ("T" +:+ d) end
        | _ => Some ("T" +:+ d)
        end
    end
  else None.
Fixpoint find_technique (s : string) : option string :=
  match technique_here s with Some t => Some t | None => match s with "" => None | String _ t => find_technique t end end.

(** The first reference that has one. *)
Definition extract_mitre_technique (references : list reference) : option string :=
  match omap (fun r => find_technique (url_of r)) references with t :: _ => Some t | [] => None end.
Definition extract_mitre_from_urls (urls : list string) : option string :=
  extract_mitre_technique (map (fun u => mkReference (Some u) []) (List.filter nonempty urls)).

(** *** Summaries cut out of descriptions *)

(** [s.split()] *)
Fixpoint words_from (cur s : string) : list string :=
  match s with
  | "" => if nonempty cur then [srev cur] else []
  | String c t => if is_space c then (if nonempty cur then srev cur :: words_from "" t else words_from "" t) else words_from (String c cur) t
  end.
(** [re.split(r"(?<=[.!?])\s+", text)\[0\]] *)
Definition ends_sentence (c : ascii) : bool := Ascii.eqb c "." || Ascii.eqb c "!" || Ascii.eqb c "?".
Fixpoint first_sentence (ended : bool) (s : string) : string :=
  match s with "" => "" | String c t => if ended && is_space c then "" else String c (first_sentence (ends_sentence c) t) end.
(** [s.rsplit(" ", 1)\[0\]] *)
Fixpoint after_space (s : string) : option string := match s with "" => None | String c t => if Ascii.eqb c " " then Some t else after_space t end.
Definition before_last_space (s : string) : string := match after_space (srev s) with Some r => srev r | None => s end.

Definition simplify_description (description : string) (max_len : nat) : option string :=
  if negb (nonempty (strip description)) then None
  else
    let summary := first_sentence false (sjoin " " (words_from "" description)) in
    Some (if (max_len <? String.length summary)%nat
          then let cut := before_last_space (stake max_len summary) in if nonempty cut then cut +:+ "…" else stake max_len summary
          else summary).

Definition build_plain_summary (description : string) (kev_short osv_summary : option string) : option string :=
  let given o := match o with Some s => nonempty (strip s) | None => false end in
  if given kev_short then option_map strip kev_short else if given osv_summary then option_map strip osv_summary else simplify_description description 240.

(** Whether a summary is only what the description's first sentence gives. *)
Definition is_auto_generated_summary (summary description : option string) : bool :=
  match summary with
  | Some s => nonempty (strip s) &&
      match simplify_description (match description with Some d => d | None => "" end) 240 with Some auto => nonempty auto && String.eqb (strip s) (strip auto) | None => false end
  | None => false
  end.

(** ** feeds/ai_context.py *)

Definition AI_ML_KEYWORDS : list string :=
  ["tensorflow"; "pytorch"; "torch"; "langchain"; "openai"; "huggingface"; "transformers"; "scikit-learn"; "sklearn"; "onnx"; "keras"; "jax";
   "anthropic"; "llama"; "mistral"; "ollama"; "stable-diffusion"; "diffusers"; "spacy"; "nltk"; "gensim"].

Definition is_word (c : ascii) : bool := is_alnum c || Ascii.eqb c "_".
Definition starts_word (s : string) : bool := match s with String c _ => is_word c | "" => false end.

(** [\bkw\b] for a word that begins and ends with word characters; [after] says whether a word character comes before. *)
Fixpoint word_in (kw : string) (after : bool) (s : string) : bool :=
  (negb after && startswith s kw && negb (starts_word (sdrop (String.length kw) s))) ||
  match s with "" => false | String c t => word_in kw (is_word c) t end.

Definition _haystack_text (description : string) (products : list string) : string := lower (sjoin " " (description :: products)).
Definition matched_ai_keywords (description : string) (products : list string) : list string :=
  List.filter (fun kw => word_in kw false (_haystack_text description products)) AI_ML_KEYWORDS.
(** The first of the pair that [analyze_cve_ai_context] returns. *)
Definition has_ai_context_of (description : string) (products : list string) : bool := nonempty_list (matched_ai_keywords description products).

(** ** feeds/nvd.py *)

Record text_in := mkText { lang : option string; value : option string }.
Record cvss_data := mkCvss { base_score : option fl; base_severity : option string }.
Record cpe_criterion := mkCriterion { criteria : option string; v_si : option string; v_se : option string; v_ei : option string; v_ee : option string }.
Record nvd_cve := mkNvd {
  vuln_status : option string; nvd_id : option string; descriptions : list text_in; cvss_v31 : list cvss_data; cvss_v30 : list cvss_data;
  configurations : list (list (list cpe_criterion)); weaknesses : list (list (option string)); references : list reference;
  nvd_published : option string; last_modified : option string }.

Record cpe_match := mkMatch {
  vendor : string; product : string; version : option string; version_start_including : option string; version_start_excluding : option string;
  version_end_including : option string; version_end_excluding : option string }.

(** What the store is given. *)
Record item := mkItem {
  i_cve_id : string; i_description : string; i_cvss_score : option fl; i_severity : string; i_published : string; i_modified : string;
  i_affected_products : list string; i_cpe_matches : list cpe_match; i_mitre_technique : option string; i_summary : option string;
  i_is_kev : bool; i_epss_score : option fl; i_has_poc : bool; i_patch_available : bool; i_source_urls : list string; i_cwe_ids : list string }.

Definition or_empty (o : option string) : string := match o with Some s => s | None => "" end.

Definition _extract_english_description (l : list text_in) : string :=
  match List.find (fun d => match lang d with Some "en" => true | _ => false end) l with
  | Some d => or_empty (value d)
  | None => match l with d :: _ => or_empty (value d) | [] => "" end
  end.

Definition _extract_cvss_v3 (v31 v30 : list cvss_data) : option fl * string :=
  match v31, v30 with
  | d :: _, _ | [], d :: _ => (base_score d, upper (match base_severity d with Some s => s | None => "UNKNOWN" end))
  | [], [] => (None, "UNKNOWN")
  end.

Definition all_matches (configurations : list (list (list cpe_criterion))) : list cpe_criterion := concat (concat configurations).
(** [parts\[n\]] of the criteria *)
Definition parts_of (m : cpe_criterion) : list string := split_on ":" (or_empty (criteria m)).
Definition part (n : nat) (l : list string) : string := nth n l "".

Definition product_of (m : cpe_criterion) : option string :=
  let p := parts_of m in
  if (5 <=? length p)%nat && nonempty (part 3 p) && nonempty (part 4 p) && negb (String.eqb (part 3 p) "*") && negb (String.eqb (part 4 p) "*")
  then Some (part 3 p +:+ ":" +:+ part 4 p) else None.

Definition match_of (m : cpe_criterion) : option cpe_match :=
  let p := parts_of m in
  if (5 <=? length p)%nat && nonempty (part 3 p) && nonempty (part 4 p) && negb (one_in ["*"; "-"] (part 3 p)) && negb (one_in ["*"; "-"] (part 4 p))
  then Some (mkMatch (part 3 p) (part 4 p) (nth_error p 5) (v_si m) (v_se m) (v_ei m) (v_ee m)) else None.

#[export] Instance cpe_match_eq_dec : EqDecision cpe_match.
Proof. solve_decision. Defined.

(** The matches, each once, in their order. *)
Definition add_match (seen : list cpe_match) (m : cpe_match) : list cpe_match := if decide (m ∈ seen) then seen else (seen ++ [m])%list.
Definition _extract_cpe_matches (configurations : list (list (list cpe_criterion))) : list cpe_match :=
  fold_left add_match (omap match_of (all_matches configurations)) [].

Definition _extract_reference_urls (l : list reference) : list string := firstn 20 (List.filter nonempty (map url_of l)).
Definition _has_patch (l : list reference) : bool := existsb (fun r => existsb (one_in ["Patch"; "Vendor Advisory"; "Mitigation"]) (tags r)) l.
Definition _is_nvd_cve_rejected (c : nvd_cve) : bool := match vuln_status c with Some s => String.eqb (upper (strip s)) "REJECTED" | None => false end.

(** [None] for an item that is not rejected or has no id. *)
Definition _nvd_rejected_cve_id (c : nvd_cve) : option string :=
  if _is_nvd_cve_rejected c then match nvd_id c with Some i => if nonempty (strip i) then Some (upper (strip i)) else None | None => None end else None.

Section parse.
Variable set_order : gset string -> list string.

Definition _extract_affected_products (configurations : list (list (list cpe_criterion))) : list string :=
  set_order (list_to_set (omap product_of (all_matches configurations))).
Definition _extract_cwe_ids (weaknesses : list (list (option string))) : list string :=
  set_order (list_to_set (List.filter (fun v => startswith v "CWE-") (map or_empty (concat weaknesses)))).

Definition _parse_cve_item (c : nvd_cve) : option item :=
  if _is_nvd_cve_rejected c then None
  else
    let '(score, severity) := _extract_cvss_v3 (cvss_v31 c) (cvss_v30 c) in
    Some (mkItem (or_empty (nvd_id c)) (_extract_english_description (descriptions c)) score severity (or_empty (nvd_published c)) (or_empty (last_modified c))
      (_extract_affected_products (configurations c)) (_extract_cpe_matches (configurations c)) (extract_mitre_technique (references c)) None false None
      (has_public_poc (references c)) (_has_patch (references c)) (_extract_reference_urls (references c)) (_extract_cwe_ids (weaknesses c))).
End parse.

(** ** What is read *)

Section facts.
Variable set_order : gset string -> list string.
Hypothesis set_order_perm : forall x, Permutation (set_order x) (elements x).

Lemma in_set l x : In x (set_order (list_to_set l)) <-> In x l.
Proof. rewrite set_order_perm, <-!list_elem_of_In, elem_of_elements. apply elem_of_list_to_set. Qed.

Lemma add_matches l : forall seen, (NoDup seen -> NoDup (fold_left add_match l seen)) /\ forall m, In m (fold_left add_match l seen) <-> In m seen \/ In m l.
Proof.
  induction l as [|x l IH]; intros seen; cbn [fold_left]; [split; [done|]; cbn; tauto|]. destruct (IH (add_match seen x)) as [N K]. unfold add_match in *. destruct (decide (x ∈ seen)) as [I|I].
  - split; [done|]. intros m. rewrite K. cbn [In]. split; [tauto|]. intros [?|[<-|?]]; [by left|left; by apply list_elem_of_In|by right].
  - split.
    + intros ND. apply N, NoDup_app. split; [done|]. split; [|apply NoDup_singleton]. intros y J ->%list_elem_of_singleton. done.
    + intros m. rewrite K, in_app_iff. cbn [In]. tauto.
Qed.

Lemma match_has_product m c : match_of m = Some c -> product_of m = Some (vendor c +:+ ":" +:+ product c).
Proof.
  unfold match_of, product_of. cbn [one_in existsb]. destruct (5 <=? length (parts_of m))%nat; [|done]. cbn [andb]. destruct (nonempty (part 3 (parts_of m))), (nonempty (part 4 (parts_of m))); try done. cbn [andb].
  rewrite !orb_false_r, !negb_orb. destruct (String.eqb (part 3 (parts_of m)) "*"), (String.eqb (part 4 (parts_of m)) "*"); rewrite ?andb_false_r; try done. cbn [negb andb].
  destruct (negb _ && negb _); [|done]. by intros [= <-].
Qed.

(** [ranges_belong_to_products]: the version ranges of a CVE are listed once each, and each is of a product that the CVE
    is listed under. *)
Theorem ranges_belong_to_products c i : _parse_cve_item set_order c = Some i ->
  NoDup (i_cpe_matches i) /\ (forall m, In m (i_cpe_matches i) -> In (vendor m +:+ ":" +:+ product m) (i_affected_products i)) /\
  (forall m, In m (i_cpe_matches i) <-> exists x, In x (all_matches (configurations c)) /\ match_of x = Some m).
Proof.
  unfold _parse_cve_item. destruct (_is_nvd_cve_rejected c); [done|]. destruct (_extract_cvss_v3 _ _) as [score severity]. intros [= <-]. cbn [i_cpe_matches i_affected_products].
  destruct (add_matches (omap match_of (all_matches (configurations c))) []) as [N K]. unfold _extract_cpe_matches, _extract_affected_products.
  assert (E : forall m, In m (fold_left add_match (omap match_of (all_matches (configurations c))) []) <-> exists x, In x (all_matches (configurations c)) /\ match_of x = Some m).
  { intros m. rewrite K, <-(list_elem_of_In (omap _ _)), list_elem_of_omap. setoid_rewrite list_elem_of_In. cbn [In]. tauto. }
  split; [apply N; constructor|]. split; [|exact E]. intros m (x & I & M)%E. apply in_set, list_elem_of_In, list_elem_of_omap. exists x. split; [by apply list_elem_of_In|]. by apply match_has_product.
Qed.

(** A URL that is kept marks the public exploit already when the item is read. *)
Lemma kept_urls_are_known c i : _parse_cve_item set_order c = Some i -> has_public_poc_from_urls (i_source_urls i) = true -> i_has_poc i = true.
Proof.
  unfold _parse_cve_item. destruct (_is_nvd_cve_rejected c); [done|]. destruct (_extract_cvss_v3 _ _) as [score severity]. intros [= <-]. cbn [i_source_urls i_has_poc].
  unfold has_public_poc_from_urls, has_public_poc. intros (u & I & [_ P]%andb_true_iff)%existsb_exists. apply in_firstn_in, filter_In in I as [I _]. apply in_map_iff in I as (r & <- & I).
  apply existsb_exists. exists r. split; [done|]. by rewrite P, orb_true_r.
Qed.
End facts.

(** An item is either skipped as rejected or read. *)
Lemma rejected_or_read set_order c : (exists i, _parse_cve_item set_order c = Some i) <-> _is_nvd_cve_rejected c = false.
Proof. unfold _parse_cve_item. destruct (_is_nvd_cve_rejected c); [by split; [intros (i & ?)|]|]. destruct (_extract_cvss_v3 _ _). by split; [|eexists]. Qed.

(** Finding [escaped_colon_splits_product]: the names of CPE 2.3 escape a colon; the criteria are split there all the same, so
    the vendor and the product of such a name are cut off. *)
Definition perl_module : cpe_criterion := mkCriterion (Some "cpe:2.3:a:http\:\:body_project:http\:\:body:1.07:*:*:*:*:perl:*:*") None None None None.
Lemma escaped_colon_splits_product : product_of perl_module = Some "http\:\".
Proof. reflexivity. Qed.

Definition nginx_item : nvd_cve := mkNvd (Some "Analyzed") (Some "CVE-2026-0001") [mkText (Some "en") (Some "A flaw in nginx.")] [mkCvss (Some (Fin (QArith_base.inject_Z 9))) (Some "critical")] []
  [[[mkCriterion (Some "cpe:2.3:a:f5:nginx:*:*") None None None (Some "1.20"); mkCriterion (Some "cpe:2.3:a:f5:nginx:*:*") None None None (Some "1.20"); mkCriterion (Some "cpe:2.3:a:f5:*:*") None None None None]]]
  [[Some "CWE-79"; Some "NVD-CWE-Other"]] [mkReference (Some "https://github.com/x/exploit") ["Patch"]; mkReference None []] (Some "2026-07-01T00:00:00.000") (Some "2026-07-02T00:00:00.000").

Lemma ranges_belong_to_products_witness : exists i, _parse_cve_item elements nginx_item = Some i /\ length (i_cpe_matches i) = 1%nat /\ i_has_poc i = true /\
  forall m, In m (i_cpe_matches i) -> In (vendor m +:+ ":" +:+ product m) (i_affected_products i).
Proof.
  destruct (_parse_cve_item elements nginx_item) as [i|] eqn:E; [|discriminate E]. exists i. split; [reflexivity|].
  assert (option_map (fun i => (length (i_cpe_matches i), i_has_poc i)) (_parse_cve_item elements nginx_item) = Some (1%nat, true)) as X by (vm_compute; reflexivity). rewrite E in X. injection X as X1 X2.
  split; [exact X1|]. split; [exact X2|]. exact (proj1 (proj2 (ranges_belong_to_products elements (fun x => Permutation_refl _) nginx_item i E))).
Defined.
