(* ===== verification/CveRecord.v ===== *)
(** * CveRecord: feeds/cve_record_v5.py

    A record of CVE JSON 5 as cvelistV5 and CISA's vulnrichment publish it, read field by
    field with the type tests of the code, and the merge of what it says into a stored row.
    [py_str] is [str] of a value that is not text, [json_loads] is [None] for a
    [JSONDecodeError]. *)

From stdpp Require Import sorting.
From S2P Require Import Prelude PyStr PyVal Float64 CveRow StackAssets Campaigns.
Open Scope string_scope.
Open Scope Z_scope.

Definition CISA_VULNRICHMENT_TITLE : string := "CISA ADP Vulnrichment".
Definition CVE_RECORD_STATE_REJECTED : string := "REJECTED".
Definition SEVERITY_RANK : list (string * Z) := [("CRITICAL", 5); ("HIGH", 4); ("MEDIUM", 3); ("LOW", 2); ("NONE", 1); ("UNKNOWN", 0); ("", 0)].
Definition severity_rank (s : string) : Z := match assoc s SEVERITY_RANK with Some n => n | None => 0 end.

(** [CVE_ID_RE]: four digits, then four to seven; the [$] also stands before a last newline. *)
Definition all_digits (s : string) : bool := sforall is_digit s.
Definition CVE_ID_RE_match (s : string) : bool :=
  startswith (upper s) "CVE-" &&
  let rest := sdrop 4 s in
  let year := stake 4 rest in
  (String.length year =? 4)%nat && all_digits year &&
  match sdrop 4 rest with
  | String "-" seq =>
      let d := if endswith seq (String "010" "") then stake (String.length seq - 1) seq else seq in
      (4 <=? String.length d)%nat && (String.length d <=? 7)%nat && all_digits d
  | _ => false
  end.

(** [int] of a text of digits. *)
Definition number_of (s : string) : Z := let '(v, _, _) := digits_from 0 0 s in v.

Definition cve_tree_bucket (cve_id : string) : option string :=
  let c := upper (strip cve_id) in
  if CVE_ID_RE_match c then
    match split_on "-" cve_id with
    | _ :: year :: seq :: _ => Some (year +:+ "/" +:+ str_of_Z (number_of (strip seq) / 1000) +:+ "xxx")
    | _ => None
    end
  else None.
Definition cvelistv5_repo_path (cve_id : string) : string :=
  match cve_tree_bucket cve_id with Some b => "cves/" +:+ b +:+ "/" +:+ upper (strip cve_id) +:+ ".json" | None => "" end.
Definition vulnrichment_repo_path (cve_id : string) : string :=
  match cve_tree_bucket cve_id with Some b => b +:+ "/" +:+ upper (strip cve_id) +:+ ".json" | None => "" end.
Definition cve_id_from_repo_path (path : string) : option string :=
  let name := last (split_on "/" path) in
  match name with
  | Some n => if endswith (lower n) ".json" then let c := upper (stake (String.length n - 5) n) in if CVE_ID_RE_match c then Some c else None else None
  | None => None
  end.

Definition as_dict (v : pyval) : option (list (string * pyval)) := match v with PDict d => Some d | _ => None end.
Definition as_list (v : pyval) : list pyval := match v with PList l => l | _ => [] end.
Definition dicts (v : pyval) : list (list (string * pyval)) := omap as_dict (as_list v).

Record ssvc := mkSsvc { decisions : list (string * string); ssvc_version : string; role : string }.
(** What a record says; dates are kept as they come. *)
Record enrichment := mkEnrichment {
  n_cve_id : string; n_description : string; n_cvss_score : option fl; n_severity : string; n_published : pyval; n_modified : pyval;
  n_affected_products : list string; n_cwe_ids : list string; n_ssvc : option ssvc }.

(** The first text that is not blank, of those an item's [value] gives. *)
Definition stripped_value (d : list (string * pyval)) : option string :=
  match dget d "value" with PStr s => if nonempty (strip s) then Some (strip s) else None | _ => None end.
Definition first_text (l : list (option string)) : option string := match omap id l with s :: _ => Some s | [] => None end.

Definition _extract_description (container : pyval) : string :=
  match container with
  | PDict d =>
      let items := dicts (dget d "descriptions") in
      match first_text (map stripped_value (List.filter (fun i => eq_str (dget i "lang") "en") items)), first_text (map stripped_value items) with
      | Some s, _ | None, Some s => s
      | None, None => ""
      end
  | _ => ""
  end.

(** The score of one entry, if it has one that [float] takes; other exceptions than TypeError
    and ValueError pass. *)
Definition score_at (metric : list (string * pyval)) (key : string) : res (option (fl * string)) :=
  match dget metric key with
  | PDict data =>
      match dget data "baseScore" with
      | PNone => Ok None
      | score =>
          match py_float score with
          | Ok f => Ok (Some (f, match dget data "baseSeverity" with PStr s => upper s | _ => "UNKNOWN" end))
          | Raise e => if type_or_value e then Ok None else Raise e
          end
      end
  | _ => Ok None
  end.
Fixpoint first_score (l : list (list (string * pyval) * string)) : res (option fl * string) :=
  match l with
  | [] => Ok (None, "UNKNOWN")
  | (m, k) :: t => let! o := score_at m k in match o with Some (f, s) => Ok (Some f, s) | None => first_score t end
  end.
Definition _extract_cvss (metrics : pyval) : res (option fl * string) :=
  first_score (flat_map (fun m => map (pair m) ["cvssV3_1"; "cvssV3_0"; "cvssV4_0"]) (dicts metrics)).

(** The first word of a text that begins with no space. *)
Fixpoint first_word (s : string) : string := match s with "" => "" | String c t => if is_space c then "" else String c (first_word t) end.

Definition cwe_of (desc : list (string * pyval)) : option string :=
  match dget desc "cweId" with
  | PStr s => let c := upper (strip s) in if startswith c "CWE-" then Some c else None
  | _ => match dget desc "description" with
         | PStr s => let v := strip s in
             if startswith (upper v) "CWE-" then let token := upper (first_word v) in if startswith token "CWE-" then Some token else None else None
         | _ => None
         end
  end.
Definition _extract_cwes (container : pyval) : list string :=
  match container with
  | PDict d => sorted_distinct (omap cwe_of (flat_map (fun p => dicts (dget p "descriptions")) (dicts (dget d "problemTypes"))))
  | _ => []
  end.

Definition _vendor_product_key (vendor product : string) : string := lower (strip vendor) +:+ ":" +:+ lower (strip product).
Definition cpe_product (v : pyval) : option string :=
  match v with
  | PStr cpe =>
      match split_on ":" cpe with
      | _ :: _ :: _ :: vendor :: product :: _ =>
          if nonempty vendor && nonempty product && negb (one_in ["*"; "-"] vendor) && negb (one_in ["*"; "-"] product) then Some (_vendor_product_key vendor product) else None
      | _ => None
      end
  | _ => None
  end.
Definition products_of (item : list (string * pyval)) : list string :=
  ((match dget item "vendor", dget item "product" with
    | PStr v, PStr p => if nonempty (strip v) && nonempty (strip p) then [_vendor_product_key v p] else []
    | _, _ => []
    end) ++ omap cpe_product (as_list (dget item "cpes")))%list.
Definition _extract_affected_products (containers : list pyval) : list string :=
  sorted_distinct (flat_map (fun c => match c with PDict d => flat_map products_of (dicts (dget d "affected")) | _ => [] end) containers).

Definition is_cve_record_rejected (record : pyval) : option string :=
  match record with
  | PDict r =>
      match dget r "cveMetadata" with
      | PDict meta =>
          match dget meta "state", dget meta "cveId" with
          | PStr state, PStr i =>
              if String.eqb (upper (strip state)) CVE_RECORD_STATE_REJECTED && CVE_ID_RE_match (upper (strip i)) then Some (upper (strip i)) else None
          | _, _ => None
          end
      | _ => None
      end
  | _ => None
  end.

Definition _find_cisa_adp (l : list pyval) : option (list (string * pyval)) :=
  List.find (fun d => eq_str (dget d "title") CISA_VULNRICHMENT_TITLE) (omap as_dict l).

(** [(v or "").upper()] *)
Definition upper_of (v : pyval) : res string := match py_or v (PStr "") with PStr s => Ok (upper s) | _ => Raise AttributeError end.
(** [iter(v or \[\])] *)
Definition items_of (v : pyval) : res (list pyval) := if truthy v then iter_of v else Ok [].

Section records.
Variable py_str : pyval -> string.
Variable json_loads : string -> option pyval.

(** [str(v or "")] *)
Definition text_or_blank (v : pyval) : string := if truthy v then to_str py_str v else "".

Definition add_decision (d : list (string * string)) (kv : string * pyval) : list (string * string) :=
  match snd kv with PStr s => if nonempty (strip s) then dset d (fst kv) (strip s) else d | _ => d end.

(** The decisions of one metric. *)
Definition ssvc_at (metric : list (string * pyval)) : res (option ssvc) :=
  match dget metric "other" with
  | PDict other =>
      if negb (String.eqb (lower (text_or_blank (dget other "type"))) "ssvc") then Ok None
      else
        match dget other "content" with
        | PDict content =>
            let! options := items_of (dget content "options") in
            let chosen := fold_left add_decision (concat (omap as_dict options)) [] in
            let chosen := add_decision chosen ("computed", dget content "computed") in
            match chosen with
            | [] => Ok None
            | _ => Ok (Some (mkSsvc chosen (strip (text_or_blank (dget content "version"))) (strip (text_or_blank (dget content "role")))))
            end
        | _ => Ok None
        end
  | _ => Ok None
  end.
Fixpoint first_ssvc (l : list (list (string * pyval))) : res (option ssvc) :=
  match l with [] => Ok None | m :: t => let! o := ssvc_at m in match o with Some s => Ok (Some s) | None => first_ssvc t end end.
Definition _extract_ssvc (metrics : pyval) : res (option ssvc) := first_ssvc (dicts metrics).

(** The metadata and the identifier of a record that is not rejected. *)
Definition head_of (record : pyval) : res (option (list (string * pyval) * list (string * pyval) * string)) :=
  match record with
  | PDict r =>
      match dget r "cveMetadata" with
      | PDict meta =>
          let! cve_id := upper_of (dget meta "cveId") in
          if negb (CVE_ID_RE_match cve_id) then Ok None
          else match is_cve_record_rejected record, dget r "containers" with
               | None, PDict containers => Ok (Some (meta, containers, cve_id))
               | _, _ => Ok None
               end
      | _ => Ok None
      end
  | _ => Ok None
  end.

Definition dict_or_none (o : option (list (string * pyval))) : pyval := match o with Some d => PDict d | None => PNone end.
Definition metrics_of (o : option (list (string * pyval))) : pyval := match o with Some d => dget d "metrics" | None => PNone end.

Definition parse_vulnrichment_record (record : pyval) : res (option enrichment) :=
  let! h := head_of record in
  match h with
  | None => Ok None
  | Some (meta, containers, cve_id) =>
      let! adp := items_of (dget containers "adp") in
      match _find_cisa_adp adp with
      | None => Ok None
      | Some cisa =>
          if negb (nonempty_list cisa) then Ok None
          else
            let! s := _extract_cvss (dget cisa "metrics") in
            let '(score, severity) := s in
            let cwes := _extract_cwes (PDict cisa) in
            let products := _extract_affected_products [PDict cisa] in
            let! vc := _extract_ssvc (dget cisa "metrics") in
            if negb (is_some score) && negb (nonempty_list cwes) && negb (nonempty_list products) && negb (is_some vc) then Ok None
            else Ok (Some (mkEnrichment cve_id "" score (if is_some score then severity else "UNKNOWN") (py_or (dget meta "datePublished") (PStr "")) (py_or (dget meta "dateUpdated") (PStr ""))
                             products cwes vc))
      end
  end.

Definition parse_cvelistv5_record (record : pyval) : res (option enrichment) :=
  let! h := head_of record in
  match h with
  | None => Ok None
  | Some (meta, containers, cve_id) =>
      let cna := match dget containers "cna" with PDict d => d | _ => [] end in
      let cisa := _find_cisa_adp (as_list (dget containers "adp")) in
      let text := _extract_description (PDict cna) in
      let description := if nonempty text then text else _extract_description (dict_or_none cisa) in
      let! s := _extract_cvss (dget cna "metrics") in
      let! s := (if is_some (fst s) then Ok s else _extract_cvss (metrics_of cisa)) in
      let '(score, severity) := s in
      let cwes := _extract_cwes (PDict cna) in
      let cwes := if nonempty_list cwes then cwes else _extract_cwes (dict_or_none cisa) in
      Ok (Some (mkEnrichment cve_id description score (if is_some score then severity else "UNKNOWN") (py_or (dget meta "datePublished") (PStr "")) (py_or (dget meta "dateUpdated") (PStr ""))
                  (_extract_affected_products [PDict cna; dict_or_none cisa]) cwes None))
  end.

(** ** The merge *)

(** The columns the merge reads, and the updates it asks for. *)
Record stored := mkStored {
  s_cvss_score : option fl; s_severity : option string; s_description : option string; s_published : option string; s_modified : option string;
  s_affected_products : option string; s_cwe_ids : option string }.
Record updates := mkUpdates {
  u_cvss_score : option fl; u_severity : option string; u_cwe_ids : option (list string); u_description : option string; u_affected_products : option (list string);
  u_published : option string; u_modified : option string }.
Definition no_updates (u : updates) : bool :=
  negb (is_some (u_cvss_score u) || is_some (u_severity u) || is_some (u_cwe_ids u) || is_some (u_description u) || is_some (u_affected_products u) ||
        is_some (u_published u) || is_some (u_modified u)).

(** A stored JSON list: [\[\]] where it is blank or no JSON, the elements that are true. *)
Definition stored_list (text : option string) : res (list string) :=
  match text with
  | Some s => if nonempty s then match json_loads s with Some v => let! l := iter_of v in Ok (map (to_str py_str) (List.filter truthy l)) | None => Ok [] end else Ok []
  | None => Ok []
  end.

(** The union, where it is more than what is stored. *)
Definition union_of (existing incoming : list string) : option (list string) :=
  let merged := sorted_distinct (existing ++ incoming) in
  if decide (merged = sorted_distinct existing) then None else Some merged.

Definition fill (existing : option string) (incoming : pyval) : res (option string) :=
  if nonempty (strip (text_or existing)) then Ok None
  else let! t := strip_of (py_or incoming (PStr "")) in Ok (if nonempty t then Some t else None).

Definition severity_update (existing incoming : string) : option string :=
  if String.eqb incoming "UNKNOWN" then None
  else if one_in [""; "UNKNOWN"] existing then Some incoming
  else if severity_rank existing <? severity_rank incoming then Some incoming else None.

(** [(s or "UNKNOWN").upper()] *)
Definition severity_of (s : string) : string := upper (if nonempty s then s else "UNKNOWN").

(** [merge_additive_cve_fields] or {}; a dict without keys is [None] in the code. *)
Definition merge_additive_cve_fields (existing : stored) (incoming : enrichment) : res updates :=
  let cvss := match n_cvss_score incoming, s_cvss_score existing with Some f, None => Some f | _, _ => None end in
  let severity := severity_update (severity_of (text_or (s_severity existing))) (severity_of (n_severity incoming)) in
  let! cwes := stored_list (s_cwe_ids existing) in
  let cwes := union_of (map upper cwes) (map upper (List.filter nonempty (n_cwe_ids incoming))) in
  let! description := fill (s_description existing) (PStr (n_description incoming)) in
  let! products := stored_list (s_affected_products existing) in
  let products := union_of products (List.filter nonempty (n_affected_products incoming)) in
  let! published := fill (s_published existing) (n_published incoming) in
  let! modified := fill (s_modified existing) (n_modified incoming) in
  Ok (mkUpdates cvss severity cwes description products published modified).
End records.

(** ** What is parsed *)

Lemma rejected_has_no_head record i : is_cve_record_rejected record = Some i -> head_of record = Ok None.
Proof.
  intros R. pose proof R as R'. revert R. unfold is_cve_record_rejected, head_of. destruct record as [| | | | | |r]; try done. destruct (dget r "cveMetadata") as [| | | | | |m]; try done.
  destruct (dget m "state") as [| | | |state| |]; try done. destruct (dget m "cveId") as [| | | |s| |]; try done. intros _. unfold upper_of, py_or. cbn [truthy].
  assert (X : exists t, (match (if nonempty s then PStr s else PStr "") with PStr x => Ok (upper x) | _ => Raise AttributeError end) = Ok t) by (destruct (nonempty s); eauto).
  destruct X as [t ->]. cbn [res_bind]. destruct (negb _); [done|]. by rewrite R'.
Qed.

(** A rejected record gives no enrichment, and what is parsed has an identifier of the form of one. *)
Lemma rejected_is_not_parsed py_str record i : is_cve_record_rejected record = Some i ->
  parse_vulnrichment_record py_str record = Ok None /\ parse_cvelistv5_record record = Ok None.
Proof. intros R. unfold parse_vulnrichment_record, parse_cvelistv5_record. by rewrite (rejected_has_no_head _ _ R). Qed.

Lemma head_is_a_cve record m c i : head_of record = Ok (Some (m, c, i)) -> CVE_ID_RE_match i = true.
Proof.
  unfold head_of. destruct record; try done. destruct (dget _ _); try done. destruct (upper_of _) as [x|]; [|done]. cbn [res_bind]. destruct (CVE_ID_RE_match x) eqn:E; [|done]. cbn [negb].
  destruct (is_cve_record_rejected _); [done|]. destruct (dget _ "containers"); try done. by intros [= _ _ <-].
Qed.

Lemma parsed_is_a_cve record e : parse_cvelistv5_record record = Ok (Some e) -> CVE_ID_RE_match (n_cve_id e) = true.
Proof.
  unfold parse_cvelistv5_record. destruct (head_of record) as [[[[m c] i]|]|] eqn:H; try done. cbn [res_bind]. destruct (_extract_cvss _) as [s|]; [|done]. cbn [res_bind].
  destruct (if is_some (fst s) then _ else _) as [[f v]|]; [|done]. cbn [res_bind]. intros [= <-]. by apply (head_is_a_cve _ _ _ _ H).
Qed.

(** ** What a merge keeps *)

(** [sorted(set(l))] depends on the elements only. *)
Lemma before_asym a b : before a b -> ~ before b a.
Proof. unfold before. intros H1 H2. pose proof (ltb_trans _ _ _ H1 H2) as C. by rewrite ltb_irrefl in C. Qed.

Lemma before_antisymm : AntiSymm (=) before.
Proof. intros a b H1 H2. by destruct (before_asym a b). Qed.

Lemma sorted_distinct_elem l x : x ∈ sorted_distinct l <-> x ∈ l.
Proof. unfold sorted_distinct. rewrite sorted_perm. apply elem_of_remove_dups. Qed.

Lemma sorted_distinct_ext l l' : (forall x, x ∈ l <-> x ∈ l') -> sorted_distinct l = sorted_distinct l'.
Proof.
  intros E. pose proof before_antisymm. apply (StronglySorted_unique before).
  - apply sorted_strict, NoDup_remove_dups.
  - apply sorted_strict, NoDup_remove_dups.
  - unfold sorted_distinct. rewrite !sorted_perm. apply NoDup_Permutation; [apply NoDup_remove_dups..|]. intros x. by rewrite !elem_of_remove_dups.
Qed.

Section merge.
Variable py_str : pyval -> string.
Variable json_loads : string -> option pyval.
Variable json_dumps : list string -> string.
(** A list that [json.dumps] wrote is read back by [json.loads]. *)
Hypothesis dumps_read : forall l, json_loads (json_dumps l) = Some (PList (map PStr l)) /\ nonempty (json_dumps l) = true.
#[local] Abbreviation merge := (merge_additive_cve_fields py_str json_loads).
#[local] Abbreviation listed := (stored_list py_str json_loads).

Definition or_keep {A} (new old : option A) : option A := match new with Some x => Some x | None => old end.

Definition no_update : updates := mkUpdates None None None None None None None.

(** The row after the UPDATE of [_build_additive_update]. *)
Definition updated (u : updates) (s : stored) : stored :=
  mkStored (or_keep (u_cvss_score u) (s_cvss_score s)) (or_keep (u_severity u) (s_severity s)) (or_keep (u_description u) (s_description s))
    (or_keep (u_published u) (s_published s)) (or_keep (u_modified u) (s_modified s))
    (or_keep (option_map json_dumps (u_affected_products u)) (s_affected_products s)) (or_keep (option_map json_dumps (u_cwe_ids u)) (s_cwe_ids s)).

Definition no_text (o : option string) : bool := negb (nonempty (strip (text_or o))).
Definition rank_of (o : option string) : Z := severity_rank (severity_of (text_or o)).
(** The elements of a stored list, case folded by f. *)
Definition holds (f : string -> string) (o : option string) (x : string) : Prop := exists l, listed o = Ok l /\ nonempty x = true /\ x ∈ map f l.

(** A row that says all another says: its score, its text and dates, a severity at least as high and every weakness and product. *)
Record richer (s s' : stored) : Prop := mkRicher {
  ri_cvss : s_cvss_score s <> None -> s_cvss_score s' = s_cvss_score s;
  ri_severity : rank_of (s_severity s) <= rank_of (s_severity s');
  ri_description : no_text (s_description s) = false -> s_description s' = s_description s;
  ri_published : no_text (s_published s) = false -> s_published s' = s_published s;
  ri_modified : no_text (s_modified s) = false -> s_modified s' = s_modified s;
  ri_products : forall x, holds id (s_affected_products s) x -> holds id (s_affected_products s') x;
  ri_cwes : forall x, holds upper (s_cwe_ids s) x -> holds upper (s_cwe_ids s') x }.

#[global] Instance richer_preorder : PreOrder richer.
Proof.
  split.
  - intros s. by split.
  - intros s t u [A1 A2 A3 A4 A5 A6 A7] [B1 B2 B3 B4 B5 B6 B7]. split; auto; try lia.
    + intros N. rewrite <-(A1 N). apply B1. by rewrite A1.
    + intros N. rewrite <-(A3 N). apply B3. by rewrite A3.
    + intros N. rewrite <-(A4 N). apply B4. by rewrite A4.
    + intros N. rewrite <-(A5 N). apply B5. by rewrite A5.
Qed.

Lemma listed_dumps l : listed (Some (json_dumps l)) = Ok (List.filter nonempty l).
Proof.
  unfold stored_list. destruct (dumps_read l) as [-> ->]. cbn [iter_of res_bind]. f_equal. induction l as [|x l IH]; [done|].
  cbn [map List.filter truthy]. destruct (nonempty x); cbn [map]; by rewrite IH.
Qed.

Lemma union_some old new l : union_of old new = Some l -> forall x, x ∈ l <-> x ∈ old \/ x ∈ new.
Proof. unfold union_of. destruct (decide _) as [|N]; [done|]. intros [= <-] x. by rewrite sorted_distinct_elem, elem_of_app. Qed.

Lemma union_none old new : (forall x, x ∈ new -> x ∈ old) -> union_of old new = None.
Proof. intros I. unfold union_of. destruct (decide _) as [|N]; [done|]. destruct N. apply sorted_distinct_ext. intros x. rewrite elem_of_app. naive_solver. Qed.

(** One list column: what the update stores holds what was held, and the next merge adds nothing. *)
Lemma column_grows f (Hf : forall x, f (f x) = f x) (Hne : forall x, nonempty (f x) = nonempty x) o old new (O : listed o = Ok old) :
  (forall x, x ∈ new -> nonempty x = true /\ f x = x) ->
  let o' := or_keep (option_map json_dumps (union_of (map f old) new)) o in
  (forall x, holds f o x -> holds f o' x) /\ exists old', listed o' = Ok old' /\ union_of (map f old') new = None.
Proof.
  intros N. destruct (union_of (map f old) new) as [l|] eqn:U; cbn [option_map or_keep]; [|split; [done|by exists old]].
  pose proof (union_some _ _ _ U) as M. rewrite listed_dumps. split.
  - intros x (l' & O' & Nx & I). rewrite O in O'. injection O' as <-. eexists. rewrite listed_dumps. split; [reflexivity|]. split; [done|].
    apply list_elem_of_fmap in I as (y & E & I). apply list_elem_of_fmap. exists x. split; [by rewrite E, Hf|]. apply list_elem_of_In, filter_In. split; [|done].
    apply list_elem_of_In, M. left. apply list_elem_of_fmap. by exists y.
  - eexists. split; [reflexivity|]. apply union_none. intros x I. destruct (N x I) as [Nx E]. apply list_elem_of_fmap. exists x. split; [done|].
    apply list_elem_of_In, filter_In. split; [|done]. apply list_elem_of_In, M. by right.
Qed.

(** One text column. *)
Lemma fill_settles old new t : fill old new = Ok t ->
  (no_text old = false -> or_keep t old = old) /\ fill (or_keep t old) new = Ok None.
Proof.
  unfold fill, no_text. destruct (nonempty (strip (text_or old))) eqn:B.
  - intros [= <-]. cbn [or_keep]. by rewrite B.
  - destruct (strip_of _) as [x|] eqn:S; [|done]. cbn [res_bind]. intros [= <-]. split; [done|]. destruct (nonempty x) eqn:N; cbn [or_keep].
    + cbn [text_or]. enough (strip x = x) as -> by (by rewrite N). destruct (py_or new (PStr "")); try done. injection S as <-. apply strip_idemp.
    + by rewrite B.
Qed.

Lemma nonempty_upper s : nonempty (upper s) = nonempty s.
Proof. by destruct s. Qed.

Lemma severity_of_nonempty s : nonempty (severity_of s) = true.
Proof. unfold severity_of. by destruct s. Qed.

Lemma severity_of_idem s : severity_of (severity_of s) = severity_of s.
Proof. unfold severity_of at 1. rewrite severity_of_nonempty. unfold severity_of. apply upper_idemp. Qed.

Lemma severity_rank_nonneg s : 0 <= severity_rank s.
Proof. unfold severity_rank, SEVERITY_RANK. cbn [assoc]. by repeat destruct (String.eqb _ s). Qed.

Lemma severity_settles old new :
  let u := severity_update (severity_of (text_or old)) (severity_of new) in
  rank_of old <= rank_of (or_keep u old) /\ severity_update (severity_of (text_or (or_keep u old))) (severity_of new) = None.
Proof.
  pose proof (severity_of_nonempty new) as N. pose proof (severity_of_idem new) as F. revert N F. generalize (severity_of new) as n. intros n N F u.
  destruct (severity_update (severity_of (text_or old)) n) eqn:U; subst u; rewrite ?U; cbn [or_keep text_or]; [|done].
  revert U. unfold severity_update. destruct (String.eqb n "UNKNOWN") eqn:K; [done|]. intros U.
  assert (s = n /\ severity_rank (severity_of (text_or old)) <= severity_rank n) as [-> R].
  { pose proof (severity_rank_nonneg n). destruct (one_in _ _) eqn:I.
    - injection U as <-. split; [done|]. cbn [one_in existsb] in I. rewrite orb_false_r in I. apply orb_true_iff in I as [->%String.eqb_eq| ->%String.eqb_eq]; done.
    - destruct (Z.ltb_spec (severity_rank (severity_of (text_or old))) (severity_rank n)); [|done]. injection U as <-. split; [done|lia]. }
  unfold rank_of. cbn [text_or]. rewrite F. split; [done|]. rewrite Z.ltb_irrefl. cbn [one_in existsb]. rewrite K. by destruct n.
Qed.

Lemma merge_parts s e u : merge s e = Ok u -> exists cwes products, listed (s_cwe_ids s) = Ok cwes /\ listed (s_affected_products s) = Ok products /\
  u_cwe_ids u = union_of (map upper cwes) (map upper (List.filter nonempty (n_cwe_ids e))) /\ u_affected_products u = union_of products (List.filter nonempty (n_affected_products e)) /\
  u_cvss_score u = match n_cvss_score e, s_cvss_score s with Some f, None => Some f | _, _ => None end /\
  u_severity u = severity_update (severity_of (text_or (s_severity s))) (severity_of (n_severity e)) /\
  fill (s_description s) (PStr (n_description e)) = Ok (u_description u) /\ fill (s_published s) (n_published e) = Ok (u_published u) /\ fill (s_modified s) (n_modified e) = Ok (u_modified u).
Proof.
  unfold merge_additive_cve_fields. destruct (listed (s_cwe_ids s)) as [cwes|] eqn:C; [|done]. cbn [res_bind].
  destruct (fill (s_description s) _) as [d|] eqn:D; [|done]. cbn [res_bind]. destruct (listed (s_affected_products s)) as [products|] eqn:P; [|done]. cbn [res_bind].
  destruct (fill (s_published s) _) as [p|] eqn:PB; [|done]. cbn [res_bind]. destruct (fill (s_modified s) _) as [m|] eqn:M; [|done]. cbn [res_bind]. intros [= <-]. by exists cwes, products.
Qed.

Lemma cwes_grow s e cwes : listed (s_cwe_ids s) = Ok cwes ->
  let o := or_keep (option_map json_dumps (union_of (map upper cwes) (map upper (List.filter nonempty (n_cwe_ids e))))) (s_cwe_ids s) in
  (forall x, holds upper (s_cwe_ids s) x -> holds upper o x) /\ exists l, listed o = Ok l /\ union_of (map upper l) (map upper (List.filter nonempty (n_cwe_ids e))) = None.
Proof.
  intros C. apply (column_grows upper upper_idemp nonempty_upper _ _ _ C). intros x (y & -> & I)%list_elem_of_fmap. apply list_elem_of_In, filter_In in I as [_ I]. rewrite nonempty_upper. split; [done|apply upper_idemp].
Qed.

Lemma products_grow s e products : listed (s_affected_products s) = Ok products ->
  let o := or_keep (option_map json_dumps (union_of products (List.filter nonempty (n_affected_products e)))) (s_affected_products s) in
  (forall x, holds id (s_affected_products s) x -> holds id o x) /\ exists l, listed o = Ok l /\ union_of l (List.filter nonempty (n_affected_products e)) = None.
Proof.
  intros P. destruct (column_grows id (fun x => eq_refl) (fun x => eq_refl) _ _ (List.filter nonempty (n_affected_products e)) P) as [A1 (l & A2 & A3)].
  { intros x I. by apply list_elem_of_In, filter_In in I as [_ I]. }
  rewrite map_id in A1, A2, A3. split; [exact A1|by exists l].
Qed.

(** What the record of a second source adds to a row leaves the row saying at least what it said. *)
Lemma merge_richer s e u : merge s e = Ok u -> richer s (updated u s).
Proof.
  intros (cwes & products & C & P & UC & UP & US & UV & D & PB & M)%merge_parts. split; cbn [updated s_cvss_score s_severity s_description s_published s_modified s_affected_products s_cwe_ids].
  - rewrite US. intros N. by destruct (n_cvss_score e), (s_cvss_score s).
  - rewrite UV. apply severity_settles.
  - by apply (fill_settles _ _ _ D).
  - by apply (fill_settles _ _ _ PB).
  - by apply (fill_settles _ _ _ M).
  - rewrite UP. by apply products_grow.
  - rewrite UC. by apply cwes_grow.
Qed.

(** [second_merge_changes_nothing]: a record that was merged into a row and stored asks for no update when it comes again. *)
Theorem second_merge_changes_nothing s e u : merge s e = Ok u -> merge (updated u s) e = Ok no_update.
Proof.
  intros (cwes & products & C & P & UC & UP & US & UV & D & PB & M)%merge_parts. unfold merge_additive_cve_fields.
  cbn [updated s_cvss_score s_severity s_description s_published s_modified s_affected_products s_cwe_ids].
  pose proof (proj2 (cwes_grow s e cwes C)) as (c' & C2 & C3). pose proof (proj2 (products_grow s e products P)) as (p' & P2 & P3).
  rewrite UC, C2. cbn [res_bind]. rewrite (proj2 (fill_settles _ _ _ D)). cbn [res_bind]. rewrite UP, P2. cbn [res_bind].
  rewrite (proj2 (fill_settles _ _ _ PB)). cbn [res_bind]. rewrite (proj2 (fill_settles _ _ _ M)). cbn [res_bind]. rewrite C3, P3, UV, (proj2 (severity_settles _ _)), US.
  by destruct (n_cvss_score e), (s_cvss_score s).
Qed.
End merge.

(** ** Examples *)

(** A codec of lists of texts that is read back, for concrete inputs: x before a character, e after an element, ] at the end. *)
Fixpoint seal (s rest : string) : string := match s with "" => String "e" rest | String c t => String "x" (String c (seal t rest)) end.
Fixpoint seal_list (l : list string) : string := match l with [] => "]" | s :: t => seal s (seal_list t) end.
Fixpoint unseal (s : string) : option (list string) :=
  match s with
  | String "]" "" => Some []
  | String "e" t => option_map (cons "") (unseal t)
  | String "x" (String c t) => match unseal t with Some (h :: r) => Some (String c h :: r) | _ => None end
  | _ => None
  end.
Definition open_list (s : string) : option pyval := option_map (fun l => PList (map PStr l)) (unseal s).

Lemma seal_read l : open_list (seal_list l) = Some (PList (map PStr l)) /\ nonempty (seal_list l) = true.
Proof.
  split; [|by destruct l as [|[]]]. unfold open_list. enough (unseal (seal_list l) = Some l) as -> by done. induction l as [|s l IH]; [done|]. cbn [seal_list].
  induction s as [|c s IHs]; cbn [seal unseal]; [by rewrite IH|by rewrite IHs].
Qed.

Definition ok_of {A} (m : res A) : option A := match m with Ok a => Some a | Raise _ => None end.

Definition quiet_row : stored := mkStored None (Some "medium") (Some " ") (Some "2026-07-01") None (Some (seal_list ["f5:nginx"])) (Some "").
Definition record_of_cve : enrichment :=
  mkEnrichment "CVE-2026-0001" " A flaw. " (Some (Fin (QArith_base.inject_Z 9))) "CRITICAL" PNone (PStr "2026-07-02") ["f5:nginx"; "f5:big-ip"] ["cwe-79"; "CWE-79"] None.
Definition no_text_of (v : pyval) : string := "x".

Lemma second_merge_changes_nothing_witness : exists u, merge_additive_cve_fields no_text_of open_list quiet_row record_of_cve = Ok u /\
  s_severity (updated seal_list u quiet_row) = Some "CRITICAL" /\ s_description (updated seal_list u quiet_row) = Some "A flaw." /\ s_published (updated seal_list u quiet_row) = Some "2026-07-01" /\
  u_cwe_ids u = Some ["CWE-79"] /\ u_affected_products u = Some ["f5:big-ip"; "f5:nginx"] /\ merge_additive_cve_fields no_text_of open_list (updated seal_list u quiet_row) record_of_cve = Ok no_update.
Proof.
  destruct (is_ok_spec (merge_additive_cve_fields no_text_of open_list quiet_row record_of_cve)) as [u E]; [vm_compute; reflexivity|]. exists u. split; [exact E|].
  pose proof (second_merge_changes_nothing no_text_of open_list seal_list seal_read quiet_row record_of_cve u E) as N.
  assert (X : option_map (fun u => (s_severity (updated seal_list u quiet_row), s_description (updated seal_list u quiet_row), s_published (updated seal_list u quiet_row), u_cwe_ids u, u_affected_products u))
    (ok_of (merge_additive_cve_fields no_text_of open_list quiet_row record_of_cve)) = Some (Some "CRITICAL", Some "A flaw.", Some "2026-07-01", Some ["CWE-79"], Some ["f5:big-ip"; "f5:nginx"])) by (vm_compute; reflexivity).
  rewrite E in X. injection X as X1 X2 X3 X4 X5. split; [exact X1|]. split; [exact X2|]. split; [exact X3|]. split; [exact X4|]. split; [exact X5|]. exact N.
Defined.

(** Finding [severity_leaves_its_score]: the severity is raised on its own, so a row can be called critical beside a score of 5. *)
Lemma severity_leaves_its_score :
  option_map (fun u => (u_cvss_score u, u_severity u)) (ok_of (merge_additive_cve_fields no_text_of open_list (mkStored (Some (Fin (QArith_base.inject_Z 5))) (Some "MEDIUM") None None None None None) record_of_cve)) = Some (None, Some "CRITICAL").
Proof. reflexivity. Qed.
