(* ===== verification/CveStore.v ===== *)
(** * CveStore: db/cve.py and db/enrichment.py, the writes to the table of CVEs

    The rows, the change history and the tables beside them, with every write: the refresh of
    the NVD items, the additive merge of other records, the KEV and VulnCheck flags, the EPSS
    scores and their daily snapshot, the back-fills and the deletions.  [work] is what the
    connection sees, [durable] what is committed.  The NULL of a column is [None].  The text
    of JSON values, the order in which a SELECT gives its rows ([set_order]) and the time are
    parameters. *)

From Stdlib Require Import QArith Sorted.
From S2P Require Import Prelude PyStr PyVal Float64 FloatErr.
From S2P Require Risk.
From S2P Require Import CveRow StackAssets Campaigns NvdParse CveRecord.
Open Scope string_scope.
Open Scope Z_scope.

Definition _SQLITE_IN_CHUNK : nat := 500.

(** A row of [cves]; the key is not repeated in it. *)
Record row := mkRow {
  says : stored; affected_products_source : option string; cpe_matches : option string; mitre_technique : option string; summary : option string;
  is_kev : option Z; is_vulncheck_exploited : option Z; epss_score : option fl; epss_percentile : option fl; has_poc : option Z; patch_available : option Z;
  has_ai_context : option Z; source_urls : option string; updated_at : string }.

(** A row of [cve_change_history]. *)
Record change := mkChange { ch_cve : string; field_name : string; old_value : string; new_value : string; detected_at : string }.

(** A row of [kev_deadlines]. *)
Record kev := mkKev {
  k_product : string; short_description : string; required_action : string; due_date : string; date_added : string; vendor_project : string;
  vulnerability_name : string; known_ransomware : string; k_cwes : list string; k_updated_at : string }.

Record tables := mkTables {
  cves : gmap string row; cve_change_history : list change; kev_deadlines : gmap string kev; epss_history : gmap (string * string) fl;
  ssvc_cache : gmap string ssvc }.
Record db := mkDb { work : tables; durable : tables }.

Definition set_cves (m : gmap string row) (t : tables) : tables := mkTables m (cve_change_history t) (kev_deadlines t) (epss_history t) (ssvc_cache t).
Definition set_epss_history (m : gmap (string * string) fl) (t : tables) : tables := mkTables (cves t) (cve_change_history t) (kev_deadlines t) m (ssvc_cache t).
Definition set_ssvc (m : gmap string ssvc) (t : tables) : tables := mkTables (cves t) (cve_change_history t) (kev_deadlines t) (epss_history t) m.
Definition set_kevs (m : gmap string kev) (t : tables) : tables := mkTables (cves t) (cve_change_history t) m (epss_history t) (ssvc_cache t).

Definition on_work (f : tables -> tables) (d : db) : db := mkDb (f (work d)) (durable d).
Definition commit (d : db) : db := mkDb (work d) (work d).
(** Closing the connection without a commit. *)
Definition rollback (d : db) : db := mkDb (durable d) (durable d).

(** [if commit_every and ops_done > 0 and ops_done % commit_every == 0] *)
Definition due (commit_every : option Z) (ops_done : Z) : bool :=
  match commit_every with Some n => negb (n =? 0) && (0 <? ops_done) && (ops_done mod n =? 0) | None => false end.
Definition _maybe_bulk_commit (ops_done : Z) (commit_every : option Z) (d : db) : db := if due commit_every ops_done then commit d else d.

(** The slices of at most n elements. *)
Fixpoint chunks_fuel {A} (fuel n : nat) (l : list A) : list (list A) :=
  match fuel, l with
  | S f, _ :: _ => firstn n l :: chunks_fuel f n (skipn n l)
  | _, _ => []
  end.
Definition chunks {A} (n : nat) (l : list A) : list (list A) := chunks_fuel (length l) n l.

(** ** Change rows *)

(** [f"{value:.6f}".rstrip("0").rstrip(".") or "0"] *)
Definition float_str (v : fl) : string :=
  let text := rstrip_by (Ascii.eqb ".") (rstrip_by (Ascii.eqb "0") (Risk.fmt_fixed 6 v)) in if nonempty text then text else "0".
Definition _change_value_str (value : option fl) : string := match value with None => "" | Some v => float_str v end.
Definition _values_differ (old new : option fl) : bool :=
  match old, new with
  | None, None => false
  | Some a, Some b => flt (lit (1 # 1000000000)) (fabs (fsub a b))
  | _, _ => true
  end.

Record snapshot := mkSnapshot { n_cvss : option fl; n_epss : option fl; n_is_kev : Z; n_has_poc : Z; n_patch : Z }.
(** [int(v or 0)] *)
Definition int_or_0 (o : option Z) : Z := match o with Some n => n | None => 0 end.
Definition snapshot_of (r : row) : snapshot :=
  mkSnapshot (s_cvss_score (says r)) (epss_score r) (int_or_0 (is_kev r)) (int_or_0 (has_poc r)) (int_or_0 (patch_available r)).

Definition see_row (m : gmap string row) (acc : gmap string snapshot) (i : string) : gmap string snapshot :=
  match m !! i with Some r => <[i := snapshot_of r]> acc | None => acc end.
Definition _load_cve_change_snapshots (t : tables) (cve_ids : list string) : gmap string snapshot :=
  fold_left (fun acc chunk => fold_left (see_row (cves t)) chunk acc) (chunks _SQLITE_IN_CHUNK (map upper (List.filter nonempty cve_ids))) ∅.

Definition b2z (b : bool) : Z := if b then 1 else 0.
(** A change that is kept when the test holds. *)
Definition note (test : bool) (row : string * string * string) : list (string * string * string) := if test then [row] else [].

Definition _append_upsert_change_rows (c : item) (prior : option snapshot) : list (string * string * string) :=
  let incoming_poc := b2z (i_has_poc c) in
  let incoming_kev := b2z (i_is_kev c) in
  let incoming_patch := b2z (i_patch_available c) in
  match prior with
  | Some p =>
      let new_poc := if negb (n_has_poc p =? 0) || negb (incoming_poc =? 0) then 1 else 0 in
      note (_values_differ (n_cvss p) (i_cvss_score c)) ("cvss_score", _change_value_str (n_cvss p), _change_value_str (i_cvss_score c)) ++
      note ((n_has_poc p =? 0) && (new_poc =? 1)) ("has_poc", "0", "1") ++
      note ((n_patch p =? 0) && (incoming_patch =? 1)) ("patch_available", "0", "1")
  | None =>
      note (negb (incoming_kev =? 0)) ("is_kev", "0", "1") ++
      note (negb (incoming_poc =? 0)) ("has_poc", "0", "1") ++
      note (negb (incoming_patch =? 0)) ("patch_available", "0", "1") ++
      match i_cvss_score c with Some _ => [("cvss_score", "", _change_value_str (i_cvss_score c))] | None => [] end
  end%list.

Definition change_of (now id : string) (x : string * string * string) : change := let '(f, o, n) := x in mkChange id f o n now.
Definition _insert_cve_changes_batch (rows : list change) (t : tables) : tables :=
  mkTables (cves t) (cve_change_history t ++ rows)%list (kev_deadlines t) (epss_history t) (ssvc_cache t).

Definition alone (t : tables) : db := mkDb t t.
Definition empty_tables : tables := mkTables ∅ [] ∅ ∅ ∅.
(** The state an operation leaves: the one before it when it raises. *)
Definition done_or {A} (t : tables) (r : res A) (f : A -> tables) : tables := match r with Ok a => f a | Raise _ => t end.

Section store.
Variable set_order : gset string -> list string.
Variable json_list : list string -> string.
Variable json_matches : list cpe_match -> string.
Variable py_str : pyval -> string.
Variable json_loads : string -> option pyval.
(** [json.loads] of a list of URLs that [_cve_upsert_params] wrote; [None] for a text that is no such list. *)
Variable json_urls : string -> option (list string).

(** ** The refresh of items *)

(** The row the INSERT makes; the columns it does not name take their defaults. *)
Definition _cve_upsert_params (now : string) (c : item) : row :=
  mkRow (mkStored (i_cvss_score c) (Some (i_severity c)) (Some (i_description c)) (Some (i_published c)) (Some (i_modified c)) (Some (json_list (i_affected_products c))) (Some (json_list (i_cwe_ids c))))
    (Some "") (Some (json_matches (i_cpe_matches c))) (i_mitre_technique c) (i_summary c) (Some (b2z (i_is_kev c))) (Some 0) (i_epss_score c) None (Some (b2z (i_has_poc c))) (Some (b2z (i_patch_available c)))
    (Some (b2z (has_ai_context_of (i_description c) (i_affected_products c)))) (Some (json_list (i_source_urls c))) now.

(** [IS NULL OR IN ('', '\[\]')] *)
Definition void (o : option string) : bool := match o with Some s => one_in [""; "[]"] s | None => true end.
Definition coalesce {A} (a b : option A) : option A := match a with Some x => Some x | None => b end.
Definition is_one (o : option Z) : bool := match o with Some n => n =? 1 | None => false end.

(** [ON CONFLICT(cve_id) DO UPDATE SET …] *)
Definition on_conflict (old excluded : row) : row :=
  let x := says excluded in
  let keeps := eq_str (match affected_products_source old with Some s => PStr s | None => PNone end) "llm" && void (s_affected_products x) in
  mkRow (mkStored (s_cvss_score x) (s_severity x) (s_description x) (s_published x) (s_modified x) (if keeps then s_affected_products (says old) else s_affected_products x) (s_cwe_ids x))
    (if keeps then Some "llm" else Some "")
    (if void (cpe_matches excluded) then cpe_matches old else cpe_matches excluded)
    (coalesce (mitre_technique excluded) (mitre_technique old)) (coalesce (summary excluded) (summary old)) (is_kev old) (is_vulncheck_exploited old) (epss_score old) (epss_percentile old)
    (if is_one (has_poc excluded) then Some 1 else has_poc old) (patch_available excluded) (has_ai_context excluded) (source_urls excluded) (updated_at excluded).

Definition upsert_row (now : string) (m : gmap string row) (c : item) : gmap string row :=
  let x := _cve_upsert_params now c in <[i_cve_id c := match m !! i_cve_id c with Some old => on_conflict old x | None => x end]> m.

(** [cve\["cve_id"\] = …] *)
Definition with_id (c : item) : item :=
  mkItem (upper (i_cve_id c)) (i_description c) (i_cvss_score c) (i_severity c) (i_published c) (i_modified c) (i_affected_products c) (i_cpe_matches c) (i_mitre_technique c)
    (i_summary c) (i_is_kev c) (i_epss_score c) (i_has_poc c) (i_patch_available c) (i_source_urls c) (i_cwe_ids c).

Definition upsert_cves (now : string) (l : list item) (t : tables) : tables :=
  let valid := List.filter (fun c => nonempty (strip (i_cve_id c))) l in
  let snapshots := _load_cve_change_snapshots t (map (fun c => upper (i_cve_id c)) valid) in
  let valid := map with_id valid in
  let history := flat_map (fun c => map (change_of now (i_cve_id c)) (_append_upsert_change_rows c (snapshots !! i_cve_id c))) valid in
  _insert_cve_changes_batch history (set_cves (fold_left (fun m chunk => fold_left (upsert_row now) chunk m) (chunks 500 valid) (cves t)) t).

(** ** Additive enrichment *)

Definition row_says (s : stored) (now : string) (r : row) : row :=
  mkRow s (affected_products_source r) (cpe_matches r) (mitre_technique r) (summary r) (is_kev r) (is_vulncheck_exploited r) (epss_score r) (epss_percentile r) (has_poc r)
    (patch_available r) (has_ai_context r) (source_urls r) now.
(** [UPDATE cves SET … WHERE cve_id = …], when a change asks for a column. *)
Definition additive_update (now id : string) (u : updates) (r : row) (t : tables) : tables :=
  if no_updates u then t else set_cves (<[id := row_says (updated json_list u (says r)) now r]> (cves t)) t.

(** A record as [upsert_cves] takes it; a date that is no text the driver refuses. *)
Definition of_enrichment (e : enrichment) : res item :=
  match n_published e, n_modified e with
  | PStr p, PStr m => Ok (mkItem (n_cve_id e) (n_description e) (n_cvss_score e) (n_severity e) p m (n_affected_products e) [] None None false None false false [] (n_cwe_ids e))
  | _, _ => Raise TypeError
  end.

(** [isinstance(ssvc, dict) and ssvc.get("decisions")] *)
Definition has_ssvc (e : enrichment) : option ssvc := match n_ssvc e with Some s => if nonempty_list (decisions s) then Some s else None | None => None end.
Definition _store_ssvc (e : enrichment) (id : string) (t : tables) : tables :=
  match has_ssvc e with Some s => set_ssvc (<["ssvc:" +:+ id := s]> (ssvc_cache t)) t | None => t end.

Record additive := mkAdditive { a_db : db; a_updated : Z; a_pending : list enrichment; a_processed : Z }.

Definition _flush_inserts (now : string) (st : additive) : res additive :=
  match a_pending st with
  | [] => Ok st
  | batch =>
      let! items := map_res of_enrichment batch in
      let d := on_work (fun t => fold_left (fun t e => _store_ssvc e (upper (n_cve_id e)) t) batch (upsert_cves now items t)) (a_db st) in
      Ok (mkAdditive d (a_updated st + Z.of_nat (length batch)) [] (a_processed st))
  end.

Definition flush_and_commit (now : string) (commit_every : option Z) (st : additive) : res additive :=
  let st := mkAdditive (a_db st) (a_updated st) (a_pending st) (a_processed st + 1) in
  if due commit_every (a_processed st)
  then let! st := _flush_inserts now st in Ok (mkAdditive (commit (a_db st)) (a_updated st) (a_pending st) (a_processed st))
  else Ok st.

(** One record of the loop. *)
Definition enrich_one (now : string) (commit_every : option Z) (st : additive) (e : enrichment) : res additive :=
  let id := upper (n_cve_id e) in
  if negb (nonempty id) then Ok st
  else
    match cves (work (a_db st)) !! id with
    | Some r =>
        let! u := merge_additive_cve_fields py_str json_loads (says r) e in
        let d := on_work (fun t => _store_ssvc e id (additive_update now id u r t)) (a_db st) in
        let n := if negb (no_updates u) then 1 else if is_some (has_ssvc e) then 1 else 0 in
        flush_and_commit now commit_every (mkAdditive d (a_updated st + n) (a_pending st) (a_processed st))
    | None => flush_and_commit now commit_every (mkAdditive (a_db st) (a_updated st) (a_pending st ++ [e])%list (a_processed st))
    end.

Definition apply_additive_cve_enrichments (now : string) (l : list enrichment) (commit_every : option Z) (d : db) : res (db * Z) :=
  let! st := fold_res (enrich_one now commit_every) l (mkAdditive d 0 [] 0) in
  let! st := _flush_inserts now st in
  Ok (a_db st, a_updated st).

Definition set_llm_affected_products (now id : string) (products : list string) (t : tables) : tables * bool :=
  match products, cves t !! upper id with
  | _ :: _, Some r =>
      if void (s_affected_products (says r)) then
        let s := says r in
        let s := mkStored (s_cvss_score s) (s_severity s) (s_description s) (s_published s) (s_modified s) (Some (json_list products)) (s_cwe_ids s) in
        (set_cves (<[upper id := mkRow s (Some "llm") (cpe_matches r) (mitre_technique r) (summary r) (is_kev r) (is_vulncheck_exploited r) (epss_score r) (epss_percentile r) (has_poc r)
                                   (patch_available r) (has_ai_context r) (source_urls r) now]> (cves t)) t, true)
      else (t, false)
  | _, _ => (t, false)
  end.

(** ** Deletions *)

(** [DELETE FROM cves WHERE cve_id IN (…)], with the number of rows. *)
Definition delete_chunk (acc : tables * Z) (chunk : list string) : tables * Z :=
  let '(t, n) := acc in
  let gone := filter (fun kv => fst kv ∈ chunk) (cves t) in
  (set_cves (filter (fun kv => fst kv ∉ chunk) (cves t)) t, n + Z.of_nat (size gone)).
Definition delete_cves_by_ids (cve_ids : list string) (t : tables) : tables * Z :=
  let normalized := sorted_distinct (map (fun c => upper (strip c)) (List.filter (fun c => nonempty (strip c)) cve_ids)) in
  fold_left delete_chunk (chunks _SQLITE_IN_CHUNK normalized) (t, 0).

(** [LOWER(description) LIKE 'rejected reason:%'] *)
Definition legacy_rejected (r : row) : bool := match s_description (says r) with Some d => startswith (lower d) "rejected reason:" | None => false end.
Definition purge_legacy_rejected_cves (t : tables) : tables * Z :=
  (set_cves (filter (fun kv => legacy_rejected (snd kv) = false) (cves t)) t, Z.of_nat (size (filter (fun kv => legacy_rejected (snd kv) = true) (cves t)))).

(** ** The catalogue of exploited CVEs *)

Definition with_kev (n : Z) (r : row) : row :=
  mkRow (says r) (affected_products_source r) (cpe_matches r) (mitre_technique r) (summary r) (Some n) (is_vulncheck_exploited r) (epss_score r) (epss_percentile r) (has_poc r)
    (patch_available r) (has_ai_context r) (source_urls r) (updated_at r).

(** [UPDATE cves SET … WHERE cve_id IN (…)] *)
Definition update_in (f : row -> row) (chunk : list string) (m : gmap string row) : gmap string row :=
  map_imap (fun i r => Some (if one_in chunk i then f r else r)) m.
Definition is_zero (o : option Z) : bool := match o with Some n => n =? 0 | None => false end.
(** [SELECT cve_id … WHERE cve_id IN (…)], of the rows of a test. *)
Definition select_in (test : row -> bool) (chunk : list string) (m : gmap string row) : list string :=
  set_order (dom (filter (fun kv => (one_in chunk (fst kv) && test (snd kv)) = true) m)).

Definition mark_chunk (now : string) (chunk : list string) (t : tables) : list string * tables :=
  let rows := select_in (fun r => is_zero (is_kev r)) chunk (cves t) in
  let t := _insert_cve_changes_batch (map (fun i => change_of now i ("is_kev", "0", "1")) rows) t in
  (rows, set_cves (update_in (with_kev 1) chunk (cves t)) t).

(** The chunks in their order, the ops-th one raising when [fails ops]; the exception takes the list with it. *)
Fixpoint mark_chunks (now : string) (commit_every : option Z) (fails : Z -> bool) (l : list (list string)) (ops : Z) (newly : list string) (d : db) : db * res (list string) :=
  match l with
  | [] => (d, Ok newly)
  | chunk :: t =>
      if fails ops then (d, Raise TimeoutError)
      else
        let '(rows, w) := mark_chunk now chunk (work d) in
        mark_chunks now commit_every fails t (ops + 1) (newly ++ rows)%list (_maybe_bulk_commit (ops + 1) commit_every (mkDb w (durable d)))
  end.
Definition mark_cves_as_kev (now : string) (commit_every : option Z) (fails : Z -> bool) (cve_ids : list string) (d : db) : db * res (list string) :=
  mark_chunks now commit_every fails (chunks _SQLITE_IN_CHUNK (map upper (List.filter nonempty cve_ids))) 0 [] d.

(** An entry of the KEV catalogue: [_clean_iso_date] drops what begins with no date. *)
Definition ISO_DATE_RE_match (s : string) : bool :=
  match s with
  | String a (String b (String c (String d (String "-" (String e (String f (String "-" (String g (String h _))))))))) => forallb is_digit [a; b; c; d; e; f; g; h]
  | _ => false
  end.
Definition _clean_iso_date (value : string) : string := if ISO_DATE_RE_match value then value else "".
Record kev_entry := mkKevEntry {
  cveID : string; e_product : string; shortDescription : string; requiredAction : string; dueDate : string; dateAdded : string; vendorProject : string;
  vulnerabilityName : string; knownRansomwareCampaignUse : string; e_cwes : list string }.
Definition _kev_upsert_params (now : string) (e : kev_entry) : kev :=
  mkKev (e_product e) (shortDescription e) (requiredAction e) (_clean_iso_date (dueDate e)) (_clean_iso_date (dateAdded e)) (vendorProject e) (vulnerabilityName e)
    (knownRansomwareCampaignUse e) (e_cwes e) now.
Definition upsert_kev (now : string) (m : gmap string kev) (e : kev_entry) : gmap string kev := <[cveID e := _kev_upsert_params now e]> m.
Definition upsert_kev_batch (now : string) (entries : list kev_entry) (t : tables) : tables * Z :=
  let valid := List.filter (fun e => nonempty (cveID e)) entries in
  (set_kevs (fold_left (fun m chunk => fold_left (upsert_kev now) chunk m) (chunks 500 valid) (kev_deadlines t)) t, Z.of_nat (length valid)).

Definition with_summary (s : option string) (r : row) : row :=
  mkRow (says r) (affected_products_source r) (cpe_matches r) (mitre_technique r) s (is_kev r) (is_vulncheck_exploited r) (epss_score r) (epss_percentile r) (has_poc r)
    (patch_available r) (has_ai_context r) (source_urls r) (updated_at r).
Definition kev_summary (t : tables) (i : string) (r : row) : option string :=
  match kev_deadlines t !! i with
  | Some k => if is_one (is_kev r) && negb (nonempty (text_or (summary r))) && nonempty (short_description k) then Some (short_description k) else None
  | None => None
  end.
Definition enrich_kev_summaries (t : tables) : tables * Z :=
  (set_cves (map_imap (fun i r => Some (match kev_summary t i r with Some s => with_summary (Some s) r | None => r end)) (cves t)) t,
   Z.of_nat (size (filter (fun kv => is_some (kev_summary t (fst kv) (snd kv)) = true) (cves t)))).

(** ** The VulnCheck catalogue *)

Definition with_vulncheck (n : Z) (r : row) : row :=
  mkRow (says r) (affected_products_source r) (cpe_matches r) (mitre_technique r) (summary r) (is_kev r) (Some n) (epss_score r) (epss_percentile r) (has_poc r)
    (patch_available r) (has_ai_context r) (source_urls r) (updated_at r).

(** One UPDATE for each chunk, a commit after every commit_every of them; the number of rows it met is added to the count. *)
Definition flag_chunk (n : Z) (commit_every : option Z) (st : db * Z * Z) (chunk : list string) : db * Z * Z :=
  let '(d, ops, updated) := st in
  let m := cves (work d) in
  (_maybe_bulk_commit (ops + 1) commit_every (on_work (set_cves (update_in (with_vulncheck n) chunk m)) d), ops + 1,
   updated + Z.of_nat (size (filter (fun kv => one_in chunk (fst kv) = true) m))).

Definition sync_vulncheck_exploited_flags (cve_ids : list string) (commit_every : option Z) (d : db) : db * Z :=
  let catalog := sorted_distinct (map (fun c => upper (strip c)) (List.filter nonempty cve_ids)) in
  let currently_flagged := dom (filter (fun kv => is_one (is_vulncheck_exploited (snd kv)) = true) (cves (work d))) in
  let to_clear := sorted (elements (currently_flagged ∖ list_to_set catalog)) in
  let '(d, ops, _) := fold_left (flag_chunk 0 commit_every) (chunks _SQLITE_IN_CHUNK to_clear) (d, 0, 0) in
  let '(d, _, updated) := fold_left (flag_chunk 1 commit_every) (chunks _SQLITE_IN_CHUNK catalog) (d, ops, 0) in
  (d, updated).

(** ** EPSS *)

Definition EPS9 : fl := lit (1 # 1000000000).
Definition _normalize_epss_score (value : option fl) : option fl :=
  match value with Some s => if flt (fabs s) EPS9 then None else Some s | None => None end.
Definition _epss_display_percent (score : option fl) : fl := match score with Some s => round_nd (fmul s (Fin (inject_Z 100))) 1 | None => f0 end.
Definition _epss_scores_differ (old new : option fl) : bool := negb (feq (_epss_display_percent (_normalize_epss_score old)) (_epss_display_percent (_normalize_epss_score new))).

(** [float(v)], or [None] for a TypeError or a ValueError. *)
Definition float_or_none (v : pyval) : res (option fl) :=
  match py_float v with Ok f => Ok (Some f) | Raise e => if type_or_value e then Ok None else Raise e end.
Definition _parse_epss_feed_record (value : list (string * pyval)) : res (option (fl * option fl)) :=
  match (if dmem value "score" then dget value "score" else dget value "epss") with
  | PNone => Ok None
  | score =>
      let! s := float_or_none score in
      match s with
      | None => Ok None
      | Some s =>
          let! p := match dget value "percentile" with
                    | PNone => Ok None
                    | v => if eq_str v "" then Ok None else float_or_none v
                    end in
          Ok (Some (s, p))
      end
  end.
Definition add_score (acc : list (string * (fl * option fl))) (e : string * pyval) : res (list (string * (fl * option fl))) :=
  let! parsed := _parse_epss_feed_record (match snd e with PDict d => d | v => [("score", v)] end) in
  Ok (match parsed with Some r => dset acc (upper (fst e)) r | None => acc end).

Definition same_percentile (a b : option fl) : bool := match a, b with None, None => true | Some x, Some y => feq x y | _, _ => false end.
(** The change row, where the score shows differently, and whether the row is written. *)
Definition epss_change (now id : string) (old new : option fl) : list change :=
  if _epss_scores_differ old new then [mkChange id "epss_score" (_change_value_str old) (_change_value_str new) now] else [].
Definition epss_is_new (r : row) (rec : fl * option fl) : bool := _epss_scores_differ (epss_score r) (Some (fst rec)) || negb (same_percentile (epss_percentile r) (snd rec)).

Definition with_epss (rec : fl * option fl) (r : row) : row :=
  mkRow (says r) (affected_products_source r) (cpe_matches r) (mitre_technique r) (summary r) (is_kev r) (is_vulncheck_exploited r) (Some (fst rec)) (snd rec) (has_poc r)
    (patch_available r) (has_ai_context r) (source_urls r) (updated_at r).
Definition write_score (m : gmap string row) (u : string * (fl * option fl)) : gmap string row := match m !! fst u with Some r => <[fst u := with_epss (snd u) r]> m | None => m end.
Definition write_batch (commit_every : option Z) (st : db * Z) (batch : list (string * (fl * option fl))) : db * Z :=
  let '(d, n) := st in (_maybe_bulk_commit (n + 1) commit_every (on_work (fun t => set_cves (fold_left write_score batch (cves t)) t) d), n + 1).

(** The keys of a stored row are upper case, so that [row\["cve_id"\].upper()] is the key. *)
Definition apply_scores (now : string) (commit_every : option Z) (normalized : list (string * (fl * option fl))) (d : db) : db :=
  let m := cves (work d) in
  let history := flat_map (fun e => match m !! fst e with Some r => if epss_is_new r (snd e) then epss_change now (fst e) (epss_score r) (Some (fst (snd e))) else [] | None => [] end) normalized in
  let updates := List.filter (fun e => match m !! fst e with Some r => epss_is_new r (snd e) | None => false end) normalized in
  fst (fold_left (write_batch commit_every) (chunks _SQLITE_IN_CHUNK updates) (on_work (_insert_cve_changes_batch history) d, 0)).
Definition update_epss_scores (now : string) (scores : list (string * pyval)) (commit_every : option Z) (d : db) : res db :=
  let! normalized := fold_res add_score scores [] in Ok (apply_scores now commit_every normalized d).

(** The scored CVEs after a key, in the order of the keys. *)
Definition scored (m : gmap string row) : list (string * fl) :=
  omap (fun i => match m !! i with Some r => option_map (pair i) (epss_score r) | None => None end) (sorted (elements (dom m))).
Definition page_after (after : string) (limit : nat) (m : gmap string row) : list (string * fl) := firstn limit (List.filter (fun e => String.ltb after (fst e)) (scored m)).
Definition snapshot_page (day : string) (page : list (string * fl)) (t : tables) : tables :=
  set_epss_history (fold_left (fun h e => <[(fst e, day) := snd e]> h) page (epss_history t)) t.

(** [while True], with as many rounds as there are pages. *)
Fixpoint snapshot_loop (fuel : nat) (day : string) (commit_every : option Z) (limit : nat) (after : string) (pages total : Z) (d : db) : option (db * Z) :=
  match fuel with
  | O => None
  | S fuel =>
      let page := page_after after limit (cves (work d)) in
      match last page with
      | None => Some (d, total)
      | Some lst =>
          let d := _maybe_bulk_commit (pages + 1) commit_every (on_work (snapshot_page day page) d) in
          let total := total + Z.of_nat (length page) in
          if (length page <? limit)%nat then Some (d, total) else snapshot_loop fuel day commit_every limit (fst lst) (pages + 1) total d
      end
  end.
Definition snapshot_epss_scores (fuel : nat) (day : string) (commit_every : option Z) (page_size : option nat) (d : db) : option (db * Z) :=
  let limit := match page_size with Some (S n) => S n | _ => _SQLITE_IN_CHUNK end in snapshot_loop fuel day commit_every limit "" 0 0 d.

(** [INSERT OR IGNORE] *)
Definition insert_epss_history_row (acc : tables * Z) (e : string * option fl * string) : tables * Z :=
  let '(t, n) := acc in
  match e with
  | (id, Some score, date) =>
      if nonempty id && nonempty date then
        match epss_history t !! (upper id, date) with
        | Some _ => (t, n)
        | None => (set_epss_history (<[(upper id, date) := score]> (epss_history t)) t, n + 1)
        end
      else (t, n)
  | _ => (t, n)
  end.
Definition insert_epss_history_rows (rows : list (string * option fl * string)) (t : tables) : tables * Z := fold_left insert_epss_history_row rows (t, 0).

(** ** Back-fills *)

(** [\[c.upper() for c in cve_ids if c\]]; no ids: every row. *)
Definition chosen (cve_ids : option (list string)) (i : string) : bool :=
  match option_map (fun l => map upper (List.filter nonempty l)) cve_ids with Some (_ :: _ as l) => one_in l i | _ => true end.
(** [summary IS NOT NULL AND TRIM(summary) != ''], of the chosen rows whose summary was cut out of the description. *)
Definition auto_summary (cve_ids : option (list string)) (i : string) (r : row) : bool :=
  chosen cve_ids i && match summary r with Some s => negb (sforall (Ascii.eqb " ") s) | None => false end && is_auto_generated_summary (summary r) (s_description (says r)).
Definition strip_auto_generated_summaries (cve_ids : option (list string)) (t : tables) : tables * Z :=
  (set_cves (map_imap (fun i r => Some (if auto_summary cve_ids i r then with_summary None r else r)) (cves t)) t,
   Z.of_nat (size (filter (fun kv => auto_summary cve_ids (fst kv) (snd kv) = true) (cves t)))).

Definition with_display (mitre : option string) (poc : bool) (r : row) : row :=
  mkRow (says r) (affected_products_source r) (cpe_matches r) (coalesce mitre (mitre_technique r)) (summary r) (is_kev r) (is_vulncheck_exploited r) (epss_score r) (epss_percentile r)
    (if poc then Some 1 else has_poc r) (patch_available r) (has_ai_context r) (source_urls r) (updated_at r).
(** [json.loads(row\["source_urls"\] or "\[\]")] *)
Definition urls_of (r : row) : res (list string) :=
  match source_urls r with
  | Some s => if nonempty s then match json_urls s with Some l => Ok l | None => Raise ValueError end else Ok []
  | None => Ok []
  end.

Definition backfill_display_row (acc : gmap string row * Z) (i : string) : res (gmap string row * Z) :=
  let '(m, n) := acc in
  match m !! i with
  | None => Ok acc
  | Some r =>
      let! urls := urls_of r in
      let mitre := match mitre_technique r with Some t => if nonempty t then Some t else extract_mitre_from_urls urls | None => extract_mitre_from_urls urls end in
      let poc_flag := if int_or_0 (has_poc r) =? 0 then has_public_poc_from_urls urls else true in
      if negb (nonempty (text_or mitre)) && negb poc_flag then Ok (m, n)
      else Ok (<[i := with_display mitre (poc_flag && (is_one (has_poc r) || (int_or_0 (has_poc r) =? 0))) r]> m, n + 1)
  end.
Definition backfill_display_fields (cve_ids : option (list string)) (t : tables) : res (tables * Z) :=
  let rows := set_order (dom (filter (fun kv => (chosen cve_ids (fst kv) && (negb (is_some (mitre_technique (snd kv))) || is_zero (has_poc (snd kv)))) = true) (cves t))) in
  let! r := fold_res backfill_display_row rows (cves t, 0) in Ok (set_cves (fst r) t, snd r).

Definition backfill_has_poc (now : string) (cve_ids : option (list string)) (t : tables) : res (tables * Z) :=
  let rows := set_order (dom (filter (fun kv => (chosen cve_ids (fst kv) && is_zero (has_poc (snd kv))) = true) (cves t))) in
  let! found := map_res (fun i => match cves t !! i with Some r => let! u := urls_of r in Ok (if has_public_poc_from_urls u then [i] else []) | None => Ok [] end) rows in
  let found := concat found in
  Ok (set_cves (update_in (with_display None true) found (cves t)) (_insert_cve_changes_batch (map (fun i => change_of now i ("has_poc", "0", "1")) found) t), Z.of_nat (length found)).
End store.

(** ** Slices *)

Lemma concat_chunks_fuel {A} n (P : (0 < n)%nat) f : forall l : list A, (length l <= f)%nat -> concat (chunks_fuel f n l) = l.
Proof.
  induction f as [|f IH]; intros [|x l] L; try done; [cbn in L; lia|]. cbn [chunks_fuel concat]. rewrite IH, firstn_skipn; [done|]. rewrite length_skipn. cbn [length] in *. lia.
Qed.
Lemma concat_chunks {A} n (l : list A) : (0 < n)%nat -> concat (chunks n l) = l.
Proof. intros P. by apply concat_chunks_fuel. Qed.

Lemma fold_concat {A B} (f : B -> A -> B) l : forall b, fold_left (fun b c => fold_left f c b) l b = fold_left f (concat l) b.
Proof. induction l as [|c l IH]; intros b; [done|]. cbn [fold_left concat]. by rewrite IH, fold_left_app. Qed.
Lemma fold_chunks {A B} (f : B -> A -> B) n l b : (0 < n)%nat -> fold_left (fun b c => fold_left f c b) (chunks n l) b = fold_left f l b.
Proof. intros P. by rewrite fold_concat, concat_chunks. Qed.

Lemma flat_map_same {A B} (f g : A -> list B) l : (forall x, In x l -> f x = g x) -> flat_map f l = flat_map g l.
Proof. induction l as [|x l IH]; intros E; [done|]. cbn. rewrite (E x) by (by left). rewrite IH; [done|]. intros y I. apply E. by right. Qed.
Lemma flat_map_empty {A B} (f : A -> list B) l : (forall x, In x l -> f x = []) -> flat_map f l = [].
Proof. induction l as [|x l IH]; intros E; [done|]. cbn. rewrite (E x) by (by left). apply IH. intros y I. apply E. by right. Qed.

Lemma lookup_update_in f l m i : update_in f l m !! i = (fun r => if one_in l i then f r else r) <$> m !! i.
Proof. unfold update_in. rewrite map_lookup_imap. by destruct (m !! i). Qed.

(** Updates that make a column constant compose to one update. *)
Lemma fold_update_in f (I : forall r, f (f r) = f r) ls : forall m, fold_left (fun m c => update_in f c m) ls m = update_in f (concat ls) m.
Proof.
  induction ls as [|c ls IH]; intros m; [apply map_eq; intros i; cbn [fold_left concat]; rewrite lookup_update_in; by destruct (m !! i)|]. cbn [fold_left concat]. rewrite IH. apply map_eq. intros i.
  rewrite !lookup_update_in. destruct (m !! i) as [r|]; [|done]. cbn. f_equal. unfold one_in. rewrite existsb_app. destruct (existsb _ c), (existsb _ (concat ls)); cbn; auto.
Qed.

Section facts.
Variable set_order : gset string -> list string.
Variable json_list : list string -> string.
Variable json_matches : list cpe_match -> string.
Variable py_str : pyval -> string.
Variable json_loads : string -> option pyval.
Variable json_urls : string -> option (list string).
Hypothesis set_order_perm : forall x, Permutation (set_order x) (elements x).
#[local] Abbreviation params := (_cve_upsert_params json_list json_matches).
#[local] Abbreviation put_row := (upsert_row json_list json_matches).
#[local] Abbreviation upsert := (upsert_cves json_list json_matches).

(** ** The refresh *)

(** The row of an item after the INSERT. *)
Definition refreshed (now : string) (m : gmap string row) (c : item) : row :=
  match m !! i_cve_id c with Some old => on_conflict old (params now c) | None => params now c end.

Lemma refresh_out now l : forall m i, i ∉ map i_cve_id l -> fold_left (put_row now) l m !! i = m !! i.
Proof. induction l as [|c l IH]; intros m i N; [done|]. cbn [map fold_left] in *. apply not_elem_of_cons in N as [N1 N2]. rewrite IH by done. unfold upsert_row. by rewrite lookup_insert_ne. Qed.

Lemma refresh_in now l : forall m c, NoDup (map i_cve_id l) -> c ∈ l -> fold_left (put_row now) l m !! i_cve_id c = Some (refreshed now m c).
Proof.
  induction l as [|d l IH]; intros m c ND I; [by apply elem_of_nil in I|]. cbn [map fold_left] in *. apply NoDup_cons in ND as [N ND]. apply elem_of_cons in I as [->|I].
  - rewrite refresh_out by done. unfold upsert_row. by rewrite lookup_insert_eq.
  - rewrite IH by done. assert (i_cve_id c <> i_cve_id d) by (intros E; apply N; rewrite <-E; by apply list_elem_of_fmap_2). unfold refreshed, upsert_row. by rewrite lookup_insert_ne.
Qed.

(** The items an upsert writes, and the table it leaves. *)
Definition written (l : list item) : list item := map with_id (List.filter (fun c => nonempty (strip (i_cve_id c))) l).
Lemma upsert_table now l t : cves (upsert now l t) = fold_left (put_row now) (written l) (cves t).
Proof. unfold upsert_cves. cbn [cves _insert_cve_changes_batch set_cves]. apply fold_chunks. lia. Qed.

Lemma see_rows m l : forall acc i, fold_left (see_row m) l acc !! i = if one_in l i then match m !! i with Some r => Some (snapshot_of r) | None => acc !! i end else acc !! i.
Proof.
  induction l as [|x l IH]; intros acc i; [done|]. cbn [fold_left]. rewrite IH. unfold one_in. cbn [existsb]. unfold see_row. destruct (String.eqb_spec i x) as [->|N].
  - cbn [orb]. destruct (m !! x); [rewrite lookup_insert_eq|]; by destruct (existsb _ _).
  - cbn [orb]. assert (E : (match m !! x with Some r => <[x:=snapshot_of r]> acc | None => acc end) !! i = acc !! i) by (destruct (m !! x); [by rewrite lookup_insert_ne|done]). by rewrite E.
Qed.

Definition history_of (now : string) (t : tables) (l : list item) : list change :=
  flat_map (fun c => map (change_of now (i_cve_id c)) (_append_upsert_change_rows c (snapshot_of <$> cves t !! i_cve_id c))) (written l).

Lemma upsert_history now l t : cve_change_history (upsert now l t) = (cve_change_history t ++ history_of now t l)%list.
Proof.
  unfold upsert_cves, history_of. cbn [cve_change_history _insert_cve_changes_batch set_cves]. f_equal. unfold written. apply flat_map_same. intros c I. f_equal. f_equal.
  unfold _load_cve_change_snapshots. rewrite fold_chunks by (unfold _SQLITE_IN_CHUNK; lia). rewrite see_rows.
  assert (i_cve_id c ∈ map upper (List.filter nonempty (map (fun c => upper (i_cve_id c)) (List.filter (fun c => nonempty (strip (i_cve_id c))) l)))) as J.
  { apply in_map_iff in I as (d & <- & I). cbn [i_cve_id with_id]. apply list_elem_of_fmap. exists (upper (i_cve_id d)). split; [by rewrite upper_idemp|]. apply list_elem_of_In, filter_In. split.
    - apply in_map_iff. by exists d.
    - apply filter_In in I as [_ I]. rewrite nonempty_upper. destruct (i_cve_id d); [discriminate I|done]. }
  apply one_in_spec in J as ->. rewrite lookup_empty. by destruct (cves t !! i_cve_id c).
Qed.

Lemma upsert_is now l t :
  upsert now l t = mkTables (fold_left (put_row now) (written l) (cves t)) (cve_change_history t ++ history_of now t l)%list (kev_deadlines t) (epss_history t) (ssvc_cache t).
Proof. rewrite <-upsert_table, <-upsert_history. reflexivity. Qed.

Lemma sub_same q : exists r, fsub (Fin q) (Fin q) = Fin r /\ (r == 0)%Q.
Proof.
  unfold fsub, fneg, fadd. assert (E : (q + - q == 0)%Q) by apply Qplus_opp_r. rewrite mk_fin by (rewrite E; by split). eexists. split; [reflexivity|].
  apply Qle_antisym; [apply rnd_nonpos|apply rnd_nonneg]; rewrite E; apply Qle_refl.
Qed.
Lemma values_same v : _values_differ v v = false.
Proof.
  destruct v as [[q| | |]|]; try reflexivity. unfold _values_differ. destruct (sub_same q) as (r & -> & E). unfold fabs, lit, flt.
  apply negb_false_iff, Qle_bool_iff. rewrite E. by vm_compute.
Qed.

(** The row at a key the items do not name. *)
Definition touch (now : string) (r : row) : row :=
  mkRow (says r) (affected_products_source r) (cpe_matches r) (mitre_technique r) (summary r) (is_kev r) (is_vulncheck_exploited r) (epss_score r) (epss_percentile r) (has_poc r)
    (patch_available r) (has_ai_context r) (source_urls r) now.

Lemma coalesce_twice {A} (a b : option A) : coalesce a (coalesce a b) = coalesce a b.
Proof. by destruct a. Qed.
Lemma keep_twice {A} (t : bool) (a b : A) : (if t then if t then a else b else b) = if t then a else b.
Proof. by destruct t. Qed.

Lemma refresh_settles now now' m c : on_conflict (refreshed now m c) (params now' c) = touch now' (refreshed now m c).
Proof.
  unfold refreshed. destruct (m !! i_cve_id c) as [old|]; unfold on_conflict, touch; cbn -[void].
  - destruct (void (Some (json_list (i_affected_products c)))) eqn:V, (void (Some (json_matches (i_cpe_matches c)))) eqn:W, (affected_products_source old) as [src|]; cbn -[void]; rewrite ?andb_false_r, ?andb_true_r, ?coalesce_twice;
    try destruct (String.eqb src "llm"); cbn -[void]; rewrite ?V, ?W; cbn -[void]; by destruct (i_has_poc c).
  - destruct (void (Some (json_matches (i_cpe_matches c)))), (i_mitre_technique c), (i_summary c), (i_has_poc c); done.
Qed.

Lemma refresh_no_news now m c : _append_upsert_change_rows c (Some (snapshot_of (refreshed now m c))) = [].
Proof.
  unfold _append_upsert_change_rows. assert (E : n_cvss (snapshot_of (refreshed now m c)) = i_cvss_score c) by (unfold refreshed; by destruct (m !! _)). rewrite E, values_same.
  assert (F : n_patch (snapshot_of (refreshed now m c)) = b2z (i_patch_available c)) by (unfold refreshed; by destruct (m !! _)). rewrite F.
  assert (G : i_has_poc c = true -> n_has_poc (snapshot_of (refreshed now m c)) = 1) by (intros P; unfold refreshed; destruct (m !! _); cbn; by rewrite P).
  destruct (i_has_poc c); [rewrite G by done|destruct (n_has_poc _ =? 0)]; by destruct (i_patch_available c).
Qed.

(** C30 [refetch_is_quiet]: upserting the same items again, each CVE once, records no change and alters no column but the
    time of the update. *)
Theorem refetch_is_quiet now now' l t : NoDup (map i_cve_id (written l)) ->
  upsert now' l (upsert now l t) = set_cves (update_in (touch now') (map i_cve_id (written l)) (cves (upsert now l t))) (upsert now l t).
Proof.
  intros ND. set (t1 := upsert now l t).
  assert (R : forall c, c ∈ written l -> cves t1 !! i_cve_id c = Some (refreshed now (cves t) c)) by (intros c I; unfold t1; rewrite upsert_table; by apply refresh_in).
  assert (H : history_of now' t1 l = []).
  { unfold history_of. apply flat_map_empty. intros c I. rewrite R by (by apply list_elem_of_In). cbn [fmap option_fmap option_map]. by rewrite refresh_no_news. }
  assert (C : cves (upsert now' l t1) = update_in (touch now') (map i_cve_id (written l)) (cves t1)).
  { apply map_eq. intros i. rewrite upsert_table, lookup_update_in. destruct (decide (i ∈ map i_cve_id (written l))) as [I|I].
    - pose proof I as J. apply list_elem_of_fmap in J as (c & -> & J). rewrite refresh_in by done. apply one_in_spec in I as ->. rewrite R by done. cbn. f_equal. rewrite <-refresh_settles.
      unfold refreshed at 1. by rewrite R.
    - rewrite refresh_out by done. destruct (one_in _ i) eqn:K; [by apply one_in_spec in K|]. by destruct (cves t1 !! i). }
  rewrite upsert_is, H, app_nil_r, <-upsert_table, C. reflexivity.
Qed.
End facts.

(** ** Additive enrichment *)

Section enrich.
Variable json_list : list string -> string.
Variable json_matches : list cpe_match -> string.
Variable py_str : pyval -> string.
Variable json_loads : string -> option pyval.
Hypothesis dumps_read : forall l, json_loads (json_list l) = Some (PList (map PStr l)) /\ nonempty (json_list l) = true.
#[local] Abbreviation more := (richer py_str json_loads).

(** A row that says at least as much and is the same in all the columns the merge does not know. *)
Definition enriched (r r' : row) : Prop := more (says r) (says r') /\ r' = row_says (says r') (updated_at r') r.
(** Every row of the first table is there, enriched. *)
Definition keeps_all (m m' : gmap string row) : Prop := forall i r, m !! i = Some r -> exists r', m' !! i = Some r' /\ enriched r r'.

Lemma enriched_refl r : enriched r r.
Proof. split; [reflexivity|by destruct r]. Qed.

Lemma enriched_trans r s t : enriched r s -> enriched s t -> enriched r t.
Proof. intros [A1 A2] [B1 B2]. split; [by etransitivity|]. rewrite B2, A2. reflexivity. Qed.

Lemma keeps_all_insert m m' i r r' : keeps_all m m' -> m' !! i = Some r -> enriched r r' -> keeps_all m (<[i := r']> m').
Proof.
  intros K L E j s M. destruct (K j s M) as (s' & L' & E'). destruct (decide (i = j)) as [->|N]; [|by exists s'; rewrite lookup_insert_ne].
  exists r'. rewrite lookup_insert_eq. rewrite L in L'. injection L' as <-. split; [done|]. by eapply enriched_trans.
Qed.

Lemma store_one e i t : cves (_store_ssvc e i t) = cves t.
Proof. unfold _store_ssvc. by destruct (has_ssvc e). Qed.
Lemma store_ssvc_cves l : forall t, cves (fold_left (fun t e => _store_ssvc e (upper (n_cve_id e)) t) l t) = cves t.
Proof. induction l as [|e l IH]; intros t; [done|]. cbn [fold_left]. by rewrite IH, store_one. Qed.

Lemma of_enrichment_id e c : of_enrichment e = Ok c -> i_cve_id c = n_cve_id e.
Proof. unfold of_enrichment. destruct (n_published e); try done. destruct (n_modified e); try done. by intros [= <-]. Qed.

Lemma written_ids l : forall items, map_res of_enrichment l = Ok items -> forall i, i ∈ map i_cve_id (written items) -> exists e, e ∈ l /\ i = upper (n_cve_id e).
Proof.
  induction l as [|e l IH]; intros items; cbn [map_res].
  - intros [= <-] i I. by apply elem_of_nil in I.
  - destruct (of_enrichment e) as [c|] eqn:C; [|done]. cbn [res_bind]. destruct (map_res of_enrichment l) as [cs|]; [|done]. cbn [res_bind]. intros [= <-] i I.
    unfold written in I. cbn [List.filter] in I. assert (K : i = upper (i_cve_id c) \/ i ∈ map i_cve_id (written cs)).
    { destruct (nonempty (strip (i_cve_id c))); [|by right]. cbn [map] in I. apply elem_of_cons in I as [->|I]; [by left|by right]. }
    destruct K as [->|K].
    + exists e. split; [constructor|]. by rewrite (of_enrichment_id _ _ C).
    + destruct (IH cs eq_refl i K) as (e' & J & ->). exists e'. split; [by constructor|done].
Qed.

Section run.
Variable t0 : tables.
(** What the loop keeps: every row of the start, and no pending insert of a CVE that has a row. *)
Definition loop_ok (st : additive) : Prop :=
  keeps_all (cves t0) (cves (work (a_db st))) /\ forall e, e ∈ a_pending st -> cves t0 !! upper (n_cve_id e) = None.

Lemma flush_ok now st st' : loop_ok st -> _flush_inserts json_list json_matches now st = Ok st' -> loop_ok st'.
Proof.
  intros [K P]. unfold _flush_inserts. destruct (a_pending st) as [|e0 l] eqn:E; [intros [= <-]; split; [done|by rewrite E]|].
  destruct (map_res of_enrichment (e0 :: l)) as [items|] eqn:M; [|done]. cbn [res_bind]. intros [= <-]. split; [|intros e I; by apply elem_of_nil in I].
  cbn [a_db on_work work]. rewrite store_ssvc_cves, store_one, upsert_table. intros i r L. destruct (K i r L) as (r' & L' & R). exists r'. split; [|done]. rewrite refresh_out; [done|].
  intros I. destruct (written_ids _ _ M i I) as (e & J & ->). by rewrite (P e J) in L.
Qed.

Lemma flush_and_commit_ok now ce st st' : loop_ok st -> flush_and_commit json_list json_matches now ce st = Ok st' -> loop_ok st'.
Proof.
  unfold flush_and_commit. intros K. set (s := mkAdditive _ _ _ _). assert (K' : loop_ok s) by exact K. destruct (due _ _); [|by intros [= <-]].
  destruct (_flush_inserts json_list json_matches now s) as [s'|] eqn:F; [|done]. cbn [res_bind]. intros [= <-]. exact (flush_ok _ _ _ K' F).
Qed.

Lemma enrich_one_ok now ce e st st' : loop_ok st -> enrich_one json_list json_matches py_str json_loads now ce st e = Ok st' -> loop_ok st'.
Proof.
  intros [K P]. unfold enrich_one. destruct (nonempty (upper (n_cve_id e))); cbn [negb]; [|by intros [= <-]].
  destruct (cves (work (a_db st)) !! upper (n_cve_id e)) as [r|] eqn:L.
  - destruct (merge_additive_cve_fields py_str json_loads (says r) e) as [u|] eqn:M; [|done]. cbn [res_bind]. apply flush_and_commit_ok. split; [|exact P]. cbn [a_db on_work work].
    rewrite store_one. unfold additive_update. destruct (no_updates u); [exact K|].
    cbn [cves set_cves]. eapply keeps_all_insert; [exact K|exact L|]. split; [|reflexivity]. cbn [says row_says]. by apply (merge_richer py_str json_loads json_list dumps_read _ e).
  - apply flush_and_commit_ok. split; [exact K|]. cbn [a_pending]. intros e' I. apply elem_of_app in I as [I|I]; [by apply P|]. apply list_elem_of_singleton in I as ->.
    destruct (cves t0 !! upper (n_cve_id e)) as [r|] eqn:T; [|done]. destruct (K _ _ T) as (r' & L' & _). by rewrite L in L'.
Qed.
End run.

(** C34 [enrichments_never_downgrade]: after a run of additive enrichment every row that was there is there and says at least
    what it said: its score, texts and dates, a severity at least as high, every weakness and product; nothing else of it changed. *)
Theorem enrichments_never_downgrade now l commit_every d d' n :
  apply_additive_cve_enrichments json_list json_matches py_str json_loads now l commit_every d = Ok (d', n) -> keeps_all (cves (work d)) (cves (work d')).
Proof.
  unfold apply_additive_cve_enrichments. set (s0 := mkAdditive d 0 [] 0). assert (S0 : loop_ok (work d) s0).
  { split; [|intros e I; by apply elem_of_nil in I]. intros i r L. exists r. split; [done|apply enriched_refl]. }
  destruct (fold_res _ l s0) as [s1|] eqn:F; [|done]. cbn [res_bind]. destruct (_flush_inserts _ _ _ s1) as [s2|] eqn:G; [|done]. cbn [res_bind]. intros [= <- _].
  apply (flush_ok _ now s1 s2); [|exact G]. refine (fold_res_inv (loop_ok (work d)) _ l _ s0 s1 S0 F). intros a e a' _ A. apply enrich_one_ok, A.
Qed.
End enrich.

(** ** The daily snapshot *)

Lemma scored_rows_spec m i s : (i, s) ∈ scored m <-> exists r, m !! i = Some r /\ epss_score r = Some s.
Proof.
  unfold scored. rewrite list_elem_of_omap. split.
  - intros (j & _ & E). destruct (m !! j) as [r|] eqn:L; [|done]. destruct (epss_score r) as [x|] eqn:S; [|done]. injection E as <- <-. by exists r.
  - intros (r & L & S). exists i. rewrite L, S. split; [|done]. rewrite sorted_perm. apply elem_of_elements, elem_of_dom. by exists r.
Qed.

Lemma scored_sorted m : StronglySorted before (map fst (scored m)).
Proof.
  unfold scored. pose proof (sorted_strict (elements (dom m)) (NoDup_elements _)) as S. induction S as [|i l S IH F]; [constructor|]. cbn [omap list_omap].
  destruct (m !! i) as [r|]; [|exact IH]. destruct (epss_score r); [|exact IH]. cbn [option_map map fst]. constructor; [exact IH|]. apply List.Forall_forall. intros j J.
  rewrite List.Forall_forall in F. apply F. apply list_elem_of_In, list_elem_of_fmap in J as ([j' s] & -> & J). cbn [fst]. apply list_elem_of_omap in J as (k & K & E).
  destruct (m !! k) as [r'|]; [|done]. destruct (epss_score r'); [|done]. injection E as <- <-. by apply list_elem_of_In.
Qed.

Lemma after_in_sorted (a b : list (string * fl)) x : StronglySorted before (map fst (a ++ x :: b)%list) ->
  List.filter (fun e => String.ltb (fst x) (fst e)) (a ++ x :: b)%list = b.
Proof.
  induction a as [|y a IH]; cbn [app map]; intros S; apply StronglySorted_inv in S as [S F].
  - cbn [List.filter]. rewrite ltb_irrefl. clear S. induction b as [|z b IHb]; [done|]. cbn [map] in F. apply Forall_cons in F as [F1 F2]. cbn [List.filter]. unfold before in F1. rewrite F1. f_equal. by apply IHb.
  - cbn [List.filter]. rewrite IH by exact S. destruct (String.ltb (fst x) (fst y)) eqn:L; [|done]. exfalso. rewrite map_app in F. apply Forall_app in F as [_ F]. cbn [map] in F. apply Forall_cons in F as [F _].
    pose proof (ltb_trans _ _ _ L F) as C. by rewrite ltb_irrefl in C.
Qed.

Lemma after_nothing (l : list (string * fl)) : (forall e, e ∈ l -> fst e <> "") -> List.filter (fun e => String.ltb "" (fst e)) l = l.
Proof.
  induction l as [|e l IH]; intros N; [done|]. cbn [List.filter]. assert (String.ltb "" (fst e) = true) as -> by (pose proof (N e (list_elem_of_here _ _)); by destruct (fst e)).
  f_equal. apply IH. intros x I. apply N. by constructor.
Qed.

Definition day_rows (day : string) (l : list (string * fl)) (h : gmap (string * string) fl) : gmap (string * string) fl := fold_left (fun h e => <[(fst e, day) := snd e]> h) l h.

Lemma work_bulk n ce d : work (_maybe_bulk_commit n ce d) = work d.
Proof. unfold _maybe_bulk_commit. by destruct (due ce n). Qed.

Lemma page_split {A} n (b : list A) : exists page rest, firstn n b = page /\ b = (page ++ rest)%list /\ ((length page < n)%nat -> rest = []).
Proof. exists (firstn n b), (skipn n b). split; [done|]. split; [by rewrite firstn_skipn|]. rewrite length_firstn. intros L. apply skipn_all2. lia. Qed.

(** The loop from a position of the list on. *)
Lemma snapshot_from day ce limit (P : (0 < limit)%nat) m : forall fuel b a after pages total d,
  cves (work d) = m -> scored m = (a ++ b)%list -> List.filter (fun e => String.ltb after (fst e)) (scored m) = b -> (length b < fuel)%nat ->
  exists d', snapshot_loop fuel day ce limit after pages total d = Some (d', total + Z.of_nat (length b)) /\ work d' = set_epss_history (day_rows day b (epss_history (work d))) (work d).
Proof.
  induction fuel as [|fuel IH]; intros b a after pages total d M E A L; [lia|]. cbn [snapshot_loop]. unfold page_after. rewrite M, A. clear A. destruct (page_split limit b) as (page & rest & -> & B & SH).
  destruct (last page) as [lst|] eqn:Q.
  - set (d1 := _maybe_bulk_commit _ _ _). assert (W : work d1 = snapshot_page day page (work d)) by (unfold d1; by rewrite work_bulk). destruct (length page <? limit)%nat eqn:F.
    + apply Nat.ltb_lt in F. rewrite (SH F), app_nil_r in B. subst page. exists d1. split; [done|]. by rewrite W.
    + clear F SH. apply last_Some in Q as (p & ->). subst b. rewrite length_app in L. rewrite length_app in *. cbn [length] in *.
      destruct (IH rest (a ++ p ++ [lst])%list (fst lst) (pages + 1) (total + Z.of_nat (length p + 1)) d1) as (d' & R & W'); [by rewrite W|by rewrite E, <-!app_assoc| |lia|].
      * rewrite E, <-app_assoc, app_assoc. cbn [app]. apply after_in_sorted. replace ((a ++ p) ++ lst :: rest)%list with (scored m); [apply scored_sorted|]. by rewrite E, <-!app_assoc.
      * exists d'. rewrite R. split; [f_equal; f_equal; rewrite ?length_app; cbn [length]; lia|]. rewrite W', W. unfold snapshot_page, set_epss_history, day_rows. cbn. by rewrite <-fold_left_app.
  - apply last_None in Q. subst page. assert (b = []) as -> by (rewrite B; apply SH; cbn; lia). exists d. rewrite Z.add_0_r. split; [done|]. by destruct d as [[] ?].
Qed.

Lemma day_rows_lookup day l : forall h i date, NoDup (map fst l) ->
  day_rows day l h !! (i, date) = match (if String.eqb date day then List.find (fun e => String.eqb (fst e) i) l else None) with Some e => Some (snd e) | None => h !! (i, date) end.
Proof.
  induction l as [|[j s] l IH]; intros h i date ND; [by destruct (String.eqb date day)|]. cbn [map fst] in ND. apply NoDup_cons in ND as [N ND]. unfold day_rows in *. cbn [fold_left fst snd List.find]. rewrite IH by done.
  destruct (String.eqb_spec date day) as [->|K]; [|by rewrite lookup_insert_ne by congruence]. destruct (String.eqb_spec j i) as [->|K'].
  - assert (List.find (fun e => String.eqb (fst e) i) l = None) as ->; [|by rewrite lookup_insert_eq]. destruct (List.find _ l) as [e|] eqn:F; [|done]. apply find_some in F as [F1 F2%String.eqb_eq]. destruct N. rewrite <-F2. apply list_elem_of_fmap. exists e. split; [done|by apply list_elem_of_In].
  - destruct (List.find _ l); [done|]. by rewrite lookup_insert_ne by congruence.
Qed.

Lemma strict_keys (l : list (string * fl)) : StronglySorted before (map fst l) -> NoDup (map fst l).
Proof. intros S. by apply strict_nodup. Qed.

(** C28 [snapshot_takes_every_score]: the paged snapshot ends, whatever the page size, and has then written for the day the score of
    each scored CVE and nothing else; its answer is their number. *)
Theorem snapshot_takes_every_score day ce page_size d fuel : (forall i, is_Some (cves (work d) !! i) -> i <> "") -> (length (scored (cves (work d))) < fuel)%nat ->
  exists d', snapshot_epss_scores fuel day ce page_size d = Some (d', Z.of_nat (length (scored (cves (work d))))) /\ cves (work d') = cves (work d) /\
    forall i date, epss_history (work d') !! (i, date) =
      match (if String.eqb date day then cves (work d) !! i ≫= epss_score else None) with Some s => Some s | None => epss_history (work d) !! (i, date) end.
Proof.
  intros N F. unfold snapshot_epss_scores. set (limit := match page_size with Some (S n) => S n | _ => _SQLITE_IN_CHUNK end). set (m := cves (work d)) in *.
  assert (P : (0 < limit)%nat) by (unfold limit, _SQLITE_IN_CHUNK; destruct page_size as [[|]|]; lia).
  destruct (snapshot_from day ce limit P m fuel (scored m) [] "" 0 0 d) as (d' & R & W); [done|done| |done|].
  { apply after_nothing. intros [i s] (r & L & _)%scored_rows_spec. cbn. apply N. by exists r. }
  exists d'. split; [exact R|]. rewrite W. split; [done|]. intros i date. cbn [epss_history set_epss_history]. rewrite day_rows_lookup by apply strict_keys, scored_sorted.
  destruct (String.eqb date day); [|done]. destruct (List.find _ (scored m)) as [[j s]|] eqn:Q.
  - apply find_some in Q as [Q1 Q2%String.eqb_eq]. cbn [fst] in Q2. subst j. apply list_elem_of_In, scored_rows_spec in Q1 as (r & L & S). rewrite L. cbn. by rewrite S.
  - destruct (m !! i) as [r|] eqn:L; [|done]. cbn. destruct (epss_score r) as [s|] eqn:S; [|done]. exfalso. assert (I : In (i, s) (scored m)) by (apply list_elem_of_In, scored_rows_spec; by exists r).
    pose proof (find_none _ _ Q _ I) as K. cbn in K. by rewrite String.eqb_refl in K.
Qed.

(** ** Examples *)

Definition json_of_matches (l : list cpe_match) : string := match l with [] => "[]" | _ => "[...]" end.
Definition an_item (score : option fl) (poc : bool) : item :=
  mkItem "cve-2026-0001" "A flaw in nginx." score "UNKNOWN" "2026-07-01" "2026-07-02" ["f5:nginx"] [] None None false None poc false [] [].
Definition record_of_nginx : enrichment :=
  mkEnrichment "CVE-2026-0001" "" (Some (Fin (inject_Z 9))) "CRITICAL" (PStr "2026-07-01") (PStr "2026-07-02") ["f5:nginx"] ["CWE-79"] None.
Abbreviation refresh := (upsert_cves seal_list json_of_matches).
Definition stored_once : tables := refresh "2026-07-03" [an_item None true] empty_tables.

Lemma refetch_is_quiet_witness :
  refresh "2026-07-04" [an_item (Some (Fin (inject_Z 7))) true] (refresh "2026-07-03" [an_item (Some (Fin (inject_Z 7))) true] stored_once) =
  set_cves (update_in (touch "2026-07-04") ["CVE-2026-0001"] (cves (refresh "2026-07-03" [an_item (Some (Fin (inject_Z 7))) true] stored_once))) (refresh "2026-07-03" [an_item (Some (Fin (inject_Z 7))) true] stored_once) /\
  length (cve_change_history (refresh "2026-07-03" [an_item (Some (Fin (inject_Z 7))) true] stored_once)) = 2%nat.
Proof.
  split; [|vm_compute; reflexivity]. apply (refetch_is_quiet seal_list json_of_matches "2026-07-03" "2026-07-04" [an_item (Some (Fin (inject_Z 7))) true] stored_once). vm_compute. repeat constructor. intros I. inversion I.
Defined.

Lemma enrichments_never_downgrade_witness : exists d' n,
  apply_additive_cve_enrichments seal_list json_of_matches no_text_of open_list "2026-07-04" [record_of_nginx] (Some 1) (alone stored_once) = Ok (d', n) /\ n = 1 /\
  option_map (fun r => (s_cvss_score (says r), s_severity (says r))) (cves (work d') !! "CVE-2026-0001") = Some (Some (Fin (inject_Z 9)), Some "CRITICAL") /\
  keeps_all no_text_of open_list (cves stored_once) (cves (work d')).
Proof.
  destruct (is_ok_spec (apply_additive_cve_enrichments seal_list json_of_matches no_text_of open_list "2026-07-04" [record_of_nginx] (Some 1) (alone stored_once))) as [[d' n] E]; [vm_compute; reflexivity|].
  exists d', n. split; [exact E|].
  assert (X : option_map (fun r : db * Z => (snd r, option_map (fun r => (s_cvss_score (says r), s_severity (says r))) (cves (work (fst r)) !! "CVE-2026-0001")))
    (ok_of (apply_additive_cve_enrichments seal_list json_of_matches no_text_of open_list "2026-07-04" [record_of_nginx] (Some 1) (alone stored_once))) = Some (1, Some (Some (Fin (inject_Z 9)), Some "CRITICAL"))) by (vm_compute; reflexivity).
  rewrite E in X. cbn [ok_of option_map fst snd] in X. injection X as X1 X2. split; [exact X1|]. split; [exact X2|].
  exact (enrichments_never_downgrade seal_list json_of_matches no_text_of open_list seal_read "2026-07-04" [record_of_nginx] (Some 1) (alone stored_once) d' n E).
Defined.

Definition scored_row (score : option fl) : row := mkRow quiet_row None None None None (Some 0) (Some 0) score None (Some 0) (Some 0) (Some 0) None "".
Definition three_rows : tables :=
  set_cves (<["CVE-2026-0001" := scored_row (Some (Fin (1 # 2)))]> (<["CVE-2026-0002" := scored_row None]> (<["CVE-2026-0003" := scored_row (Some (Fin (1 # 4)))]> ∅))) empty_tables.

Lemma snapshot_takes_every_score_witness : exists d', snapshot_epss_scores 3 "2026-07-20" (Some 1) (Some 1%nat) (alone three_rows) = Some (d', 2) /\
  (forall i date, epss_history (work d') !! (i, date) =
      match (if String.eqb date "2026-07-20" then cves three_rows !! i ≫= epss_score else None) with Some s => Some s | None => epss_history three_rows !! (i, date) end) /\
  epss_history (work d') !! ("CVE-2026-0003", "2026-07-20") = Some (Fin (1 # 4)).
Proof.
  destruct (snapshot_takes_every_score "2026-07-20" (Some 1) (Some 1%nat) (alone three_rows) 3) as (d' & R & _ & H).
  - intros i [r L] ->. vm_compute in L. discriminate L.
  - vm_compute. repeat constructor.
  - exists d'. split; [exact R|]. split; [exact H|]. exact (H "CVE-2026-0003" "2026-07-20").
Defined.

(** Finding [refresh_erases_enrichment]: an item that NVD has not scored sets a score, a severity and weaknesses that another
    source gave back to nothing, and the history records the loss; the next enrichment puts them back without a change row. *)
Definition enriched_once : tables := done_or stored_once (apply_additive_cve_enrichments seal_list json_of_matches no_text_of open_list "2026-07-04" [record_of_nginx] None (alone stored_once)) (fun r => work (fst r)).
Lemma refresh_erases_enrichment :
  let shown t := option_map (fun r => (s_cvss_score (says r), s_severity (says r), s_cwe_ids (says r))) (cves t !! "CVE-2026-0001") in
  let t := refresh "2026-07-05" [an_item None true] enriched_once in
  shown enriched_once = Some (Some (Fin 9), Some "CRITICAL", Some (seal_list ["CWE-79"])) /\ shown t = Some (None, Some "UNKNOWN", Some (seal_list [])) /\
  cve_change_history t = (cve_change_history enriched_once ++ [mkChange "CVE-2026-0001" "cvss_score" "9" "" "2026-07-05"])%list /\ cve_change_history enriched_once = cve_change_history stored_once.
Proof. vm_compute. repeat split. Qed.

(** Finding [duplicates_are_recorded_twice]: the changes of a batch are found against the rows before it, so a CVE that comes twice
    in one is recorded twice. *)
Lemma duplicates_are_recorded_twice : length (cve_change_history (refresh "1" [an_item None true; an_item None true] empty_tables)) = 2%nat.
Proof. vm_compute. reflexivity. Qed.
