(* ===== verification/CveFlags.v ===== *)
(** * CveFlags: the flags of exploited CVEs over every write to the store

    The writes of [CveStore] as one type of steps, and what the KEV flag, the change history and
    the VulnCheck flag are after any run of them. *)

From Stdlib Require Import QArith Sorted.
From S2P Require Import Prelude PyStr PyVal Dates DateText Float64 CveRow Campaigns NvdParse CveRecord CveStore.
Open Scope string_scope.
Open Scope Z_scope.

(** ** The exploited flag and its history *)

Section exploited.
Variable set_order : gset string -> list string.
Variable json_list : list string -> string.
Variable json_matches : list cpe_match -> string.
Variable py_str : pyval -> string.
Variable json_loads : string -> option pyval.
Variable json_urls : string -> option (list string).
Hypothesis set_order_perm : forall x, Permutation (set_order x) (elements x).




Definition flagged (i : string) (t : tables) : bool := match cves t !! i with Some r => is_one (is_kev r) | None => false end.





(** A write that leaves the flags: of the rows there, and 0 in new ones. *)
Definition same_flags (m m' : gmap string row) : Prop := forall i, is_kev <$> m' !! i = is_kev <$> m !! i \/ (m !! i = None /\ is_kev <$> m' !! i = Some (Some 0)).
Definition no_event (c : change) : Prop := field_name c <> "is_kev".
Record quiet (t t' : tables) : Prop := mkQuiet { q_flags : same_flags (cves t) (cves t'); q_history : exists h, cve_change_history t' = (cve_change_history t ++ h)%list /\ Forall no_event h }.

Lemma same_flags_trans m m' m'' : same_flags m m' -> same_flags m' m'' -> same_flags m m''.
Proof.
  intros A B i. destruct (A i) as [A1|[A1 A2]], (B i) as [B1|[B1 B2]].
  - left. by rewrite B1.
  - right. rewrite B1 in A1. split; [|done]. by destruct (m !! i).
  - right. by rewrite B1.
  - by rewrite B1 in A2.
Qed.
#[global] Instance quiet_preorder : PreOrder quiet.
Proof.
  split.
  - intros t. split; [by left|]. exists []. by rewrite app_nil_r.
  - intros t u v [A (h & A1 & A2)] [B (h' & B1 & B2)]. split; [by eapply same_flags_trans|]. exists (h ++ h')%list. rewrite B1, A1, app_assoc. split; [done|]. by apply Forall_app.
Qed.




(** ** Each write *)









Lemma select_spec test chunk m i : i ∈ select_in set_order test chunk m <-> exists r, m !! i = Some r /\ i ∈ chunk /\ test r = true.
Proof.
  unfold select_in. rewrite set_order_perm, elem_of_elements, elem_of_dom. unfold is_Some. setoid_rewrite map_lookup_filter_Some. cbn [fst snd]. setoid_rewrite andb_true_iff. setoid_rewrite one_in_spec. naive_solver.
Qed.























(** ** What the flag jobs leave *)

Lemma flag_chunks_are n ce l : forall d ops u, let '(d', _, _) := fold_left (flag_chunk n ce) l (d, ops, u) in
  cves (work d') = update_in (with_vulncheck n) (concat l) (cves (work d)).
Proof.
  induction l as [|c l IH]; intros d ops u; cbn [fold_left].
  - cbn [concat]. apply map_eq. intros i. rewrite lookup_update_in. by destruct (cves (work d) !! i).
  - cbn [flag_chunk]. set (d1 := _maybe_bulk_commit _ _ _). specialize (IH d1 (ops + 1) (u + Z.of_nat (size (filter (fun kv => one_in c (fst kv) = true) (cves (work d)))))). destruct (fold_left _ l _) as [[d' ops'] u']. rewrite IH.
    unfold d1. rewrite work_bulk. cbn [on_work work cves set_cves concat]. rewrite <-(fold_update_in (with_vulncheck n) (fun r => eq_refl) (c :: l)). cbn [fold_left]. by rewrite fold_update_in.
Qed.

(** [vulncheck_mirrors_the_catalogue]: after the sync, whatever the chunks and commits, the flag of a row is 1 where the catalogue
    has the CVE, 0 where it was 1 and the catalogue has it no more, and otherwise as it was; nothing else of a row changed. *)
Theorem vulncheck_mirrors_the_catalogue ids ce d i :
  cves (work (fst (sync_vulncheck_exploited_flags ids ce d))) !! i =
  (fun r => if one_in (map (fun c => upper (strip c)) (List.filter nonempty ids)) i then with_vulncheck 1 r
            else if is_one (is_vulncheck_exploited r) then with_vulncheck 0 r else r) <$> cves (work d) !! i.
Proof.
  unfold sync_vulncheck_exploited_flags. set (names := map _ _). set (flagged0 := dom _). set (clear := chunks _ (sorted (elements _))). pose proof (flag_chunks_are 0 ce clear d 0 0) as A.
  destruct (fold_left (flag_chunk 0 ce) clear (d, 0, 0)) as [[d1 ops] u]. pose proof (flag_chunks_are 1 ce (chunks _SQLITE_IN_CHUNK (sorted_distinct names)) d1 ops 0) as B.
  destruct (fold_left (flag_chunk 1 ce) _ (d1, ops, 0)) as [[d2 ops'] u']. cbn [fst]. rewrite B, A. unfold clear. rewrite !concat_chunks by (unfold _SQLITE_IN_CHUNK; lia). rewrite !lookup_update_in.
  destruct (cves (work d) !! i) as [r|] eqn:L; [|done]. cbn [fmap option_fmap option_map]. f_equal. assert (C : one_in (sorted_distinct names) i = one_in names i) by (apply eq_true_iff_eq; by rewrite !one_in_spec, sorted_distinct_elem). rewrite C.
  destruct (one_in names i) eqn:I.
  - by destruct (one_in (sorted _) i).
  - assert (F : one_in (sorted (elements (flagged0 ∖ list_to_set (sorted_distinct names)))) i = is_one (is_vulncheck_exploited r)); [|by rewrite F].
    apply eq_true_iff_eq. rewrite one_in_spec, sorted_perm, elem_of_elements, elem_of_difference, elem_of_list_to_set, <-one_in_spec, C. unfold flagged0. rewrite elem_of_dom. unfold is_Some. setoid_rewrite map_lookup_filter_Some. cbn [fst snd]. rewrite L. naive_solver.
Qed.

Lemma mark_chunk_is now chunk t : cves (snd (mark_chunk set_order now chunk t)) = update_in (with_kev 1) chunk (cves t).
Proof. reflexivity. Qed.

(** A run that is not interrupted reports the rows whose flag it raised and no other. *)
Lemma mark_reports now ce l : forall ops newly d, exists rows, snd (mark_chunks set_order now ce (fun _ => false) l ops newly d) = Ok (newly ++ rows)%list /\
  forall i, i ∈ rows <-> exists r, cves (work d) !! i = Some r /\ i ∈ concat l /\ is_kev r = Some 0.
Proof.
  induction l as [|c l IH]; intros ops newly d; cbn [mark_chunks].
  - exists []. rewrite app_nil_r. split; [done|]. intros i. split; [by intros ?%elem_of_nil|by intros (r & _ & ?%elem_of_nil & _)].
  - destruct (mark_chunk set_order now c (work d)) as [new w] eqn:M. set (d1 := _maybe_bulk_commit _ _ _). destruct (IH (ops + 1) (newly ++ new)%list d1) as (rows & -> & S). exists (new ++ rows)%list. rewrite app_assoc. split; [done|].
    assert (W : cves (work d1) = update_in (with_kev 1) c (cves (work d))) by (unfold d1; rewrite work_bulk; cbn [work]; by rewrite <-(mark_chunk_is now), M).
    assert (N : new = select_in set_order (fun r => is_zero (is_kev r)) c (cves (work d))) by by injection M. intros i. cbn [concat]. setoid_rewrite elem_of_app. rewrite S, W, N, select_spec. setoid_rewrite lookup_update_in.
    assert (Z0 : forall r, is_zero (is_kev r) = true <-> is_kev r = Some 0) by (intros r; destruct (is_kev r) as [n|]; [|done]; cbn; rewrite Z.eqb_eq; split; [by intros ->|by intros [= ->]]).
    destruct (cves (work d) !! i) as [r|]; cbn [fmap option_fmap option_map]; [|naive_solver]. destruct (one_in c i) eqn:I.
    + apply one_in_spec in I. cbn beta. setoid_rewrite Z0. split; [intros [(r' & [= <-] & _ & K)|(r' & [= <-] & _ & K)]; [by exists r; auto|done]|]. intros (r' & [= <-] & _ & K). left. by exists r.
    + assert (NI : i ∉ c) by (intros J; apply one_in_spec in J; congruence). naive_solver.
Qed.
End exploited.

(** ** Examples *)

Abbreviation no_urls := (fun _ : string => Some []).


(** Finding [failed_mark_loses_its_alerts]: with a commit after each chunk, as the KEV job asks for, an exception in a later chunk
    takes the list of the new CVEs with it; the flags of the earlier ones are durable, so no later run reports them. *)
Definition catalogue : list string := (repeat "CVE-2026-0001" 500 ++ ["CVE-2026-0003"])%list.
Lemma failed_mark_loses_its_alerts :
  let run fails d := mark_cves_as_kev elements "2026-07-20" (Some 1) fails catalogue d in
  let d1 := rollback (fst (run (fun n => n =? 1) (alone three_rows))) in
  snd (run (fun n => n =? 1) (alone three_rows)) = Raise TimeoutError /\ flagged "CVE-2026-0001" (work d1) = true /\ snd (run (fun _ => false) d1) = Ok ["CVE-2026-0003"].
Proof. vm_compute. repeat split. Qed.

