(* ===== verification/NvdSync.v ===== *)
(** * NvdSync: feeds/nvd.py (fetching) and scheduler.py, [_run_nvd_incremental_sync]

    A page of the NVD API with its retries and its queue slots, the pages of a query, the window
    that the watermark asks for, and what the job stores of it.  NVD is a parameter: the
    responses to a page's requests, or the page it gives at an index.  Times are
    microseconds of UTC.  The alerts and the external enrichment around the transaction are
    not modelled. *)

From Stdlib Require Import QArith Sorted.
From S2P Require Import Prelude PyStr PyVal Dates DateText Float64.
From S2P Require Pacing ApiQueue.
From S2P Require Import CveRow Campaigns NvdParse CveRecord CveStore.
Open Scope string_scope.
Open Scope Z_scope.

Definition RESULTS_PER_PAGE : Z := 2000.

(** ** One page *)

Definition _is_valid_api_key (key : option string) : bool :=
  match key with
  | Some k => nonempty k && (32 <=? String.length (strip k))%nat && negb (str_in "placeholder" (lower (strip k))) && negb (startswith (strip k) "your_")
  | None => false
  end.
(** The [apiKey] header, if one is sent. *)
Definition _nvd_request_headers (api_key : option string) (key_rejected : bool) : option string :=
  if _is_valid_api_key api_key && negb key_rejected then option_map strip api_key else None.

Record page := mkPage { totalResults : Z; vulnerabilities : list nvd_cve }.
(** The response to one request: a status with what it carries, or no response. *)
Inductive response := Status (code : Z) (body : page) | NoResponse.
(** What the coroutine of a page does, in order. *)
(** [Pause]: the rate limit headers of a 429 are applied; [Success] and [Failure]: what the source registry is told. *)
Inductive effect := Await | Get (key : option string) | Pause | Failure | Success | Release.

(** The loop of one call, the nested call inside the slot of the outer one; [None]: still waiting for a response. *)
Fixpoint _fetch_page (api_key : option string) (key_rejected : bool) (l : list response) : list effect * option (res page) :=
  let header := _nvd_request_headers api_key key_rejected in
  match l with
  | [] => ([Await; Get header], None)
  | r :: rest =>
      let '(tail, result) :=
        match r with
        | NoResponse => ([Failure; Release], Some (Raise HTTPError))
        | Status code body =>
            if code =? 429 then let '(t, x) := _fetch_page api_key key_rejected rest in (Pause :: Release :: t, x)
            else if (code =? 404) && is_some header then
              let '(t, x) := _fetch_page api_key true rest in
              (t ++ match x with Some (Raise _) => [Failure; Release] | Some (Ok _) => [Release] | None => [] end, x)%list
            else if (200 <=? code) && (code <=? 299) then ([Success; Release], Some (Ok body))
            else ([Failure; Release], Some (Raise HTTPStatusError))
        end in
      (Await :: Get header :: tail, result)
  end.

(** The slots held along a run of effects, and whether one is awaited while one is held. *)
Fixpoint waits_on_itself (held : Z) (l : list effect) : bool :=
  match l with
  | [] => false
  | Await :: t => (0 <? held) || waits_on_itself (held + 1) t
  | Release :: t => waits_on_itself (held - 1) t
  | _ :: t => waits_on_itself held t
  end.
Fixpoint held_after (held : Z) (l : list effect) : Z :=
  match l with [] => held | Await :: t => held_after (held + 1) t | Release :: t => held_after (held - 1) t | _ :: t => held_after held t end.

(** ** The pages of a query *)

Inductive query := ByModified (mod_start mod_end : string) | ByPublished (pub_start pub_end : string).

Definition _format_nvd_datetime (us : Z) : string := date_text (us / DAY_US) +:+ "T" +:+ clock_text (us mod DAY_US) +:+ ".000Z".
Definition _parse_nvd_datetime (value : string) : option Z :=
  let text := strip value in
  if negb (nonempty text) then None else option_map utc_us (fromisoformat (if endswith text "Z" then replace_Z text else text)).

Section sync.
Variable set_order : gset string -> list string.
Variable json_list : list string -> string.
Variable json_matches : list cpe_match -> string.
Variable json_urls : string -> option (list string).
Variable env : string -> option string.
(** The page NVD gives for a query at an index. *)
Variable nvd : query -> Z -> res page.

(** The items of a page and the identifiers of the rejected ones, added to those before. *)
Definition _consume_page (acc : list item * list string) (l : list nvd_cve) : list item * list string :=
  fold_left (fun acc c => let '(cves, rejected) := acc in
    match _nvd_rejected_cve_id c with
    | Some i => (cves, rejected ++ [i])%list
    | None => match _parse_cve_item set_order c with Some i => (cves ++ [i], rejected)%list | None => (cves, rejected) end
    end) l acc.

(** The indexes after the first page's. *)
Definition start_indexes (total_results : Z) : list Z :=
  map (fun k => RESULTS_PER_PAGE * (Z.of_nat k + 1)) (seq 0 (Z.to_nat ((total_results - 1) / RESULTS_PER_PAGE))).
Fixpoint more_pages (q : query) (starts : list Z) (acc : list item * list string) : res (list item * list string) :=
  match starts with
  | [] => Ok acc
  | s :: rest =>
      let! p := nvd q s in
      match vulnerabilities p with [] => Ok acc | l => more_pages q rest (_consume_page acc l) end
  end.
Definition _fetch_cves_paginated (q : query) : res (list item * list string) :=
  let! first_page := nvd q 0 in
  more_pages q (start_indexes (totalResults first_page)) (_consume_page ([], []) (vulnerabilities first_page)).

Definition fetch_cves_by_last_modified (mod_start mod_end : Z) : res (list item * list string) :=
  _fetch_cves_paginated (ByModified (_format_nvd_datetime mod_start) (_format_nvd_datetime mod_end)).
Definition fetch_recent_cves (now days_back : Z) : res (list item * list string) :=
  _fetch_cves_paginated (ByPublished (_format_nvd_datetime (now - days_back * DAY_US)) (_format_nvd_datetime now)).

Definition MINUTE_US : Z := 60000000.
(** The start of the window of a watermark. *)
Definition window_start (now watermark overlap_minutes : Z) : Z :=
  let mod_start := watermark - overlap_minutes * MINUTE_US in if 120 * DAY_US <? now - mod_start then now - 120 * DAY_US else mod_start.

Definition fetch_nvd_cve_updates (now : Z) (watermark : option string) (days_back overlap_minutes : Z) : res (list item * string * bool * list string) :=
  let mod_end_iso := _format_nvd_datetime now in
  match (match watermark with Some w => if nonempty w then _parse_nvd_datetime w else None | None => None end) with
  | Some w => let! r := fetch_cves_by_last_modified (window_start now w overlap_minutes) now in Ok (fst r, mod_end_iso, true, snd r)
  | None => let! r := fetch_recent_cves now days_back in Ok (fst r, mod_end_iso, false, snd r)
  end.

(** ** db/sync_state.py *)

Definition NVD_SYNC_WATERMARK_KEY : string := "nvd_last_mod_end".
Record site := mkSite { site_tables : tables; sync_state : gmap string string }.
Definition get_nvd_sync_watermark (s : site) : option string := sync_state s !! NVD_SYNC_WATERMARK_KEY.
Definition set_nvd_sync_watermark (value : string) (s : site) : site := mkSite (site_tables s) (<[NVD_SYNC_WATERMARK_KEY := value]> (sync_state s)).

(** [SELECT MAX(modified) … WHERE modified IS NOT NULL AND modified != ''] *)
Definition later (a b : string) : string := if String.ltb a b then b else a.
Definition latest_modified (m : gmap string row) : string := map_fold (fun _ r acc => later acc (text_or (s_modified (says r)))) "" m.
Definition seed_nvd_watermark_from_cves (s : site) : option string * site :=
  let latest := latest_modified (cves (site_tables s)) in if nonempty latest then (Some latest, set_nvd_sync_watermark latest s) else (None, s).
Definition resolve_nvd_watermark (s : site) : option string * site :=
  match get_nvd_sync_watermark s with
  | Some w => if nonempty w then (Some w, s) else if Z.of_nat (size (cves (site_tables s))) <? 10 then (None, s) else seed_nvd_watermark_from_cves s
  | None => if Z.of_nat (size (cves (site_tables s))) <? 10 then (None, s) else seed_nvd_watermark_from_cves s
  end.

(** ** The job *)

Definition env_int (name default : string) : res Z := int_of_str (Pacing.env_get env name default).
(** [cves.sort(key=…)] *)
Definition earlier (a b : item) : bool := String.ltb (i_modified a) (i_modified b).
Definition sort_items (l : list item) : list item := sort_on earlier l.

(** The items that are kept and the next watermark. *)
Definition capped_items (max_cves : Z) (mod_end_iso : string) (cves : list item) : list item * string :=
  let cves := sort_items cves in
  if max_cves <? Z.of_nat (length cves) then
    let kept := slice_to max_cves cves in
    (kept, match last kept with Some c => if nonempty (i_modified c) then i_modified c else mod_end_iso | None => mod_end_iso end)
  else (cves, mod_end_iso).

(** The transaction: an exception leaves nothing of it. *)
Definition store_updates (stamp : string) (kept : list item) (rejected_ids : list string) (new_watermark : string) (s : site) : res site :=
  let t := fst (purge_legacy_rejected_cves (site_tables s)) in
  let t := fst (delete_cves_by_ids rejected_ids t) in
  let t := upsert_cves json_list json_matches stamp kept t in
  let s := set_nvd_sync_watermark new_watermark (mkSite t (sync_state s)) in
  let updated_ids := map (fun c => upper (i_cve_id c)) (List.filter (fun c => nonempty (i_cve_id c)) kept) in
  match updated_ids with
  | [] => Ok s
  | _ =>
      let t := fst (strip_auto_generated_summaries (Some updated_ids) (site_tables s)) in
      let! t := backfill_display_fields set_order json_urls (Some updated_ids) t in
      let! t := backfill_has_poc set_order json_urls stamp (Some updated_ids) (fst t) in
      Ok (mkSite (fst t) (sync_state s))
  end.

(** The site after the job, and whether the job succeeded. *)
Definition _run_nvd_incremental_sync (now : Z) (stamp : string) (s : site) : site * res unit :=
  match (let! a := env_int "MAX_CVES_PER_FETCH" "2000" in let! b := env_int "NVD_DAYS_BACK" "14" in let! c := env_int "NVD_SYNC_OVERLAP_MINUTES" "15" in Ok (a, b, c)) with
  | Raise e => (s, Raise e)
  | Ok (max_cves, days_back, overlap_minutes) =>
      let '(watermark, seeded) := resolve_nvd_watermark s in
      let s := if is_some (get_nvd_sync_watermark s) then s else seeded in
      match (let! r := fetch_nvd_cve_updates now watermark days_back overlap_minutes in
             let '(cves, mod_end_iso, _, rejected_ids) := r in
             let '(kept, new_watermark) := capped_items max_cves mod_end_iso cves in
             store_updates stamp kept rejected_ids new_watermark s) with
      | Ok s' => (s', Ok tt)
      | Raise e => (s, Raise e)
      end
  end.
End sync.

(** ** The slot of a page *)

Definition is_404 (r : response) : bool := match r with Status code _ => code =? 404 | NoResponse => false end.

(** [fetch_holds_one_slot]: without a 404 to a request that sent a key, a page's coroutine never waits for a slot while it holds
    one, and it has given back every slot when it ends; until then it holds the one of its open request. *)
Theorem fetch_holds_one_slot api_key key_rejected l : (_nvd_request_headers api_key key_rejected = None \/ Forall (fun r => is_404 r = false) l) ->
  let '(trace, result) := _fetch_page api_key key_rejected l in
  waits_on_itself 0 trace = false /\ held_after 0 trace = if is_some result then 0 else 1.
Proof.
  revert key_rejected. induction l as [|r l IH]; intros rej N; [done|]. assert (N' : _nvd_request_headers api_key rej = None \/ Forall (fun r => is_404 r = false) l) by (destruct N as [N|N]; [by left|right; by apply Forall_cons in N as [_ N]]).
  specialize (IH rej N'). cbn [_fetch_page]. destruct r as [code body|]; [|done]. destruct (code =? 429); [by destruct (_fetch_page api_key rej l) as [t x]|].
  assert (K : (code =? 404) && is_some (_nvd_request_headers api_key rej) = false) by (destruct N as [N|N]; [rewrite N; apply andb_false_r|apply Forall_cons in N as [N _]; cbn in N; by rewrite N]).
  rewrite K. by destruct ((200 <=? code) && (code <=? 299)).
Qed.

(** Finding [rejected_key_hangs_the_fetch]: NVD answers 404 to a key it does not know; the call without the key is made inside the slot
    of the first, and the queue of NVD has room for one, whatever the tier: its loop never lets the second in while the first
    is active, and the first ends only after the second. *)
Lemma second_call_waits_inside key rest body : _is_valid_api_key key = true -> waits_on_itself 0 (fst (_fetch_page key false (Status 404 body :: rest))) = true.
Proof.
  intros V. cbn [_fetch_page]. assert (H : is_some (_nvd_request_headers key false) = true) by (unfold _nvd_request_headers; rewrite V; by destruct key). rewrite H. cbn [Z.eqb Pos.eqb andb].
  destruct (_fetch_page key true rest) as [t x] eqn:F. cbn [fst waits_on_itself]. assert (exists t', t = Await :: t') as [t' ->].
  { destruct rest as [|r rest]; cbn [_fetch_page] in F; [injection F as <- _; by eexists|]. match type of F with (let '(a, b) := ?X in _) = _ => destruct X end. injection F as <- _. by eexists. }
  reflexivity.
Qed.

Lemma queue_has_room_for_one env json_loads catchup p : Pacing.get_source_pacing env json_loads catchup "nvd" = Ok p -> Pacing.max_concurrent p = 1.
Proof. intros G. by rewrite (Pacing.pacing_concurrency env json_loads catchup "nvd" p G). Qed.

Lemma rejected_key_hangs_the_fetch env json_loads catchup p q rid r now t1 t2 : Pacing.get_source_pacing env json_loads catchup "nvd" = Ok p ->
  1 <= ApiQueue.ss_active (ApiQueue.source_at q (ApiQueue.rq_pacing_key r)) ->
  exists q', ApiQueue.poll q rid r p now t1 t2 = (q', Some (lit (1 # 4))) /\
    ApiQueue.ss_active (ApiQueue.source_at q' (ApiQueue.rq_pacing_key r)) = ApiQueue.ss_active (ApiQueue.source_at q (ApiQueue.rq_pacing_key r)).
Proof.
  intros G A. unfold ApiQueue.poll. rewrite (queue_has_room_for_one env json_loads catchup p G). apply Z.leb_le in A as ->. eexists. split; [reflexivity|].
  unfold ApiQueue.source_at at 1, ApiQueue.set_request, ApiQueue.set_source. cbn. by rewrite lookup_insert_eq.
Qed.

(** ** Times as NVD writes them *)

Definition unzoned (s : string) : bool := sforall (fun c => negb (Ascii.eqb c "Z")) s.
Lemma replace_Z_app a r : unzoned a = true -> replace_Z (a +:+ r) = a +:+ replace_Z r.
Proof. induction a as [|c a IH]; [done|]. unfold unzoned. cbn [sforall]. intros [C H]%andb_true_iff. rewrite !app_cons. cbn [replace_Z]. apply negb_true_iff in C. rewrite C. f_equal. by apply IH. Qed.

Definition stamp_char (c : ascii) : bool := is_digit c || Ascii.eqb c "-" || Ascii.eqb c ":".
Lemma zfill_stamp w n : sforall stamp_char (zfill w n) = true.
Proof. eapply sforall_weaken; [|apply zfill_digits]. intros c H. unfold stamp_char. by rewrite H. Qed.
Lemma date_stamp d : sforall stamp_char (date_text d) = true.
Proof. unfold date_text. destruct (civil_from_days d) as [[y m] n]. by rewrite !sforall_app, !zfill_stamp. Qed.
Lemma clock_stamp us : sforall stamp_char (clock_text us) = true.
Proof. unfold clock_text. by rewrite !sforall_app, !zfill_stamp. Qed.
Lemma stamp_plain p s : (forall c, stamp_char c = true -> p c = true) -> sforall stamp_char s = true -> sforall p s = true.
Proof. intros H. apply sforall_weaken. exact H. Qed.

Lemma parse_clock_millis us : 0 <= us < DAY_US -> parse_time (clock_text us +:+ ".000+00:00") = Some (us - us mod 1000000, Some 0).
Proof.
  intros B. unfold parse_time. assert (CT : cut_tz (clock_text us +:+ ".000+00:00") = (clock_text us +:+ ".000", "+00:00")) by (rewrite cut_tz_app by apply clock_text_unmarked; reflexivity). rewrite CT. clear CT.
  assert (P : parse_clock (clock_text us +:+ ".000") = Some (us / 3600000000, us / 60000000 mod 60, us / 1000000 mod 60, 0)).
  { destruct (clock_fields us B) as (H & M & S & _). unfold parse_clock, clock_text. rewrite !sapp_assoc. rewrite digits_zfill by (cbn; lia). rewrite eat_sep, app_cons. cbv zeta iota.
    rewrite digits_zfill by (cbn; lia). rewrite eat_sep, app_cons. cbv iota. by rewrite digits_zfill by (cbn; lia). }
  rewrite P. change (parse_tz "+00:00") with (Some (Some 0)). destruct (clock_fields us B) as (H & M & S & E).
  rewrite (proj2 (Z.leb_le _ 23)), (proj2 (Z.leb_le _ 59)), (proj2 (Z.leb_le _ 59)) by lia. cbn [andb]. by rewrite E.
Qed.

(** What is written for NVD is read back, to the second. *)
Lemma format_parses us : MIN_US <= us <= MAX_US -> _parse_nvd_datetime (_format_nvd_datetime us) = Some (us - us mod 1000000).
Proof.
  intros B. destruct (day_split us) as (E & M & M6 & _). pose proof (parse_date_text _ (day_range us B)) as P. pose proof (parse_clock_millis _ M) as C. pose proof (date_text_length (us / DAY_US)) as DL.
  assert (exists c s, clock_text (us mod DAY_US) = String c s) as (c & s & NC).
  { destruct (clock_text (us mod DAY_US)) as [|c s] eqn:N; [|eauto]. apply (f_equal String.length) in N. unfold clock_text in N. rewrite !string_length_app, !zfill_length in N. done. }
  pose proof (date_stamp (us / DAY_US)) as DS. pose proof (clock_stamp (us mod DAY_US)) as CS. pose proof (proj2 (proj2 (strftime_parts us))) as (r & D4). unfold _parse_nvd_datetime, _format_nvd_datetime.
  assert (D5 : exists r, sdrop 4 (date_text (us / DAY_US)) = String "-" r).
  { unfold date_text. destruct (civil_from_days (us / DAY_US)) as [[y m] n]. exists (zfill 2 m +:+ "-" +:+ zfill 2 n). pose proof (sdrop_app (zfill 4 y) ("-" +:+ zfill 2 m +:+ "-" +:+ zfill 2 n)) as Z. rewrite zfill_length in Z. exact Z. }
  clear D4. revert P C DL DS CS NC D5. generalize (date_text (us / DAY_US)) (clock_text (us mod DAY_US)). intros d t P C DL DS CS NC (r' & D5).
  assert (NS : sforall (fun c => negb (is_space c)) (d +:+ "T" +:+ t +:+ ".000Z") = true).
  { rewrite !sforall_app, (stamp_plain _ d), (stamp_plain _ t); try done; intros x; destruct x as [[] [] [] [] [] [] [] []]; done || discriminate. }
  rewrite strip_id by exact NS. assert (NE : nonempty (d +:+ "T" +:+ t +:+ ".000Z") = true) by (destruct d; [discriminate DL|done]). rewrite NE. cbn [negb].
  assert (EZ : endswith (d +:+ "T" +:+ t +:+ ".000Z") "Z" = true).
  { replace (d +:+ "T" +:+ t +:+ ".000Z") with ((d +:+ "T" +:+ t +:+ ".000") +:+ "Z") by (rewrite !sapp_assoc; reflexivity). unfold endswith. change "Z" with (String "Z" "") at 1. rewrite srev_snoc. cbn. by destruct (srev _). }
  rewrite EZ. assert (RZ : replace_Z (d +:+ "T" +:+ t +:+ ".000Z") = d +:+ "T" +:+ t +:+ ".000+00:00").
  { assert (UD : unzoned d = true) by (apply (stamp_plain _ d); [|done]; intros x; destruct x as [[] [] [] [] [] [] [] []]; done || discriminate).
    assert (UT : unzoned t = true) by (apply (stamp_plain _ t); [|done]; intros x; destruct x as [[] [] [] [] [] [] [] []]; done || discriminate).
    rewrite replace_Z_app by done. change ("T" +:+ t +:+ ".000Z") with (String "T" (t +:+ ".000Z")). cbn [replace_Z]. change (Ascii.eqb "T" "Z") with false. cbv iota. rewrite replace_Z_app by done. reflexivity. }
  rewrite RZ. unfold fromisoformat.
  assert (S4 : exists r, sdrop 4 (d +:+ "T" +:+ t +:+ ".000+00:00") = String "-" r).
  { exists (r' +:+ "T" +:+ t +:+ ".000+00:00"). destruct d as [|c0 [|c1 [|c2 [|c3 d]]]]; try discriminate DL. cbn in D5 |- *. by rewrite D5. }
  destruct S4 as [r4 ->]. rewrite Ascii.eqb_refl. cbv zeta. rewrite <-DL. rewrite stake_app, sdrop_app, P. cbn [append]. change ("T" +:+ t +:+ ".000+00:00") with (String "T" (t +:+ ".000+00:00")).
  rewrite NC in C |- *. change (String c s +:+ ".000+00:00") with (String c (s +:+ ".000+00:00")) in *. cbv iota. rewrite C. cbn [option_map utc_us dt_us dt_off]. f_equal. unfold utc_us. cbn [dt_us dt_off]. rewrite M6. lia.
Qed.

(** ** What the pages give *)

Section window.
Variable set_order : gset string -> list string.
Variable json_list : list string -> string.
Variable json_matches : list cpe_match -> string.
Variable json_urls : string -> option (list string).
Variable env : string -> option string.
Variable nvd : query -> Z -> res page.

(** NVD answers a query with the slices of one list, in pages of the size asked for. *)
Definition pages_of (q : query) (l : list nvd_cve) : Prop :=
  forall k, 0 <= k -> nvd q k = Ok (mkPage (Z.of_nat (length l)) (firstn (Z.to_nat RESULTS_PER_PAGE) (skipn (Z.to_nat k) l))).
#[local] Abbreviation read := (_parse_cve_item set_order).

Lemma rejected_is_not_read c i : _nvd_rejected_cve_id c = Some i -> read c = None.
Proof. unfold _nvd_rejected_cve_id, _parse_cve_item. by destruct (_is_nvd_cve_rejected c). Qed.

Lemma consume_is l : forall a b, _consume_page set_order (a, b) l = (a ++ omap read l, b ++ omap _nvd_rejected_cve_id l)%list.
Proof.
  induction l as [|c l IH]; intros a b; [by rewrite !app_nil_r|]. unfold _consume_page in *. cbn [fold_left omap list_omap].
  destruct (_nvd_rejected_cve_id c) as [i|] eqn:R; [by rewrite (rejected_is_not_read _ _ R), IH, <-app_assoc|]. destruct (read c) as [x|]; by rewrite IH, <-?app_assoc.
Qed.

Definition all_of (l : list nvd_cve) : list item * list string := (omap read l, omap _nvd_rejected_cve_id l).
Lemma consume_more a b : _consume_page set_order (all_of a) b = all_of (a ++ b)%list.
Proof. unfold all_of. by rewrite consume_is, !omap_app. Qed.

Lemma more_pages_is q l : pages_of q l -> forall n j, (length l <= Z.to_nat RESULTS_PER_PAGE * (j + 1 + n))%nat ->
  more_pages set_order nvd q (map (fun k => RESULTS_PER_PAGE * (Z.of_nat k + 1)) (seq j n)) (all_of (firstn (Z.to_nat RESULTS_PER_PAGE * (j + 1)) l)) = Ok (all_of l).
Proof.
  intros H. assert (PP : 0 < RESULTS_PER_PAGE) by done. set (P := Z.to_nat RESULTS_PER_PAGE) in *. induction n as [|n IH]; intros j L; cbn [seq map more_pages].
  - rewrite firstn_all2; [done|lia].
  - rewrite H by lia. cbn [res_bind vulnerabilities]. assert (E : Z.to_nat (RESULTS_PER_PAGE * (Z.of_nat j + 1)) = (P * (j + 1))%nat) by (unfold P; lia). rewrite E. fold P.
    destruct (firstn P (skipn (P * (j + 1)) l)) as [|c t] eqn:F.
    + assert (length l <= P * (j + 1))%nat. { apply (f_equal length) in F. rewrite length_firstn, length_skipn in F. cbn in F. assert (0 < P)%nat by (unfold P; lia). lia. }
      by rewrite firstn_all2.
    + rewrite <-F, consume_more. assert (G : (firstn (P * (j + 1)) l ++ firstn P (skipn (P * (j + 1)) l))%list = firstn (P * (S j + 1)) l).
      { replace (P * (S j + 1))%nat with (P * (j + 1) + P)%nat by lia. rewrite <-(firstn_skipn (P * (j + 1)) l) at 3. rewrite firstn_app.
        destruct (Nat.le_gt_cases (P * (j + 1)) (length l)) as [B|B].
        - rewrite length_firstn, Nat.min_l by done. f_equal; [by rewrite firstn_firstn, Nat.min_r by lia|f_equal; lia].
        - rewrite (skipn_all2 l), !firstn_nil, !app_nil_r by lia. by rewrite firstn_firstn, Nat.min_r by lia. }
      rewrite G. apply IH. lia.
Qed.

Lemma paging_is l q : pages_of q l -> _fetch_cves_paginated set_order nvd q = Ok (omap read l, omap _nvd_rejected_cve_id l).
Proof.
  intros H. unfold _fetch_cves_paginated. rewrite H by done. cbn [res_bind vulnerabilities totalResults]. change (skipn (Z.to_nat 0) l) with l. rewrite consume_is. cbn [app].
  change (omap read (firstn ?n l), omap _nvd_rejected_cve_id (firstn ?n l)) with (all_of (firstn n l)). unfold start_indexes. set (n := Z.to_nat ((Z.of_nat (length l) - 1) / RESULTS_PER_PAGE)).
  pose proof (more_pages_is q l H n 0) as M. rewrite Nat.mul_1_r in M. apply M. unfold n. assert (B : Z.of_nat (length l) <= RESULTS_PER_PAGE * (1 + Z.max 0 ((Z.of_nat (length l) - 1) / RESULTS_PER_PAGE))).
  { pose proof (Z.div_mod (Z.of_nat (length l) - 1) RESULTS_PER_PAGE ltac:(done)). pose proof (Z.mod_pos_bound (Z.of_nat (length l) - 1) RESULTS_PER_PAGE eq_refl). unfold RESULTS_PER_PAGE in *. lia. }
  unfold RESULTS_PER_PAGE in *. lia.
Qed.

(** ** What a run stores *)

Definition modified_at (c : nvd_cve) : option Z := _parse_nvd_datetime (or_empty (last_modified c)).
Definition in_window (s e : string) (c : nvd_cve) : bool :=
  match _parse_nvd_datetime s, _parse_nvd_datetime e, modified_at c with Some a, Some b, Some m => (a <=? m) && (m <=? b) | _, _, _ => false end.
Definition name_of (c : nvd_cve) : string := upper (or_empty (nvd_id c)).

(** An NVD that has a list of CVEs, each named once, and whose texts of times order as the times do. *)
Record honest (all : list nvd_cve) : Prop := mkHonest {
  serves_windows : forall s e, pages_of (ByModified s e) (List.filter (in_window s e) all);
  named_once : NoDup (map name_of all);
  has_names : forall c, c ∈ all -> nonempty (strip (name_of c)) = true;
  text_orders : forall c c' m m', c ∈ all -> c' ∈ all -> modified_at c = Some m -> modified_at c' = Some m' -> m < m' -> String.ltb (or_empty (last_modified c)) (or_empty (last_modified c')) = true }.

Lemma read_id c i : read c = Some i -> i_cve_id i = or_empty (nvd_id c) /\ i_modified i = or_empty (last_modified c).
Proof. unfold _parse_cve_item. destruct (_is_nvd_cve_rejected c); [done|]. destruct (_extract_cvss_v3 _ _). by intros [= <-]. Qed.

Lemma earlier_orders : orders earlier (fun _ => True).
Proof.
  unfold earlier. split.
  - intros a b H. destruct (String.ltb (i_modified b) (i_modified a)) eqn:E; [|done]. pose proof (ltb_trans _ _ _ H E) as C. by rewrite ltb_irrefl in C.
  - unfold not_after. intros a b c _ _ _ H1 H2. destruct (String.ltb (i_modified c) (i_modified a)) eqn:E; [|done].
    destruct (ltb_total _ _ H1) as [Q|Q]; [by rewrite Q, E in H2|]. pose proof (ltb_trans _ _ _ E Q) as C. by rewrite C in H2.
Qed.

Lemma sorted_items l : StronglySorted (not_after earlier) (sort_items l).
Proof. apply (sort_on_sorted_in earlier (fun _ => True)); [apply earlier_orders|]. by apply List.Forall_forall. Qed.

(** What the cap keeps: some of the items, and each that is modified before the new watermark. *)
Lemma capped_spec max_cves stop l kept mark : 0 < max_cves -> capped_items max_cves stop l = (kept, mark) ->
  (exists rest, kept ++ rest ≡ₚ l)%list /\ ((mark = stop /\ forall c, c ∈ l -> c ∈ kept) \/
  (exists x, x ∈ kept /\ mark = (if nonempty (i_modified x) then i_modified x else stop) /\ forall c, c ∈ l -> String.ltb (i_modified c) (i_modified x) = true -> c ∈ kept)).
Proof.
  intros P. unfold capped_items. pose proof (sort_on_perm earlier l : sort_items l ≡ₚ l) as SP. destruct (Z.ltb_spec max_cves (Z.of_nat (length (sort_items l)))) as [L|L]; intros [= <- <-].
  - assert (SL : slice_to max_cves (sort_items l) = firstn (Z.to_nat max_cves) (sort_items l)) by (unfold slice_to; rewrite (proj2 (Z.ltb_ge max_cves 0)) by lia; done). rewrite SL.
    set (n := Z.to_nat max_cves) in *. split; [exists (skipn n (sort_items l)); by rewrite firstn_skipn|]. right.
    destruct (last (firstn n (sort_items l))) as [x|] eqn:X.
    2: { apply last_None, (f_equal length) in X. rewrite length_firstn in X. cbn in X. unfold n in X. lia. }
    assert (I : x ∈ firstn n (sort_items l)) by (apply last_Some in X as (l' & ->); apply elem_of_app; right; by apply list_elem_of_singleton). exists x. split; [done|]. split; [done|].
    intros c C LT. rewrite <-SP, <-(firstn_skipn n (sort_items l)), elem_of_app in C. destruct C as [C|C]; [done|]. exfalso.
    pose proof (sorted_cut earlier n (sort_items l) x c (sorted_items l) (proj1 (list_elem_of_In _ _) I) (proj1 (list_elem_of_In _ _) C)) as K. unfold earlier in K. by rewrite LT in K.
  - split; [exists []; by rewrite app_nil_r|]. left. split; [done|]. intros c C. by rewrite SP.
Qed.

Lemma written_nodup all kept rest : NoDup (map name_of all) -> (kept ++ rest ≡ₚ omap read all)%list -> NoDup (map i_cve_id (written kept)).
Proof.
  intros ND P. assert (N1 : forall l, NoDup (map name_of l) -> NoDup (map (fun i => upper (i_cve_id i)) (omap read l)) /\ forall x, x ∈ map (fun i => upper (i_cve_id i)) (omap read l) -> x ∈ map name_of l).
  { clear. induction l as [|c l IH]; [intros _; split; [constructor|done]|]. cbn [map omap list_omap]. intros [N ND]%NoDup_cons. destruct (IH ND) as [A B]. destruct (read c) as [i|] eqn:R.
    - cbn [map]. assert (E : upper (i_cve_id i) = name_of c) by (unfold name_of; by rewrite (proj1 (read_id _ _ R))). rewrite E. split.
      + apply NoDup_cons. split; [intros J; by apply N, B|done].
      + intros x [->|J]%elem_of_cons; [by left|right; by apply B].
    - split; [done|]. intros x J. right. by apply B. }
  destruct (N1 all ND) as [A _]. rewrite <-P, map_app in A. apply NoDup_app in A as (A & _ & _). unfold written. rewrite map_map. cbn [i_cve_id with_id].
  revert A. clear. induction kept as [|i l IH]; [done|]. cbn [map List.filter]. intros [N ND]%NoDup_cons. destruct (nonempty _); [|by apply IH]. cbn [map]. apply NoDup_cons. split; [|by apply IH].
  intros J. apply N. apply list_elem_of_In, in_map_iff in J as (j & E & [J _]%filter_In). apply list_elem_of_In, in_map_iff. by exists j.
Qed.

(** ** The post-processing keeps what the rows say *)

Definition same_says (m m' : gmap string row) : Prop := forall i, says <$> m' !! i = says <$> m !! i.
Lemma same_says_update f l m : (forall r, says (f r) = says r) -> same_says m (update_in f l m).
Proof. intros E i. rewrite lookup_update_in. destruct (m !! i) as [r|]; [|done]. cbn. destruct (one_in l i); [by rewrite E|done]. Qed.

Lemma display_says ids t t' : backfill_display_fields set_order json_urls ids t = Ok t' -> same_says (cves t) (cves (fst t')).
Proof.
  unfold backfill_display_fields. destruct (fold_res _ _ _) as [[m k]|] eqn:F; [|done]. cbn [res_bind]. intros [= <-]. cbn [cves set_cves fst].
  refine (fold_res_inv (fun a => same_says (cves t) (fst a)) _ _ _ (cves t, 0) (m, k) _ F); [|by intros i]. intros [m0 k0] i [m1 k1] _ A. unfold backfill_display_row. destruct (m0 !! i) as [r|] eqn:L; [|by intros [= <- _]].
  destruct (urls_of json_urls r) as [urls|]; [|done]. cbn [res_bind]. destruct (_ && _); intros [= <- _]; [done|]. cbn [fst] in *. intros j. rewrite <-A. destruct (decide (i = j)) as [->|N]; [by rewrite lookup_insert_eq, L|by rewrite lookup_insert_ne].
Qed.
Lemma poc_says now ids t t' : backfill_has_poc set_order json_urls now ids t = Ok t' -> same_says (cves t) (cves (fst t')).
Proof. unfold backfill_has_poc. destruct (map_res _ _) as [found|]; [|done]. cbn [res_bind]. intros [= <-]. by apply same_says_update. Qed.
Lemma strip_says ids t : same_says (cves t) (cves (fst (strip_auto_generated_summaries ids t))).
Proof. intros i. unfold strip_auto_generated_summaries. cbn [fst cves set_cves]. rewrite map_lookup_imap. destruct (cves t !! i) as [r|]; [|done]. cbn. by destruct (auto_summary ids i r). Qed.

(** What the row of an item says of it, its products aside. *)
Definition says_item (i : item) (s : stored) : Prop :=
  s_cvss_score s = i_cvss_score i /\ s_severity s = Some (i_severity i) /\ s_description s = Some (i_description i) /\ s_published s = Some (i_published i) /\ s_modified s = Some (i_modified i).

Lemma store_updates_says stamp kept rejected mark s s' i : store_updates set_order json_list json_matches json_urls stamp kept rejected mark s = Ok s' ->
  NoDup (map i_cve_id (written kept)) -> i ∈ kept -> nonempty (strip (i_cve_id i)) = true ->
  get_nvd_sync_watermark s' = Some mark /\ exists r, cves (site_tables s') !! upper (i_cve_id i) = Some r /\ says_item i (says r).
Proof.
  unfold store_updates. set (t0 := fst (delete_cves_by_ids _ _)). intros R ND I N. set (t1 := upsert_cves json_list json_matches stamp kept t0) in *.
  assert (W : with_id i ∈ written kept). { unfold written. apply list_elem_of_In, in_map. apply filter_In. split; [by apply list_elem_of_In|done]. }
  assert (L : cves t1 !! upper (i_cve_id i) = Some (refreshed json_list json_matches stamp (cves t0) (with_id i))) by (unfold t1; rewrite upsert_table; exact (refresh_in json_list json_matches stamp (written kept) (cves t0) (with_id i) ND W)).
  assert (S1 : says_item i (says (refreshed json_list json_matches stamp (cves t0) (with_id i)))) by (unfold refreshed; destruct (cves t0 !! _); done).
  destruct (map _ (List.filter _ kept)) as [|u us] eqn:U.
  - injection R as <-. split; [apply lookup_insert_eq|]. eexists. split; [exact L|exact S1].
  - cbn [site_tables set_nvd_sync_watermark] in R. destruct (backfill_display_fields _ _ _ _) as [t2|] eqn:D; [|done]. cbn [res_bind] in R. destruct (backfill_has_poc _ _ _ _ _) as [t3|] eqn:B; [|done]. cbn [res_bind] in R. injection R as <-.
    split; [apply lookup_insert_eq|]. cbn [site_tables]. pose proof (poc_says _ _ _ _ B (upper (i_cve_id i))) as E. rewrite (display_says _ _ _ D), (strip_says (Some (u :: us)) t1), L in E.
    destruct (cves (fst t3) !! upper (i_cve_id i)) as [r|]; [|done]. exists r. split; [done|]. cbn in E. injection E as ->. exact S1.
Qed.

(** A run that succeeded, taken apart. *)
Lemma run_parts now stamp s s' w W max_cves ov all : _run_nvd_incremental_sync set_order json_list json_matches json_urls env nvd now stamp s = (s', Ok tt) ->
  get_nvd_sync_watermark s = Some w -> nonempty w = true -> _parse_nvd_datetime w = Some W -> env_int env "MAX_CVES_PER_FETCH" "2000" = Ok max_cves -> env_int env "NVD_SYNC_OVERLAP_MINUTES" "15" = Ok ov -> honest all ->
  let l := List.filter (in_window (_format_nvd_datetime (window_start now W ov)) (_format_nvd_datetime now)) all in
  exists kept mark, capped_items max_cves (_format_nvd_datetime now) (omap read l) = (kept, mark) /\
    store_updates set_order json_list json_matches json_urls stamp kept (omap _nvd_rejected_cve_id l) mark s = Ok s'.
Proof.
  intros R G NW PW M O H l. unfold _run_nvd_incremental_sync in R. rewrite M in R. cbn [res_bind] in R. destruct (env_int env "NVD_DAYS_BACK" "14") as [days|]; [|done]. cbn [res_bind] in R. rewrite O in R. cbn [res_bind] in R.
  unfold resolve_nvd_watermark in R. rewrite G, NW in R. cbn [is_some] in R. unfold fetch_nvd_cve_updates in R. rewrite NW, PW in R. unfold fetch_cves_by_last_modified in R.
  rewrite (paging_is l _ (serves_windows all H _ _)) in R. cbn [res_bind fst snd] in R. destruct (capped_items _ _ _) as [kept mark] eqn:C. exists kept, mark. split; [done|].
  destruct (store_updates _ _ _ _ _ _ _ _ _) as [s1|]; [|done]. by injection R as ->.
Qed.

(** C17 [window_is_stored]: a run from a watermark that succeeds leaves a new watermark, and every CVE that NVD has and that was modified
    from the overlap before the old watermark (or 120 days ago) on and before the new one is in the store as NVD has it, whatever
    the cap, which is at least 1; so no modification between two watermarks is ever passed over. This is for an NVD whose content
    does not change during the run, which names each CVE once, answers a window with the pages of what it has in it, and writes
    its times so that their texts order as they do; and for a clock and a window within the years Python has. *)
Theorem window_is_stored now stamp s s' w W max_cves ov all : _run_nvd_incremental_sync set_order json_list json_matches json_urls env nvd now stamp s = (s', Ok tt) ->
  get_nvd_sync_watermark s = Some w -> nonempty w = true -> _parse_nvd_datetime w = Some W -> env_int env "MAX_CVES_PER_FETCH" "2000" = Ok max_cves -> 0 < max_cves ->
  env_int env "NVD_SYNC_OVERLAP_MINUTES" "15" = Ok ov -> honest all -> MIN_US <= window_start now W ov -> window_start now W ov <= MAX_US -> MIN_US <= now <= MAX_US ->
  forall c i m, c ∈ all -> read c = Some i -> modified_at c = Some m -> window_start now W ov <= m ->
  forall w' W', get_nvd_sync_watermark s' = Some w' -> _parse_nvd_datetime w' = Some W' -> m < W' ->
  exists r, cves (site_tables s') !! name_of c = Some r /\ says_item i (says r).
Proof.
  intros R G NW PW M P O H B1 B2 BN c i m I Rd Mc S w' W' G' PW' LT.
  destruct (run_parts now stamp s s' w W max_cves ov all R G NW PW M O H) as (kept & mark & C & ST). set (l := List.filter _ all) in *.
  destruct (capped_spec _ _ _ _ _ P C) as [[rest PERM] K]. pose proof (format_parses _ (conj B1 B2)) as F1. pose proof (format_parses _ BN) as F2. pose proof (Z.mod_pos_bound (window_start now W ov) 1000000 eq_refl). pose proof (Z.mod_pos_bound now 1000000 eq_refl).
  assert (ND : NoDup (map i_cve_id (written kept))).
  { apply (written_nodup l kept rest); [|exact PERM]. eapply sublist_NoDup; [exact (named_once all H)|]. apply (fmap_sublist name_of), filter_sublist. }
  assert (NM : nonempty (strip (i_cve_id i)) = true).
  { pose proof (has_names all H c I) as N. unfold name_of in N. rewrite <-upper_strip, nonempty_upper in N. by rewrite (proj1 (read_id _ _ Rd)). }
  assert (MK : mark = w' /\ (i ∈ kept -> exists r, cves (site_tables s') !! name_of c = Some r /\ says_item i (says r))).
  { split.
    - assert (X : get_nvd_sync_watermark s' = Some mark).
      { clear - ST. unfold store_updates in ST. destruct (map _ _); [injection ST as <-; apply lookup_insert_eq|]. destruct (backfill_display_fields _ _ _ _); [|done]. cbn [res_bind] in ST. destruct (backfill_has_poc _ _ _ _ _); [|done]. injection ST as <-. apply lookup_insert_eq. }
      rewrite X in G'. by injection G'.
    - intros J. destruct (store_updates_says _ _ _ _ _ _ i ST ND J NM) as (_ & r & L & SI). exists r. split; [|exact SI]. unfold name_of. by rewrite <-(proj1 (read_id _ _ Rd)). }
  destruct MK as [-> DONE]. apply DONE.
  assert (IN : m <= now - now mod 1000000 -> i ∈ omap read l).
  { intros U. apply list_elem_of_omap. exists c. split; [|done]. apply list_elem_of_In, filter_In. split; [by apply list_elem_of_In|]. unfold in_window. rewrite F1, F2, Mc. apply andb_true_iff. split; apply Z.leb_le; lia. }
  destruct K as [[-> K]|(x & X & -> & K)].
  - rewrite F2 in PW'. injection PW' as <-. apply K, IN. lia.
  - assert (XL : x ∈ omap read l) by (rewrite <-PERM; apply elem_of_app; by left). apply list_elem_of_omap in XL as (d & D & Rx). apply list_elem_of_In, filter_In in D as [D1 D2]. unfold in_window in D2. rewrite F1, F2 in D2.
    destruct (modified_at d) as [md|] eqn:Md; [|done]. apply andb_true_iff in D2 as [D2 D3]. apply Z.leb_le in D2, D3. pose proof (proj2 (read_id _ _ Rx)) as E.
    assert (NE : nonempty (i_modified x) = true) by (rewrite E; unfold modified_at, _parse_nvd_datetime in Md; by destruct (or_empty (last_modified d))). rewrite NE in PW'. rewrite E in PW'. unfold modified_at in Md. rewrite Md in PW'. injection PW' as <-.
    apply K; [apply IN; lia|]. rewrite E, (proj2 (read_id _ _ Rd)). apply (text_orders all H c d m md); try done. by apply list_elem_of_In.
Qed.
End window.

(** ** Examples *)

Definition api_key : option string := Some "0123456789abcdef0123456789abcdef".
Lemma fetch_holds_one_slot_witness :
  _fetch_page api_key false [Status 429 (mkPage 0 []); Status 200 (mkPage 0 [])] = ([Await; Get api_key; Pause; Release; Await; Get api_key; Success; Release], Some (Ok (mkPage 0 []))) /\
  (let '(trace, result) := _fetch_page api_key false [Status 429 (mkPage 0 []); Status 200 (mkPage 0 [])] in waits_on_itself 0 trace = false /\ held_after 0 trace = if is_some result then 0 else 1).
Proof. split; [reflexivity|]. apply (fetch_holds_one_slot api_key false). right. repeat constructor. Defined.

(** An NVD of fixed content. *)
Definition serve (all : list nvd_cve) (q : query) (k : Z) : res page :=
  let l := match q with ByModified s e => List.filter (in_window s e) all | ByPublished _ _ => [] end in
  Ok (mkPage (Z.of_nat (length l)) (firstn (Z.to_nat RESULTS_PER_PAGE) (skipn (Z.to_nat k) l))).
Definition a_cve (name text : string) : nvd_cve := mkNvd None (Some name) [mkText (Some "en") (Some "A flaw.")] [] [] [] [] [] (Some text) (Some text).
Definition two_cves : list nvd_cve := [a_cve "CVE-2026-0001" "2026-07-20T10:00:00.000"; a_cve "CVE-2026-0002" "2026-07-20T10:05:00.000"].
Definition watermark : string := "2026-07-20T10:00:00.000Z".
Definition at_ten_past : Z := 1784542200500000.
Definition a_site : site := mkSite empty_tables (<[NVD_SYNC_WATERMARK_KEY := watermark]> ∅).
Definition no_settings (k : string) : option string := None.
Definition one_at_a_time (k : string) : option string := if String.eqb k "MAX_CVES_PER_FETCH" then Some "1" else None.
Definition run_with (env : string -> option string) (all : list nvd_cve) (now : Z) (s : site) : site * res unit :=
  _run_nvd_incremental_sync elements seal_list json_of_matches (fun _ => Some []) env (serve all) now "stamp" s.

Lemma two_cves_honest : honest (serve two_cves) two_cves.
Proof.
  split.
  - intros s e k _. reflexivity.
  - vm_compute. repeat constructor; intros I; repeat (apply list_elem_of_In in I as [I|I]; [discriminate I|apply list_elem_of_In in I]); inversion I.
  - intros c I. apply list_elem_of_In in I as [<-|[<-|[]]]; reflexivity.
  - intros c c' m m' I I'. apply list_elem_of_In in I as [<-|[<-|[]]]; apply list_elem_of_In in I' as [<-|[<-|[]]]; intros E E'; vm_compute in E, E'; injection E as <-; injection E' as <-; intros L; vm_compute in L; try discriminate L; reflexivity.
Qed.

Lemma window_is_stored_witness : exists s' r, run_with no_settings two_cves at_ten_past a_site = (s', Ok tt) /\ get_nvd_sync_watermark s' = Some "2026-07-20T10:10:00.000Z" /\
  cves (site_tables s') !! "CVE-2026-0002" = Some r /\ s_description (says r) = Some "A flaw.".
Proof.
  destruct (run_with no_settings two_cves at_ten_past a_site) as [s' out] eqn:R. assert (X : (fun p : site * res unit => (is_ok (snd p), get_nvd_sync_watermark (fst p))) (run_with no_settings two_cves at_ten_past a_site) = (true, Some "2026-07-20T10:10:00.000Z")) by (vm_compute; reflexivity).
  rewrite R in X. cbn [fst snd] in X. injection X as X1 X2. destruct out as [[]|e]; [|discriminate X1].
  destruct (_parse_cve_item elements (a_cve "CVE-2026-0002" "2026-07-20T10:05:00.000")) as [i|] eqn:I; [|discriminate I].
  assert (D : i_description i = "A flaw.") by (injection I as <-; reflexivity).
  unfold run_with in R. assert (G : get_nvd_sync_watermark a_site = Some watermark) by reflexivity. assert (NW : nonempty watermark = true) by reflexivity. assert (PW : _parse_nvd_datetime watermark = Some 1784541600000000) by (vm_compute; reflexivity).
  assert (M : env_int no_settings "MAX_CVES_PER_FETCH" "2000" = Ok 2000) by (vm_compute; reflexivity). assert (O : env_int no_settings "NVD_SYNC_OVERLAP_MINUTES" "15" = Ok 15) by (vm_compute; reflexivity).
  assert (B1 : MIN_US <= window_start at_ten_past 1784541600000000 15) by (vm_compute; discriminate). assert (B2 : window_start at_ten_past 1784541600000000 15 <= MAX_US) by (vm_compute; discriminate).
  assert (BN : MIN_US <= at_ten_past <= MAX_US) by (split; vm_compute; discriminate). assert (IN : a_cve "CVE-2026-0002" "2026-07-20T10:05:00.000" ∈ two_cves) by (apply list_elem_of_In; right; left; reflexivity).
  assert (Mc : modified_at (a_cve "CVE-2026-0002" "2026-07-20T10:05:00.000") = Some 1784541900000000) by (vm_compute; reflexivity). assert (S0 : window_start at_ten_past 1784541600000000 15 <= 1784541900000000) by (vm_compute; discriminate).
  assert (PW' : _parse_nvd_datetime "2026-07-20T10:10:00.000Z" = Some 1784542200000000) by (vm_compute; reflexivity).
  destruct (window_is_stored elements seal_list json_of_matches (fun _ => Some []) no_settings (serve two_cves) at_ten_past "stamp" a_site s' watermark 1784541600000000 2000 15 two_cves R G NW PW M eq_refl O two_cves_honest B1 B2 BN
    _ i _ IN I Mc S0 _ _ X2 PW' eq_refl) as (r & L & _ & _ & S & _).
  exists s', r. split; [reflexivity|]. split; [exact X2|]. split; [exact L|]. rewrite S, D. reflexivity.
Defined.

(** Finding [capped_sync_stalls]: when as many CVEs as the cap allows were modified within the overlap before the watermark, a run
    stores those again and leaves the watermark where it was: no later run gets past them. *)
Lemma capped_sync_stalls :
  let s1 := fst (run_with one_at_a_time two_cves at_ten_past a_site) in
  let s2 := fst (run_with one_at_a_time two_cves (at_ten_past + DAY_US) s1) in
  let s3 := fst (run_with one_at_a_time two_cves (at_ten_past + 2 * DAY_US) s2) in
  get_nvd_sync_watermark s1 = Some "2026-07-20T10:00:00.000" /\ get_nvd_sync_watermark s3 = get_nvd_sync_watermark s1 /\ cves (site_tables s3) !! "CVE-2026-0002" = None.
Proof. vm_compute. repeat split. Qed.

(** Finding [empty_page_is_taken_for_the_end]: a later page that comes empty ends the run like a complete one, and the watermark moves past
    what it should have held. *)
Definition half_served (q : query) (k : Z) : res page := Ok (mkPage 2001 (if k =? 0 then [a_cve "CVE-2026-0001" "2026-07-20T10:00:00.000"] else [])).
Lemma empty_page_is_taken_for_the_end :
  let r := _run_nvd_incremental_sync elements seal_list json_of_matches (fun _ => Some []) no_settings half_served at_ten_past "stamp" a_site in
  is_ok (snd r) = true /\ size (cves (site_tables (fst r))) = 1%nat /\ get_nvd_sync_watermark (fst r) = Some "2026-07-20T10:10:00.000Z".
Proof. vm_compute. repeat split. Qed.
