(* ===== verification/DetClass.v ===== *)
(** * DetClass: the class of a vulnerability (detection/class_router.py, context.py)

    CWE identifiers in one spelling, the class slug of a technique or a list of CWEs,
    and the detection context that rule generation reads.  [json_loads] is
    [json.loads] ([None]: JSONDecodeError) and [str_of] is [str] of a value that is no
    text. *)

From S2P Require Import Prelude PyStr DecText Dates PyVal Ioc.
Open Scope string_scope.
Open Scope Z_scope.

(** ** CWE identifiers *)

(** [[\s_]+] removed. *)
Definition compact (text : string) : string := sfilter (fun c => negb (is_space c) && negb (Ascii.eqb c "_")) text.

Definition all_digits (s : string) : bool := nonempty s && sforall is_digit s.

(** The digits of [^CWE-?(\d+)$]. *)
Definition cwe_digits (s : string) : option string :=
  let rest := if startswith s "CWE-" then sdrop 4 s else sdrop 3 s in
  if startswith s "CWE" && all_digits rest then Some rest else None.

Definition digits_value (s : string) : Z := fst (fst (digits_from 0 0 s)).

Definition _normalize_cwe_id (value : string) : string :=
  let text := strip value in
  if negb (nonempty text) then ""
  else let c := compact (upper text) in
       if all_digits c then "CWE-" +:+ str_of_Z (digits_value c)
       else match cwe_digits c with Some d => "CWE-" +:+ str_of_Z (digits_value d) | None => c end.

Definition CWE_CLASS_SLUGS : list (string * string) :=
  [("CWE-22", "path_traversal"); ("CWE-23", "path_traversal"); ("CWE-35", "path_traversal"); ("CWE-78", "cmd_injection");
   ("CWE-89", "sqli"); ("CWE-79", "xss"); ("CWE-502", "deserialization"); ("CWE-94", "code_injection"); ("CWE-95", "code_injection");
   ("CWE-434", "unsafe_upload"); ("CWE-918", "ssrf"); ("CWE-611", "xxe"); ("CWE-287", "auth_bypass"); ("CWE-288", "auth_bypass");
   ("CWE-306", "auth_bypass"); ("CWE-416", "memory_corruption"); ("CWE-787", "memory_corruption"); ("CWE-119", "memory_corruption");
   ("CWE-122", "memory_corruption"); ("CWE-798", "default_credentials")].

Definition TECHNIQUE_CLASS_SLUGS : list (string * string) :=
  [("T1190", "web_exploit"); ("T1133", "remote_access"); ("T1059", "script_execution"); ("T1203", "client_execution");
   ("T1068", "privilege_escalation"); ("T1055", "process_injection"); ("T1027", "obfuscation"); ("T1036", "masquerading");
   ("T1110", "brute_force"); ("T1003", "credential_dumping"); ("T1021", "lateral_movement"); ("T1570", "lateral_transfer");
   ("T1071", "c2_application"); ("T1095", "c2_non_application")].

(** [technique_id.strip().upper()[:5]] *)
Definition technique_prefix (technique_id : string) : string := stake 5 (upper (strip technique_id)).

(** The first of the CWEs that a table knows, and its entry. *)
Fixpoint first_cwe {A} (table : list (string * A)) (cwe_ids : list string) : option (string * A) :=
  match cwe_ids with
  | [] => None
  | raw :: t => let cwe_id := _normalize_cwe_id raw in
                match assoc cwe_id table with Some a => Some (cwe_id, a) | None => first_cwe table t end
  end.

Definition resolve_detection_class (technique_id : string) (cwe_ids : list string) : string :=
  match assoc (technique_prefix technique_id) TECHNIQUE_CLASS_SLUGS with
  | Some slug => slug
  | None => match first_cwe CWE_CLASS_SLUGS cwe_ids with Some (_, slug) => slug | None => "generic" end
  end.

Section values.
Context (json_loads : string -> option pyval) (str_of : pyval -> string).

(** [str(v)] *)
Definition to_text (v : pyval) : string := match v with PStr s => s | _ => str_of v end.

Definition normalize_cwe_ids (raw : pyval) : list string :=
  if negb (truthy raw) then []
  else match (match raw with PStr s => json_loads s | _ => Some raw end) with
       | Some (PList l) => List.filter nonempty (map (fun item => _normalize_cwe_id (to_text item)) l)
       | _ => []
       end.

(** [_resolve_detection_class] on a dict: [d.get] of its keys. *)
Definition _resolve_detection_class (cve : list (string * pyval)) : res string :=
  let technique := py_or (py_or (dget cve "mitre_technique") (dget cve "technique_id")) (PStr "") in
  let! cwe_ids := (match dget cve "cwe_ids" with
                   | PNone => let ctx := dget cve "detection_context" in
                              if truthy ctx then match ctx with PDict d => Ok (dget d "cwe_ids") | _ => Raise AttributeError end else Ok PNone
                   | v => Ok v
                   end) in
  Ok (resolve_detection_class (to_text technique) (normalize_cwe_ids cwe_ids)).

(** ** The detection context *)

(** [s.split(":")[-1]] *)
Definition last_part (s : string) : string := List.last (split_on ":" s) "".

Definition spaced (s : string) : string := smap (fun c => if Ascii.eqb c "_" then " "%char else c) s.

Definition _first_product (affected_products : pyval) : string :=
  if negb (truthy affected_products) then ""
  else match (match affected_products with PStr s => json_loads s | v => Some v end) with
       | Some (PList (p :: _)) => let first := strip (to_text p) in
                                  if nonempty first then strip (spaced (last_part first)) else ""
       | _ => ""
       end.

Record detection_ctx := mkCtx { ctx_cwe_ids : list string; ctx_product : string; ctx_class : string; ctx_generated_at : string }.

Definition build_detection_context (cwe_ids : list string) (technique_id : string) (affected_products : pyval) (generated_at : option string) (now : string)
    : detection_ctx :=
  let normalized := normalize_cwe_ids (PList (map PStr cwe_ids)) in
  mkCtx normalized (_first_product affected_products) (resolve_detection_class technique_id normalized)
    (match generated_at with Some t => if nonempty t then t else now | None => now end).

(** The cached form of a context. *)
Definition ctx_dict (c : detection_ctx) : list (string * pyval) :=
  [("cwe_ids", PList (map PStr (ctx_cwe_ids c))); ("product", PStr (ctx_product c)); ("class", PStr (ctx_class c)); ("artifacts", PList []);
   ("model", PStr ""); ("provider", PStr "briefr"); ("generated_at", PStr (ctx_generated_at c))].

Definition merge_detection_inputs (product : string) (cwe_ids : option (list string)) (technique_id : string) (ctx : list (string * pyval))
    : res (string * list pyval * string) :=
  let own := PList (map PStr (match cwe_ids with Some l => l | None => [] end)) in
  let! cwes := iter_of (py_or (py_or own (dget ctx "cwe_ids")) (PList [])) in
  let! p := strip_of (py_or (py_or (PStr product) (dget ctx "product")) (PStr "")) in
  Ok (p, cwes, strip technique_id).

End values.

(** ** Lemmas *)

Lemma nonempty_len s : nonempty s = true <-> s <> "".
Proof. by destruct s. Qed.

Lemma digits_value_str n : 0 <= n -> digits_value (str_of_Z n) = n.
Proof.
  intros N. pose proof (int_of_str_of_Z n) as H. unfold int_of_str in H.
  rewrite strip_id in H by (eapply sforall_weaken; [|by apply str_of_nat_digits]; intros c D; by rewrite digit_not_space).
  pose proof (str_of_nat_digits n N) as D. unfold digits_value.
  destruct (str_of_Z n) as [|c t] eqn:E; [discriminate H|]. cbn [sforall] in D. apply andb_prop in D as [D _].
  assert (read_sign (String c t) = (false, String c t)) as R.
  { unfold read_sign. destruct c as [[] [] [] [] [] [] [] []]; try reflexivity; discriminate D. }
  rewrite R in H. destruct (digits_from 0 0 (String c t)) as [[v k] r]. destruct r; [|discriminate H]. destruct (0 <? k); [|discriminate H]. by injection H.
Qed.

Definition upper_clean (c : ascii) : bool := negb (is_space c) && negb (Ascii.eqb c "_") && negb (is_lower c).

Lemma upper_not_lower c : is_lower (upper_char c) = false.
Proof. by destruct c as [[] [] [] [] [] [] [] []]. Qed.

Lemma compact_upper_clean s : sforall upper_clean (compact (upper s)) = true.
Proof.
  unfold upper_clean, compact. apply sforall_both; [apply sfilter_forall|]. apply sforall_sfilter. unfold upper.
  induction s as [|c s IH]; [done|]. cbn [smap sforall]. by rewrite upper_not_lower, IH.
Qed.

Lemma upper_id s : sforall (fun c => negb (is_lower c)) s = true -> upper s = s.
Proof.
  unfold upper. induction s as [|c s IH]; [done|]. cbn [sforall smap]. intros [C S]%andb_prop. rewrite (IH S). f_equal.
  unfold upper_char. apply negb_true_iff in C. by rewrite C.
Qed.

Lemma normalize_clean s : sforall upper_clean s = true ->
  _normalize_cwe_id s = if negb (nonempty s) then ""
    else if all_digits s then "CWE-" +:+ str_of_Z (digits_value s)
    else match cwe_digits s with Some d => "CWE-" +:+ str_of_Z (digits_value d) | None => s end.
Proof.
  intros C. unfold _normalize_cwe_id.
  rewrite strip_id by (eapply sforall_weaken; [|exact C]; intros c; unfold upper_clean; by intros [[? _]%andb_prop _]%andb_prop).
  rewrite upper_id by (eapply sforall_weaken; [|exact C]; intros c; unfold upper_clean; by intros [_ ?]%andb_prop).
  unfold compact. rewrite sfilter_id; [done|]. eapply sforall_weaken; [|exact C]. intros c. unfold upper_clean. by intros [? _]%andb_prop.
Qed.

Lemma digits_nonneg s : sforall is_digit s = true -> 0 <= digits_value s.
Proof. intros D. apply digits_from_nonneg; [done|lia]. Qed.

Lemma cwe_text_clean n : 0 <= n -> sforall upper_clean ("CWE-" +:+ str_of_Z n) = true.
Proof.
  intros N. rewrite sforall_app. change (sforall upper_clean "CWE-") with true. cbn [andb].
  eapply sforall_weaken; [|by apply str_of_nat_digits]. intros c. by destruct c as [[] [] [] [] [] [] [] []].
Qed.

Lemma str_of_Z_nonempty n : nonempty (str_of_Z n) = true.
Proof. pose proof (int_of_str_of_Z n) as H. by destruct (str_of_Z n). Qed.

Lemma cwe_digits_text t : all_digits t = true -> cwe_digits ("CWE-" +:+ t) = Some t.
Proof.
  intros D. unfold cwe_digits, startswith. rewrite prefix_app. change ("CWE-" +:+ t) with ("CWE" +:+ ("-" +:+ t)) at 1. rewrite prefix_app.
  change (sdrop 4 ("CWE-" +:+ t)) with t. by rewrite D.
Qed.

Lemma normalize_cwe_number n : 0 <= n -> _normalize_cwe_id ("CWE-" +:+ str_of_Z n) = "CWE-" +:+ str_of_Z n.
Proof.
  intros N. rewrite normalize_clean by by apply cwe_text_clean.
  rewrite cwe_digits_text by (unfold all_digits; by rewrite str_of_Z_nonempty, str_of_nat_digits). by rewrite digits_value_str.
Qed.

(** A canonical identifier is canonical. *)
Lemma normalize_cwe_idemp v : _normalize_cwe_id (_normalize_cwe_id v) = _normalize_cwe_id v.
Proof.
  unfold _normalize_cwe_id at 2 3. destruct (nonempty (strip v)); [|done]. cbn [negb]. pose proof (compact_upper_clean (strip v)) as C.
  set (c := compact (upper (strip v))) in *. clearbody c. destruct (all_digits c) eqn:D.
  - apply andb_prop in D as [_ D]. by apply normalize_cwe_number, digits_nonneg.
  - destruct (cwe_digits c) as [d|] eqn:E.
    + unfold cwe_digits in E. destruct (_ && _) eqn:K in E; [|done]. injection E as <-. apply andb_prop in K as [_ K]. apply andb_prop in K as [_ K].
      by apply normalize_cwe_number, digits_nonneg.
    + rewrite normalize_clean by done. rewrite D, E. by destruct c.
Qed.

(** Filtering and canonising the list first does not change which CWE is found. *)
Lemma first_cwe_normalized {A} (table : list (string * A)) l : assoc "" table = None ->
  first_cwe table (List.filter nonempty (map _normalize_cwe_id l)) = first_cwe table l.
Proof.
  intros E. induction l as [|x l IH]; [done|]. cbn [map List.filter first_cwe]. destruct (_normalize_cwe_id x) as [|a t] eqn:N.
  - by rewrite E.
  - cbn [nonempty first_cwe]. rewrite <-N, normalize_cwe_idemp, N, IH. done.
Qed.

Lemma first_cwe_keys {A B} (t1 : list (string * A)) (t2 : list (string * B)) l : map fst t1 = map fst t2 ->
  option_map fst (first_cwe t1 l) = option_map fst (first_cwe t2 l).
Proof.
  intros K. assert (forall k, is_Some (assoc k t1) <-> is_Some (assoc k t2)) as S.
  { clear l. revert t2 K. induction t1 as [|[k1 a] t1 IH]; intros [|[k2 b] t2] K; try discriminate K; [intros k; split; intros [? [=]]|].
    assert (k1 = k2 /\ map fst t1 = map fst t2) as [-> K'] by (cbn in K; split; congruence). clear K. intros k. cbn [assoc].
    destruct (String.eqb k2 k); [split; by eexists|by apply IH]. }
  induction l as [|x l IH]; [done|]. cbn [first_cwe]. specialize (S (_normalize_cwe_id x)).
  destruct (assoc (_normalize_cwe_id x) t1) as [a|], (assoc (_normalize_cwe_id x) t2) as [b|]; [done| | |exact IH].
  - destruct S as [S _]. destruct S as [? S]; [by eexists|done].
  - destruct S as [_ S]. destruct S as [? S]; [by eexists|done].
Qed.
