(* ===== verification/Sigma.v ===== *)
(** * Sigma: generated Sigma rules (detection/sigma_generator.py)

    A rule points into its template: [rule["detection"]] is the template's own dict, and
    adding a context's keywords to the rule writes that dict.  The dicts are therefore a
    store, one entry per template object, that the generator threads through; a rule
    keeps the name of its entry.  [json_loads] and [str_of] are those of [DetClass];
    [md5] is the hexadecimal MD5 of a text, [yaml_dump] and [safe_load] are PyYAML, and
    [today] is the printed date. *)

From S2P Require Import Prelude PyStr PyVal Ioc DetClass.
Open Scope string_scope.
Open Scope Z_scope.

(** A text with its double quotes written [~]. *)
Definition dq : string -> string := smap (fun c => if Ascii.eqb c "~" then "034"%char else c).

Definition texts (l : list string) : pyval := PList (map PStr l).
Definition ints (l : list Z) : pyval := PList (map PInt l).

(** A template; [t_name] is the identity of its detection dict.  The technique
    templates have neither of the last two keys. *)
Record template := mkTemplate {
  t_name : string; tactic : string; logsource : list (string * string); detection : list (string * pyval);
  falsepositives : list string; level : string; t_confidence : option string; t_note_extra : option string
}.

(** ** Templates *)

Definition T1190_template : template :=
  mkTemplate "T1190" "initial_access" [("category", "webserver")]
    [("keywords", texts ["../"; "%2e%2e"; "cmd.exe"; "/etc/passwd"; ";id;"; "whoami"; "<script"; "' OR '1'='1"; "UNION SELECT"]);
     ("condition", PStr "keywords")]
    ["Vulnerability scanners"; "Penetration testing"; "Security researchers"] "high" None None.

Definition T1133_template : template :=
  mkTemplate "T1133" "initial_access" [("product", "windows"); ("category", "network_connection")]
    [("selection", PDict [("DestinationPort", ints [3389; 22; 5900; 1194; 8443]); ("Initiated", PStr "true")]);
     ("filter", PDict [("SourceIp|startswith", texts ["10."; "192.168."; "172.16."])]); ("condition", PStr "selection and not filter")]
    ["Legitimate remote administration"; "VPN connections"] "medium" None None.

Definition T1059_template : template :=
  mkTemplate "T1059" "execution" [("product", "windows"); ("category", "process_creation")]
    [("selection", PDict [("Image|endswith", texts ["\cmd.exe"; "\powershell.exe"; "\pwsh.exe"; "\bash.exe"; "\sh.exe"; "\wscript.exe";
     "\cscript.exe"]); ("ParentImage|endswith", texts ["\svchost.exe"; "\services.exe"; "\winlogon.exe"; "\lsass.exe"])]);
     ("condition", PStr "selection")]
    ["Administrator activity"; "Legitimate scripts run by svchost"] "medium" None None.

Definition T1203_template : template :=
  mkTemplate "T1203" "execution" [("product", "windows"); ("category", "process_creation")]
    [("selection", PDict [("ParentImage|endswith", texts ["\winword.exe"; "\excel.exe"; "\outlook.exe"; "\firefox.exe"; "\chrome.exe"; "\msedge.exe";
     "\acrobat.exe"; "\acrord32.exe"]); ("Image|endswith", texts ["\cmd.exe"; "\powershell.exe"; "\wscript.exe"; "\mshta.exe"; "\regsvr32.exe";
     "\rundll32.exe"])]); ("condition", PStr "selection")]
    ["Macros in legitimate documents"; "Office automation tools"] "high" None None.

Definition T1068_template : template :=
  mkTemplate "T1068" "privilege_escalation" [("product", "windows"); ("category", "process_creation")]
    [("selection", PDict [("IntegrityLevel", PStr "System")]); ("filter", PDict [("Image|endswith", texts ["\services.exe"; "\lsass.exe";
     "\smss.exe"; "\csrss.exe"; "\wininit.exe"; "\svchost.exe"])]); ("condition", PStr "selection and not filter")]
    ["Legitimate system processes"; "Software installers"] "high" None None.

Definition T1055_template : template :=
  mkTemplate "T1055" "privilege_escalation" [("product", "windows"); ("category", "create_remote_thread")]
    [("selection", PDict [("TargetImage|endswith", texts ["\explorer.exe"; "\svchost.exe"; "\lsass.exe"; "\winlogon.exe"; "\notepad.exe";
     "\calc.exe"])]); ("filter", PDict [("SourceImage|endswith", texts ["\svchost.exe"; "\services.exe"; "\csrss.exe"])]);
     ("condition", PStr "selection and not filter")]
    ["Security products"; "Legitimate injection frameworks"] "high" None None.

Definition T1027_template : template :=
  mkTemplate "T1027" "defense_evasion" [("product", "windows"); ("category", "process_creation")]
    [("selection", PDict [("CommandLine|contains", texts ["base64"; "IEX"; "Invoke-Expression"; "FromBase64String"; "-enc"; "-EncodedCommand";
     "char("; "CHAR("; "0x"])]); ("condition", PStr "selection")]
    ["Legitimate PowerShell administration"; "Software installers using base64"] "medium" None None.

Definition T1036_template : template :=
  mkTemplate "T1036" "defense_evasion" [("product", "windows"); ("category", "process_creation")]
    [("selection", PDict [("Image|endswith", PStr "\svchost.exe")]); ("filter", PDict [("ParentImage|endswith", texts ["\services.exe";
     "\MsMpEng.exe"])]); ("condition", PStr "selection and not filter")]
    ["Some security tools that spawn svchost"] "high" None None.

Definition T1110_template : template :=
  mkTemplate "T1110" "credential_access" [("product", "windows"); ("service", "security")]
    [("selection", PDict [("EventID", PInt 4625)]); ("timeframe", PStr "5m"); ("condition", PStr "selection | count() > 10 by TargetUserName")]
    ["Misconfigured services"; "Users forgetting passwords"] "medium" None None.

Definition T1003_template : template :=
  mkTemplate "T1003" "credential_access" [("product", "windows"); ("category", "process_access")]
    [("selection", PDict [("TargetImage|endswith", PStr "\lsass.exe"); ("GrantedAccess|contains", texts ["0x1010"; "0x1410"; "0x147a"; "0x143a"])]);
     ("filter", PDict [("SourceImage|endswith", texts ["\MsMpEng.exe"; "\taskmgr.exe"; "\csrss.exe"])]);
     ("condition", PStr "selection and not filter")]
    ["Security products accessing lsass"; "Task Manager"] "critical" None None.

Definition T1021_template : template :=
  mkTemplate "T1021" "lateral_movement" [("product", "windows"); ("service", "security")]
    [("selection", PDict [("EventID", ints [4624; 4648]); ("LogonType", ints [3; 10])]); ("filter", PDict [("SubjectUserName|endswith", PStr "$")]);
     ("condition", PStr "selection and not filter")]
    ["Legitimate remote administration"; "Domain controller logins"] "low" None None.

Definition T1570_template : template :=
  mkTemplate "T1570" "lateral_movement" [("product", "windows"); ("category", "network_connection")]
    [("selection", PDict [("DestinationPort", ints [445; 139]); ("Initiated", PStr "true")]); ("filter", PDict [("DestinationIp", texts ["127.0.0.1";
     "::1"])]); ("condition", PStr "selection and not filter")]
    ["Legitimate file transfers"; "DFS replication"; "Print spooler"] "low" None None.

Definition T1071_template : template :=
  mkTemplate "T1071" "command_and_control" [("category", "proxy")]
    [("keywords", texts ["CONNECT "; "User-Agent: Mozilla/4.0 (compatible; MSIE 6.0)"]);
     ("selection", PDict [("c-useragent|contains", texts ["python-requests"; "Go-http-client"; "curl/"; "wget/"])]);
     ("condition", PStr "keywords or selection")]
    ["Legitimate proxy use"; "Automated scripts"] "medium" None None.

Definition T1095_template : template :=
  mkTemplate "T1095" "command_and_control" [("category", "firewall")]
    [("selection", PDict [("proto", texts ["icmp"; "icmp6"]); ("data_length|gt", PInt 64)]); ("condition", PStr "selection")]
    ["Network monitoring tools"; "Ping sweeps"] "medium" None None.

Definition DEFAULT_TEMPLATE : template :=
  mkTemplate "DEFAULT_TEMPLATE" "initial_access" [("category", "webserver")]
    [("keywords", texts ["exploit"; "attack"; "injection"; "overflow"]); ("condition", PStr "keywords")]
    ["Security scanners"; "Penetration testing"] "medium" None None.

Definition _CWE_PATH_TRAVERSAL : template :=
  mkTemplate "_CWE_PATH_TRAVERSAL" "initial_access" [("category", "webserver")]
    [("keywords", texts ["../"; "..\"; "%2e%2e%2f"; "%252e"; "/etc/passwd"; "boot.ini"; "web.config"]); ("condition", PStr "keywords")]
    ["URL-encoded path normalization"; "Legitimate file paths"] "high" (Some "MEDIUM") (Some "").

Definition _CWE_CMD_INJECTION : template :=
  mkTemplate "_CWE_CMD_INJECTION" "initial_access" [("category", "webserver")]
    [("keywords", texts [";id"; "; id"; "|whoami"; "| whoami"; "`id`"; "$("; "&&wget"; "&& wget"; ";curl"; "; curl"; "/bin/sh"; "cmd.exe /c"]);
     ("condition", PStr "keywords")]
    ["Shell tutorials in logs"; "Dev tooling"] "high" (Some "MEDIUM") (Some "").

Definition _CWE_SQLI : template :=
  mkTemplate "_CWE_SQLI" "initial_access" [("category", "webserver")]
    [("keywords", texts ["UNION SELECT"; "' OR '1'='1"; "SLEEP("; "BENCHMARK("; "information_schema"; "xp_cmdshell"]); ("condition", PStr "keywords")]
    ["ORM debug output"; "SQL in documentation requests"] "high" (Some "MEDIUM") (Some "").

Definition _CWE_XSS : template :=
  mkTemplate "_CWE_XSS" "initial_access" [("category", "webserver")]
    [("keywords", texts ["<script"; "onerror="; "javascript:"; "%3Cscript"]); ("condition", PStr "keywords")]
    ["Rich text editors"; "Marketing pages with inline scripts"; "Security scanners"] "low" (Some "LOW") (Some "High false-positive rate — tune keywords to your apps").

Definition _CWE_DESER : template :=
  mkTemplate "_CWE_DESER" "initial_access" [("category", "webserver")]
    [("keywords", texts ["rO0AB"; "aced0005"; "TypeObject"; "ysoserial"; "__VIEWSTATE"]); ("condition", PStr "keywords")]
    ["Legitimate serialized session blobs"] "high" (Some "MEDIUM") (Some "").

Definition _CWE_CODE_INJECTION : template :=
  mkTemplate "_CWE_CODE_INJECTION" "execution" [("category", "webserver")]
    [("keywords", texts ["eval("; "assert("; "base64_decode("; "{{"; "}}"; "${"; "}"]); ("condition", PStr "keywords")]
    ["Template engines in dev"; "Debug endpoints"] "medium" (Some "MEDIUM") (Some "").

Definition _CWE_UPLOAD : template :=
  mkTemplate "_CWE_UPLOAD" "initial_access" [("category", "webserver")]
    [("keywords", texts [".jsp"; ".jspx"; ".php"; ".aspx"; ".ashx"; ".war"]); ("condition", PStr "keywords")]
    ["Legitimate file uploads"; "Static asset paths"] "high" (Some "MEDIUM") (Some "").

Definition _CWE_SSRF : template :=
  mkTemplate "_CWE_SSRF" "initial_access" [("category", "webserver")]
    [("keywords", texts ["169.254.169.254"; "metadata.google"; "localhost:"; "127.0.0.1"; "file://"; "gopher://"]); ("condition", PStr "keywords")]
    ["Health checks"; "Internal service callbacks"] "high" (Some "MEDIUM") (Some "").

Definition _CWE_XXE : template :=
  mkTemplate "_CWE_XXE" "initial_access" [("category", "webserver")]
    [("keywords", texts ["<!ENTITY"; dq "SYSTEM ~file://"; dq "SYSTEM ~http://"; "SYSTEM 'file://"; "SYSTEM 'http://"]);
     ("condition", PStr "keywords")]
    ["XML config parsers"; "Document import features"] "high" (Some "MEDIUM") (Some "").

Definition _CWE_AUTH_BYPASS : template :=
  mkTemplate "_CWE_AUTH_BYPASS" "initial_access" [("category", "webserver")]
    [("keywords", texts ["/admin"; "/api/login"; "/api/auth"; "bypass"; "unauthorized"; "privilege"]); ("condition", PStr "keywords")]
    ["Legitimate admin traffic"; "Auth integration tests"] "medium" (Some "MEDIUM") (Some "Requires environment tuning — map to your admin/API paths").

Definition _CWE_MEMORY_CORRUPTION : template :=
  mkTemplate "_CWE_MEMORY_CORRUPTION" "execution" [("category", "application")]
    [("selection", PDict [("EventID", ints [1000; 1001])]); ("keywords", texts ["segfault"; "SIGSEGV"; "core dumped"]);
     ("condition", PStr "selection or keywords")]
    ["Benign application crashes"; "Stability issues unrelated to exploitation"] "low" (Some "LOW") (Some "Crash telemetry is not proof of exploitation — correlate with exploit activity").

Definition _CWE_DEFAULT_CREDS : template :=
  mkTemplate "_CWE_DEFAULT_CREDS" "credential_access" [("category", "authentication")]
    [("keywords", texts ["admin"; "default"; "root"; "password"; "guest"]); ("condition", PStr "keywords")]
    ["Password reset flows"; "Onboarding scripts"] "medium" (Some "MEDIUM") (Some "Fill in your product's vendor-default account names").

Definition TECHNIQUE_TEMPLATES : list (string * template) :=
  [("T1190", T1190_template); ("T1133", T1133_template); ("T1059", T1059_template); ("T1203", T1203_template); ("T1068", T1068_template);
   ("T1055", T1055_template); ("T1027", T1027_template); ("T1036", T1036_template); ("T1110", T1110_template); ("T1003", T1003_template);
   ("T1021", T1021_template); ("T1570", T1570_template); ("T1071", T1071_template); ("T1095", T1095_template)].

Definition CWE_TEMPLATES : list (string * template) :=
  [("CWE-22", _CWE_PATH_TRAVERSAL); ("CWE-23", _CWE_PATH_TRAVERSAL); ("CWE-35", _CWE_PATH_TRAVERSAL); ("CWE-78", _CWE_CMD_INJECTION);
   ("CWE-89", _CWE_SQLI); ("CWE-79", _CWE_XSS); ("CWE-502", _CWE_DESER); ("CWE-94", _CWE_CODE_INJECTION); ("CWE-95", _CWE_CODE_INJECTION);
   ("CWE-434", _CWE_UPLOAD); ("CWE-918", _CWE_SSRF); ("CWE-611", _CWE_XXE); ("CWE-287", _CWE_AUTH_BYPASS); ("CWE-288", _CWE_AUTH_BYPASS);
   ("CWE-306", _CWE_AUTH_BYPASS); ("CWE-416", _CWE_MEMORY_CORRUPTION); ("CWE-787", _CWE_MEMORY_CORRUPTION); ("CWE-119", _CWE_MEMORY_CORRUPTION);
   ("CWE-122", _CWE_MEMORY_CORRUPTION); ("CWE-798", _CWE_DEFAULT_CREDS)].

(** ** The store *)

Definition store := list (string * list (string * pyval)).

Definition ALL_TEMPLATES : list template := (DEFAULT_TEMPLATE :: map snd TECHNIQUE_TEMPLATES ++ map snd CWE_TEMPLATES)%list.

(** The dicts as the module creates them; a template in two rows of a table is one
    object. *)
Definition initial_store : store := fold_left (fun st t => dset st (t_name t) (detection t)) ALL_TEMPLATES [].

Definition detection_of (st : store) (name : string) : list (string * pyval) := match assoc name st with Some d => d | None => [] end.

Definition _DEFAULT_BRIEFR_NOTE : string := "Validate before deploying to production — adjust field names and conditions to your environment".

Record rule := mkRule {
  title : string; rule_id : string; description : string; reference : string; date : string; tags : list string;
  r_logsource : list (string * string); detection_ref : string; r_falsepositives : list string; r_level : string;
  briefr_basis : string; briefr_confidence : string; briefr_note : string; briefr_class : option string; briefr_artifacts : option pyval
}.

Section generator.
Context (json_loads : string -> option pyval) (str_of : pyval -> string) (md5 : string -> string).
Context (yaml_dump : list (string * pyval) -> string) (safe_load : string -> option pyval).
Variable today : string.

Definition _resolve_template (technique_id : string) (cwe_ids : list pyval) : template * string * string :=
  match assoc (technique_prefix technique_id) TECHNIQUE_TEMPLATES with
  | Some t => (t, "attack_technique", "")
  | None => match first_cwe CWE_TEMPLATES (map (to_text str_of) cwe_ids) with
            | Some (cwe_id, t) => (t, "cwe", cwe_id)
            | None => (DEFAULT_TEMPLATE, "generic", "")
            end
  end.

(** ** Artifacts *)

(** The loop over the extra keywords: the list stops growing when it has thirty. *)
Fixpoint add_keywords (existing : list pyval) (seen : list string) (extra : list pyval) : list pyval :=
  match extra with
  | [] => existing
  | kw :: rest =>
      let token := strip (to_text str_of (py_or kw (PStr ""))) in
      if negb (nonempty token) || one_in seen (lower token) then add_keywords existing seen rest
      else let existing := (existing ++ [PStr token])%list in
           if (30 <=? length existing)%nat then existing else add_keywords existing (lower token :: seen) rest
  end.

Definition seen_of (existing : list pyval) : list string := map (fun k => lower (to_text str_of k)) existing.

(** The keywords and the paths of the artifacts, in order. *)
Definition extras (artifacts : list pyval) : res (list pyval * list pyval) :=
  fold_left (fun acc art =>
    let! kp := acc in
    match art with
    | PDict d =>
        let! ks := iter_of (py_or (dget d "keywords") (PList [])) in
        let! ps := iter_of (py_or (dget d "paths") (PList [])) in
        Ok (fst kp ++ ks, snd kp ++ ps)%list
    | _ => Ok kp
    end) artifacts (Ok ([], [])).

(** [artifacts[:8]] *)
Definition first_eight (v : pyval) : res pyval :=
  match v with
  | PList l => Ok (PList (firstn 8 l))
  | PStr s => Ok (PStr (stake 8 s))
  | PDict _ => Raise KeyError
  | _ => Raise TypeError
  end.

Definition hashable (v : pyval) : bool := match v with PList _ | PDict _ => false | _ => true end.

(** The first [n] distinct values, as texts: a value that is no text cannot be joined. *)
Fixpoint first_texts (n : nat) (taken : list string) (l : list pyval) : res (list string) :=
  match n, l with
  | O, _ | _, [] => Ok taken
  | S k, PStr s :: t => if one_in taken s then first_texts (S k) taken t else first_texts k (taken ++ [s])%list t
  | S _, _ :: _ => Raise TypeError
  end.

(** [", ".join(list(dict.fromkeys(extra_paths))[:3])] *)
Definition path_hint (paths : list pyval) : res string :=
  if forallb hashable paths then let! l := first_texts 3 [] paths in Ok (sjoin ", " l) else Raise TypeError.

Definition keyword_list (d : list (string * pyval)) : option (list pyval) :=
  if eq_str (dget d "condition") "keywords" then match dget d "keywords" with PList l => Some l | _ => None end else None.

(** The keywords written to the template's dict. *)
Definition write_keywords (st : store) (name : string) (extra : list pyval) : store :=
  let d := detection_of st name in
  match keyword_list d with
  | Some existing => dset st name (dset d "keywords" (PList (add_keywords existing (seen_of existing) extra)))
  | None => st
  end.

Definition with_artifacts (a : pyval) (r : rule) : rule :=
  mkRule (title r) (rule_id r) (description r) (reference r) (date r) (tags r) (r_logsource r) (detection_ref r) (r_falsepositives r)
    (r_level r) (briefr_basis r) (briefr_confidence r) (briefr_note r) (briefr_class r) (Some a).
Definition with_note (n : string) (r : rule) : rule :=
  mkRule (title r) (rule_id r) (description r) (reference r) (date r) (tags r) (r_logsource r) (detection_ref r) (r_falsepositives r)
    (r_level r) (briefr_basis r) (briefr_confidence r) n (briefr_class r) (briefr_artifacts r).

Definition _apply_artifacts_to_sigma_rule (st : store) (r : rule) (ctx : list (string * pyval)) : store * res rule :=
  let artifacts := dget ctx "artifacts" in
  if negb (truthy artifacts) then (st, Ok r)
  else match first_eight artifacts with
       | Raise e => (st, Raise e)
       | Ok a =>
           match (let! l := iter_of artifacts in extras l) with
           | Raise e => (st, Raise e)
           | Ok (keywords, paths) =>
               let r := with_artifacts a r in
               let st := write_keywords st (detection_ref r) keywords in
               match paths with
               | [] => (st, Ok r)
               | _ => (st, let! hint := path_hint paths in
                           Ok (with_note ((if nonempty (briefr_note r) then briefr_note r else _DEFAULT_BRIEFR_NOTE) +:+ " — Nuclei paths: " +:+ hint) r))
               end
           end
       end.

(** ** The rule *)

Definition dotted (s : string) : string := smap (fun c => if Ascii.eqb c "-" then "."%char else c) (lower s).

Definition part (a n : nat) (s : string) : string := stake n (sdrop a s).

Definition _generate_rule_id (cve_id technique_id cwe_id : string) : string :=
  let digest := md5 (cve_id +:+ ":" +:+ technique_id +:+ ":" +:+ cwe_id) in
  part 0 8 digest +:+ "-" +:+ part 8 4 digest +:+ "-" +:+ part 12 4 digest +:+ "-" +:+ part 16 4 digest +:+ "-" +:+ part 20 12 digest.

Definition or_text (o : option string) (d : string) : string := match o with Some s => s | None => d end.

Definition build_sigma_rule_dict (st : store) (cve_id technique_id product descr : string) (cwe_ids : option (list string))
    (ctx : option (list (string * pyval))) : store * res rule :=
  let ctx := match ctx with Some d => d | None => [] end in
  match merge_detection_inputs product cwe_ids technique_id ctx with
  | Raise e => (st, Raise e)
  | Ok (p, cwes, technique) =>
      let '(template, basis, matched_cwe) := _resolve_template technique cwes in
      let extra := strip (or_text (t_note_extra template) "") in
      let note := if nonempty extra then _DEFAULT_BRIEFR_NOTE +:+ " — " +:+ extra else _DEFAULT_BRIEFR_NOTE in
      let class := resolve_detection_class technique (normalize_cwe_ids json_loads str_of (PList cwes)) in
      let r := mkRule ((if nonempty p then p else "Affected Product") +:+ " - " +:+ cve_id +:+ " Exploitation Attempt")
        (_generate_rule_id cve_id technique_id matched_cwe)
        (if nonempty (strip descr) then strip descr else "Detects exploitation attempt targeting " +:+ cve_id +:+ ".")
        ("https://nvd.nist.gov/vuln/detail/" +:+ cve_id) today
        ((("attack." +:+ tactic template) :: (if nonempty technique_id then ["attack." +:+ lower technique_id] else [])) ++
         (if nonempty matched_cwe then [dotted matched_cwe] else []) ++ ["cve." +:+ dotted cve_id])%list
        (logsource template) (t_name template) (falsepositives template) (level template) basis (or_text (t_confidence template) "MEDIUM") note
        (if String.eqb class "generic" then None else Some class) None in
      _apply_artifacts_to_sigma_rule st r ctx
  end.

(** The dict of a rule, its detection read from the store. *)
Definition rule_dict (st : store) (r : rule) : list (string * pyval) :=
  ([("title", PStr (title r)); ("id", PStr (rule_id r)); ("status", PStr "experimental"); ("description", PStr (description r));
    ("references", texts [reference r]); ("author", PStr "BRIEFR (generated)"); ("date", PStr (date r)); ("tags", texts (tags r));
    ("logsource", PDict (map (fun e => (fst e, PStr (snd e))) (r_logsource r))); ("detection", PDict (detection_of st (detection_ref r)));
    ("falsepositives", texts (r_falsepositives r)); ("level", PStr (r_level r)); ("briefr_basis", PStr (briefr_basis r));
    ("briefr_confidence", PStr (briefr_confidence r)); ("briefr_note", PStr (briefr_note r))] ++
   (match briefr_class r with Some c => [("briefr_class", PStr c)] | None => [] end) ++
   (match briefr_artifacts r with Some a => [("briefr_artifacts", a)] | None => [] end))%list.

Definition kept (d : list (string * pyval)) (k : string) : list (string * pyval) := if truthy (dget d k) then [(k, dget d k)] else [].

Definition sigma_rule_meta_from_dict (d : list (string * pyval)) : list (string * pyval) :=
  ([("briefr_basis", py_or (dget d "briefr_basis") (PStr "generic")); ("briefr_confidence", py_or (dget d "briefr_confidence") (PStr "MEDIUM"));
    ("status", py_or (dget d "status") (PStr "experimental"))] ++
   kept d "briefr_class" ++ kept d "briefr_note" ++ kept d "briefr_artifacts")%list.

Definition generate_sigma_rule_bundle (st : store) (cve_id technique_id product descr : string) (cwe_ids : option (list string))
    (ctx : option (list (string * pyval))) : store * res (string * list (string * pyval)) :=
  let '(st, r) := build_sigma_rule_dict st cve_id technique_id product descr cwe_ids ctx in
  (st, let! r := r in Ok (yaml_dump (rule_dict st r), sigma_rule_meta_from_dict (rule_dict st r))).

Definition generate_sigma_rule (st : store) (cve_id technique_id product descr : string) (cwe_ids : option (list string))
    (ctx : option (list (string * pyval))) : store * res string :=
  let '(st, r) := build_sigma_rule_dict st cve_id technique_id product descr cwe_ids ctx in
  (st, let! r := r in Ok (yaml_dump (rule_dict st r))).

Definition parse_sigma_rule_meta (yaml_text : pyval) : list (string * pyval) :=
  match yaml_text with
  | PStr s => match safe_load s with
              | Some v => match py_or v (PDict []) with PDict d => sigma_rule_meta_from_dict d | _ => [] end
              | None => []
              end
  | _ => []
  end.

(** ** Histories *)

(** The arguments of one call. *)
Record request := mkRequest {
  q_cve : string; q_technique : string; q_product : string; q_description : string; q_cwes : option (list string);
  q_context : option (list (string * pyval))
}.

Definition build (st : store) (q : request) : store * res rule :=
  build_sigma_rule_dict st (q_cve q) (q_technique q) (q_product q) (q_description q) (q_cwes q) (q_context q).

Definition history (st : store) (qs : list request) : store := fold_left (fun st q => fst (build st q)) qs st.

End generator.

(** ** Lemmas *)

Lemma detection_of_dset st name d name' : detection_of (dset st name d) name' = if String.eqb name name' then d else detection_of st name'.
Proof. unfold detection_of. rewrite assoc_dset. by destruct (String.eqb name name'). Qed.

Section facts.
Context (json_loads : string -> option pyval) (str_of : pyval -> string) (md5 : string -> string).
Context (yaml_dump : list (string * pyval) -> string) (safe_load : string -> option pyval).
Variable today : string.

Abbreviation make := (build json_loads str_of md5 today).
Abbreviation run := (history json_loads str_of md5 today).
Abbreviation lowered := (seen_of str_of).

(** New keywords: nonempty and stripped, different from each other and from those
    present, letter case aside. *)
Definition fresh_tokens (seen new : list string) : Prop :=
  Forall (fun t => nonempty t = true /\ strip t = t /\ lower t ∉ seen) new /\ NoDup (map lower new).

Lemma add_keywords_spec extra : forall existing seen, exists new,
  add_keywords str_of existing seen extra = (existing ++ map PStr new)%list /\ fresh_tokens seen new /\
  (length (existing ++ map PStr new) <= Nat.max 30 (S (length existing)))%nat.
Proof.
  induction extra as [|kw extra IH]; intros existing seen; cbn [add_keywords].
  { exists []. cbn [map]. rewrite app_nil_r. split; [done|]. split; [split; constructor|lia]. }
  set (token := strip _). destruct (negb (nonempty token) || one_in seen (lower token)) eqn:S.
  { destruct (IH existing seen) as (new & E & F & L). by exists new. }
  apply orb_false_iff in S as [N S]. apply negb_false_iff in N.
  assert (lower token ∉ seen) as NS by (rewrite <-one_in_spec; by rewrite S).
  assert (strip token = token) as ST by apply strip_idemp.
  destruct (30 <=? length (existing ++ [PStr token]))%nat eqn:C.
  - exists [token]. split; [done|]. split; [|rewrite length_app; cbn [map length]; lia].
    split; [by repeat constructor|apply NoDup_singleton].
  - destruct (IH (existing ++ [PStr token])%list (lower token :: seen)) as (new & E & (F & D) & L). exists (token :: new).
    apply Nat.leb_gt in C. cbn [map] in *. pose proof (length_map PStr new) as M. rewrite !length_app in L. rewrite length_app in C. rewrite length_app. cbn [length] in *.
    split; [by rewrite E, <-app_assoc|]. split; [|cbn [map length]; lia]. split.
    + constructor; [done|]. eapply Forall_impl; [exact F|]. intros t (A & B & X). split; [done|]. split; [done|]. intros I. apply X. by right.
    + cbn [map]. apply NoDup_cons. split; [|exact D]. intros I. apply list_elem_of_fmap in I as (t & T & I).
      rewrite List.Forall_forall in F. apply list_elem_of_In in I. destruct (F t I) as (_ & _ & X). apply X. rewrite <-T. by left.
Qed.

(** What a dict of the store becomes: only its keywords change, and those only grow. *)
Definition grows (d d' : list (string * pyval)) : Prop :=
  match keyword_list d with
  | None => d' = d
  | Some l => (forall k, k <> "keywords" -> dget d' k = dget d k) /\
              exists new, keyword_list d' = Some (l ++ map PStr new)%list /\ fresh_tokens (lowered l) new
  end.

Lemma seen_of_app l new : lowered (l ++ map PStr new) = (lowered l ++ map lower new)%list.
Proof. unfold seen_of. rewrite map_app, map_map. done. Qed.

Lemma fresh_tokens_nil seen : fresh_tokens seen [].
Proof. split; constructor. Qed.

Lemma grows_refl d : grows d d.
Proof.
  unfold grows. destruct (keyword_list d) as [l|] eqn:K; [|done]. split; [done|]. exists [].
  split; [by rewrite app_nil_r|apply fresh_tokens_nil].
Qed.

Lemma fresh_tokens_app seen a b : fresh_tokens seen a -> fresh_tokens (seen ++ map lower a) b -> fresh_tokens seen (a ++ b).
Proof.
  intros (F & D) (F' & D'). split.
  - apply Forall_app. split; [exact F|]. eapply Forall_impl; [exact F'|]. intros t (A & B & X). split; [done|]. split; [done|]. intros I. apply X, elem_of_app. by left.
  - rewrite map_app. apply NoDup_app. split; [exact D|]. split; [|exact D']. intros x I J. apply list_elem_of_fmap in J as (t & -> & J).
    rewrite List.Forall_forall in F'. apply list_elem_of_In, F' in J as (_ & _ & X). apply X, elem_of_app. by right.
Qed.

Lemma grows_trans a b c : grows a b -> grows b c -> grows a c.
Proof.
  unfold grows. destruct (keyword_list a) as [l|] eqn:K; [|intros ->; by rewrite K].
  intros (E & n1 & K1 & F1). rewrite K1. intros (E' & n2 & K2 & F2). split; [intros k N; by rewrite E', E|].
  exists (n1 ++ n2)%list. rewrite map_app, app_assoc. split; [done|]. apply fresh_tokens_app; [done|]. by rewrite <-seen_of_app.
Qed.

Lemma keyword_list_dset d l l' : keyword_list d = Some l -> keyword_list (dset d "keywords" (PList l')) = Some l'.
Proof. unfold keyword_list. rewrite !dget_dset. cbn. by destruct (eq_str (dget d "condition") "keywords"). Qed.

Lemma write_keywords_grows st name extra name' : grows (detection_of st name') (detection_of (write_keywords str_of st name extra) name').
Proof.
  unfold write_keywords. destruct (keyword_list (detection_of st name)) as [l|] eqn:K; [|apply grows_refl].
  rewrite detection_of_dset. destruct (String.eqb_spec name name') as [<-|]; [|apply grows_refl].
  unfold grows. rewrite K. destruct (add_keywords_spec extra l (lowered l)) as (new & E & F & _). rewrite E. split.
  - intros k N. rewrite dget_dset. destruct (String.eqb_spec "keywords" k) as [<-|]; done.
  - exists new. split; [by apply (keyword_list_dset _ l)|exact F].
Qed.

(** A build either leaves the store alone or writes the keywords of one entry. *)
Lemma apply_artifacts_store st r ctx : let st' := fst (_apply_artifacts_to_sigma_rule str_of st r ctx) in
  st' = st \/ exists extra, st' = write_keywords str_of st (detection_ref r) extra.
Proof.
  cbv zeta. unfold _apply_artifacts_to_sigma_rule. destruct (truthy _); [|by left]. destruct (first_eight _); [|by left]. cbn [negb].
  destruct (let! l := _ in _) as [[ks ps]|]; [|by left]. right. exists ks. by destruct ps.
Qed.

(** The rule that comes back differs in its artifacts and its note alone. *)
Definition same_but_note (r r' : rule) : Prop :=
  exists n a, r' = mkRule (title r) (rule_id r) (description r) (reference r) (date r) (tags r) (r_logsource r) (detection_ref r)
                     (r_falsepositives r) (r_level r) (briefr_basis r) (briefr_confidence r) n (briefr_class r) a.

Lemma apply_artifacts_rule st r ctx r' : snd (_apply_artifacts_to_sigma_rule str_of st r ctx) = Ok r' -> same_but_note r r'.
Proof.
  unfold _apply_artifacts_to_sigma_rule. destruct (truthy _); cbn [negb]; [|intros E; apply ok_inj in E; subst r'; exists (briefr_note r), (briefr_artifacts r); by destruct r].
  destruct (first_eight _) as [a|]; [|done]. destruct (let! l := _ in _) as [[ks ps]|]; [|done]. destruct ps as [|p ps]; cbn [snd].
  - intros E. apply ok_inj in E. subst r'. by exists (briefr_note r), (Some a).
  - destruct (path_hint _) as [h|]; [|done]. cbn [res_bind]. intros E. apply ok_inj in E. subst r'. eexists _, (Some a). reflexivity.
Qed.

Lemma build_grows st q name : grows (detection_of st name) (detection_of (fst (make st q)) name).
Proof.
  unfold build, build_sigma_rule_dict. destruct (merge_detection_inputs _ _ _ _) as [[[p cwes] technique]|]; [|apply grows_refl].
  destruct (_resolve_template _ _ _) as [[t basis] cwe]. cbv zeta.
  match goal with |- context [_apply_artifacts_to_sigma_rule _ _ ?r ?c] => destruct (apply_artifacts_store st r c) as [->|[extra ->]] end;
    [apply grows_refl|apply write_keywords_grows].
Qed.

Lemma history_grows qs st name : grows (detection_of st name) (detection_of (run st qs) name).
Proof.
  revert st. induction qs as [|q qs IH]; intros st; [apply grows_refl|]. cbn [history fold_left].
  eapply grows_trans; [apply (build_grows st q)|apply IH].
Qed.

Lemma build_rule st q r : snd (make st q) = Ok r ->
  exists p cwes technique n a, merge_detection_inputs (q_product q) (q_cwes q) (q_technique q) (match q_context q with Some d => d | None => [] end) = Ok (p, cwes, technique) /\
    let '(t, basis, cwe) := _resolve_template str_of technique cwes in
    let class := resolve_detection_class technique (normalize_cwe_ids json_loads str_of (PList cwes)) in
    briefr_basis r = basis /\ detection_ref r = t_name t /\ briefr_class r = (if String.eqb class "generic" then None else Some class) /\
    briefr_note r = n /\ briefr_artifacts r = a.
Proof.
  unfold build, build_sigma_rule_dict. destruct (merge_detection_inputs _ _ _ _) as [[[p cwes] technique]|]; [|done].
  destruct (_resolve_template _ _ _) as [[t basis] cwe] eqn:T. cbv zeta. intros E. apply apply_artifacts_rule in E as (n & a & ->).
  exists p, cwes, technique, n, a. rewrite T. done.
Qed.

Lemma named_slugs : Forall (fun e : string * string => String.eqb (snd e) "generic" = false) (TECHNIQUE_CLASS_SLUGS ++ CWE_CLASS_SLUGS).
Proof. vm_compute. repeat constructor. Qed.

Lemma not_generic k slug : assoc k TECHNIQUE_CLASS_SLUGS = Some slug \/ assoc k CWE_CLASS_SLUGS = Some slug -> String.eqb slug "generic" = false.
Proof.
  intros H. assert ((k, slug) ∈ (TECHNIQUE_CLASS_SLUGS ++ CWE_CLASS_SLUGS)%list) as I by (apply elem_of_app; destruct H as [H|H]; apply assoc_elem in H; auto).
  pose proof named_slugs as F. rewrite List.Forall_forall in F. apply list_elem_of_In in I. exact (F _ I).
Qed.

Lemma first_cwe_assoc {A} (table : list (string * A)) l c a : first_cwe table l = Some (c, a) -> assoc c table = Some a.
Proof.
  induction l as [|x l IH]; [done|]. cbn [first_cwe]. destruct (assoc (_normalize_cwe_id x) table) as [b|] eqn:E; [|exact IH]. by intros [= <- <-].
Qed.

Lemma normalize_list cwes : normalize_cwe_ids json_loads str_of (PList cwes) = List.filter nonempty (map _normalize_cwe_id (map (to_text str_of) cwes)).
Proof. unfold normalize_cwe_ids. destruct cwes as [|c l]; [done|]. cbn [truthy negb]. by rewrite map_map. Qed.

(** The router knows a technique or a CWE exactly when the generator has a template
    for it. *)
Lemma class_of_template technique cwes :
  let class := resolve_detection_class technique (normalize_cwe_ids json_loads str_of (PList cwes)) in
  let '(_, basis, _) := _resolve_template str_of technique cwes in String.eqb class "generic" = String.eqb basis "generic".
Proof.
  cbv zeta. unfold resolve_detection_class, _resolve_template. rewrite normalize_list.
  assert (forall A B (t1 : list (string * A)) (t2 : list (string * B)) k, map fst t1 = map fst t2 -> is_Some (assoc k t1) <-> is_Some (assoc k t2)) as K.
  { intros A B t1. induction t1 as [|[k1 a] t1 IH]; intros [|[k2 b] t2] k E; try discriminate E; [split; intros [? [=]]|].
    assert (k1 = k2 /\ map fst t1 = map fst t2) as [-> E'] by (cbn in E; split; congruence). cbn [assoc].
    destruct (String.eqb k2 k); [split; by eexists|by apply IH]. }
  assert (is_Some (assoc (technique_prefix technique) TECHNIQUE_CLASS_SLUGS) <-> is_Some (assoc (technique_prefix technique) TECHNIQUE_TEMPLATES)) as T by by apply K.
  pose proof (not_generic (technique_prefix technique)) as G.
  destruct (assoc (technique_prefix technique) TECHNIQUE_CLASS_SLUGS) as [slug|], (assoc (technique_prefix technique) TECHNIQUE_TEMPLATES) as [t|].
  - rewrite (G slug) by (by left). done.
  - destruct T as [T _]. destruct T as [? T]; [by eexists|done].
  - destruct T as [_ T]. destruct T as [? T]; [by eexists|done].
  - rewrite first_cwe_normalized by reflexivity. set (l := map _ cwes). clearbody l.
    assert (option_map fst (first_cwe CWE_CLASS_SLUGS l) = option_map fst (first_cwe CWE_TEMPLATES l)) as C by by apply first_cwe_keys.
    destruct (first_cwe CWE_CLASS_SLUGS l) as [[c slug]|] eqn:E, (first_cwe CWE_TEMPLATES l) as [[c' t]|]; try discriminate C; [|done].
    apply first_cwe_assoc in E. rewrite (not_generic c slug) by (by right). done.
Qed.

(** ** Theorems *)

(** [templates_only_grow]: whatever rules are generated, a template changes only
    in its keywords, and only when its condition is the keywords alone; these only
    grow, by nonempty stripped texts that differ from every keyword before them, letter
    case aside. *)
Theorem templates_only_grow qs st name : grows (detection_of st name) (detection_of (run st qs) name).
Proof. apply history_grows. Qed.

(** [artifacts_leak]: the keywords of a rule, those its own context brought
    included, are in every later rule of the same template, whatever vulnerability that
    rule is for. *)
Theorem artifacts_leak st q1 r1 l1 qs q2 r2 :
  snd (make st q1) = Ok r1 -> let st1 := fst (make st q1) in keyword_list (detection_of st1 (detection_ref r1)) = Some l1 ->
  snd (make (run st1 qs) q2) = Ok r2 -> detection_ref r2 = detection_ref r1 ->
  exists l2, keyword_list (detection_of (fst (make (run st1 qs) q2)) (detection_ref r2)) = Some l2 /\ forall k, k ∈ l1 -> k ∈ l2.
Proof.
  intros _. cbv zeta. intros K _ ->. set (st1 := fst (make st q1)) in *.
  pose proof (grows_trans _ _ _ (history_grows qs st1 (detection_ref r1)) (build_grows (run st1 qs) q2 (detection_ref r1))) as G.
  unfold grows in G. rewrite K in G. destruct G as (_ & new & E & _). exists (l1 ++ map PStr new)%list. split; [exact E|].
  intros k I. apply elem_of_app. by left.
Qed.

(** [cap_is_soft]: the limit of thirty keywords is tested after each addition, so
    a template that has reached it still takes the first new keyword of each rule. *)
Theorem cap_is_soft existing kw rest : (29 <= length existing)%nat -> nonempty (strip kw) = true -> lower (strip kw) ∉ lowered existing ->
  add_keywords str_of existing (lowered existing) (PStr kw :: rest) = (existing ++ [PStr (strip kw)])%list.
Proof.
  intros L N F. cbn [add_keywords]. assert (to_text str_of (py_or (PStr kw) (PStr "")) = kw) as -> by (by destruct kw).
  rewrite N. assert (one_in (lowered existing) (lower (strip kw)) = false) as -> by (apply not_true_iff_false; by rewrite one_in_spec).
  cbn [negb orb]. rewrite (proj2 (Nat.leb_le 30 _)); [done|]. rewrite length_app. cbn [length]. lia.
Qed.

(** [class_iff_template]: a rule names a detection class exactly when it was made
    from the template of a technique or of a CWE: the generator's tables and the
    router's agree. *)
Theorem class_iff_template st q r : snd (make st q) = Ok r -> briefr_class r = None <-> briefr_basis r = "generic".
Proof.
  intros (p & cwes & technique & n & a & _ & H)%build_rule. pose proof (class_of_template technique cwes) as C. cbv zeta in C.
  destruct (_resolve_template _ _ _) as [[t basis] cwe]. cbv zeta in H. destruct H as (-> & _ & -> & _). rewrite C.
  destruct (String.eqb_spec basis "generic") as [->|N]; split; done.
Qed.

End facts.

(** ** Witnesses *)

Definition no_json (s : string) : option pyval := None.
Definition no_str (v : pyval) : string := "".
Definition no_md5 (s : string) : string := "0123456789abcdef0123456789abcdef".

(** A SQL injection with an artifact, and another one without a context. *)
Definition sqli_a : request :=
  mkRequest "CVE-2026-1001" "" "shop" "" (Some ["cwe 89"])
    (Some [("artifacts", PList [PDict [("paths", texts ["/shop/cart"]); ("keywords", texts ["cart_id"; "Sleep("])]])]).
Definition sqli_b : request := mkRequest "CVE-2026-2002" "" "blog" "" (Some ["CWE-89"]) None.

Example leak : let st := history no_json no_str no_md5 "2026/07/20" initial_store [sqli_a; sqli_b] in
  dget (detection_of st "_CWE_SQLI") "keywords" =
    texts ["UNION SELECT"; "' OR '1'='1"; "SLEEP("; "BENCHMARK("; "information_schema"; "xp_cmdshell"; "cart_id"].
Proof. vm_compute. reflexivity. Qed.

Lemma artifacts_leak_witness : exists l2,
  keyword_list (detection_of (fst (build no_json no_str no_md5 "2026/07/20" (fst (build no_json no_str no_md5 "2026/07/20" initial_store sqli_a)) sqli_b)) "_CWE_SQLI") = Some l2 /\
  PStr "cart_id" ∈ l2.
Proof.
  destruct (artifacts_leak no_json no_str no_md5 "2026/07/20" initial_store sqli_a
              (match snd (build no_json no_str no_md5 "2026/07/20" initial_store sqli_a) with Ok r => r | Raise _ => mkRule "" "" "" "" "" [] [] "" [] "" "" "" "" None None end)
              (map PStr ["UNION SELECT"; "' OR '1'='1"; "SLEEP("; "BENCHMARK("; "information_schema"; "xp_cmdshell"; "cart_id"]) [] sqli_b
              (match snd (build no_json no_str no_md5 "2026/07/20" initial_store sqli_b) with Ok r => r | Raise _ => mkRule "" "" "" "" "" [] [] "" [] "" "" "" "" None None end))
    as (l2 & E & I); [vm_compute; reflexivity..|].
  exists l2. split; [exact E|]. apply I. vm_compute. repeat (first [by left|right]).
Defined.

Lemma cap_is_soft_witness : let full := map PStr (map (fun n => str_of_Z (Z.of_nat n)) (seq 0 30)) in
  add_keywords no_str full (seen_of no_str full) [PStr "new"; PStr "later"] = (full ++ [PStr "new"])%list.
Proof. apply cap_is_soft; [vm_compute; lia|reflexivity|]. apply (bool_decide_unpack _). vm_compute. exact I. Defined.

Lemma class_iff_template_witness : exists r, snd (build no_json no_str no_md5 "2026/07/20" initial_store sqli_b) = Ok r /\ briefr_class r <> None.
Proof.
  eexists. split; [vm_compute; reflexivity|]. intros H.
  apply (class_iff_template no_json no_str no_md5 "2026/07/20" initial_store sqli_b) in H; [discriminate H|]. vm_compute. reflexivity.
Defined.
