(* ===== verification/Siem.v ===== *)
(** * Siem: SIEM query templates (detection/siem_queries.py, class_queries.py)

    The hunting queries of each technique and each class for the four platforms, and
    the choice between them.  [json_loads] and [str_of] are those of [DetClass]. *)

From S2P Require Import Prelude PyStr PyVal Ioc DetClass.
Open Scope string_scope.
Open Scope Z_scope.

(** A text with its double quotes written [^] and, in some texts, its asterisks [@]. *)
Definition qt : string -> string :=
  smap (fun c => if Ascii.eqb c "^" then "034"%char else if Ascii.eqb c "@" then "*"%char else c).

Record siem := mkSiem {
  s_title : string; elastic_kql : string; splunk_spl : string; sentinel_kql : string; qradar_aql : string; log_patterns : list string
}.

(** ** Technique templates *)

Definition FIELD_NOTES : list (string * string) :=
  [("elastic_kql", "Replace {{SOURCE_IP}} with source.ip or client.ip; {{URL_PATH}} with url.path or url.full; {{STATUS_CODE}} with http.response.status_code; {{PROCESS}} with process.name or process.executable; {{USER}} with user.name");
   ("splunk_spl", "Replace {{INDEX}} with your index (e.g. index=main); {{SOURCETYPE}} with your log sourcetype; {{SRC_IP}} with src_ip or c_ip; {{URI}} with uri_path, cs_uri_stem, or url; {{STATUS}} with status, sc_status, or response_code");
   ("sentinel_kql", "Replace {{TABLE}} with the log table (e.g. W3CIISLog, CommonSecurityLog, SecurityEvent); {{CLIENT_IP}} with cIP, SourceIP, or ClientIP; {{URL}} with csUriStem, RequestURL, or DestinationURL; {{STATUS}} with scStatus or ResultCode");
   ("qradar_aql", "Replace {{LOG_SOURCE}} with your log source type; {{SOURCE_IP}} with sourceip or Source IP; {{URL}} with URL or Request URL; {{STATUS}} with Response Code or HTTP Response Code")].

Definition T1190_queries : siem :=
  mkSiem "Exploit Public-Facing Application"
    (qt "(http.response.status_code:(400 or 403 or 500 or 503) and http.request.body.bytes > 500) or url.path:(^../^ or ^%2e%2e^ or ^cmd.exe^ or ^/etc/passwd^ or ^etc%2fpasswd^) or (url.query:(^UNION^ or ^UNION SELECT^ or ^base64^) and http.response.status_code:200)")
    (qt "{{INDEX}} {{SOURCETYPE}} ((status=400 OR status=403 OR status=500 OR status=503) bytes > 500) OR ({{URI}}=^*../*^ OR {{URI}}=^*%2e%2e*^ OR {{URI}}=^*cmd.exe*^ OR {{URI}}=^*/etc/passwd*^) | stats count by {{SRC_IP}}, {{URI}}, status | sort - count")
    (qt "{{TABLE}}
| where scStatus in (^400^,^403^,^500^,^503^) and csBytes > 500
    or csUriStem has_any (^../^, ^%2e%2e^, ^cmd.exe^, ^/etc/passwd^)
| project TimeGenerated, cIP, csMethod, csUriStem, scStatus, csBytes
| order by TimeGenerated desc")
    (qt "SELECT ^{{SOURCE_IP}}^, ^{{URL}}^, ^{{STATUS}}^, BYTESOUT FROM events WHERE ^{{STATUS}}^ IN (400, 403, 500, 503) AND BYTESOUT > 500    OR ^{{URL}}^ LIKE '%../%' OR ^{{URL}}^ LIKE '%cmd.exe%' LAST 24 HOURS")
    ["Unusual HTTP 4xx/5xx error spikes from external IPs";
     "Directory traversal sequences (../, %2e%2e) in URL paths";
     "OS command strings (cmd.exe, /etc/passwd, whoami) in request parameters";
     "SQL injection patterns (UNION SELECT, OR 1=1) in query strings";
     "Unexpected large POST bodies to public endpoints";
     "Repeated requests to non-existent paths from a single IP"].

Definition T1133_queries : siem :=
  mkSiem "External Remote Services"
    "network.transport:tcp and destination.port:(3389 or 22 or 5900 or 1194 or 8443 or 993 or 995) and not source.ip:(10.0.0.0/8 or 172.16.0.0/12 or 192.168.0.0/16)"
    "{{INDEX}} {{SOURCETYPE}} (dest_port=3389 OR dest_port=22 OR dest_port=5900 OR dest_port=1194 OR dest_port=8443) NOT src_ip IN (10.0.0.0/8, 172.16.0.0/12, 192.168.0.0/16) | stats count by src_ip, dest_ip, dest_port | sort - count"
    "NetworkCommunicationEvents
| where RemotePort in (3389, 22, 5900, 1194, 8443)
    and not ipv4_is_private(RemoteIP)
| project Timestamp, LocalIP, RemoteIP, RemotePort, Protocol
| order by Timestamp desc"
    "SELECT sourceip, destinationip, destinationport, username FROM events WHERE destinationport IN (3389, 22, 5900, 1194, 8443)   AND NOT INCIDR('10.0.0.0/8', sourceip)   AND NOT INCIDR('192.168.0.0/16', sourceip) LAST 24 HOURS"
    ["Authentication attempts from geographically unusual locations";
     "Connections to remote service ports (RDP/SSH/VNC) from external IPs";
     "VPN logins outside of business hours from new IP ranges";
     "Multiple failed authentication attempts followed by a success";
     "New user accounts or service accounts accessing remote services"].

Definition T1059_queries : siem :=
  mkSiem "Command and Scripting Interpreter"
    "process.name:(cmd.exe or powershell.exe or pwsh.exe or bash or sh or python or python3) and process.parent.name:(svchost.exe or services.exe or winlogon.exe or lsass.exe or w3wp.exe or nginx or apache2 or httpd)"
    (qt "{{INDEX}} {{SOURCETYPE}} (process=^*cmd.exe*^ OR process=^*powershell.exe*^ OR process=^*bash*^ OR process=^*sh*^) (parent_process=^*svchost.exe*^ OR parent_process=^*services.exe*^ OR parent_process=^*w3wp.exe*^ OR parent_process=^*httpd*^) | table _time, host, user, process, parent_process, command_line")
    (qt "DeviceProcessEvents
| where ProcessCommandLine has_any (^cmd.exe^, ^powershell^, ^bash^, ^sh -c^)
    and InitiatingProcessFileName has_any (^svchost.exe^, ^w3wp.exe^, ^httpd^, ^nginx^)
| project Timestamp, DeviceName, AccountName, ProcessCommandLine,           InitiatingProcessFileName
| order by Timestamp desc")
    (qt "SELECT ^{{SOURCE_IP}}^, ^Process Name^, ^Command^, username FROM events WHERE ^Process Name^ IN ('cmd.exe', 'powershell.exe', 'bash', 'sh')   AND ^Parent Process^ IN ('svchost.exe', 'w3wp.exe', 'httpd') LAST 24 HOURS")
    ["Shell or script interpreter spawned by a web server or service process";
     "PowerShell with encoded commands (-enc or -EncodedCommand flags)";
     "Base64-encoded payloads in command line arguments";
     "Unusual parent-child process relationships (web server → cmd.exe)";
     "Script execution from temporary or user-writable directories";
     "Network connections initiated by scripting processes"].

Definition T1068_queries : siem :=
  mkSiem "Exploitation for Privilege Escalation"
    "process.token.integrity_level:System and not process.name:(services.exe or lsass.exe or smss.exe or csrss.exe or wininit.exe or svchost.exe or winlogon.exe)"
    (qt "{{INDEX}} {{SOURCETYPE}} integrity_level=^System^ NOT process IN (^services.exe^, ^lsass.exe^, ^smss.exe^, ^csrss.exe^) | table _time, host, user, process, parent_process, integrity_level")
    (qt "DeviceProcessEvents
| where ProcessTokenElevationType == ^Full^
    and not ProcessFileName in~ (^services.exe^,^lsass.exe^,^smss.exe^,^csrss.exe^)
| project Timestamp, DeviceName, AccountName, ProcessFileName, InitiatingProcessFileName
| order by Timestamp desc")
    (qt "SELECT ^{{SOURCE_IP}}^, username, ^Process Name^, ^Privilege Escalation^ FROM events WHERE category = 'Privilege Escalation'   AND ^Severity^ >= 7 LAST 24 HOURS")
    ["Process running with SYSTEM/root privileges without expected parent";
     "Exploitation of kernel or driver vulnerability (system call anomaly)";
     "Sudden privilege gain for a non-administrative user";
     "Token impersonation events in Windows Security log (Event 4624 with unusual logon type)";
     "SetUID/SetGID file execution on Linux systems";
     "Unexpected changes to /etc/sudoers or Windows privilege assignments"].

Definition T1055_queries : siem :=
  mkSiem "Process Injection"
    (qt "event.category:process and event.action:^CreateRemoteThread^ and target.process.name:(explorer.exe or svchost.exe or lsass.exe or notepad.exe or calc.exe or regsvr32.exe)")
    (qt "{{INDEX}} {{SOURCETYPE}} event_id=10 target_process IN (^explorer.exe^, ^svchost.exe^, ^lsass.exe^) NOT source_process IN (^MsMpEng.exe^, ^csrss.exe^, ^services.exe^) | table _time, host, source_process, target_process, granted_access")
    (qt "DeviceEvents
| where ActionType == ^CreateRemoteThreadApiCall^
    and TargetProcessFileName in~ (^explorer.exe^,^svchost.exe^,^lsass.exe^)
    and not InitiatingProcessFileName in~ (^MsMpEng.exe^,^csrss.exe^)
| project Timestamp, DeviceName, InitiatingProcessFileName,           TargetProcessFileName, RemoteUrl
| order by Timestamp desc")
    (qt "SELECT ^{{SOURCE_IP}}^, ^Process Name^, ^Target Process^, ^Memory Address^ FROM events WHERE category = 'Process Injection' OR qid IN   (SELECT id FROM qroc WHERE name LIKE '%inject%') LAST 24 HOURS")
    ["CreateRemoteThread calls targeting explorer.exe, svchost.exe, or lsass.exe";
     "WriteProcessMemory followed by CreateRemoteThread or QueueUserAPC";
     "Unexpected DLL loaded by a benign process (DLL injection)";
     "Sysmon Event ID 8 (CreateRemoteThread) from non-security processes";
     "VirtualAllocEx calls with PAGE_EXECUTE_READWRITE permissions"].

Definition T1027_queries : siem :=
  mkSiem "Obfuscated Files or Information"
    (qt "process.command_line:(@base64@ or @IEX@ or @Invoke-Expression@ or @FromBase64String@ or @-enc@ or @-EncodedCommand@) or file.name:@.{jpg,png,gif,txt,doc} and file.path:(@\Temp\@ or @/tmp/@)")
    (qt "{{INDEX}} {{SOURCETYPE}} (command_line=^*base64*^ OR command_line=^*IEX*^ OR command_line=^*-enc*^ OR command_line=^*Invoke-Expression*^ OR command_line=^*FromBase64String*^) | table _time, host, user, process, command_line")
    (qt "DeviceProcessEvents
| where ProcessCommandLine has_any (^base64^, ^IEX^, ^-enc^,          ^Invoke-Expression^, ^FromBase64String^, ^-EncodedCommand^)
| project Timestamp, DeviceName, AccountName, ProcessCommandLine,           InitiatingProcessFileName
| order by Timestamp desc")
    (qt "SELECT ^{{SOURCE_IP}}^, username, ^Command Line^, ^Process Name^ FROM events WHERE ^Command Line^ ILIKE '%base64%' OR ^Command Line^ ILIKE '%-enc%'   OR ^Command Line^ ILIKE '%IEX%' LAST 24 HOURS")
    ["PowerShell with -EncodedCommand or -enc flag (Base64 payload)";
     "Invoke-Expression (IEX) in PowerShell command line";
     "Long Base64 strings in process command line arguments";
     "Executable files with misleading extensions (.jpg.exe, .pdf.bat)";
     "Scripts stored in alternate data streams (file.txt:hidden.ps1)";
     "Obfuscated VBScript or JScript in Temp or AppData directories"].

Definition T1110_queries : siem :=
  mkSiem "Brute Force"
    (qt "event.action:^failed_logon^ and not source.ip:(10.0.0.0/8 or 172.16.0.0/12 or 192.168.0.0/16)")
    "{{INDEX}} {{SOURCETYPE}} action=failure OR action=blocked OR EventCode=4625 NOT src_ip IN (10.0.0.0/8, 172.16.0.0/12, 192.168.0.0/16) | bucket span=5m _time | stats count as failures by _time, src_ip, user | where failures > 10 | sort - failures"
    "SecurityEvent
| where EventID == 4625
    and not ipv4_is_private(IpAddress)
| summarize failures = count() by bin(TimeGenerated, 5m), IpAddress, TargetAccount
| where failures > 10
| order by failures desc"
    (qt "SELECT sourceip, username, COUNT(@) AS failures FROM events WHERE category = 'Authentication' AND ^Authentication outcome^ = 'failure'   AND NOT INCIDR('10.0.0.0/8', sourceip) GROUP BY sourceip, username HAVING COUNT(@) > 10 LAST 1 HOURS")
    ["More than 10 failed authentication attempts from a single IP in 5 minutes";
     "Sequential username enumeration attempts (admin, administrator, user, root…)";
     "Authentication failures followed by a successful login from same IP";
     "Password spray pattern: same password tried against many different accounts";
     "Failed login attempts at unusual hours from external IPs"].

Definition T1003_queries : siem :=
  mkSiem "OS Credential Dumping"
    (qt "(process.name:lsass.exe and event.action:^process_accessed^) or process.name:(mimikatz.exe or procdump.exe or wce.exe or pwdump@.exe) or (process.name:ntdsutil.exe and process.command_line:@ntds@)")
    (qt "{{INDEX}} {{SOURCETYPE}} (target_process=^*lsass.exe*^ granted_access IN (^0x1010^,^0x1410^,^0x147a^)) OR (process IN (^mimikatz.exe^,^procdump.exe^,^wce.exe^,^ntdsutil.exe^)) | table _time, host, user, process, target_process, granted_access")
    (qt "DeviceEvents
| where (ActionType == ^OpenProcess^ and TargetProcessFileName =~ ^lsass.exe^
         and ProcessTokenElevationType == ^Full^)
    or InitiatingProcessFileName in~ (^mimikatz.exe^,^procdump.exe^,^wce.exe^)
| project Timestamp, DeviceName, AccountName, InitiatingProcessFileName,           TargetProcessFileName, GrantedAccess
| order by Timestamp desc")
    (qt "SELECT ^{{SOURCE_IP}}^, username, ^Process Name^, ^Target Process^ FROM events WHERE ^Target Process^ LIKE '%lsass%'    OR ^Process Name^ IN ('mimikatz.exe', 'procdump.exe', 'ntdsutil.exe') LAST 24 HOURS")
    ["Process access to lsass.exe with PROCESS_VM_READ permissions";
     "Known credential dumping tool execution (mimikatz, wce, fgdump)";
     "NTDSUTIL with IFM or ntds keywords in command line";
     "Volume shadow copy creation followed by NTDS.dit access";
     "Unusual registry access to SAM, SECURITY, or SYSTEM hives";
     "Event ID 4688 with procdump.exe or similar in command line"].

Definition T1021_queries : siem :=
  mkSiem "Remote Services"
    (qt "(event.code:^4624^ and winlog.event_data.LogonType:(^3^ or ^10^)) or (network.transport:tcp and destination.port:(445 or 3389 or 22)     and not source.ip:(10.0.0.0/8 or 172.16.0.0/12 or 192.168.0.0/16))")
    "{{INDEX}} {{SOURCETYPE}} EventCode=4624 (LogonType=3 OR LogonType=10) NOT src_ip IN (10.0.0.0/8, 172.16.0.0/12, 192.168.0.0/16) | stats count by src_ip, dest_ip, user, LogonType | sort - count"
    "SecurityEvent
| where EventID == 4624 and LogonType in (3, 10)
    and not ipv4_is_private(IpAddress)
| project TimeGenerated, IpAddress, TargetUserName, LogonType, WorkstationName
| order by TimeGenerated desc"
    (qt "SELECT sourceip, username, ^Event Category^, ^Logon Type^ FROM events WHERE ^Event Category^ = 'Authentication' AND ^Logon Type^ IN (3, 10)   AND NOT INCIDR('10.0.0.0/8', sourceip) LAST 24 HOURS")
    ["Network logons (type 3) from unusual source IPs at off-hours";
     "RDP connections from IPs not in approved list";
     "Service account used for interactive remote login";
     "Pass-the-hash indicator: NTLMv2 logon with anomalous workstation name";
     "Successful SMB connection to ADMIN$ or C$ share from external host"].

Definition T1071_queries : siem :=
  mkSiem "Application Layer Protocol (C2)"
    (qt "(http.request.method:POST and url.path.length > 200) or (dns.question.name:(@duckdns@ or @.onion or @.bit)     and not source.ip:(10.0.0.0/8 or 172.16.0.0/12 or 192.168.0.0/16)) or user_agent.original:(python-requests@ or Go-http-client@ or ^curl/@^)")
    (qt "{{INDEX}} {{SOURCETYPE}} (method=POST bytes > 5000 OR (user_agent=^*python-requests*^ OR user_agent=^*Go-http-client*^ OR user_agent=^*curl*^)) NOT dest IN (known_good_ips) | stats count, sum(bytes) as total_bytes by src_ip, dest, user_agent | sort - count")
    (qt "NetworkCommunicationEvents
| where RemoteUrl contains_any (^duckdns^, ^ngrok^, ^serveo^)
    or (Protocol == ^Tcp^ and RemotePort in (4444, 8080, 8443, 1337))
| project Timestamp, DeviceName, LocalIP, RemoteIP, RemoteUrl, RemotePort
| order by Timestamp desc")
    (qt "SELECT sourceip, destinationip, destinationport, ^User Agent^, BYTESOUT FROM events WHERE ^User Agent^ ILIKE '%python%' OR ^User Agent^ ILIKE '%curl%'    OR destinationport IN (4444, 8080, 8443, 1337, 31337) LAST 24 HOURS")
    ["Beaconing pattern: regular interval connections to a single external IP";
     "Unusual User-Agent strings (python-requests, curl, Go-http-client)";
     "Large outbound data transfers to unusual external IP ranges";
     "HTTP POST requests to newly registered or low-reputation domains";
     "DNS queries to dynamic DNS providers (duckdns.org, no-ip.com, ngrok.io)";
     "Encrypted C2 over uncommon ports (4444, 31337, 1337)"].

Definition T1095_queries : siem :=
  mkSiem "Non-Application Layer Protocol (C2)"
    "(network.transport:icmp and network.bytes > 64) or (network.transport:(gre or esp or ah)) or (destination.port:53 and dns.question.name.length > 50)"
    "{{INDEX}} {{SOURCETYPE}} (protocol=icmp bytes > 64) OR (protocol=gre) OR (dest_port=53 uri_length > 50) | stats sum(bytes) as total_bytes, count by src_ip, dest_ip, protocol | sort - total_bytes"
    (qt "NetworkCommunicationEvents
| where Protocol in (^ICMP^, ^GRE^, ^ESP^)
    or (RemotePort == 53 and strlen(RemoteUrl) > 50)
| project Timestamp, DeviceName, LocalIP, RemoteIP, Protocol,           BytesSent, BytesReceived
| order by BytesSent desc")
    "SELECT sourceip, destinationip, protocolid, BYTESOUT, BYTESIN FROM events WHERE protocolid IN (1, 47, 50, 51)    OR (destinationport = 53 AND BYTESOUT > 100) LAST 24 HOURS"
    ["ICMP packets with unusually large payloads (> 64 bytes) — ICMP tunneling";
     "GRE or ESP tunnels to external IPs not in VPN infrastructure";
     "Abnormally long DNS query strings (DNS tunneling indicator)";
     "High volume of DNS TXT record requests from a single host";
     "Unusual protocol IDs in firewall logs (not TCP/UDP/ICMP)"].

Definition DEFAULT_queries : siem :=
  mkSiem "Suspicious Activity"
    (qt "event.action:(^process_created^ or ^network_connection^ or ^file_created^) and not source.ip:(10.0.0.0/8 or 172.16.0.0/12 or 192.168.0.0/16)")
    "{{INDEX}} {{SOURCETYPE}} (action=allowed OR action=success) NOT src_ip IN (10.0.0.0/8, 172.16.0.0/12) | stats count by src_ip, dest_ip, action | sort - count"
    "{{TABLE}}
| where not ipv4_is_private(SourceIP)
| project TimeGenerated, SourceIP, DestinationIP, Action, Protocol
| order by TimeGenerated desc"
    (qt "SELECT sourceip, destinationip, username, ^Event Category^ FROM events WHERE ^Severity^ >= 5 AND NOT INCIDR('10.0.0.0/8', sourceip) LAST 24 HOURS")
    ["Unexpected process execution or network connections";
     "Authentication events from external IP addresses";
     "Anomalous data volumes leaving the network";
     "Unexpected file creation in system directories"].

Definition TECHNIQUE_QUERIES : list (string * siem) :=
  [("T1190", T1190_queries); ("T1133", T1133_queries); ("T1059", T1059_queries); ("T1068", T1068_queries); ("T1055", T1055_queries); ("T1027", T1027_queries); ("T1110", T1110_queries); ("T1003", T1003_queries); ("T1021", T1021_queries); ("T1071", T1071_queries); ("T1095", T1095_queries); ("DEFAULT", DEFAULT_queries)].

(** ** Class templates *)

Record pack := mkPack { p_elastic : string; p_splunk : string; p_sentinel : string; p_qradar : string }.

Definition _web_class_query (title : string) (p : pack) (patterns : list string) : siem :=
  mkSiem title (p_elastic p) (p_splunk p) (p_sentinel p) (p_qradar p) patterns.

Definition quoted_terms (sep : string) (terms : list string) : string := sjoin sep (map (fun t => qt "^" +:+ t +:+ qt "^") terms).

Definition NL : string := String "010" "".

Definition aql_head : string := qt "SELECT ^{{SOURCE_IP}}^, ^{{URL}}^, ^{{STATUS}}^ FROM events WHERE ".

Definition stem_pack (elastic_field : string) (terms : list string) : pack :=
  mkPack (elastic_field +:+ ":(" +:+ quoted_terms " or " terms +:+ ")")
    ("{{INDEX}} {{SOURCETYPE}} (" +:+ sjoin " OR " (map (fun t => qt "{{URI}}=^*" +:+ t +:+ qt "*^") terms) +:+
       ") | stats count by {{SRC_IP}}, {{URI}} | sort - count")
    ("{{TABLE}}" +:+ NL +:+ "| where csUriStem has_any (" +:+ quoted_terms ", " terms +:+ ")" +:+ NL +:+
       "| project TimeGenerated, cIP, csMethod, csUriStem, scStatus" +:+ NL +:+ "| order by TimeGenerated desc")
    (aql_head +:+ sjoin " OR " (map (fun t => qt "^{{URL}}^ LIKE '%" +:+ t +:+ "%'") terms) +:+ " LAST 24 HOURS").

Definition _uri_query_pack (terms : list string) : pack := stem_pack "url.query" terms.

Definition _path_query_pack (terms : list string) : pack := stem_pack "url.path" terms.

Definition _body_query_pack (terms : list string) : pack :=
  mkPack ("http.request.body:(" +:+ quoted_terms " or " terms +:+ ")")
    ("{{INDEX}} {{SOURCETYPE}} (" +:+ sjoin " OR " (map (fun t => qt "_raw=^*" +:+ t +:+ qt "*^") terms) +:+
       ") | stats count by {{SRC_IP}}, {{URI}} | sort - count")
    ("{{TABLE}}" +:+ NL +:+ "| where RequestBody has_any (" +:+ quoted_terms ", " terms +:+ ")" +:+ NL +:+
       "| project TimeGenerated, cIP, csMethod, csUriStem, RequestBody" +:+ NL +:+ "| order by TimeGenerated desc")
    (aql_head +:+ sjoin " OR " (map (fun t => "UTF8(payload) LIKE '%" +:+ t +:+ "%'") terms) +:+ " LAST 24 HOURS").

Definition path_traversal_queries : siem :=
  _web_class_query "Path Traversal" (_path_query_pack ["../"; "..\"; "%2e%2e"; "/etc/passwd"; "web.config"])
    ["Directory traversal sequences (../, ..\, %2e%2e) in URL paths";
     "Sensitive file paths (/etc/passwd, web.config, boot.ini) in requests";
     "URL-encoded dot segments bypassing path normalization";
     "Repeated 404s probing parent directories from one source IP"].

Definition cmd_injection_queries : siem :=
  _web_class_query "OS Command Injection" (_uri_query_pack [";id"; "|whoami"; "cmd.exe /c"; "/bin/sh"; "&&wget"])
    ["Shell metacharacters (;, |, &&, `) in query or form parameters";
     "whoami/id/curl/wget strings in HTTP request bodies";
     "cmd.exe or /bin/sh invoked via web parameters";
     "Unexpected outbound connections after suspicious POST requests"].

Definition sqli_queries : siem :=
  _web_class_query "SQL Injection" (_uri_query_pack ["UNION SELECT"; "' OR '1'='1"; "SLEEP("; "information_schema"])
    ["UNION SELECT or tautology clauses in query strings";
     "Time-based SQL functions (SLEEP, BENCHMARK) in parameters";
     "information_schema or xp_cmdshell references in HTTP logs";
     "Database error messages in HTTP 500 responses"].

Definition xss_queries : siem :=
  _web_class_query "Cross-Site Scripting" (_uri_query_pack ["<script"; "onerror="; "javascript:"; "%3Cscript"])
    ["Unescaped <script> tags in reflected request parameters";
     "Event-handler injection (onerror=, onload=) in URLs";
     "javascript: pseudo-protocol in query strings";
     "HTML entity encoding bypass attempts (%3Cscript)"].

Definition deserialization_queries : siem :=
  _web_class_query "Insecure Deserialization" (_body_query_pack ["rO0AB"; "aced0005"; "ysoserial"; "__VIEWSTATE"])
    ["Java serialization magic bytes (rO0AB, aced0005) in POST bodies";
     "ysoserial gadget chain strings in HTTP traffic";
     "Abnormally large __VIEWSTATE or serialized blobs";
     "Unexpected process spawn after deserialization endpoints are hit"].

Definition code_injection_queries : siem :=
  _web_class_query "Code Injection" (_uri_query_pack ["eval("; "assert("; "{{"; "${"])
    ["eval/assert calls in user-controlled input";
     "Template delimiter injection ({{ }}, ${ })";
     "base64_decode combined with dynamic execution strings";
     "Server-side template errors after crafted payloads"].

Definition unsafe_upload_queries : siem :=
  _web_class_query "Unrestricted File Upload"
    (mkPack (qt "url.path:(^.jsp^ or ^.php^ or ^.aspx^ or ^.ashx^ or ^.war^) and http.request.method:POST")
    (qt "{{INDEX}} {{SOURCETYPE}} ({{URI}}=^*.jsp*^ OR {{URI}}=^*.php*^ OR {{URI}}=^*.aspx*^ OR {{URI}}=^*.ashx*^ OR {{URI}}=^*.war*^) method=POST | stats count by {{SRC_IP}}, {{URI}} | sort - count")
    (qt "{{TABLE}}
| where csMethod == ^POST^ and csUriStem has_any (^.jsp^, ^.php^, ^.aspx^, ^.ashx^, ^.war^)
| project TimeGenerated, cIP, csMethod, csUriStem, scStatus
| order by TimeGenerated desc")
    (qt "SELECT ^{{SOURCE_IP}}^, ^{{URL}}^, ^{{STATUS}}^ FROM events WHERE ^{{URL}}^ LIKE '%.php%' OR ^{{URL}}^ LIKE '%.jsp%' OR ^{{URL}}^ LIKE '%.aspx%' LAST 24 HOURS"))
    ["Executable extensions (.jsp, .php, .aspx) in upload paths";
     "Multipart POSTs with double extensions (file.php.jpg)";
     "New web shells appearing under upload directories";
     "HTTP 200 on upload endpoints followed by execution attempts"].

Definition ssrf_queries : siem :=
  _web_class_query "Server-Side Request Forgery" (_uri_query_pack ["169.254.169.254"; "metadata.google"; "file://"; "gopher://"])
    ["Cloud metadata IP (169.254.169.254) in URL parameters";
     "file:// or gopher:// schemes in server-side fetch parameters";
     "Internal localhost callbacks from application servers";
     "Unusual egress to link-local or RFC1918 from app tier"].

Definition xxe_queries : siem :=
  _web_class_query "XML External Entity" (_body_query_pack ["<!ENTITY"; qt "SYSTEM ^file://"; qt "SYSTEM ^http://"])
    ["DOCTYPE ENTITY declarations in XML request bodies";
     "SYSTEM file:// or http:// references in XML payloads";
     "Large XML posts to legacy SOAP/import endpoints";
     "File read errors or unusual file access after XML uploads"].

Definition auth_bypass_queries : siem :=
  _web_class_query "Authentication Bypass"
    (mkPack (qt "url.path:(^/admin^ or ^/api/login^ or ^/api/auth^) and http.response.status_code:(200 or 302)")
    (qt "{{INDEX}} {{SOURCETYPE}} ({{URI}}=^*/admin*^ OR {{URI}}=^*/api/login*^ OR {{URI}}=^*/api/auth*^) (status=200 OR status=302) | stats count by {{SRC_IP}}, {{URI}}, status | sort - count")
    (qt "{{TABLE}}
| where csUriStem has_any (^/admin^, ^/api/login^, ^/api/auth^)
| where scStatus in (^200^, ^302^)
| project TimeGenerated, cIP, csMethod, csUriStem, scStatus
| order by TimeGenerated desc")
    (qt "SELECT ^{{SOURCE_IP}}^, ^{{URL}}^, ^{{STATUS}}^ FROM events WHERE ^{{URL}}^ LIKE '%/admin%' OR ^{{URL}}^ LIKE '%/api/login%' LAST 24 HOURS"))
    ["Direct access to /admin or privileged API paths without prior auth";
     "Authentication endpoints returning 200 without failed-login precursors";
     "Privilege or bypass keywords in request parameters";
     "Session cookies issued after anomalous login attempts"].

Definition memory_corruption_queries : siem :=
  mkSiem "Memory Corruption"
    (qt "event.code:(1000 or 1001) or message:(^segfault^ or ^SIGSEGV^ or ^core dumped^)")
    (qt "{{INDEX}} {{SOURCETYPE}} (EventCode=1000 OR EventCode=1001 OR message=^*segfault*^ OR message=^*SIGSEGV*^) | stats count by {{PROCESS}}, message | sort - count")
    (qt "Event
| where EventID in (1000, 1001) or Message has_any (^segfault^, ^SIGSEGV^)
| project TimeGenerated, Computer, EventID, Message
| order by TimeGenerated desc")
    (qt "SELECT ^Process Name^, ^Event Category^, ^Severity^ FROM events WHERE ^Event Category^ LIKE '%crash%' OR ^Event Name^ LIKE '%fault%' LAST 24 HOURS")
    ["Application crash events (Event ID 1000/1001) on exposed services";
     "segfault or SIGSEGV messages in application logs";
     "Core dumps following malformed input to native parsers";
     "Correlate crashes with recent exploit/PoC activity for the CVE"].

Definition default_credentials_queries : siem :=
  mkSiem "Default Credentials"
    "event.category:authentication and user.name:(admin or root or guest) and event.outcome:success"
    "{{INDEX}} {{SOURCETYPE}} (user=admin OR user=root OR user=guest) action=success | stats count by user, src_ip | sort - count"
    (qt "SecurityEvent
| where Account in (^admin^, ^root^, ^guest^) and EventID == 4624
| project TimeGenerated, Account, IpAddress, LogonType
| order by TimeGenerated desc")
    (qt "SELECT username, sourceip, ^Event Category^ FROM events WHERE username IN ('admin', 'root', 'guest') LAST 24 HOURS")
    ["Successful logins with vendor-default account names";
     "admin/root/guest authentications from external IPs";
     "First-time use of factory-default credentials after CVE disclosure";
     "Password reset or onboarding flows abused for default accounts"].

Definition CLASS_QUERIES : list (string * siem) :=
  [("path_traversal", path_traversal_queries);
   ("cmd_injection", cmd_injection_queries);
   ("sqli", sqli_queries);
   ("xss", xss_queries);
   ("deserialization", deserialization_queries);
   ("code_injection", code_injection_queries);
   ("unsafe_upload", unsafe_upload_queries);
   ("ssrf", ssrf_queries);
   ("xxe", xxe_queries);
   ("auth_bypass", auth_bypass_queries);
   ("memory_corruption", memory_corruption_queries);
   ("default_credentials", default_credentials_queries)].

(** ** The choice *)

(** [s.replace(old, new)] for a nonempty [old]. *)
Definition replace_all (old new s : string) : string := resub (match_text old) new 0 s.

Definition substituted (cve_id product q : string) : string :=
  replace_all "{PRODUCT}" (if nonempty product then product else "affected_product")
    (replace_all "{CVE_ID}" (if nonempty cve_id then cve_id else "CVE-XXXX-XXXXX") q).

(** The answer: the query and the notes of each platform. *)
Record siem_result := mkResult {
  res_title : string; res_class : string; res_elastic : string; res_splunk : string; res_sentinel : string; res_qradar : string;
  notes : list (string * string); res_patterns : list string
}.

Definition template_for (technique_id class : string) : siem :=
  match assoc (technique_prefix technique_id) TECHNIQUE_QUERIES with
  | Some t => t
  | None => match assoc class CLASS_QUERIES with Some t => t | None => DEFAULT_queries end
  end.

Section queries.
Context (json_loads : string -> option pyval) (str_of : pyval -> string).

Definition get_siem_queries (technique_id cve_id product : string) (cwe_ids : option (list string)) (detection_context : option (list (string * pyval)))
    : res siem_result :=
  let! class := _resolve_detection_class json_loads str_of
    [("technique_id", PStr technique_id); ("cwe_ids", match cwe_ids with Some l => PList (map PStr l) | None => PNone end);
     ("detection_context", match detection_context with Some d => PDict d | None => PNone end)] in
  let t := template_for technique_id class in
  let q := substituted cve_id product in
  Ok (mkResult (s_title t) class (q (elastic_kql t)) (q (splunk_spl t)) (q (sentinel_kql t)) (q (qradar_aql t)) FIELD_NOTES (log_patterns t)).

End queries.

(** ** Lemmas *)

Definition all_queries (t : siem) : list string := [elastic_kql t; splunk_spl t; sentinel_kql t; qradar_aql t].

Definition all_templates : list siem := (map snd TECHNIQUE_QUERIES ++ map snd CLASS_QUERIES)%list.

Lemma template_for_listed technique_id class : template_for technique_id class ∈ all_templates.
Proof.
  unfold template_for, all_templates. apply elem_of_app.
  destruct (assoc _ TECHNIQUE_QUERIES) as [t|] eqn:E; [left; apply list_elem_of_fmap; exists (technique_prefix technique_id, t); split; [done|by apply assoc_elem]|].
  destruct (assoc class CLASS_QUERIES) as [t|] eqn:C; [right; apply list_elem_of_fmap; exists (class, t); split; [done|by apply assoc_elem]|].
  left. apply list_elem_of_fmap. exists ("DEFAULT", DEFAULT_queries). split; [done|]. apply assoc_elem. reflexivity.
Qed.

Lemma listed_by (p : siem -> bool) : forallb p all_templates = true -> forall technique_id class, p (template_for technique_id class) = true.
Proof. intros F t c. rewrite forallb_forall in F. apply F, list_elem_of_In, template_for_listed. Qed.

Lemma resub_absent old new s : nonempty old = true -> str_in old s = false -> replace_all old new s = s.
Proof.
  intros N H. apply resub_none. intros a b ->. unfold match_text, startswith.
  destruct (String.prefix old b) eqn:P; [|done]. rewrite <-not_true_iff_false in H. destruct H. apply str_in_app_r. by destruct b; cbn [str_in]; rewrite P.
Qed.

(** ** Theorems *)

(** [queries_ignore_the_cve]: no template has a placeholder, so the queries of a
    vulnerability are those of its technique or class, whatever its identifier and its
    product. *)
Theorem queries_ignore_the_cve json_loads str_of technique_id cve product cve' product' cwe_ids ctx :
  get_siem_queries json_loads str_of technique_id cve product cwe_ids ctx = get_siem_queries json_loads str_of technique_id cve' product' cwe_ids ctx.
Proof.
  unfold get_siem_queries. destruct (_resolve_detection_class _ _ _) as [class|]; [|done]. cbn [res_bind].
  assert (forallb (fun t => forallb (fun q => negb (str_in "{CVE_ID}" q) && negb (str_in "{PRODUCT}" q)) (all_queries t)) all_templates = true) as F by (vm_compute; reflexivity).
  pose proof (listed_by _ F technique_id class) as Q. set (t := template_for technique_id class) in *. clearbody t.
  cbn [all_queries forallb] in Q. rewrite andb_true_r in Q. apply andb_prop in Q as [Q1 Q]. apply andb_prop in Q as [Q2 Q]. apply andb_prop in Q as [Q3 Q4].
  assert (forall c p q, negb (str_in "{CVE_ID}" q) && negb (str_in "{PRODUCT}" q) = true -> substituted c p q = q) as S.
  { intros c p q K. apply andb_prop in K as [K1 K2]. apply negb_true_iff in K1, K2. unfold substituted. by rewrite (resub_absent "{CVE_ID}"), resub_absent. }
  by rewrite !S.
Qed.

(** The class template of SQL injection searches for a tautology with single quotes
    and does not escape them: the pattern of the QRadar query ends at the first one and
    is a lone percent sign, which matches every event. *)
Example aql_matches_everything : str_in (qt "^{{URL}}^ LIKE '%' OR '1'='1%'") (qradar_aql sqli_queries) = true.
Proof. vm_compute. reflexivity. Qed.

(** A term of the class template of XML entities has a double quote, which closes the
    quotes around it. *)
Example kql_term_unquoted : str_in (qt "or ^SYSTEM ^file://^ or") (elastic_kql xxe_queries) = true.
Proof. vm_compute. reflexivity. Qed.
