(* ===== verification/Artifacts.v ===== *)
(** * Artifacts: detection artifacts and hash rules

    The artifacts a language model or a Nuclei template gives for a vulnerability
    (detection/artifact_extract.py), reduced to bounded lists of texts, and the YARA
    rules made from the file hashes of OTX pulses (detection/yara_generator.py).
    [json_loads] and [str_of] are those of [DetClass]; the rows of the YARA query are
    an argument. *)

From S2P Require Import Prelude PyStr DecText PyVal Ioc DetClass.
Open Scope string_scope.
Open Scope Z_scope.

(** ** Where the JSON can be *)

(** [(.+?)\s*```]: the shortest nonempty text before a closing fence. *)
Fixpoint close (s : string) : option string :=
  match s with
  | "" => None
  | String c t => if startswith (lstrip t) "```" then Some (String c "") else option_map (String c) (close t)
  end.

(** [\s*] first takes all the spaces and gives them back one by one. *)
Fixpoint after_spaces (s : string) : option string :=
  match s with
  | String c t => if is_space c then match after_spaces t with Some g => Some g | None => close s end else close s
  | "" => None
  end.

(** [(?:json)?] after an opening fence. *)
Definition fence_body (s : string) : option string :=
  match (if startswith (lower s) "json" then after_spaces (sdrop 4 s) else None) with
  | Some g => Some g
  | None => after_spaces s
  end.

Fixpoint fence (s : string) : option string :=
  match s with
  | "" => None
  | String _ t => if startswith s "```" then match fence_body (sdrop 3 s) with Some g => Some g | None => fence t end else fence t
  end.

(** From the first opening brace to the last closing one. *)
Definition braces (s : string) : option string :=
  let from := drop_while (fun c => negb (Ascii.eqb c "{")) s in
  let span := rstrip_by (fun c => negb (Ascii.eqb c "}")) from in
  if nonempty span then Some span else None.

Definition opt_list {A} (o : option A) : list A := match o with Some a => [a] | None => [] end.

Definition _json_candidates (text : string) : list string := text :: (opt_list (fence text) ++ opt_list (braces text))%list.

(** ** Artifacts *)

Definition MAX_ARTIFACTS_PER_CVE : nat := 8.
Definition MAX_PATH_LEN : nat := 200.
Definition MAX_PARAM_LEN : nat := 80.
Definition MAX_KEYWORD_LEN : nat := 80.
Definition MAX_METHOD_LEN : nat := 16.

Record artifact := mkArtifact { paths : list string; params : list string; keywords : list string; method : string }.

Definition METHODS : list string := ["GET"; "POST"; "PUT"; "PATCH"; "DELETE"; "HEAD"; "OPTIONS"; ""].

Section extract.
Context (json_loads : string -> option pyval) (str_of : pyval -> string).

Fixpoint take_tokens (max_len limit : nat) (seen out : list string) (values : list pyval) : list string :=
  match values with
  | [] => out
  | item :: rest =>
      let token := strip (to_text str_of (py_or item (PStr ""))) in
      if negb (nonempty token) then take_tokens max_len limit seen out rest
      else let token := stake max_len token in
           if one_in seen (lower token) then take_tokens max_len limit seen out rest
           else let out := (out ++ [token])%list in
                if (limit <=? length out)%nat then out else take_tokens max_len limit (lower token :: seen) out rest
  end.

Definition _normalize_string_list (values : pyval) (max_len limit : nat) : list string :=
  match values with PList l => take_tokens max_len limit [] [] l | _ => [] end.

Definition no_items {A} (l : list A) : bool := match l with [] => true | _ => false end.

Definition normalize_artifact (item : pyval) : option artifact :=
  match item with
  | PDict d =>
      let ps := _normalize_string_list (dget d "paths") MAX_PATH_LEN 5 in
      let qs := _normalize_string_list (dget d "params") MAX_PARAM_LEN 10 in
      let ks := _normalize_string_list (dget d "keywords") MAX_KEYWORD_LEN 10 in
      let m := stake MAX_METHOD_LEN (upper (strip (to_text str_of (py_or (dget d "method") (PStr ""))))) in
      let m := if one_in METHODS m then m else "" in
      if no_items ps && no_items qs && no_items ks then None else Some (mkArtifact ps qs ks m)
  | _ => None
  end.

(** The loop over the items; it stops at eight artifacts. *)
Fixpoint collect (out : list artifact) (items : list pyval) : list artifact :=
  match items with
  | [] => out
  | item :: rest =>
      let out := match normalize_artifact item with Some a => (out ++ [a])%list | None => out end in
      if (MAX_ARTIFACTS_PER_CVE <=? length out)%nat then out else collect out rest
  end.

(** [data.get("artifacts")] of a dict, unless the dict is itself an artifact. *)
Definition items_of (data : pyval) : pyval :=
  match data with
  | PDict d => if negb (dmem d "artifacts") && (dmem d "paths" || dmem d "params" || dmem d "keywords") then PList [data] else dget d "artifacts"
  | _ => data
  end.

Fixpoint first_payload (candidates : list string) : list artifact :=
  match candidates with
  | [] => []
  | c :: rest => match option_map items_of (json_loads c) with
                 | Some (PList items) => collect [] items
                 | _ => first_payload rest
                 end
  end.

Definition parse_artifacts_payload (content : string) : list artifact :=
  let text := strip content in if nonempty text then first_payload (_json_candidates text) else [].

End extract.

Definition NUCLEI_BLOB_PREFIX : string := "https://github.com/projectdiscovery/nuclei-templates/blob/main/".
Definition NUCLEI_RAW_PREFIX : string := "https://raw.githubusercontent.com/projectdiscovery/nuclei-templates/main/".

Definition strip_char (c : ascii) (s : string) : string := rstrip_by (Ascii.eqb c) (drop_while (Ascii.eqb c) s).

Definition nuclei_raw_url_from_blob (url : string) : option string :=
  let blob := strip url in
  if startswith blob NUCLEI_RAW_PREFIX && endswith blob ".yaml" then Some blob
  else if negb (startswith blob NUCLEI_BLOB_PREFIX) then None
  else let path := strip_char "/" (sdrop (String.length NUCLEI_BLOB_PREFIX) blob) in
       if endswith path ".yaml" then Some (NUCLEI_RAW_PREFIX +:+ path) else None.

(** ** YARA rules *)

Definition hash_len (n : nat) : bool := (n =? 32)%nat || (n =? 40)%nat || (n =? 64)%nat.

Definition _normalize_hash (value : string) : option string :=
  let text := lower (strip value) in
  if sforall is_hex_char text && hash_len (String.length text) then Some text else None.

Definition underscored (s : string) : string := lower (smap (fun c => if Ascii.eqb c "-" then "_"%char else c) s).

Definition _rule_name (cve_id : string) (idx : Z) : string := "briefr_otx_" +:+ underscored cve_id +:+ "_" +:+ str_of_Z idx.

Record yara_rule := mkYara { rule_name : string; y_hash : string; hash_type : string; yara : string }.

Definition NL : string := String "010" "".
Definition DQ : string := String "034" "".
Definition quote (s : string) : string := DQ +:+ s +:+ DQ.

Definition algorithm (h : string) : string :=
  if (String.length h =? 32)%nat then "md5" else if (String.length h =? 40)%nat then "sha1" else "sha256".

Definition yara_text (cve_id meta_pulse name h : string) : string :=
  "import " +:+ quote "hash" +:+ NL +:+ NL +:+ "rule " +:+ name +:+ " {" +:+ NL +:+ "    meta:" +:+ NL +:+
  "        author = " +:+ quote "BRIEFR (generated from OTX)" +:+ NL +:+
  "        description = " +:+ quote ("Hash from " +:+ meta_pulse +:+ " linked to " +:+ cve_id) +:+ NL +:+
  "        cve = " +:+ quote (upper cve_id) +:+ NL +:+ "        confidence = " +:+ quote "experimental" +:+ NL +:+
  "    condition:" +:+ NL +:+ "        hash." +:+ algorithm h +:+ "(0, filesize) == " +:+ quote h +:+ NL +:+ "}".

(** One hash of the loop, after the rules made and the hashes seen so far. *)
Definition add_hash (cve_id pulse_name : string) (acc : list yara_rule * list string) (raw : string) : list yara_rule * list string :=
  let '(rules, seen) := acc in
  match _normalize_hash raw with
  | Some h => if one_in seen h then acc
              else let name := _rule_name cve_id (Z.of_nat (length rules) + 1) in
                   let pulse := if nonempty pulse_name then pulse_name else "OTX pulse" in
                   ((rules ++ [mkYara name h (algorithm h) (yara_text cve_id pulse name h)])%list, h :: seen)
  | None => acc
  end.

Definition build_yara_rules_from_hashes (cve_id : string) (hashes : list string) (pulse_name : string) : list yara_rule :=
  fst (fold_left (add_hash cve_id pulse_name) hashes ([], [])).

(** A row of the query: the value and the pulse's name. *)
Definition or_blank (o : option string) : string := match o with Some s => s | None => "" end.

Fixpoint yara_rows (key : string) (limit : nat) (rules : list yara_rule) (rows : list (option string * option string)) : list yara_rule :=
  match rows with
  | [] => rules
  | (value, pulse) :: rest =>
      let rules := (rules ++ build_yara_rules_from_hashes key [or_blank value] (or_blank pulse))%list in
      if (limit <=? length rules)%nat then rules else yara_rows key limit rules rest
  end.

Definition find_yara_rules_for_cve (cve_id : string) (limit : nat) (rows : list (option string * option string)) : list yara_rule :=
  firstn limit (yara_rows (upper cve_id) limit [] rows).

(** ** Lemmas *)

Lemma stake_length n s : (String.length (stake n s) <= n)%nat.
Proof. revert s. induction n as [|n IH]; intros [|c s]; cbn; [lia..|]. specialize (IH s). lia. Qed.

Lemma stake_nonempty n s : (0 < n)%nat -> nonempty s = true -> nonempty (stake n s) = true.
Proof. destruct n; [lia|]. by destruct s. Qed.

(** A list of texts within the limits: at most [limit] of them, each of 1 to [max_len]
    characters, all different, letter case aside. *)
Definition within_limits (max_len limit : nat) (l : list string) : Prop :=
  (length l <= limit)%nat /\ Forall (fun t => nonempty t = true /\ (String.length t <= max_len)%nat) l /\ NoDup (map lower l).

Section facts.
Context (json_loads : string -> option pyval) (str_of : pyval -> string).

Lemma take_tokens_limits max_len limit values : (0 < max_len)%nat -> (0 < limit)%nat ->
  forall seen out, (length out < limit)%nat -> within_limits max_len limit out -> (forall k, k ∈ map lower out -> k ∈ seen) ->
  within_limits max_len limit (take_tokens str_of max_len limit seen out values).
Proof.
  intros ML LI. induction values as [|v values IH]; intros seen out L W S; [exact W|]. cbn [take_tokens]. set (token := strip _).
  destruct (negb (nonempty token)) eqn:N; [by apply IH|]. apply negb_false_iff in N.
  destruct (one_in seen (lower (stake max_len token))) eqn:O; [by apply IH|].
  assert (lower (stake max_len token) ∉ seen) as NS by (rewrite <-one_in_spec; by rewrite O).
  destruct W as (_ & F & D).
  assert (within_limits max_len limit (out ++ [stake max_len token])) as W'.
  { split; [rewrite length_app; cbn; lia|]. split.
    - apply Forall_app. split; [exact F|]. repeat constructor; [by apply stake_nonempty|apply stake_length].
    - rewrite map_app. apply NoDup_app. split; [exact D|]. split; [|apply NoDup_singleton]. intros k K. cbn [map]. rewrite list_elem_of_singleton.
      intros ->. by apply NS, S. }
  destruct (limit <=? length (out ++ [stake max_len token]))%nat eqn:C; [exact W'|]. apply Nat.leb_gt in C. apply IH; [done..|].
  intros k. rewrite map_app. intros [K|K]%elem_of_app; [right; by apply S|]. cbn [map] in K. apply list_elem_of_singleton in K as ->. by left.
Qed.

Lemma normalize_list_limits v max_len limit : (0 < max_len)%nat -> (0 < limit)%nat -> within_limits max_len limit (_normalize_string_list str_of v max_len limit).
Proof.
  intros ML LI. assert (within_limits max_len limit []) as W by (split; [cbn; lia|]; split; constructor).
  destruct v; try exact W. cbn [_normalize_string_list]. apply take_tokens_limits; [done..|]. intros k K. cbn in K. by apply not_elem_of_nil in K.
Qed.

Definition clean_artifact (a : artifact) : Prop :=
  within_limits 200 5 (paths a) /\ within_limits 80 10 (params a) /\ within_limits 80 10 (keywords a) /\ one_in METHODS (method a) = true /\
  (paths a <> [] \/ params a <> [] \/ keywords a <> []).

Lemma normalize_artifact_clean item a : normalize_artifact str_of item = Some a -> clean_artifact a.
Proof.
  destruct item as [| | | | | |d]; try done. unfold normalize_artifact. cbv zeta.
  pose proof (normalize_list_limits (dget d "paths") MAX_PATH_LEN 5 ltac:(unfold MAX_PATH_LEN; lia) ltac:(lia)) as P.
  pose proof (normalize_list_limits (dget d "params") MAX_PARAM_LEN 10 ltac:(unfold MAX_PARAM_LEN; lia) ltac:(lia)) as Q.
  pose proof (normalize_list_limits (dget d "keywords") MAX_KEYWORD_LEN 10 ltac:(unfold MAX_KEYWORD_LEN; lia) ltac:(lia)) as K.
  set (ps := _normalize_string_list _ _ MAX_PATH_LEN _) in *. set (qs := _normalize_string_list _ _ MAX_PARAM_LEN _) in *.
  set (ks := _normalize_string_list _ (dget d "keywords") _ _) in *. clearbody ps qs ks.
  set (m := stake _ _). assert (one_in METHODS (if one_in METHODS m then m else "") = true) as M by (by destruct (one_in METHODS m) eqn:M).
  set (m' := if one_in METHODS m then m else "") in *. clearbody m'. clear m. destruct (no_items ps && no_items qs && no_items ks) eqn:E; [done|]. intros [= <-]. cbn [paths params keywords method].
  split; [exact P|]. split; [exact Q|]. split; [exact K|]. split.
  - exact M.
  - destruct ps; [|by left]. destruct qs; [|by right; left]. destruct ks; [done|by right; right].
Qed.

Lemma collect_clean items : forall out, (length out < 8)%nat -> Forall clean_artifact out ->
  (length (collect str_of out items) <= 8)%nat /\ Forall clean_artifact (collect str_of out items).
Proof.
  induction items as [|item items IH]; intros out L F; [split; [cbn; lia|exact F]|]. cbn [collect].
  destruct (normalize_artifact str_of item) as [a|] eqn:N.
  - apply normalize_artifact_clean in N. assert (Forall clean_artifact (out ++ [a])) as F' by (apply Forall_app; split; [exact F|]; apply List.Forall_cons; [exact N|constructor]).
    destruct (MAX_ARTIFACTS_PER_CVE <=? length (out ++ [a]))%nat eqn:C.
    + split; [rewrite length_app; cbn; lia|exact F'].
    + apply Nat.leb_gt in C. by apply IH.
  - destruct (MAX_ARTIFACTS_PER_CVE <=? length out)%nat eqn:C; [|by apply IH]. apply Nat.leb_le in C. unfold MAX_ARTIFACTS_PER_CVE in C. lia.
Qed.

(** ** Theorems *)

(** [payload_artifacts_clean]: whatever text a model answers, at most eight
    artifacts come out, each with at least one entry, lists within their limits and a
    known HTTP method or none. *)
Theorem payload_artifacts_clean content :
  (length (parse_artifacts_payload json_loads str_of content) <= 8)%nat /\ Forall clean_artifact (parse_artifacts_payload json_loads str_of content).
Proof.
  unfold parse_artifacts_payload. destruct (nonempty _); [|split; [cbn; lia|constructor]].
  induction (_json_candidates (strip content)) as [|c l IH]; [split; [cbn; lia|constructor]|]. cbn [first_payload].
  destruct (json_loads c) as [v|]; [|exact IH]. cbn [option_map]. destruct (items_of v); try exact IH. apply collect_clean; [cbn; lia|constructor].
Qed.

End facts.

Lemma add_hash_inv cve pulse hashes : forall rules seen,
  (forall h, h ∈ seen <-> h ∈ map y_hash rules) -> NoDup (map y_hash rules) ->
  map rule_name rules = map (_rule_name cve) (map Z.of_nat (seq 1 (length rules))) ->
  let rules' := fst (fold_left (add_hash cve pulse) hashes (rules, seen)) in
  NoDup (map y_hash rules') /\ map rule_name rules' = map (_rule_name cve) (map Z.of_nat (seq 1 (length rules'))) /\
  forall h, h ∈ map y_hash rules' <-> h ∈ map y_hash rules \/ exists raw, raw ∈ hashes /\ _normalize_hash raw = Some h.
Proof.
  induction hashes as [|raw hashes IH]; intros rules seen S D M; cbv zeta.
  { cbn [fold_left fst]. split; [done|]. split; [done|]. intros h. split; [by left|]. intros [H|(r & H & _)]; [done|by apply not_elem_of_nil in H]. }
  cbn [fold_left]. unfold add_hash at 2 4 6 8. destruct (_normalize_hash raw) as [h0|] eqn:N.
  - destruct (one_in seen h0) eqn:O.
    + destruct (IH rules seen S D M) as (A & B & C). split; [done|]. split; [done|]. intros h. rewrite (C h). split.
      * intros [H|(r & H & E)]; [by left|right; exists r; split; [by right|done]].
      * intros [H|(r & H & E)]; [by left|]. apply elem_of_cons in H as [->|H]; [|right; by exists r]. left. rewrite N in E. injection E as <-.
        apply S, one_in_spec, O.
    + set (new := mkYara _ h0 _ _). destruct (IH (rules ++ [new])%list (h0 :: seen)) as (A & B & C).
      * intros h. rewrite map_app, elem_of_app, elem_of_cons, (S h). cbn [map]. rewrite list_elem_of_singleton. cbn [y_hash new]. tauto.
      * rewrite map_app. apply NoDup_app. split; [done|]. split; [|apply NoDup_singleton]. intros h H. cbn [map]. rewrite list_elem_of_singleton. intros ->.
        cbn [y_hash new] in H. apply S, one_in_spec in H. congruence.
      * rewrite length_app. cbn [length]. rewrite seq_app, !map_app, M. cbn [map seq]. f_equal. cbn [rule_name new]. do 2 f_equal. lia.
      * split; [done|]. split; [done|]. intros h. rewrite (C h), map_app, elem_of_app. cbn [map]. rewrite list_elem_of_singleton. cbn [y_hash new]. split.
        -- intros [[H| ->]|(r & H & E)]; [by left|right; exists raw; split; [by left|done]|right; exists r; split; [by right|done]].
        -- intros [H|(r & H & E)]; [by left; left|]. apply elem_of_cons in H as [->|H]; [|right; by exists r]. left. right. congruence.
  - destruct (IH rules seen S D M) as (A & B & C). split; [done|]. split; [done|]. intros h. rewrite (C h). split.
    + intros [H|(r & H & E)]; [by left|right; exists r; split; [by right|done]].
    + intros [H|(r & H & E)]; [by left|]. apply elem_of_cons in H as [->|H]; [congruence|right; by exists r].
Qed.

Lemma append_inj_l a : forall s t, a +:+ s = a +:+ t -> s = t.
Proof. induction a as [|c a IH]; intros s t; [done|]. rewrite !app_cons. intros E. apply IH. congruence. Qed.

#[export] Instance rule_name_inj cve : Inj (=) (=) (_rule_name cve).
Proof.
  intros i j. unfold _rule_name. intros E. apply append_inj_l, append_inj_l, append_inj_l in E. pose proof (int_of_str_of_Z i) as I. rewrite E, int_of_str_of_Z in I.
  by apply ok_inj in I.
Qed.

(** [one_rule_per_hash]: a list of hashes gives one rule for each distinct hash of
    32, 40 or 64 hexadecimal digits in it, under names that are all different. *)
Theorem one_rule_per_hash cve hashes pulse : let rules := build_yara_rules_from_hashes cve hashes pulse in
  NoDup (map y_hash rules) /\ NoDup (map rule_name rules) /\
  forall h, h ∈ map y_hash rules <-> exists raw, raw ∈ hashes /\ _normalize_hash raw = Some h.
Proof.
  cbv zeta. unfold build_yara_rules_from_hashes.
  destruct (add_hash_inv cve pulse hashes [] []) as (D & N & M); [done|constructor|done|]. split; [exact D|]. split.
  - rewrite N. apply (NoDup_fmap_2 (_rule_name cve)), (NoDup_fmap_2 Z.of_nat), NoDup_seq.
  - intros h. rewrite (M h). split; [|by right]. intros [H|H]; [by apply not_elem_of_nil in H|done].
Qed.

(** [every_rule_has_one_name]: the rules of a vulnerability are built from one row at a
    time, so the counter in the name never passes one: they all have the same name. *)
Theorem every_rule_has_one_name cve limit rows :
  Forall (fun r => rule_name r = _rule_name (upper cve) 1) (find_yara_rules_for_cve cve limit rows).
Proof.
  unfold find_yara_rules_for_cve. apply Forall_take. assert (forall rules, Forall (fun r => rule_name r = _rule_name (upper cve) 1) rules ->
    Forall (fun r => rule_name r = _rule_name (upper cve) 1) (yara_rows (upper cve) limit rules rows)) as H; [|by apply H].
  induction rows as [|[value pulse] rows IH]; intros rules F; [exact F|]. cbn [yara_rows].
  assert (Forall (fun r => rule_name r = _rule_name (upper cve) 1) (rules ++ build_yara_rules_from_hashes (upper cve) [or_blank value] (or_blank pulse))) as G.
  { apply Forall_app. split; [exact F|]. unfold build_yara_rules_from_hashes. cbn [fold_left add_hash]. destruct (_normalize_hash _); [|constructor].
    cbn. by repeat constructor. }
  destruct (limit <=? _)%nat; [exact G|by apply IH].
Qed.

(** ** Examples *)

Definition md5_a : string := "44d88612fea8a8f36de82e1278abb02f".

(** One hash in two pulses: two rules of one name and one hash. *)
Example one_hash_two_rules :
  map (fun r => (rule_name r, y_hash r)) (find_yara_rules_for_cve "CVE-2026-1001" 10 [(Some md5_a, Some "first"); (Some (upper md5_a), Some "second")]) =
    [("briefr_otx_cve_2026_1001_1", md5_a); ("briefr_otx_cve_2026_1001_1", md5_a)].
Proof. vm_compute. reflexivity. Qed.

(** A pulse's name with a quote ends the text it is put into. *)
Example pulse_name_not_escaped :
  str_in ("description = " +:+ quote "Hash from a" +:+ " b" +:+ quote " linked to CVE-1")
    (yara_text "CVE-1" ("a" +:+ DQ +:+ " b" +:+ DQ) "n" md5_a) = true.
Proof. vm_compute. reflexivity. Qed.

Example fenced_payload : map paths (parse_artifacts_payload
    (fun s => if String.eqb s "[x]" then Some (PList [PDict [("paths", PList [PStr " /a "; PStr "/A"; PStr "/b"])]; PNone]) else None) (fun _ => "")
    ("Here:" +:+ NL +:+ "```JSON" +:+ NL +:+ "[x]" +:+ NL +:+ "```")) = [["/a"; "/b"]].
Proof. vm_compute. reflexivity. Qed.
