(* ===== verification/Compose.v ===== *)
(** * Compose: detection packs (detection/composer.py)

    The evidence pack of a vulnerability and the detection content emitted from it: a
    Sigma rule ([Sigma]), the SIEM queries ([Siem]) with the evidence's tokens put in,
    and the YARA rules ([Artifacts]).  The rules found in public repositories, the cached
    context and the exploits are arguments; the store of templates is threaded through. *)

From S2P Require Import Prelude PyStr PyVal Ioc DetClass Sigma Siem Artifacts.
Open Scope string_scope.
Open Scope Z_scope.

Record evidence := mkEvidence {
  e_cve : string; e_techniques : list string; e_class : pyval; has_community_rules : bool; e_artifacts : list pyval;
  nuclei_urls : list string; e_yara : list yara_rule; e_context : pyval; community_count : Z; primary_source : string; e_product : string
}.

Definition _primary_source (community_count artifact_count nuclei_count yara_count : Z) : string :=
  if 0 <? community_count then "community"
  else if (0 <? artifact_count) || (0 <? nuclei_count) then "nuclei_artifacts"
  else if 0 <? yara_count then "yara"
  else "none".

Definition as_dict (v : pyval) : option (list (string * pyval)) := match v with PDict d => Some d | _ => None end.

Section composer.
Context (json_loads : string -> option pyval) (str_of : pyval -> string) (md5 : string -> string).
Context (yaml_dump : list (string * pyval) -> string).
Variable today : string.

Abbreviation text := (to_text str_of).

Definition _ensure_list (val : pyval) : list pyval :=
  match val with
  | PList l => l
  | PStr s => if nonempty (strip s) then [val] else []
  | PNone => []
  | _ => [val]
  end.

Definition normal_artifact (d : list (string * pyval)) : pyval :=
  PDict [("paths", PList (_ensure_list (dget d "paths"))); ("params", PList (_ensure_list (dget d "params")));
         ("keywords", PList (_ensure_list (dget d "keywords"))); ("method", PStr (text (py_or (dget d "method") (PStr ""))));
         ("provenance", PStr (text (py_or (py_or (dget d "provenance") (dget d "provider")) (PStr "unknown"))))].

Definition _normalize_artifacts (raw : pyval) : list pyval :=
  match raw with PList l => omap (fun item => option_map normal_artifact (as_dict item)) l | _ => [] end.

(** One exploit of the loop, after the URLs found so far. *)
Definition add_url (urls : list string) (exp : pyval) : list string :=
  match exp with
  | PDict d =>
      if negb (String.eqb (lower (text (py_or (dget d "source") (PStr "")))) "nuclei") then urls
      else let url := strip (text (py_or (dget d "url") (PStr ""))) in
           if negb (nonempty url) || one_in urls url then urls else (urls ++ [url])%list
  | _ => urls
  end.

Definition _nuclei_urls (exploits : list pyval) : list string := fold_left add_url exploits [].

Definition stripped_texts (l : option (list string)) : list string :=
  List.filter nonempty (map strip (match l with Some l => l | None => [] end)).

(** [find_sigma_rules] and [find_elastic_rules] answer lists of which only the lengths
    matter here. *)
Definition compose_detection_evidence (cve_id : string) (technique_ids cwe_ids : option (list string)) (product : string)
    (sigma_count elastic_count : Z) (include_community : bool) (detection_context : pyval) (exploits : list pyval) (yara_rules : list yara_rule)
    : evidence :=
  let techniques := stripped_texts technique_ids in
  let cwes := stripped_texts cwe_ids in
  let artifacts := match detection_context with PDict d => _normalize_artifacts (dget d "artifacts") | _ => [] end in
  let urls := _nuclei_urls exploits in
  let class := match detection_context with
               | PDict d => if truthy (dget d "class") then dget d "class" else PStr (resolve_detection_class (hd "" techniques) cwes)
               | _ => PStr (resolve_detection_class (hd "" techniques) cwes)
               end in
  let community := if include_community then sigma_count + elastic_count else 0 in
  mkEvidence (upper (strip cve_id)) techniques class (0 <? community) artifacts urls yara_rules detection_context community
    (_primary_source community (Z.of_nat (length artifacts)) (Z.of_nat (length urls)) (Z.of_nat (length yara_rules)))
    (let p := strip product in
     if nonempty p then p
     else match detection_context with PDict d => strip (text (py_or (dget d "product") (PStr ""))) | _ => "" end).

Definition _compose_basis (e : evidence) : string :=
  let primary := strip (primary_source e) in if one_in [""; "none"] primary then "template_fallback" else primary.

Definition _context_for_emit (e : evidence) : option (list (string * pyval)) :=
  match e_context e with
  | PDict ctx => Some (match e_artifacts e with [] => ctx | l => dset ctx "artifacts" (PList l) end)
  | _ => match e_artifacts e with
         | [] => if truthy (e_class e) then Some [("class", e_class e); ("artifacts", PList []); ("product", PStr (e_product e))] else None
         | l => Some [("class", e_class e); ("artifacts", PList l); ("product", PStr (e_product e))]
         end
  end.

(** ** Tokens *)

Definition raw_tokens (artifacts : list pyval) : list pyval :=
  flat_map (fun art => match art with
                       | PDict d => (_ensure_list (dget d "paths") ++ _ensure_list (dget d "keywords"))%list
                       | _ => []
                       end) artifacts.

(** The loops return as soon as there are eight. *)
Fixpoint pick_tokens (tokens seen : list string) (raw : list pyval) : list string :=
  match raw with
  | [] => tokens
  | v :: rest =>
      let token := strip (text (py_or v (PStr ""))) in
      if negb (nonempty token) || one_in seen (lower token) then pick_tokens tokens seen rest
      else let tokens := (tokens ++ [token])%list in
           if (8 <=? length tokens)%nat then tokens else pick_tokens tokens (lower token :: seen) rest
  end.

Definition _artifact_tokens (artifacts : list pyval) : list string := pick_tokens [] [] (raw_tokens artifacts).

Definition in_quotes (t : string) : string := quote t.

Definition _inject_artifacts_into_siem (s : siem_result) (artifacts : list pyval) : siem_result :=
  match _artifact_tokens artifacts with
  | [] => s
  | tokens =>
      let quoted := sjoin ", " (map in_quotes tokens) in
      let space_quoted := sjoin " " (map in_quotes tokens) in
      mkResult (res_title s) (res_class s) (res_elastic s +:+ " or url.path:(" +:+ quoted +:+ ")")
        (res_splunk s +:+ " OR (" +:+ space_quoted +:+ ")")
        (rstrip_by is_space (res_sentinel s) +:+ Artifacts.NL +:+ "| where * has_any (" +:+ quoted +:+ ")")
        (res_qradar s) (notes s) (res_patterns s)
  end.

(** ** Emission *)

Record emitted := mkEmitted {
  generated_sigma : option string; generated_sigma_meta : list (string * pyval); siem_queries : siem_result; yara_rules : list yara_rule;
  compose_basis : string
}.

Definition emit_composed_detection (st : store) (e : evidence) (descr : string) (cwe_ids : option (list string)) : store * res emitted :=
  let cve_id := upper (strip (e_cve e)) in
  let first_technique := hd "" (stripped_texts (Some (e_techniques e))) in
  let product := if nonempty (strip (e_product e)) then strip (e_product e) else "Affected Product" in
  let ctx := _context_for_emit e in
  let '(st, bundle) := generate_sigma_rule_bundle json_loads str_of md5 yaml_dump today st
                         (if nonempty cve_id then cve_id else "CVE-UNKNOWN") first_technique product descr cwe_ids ctx in
  (st, let! b := bundle in
       let meta := dset (snd b) "compose_basis" (PStr (_compose_basis e)) in
       let basis := lower (text (py_or (dget meta "briefr_basis") (PStr "generic"))) in
       let '(rule, meta) := if has_community_rules e then (None, dset meta "suppressed" (PStr "community_primary"))
                            else if String.eqb basis "generic" then (None, dset meta "suppressed" (PStr "generic_refused"))
                            else (Some (fst b), meta) in
       let! queries := get_siem_queries json_loads str_of first_technique cve_id
                         (if String.eqb product "Affected Product" then "" else product) cwe_ids ctx in
       Ok (mkEmitted rule meta (_inject_artifacts_into_siem queries (e_artifacts e)) (e_yara e) (_compose_basis e))).

End composer.

(** ** Lemmas *)

Lemma split_last_pipe s : str_in "|" s = true -> exists a b, s = a +:+ "|" +:+ b /\ sforall (fun c => negb (Ascii.eqb c "|")) b = true.
Proof.
  induction s as [|c s IH]; intros H; [discriminate H|]. destruct (str_in "|" s) eqn:E.
  - destruct (IH eq_refl) as (a & b & -> & N). by exists (String c a), b.
  - assert (c = "|"%char) as ->.
    { cbn [str_in] in H. rewrite E, orb_false_r in H. apply prefix_split in H. by injection H. }
    exists "", s. split; [done|]. clear IH H. induction s as [|d s IH]; [done|]. cbn [str_in] in E. apply orb_false_iff in E as [P E]. cbn [sforall].
    rewrite (IH E), andb_true_r. apply negb_true_iff, Ascii.eqb_neq. intros ->. change (String "|" s) with ("|" +:+ s) in P. by rewrite prefix_app in P.
Qed.

Section facts.
Context (json_loads : string -> option pyval) (str_of : pyval -> string) (md5 : string -> string).
Context (yaml_dump : list (string * pyval) -> string).
Variable today : string.

Lemma pick_tokens_spec raw : forall tokens seen, (length tokens < 8)%nat -> fresh_tokens [] tokens -> (forall k, k ∈ map lower tokens -> k ∈ seen) ->
  (length (pick_tokens str_of tokens seen raw) <= 8)%nat /\ fresh_tokens [] (pick_tokens str_of tokens seen raw).
Proof.
  induction raw as [|v raw IH]; intros tokens seen L F S; [split; [cbn; lia|exact F]|]. cbn [pick_tokens]. set (token := strip _).
  destruct (negb (nonempty token) || one_in seen (lower token)) eqn:N; [by apply IH|]. apply orb_false_iff in N as [N O]. apply negb_false_iff in N.
  assert (lower token ∉ seen) as NS by (rewrite <-one_in_spec; by rewrite O).
  assert (fresh_tokens [] (tokens ++ [token])) as F'.
  { apply fresh_tokens_app; [exact F|]. split; [|apply NoDup_singleton]. repeat constructor; [exact N|apply strip_idemp|]. intros I. by apply NS, S. }
  destruct (8 <=? length (tokens ++ [token]))%nat eqn:C.
  - split; [rewrite length_app; cbn; lia|exact F'].
  - apply Nat.leb_gt in C. apply IH; [done..|]. intros k. rewrite map_app. intros [K|K]%elem_of_app; [right; by apply S|].
    cbn [map] in K. apply list_elem_of_singleton in K as ->. by left.
Qed.

Lemma bundle_basis st cve technique product descr cwe_ids ctx st' b :
  generate_sigma_rule_bundle json_loads str_of md5 yaml_dump today st cve technique product descr cwe_ids ctx = (st', Ok b) ->
  exists p cwes t, merge_detection_inputs product cwe_ids technique (match ctx with Some d => d | None => [] end) = Ok (p, cwes, t) /\
    dget (snd b) "briefr_basis" = PStr (snd (fst (_resolve_template str_of t cwes))).
Proof.
  unfold generate_sigma_rule_bundle. pose proof (build_rule json_loads str_of md5 today st (mkRequest cve technique product descr cwe_ids ctx)) as R.
  unfold build in R. cbn [q_cve q_technique q_product q_description q_cwes q_context] in R.
  destruct (build_sigma_rule_dict _ _ _ _ _ _ _ _ _ _ _) as [st1 [r|]]; [|done]. cbn [res_bind snd] in *. intros E.
  destruct (R r eq_refl) as (p & cwes & t & n & a & M & H). exists p, cwes, t. split; [exact M|].
  destruct (_resolve_template str_of t cwes) as [[tpl basis] cwe] eqn:T. cbv zeta in H. destruct H as (B & _). cbn [fst snd].
  assert (b = (yaml_dump (rule_dict st1 r), sigma_rule_meta_from_dict (rule_dict st1 r))) as -> by congruence. cbn [snd].
  assert (dget (sigma_rule_meta_from_dict (rule_dict st1 r)) "briefr_basis" = py_or (PStr (briefr_basis r)) (PStr "generic")) as -> by reflexivity.
  rewrite B. unfold py_or. cbn [truthy]. assert (nonempty basis = true) as ->; [|done].
  unfold _resolve_template in T. destruct (assoc _ _); [by injection T as <- <- <-|]. destruct (first_cwe _ _) as [[? ?]|]; by injection T as <- <- <-.
Qed.

(** ** Theorems *)

(** [tokens_are_few]: at most eight tokens go into the queries, nonempty, stripped
    and different from each other, letter case aside. *)
Theorem tokens_are_few artifacts : (length (_artifact_tokens str_of artifacts) <= 8)%nat /\ fresh_tokens [] (_artifact_tokens str_of artifacts).
Proof. apply pick_tokens_spec; [cbn; lia|apply fresh_tokens_nil|]. intros k K. cbn in K. by apply not_elem_of_nil in K. Qed.

(** [sigma_only_when_mapped]: a pack carries a generated Sigma rule exactly when no
    community rule was found and the technique or one of the CWEs in effect has a
    template; a generic rule is never emitted. *)
Theorem sigma_only_when_mapped st e descr cwe_ids st' out :
  emit_composed_detection json_loads str_of md5 yaml_dump today st e descr cwe_ids = (st', Ok out) ->
  exists p cwes technique,
    merge_detection_inputs (if nonempty (strip (e_product e)) then strip (e_product e) else "Affected Product") cwe_ids
      (hd "" (stripped_texts (Some (e_techniques e)))) (match _context_for_emit e with Some d => d | None => [] end) = Ok (p, cwes, technique) /\
    (generated_sigma out <> None <-> has_community_rules e = false /\
       (is_Some (assoc (technique_prefix technique) TECHNIQUE_TEMPLATES) \/ is_Some (first_cwe CWE_TEMPLATES (map (to_text str_of) cwes)))).
Proof.
  unfold emit_composed_detection. cbv zeta. destruct (generate_sigma_rule_bundle _ _ _ _ _ _ _ _ _ _ _ _) as [st1 [b|]] eqn:G; [|done].
  apply bundle_basis in G as (p & cwes & t & M & B). intros E. exists p, cwes, t. split; [exact M|].
  assert (E' := f_equal snd E). clear E. cbn [snd res_bind] in E'.
  assert (dget (dset (snd b) "compose_basis" (PStr (_compose_basis e))) "briefr_basis" = dget (snd b) "briefr_basis") as D by (by rewrite dget_dset).
  rewrite D, B in E'. clear D B M. unfold _resolve_template in E'.
  destruct (has_community_rules e).
  - destruct (get_siem_queries _ _ _ _ _ _ _); [|done]. cbn [res_bind] in E'. apply ok_inj in E'. subst out. cbn [generated_sigma]. split; [done|]. by intros [? _].
  - assert (forall s, lower (to_text str_of (py_or (PStr s) (PStr "generic"))) = lower s \/ s = "") as Lw by (intros [|c s]; [by right|by left]).
    destruct (assoc (technique_prefix t) TECHNIQUE_TEMPLATES) as [tpl|].
    + cbn [fst snd] in E'. change (String.eqb (lower (to_text str_of (py_or (PStr "attack_technique") (PStr "generic")))) "generic") with false in E'. cbv iota in E'.
      destruct (get_siem_queries _ _ _ _ _ _ _); [|done]. cbn [res_bind] in E'. apply ok_inj in E'. subst out. cbn [generated_sigma].
      split; [intros _; split; [done|left; by eexists]|done].
    + destruct (first_cwe CWE_TEMPLATES _) as [[c tpl]|]; cbn [fst snd] in E'.
      * change (String.eqb (lower (to_text str_of (py_or (PStr "cwe") (PStr "generic")))) "generic") with false in E'. cbv iota in E'.
        destruct (get_siem_queries _ _ _ _ _ _ _); [|done]. cbn [res_bind] in E'. apply ok_inj in E'. subst out. cbn [generated_sigma].
        split; [intros _; split; [done|right; by eexists]|done].
      * change (String.eqb (lower (to_text str_of (py_or (PStr "generic") (PStr "generic")))) "generic") with true in E'. cbv iota in E'.
        destruct (get_siem_queries _ _ _ _ _ _ _); [|done]. cbn [res_bind] in E'. apply ok_inj in E'. subst out. cbn [generated_sigma].
        split; [done|]. by intros [_ [[? [=]]|[? [=]]]].
Qed.

(** [splunk_clause_in_last_command]: every Splunk template is a pipeline, and the
    clause with the tokens is appended to its end, so it becomes an argument of the last
    command of the pipeline, which is none of the commands that filter events. *)
Theorem splunk_clause_in_last_command technique_id cve product cwe_ids ctx s artifacts :
  get_siem_queries json_loads str_of technique_id cve product cwe_ids ctx = Ok s -> _artifact_tokens str_of artifacts <> [] ->
  exists a command, res_splunk s = a +:+ "|" +:+ command /\
    (startswith (lstrip command) "search" || startswith (lstrip command) "where") = false /\
    res_splunk (_inject_artifacts_into_siem str_of s artifacts) =
      a +:+ "|" +:+ (command +:+ " OR (" +:+ sjoin " " (map quote (_artifact_tokens str_of artifacts)) +:+ ")").
Proof.
  intros G T. rewrite (queries_ignore_the_cve json_loads str_of technique_id cve product "CVE-XXXX-XXXXX" "affected_product" cwe_ids ctx) in G.
  unfold get_siem_queries in G. destruct (_resolve_detection_class _ _ _) as [class|]; [|done]. cbn [res_bind] in G. apply ok_inj in G.
  set (last_command := fun q => List.last (split_on "|" q) "").
  assert (forallb (fun t => let q := substituted "CVE-XXXX-XXXXX" "affected_product" (splunk_spl t) in
            str_in "|" q && negb (startswith (lstrip (last_command q)) "search" || startswith (lstrip (last_command q)) "where")) all_templates = true) as F
    by (vm_compute; reflexivity).
  pose proof (listed_by _ F technique_id class) as Q. cbv beta zeta in Q. apply andb_prop in Q as [Q1 Q2]. apply negb_true_iff in Q2.
  assert (res_splunk s = substituted "CVE-XXXX-XXXXX" "affected_product" (splunk_spl (template_for technique_id class))) as R by (by subst s).
  rewrite <-R in Q1, Q2. clear F R G. apply split_last_pipe in Q1 as (a & b & E & N). exists a, b. split; [exact E|]. split.
  - assert (last_command (res_splunk s) = b) as <-; [|exact Q2]. rewrite E. unfold last_command. clear -N. revert N. induction a as [|c a IH]; intros N.
    + change ("" +:+ "|" +:+ b) with (String "|" b). cbn [split_on]. rewrite Ascii.eqb_refl, split_on_none by exact N. done.
    + rewrite app_cons. cbn [split_on]. specialize (IH N). pose proof (split_on_nonempty "|" (a +:+ "|" +:+ b)) as NE.
      destruct (Ascii.eqb c "|"); [|]; destruct (split_on "|" (a +:+ "|" +:+ b)) as [|x l] eqn:S; [done| |done|]; [exact IH|].
      destruct l as [|y l]; [|exact IH]. exfalso. clear -S. revert x S. induction a as [|d a IH]; intros x S.
      * change ("" +:+ "|" +:+ b) with (String "|" b) in S. cbn [split_on] in S. rewrite Ascii.eqb_refl in S. pose proof (split_on_nonempty "|" b). by destruct (split_on "|" b).
      * rewrite app_cons in S. cbn [split_on] in S. pose proof (split_on_nonempty "|" (a +:+ "|" +:+ b)) as NE.
        destruct (split_on "|" (a +:+ "|" +:+ b)) as [|y l] eqn:S'; [done|]. destruct (Ascii.eqb d "|"); [done|]. injection S as _ ->. by apply (IH y).
  - unfold _inject_artifacts_into_siem. destruct (_artifact_tokens str_of artifacts) as [|t l]; [done|]. cbn [res_splunk]. rewrite E. by rewrite !sapp_assoc.
Qed.

End facts.

(** ** Witnesses *)

(** A SQL injection: with a context and no community rule, then with one rule. *)
Definition cart_context : pyval :=
  PDict [("cwe_ids", texts ["CWE-89"]); ("product", PStr "shop");
         ("artifacts", PList [PDict [("paths", PStr "/cart"); ("keywords", texts ["cart_id"; dq "a~b"])]])].
Definition pack (sigma_count : Z) : evidence :=
  compose_detection_evidence no_str " cve-2026-1001 " None None "" sigma_count 0 true cart_context [] [].
Definition emit (sigma_count : Z) : store * res emitted :=
  emit_composed_detection no_json no_str no_md5 (fun _ => "yaml") "2026/07/20" initial_store (pack sigma_count) "" None.

Lemma sigma_only_when_mapped_witness : exists st out p cwes technique, emit 0 = (st, Ok out) /\ generated_sigma out = Some "yaml" /\
  merge_detection_inputs "shop" None "" (match _context_for_emit (pack 0) with Some d => d | None => [] end) = Ok (p, cwes, technique) /\
  (is_Some (assoc (technique_prefix technique) TECHNIQUE_TEMPLATES) \/ is_Some (first_cwe CWE_TEMPLATES (map (to_text no_str) cwes))).
Proof.
  destruct (emit 0) as [st o] eqn:E. assert (is_ok o = true) as K by (change o with (snd (st, o)); rewrite <-E; vm_compute; reflexivity).
  destruct o as [out|]; [|discriminate K]. assert (generated_sigma out = Some "yaml") as G.
  { assert (H : option_map generated_sigma (match snd (emit 0) with Ok a => Some a | Raise _ => None end) = Some (Some "yaml")) by (vm_compute; reflexivity).
    rewrite E in H. cbn in H. congruence. }
  destruct (sigma_only_when_mapped no_json no_str no_md5 (fun _ => "yaml") "2026/07/20" initial_store (pack 0) "" None st out E) as (p & cwes & t & M & [H _]).
  exists st, out, p, cwes, t. split; [done|]. split; [exact G|]. split; [exact M|]. apply H. by rewrite G.
Defined.

(** A rule suppressed for a community rule has written its keywords all the same. *)
Example suppressed_rule_leaks :
  option_map generated_sigma (match snd (emit 1) with Ok a => Some a | Raise _ => None end) = Some None /\
  PStr "cart_id" ∈ match keyword_list (detection_of (fst (emit 1)) "_CWE_SQLI") with Some l => l | None => [] end.
Proof. split; [vm_compute; reflexivity|]. vm_compute. repeat (first [by left|right]). Qed.

(** A token with a double quote closes the quotes it is put in. *)
Example token_not_escaped : option_map (fun a => str_in (qt "(^/cart^, ^cart_id^, ^a^b^)") (res_elastic (siem_queries a)))
    (match snd (emit 0) with Ok a => Some a | Raise _ => None end) = Some true.
Proof. vm_compute. reflexivity. Qed.

Lemma splunk_clause_in_last_command_witness : exists s a command,
  get_siem_queries no_json no_str "T1190" "" "" None None = Ok s /\
  res_splunk (_inject_artifacts_into_siem no_str s (e_artifacts (pack 0))) =
    a +:+ "|" +:+ (command +:+ " OR (" +:+ sjoin " " (map quote (_artifact_tokens no_str (e_artifacts (pack 0)))) +:+ ")").
Proof.
  destruct (get_siem_queries no_json no_str "T1190" "" "" None None) as [s|] eqn:E; [|vm_compute in E; discriminate E].
  destruct (splunk_clause_in_last_command no_json no_str "T1190" "" "" None None s (e_artifacts (pack 0)) E) as (a & c & _ & _ & H); [vm_compute; discriminate|].
  exists s, a, c. split; [reflexivity|exact H].
Defined.
