(* ===== verification/Mirror.v ===== *)
(** * Mirror: the catalogue feeds and their mirror

    The parsers of the five catalogue feeds (feeds/threatfox.py, urlhaus.py, phishtank.py,
    malwarebazaar.py, feodo.py), the table they fill (db/ti_mirror.py) and the job that
    joins the two (scheduler.py, [run_catalog_sync]).  A feed's answer is what the HTTP
    client gave; the JSON body is a value, the CSV a text.  [str_of] is [str] of a value
    that is no text, the digest is that of [SourceEvidence]. *)

From S2P Require Import Prelude PyStr DecText PyVal PyNet IpText Ioc Csv SourceEvidence.
Open Scope string_scope.
Open Scope Z_scope.

(** A row as a feed gives it: the confidence is still a text. *)
Record feed_row := mkRow {
  f_id : string; f_type : string; f_value : string; f_raw : string; f_host : string; f_malware : string; f_threat : string;
  f_confidence : string; f_first_seen : string
}.

(** What the request ended with. *)
Inductive answer :=
| CircuitOpen
| Failed
| Answer (status : Z) (json : option pyval) (text : string).

(** [(v or "").strip()] *)
Definition stripped (v : pyval) : res string := strip_of (py_or v (PStr "")).

Definition is_value_error (e : exn) : bool := match e with ValueError => true | _ => false end.

(** A loop that appends what each entry maps to. *)
Definition parse_all {A} (f : A -> res (list feed_row)) (l : list A) : res (list feed_row) :=
  fold_left (fun acc a => let! rows := acc in let! new := f a in Ok (rows ++ new)%list) l (Ok []).

Definition opt_row (o : option feed_row) : list feed_row := match o with Some r => [r] | None => [] end.

Section feeds.
Context (str_of : pyval -> string).

Definition text_of (v : pyval) : string := match v with PStr s => s | _ => str_of v end.
(** [str(v or "").strip()] *)
Definition id_text (v : pyval) : string := strip (text_of (py_or v (PStr ""))).

(** ** ThreatFox *)

Definition _lookup_type_from_threatfox (ioc_type : string) : option string :=
  let t := lower (strip ioc_type) in
  if one_in ["ip:port"; "ip"] t then Some "ip"
  else if String.eqb t "domain" then Some "domain"
  else if one_in ["md5_hash"; "sha256_hash"; "sha1_hash"; "hash"] t then Some "hash"
  else if String.eqb t "url" then Some "domain"
  else None.

Definition _extract_match_value (raw_ioc threatfox_type lookup_type : string) : res (option string) :=
  let raw := strip raw_ioc in
  if negb (nonempty raw) then Ok None
  else if String.eqb lookup_type "ip" then
    let host := if str_in ":" raw && String.eqb threatfox_type "ip:port" then hd "" (split_on ":" raw) else raw in
    match ip_address (strip host) with Ok a => Ok (Some (str_ip a)) | Raise _ => Ok None end
  else if String.eqb lookup_type "domain" && String.eqb threatfox_type "url" then
    try_except (let! host := _url_host raw in Ok (if nonempty host then Some host else None)) is_value_error (Ok None)
  else
    let! n := normalize_ioc (if String.eqb lookup_type "hash" then "HASH" else if String.eqb lookup_type "domain" then "DOMAIN" else upper lookup_type) raw in
    Ok (match n with Some (_, v, _) => Some v | None => None end).

Definition parse_threatfox_ioc (entry : list (string * pyval)) : res (option feed_row) :=
  let ioc_id := id_text (dget entry "id") in
  let! raw_ioc := stripped (dget entry "ioc") in
  let! tf_type := stripped (dget entry "ioc_type") in
  if negb (nonempty ioc_id) || negb (nonempty raw_ioc) then Ok None
  else match _lookup_type_from_threatfox tf_type with
       | None => Ok None
       | Some lookup_type =>
           let! m := _extract_match_value raw_ioc tf_type lookup_type in
           match m with
           | None => Ok None
           | Some v =>
               if negb (nonempty v) then Ok None
               else
                 let! malware := strip_of (py_or (py_or (dget entry "malware_printable") (dget entry "malware")) (PStr "")) in
                 let! threat := stripped (dget entry "threat_type") in
                 let! first := stripped (dget entry "first_seen") in
                 Ok (Some (mkRow ioc_id lookup_type v raw_ioc "" malware threat (text_of (py_or (dget entry "confidence_level") (PInt 0))) first))
           end
       end.

(** [for entry in body.get("data") or []]: an entry that is no dict has no [get]. *)
Definition fetch_threatfox_iocs (auth_key : string) (a : answer) : res (list feed_row) :=
  if negb (nonempty (strip auth_key)) then Ok []
  else match a with
       | Answer status json _ =>
           if negb (status =? 200) then Ok []
           else match json with
                | None => Raise ValueError
                | Some (PDict body) =>
                    if negb (eq_str (dget body "query_status") "ok") then Ok []
                    else let! entries := iter_of (py_or (dget body "data") (PList [])) in
                         parse_all (fun e => match e with
                                             | PDict d => let! r := parse_threatfox_ioc d in Ok (opt_row r)
                                             | _ => Raise AttributeError
                                             end) entries
                | Some _ => Raise AttributeError
                end
       | _ => Ok []
       end.

(** ** URLhaus *)

Definition _tag_list (raw : pyval) : list string :=
  if negb (truthy raw) then []
  else match raw with
       | PList l => List.filter nonempty (map (fun t => strip (text_of t)) l)
       | PStr s => List.filter nonempty (map strip (split_on "," s))
       | _ => []
       end.

(** The canonical URL and its host; [None] when the entry is dropped. *)
Definition url_and_host (raw_url : string) : res (option (string * string)) :=
  let! n := normalize_ioc "URL" raw_url in
  match n with
  | None => Ok None
  | Some (_, canon_value, _) => let! host := _url_host canon_value in Ok (if nonempty host then Some (canon_value, host) else None)
  end.

Definition parse_urlhaus_entry (entry : list (string * pyval)) : res (option feed_row) :=
  let ref_id := id_text (dget entry "id") in
  let! raw_url := stripped (dget entry "url") in
  if negb (nonempty ref_id) || negb (nonempty raw_url) then Ok None
  else let! n := url_and_host raw_url in
       match n with
       | None => Ok None
       | Some (v, host) =>
           let! threat := strip_of (py_or (py_or (dget entry "threat") (dget entry "threat_type")) (PStr "")) in
           let! first := stripped (dget entry "date_added") in
           Ok (Some (mkRow ref_id "url" v raw_url host (sjoin ", " (_tag_list (dget entry "tags"))) threat "100" first))
       end.

(** The body of the two feeds that check it: the list under [key]. *)
Definition checked_list (key : string) (a : answer) : res (list pyval) :=
  match a with
  | Answer status json _ =>
      if negb (status =? 200) then Raise FeedFetchError
      else match json with
           | Some (PDict body) =>
               if negb (eq_str (dget body "query_status") "ok") then Raise FeedFetchError
               else match dget body key with PList l => Ok l | _ => Raise FeedFetchError end
           | _ => Raise FeedFetchError
           end
  | _ => Raise FeedFetchError
  end.

Definition fetch_urlhaus_iocs (auth_key : string) (a : answer) : res (list feed_row) :=
  if negb (nonempty (strip auth_key)) then Ok []
  else let! urls := checked_list "urls" a in
       parse_all (fun e => match e with PDict d => let! r := parse_urlhaus_entry d in Ok (opt_row r) | _ => Ok [] end) urls.

(** ** PhishTank *)

Definition yes (v : pyval) : res bool := let! s := stripped v in Ok (one_in ["yes"; "y"; "1"; "true"] (lower s)).

Definition parse_phishtank_row (row : list (string * pyval)) : res (option feed_row) :=
  let ref_id := id_text (dget row "phish_id") in
  let! raw_url := stripped (dget row "url") in
  if negb (nonempty ref_id) || negb (nonempty raw_url) then Ok None
  else
    let! verified := yes (dget row "verified") in
    if negb verified then Ok None
    else
      let! online := yes (dget row "online") in
      if negb online then Ok None
      else
        let! n := url_and_host raw_url in
        match n with
        | None => Ok None
        | Some (v, host) =>
            let! target := stripped (dget row "target") in
            let! first := strip_of (py_or (py_or (dget row "verification_time") (dget row "submission_time")) (PStr "")) in
            Ok (Some (mkRow ref_id "url" v raw_url host "" (if nonempty target then "phishing:" +:+ target else "phishing") "100" first))
        end.

(** [csv.DictReader]: the first row names the fields; blank rows are skipped, missing
    fields are [None], surplus ones are not read. *)
Fixpoint dict_row (names : list string) (row : list string) : list (string * pyval) :=
  match names with
  | [] => []
  | n :: t => let v := match row with s :: _ => PStr s | [] => PNone end in (n, v) :: dict_row t (tl row)
  end.

Definition csv_dict (names row : list string) : list (string * pyval) := fold_left (fun d e => dset d (fst e) (snd e)) (dict_row names row) [].

Definition dict_rows (text : string) : res (list (list (string * pyval))) :=
  match csv_rows text with
  | None => Raise CsvError
  | Some [] => Ok []
  | Some (names :: rows) => Ok (map (csv_dict names) (List.filter (fun r => match r with [] => false | _ => true end) rows))
  end.

Definition _parse_phishtank_csv (text : string) : res (list feed_row) :=
  let! rows := dict_rows text in parse_all (fun row => let! r := parse_phishtank_row row in Ok (opt_row r)) rows.

Definition fetch_phishtank_iocs (a : answer) : res (list feed_row) :=
  match a with
  | Answer status _ text => if negb (status =? 200) then Raise FeedFetchError else _parse_phishtank_csv text
  | _ => Raise FeedFetchError
  end.

(** ** MalwareBazaar *)

Definition _HASH_FIELDS : list string := ["md5_hash"; "sha1_hash"; "sha256_hash"].

Definition _canonical_hash (hash_value : string) : res (option string) :=
  let! n := normalize_ioc "HASH" hash_value in Ok (match n with Some (_, v, _) => Some v | None => None end).

Definition only_text (v : pyval) : string := match v with PStr s => s | _ => "" end.

Definition parse_malwarebazaar_entry (entry : pyval) : res (list feed_row) :=
  match entry with
  | PDict d =>
      parse_all (fun field =>
        let raw_hash := only_text (dget d field) in
        if negb (nonempty (strip raw_hash)) then Ok []
        else let! canon := _canonical_hash raw_hash in
             Ok (match canon with
                 | Some c => if nonempty c then [mkRow c "hash" c c "" (only_text (dget d "signature")) (only_text (dget d "file_type")) "100"
                                                   (only_text (dget d "first_seen"))] else []
                 | None => []
                 end)) _HASH_FIELDS
  | _ => Ok []
  end.

Definition fetch_malwarebazaar_iocs (auth_key : string) (a : answer) : res (list feed_row) :=
  if negb (nonempty (strip auth_key)) then Ok []
  else let! data := checked_list "data" a in parse_all parse_malwarebazaar_entry data.

(** ** Feodo *)

Definition strip_quotes (s : string) : string :=
  let q := Ascii.eqb "034" in rstrip_by q (drop_while q s).

(** A cell stripped of spaces and then of quotes. *)
Definition cell (row : list (string * pyval)) (key : string) : res string := let! s := stripped (dget row key) in Ok (strip_quotes s).

Definition parse_feodo_row (row : list (string * pyval)) : res (option feed_row) :=
  let! ip := cell row "dst_ip" in
  if negb (nonempty ip) then Ok None
  else
    let! port := cell row "dst_port" in
    let ref_id := if nonempty port then ip +:+ ":" +:+ port else ip in
    let! malware := cell row "malware" in
    let! status := cell row "c2_status" in
    let! first := cell row "first_seen_utc" in
    Ok (Some (mkRow ref_id "ip" ip ref_id "" malware (if nonempty status then status else "botnet_c2")
                (if String.eqb status "online" then "100" else "80") first)).

(** [str.splitlines] *)
Definition line_break (c : ascii) : bool := in_range 10 13 c || in_range 28 30 c.

Fixpoint splitlines_from (line s : string) : list string :=
  match s with
  | "" => if nonempty line then [line] else []
  | String c t =>
      if line_break c then
        line :: match t with
                | String d t' => if Ascii.eqb c "013" && Ascii.eqb d "010" then splitlines_from "" t' else splitlines_from "" t
                | "" => []
                end
      else splitlines_from (line +:+ String c "") t
  end.
Definition splitlines (s : string) : list string := splitlines_from "" s.

Definition _parse_feodo_csv (text : string) : res (list feed_row) :=
  let lines := List.filter (fun l => nonempty (strip l) && negb (startswith (lstrip l) "#")) (splitlines text) in
  let! rows := dict_rows (sjoin (String "010" "") lines) in
  parse_all (fun row => let! r := parse_feodo_row row in Ok (opt_row r)) rows.

Definition fetch_feodo_iocs (a : answer) : res (list feed_row) :=
  match a with Answer status _ text => if negb (status =? 200) then Ok [] else _parse_feodo_csv text | _ => Ok [] end.

End feeds.

(** ** The mirror table (db/ti_mirror.py) *)

Section mirror.
Context (ioc_value_digest : string -> string).

(** [int(row.get("confidence_level") or 0)] *)
Definition confidence_of (s : string) : res Z := if nonempty s then int_of_str s else Ok 0.

Definition mirrored (source now : string) (r : feed_row) : res mirror_row :=
  let! c := confidence_of (f_confidence r) in
  Ok (mkMirror source (f_id r) (f_type r) (f_value r) (ioc_value_digest (f_value r)) (if nonempty (f_raw r) then f_raw r else f_value r)
        (f_host r) (f_malware r) (f_threat r) c (f_first_seen r) now).

Definition row_key (r : mirror_row) : string * string := (m_source r, m_ref_id r).

(** INSERT ... ON CONFLICT(source, ref_id) DO UPDATE *)
Fixpoint put (new : mirror_row) (table : list mirror_row) : list mirror_row :=
  match table with
  | [] => [new]
  | r :: t => if key_eqb (row_key r) (row_key new) then new :: t else r :: put new t
  end.

Definition upsert_step (source now : string) (acc : res (list mirror_row * Z)) (r : feed_row) : res (list mirror_row * Z) :=
  let! st := acc in
  if nonempty (f_id r) then let! m := mirrored source now r in Ok (put m (fst st), snd st + 1) else Ok st.

(** The table and how many rows were written. *)
Definition upsert_ti_mirror_iocs (source now : string) (rows : list feed_row) (table : list mirror_row) : res (list mirror_row * Z) :=
  fold_left (upsert_step source now) rows (Ok (table, 0)).

(** The retention sweep (db/cache_retention.py). *)
Definition purge_mirror (cutoff : string) (table : list mirror_row) : list mirror_row :=
  List.filter (fun r => negb (String.ltb (m_fetched_at r) cutoff)) table.

(** ** The job *)

(** The part of a source's descriptor the job reads (sources/registry.py). *)
Record sync_settings := mkSettings {
  s_source : string; s_enabled_env : string; s_key_env : string; s_requires_key : bool; s_days_env : option string;
  s_fetch : string -> answer -> res (list feed_row)
}.

Definition _catalog_window_days (env : string -> option string) (desc : sync_settings) : Z :=
  match s_days_env desc with
  | None => 7
  | Some key => match int_of_str (strip (match env key with Some s => s | None => "7" end)) with
                | Ok n => Z.max 1 (Z.min n 7)
                | Raise _ => 7
                end
  end.

Definition threatfox_sync_days (env : string -> option string) : Z :=
  match int_of_str (strip (match env "THREATFOX_SYNC_DAYS" with Some s => s | None => "7" end)) with
  | Ok n => Z.max 1 (Z.min n 7)
  | Raise _ => 7
  end.

Definition sync_disabled (env : string -> option string) (desc : sync_settings) : bool :=
  nonempty (s_enabled_env desc) && negb (one_in ["1"; "true"; "yes"] (strip (match env (s_enabled_env desc) with Some s => s | None => "1" end))).

Definition api_key_of (env : string -> option string) (desc : sync_settings) : string :=
  if nonempty (s_key_env desc) then match env (s_key_env desc) with Some s => s | None => "" end else "".

(** The result of the job and the table it leaves: the rows are committed together. *)
Definition run_catalog_sync (env : string -> option string) (request : string -> string -> Z -> answer) (locked : bool) (now : string)
    (desc : sync_settings) (table : list mirror_row) : res bool * list mirror_row :=
  if sync_disabled env desc then (Ok true, table)
  else if locked then (Ok false, table)
  else
    let api_key := api_key_of env desc in
    if s_requires_key desc && negb (nonempty (strip api_key)) then (Ok true, table)
    else
      let window_days := _catalog_window_days env desc in
      match (let! rows := s_fetch desc api_key (request (s_source desc) api_key window_days) in
             upsert_ti_mirror_iocs (s_source desc) now rows table) with
      | Ok (table, _) => (Ok true, table)
      | Raise e => (Raise e, table)
      end.

End mirror.

(** The descriptors, in the registry's order. *)
Definition catalog_settings (str_of : pyval -> string) : list sync_settings :=
  [mkSettings "threatfox" "THREATFOX_SYNC_ENABLED" "ABUSECH_AUTH_KEY" true (Some "THREATFOX_SYNC_DAYS") (fetch_threatfox_iocs str_of);
   mkSettings "urlhaus" "URLHAUS_SYNC_ENABLED" "ABUSECH_AUTH_KEY" true (Some "URLHAUS_SYNC_DAYS") (fetch_urlhaus_iocs str_of);
   mkSettings "malwarebazaar" "MALWAREBAZAAR_SYNC_ENABLED" "ABUSECH_AUTH_KEY" true (Some "MALWAREBAZAAR_SYNC_DAYS") fetch_malwarebazaar_iocs;
   mkSettings "feodo" "FEODO_SYNC_ENABLED" "" false None (fun _ => fetch_feodo_iocs);
   mkSettings "phishtank" "PHISHTANK_SYNC_ENABLED" "PHISHTANK_APP_KEY" false None (fun _ => fetch_phishtank_iocs str_of)].

(** ** The table *)

Section mirror_facts.
Context (ioc_value_digest : string -> string).
Abbreviation upsert_step := (upsert_step ioc_value_digest).
Abbreviation upsert_ti_mirror_iocs := (upsert_ti_mirror_iocs ioc_value_digest).

Lemma mirror_key_spec a b : key_eqb a b = true <-> a = b.
Proof. destruct a, b. unfold key_eqb. cbn. rewrite andb_true_iff, !String.eqb_eq. split; [by intros [-> ->]|by intros [= -> ->]]. Qed.

(** The row of a key. *)
Definition row_at (table : list mirror_row) (k : string * string) : option mirror_row := List.find (fun r => key_eqb (row_key r) k) table.

Lemma put_at new table k : row_at (put new table) k = if key_eqb (row_key new) k then Some new else row_at table k.
Proof.
  unfold row_at. induction table as [|r t IH]; [done|]. cbn [put]. destruct (key_eqb (row_key r) (row_key new)) eqn:E; cbn [List.find].
  - apply mirror_key_spec in E. rewrite E. by destruct (key_eqb (row_key new) k).
  - destruct (key_eqb (row_key r) k) eqn:K; [|exact IH]. apply mirror_key_spec in K. subst k. destruct (key_eqb (row_key new) (row_key r)) eqn:N; [|done].
    apply mirror_key_spec in N. rewrite <-N in E. by rewrite (proj2 (mirror_key_spec _ _) eq_refl) in E.
Qed.

Lemma put_keys new table : map row_key (put new table) = map row_key table \/
  ~ (row_key new ∈ map row_key table) /\ map row_key (put new table) = (map row_key table ++ [row_key new])%list.
Proof.
  induction table as [|r t IH]; [right; by split; [apply not_elem_of_nil|]|]. cbn [put map]. destruct (key_eqb (row_key r) (row_key new)) eqn:E.
  - apply mirror_key_spec in E. left. cbn. by rewrite E.
  - cbn [map]. destruct IH as [->|[N ->]]; [by left|right]. split; [|done]. apply not_elem_of_cons. split; [|done]. intros X.
    rewrite X in E. by rewrite (proj2 (mirror_key_spec _ _) eq_refl) in E.
Qed.

Lemma put_in new table r : r ∈ put new table -> r = new \/ r ∈ table.
Proof.
  induction table as [|q t IH]; cbn [put]; [rewrite list_elem_of_singleton; auto|]. destruct (key_eqb _ _); rewrite !elem_of_cons; [tauto|].
  intros [->|H]; [auto|]. destruct (IH H); auto.
Qed.

(** An invariant of the table that every written row keeps is kept by the upsert. *)
Lemma upsert_ind (P : list mirror_row -> Prop) source now rows table table' n n' :
  (forall r m t, r ∈ rows -> nonempty (f_id r) = true -> mirrored ioc_value_digest source now r = Ok m -> P t -> P (put m t)) ->
  P table -> fold_left (upsert_step source now) rows (Ok (table, n)) = Ok (table', n') -> P table'.
Proof.
  revert table n. induction rows as [|r rows IH]; intros table n S H E; cbn [fold_left] in E; [apply ok_inj in E; congruence|].
  assert (forall r0 m t, r0 ∈ rows -> nonempty (f_id r0) = true -> mirrored ioc_value_digest source now r0 = Ok m -> P t -> P (put m t)) as S' by (intros; eapply S; eauto using list_elem_of_further).
  unfold upsert_step at 2 in E. cbn [res_bind fst snd] in E. destruct (nonempty (f_id r)) eqn:N; [|by apply (IH table n)].
  destruct (mirrored ioc_value_digest source now r) as [m|e] eqn:M; cbn [res_bind] in E; [|].
  - eapply IH; [exact S'| |exact E]. eapply S; eauto. left.
  - exfalso. revert E. clear. induction rows as [|x rows IH]; [done|]. exact IH.
Qed.

(** What the last row with an identifier became. *)
Definition last_row (source now ref_id : string) (rows : list feed_row) (old : option mirror_row) : option mirror_row :=
  fold_left (fun acc r => if nonempty (f_id r) && String.eqb (f_id r) ref_id then match mirrored ioc_value_digest source now r with Ok m => Some m | Raise _ => acc end else acc) rows old.

Lemma mirrored_key source now r m : mirrored ioc_value_digest source now r = Ok m -> row_key m = (source, f_id r) /\ m_digest m = ioc_value_digest (m_ioc_value m) /\ m_fetched_at m = now.
Proof. unfold mirrored. destruct (confidence_of _); [|done]. cbn [res_bind]. intros E. apply ok_inj in E as <-. done. Qed.

Lemma upsert_rows_at source now rows table table' n n' k :
  fold_left (upsert_step source now) rows (Ok (table, n)) = Ok (table', n') ->
  row_at table' k = if String.eqb (fst k) source then last_row source now (snd k) rows (row_at table k) else row_at table k.
Proof.
  revert table n. induction rows as [|r rows IH]; intros table n E; cbn [fold_left] in E; [apply ok_inj in E; replace table' with table by congruence; by destruct (String.eqb _ _)|].
  unfold upsert_step at 2 in E. cbn [res_bind fst snd] in E. unfold last_row. cbn [fold_left]. destruct (nonempty (f_id r)) eqn:N; [|by apply IH in E].
  destruct (mirrored ioc_value_digest source now r) as [m|e] eqn:M; cbn [res_bind] in E; [|exfalso; revert E; clear; induction rows as [|x rows IH]; [done|exact IH]].
  apply IH in E. rewrite E, put_at. apply mirrored_key in M as (M & _ & _). rewrite M. destruct k as [s i]. cbn [fst snd]. unfold key_eqb. cbn [fst snd].
  rewrite (String.eqb_sym source s). destruct (String.eqb s source); cbn [andb]; done.
Qed.

(** [upsert_is_exact]: after a source's rows are stored, each of its keys holds the last
    row of the answer that names it, and otherwise what was stored; other sources' rows
    are untouched.  Keys stay unique, the order of the old rows stays and every old key is
    still there. *)
Theorem upsert_is_exact source now rows table table' n : upsert_ti_mirror_iocs source now rows table = Ok (table', n) ->
  (forall s ref, row_at table' (s, ref) = if String.eqb s source then last_row source now ref rows (row_at table (s, ref)) else row_at table (s, ref)) /\
  (exists new, map row_key table' = (map row_key table ++ new)%list) /\
  (List.NoDup (map row_key table) -> List.NoDup (map row_key table')).
Proof.
  intros E. split; [intros s ref; by eapply (upsert_rows_at source now rows table table' 0 n (s, ref))|]. split.
  - eapply (upsert_ind (fun t => exists new, map row_key t = (map row_key table ++ new)%list)); [|exists []; by rewrite app_nil_r|exact E].
    intros r m t _ _ _ [new T]. destruct (put_keys m t) as [->|[_ ->]]; [by exists new|]. exists (new ++ [row_key m])%list. by rewrite T, app_assoc.
  - intros D. eapply (upsert_ind (fun t => List.NoDup (map row_key t))); [|exact D|exact E]. intros r m t _ _ _ T. destruct (put_keys m t) as [->|[N ->]]; [done|].
    apply NoDup_ListNoDup, NoDup_app. rewrite NoDup_ListNoDup. split; [done|]. split; [|apply NoDup_singleton]. intros x X Y. apply list_elem_of_singleton in Y as ->. done.
Qed.

(** Every row carries the digest of its value. *)
Definition digests_agree (table : list mirror_row) : Prop := Forall (fun r => m_digest r = ioc_value_digest (m_ioc_value r)) table.

Lemma upsert_digests source now rows table table' n : digests_agree table -> upsert_ti_mirror_iocs source now rows table = Ok (table', n) -> digests_agree table'.
Proof.
  intros D. apply (upsert_ind digests_agree); [|exact D]. intros r m t _ _ M T. apply Forall_forall. intros x X. apply put_in in X as [->|X]; [by apply mirrored_key in M as (_ & M & _)|].
  unfold digests_agree in T. rewrite Forall_forall in T. by apply T.
Qed.

End mirror_facts.

(** ** The job *)

Lemma catalog_window_bounds env desc : 1 <= _catalog_window_days env desc <= 7.
Proof. unfold _catalog_window_days. destruct (s_days_env desc); [|lia]. destruct (int_of_str _); lia. Qed.

(** [sync_all_or_nothing]: a run either stores one whole answer, asked for between one
    and seven days and with the key the source wants, or leaves the mirror as it was; a
    raise leaves it so too.  The digest column agrees with the value before and after. *)
Theorem sync_all_or_nothing digest env request locked now desc table :
  digests_agree digest table ->
  let '(out, table') := run_catalog_sync digest env request locked now desc table in
  digests_agree digest table' /\
  (table' = table \/
   out = Ok true /\ locked = false /\ sync_disabled env desc = false /\
   (s_requires_key desc = true -> nonempty (strip (api_key_of env desc)) = true) /\
   exists days rows n, 1 <= days <= 7 /\
     s_fetch desc (api_key_of env desc) (request (s_source desc) (api_key_of env desc) days) = Ok rows /\
     upsert_ti_mirror_iocs digest (s_source desc) now rows table = Ok (table', n)).
Proof.
  intros D. unfold run_catalog_sync. destruct (sync_disabled env desc); [auto|]. destruct locked; [auto|].
  destruct (s_requires_key desc && negb (nonempty (strip (api_key_of env desc)))) eqn:K; [auto|].
  destruct (s_fetch desc _ _) as [rows|e] eqn:F; cbn [res_bind]; [|auto]. destruct (upsert_ti_mirror_iocs _ _ _ _ _) as [[t n]|e] eqn:U; [|auto].
  split; [by eapply upsert_digests|right]. repeat split; [|exists (_catalog_window_days env desc), rows, n; auto using catalog_window_bounds].
  intros R. rewrite R in K. cbn in K. by destruct (nonempty _).
Qed.

(** A parser that raises on an entry after good ones raises for the whole list. *)
Lemma parse_all_raises {A} (f : A -> res (list feed_row)) l1 a l2 e : (forall x, x ∈ l1 -> exists r, f x = Ok r) -> f a = Raise e -> parse_all f (l1 ++ a :: l2) = Raise e.
Proof.
  intros O R. unfold parse_all. set (step := fun acc a => _). rewrite fold_left_app. cbn [fold_left].
  assert (forall l acc, (forall x, x ∈ l -> exists r, f x = Ok r) -> exists r, fold_left step l (Ok acc) = Ok r) as G.
  { induction l as [|x l IH]; intros acc H; [by eexists|]. cbn [fold_left]. destruct (H x ltac:(left)) as [r E]. unfold step at 2. cbn [res_bind]. rewrite E. cbn [res_bind].
    apply IH. intros y Y. apply H. by right. }
  destruct (G l1 [] O) as [r ->]. unfold step at 2. cbn [res_bind]. rewrite R. cbn [res_bind]. clear. induction l2 as [|x l2 IH]; [done|exact IH].
Qed.

Lemma id_text_str str_of s d : dget d "id" = PStr s -> id_text str_of (dget d "id") = strip s.
Proof. intros ->. by destruct s. Qed.

Lemma urlhaus_open_raises str_of d i rest : dget d "id" = PStr i -> nonempty (strip i) = true -> dget d "url" = PStr (open_bracket +:+ rest) -> plain rest = true ->
  parse_urlhaus_entry str_of d = Raise ValueError.
Proof.
  intros I N U P. unfold parse_urlhaus_entry. rewrite (id_text_str _ i _ I), N, U. unfold stripped.
  assert (strip (open_bracket +:+ rest) = open_bracket +:+ rest) as S.
  { apply strip_id. rewrite sforall_app. apply andb_true_intro. split; [done|]. eapply sforall_weaken; [|exact P]. intros c C. by apply plain_char_facts in C as [-> _]. }
  change (py_or (PStr (open_bracket +:+ rest)) (PStr "")) with (PStr (open_bracket +:+ rest)). cbn [strip_of res_bind]. rewrite S. cbn [negb orb nonempty].
  change (nonempty (open_bracket +:+ rest)) with true. cbn [negb orb]. unfold url_and_host. by rewrite (open_raises "URL" rest eq_refl P).
Qed.

(** [one_url_stops_urlhaus]: an entry of the URLhaus answer whose host is an unpaired
    bracket makes the job raise: none of the answer's rows is stored, so the feed stays
    as old as it was for as long as that entry is listed. *)
Theorem one_url_stops_urlhaus str_of digest env request now l1 d l2 i rest text table :
  let desc := nth 1 (catalog_settings str_of) (mkSettings "" "" "" false None (fun _ _ => Ok [])) in
  sync_disabled env desc = false -> nonempty (strip (api_key_of env desc)) = true ->
  (forall x, x ∈ l1 -> exists fields r, x = PDict fields /\ parse_urlhaus_entry str_of fields = Ok r) ->
  dget d "id" = PStr i -> nonempty (strip i) = true -> dget d "url" = PStr (open_bracket +:+ rest) -> plain rest = true ->
  request "urlhaus" (api_key_of env desc) (_catalog_window_days env desc) =
    Answer 200 (Some (PDict [("query_status", PStr "ok"); ("urls", PList (l1 ++ PDict d :: l2))])) text ->
  run_catalog_sync digest env request false now desc table = (Raise ValueError, table).
Proof.
  cbv zeta. set (desc := nth 1 _ _). intros Dis Key O I N U P R. unfold run_catalog_sync. rewrite Dis, Key. cbn [negb]. rewrite andb_false_r.
  change (s_source desc) with "urlhaus". change (s_fetch desc) with (fetch_urlhaus_iocs str_of). rewrite R. unfold fetch_urlhaus_iocs. rewrite Key. cbn [negb].
  unfold checked_list. cbn [Z.eqb Pos.eqb negb]. change (eq_str _ "ok") with true. cbn [negb]. change (dget _ "urls") with (PList (l1 ++ PDict d :: l2)). cbn [res_bind].
  erewrite parse_all_raises; [done| |cbn; by erewrite urlhaus_open_raises]. intros x X. destruct (O x X) as (f & r & -> & ->). cbn [res_bind]. eauto.
Qed.

(** ** Examples *)

Definition no_str (v : pyval) : string := "".
Definition hash_id (s : string) : string := s.
Definition key_env (k : string) : option string := if String.eqb k "ABUSECH_AUTH_KEY" then Some "key" else None.

Definition url_entry (i url : string) : pyval := PDict [("id", PStr i); ("url", PStr url); ("threat", PStr "malware_download")].
Definition urlhaus_answer (urls : list pyval) : answer := Answer 200 (Some (PDict [("query_status", PStr "ok"); ("urls", PList urls)])) "".

Example urlhaus_parsed : fetch_urlhaus_iocs no_str "key" (urlhaus_answer [url_entry "7" "hxxp://EVIL.example/a"; PNone; url_entry "" "http://x.example"]) =
  Ok [mkRow "7" "url" "http://evil.example/a" "hxxp://EVIL.example/a" "evil.example" "" "malware_download" "100" ""].
Proof. by vm_compute. Qed.

Example threatfox_drops_open_bracket : parse_threatfox_ioc no_str [("id", PStr "1"); ("ioc", PStr "http://[evil"); ("ioc_type", PStr "url")] = Ok None.
Proof. by vm_compute. Qed.

Example feodo_parsed : fetch_feodo_iocs (Answer 200 None ("# comment" +:+ String "010" "first_seen_utc,dst_ip,dst_port,c2_status,malware" +:+ String "013" (String "010" "") +:+
    "2026-01-01 00:00:00,192.0.2.1,443,online,Emotet" +:+ String "010" "")) =
  Ok [mkRow "192.0.2.1:443" "ip" "192.0.2.1" "192.0.2.1:443" "" "Emotet" "online" "100" "2026-01-01 00:00:00"].
Proof. by vm_compute. Qed.

Definition stored_rows : list feed_row :=
  [mkRow "1" "url" "http://a.example" "" "a.example" "" "" "100" ""; mkRow "" "url" "x" "" "" "" "" "" ""; mkRow "1" "url" "http://b.example" "" "b.example" "" "" "50" ""].

Lemma upsert_is_exact_witness : match upsert_ti_mirror_iocs hash_id "urlhaus" "2026-02-01" stored_rows [] with
  | Ok (table', n) => n = 2 /\ option_map m_ioc_value (row_at table' ("urlhaus", "1")) = Some "http://b.example" /\ List.NoDup (map row_key table')
  | Raise _ => False
  end.
Proof.
  destruct (upsert_ti_mirror_iocs hash_id "urlhaus" "2026-02-01" stored_rows []) as [[t n]|e] eqn:E; [|by vm_compute in E].
  destruct (upsert_is_exact hash_id "urlhaus" "2026-02-01" stored_rows [] t n E) as (A & _ & D). rewrite A.
  split; [|split; [by vm_compute|apply D; constructor]]. clear A D. vm_compute in E. apply ok_inj in E. congruence.
Defined.

Lemma sync_all_or_nothing_witness :
  let '(out, table') := run_catalog_sync hash_id key_env (fun _ _ _ => urlhaus_answer [url_entry "7" "http://evil.example/a"]) false "2026-02-01" (nth 1 (catalog_settings no_str) (mkSettings "" "" "" false None (fun _ _ => Ok []))) [] in
  out = Ok true /\ length table' = 1%nat /\ digests_agree hash_id table'.
Proof.
  pose proof (sync_all_or_nothing hash_id key_env (fun _ _ _ => urlhaus_answer [url_entry "7" "http://evil.example/a"]) false "2026-02-01"
    (nth 1 (catalog_settings no_str) (mkSettings "" "" "" false None (fun _ _ => Ok []))) [] (List.Forall_nil _)) as H.
  destruct (run_catalog_sync _ _ _ _ _ _ _) as [out t] eqn:E. destruct H as [D _]. split; [|split; [|exact D]]; clear D; vm_compute in E; by injection E as <- <-.
Defined.

Lemma one_url_stops_urlhaus_witness : run_catalog_sync hash_id key_env (fun _ _ _ => urlhaus_answer [url_entry "7" "http://evil.example/a"; url_entry "8" "http://[evil"]) false "2026-02-01"
  (nth 1 (catalog_settings no_str) (mkSettings "" "" "" false None (fun _ _ => Ok []))) [] = (Raise ValueError, []).
Proof.
  apply (one_url_stops_urlhaus no_str hash_id key_env _ "2026-02-01" [url_entry "7" "http://evil.example/a"] [("id", PStr "8"); ("url", PStr "http://[evil"); ("threat", PStr "malware_download")] [] "8" "evil" "" []);
    [by vm_compute|by vm_compute| |done|done|done|by vm_compute|done].
  intros x X. apply list_elem_of_singleton in X as ->. eexists _, _. split; [reflexivity|]. by vm_compute.
Defined.
