(* ===== verification/Backfill.v ===== *)
(** * Backfill: the stack backfill (db/stack_backfill.py, services/stack_backfill_worker.py)

    A run fetches, page by page, the records that name a product of a user's stack.
    The two tables and the corpus are a [store]; a worker is the phase its coroutine is
    in between two commits, and a [world] has any number of workers on one store, so the
    theorems hold under every interleaving of committed transactions.  Times are
    microseconds.  A page's records are their identifiers ([""] for a record without one);
    the enrichment that follows a run only leaves the identifiers it asked for. *)

From S2P Require Import Prelude PyStr DecText Float64 PyVal Ioc Campaigns.
From Stdlib Require Import QArith.
From stdpp Require Import gmap strings.
Open Scope string_scope.
Open Scope Z_scope.

Definition DEFAULT_MAX_PRODUCTS : Z := 10.
Definition DEFAULT_MAX_CVES : Z := 5000.
Definition DEFAULT_MAX_RUNTIME : Z := 3600.
Definition COVERAGE_MIN_PER_PRODUCT : Z := 3.
Definition EST_CVES_PER_PRODUCT : Z := 400.
Definition NVD_PAGE_SIZE : Z := 2000.
Definition RESULTS_PER_PAGE : Z := 2000.

(** ** The stack of a user *)

Record product := mkProduct { product_key : string; vendor : string; product_name : string; version : string; category : string }.

(** [_add]: blank products and keys already seen are skipped. *)
Definition add_product (out : list product) (vendor name version category : string) : list product :=
  let name := strip name in
  if negb (nonempty name) then out
  else
    let vendor := strip vendor in
    let key := lower vendor +:+ "::" +:+ lower name in
    if existsb (fun p => String.eqb (product_key p) key) out then out
    else (out ++ [mkProduct key vendor name (strip version) category])%list.

(** A value that reaches [strip] as [v or ""]. *)
Definition text_or_empty (v : pyval) : res string := match py_or v (PStr "") with PStr s => Ok s | _ => Raise AttributeError end.

(** The product is stripped first, the vendor and the version only if it is not blank. *)
Definition add_row (out : list product) (vendor name version : pyval) (category : string) : res (list product) :=
  let! p := text_or_empty name in
  if negb (nonempty (strip p)) then Ok out
  else let! v := text_or_empty vendor in
       if existsb (fun q => String.eqb (product_key q) (lower (strip v) +:+ "::" +:+ lower (strip p))) out then Ok out
       else let! ver := text_or_empty version in Ok (add_product out v p ver category).

Definition dict_row (out : list product) (category : string) (name_of : list (string * pyval) -> pyval) (row : pyval) : res (list product) :=
  match row with PDict d => add_row out (dget d "vendor") (name_of d) (dget d "version") category | _ => Ok out end.

Definition products_from_profile (profile : option (list (string * pyval))) (stack_terms : string) : res (list product) :=
  let! out := match profile with
              | None => Ok []
              | Some d =>
                  let! oses := iter_of (py_or (dget d "operatingSystems") (PList [])) in
                  let! out := fold_res (fun out row => dict_row out "os" (fun r => dget r "product") row) oses [] in
                  let! apps := iter_of (py_or (dget d "applications") (PList [])) in
                  fold_res (fun out row => dict_row out "app" (fun r => py_or (dget r "cpeProduct") (dget r "product")) row) apps out
              end in
  Ok (fold_left (fun out term => let term := strip term in if nonempty term then add_product out "" term "" "app" else out)
        (split_on "," stack_terms) out).

(** The columns of a record the coverage query reads; [None] for NULL. *)
Record cve_text := mkText { affected_products : option string; cve_description : option string }.

Definition column_like (pattern : string) (c : option string) : bool := match c with Some s => like pattern (lower s) | None => false end.

(** The hits of a product, counted up to the threshold, and whether they fall short of it. *)
Definition corpus_hits (cves : list cve_text) (p : product) : Z * bool :=
  let needle := lower (strip (product_name p)) in
  if slen needle <? 2 then (0, true)
  else
    let pattern := "%" +:+ needle +:+ "%" in
    let hit := fun r => column_like pattern (affected_products r) || column_like pattern (cve_description r) in
    let n := Z.of_nat (length (firstn (Z.to_nat COVERAGE_MIN_PER_PRODUCT) (List.filter hit cves))) in
    (n, n <? COVERAGE_MIN_PER_PRODUCT).

Definition count_corpus_hits (cves : list cve_text) (products : list product) : list (product * (Z * bool)) := map (fun p => (p, corpus_hits cves p)) products.

(** ** Estimates *)

Section env.
Context (env : string -> option string).

Definition env_get (key default : string) : string := match env key with Some s => s | None => default end.

Definition stack_backfill_enabled : bool := one_in ["1"; "true"; "yes"; "on"] (lower (strip (env_get "STACK_BACKFILL_ENABLED" "0"))).

Definition _paced_seconds (key : string) : res fl := if nonempty key then fdiv (lit (60 # 1)) (lit (50 # 1)) else fdiv (lit (60 # 1)) (lit (5 # 1)).

Definition int_times (f : fl) (q : Q) (rest : list fl) : res Z := int_of_fl (fold_left fadd rest (fmul f (lit q))).

(** The two bounds of the preflight estimate. *)
Definition estimate_eta (products : list product) : res (Z * Z) :=
  let n := Z.max 0 (Z.of_nat (length products)) in
  let per_product := Z.max 1 ((EST_CVES_PER_PRODUCT + NVD_PAGE_SIZE - 1) / NVD_PAGE_SIZE) in
  let! paced := _paced_seconds (strip (env_get "NVD_API_KEY" "")) in
  let! calls := fl_of_int (n * per_product) in
  let nvd_eta := fmul calls paced in
  let! low := int_times nvd_eta (7 # 10) [lit (30 # 1); lit (15 # 1)] in
  let! high := int_times nvd_eta (14 # 10) [lit (30 # 1); lit (15 # 1)] in
  Ok (low, high).

(** What is left after a page. *)
Definition page_eta (pages : Z) : res (Z * Z) :=
  let! paced := _paced_seconds (env_get "NVD_API_KEY" "") in
  let! n := fl_of_int pages in
  let! left := int_of_fl (fadd (fmul n paced) (lit (45 # 1))) in
  let! left := fl_of_int left in
  let! low := int_times left (7 # 10) [] in
  let! high := int_times left (13 # 10) [] in
  Ok (Z.max 0 low, high).

Definition _stale_running_seconds : Z := match int_of_str (env_get "STACK_BACKFILL_STALE_SECONDS" "900") with Ok n => Z.max 60 n | Raise _ => 900 end.

End env.

(** ** The tables *)

Record run := mkRun {
  user_id : Z; status : string; products : list product; max_products : Z; max_cves : Z; max_runtime_seconds : Z;
  eta_low_seconds : Z; eta_high_seconds : Z; cves_upserted : Z; pages_done : Z; pages_total : Z;
  progress_message : string; error_message : option string; updated_at : option Z; completed_at : option Z
}.

Record checkpoint := mkCheckpoint {
  cp_run : Z; cp_key : string; cp_vendor : string; cp_product : string; cp_version : string; cp_status : string;
  start_index : Z; total_results : Z; cp_upserted : Z; last_error : option string; cp_updated_at : Z
}.

(** Checkpoints are in the order of their identifiers. *)
Record store := mkStore { runs : gmap Z run; next_run : Z; checkpoints : list checkpoint; corpus : list string; epss_asked : list string }.

Definition set_runs (rs : gmap Z run) (st : store) : store := mkStore rs (next_run st) (checkpoints st) (corpus st) (epss_asked st).
Definition set_checkpoints (cps : list checkpoint) (st : store) : store := mkStore (runs st) (next_run st) cps (corpus st) (epss_asked st).

(** The conditional insert: the conflicting row keeps its product and gets the rest. *)
Fixpoint put_checkpoint (new : checkpoint) (cps : list checkpoint) : list checkpoint :=
  match cps with
  | [] => [new]
  | c :: t =>
      if (cp_run c =? cp_run new) && String.eqb (cp_key c) (cp_key new) then
        mkCheckpoint (cp_run c) (cp_key c) (cp_vendor c) (cp_product c) (cp_version c) (cp_status new) (start_index new) (total_results new)
          (cp_upserted new) (last_error new) (cp_updated_at new) :: t
      else c :: put_checkpoint new t
  end.

Definition upsert_checkpoint (c : checkpoint) (st : store) : store := set_checkpoints (put_checkpoint c (checkpoints st)) st.

(** An UPDATE of one run: [updated_at] is always set. *)
Definition touch (now : Z) (r : run) : run :=
  mkRun (user_id r) (status r) (products r) (max_products r) (max_cves r) (max_runtime_seconds r) (eta_low_seconds r) (eta_high_seconds r)
    (cves_upserted r) (pages_done r) (pages_total r) (progress_message r) (error_message r) (Some now) (completed_at r).
Definition update_run (now id : Z) (fields : run -> run) (st : store) : store := set_runs (alter (fun r => touch now (fields r)) id (runs st)) st.

Definition with_status (s : string) (r : run) : run :=
  mkRun (user_id r) s (products r) (max_products r) (max_cves r) (max_runtime_seconds r) (eta_low_seconds r) (eta_high_seconds r)
    (cves_upserted r) (pages_done r) (pages_total r) (progress_message r) (error_message r) (updated_at r) (completed_at r).
Definition with_message (m : string) (r : run) : run :=
  mkRun (user_id r) (status r) (products r) (max_products r) (max_cves r) (max_runtime_seconds r) (eta_low_seconds r) (eta_high_seconds r)
    (cves_upserted r) (pages_done r) (pages_total r) m (error_message r) (updated_at r) (completed_at r).
Definition with_cves (n : Z) (r : run) : run :=
  mkRun (user_id r) (status r) (products r) (max_products r) (max_cves r) (max_runtime_seconds r) (eta_low_seconds r) (eta_high_seconds r)
    n (pages_done r) (pages_total r) (progress_message r) (error_message r) (updated_at r) (completed_at r).
Definition with_pages (n : Z) (r : run) : run :=
  mkRun (user_id r) (status r) (products r) (max_products r) (max_cves r) (max_runtime_seconds r) (eta_low_seconds r) (eta_high_seconds r)
    (cves_upserted r) n (pages_total r) (progress_message r) (error_message r) (updated_at r) (completed_at r).
Definition with_eta (eta : Z * Z) (r : run) : run :=
  mkRun (user_id r) (status r) (products r) (max_products r) (max_cves r) (max_runtime_seconds r) (fst eta) (snd eta)
    (cves_upserted r) (pages_done r) (pages_total r) (progress_message r) (error_message r) (updated_at r) (completed_at r).
Definition with_error (m : string) (r : run) : run :=
  mkRun (user_id r) (status r) (products r) (max_products r) (max_cves r) (max_runtime_seconds r) (eta_low_seconds r) (eta_high_seconds r)
    (cves_upserted r) (pages_done r) (pages_total r) (progress_message r) (Some m) (updated_at r) (completed_at r).
Definition with_completed (now : Z) (r : run) : run :=
  mkRun (user_id r) (status r) (products r) (max_products r) (max_cves r) (max_runtime_seconds r) (eta_low_seconds r) (eta_high_seconds r)
    (cves_upserted r) (pages_done r) (pages_total r) (progress_message r) (error_message r) (updated_at r) (Some now).

(** A checkpoint as the creation of a run and a worker write it. *)
Definition fresh_checkpoint (now id : Z) (p : product) : checkpoint :=
  mkCheckpoint id (product_key p) (vendor p) (product_name p) (version p) "pending" 0 0 0 None now.
Definition rewrite_checkpoint (now id : Z) (c : checkpoint) (status : string) (start total upserted : Z) (error : option string) : checkpoint :=
  mkCheckpoint id (cp_key c) (cp_vendor c) (cp_product c) (cp_version c) status start total upserted error now.

Definition create_run (env : string -> option string) (now user : Z) (ps : list product) (eta : Z * Z) (st : store) : res (Z * store) :=
  let! max_p := int_of_str (env_get env "STACK_BACKFILL_MAX_PRODUCTS" (str_of_Z DEFAULT_MAX_PRODUCTS)) in
  let! max_c := int_of_str (env_get env "STACK_BACKFILL_MAX_CVES" (str_of_Z DEFAULT_MAX_CVES)) in
  let! max_r := int_of_str (env_get env "STACK_BACKFILL_MAX_RUNTIME_SECONDS" (str_of_Z DEFAULT_MAX_RUNTIME)) in
  let capped := firstn (Z.to_nat (Z.max 1 max_p)) ps in
  let id := next_run st in
  let r := mkRun user "pending" capped max_p max_c max_r (fst eta) (snd eta) 0 0 (Z.of_nat (length capped)) "Queued Tier A backfill…" None (Some now) None in
  let st := mkStore (<[id := r]> (runs st)) (id + 1) (checkpoints st) (corpus st) (epss_asked st) in
  Ok (id, fold_left (fun st p => upsert_checkpoint (fresh_checkpoint now id p) st) capped st).

Definition terminal (s : string) : bool := one_in ["completed"; "partial"; "failed"] s.

Definition claimable (stale now : Z) (r : run) : bool :=
  negb (terminal (status r)) &&
  (negb (String.eqb (status r) "running") || match updated_at r with None => true | Some t => t <? now - stale end).

(** The conditional UPDATE and whether it changed a row. *)
Definition claim_run_running (env : string -> option string) (now id : Z) (st : store) : store * bool :=
  match runs st !! id with
  | Some r => if claimable (_stale_running_seconds env * 1000000) now r then (update_run now id (with_status "running") st, true) else (st, false)
  | None => (st, false)
  end.

Definition open_statuses : list string := ["pending"; "running"; "deferred"; "on_hold"].
Definition open_checkpoint (id : Z) (c : checkpoint) : bool := (cp_run c =? id) && one_in open_statuses (cp_status c).
Definition next_pending_checkpoint (id : Z) (st : store) : option checkpoint := List.find (open_checkpoint id) (checkpoints st).
Definition list_checkpoints (id : Z) (st : store) : list checkpoint := List.filter (fun c => cp_run c =? id) (checkpoints st).

(** ** One worker (services/stack_backfill_worker.py) *)

Record locals := mkLocals { l_run : Z; l_started : Z; l_max_cves : Z; l_max_runtime : Z; l_cves : Z; l_pages : Z; l_new : list string }.

Inductive ending :=
| NotFound
| WasFinal (status : string)
| AlreadyRunning
| Partial (reason : string)
| DeferredEnd (resume_scheduled : bool)
| OnHold
| CompletedEnd (cves : Z)
| FailedEnd (error : string)
| Crashed.

(** Where a coroutine waits: each stretch from one phase to the next ends in a commit. *)
Inductive phase :=
| Start (id : Z)
| Claiming (id started : Z) (snapshot : run)
| Looping (l : locals)
| Fetching (l : locals) (cp : checkpoint)
| Deferring (l : locals)
| Enriching (l : locals)
| Ended (e : ending).

(** What a stretch meets: a page with its total and error class, the result of booking a
    resume, or an exception; [Boom] also says which records a failing page had stored. *)
Inductive input :=
| Tick
| Page (ids : list string) (total : Z) (err : option string)
| Booked (resume_scheduled : bool)
| Boom (stored : list string) (message : string).

(** The wall clock, the monotonic clock, and the input. *)
Record event := mkEvent { e_now : Z; e_mono : Z; e_input : input }.

Section worker.
Context (env : string -> option string).

Definition or_default (n default : Z) : Z := if n =? 0 then default else n.

Definition begin_locals (id started : Z) (r : run) : locals :=
  mkLocals id started (or_default (max_cves r) 5000) (or_default (max_runtime_seconds r) 3600) (cves_upserted r) (pages_done r) [].

(** [except Exception]: the run fails, unless that write raises too. *)
Definition fail_run (now id : Z) (message : string) (st : store) : store :=
  update_run now id (fun r => with_message "Tier A failed — see error." (with_error (stake 500 message) (with_status "failed" r))) st.

Definition start_step (id now mono : Z) (st : store) : phase * store :=
  match runs st !! id with
  | None => (Ended NotFound, st)
  | Some r => if terminal (status r) then (Ended (WasFinal (status r)), st) else (Claiming id mono r, st)
  end.

Definition claim_step (id started : Z) (snapshot : run) (now : Z) (st : store) : phase * store :=
  let '(st, won) := claim_run_running env now id st in
  if won then (Looping (begin_locals id started snapshot), update_run now id (with_message "Starting Tier A…") st)
  else (Ended AlreadyRunning, st).

Definition complete (l : locals) (now : Z) (st : store) : phase * store :=
  (Ended (CompletedEnd (l_cves l)),
   update_run now (l_run l) (fun r => with_completed now (with_pages (l_pages l) (with_cves (l_cves l)
     (with_message ("Tier A complete — " +:+ str_of_Z (l_cves l) +:+ " CVEs. Deep intel (OTX/exploits/correlation) continues on background jobs.")
        (with_status "completed" r))))) st).

(** The head of the loop, and what follows it when no checkpoint is left. *)
Definition loop_step (l : locals) (now mono : Z) (st : store) : phase * store :=
  let id := l_run l in
  if l_max_runtime l * 1000000 <? mono - l_started l then
    (Ended (Partial "max_runtime"), update_run now id (fun r => with_message "Paused — max runtime reached. Resume later." (with_status "partial" r)) st)
  else if l_max_cves l <=? l_cves l then
    (Ended (Partial "max_cves"),
     update_run now id (fun r => with_cves (l_cves l) (with_message "Paused — max CVE cap reached. Continue later." (with_status "partial" r))) st)
  else
    match next_pending_checkpoint id st with
    | None => if nonempty_list (l_new l) then (Enriching l, update_run now id (with_message "Applying EPSS + KEV flags…") st) else complete l now st
    | Some cp =>
        let st := upsert_checkpoint (rewrite_checkpoint now id cp "running" (start_index cp) (total_results cp) (cp_upserted cp) None) st in
        (Fetching l cp, update_run now id (with_message ("Fetching NVD pages for " +:+ cp_product cp +:+ " (start=" +:+ str_of_Z (start_index cp) +:+ ")…")) st)
    end.

Definition add_ids (ids : list string) (st : store) : store :=
  mkStore (runs st) (next_run st) (checkpoints st) (corpus st ++ ids) (epss_asked st).

(** A page that came: its records, the checkpoint, and the estimate of what is left. *)
Definition store_page (l : locals) (cp : checkpoint) (cves : list string) (total now : Z) (st : store) : phase * store :=
  let id := l_run l in
  let ids := List.filter nonempty cves in
  let n := Z.of_nat (length ids) in
  let l' := mkLocals id (l_started l) (l_max_cves l) (l_max_runtime l) (l_cves l + n) (l_pages l + 1) (l_new l ++ ids) in
  let next_index := start_index cp + RESULTS_PER_PAGE in
  let done_product := (total <=? next_index) || negb (nonempty_list cves) in
  let st := upsert_checkpoint (rewrite_checkpoint now id cp (if done_product then "done" else "pending") (if done_product then 0 else next_index)
                                 total (cp_upserted cp + n) None) (add_ids ids st) in
  let remaining_pages := Z.max 0 ((total - next_index + RESULTS_PER_PAGE - 1) / RESULTS_PER_PAGE) in
  let pending_products := Z.of_nat (length (List.filter (fun c => one_in open_statuses (cp_status c)) (list_checkpoints id st))) in
  match page_eta env (remaining_pages + pending_products) with
  | Raise _ => (Ended (FailedEnd "eta"), fail_run now id "eta" st)
  | Ok eta =>
      (Looping l',
       update_run now id (fun r => with_message ("Upserted " +:+ str_of_Z n +:+ " CVEs for " +:+ cp_product cp +:+ " (" +:+ str_of_Z (l_cves l') +:+ " total).")
         (with_eta eta (with_pages (l_pages l') (with_cves (l_cves l') r)))) st)
  end.

Definition err_is (err : option string) (s : string) : bool := match err with Some e => String.eqb e s | None => false end.

Definition page_step (l : locals) (cp : checkpoint) (cves : list string) (total : Z) (err : option string) (now : Z) (st : store) : phase * store :=
  let id := l_run l in
  if err_is err "rate_limited" then
    let st := upsert_checkpoint (rewrite_checkpoint now id cp "deferred" (start_index cp) (total_results cp) (cp_upserted cp) (Some "rate_limited")) st in
    (Deferring l, update_run now id (fun r => with_message "Rate limited — scheduling durable resume." (with_status "deferred" r)) st)
  else if err_is err "http_5xx" || err_is err "error" then
    let st := upsert_checkpoint (rewrite_checkpoint now id cp "on_hold" (start_index cp) (total_results cp) (cp_upserted cp) err) st in
    let name := match err with Some e => e | None => "" end in
    (Ended OnHold, update_run now id (fun r => with_message ("NVD " +:+ name +:+ " for " +:+ cp_product cp +:+ " — on hold.") (with_status "on_hold" r)) st)
  else if err_is err "not_found" || (total =? 0) && (start_index cp =? 0) then
    let st := upsert_checkpoint (rewrite_checkpoint now id cp "not_found" 0 0 0 (Some "not_found")) st in
    let l' := mkLocals id (l_started l) (l_max_cves l) (l_max_runtime l) (l_cves l) (l_pages l + 1) (l_new l) in
    (Looping l', update_run now id (with_pages (l_pages l')) st)
  else store_page l cp cves total now st.

Definition phase_run (p : phase) : option Z :=
  match p with
  | Start id | Claiming id _ _ => Some id
  | Looping l | Fetching l _ | Deferring l | Enriching l => Some (l_run l)
  | Ended _ => None
  end.

Definition ask_epss (ids : list string) (st : store) : store :=
  mkStore (runs st) (next_run st) (checkpoints st) (corpus st) (epss_asked st ++ ids).

(** One stretch of [_process]; an input that does not belong to the phase changes nothing. *)
Definition worker_step (ev : event) (p : phase) (st : store) : phase * store :=
  let now := e_now ev in
  match p, e_input ev with
  | Ended _, _ => (p, st)
  | _, Boom stored message =>
      match phase_run p with
      | Some id => (Ended (FailedEnd (stake 200 message)), fail_run now id message (match p with Fetching _ _ => add_ids stored st | _ => st end))
      | None => (p, st)
      end
  | Start id, Tick => start_step id now (e_mono ev) st
  | Claiming id started snapshot, Tick => claim_step id started snapshot now st
  | Looping l, Tick => loop_step l now (e_mono ev) st
  | Fetching l cp, Page cves total err => page_step l cp cves total err now st
  | Deferring l, Booked scheduled =>
      (Ended (DeferredEnd scheduled),
       update_run now (l_run l) (with_message (if scheduled then "Rate limited — durable resume queued." else "Rate limited — resume manually when ready.")) st)
  | Enriching l, Tick => complete l now (ask_epss (sorted_distinct (l_new l)) st)
  | _, _ => (p, st)
  end.

(** ** Many workers *)

(** [takeovers]: the runs claimed although they were running, one entry for each claim. *)
Record world := mkWorld { w_store : store; workers : list phase; takeovers : list Z }.

Inductive action :=
| Agree (now user : Z) (ps : list product) (eta : Z * Z)
| Kick (id : Z)
| Move (i : nat) (ev : event)
| Crash (i : nat).

(** The run a stretch takes over from a worker that may still be alive. *)
Definition takes_over (ev : event) (p : phase) (st : store) : list Z :=
  match p, e_input ev with
  | Claiming id _ _, Tick =>
      match runs st !! id with
      | Some r => if snd (claim_run_running env (e_now ev) id st) && String.eqb (status r) "running" then [id] else []
      | None => []
      end
  | _, _ => []
  end.

Definition act (w : world) (a : action) : world :=
  match a with
  | Agree now user ps eta =>
      match create_run env now user ps eta (w_store w) with
      | Ok (id, st) => mkWorld st (workers w ++ [Start id]) (takeovers w)
      | Raise _ => w
      end
  | Kick id => mkWorld (w_store w) (workers w ++ [Start id]) (takeovers w)
  | Move i ev =>
      match workers w !! i with
      | Some p => let '(p', st) := worker_step ev p (w_store w) in mkWorld st (<[i := p']> (workers w)) (takes_over ev p (w_store w) ++ takeovers w)
      | None => w
      end
  | Crash i => mkWorld (w_store w) (<[i := Ended Crashed]> (workers w)) (takeovers w)
  end.

Definition history (w : world) (l : list action) : world := fold_left act l w.
Definition empty_world : world := mkWorld (mkStore ∅ 1 [] [] []) [] [].

End worker.

(** The resume route: [Resumed] starts a worker. *)
Inductive reply := Forbidden | Missing | Already (status : string) | Resumed.

Definition stack_backfill_resume (env : string -> option string) (id user : Z) (st : store) : reply :=
  if negb (stack_backfill_enabled env) then Forbidden
  else match runs st !! id with
       | Some r => if negb (user_id r =? user) then Missing else if String.eqb (status r) "completed" then Already (status r) else Resumed
       | None => Missing
       end.

(** ** How many workers advance a run *)

Definition active (id : Z) (p : phase) : bool :=
  match p with Looping l | Fetching l _ | Enriching l => l_run l =? id | _ => false end.

Definition active_count (id : Z) (w : world) : nat := length (List.filter (active id) (workers w)).
Definition takeover_count (id : Z) (w : world) : nat := length (List.filter (Z.eqb id) (takeovers w)).

Definition status_at (st : store) (id : Z) : option string := option_map status (runs st !! id).

Definition b2n (b : bool) : nat := if b then 1 else 0.

Lemma filter_insert_count {A} (f : A -> bool) (l : list A) i a a' : l !! i = Some a ->
  (length (List.filter f (<[i := a']> l)) + b2n (f a) = length (List.filter f l) + b2n (f a'))%nat.
Proof.
  revert i. induction l as [|x l IH]; intros i H; [done|]. destruct i as [|i].
  - injection H as ->. change (<[0%nat:=a']> (a :: l)) with (a' :: l). cbn [List.filter]. destruct (f a), (f a'); cbn [length b2n]; lia.
  - specialize (IH i H). change (<[S i:=a']> (x :: l)) with (x :: <[i:=a']> l). cbn [List.filter]. destruct (f x); cbn [length]; lia.
Qed.

Lemma status_update now id f st id' : status_at (update_run now id f st) id' =
  if decide (id = id') then option_map (fun r => status (f r)) (runs st !! id') else status_at st id'.
Proof.
  unfold status_at, update_run. cbn [runs set_runs]. case_decide as D.
  - subst id'. rewrite lookup_alter_eq. by destruct (runs st !! id).
  - by rewrite lookup_alter_ne.
Qed.

Lemma status_update_same now id f st id' : (forall r, status (f r) = status r) -> status_at (update_run now id f st) id' = status_at st id'.
Proof. intros S. rewrite status_update. case_decide; [|done]. subst. unfold status_at. destruct (runs st !! id'); cbn; [by rewrite S|done]. Qed.

Lemma next_update now id f st : next_run (update_run now id f st) = next_run st.
Proof. done. Qed.

(** What one stretch does to the status of a run and to the worker's hold on it. *)
Inductive effect (id : Z) (p p' : phase) (st st' : store) (tk : list Z) : Prop :=
| Keeps : status_at st' id = status_at st id -> (active id p' = true -> active id p = true) -> effect id p p' st st' tk
| Claims s : active id p = false -> status_at st id = Some s -> terminal s = false -> (s <> "running" \/ In id tk) ->
    status_at st' id = Some "running" -> effect id p p' st st' tk
| Leaves s : status_at st id <> None -> active id p = true -> active id p' = false -> status_at st' id = Some s -> effect id p p' st st' tk
| Fails : status_at st id <> None -> active id p' = false -> status_at st' id = Some "failed" -> effect id p p' st st' tk.

Lemma status_upsert c st id : status_at (upsert_checkpoint c st) id = status_at st id.
Proof. done. Qed.

Lemma status_add ids st id : status_at (add_ids ids st) id = status_at st id.
Proof. done. Qed.

Lemma status_ask ids st id : status_at (ask_epss ids st) id = status_at st id.
Proof. done. Qed.

(** A stretch of the worker of [k] that writes only to [k]'s row. *)
Lemma effect_other id k p p' st st' tk : id <> k -> status_at st' id = status_at st id -> active id p' = false -> effect id p p' st st' tk.
Proof. intros N S A. apply Keeps; [done|]. by rewrite A. Qed.

Lemma active_run id l : active id (Looping l) = (l_run l =? id).
Proof. done. Qed.

(** The worker of [k] ends with its run in a status that [f] sets. *)
Lemma effect_end id p p' now k f st st0 s tk : active id p' = false -> (k = id -> active id p = true) -> (forall r, status (f r) = s) ->
  status_at st0 id = status_at st id -> effect id p p' st (update_run now k f st0) tk.
Proof.
  intros A' A S E. destruct (decide (k = id)) as [->|N].
  - destruct (status_at st id) as [s0|] eqn:X.
    + eapply Leaves; [by rewrite X|by apply A|done|]. rewrite status_update, decide_True by done. unfold status_at in E. destruct (runs st0 !! id) as [r|]; [cbn; by rewrite S|done].
    + apply Keeps; [|by rewrite A']. rewrite X, status_update, decide_True by done. unfold status_at in E. by destruct (runs st0 !! id).
  - apply Keeps; [|by rewrite A']. by rewrite status_update, decide_False.
Qed.

Section effects.
Context (env : string -> option string).

Lemma effect_fail id p e now k m st st0 tk : status_at st0 id = status_at st id -> effect id p (Ended e) st (fail_run now k m st0) tk.
Proof.
  intros E. unfold fail_run. destruct (decide (k = id)) as [->|N].
  - destruct (status_at st id) as [s0|] eqn:X.
    + apply Fails; [by rewrite X|done|]. rewrite status_update, decide_True by done. unfold status_at in E. by destruct (runs st0 !! id).
    + apply Keeps; [|done]. rewrite status_update, decide_True by done. unfold status_at in E. by destruct (runs st0 !! id).
  - apply Keeps; [|done]. by rewrite status_update, decide_False.
Qed.

(** The worker goes on with its run, whose status it leaves. *)
Lemma effect_goes_on id p p' now k f st st0 tk : (active id p' = true -> active id p = true) -> (forall r, status (f r) = status r) ->
  status_at st0 id = status_at st id -> effect id p p' st (update_run now k f st0) tk.
Proof. intros A S E. apply Keeps; [by rewrite status_update_same|done]. Qed.

Lemma claim_effect id k started snap now st p' st' mono : claim_step env k started snap now st = (p', st') ->
  effect id (Claiming k started snap) p' st st' (takes_over env (mkEvent now mono Tick) (Claiming k started snap) st).
Proof.
  unfold claim_step, claim_run_running. cbn [takes_over e_input e_now]. unfold claim_run_running.
  destruct (runs st !! k) as [r|] eqn:R; [|intros [= <- <-]; by apply Keeps].
  destruct (claimable _ now r) eqn:C; [|intros [= <- <-]; by apply Keeps]. intros [= <- <-]. cbn [snd andb].
  destruct (decide (k = id)) as [->|N].
  - unfold claimable in C. apply andb_true_iff in C as [T C]. apply negb_true_iff in T. eapply (Claims _ _ _ _ _ _ (status r)); [done|unfold status_at; by rewrite R|done| |].
    + destruct (String.eqb_spec (status r) "running"); [right; by left|by left].
    + rewrite status_update_same by done. rewrite status_update, decide_True by done. by rewrite R.
  - apply Keeps; [|cbn; intros E%Z.eqb_eq; congruence]. rewrite status_update_same by done. by rewrite status_update, decide_False.
Qed.

Lemma loop_effect id l now mono st p' st' tk : loop_step l now mono st = (p', st') -> effect id (Looping l) p' st st' tk.
Proof.
  unfold loop_step. destruct (_ <? _); [intros [= <- <-]; eapply effect_end; [done|intros <-; apply Z.eqb_refl|intros; cbn; reflexivity|done]|].
  destruct (_ <=? _); [intros [= <- <-]; eapply effect_end; [done|intros <-; apply Z.eqb_refl|intros; cbn; reflexivity|done]|].
  destruct (next_pending_checkpoint _ st) as [cp|]; [intros [= <- <-]; by apply effect_goes_on|].
  destruct (nonempty_list _); [intros [= <- <-]; by apply effect_goes_on|]. unfold complete. intros [= <- <-]. eapply effect_end; [done|intros <-; apply Z.eqb_refl|intros; cbn; reflexivity|done].
Qed.

Lemma page_effect id l cp cves total err now st p' st' tk : page_step env l cp cves total err now st = (p', st') -> effect id (Fetching l cp) p' st st' tk.
Proof.
  unfold page_step.
  destruct (err_is err "rate_limited").
  { intros [= <- <-]; eapply effect_end; [done|intros <-; apply Z.eqb_refl|intros; cbn; reflexivity|done]. }
  destruct (err_is err "http_5xx" || err_is err "error"); [intros [= <- <-]; eapply effect_end; [done|intros <-; apply Z.eqb_refl|intros; cbn; reflexivity|done]|].
  destruct (_ || _); [intros [= <- <-]; by apply effect_goes_on|]. unfold store_page. destruct (page_eta _ _); [intros [= <- <-]; by apply effect_goes_on|].
  intros [= <- <-]. by apply effect_fail.
Qed.

Lemma step_effect id ev p st p' st' : worker_step env ev p st = (p', st') -> effect id p p' st st' (takes_over env ev p st).
Proof.
  unfold worker_step. destruct ev as [now mono inp]. cbn [e_now e_mono e_input].
  destruct inp as [|ids total err|sch|stored m]; destruct p as [k|k started snap|l|l cp|l|l|e]; try (intros [= <- <-]; by apply Keeps).
  - unfold start_step. destruct (runs st !! k) as [r|]; [|intros [= <- <-]; by apply Keeps]. destruct (terminal _); intros [= <- <-]; by apply Keeps.
  - apply claim_effect.
  - apply loop_effect.
  - unfold complete. intros [= <- <-]. eapply effect_end; [done|intros <-; apply Z.eqb_refl|intros; cbn; reflexivity|done].
  - apply page_effect.
  - intros [= <- <-]. by apply effect_goes_on.
  - intros [= <- <-]. by apply effect_fail.
  - intros [= <- <-]. by apply effect_fail.
  - intros [= <- <-]. by apply effect_fail.
  - intros [= <- <-]. by apply effect_fail.
  - intros [= <- <-]. by apply effect_fail.
  - intros [= <- <-]. by apply effect_fail.
Qed.

End effects.

Section exclusion.
Context (env : string -> option string).

Lemma step_next ev p st p' st' : worker_step env ev p st = (p', st') -> next_run st' = next_run st.
Proof.
  unfold worker_step. destruct ev as [now mono inp]. cbn [e_now e_mono e_input].
  destruct inp as [|ids total err|sch|stored m]; destruct p as [k|k started snap|l|l cp|l|l|e]; try (by intros [= <- <-]).
  - unfold start_step. destruct (runs st !! k) as [r|]; [|by intros [= <- <-]]. destruct (terminal _); by intros [= <- <-].
  - unfold claim_step, claim_run_running. destruct (runs st !! k) as [r|]; [|by intros [= <- <-]]. destruct (claimable _ _ _); by intros [= <- <-].
  - unfold loop_step. destruct (_ <? _); [by intros [= <- <-]|]. destruct (_ <=? _); [by intros [= <- <-]|].
    destruct (next_pending_checkpoint _ _); [by intros [= <- <-]|]. destruct (nonempty_list _); by intros [= <- <-].
  - unfold page_step. destruct (err_is err "rate_limited"); [by intros [= <- <-]|]. destruct (_ || _); [by intros [= <- <-]|]. destruct (_ || _); [by intros [= <- <-]|].
    unfold store_page. destruct (page_eta _ _); by intros [= <- <-].
Qed.

Definition settled_status (s : string) : bool := terminal s || String.eqb s "running".

(** A run that is not claimed has at most as many workers as takeovers; one that is, or
    has ended, one more. *)
Definition hold_inv (w : world) : Prop :=
  (forall id, next_run (w_store w) <= id -> status_at (w_store w) id = None) /\
  (forall id, match status_at (w_store w) id with
              | None => active_count id w = 0%nat
              | Some s => (active_count id w <= takeover_count id w + b2n (settled_status s))%nat
              end).

Lemma fresh_checkpoints now id ps st : let st' := fold_left (fun st p => upsert_checkpoint (fresh_checkpoint now id p) st) ps st in
  runs st' = runs st /\ next_run st' = next_run st /\ corpus st' = corpus st.
Proof. revert st. induction ps as [|p ps IH]; intros st; [done|]. cbn [fold_left]. cbv zeta in IH. destruct (IH (upsert_checkpoint (fresh_checkpoint now id p) st)) as (-> & -> & ->). done. Qed.

Lemma kick_count id w st p tk : active id p = false -> active_count id (mkWorld st (workers w ++ [p]) tk) = active_count id w.
Proof. intros A. unfold active_count. cbn [workers]. rewrite List.filter_app, length_app. cbn [List.filter]. rewrite A. cbn [length]. lia. Qed.

Lemma create_inv now user ps eta w id st : hold_inv w -> create_run env now user ps eta (w_store w) = Ok (id, st) -> hold_inv (mkWorld st (workers w ++ [Start id]) (takeovers w)).
Proof.
  intros [N I] E. unfold create_run in E. repeat (destruct (int_of_str _); [cbn [res_bind] in E|done]). apply ok_inj in E. injection E as <- <-.
  set (cap := firstn _ ps). set (st0 := mkStore (<[_ := _]> _) _ _ _ _). destruct (fresh_checkpoints now (next_run (w_store w)) cap st0) as (R & X & _). split; cbn [w_store].
  - intros id H. rewrite X in H. cbn in H. unfold status_at. rewrite R. unfold st0. cbn [runs]. rewrite lookup_insert_ne by lia. apply N. lia.
  - intros id. specialize (I id). unfold status_at. rewrite R. unfold st0. cbn [runs]. rewrite kick_count by done. unfold takeover_count. cbn [takeovers].
    destruct (decide (next_run (w_store w) = id)) as [<-|D].
    + rewrite lookup_insert_eq. cbn [option_map status]. rewrite (N (next_run (w_store w)) ltac:(lia)) in I. rewrite I. lia.
    + rewrite lookup_insert_ne by done. exact I.
Qed.

Lemma move_inv i ev p st p' w : hold_inv w -> workers w !! i = Some p -> worker_step env ev p (w_store w) = (p', st) ->
  hold_inv (mkWorld st (<[i := p']> (workers w)) (takes_over env ev p (w_store w) ++ takeovers w)).
Proof.
  intros [N I] W E. pose proof (step_next _ _ _ _ _ E) as X. split; cbn [w_store]; intros id; pose proof (step_effect env id _ _ _ _ _ E) as F.
  - intros H. rewrite X in H. specialize (N id H). destruct F as [S _|s A S|s S|S]; [by rewrite S|congruence..].
  - specialize (I id). pose proof (filter_insert_count (active id) (workers w) i p p' W) as C. fold (active_count id w) in C.
    change (length (List.filter (active id) (<[i:=p']> (workers w)))) with (active_count id (mkWorld st (<[i := p']> (workers w)) (takes_over env ev p (w_store w) ++ takeovers w))) in C.
    assert (takeover_count id w <= takeover_count id (mkWorld st (<[i := p']> (workers w)) (takes_over env ev p (w_store w) ++ takeovers w)))%nat as T
      by (unfold takeover_count; cbn [takeovers]; rewrite List.filter_app, length_app; lia).
    destruct F as [S A|s A S Te R S'|s S A A' S'|S A S'].
    + rewrite S. assert (b2n (active id p') <= b2n (active id p))%nat as L by (destruct (active id p'); [by rewrite A|cbn; lia]).
      destruct (status_at (w_store w) id); lia.
    + rewrite S'. rewrite S in I. rewrite A in C. cbn [b2n] in C. assert (b2n (active id p') <= 1)%nat by (destruct (active id p'); cbn; lia).
      cbn [settled_status terminal]. change (settled_status "running") with true. cbn [b2n]. destruct R as [R|R].
      * unfold settled_status in I. rewrite Te in I. destruct (String.eqb_spec s "running"); [done|]. cbn [orb b2n] in I. lia.
      * assert (takeover_count id w < takeover_count id (mkWorld st (<[i := p']> (workers w)) (takes_over env ev p (w_store w) ++ takeovers w)))%nat.
        { unfold takeover_count. cbn [takeovers]. rewrite List.filter_app, length_app. destruct (List.filter (Z.eqb id) (takes_over env ev p (w_store w))) eqn:Q; [|cbn [length]; lia].
          assert (In id []) as []. rewrite <-Q. apply filter_In. split; [done|apply Z.eqb_refl]. }
        destruct (settled_status s); cbn [b2n] in I; lia.
    + rewrite S'. rewrite A, A' in C. cbn [b2n] in C. destruct (status_at (w_store w) id) as [s0|]; [|done]. destruct (settled_status s0), (settled_status s); cbn [b2n] in *; lia.
    + rewrite S'. rewrite A in C. cbn [b2n] in C. change (settled_status "failed") with true. cbn [b2n]. destruct (status_at (w_store w) id) as [s0|]; [|done].
      destruct (settled_status s0); cbn [b2n] in *; lia.
Qed.

Lemma act_inv w a : hold_inv w -> hold_inv (act env w a).
Proof.
  intros H. destruct a as [now user ps eta|id|i ev|i]; cbn [act].
  - destruct (create_run _ _ _ _ _ _) as [[id st]|] eqn:E; [by eapply create_inv|done].
  - destruct H as [N I]. split; [done|]. intros id'. specialize (I id'). cbn [w_store]. by rewrite kick_count.
  - destruct (workers w !! i) as [p|] eqn:W; [|done]. destruct (worker_step _ _ _ _) as [p' st] eqn:E. by eapply move_inv.
  - destruct H as [N I]. split; [done|]. intros id. specialize (I id). cbn [w_store].
    assert (active_count id (mkWorld (w_store w) (<[i:=Ended Crashed]> (workers w)) (takeovers w)) <= active_count id w)%nat as C.
    { unfold active_count. cbn [workers]. destruct (workers w !! i) as [p|] eqn:W.
      - pose proof (filter_insert_count (active id) (workers w) i p (Ended Crashed) W) as C. cbn [active b2n] in C. lia.
      - by rewrite list_insert_ge by (by apply lookup_ge_None). }
    unfold takeover_count in *. cbn [takeovers]. destruct (status_at _ id); lia.
Qed.

(** [claims_are_exclusive]: whatever runs are agreed to, resumed, retried, crashed and
    moved in whatever order, a run is advanced by at most one worker, plus one for each
    time a worker claimed it while it was marked running with a heartbeat older than the
    threshold. *)
Theorem claims_are_exclusive l id : let w := history env empty_world l in
  (active_count id w <= 1 + takeover_count id w)%nat.
Proof.
  assert (forall l w, hold_inv w -> hold_inv (history env w l)) as G.
  { intros l'. induction l' as [|a l' IH]; intros w H; [done|]. cbn [history fold_left]. apply IH. by apply act_inv. }
  cbv zeta. destruct (G l empty_world) as [_ I]; [split; [done|]; intros k; by cbn|]. specialize (I id).
  destruct (status_at _ id) as [s|]; [|lia]. destruct (settled_status s); cbn [b2n] in I; lia.
Qed.

(** A takeover is always of a run whose heartbeat is at least a minute old. *)
Lemma takeover_is_stale ev p st id : In id (takes_over env ev p st) ->
  exists r, runs st !! id = Some r /\ status r = "running" /\ match updated_at r with Some t => t + 60 * 1000000 < e_now ev | None => True end.
Proof.
  destruct p; try done. cbn [takes_over]. destruct (e_input ev); try done. unfold claim_run_running. destruct (runs st !! id0) as [r|] eqn:R; [|done].
  destruct (claimable _ _ r) eqn:C; [|done]. cbn [snd andb]. destruct (String.eqb_spec (status r) "running") as [S|]; [|done]. intros [<-|[]]. exists r. split; [done|]. split; [done|].
  unfold claimable in C. rewrite S in C. cbn [negb orb] in C. apply andb_true_iff in C as [_ C]. destruct (updated_at r) as [t|]; [|done]. change (String.eqb "running" "running") with true in C. cbn [negb orb] in C.
  apply Z.ltb_lt in C. unfold _stale_running_seconds in C. destruct (int_of_str _); lia.
Qed.

End exclusion.

(** ** No page is skipped *)

Section coverage.
Context (env : string -> option string).

(** What the catalogue answers: the records of a product's page and the total. *)
Context (page_of : string -> Z -> list string) (total_of : string -> Z).

Definition cp_id (c : checkpoint) : Z * string := (cp_run c, cp_key c).

Definition page_stored (corpus : list string) (name : string) (k : Z) : Prop :=
  forall i, i ∈ page_of name (RESULTS_PER_PAGE * k) -> nonempty i = true -> i ∈ corpus.

(** The start index is a page boundary and every page before it is stored. *)
Definition resumable (corpus : list string) (name : string) (start : Z) : Prop :=
  exists k, 0 <= k /\ start = RESULTS_PER_PAGE * k /\ forall j, 0 <= j < k -> page_stored corpus name j.

(** Every page below the total, up to the first empty one. *)
Definition complete_for (corpus : list string) (name : string) : Prop :=
  forall k, 0 <= k -> RESULTS_PER_PAGE * k < total_of name -> (forall j, 0 <= j <= k -> page_of name (RESULTS_PER_PAGE * j) <> []) -> page_stored corpus name k.

Definition covered (corpus : list string) (c : checkpoint) : Prop :=
  resumable corpus (cp_product c) (start_index c) /\ (cp_status c = "done" -> complete_for corpus (cp_product c)).

Definition held (st : store) (l : locals) (cp : checkpoint) : Prop :=
  resumable (corpus st) (cp_product cp) (start_index cp) /\
  exists c, c ∈ checkpoints st /\ cp_id c = (l_run l, cp_key cp) /\ cp_product c = cp_product cp.

Definition pages_inv (w : world) : Prop :=
  NoDup (map cp_id (checkpoints (w_store w))) /\
  (forall c, c ∈ checkpoints (w_store w) -> cp_run c < next_run (w_store w) /\ covered (corpus (w_store w)) c) /\
  (forall l cp, Fetching l cp ∈ workers w -> held (w_store w) l cp).

Definition merged (new c : checkpoint) : checkpoint :=
  mkCheckpoint (cp_run c) (cp_key c) (cp_vendor c) (cp_product c) (cp_version c) (cp_status new) (start_index new) (total_results new)
    (cp_upserted new) (last_error new) (cp_updated_at new).

Lemma cp_match c new : (cp_run c =? cp_run new) && String.eqb (cp_key c) (cp_key new) = true <-> cp_id c = cp_id new.
Proof. unfold cp_id. rewrite andb_true_iff, Z.eqb_eq, String.eqb_eq. split; [by intros [-> ->]|by intros [= -> ->]]. Qed.

(** The upsert finds its row when there is one: identities and products stay. *)
Lemma put_found new cps : cp_id new ∈ map cp_id cps ->
  map cp_id (put_checkpoint new cps) = map cp_id cps /\
  (forall c, c ∈ put_checkpoint new cps -> c ∈ cps \/ exists c0, c0 ∈ cps /\ cp_id c0 = cp_id new /\ c = merged new c0) /\
  (forall c0, c0 ∈ cps -> exists c, c ∈ put_checkpoint new cps /\ cp_id c = cp_id c0 /\ cp_product c = cp_product c0).
Proof.
  induction cps as [|c t IH]; intros H; [by apply not_elem_of_nil in H|]. cbn [put_checkpoint]. destruct ((_ =? _) && _) eqn:M.
  - apply cp_match in M. split; [done|]. split.
    + intros x X. apply elem_of_cons in X as [->|X]; [right; exists c; split; [left|done]|left; by right].
    + intros c0 X. apply elem_of_cons in X as [->|X]; [eexists; split; [left|done]|exists c0; split; [by right|done]].
  - cbn [map] in H. apply elem_of_cons in H as [H|H]; [exfalso; symmetry in H; apply cp_match in H; congruence|]. destruct (IH H) as (A & B & C). split; [cbn [map]; by rewrite A|]. split.
    + intros x X. apply elem_of_cons in X as [->|X]; [left; left|]. destruct (B x X) as [X'|(c0 & X0 & R)]; [left; by right|right; exists c0; split; [by right|done]].
    + intros c0 X. apply elem_of_cons in X as [->|X]; [exists c; split; [left|done]|]. destruct (C c0 X) as (x & X' & R). exists x. split; [by right|done].
Qed.

Lemma put_new new cps : ~ (cp_id new ∈ map cp_id cps) -> put_checkpoint new cps = (cps ++ [new])%list.
Proof.
  induction cps as [|c t IH]; intros H; [done|]. cbn [put_checkpoint]. destruct ((_ =? _) && _) eqn:M; [apply cp_match in M; exfalso; apply H; cbn [map]; rewrite M; left|].
  rewrite IH; [done|]. intros X. apply H. by right.
Qed.

Lemma stored_mono corp corp' name k : (forall i, i ∈ corp -> i ∈ corp') -> page_stored corp name k -> page_stored corp' name k.
Proof. intros M S i I N. by apply M, S. Qed.

Lemma resumable_mono corp corp' name s : (forall i, i ∈ corp -> i ∈ corp') -> resumable corp name s -> resumable corp' name s.
Proof. intros M (k & K & E & P). exists k. split; [done|]. split; [done|]. intros j J. eapply stored_mono; eauto. Qed.

Lemma covered_mono corp corp' c : (forall i, i ∈ corp -> i ∈ corp') -> covered corp c -> covered corp' c.
Proof. intros M [R D]. split; [by eapply resumable_mono|]. intros E k K T P. eapply stored_mono; [exact M|by apply D]. Qed.

Lemma resumable_0 corp name : resumable corp name 0.
Proof. exists 0. split; [lia|]. split; [done|]. intros j J. lia. Qed.

(** The part of the store the invariant reads grows or stays. *)
Lemma held_mono st st' l cp : (forall i, i ∈ corpus st -> i ∈ corpus st') -> checkpoints st' = checkpoints st -> held st l cp -> held st' l cp.
Proof. intros M C [R E]. split; [by eapply resumable_mono|]. by rewrite C. Qed.

(** A worker rewrites the checkpoint it holds. *)
Lemma rewrite_inv w corp' l cp now s start total n err : pages_inv w -> held (w_store w) l cp -> (forall i, i ∈ corpus (w_store w) -> i ∈ corp') ->
  resumable corp' (cp_product cp) start -> (s = "done" -> complete_for corp' (cp_product cp)) ->
  let cps := put_checkpoint (rewrite_checkpoint now (l_run l) cp s start total n err) (checkpoints (w_store w)) in
  NoDup (map cp_id cps) /\ (forall c, c ∈ cps -> cp_run c < next_run (w_store w) /\ covered corp' c) /\
  (forall l' cp', held (w_store w) l' cp' -> resumable corp' (cp_product cp') (start_index cp') /\
     exists c, c ∈ cps /\ cp_id c = (l_run l', cp_key cp') /\ cp_product c = cp_product cp').
Proof.
  intros (A & B & C) [H1 (row & R1 & R2 & R3)] M R D. set (new := rewrite_checkpoint _ _ _ _ _ _ _ _). cbv zeta.
  assert (cp_id new ∈ map cp_id (checkpoints (w_store w))) as I.
  { change (cp_id new) with (l_run l, cp_key cp). rewrite <-R2. by apply list_elem_of_fmap_2. }
  destruct (put_found new _ I) as (P1 & P2 & P3). split; [by rewrite P1|]. split.
  - intros c X. destruct (P2 c X) as [X'|(c0 & X0 & E & ->)].
    + destruct (B c X') as [L V]. split; [done|]. by eapply covered_mono.
    + destruct (B c0 X0) as [L _]. split; [done|]. assert (c0 = row) as ->.
      { eapply (key_unique cp_id); [exact A|by apply list_elem_of_In|by apply list_elem_of_In|]. by rewrite E, R2. }
      split; cbn [merged cp_product start_index cp_status]; rewrite R3; [exact R|exact D].
  - intros l' cp' [K1 (c & X & Y & Z)]. split; [by eapply resumable_mono|]. destruct (P3 c X) as (c' & X' & Y' & Z'). exists c'. split; [done|]. split; congruence.
Qed.

Lemma inv_workers w st ws tk : pages_inv w -> checkpoints st = checkpoints (w_store w) -> next_run st = next_run (w_store w) ->
  (forall i, i ∈ corpus (w_store w) -> i ∈ corpus st) -> (forall l cp, Fetching l cp ∈ ws -> Fetching l cp ∈ workers w) -> pages_inv (mkWorld st ws tk).
Proof.
  intros (A & B & C) E1 E2 M S. split; [by cbn; rewrite E1|]. split; cbn [w_store].
  - rewrite E1, E2. intros c X. destruct (B c X). split; [done|]. by eapply covered_mono.
  - intros l cp X. apply S, C in X. by eapply held_mono.
Qed.

Lemma fetching_insert l cp (ws : list phase) i p' : Fetching l cp ∈ <[i := p']> ws -> p' = Fetching l cp \/ Fetching l cp ∈ ws.
Proof. intros H. apply list_elem_of_lookup in H as [j J]. apply list_lookup_insert_Some in J as [(-> & -> & _)|[_ J]]; [by left|right; by eapply list_elem_of_lookup_2]. Qed.

Lemma held_store w corp' l cp now s start total n err f ws tk p' i :
  pages_inv w -> held (w_store w) l cp -> (forall j, j ∈ corpus (w_store w) -> j ∈ corp') ->
  resumable corp' (cp_product cp) start -> (s = "done" -> complete_for corp' (cp_product cp)) ->
  (forall l' cp', p' = Fetching l' cp' -> held (w_store w) l' cp') -> ws = <[i := p']> (workers w) ->
  pages_inv (mkWorld (update_run now (l_run l) f (upsert_checkpoint (rewrite_checkpoint now (l_run l) cp s start total n err)
               (mkStore (runs (w_store w)) (next_run (w_store w)) (checkpoints (w_store w)) corp' (epss_asked (w_store w))))) ws tk).
Proof.
  intros H K M R D P ->. destruct (rewrite_inv w corp' l cp now s start total n err H K M R D) as (A & B & C). split; [exact A|]. split; [exact B|].
  intros l' cp' X. apply C. apply fetching_insert in X as [X|X]; [by apply P|]. by apply H.
Qed.

(** The error classes of [fetch_cves_keyword_page], or the page itself. *)
Definition page_answer (cp : checkpoint) (cves : list string) (total : Z) (err : option string) : Prop :=
  match err with
  | Some e => e ∈ ["not_found"; "rate_limited"; "http_5xx"; "error"]
  | None => cves = page_of (cp_product cp) (start_index cp) /\ total = total_of (cp_product cp)
  end.

Definition honest (w : world) (a : action) : Prop :=
  match a with
  | Move i ev =>
      match workers w !! i, e_input ev with
      | Some (Fetching l cp), Page cves total err => page_answer cp cves total err
      | _, _ => True
      end
  | _ => True
  end.

Fixpoint honest_history (w : world) (l : list action) : Prop :=
  match l with [] => True | a :: t => honest w a /\ honest_history (act env w a) t end.

(** The index a page is stored under becomes resumable, or the product complete. *)
Lemma page_extends corp name s cves total : cves = page_of name s -> total = total_of name -> resumable corp name s ->
  let corp' := (corp ++ List.filter nonempty cves)%list in
  resumable corp' name (s + RESULTS_PER_PAGE) /\
  ((total <=? s + RESULTS_PER_PAGE) || negb (nonempty_list cves) = true -> complete_for corp' name).
Proof.
  intros -> -> (k & K & -> & P). cbv zeta. set (corp' := (_ ++ _)%list). assert (forall j, 0 <= j <= k -> page_stored corp' name j) as G.
  { intros j J. destruct (decide (j = k)) as [->|N].
    - intros i I E. apply elem_of_app. right. apply list_elem_of_In, filter_In. split; [by apply list_elem_of_In|done].
    - eapply stored_mono; [|apply P; lia]. intros i I. apply elem_of_app. by left. }
  split.
  - exists (k + 1). split; [lia|]. split; [lia|]. intros j J. apply G. lia.
  - intros D m M T E. destruct (decide (m <= k)) as [L|L]; [by apply G; lia|]. exfalso. apply orb_true_iff in D as [D|D]; [unfold RESULTS_PER_PAGE in *; lia|].
    apply (E k ltac:(lia)). by destruct (page_of name (RESULTS_PER_PAGE * k)).
Qed.

Lemma quiet_step w i p p' st tk : pages_inv w -> workers w !! i = Some p -> (forall l cp, p' <> Fetching l cp) ->
  checkpoints st = checkpoints (w_store w) -> next_run st = next_run (w_store w) -> (forall j, j ∈ corpus (w_store w) -> j ∈ corpus st) ->
  pages_inv (mkWorld st (<[i := p']> (workers w)) tk).
Proof. intros H W N E1 E2 M. apply inv_workers with (w := w); try done. intros l cp X. apply fetching_insert in X as [->|X]; [by destruct (N l cp)|done]. Qed.

Ltac quiet H W := intros [= <- <-]; apply (quiet_step _ _ _ _ _ _ H W); [by intros|done|done|by intros].

Lemma loop_pages w i l now mono p' st tk : pages_inv w -> workers w !! i = Some (Looping l) -> loop_step l now mono (w_store w) = (p', st) ->
  pages_inv (mkWorld st (<[i := p']> (workers w)) tk).
Proof.
  intros H W. unfold loop_step. destruct (_ <? _); [quiet H W|]. destruct (_ <=? _); [quiet H W|].
  destruct (next_pending_checkpoint _ _) as [cp|] eqn:N; [|destruct (nonempty_list _); quiet H W]. intros [= <- <-].
  unfold next_pending_checkpoint in N. apply List.find_some in N as [I O]. apply list_elem_of_In in I. unfold open_checkpoint in O. apply andb_true_iff in O as [O1 O2]. apply Z.eqb_eq in O1.
  assert (held (w_store w) l cp) as K.
  { destruct H as (_ & B & _). destruct (B cp I) as [_ [R _]]. split; [done|]. exists cp. split; [done|]. split; [|done]. unfold cp_id. by rewrite O1. }

  pose proof (held_store w (corpus (w_store w)) l cp now "running" (start_index cp) (total_results cp) (cp_upserted cp) None
    (with_message ("Fetching NVD pages for " +:+ cp_product cp +:+ " (start=" +:+ str_of_Z (start_index cp) +:+ ")…")) (<[i := Fetching l cp]> (workers w)) tk (Fetching l cp) i H K) as X.
  assert (mkStore (runs (w_store w)) (next_run (w_store w)) (checkpoints (w_store w)) (corpus (w_store w)) (epss_asked (w_store w)) = w_store w) as E by by destruct (w_store w).
  rewrite E in X. apply X; [done|apply K|done| |done]. intros l' cp' [= <- <-]. exact K.
Qed.

Lemma page_pages w i l cp cves total err now p' st tk : pages_inv w -> workers w !! i = Some (Fetching l cp) ->
  page_answer cp cves total err ->
  page_step env l cp cves total err now (w_store w) = (p', st) -> pages_inv (mkWorld st (<[i := p']> (workers w)) tk).
Proof.
  intros H W A. assert (held (w_store w) l cp) as K by (destruct H as (_ & _ & C); apply C; by eapply list_elem_of_lookup_2).
  assert (mkStore (runs (w_store w)) (next_run (w_store w)) (checkpoints (w_store w)) (corpus (w_store w)) (epss_asked (w_store w)) = w_store w) as E by by destruct (w_store w).
  assert (forall s start t n e f q, resumable (corpus (w_store w)) (cp_product cp) start -> s <> "done" -> (forall l' cp', q <> Fetching l' cp') ->
    pages_inv (mkWorld (update_run now (l_run l) f (upsert_checkpoint (rewrite_checkpoint now (l_run l) cp s start t n e) (w_store w))) (<[i := q]> (workers w)) tk)) as G.
  { intros s start t n e f q R S Q. pose proof (held_store w (corpus (w_store w)) l cp now s start t n e f (<[i := q]> (workers w)) tk q i H K) as X. rewrite E in X. apply X; try done. intros l' cp' ->. by destruct (Q l' cp'). }
  unfold page_step. destruct err as [er|].
  - destruct (err_is (Some er) "rate_limited") eqn:E1; [intros [= <- <-]; by apply G; [apply K|..]|].
    destruct (err_is (Some er) "http_5xx" || err_is (Some er) "error") eqn:E2; [intros [= <- <-]; by apply G; [apply K|..]|].
    destruct (err_is (Some er) "not_found" || (total =? 0) && (start_index cp =? 0)) eqn:E3; [intros [= <- <-]; apply G; [apply resumable_0|done..]|].
    clear G E K H.
    exfalso. cbn [page_answer] in A. rewrite !elem_of_cons in A. destruct A as [A|[A|[A|[A|A]]]]; [subst er; done..|by apply not_elem_of_nil in A].
  - cbn [page_answer] in A. destruct A as [A1 A2]. cbn [err_is orb]. destruct ((total =? 0) && (start_index cp =? 0)); [intros [= <- <-]; apply G; [apply resumable_0|done..]|].
    unfold store_page. set (corp' := (corpus (w_store w) ++ List.filter nonempty cves)%list).
    destruct (page_extends (corpus (w_store w)) (cp_product cp) (start_index cp) cves total A1 A2 (proj1 K)) as [P1 P2]. fold corp' in P1, P2.
    assert (forall j, j ∈ corpus (w_store w) -> j ∈ corp') as M by (intros j J; apply elem_of_app; by left).
    set (done_product := (total <=? _) || _) in *.
    assert (forall t n e f q, (forall l' cp', q <> Fetching l' cp') ->
      pages_inv (mkWorld (update_run now (l_run l) f (upsert_checkpoint (rewrite_checkpoint now (l_run l) cp (if done_product then "done" else "pending")
        (if done_product then 0 else start_index cp + RESULTS_PER_PAGE) t n e) (add_ids (List.filter nonempty cves) (w_store w)))) (<[i := q]> (workers w)) tk)) as S.
    { intros t n e f q Q. apply (held_store w corp' l cp now _ _ t n e f _ tk q i H K M); [|intros D|intros l' cp' ->; by destruct (Q l' cp')|done].
      - destruct done_product; [apply resumable_0|exact P1].
      - apply P2. by destruct done_product. }
    destruct (page_eta _ _) as [eta|x]; intros [= <- <-]; by apply S.
Qed.

Lemma move_pages w i ev p p' st tk : pages_inv w -> workers w !! i = Some p -> honest w (Move i ev) -> worker_step env ev p (w_store w) = (p', st) ->
  pages_inv (mkWorld st (<[i := p']> (workers w)) tk).
Proof.
  intros H W. unfold honest. rewrite W. unfold worker_step. destruct ev as [now mono inp]. cbn [e_now e_mono e_input].
  destruct inp as [|ids total err|sch|stored m]; destruct p as [k|k started snap|l|l cp|l|l|e]; intros A;
    try (intros [= <- <-]; apply (quiet_step _ _ _ _ _ _ H W); [by intros|done|done|by intros]).
  - unfold start_step. destruct (runs _ !! k) as [r|]; [|quiet H W]. destruct (terminal _); quiet H W.
  - unfold claim_step, claim_run_running. destruct (runs _ !! k) as [r|]; [|quiet H W]. destruct (claimable _ _ _); quiet H W.
  - by apply loop_pages.
  - intros [= <- <-]. replace (Fetching l cp) with (Fetching l cp) by done. rewrite list_insert_id by done. by apply inv_workers with (w := w).
  - by apply page_pages.
  - intros [= <- <-]. rewrite list_insert_id by done. by apply inv_workers with (w := w).
  - intros [= <- <-]. apply (quiet_step _ _ _ _ _ _ H W); [by intros|done..|]. intros j J. apply elem_of_app. by left.
Qed.

Lemma fresh_pages now id ps st : (forall c, c ∈ checkpoints st -> cp_run c <= id /\ (cp_run c = id -> start_index c = 0 /\ cp_status c = "pending")) ->
  NoDup (map cp_id (checkpoints st)) ->
  let st' := fold_left (fun st p => upsert_checkpoint (fresh_checkpoint now id p) st) ps st in
  (forall c, c ∈ checkpoints st' -> c ∈ checkpoints st \/ cp_run c = id /\ start_index c = 0 /\ cp_status c = "pending") /\
  (forall c, c ∈ checkpoints st -> cp_run c < id -> c ∈ checkpoints st') /\ NoDup (map cp_id (checkpoints st')).
Proof.
  revert st. induction ps as [|p ps IH]; intros st B A; cbv zeta; [split; [auto|]; split; [auto|exact A]|]. cbn [fold_left]. set (new := fresh_checkpoint now id p).
  assert (forall c, c ∈ checkpoints (upsert_checkpoint new st) -> c ∈ checkpoints st \/ cp_run c = id /\ start_index c = 0 /\ cp_status c = "pending") as S.
  { intros c. cbn. destruct (decide (cp_id new ∈ map cp_id (checkpoints st))) as [I|I].
    - destruct (put_found new _ I) as (_ & P & _). intros X. destruct (P c X) as [X'|(c0 & X0 & E & ->)]; [by left|right]. split; [|done]. unfold cp_id in E. cbn in E |- *. congruence.
    - rewrite put_new by done. rewrite elem_of_app, list_elem_of_singleton. intros [X| ->]; [by left|by right]. }
  destruct (IH (upsert_checkpoint new st)) as (P & Q & R).
  - intros c X. apply S in X as [X|(X & Y & Z)]; [by apply B|]. split; [lia|done].
  - cbn. destruct (decide (cp_id new ∈ map cp_id (checkpoints st))) as [I|I]; [by rewrite (proj1 (put_found new _ I))|].
    rewrite put_new, map_app by done. apply NoDup_app. split; [done|]. split; [|apply NoDup_singleton]. intros x X Y. by apply list_elem_of_singleton in Y as ->.
  - split; [|split; [|exact R]].
    + intros c X. apply P in X as [X|X]; [by apply S|by right].
    + intros c X L. apply Q; [|done]. cbn. clear -X L. assert (cp_run c <> id) as N by lia. induction (checkpoints st) as [|x t IHt]; [by apply not_elem_of_nil in X|].
      cbn [put_checkpoint]. destruct ((_ =? _) && _) eqn:M; apply elem_of_cons in X as [->|X].
      * apply cp_match in M. unfold cp_id in M. cbn in M. congruence.
      * by right.
      * left.
      * right. by apply IHt.
Qed.

Lemma create_pages now user ps eta w id st tk : pages_inv w -> create_run env now user ps eta (w_store w) = Ok (id, st) -> pages_inv (mkWorld st (workers w ++ [Start id]) tk).
Proof.
  intros (A & B & C) E. unfold create_run in E. repeat (destruct (int_of_str _); [cbn [res_bind] in E|done]). apply ok_inj in E. injection E as <- <-.
  set (cap := firstn _ ps). set (st0 := mkStore (<[_ := _]> _) _ _ _ _). destruct (fresh_checkpoints now (next_run (w_store w)) cap st0) as (_ & X & Y).
  destruct (fresh_pages now (next_run (w_store w)) cap st0) as (P & Q & R); [|exact A|].
  - intros c I. destruct (B c I) as [L _]. split; [lia|]. intros U. lia.
  - split; [exact R|]. split; cbn [w_store].
    + rewrite X, Y. intros c I. apply P in I as [I|(I & S & T)].
      * destruct (B c I) as [L V]. split; [cbn; lia|exact V].
      * split; [cbn; lia|]. split; [rewrite S; apply resumable_0|]. rewrite T. done.
    + intros l cp I. apply elem_of_app in I as [I|I]; [|by apply list_elem_of_singleton in I]. destruct (C l cp I) as [U (c & V & V' & V'')]. split; [by rewrite Y|].
      exists c. split; [|done]. apply Q; [exact V|]. by apply B.
Qed.

(** C25 [done_product_is_complete]: in every history whose pages come from the catalogue,
    with any interleaving, deferral, error, crash and takeover, a checkpoint marked done
    has every page of its product in the corpus, up to an empty one; and a checkpoint that is
    not done resumes at the first page that may be missing, so a resume skips none. *)
Theorem done_product_is_complete l c : let w := history env empty_world l in
  honest_history empty_world l -> c ∈ checkpoints (w_store w) ->
  (cp_status c = "done" -> complete_for (corpus (w_store w)) (cp_product c)) /\
  resumable (corpus (w_store w)) (cp_product c) (start_index c).
Proof.
  assert (forall l w, pages_inv w -> honest_history w l -> pages_inv (history env w l)) as G.
  { intros l'. induction l' as [|a l' IH]; intros w H F; [done|]. destruct F as [F1 F2]. cbn [history fold_left]. apply IH; [|exact F2].
    destruct a as [now user ps eta|id|i ev|i]; cbn [act].
    - destruct (create_run _ _ _ _ _ _) as [[id st]|] eqn:E; [by eapply create_pages|done].
    - apply inv_workers with (w := w); try done. intros l0 cp X. apply elem_of_app in X as [X|X]; [done|]. by apply list_elem_of_singleton in X.
    - destruct (workers w !! i) as [p|] eqn:W; [|done]. destruct (worker_step _ _ _ _) as [p' st] eqn:E. by eapply move_pages.
    - apply inv_workers with (w := w); try done. intros l0 cp X. by apply fetching_insert in X as [X|X]. }
  cbv zeta. intros F I. destruct (G l empty_world) as (_ & B & _); [|exact F|].
  - split; [apply NoDup_nil_2|]. split; intros *; by intros ?%not_elem_of_nil.
  - destruct (B c I) as [_ [R D]]. by split.
Qed.

End coverage.

(** ** A run ends *)

Section termination.
Context (env : string -> option string) (page_of : string -> Z -> list string) (total_of : string -> Z).

(** The pages a checkpoint still has before it, at most. *)
Definition work (c : checkpoint) : nat := S (Z.to_nat ((total_of (cp_product c) - start_index c) / RESULTS_PER_PAGE)).

Definition open_work (id : Z) (c : checkpoint) : nat := if open_checkpoint id c then work c else 0.
Definition work_left (id : Z) (st : store) : nat := fold_right (fun c n => open_work id c + n)%nat 0%nat (checkpoints st).

(** What the catalogue and the queue answer to a phase. *)
Definition answer_for (p : phase) : input :=
  match p with
  | Fetching _ cp => Page (page_of (cp_product cp) (start_index cp)) (total_of (cp_product cp)) None
  | Deferring _ => Booked false
  | _ => Tick
  end.

(** A worker alone on the store, whatever the two clocks show. *)
Fixpoint run_alone (clock : nat -> Z * Z) (fuel : nat) (p : phase) (st : store) : phase * store :=
  match fuel with
  | O => (p, st)
  | S fuel => let '(p, st) := worker_step env (mkEvent (fst (clock fuel)) (snd (clock fuel)) (answer_for p)) p st in run_alone clock fuel p st
  end.

Definition rank (p : phase) (st : store) : nat :=
  match p with
  | Start id => 4 + 2 * work_left id st
  | Claiming id _ _ => 3 + 2 * work_left id st
  | Looping l => 2 + 2 * work_left (l_run l) st
  | Fetching l _ => 1 + 2 * work_left (l_run l) st
  | Deferring _ | Enriching _ => 1
  | Ended _ => 0
  end.

Definition on_row (p : phase) (st : store) : Prop :=
  NoDup (map cp_id (checkpoints st)) /\
  match p with
  | Fetching l cp => exists row, row ∈ checkpoints st /\ cp_id row = (l_run l, cp_key cp) /\ cp_product row = cp_product cp /\
                                 start_index row = start_index cp /\ open_checkpoint (l_run l) row = true
  | _ => True
  end.

Lemma put_work new row cps id : NoDup (map cp_id cps) -> row ∈ cps -> cp_id row = cp_id new ->
  (fold_right (fun c n => open_work id c + n) 0 (put_checkpoint new cps) + open_work id row =
   fold_right (fun c n => open_work id c + n) 0 cps + open_work id (merged new row))%nat.
Proof.
  induction cps as [|c t IH]; intros D I E; [by apply not_elem_of_nil in I|]. cbn [map] in D. apply NoDup_cons in D as [D1 D2]. cbn [put_checkpoint fold_right].
  destruct ((_ =? _) && _) eqn:M.
  - apply cp_match in M. assert (c = row) as ->.
    { apply elem_of_cons in I as [->|I]; [done|]. exfalso. apply D1. rewrite M, <-E. by apply list_elem_of_fmap_2. }
    cbn [fold_right]. fold (merged new row). lia.
  - apply elem_of_cons in I as [->|I]; [exfalso; apply cp_match in E; congruence|]. specialize (IH D2 I E). cbn [fold_right]. lia.
Qed.

Lemma put_nodup new row cps : NoDup (map cp_id cps) -> row ∈ cps -> cp_id row = cp_id new -> NoDup (map cp_id (put_checkpoint new cps)).
Proof. intros D I E. assert (cp_id new ∈ map cp_id cps) as X by (rewrite <-E; by apply list_elem_of_fmap_2). by rewrite (proj1 (put_found new cps X)). Qed.

Lemma page_less x : RESULTS_PER_PAGE < x -> (Z.to_nat ((x - RESULTS_PER_PAGE) / RESULTS_PER_PAGE) < Z.to_nat (x / RESULTS_PER_PAGE))%nat.
Proof.
  unfold RESULTS_PER_PAGE. intros H. replace (x - 2000) with (x + (-1) * 2000) by lia. rewrite Z.div_add by lia.
  assert (1 <= x / 2000) by (apply Z.div_le_lower_bound; lia). lia.
Qed.

(** A held checkpoint rewritten so that it has less work before it. *)
Lemma rewrite_less l cp st now s start t n e f : on_row (Fetching l cp) st ->
  let st' := update_run now (l_run l) f (upsert_checkpoint (rewrite_checkpoint now (l_run l) cp s start t n e) st) in
  (one_in open_statuses s = false \/ start = start_index cp + RESULTS_PER_PAGE /\ start < total_of (cp_product cp)) ->
  NoDup (map cp_id (checkpoints st')) /\ (work_left (l_run l) st' < work_left (l_run l) st)%nat.
Proof.
  intros [D (row & I & E & P & S & O)] st' H. assert (cp_id row = cp_id (rewrite_checkpoint now (l_run l) cp s start t n e)) as E' by (by rewrite E).
  subst st'. cbv zeta. split; [by eapply put_nodup|]. unfold work_left. cbn [checkpoints update_run set_runs upsert_checkpoint set_checkpoints].
  pose proof (put_work _ row (checkpoints st) (l_run l) D I E') as W. set (new := rewrite_checkpoint _ _ _ _ _ _ _ _) in *.
  assert (open_work (l_run l) row = work row) as Q by (unfold open_work; by rewrite O). rewrite Q in W.
  assert (open_work (l_run l) (merged new row) < work row)%nat; [|lia]. unfold open_work. destruct H as [H|[H1 H2]].
  - unfold open_checkpoint. cbn [merged cp_status new rewrite_checkpoint]. rewrite H, andb_false_r. unfold work. lia.
  - destruct (open_checkpoint (l_run l) (merged new row)); [|unfold work; lia]. unfold work. subst new. cbn [merged cp_product start_index rewrite_checkpoint]. rewrite P, S. subst start.
    pose proof (page_less (total_of (cp_product cp) - start_index cp) ltac:(lia)) as Q'. replace (total_of (cp_product cp) - (start_index cp + RESULTS_PER_PAGE))
      with (total_of (cp_product cp) - start_index cp - RESULTS_PER_PAGE) by lia. lia.
Qed.

Lemma rank_loop l now mono st p' st' : on_row (Looping l) st -> loop_step l now mono st = (p', st') -> on_row p' st' /\ (rank p' st' < rank (Looping l) st)%nat.
Proof.
  intros [D _]. unfold loop_step. destruct (_ <? _); [intros [= <- <-]; split; [by split|cbn; lia]|]. destruct (_ <=? _); [intros [= <- <-]; split; [by split|cbn; lia]|].
  destruct (next_pending_checkpoint _ st) as [cp|] eqn:N; [|destruct (nonempty_list _); intros [= <- <-]; (split; [by split|cbn; lia])]. intros [= <- <-].
  unfold next_pending_checkpoint in N. apply List.find_some in N as [I O]. apply list_elem_of_In in I. set (new := rewrite_checkpoint _ _ _ _ _ _ _ _).
  assert (cp_run cp = l_run l) as R by (unfold open_checkpoint in O; apply andb_true_iff in O as [O _]; by apply Z.eqb_eq).
  assert (cp_id cp = cp_id new) as E by (unfold cp_id; by rewrite R). split.
  - split; [by eapply put_nodup|]. cbn [checkpoints update_run set_runs upsert_checkpoint set_checkpoints]. exists (merged new cp). split.
    + clear -I E D. induction (checkpoints st) as [|c t IH]; [by apply not_elem_of_nil in I|]. cbn [put_checkpoint]. cbn [map] in D. apply NoDup_cons in D as [D1 D2].
      destruct ((_ =? _) && _) eqn:M.
      * apply cp_match in M. apply elem_of_cons in I as [->|I]; [left|]. exfalso. apply D1. rewrite M, <-E. by apply list_elem_of_fmap_2.
      * apply elem_of_cons in I as [->|I]; [apply cp_match in E; congruence|]. right. by apply IH.
    + split; [unfold cp_id; cbn; by rewrite R|]. split; [done|]. split; [done|]. unfold open_checkpoint. cbn. by rewrite R, Z.eqb_refl.
  - cbn [rank]. pose proof (put_work new cp (checkpoints st) (l_run l) D I E) as W. assert (open_work (l_run l) (merged new cp) = open_work (l_run l) cp) as X.
    { unfold open_work, open_checkpoint in *. rewrite O. cbn [merged cp_run cp_status new rewrite_checkpoint]. by rewrite R, Z.eqb_refl. }
    unfold work_left. cbn [checkpoints update_run set_runs upsert_checkpoint set_checkpoints]. fold new. lia.
Qed.

Lemma rank_page l cp now st p' st' : on_row (Fetching l cp) st ->
  page_step env l cp (page_of (cp_product cp) (start_index cp)) (total_of (cp_product cp)) None now st = (p', st') ->
  on_row p' st' /\ (rank p' st' < rank (Fetching l cp) st)%nat.
Proof.
  intros H. unfold page_step. cbn [err_is orb]. destruct ((_ =? 0) && _).
  { intros [= <- <-]. destruct (rewrite_less l cp st now "not_found" 0 0 0 (Some "not_found") (with_pages (l_pages l + 1)) H) as [A B]; [by left|]. split; [by split|]. cbn [rank l_run]. cbn zeta in B. lia. }
  unfold store_page. set (done_product := (_ <=? _) || _). assert (on_row (Fetching l cp) (add_ids (List.filter nonempty (page_of (cp_product cp) (start_index cp))) st)) as H' by exact H.
  assert (forall t n e f, let st' := update_run now (l_run l) f (upsert_checkpoint (rewrite_checkpoint now (l_run l) cp (if done_product then "done" else "pending")
      (if done_product then 0 else start_index cp + RESULTS_PER_PAGE) t n e) (add_ids (List.filter nonempty (page_of (cp_product cp) (start_index cp))) st)) in
    NoDup (map cp_id (checkpoints st')) /\ (work_left (l_run l) st' < work_left (l_run l) st)%nat) as G.
  { intros t n e f. refine (rewrite_less l cp (add_ids _ st) now _ _ t n e f H' _). destruct done_product eqn:Q; [by left|right]. split; [done|]. apply orb_false_iff in Q as [Q _]. lia. }
  destruct (page_eta _ _) as [eta|x]; intros [= <- <-].
  - match goal with |- context [update_run now (l_run l) ?f (upsert_checkpoint (rewrite_checkpoint _ _ _ _ _ ?t ?n ?e) _)] => destruct (G t n e f) as [A B] end.
    split; [by split|]. cbn [rank l_run]. lia.
  - match goal with |- context [fail_run now (l_run l) ?m (upsert_checkpoint (rewrite_checkpoint _ _ _ _ _ ?t ?n ?e) _)] =>
      destruct (G t n e (fun r => with_message "Tier A failed — see error." (with_error (stake 500 m) (with_status "failed" r)))) as [A B] end.
    split; [by split|]. cbn [rank]. lia.
Qed.

Lemma rank_step p st now mono p' st' : on_row p st -> (forall e, p <> Ended e) -> worker_step env (mkEvent now mono (answer_for p)) p st = (p', st') ->
  on_row p' st' /\ (rank p' st' < rank p st)%nat.
Proof.
  intros H N. unfold worker_step. destruct p as [k|k started snap|l|l cp|l|l|e]; cbn [answer_for e_input e_now e_mono].
  - unfold start_step. destruct (runs st !! k) as [r|]; [|intros [= <- <-]; split; [by split; [apply H|]|cbn; lia]].
    destruct (terminal _); intros [= <- <-]; (split; [by split; [apply H|]|cbn; lia]).
  - unfold claim_step, claim_run_running. destruct (runs st !! k) as [r|]; [|intros [= <- <-]; split; [by split; [apply H|]|cbn; lia]].
    destruct (claimable _ _ _); intros [= <- <-]; (split; [by split; [apply H|]|]); [cbn [rank l_run begin_locals]; unfold work_left; cbn; lia|cbn; lia].
  - by apply rank_loop.
  - by apply rank_page.
  - intros [= <- <-]. split; [by split; [apply H|]|cbn; lia].
  - intros [= <- <-]. split; [by split; [apply H|]|cbn; lia].
  - by destruct (N e).
Qed.

(** C29 [run_ends]: whatever the catalogue's totals and pages and whatever the clocks, a
    worker that runs a run alone comes to an end within twice the open pages and four
    stretches: each page is asked for once and the totals bound the pages. *)
Theorem run_ends clock id st fuel : NoDup (map cp_id (checkpoints st)) -> (4 + 2 * work_left id st <= fuel)%nat ->
  exists e st', run_alone clock fuel (Start id) st = (Ended e, st').
Proof.
  intros D L. assert (forall fuel p st, on_row p st -> (rank p st <= fuel)%nat -> exists e st', run_alone clock fuel p st = (Ended e, st')) as G.
  { clear. induction fuel as [|fuel IH]; intros p st H L.
    - destruct p; cbn in L; try lia. by eexists _, _.
    - cbn [run_alone]. destruct (worker_step _ _ p st) as [p' st'] eqn:E. destruct p as [k|k started snap|l|l cp|l|l|e] eqn:P;
        try (destruct (rank_step _ _ _ _ _ _ H ltac:(done) E) as [H' R]; apply IH; [exact H'|lia]).
      injection E as <- <-. apply IH; [exact H|cbn; lia]. }
  apply G; [by split|exact L].
Qed.

End termination.

(** ** Products, the end of a run, examples *)

Definition keyed (ps : list product) : Prop := List.NoDup (map product_key ps) /\ Forall (fun p => nonempty (product_name p) = true) ps.

Lemma add_product_keyed out v n ver c : keyed out -> keyed (add_product out v n ver c).
Proof.
  intros [D F]. unfold add_product. destruct (nonempty (strip n)) eqn:N; [|done]. cbn [negb]. destruct (existsb _ out) eqn:E; [done|]. split.
  - rewrite map_app. apply NoDup_ListNoDup, NoDup_app. split; [by apply NoDup_ListNoDup|]. split; [|apply NoDup_singleton]. intros x X Y. apply list_elem_of_singleton in Y as ->.
    apply list_elem_of_fmap in X as (p & P & I). apply list_elem_of_In in I. rewrite existsb_false in E. specialize (E p I). cbn in E, P. rewrite <-P in E. by rewrite String.eqb_refl in E.
  - apply Forall_app. split; [done|]. by apply Forall_singleton.
Qed.

Lemma dict_row_keyed out c f row out' : keyed out -> dict_row out c f row = Ok out' -> keyed out'.
Proof.
  intros K. destruct row; cbn [dict_row]; try by intros <-%ok_inj. unfold add_row. destruct (text_or_empty (f d)) as [n|]; [|done]. cbn [res_bind].
  destruct (negb _); [by intros <-%ok_inj|]. destruct (text_or_empty _) as [v|]; [|done]. cbn [res_bind]. destruct (existsb _ _); [by intros <-%ok_inj|].
  destruct (text_or_empty _) as [ver|]; [|done]. cbn [res_bind]. intros <-%ok_inj. by apply add_product_keyed.
Qed.

(** [products_are_distinct]: the products of a stack have distinct keys and a name, so a
    run has one checkpoint for each. *)
Theorem products_are_distinct profile terms out : products_from_profile profile terms = Ok out -> keyed out.
Proof.
  unfold products_from_profile. intros H. destruct (match profile with Some _ => _ | None => _ end) as [mid|] eqn:M; [|done]. cbn [res_bind] in H. apply ok_inj in H as <-.
  assert (keyed mid) as K.
  { destruct profile as [d|]; [|apply ok_inj in M as <-; by split; [constructor|]]. destruct (iter_of (py_or (dget d "operatingSystems") _)) as [oses|]; [|done]. cbn [res_bind] in M.
    destruct (fold_res _ oses _) as [o1|] eqn:O; [|done]. cbn [res_bind] in M. destruct (iter_of _) as [apps|]; [|done]. cbn [res_bind] in M.
    eapply (fold_res_inv keyed); [| |exact M]; [intros a b a' _; apply dict_row_keyed|]. eapply (fold_res_inv keyed); [| |exact O]; [intros a b a' _; apply dict_row_keyed|by split; [constructor|]]. }
  apply fold_left_inv; [|exact K]. intros a t A. destruct (nonempty (strip t)); [by apply add_product_keyed|done].
Qed.

(** [partial_is_final]: a run paused at its cap or its time limit says that it can be
    resumed later, and the resume route starts a worker; that worker stops at once and
    changes nothing, and so does one that had read the run before the pause. *)
Theorem partial_is_final env pages totals clock fuel id st r started snapshot now mono :
  runs st !! id = Some r -> status r = "partial" -> stack_backfill_enabled env = true ->
  stack_backfill_resume env id (user_id r) st = Resumed /\
  run_alone env pages totals clock (S fuel) (Start id) st = (Ended (WasFinal "partial"), st) /\
  worker_step env (mkEvent now mono Tick) (Claiming id started snapshot) st = (Ended AlreadyRunning, st).
Proof.
  intros R S E. split; [|split].
  - unfold stack_backfill_resume. by rewrite E, R, Z.eqb_refl, S.
  - cbn [run_alone answer_for worker_step e_input]. unfold start_step. rewrite R, S. cbn [terminal one_in existsb String.eqb]. change (terminal "partial") with true. cbv iota.
    induction fuel as [|fuel IH]; [done|exact IH].
  - cbn [worker_step e_input e_now]. unfold claim_step, claim_run_running. rewrite R. unfold claimable. by rewrite S.
Qed.

Definition no_env (k : string) : option string := None.
Definition enabled_env (k : string) : option string := if String.eqb k "STACK_BACKFILL_ENABLED" then Some "on" else None.
Definition nginx : product := mkProduct "::nginx" "" "nginx" "" "app".
Definition nginx_page (name : string) (start : Z) : list string := if start =? 0 then ["CVE-2024-1"; ""; "CVE-2024-2"] else ["CVE-2024-3"].
Definition nginx_total (name : string) : Z := 2001.
Definition tick (t : Z) (i : nat) : action := Move i (mkEvent t t Tick).
Definition page (t : Z) (i : nat) (start : Z) : action := Move i (mkEvent t t (Page (nginx_page "" start) 2001 None)).

(** Two workers of one run: the second reads the run before the first claims it, and
    claims it after the first was deferred. *)
Definition overlapping : list action :=
  [Agree 0 7 [nginx] (40, 50); Kick 1; tick 1 0; tick 2 1; tick 3 0; tick 4 0; page 5 0 0; tick 6 0; Move 0 (mkEvent 7 7 (Page [] 0 (Some "rate_limited")));
   Move 0 (mkEvent 8 8 (Booked false)); tick 9 1; tick 10 1; page 11 1 2000; tick 12 1; tick 13 1].

(** The second worker's count starts from the row it had read, so the run reports one
    record of three; and the scores of the first two are never asked for. *)
Example overlapping_counts : let st := w_store (history no_env empty_world overlapping) in
  option_map cves_upserted (runs st !! 1) = Some 1 /\ status_at st 1 = Some "completed" /\
  corpus st = ["CVE-2024-1"; "CVE-2024-2"; "CVE-2024-3"] /\ epss_asked st = ["CVE-2024-3"].
Proof. by vm_compute. Qed.

Lemma done_product_is_complete_witness : let st := w_store (history no_env empty_world overlapping) in
  map cp_status (checkpoints st) = ["done"] /\ page_stored nginx_page (corpus st) "nginx" 1.
Proof.
  assert (honest_history no_env nginx_page nginx_total empty_world overlapping) as H by (vm_compute; repeat split; repeat constructor).
  pose proof (done_product_is_complete no_env nginx_page nginx_total overlapping) as T. cbv zeta in T |- *.
  destruct (checkpoints (w_store (history no_env empty_world overlapping))) as [|c [|]] eqn:C; [vm_compute in C; discriminate| |vm_compute in C; discriminate].
  specialize (T c H ltac:(left)) as [D _]. vm_compute in C. injection C as <-. split; [done|]. apply (D eq_refl 1); [lia|by unfold nginx_total|].
  intros j J. assert (j = 0 \/ j = 1) as [-> | ->] by lia; by vm_compute.
Defined.

Lemma run_ends_witness : exists e st', let st := w_store (act no_env empty_world (Agree 0 7 [nginx] (40, 50))) in
  work_left nginx_total 1 st = 2%nat /\ run_alone no_env nginx_page nginx_total (fun n => (Z.of_nat n, 0)) 8 (Start 1) st = (Ended e, st').
Proof.
  destruct (run_ends no_env nginx_page nginx_total (fun n => (Z.of_nat n, 0)) 1 (w_store (act no_env empty_world (Agree 0 7 [nginx] (40, 50)))) 8) as (e & st' & E).
  - vm_compute. apply NoDup_singleton.
  - by vm_compute; lia.
  - exists e, st'. split; [by vm_compute|exact E].
Defined.

Lemma products_are_distinct_witness : match products_from_profile (Some [("applications", PList [PDict [("vendor", PStr "F5"); ("product", PStr "nginx")]; PStr "x"; PDict [("product", PStr " ")]])]) "nginx, Nginx,,redis" with
  | Ok out => map product_key out = ["f5::nginx"; "::nginx"; "::redis"] /\ keyed out
  | Raise _ => False
  end.
Proof.
  destruct (products_from_profile _ _) as [out|] eqn:E; [|by vm_compute in E]. split; [|exact (products_are_distinct _ _ _ E)]. vm_compute in E. by apply ok_inj in E as <-.
Defined.

(** A run whose cap of one record was reached by its first page. *)
Definition capped : world :=
  history no_env (mkWorld (mkStore {[1 := mkRun 7 "pending" [nginx] 10 1 3600 0 0 0 0 1 "" None None None]} 2 [fresh_checkpoint 0 1 nginx] [] []) [Start 1] [])
    [tick 1 0; tick 2 0; tick 3 0; page 4 0 0; tick 5 0].

Lemma partial_is_final_witness : status_at (w_store capped) 1 = Some "partial" /\ map cp_status (checkpoints (w_store capped)) = ["pending"] /\
  stack_backfill_resume enabled_env 1 7 (w_store capped) = Resumed /\
  run_alone enabled_env nginx_page nginx_total (fun _ => (100, 0)) 1 (Start 1) (w_store capped) = (Ended (WasFinal "partial"), w_store capped).
Proof.
  split; [by vm_compute|]. split; [by vm_compute|]. destruct (runs (w_store capped) !! 1) as [r|] eqn:R; [|by vm_compute in R].
  assert (user_id r = 7 /\ status r = "partial") as [U S] by (vm_compute in R; injection R as <-; done).
  destruct (partial_is_final enabled_env nginx_page nginx_total (fun _ => (100, 0)) 0 1 (w_store capped) r 0 r 0 0 R S eq_refl) as (A & B & _). rewrite U in A. by split.
Defined.
