(* ===== verification/Tracking.v ===== *)
(** * Tracking: calls counted against provider quotas (tracking.py)

    Calls are counted in a buffer in memory, flushed to the table api_usage by a delayed
    task, and read back as the sum of both for the quota checks.  A coroutine is cut at
    its awaits: recording, taking a batch, writing it, and the two reads of a usage
    figure are separate steps of the [usage] state.  Times are microseconds; the clock of
    the caches is the monotonic one.  Logging is left out. *)

From S2P Require Import Prelude PyStr Float64 PyVal Dates DateText Pacing.
From Stdlib Require Import QArith.
Open Scope string_scope.
Open Scope Z_scope.

Record limits := mkLimits {
  l_name : string; daily_limit : option Z; weekly_limit : option Z; monthly_limit : option Z; hourly_limit : option Z;
  rate_limit : string; l_notes : string; l_docs_url : string; cache_hours : option Z
}.

Definition API_LIMITS : list (string * limits) :=
  [("nvd", mkLimits "NVD (NIST)" None None None None
      "50 req/30s with key · 5 req/30s anonymous"
      "No daily/monthly quota. Rate window resets every 30 seconds."
      "https://nvd.nist.gov/developers/vulnerabilities" None);
   ("kev", mkLimits "CISA KEV" None None None None
      "Unrestricted"
      "Static JSON endpoint. No rate limit or quota."
      "https://www.cisa.gov/known-exploited-vulnerabilities-catalog" None);
   ("epss", mkLimits "FIRST EPSS" None None None None
      "Unrestricted"
      "No published quota or rate limit."
      "https://www.first.org/epss/api" None);
   ("osv", mkLimits "OSV.dev" None None None None
      "Unrestricted"
      "No published quota or rate limit."
      "https://google.github.io/osv.dev/api/" None);
   ("virustotal", mkLimits "VirusTotal" (Some 500) None (Some 15500) None
      "4 req/min (public API)"
      "Public API free tier. Daily/monthly quotas reset 00:00 UTC."
      "https://docs.virustotal.com/reference/public-vs-premium-api" (Some 6));
   ("abuseipdb", mkLimits "AbuseIPDB" (Some 1000) None None None
      "1,000 check/day (free)"
      "Webmaster-verified domains: 3,000 check/day. Resets midnight UTC."
      "https://docs.abuseipdb.com/" (Some 6));
   ("greynoise", mkLimits "GreyNoise Community" None (Some 50) None None
      "50 lookups / week (free key)"
      "Shared with GreyNoise Visualizer. BRIEFR caches IP lookups 1h."
      "https://docs.greynoise.io/docs/using-the-greynoise-community-api" (Some 1));
   ("malwarebazaar", mkLimits "MalwareBazaar" None None None None
      "Fair use · Auth-Key required"
      "Scheduled recent_detections catalog sync (catalog mirror). Same ABUSECH_AUTH_KEY as URLhaus. IOC cache 6h."
      "https://bazaar.abuse.ch/api/" (Some 6));
   ("urlhaus", mkLimits "URLhaus" None None None None
      "Fair use · Auth-Key required"
      "Scheduled IOC catalog sync + one POST per domain/URL lookup. Same ABUSECH_AUTH_KEY as MalwareBazaar. IOC cache 6h."
      "https://urlhaus.abuse.ch/api/" (Some 6));
   ("sploitus", mkLimits "Sploitus" None None None None
      "Unpublished"
      "CVE exploit search (not IOC Lookup)."
      "https://sploitus.com/" None);
   ("circl", mkLimits "CIRCL CVE-Search" None None None None
      "Unrestricted"
      "CVE enrichment (not IOC Lookup)."
      "https://cve.circl.lu/" None);
   ("otx", mkLimits "AlienVault OTX" None None None (Some 10000)
      "10,000 req/hour (API key) · BRIEFR paces 2 req/sec"
      "Campaign correlation via community pulses. Hourly quota with API key. BRIEFR caches 6h per CVE/pulse/IOC."
      "https://otx.alienvault.com/api" (Some 6));
   ("openrouter", mkLimits "OpenRouter" None None None None
      "20 RPM · 50 req/day free (no credits)"
      "LLM failover provider. Daily cap override via OPENROUTER_DAILY_LIMIT (default 50)."
      "https://openrouter.ai/docs/api-reference/limits" None);
   ("threatfox", mkLimits "ThreatFox" None None None None
      "Fair use · Auth-Key required"
      "Scheduled IOC catalog sync (not IOC Lookup tab)."
      "https://threatfox.abuse.ch/api/" None);
   ("feodo", mkLimits "Feodo Tracker" None None None None
      "Public CC0 CSV"
      "Scheduled botnet C2 IP mirror (correlation; not blocklist export)."
      "https://feodotracker.abuse.ch/blocklist/" None);
   ("phishtank", mkLimits "PhishTank" None None None None
      "Community CSV · optional app key"
      "Scheduled verified-online phishing URL mirror for blocklist export."
      "https://phishtank.org/developer_info.php" None);
   ("tranco", mkLimits "Tranco" None None None None
      "Daily ZIP download"
      "Top-1M legitimate-domain bulk import into infra classifications."
      "https://tranco-list.eu/" None);
   ("vulncheck", mkLimits "VulnCheck" None None None None
      "~1,000 req/min (community)"
      "KEV enrichment index sync when VULNCHECK_API_KEY is set."
      "https://docs.vulncheck.com/" None)].

(** The services of the IOC lookup; none aggregates the counters of others. *)
Definition IOC_QUOTA_SERVICES : list (string * option (list string)) :=
  map (fun s => (s, None)) ["virustotal"; "abuseipdb"; "greynoise"; "otx"; "malwarebazaar"; "urlhaus"].

Definition limit_of (f : limits -> option Z) (service : string) : option Z :=
  match assoc service API_LIMITS with Some l => f l | None => None end.

Definition hourly_tracked (service : string) : bool := match limit_of hourly_limit service with Some _ => true | None => false end.

(** [strftime] with ["%Y-%m-%dT%H"], ["%Y-%m-%d"] and ["%Y-%m"]. *)
Definition day_text (now : Z) : string := date_text (now / DAY_US).
Definition hour_text (now : Z) : string := day_text now +:+ "T" +:+ zfill 2 (now mod DAY_US / 3600000000).
Definition month_text (now : Z) : string := stake 7 (day_text now).

Definition _usage_bucket_key (service : string) (now : Z) : string := if hourly_tracked service then hour_text now else day_text now.

(** Monday is weekday 0; the epoch was a Thursday. *)
Definition _week_start_utc (now : Z) : string := let day := now / DAY_US in date_text (day - (day + 3) mod 7).

Section env.
Context (env : string -> option string).

Definition _effective_hourly_limit (service : string) : res (option Z) :=
  match limit_of hourly_limit service with
  | None => Ok None
  | Some n => if String.eqb service "otx" then let! n := get_otx_hourly_limit env in Ok (Some n) else Ok (Some n)
  end.

Definition _effective_daily_limit (service : string) : option Z :=
  if String.eqb service "openrouter" then get_openrouter_daily_limit env else limit_of daily_limit service.

(** ** The state *)

Abbreviation key := (string * string * string)%type.

(** A row of api_usage; its key is the service and the day or hour. *)
Record usage_row := mkUsage { u_service : string; u_date : string; u_month : string; u_count : Z }.

Record usage := mkState {
  pending : list (key * Z); inflight : option (list (key * Z)); scheduled : bool; api_usage : list usage_row;
  bucket_cache : list ((string * string) * (Z * Z)); week_cache : list ((string * string) * (Z * Z)); month_cache : list ((string * string) * (Z * Z))
}.

Definition initial : usage := mkState [] None false [] [] [] [].

Definition key_eqb (a b : key) : bool :=
  String.eqb (fst (fst a)) (fst (fst b)) && String.eqb (snd (fst a)) (snd (fst b)) && String.eqb (snd a) (snd b).

(** [d\[k\] = d.get(k, 0) + n] *)
Fixpoint bump (d : list (key * Z)) (k : key) (n : Z) : list (key * Z) :=
  match d with
  | [] => [(k, n)]
  | (k', m) :: t => if key_eqb k' k then (k', m + n) :: t else (k', m) :: bump t k n
  end.

(** INSERT ... ON CONFLICT(service, date_utc) DO UPDATE *)
Fixpoint add_usage (table : list usage_row) (k : key) (n : Z) : list usage_row :=
  match table with
  | [] => [mkUsage (fst (fst k)) (snd (fst k)) (snd k) n]
  | r :: t => if String.eqb (u_service r) (fst (fst k)) && String.eqb (u_date r) (snd (fst k)) then mkUsage (u_service r) (u_date r) (snd k) (u_count r + n) :: t
              else r :: add_usage t k n
  end.

Definition with_pending (p : list (key * Z)) (s : usage) : usage :=
  mkState p (inflight s) (scheduled s) (api_usage s) (bucket_cache s) (week_cache s) (month_cache s).

(** [record_api_call], up to its warnings. *)
Definition record_api_call (service : string) (count now : Z) (s : usage) : usage :=
  if count <=? 0 then s
  else mkState (bump (pending s) (service, _usage_bucket_key service now, month_text now) count) (inflight s) true (api_usage s)
         (bucket_cache s) (week_cache s) (month_cache s).

(** [flush_api_usage_pending]: the batch is taken when no other is being written. *)
Definition take_batch (s : usage) : usage :=
  match inflight s with
  | Some _ => s
  | None => mkState [] (match pending s with [] => None | b => Some b end) false (api_usage s) (bucket_cache s) (week_cache s) (month_cache s)
  end.

Definition write_batch (s : usage) : usage :=
  match inflight s with
  | None => s
  | Some b => mkState (pending s) None (scheduled s) (fold_left (fun t kn => add_usage t (fst kn) (snd kn)) b (api_usage s))
                (bucket_cache s) (week_cache s) (month_cache s)
  end.

(** The write raised: the batch goes back and a flush is scheduled. *)
Definition requeue_batch (s : usage) : usage :=
  match inflight s with
  | None => s
  | Some b => mkState (fold_left (fun d kn => bump d (fst kn) (snd kn)) b (pending s)) None true (api_usage s) (bucket_cache s) (week_cache s) (month_cache s)
  end.

(** ** Reading *)

Definition sum_by {A} (f : A -> Z) (l : list A) : Z := fold_right (fun a n => f a + n) 0 l.

(** [SUM(count)] of the rows that [keep] selects; NULL reads as 0. *)
Definition sum_rows (keep : usage_row -> bool) (table : list usage_row) : Z := sum_by u_count (List.filter keep table).
Definition sum_pending (keep : key -> bool) (p : list (key * Z)) : Z := sum_by snd (List.filter (fun kn => keep (fst kn)) p).

Definition CACHE_TTL : Z := 2000000.

Fixpoint cache_get (c : list ((string * string) * (Z * Z))) (k : string * string) : option (Z * Z) :=
  match c with
  | [] => None
  | (k', v) :: t => if String.eqb (fst k') (fst k) && String.eqb (snd k') (snd k) then Some v else cache_get t k
  end.
Fixpoint cache_put (c : list ((string * string) * (Z * Z))) (k : string * string) (v : Z * Z) : list ((string * string) * (Z * Z)) :=
  match c with
  | [] => [(k, v)]
  | (k', v') :: t => if String.eqb (fst k') (fst k) && String.eqb (snd k') (snd k) then (k', v) :: t else (k', v') :: cache_put t k v
  end.

(** A committed figure through its cache; [ok] is whether the database could be read. *)
Definition committed (cache : list ((string * string) * (Z * Z))) (k : string * string) (mono : Z) (ok : bool) (value : Z) : Z * list ((string * string) * (Z * Z)) :=
  match cache_get cache k with
  | Some (t, v) => if mono - t <? CACHE_TTL then (v, cache) else if ok then (value, cache_put cache k (mono, value)) else (v, cache)
  | None => if ok then (value, cache_put cache k (mono, value)) else (0, cache)
  end.

Definition in_bucket (service bucket : string) (r : usage_row) : bool := String.eqb (u_service r) service && String.eqb (u_date r) bucket.
Definition in_day (service today : string) (r : usage_row) : bool := String.eqb (u_service r) service && startswith (u_date r) today.
Definition in_week (service week_start : string) (r : usage_row) : bool := String.eqb (u_service r) service && negb (String.ltb (u_date r) week_start).
Definition in_month (service month : string) (r : usage_row) : bool := String.eqb (u_service r) service && String.eqb (u_month r) month.

(** The same selections on a buffered key. *)
Definition key_row (k : key) : usage_row := mkUsage (fst (fst k)) (snd (fst k)) (snd k) 0.

Definition _committed_usage_bucket (service bucket : string) (mono : Z) (ok : bool) (s : usage) : Z * usage :=
  let '(v, c) := committed (bucket_cache s) (service, bucket) mono ok (sum_rows (in_bucket service bucket) (api_usage s)) in
  (v, mkState (pending s) (inflight s) (scheduled s) (api_usage s) c (week_cache s) (month_cache s)).
Definition _committed_week_usage (service : string) (now mono : Z) (ok : bool) (s : usage) : Z * usage :=
  let week := _week_start_utc now in
  let '(v, c) := committed (week_cache s) (service, week) mono ok (sum_rows (in_week service week) (api_usage s)) in
  (v, mkState (pending s) (inflight s) (scheduled s) (api_usage s) (bucket_cache s) c (month_cache s)).
Definition _committed_month_usage (service : string) (now mono : Z) (ok : bool) (s : usage) : Z * usage :=
  let month := month_text now in
  let '(v, c) := committed (month_cache s) (service, month) mono ok (sum_rows (in_month service month) (api_usage s)) in
  (v, mkState (pending s) (inflight s) (scheduled s) (api_usage s) (bucket_cache s) (week_cache s) c).

(** The figures, when nothing happens between the two reads. *)
Definition get_hour_usage (service : string) (now mono : Z) (ok : bool) (s : usage) : Z * usage :=
  let bucket := _usage_bucket_key service now in
  let '(v, s') := _committed_usage_bucket service bucket mono ok s in (v + sum_pending (fun k => in_bucket service bucket (key_row k)) (pending s'), s').
Definition get_today_usage (service : string) (now mono : Z) (ok : bool) (s : usage) : Z * usage :=
  let today := day_text now in
  if hourly_tracked service then
    ((if ok then sum_rows (in_day service today) (api_usage s) else 0) + sum_pending (fun k => in_day service today (key_row k)) (pending s), s)
  else
    let '(v, s') := _committed_usage_bucket service today mono ok s in (v + sum_pending (fun k => in_bucket service today (key_row k)) (pending s'), s').
Definition get_week_usage (service : string) (now mono : Z) (ok : bool) (s : usage) : Z * usage :=
  let '(v, s') := _committed_week_usage service now mono ok s in (v + sum_pending (fun k => in_week service (_week_start_utc now) (key_row k)) (pending s'), s').
Definition get_month_usage (service : string) (now mono : Z) (ok : bool) (s : usage) : Z * usage :=
  let '(v, s') := _committed_month_usage service now mono ok s in (v + sum_pending (fun k => in_month service (month_text now) (key_row k)) (pending s'), s').

(** A check of one cap: [None] for no cap. *)
Definition below (limit : option Z) (get : usage -> Z * usage) (s : usage) : bool * usage :=
  match limit with None => (true, s) | Some n => let '(v, s) := get s in (v <? n, s) end.

Definition has_quota (service : string) (now mono : Z) (ok : bool) (s : usage) : res (bool * usage) :=
  let! hourly := _effective_hourly_limit service in
  let '(b, s) := below hourly (get_hour_usage service now mono ok) s in
  if negb b then Ok (false, s)
  else
    let '(b, s) := below (_effective_daily_limit service) (get_today_usage service now mono ok) s in
    if negb b then Ok (false, s)
    else
      let '(b, s) := below (limit_of weekly_limit service) (get_week_usage service now mono ok) s in
      if negb b then Ok (false, s)
      else Ok (below (limit_of monthly_limit service) (get_month_usage service now mono ok) s).

(** ** The caps on requests to language models: a count that could not be read is [None] *)

Definition env_cap (name : string) (default : string) (fallback : Z) : Z :=
  match int_of_str (match env name with Some s => s | None => default end) with Ok n => Z.max 1 n | Raise _ => fallback end.
Definition _ai_daily_cap : Z := env_cap "AI_DAILY_REQUEST_CAP" "200" 200.
Definition _ai_minute_cap : Z := env_cap "AI_PER_MINUTE_CAP" "10" 10.
Definition _QUOTA_UNAVAILABLE : Z := -1.

Definition or_unavailable (n : option Z) : Z := match n with Some n => n | None => _QUOTA_UNAVAILABLE end.

Definition has_ai_request_quota (today minute : option Z) : bool :=
  let today := or_unavailable today in
  if today =? _QUOTA_UNAVAILABLE then false
  else if _ai_daily_cap <=? today then false
  else let minute := or_unavailable minute in if minute =? _QUOTA_UNAVAILABLE then false else minute <? _ai_minute_cap.

Record quota_snapshot := mkSnapshot { daily_cap : Z; daily_used : Z; minute_cap : Z; minute_used : Z; daily_remaining : Z; quota_unavailable : bool }.

Definition ai_request_quota_snapshot (today minute : option Z) : quota_snapshot :=
  let today := or_unavailable today in
  let minute := or_unavailable minute in
  let daily_used := if today =? _QUOTA_UNAVAILABLE then 0 else today in
  mkSnapshot _ai_daily_cap daily_used _ai_minute_cap (if minute =? _QUOTA_UNAVAILABLE then 0 else minute) (Z.max 0 (_ai_daily_cap - daily_used))
    ((today =? _QUOTA_UNAVAILABLE) || (minute =? _QUOTA_UNAVAILABLE)).

(** ** The report *)

Record bucket := mkBucket { b_used : Z; b_limit : option Z; b_remaining : option Z; b_percent : option fl; b_warning : option string }.

(** [round(used / limit * 100, 1)], when the limit is not 0. *)
Definition percent (used : Z) (limit : option Z) : res (option fl) :=
  match limit with
  | None => Ok None
  | Some n => if n =? 0 then Ok None else let! q := int_truediv used n in Ok (Some (round_nd (fmul q (lit (100 # 1))) 1))
  end.

Definition at_least_80 (p : option fl) : bool := match p with Some x => fle (lit (80 # 1)) x | None => false end.

Definition _usage_bucket (used : Z) (limit : option Z) (period : string) : res bucket :=
  let remaining := option_map (fun n => n - used) limit in
  let! pct := percent used limit in
  let warning := match remaining with
                 | Some r => if r <=? 0 then Some (period +:+ "_quota_exceeded") else if at_least_80 pct then Some (period +:+ "_quota_near_limit") else None
                 | None => None
                 end in
  Ok (mkBucket used limit remaining pct warning).

Record service_stat := mkStat {
  s_service : string; s_limits : limits; source_services : list string; today : bucket; this_month : bucket;
  this_hour : option bucket; this_week : option bucket; s_warning : option string
}.

Definition used_by (sources : list string) (m : list (string * Z)) : Z := sum_by (fun s => match assoc s m with Some n => n | None => 0 end) sources.
Definition first_warning (a b : option string) : option string := match a with Some _ => a | None => b end.

Definition _build_service_stat (service : string) (l : limits) (today_map month_map week_map hour_map : list (string * Z)) (sources : option (list string)) : res service_stat :=
  let sources := match sources with Some (s :: t) => s :: t | _ => [service] end in
  let monthly_used := used_by sources month_map in
  let! hourly := _effective_hourly_limit service in
  let! daily_bucket := _usage_bucket (used_by sources today_map) (daily_limit l) "daily" in
  let! weekly_bucket := _usage_bucket (used_by sources week_map) (weekly_limit l) "weekly" in
  let monthly_remaining := option_map (fun n => n - monthly_used) (monthly_limit l) in
  let! monthly_pct := percent monthly_used (monthly_limit l) in
  let monthly_warning := match monthly_limit l, monthly_remaining with
                         | Some n, Some r => if n =? 0 then None else if r <=? 0 then Some "monthly_quota_exceeded"
                                             else if at_least_80 monthly_pct then Some "monthly_quota_near_limit" else None
                         | _, _ => None
                         end in
  let warning := first_warning (first_warning (b_warning daily_bucket) (match weekly_limit l with Some _ => b_warning weekly_bucket | None => None end)) monthly_warning in
  let! hour := match hourly with
               | None => Ok None
               | Some n => let! b := _usage_bucket (used_by sources hour_map) (Some n) "hourly" in Ok (Some b)
               end in
  Ok (mkStat service l sources daily_bucket (mkBucket monthly_used (monthly_limit l) monthly_remaining monthly_pct None) hour
        (match weekly_limit l with Some _ => Some weekly_bucket | None => None end)
        (first_warning warning (match hour with Some b => b_warning b | None => None end))).

(** [GROUP BY service] *)
Definition by_service (keep : usage_row -> bool) (table : list usage_row) : list (string * Z) :=
  let rows := List.filter keep table in
  map (fun s => (s, sum_rows (fun r => keep r && String.eqb (u_service r) s) table)) (remove_dups (map u_service rows)).

Definition today_map (now : Z) (table : list usage_row) : list (string * Z) := by_service (fun r => String.eqb (u_date r) (day_text now) || startswith (u_date r) (day_text now)) table.
Definition hour_map (now : Z) (table : list usage_row) : list (string * Z) := by_service (fun r => String.eqb (u_date r) (_usage_bucket_key "otx" now)) table.
Definition month_map (now : Z) (table : list usage_row) : list (string * Z) := by_service (fun r => String.eqb (u_month r) (month_text now)) table.
Definition week_map (now : Z) (table : list usage_row) : list (string * Z) := by_service (fun r => negb (String.ltb (u_date r) (_week_start_utc now))) table.

(** An unreadable table counts as an empty one. *)
Definition get_ioc_usage_stats (now : Z) (table : list usage_row) : res (list service_stat) :=
  map_res (fun sa => let '(service, aggregate) := sa in
                     match assoc service API_LIMITS with
                     | Some l => _build_service_stat service l (today_map now table) (month_map now table) (week_map now table) (hour_map now table) aggregate
                     | None => Raise KeyError
                     end) (List.filter (fun sa => match assoc (fst sa) API_LIMITS with Some _ => true | None => false end) IOC_QUOTA_SERVICES).

Definition get_usage_stats (now : Z) (table : list usage_row) : res (list service_stat) :=
  map_res (fun sl => _build_service_stat (fst sl) (snd sl) (today_map now table) (month_map now table) [] (hour_map now table) None) API_LIMITS.

End env.

(** ** Every call is counted once *)

Inductive action :=
| Record_call (service : string) (count now : Z)
| Take
| Write
| Requeue
| Lose
| Read_bucket (service bucket : string) (mono : Z) (ok : bool)
| Read_week (service : string) (now mono : Z) (ok : bool)
| Read_month (service : string) (now mono : Z) (ok : bool).

(** [Lose]: the task is cancelled while its batch is being written. *)
Definition lose_batch (s : usage) : usage := mkState (pending s) None false (api_usage s) (bucket_cache s) (week_cache s) (month_cache s).

Definition act (s : usage) (a : action) : usage :=
  match a with
  | Record_call service count now => record_api_call service count now s
  | Take => take_batch s
  | Write => write_batch s
  | Requeue => requeue_batch s
  | Lose => lose_batch s
  | Read_bucket service bucket mono ok => snd (_committed_usage_bucket service bucket mono ok s)
  | Read_week service now mono ok => snd (_committed_week_usage service now mono ok s)
  | Read_month service now mono ok => snd (_committed_month_usage service now mono ok s)
  end.

Definition history (l : list action) : usage := fold_left act l initial.

Definition call_key (service : string) (now : Z) : string * string * string := (service, _usage_bucket_key service now, month_text now).
Definition row_key (r : usage_row) : string * string * string := (u_service r, u_date r, u_month r).

(** The calls a history recorded in a window. *)
Definition recorded_by (keep : usage_row -> bool) (a : action) : Z :=
  match a with Record_call service count now => if (0 <? count) && keep (key_row (call_key service now)) then count else 0 | _ => 0 end.
Definition recorded (keep : usage_row -> bool) (l : list action) : Z := sum_by (recorded_by keep) l.

(** The calls a state accounts for: written, being written, buffered. *)
Definition in_flight (keep : usage_row -> bool) (s : usage) : Z := match inflight s with Some b => sum_pending (fun k => keep (key_row k)) b | None => 0 end.
Definition counted (keep : usage_row -> bool) (s : usage) : Z :=
  sum_rows keep (api_usage s) + in_flight keep s + sum_pending (fun k => keep (key_row k)) (pending s).

(** A window looks at the key of a row only. *)
Definition by_key (keep : usage_row -> bool) : Prop := forall r, keep r = keep (key_row (row_key r)).

(** The month of a key is that of its day. *)
Definition dated (k : string * string * string) : Prop := snd k = stake 7 (snd (fst k)).

Lemma stake_prefix n a b : (n <= String.length a)%nat -> stake n (a +:+ b) = stake n a.
Proof.
  revert a. induction n as [|n IH]; intros a H; [by destruct a, b|]. destruct a as [|c a]; [cbn in H; lia|]. change (String c a +:+ b) with (String c (a +:+ b)).
  cbn [stake]. cbn [String.length] in H. by rewrite IH by lia.
Qed.

Lemma call_key_dated service now : dated (call_key service now).
Proof.
  unfold dated, call_key, _usage_bucket_key, month_text, hour_text. cbn [fst snd]. destruct (hourly_tracked service); [|done].
  rewrite stake_prefix; [done|]. unfold day_text. rewrite date_text_length. lia.
Qed.

Lemma sum_by_app {A} (f : A -> Z) l l' : sum_by f (l ++ l') = sum_by f l + sum_by f l'.
Proof. induction l as [|a l IH]; cbn in *; [done|]. unfold sum_by in *. rewrite IH. lia. Qed.

Lemma sum_by_nonneg {A} (f : A -> Z) l : Forall (fun a => 0 <= f a) l -> 0 <= sum_by f l.
Proof. induction 1; cbn; [lia|]. unfold sum_by in *. lia. Qed.

Lemma key_eqb_eq (a b : string * string * string) : key_eqb a b = true <-> a = b.
Proof. destruct a as [[a1 a2] a3], b as [[b1 b2] b3]. unfold key_eqb. cbn. rewrite !andb_true_iff, !String.eqb_eq. split; [by intros [[-> ->] ->]|by intros [= -> -> ->]]. Qed.

Lemma sum_bump keep d k n : sum_pending keep (bump d k n) = sum_pending keep d + (if keep k then n else 0).
Proof.
  unfold sum_pending. induction d as [|[k' m] d IH]; cbn [bump List.filter fst].
  - destruct (keep k); cbn; lia.
  - destruct (key_eqb k' k) eqn:E; cbn [List.filter fst].
    + apply key_eqb_eq in E as ->. destruct (keep k); cbn; [|lia]. lia.
    + destruct (keep k'); cbn [sum_by fold_right snd] in *; unfold sum_by in *; lia.
Qed.

Lemma sum_add_usage keep table k n : by_key keep -> Forall (fun r => dated (row_key r)) table -> dated k ->
  sum_rows keep (add_usage table k n) = sum_rows keep table + (if keep (key_row k) then n else 0).
Proof.
  intros K D Dk. unfold sum_rows. induction D as [|r t Dr D IH]; cbn [add_usage].
  - cbn [List.filter]. rewrite K. destruct k as [[s d] m]. cbn. unfold key_row, row_key. cbn. destruct (keep _); cbn; lia.
  - destruct (String.eqb (u_service r) (fst (fst k)) && String.eqb (u_date r) (snd (fst k))) eqn:E.
    + apply andb_true_iff in E as [E1%String.eqb_eq E2%String.eqb_eq]. assert (row_key r = k) as X.
      { unfold dated, row_key in *. destruct k as [[s d] m]. cbn in *. by rewrite Dr, Dk, E1, E2. }
      cbn [List.filter]. rewrite (K (mkUsage _ _ _ _)), (K r), X. unfold row_key. cbn [u_service u_date u_month].
      assert ((u_service r, u_date r, snd k) = k) as -> by (destruct k as [[s d] m]; cbn in *; by rewrite E1, E2).
      destruct (keep (key_row k)); cbn [sum_by fold_right u_count]; lia.
    + cbn [List.filter]. destruct (keep r); cbn [sum_by fold_right] in *; unfold sum_by in *; lia.
Qed.

Lemma add_usage_forall (P : usage_row -> Prop) table k n : Forall P table -> (forall m, P (mkUsage (fst (fst k)) (snd (fst k)) (snd k) m)) -> Forall P (add_usage table k n).
Proof.
  intros F H. induction F as [|r t Pr F IH]; cbn [add_usage]; [by apply List.Forall_cons|].
  destruct (String.eqb (u_service r) (fst (fst k)) && String.eqb (u_date r) (snd (fst k))) eqn:E; [|by apply List.Forall_cons].
  apply andb_true_iff in E as [->%String.eqb_eq ->%String.eqb_eq]. by apply List.Forall_cons.
Qed.

(** Keys are dated and counts positive, in the table, in the batch and in the buffer; what the
    caches hold was true of an earlier table. *)
Definition fine (kn : (string * string * string) * Z) : Prop := dated (fst kn) /\ 0 < snd kn.
Definition batch_of (s : usage) : list ((string * string * string) * Z) := match inflight s with Some b => b | None => [] end.

Definition cache_ok (window : string * string -> usage_row -> bool) (c : list ((string * string) * (Z * Z))) (table : list usage_row) : Prop :=
  Forall (fun e => snd (snd e) <= sum_rows (window (fst e)) table) c.

Definition windowed (w : string -> string -> usage_row -> bool) (k : string * string) : usage_row -> bool := w (fst k) (snd k).

Definition state_ok (s : usage) : Prop :=
  Forall (fun r => dated (row_key r) /\ 0 < u_count r) (api_usage s) /\ Forall fine (batch_of s) /\ Forall fine (pending s) /\
  cache_ok (windowed in_bucket) (bucket_cache s) (api_usage s) /\ cache_ok (windowed in_week) (week_cache s) (api_usage s) /\
  cache_ok (windowed in_month) (month_cache s) (api_usage s).

Lemma bump_fine d k n : Forall fine d -> dated k -> 0 < n -> Forall fine (bump d k n).
Proof.
  intros F D N. induction F as [|[k' m] t Fk F IH]; cbn [bump]; [by apply List.Forall_cons|]. destruct (key_eqb k' k); apply List.Forall_cons; try done.
  destruct Fk as [F1 F2]. split; [done|cbn in *; lia].
Qed.

Lemma sum_pending_nonneg keep d : Forall fine d -> 0 <= sum_pending keep d.
Proof.
  intros F. apply sum_by_nonneg. apply List.Forall_forall. intros x X. apply filter_In in X as [X _]. rewrite List.Forall_forall in F. destruct (F x X). lia.
Qed.

Lemma sum_rows_mono keep table k n : by_key keep -> Forall (fun r => dated (row_key r) /\ 0 < u_count r) table -> dated k -> 0 <= n -> sum_rows keep table <= sum_rows keep (add_usage table k n).
Proof.
  intros K F D N. rewrite sum_add_usage; [destruct (keep _); lia|done| |done]. eapply List.Forall_impl; [|exact F]. by intros r [].
Qed.

Lemma window_by_key k : by_key (windowed in_bucket k) /\ by_key (windowed in_week k) /\ by_key (windowed in_month k) /\ forall a b, by_key (in_day a b).
Proof. repeat split; done. Qed.

(** Writing a batch: the table grows by its sums. *)
Lemma write_sums b table : Forall fine b -> Forall (fun r => dated (row_key r) /\ 0 < u_count r) table ->
  let table' := fold_left (fun t kn => add_usage t (fst kn) (snd kn)) b table in
  Forall (fun r => dated (row_key r) /\ 0 < u_count r) table' /\
  forall keep, by_key keep -> sum_rows keep table' = sum_rows keep table + sum_pending (fun k => keep (key_row k)) b.
Proof.
  intros F. revert table. induction F as [|[k n] b [D N] F IH]; intros table T; cbv zeta; cbn [fold_left]; [split; [done|]; intros; cbn; lia|].
  cbn [fst snd] in *. assert (Forall (fun r => dated (row_key r) /\ 0 < u_count r) (add_usage table k n)) as T'.
  { clear IH F. induction T as [|r t [Dr Nr] T IH]; cbn [add_usage]; [by apply List.Forall_cons; [destruct k as [[]]|]|].
    destruct (String.eqb (u_service r) (fst (fst k)) && String.eqb (u_date r) (snd (fst k))) eqn:E; [|by apply List.Forall_cons].
    apply andb_true_iff in E as [E1%String.eqb_eq E2%String.eqb_eq]. apply List.Forall_cons; [|done]. split; [|cbn; lia]. unfold dated, row_key in *. cbn [fst snd u_service u_date u_month] in *. congruence. }
  destruct (IH _ T') as [A B]. split; [exact A|]. intros keep K. rewrite (B keep K), sum_add_usage; [|done| |done].
  - unfold sum_pending. cbn [List.filter fst]. destruct (keep (key_row k)); cbn [sum_by fold_right snd]; unfold sum_by; lia.
  - eapply List.Forall_impl; [|exact T]. by intros r [].
Qed.

Lemma requeue_sums b d keep : sum_pending keep (fold_left (fun d kn => bump d (fst kn) (snd kn)) b d) = sum_pending keep d + sum_pending keep b.
Proof.
  revert d. induction b as [|[k n] b IH]; intros d; cbn [fold_left]; [cbn; lia|]. rewrite IH, sum_bump. unfold sum_pending. cbn [List.filter fst].
  destruct (keep k); cbn [sum_by fold_right fst snd]; unfold sum_by; lia.
Qed.

Lemma requeue_fine b d : Forall fine b -> Forall fine d -> Forall fine (fold_left (fun d kn => bump d (fst kn) (snd kn)) b d).
Proof. intros F. revert d. induction F as [|[k n] b [D N] F IH]; intros d Fd; [done|]. apply IH. by apply bump_fine. Qed.

Lemma cache_get_in c k v : cache_get c k = Some v -> In (k, v) c.
Proof.
  induction c as [|[k' v'] t IH]; cbn; [done|]. destruct (String.eqb (fst k') (fst k) && String.eqb (snd k') (snd k)) eqn:E; [|auto].
  apply andb_true_iff in E as [E1%String.eqb_eq E2%String.eqb_eq]. intros [= ->]. left. destruct k', k; cbn in *; congruence.
Qed.

Lemma cache_put_ok w c table k t v : cache_ok w c table -> v <= sum_rows (w k) table -> cache_ok w (cache_put c k (t, v)) table.
Proof.
  intros C V. induction C as [|[k' v'] c Ce C IH]; cbn [cache_put]; [by apply List.Forall_cons|].
  destruct (String.eqb (fst k') (fst k) && String.eqb (snd k') (snd k)) eqn:E; apply List.Forall_cons; try done. cbn.
  apply andb_true_iff in E as [E1%String.eqb_eq E2%String.eqb_eq]. destruct k', k; cbn in *. by subst.
Qed.

(** A committed figure is at most what the table holds, and the caches stay right. *)
Lemma committed_ok w c table k mono ok : cache_ok w c table -> 0 <= sum_rows (w k) table ->
  let '(v, c') := committed c k mono ok (sum_rows (w k) table) in v <= sum_rows (w k) table /\ cache_ok w c' table.
Proof.
  intros C N. unfold committed. destruct (cache_get c k) as [[t v]|] eqn:G.
  - apply cache_get_in in G. assert (v <= sum_rows (w k) table) as V by (unfold cache_ok in C; rewrite List.Forall_forall in C; by apply (C _ G)).
    destruct (_ <? _); [done|]. destruct ok; [|done]. split; [lia|]. by apply cache_put_ok.
  - destruct ok; [|done]. split; [lia|]. by apply cache_put_ok.
Qed.

Lemma cache_grows w c table table' : (forall k, by_key (w k)) -> (forall keep, by_key keep -> sum_rows keep table <= sum_rows keep table') -> cache_ok w c table -> cache_ok w c table'.
Proof. intros K M C. eapply List.Forall_impl; [|exact C]. intros e H. cbn in H. pose proof (M (w (fst e)) (K _)). lia. Qed.

Lemma sum_rows_nonneg keep table : Forall (fun r => dated (row_key r) /\ 0 < u_count r) table -> 0 <= sum_rows keep table.
Proof. intros F. apply sum_by_nonneg. apply List.Forall_forall. intros x X. apply filter_In in X as [X _]. rewrite List.Forall_forall in F. destruct (F x X). lia. Qed.

Lemma act_ok s a : state_ok s -> state_ok (act s a).
Proof.
  intros (T & B & P & C1 & C2 & C3). destruct a as [service count now| | | | |service bucket mono ok|service now mono ok|service now mono ok]; cbn [act].
  - unfold record_api_call. destruct (Z.leb_spec count 0); [done|]. split; [done|]. split; [done|]. split; [|done]. cbn [pending]. apply bump_fine; [done|apply call_key_dated|done].
  - unfold take_batch. unfold batch_of in B. destruct (inflight s) as [b|] eqn:I; [repeat split; try done; unfold batch_of; by rewrite I|].
    split; [done|]. split; [cbn; by destruct (pending s)|]. split; [constructor|done].
  - unfold write_batch. unfold batch_of in B. destruct (inflight s) as [b|] eqn:I; [|repeat split; try done; unfold batch_of; by rewrite I].
    destruct (write_sums b (api_usage s) B T) as [T' S]. assert (forall keep, by_key keep -> sum_rows keep (api_usage s) <= sum_rows keep (fold_left (fun t kn => add_usage t (fst kn) (snd kn)) b (api_usage s))) as M.
    { intros keep K. rewrite (S keep K). pose proof (sum_pending_nonneg (fun k => keep (key_row k)) b B). lia. }
    split; [exact T'|]. split; [constructor|]. split; [done|]. cbn [bucket_cache week_cache month_cache api_usage]. repeat split; (eapply cache_grows; [|exact M|done]; intros k; apply window_by_key).
  - unfold requeue_batch. unfold batch_of in B. destruct (inflight s) as [b|] eqn:I; [|repeat split; try done; unfold batch_of; by rewrite I].
    split; [done|]. split; [constructor|]. split; [by apply requeue_fine|done].
  - split; [done|]. split; [constructor|done].
  - unfold _committed_usage_bucket. pose proof (committed_ok (windowed in_bucket) (bucket_cache s) (api_usage s) (service, bucket) mono ok C1 (sum_rows_nonneg _ _ T)) as H.
    unfold windowed in H at 1. cbn [fst snd] in H. destruct (committed _ _ _ _ _) as [v c]. repeat split; try done; apply H.
  - unfold _committed_week_usage. pose proof (committed_ok (windowed in_week) (week_cache s) (api_usage s) (service, _week_start_utc now) mono ok C2 (sum_rows_nonneg _ _ T)) as H.
    unfold windowed in H at 1. cbn [fst snd] in H. destruct (committed _ _ _ _ _) as [v c]. repeat split; try done; apply H.
  - unfold _committed_month_usage. pose proof (committed_ok (windowed in_month) (month_cache s) (api_usage s) (service, month_text now) mono ok C3 (sum_rows_nonneg _ _ T)) as H.
    unfold windowed in H at 1. cbn [fst snd] in H. destruct (committed _ _ _ _ _) as [v c]. repeat split; try done; apply H.
Qed.

Definition loses (a : action) : bool := match a with Lose => true | _ => false end.

Lemma act_counted keep s a : by_key keep -> state_ok s ->
  counted keep (act s a) = counted keep s + recorded_by keep a - (if loses a then in_flight keep s else 0).
Proof.
  intros K (T & B & P & _). unfold counted. destruct a as [service count now| | | | |service bucket mono ok|service now mono ok|service now mono ok]; cbn [act loses recorded_by].
  - unfold record_api_call. destruct (Z.leb_spec count 0) as [L|L].
    + replace (0 <? count) with false by lia. cbn [andb]. lia.
    + replace (0 <? count) with true by lia. cbn [andb]. unfold in_flight. cbn [api_usage inflight pending]. rewrite sum_bump. fold (call_key service now). destruct (keep _); lia.
  - unfold take_batch, in_flight. destruct (inflight s) as [b|] eqn:I; [rewrite I; lia|]. cbn [api_usage inflight pending]. change (sum_pending (fun k => keep (key_row k)) []) with 0. destruct (pending s); [cbn|]; lia.
  - unfold write_batch, in_flight. unfold batch_of in B. destruct (inflight s) as [b|] eqn:I; [|rewrite I; lia]. cbn [api_usage inflight pending].
    destruct (write_sums b (api_usage s) B T) as [_ S]. rewrite (S keep K). lia.
  - unfold requeue_batch, in_flight. unfold batch_of in B. destruct (inflight s) as [b|] eqn:I; [|rewrite I; lia]. cbn [api_usage inflight pending]. rewrite requeue_sums. lia.
  - unfold lose_batch, in_flight at 1. cbn [api_usage inflight pending]. lia.
  - unfold _committed_usage_bucket, in_flight. destruct (committed _ _ _ _ _) as [v c]. cbn [snd api_usage inflight pending]. lia.
  - unfold _committed_week_usage, in_flight. destruct (committed _ _ _ _ _) as [v c]. cbn [snd api_usage inflight pending]. lia.
  - unfold _committed_month_usage, in_flight. destruct (committed _ _ _ _ _) as [v c]. cbn [snd api_usage inflight pending]. lia.
Qed.

Lemma initial_ok : state_ok initial.
Proof. repeat split; constructor. Qed.

Lemma history_snoc l a : history (l ++ [a]) = act (history l) a.
Proof. unfold history. by rewrite fold_left_app. Qed.

Lemma history_ok l : state_ok (history l).
Proof. induction l as [|a l IH] using rev_ind; [apply initial_ok|]. rewrite history_snoc. by apply act_ok. Qed.

Lemma recorded_snoc keep l a : recorded keep (l ++ [a]) = recorded keep l + recorded_by keep a.
Proof. unfold recorded. rewrite sum_by_app. cbn. lia. Qed.

Lemma in_flight_nonneg keep s : state_ok s -> 0 <= in_flight keep s.
Proof. intros (_ & B & _). unfold in_flight, batch_of in *. destruct (inflight s); [by apply sum_pending_nonneg|lia]. Qed.

(** C33 [calls_are_counted_once]: after any sequence of calls, batches taken, written or
    handed back, and cached reads, every window of the usage holds exactly the calls
    recorded in it, in the table, in the batch being written or in the buffer. *)
Theorem calls_are_counted_once keep l : by_key keep -> forallb (fun a => negb (loses a)) l = true -> counted keep (history l) = recorded keep l.
Proof.
  intros K. induction l as [|a l IH] using rev_ind; [done|]. rewrite forallb_app. intros [H A]%andb_true_iff. cbn in A. rewrite history_snoc, act_counted, recorded_snoc, IH by auto using history_ok.
  destruct (loses a); [done|lia].
Qed.

Lemma counted_le keep l : by_key keep -> counted keep (history l) <= recorded keep l.
Proof.
  intros K. induction l as [|a l IH] using rev_ind; [done|]. rewrite history_snoc, act_counted, recorded_snoc by auto using history_ok.
  pose proof (in_flight_nonneg keep (history l) (history_ok l)). destruct (loses a); lia.
Qed.

Lemma recorded_le keep keep' l : (forall r, keep r = keep' r) -> recorded keep l = recorded keep' l.
Proof. intros E. unfold recorded. induction l as [|a l IH]; [done|]. cbn. unfold sum_by in IH. rewrite IH. destruct a; cbn; try done. by rewrite E. Qed.

Lemma counted_read keep s s' : pending s' = pending s -> inflight s' = inflight s -> api_usage s' = api_usage s -> counted keep s' = counted keep s.
Proof. intros A B C. unfold counted, in_flight. by rewrite A, B, C. Qed.

(** A figure read at a state never exceeds what the state accounts for, and is all of it
    when no batch is in flight and the figure is fresh. *)
Definition reading (keep : usage_row -> bool) (s : usage) (r : Z * usage) : Prop :=
  fst r <= counted keep s /\ pending (snd r) = pending s /\ inflight (snd r) = inflight s /\ api_usage (snd r) = api_usage s /\ state_ok (snd r).

Lemma bucket_reading service bucket mono ok s : state_ok s ->
  reading (in_bucket service bucket) s
    (let '(v, s') := _committed_usage_bucket service bucket mono ok s in (v + sum_pending (fun k => in_bucket service bucket (key_row k)) (pending s'), s')).
Proof.
  intros H. pose proof (act_ok s (Read_bucket service bucket mono ok) H) as A. cbn [act] in A. destruct H as (T & B & P & C1 & C2 & C3).
  unfold _committed_usage_bucket in *. pose proof (committed_ok (windowed in_bucket) (bucket_cache s) (api_usage s) (service, bucket) mono ok C1 (sum_rows_nonneg _ _ T)) as X.
  unfold windowed in X at 1. cbn [fst snd] in X. destruct (committed _ _ _ _ _) as [v c]. destruct X as [V _]. split; [|done]. cbn [fst snd pending].
  unfold counted. assert (0 <= in_flight (in_bucket service bucket) s) by (unfold in_flight, batch_of in *; destruct (inflight s); [by apply sum_pending_nonneg|lia]).
  unfold windowed in *. cbn [fst snd] in *. lia.
Qed.

Lemma week_reading service now mono ok s : state_ok s -> reading (in_week service (_week_start_utc now)) s (get_week_usage service now mono ok s).
Proof.
  intros H. pose proof (act_ok s (Read_week service now mono ok) H) as A. cbn [act] in A. destruct H as (T & B & P & C1 & C2 & C3). unfold get_week_usage.
  unfold _committed_week_usage in *. pose proof (committed_ok (windowed in_week) (week_cache s) (api_usage s) (service, _week_start_utc now) mono ok C2 (sum_rows_nonneg _ _ T)) as X.
  unfold windowed in X at 1. cbn [fst snd] in X. destruct (committed _ _ _ _ _) as [v c]. destruct X as [V _]. split; [|done]. cbn [fst snd pending].
  unfold counted. assert (0 <= in_flight (in_week service (_week_start_utc now)) s) by (unfold in_flight, batch_of in *; destruct (inflight s); [by apply sum_pending_nonneg|lia]).
  unfold windowed in *. cbn [fst snd] in *. lia.
Qed.

Lemma month_reading service now mono ok s : state_ok s -> reading (in_month service (month_text now)) s (get_month_usage service now mono ok s).
Proof.
  intros H. pose proof (act_ok s (Read_month service now mono ok) H) as A. cbn [act] in A. destruct H as (T & B & P & C1 & C2 & C3). unfold get_month_usage.
  unfold _committed_month_usage in *. pose proof (committed_ok (windowed in_month) (month_cache s) (api_usage s) (service, month_text now) mono ok C3 (sum_rows_nonneg _ _ T)) as X.
  unfold windowed in X at 1. cbn [fst snd] in X. destruct (committed _ _ _ _ _) as [v c]. destruct X as [V _]. split; [|done]. cbn [fst snd pending].
  unfold counted. assert (0 <= in_flight (in_month service (month_text now)) s) by (unfold in_flight, batch_of in *; destruct (inflight s); [by apply sum_pending_nonneg|lia]).
  unfold windowed in *. cbn [fst snd] in *. lia.
Qed.

Lemma hour_reading service now mono ok s : state_ok s -> reading (in_bucket service (_usage_bucket_key service now)) s (get_hour_usage service now mono ok s).
Proof. apply bucket_reading. Qed.

Definition day_window (service : string) (now : Z) : usage_row -> bool := if hourly_tracked service then in_day service (day_text now) else in_bucket service (day_text now).

Lemma today_reading service now mono ok s : state_ok s -> reading (day_window service now) s (get_today_usage service now mono ok s).
Proof.
  intros H. unfold get_today_usage, reading, day_window. destruct (hourly_tracked service); [|by apply bucket_reading].
  split; [|done]. destruct H as (T & B & P & _). unfold counted. cbn [fst].
  assert (0 <= in_flight (in_day service (day_text now)) s) by (unfold in_flight, batch_of in *; destruct (inflight s); [by apply sum_pending_nonneg|lia]).
  pose proof (sum_rows_nonneg (in_day service (day_text now)) _ T). destruct ok; lia.
Qed.

(** What a cap sees: a refusal means the state accounts for that many calls. *)
Lemma below_reading limit keep get s : state_ok s -> (forall s, state_ok s -> reading keep s (get s)) ->
  let '(b, s') := below limit get s in
  (b = false -> exists n, limit = Some n /\ n <= counted keep s) /\ (state_ok s' /\ pending s' = pending s /\ inflight s' = inflight s /\ api_usage s' = api_usage s).
Proof.
  intros H R. unfold below. destruct limit as [n|]; [|by split]. destruct (R s H) as (V & P & I & T & O). destruct (get s) as [v s']. cbn [fst snd] in *. split; [|done].
  intros L. exists n. split; [done|]. lia.
Qed.

(** The caps of a service with the windows they limit. *)
Definition refused_by (env : string -> option string) (service : string) (now : Z) (amount : (usage_row -> bool) -> Z) : Prop :=
  (exists n, _effective_hourly_limit env service = Ok (Some n) /\ n <= amount (in_bucket service (_usage_bucket_key service now))) \/
  (exists n, _effective_daily_limit env service = Some n /\ n <= amount (day_window service now)) \/
  (exists n, limit_of weekly_limit service = Some n /\ n <= amount (in_week service (_week_start_utc now))) \/
  (exists n, limit_of monthly_limit service = Some n /\ n <= amount (in_month service (month_text now))).

(** [refusals_are_earned]: when a service is refused, as many calls as one of its caps
    allows were recorded in that cap's window, whatever was cached, in flight, lost or
    unreadable. *)
Theorem refusals_are_earned env l service now mono ok s' : has_quota env service now mono ok (history l) = Ok (false, s') ->
  refused_by env service now (fun keep => recorded keep l).
Proof.
  unfold has_quota, refused_by. destruct (_effective_hourly_limit env service) as [hourly|]; [|done]. cbn [res_bind]. pose proof (history_ok l) as H. set (s := history l) in *.
  assert (forall keep s1, by_key keep -> pending s1 = pending s -> inflight s1 = inflight s -> api_usage s1 = api_usage s -> counted keep s1 <= recorded keep l) as L.
  { intros keep s1 K A B C. rewrite (counted_read keep s s1) by done. by apply counted_le. }
  pose proof (below_reading hourly _ (get_hour_usage service now mono ok) s H (hour_reading service now mono ok)) as X. destruct (below hourly _ s) as [b1 s1]. destruct X as [X1 (H1 & P1 & I1 & T1)].
  destruct b1; cbn [negb]; [|intros _; left; destruct (X1 eq_refl) as (n & -> & N); exists n; split; [done|]; pose proof (L (in_bucket service (_usage_bucket_key service now)) s (fun r => eq_refl) eq_refl eq_refl eq_refl); lia].
  pose proof (below_reading (_effective_daily_limit env service) _ (get_today_usage service now mono ok) s1 H1 (today_reading service now mono ok)) as X. destruct (below _ _ s1) as [b2 s2]. destruct X as [X2 (H2 & P2 & I2 & T2)].
  assert (by_key (day_window service now)) as D by (unfold day_window; by destruct (hourly_tracked service)).
  destruct b2; cbn [negb]; [|intros _; right; left; destruct (X2 eq_refl) as (n & Y & N); exists n; split; [done|]; pose proof (L _ s1 D P1 I1 T1); lia].
  pose proof (below_reading (limit_of weekly_limit service) _ (get_week_usage service now mono ok) s2 H2 (week_reading service now mono ok)) as X. destruct (below _ _ s2) as [b3 s3]. destruct X as [X3 (H3 & P3 & I3 & T3)].
  destruct b3; cbn [negb]; [|intros _; right; right; left; destruct (X3 eq_refl) as (n & Y & N); exists n; split; [done|]; pose proof (L (in_week service (_week_start_utc now)) s2 (fun r => eq_refl) ltac:(congruence) ltac:(congruence) ltac:(congruence)); lia].
  pose proof (below_reading (limit_of monthly_limit service) _ (get_month_usage service now mono ok) s3 H3 (month_reading service now mono ok)) as X. destruct (below _ _ s3) as [b4 s4]. destruct X as [X4 _].
  intros E. apply ok_inj in E. injection E as -> <-. right; right; right. destruct (X4 eq_refl) as (n & Y & N). exists n. split; [done|].
  pose proof (L (in_month service (month_text now)) s3 (fun r => eq_refl) ltac:(congruence) ltac:(congruence) ltac:(congruence)). lia.
Qed.

(** ** When the figures are exact *)

Definition cache_exact (w : string * string -> usage_row -> bool) (mono : Z) (c : list ((string * string) * (Z * Z))) (table : list usage_row) : Prop :=
  Forall (fun e => CACHE_TTL <= mono - fst (snd e) \/ snd (snd e) = sum_rows (w (fst e)) table) c.

(** No batch is being written and no cache entry that would be used is out of date. *)
Definition quiet (mono : Z) (s : usage) : Prop :=
  inflight s = None /\ cache_exact (windowed in_bucket) mono (bucket_cache s) (api_usage s) /\
  cache_exact (windowed in_week) mono (week_cache s) (api_usage s) /\ cache_exact (windowed in_month) mono (month_cache s) (api_usage s).

Lemma committed_exact w c table k mono : cache_exact w mono c table ->
  let '(v, c') := committed c k mono true (sum_rows (w k) table) in v = sum_rows (w k) table /\ cache_exact w mono c' table.
Proof.
  intros C. assert (cache_exact w mono (cache_put c k (mono, sum_rows (w k) table)) table) as P.
  { induction C as [|[k' v'] c Ce C IH]; cbn [cache_put]; [apply List.Forall_cons; [by right|constructor]|].
    destruct (String.eqb (fst k') (fst k) && String.eqb (snd k') (snd k)) eqn:E; apply List.Forall_cons; try done. right. cbn.
    apply andb_true_iff in E as [E1%String.eqb_eq E2%String.eqb_eq]. destruct k', k; cbn in *. by subst. }
  unfold committed. destruct (cache_get c k) as [[t v]|] eqn:G; [|done]. destruct (Z.ltb_spec (mono - t) CACHE_TTL) as [L|L]; [|done]. split; [|done].
  apply cache_get_in in G. unfold cache_exact in C. rewrite List.Forall_forall in C. destruct (C _ G) as [X|X]; cbn [fst snd] in X; [lia|exact X].
Qed.

Definition exact (keep : usage_row -> bool) (mono : Z) (s : usage) (r : Z * usage) : Prop :=
  fst r = counted keep s /\ pending (snd r) = pending s /\ inflight (snd r) = inflight s /\ api_usage (snd r) = api_usage s /\ quiet mono (snd r).

Lemma quiet_counted keep mono s : quiet mono s -> counted keep s = sum_rows keep (api_usage s) + sum_pending (fun k => keep (key_row k)) (pending s).
Proof. intros [I _]. unfold counted, in_flight. rewrite I. lia. Qed.

Lemma bucket_exact service bucket mono s : quiet mono s ->
  exact (in_bucket service bucket) mono s
    (let '(v, s') := _committed_usage_bucket service bucket mono true s in (v + sum_pending (fun k => in_bucket service bucket (key_row k)) (pending s'), s')).
Proof.
  intros Q. unfold exact. rewrite (quiet_counted _ mono s Q). destruct Q as (I & C1 & C2 & C3). unfold _committed_usage_bucket.
  pose proof (committed_exact _ (bucket_cache s) (api_usage s) (service, bucket) mono C1) as X. unfold windowed in X at 1. cbn [fst snd] in X.
  destruct (committed _ _ _ _ _) as [v c]. destruct X as [-> X]. by repeat split.
Qed.

Lemma hour_exact service now mono s : quiet mono s -> exact (in_bucket service (_usage_bucket_key service now)) mono s (get_hour_usage service now mono true s).
Proof. apply bucket_exact. Qed.

Lemma today_exact service now mono s : quiet mono s -> exact (day_window service now) mono s (get_today_usage service now mono true s).
Proof.
  intros Q. unfold get_today_usage, day_window. destruct (hourly_tracked service); [|by apply bucket_exact]. unfold exact. by rewrite (quiet_counted _ mono s Q).
Qed.

Lemma week_exact service now mono s : quiet mono s -> exact (in_week service (_week_start_utc now)) mono s (get_week_usage service now mono true s).
Proof.
  intros Q. unfold exact, get_week_usage. rewrite (quiet_counted _ mono s Q). destruct Q as (I & C1 & C2 & C3). unfold _committed_week_usage.
  pose proof (committed_exact _ (week_cache s) (api_usage s) (service, _week_start_utc now) mono C2) as X. unfold windowed in X at 1. cbn [fst snd] in X.
  destruct (committed _ _ _ _ _) as [v c]. destruct X as [-> X]. by repeat split.
Qed.

Lemma month_exact service now mono s : quiet mono s -> exact (in_month service (month_text now)) mono s (get_month_usage service now mono true s).
Proof.
  intros Q. unfold exact, get_month_usage. rewrite (quiet_counted _ mono s Q). destruct Q as (I & C1 & C2 & C3). unfold _committed_month_usage.
  pose proof (committed_exact _ (month_cache s) (api_usage s) (service, month_text now) mono C3) as X. unfold windowed in X at 1. cbn [fst snd] in X.
  destruct (committed _ _ _ _ _) as [v c]. destruct X as [-> X]. by repeat split.
Qed.

Lemma below_exact limit keep mono get s : quiet mono s -> (forall s, quiet mono s -> exact keep mono s (get s)) ->
  let '(b, s') := below limit get s in
  (b = false <-> exists n, limit = Some n /\ n <= counted keep s) /\ quiet mono s' /\ pending s' = pending s /\ inflight s' = inflight s /\ api_usage s' = api_usage s.
Proof.
  intros Q R. unfold below. destruct limit as [n|]; [|split; [split; [done|by intros (n & ? & _)]|done]]. destruct (R s Q) as (V & P & I & T & O). destruct (get s) as [v s']. cbn [fst snd] in *. split; [|done].
  rewrite Z.ltb_ge, V. split; [intros L; by exists n|by intros (m & [= <-] & L)].
Qed.

(** [quota_is_exact_when_quiet]: with no batch lost or being written and no stale cache
    entry, a service is refused exactly when one of its caps is used up. *)
Theorem quota_is_exact_when_quiet env l service now mono b s' : forallb (fun a => negb (loses a)) l = true -> quiet mono (history l) ->
  has_quota env service now mono true (history l) = Ok (b, s') -> b = false <-> refused_by env service now (fun keep => recorded keep l).
Proof.
  intros Lo Q. unfold has_quota, refused_by. destruct (_effective_hourly_limit env service) as [hourly|]; [|done]. cbn [res_bind]. set (s := history l) in *.
  assert (forall keep s1, by_key keep -> pending s1 = pending s -> inflight s1 = inflight s -> api_usage s1 = api_usage s -> counted keep s1 = recorded keep l) as L.
  { intros keep s1 K A B C. rewrite (counted_read keep s s1) by done. by apply calls_are_counted_once. }
  assert (by_key (day_window service now)) as D by (unfold day_window; by destruct (hourly_tracked service)).
  pose proof (below_exact hourly _ mono (get_hour_usage service now mono true) s Q (hour_exact service now mono)) as X. destruct (below hourly _ s) as [b1 s1]. destruct X as [X1 (H1 & P1 & I1 & T1)].
  rewrite (L (in_bucket service (_usage_bucket_key service now)) s (fun r => eq_refl) eq_refl eq_refl eq_refl) in X1.
  destruct b1; cbn [negb]; [|intros E; apply ok_inj in E; injection E as <- <-; split; [intros _; left; destruct (proj1 X1 eq_refl) as (n & -> & N); by exists n|done]].
  pose proof (below_exact (_effective_daily_limit env service) _ mono (get_today_usage service now mono true) s1 H1 (today_exact service now mono)) as X. destruct (below _ _ s1) as [b2 s2]. destruct X as [X2 (H2 & P2 & I2 & T2)].
  rewrite (L (day_window service now) s1 D P1 I1 T1) in X2.
  destruct b2; cbn [negb]; [|intros E; apply ok_inj in E; injection E as <- <-; split; [intros _; right; left; by apply X2|done]].
  pose proof (below_exact (limit_of weekly_limit service) _ mono (get_week_usage service now mono true) s2 H2 (week_exact service now mono)) as X. destruct (below _ _ s2) as [b3 s3]. destruct X as [X3 (H3 & P3 & I3 & T3)].
  rewrite (L (in_week service (_week_start_utc now)) s2 (fun r => eq_refl) ltac:(congruence) ltac:(congruence) ltac:(congruence)) in X3.
  destruct b3; cbn [negb]; [|intros E; apply ok_inj in E; injection E as <- <-; split; [intros _; right; right; left; by apply X3|done]].
  pose proof (below_exact (limit_of monthly_limit service) _ mono (get_month_usage service now mono true) s3 H3 (month_exact service now mono)) as X. destruct (below _ _ s3) as [b4 s4]. destruct X as [X4 _].
  rewrite (L (in_month service (month_text now)) s3 (fun r => eq_refl) ltac:(congruence) ltac:(congruence) ltac:(congruence)) in X4.
  intros E. apply ok_inj in E. injection E as -> <-. rewrite X4. split; [by auto|]. intros [(n & [= ->] & N)|[Y|[Y|Y]]]; [|apply X2 in Y; done|apply X3 in Y; done|done].
  exfalso. by assert (true = false) by (apply X1; by exists n).
Qed.

(** ** A buffered call leaves before it can be forgotten *)

(** [buffer_is_scheduled]: while calls are buffered a flush is scheduled, unless the task
    was cancelled. *)
Theorem buffer_is_scheduled l : forallb (fun a => negb (loses a)) l = true -> pending (history l) <> [] -> scheduled (history l) = true.
Proof.
  induction l as [|a l IH] using rev_ind; [done|]. rewrite forallb_app. intros [H A]%andb_true_iff. cbn in A. rewrite history_snoc. specialize (IH H).
  destruct a as [service count now| | | | |service bucket mono ok|service now mono ok|service now mono ok]; cbn [act]; try done.
  - unfold record_api_call. by destruct (count <=? 0).
  - unfold take_batch. by destruct (inflight _).
  - unfold write_batch. by destruct (inflight _).
  - unfold requeue_batch. by destruct (inflight _).
  - unfold _committed_usage_bucket. by destruct (committed _ _ _ _ _).
  - unfold _committed_week_usage. by destruct (committed _ _ _ _ _).
  - unfold _committed_month_usage. by destruct (committed _ _ _ _ _).
Qed.

(** ** Examples *)

(** 2026-07-20 12:00 UTC. *)
Definition noon : Z := days_from_civil 2026 7 20 * DAY_US + 12 * 3600000000.
Definition unset (k : string) : option string := None.
Definition vt (n : Z) : action := Record_call "virustotal" n noon.
Definition day : string := "2026-07-20".

Definition verdict (r : res (bool * usage)) : option bool := match r with Ok (b, _) => Some b | Raise _ => None end.

Example noon_keys : (_usage_bucket_key "virustotal" noon, _usage_bucket_key "otx" noon, month_text noon, _week_start_utc noon) = (day, "2026-07-20T12", "2026-07", day).
Proof. by vm_compute. Qed.

(** The 500 calls of the day are recorded: while they are buffered the service is
    refused; while they are being written it is not, and neither after the write for as
    long as the figure cached before is used. *)
Definition used_up : list action := [vt 499; Take; Write; Read_bucket "virustotal" day 0 true; vt 1].

Example quota_gap : map (fun l => (recorded (in_bucket "virustotal" day) l, verdict (has_quota unset "virustotal" noon 1000000 true (history l))))
    [used_up; used_up ++ [Take]; used_up ++ [Take; Write]]%list = [(500, Some false); (500, Some true); (500, Some true)].
Proof. by vm_compute. Qed.

(** A table that can't be read counts as no calls, while the model caps refuse. *)
Example unreadable : verdict (has_quota unset "virustotal" noon 9000000 false (history [vt 500; Take; Write])) = Some true /\ has_ai_request_quota unset None (Some 0) = false.
Proof. by vm_compute. Qed.

Lemma calls_are_counted_once_witness : counted (in_bucket "virustotal" day) (history [vt 3; vt 4; Take; vt 5; Requeue; Take; Write]) = 12.
Proof. rewrite (calls_are_counted_once (in_bucket "virustotal" day) [vt 3; vt 4; Take; vt 5; Requeue; Take; Write] (fun r => eq_refl) eq_refl). by vm_compute. Defined.

Lemma refusals_are_earned_witness : exists s', has_quota unset "virustotal" noon 0 true (history [vt 500]) = Ok (false, s') /\ refused_by unset "virustotal" noon (fun keep => recorded keep [vt 500]).
Proof.
  destruct (has_quota unset "virustotal" noon 0 true (history [vt 500])) as [[b s']|] eqn:E; [|by vm_compute in E].
  assert (b = false) as -> by (vm_compute in E; injection E as <- _; done). exists s'. split; [done|]. exact (refusals_are_earned unset [vt 500] "virustotal" noon 0 true s' E).
Defined.

Lemma quota_is_exact_when_quiet_witness : exists s', has_quota unset "virustotal" noon 5000000 true (history [vt 499]) = Ok (true, s') /\ ~ refused_by unset "virustotal" noon (fun keep => recorded keep [vt 499]).
Proof.
  destruct (has_quota unset "virustotal" noon 5000000 true (history [vt 499])) as [[b s']|] eqn:E; [|by vm_compute in E].
  assert (quiet 5000000 (history [vt 499])) as Q by (split; [done|]; split; [constructor|]; split; constructor).
  pose proof (quota_is_exact_when_quiet unset [vt 499] "virustotal" noon 5000000 b s' eq_refl Q E) as X.
  assert (b = true) as -> by (clear X; vm_compute in E; injection E as <- _; done). exists s'. split; [done|]. intros R. apply X in R. discriminate R.
Defined.

Lemma buffer_is_scheduled_witness : scheduled (history [vt 3; Take; vt 1; Requeue]) = true.
Proof. apply buffer_is_scheduled; [done|]. by vm_compute. Defined.
