(* ===== verification/Watchlist.v ===== *)
(** * Watchlist: pinned and snoozed records and their alert policy

    The alert policy (watchlist/policy.py), the table watchlist (db/watchlist.py) and its
    routes (routers/watchlist.py, the policy routes of routers/admin/data_ops.py).  The
    policy comes as a value; [str_of] is [str] of a value that is no text.  The table is
    the list of its rows, its time stamps the texts the code writes. *)

From S2P Require Import Prelude PyStr Float64 PyVal Dates DateText Ioc.
Open Scope string_scope.
Open Scope Z_scope.

(** ** The policy *)

Definition TRIGGER_KEV : string := "kev".
Definition TRIGGER_EPSS : string := "epss".
Definition TRIGGER_POC : string := "poc".
Definition TRIGGER_PATCH : string := "patch".
Definition TRIGGER_WITHDRAWN : string := "withdrawn".

Definition TRIGGERS : list string := [TRIGGER_KEV; TRIGGER_EPSS; TRIGGER_POC; TRIGGER_PATCH; TRIGGER_WITHDRAWN].
Definition DEFAULT_TRIGGERS : list (string * bool) :=
  [(TRIGGER_KEV, true); (TRIGGER_EPSS, true); (TRIGGER_POC, true); (TRIGGER_PATCH, false); (TRIGGER_WITHDRAWN, true)].

Definition _as_bool (v : pyval) (default : bool) : bool :=
  match v with
  | PBool b => b
  | PInt z => if z =? 0 then false else if z =? 1 then true else default
  | PFloat f => if feq f f0 then false else if feq f f1 then true else default
  | PStr s =>
      let lowered := lower (strip s) in
      if one_in ["1"; "true"; "yes"; "on"] lowered then true else if one_in ["0"; "false"; "no"; "off"] lowered then false else default
  | _ => default
  end.

Definition as_dict (v : pyval) : list (string * pyval) := match v with PDict d => d | _ => [] end.
Definition default_trigger (name : string) : bool := match assoc name DEFAULT_TRIGGERS with Some b => b | None => false end.

Definition _sanitize_triggers (raw : pyval) : list (string * bool) :=
  let incoming := as_dict raw in
  fold_left (fun out key => if dmem incoming key then dset out key (_as_bool (dget incoming key) (default_trigger key)) else out) TRIGGERS DEFAULT_TRIGGERS.

(** The triggers an override names, with their merged values. *)
Definition explicit_triggers (triggers : list (string * pyval)) : list (string * bool) :=
  let merged := _sanitize_triggers (PDict triggers) in
  omap (fun name => if dmem triggers name then option_map (pair name) (assoc name merged) else None) TRIGGERS.

Definition override_key (cve_id : string) : string := upper (strip cve_id).

Definition add_override (out : list (string * list (string * bool))) (item : string * pyval) : list (string * list (string * bool)) :=
  let key := override_key (fst item) in
  if negb (startswith key "CVE-") then out
  else match snd item with
       | PDict spec =>
           match dget spec "triggers" with
           | PDict triggers => let explicit := explicit_triggers triggers in if nonempty_list explicit then dset out key explicit else out
           | _ => out
           end
       | _ => out
       end.

Definition _sanitize_overrides (raw : pyval) : list (string * list (string * bool)) := fold_left add_override (as_dict raw) [].

Record policy := mkPolicy { triggers : list (string * bool); delivery : string; overrides : list (string * list (string * bool)) }.

Section policy.
Context (str_of : pyval -> string).

Definition sanitize_policy (raw : pyval) : policy :=
  let data := as_dict raw in
  let delivery := lower (strip (match py_or (dget data "delivery") (PStr "immediate") with PStr s => s | v => str_of v end)) in
  mkPolicy (_sanitize_triggers (dget data "triggers")) (if one_in ["immediate"; "digest"] delivery then delivery else "immediate")
    (_sanitize_overrides (dget data "overrides")).

(** The stored setting: absent, or text that is no JSON, gives the defaults. *)
Definition load_policy (json_loads : string -> option pyval) (setting : option string) : policy :=
  match setting with
  | None => sanitize_policy PNone
  | Some raw => if nonempty raw then match json_loads raw with Some v => sanitize_policy v | None => sanitize_policy PNone end else sanitize_policy PNone
  end.

End policy.

(** The policy as the value that is stored and sent to the client. *)
Definition flags_value (l : list (string * bool)) : pyval := PDict (map (fun nb => (fst nb, PBool (snd nb))) l).
Definition policy_value (p : policy) : pyval :=
  PDict [("triggers", flags_value (triggers p)); ("delivery", PStr (delivery p));
         ("overrides", PDict (map (fun ko => (fst ko, PDict [("triggers", flags_value (snd ko))])) (overrides p)))].

Definition flag (l : list (string * bool)) (name : string) : bool := match assoc name l with Some b => b | None => false end.

Definition _all_triggers_enabled (p : policy) : bool := forallb (flag (triggers p)) TRIGGERS.

Definition delivery_mode (p : policy) : string := if String.eqb (delivery p) "digest" || _all_triggers_enabled p then "digest" else "immediate".

Definition trigger_enabled (p : policy) (cve_id trigger : string) : bool :=
  if negb (one_in TRIGGERS trigger) then false
  else
    let override_triggers := match assoc (upper cve_id) (overrides p) with Some t => t | None => [] end in
    match assoc trigger override_triggers with
    | Some b => b
    | None => match assoc trigger (triggers p) with Some b => b | None => default_trigger trigger end
    end.

Definition CHANGE_FIELD_TO_TRIGGER : list (string * string) :=
  [("epss_score", TRIGGER_EPSS); ("has_poc", TRIGGER_POC); ("patch_available", TRIGGER_PATCH); ("is_kev", TRIGGER_KEV)].

(** ** The table (db/watchlist.py) *)

Record entry := mkEntry { w_cve : string; w_state : string; w_until : option string; w_created : string }.

Definition is_active (now : string) (e : entry) : bool :=
  String.eqb (w_state e) "pin" ||
  String.eqb (w_state e) "snooze" && match w_until e with Some until => String.ltb now until | None => false end.

(** Pins first, then the newest first; rows that tie keep the order of the table. *)
Definition before (a b : entry) : bool :=
  let rank := fun e => if String.eqb (w_state e) "pin" then 0 else 1 in
  (rank a <? rank b) || (rank a =? rank b) && String.ltb (w_created b) (w_created a).
Fixpoint insert_entry (e : entry) (l : list entry) : list entry :=
  match l with [] => [e] | x :: t => if before x e || negb (before e x) then x :: insert_entry e t else e :: l end.
Definition order_entries (l : list entry) : list entry := fold_left (fun acc e => insert_entry e acc) l [].

Definition list_watchlist_entries (now : string) (table : list entry) : list entry := order_entries (List.filter (is_active now) table).

Fixpoint insert_text (s : string) (l : list string) : list string :=
  match l with [] => [s] | x :: t => if String.ltb s x then s :: l else x :: insert_text s t end.
Definition list_pinned_cve_ids (table : list entry) : list string :=
  fold_right insert_text [] (map w_cve (List.filter (fun e => String.eqb (w_state e) "pin") table)).

Definition get_watchlist_entry (now cve_id : string) (table : list entry) : option entry :=
  List.find (fun e => String.eqb (w_cve e) (upper cve_id) && is_active now e) table.

Fixpoint put_entry (e : entry) (table : list entry) : list entry :=
  match table with
  | [] => [e]
  | x :: t => if String.eqb (w_cve x) (w_cve e) then e :: t else x :: put_entry e t
  end.

Definition upsert_watchlist_entry (now cve_id state : string) (until : option string) (table : list entry) : list entry :=
  put_entry (mkEntry (upper cve_id) state until now) table.

Definition delete_watchlist_entry (cve_id : string) (table : list entry) : list entry * bool :=
  (List.filter (fun e => negb (String.eqb (w_cve e) (upper cve_id))) table, existsb (fun e => String.eqb (w_cve e) (upper cve_id)) table).

Definition delete_all_snooze_entries (table : list entry) : list entry * Z :=
  (List.filter (fun e => negb (String.eqb (w_state e) "snooze")) table, Z.of_nat (length (List.filter (fun e => String.eqb (w_state e) "snooze") table))).

(** ** The routes (routers/watchlist.py) *)

(** [^CVE-\d{4}-\d+$] on an upper-case key. *)
Fixpoint four_digits (n : nat) (s : string) : option string :=
  match n, s with
  | O, _ => Some s
  | S n, String c t => if is_digit c then four_digits n t else None
  | S _, "" => None
  end.
Definition cve_id_shape (key : string) : bool :=
  startswith key "CVE-" &&
  match four_digits 4 (sdrop 4 key) with
  | Some (String "-" digits) => nonempty digits && sforall is_digit digits
  | _ => false
  end.

Inductive answer := Status (code : Z) | Data (e : entry) | Deleted (cve : string) | Cleared (n : Z) | Entries (l : list entry).

Definition _DEFAULT_SNOOZE_DAYS : Z := 7.
Definition _snooze_until_iso (now days : Z) : string := strftime (now + days * DAY_US).

(** The body as pydantic lets it through: 9 to 32 characters, 1 to 365 days. *)
Record upsert_body := mkBody { b_cve : string; b_state : string; b_days : option Z }.
Definition body_ok (b : upsert_body) : bool :=
  (9 <=? slen (b_cve b)) && (slen (b_cve b) <=? 32) && match b_days b with Some d => (1 <=? d) && (d <=? 365) | None => true end.

Inductive request :=
| GetList
| SetEntry (b : upsert_body)
| ClearSnoozes
| Remove (cve : string).

(** [known]: whether the record exists. *)
Definition serve (known : string -> bool) (now : Z) (q : request) (table : list entry) : answer * list entry :=
  match q with
  | GetList => (Entries (list_watchlist_entries (strftime now) table), table)
  | SetEntry b =>
      if negb (body_ok b) then (Status 422, table)
      else
        let key := upper (strip (b_cve b)) in
        if negb (cve_id_shape key) then (Status 400, table)
        else
          let state := lower (strip (b_state b)) in
          if negb (one_in ["pin"; "snooze"] state) then (Status 400, table)
          else
            let until := if String.eqb state "snooze" then Some (_snooze_until_iso now (match b_days b with Some d => d | None => _DEFAULT_SNOOZE_DAYS end)) else None in
            if negb (known key) then (Status 404, table)
            else let table := upsert_watchlist_entry (strftime now) key state until table in
                 (match List.find (fun e => String.eqb (w_cve e) (upper key)) table with Some e => Data e | None => Status 500 end, table)
  | ClearSnoozes => let '(table, n) := delete_all_snooze_entries table in (Cleared n, table)
  | Remove cve =>
      let key := upper (strip cve) in
      if negb (cve_id_shape key) then (Status 400, table)
      else let '(table', deleted) := delete_watchlist_entry key table in if deleted then (Deleted key, table') else (Status 404, table)
  end.

Definition serve_all (known : string -> bool) (l : list (Z * request)) (table : list entry) : list entry := fold_left (fun t q => snd (serve known (fst q) (snd q) t)) l table.

(** ** The policy: a saved policy reads back *)

Lemma sanitize_triggers_map raw : _sanitize_triggers raw =
  map (fun n => (n, if dmem (as_dict raw) n then _as_bool (dget (as_dict raw) n) (default_trigger n) else default_trigger n)) TRIGGERS.
Proof.
  unfold _sanitize_triggers. set (d := as_dict raw). clearbody d. unfold TRIGGERS. cbn [fold_left map].
  destruct (dmem d TRIGGER_KEV), (dmem d TRIGGER_EPSS), (dmem d TRIGGER_POC), (dmem d TRIGGER_PATCH), (dmem d TRIGGER_WITHDRAWN); reflexivity.
Qed.

Lemma dmem_flags l n : dmem (map (fun nb : string * bool => (fst nb, PBool (snd nb))) l) n = existsb (fun nb => String.eqb (fst nb) n) l.
Proof. unfold dmem. induction l as [|x l IH]; [done|]. cbn. by rewrite IH. Qed.

Lemma flags_twice f : _sanitize_triggers (flags_value (map (fun n => (n, f n)) TRIGGERS)) = map (fun n => (n, f n)) TRIGGERS.
Proof. rewrite sanitize_triggers_map. reflexivity. Qed.

Lemma explicit_map d : explicit_triggers d = omap (fun n => if dmem d n then Some (n, _as_bool (dget d n) (default_trigger n)) else None) TRIGGERS.
Proof.
  unfold explicit_triggers. rewrite sanitize_triggers_map. cbn [as_dict]. unfold TRIGGERS. cbn [map].
  destruct (dmem d TRIGGER_KEV) eqn:E1, (dmem d TRIGGER_EPSS) eqn:E2, (dmem d TRIGGER_POC) eqn:E3, (dmem d TRIGGER_PATCH) eqn:E4, (dmem d TRIGGER_WITHDRAWN) eqn:E5;
    cbn [omap list_omap]; rewrite E1, E2, E3, E4, E5; reflexivity.
Qed.

Lemma explicit_twice d : match flags_value (explicit_triggers d) with PDict d' => explicit_triggers d' | _ => [] end = explicit_triggers d.
Proof.
  unfold flags_value. rewrite !explicit_map. unfold TRIGGERS.
  destruct (dmem d TRIGGER_KEV) eqn:E1, (dmem d TRIGGER_EPSS) eqn:E2, (dmem d TRIGGER_POC) eqn:E3, (dmem d TRIGGER_PATCH) eqn:E4, (dmem d TRIGGER_WITHDRAWN) eqn:E5;
    cbn [omap list_omap]; rewrite E1, E2, E3, E4, E5; reflexivity.
Qed.

(** What [_sanitize_overrides] leaves: canonical distinct keys, each with the triggers it
    was given. *)
Definition override_ok (ko : string * list (string * bool)) : Prop :=
  override_key (fst ko) = fst ko /\ startswith (fst ko) "CVE-" = true /\ snd ko <> [] /\
  match flags_value (snd ko) with PDict d => explicit_triggers d = snd ko | _ => False end.

Definition overrides_ok (l : list (string * list (string * bool))) : Prop := List.NoDup (map fst l) /\ Forall override_ok l.

Lemma override_key_idemp s : override_key (override_key s) = override_key s.
Proof. unfold override_key. rewrite <-(upper_strip (strip s)), strip_idemp. by rewrite upper_idemp. Qed.

Lemma dset_in {A} (d : list (string * A)) k v e : In e (dset d k v) -> e = (k, v) \/ In e d.
Proof.
  induction d as [|[k' v'] d IH]; cbn [dset]; [intros [<-|[]]; by left|]. destruct (String.eqb k' k); cbn [In]; [intros [<-|H]; auto|]. intros [<-|H]; [auto|]. destruct (IH H); auto.
Qed.

Lemma dset_nodup {A} (d : list (string * A)) k v : List.NoDup (map fst d) -> List.NoDup (map fst (dset d k v)).
Proof.
  induction d as [|[k' v'] d IH]; cbn [dset map fst]; intros N; [repeat constructor; by intros []|]. apply List.NoDup_cons_iff in N as [N1 N2].
  destruct (String.eqb_spec k' k) as [->|D]; cbn [map fst]; apply List.NoDup_cons_iff; (split; [|auto]); [done|].
  intros X. apply in_map_iff in X as (e & E & I). apply dset_in in I as [->|I]; [cbn in E; congruence|]. apply N1. apply in_map_iff. by exists e.
Qed.

Lemma dset_append {A} (d : list (string * A)) k v : ~ In k (map fst d) -> dset d k v = (d ++ [(k, v)])%list.
Proof.
  induction d as [|[k' v'] d IH]; [done|]. cbn [map fst dset]. intros N. destruct (String.eqb_spec k' k) as [->|D]; [destruct N; by left|].
  rewrite IH; [done|]. intros I. apply N. by right.
Qed.

Lemma add_override_ok out item : overrides_ok out -> overrides_ok (add_override out item).
Proof.
  intros [N F]. unfold add_override. destruct (startswith (override_key (fst item)) "CVE-") eqn:S; [|done]. cbn [negb]. destruct (snd item) as [| | | | | |spec]; try done.
  destruct (dget spec "triggers") as [| | | | | |t]; try done. destruct (nonempty_list (explicit_triggers t)) eqn:X; [|done]. split; [by apply dset_nodup|].
  rewrite List.Forall_forall in F |- *. intros e E. apply dset_in in E as [->|E]; [|by apply F]. split; [apply override_key_idemp|]. split; [done|]. split; [by destruct (explicit_triggers t)|]. apply (explicit_twice t).
Qed.

Lemma sanitize_overrides_ok raw : overrides_ok (_sanitize_overrides raw).
Proof. unfold _sanitize_overrides. apply fold_left_inv; [intros a b _; apply add_override_ok|]. split; constructor. Qed.

Lemma overrides_twice l acc : overrides_ok l -> (forall k, In k (map fst l) -> ~ In k (map fst acc)) ->
  fold_left add_override (map (fun ko => (fst ko, PDict [("triggers", flags_value (snd ko))])) l) acc = (acc ++ l)%list.
Proof.
  revert acc. induction l as [|[k t] l IH]; intros acc [N F] D; [by rewrite app_nil_r|]. cbn [map fold_left fst snd]. cbn [map fst] in N. apply List.NoDup_cons_iff in N as [N1 N2].
  apply List.Forall_cons_iff in F as [(K & S & X & T) F]. cbn [fst snd] in *. unfold add_override at 2. cbn [fst snd]. rewrite K, S. cbn [negb].
  change (dget [("triggers", flags_value t)] "triggers") with (flags_value t). unfold flags_value in *. rewrite T. destruct t as [|t0 t]; [done|]. cbn [nonempty_list].
  rewrite dset_append by (apply D; by left). rewrite IH; [by rewrite <-app_assoc|by split|]. intros k' I J. rewrite map_app, in_app_iff in J. destruct J as [J|[<-|[]]]; [|done]. by apply (D k'); [right|].
Qed.

(** [saved_policy_reads_back]: a policy that was sanitised and sent or stored as a value
    is read as the same policy, so saving what the client got changes nothing. *)
Theorem saved_policy_reads_back str_of raw : let p := sanitize_policy str_of raw in sanitize_policy str_of (policy_value p) = p.
Proof.
  cbv zeta. set (p := sanitize_policy str_of raw). unfold sanitize_policy, policy_value. cbn [as_dict].
  change (dget _ "triggers") with (flags_value (triggers p)). change (dget _ "delivery") with (PStr (delivery p)).
  change (dget _ "overrides") with (PDict (map (fun ko => (fst ko, PDict [("triggers", flags_value (snd ko))])) (overrides p))).
  unfold _sanitize_overrides at 1. cbn [as_dict]. rewrite overrides_twice; [|apply sanitize_overrides_ok|by intros ? ? []].
  assert (_sanitize_triggers (flags_value (triggers p)) = triggers p) as ->.
  { unfold p, sanitize_policy. cbn [triggers]. rewrite (sanitize_triggers_map (dget (as_dict raw) "triggers")). exact (flags_twice _). }
  assert (delivery p = "immediate" \/ delivery p = "digest") as D.
  { unfold p, sanitize_policy. cbn [delivery]. set (d := lower _). destruct (one_in ["immediate"; "digest"] d) eqn:O; [|by left]. apply one_in_spec in O. set_solver. }
  destruct p as [t d o]. cbn [delivery overrides triggers app] in *. by destruct D as [-> | ->].
Qed.

(** [override_decides]: whether a trigger alerts is the record's override of it where
    there is one, and the instance's setting otherwise; every known trigger has one. *)
Theorem override_decides str_of raw cve trigger : let p := sanitize_policy str_of raw in
  trigger_enabled p cve trigger =
    one_in TRIGGERS trigger &&
    match assoc (upper cve) (overrides p) with
    | Some o => match assoc trigger o with Some b => b | None => flag (triggers p) trigger end
    | None => flag (triggers p) trigger
    end.
Proof.
  cbv zeta. unfold trigger_enabled. destruct (one_in TRIGGERS trigger) eqn:T; [|done]. cbn [negb andb].
  assert (exists b, assoc trigger (triggers (sanitize_policy str_of raw)) = Some b) as [b B].
  { unfold sanitize_policy. cbn [triggers]. rewrite sanitize_triggers_map. apply one_in_spec in T. unfold TRIGGERS in T. rewrite !elem_of_cons in T.
    destruct T as [T|[T|[T|[T|[T|T]]]]]; [subst trigger; eexists; reflexivity..|by apply not_elem_of_nil in T]. }
  unfold flag. rewrite B. destruct (assoc (upper cve) _) as [o|]; [|done]. by destruct (assoc trigger o).
Qed.

(** ** The table *)

Definition well_kept (e : entry) : Prop :=
  cve_id_shape (w_cve e) = true /\ upper (w_cve e) = w_cve e /\
  (w_state e = "pin" /\ w_until e = None \/ w_state e = "snooze" /\ exists t, w_until e = Some (strftime t)).

Definition table_ok (table : list entry) : Prop := List.NoDup (map w_cve table) /\ Forall well_kept table.

Lemma put_entry_in e table x : In x (put_entry e table) -> x = e \/ In x table.
Proof. induction table as [|y t IH]; cbn [put_entry]; [intros [<-|[]]; by left|]. destruct (String.eqb _ _); cbn [In]; [intros [<-|H]; auto|]. intros [<-|H]; [auto|]. destruct (IH H); auto. Qed.

Lemma put_entry_nodup e table : List.NoDup (map w_cve table) -> List.NoDup (map w_cve (put_entry e table)).
Proof.
  induction table as [|y t IH]; cbn [put_entry map]; intros N; [repeat constructor; by intros []|]. apply List.NoDup_cons_iff in N as [N1 N2].
  destruct (String.eqb_spec (w_cve y) (w_cve e)) as [E|D]; cbn [map]; apply List.NoDup_cons_iff; (split; [|auto]); [by rewrite <-E|].
  intros X. apply in_map_iff in X as (x & E & I). apply put_entry_in in I as [->|I]; [congruence|]. apply N1. apply in_map_iff. by exists x.
Qed.

Lemma put_entry_find e table k : List.find (fun x => String.eqb (w_cve x) k) (put_entry e table) =
  if String.eqb (w_cve e) k then Some e else List.find (fun x => String.eqb (w_cve x) k) table.
Proof.
  induction table as [|y t IH]; cbn [put_entry List.find]; [done|]. destruct (String.eqb_spec (w_cve y) (w_cve e)) as [E|D]; cbn [List.find].
  - rewrite E. by destruct (String.eqb (w_cve e) k).
  - destruct (String.eqb_spec (w_cve y) k) as [<-|N]; [|exact IH]. destruct (String.eqb_spec (w_cve e) (w_cve y)); [congruence|done].
Qed.

Lemma filter_nodup (f : entry -> bool) table : List.NoDup (map w_cve table) -> List.NoDup (map w_cve (List.filter f table)).
Proof.
  induction table as [|y t IH]; [done|]. cbn [map List.filter]. intros N. apply List.NoDup_cons_iff in N as [N1 N2]. destruct (f y); [|auto]. cbn [map]. apply List.NoDup_cons_iff. split; [|auto].
  intros X. apply N1. apply in_map_iff in X as (x & E & I). apply filter_In in I as [I _]. apply in_map_iff. by exists x.
Qed.

Lemma serve_keeps_table known now q table : table_ok table -> table_ok (snd (serve known now q table)).
Proof.
  intros [N F]. destruct q as [|b| |cve]; cbn [serve].
  - done.
  - destruct (body_ok b); [|done]. cbn [negb]. destruct (cve_id_shape _) eqn:S; [|done]. cbn [negb]. destruct (one_in _ _) eqn:O; [|done]. cbn [negb]. destruct (known _); [|done]. cbn [negb snd].
    split; [by apply put_entry_nodup|]. rewrite List.Forall_forall in F |- *. intros e E. apply put_entry_in in E as [->|E]; [|by apply F].
    unfold well_kept. cbn [w_cve w_state w_until]. rewrite upper_idemp. split; [exact S|]. split; [by rewrite !upper_idemp|].
    apply one_in_spec in O. rewrite !elem_of_cons in O. destruct O as [O|[O|O]]; [rewrite O; by left|rewrite O; right; split; [done|]; by eexists|by apply not_elem_of_nil in O].
  - split; [by apply filter_nodup|by apply Forall_lfilter].
  - destruct (cve_id_shape _); [|done]. cbn [negb]. unfold delete_watchlist_entry. destruct (existsb _ _); [|done]. split; [by apply filter_nodup|by apply Forall_lfilter].
Qed.

Lemma serve_all_keeps_table known l : table_ok (serve_all known l []).
Proof. unfold serve_all. apply fold_left_inv; [intros a b _; apply serve_keeps_table|]. split; constructor. Qed.

Lemma find_active now k table : List.NoDup (map w_cve table) ->
  List.find (fun e => String.eqb (w_cve e) k && is_active now e) table =
  match List.find (fun e => String.eqb (w_cve e) k) table with Some e => if is_active now e then Some e else None | None => None end.
Proof.
  induction table as [|y t IH]; [done|]. cbn [map List.find]. intros N. apply List.NoDup_cons_iff in N as [N1 N2]. destruct (String.eqb_spec (w_cve y) k) as [E|D]; [|by apply IH].
  cbn [andb]. destruct (is_active now y); [done|]. destruct (List.find _ t) as [x|] eqn:X; [|done]. exfalso. apply List.find_some in X as [I X]. apply andb_true_iff in X as [X%String.eqb_eq _].
  apply N1. rewrite E, <-X. by apply in_map.
Qed.

(** [snooze_lasts]: after any history, a request that snoozes a record hides it until the
    day count has passed, to the second, and one that pins it keeps it on the list for
    good; the request replaces whatever the record's entry was. *)
Theorem snooze_lasts known l now b later : let table := serve_all known l [] in
  let key := upper (strip (b_cve b)) in
  let days := match b_days b with Some d => d | None => 7 end in
  body_ok b = true -> cve_id_shape key = true -> known key = true -> one_in ["pin"; "snooze"] (lower (strip (b_state b))) = true ->
  MIN_US <= now -> MIN_US <= later <= MAX_US -> now + days * DAY_US <= MAX_US ->
  (exists e, get_watchlist_entry (strftime later) key (snd (serve known now (SetEntry b) table)) = Some e) <->
  lower (strip (b_state b)) = "pin" \/ later / 1000000 < (now + days * DAY_US) / 1000000.
Proof.
  cbv zeta. set (key := upper (strip (b_cve b))). set (days := match b_days b with Some d => d | None => 7 end). intros B S K O M L X. cbn [serve]. rewrite B. cbn [negb]. fold key. rewrite S. cbn [negb]. rewrite O. cbn [negb]. rewrite K. cbn [negb snd].
  destruct (serve_all_keeps_table known l) as [N _]. set (table := serve_all known l []) in *. unfold get_watchlist_entry, upsert_watchlist_entry. rewrite find_active by by apply put_entry_nodup.
  rewrite put_entry_find. cbn [w_cve]. rewrite String.eqb_refl.
  assert (0 < days) as P. { unfold days. unfold body_ok in B. apply andb_true_iff in B as [_ B]. destruct (b_days b); [|lia]. apply andb_true_iff in B as [B _]. lia. }
  unfold is_active. cbn [w_state w_until]. apply one_in_spec in O. rewrite !elem_of_cons in O. destruct O as [O|[O|O]]; [| |by apply not_elem_of_nil in O].
  - rewrite O. change (String.eqb "pin" "pin") with true. cbn [orb]. split; [by left|]. by eexists.
  - rewrite O. change (String.eqb "snooze" "pin") with false. change (String.eqb "snooze" "snooze") with true. cbn [orb andb]. unfold _snooze_until_iso, _DEFAULT_SNOOZE_DAYS. fold days.
    unfold String.ltb. rewrite strftime_compare; [|done|unfold DAY_US in *; lia].
    destruct (Z.compare_spec (later / 1000000) ((now + days * DAY_US) / 1000000)) as [E|E|E].
    + split; [by intros [e ?]|]. intros [?|?]; [done|lia].
    + split; [by right|]. by eexists.
    + split; [by intros [e ?]|]. intros [?|?]; [done|lia].
Qed.

(** ** Examples *)

Definition no_str (v : pyval) : string := "".

Definition raw_policy : pyval :=
  PDict [("triggers", PDict [("patch", PStr " ON "); ("kev", PInt 2); ("other", PBool false)]); ("delivery", PStr "Digest");
         ("overrides", PDict [(" cve-2024-1 ", PDict [("triggers", PDict [("epss", PStr "off")])]); ("GHSA-1", PNone); ("CVE-2024-2", PDict [("triggers", PDict [])])])].

Example raw_policy_read : let p := sanitize_policy no_str raw_policy in
  triggers p = [("kev", true); ("epss", true); ("poc", true); ("patch", true); ("withdrawn", true)] /\ delivery p = "digest" /\
  overrides p = [("CVE-2024-1", [("epss", false)])] /\ trigger_enabled p "cve-2024-1" "epss" = false /\ trigger_enabled p "CVE-2024-2" "epss" = true.
Proof. by vm_compute. Qed.

Definition july : Z := days_from_civil 2026 7 20 * DAY_US.
Definition snooze_body : upsert_body := mkBody " cve-2024-3094" "Snooze" (Some 2).

Lemma snooze_lasts_witness : (exists e, get_watchlist_entry (strftime (july + DAY_US)) "CVE-2024-3094"
  (snd (serve (fun _ => true) july (SetEntry snooze_body) (serve_all (fun _ => true) [(july - 5, SetEntry (mkBody "CVE-2024-3094" "pin" None))] []))) = Some e) /\ july / 1000000 < (july + 2 * DAY_US) / 1000000.
Proof.
  split; [|by vm_compute]. apply (snooze_lasts (fun _ => true) [(july - 5, SetEntry (mkBody "CVE-2024-3094" "pin" None))] july snooze_body (july + DAY_US)); try (by vm_compute); try (split; by vm_compute). right. by vm_compute.
Defined.
