(* ===== verification/Preferences.v ===== *)
(** * Preferences: preferences/display_validate.py, preferences/repo.py and routers/me.py

    The display preferences of a user: how a stored text is read, how a patch is
    merged and saved, the instance-wide defaults, and the stack terms and asset
    profile kept in the same row.  [json_loads] is [None] for a [JSONDecodeError],
    [json_dumps] writes with sorted keys (the values below list their keys in that
    order), [py_str] is [str] of a value that is not text, and [zone_exists] says
    whether [ZoneInfo] finds a zone.  The table is the list of its rows, one per
    user; [now] is the printed clock. *)

From S2P Require Import Prelude PyStr PyVal CveRow Cpe StackAssets AuthDb.
Open Scope string_scope.
Open Scope Z_scope.

(** ** display_validate.py *)

Definition FONT_SCALES : list string := ["xsmall"; "small"; "medium"; "large"; "xlarge"].
Definition DENSITY_MODES : list string := ["compact"; "comfortable"; "spacious"].
Definition POLL_INTERVALS : list Z := [15; 30; 60; 120].
Definition MAX_DISPLAY_PREFS_JSON_LEN : Z := 4096.
Definition MAX_TIMEZONE_LEN : Z := 64.
Definition UI_VARIANTS : list string := ["default"; "pitch"].
Definition NOTIFICATION_MUTE_CATEGORIES : list string := ["watchlist"; "ioc_watchlist"; "job_error"; "api_key_unhealthy"; "webhook_failure"].
Definition DEFAULT_NOTIFICATION_MUTES : list (string * bool) := map (fun c => (c, false)) NOTIFICATION_MUTE_CATEGORIES.

Definition DEFAULT_TYPOGRAPHY_PX : list (string * Z) :=
  [("title", 20); ("heading", 15); ("subheading", 14); ("id", 18); ("body", 14); ("meta", 13); ("micro", 12)].
Definition TYPOGRAPHY_ROLES : list string := map fst DEFAULT_TYPOGRAPHY_PX.
Definition MIN_TYPOGRAPHY_PX : Z := 9.
Definition MAX_TYPOGRAPHY_PX : Z := 20.

(** What [sanitize_display_prefs] returns. *)
Record display := mkDisplay {
  font_scale : string; density : string; show_technical_ids : bool; poll_interval_seconds : Z; utc_time : bool;
  reduce_motion : bool; notification_sound : bool; ui_variant : string; notification_mutes : list (string * bool) }.

Definition DEFAULT_DISPLAY_PREFS : display :=
  mkDisplay "medium" "comfortable" false 30 false false true "pitch" DEFAULT_NOTIFICATION_MUTES.

Definition with_variant (v : string) (d : display) : display :=
  mkDisplay (font_scale d) (density d) (show_technical_ids d) (poll_interval_seconds d) (utc_time d) (reduce_motion d) (notification_sound d) v (notification_mutes d).
Definition with_mutes (m : list (string * bool)) (d : display) : display :=
  mkDisplay (font_scale d) (density d) (show_technical_ids d) (poll_interval_seconds d) (utc_time d) (reduce_motion d) (notification_sound d) (ui_variant d) m.

(** What a route answers: a value, or a status code. *)
Inductive reply (A : Type) := Data (a : A) | Status (code : Z).
Arguments Data {A} _.
Arguments Status {A} _.

Section preferences.
Variable py_str : pyval -> string.
Variable json_loads : string -> option pyval.
Variable json_dumps : pyval -> string.
Variable zone_exists : string -> bool.

Definition checked_text (allowed : list string) (v : pyval) : res string :=
  let token := strip (to_str py_str v) in if one_in allowed token then Ok token else Raise ValueError.

Definition sanitize_ui_variant (value : pyval) : res string :=
  match value with PNone => Ok (ui_variant DEFAULT_DISPLAY_PREFS) | v => checked_text UI_VARIANTS v end.

(** One role of the loop; the roles are a set whose order decides only which error is raised. *)
Definition set_role (data : list (string * pyval)) (base : list (string * Z)) (role : string) : res (list (string * Z)) :=
  match dget data role with
  | PNone => Ok base
  | v =>
      let! px := try_except (py_int v) type_or_value (Raise ValueError) in
      if (px <? MIN_TYPOGRAPHY_PX) || (MAX_TYPOGRAPHY_PX <? px) then Raise ValueError else Ok (dset base role px)
  end%py.

Definition sanitize_typography_px (data : pyval) : res (list (string * Z)) :=
  match data with
  | PNone => Ok DEFAULT_TYPOGRAPHY_PX
  | PDict d => fold_res (set_role d) TYPOGRAPHY_ROLES DEFAULT_TYPOGRAPHY_PX
  | _ => Raise ValueError
  end.

Definition validate_timezone (raw : pyval) : res string :=
  let! token := strip_of (py_or raw (PStr "UTC")) in
  let token := if nonempty token then token else "UTC" in
  if MAX_TIMEZONE_LEN <? slen token then Raise ValueError
  else if zone_exists token then Ok token else Raise ValueError.

Definition _coerce_bool (v : pyval) : res bool := match v with PBool b => Ok b | _ => Raise ValueError end.

Definition set_mute (base : list (string * bool)) (kv : string * pyval) : res (list (string * bool)) :=
  if one_in NOTIFICATION_MUTE_CATEGORIES (fst kv) then let! b := _coerce_bool (snd kv) in Ok (dset base (fst kv) b)
  else Raise ValueError.

Definition sanitize_notification_mutes (data : pyval) : res (list (string * bool)) :=
  match data with
  | PNone => Ok DEFAULT_NOTIFICATION_MUTES
  | PDict d => fold_res set_mute d DEFAULT_NOTIFICATION_MUTES
  | _ => Raise ValueError
  end.

Definition check_poll (v : pyval) : res Z :=
  let! poll := try_except (py_int v) type_or_value (Raise ValueError) in
  if existsb (Z.eqb poll) POLL_INTERVALS then Ok poll else Raise ValueError.

(** [if key in data and data[key] is not None: base[key] = check(data[key])] *)
Definition unless_none {A} (v : pyval) (default : A) (check : pyval -> res A) : res A :=
  match v with PNone => Ok default | v => check v end.

Definition sanitize_display_prefs (data : pyval) : res display :=
  let base := DEFAULT_DISPLAY_PREFS in
  match data with
  | PNone => Ok base
  | PDict d =>
      let! scale := unless_none (dget d "font_scale") (font_scale base) (checked_text FONT_SCALES) in
      let! dens := unless_none (dget d "density") (density base) (checked_text DENSITY_MODES) in
      let! ids := unless_none (dget d "show_technical_ids") (show_technical_ids base) _coerce_bool in
      let! poll := unless_none (dget d "poll_interval_seconds") (poll_interval_seconds base) check_poll in
      let! utc := unless_none (dget d "utc_time") (utc_time base) _coerce_bool in
      let! motion := unless_none (dget d "reduce_motion") (reduce_motion base) _coerce_bool in
      let! sound := unless_none (dget d "notification_sound") (notification_sound base) _coerce_bool in
      let! variant := unless_none (dget d "ui_variant") (ui_variant base) (checked_text UI_VARIANTS) in
      let! mutes := unless_none (dget d "notification_mutes") (notification_mutes base) sanitize_notification_mutes in
      Ok (mkDisplay scale dens ids poll utc motion sound variant mutes)
  | _ => Raise ValueError
  end.

(** ** Values stored as JSON, keys sorted *)

Definition sorted_of {A} (to_val : A -> pyval) (keys : list string) (l : list (string * A)) : list (string * pyval) :=
  flat_map (fun k => match assoc k l with Some v => [(k, to_val v)] | None => [] end) keys.

Definition mutes_value (m : list (string * bool)) : pyval :=
  PDict (sorted_of PBool ["api_key_unhealthy"; "ioc_watchlist"; "job_error"; "watchlist"; "webhook_failure"] m).
Definition typography_value (t : list (string * Z)) : pyval :=
  PDict (sorted_of PInt ["body"; "heading"; "id"; "meta"; "micro"; "subheading"; "title"] t).

(** The preferences as a dict in Python's order of insertion. *)
Definition display_dict (d : display) : list (string * pyval) :=
  [("font_scale", PStr (font_scale d)); ("density", PStr (density d)); ("show_technical_ids", PBool (show_technical_ids d));
   ("poll_interval_seconds", PInt (poll_interval_seconds d)); ("utc_time", PBool (utc_time d)); ("reduce_motion", PBool (reduce_motion d));
   ("notification_sound", PBool (notification_sound d)); ("ui_variant", PStr (ui_variant d));
   ("notification_mutes", PDict (map (fun kb => (fst kb, PBool (snd kb))) (notification_mutes d)))].

(** ** merge_display_prefs and encode_display_prefs *)

(** The display preferences with the font sizes, as [_decode_display_prefs] and a patch return them. *)
Record prefs := mkPrefs { disp : display; typography_px : list (string * Z) }.

Definition int_dict (t : list (string * Z)) : list (string * pyval) := map (fun kz => (fst kz, PInt (snd kz))) t.
Definition bool_dict (m : list (string * bool)) : list (string * pyval) := map (fun kb => (fst kb, PBool (snd kb))) m.

(** [base.update(value)] when [value] is a dict *)
Definition updated (base : list (string * pyval)) (value : pyval) : list (string * pyval) :=
  match value with PDict v => fold_left (fun b kv => dset b (fst kv) (snd kv)) v base | _ => base end.

(** [merged]: its plain fields, its mutes and its font sizes. *)
Definition merge_value (m : list (string * pyval) * list (string * bool) * list (string * Z)) (key : string) (v : pyval) :
    res (list (string * pyval) * list (string * bool) * list (string * Z)) :=
  let '(plain, mutes, typo) := m in
  if String.eqb key "typography_px" then
    let base := if nonempty_list typo then typo else DEFAULT_TYPOGRAPHY_PX in
    let! typo := sanitize_typography_px (PDict (updated (int_dict base) v)) in Ok (plain, mutes, typo)
  else if String.eqb key "notification_mutes" then
    let base := if nonempty_list mutes then mutes else DEFAULT_NOTIFICATION_MUTES in
    let! mutes := sanitize_notification_mutes (PDict (updated (bool_dict base) v)) in Ok (plain, mutes, typo)
  else if dmem (display_dict DEFAULT_DISPLAY_PREFS) key then Ok (dset plain key v, mutes, typo)
  else Ok m.

Definition merge_step (m : list (string * pyval) * list (string * bool) * list (string * Z)) (kv : string * pyval) :
    res (list (string * pyval) * list (string * bool) * list (string * Z)) :=
  match snd kv with PNone => Ok m | v => merge_value m (fst kv) v end.

Definition merge_display_prefs (existing : prefs) (patch : list (string * pyval)) : res prefs :=
  let! merged := fold_res merge_step patch (display_dict (disp existing), notification_mutes (disp existing), typography_px existing) in
  let '(plain, mutes, typo) := merged in
  let! result := sanitize_display_prefs (PDict (dset plain "notification_mutes" (PDict (bool_dict mutes)))) in
  Ok (mkPrefs (with_mutes mutes result) typo).

Definition prefs_value (p : prefs) : pyval :=
  let d := disp p in
  PDict [("density", PStr (density d)); ("font_scale", PStr (font_scale d)); ("notification_mutes", mutes_value (notification_mutes d));
         ("notification_sound", PBool (notification_sound d)); ("poll_interval_seconds", PInt (poll_interval_seconds d));
         ("reduce_motion", PBool (reduce_motion d)); ("show_technical_ids", PBool (show_technical_ids d));
         ("typography_px", typography_value (typography_px p)); ("ui_variant", PStr (ui_variant d)); ("utc_time", PBool (utc_time d))].

Definition encode_display_prefs (p : prefs) : res string :=
  let encoded := json_dumps (prefs_value p) in
  if MAX_DISPLAY_PREFS_JSON_LEN <? slen encoded then Raise ValueError else Ok encoded.

(** ** preferences/repo.py: the table user_preferences and the settings it falls back to *)

(** [app_settings], read by key. *)
Definition INSTANCE_TYPOGRAPHY_SETTING_KEY : string := "display_typography_default".
Definition INSTANCE_UI_VARIANT_SETTING_KEY : string := "display_ui_variant_default".

Record pref_row := mkPref {
  p_user : Z; stack_terms : string; profile_json : option string; display_prefs_json : option string;
  timezone : string; remember_profile_on_server : bool; updated_at : string }.

Definition has_text (raw : option string) : option string := match raw with Some s => if nonempty s then Some s else None | None => None end.

(** The result for an absent, broken or non-object text. *)
Definition fallback_prefs (variant : string) (typo : list (string * Z)) : prefs := mkPrefs (with_variant variant DEFAULT_DISPLAY_PREFS) typo.

Definition opt_typography (t : option (list (string * Z))) : pyval := match t with Some t => PDict (int_dict t) | None => PNone end.
Definition opt_str (s : option string) : pyval := match s with Some s => PStr s | None => PNone end.
Definition is_value_error (e : exn) : bool := match e with ValueError => true | _ => false end.

Definition _decode_display_prefs (raw : option string) (instance_typography : option (list (string * Z))) (instance_ui_variant : option string) : res prefs :=
  let! variant := sanitize_ui_variant (opt_str instance_ui_variant) in
  let! instance := sanitize_typography_px (opt_typography instance_typography) in
  match match has_text raw with Some s => json_loads s | None => None end with
  | Some (PDict data) =>
      let! d := try_except (sanitize_display_prefs (PDict data)) is_value_error
        (let! d := try_except (sanitize_display_prefs (PDict (List.filter (fun kv => negb (String.eqb (fst kv) "notification_mutes")) data))) is_value_error (Ok DEFAULT_DISPLAY_PREFS) in
         Ok (with_mutes DEFAULT_NOTIFICATION_MUTES d)) in
      let! typo := (if dmem data "typography_px" then try_except (sanitize_typography_px (dget data "typography_px")) is_value_error (Ok instance) else Ok instance) in
      let! mutes := (if dmem data "notification_mutes" then try_except (sanitize_notification_mutes (dget data "notification_mutes")) is_value_error (Ok DEFAULT_NOTIFICATION_MUTES)
                     else Ok (notification_mutes d)) in
      let d := with_mutes mutes d in
      Ok (mkPrefs (if dmem data "ui_variant" then d else with_variant variant d) typo)
  | _ => Ok (fallback_prefs variant instance)
  end%py.

Definition get_instance_typography_default (settings : list (string * string)) : res (option (list (string * Z))) :=
  match has_text (assoc INSTANCE_TYPOGRAPHY_SETTING_KEY settings) with
  | Some raw => match json_loads raw with
                | Some data => try_except (let! t := sanitize_typography_px data in Ok (Some t)) is_value_error (Ok None)
                | None => Ok None end
  | None => Ok None
  end%py.

Definition get_instance_ui_variant_default (settings : list (string * string)) : res (option string) :=
  match has_text (assoc INSTANCE_UI_VARIANT_SETTING_KEY settings) with
  | Some raw => try_except (let! v := sanitize_ui_variant (PStr raw) in Ok (Some v)) is_value_error (Ok None)
  | None => Ok None
  end%py.

Definition set_instance_typography_default (typography : pyval) (settings : list (string * string)) : res (list (string * Z) * list (string * string)) :=
  let! sanitized := sanitize_typography_px typography in
  Ok (sanitized, dset settings INSTANCE_TYPOGRAPHY_SETTING_KEY (json_dumps (typography_value sanitized))).

Definition set_instance_ui_variant_default (variant : string) (settings : list (string * string)) : res (string * list (string * string)) :=
  let! sanitized := sanitize_ui_variant (PStr variant) in
  Ok (sanitized, dset settings INSTANCE_UI_VARIANT_SETTING_KEY sanitized).

(** What GET /api/me/preferences answers. *)
Record full_prefs := mkFull {
  f_prefs : prefs; f_timezone : string; f_remember : bool; f_updated : option string;
  f_instance_typography : option (list (string * Z)); f_instance_variant : option string }.

Definition row_of (uid : Z) (table : list pref_row) : option pref_row := List.find (fun r => p_user r =? uid) table.

Definition get_user_preferences (settings : list (string * string)) (table : list pref_row) (uid : Z) : res full_prefs :=
  let! it := get_instance_typography_default settings in
  let! iv := get_instance_ui_variant_default settings in
  match row_of uid table with
  | None =>
      let! typo := sanitize_typography_px (opt_typography it) in
      let! variant := sanitize_ui_variant (opt_str iv) in
      Ok (mkFull (fallback_prefs variant typo) "UTC" false None it iv)
  | Some row =>
      let! p := _decode_display_prefs (display_prefs_json row) it iv in
      let! tz := try_except (validate_timezone (PStr (timezone row))) is_value_error (Ok "UTC") in
      Ok (mkFull p tz (remember_profile_on_server row) (Some (updated_at row)) it iv)
  end%py.

(** INSERT .. ON CONFLICT(user_id) DO UPDATE: [f] on the user's row, or on a row of defaults. *)
Definition new_row (uid : Z) : pref_row := mkPref uid "" None None "UTC" false "".
Fixpoint upsert_pref (uid : Z) (f : pref_row -> pref_row) (table : list pref_row) : list pref_row :=
  match table with
  | [] => [f (new_row uid)]
  | r :: t => if p_user r =? uid then f r :: t else r :: upsert_pref uid f t
  end.

Definition PATCHED_KEYS : list string :=
  ["font_scale"; "density"; "show_technical_ids"; "poll_interval_seconds"; "utc_time"; "reduce_motion"; "notification_sound"; "ui_variant"; "typography_px"; "notification_mutes"].

Definition display_patch (patch : list (string * pyval)) : list (string * pyval) :=
  flat_map (fun k => match assoc k patch with Some v => [(k, v)] | None => [] end) PATCHED_KEYS.

Definition set_display (json tz : string) (remember : bool) (now : string) (r : pref_row) : pref_row :=
  mkPref (p_user r) (stack_terms r) (profile_json r) (Some json) tz remember now.

Definition patch_user_preferences (settings : list (string * string)) (table : list pref_row) (uid : Z) (patch : list (string * pyval)) (now : string) :
    res (full_prefs * list pref_row) :=
  let! current := get_user_preferences settings table uid in
  let! p := merge_display_prefs (f_prefs current) (display_patch patch) in
  let! tz := match assoc "timezone" patch with Some v => validate_timezone v | None => Ok (f_timezone current) end in
  let remember := match assoc "remember_profile_on_server" patch with Some v => truthy v | None => f_remember current end in
  let! json := encode_display_prefs p in
  Ok (mkFull p tz remember (Some now) (f_instance_typography current) (f_instance_variant current),
      upsert_pref uid (set_display json tz remember now) table).

(** ** The stack of a user *)

Definition _decode_profile (raw : option string) : res (option clean_profile) :=
  match has_text raw with
  | Some s => match json_loads s with Some (PDict d) => sanitize_profile py_str (PDict d) | _ => Ok None end
  | None => Ok None
  end.

Record user_stack := mkStack { s_terms : string; s_profile : option clean_profile; s_updated : option string }.

Definition get_user_stack (table : list pref_row) (uid : Z) : res user_stack :=
  match row_of uid table with
  | None => Ok (mkStack "" None None)
  | Some row => let! p := _decode_profile (profile_json row) in Ok (mkStack (stack_terms row) p (Some (updated_at row)))
  end.

Definition set_terms (terms now : string) (r : pref_row) : pref_row :=
  mkPref (p_user r) terms (profile_json r) (display_prefs_json r) (timezone r) (remember_profile_on_server r) now.
Definition set_stack (terms : string) (json : option string) (now : string) (r : pref_row) : pref_row :=
  mkPref (p_user r) terms json (display_prefs_json r) (timezone r) (remember_profile_on_server r) now.

(** [profile]: [Some] when the request names it ([update_profile]). *)
Definition upsert_user_stack (table : list pref_row) (uid : Z) (terms : string) (profile : option (option clean_profile)) (now : string) :
    res (user_stack * list pref_row) :=
  match profile with
  | Some p => let! json := encode_profile json_dumps p in Ok (mkStack terms p (Some now), upsert_pref uid (set_stack terms json now) table)
  | None => let table := upsert_pref uid (set_terms terms now) table in
            let! saved := get_user_stack table uid in Ok (mkStack terms (s_profile saved) (Some now), table)
  end.

(** ** The stack the alerts use: the newest row of an active administrator *)

Definition active_admin (u : user) : bool := String.eqb (role u) "admin" && is_active u.

Definition admin_rows (us : list user) (table : list pref_row) : list pref_row :=
  List.filter (fun r => existsb (fun u => (user_id u =? p_user r) && active_admin u) us) table.

(** ORDER BY updated_at DESC LIMIT 1; among equal times the first row. *)
Definition newest (l : list pref_row) : option pref_row :=
  fold_left (fun best r => match best with Some b => if String.ltb (updated_at b) (updated_at r) then Some r else best | None => Some r end) l None.

Definition stored_profile (raw : option string) : pyval :=
  match has_text raw with
  | Some s => match json_loads s with Some (PDict d) => PDict d | _ => PNone end
  | None => PNone
  end.

(** The env terms are copied once: [migrated] is the flag in sync_state. *)
Record stack_db := mkStackDb { migrated : option string; rows : list pref_row }.

Definition env_before (us : list user) (table : list pref_row) (a b : user) : bool :=
  let upd u := match row_of (user_id u) table with Some r => updated_at r | None => "" end in
  String.ltb (upd b) (upd a) || (String.eqb (upd a) (upd b) && (user_id a <? user_id b)).

Definition first_admin (us : list user) (table : list pref_row) : option user :=
  fold_left (fun best u => if active_admin u then match best with Some b => if env_before us table u b then Some u else best | None => Some u end else best) us None.

Definition migrate_env_stack_terms_once (env : string) (us : list user) (now : string) (db : stack_db) : res stack_db :=
  if match migrated db with Some s => nonempty s | None => false end then Ok db
  else
    let env := strip env in
    if negb (nonempty env) then Ok db
    else match first_admin us (rows db) with
         | None => Ok db
         | Some admin =>
             let row := row_of (user_id admin) (rows db) in
             let existing := strip (match row with Some r => stack_terms r | None => "" end) in
             let! assets := profile_to_assets py_str (stored_profile (match row with Some r => profile_json r | None => None end)) in
             if negb (nonempty existing) && negb (nonempty_list assets)
             then let! saved := upsert_user_stack (rows db) (user_id admin) env None now in Ok (mkStackDb (Some "1") (snd saved))
             else Ok (mkStackDb (Some "1") (rows db))
         end.

Definition get_alert_stack_assets (env : string) (us : list user) (now : string) (db : stack_db) : res (list asset * stack_db) :=
  let! db := migrate_env_stack_terms_once env us now db in
  match newest (admin_rows us (rows db)) with
  | None => Ok ([], db)
  | Some row =>
      let! assets := profile_to_assets py_str (stored_profile (profile_json row)) in
      Ok (if nonempty_list assets then assets else terms_to_assets (stack_terms row), db)
  end.

Definition get_effective_stack_terms (env : string) (us : list user) (now : string) (db : stack_db) : res (string * stack_db) :=
  let! db := migrate_env_stack_terms_once env us now db in
  let! found := get_alert_stack_assets env us now db in
  Ok (sjoin "," (assets_to_terms (fst found)), snd found).

(** ** routers/me.py; an exception that is not a [ValueError] escapes *)

Definition or_422 {A B} (keep : B) (m : res (A * B)) : res (reply A * B) :=
  try_except (let! r := m in Ok (Data (fst r), snd r)) is_value_error (Ok (Status 422, keep)).

Definition read_preferences (settings : list (string * string)) (table : list pref_row) (uid : Z) : res full_prefs := get_user_preferences settings table uid.

Definition write_preferences (settings : list (string * string)) (uid : Z) (patch : list (string * pyval)) (now : string) (table : list pref_row) :
    res (reply full_prefs * list pref_row) :=
  match patch with
  | [] => Ok (Status 422, table)
  | _ => or_422 table (patch_user_preferences settings table uid patch now)
  end.

Definition write_stack (uid : Z) (terms : string) (profile : option pyval) (now : string) (table : list pref_row) : res (reply user_stack * list pref_row) :=
  or_422 table
    (let! terms := validate_stack_terms (Some terms) in
     match profile with
     | Some p => let! clean := sanitize_profile py_str p in upsert_user_stack table uid terms (Some clean) now
     | None => upsert_user_stack table uid terms None now
     end).
End preferences.

(** ** Values that were checked *)

Definition role_ok (rz : string * Z) : Prop := MIN_TYPOGRAPHY_PX <= snd rz <= MAX_TYPOGRAPHY_PX.
Definition typography_ok (t : list (string * Z)) : Prop := map fst t = TYPOGRAPHY_ROLES /\ Forall role_ok t.
Definition mutes_ok (m : list (string * bool)) : Prop := map fst m = NOTIFICATION_MUTE_CATEGORIES.
Definition display_ok (d : display) : Prop :=
  font_scale d ∈ FONT_SCALES /\ density d ∈ DENSITY_MODES /\ poll_interval_seconds d ∈ POLL_INTERVALS /\
  ui_variant d ∈ UI_VARIANTS /\ mutes_ok (notification_mutes d).
Definition prefs_ok (p : prefs) : Prop := display_ok (disp p) /\ typography_ok (typography_px p).

Lemma dset_same_keys {A} (d : list (string * A)) k v : k ∈ map fst d -> map fst (dset d k v) = map fst d.
Proof.
  induction d as [|[k' v'] t IH]; [by intros ?%elem_of_nil|]. cbn [dset map fst]. destruct (String.eqb k' k) eqn:E; [by apply String.eqb_eq in E as ->|].
  intros [->|I]%elem_of_cons; [by rewrite String.eqb_refl in E|]. cbn [map fst]. by rewrite IH.
Qed.

Lemma Forall_dset {A} (P : string * A -> Prop) d k v : P (k, v) -> Forall P d -> Forall P (dset d k v).
Proof.
  intros V. induction 1 as [|[k' v'] t H F IH]; cbn [dset]; [by repeat constructor|]. by destruct (String.eqb k' k); constructor.
Qed.

Lemma unless_none_ok {A} (P : A -> Prop) v default check r : unless_none v default check = Ok r ->
  P default -> (check v = Ok r -> P r) -> P r.
Proof. destruct v; cbn [unless_none]; try (intros <-%ok_inj; done); intros E _ H; by apply H. Qed.

Lemma set_role_ok data base role r : role ∈ TYPOGRAPHY_ROLES -> typography_ok base -> set_role data base role = Ok r -> typography_ok r.
Proof.
  intros R [K F] H. unfold set_role in H. destruct (dget data role); [by apply ok_inj in H as <-|..];
  (inv_bind H; case_hyp H; [done|]; apply ok_inj in H as <-; bool_prop; split;
   [rewrite dset_same_keys; [done|by rewrite K]|by apply Forall_dset]).
Qed.

Lemma default_typography_ok : typography_ok DEFAULT_TYPOGRAPHY_PX.
Proof. split; [done|]. unfold DEFAULT_TYPOGRAPHY_PX. repeat (apply List.Forall_cons; [unfold role_ok, MIN_TYPOGRAPHY_PX, MAX_TYPOGRAPHY_PX; cbn; lia|]). apply List.Forall_nil. Qed.

Lemma sanitize_typography_ok v t : sanitize_typography_px v = Ok t -> typography_ok t.
Proof.
  destruct v; cbn [sanitize_typography_px]; try done; [intros <-%ok_inj; apply default_typography_ok|].
  intros H. revert H. apply (fold_res_inv typography_ok); [|apply default_typography_ok]. intros a b r Ib Ia. apply set_role_ok; [|done]. by apply list_elem_of_In.
Qed.

Lemma set_mute_ok base kv r : mutes_ok base -> set_mute base kv = Ok r -> mutes_ok r.
Proof.
  intros K. unfold set_mute. case_goal; [|done]. apply one_in_spec in Heqb. intros H. inv_bind H. apply ok_inj in H as <-.
  unfold mutes_ok. rewrite dset_same_keys; [done|by rewrite K].
Qed.

Lemma sanitize_mutes_ok v m : sanitize_notification_mutes v = Ok m -> mutes_ok m.
Proof.
  destruct v; cbn [sanitize_notification_mutes]; try done; [by intros <-%ok_inj|].
  apply (fold_res_inv mutes_ok); [|done]. intros a b r _ Ia. by apply set_mute_ok.
Qed.

Lemma checked_text_ok py_str allowed v s : checked_text py_str allowed v = Ok s -> s ∈ allowed.
Proof. unfold checked_text. case_goal; [|done]. intros <-%ok_inj. by apply one_in_spec. Qed.

Lemma checked_text_keeps py_str allowed s : Forall (fun a => strip a = a) allowed -> s ∈ allowed -> checked_text py_str allowed (PStr s) = Ok s.
Proof.
  intros F I. unfold checked_text. cbn [to_str]. rewrite List.Forall_forall in F. rewrite F by by apply list_elem_of_In.
  by rewrite (proj2 (one_in_spec allowed s) I).
Qed.

Lemma ui_variant_ok py_str v s : sanitize_ui_variant py_str v = Ok s -> s ∈ UI_VARIANTS.
Proof. destruct v; cbn [sanitize_ui_variant]; try apply checked_text_ok. intros <-%ok_inj. set_solver. Qed.

Lemma check_poll_ok v p : check_poll v = Ok p -> p ∈ POLL_INTERVALS.
Proof.
  unfold check_poll. intros H. inv_bind H. case_hyp H; [|done]. apply ok_inj in H as <-.
  apply existsb_exists in Heqb as (x & I & ->%Z.eqb_eq). by apply list_elem_of_In.
Qed.

Lemma default_display_ok : display_ok DEFAULT_DISPLAY_PREFS.
Proof. unfold display_ok. cbn. set_solver. Qed.

Lemma sanitize_display_ok py_str v d : sanitize_display_prefs py_str v = Ok d -> display_ok d.
Proof.
  destruct v as [| | | | | |d0]; cbn [sanitize_display_prefs]; try done; [intros <-%ok_inj; apply default_display_ok|].
  intros H. do 9 inv_bind H. apply ok_inj in H as <-. destruct default_display_ok as (D1 & D2 & D3 & D4 & D5).
  unfold display_ok. cbn [font_scale density poll_interval_seconds ui_variant notification_mutes]. repeat split.
  - eapply (unless_none_ok (fun s => s ∈ FONT_SCALES)); [exact E|done|apply checked_text_ok].
  - eapply (unless_none_ok (fun s => s ∈ DENSITY_MODES)); [exact E0|done|apply checked_text_ok].
  - eapply (unless_none_ok (fun s => s ∈ POLL_INTERVALS)); [exact E2|done|apply check_poll_ok].
  - eapply (unless_none_ok (fun s => s ∈ UI_VARIANTS)); [exact E6|done|apply checked_text_ok].
  - eapply (unless_none_ok mutes_ok); [exact E7|done|apply sanitize_mutes_ok].
Qed.

Lemma try_except_cases {A} (m : res A) c h r : try_except m c h = Ok r -> m = Ok r \/ h = Ok r.
Proof. destruct m as [a|e]; cbn [try_except]; [by left|]. destruct (c e); [by right|done]. Qed.

Lemma with_mutes_ok m d : display_ok d -> mutes_ok m -> display_ok (with_mutes m d).
Proof. unfold display_ok, with_mutes. cbn. naive_solver. Qed.
Lemma with_variant_ok v d : display_ok d -> v ∈ UI_VARIANTS -> display_ok (with_variant v d).
Proof. unfold display_ok, with_variant. cbn. naive_solver. Qed.
Lemma default_mutes_ok : mutes_ok DEFAULT_NOTIFICATION_MUTES.
Proof. done. Qed.

Lemma fallback_ok v t : v ∈ UI_VARIANTS -> typography_ok t -> prefs_ok (fallback_prefs v t).
Proof. intros V T. split; [|done]. apply with_variant_ok; [apply default_display_ok|done]. Qed.

Section facts.
Variable py_str : pyval -> string.
Variable json_loads : string -> option pyval.
Variable json_dumps : pyval -> string.
Variable zone_exists : string -> bool.
Abbreviation decode := (_decode_display_prefs py_str json_loads).
Abbreviation get_prefs := (get_user_preferences py_str json_loads zone_exists).
Abbreviation patch_prefs := (patch_user_preferences py_str json_loads json_dumps zone_exists).

Lemma decode_ok raw it iv p : decode raw it iv = Ok p -> prefs_ok p.
Proof.
  unfold _decode_display_prefs. intros H. inv_bind H. inv_bind H. apply ui_variant_ok in E. apply sanitize_typography_ok in E0.
  destruct (match has_text raw with Some s => json_loads s | None => None end) as [[| | | | | |data]|]; try (apply ok_inj in H as <-; by apply fallback_ok).
  do 3 inv_bind H. apply ok_inj in H as <-.
  assert (display_ok v1) as D.
  { apply try_except_cases in E1 as [E1|E1]; [by eapply sanitize_display_ok|]. inv_bind E1. apply ok_inj in E1 as <-.
    apply with_mutes_ok; [|apply default_mutes_ok]. apply try_except_cases in E4 as [E4|E4]; [by eapply sanitize_display_ok|].
    apply ok_inj in E4 as <-. apply default_display_ok. }
  assert (typography_ok v2) as T.
  { destruct (dmem data "typography_px"); [|by apply ok_inj in E2 as <-]. apply try_except_cases in E2 as [E2|E2]; [by eapply sanitize_typography_ok|by apply ok_inj in E2 as <-]. }
  assert (mutes_ok v3) as M.
  { destruct (dmem data "notification_mutes"); [|apply ok_inj in E3 as <-; by destruct D as (_ & _ & _ & _ & D)].
    apply try_except_cases in E3 as [E3|E3]; [by eapply sanitize_mutes_ok|]. apply ok_inj in E3 as <-. apply default_mutes_ok. }
  split; [|done]. cbn [disp]. destruct (dmem data "ui_variant"); [|apply with_variant_ok; [|done]]; by apply with_mutes_ok.
Qed.

Lemma zone_checked v tz : validate_timezone zone_exists v = Ok tz -> zone_exists tz = true /\ nonempty tz = true /\ slen tz <= MAX_TIMEZONE_LEN /\ strip tz = tz.
Proof.
  unfold validate_timezone. intros H. inv_bind H. case_hyp H; [done|]. case_hyp H; [|done]. apply ok_inj in H as <-. bool_prop.
  split; [done|]. split; [by destruct (nonempty v0) eqn:?|]. split; [done|].
  destruct (nonempty v0); [|done]. unfold strip_of in E. destruct (py_or v (PStr "UTC")); try done. apply ok_inj in E as <-. apply strip_idemp.
Qed.

Definition zone_ok (tz : string) : Prop := zone_exists tz = true /\ nonempty tz = true /\ slen tz <= MAX_TIMEZONE_LEN /\ strip tz = tz.

Lemma served_ok settings table uid f : get_prefs settings table uid = Ok f -> prefs_ok (f_prefs f) /\ (zone_ok (f_timezone f) \/ f_timezone f = "UTC").
Proof.
  unfold get_user_preferences. intros H. do 2 inv_bind H. destruct (row_of uid table) as [row|].
  - do 2 inv_bind H. apply ok_inj in H as <-. cbn [f_prefs f_timezone]. split; [by eapply decode_ok|].
    apply try_except_cases in E2 as [E2|E2]; [left; by apply zone_checked in E2|right; by apply ok_inj in E2 as <-].
  - do 2 inv_bind H. apply ok_inj in H as <-. cbn [f_prefs f_timezone]. split; [|by right].
    apply fallback_ok; [by eapply ui_variant_ok|by eapply sanitize_typography_ok].
Qed.

(** C39 [prefs_always_valid]: whatever texts the tables hold, preferences that are served have
    every field within its documented set, all five mute categories and all seven font
    sizes between 9 and 20, and a time zone that exists (or the fallback). *)
Theorem prefs_always_valid settings table uid f : get_prefs settings table uid = Ok f ->
  prefs_ok (f_prefs f) /\ (zone_exists (f_timezone f) = true \/ f_timezone f = "UTC").
Proof. intros [P [(Z & _)|U]]%served_ok; (split; [done|]); [by left|by right]. Qed.
End facts.

(** ** A saved patch reads back *)

Lemma in_range px : MIN_TYPOGRAPHY_PX <= px <= MAX_TYPOGRAPHY_PX -> (px <? MIN_TYPOGRAPHY_PX) || (MAX_TYPOGRAPHY_PX <? px) = false.
Proof. intros [A B]. apply orb_false_iff. split; by apply Z.ltb_ge. Qed.

Lemma set_role_keeps data base role px : dget data role = PInt px -> MIN_TYPOGRAPHY_PX <= px <= MAX_TYPOGRAPHY_PX ->
  set_role data base role = Ok (dset base role px).
Proof. intros D R. unfold set_role. rewrite D. cbn [py_int try_except res_bind]. by rewrite in_range. Qed.

(** A dict in which every role has its checked size gives those sizes. *)
Lemma typography_back data t : typography_ok t -> (forall k z, assoc k t = Some z -> dget data k = PInt z) -> sanitize_typography_px (PDict data) = Ok t.
Proof.
  intros [K F] D. destruct t as [|[k1 a] [|[k2 b] [|[k3 c] [|[k4 d] [|[k5 e] [|[k6 f] [|[k7 g] [|]]]]]]]]; try discriminate K.
  injection K as -> -> -> -> -> -> ->.
  assert (R : forall k z, (k, z) ∈ [("title", a); ("heading", b); ("subheading", c); ("id", d); ("body", e); ("meta", f); ("micro", g)] -> MIN_TYPOGRAPHY_PX <= z <= MAX_TYPOGRAPHY_PX).
  { intros k z I. rewrite List.Forall_forall in F. apply list_elem_of_In in I. exact (F _ I). }
  assert (step : forall k z, assoc k [("title", a); ("heading", b); ("subheading", c); ("id", d); ("body", e); ("meta", f); ("micro", g)] = Some z ->
    forall base, set_role data base k = Ok (dset base k z)).
  { intros k z A base. apply set_role_keeps; [by apply D|]. eapply R. by apply assoc_elem. }
  cbn [sanitize_typography_px]. unfold TYPOGRAPHY_ROLES, DEFAULT_TYPOGRAPHY_PX. cbn [map fst fold_res].
  rewrite (step "title" a eq_refl). cbn [res_bind]. rewrite (step "heading" b eq_refl). cbn [res_bind]. rewrite (step "subheading" c eq_refl). cbn [res_bind].
  rewrite (step "id" d eq_refl). cbn [res_bind]. rewrite (step "body" e eq_refl). cbn [res_bind]. rewrite (step "meta" f eq_refl). cbn [res_bind].
  rewrite (step "micro" g eq_refl). reflexivity.
Qed.

Lemma typography_value_back t : typography_ok t -> sanitize_typography_px (typography_value t) = Ok t.
Proof.
  intros T. apply typography_back; [done|]. destruct T as [K _].
  destruct t as [|[k1 a] [|[k2 b] [|[k3 c] [|[k4 d] [|[k5 e] [|[k6 f] [|[k7 g] [|]]]]]]]]; try discriminate K.
  injection K as -> -> -> -> -> -> ->. intros k z. cbn [assoc].
  repeat (match goal with |- context [String.eqb ?x k] => let E := fresh in destruct (String.eqb x k) eqn:E; [apply String.eqb_eq in E as <-; intros [= <-]; reflexivity|] end). done.
Qed.

Lemma int_dict_back t : typography_ok t -> sanitize_typography_px (PDict (int_dict t)) = Ok t.
Proof.
  intros T. apply typography_back; [done|]. clear T. induction t as [|[k z] t IH]; [done|]. intros k' z'. cbn [assoc int_dict map fst snd dget].
  destruct (String.eqb k k'); [by intros [= ->]|apply IH].
Qed.

Lemma mutes_value_back m : mutes_ok m -> sanitize_notification_mutes (mutes_value m) = Ok m.
Proof.
  intros K. destruct m as [|[k1 a] [|[k2 b] [|[k3 c] [|[k4 d] [|[k5 e] [|]]]]]]; try discriminate K. injection K as -> -> -> -> ->. reflexivity.
Qed.

Lemma poll_back p : p ∈ POLL_INTERVALS -> check_poll (PInt p) = Ok p.
Proof. intros I. unfold check_poll. cbn [py_int try_except res_bind]. assert (existsb (Z.eqb p) POLL_INTERVALS = true) as ->; [|done]. apply existsb_exists. exists p. split; [by apply list_elem_of_In|apply Z.eqb_refl]. Qed.

Lemma checked_back {A} (v : pyval) (default x : A) check : v <> PNone -> check v = Ok x -> unless_none v default check = Ok x.
Proof. by destruct v. Qed.

Lemma display_back py_str p : prefs_ok p -> sanitize_display_prefs py_str (prefs_value p) = Ok (disp p).
Proof.
  intros [(D1 & D2 & D3 & D4 & D5) _]. destruct p as [[fs de si po ut re so va mu] t]. cbn [disp font_scale density poll_interval_seconds ui_variant notification_mutes] in *.
  cbn [prefs_value sanitize_display_prefs disp dget String.eqb Ascii.eqb Bool.eqb font_scale density poll_interval_seconds ui_variant notification_mutes utc_time reduce_motion notification_sound show_technical_ids].
  rewrite (checked_back (PStr fs) _ fs), (checked_back (PStr de) _ de), (checked_back (PInt po) _ po), (checked_back (PStr va) _ va), (checked_back (mutes_value mu) _ mu) by
    first [done | by apply mutes_value_back | by apply poll_back | apply checked_text_keeps; [by repeat constructor|done]].
  reflexivity.
Qed.

Lemma row_of_upsert uid f table : (forall r, p_user (f r) = p_user r) ->
  row_of uid (upsert_pref uid f table) = Some (f (match row_of uid table with Some r => r | None => new_row uid end)).
Proof.
  intros F. induction table as [|r t IH]; unfold row_of in *; cbn [upsert_pref List.find].
  - rewrite F. cbn [new_row p_user]. by rewrite Z.eqb_refl.
  - destruct (p_user r =? uid) eqn:E; cbn [List.find]; [by rewrite F, E|]. by rewrite E.
Qed.

Lemma row_of_other uid uid' f table : (forall r, p_user (f r) = p_user r) -> uid' <> uid -> row_of uid' (upsert_pref uid f table) = row_of uid' table.
Proof.
  intros F N. apply not_eq_sym, Z.eqb_neq in N. induction table as [|r t IH]; unfold row_of in *; cbn [upsert_pref List.find].
  - rewrite F. cbn [new_row p_user]. by rewrite N.
  - destruct (p_user r =? uid) eqn:E; cbn [List.find]; [|by rewrite IH]. rewrite F. apply Z.eqb_eq in E as ->. by rewrite N.
Qed.

Definition merged_fine (m : list (string * pyval) * list (string * bool) * list (string * Z)) : Prop := mutes_ok (snd (fst m)) /\ typography_ok (snd m).

Lemma merge_value_ok m key v m' : merged_fine m -> merge_value m key v = Ok m' -> merged_fine m'.
Proof.
  destruct m as [[plain mutes] typo]. intros [M T] H. unfold merge_value in H.
  destruct (String.eqb key "typography_px"); [inv_bind H; apply ok_inj in H as <-; split; [done|by eapply sanitize_typography_ok]|].
  destruct (String.eqb key "notification_mutes"); [inv_bind H; apply ok_inj in H as <-; split; [by eapply sanitize_mutes_ok|done]|].
  by destruct (dmem _ _); apply ok_inj in H as <-.
Qed.

Lemma merge_step_ok m kv m' : merged_fine m -> merge_step m kv = Ok m' -> merged_fine m'.
Proof. unfold merge_step. destruct (snd kv); try apply merge_value_ok. by intros M <-%ok_inj. Qed.

Lemma merged_ok py_str existing patch p : prefs_ok existing -> merge_display_prefs py_str existing patch = Ok p -> prefs_ok p.
Proof.
  intros [D T] H. unfold merge_display_prefs in H. inv_bind H. destruct v as [[plain mutes] typo]. inv_bind H. apply ok_inj in H as <-.
  apply (fold_res_inv merged_fine) in E as [M T']; [|intros a b a' _; apply merge_step_ok|split; [apply D|done]].
  split; [|done]. apply with_mutes_ok; [|done]. by eapply sanitize_display_ok.
Qed.

Section readback.
Variable py_str : pyval -> string.
Variable json_loads : string -> option pyval.
Variable json_dumps : pyval -> string.
Variable zone_exists : string -> bool.
Abbreviation decode := (_decode_display_prefs py_str json_loads).
Abbreviation get_prefs := (get_user_preferences py_str json_loads zone_exists).
Abbreviation patch_prefs := (patch_user_preferences py_str json_loads json_dumps zone_exists).

(** The stored text of [p] reads back. *)
Definition text_reads_back (p : prefs) : Prop :=
  nonempty (json_dumps (prefs_value p)) = true /\ json_loads (json_dumps (prefs_value p)) = Some (prefs_value p).

Lemma instance_variant_ok settings iv : get_instance_ui_variant_default py_str settings = Ok iv -> exists v, sanitize_ui_variant py_str (opt_str iv) = Ok v.
Proof.
  unfold get_instance_ui_variant_default. destruct (has_text _) as [raw|]; [|intros <-%ok_inj; by eexists].
  intros [H|H]%try_except_cases; [|apply ok_inj in H as <-; by eexists]. inv_bind H. apply ok_inj in H as <-.
  exists v. cbn [opt_str sanitize_ui_variant]. apply checked_text_keeps; [by repeat constructor|]. by apply ui_variant_ok in E.
Qed.

Lemma instance_typography_ok settings it : get_instance_typography_default json_loads settings = Ok it -> exists t, sanitize_typography_px (opt_typography it) = Ok t.
Proof.
  unfold get_instance_typography_default. destruct (has_text _) as [raw|]; [|intros <-%ok_inj; by eexists].
  destruct (json_loads raw); [|intros <-%ok_inj; by eexists].
  intros [H|H]%try_except_cases; [|apply ok_inj in H as <-; by eexists]. inv_bind H. apply ok_inj in H as <-.
  exists v. cbn [opt_typography]. apply int_dict_back. by eapply sanitize_typography_ok.
Qed.

Lemma decode_back p it iv v t : prefs_ok p -> text_reads_back p ->
  sanitize_ui_variant py_str (opt_str iv) = Ok v -> sanitize_typography_px (opt_typography it) = Ok t -> decode (Some (json_dumps (prefs_value p))) it iv = Ok p.
Proof.
  intros P [N L] V T. unfold _decode_display_prefs. rewrite V, T. cbn [res_bind has_text]. rewrite N, L.
  set (data := match prefs_value p with PDict d => d | _ => [] end).
  change (prefs_value p) with (PDict data). cbv iota beta.
  assert (sanitize_display_prefs py_str (PDict data) = Ok (disp p)) as -> by by apply display_back. cbn [try_except res_bind].
  assert (dmem data "typography_px" = true) as -> by done. assert (dget data "typography_px" = typography_value (typography_px p)) as -> by done.
  rewrite typography_value_back by apply P. cbn [try_except res_bind].
  assert (dmem data "notification_mutes" = true) as -> by done. assert (dget data "notification_mutes" = mutes_value (notification_mutes (disp p))) as -> by done.
  rewrite mutes_value_back by apply P. cbn [try_except res_bind]. assert (dmem data "ui_variant" = true) as -> by done.
  by destruct p as [[] ?].
Qed.

(** [preferences_read_back]: what PATCH /api/me/preferences answers is what the next read
    gives, whatever the instance-wide defaults have become by then.  So a patch of one
    field also pins the interface variant and the font sizes the user had from the
    instance defaults: later changes of the defaults no longer reach the user. *)
Theorem preferences_read_back settings settings' table uid patch now f table' it' iv' :
  patch_prefs settings table uid patch now = Ok (f, table') -> text_reads_back (f_prefs f) ->
  get_instance_typography_default json_loads settings' = Ok it' -> get_instance_ui_variant_default py_str settings' = Ok iv' ->
  get_prefs settings' table' uid = Ok (mkFull (f_prefs f) (f_timezone f) (f_remember f) (Some now) it' iv').
Proof.
  intros H B I V. unfold patch_user_preferences in H. do 4 inv_bind H. rename v into cur, v0 into p, v1 into tz, v2 into json.
  injection H as <- <-. cbn [f_prefs f_timezone f_remember] in *. apply served_ok in E as [CP CZ].
  unfold encode_display_prefs in E2. case_hyp E2; [done|]. apply ok_inj in E2 as <-.
  unfold get_user_preferences. rewrite I, V. cbn [res_bind]. rewrite row_of_upsert by done. cbn [display_prefs_json set_display timezone remember_profile_on_server updated_at].
  apply instance_typography_ok in I as [t T]. apply instance_variant_ok in V as [v V].
  rewrite (decode_back _ _ _ v t) by first [done | by eapply merged_ok]. cbn [res_bind].
  assert (try_except (validate_timezone zone_exists (PStr tz)) is_value_error (Ok "UTC") = Ok tz) as ->; [|done].
  assert (zone_ok zone_exists tz \/ tz = "UTC") as [(Z & N & L & S)|Z].
  { destruct (assoc "timezone" patch) as [v0|]; [left; by apply zone_checked in E1|by apply ok_inj in E1 as <-]. }
  - unfold validate_timezone, py_or. cbn [truthy]. rewrite N. cbn [strip_of res_bind]. rewrite S, N. apply Z.ltb_ge in L. by rewrite L, Z.
  - rewrite Z. change (validate_timezone zone_exists (PStr "UTC")) with (if zone_exists "UTC" then Ok "UTC" else Raise ValueError). by destruct (zone_exists "UTC").
Qed.
End readback.

(** ** The stack and the alerts *)

Definition keyed (table : list pref_row) : Prop := List.NoDup (map p_user table).

Lemma upsert_elem uid f table r : (forall r, p_user (f r) = p_user r) -> keyed table -> r ∈ upsert_pref uid f table ->
  r = f (match row_of uid table with Some r => r | None => new_row uid end) \/ r ∈ table /\ p_user r <> uid.
Proof.
  intros F. unfold keyed, row_of. induction table as [|x t IH]; cbn [upsert_pref List.find map]; [intros _ ->%list_elem_of_singleton; by left|].
  intros K. inversion K as [|? ? Nx Nt]; subst. destruct (p_user x =? uid) eqn:E.
  - intros [->|I]%elem_of_cons; [by left|]. right. split; [by right|]. apply Z.eqb_eq in E. intros <-. apply Nx. rewrite E. apply in_map. by apply list_elem_of_In.
  - intros [->|I]%elem_of_cons; [right; split; [by left|by apply Z.eqb_neq]|]. destruct (IH Nt I) as [->|[I' N]]; [by left|right; split; [by right|done]].
Qed.

Lemma newest_is l r : r ∈ l -> (forall x, x ∈ l -> x = r \/ String.ltb (updated_at x) (updated_at r) = true) -> newest l = Some r.
Proof.
  intros I A. unfold newest.
  set (step := fun (best : option pref_row) r => match best with Some b => if String.ltb (updated_at b) (updated_at r) then Some r else best | None => Some r end).
  assert (G : forall l, (forall x, x ∈ l -> x = r \/ String.ltb (updated_at x) (updated_at r) = true) -> forall best,
    (best = Some r \/ (r ∈ l /\ (best = None \/ exists b, best = Some b /\ String.ltb (updated_at b) (updated_at r) = true))) -> fold_left step l best = Some r).
  { clear I A l. induction l as [|x t IH]; intros A best H; cbn [fold_left].
    - destruct H as [->|[I _]]; [done|by apply elem_of_nil in I].
    - assert (At : forall y, y ∈ t -> y = r \/ String.ltb (updated_at y) (updated_at r) = true) by (intros y Iy; apply A; by right).
      apply IH; [done|]. destruct (A x) as [->|L]; [by left| |].
      + left. unfold step. destruct H as [->|[_ [->|(b & -> & B)]]]; [by rewrite ltb_irrefl|done|by rewrite B].
      + destruct H as [->|[[->|I]%elem_of_cons H]]; [left|by rewrite ltb_irrefl in L|].
        * unfold step. destruct (String.ltb (updated_at r) (updated_at x)) eqn:E; [|done].
          pose proof (ltb_trans _ _ _ L E) as C. by rewrite ltb_irrefl in C.
        * right. split; [done|]. right. unfold step. destruct H as [->|(b & -> & B)]; [by exists x|].
          destruct (String.ltb (updated_at b) (updated_at x)); [by exists x|by exists b]. }
  apply G; [done|]. right. split; [done|by left].
Qed.

Section stack.
Variable py_str : pyval -> string.
Variable json_loads : string -> option pyval.
Variable json_dumps : pyval -> string.
Variable zone_exists : string -> bool.
Abbreviation patch_prefs := (patch_user_preferences py_str json_loads json_dumps zone_exists).
Abbreviation migrate := (migrate_env_stack_terms_once py_str json_loads json_dumps).
Abbreviation alert_assets := (get_alert_stack_assets py_str json_loads json_dumps).

(** [display_patch_hides_stack]: the alerts take the administrator's row with the newest
    time, and a patch of display preferences renews that time.  So when an administrator
    without a stack changes a font size, the stack of every other administrator is out
    of the alerts' sight. *)
Theorem display_patch_hides_stack settings table uid patch now f table' env us later flag : keyed table ->
  patch_prefs settings table uid patch now = Ok (f, table') ->
  (forall r, r ∈ table -> String.ltb (updated_at r) now = true) ->
  (exists u, In u us /\ user_id u = uid /\ active_admin u = true) ->
  match row_of uid table with Some r => stack_terms r = "" /\ profile_json r = None | None => True end -> nonempty flag = true ->
  alert_assets env us later (mkStackDb (Some flag) table') = Ok ([], mkStackDb (Some flag) table').
Proof.
  intros K H L (u & Iu & Hu & Au) R Fl. unfold patch_user_preferences in H. do 4 inv_bind H. injection H as _ <-.
  set (g := set_display _ _ _ _). assert (G : forall r, p_user (g r) = p_user r) by done.
  set (mine := g (match row_of uid table with Some r => r | None => new_row uid end)).
  assert (p_user mine = uid) as Um.
  { unfold mine. rewrite G. destruct (row_of uid table) as [r|] eqn:E3; [|done]. apply find_some in E3 as [_ E3]. by apply Z.eqb_eq. }
  assert (newest (admin_rows us (upsert_pref uid g table)) = Some mine) as N.
  { apply newest_is.
    - apply list_elem_of_In, filter_In. split; [apply list_elem_of_In; pose proof (row_of_upsert uid g table G) as Fr; apply find_some in Fr as [Fr _]; by apply list_elem_of_In|].
      apply existsb_exists. exists u. split; [done|]. by rewrite Um, Hu, Z.eqb_refl, Au.
    - intros x Ix. apply list_elem_of_In, filter_In in Ix as [Ix _]. apply list_elem_of_In in Ix.
      destruct (upsert_elem uid g table x G K Ix) as [->|[I _]]; [by left|]. right. by apply L. }
  unfold get_alert_stack_assets, migrate_env_stack_terms_once. cbn [migrated rows]. rewrite Fl. cbn [res_bind rows]. rewrite N.
  assert (profile_json mine = None /\ stack_terms mine = "") as [-> ->]; [|done].
  unfold mine, g. cbn [set_display profile_json stack_terms]. destruct (row_of uid table); [by destruct R|done].
Qed.

Lemma migrate_cases env us now db db' : migrate env us now db = Ok db' ->
  db' = db \/
  migrated db' = Some "1" /\ (rows db' = rows db \/
    exists admin, first_admin us (rows db) = Some admin /\ nonempty (strip (match row_of (user_id admin) (rows db) with Some r => stack_terms r | None => "" end)) = false /\
      rows db' = upsert_pref (user_id admin) (set_terms (strip env) now) (rows db)).
Proof.
  unfold migrate_env_stack_terms_once. destruct (match migrated db with Some s => nonempty s | None => false end); [intros <-%ok_inj; by left|].
  destruct (negb (nonempty (strip env))); [intros <-%ok_inj; by left|]. destruct (first_admin us (rows db)) as [admin|]; [|intros <-%ok_inj; by left].
  intros H. inv_bind H. right. case_hyp H; [|apply ok_inj in H as <-; split; [done|by left]].
  inv_bind H. apply ok_inj in H as <-. unfold upsert_user_stack in E0. inv_bind E0. apply ok_inj in E0 as <-. cbn [snd migrated rows].
  split; [done|]. right. exists admin. bool_prop. by rewrite H.
Qed.

(** [env_terms_spare_the_users]: copying the environment's terms into the table touches
    one active administrator at most, one whose own terms are blank, and of the row only
    the terms and the time; and a second call, whatever the environment says by then,
    finds the flag or changes nothing the first one did. *)
Theorem env_terms_spare_the_users env us now db db' uid : migrate env us now db = Ok db' ->
  let r := row_of uid (rows db) in let r' := row_of uid (rows db') in
  (r' = r \/ exists admin, first_admin us (rows db) = Some admin /\ user_id admin = uid /\
     strip (match r with Some x => stack_terms x | None => "" end) = "" /\
     r' = Some (set_terms (strip env) now (match r with Some x => x | None => new_row uid end))) /\
  migrate env us now db' = Ok db'.
Proof.
  intros H r r'. destruct (migrate_cases _ _ _ _ _ H) as [->|[M [R|(admin & A & B & R)]]].
  - split; [by left|done].
  - split; [left; unfold r', r; by rewrite R|]. unfold migrate_env_stack_terms_once. by rewrite M.
  - split; [|unfold migrate_env_stack_terms_once; by rewrite M]. unfold r', r. rewrite R.
    destruct (decide (uid = user_id admin)) as [->|N]; [right|left; by apply row_of_other].
    exists admin. split; [done|]. split; [done|]. split; [by destruct (strip _)|]. by apply row_of_upsert.
Qed.
End stack.

(** [stack_reads_back]: a stack that PUT /api/me/stack accepted is what the next read
    gives, profile included, and no other user's row has changed. *)
Theorem stack_reads_back py_str json_loads json_dumps uid terms profile now table s table' :
  (forall v, truthy v = true -> nonempty (to_str py_str v) = true) ->
  (forall c, sanitize_profile py_str (match profile with Some p => p | None => PNone end) = Ok (Some c) ->
     nonempty (json_dumps (StackAssets.profile_json c)) = true /\ json_loads (json_dumps (StackAssets.profile_json c)) = Some (StackAssets.profile_json c)) ->
  write_stack py_str json_loads json_dumps uid terms profile now table = Ok (Data s, table') ->
  get_user_stack py_str json_loads table' uid = Ok s /\ s_terms s = normalize_stack_terms terms /\
  (forall uid', uid' <> uid -> row_of uid' table' = row_of uid' table).
Proof.
  intros T J H. unfold write_stack, or_422 in H. apply try_except_cases in H as [H|H]; [|by apply ok_inj in H].
  inv_bind H. apply ok_inj in H. destruct v as [s' t]. injection H as -> ->. inv_bind E.
  assert (v = normalize_stack_terms terms) as ->. { unfold validate_stack_terms in E0. case_hyp E0; [done|]. by apply ok_inj in E0 as <-. }
  destruct profile as [p|].
  - inv_bind E. rename v into clean. unfold upsert_user_stack in E. inv_bind E. apply ok_inj in E. injection E as <- <-.
    split; [|split; [done|intros; by apply row_of_other]]. unfold get_user_stack. rewrite row_of_upsert by done.
    cbn [profile_json set_stack stack_terms updated_at]. destruct clean as [c|].
    + unfold encode_profile in E2. case_hyp E2; [done|]. apply ok_inj in E2 as <-. destruct (J c E1) as [N L].
      unfold _decode_profile. cbn [has_text]. rewrite N, L.
      change (StackAssets.profile_json c) with (PDict (match StackAssets.profile_json c with PDict d => d | _ => [] end)). cbv iota beta.
      change (PDict (match StackAssets.profile_json c with PDict d => d | _ => [] end)) with (StackAssets.profile_json c).
      by rewrite (sanitize_roundtrip py_str p c T E1).
    + apply ok_inj in E2 as <-. done.
  - unfold upsert_user_stack in E. inv_bind E. apply ok_inj in E. injection E as <- <-.
    split; [|split; [done|intros; by apply row_of_other]]. unfold get_user_stack in *. rewrite row_of_upsert in * by done.
    inv_bind E1. apply ok_inj in E1 as <-. by rewrite E.
Qed.

(** ** Concrete inputs *)

Definition dumb_str (v : pyval) : string := "x".
Definition utc_only (z : string) : bool := String.eqb z "UTC" || String.eqb z "Asia/Kolkata".
(** One text is the stored one. *)
Definition saved_prefs : prefs := mkPrefs (mkDisplay "large" "compact" true 60 false false true "pitch" [("watchlist", false); ("ioc_watchlist", false); ("job_error", true); ("api_key_unhealthy", false); ("webhook_failure", false)]) DEFAULT_TYPOGRAPHY_PX.
Definition demo_loads (s : string) : option pyval := if String.eqb s "saved" then Some (prefs_value saved_prefs) else None.
Definition demo_dumps (v : pyval) : string := "saved".
Definition larger : list (string * pyval) :=
  [("font_scale", PStr " large "); ("density", PStr "compact"); ("show_technical_ids", PBool true); ("poll_interval_seconds", PInt 60);
   ("notification_mutes", PDict [("job_error", PBool true)]); ("timezone", PStr "Asia/Kolkata")].

(** The user of the first row; the instance variant is changed after the patch. *)
Lemma preferences_read_back_witness : exists f table', let settings := [("display_ui_variant_default", "pitch")] in
  patch_user_preferences dumb_str demo_loads demo_dumps utc_only settings [] 7 larger "2026-07-20 10:00:00" = Ok (f, table') /\
  get_user_preferences dumb_str demo_loads utc_only [("display_ui_variant_default", "default")] table' 7 =
    Ok (mkFull (f_prefs f) (f_timezone f) (f_remember f) (Some "2026-07-20 10:00:00") None (Some "default")).
Proof.
  destruct (is_ok_spec (patch_user_preferences dumb_str demo_loads demo_dumps utc_only [("display_ui_variant_default", "pitch")] [] 7 larger "2026-07-20 10:00:00")) as [[f table'] E]; [vm_compute; reflexivity|].
  exists f, table'. split; [exact E|].
  apply (preferences_read_back dumb_str demo_loads demo_dumps utc_only _ [("display_ui_variant_default", "default")] _ _ _ _ _ _ None (Some "default") E); [|reflexivity..].
  vm_compute in E. apply ok_inj in E. injection E as <- _. split; vm_compute; reflexivity.
Defined.

Lemma prefs_always_valid_witness : exists f, get_user_preferences dumb_str demo_loads utc_only [] [mkPref 7 "" None (Some "saved") "Mars/Base" false "t"] 7 = Ok f /\
  prefs_ok (f_prefs f) /\ (utc_only (f_timezone f) = true \/ f_timezone f = "UTC").
Proof.
  destruct (is_ok_spec (get_user_preferences dumb_str demo_loads utc_only [] [mkPref 7 "" None (Some "saved") "Mars/Base" false "t"] 7)) as [f E]; [vm_compute; reflexivity|].
  exists f. split; [exact E|]. exact (prefs_always_valid dumb_str demo_loads utc_only _ _ _ _ E).
Defined.

Definition nginx_row : pref_row := mkPref 1 "nginx" None None "UTC" false "2026-07-01 00:00:00".
Definition two_admins : list user := [mkUser 1 "a" "" "admin" true None; mkUser 2 "b" "" "admin" true None].

(** The stack of the first administrator is found until the second one picks a larger font. *)
Lemma display_patch_hides_stack_witness : exists f table',
  get_alert_stack_assets dumb_str demo_loads demo_dumps "" two_admins "2026-07-20 10:00:00" (mkStackDb (Some "1") [nginx_row]) =
    Ok ([text_asset "nginx" "" ""], mkStackDb (Some "1") [nginx_row]) /\
  patch_user_preferences dumb_str demo_loads demo_dumps utc_only [] [nginx_row] 2 larger "2026-07-20 10:00:00" = Ok (f, table') /\
  get_alert_stack_assets dumb_str demo_loads demo_dumps "" two_admins "2026-07-20 11:00:00" (mkStackDb (Some "1") table') = Ok ([], mkStackDb (Some "1") table').
Proof.
  destruct (is_ok_spec (patch_user_preferences dumb_str demo_loads demo_dumps utc_only [] [nginx_row] 2 larger "2026-07-20 10:00:00")) as [[f table'] E]; [vm_compute; reflexivity|].
  exists f, table'. split; [vm_compute; reflexivity|]. split; [exact E|].
  apply (display_patch_hides_stack dumb_str demo_loads demo_dumps utc_only [] [nginx_row] 2 larger "2026-07-20 10:00:00" f); [|exact E|..].
  - repeat constructor; set_solver.
  - intros r ->%list_elem_of_singleton. vm_compute. reflexivity.
  - exists (mkUser 2 "b" "" "admin" true None). split; [right; left; reflexivity|]. split; reflexivity.
  - exact I.
  - reflexivity.
Defined.

Lemma env_terms_spare_the_users_witness : exists db', let db := mkStackDb None [nginx_row] in
  migrate_env_stack_terms_once dumb_str demo_loads demo_dumps " redis " two_admins "2026-07-20 10:00:00" db = Ok db' /\
  (row_of 1 (rows db') = row_of 1 (rows db) \/ exists admin, first_admin two_admins (rows db) = Some admin /\ user_id admin = 1 /\
     strip "nginx" = "" /\ row_of 1 (rows db') = Some (set_terms "redis" "2026-07-20 10:00:00" nginx_row)) /\
  migrate_env_stack_terms_once dumb_str demo_loads demo_dumps " redis " two_admins "2026-07-20 10:00:00" db' = Ok db'.
Proof.
  destruct (is_ok_spec (migrate_env_stack_terms_once dumb_str demo_loads demo_dumps " redis " two_admins "2026-07-20 10:00:00" (mkStackDb None [nginx_row]))) as [db' E]; [vm_compute; reflexivity|].
  exists db'. split; [exact E|]. exact (env_terms_spare_the_users dumb_str demo_loads demo_dumps _ _ _ _ _ 1 E).
Defined.

Lemma stack_reads_back_witness : exists s table',
  write_stack dumb_str demo_loads demo_dumps 1 "nginx, redis" None "2026-07-20 10:00:00" [nginx_row] = Ok (Data s, table') /\
  get_user_stack dumb_str demo_loads table' 1 = Ok s /\ s_terms s = "nginx,redis".
Proof.
  eexists _, _. split; [vm_compute; reflexivity|].
  destruct (stack_reads_back dumb_str demo_loads demo_dumps 1 "nginx, redis" None "2026-07-20 10:00:00" [nginx_row] (mkStack "nginx,redis" None (Some "2026-07-20 10:00:00")) [mkPref 1 "nginx,redis" None None "UTC" false "2026-07-20 10:00:00"]) as (A & B & _).
  - intros [] H; try reflexivity. exact H.
  - intros c H. discriminate H.
  - vm_compute. reflexivity.
  - split; [exact A|exact B].
Defined.
