(* ===== verification/Notify.v ===== *)
(** * Notify: db/user_notifications.py, notifications/emit.py, routers/notifications_me.py

    The notifications of each user: how they are emitted (once per user and key, unless
    the user has muted the category), listed, read, dismissed, restored and purged, how
    the scheduler's record of a job's last runs opens and closes the job's alerts, and
    the routes a signed-in user has.  The clock [now] is in microseconds; [json_loads],
    [json_dumps], [py_str] and [zone_exists] are as in [Preferences]. *)

From S2P Require Import Prelude PyStr PyVal Float64 Ioc Dates DateText AuthDb Preferences.
From S2P Require Config.
Open Scope string_scope.
Open Scope Z_scope.

Definition NOTIFICATION_CLEARED_RETENTION_HOURS : Z := 24.
Definition SCOPE_ANALYST : string := "analyst".
Definition SCOPE_OPERATOR : string := "operator".
Definition HOUR_US : Z := 3600000000.

Record note := mkNote {
  n_id : Z; n_user : Z; scope : string; category : string; severity : string; title : string; body : string;
  entity_type : string; entity_id : string; dedupe_key : string; created_at : string; read_at : option string; dismissed_at : option string }.

Definition set_read (t : string) (n : note) : note :=
  mkNote (n_id n) (n_user n) (scope n) (category n) (severity n) (title n) (body n) (entity_type n) (entity_id n) (dedupe_key n) (created_at n)
    (match read_at n with Some r => Some r | None => Some t end) (dismissed_at n).
Definition set_dismissed (d : option string) (n : note) : note :=
  mkNote (n_id n) (n_user n) (scope n) (category n) (severity n) (title n) (body n) (entity_type n) (entity_id n) (dedupe_key n) (created_at n) (read_at n) d.
(** SET dismissed_at = t, read_at = COALESCE(read_at, t) *)
Definition dismiss (t : string) (n : note) : note := set_dismissed (Some t) (set_read t n).

Definition is_open (n : note) : bool := match dismissed_at n with None => true | Some _ => false end.
Definition unread (n : note) : bool := match read_at n with None => true | Some _ => false end.

(** The tables an emission and a request touch: users, settings, preferences, the
    notifications with the next id, and sync_state by key. *)
Record world := mkWorld {
  accounts : list user; settings : list (string * string); pref_rows : list pref_row;
  notes : list note; next_note : Z; sync_state : list (string * string) }.
Definition with_notes (l : list note) (w : world) : world := mkWorld (accounts w) (settings w) (pref_rows w) l (next_note w) (sync_state w).

(** UPDATE .. WHERE [p]: the rows it touches, changed by [f], and their number. *)
Definition update_notes (p : note -> bool) (f : note -> note) (w : world) : world * Z :=
  (with_notes (map (fun n => if p n then f n else n) (notes w)) w, Z.of_nat (length (List.filter p (notes w)))).

Definition _cleared_retention_cutoff_str (now : Z) (retention_hours : option Z) : string :=
  strftime (now - (match retention_hours with None => NOTIFICATION_CLEARED_RETENTION_HOURS | Some h => Z.max 1 h end) * HOUR_US).

Definition _VIEW_ALIASES : list (string * string) := [("inbox", "active"); ("active", "active"); ("done", "cleared"); ("cleared", "cleared")].
Definition normalize_notification_view (view : string) : res string :=
  match assoc (lower (strip (if nonempty view then view else "inbox"))) _VIEW_ALIASES with Some m => Ok m | None => Raise ValueError end.

Definition list_active_user_ids (scope : string) (w : world) : list Z :=
  map user_id (List.filter (fun u => is_active u && (negb (String.eqb scope SCOPE_OPERATOR) || String.eqb (role u) "admin")) (accounts w)).

(** INSERT .. ON CONFLICT (user_id, dedupe_key) DO NOTHING; a user that does not exist
    breaks the foreign key. *)
Definition insert_notification (now uid : Z) (scope category severity title body etype eid key : string) (w : world) : res (world * bool) :=
  if existsb (fun n => (n_user n =? uid) && String.eqb (dedupe_key n) key) (notes w) then Ok (w, false)
  else if negb (existsb (fun u => user_id u =? uid) (accounts w)) then Raise RuntimeError
  else Ok (mkWorld (accounts w) (settings w) (pref_rows w)
             (notes w ++ [mkNote (next_note w) uid scope category severity title body etype eid key (strftime now) None None])
             (next_note w + 1) (sync_state w), true).

Section notify.
Variable py_str : pyval -> string.
Variable json_loads : string -> option pyval.
Variable json_dumps : pyval -> string.
Variable zone_exists : string -> bool.

(** ** Jobs that have recovered *)

Definition LAST_RUN_PREFIX : string := "scheduler.last_run.".

Definition _latest_scheduler_run (raw : string) : list (string * pyval) :=
  if negb (nonempty raw) then []
  else match json_loads raw with
       | Some (PList (PDict d :: _)) => d
       | Some (PDict d) => d
       | _ => []
       end.

(** The key of a row that LIKE 'scheduler.last_run.%' finds, without the prefix. *)
Definition job_of_key (k : string) : option string :=
  if like "scheduler.last_run.%" (lower k) then
    let job := if startswith k LAST_RUN_PREFIX then sdrop (String.length LAST_RUN_PREFIX) k else k in
    if nonempty job then Some job else None
  else None.

Definition recovered (latest : list (string * pyval)) : bool := nonempty_list latest && negb (truthy (dget latest "had_error")).

Definition recovered_job_ids_from_last_run (w : world) : list string :=
  flat_map (fun kv => match job_of_key (fst kv) with
                      | Some job => if recovered (_latest_scheduler_run (snd kv)) then [job] else []
                      | None => [] end) (sync_state w).

Definition open_job_error (ident : string) (n : note) : bool :=
  String.eqb (category n) "job_error" && String.eqb (entity_type n) "job" && String.eqb (entity_id n) ident && is_open n.

Definition dismiss_job_error_notifications (now : Z) (job_id : string) (w : world) : world * Z :=
  let ident := strip job_id in
  if negb (nonempty ident) then (w, 0) else update_notes (open_job_error ident) (dismiss (strftime now)) w.

Definition reconcile_recovered_job_error_notifications (now : Z) (w : world) : world * Z :=
  fold_left (fun wn job => let '(w, n) := dismiss_job_error_notifications now job (fst wn) in (w, snd wn + n)) (recovered_job_ids_from_last_run w) (w, 0).

(** ** Reading *)

Definition _scope_includes_operator (scope : string) : bool := one_in [SCOPE_OPERATOR; "all"] scope.
Definition in_scope (s : string) (n : note) : bool := String.eqb s "all" || String.eqb (scope n) s.

(** ORDER BY .. DESC: the newest first, equal ones in the order of the table. *)
Fixpoint insert_desc (key : note -> string) (n : note) (l : list note) : list note :=
  match l with [] => [n] | x :: t => if String.ltb (key x) (key n) then n :: l else x :: insert_desc key n t end.
Definition sort_desc (key : note -> string) (l : list note) : list note := fold_left (fun acc n => insert_desc key n acc) l [].

Definition dismissed_text (n : note) : string := match dismissed_at n with Some d => d | None => "" end.

Definition in_view (canonical cutoff : string) (n : note) : bool :=
  if String.eqb canonical "cleared" then match dismissed_at n with Some d => negb (String.ltb d cutoff) | None => false end else is_open n.

Definition reconciled (now : Z) (s : string) (w : world) : world :=
  if _scope_includes_operator s then fst (reconcile_recovered_job_error_notifications now w) else w.

(** The world comes back even where the view is refused: the reconciliation is committed before. *)
Definition list_notifications (now uid : Z) (s : string) (limit : Z) (view : string) (w : world) : world * res (list note) :=
  let w := reconciled now s w in
  (w, let! canonical := normalize_notification_view view in
      let cutoff := _cleared_retention_cutoff_str now None in
      let rows := List.filter (fun n => (n_user n =? uid) && in_scope s n && in_view canonical cutoff n) (notes w) in
      Ok (firstn (Z.to_nat (Z.max 1 (Z.min limit 100)))
            (sort_desc (if String.eqb canonical "cleared" then dismissed_text else created_at) rows))).

Definition counts (uid : Z) (s : string) (n : note) : bool := (n_user n =? uid) && in_scope s n && is_open n && unread n.

Definition count_unread (now uid : Z) (s : string) (w : world) : world * Z :=
  let w := reconciled now s w in (w, Z.of_nat (length (List.filter (counts uid s) (notes w)))).

Definition mark_one_read (now uid nid : Z) (w : world) : world * bool :=
  let '(w, n) := update_notes (fun n => (n_id n =? nid) && (n_user n =? uid) && is_open n) (set_read (strftime now)) w in (w, 0 <? n).

Definition mark_scope_read (now uid : Z) (s : string) (w : world) : world * Z := update_notes (counts uid s) (set_read (strftime now)) w.

Definition dismiss_notification (now uid nid : Z) (w : world) : world * bool :=
  let '(w, n) := update_notes (fun n => (n_id n =? nid) && (n_user n =? uid) && is_open n) (dismiss (strftime now)) w in (w, 0 <? n).

Definition dismiss_all_notifications (now uid : Z) (s : string) (w : world) : world * Z :=
  update_notes (fun n => (n_user n =? uid) && in_scope s n && is_open n) (dismiss (strftime now)) w.

Definition undo_dismiss_notification (uid nid : Z) (w : world) : world * bool :=
  let '(w, n) := update_notes (fun n => (n_id n =? nid) && (n_user n =? uid)) (set_dismissed None) w in (w, 0 <? n).

Definition stale (cutoff : string) (n : note) : bool := match dismissed_at n with Some d => String.ltb d cutoff | None => false end.
Definition purge_cleared_notifications (now : Z) (retention_hours : option Z) (w : world) : world * Z :=
  let cutoff := _cleared_retention_cutoff_str now retention_hours in
  (with_notes (List.filter (fun n => negb (stale cutoff n)) (notes w)) w, Z.of_nat (length (List.filter (stale cutoff) (notes w)))).

(** ** notifications/emit.py *)

Definition _normalize_for_dedupe (error_text : string) : string := resub (Config.span_len is_digit) "#" 0 error_text.

Definition muted (category : string) (uid : Z) (w : world) : bool :=
  match get_user_preferences py_str json_loads zone_exists (settings w) (pref_rows w) uid with
  | Ok f => match assoc category (notification_mutes (disp (f_prefs f))) with Some b => b | None => false end
  | Raise _ => false
  end.

(** One user of the loop; what an insert raises is logged and the loop goes on. *)
Definition emit_one (now : Z) (scope category severity title body etype eid key : string) (wn : world * Z) (uid : Z) : world * Z :=
  let '(w, created) := wn in
  if muted category uid w then (w, created)
  else match insert_notification now uid scope category severity title body etype eid key w with
       | Ok (w, true) => (w, created + 1)
       | Ok (w, false) => (w, created)
       | Raise _ => (w, created)
       end.

Definition _emit_to_users (now : Z) (scope : string) (ids : list Z) (category severity title body etype eid key : string) (w : world) : world * Z :=
  fold_left (emit_one now scope category severity title body etype eid key) ids (w, 0).

Definition emit_watchlist_notification (now : Z) (cve_id reason detail key severity : string) (w : world) : world * Z :=
  _emit_to_users now SCOPE_ANALYST (list_active_user_ids SCOPE_ANALYST w) "watchlist" severity (cve_id +:+ " — " +:+ reason) detail "cve" (upper cve_id) key w.

Definition emit_ioc_watchlist_notification (now uid : Z) (ioc_value source summary key : string) (w : world) : world * Z :=
  _emit_to_users now SCOPE_ANALYST [uid] "ioc_watchlist" "high" ("IOC watchlist hit (" +:+ source +:+ ")") (utake 500 summary) "ioc" ioc_value key w.

Definition or_text (s default : string) : string := if nonempty s then s else default.

Definition emit_job_error_notification (now : Z) (job_id error_message key : string) (w : world) : world * Z :=
  _emit_to_users now SCOPE_OPERATOR (list_active_user_ids SCOPE_OPERATOR w) "job_error" "critical" ("Job failed: " +:+ job_id)
    (utake 500 (or_text error_message "Scheduler job reported an error.")) "job" job_id key w.

Definition emit_api_key_unhealthy_notification (now : Z) (provider error key : string) (w : world) : world * Z :=
  _emit_to_users now SCOPE_OPERATOR (list_active_user_ids SCOPE_OPERATOR w) "api_key_unhealthy" "high" ("API key unhealthy: " +:+ provider)
    (utake 500 (or_text error "Health ping failed")) "api_key" provider key w.

Definition webhook_key (destination_id safe_error : string) : string := "webhook:" +:+ destination_id +:+ ":" +:+ _normalize_for_dedupe safe_error.

Definition emit_webhook_failure_notification (now : Z) (destination_id : string) (label : option string) (error event_type : string) (key : option string) (w : world) : world * Z :=
  let masked := match Config.mask_webhook_delivery_error (Some error) with Some s => s | None => "" end in
  let safe_error := or_text masked "Delivery failed" in
  let title_label := or_text (strip (match label with Some l => or_text l destination_id | None => destination_id end)) destination_id in
  let body := utake 500 (sjoin " — " (safe_error :: (if nonempty event_type then ["Event: " +:+ event_type] else []))) in
  let key := match key with Some k => if nonempty k then k else webhook_key destination_id safe_error | None => webhook_key destination_id safe_error end in
  _emit_to_users now SCOPE_OPERATOR (list_active_user_ids SCOPE_OPERATOR w) "webhook_failure" "high" ("Webhook delivery failed: " +:+ title_label) body "webhook" destination_id key w.

(** ** scheduler.py: the record of a job's last runs *)

Definition iso_seconds (us : Z) : string := date_text (us / DAY_US) +:+ "T" +:+ clock_text (us mod DAY_US) +:+ "+00:00".

(** One run of a job, from the clock at its start to the clock when it is recorded. *)
Record job_run := mkRun { r_job : string; r_start : Z; r_now : Z; r_records : Z; r_had_error : bool; r_error : string; r_id : string }.

Definition run_entry (r : job_run) : pyval :=
  PDict [("started_at", PStr (iso_seconds (r_start r))); ("last_run_utc", PStr (iso_seconds (r_start r)));
         ("duration_seconds", match int_truediv (r_now r - r_start r) 1000000 with Ok f => PFloat (round_nd f 2) | Raise _ => PNone end);
         ("records_upserted", PInt (r_records r)); ("had_error", PBool (r_had_error r));
         ("error_message", PStr (utake 500 (r_error r))); ("run_id", PStr (r_id r))].

Definition last_run_key (job : string) : string := LAST_RUN_PREFIX +:+ job.

Definition run_history (raw : option string) : list pyval :=
  match raw with
  | None => []
  | Some s => if negb (nonempty s) then []
              else match json_loads s with Some (PList l) => l | Some (PDict d) => [PDict d] | _ => [] end
  end.

Definition save_run (r : job_run) (w : world) : world :=
  let history := firstn 5 (run_entry r :: run_history (assoc (last_run_key (r_job r)) (sync_state w))) in
  mkWorld (accounts w) (settings w) (pref_rows w) (notes w) (next_note w) (dset (sync_state w) (last_run_key (r_job r)) (json_dumps (PList history))).

(** How the transaction of an attempt ends. *)
Inductive saving := Saved | Locked | Broken.

Definition run_key (r : job_run) : string := "job:" +:+ r_job r +:+ ":" +:+ iso_seconds (r_start r).

(** [told]: whether the second transaction, the alert or its dismissal, is committed. *)
Definition announce (told : bool) (r : job_run) (w : world) : world :=
  if negb told then w
  else if r_had_error r then fst (emit_job_error_notification (r_now r) (r_job r) (r_error r) (run_key r) w)
  else fst (dismiss_job_error_notifications (r_now r) (r_job r) w).

(** Four attempts while the database is locked; [outcomes] gives each attempt's ending. *)
Fixpoint attempt_save (attempts : nat) (outcomes : list saving) (told : bool) (r : job_run) (w : world) : world :=
  match attempts with
  | O => w
  | S more =>
      match outcomes with
      | Locked :: rest => attempt_save more rest told r w
      | Broken :: _ => w
      | _ => announce told r (save_run r w)
      end
  end.
Definition _write_job_last_run (outcomes : list saving) (told : bool) (r : job_run) (w : world) : world := attempt_save 4 outcomes told r w.

(** ** routers/notifications_me.py *)

Inductive answer :=
| Status (code : Z) | Inbox (rows : list note) (unread : Z) | UnreadCount (n : Z) | MarkedRead (updated unread : Z) | Done | DismissedCount (n : Z).

Inductive request :=
| GetInbox (scope view : string) (limit : Z) | GetUnread (scope : string) | ReadAll (scope : string)
| ReadOne (nid : Z) | Restore (nid : Z) | Dismiss (nid : Z) | DismissAll (scope : string).

Definition known_scope (s : string) : bool := one_in ["analyst"; "operator"; "all"] s.
Definition denied (s role : string) : bool := one_in ["operator"; "all"] s && negb (String.eqb role "admin").

Definition or_404 (wb : world * bool) : world * answer := let '(w, ok) := wb in (w, if ok then Done else Status 404).

(** [uid] and [role] come from the access token. *)
Definition serve (now uid : Z) (role : string) (q : request) (w : world) : world * answer :=
  match q with
  | GetInbox s view limit =>
      if negb ((1 <=? limit) && (limit <=? 100)) then (w, Status 422)
      else if negb (known_scope s) then (w, Status 422)
      else if denied s role then (w, Status 403)
      else let '(w, rows) := list_notifications now uid s limit view w in
           match rows with
           | Raise _ => (w, Status 422)
           | Ok rows => let '(w, n) := count_unread now uid s w in (w, Inbox rows n)
           end
  | GetUnread s =>
      if negb (known_scope s) then (w, Status 422)
      else if denied s role then (w, if String.eqb s "operator" then UnreadCount 0 else Status 403)
      else let '(w, n) := count_unread now uid s w in (w, UnreadCount n)
  | ReadAll s =>
      if negb (known_scope s) then (w, Status 422)
      else if denied s role then (w, Status 403)
      else let '(w, updated) := mark_scope_read now uid s w in
           let '(w, n) := count_unread now uid s w in (w, MarkedRead updated n)
  | ReadOne nid => or_404 (mark_one_read now uid nid w)
  | Restore nid => or_404 (undo_dismiss_notification uid nid w)
  | Dismiss nid => or_404 (dismiss_notification now uid nid w)
  | DismissAll s =>
      if negb (known_scope s) then (w, Status 422)
      else if denied s role then (w, Status 403)
      else let '(w, n) := dismiss_all_notifications now uid s w in (w, DismissedCount n)
  end.
End notify.

(** ** What the updates keep *)

Lemma update_keeps {B} (g : note -> B) (p : note -> bool) (f : note -> note) (l : list note) : (forall n, g (f n) = g n) -> map g (map (fun n => if p n then f n else n) l) = map g l.
Proof. intros G. rewrite map_map. apply map_ext. intros n. by destruct (p n). Qed.

Lemma update_forall (P : note -> Prop) (p : note -> bool) (f : note -> note) (l : list note) : (forall n, P n -> P (f n)) -> Forall P l -> Forall P (map (fun n => if p n then f n else n) l).
Proof. intros F. induction 1; cbn [map]; constructor; [|done]. destruct (p x); [by apply F|done]. Qed.

Lemma update_untouched (p : note -> bool) (f : note -> note) (l : list note) n : p n = false -> In n l -> In n (map (fun n => if p n then f n else n) l).
Proof. intros P I. apply in_map_iff. exists n. by rewrite P. Qed.

Definition who (n : note) : Z * string := (n_user n, dedupe_key n).

(** One row per user and key, distinct ids below the next one, and whatever is dismissed is read. *)
Definition dismissed_is_read (n : note) : Prop := is_open n = false -> unread n = false.
Record inbox_ok (w : world) : Prop := {
  io_who : NoDup (map who (notes w)); io_ids : NoDup (map n_id (notes w)); io_next : Forall (fun n => n_id n < next_note w) (notes w);
  io_read : Forall dismissed_is_read (notes w) }.

(** A change of rows that keeps owners, keys and ids. *)
Lemma update_ok p f w : (forall n, who (f n) = who n) -> (forall n, n_id (f n) = n_id n) -> (forall n, dismissed_is_read n -> dismissed_is_read (f n)) ->
  inbox_ok w -> inbox_ok (fst (update_notes p f w)).
Proof.
  intros W I R [A B C D]. split; cbn [update_notes fst with_notes notes next_note].
  - by rewrite update_keeps.
  - by rewrite update_keeps.
  - apply update_forall; [|done]. intros n. by rewrite I.
  - by apply update_forall.
Qed.

Lemma set_read_ok t n : dismissed_is_read n -> dismissed_is_read (set_read t n).
Proof. unfold dismissed_is_read, set_read, is_open, unread. cbn. intros H. by destruct (read_at n). Qed.
Lemma dismiss_ok t n : dismissed_is_read n -> dismissed_is_read (dismiss t n).
Proof. unfold dismissed_is_read, dismiss, set_dismissed, set_read, is_open, unread. cbn. intros _. by destruct (read_at n). Qed.
Lemma restore_ok n : dismissed_is_read n -> dismissed_is_read (set_dismissed None n).
Proof. done. Qed.

Section facts.
Variable py_str : pyval -> string.
Variable json_loads : string -> option pyval.
Variable json_dumps : pyval -> string.
Variable zone_exists : string -> bool.
Abbreviation reconcile := (reconcile_recovered_job_error_notifications json_loads).
Abbreviation recovered_jobs := (recovered_job_ids_from_last_run json_loads).
Abbreviation answer_of := (serve json_loads).
Abbreviation emit := (_emit_to_users py_str json_loads zone_exists).
Abbreviation write_run := (_write_job_last_run py_str json_loads json_dumps zone_exists).

Lemma dismiss_job_frame now job w : let w' := fst (dismiss_job_error_notifications now job w) in
  accounts w' = accounts w /\ settings w' = settings w /\ pref_rows w' = pref_rows w /\ sync_state w' = sync_state w /\ next_note w' = next_note w /\
  notes w' = if nonempty (strip job) then map (fun n => if open_job_error (strip job) n then dismiss (strftime now) n else n) (notes w) else notes w.
Proof. unfold dismiss_job_error_notifications. by destruct (nonempty (strip job)). Qed.

(** The fold of the reconciliation, on its rows alone. *)
Definition reconcile_rows (now : Z) (jobs : list string) (l : list note) : list note :=
  map (fun n => if existsb (fun job => nonempty (strip job) && open_job_error (strip job) n) jobs then dismiss (strftime now) n else n) l.

Lemma dismissed_not_open t n ident : open_job_error ident (dismiss t n) = false.
Proof. unfold open_job_error, dismiss, set_dismissed, is_open. cbn. by rewrite andb_false_r. Qed.

Lemma reconcile_fold now jobs : forall w k, let w' := fst (fold_left (fun wn job => let '(w, n) := dismiss_job_error_notifications now job (fst wn) in (w, snd wn + n)) jobs (w, k)) in
  accounts w' = accounts w /\ settings w' = settings w /\ pref_rows w' = pref_rows w /\ sync_state w' = sync_state w /\ next_note w' = next_note w /\
  notes w' = reconcile_rows now jobs (notes w).
Proof.
  induction jobs as [|job jobs IH]; intros w k; cbn [fold_left fst snd].
  - repeat split. unfold reconcile_rows. cbn [existsb]. by rewrite map_id.
  - destruct (dismiss_job_error_notifications now job w) as [w1 n1] eqn:E. pose proof (dismiss_job_frame now job w) as F. rewrite E in F. cbn [fst] in F.
    destruct F as (F1 & F2 & F3 & F4 & F5 & F6). destruct (IH w1 (k + n1)) as (G1 & G2 & G3 & G4 & G5 & G6).
    rewrite G1, G2, G3, G4, G5, G6, F1, F2, F3, F4, F5, F6. repeat split. unfold reconcile_rows. destruct (nonempty (strip job)) eqn:N.
    + rewrite map_map. apply map_ext. intros n. cbn [existsb]. rewrite N. cbn [andb]. destruct (open_job_error (strip job) n) eqn:O; cbn [orb]; [|done].
      assert (existsb (fun j => nonempty (strip j) && open_job_error (strip j) (dismiss (strftime now) n)) jobs = false) as ->; [|done].
      apply existsb_false. intros j _. by rewrite dismissed_not_open, andb_false_r.
    + apply map_ext. intros n. cbn [existsb]. by rewrite N.
Qed.

Lemma reconcile_frame now w : let w' := fst (reconcile now w) in
  accounts w' = accounts w /\ settings w' = settings w /\ pref_rows w' = pref_rows w /\ sync_state w' = sync_state w /\ next_note w' = next_note w /\
  notes w' = reconcile_rows now (recovered_jobs w) (notes w).
Proof. apply reconcile_fold. Qed.

Lemma reconcile_rows_idem now now' jobs l : reconcile_rows now' jobs (reconcile_rows now jobs l) = reconcile_rows now jobs l.
Proof.
  unfold reconcile_rows. rewrite map_map. apply map_ext. intros n.
  destruct (existsb (fun job => nonempty (strip job) && open_job_error (strip job) n) jobs) eqn:E; [|by rewrite E].
  assert (existsb (fun j => nonempty (strip j) && open_job_error (strip j) (dismiss (strftime now) n)) jobs = false) as ->; [|done].
  apply existsb_false. intros j _. by rewrite dismissed_not_open, andb_false_r.
Qed.

Lemma reconcile_rows_ok now w w' jobs : next_note w' = next_note w -> notes w' = reconcile_rows now jobs (notes w) -> inbox_ok w -> inbox_ok w'.
Proof.
  intros N E [A B C D]. unfold reconcile_rows in E. split; rewrite E, ?N.
  - by rewrite update_keeps.
  - by rewrite update_keeps.
  - apply update_forall; [|done]. done.
  - apply update_forall; [|done]. apply dismiss_ok.
Qed.

Lemma reconciled_ok now s w : inbox_ok w -> inbox_ok (reconciled json_loads now s w).
Proof.
  unfold reconciled. destruct (_scope_includes_operator s); [|done]. destruct (reconcile_frame now w) as (_ & _ & _ & _ & N & E). by apply reconcile_rows_ok with (1 := N) (2 := E).
Qed.

Lemma serve_ok_rows now uid role q w : inbox_ok w -> inbox_ok (fst (answer_of now uid role q w)).
Proof.
  intros O. destruct q as [s view limit|s|s|nid|nid|nid|s]; cbn [serve].
  - destruct (negb _); [done|]. destruct (negb _); [done|]. destruct (denied s role); [done|]. unfold list_notifications, count_unread. cbv beta iota zeta.
    destruct (res_bind _ _); cbn [fst]; [|by apply reconciled_ok]. by do 2 apply reconciled_ok.
  - destruct (negb _); [done|]. destruct (denied s role); [done|]. cbn [count_unread fst]. by apply reconciled_ok.
  - destruct (negb _); [done|]. destruct (denied s role); [done|]. unfold mark_scope_read, count_unread. destruct (update_notes _ _ w) as [w1 n] eqn:E. cbn [fst].
    apply reconciled_ok. change w1 with (fst (w1, n)). rewrite <-E. apply update_ok; [done|done|apply set_read_ok|done].
  - unfold or_404, mark_one_read. destruct (update_notes _ _ w) as [w1 n] eqn:E. cbn [fst]. change w1 with (fst (w1, n)). rewrite <-E. apply update_ok; [done|done|apply set_read_ok|done].
  - unfold or_404, undo_dismiss_notification. destruct (update_notes _ _ w) as [w1 n] eqn:E. cbn [fst]. change w1 with (fst (w1, n)). rewrite <-E. apply update_ok; [done|done|apply restore_ok|done].
  - unfold or_404, dismiss_notification. destruct (update_notes _ _ w) as [w1 n] eqn:E. cbn [fst]. change w1 with (fst (w1, n)). rewrite <-E. apply update_ok; [done|done|apply dismiss_ok|done].
  - destruct (negb _); [done|]. destruct (denied s role); [done|]. unfold dismiss_all_notifications. destruct (update_notes _ _ w) as [w1 n] eqn:E. cbn [fst]. change w1 with (fst (w1, n)). rewrite <-E. apply update_ok; [done|done|apply dismiss_ok|done].
Qed.

(** ** Emission *)

Lemma insert_ok now uid sc c sv t b et ei key w w' made : insert_notification now uid sc c sv t b et ei key w = Ok (w', made) ->
  (if made then existsb (fun n => (n_user n =? uid) && String.eqb (dedupe_key n) key) (notes w) = false /\
      notes w' = (notes w ++ [mkNote (next_note w) uid sc c sv t b et ei key (strftime now) None None])%list /\ next_note w' = next_note w + 1
   else w' = w /\ existsb (fun n => (n_user n =? uid) && String.eqb (dedupe_key n) key) (notes w) = true) /\
  accounts w' = accounts w /\ settings w' = settings w /\ pref_rows w' = pref_rows w /\ sync_state w' = sync_state w.
Proof.
  unfold insert_notification. destruct (existsb _ (notes w)) eqn:E; [intros [= <- <-]; done|]. destruct (negb _); [done|]. by intros [= <- <-].
Qed.

Lemma emit_one_cases now sc c sv t b et ei key w k uid : let '(w', k') := emit_one py_str json_loads zone_exists now sc c sv t b et ei key (w, k) uid in
  (w' = w /\ k' = k) \/
  (k' = k + 1 /\ muted py_str json_loads zone_exists c uid w = false /\ insert_notification now uid sc c sv t b et ei key w = Ok (w', true)).
Proof.
  unfold emit_one. destruct (muted _ _ _ c uid w) eqn:M; [by left|]. destruct (insert_notification now uid sc c sv t b et ei key w) as [[w' []]|e] eqn:I.
  - by right.
  - left. destruct (insert_ok _ _ _ _ _ _ _ _ _ _ _ _ _ I) as [[-> _] _]. done.
  - by left.
Qed.

Lemma who_exists uid key l : existsb (fun n => (n_user n =? uid) && String.eqb (dedupe_key n) key) l = true <-> In (uid, key) (map who l).
Proof.
  rewrite existsb_exists, in_map_iff. split; intros (n & A & B).
  - exists n. apply andb_true_iff in B as [B1 B2]. apply Z.eqb_eq in B1. apply String.eqb_eq in B2. split; [by unfold who; subst|done].
  - exists n. unfold who in A. injection A as <- <-. split; [done|]. by rewrite Z.eqb_refl, String.eqb_refl.
Qed.

Lemma insert_keeps_ok now uid sc c sv t b et ei key w w' made : inbox_ok w -> insert_notification now uid sc c sv t b et ei key w = Ok (w', made) -> inbox_ok w'.
Proof.
  intros [A B C D] H. destruct (insert_ok _ _ _ _ _ _ _ _ _ _ _ _ _ H) as [I _]. destruct made; [|by destruct I as [-> _]].
  destruct I as (F & N & X). split; rewrite N, ?X, ?map_app.
  - apply NoDup_app. split; [done|]. split; [|apply NoDup_singleton]. intros k I ->%list_elem_of_singleton. apply list_elem_of_In in I.
    change (In (uid, key) (map who (notes w))) in I. apply who_exists in I. congruence.
  - apply NoDup_app. split; [done|]. split; [|apply NoDup_singleton]. intros k I ->%list_elem_of_singleton. cbn [map n_id] in *.
    apply list_elem_of_fmap in I as (n & E & I). rewrite List.Forall_forall in C. apply list_elem_of_In, C in I. cbn in E. lia.
  - apply List.Forall_app. split; [eapply List.Forall_impl; [|exact C]; cbn; lia|]. apply List.Forall_cons; [cbn; lia|apply List.Forall_nil].
  - apply List.Forall_app. split; [done|]. apply List.Forall_cons; [done|apply List.Forall_nil].
Qed.

Lemma emit_ok now sc ids c sv t b et ei key w : inbox_ok w -> inbox_ok (fst (emit now sc ids c sv t b et ei key w)).
Proof.
  intros O. unfold _emit_to_users. apply (fold_left_inv (fun wk => inbox_ok (fst wk))); [|done]. intros [w1 k] uid _ O1.
  pose proof (emit_one_cases now sc c sv t b et ei key w1 k uid) as H. destruct (emit_one _ _ _ _ _ _ _ _ _ _ _ _ _ uid) as [w2 k2]. cbn [fst] in *.
  destruct H as [[-> _]|(_ & _ & H)]; [done|]. by eapply insert_keeps_ok.
Qed.

Lemma emit_frame now sc ids c sv t b et ei key w : let w' := fst (emit now sc ids c sv t b et ei key w) in
  accounts w' = accounts w /\ settings w' = settings w /\ pref_rows w' = pref_rows w /\ sync_state w' = sync_state w /\ (exists l, notes w' = (notes w ++ l)%list).
Proof.
  unfold _emit_to_users. apply (fold_left_inv (fun wk => accounts (fst wk) = accounts w /\ settings (fst wk) = settings w /\ pref_rows (fst wk) = pref_rows w /\
    sync_state (fst wk) = sync_state w /\ (exists l, notes (fst wk) = (notes w ++ l)%list))); [|repeat split; exists []; by rewrite app_nil_r].
  intros [w1 k] uid _ (A & B & C & D & l & E). pose proof (emit_one_cases now sc c sv t b et ei key w1 k uid) as H. destruct (emit_one _ _ _ _ _ _ _ _ _ _ _ _ _ uid) as [w2 k2]. cbn [fst] in *.
  destruct H as [[-> _]|(_ & _ & H)]; [repeat split; [done..|by exists l]|]. destruct (insert_ok _ _ _ _ _ _ _ _ _ _ _ _ _ H) as [(_ & N & _) (F1 & F2 & F3 & F4)].
  rewrite F1, F2, F3, F4. repeat split; [done..|]. rewrite N, E, <-app_assoc. by eexists.
Qed.

(** ** A history of everything that writes the table *)

Inductive action :=
| Emitted (now : Z) (scope : string) (ids : list Z) (category severity title body etype eid key : string)
| RunRecorded (outcomes : list saving) (told : bool) (r : job_run)
| Requested (now uid : Z) (role : string) (q : request)
| Purged (now : Z) (retention_hours : option Z).

Definition act (w : world) (a : action) : world :=
  match a with
  | Emitted now sc ids c sv t b et ei key => fst (emit now sc ids c sv t b et ei key w)
  | RunRecorded outcomes told r => write_run outcomes told r w
  | Requested now uid role q => fst (answer_of now uid role q w)
  | Purged now hours => fst (purge_cleared_notifications now hours w)
  end.
Definition history (w : world) (l : list action) : world := fold_left act l w.

Lemma announce_ok told r w : inbox_ok w -> inbox_ok (announce py_str json_loads zone_exists told r w).
Proof.
  intros O. unfold announce. destruct told; cbn [negb]; [|done]. destruct (r_had_error r).
  - apply emit_ok, O.
  - unfold dismiss_job_error_notifications. destruct (nonempty (strip (r_job r))); [|done]. cbn [negb]. apply update_ok; [done|done|apply dismiss_ok|done].
Qed.

Lemma save_run_same_notes r w : notes (save_run json_loads json_dumps r w) = notes w /\ next_note (save_run json_loads json_dumps r w) = next_note w.
Proof. done. Qed.

Lemma write_run_ok n : forall outcomes told r w, inbox_ok w -> inbox_ok (attempt_save py_str json_loads json_dumps zone_exists n outcomes told r w).
Proof.
  induction n as [|n IH]; intros outcomes told r w O; cbn [attempt_save]; [done|].
  assert (inbox_ok (save_run json_loads json_dumps r w)) as S by (destruct O as [A B C D]; by split).
  destruct outcomes as [|[] rest]; [by apply announce_ok|by apply announce_ok|by apply IH|done].
Qed.

Lemma purge_ok now hours w : inbox_ok w -> inbox_ok (fst (purge_cleared_notifications now hours w)).
Proof.
  intros [A B C D]. unfold purge_cleared_notifications. split; cbn [fst with_notes notes next_note].
  - eapply sublist_NoDup; [exact A|]. apply (fmap_sublist who), filter_sublist.
  - eapply sublist_NoDup; [exact B|]. apply (fmap_sublist n_id), filter_sublist.
  - by apply Forall_lfilter.
  - by apply Forall_lfilter.
Qed.

Lemma inbox_act_ok w a : inbox_ok w -> inbox_ok (act w a).
Proof. destruct a; cbn [act]; [apply emit_ok|apply write_run_ok|apply serve_ok_rows|apply purge_ok]. Qed.

(** [one_row_per_user_and_key]: over every history of emissions, recorded runs, requests
    and purges, a user has at most one row under a key, ids are never given twice, and a
    dismissed notification counts as read. *)
Theorem one_row_per_user_and_key accounts settings prefs l : inbox_ok (history (mkWorld accounts settings prefs [] 1 []) l).
Proof. unfold history. apply fold_left_inv; [intros w a _; apply inbox_act_ok|]. split; cbn; [apply NoDup_nil_2..|apply List.Forall_nil|apply List.Forall_nil]. Qed.

(** ** Whose rows a request reads and changes *)

Lemma newest_first_insert_perm key n l : insert_desc key n l ≡ₚ n :: l.
Proof. induction l as [|x t IH]; cbn [insert_desc]; [done|]. destruct (String.ltb (key x) (key n)); [done|]. rewrite IH. apply Permutation_swap. Qed.

Lemma newest_first_perm key l : sort_desc key l ≡ₚ l.
Proof.
  unfold sort_desc. assert (G : forall l acc, fold_left (fun acc n => insert_desc key n acc) l acc ≡ₚ acc ++ l); [|by rewrite G].
  induction l0 as [|x t IH]; intros acc; cbn [fold_left]; [by rewrite app_nil_r|]. rewrite IH, newest_first_insert_perm. apply Permutation_middle.
Qed.

Lemma in_sort_desc key l n : In n (sort_desc key l) <-> In n l.
Proof. by rewrite newest_first_perm. Qed.

Lemma length_filter_sort p key l : length (List.filter p (sort_desc key l)) = length (List.filter p l).
Proof. apply Permutation_length. by rewrite newest_first_perm. Qed.

(** A row as a request by another user may leave it: untouched, or, for an administrator's
    request, a recovered job's alert that is now dismissed. *)
Definition spared (now : Z) (role : string) (jobs : list string) (l' : list note) (n : note) : Prop :=
  In n l' \/ role = "admin" /\ (exists job, In job jobs /\ open_job_error (strip job) n = true) /\ In (dismiss (strftime now) n) l'.

Lemma reconciled_spares now s role w n : denied s role = false -> In n (notes w) -> spared now role (recovered_jobs w) (notes (reconciled json_loads now s w)) n.
Proof.
  intros D I. unfold reconciled, _scope_includes_operator. destruct (one_in [SCOPE_OPERATOR; "all"] s) eqn:O; [|by left].
  unfold denied in D. change ["operator"; "all"] with [SCOPE_OPERATOR; "all"] in D. rewrite O in D. cbn [andb] in D. apply negb_false_iff, String.eqb_eq in D as ->.
  destruct (reconcile_frame now w) as (_ & _ & _ & _ & _ & ->). unfold reconcile_rows.
  destruct (existsb (fun job => nonempty (strip job) && open_job_error (strip job) n) (recovered_jobs w)) eqn:E.
  - right. split; [done|]. split; [apply existsb_exists in E as (job & J & [_ K]%andb_true_iff); by exists job|]. apply in_map_iff. exists n. by rewrite E.
  - left. by apply update_untouched.
Qed.

Lemma reconciled_jobs now s w : recovered_jobs (reconciled json_loads now s w) = recovered_jobs w.
Proof. unfold reconciled. destruct (_scope_includes_operator s); [|done]. unfold recovered_job_ids_from_last_run. by destruct (reconcile_frame now w) as (_ & _ & _ & -> & _). Qed.

Lemma reconciled_twice now now' s w : notes (reconciled json_loads now' s (reconciled json_loads now s w)) = notes (reconciled json_loads now s w).
Proof.
  pose proof (reconciled_jobs now s w) as J. unfold reconciled in *. destruct (_scope_includes_operator s); [|done].
  destruct (reconcile_frame now w) as (_ & _ & _ & _ & _ & E). destruct (reconcile_frame now' (fst (reconcile now w))) as (_ & _ & _ & _ & _ & E').
  rewrite E', J, E. apply reconcile_rows_idem.
Qed.

Lemma serve_rows now uid role q w a : a = answer_of now uid role q w ->
  (forall n, In n (notes w) -> n_user n <> uid -> spared now role (recovered_jobs w) (notes (fst a)) n).
Proof.
  intros -> n I U. assert (S0 : spared now role (recovered_jobs w) (notes w) n) by (by left).
  assert (P : forall (p : note -> bool) (f : note -> note), (forall m, p m = true -> n_user m = uid) -> In n (notes (fst (update_notes p f w)))).
  { intros p f O. cbn. apply update_untouched; [|done]. apply not_true_is_false. intros H. by apply U, O. }
  assert (R : forall s w1, denied s role = false -> sync_state w1 = sync_state w -> In n (notes w1) -> spared now role (recovered_jobs w) (notes (reconciled json_loads now s w1)) n).
  { intros s w1 D E I1. pose proof (reconciled_spares now s role w1 n D I1) as H. unfold recovered_job_ids_from_last_run in H. by rewrite E in H. }
  assert (B : forall (x y : bool) m, x && y && is_open m = true -> y = true) by (by intros [] []).
  destruct q as [s view limit|s|s|nid|nid|nid|s]; cbn [serve].
  - destruct (negb _); [done|]. destruct (negb _); [done|]. destruct (denied s role) eqn:D; [done|]. unfold list_notifications, count_unread. cbv beta iota zeta.
    destruct (res_bind _ _); cbv beta iota; cbn [fst snd]; [rewrite reconciled_twice|]; by apply R.
  - destruct (negb _); [done|]. destruct (denied s role) eqn:D; [done|]. cbn [count_unread fst]. by apply R.
  - destruct (negb _); [done|]. destruct (denied s role) eqn:D; [done|]. unfold mark_scope_read, count_unread. cbn [update_notes fst]. apply R; [done|done|].
    apply P. unfold counts. intros m H. by repeat apply andb_true_iff in H as [H _]; apply Z.eqb_eq.
  - left. unfold or_404, mark_one_read. cbn [update_notes fst]. apply P. intros m H. apply B in H. by apply Z.eqb_eq.
  - left. unfold or_404, undo_dismiss_notification. cbn [update_notes fst]. apply P. intros m [_ H]%andb_true_iff. by apply Z.eqb_eq.
  - left. unfold or_404, dismiss_notification. cbn [update_notes fst]. apply P. intros m H. apply B in H. by apply Z.eqb_eq.
  - destruct (negb _); [done|]. destruct (denied s role) eqn:D; [done|]. left. unfold dismiss_all_notifications. cbn [update_notes fst]. apply P.
    intros m H. by repeat apply andb_true_iff in H as [H _]; apply Z.eqb_eq.
Qed.

Lemma denied_scope s role n : known_scope s = true -> denied s role = false -> role <> "admin" -> in_scope s n = true -> scope n = SCOPE_ANALYST.
Proof.
  unfold known_scope, denied. intros K D A I. apply one_in_spec in K. apply String.eqb_neq in A. rewrite A in D. cbn [negb] in D. rewrite andb_true_r in D.
  apply list_elem_of_In in K. destruct K as [<-|[<-|[<-|[]]]]; [|done|done]. unfold in_scope in I. by apply String.eqb_eq in I.
Qed.

(** What the list of a request shows, in terms of the rows after it. *)
Lemma inbox_rows now uid role s view limit w w' rows k : answer_of now uid role (GetInbox s view limit) w = (w', Inbox rows k) ->
  exists canonical, normalize_notification_view view = Ok canonical /\ known_scope s = true /\ denied s role = false /\ 1 <= limit <= 100 /\
    notes w' = notes (reconciled json_loads now s w) /\
    rows = firstn (Z.to_nat limit) (sort_desc (if String.eqb canonical "cleared" then dismissed_text else created_at)
      (List.filter (fun n => (n_user n =? uid) && in_scope s n && in_view canonical (_cleared_retention_cutoff_str now None) n) (notes w'))) /\
    k = Z.of_nat (length (List.filter (counts uid s) (notes w'))).
Proof.
  cbn [serve]. destruct (negb ((1 <=? limit) && _)) eqn:L; [done|]. apply negb_false_iff, andb_true_iff in L as [L1%Z.leb_le L2%Z.leb_le].
  destruct (known_scope s) eqn:K; [|done]. cbn [negb]. destruct (denied s role) eqn:D; [done|]. unfold list_notifications, count_unread. cbv beta iota zeta.
  destruct (normalize_notification_view view) as [canonical|] eqn:N; cbn [res_bind]; [|done]. intros [= <- <- <-]. exists canonical.
  rewrite !reconciled_twice. replace (Z.max 1 (Z.min limit 100)) with limit by lia. done.
Qed.

(** C40 [a_request_stays_with_its_user]: whatever a signed-in user asks, every row of another user
    is still there unchanged, except that an administrator's request may dismiss the alert of
    a job whose last recorded run succeeded; and every row the answer lists belongs to
    the asking user and, unless they are an administrator, to the analyst scope. *)
Theorem a_request_stays_with_its_user now uid role q w w' a : answer_of now uid role q w = (w', a) ->
  (forall n, In n (notes w) -> n_user n <> uid -> spared now role (recovered_jobs w) (notes w') n) /\
  match a with
  | Inbox rows _ => Forall (fun n => In n (notes w') /\ n_user n = uid /\ (role <> "admin" -> scope n = SCOPE_ANALYST)) rows
  | _ => True
  end.
Proof.
  intros E. split; [intros n I U; by apply (serve_rows now uid role q w (w', a))|]. destruct a as [|rows k| | | |]; try done.
  assert (exists s view limit, q = GetInbox s view limit) as (s & view & limit & ->).
  { destruct q as [s view limit|s|s|nid|nid|nid|s]; [by eauto| | | | | |]; cbn [serve] in E; unfold or_404, count_unread, mark_scope_read, dismiss_all_notifications in E;
      repeat match type of E with context [match ?x with _ => _ end] => destruct x end; congruence. }
  apply inbox_rows in E as (c & _ & K & D & _ & _ & -> & _). apply List.Forall_forall. intros n I.
  apply in_firstn_in, in_sort_desc, filter_In in I as [I [[U%Z.eqb_eq S]%andb_true_iff _]%andb_true_iff]. split; [done|]. split; [done|]. intros A. by eapply denied_scope.
Qed.

(** [badge_counts_the_list]: the number beside the list of active notifications is never
    less than the number of unread rows listed, and is exactly that when the list is not cut at its limit. *)
Theorem badge_counts_the_list now uid role s view limit w w' rows k : answer_of now uid role (GetInbox s view limit) w = (w', Inbox rows k) ->
  normalize_notification_view view = Ok "active" ->
  Z.of_nat (length (List.filter unread rows)) <= k /\ (Z.of_nat (length rows) < limit -> k = Z.of_nat (length (List.filter unread rows))).
Proof.
  intros E V. apply inbox_rows in E as (c & C & _ & _ & L & _ & -> & ->). rewrite V in C. apply ok_inj in C as <-. cbn [String.eqb Ascii.eqb Bool.eqb].
  set (seen := List.filter _ (notes w')). assert (List.filter (counts uid s) (notes w') = List.filter unread seen) as ->.
  { unfold seen. rewrite filter_both. apply filter_ext. intros n. unfold counts, in_view. cbn. by rewrite <-!andb_assoc. }
  rewrite <-(length_filter_sort unread created_at seen). split.
  - rewrite <-(firstn_skipn (Z.to_nat limit) (sort_desc created_at seen)) at 2. rewrite List.filter_app, length_app. lia.
  - intros H. rewrite length_firstn in H. rewrite (firstn_all2 (sort_desc created_at seen)) by lia. done.
Qed.

(** ** The purge *)

Lemma stale_later now now' n : MIN_US <= now - NOTIFICATION_CLEARED_RETENTION_HOURS * HOUR_US -> now <= now' <= MAX_US ->
  stale (_cleared_retention_cutoff_str now None) n = true ->
  is_open n = false /\ forall canonical, in_view canonical (_cleared_retention_cutoff_str now' None) n = false.
Proof.
  unfold stale, in_view, is_open. intros B L. destruct (dismissed_at n) as [d|]; [|done]. intros S. split; [done|]. intros c. destruct (String.eqb c "cleared"); [|done].
  apply negb_false_iff. unfold _cleared_retention_cutoff_str in *. set (r := NOTIFICATION_CLEARED_RETENTION_HOURS * HOUR_US) in *.
  assert (0 < r) by done. pose proof (strftime_compare (now - r) (now' - r) ltac:(lia) ltac:(lia)) as E.
  pose proof (Z.div_le_mono (now - r) (now' - r) 1000000 ltac:(lia) ltac:(lia)). destruct (Z.compare_spec ((now - r) / 1000000) ((now' - r) / 1000000)); [| |lia].
  - apply String.compare_eq_iff in E. by rewrite <-E.
  - eapply ltb_trans; [exact S|]. unfold String.ltb. by rewrite E.
Qed.

Lemma purge_then_filter (p : note -> bool) (d g : note -> bool) (f : note -> note) (l : list note) :
  (forall n, g n = true -> d n = false /\ p n = false) ->
  List.filter p (map (fun n => if d n then f n else n) (List.filter (fun n => negb (g n)) l)) = List.filter p (map (fun n => if d n then f n else n) l).
Proof.
  intros G. induction l as [|n l IH]; [done|]. cbn [List.filter map]. destruct (g n) eqn:E; cbn [negb].
  - destruct (G n E) as [-> ->]. done.
  - cbn [map List.filter]. by rewrite IH.
Qed.

(** A request that asks and changes nothing of its user's. *)
Definition reads (q : request) : bool := match q with GetInbox _ _ _ | GetUnread _ => true | _ => false end.

(** [the_purge_goes_unseen]: deleting the notifications dismissed more than 24 hours before changes
    no list and no unread count that any user asks for at that time or later. *)
Theorem the_purge_goes_unseen now now' uid role q w :
  MIN_US <= now - NOTIFICATION_CLEARED_RETENTION_HOURS * HOUR_US -> now <= now' <= MAX_US ->
  reads q = true ->
  snd (answer_of now' uid role q (fst (purge_cleared_notifications now None w))) = snd (answer_of now' uid role q w).
Proof.
  intros B L R. set (wp := fst (purge_cleared_notifications now None w)).
  assert (V : forall s p, (forall n, is_open n = false -> p n = true -> exists c, in_view c (_cleared_retention_cutoff_str now' None) n = true) ->
    List.filter p (notes (reconciled json_loads now' s wp)) = List.filter p (notes (reconciled json_loads now' s w))).
  { intros s p P. assert (G : forall n, stale (_cleared_retention_cutoff_str now None) n = true -> p n = false).
    { intros n S. destruct (stale_later now now' n B L S) as [O I]. apply not_true_is_false. intros T. destruct (P n O T) as [c C]. by rewrite I in C. }
    unfold reconciled. destruct (_scope_includes_operator s).
    - destruct (reconcile_frame now' wp) as (_ & _ & _ & _ & _ & ->), (reconcile_frame now' w) as (_ & _ & _ & _ & _ & ->). unfold reconcile_rows. apply purge_then_filter.
      intros n S. split; [|by apply G]. apply existsb_false. intros j _. unfold open_job_error. destruct (stale_later now now' n B L S) as [-> _]. by rewrite !andb_false_r.
    - cbn. rewrite filter_both. apply filter_ext_in. intros n _. destruct (stale _ n) eqn:S; [cbn; symmetry; by apply G|done]. }
  assert (C : forall s, length (List.filter (counts uid s) (notes (reconciled json_loads now' s wp))) = length (List.filter (counts uid s) (notes (reconciled json_loads now' s w)))).
  { intros s. rewrite V; [done|]. intros n O. unfold counts. by rewrite O, andb_false_r. }
  destruct q as [s view limit|s|s|nid|nid|nid|s]; cbn [serve]; try done.
  - destruct (negb _); [done|]. destruct (negb _); [done|]. destruct (denied s role); [done|]. unfold list_notifications, count_unread. cbv beta iota zeta.
    destruct (normalize_notification_view view) as [c|]; cbn [res_bind]; [|done]. cbn [snd]. rewrite !reconciled_twice, C, V; [done|]. intros n _ H. exists c. by apply andb_true_iff in H as [_ H].
  - destruct (negb _); [done|]. destruct (denied s role); [done|]. unfold count_unread. cbn [snd]. by rewrite C.
Qed.

(** ** Job alerts *)

Lemma emit_reaches now sc c sv t b et ei key uid : forall ids w k,
  In uid ids -> existsb (fun u => user_id u =? uid) (accounts w) = true -> muted py_str json_loads zone_exists c uid w = false ->
  let w' := fst (fold_left (emit_one py_str json_loads zone_exists now sc c sv t b et ei key) ids (w, k)) in
  existsb (fun n => (n_user n =? uid) && String.eqb (dedupe_key n) key) (notes w) = true \/
  exists nid, In (mkNote nid uid sc c sv t b et ei key (strftime now) None None) (notes w').
Proof.
  induction ids as [|i ids IH]; intros w k; [done|]. intros I A M. cbn [fold_left].
  destruct (existsb (fun n => (n_user n =? uid) && String.eqb (dedupe_key n) key) (notes w)) eqn:K; [by left|]. right.
  pose proof (emit_one_cases now sc c sv t b et ei key w k i) as H. destruct (emit_one _ _ _ _ _ _ _ _ _ _ _ _ (w, k) i) as [w1 k1] eqn:E1.
  assert (F : forall l w0 k0 x, In x (notes w0) -> In x (notes (fst (fold_left (emit_one py_str json_loads zone_exists now sc c sv t b et ei key) l (w0, k0))))).
  { intros l w0 k0 x Ix. apply (fold_left_inv (fun wk => In x (notes (fst wk)))); [|done]. intros [w2 k2] j _ I2. pose proof (emit_one_cases now sc c sv t b et ei key w2 k2 j) as H2.
    destruct (emit_one _ _ _ _ _ _ _ _ _ _ _ _ _ j) as [w3 k3]. cbn [fst] in *. destruct H2 as [[-> _]|(_ & _ & H2)]; [done|].
    apply insert_ok in H2 as [(_ & -> & _) _]. apply in_app_iff. by left. }
  destruct (i =? uid) eqn:Q.
  - apply Z.eqb_eq in Q as ->. unfold emit_one in E1. rewrite M in E1. unfold insert_notification in E1. rewrite K, A in E1. cbn [negb] in E1. injection E1 as <- <-.
    eexists. apply F. cbn [notes]. apply in_app_iff. right. by left.
  - assert (In uid ids) as I' by (destruct I as [->|I]; [by rewrite Z.eqb_refl in Q|done]).
    assert (N : existsb (fun n => (n_user n =? uid) && String.eqb (dedupe_key n) key) (notes w1) = false /\ accounts w1 = accounts w /\ muted py_str json_loads zone_exists c uid w1 = false).
    { destruct H as [[-> _]|(_ & _ & H)]; [done|]. apply insert_ok in H as [(_ & -> & _) (-> & S1 & S2 & _)]. unfold muted in *. rewrite S1, S2, existsb_app, K. cbn. by rewrite Q. }
    destruct N as (N & N2 & N3). destruct (IH w1 k1 I') as [C|C]; [by rewrite N2|done|congruence|done].
Qed.

(** Whether one of the four attempts is committed. *)
Definition saved (outcomes : list saving) : Prop := exists before after, (length before < 4)%nat /\ Forall (eq Locked) before /\ (after = [] \/ exists rest, after = Saved :: rest) /\ outcomes = (before ++ after)%list.

Lemma saved_run outcomes told r w : saved outcomes ->
  write_run outcomes told r w = announce py_str json_loads zone_exists told r (save_run json_loads json_dumps r w).
Proof.
  intros (l & after & L & F & A & ->). unfold _write_job_last_run. revert L F. generalize 4%nat. intros n. revert l. induction n as [|n IH]; intros l L F; [lia|].
  destruct l as [|x l]; cbn [app attempt_save]; [by destruct A as [->|(rest & ->)]|]. inversion F; subst. apply IH; [cbn in L; lia|done].
Qed.

(** C38 [a_failed_job_reaches_the_admins]: once the record of a failed run is saved, within four attempts, and its
    alert committed, every active administrator who has not muted job errors has a row
    for that run: a new, open, unread one unless a row for it was there before. *)
Theorem a_failed_job_reaches_the_admins outcomes r w u : saved outcomes -> r_had_error r = true ->
  In u (accounts w) -> is_active u = true -> AuthDb.role u = "admin" -> muted py_str json_loads zone_exists "job_error" (user_id u) w = false ->
  let w' := write_run outcomes true r w in
  In (user_id u, run_key r) (map who (notes w)) \/
  exists n, In n (notes w') /\ who n = (user_id u, run_key r) /\ is_open n = true /\ unread n = true /\ scope n = SCOPE_OPERATOR /\ category n = "job_error" /\ entity_id n = r_job r.
Proof.
  intros S E I A R M. cbv zeta. rewrite saved_run by done. unfold announce. rewrite E. cbn [negb].
  destruct (emit_reaches (r_now r) SCOPE_OPERATOR "job_error" "critical" ("Job failed: " +:+ r_job r) (utake 500 (or_text (r_error r) "Scheduler job reported an error."))
    "job" (r_job r) (run_key r) (user_id u) (list_active_user_ids SCOPE_OPERATOR (save_run json_loads json_dumps r w)) (save_run json_loads json_dumps r w) 0) as [K|(nid & K)].
  - unfold list_active_user_ids. apply in_map, filter_In. cbn [accounts save_run]. rewrite A, R. done.
  - apply existsb_exists. exists u. by rewrite Z.eqb_refl.
  - done.
  - left. by apply who_exists.
  - right. eexists. split; [exact K|]. done.
Qed.

Lemma job_of_last_run job : job <> "" -> job_of_key (last_run_key job) = Some job.
Proof.
  intros N. unfold job_of_key, last_run_key. rewrite lower_app. change (lower LAST_RUN_PREFIX) with LAST_RUN_PREFIX.
  assert (forall s, like "%" s = true) as P by (by induction s).
  assert (like "scheduler.last_run.%" (LAST_RUN_PREFIX +:+ lower job) = true) as -> by (exact (P (lower job))).
  unfold startswith. rewrite prefix_app, sdrop_app. by destruct job.
Qed.

Lemma in_dset {A} (d : list (string * A)) k v : In (k, v) (dset d k v).
Proof.
  induction d as [|[k' v'] d IH]; cbn [dset]; [by left|]. destruct (String.eqb k' k); [by left|by right].
Qed.

Lemma announce_sync told r w : sync_state (announce py_str json_loads zone_exists told r w) = sync_state w.
Proof.
  unfold announce. destruct (negb told); [done|]. destruct (r_had_error r); [|unfold dismiss_job_error_notifications; by destruct (negb _)].
  apply (emit_frame (r_now r) SCOPE_OPERATOR (list_active_user_ids SCOPE_OPERATOR w) "job_error" "critical" ("Job failed: " +:+ r_job r)
    (utake 500 (or_text (r_error r) "Scheduler job reported an error.")) "job" (r_job r) (run_key r) w).
Qed.

(** The record of a job once a run is added to it. *)
Definition last_runs (r : job_run) (w : world) : pyval := PList (firstn 5 (run_entry r :: run_history json_loads (assoc (last_run_key (r_job r)) (sync_state w)))).

(** [a_recovered_job_is_cleared]: once a successful run of a job is recorded, even if the transaction
    that dismisses its alerts is lost, the next list or count an administrator asks for in the
    operator scope leaves no alert of that job open, for any user. *)
Theorem a_recovered_job_is_cleared outcomes told r w now uid q :
  json_loads (json_dumps (last_runs r w)) = Some (last_runs r w) -> json_dumps (last_runs r w) <> "" ->
  saved outcomes -> r_had_error r = false -> strip (r_job r) <> "" -> q = GetUnread SCOPE_OPERATOR \/ q = GetInbox SCOPE_OPERATOR "inbox" 30 ->
  Forall (fun n => open_job_error (strip (r_job r)) n = false) (notes (fst (answer_of now uid "admin" q (write_run outcomes told r w)))).
Proof.
  intros J D S E N Q. rewrite saved_run by done. set (w1 := announce _ _ _ told r _).
  assert (In (r_job r) (recovered_jobs w1)) as I.
  { unfold recovered_job_ids_from_last_run. apply in_flat_map. unfold w1. rewrite announce_sync. cbn [save_run sync_state].
    eexists. split; [apply in_dset|]. cbn [fst snd]. rewrite job_of_last_run by (intros H; apply N; by rewrite H).
    unfold _latest_scheduler_run. change (PList (firstn 5 _)) with (last_runs r w). rewrite J.
    destruct (json_dumps _); [done|]. cbn [nonempty negb last_runs firstn run_entry]. unfold recovered. cbn. rewrite E. by left. }
  assert (notes (fst (answer_of now uid "admin" q w1)) = notes (reconciled json_loads now SCOPE_OPERATOR w1)) as ->.
  { destruct Q as [-> | ->]; [done|]. unfold serve, list_notifications, count_unread. change (normalize_notification_view "inbox") with (Ok "active").
    apply reconciled_twice. }
  unfold reconciled. cbn. destruct (reconcile_frame now w1) as (_ & _ & _ & _ & _ & ->). apply List.Forall_forall. intros m (n & <- & _)%in_map_iff.
  destruct (existsb _ _) eqn:X; [apply dismissed_not_open|]. pose proof (proj1 (existsb_false _ _) X _ I) as Y. cbv beta in Y. apply andb_false_iff in Y as [Y|Y]; [by destruct (strip (r_job r))|done].
Qed.

Lemma emit_nothing_new now sc c sv t b et ei key w ids : (forall i, In i ids -> In (i, key) (map who (notes w))) -> emit now sc ids c sv t b et ei key w = (w, 0).
Proof.
  intros K. unfold _emit_to_users. generalize 0. induction ids as [|i ids IH]; intros k; [done|]. cbn [fold_left].
  assert (emit_one py_str json_loads zone_exists now sc c sv t b et ei key (w, k) i = (w, k)) as ->; [|apply IH; intros j J; apply K; by right].
  unfold emit_one. destruct (muted _ _ _ c i w); [done|]. unfold insert_notification. assert (In (i, key) (map who (notes w))) as I by (apply K; by left).
  apply who_exists in I. by rewrite I.
Qed.

(** Finding: the key of a webhook failure holds no date, and a row that is read but not dismissed is
    never purged: every later failure of the destination with the same error, its numbers
    apart, is not announced to whoever read the first one and left it. *)
Lemma read_alert_silences_the_next now dest label error event_type w :
  let key := webhook_key dest (or_text (match Config.mask_webhook_delivery_error (Some error) with Some s => s | None => "" end) "Delivery failed") in
  (forall i, In i (list_active_user_ids SCOPE_OPERATOR w) -> In (i, key) (map who (notes w))) ->
  emit_webhook_failure_notification py_str json_loads zone_exists now dest label error event_type None w = (w, 0).
Proof. intros key K. unfold emit_webhook_failure_notification. by apply emit_nothing_new. Qed.

Lemma read_rows_are_kept now hours w n : In n (notes w) -> is_open n = true -> In n (notes (fst (purge_cleared_notifications now hours w))).
Proof. intros I O. cbn. apply filter_In. split; [done|]. unfold stale, is_open in *. by destruct (dismissed_at n). Qed.

End facts.

(** ** Witnesses *)

Definition dumb (_ : pyval) : string := "".
Definition no_json (_ : string) : option pyval := None.
Definition a_user (i : Z) (r : string) : user := mkUser i "ann" "" r true None.
Definition july : Z := 1784548800000000.
Definition a_note (i uid : Z) (s key : string) (d : option string) : note := mkNote i uid s "watchlist" "high" "CVE-2026-1" "" "cve" "CVE-2026-1" key "2026-07-20 10:00:00" None d.
Definition desk : world := mkWorld [a_user 1 "admin"; a_user 2 "analyst"] [] []
  [a_note 1 1 "analyst" "a" None; a_note 2 2 "analyst" "b" None; a_note 3 2 "operator" "c" None; a_note 4 2 "analyst" "d" (Some "2026-07-18 10:00:00")] 5 [].
Definition feed_run (failed : bool) : job_run := mkRun "kev_sync" july (july + 1000000) 0 failed "timeout" "run-1".

Lemma a_request_stays_with_its_user_witness : exists w' a, serve no_json july 2 "analyst" (GetInbox "analyst" "active" 30) desk = (w', a) /\
  (exists rows k, a = Inbox rows k /\ map n_id rows = [2] /\ Forall (fun n => In n (notes w') /\ n_user n = 2 /\ ("analyst" <> "admin" -> scope n = SCOPE_ANALYST)) rows).
Proof.
  eexists _, _. split; [reflexivity|]. eexists _, _. split; [reflexivity|]. split; [reflexivity|].
  apply (a_request_stays_with_its_user no_json july 2 "analyst" (GetInbox "analyst" "active" 30) desk _ _ eq_refl).
Defined.

Lemma badge_counts_the_list_witness : exists w' rows k, serve no_json july 2 "analyst" (GetInbox "analyst" "inbox" 30) desk = (w', Inbox rows k) /\
  k = 1 /\ k = Z.of_nat (length (List.filter unread rows)).
Proof.
  eexists _, _, _. split; [reflexivity|]. split; [reflexivity|].
  apply (badge_counts_the_list no_json july 2 "analyst" "analyst" "inbox" 30 desk _ _ _ eq_refl eq_refl). reflexivity.
Defined.

Lemma the_purge_goes_unseen_witness :
  length (notes (fst (purge_cleared_notifications july None desk))) = 3%nat /\
  snd (serve no_json july 2 "analyst" (GetInbox "analyst" "done" 30) (fst (purge_cleared_notifications july None desk))) =
  snd (serve no_json july 2 "analyst" (GetInbox "analyst" "done" 30) desk).
Proof. split; [vm_compute; reflexivity|]. apply the_purge_goes_unseen; [by vm_compute|by vm_compute|reflexivity]. Defined.

Lemma a_failed_job_reaches_the_admins_witness :
  exists n, In n (notes (_write_job_last_run dumb no_json dumb (fun _ => true) [Locked; Saved] true (feed_run true) desk)) /\ n_user n = 1 /\ is_open n = true.
Proof.
  destruct (a_failed_job_reaches_the_admins dumb no_json dumb (fun _ => true) [Locked; Saved] (feed_run true) desk (a_user 1 "admin")) as [I|(n & I & W & O & _)].
  - exists [Locked], [Saved]. split; [cbn; lia|]. split; [repeat constructor|]. split; [right; by exists []|done].
  - reflexivity.
  - by left.
  - reflexivity.
  - reflexivity.
  - vm_compute. reflexivity.
  - exfalso. vm_compute in I. intuition discriminate.
  - exists n. split; [exact I|]. split; [by injection W|exact O].
Defined.

(** A store that knows one document, the record of one good run. *)
Definition one_doc (d : pyval) (s : string) : option pyval := if String.eqb s "runs" then Some d else None.
Definition alerted : world := mkWorld [a_user 1 "admin"] [] []
  [mkNote 1 1 "operator" "job_error" "critical" "Job failed: kev_sync" "timeout" "job" "kev_sync" "job:kev_sync:a" "2026-07-20 10:00:00" None None] 2 [].
Definition good_runs : pyval := PList [run_entry (feed_run false)].

Lemma a_recovered_job_is_cleared_witness :
  Forall (fun n => open_job_error "kev_sync" n = false)
    (notes (fst (serve (one_doc good_runs) july 1 "admin" (GetUnread "operator")
       (_write_job_last_run dumb (one_doc good_runs) (fun _ => "runs") (fun _ => true) [] false (feed_run false) alerted)))).
Proof.
  apply (a_recovered_job_is_cleared dumb (one_doc good_runs) (fun _ => "runs") (fun _ => true) [] false (feed_run false)).
  - reflexivity.
  - discriminate.
  - exists [], []. split; [cbn; lia|]. split; [constructor|]. split; [by left|done].
  - reflexivity.
  - discriminate.
  - by left.
Defined.
